(* ===== verification/_CoqProject ===== *)
-Q . S2P
Prelude.v
Bits.v
Ctype.v
Mktime.v
State.v
Sched.v
SchedFacts.v
StarvationFacts.v
WaitFacts.v
Memory.v
MemoryFacts.v
Malloc.v
MallocFacts.v
MallocSpec.v
Segment.v
Request.v
Hd.v
Floppy.v
TimerFacts.v
LlRw.v
LlRwFacts.v
Buffer.v
BufferFacts.v
Bitmap.v
CacheFacts.v
BitmapFacts.v
Inode.v
Namei.v
Dirs.v
TtyQueue.v
TtyQueueFacts.v
Super.v
Open.v
Exit.v
Fork.v
Sys.v
SysFacts.v
Console.v
Tty.v
ConsoleFacts.v
TtyIoctl.v
ReadWrite.v
PipeFacts.v
WarmFacts.v
FileFacts.v
DirFacts.v
Exec.v
ExecFacts.v
SysCall.v
SysCallFacts.v
TtyIntr.v
TtyIntrFacts.v
KeybFacts.v
LineFacts.v
Traps.v
TrapsFacts.v
Boot.v
BootFacts.v
StringH.v
StringFacts.v
Vsprintf.v
VsprintfFacts.v
Printk.v
ScreenFacts.v
Zero.v
ZeroFacts.v
Build.v
Init.v
InitFacts.v
Types.v
TypesKernel.v
TypesSched.v
TypesBlock.v
TypesFs.v
TypesTty.v
TypesNames.v
TypesTask.v
TypesIo.v
TypesCall.v
TypesBoot.v
