(* ===== verification/Prelude.v ===== *)
(** * oldlinux: a verification library for the Linux 0.11 kernel in C++ (root file)

    The repository holds the Linux 0.11 kernel, translated to C++ under
    src/linux/ (the paths below are relative to it).  This library models the
    kernel in Rocq, function by function, and proves what its parts promise.

    ** The program and the files that model it

    A file [X.v] holds the data and the operations of a component, a file
    [XFacts.v] the theorems about it.  Definitions keep the names of the source.

    - [Prelude.v]: machine integers, bytes of a block, the state monad [M] with
      its outcomes, loops, postconditions and guarantees.  [Bits.v]: bits of words.
    - [State.v] (include/): the structures of the headers as records, the
      constants, and [kst], the whole state of the kernel, one field per directory;
      access to the tables, to I/O ports and to the user segment; the wait queues.
    - [Mktime.v] (kernel/mktime.cc, [time_init] of init/main.cc): the clock at start-up.
    - [Sched.v] (kernel/sched.cc): [schedule], [sleep_on], [wake_up], timers,
      floppy motors, [do_timer]; facts in [SchedFacts.v], [StarvationFacts.v],
      [WaitFacts.v], [TimerFacts.v].
    - [Memory.v] (mm/memory.cc): the use counts of pages, page tables, copy on
      write; [Malloc.v] (lib/malloc.cc): the kernel allocator in words of memory,
      its invariant in [MallocFacts.v] and its contract in [MallocSpec.v].
    - [Segment.v] (include/linux/sched.h): bytes of segment descriptors, and that they are read back.
    - [Request.v], [Hd.v], [Floppy.v], [LlRw.v] (kernel/blk_drv/): block requests,
      the ram disk, the two disk drivers as state machines over their interrupts,
      the elevator.
    - [Buffer.v], [Bitmap.v], [Inode.v] (fs/buffer.cc, bitmap.cc, inode.cc,
      truncate.cc): the buffer cache, the bit maps, inodes.  The functions of
      buffer.cc and inode.cc call each other in a circle; [Buffer.v] defines them
      with [sync_inodes] as a parameter and [Bitmap.v] closes the circle with fuel.
    - [Namei.v], [Dirs.v], [Super.v], [Open.v], [ReadWrite.v], [Exec.v] (the rest of
      fs/): paths, directories, mounting, descriptors, reading and writing of
      files, devices and pipes, [execve].  [WarmFacts.v] runs [bread], [brelse] and
      [bmap] on blocks that are in the cache; on it rest [FileFacts.v] and [DirFacts.v],
      files as bytes and directories as entries; [PipeFacts.v] has pipes, [ExecFacts.v] the
      arguments of a new program.
    - [TtyQueue.v], [Console.v], [Tty.v], [TtyIoctl.v] (kernel/chr_drv/): the
      character queues, the VT100 console, the line discipline, [ioctl]; [TtyIntr.v]
      (keyb.cc, keyboard.S, rs_io.s) the keyboard and serial interrupts, facts in
      [TtyIntrFacts.v], [KeybFacts.v] and [LineFacts.v].
    - [Exit.v], [Fork.v], [Sys.v] (kernel/exit.cc, fork.cc, signal.cc, sys.cc, the
      page faults of mm/memory.cc): the life of a task, signals, identities.
    - [SysCall.v] (kernel/system_call.cc, mm/page.cc, include/unistd.h): the way in
      and out of the kernel; [Traps.v] (kernel/traps.cc, asm.cc): the exceptions
      and the interrupt table; [Boot.v] (init/main.cc): [kmain].
    - [StringH.v] (include/string.h), [Vsprintf.v] (kernel/vsprintf.cc) and
      [Ctype.v] (include/ctype.h, lib/ctype.cc).  [Printk.v] (kernel/printk.cc, panic.cc): messages
      from the format to the terminal; [ScreenFacts.v] follows what is written to the console
      up to the cells of the screen.
    - [Init.v] (init/main.cc, lib/): task 0's user side, the init process and the user
      library as interaction trees over user-level events; [InitFacts.v] proves that
      they follow a supervisor automaton.
    - [Types.v] says what a well-typed kernel state is; [TypesKernel.v] holds the tactic
      that checks an operation, [TypesSched.v], [TypesBlock.v], [TypesFs.v],
      [TypesTty.v], [TypesNames.v], [TypesTask.v], [TypesIo.v] and [TypesCall.v] check
      all operations, one lemma [ty_f] for each function [f], and [TypesBoot.v] the
      start and all reachable states.
    - Beside the kernel: [Build.v] (tools/build.cc), the host program that makes the
      disk image, with a monad over its file and output; [Zero.v]
      (src/linux-0.00-050613/linux-0.00-rh9/), a small kernel with a state of its own.

    ** How state and operations correspond to the code

    An operation is a function of the monad [K = M kst]: from a kernel state to an
    outcome, which is [Ret] (it returned), [Panic] ([panic] was called), [Fault]
    (a NULL pointer or an index outside its table was used) or [Spin] (the fuel of
    a loop was used up).  A statement of the source is a statement of the monad, in
    the same order.  A pointer into a static table is an index, a pointer that may
    be NULL an [option]; a task is known by the address of its [task_struct].  An
    integer is a [Z] and wraps where the source assigns it: [s32], [u32], [u16], [u8].

    The world outside the code is the class [Env] of [State.v]: [env_resume] is
    whatever other tasks and interrupts do while a task sleeps (it is applied where
    [schedule] gives the processor away), [env_in] what ports read, [env_call] what
    a timer's function does.  Nothing is assumed of it except where a theorem says so.
    The functions that the program gives to [add_timer] are those of the floppy driver;
    [TimerFacts.floppy_env] is a world that calls them, and C27 shows what they do to the timers.

    ** Fuel and bounds

    [env_fuel] bounds the rounds of loops that wait for somebody else and the depth
    of the circle through [sync_inodes]; theorems that need some of it say how
    much.  All other loops have a bound computed from the state: [schedule] two
    rounds (C2), the timer list 65 (C27), the search for a process number 66 (C29), a
    hash chain one more than there are buffers (C4), the request queue 33.  The
    string and format functions take the number of characters they may inspect as
    an argument; their theorems ask for the length of the string plus one.  The loops of
    [malloc] and [free_s] take a bound on the length of a chain, one more than there are
    buckets; those of the build tool a bound on the blocks of a file.

    ** What the theorems show

    - The whole kernel: C1 tables and pointers keep their types, from the start
      through every entry.
    - Time and scheduling: C2 the choice of [schedule]; C11 no starvation; C5 no lost
      wake-up; C26 and C27 timers expire when they should; C39 the clock.
    - Memory: C15 pages are handed out once and cleared; C6 fork's page tables and
      their release; C10 copy on write; C35 the layout of memory; C24 and
      C25 the allocator: which lengths it serves, objects are handed out once, pages come back.
    - Block devices and cache: C17 the elevator; C4 one buffer per block whatever
      happens while [getblk] sleeps; C16 the queues implement lists, and where the
      code stores through NULL.
    - File system: C3 a file is an array of bytes; C12 a directory is a list of entries;
      C7 pipes are streams of bytes; C18 and C19 allocation of blocks, and that
      freeing undoes it; C33 inodes
      on disk; C34 bit maps.
    - Tasks and system calls: C8 a new program finds its arguments; C9 signal delivery;
      C28 identities; C29 process numbers; C30 descriptors; C31 results of system
      calls; C36 the interrupt table.
    - Terminals: C13 the line discipline of a serial terminal is a line editor; C14 what is written is on the screen; C20 the queues; C21 the
      interrupts of the terminals keep them; C22 the keyboard follows the keys; C23 the
      console stays inside the video memory.
    - Library: C37 and C38 formatted output; [StringFacts.v] the string functions.
    - The first user program: C32 init supervises its shells.
    - Beside the kernel: C40 the disk image; [ZeroFacts.v] also proves paging, the screen
      and the number conversion of the small kernel.

    Every theorem with hypotheses has a witness, named [<theorem>_witness], that
    applies it to a concrete state.

    ** Not modelled, and why

    User memory is a map of bytes apart from physical memory, so that [verify_area]
    changes page tables but not what [put_fs_byte] writes.  The translation cache,
    [cli] and [sti] have no effect on this state; an interrupt happens only where a
    task sleeps.  The coprocessor's registers, the pushes and pops of the assembly
    stubs and padding bytes are left out.  Where [printk] is called
    it logs its format and its numbers, without strings, and [panic] ends the run, because
    the terminal is built on what calls them; what they do is in [Printk.v].
    Of the keyboard only the tables of [KBD_US] are modelled; the variables of keyboard.S
    are passed along beside the kernel's state.  The boot sector and the set-up code are
    not modelled.  Of the small kernel the assembly in [fork] is a parameter.

    ** Plan

    What would come next: walking a path through [iget] and mounted file systems, writes that
    allocate blocks, and the pages of a new program mapped by [put_page]. *)

From Stdlib Require Export ZArith Lia.
From stdpp Require Export base tactics numbers list gmap strings.
#[export] Set Default Goal Selector "!".
Open Scope Z_scope.
Open Scope general_if_scope.

(** ** Record fields

    [r <| f := v |>] is the record [r] with field [f] set to [v].  A record
    type opts in with one [Eta] instance that rebuilds it from its fields. *)

Class Eta (R : Type) := eta : R -> R.
Class Field {R T : Type} (p : R -> T) := upd_field : (T -> T) -> R -> R.
Definition upd {R T : Type} (p : R -> T) {F : Field p} : (T -> T) -> R -> R := F.

Ltac solve_field :=
  match goal with
  | |- @Field ?R ?T ?p =>
      let inst := constr:(_ : Eta R) in
      let g := fresh "g" in
      let r := fresh "r" in
      refine (fun (g : T -> T) (r : R) => _);
      let t := eval unfold eta in (@eta R inst) in
      let t := eval hnf in t in
      let t := eval cbv beta in (t r) in
      let t := eval pattern (p r) in t in
      match t with
      | ?h _ => let u := eval cbv beta in (h (g (p r))) in exact u
      end
  end.
#[export] Hint Extern 1 (Field _) => solve_field : typeclass_instances.

Declare Scope record_scope.
Notation "r <| f := v |>" := (upd f (fun _ => v) r)
  (at level 1, f at next level, left associativity) : record_scope.
Notation "r <| f ::= g |>" := (upd f g r)
  (at level 1, f at next level, left associativity) : record_scope.
Open Scope record_scope.

(** ** Machine integers: the wrap-around of the C types of the i386 *)

Definition u8 (x : Z) : Z := x mod 2 ^ 8.
Definition u16 (x : Z) : Z := x mod 2 ^ 16.
Definition u32 (x : Z) : Z := x mod 2 ^ 32.
Definition s8 (x : Z) : Z := (x + 2 ^ 7) mod 2 ^ 8 - 2 ^ 7.
Definition s16 (x : Z) : Z := (x + 2 ^ 15) mod 2 ^ 16 - 2 ^ 15.
Definition s32 (x : Z) : Z := (x + 2 ^ 31) mod 2 ^ 32 - 2 ^ 31.

(** truth value of a C integer *)
Definition nz (x : Z) : bool := negb (x =? 0).
Definition b2z (b : bool) : Z := if b then 1 else 0.

(** the bit [1 << n] as a 32-bit word and its complement [~(1 << n)] *)
Definition bit (n : Z) : Z := u32 (Z.shiftl 1 n).
Definition not32 (x : Z) : Z := Z.lxor x (2 ^ 32 - 1).

Lemma u8_range x : 0 <= u8 x < 2 ^ 8.
Proof. apply Z.mod_pos_bound; lia. Qed.
Lemma u16_range x : 0 <= u16 x < 2 ^ 16.
Proof. apply Z.mod_pos_bound; lia. Qed.
Lemma u32_range x : 0 <= u32 x < 2 ^ 32.
Proof. apply Z.mod_pos_bound; lia. Qed.
Lemma u8_id x : 0 <= x < 2 ^ 8 -> u8 x = x.
Proof. apply Z.mod_small. Qed.
Lemma u16_id x : 0 <= x < 2 ^ 16 -> u16 x = x.
Proof. apply Z.mod_small. Qed.
Lemma u32_id x : 0 <= x < 2 ^ 32 -> u32 x = x.
Proof. apply Z.mod_small. Qed.
Lemma s32_range x : - 2 ^ 31 <= s32 x < 2 ^ 31.
Proof. unfold s32. pose proof (Z.mod_pos_bound (x + 2 ^ 31) (2 ^ 32)). lia. Qed.
Lemma s32_id x : - 2 ^ 31 <= x < 2 ^ 31 -> s32 x = x.
Proof. intros. unfold s32. rewrite Z.mod_small; lia. Qed.
Lemma s32_add_l x y : s32 (s32 x + y) = s32 (x + y).
Proof.
  unfold s32. f_equal.
  replace ((x + 2 ^ 31) mod 2 ^ 32 - 2 ^ 31 + y + 2 ^ 31)
    with ((x + 2 ^ 31) mod 2 ^ 32 + y) by lia.
  rewrite Zplus_mod_idemp_l. f_equal. lia.
Qed.
Lemma s32_sub_l x y : s32 (s32 x - y) = s32 (x - y).
Proof. rewrite <- !Z.add_opp_r. apply s32_add_l. Qed.
Lemma s32_idemp x : s32 (s32 x) = s32 x.
Proof. apply s32_id, s32_range. Qed.

(** a chain of wrapped additions wraps once *)
Ltac wrap_once :=
  rewrite <- ?Z.add_opp_r;
  repeat first [ rewrite s32_add_l | rewrite s32_idemp | rewrite <- Z.add_assoc ].

Lemma nz_true x : nz x = true <-> x <> 0.
Proof. unfold nz. destruct (Z.eqb_spec x 0); naive_solver. Qed.
Lemma nz_false x : nz x = false <-> x = 0.
Proof. unfold nz. destruct (Z.eqb_spec x 0); naive_solver. Qed.

(** ** Bytes of a block: little-endian words in a list of bytes *)

Definition get8 (l : list Z) (i : nat) : Z := default 0 (l !! i).
Definition get16 (l : list Z) (i : nat) : Z := get8 l i + 2 ^ 8 * get8 l (i + 1).
Definition get32 (l : list Z) (i : nat) : Z := get16 l i + 2 ^ 16 * get16 l (i + 2).
Definition le16 (v : Z) : list Z := [u8 v; u8 (Z.shiftr v 8)].
Definition le32 (v : Z) : list Z := le16 v ++ le16 (Z.shiftr v 16).
Definition set16 (i : nat) (v : Z) (l : list Z) : list Z := list_inserts i (le16 v) l.

Lemma elem_of_mid {A} (x : A) l1 l2 : x ∈ l1 ++ x :: l2.
Proof. apply elem_of_app. right. apply list_elem_of_here. Qed.

(** ** Outcomes and the state monad of the kernel code

    [Ret]: the function returned.  [Panic]: [panic(msg)] was called; it never
    returns.  [Fault]: the code used a NULL pointer or an index outside its
    table.  [Spin]: a loop that waits for something used up its fuel. *)

Inductive out (S A : Type) : Type :=
| Ret (a : A) (s : S)
| Panic (msg : string) (s : S)
| Fault (s : S)
| Spin (s : S).
Arguments Ret {S A} a s.
Arguments Panic {S A} msg s.
Arguments Fault {S A} s.
Arguments Spin {S A} s.

Definition M (S A : Type) : Type := S -> out S A.

#[export] Instance M_ret S : MRet (M S) := fun A a s => Ret a s.
#[export] Instance M_bind S : MBind (M S) := fun A B k m s =>
  match m s with
  | Ret a s' => k a s'
  | Panic e s' => Panic e s'
  | Fault s' => Fault s'
  | Spin s' => Spin s'
  end.

Definition gets {S A} (f : S -> A) : M S A := fun s => Ret (f s) s.
Definition modify {S} (f : S -> S) : M S unit := fun s => Ret tt (f s).
Definition panic {S A} (msg : string) : M S A := fun s => Panic msg s.
Definition fault {S A} : M S A := fun s => Fault s.
Definition spin {S A} : M S A := fun s => Spin s.
Definition when {S} (b : bool) (m : M S unit) : M S unit := if b then m else mret tt.
Abbreviation unless b m := (when (negb b) m).

(** a value that must be there: a dereference *)
Definition deref {S A} (o : option A) : M S A :=
  match o with Some a => mret a | None => fault end.

(** [for (x in l) f(x)] *)
Fixpoint for_each {S A} (l : list A) (f : A -> M S unit) : M S unit :=
  match l with
  | [] => mret tt
  | x :: l => f x ;; for_each l f
  end.

(** [for (x in l)] with an early exit: the body returns [Some r] to leave *)
Fixpoint for_find {S A R} (l : list A) (f : A -> M S (option R)) : M S (option R) :=
  match l with
  | [] => mret None
  | x :: l => r ← f x; match r with Some y => mret (Some y) | None => for_find l f end
  end.

(** [for (x in l)] that carries an accumulator *)
Fixpoint for_fold {S A X} (l : list A) (x : X) (f : X -> A -> M S X) : M S X :=
  match l with
  | [] => mret x
  | a :: l => x' ← f x a; for_fold l x' f
  end.

(** a loop that carries [x]: the body returns [inl x'] to go round again and
    [inr r] to leave with [r]; [n] bounds the number of rounds *)
Fixpoint loop {S X R} (n : nat) (body : X -> M S (X + R)) (x : X) : M S R :=
  match n with
  | O => spin
  | Datatypes.S n => r ← body x; match r with inl x' => loop n body x' | inr y => mret y end
  end.

(** [while (c) m], with at most [n] rounds *)
Definition while {S} (n : nat) (c : M S bool) (m : M S unit) : M S unit :=
  loop n (fun _ : unit => b ← c; if b : bool then m ;; mret (inl tt) else mret (inr tt)) tt.

(** run [m], which works on a part of the state, on the whole state *)
Definition zoom {T S A} (get : T -> S) (put : S -> T -> T) (m : M S A) : M T A :=
  fun t => match m (get t) with
           | Ret a s => Ret a (put s t)
           | Panic e s => Panic e (put s t)
           | Fault s => Fault (put s t)
           | Spin s => Spin (put s t)
           end.

Definition state_of {S A} (o : out S A) : S :=
  match o with Ret _ s | Panic _ s | Fault s | Spin s => s end.
Definition value_of {S A} (o : out S A) : option A :=
  match o with Ret a _ => Some a | _ => None end.

(** evaluate the monadic plumbing of a goal *)
Ltac mrun :=
  cbn; repeat (progress cbv [mbind M_bind mret M_ret gets modify panic fault spin deref when zoom id]; cbn).

Lemma bind_Ret {S A B} (m : M S A) (k : A -> M S B) s a s' :
  m s = Ret a s' -> (m ≫= k) s = k a s'.
Proof. intros H. unfold mbind, M_bind. by rewrite H. Qed.
Lemma bind_assoc {S X Y Z} (m : M S X) (f : X -> M S Y) (g : Y -> M S Z) s :
  (m ≫= fun x => f x ≫= g) s = ((m ≫= f) ≫= g) s.
Proof. unfold mbind, M_bind. by destruct (m s). Qed.
(** run the first statement of a goal [(m ≫= k) s = o], by [H : m s = Ret a s'] *)
Ltac mstep H :=
  let H' := fresh in pose proof H as H'; etransitivity; [exact (bind_Ret _ _ _ _ _ H')|]; clear H'; cbv beta.
Lemma deref_run {S A} (o : option A) a (s : S) : o = Some a -> deref o s = Ret a s.
Proof. by intros ->. Qed.

Lemma bind_Panic {S A B} (m : M S A) (k : A -> M S B) s e s' :
  m s = Panic e s' -> (m ≫= k) s = Panic e s'.
Proof. intros H. unfold mbind, M_bind. by rewrite H. Qed.

Lemma bind_Ret_inv {S A B} (m : M S A) (k : A -> M S B) (s : S) b s' :
  (m ≫= k) s = Ret b s' -> exists a s1, m s = Ret a s1 /\ k a s1 = Ret b s'.
Proof. unfold mbind, M_bind. destruct (m s) as [a s1|e s1|s1|s1]; [eauto|done..]. Qed.
Lemma mret_Ret_inv {S A} (a b : A) (s s' : S) : (mret a : M S A) s = Ret b s' -> b = a /\ s' = s.
Proof. intros H. by injection H as <- <-. Qed.
Lemma gets_Ret_inv {S A} (f : S -> A) b (s s' : S) : gets f s = Ret b s' -> b = f s /\ s' = s.
Proof. intros H. by injection H as <- <-. Qed.
Lemma modify_Ret_inv {S} (f : S -> S) b (s s' : S) : modify f s = Ret b s' -> s' = f s.
Proof. intros H. by injection H as _ <-. Qed.
Lemma deref_Ret_inv {S A} (o : option A) b (s s' : S) : deref o s = Ret b s' -> o = Some b /\ s' = s.
Proof. destruct o; intros H; [by injection H as <- <-|done]. Qed.
Lemma when_Ret_inv {S} (b : bool) (m : M S unit) u (s s' : S) :
  when b m s = Ret u s' -> b = true /\ m s = Ret u s' \/ b = false /\ s' = s.
Proof. destruct b; cbn; [auto|]. intros [= _ <-]. auto. Qed.

(** invert an equation [m s = Ret a s'] one statement at a time *)
Ltac use_value H :=
  lazymatch type of H with
  | ?x = ?x => clear H
  | tt = _ => clear H
  | ?x = _ => try (is_var x; subst x)
  end.

Ltac minv_step H :=
  lazymatch type of H with
  | @mret _ _ _ _ _ = Ret _ _ => apply mret_Ret_inv in H as [H ->]; use_value H
  | gets _ _ = Ret _ _ => apply gets_Ret_inv in H as [H ->]; use_value H
  | modify _ _ = Ret _ _ => apply modify_Ret_inv in H as ->
  | deref _ _ = Ret _ _ => apply deref_Ret_inv in H as [H ->]
  | panic _ _ = Ret _ _ => discriminate H
  | fault _ = Ret _ _ => discriminate H
  | spin _ = Ret _ _ => discriminate H
  | (_ ≫= _) _ = Ret _ _ =>
      let a := fresh "a" in let s1 := fresh "s" in let H1 := fresh "Hrun" in
      apply bind_Ret_inv in H as (a & s1 & H1 & H);
      repeat match goal with H1 : _ _ = Ret a s1 |- _ => progress minv_step H1 end
  end.
Ltac minv H := repeat minv_step H.

Lemma loop_again {S X R} n (body : X -> M S (X + R)) x x' s s' :
  body x s = Ret (inl x') s' -> loop (Datatypes.S n) body x s = loop n body x' s'.
Proof. intros H. cbn [loop]. by rewrite (bind_Ret _ _ _ _ _ H). Qed.
Lemma loop_done {S X R} n (body : X -> M S (X + R)) x y s s' :
  body x s = Ret (inr y) s' -> loop (Datatypes.S n) body x s = Ret y s'.
Proof. intros H. cbn [loop]. by rewrite (bind_Ret _ _ _ _ _ H). Qed.

(** ** Postconditions

    [wp m Q E s]: from [s], [m] returns in a state that satisfies [Q], or ends
    abnormally in a state that satisfies [E].  [E := fun _ => False] is total
    correctness; an invariant that survives a panic is put in both. *)

Definition wp {S A} (m : M S A) (Q : A -> S -> Prop) (E : S -> Prop) (s : S) : Prop :=
  match m s with Ret a s' => Q a s' | Panic _ s' | Fault s' | Spin s' => E s' end.
Abbreviation total m Q s := (wp m Q (fun _ => False) s).

Section WpRules.
Context {S : Type} {A B : Type}.
Implicit Types (E : S -> Prop) (s : S).

Lemma wp_ret (a : A) Q E s : Q a s -> wp (mret a) Q E s.
Proof. exact id. Qed.
Lemma wp_bind (m : M S A) (k : A -> M S B) Q E s :
  wp m (fun a s' => wp (k a) Q E s') E s -> wp (m ≫= k) Q E s.
Proof. unfold wp, mbind, M_bind. destruct (m s); auto. Qed.
Lemma wp_gets (f : S -> A) Q E s : Q (f s) s -> wp (gets f) Q E s.
Proof. exact id. Qed.
Lemma wp_modify f (Q : unit -> S -> Prop) E s : Q tt (f s) -> wp (modify f) Q E s.
Proof. exact id. Qed.
Lemma wp_panic e (Q : A -> S -> Prop) E s : E s -> wp (panic e) Q E s.
Proof. exact id. Qed.
Lemma wp_fault (Q : A -> S -> Prop) E s : E s -> wp fault Q E s.
Proof. exact id. Qed.
Lemma wp_spin (Q : A -> S -> Prop) E s : E s -> wp spin Q E s.
Proof. exact id. Qed.
Lemma wp_when b m (Q : unit -> S -> Prop) E s :
  (b = true -> wp m Q E s) -> (b = false -> Q tt s) -> wp (when b m) Q E s.
Proof. destruct b; cbn; auto. Qed.
Lemma wp_deref (o : option A) Q E s :
  (forall a, o = Some a -> Q a s) -> (o = None -> E s) -> wp (deref o) Q E s.
Proof. destruct o; cbn; auto. Qed.
Lemma wp_mono (m : M S A) (Q Q' : A -> S -> Prop) (E E' : S -> Prop) s :
  wp m Q E s -> (forall a s', Q a s' -> Q' a s') -> (forall s', E s' -> E' s') ->
  wp m Q' E' s.
Proof. unfold wp. destruct (m s); auto. Qed.
End WpRules.

#[export] Instance wp_proper {S A} (m : M S A) :
  Proper (pointwise_relation A (pointwise_relation S iff) ==>
          pointwise_relation S iff ==> eq ==> iff) (wp m).
Proof.
  intros Q Q' HQ E E' HE s _ <-. unfold wp.
  destruct (m s); [apply HQ | apply HE..].
Qed.

(** ** Guarantees

    [guar R m]: whatever [m] does, also when it panics or faults, its final
    state is related to its initial state by the preorder [R].  Invariants and
    frame conditions are both preorders, and guarantees compose. *)

Definition guar {S A} (R : relation S) (m : M S A) : Prop :=
  forall s, R s (state_of (m s)).

(** the preorders used: an invariant is kept, a function of the state is kept *)
Definition keeps_inv {S} (I : S -> Prop) : relation S := fun s s' => I s -> I s'.
Definition same {S X} (f : S -> X) : relation S := fun s s' => f s' = f s.

#[export] Instance keeps_inv_preorder {S} (I : S -> Prop) : PreOrder (keeps_inv I).
Proof. split; unfold keeps_inv; repeat intro; auto. Qed.
#[export] Instance same_preorder {S X} (f : S -> X) : PreOrder (same f).
Proof. split; unfold same; repeat intro; congruence. Qed.

Create HintDb guar.

Section GuarRules.
Context {S : Type} (R : relation S) {PR : PreOrder R}.

Lemma guar_ret {A} (a : A) : guar R (mret a : M S A).
Proof. intros s. reflexivity. Qed.
Lemma guar_gets {A} (f : S -> A) : guar R (gets f).
Proof. intros s. reflexivity. Qed.
Lemma guar_panic {A} e : guar R (panic e : M S A).
Proof. intros s. reflexivity. Qed.
Lemma guar_fault {A} : guar R (fault : M S A).
Proof. intros s. reflexivity. Qed.
Lemma guar_spin {A} : guar R (spin : M S A).
Proof. intros s. reflexivity. Qed.
Lemma guar_deref {A} (o : option A) : guar R (deref o : M S A).
Proof. destruct o; intros s; reflexivity. Qed.
Lemma guar_bind {A B} (m : M S A) (k : A -> M S B) :
  guar R m -> (forall a, guar R (k a)) -> guar R (m ≫= k).
Proof.
  intros Hm Hk s. specialize (Hm s). unfold mbind, M_bind.
  destruct (m s) as [a s'|e s'|s'|s']; cbn in *; auto.
  specialize (Hk a s'). etransitivity; eauto.
Qed.
Lemma guar_when b m : guar R m -> guar R (when b m).
Proof. destruct b; cbn; auto using guar_ret. Qed.
Lemma guar_for_each {A} (l : list A) f :
  (forall x, guar R (f x)) -> guar R (for_each l f).
Proof. intros Hf. induction l; cbn; auto using guar_ret, guar_bind. Qed.
Lemma guar_for_find {A X} (l : list A) (f : A -> M S (option X)) :
  (forall x, guar R (f x)) -> guar R (for_find l f).
Proof.
  intros Hf. induction l; cbn; [apply guar_ret|].
  apply guar_bind; [auto|]. intros [y|]; auto using guar_ret.
Qed.
Lemma guar_for_fold {A X} (l : list A) (x : X) f :
  (forall x a, guar R (f x a)) -> guar R (for_fold l x f).
Proof. intros Hf. revert x. induction l; intros x; cbn; auto using guar_ret, guar_bind. Qed.
Lemma guar_loop {X Y} n (body : X -> M S (X + Y)) x :
  (forall x, guar R (body x)) -> guar R (loop n body x).
Proof.
  intros Hf. revert x. induction n; intros x; cbn; [apply guar_spin|].
  apply guar_bind; [auto|]. intros [y|y]; auto using guar_ret.
Qed.
Lemma guar_modify f : (forall s, R s (f s)) -> guar R (modify f).
Proof. intros Hf s. apply Hf. Qed.
End GuarRules.

(** one step of a proof that a statement gives a guarantee: the rule of its
    outermost constructor, [tac] for a [modify], the database for a call *)
Ltac guar_step tac :=
  lazymatch goal with
  | |- guar _ (mret _) => apply guar_ret; exact _
  | |- guar _ (gets _) => apply guar_gets; exact _
  | |- guar _ (deref _) => apply guar_deref; exact _
  | |- guar _ (panic _) => apply guar_panic; exact _
  | |- guar _ fault => apply guar_fault; exact _
  | |- guar _ spin => apply guar_spin; exact _
  | |- guar _ (modify _) => tac
  | |- guar _ (when _ _) => apply guar_when; [exact _|]
  | |- guar _ (for_each _ _) => apply guar_for_each; [exact _|intros ?]
  | |- guar _ (for_find _ _) => apply guar_for_find; [exact _|intros ?]
  | |- guar _ (for_fold _ _ _) => apply guar_for_fold; [exact _|intros ? ?]
  | |- guar _ (loop _ _ _) => apply guar_loop; [exact _|intros ?]
  | |- guar _ (while _ _ _) => unfold while
  | |- guar _ (_ ≫= _) => apply guar_bind; [exact _| |intros ?]
  | |- guar _ (if ?b then _ else _) => destruct b
  | |- guar _ (match ?x with _ => _ end) => destruct x
  | |- guar _ (let '_ := ?x in _) => destruct x
  | |- guar _ _ => solve [eauto 3 with guar nocore]
  end.
Ltac guar_walk tac := repeat (cbv zeta; guar_step tac).

#[export] Hint Resolve guar_ret guar_gets guar_panic guar_fault guar_spin guar_deref : guar.
