(* ===== verification/Bits.v ===== *)
(** * Bits of machine words

    Each operation on words as an operation on its bits, without side
    conditions on the position; [bits] proves an equation between words bit by
    bit. *)

From S2P Require Import Prelude.

#[global] Arguments Z.testbit : simpl never.
Section Bits.
Lemma testbit_lor a b n : Z.testbit (Z.lor a b) n = Z.testbit a n || Z.testbit b n.
Proof. apply Z.lor_spec. Qed.
Lemma testbit_land a b n : Z.testbit (Z.land a b) n = Z.testbit a n && Z.testbit b n.
Proof. apply Z.land_spec. Qed.
Lemma testbit_mod a k n : 0 <= k -> Z.testbit (a mod 2 ^ k) n = (n <? k) && Z.testbit a n.
Proof.
  intros Hk. destruct (Z.ltb_spec n 0) as [Hn|Hn].
  { rewrite !Z.testbit_neg_r by lia. by rewrite andb_false_r. }
  destruct (Z.ltb_spec n k); [apply Z.mod_pow2_bits_low; lia|apply Z.mod_pow2_bits_high; lia].
Qed.
Lemma testbit_shiftl a k n : 0 <= k -> Z.testbit (Z.shiftl a k) n = Z.testbit a (n - k).
Proof.
  intros Hk. destruct (Z.ltb_spec n 0); [by rewrite !Z.testbit_neg_r by lia|]. by apply Z.shiftl_spec.
Qed.
Lemma testbit_shiftr a k n : 0 <= k -> Z.testbit (Z.shiftr a k) n = (0 <=? n) && Z.testbit a (n + k).
Proof.
  intros Hk. destruct (Z.leb_spec 0 n); [by apply Z.shiftr_spec|by rewrite Z.testbit_neg_r by lia].
Qed.
Lemma testbit_mask k w n : 0 <= k -> 0 <= w ->
  Z.testbit (Z.shiftl (Z.ones w) k) n = (k <=? n) && (n <? k + w).
Proof.
  intros. rewrite testbit_shiftl by done. destruct (Z.leb_spec k n), (Z.ltb_spec n (k + w)); cbn.
  - by apply Z.ones_spec_low; lia.
  - by apply Z.ones_spec_high; lia.
  - by apply Z.testbit_neg_r; lia.
  - by apply Z.testbit_neg_r; lia.
Qed.
Lemma testbit_not32 a n : Z.testbit (not32 a) n = xorb (Z.testbit a n) ((0 <=? n) && (n <? 32)).
Proof.
  unfold not32. rewrite Z.lxor_spec. f_equal. change (2 ^ 32 - 1) with (Z.shiftl (Z.ones 32) 0).
  by rewrite testbit_mask.
Qed.
Lemma testbit_word a k n : 0 <= a < 2 ^ k -> 0 <= k -> k <= n -> Z.testbit a n = false.
Proof. intros. rewrite <- (Z.mod_small a (2 ^ k)) by lia. rewrite testbit_mod by lia. destruct (Z.ltb_spec n k); [lia|done]. Qed.
End Bits.

(** a 32-bit word *)
Definition word32 (x : Z) : Prop := 0 <= x < 2 ^ 32.

(* decide the comparisons of an equation between bits *)
Ltac bits_cases :=
  repeat match goal with
  | |- context [Z.ltb ?a ?b] => destruct (Z.ltb_spec a b); try lia
  | |- context [Z.leb ?a ?b] => destruct (Z.leb_spec a b); try lia
  end; cbn [andb orb xorb negb]; rewrite ?andb_false_r, ?andb_true_r, ?orb_false_r, ?orb_true_r, ?xorb_true_r, ?xorb_false_r; try done.
Create Rewrite HintDb bits.
#[export] Hint Rewrite testbit_lor testbit_land testbit_not32 : bits.
#[export] Hint Rewrite testbit_mod testbit_shiftl testbit_shiftr testbit_mask using lia : bits.

(* what is left of an equation between bits: the same bit on both sides, or a
   bit beyond the width of a word *)
Ltac bits_done :=
  rewrite ?orb_false_l, ?orb_false_r, ?orb_diag;
  first [ done | f_equal; lia
        | match goal with
          | |- context [Z.testbit ?a ?m] => rewrite (Z.testbit_neg_r a m) by lia; bits_done
          | H : 0 <= ?a < 2 ^ ?k |- context [Z.testbit ?a ?m] => rewrite (testbit_word a k m) by lia; bits_done
          end ].
Ltac bits := unfold word32 in *; apply Z.bits_inj'; intros n Hn; autorewrite with bits; bits_cases; bits_done.

Lemma lor_low12 l : Z.lor (Z.shiftl l 12) 0xfff = 4096 * l + 0xfff.
Proof.
  rewrite <- Z.lxor_lor, <- Z.add_nocarry_lxor; [rewrite Z.shiftl_mul_pow2 by lia; lia| |];
  change 0xfff with (Z.shiftl (Z.ones 12) 0); apply Z.bits_inj'; intros n Hn; rewrite Z.bits_0; autorewrite with bits; bits_cases;
  rewrite Z.testbit_neg_r by lia; done.
Qed.
