(* ===== verification/Ctype.v ===== *)
(** * include/ctype.h, lib/ctype.cc: character classes

    The macros index a table of 257 entries, the first of them for [EOF].  A
    result [None] is an index outside the table. *)

From S2P Require Import Prelude.

Definition _U : Z := 0x01.
Definition _L : Z := 0x02.
Definition _D : Z := 0x04.
Definition _C : Z := 0x08.
Definition _P : Z := 0x10.
Definition _S : Z := 0x20.
Definition _X : Z := 0x40.
Definition _SP : Z := 0x80.

Definition _ctype : list Z :=
  [0x00] ++
  [_C; _C; _C; _C; _C; _C; _C; _C] ++
  [_C; Z.lor _C _S; Z.lor _C _S; Z.lor _C _S; Z.lor _C _S; Z.lor _C _S; _C; _C] ++
  [_C; _C; _C; _C; _C; _C; _C; _C] ++
  [_C; _C; _C; _C; _C; _C; _C; _C] ++
  [Z.lor _S _SP; _P; _P; _P; _P; _P; _P; _P] ++
  [_P; _P; _P; _P; _P; _P; _P; _P] ++
  [_D; _D; _D; _D; _D; _D; _D; _D] ++
  [_D; _D; _P; _P; _P; _P; _P; _P] ++
  [_P; Z.lor _U _X; Z.lor _U _X; Z.lor _U _X; Z.lor _U _X; Z.lor _U _X; Z.lor _U _X; _U] ++
  [_U; _U; _U; _U; _U; _U; _U; _U] ++
  [_U; _U; _U; _U; _U; _U; _U; _U] ++
  [_U; _U; _U; _P; _P; _P; _P; _P] ++
  [_P; Z.lor _L _X; Z.lor _L _X; Z.lor _L _X; Z.lor _L _X; Z.lor _L _X; Z.lor _L _X; _L] ++
  [_L; _L; _L; _L; _L; _L; _L; _L] ++
  [_L; _L; _L; _L; _L; _L; _L; _L] ++
  [_L; _L; _L; _P; _P; _P; _P; _C] ++
  replicate 128 0.

(** [(_ctype+1)[(unsigned) c]]: the address wraps, so [EOF] is the first entry *)
Definition ctype_at (c : Z) : option Z :=
  let i := s32 c + 1 in if i <? 0 then None else _ctype !! Z.to_nat i.
Definition class (c mask : Z) : option bool := t ← ctype_at c; Some (nz (Z.land t mask)).

Definition isalnum (c : Z) : option bool := class c (Z.lor (Z.lor _U _L) _D).
Definition isalpha (c : Z) : option bool := class c (Z.lor _U _L).
Definition iscntrl (c : Z) : option bool := class c _C.
Definition isdigit (c : Z) : option bool := class c _D.
Definition isgraph (c : Z) : option bool := class c (Z.lor (Z.lor (Z.lor _P _U) _L) _D).
Definition islower (c : Z) : option bool := class c _L.
Definition isprint (c : Z) : option bool := class c (Z.lor (Z.lor (Z.lor (Z.lor _P _U) _L) _D) _SP).
Definition ispunct (c : Z) : option bool := class c _P.
Definition isspace (c : Z) : option bool := class c _S.
Definition isupper (c : Z) : option bool := class c _U.
Definition isxdigit (c : Z) : option bool := class c (Z.lor _D _X).
Definition isascii (c : Z) : bool := u32 c <=? 0x7f.
Definition toascii (c : Z) : Z := Z.land (u32 c) 0x7f.

(** [_ctmp] is a signed character *)
Definition tolower (c : Z) : option Z :=
  let _ctmp := s8 c in b ← isupper _ctmp; Some (if b : bool then _ctmp - (65 - 97) else _ctmp).
Definition toupper (c : Z) : option Z :=
  let _ctmp := s8 c in b ← islower _ctmp; Some (if b : bool then _ctmp - (97 - 65) else _ctmp).

(** ** The classes are those of ASCII *)

Definition between (a b c : Z) : bool := (a <=? c) && (c <=? b).
Definition is_upper (c : Z) : bool := between 65 90 c.
Definition is_lower (c : Z) : bool := between 97 122 c.
Definition is_num (c : Z) : bool := between 48 57 c.
Definition is_graph (c : Z) : bool := between 33 126 c.

Definition agree (c : Z) : bool :=
  bool_decide (isupper c = Some (is_upper c)) && bool_decide (islower c = Some (is_lower c)) &&
  bool_decide (isdigit c = Some (is_num c)) && bool_decide (isalpha c = Some (is_upper c || is_lower c)) &&
  bool_decide (isalnum c = Some (is_upper c || is_lower c || is_num c)) &&
  bool_decide (isgraph c = Some (is_graph c)) && bool_decide (isprint c = Some (is_graph c || (c =? 32))) &&
  bool_decide (ispunct c = Some (is_graph c && negb (is_upper c || is_lower c || is_num c))) &&
  bool_decide (iscntrl c = Some (between 0 31 c || (c =? 127))) &&
  bool_decide (isspace c = Some (between 9 13 c || (c =? 32))) &&
  bool_decide (isxdigit c = Some (is_num c || between 65 70 c || between 97 102 c)).

(** every character and [EOF]: the table is right *)
Lemma ctype_ascii c : -1 <= c <= 255 -> agree c = true.
Proof.
  intros Hc. assert (forallb agree (seqZ (-1) 257) = true) as H by (vm_compute; reflexivity).
  rewrite forallb_forall in H. apply H, list_elem_of_In, elem_of_seqZ. lia.
Qed.

(** letters are exchanged and other characters of ASCII kept; from 128 on the index is negative *)
Lemma case_ascii c : 0 <= c <= 127 ->
  tolower c = Some (if is_upper c then c + 32 else c) /\ toupper c = Some (if is_lower c then c - 32 else c).
Proof.
  intros Hc.
  assert (forallb (fun c => bool_decide (tolower c = Some (if is_upper c then c + 32 else c)) &&
    bool_decide (toupper c = Some (if is_lower c then c - 32 else c))) (seqZ 0 128) = true) as H by (vm_compute; reflexivity).
  rewrite forallb_forall in H. specialize (H c). cbv beta in H. rewrite andb_true_iff, !bool_decide_eq_true in H.
  apply H, list_elem_of_In, elem_of_seqZ. lia.
Qed.
Example tolower_128 : tolower 128 = None.
Proof. reflexivity. Qed.
