(* ===== verification/Mktime.v ===== *)
(** * Boot-time clock: [kernel_mktime] (kernel/mktime.cc) and [time_init] (init/main.cc)

    The conversion of a broken-down time to seconds since 1970, against the
    Gregorian calendar, and the reading of the BCD real-time clock. *)

From S2P Require Import Prelude.

(** include/time.h *)
Record tm : Type := mk_tm {
  tm_sec : Z; tm_min : Z; tm_hour : Z;
  tm_mday : Z; tm_mon : Z; tm_year : Z
}.

Definition MINUTE : Z := 60.
Definition HOUR : Z := 60 * MINUTE.
Definition DAY : Z := 24 * HOUR.
Definition YEAR : Z := 365 * DAY.

(** the table of the source: the leap-year offsets *)
Definition month : list Z :=
  [ 0;
    DAY * 31;
    DAY * (31 + 29);
    DAY * (31 + 29 + 31);
    DAY * (31 + 29 + 31 + 30);
    DAY * (31 + 29 + 31 + 30 + 31);
    DAY * (31 + 29 + 31 + 30 + 31 + 30);
    DAY * (31 + 29 + 31 + 30 + 31 + 30 + 31);
    DAY * (31 + 29 + 31 + 30 + 31 + 30 + 31 + 31);
    DAY * (31 + 29 + 31 + 30 + 31 + 30 + 31 + 31 + 30);
    DAY * (31 + 29 + 31 + 30 + 31 + 30 + 31 + 31 + 30 + 31);
    DAY * (31 + 29 + 31 + 30 + 31 + 30 + 31 + 31 + 30 + 31 + 30) ].

(** [None] is a read outside [month]; [s32] is the wrap-around of [long] *)
Definition kernel_mktime (t : tm) : option Z :=
  let year := s32 (tm_year t - 70) in
  let res := s32 (YEAR * year + DAY * Z.quot (year + 1) 4) in
  if (tm_mon t <? 0) then None else
  match month !! Z.to_nat (tm_mon t) with
  | None => None
  | Some mm =>
      let res := s32 (res + mm) in
      let res := if (1 <? tm_mon t) && nz (Z.rem (year + 2) 4)
                 then s32 (res - DAY) else res in
      let res := s32 (res + DAY * (tm_mday t - 1)) in
      let res := s32 (res + HOUR * tm_hour t) in
      let res := s32 (res + MINUTE * tm_min t) in
      Some (s32 (res + tm_sec t))
  end.

(** ** The real-time clock

    [cmos n a] is what the [n]-th [CMOS_READ] returns when it asks for register
    [a]: the clock ticks between reads.  The state is the number of reads done
    and the kernel variable [startup_time]. *)
Section Clock.
Variable cmos : nat -> Z -> Z.

Record clock : Type := mk_clock { reads : nat; startup_time : Z }.
#[local] Instance eta_clock : Eta clock := fun r => mk_clock (reads r) (startup_time r).

Definition CMOS_READ (addr : Z) : M clock Z :=
  n ← gets reads; modify (fun s => s <| reads ::= S |>) ;; mret (cmos n addr).

Definition BCD_TO_BIN (val : Z) : Z := Z.land val 15 + Z.shiftr val 4 * 10.

(** one round of the [do ... while] loop *)
Definition read_clock (_ : unit) : M clock (unit + tm) :=
  sec ← CMOS_READ 0; mi ← CMOS_READ 2; ho ← CMOS_READ 4;
  md ← CMOS_READ 7; mo ← CMOS_READ 8; ye ← CMOS_READ 9;
  again ← CMOS_READ 0;
  mret (if sec =? again then inr (mk_tm sec mi ho md mo ye) else inl tt).

Definition time_init (fuel : nat) : M clock unit :=
  t ← loop fuel read_clock tt;
  let t := mk_tm (BCD_TO_BIN (tm_sec t)) (BCD_TO_BIN (tm_min t))
                 (BCD_TO_BIN (tm_hour t)) (BCD_TO_BIN (tm_mday t))
                 (BCD_TO_BIN (tm_mon t) - 1) (BCD_TO_BIN (tm_year t)) in
  v ← deref (kernel_mktime t);
  modify (fun s => s <| startup_time := v |>).
End Clock.

(** ** The calendar *)

Definition is_leap (y : Z) : bool :=
  (y mod 4 =? 0) && (negb (y mod 100 =? 0) || (y mod 400 =? 0)).
Definition days_in_year (y : Z) : Z := if is_leap y then 366 else 365.
Definition days_in_month (y m : Z) : Z :=
  if m =? 1 then (if is_leap y then 29 else 28)
  else if (m =? 3) || (m =? 5) || (m =? 8) || (m =? 10) then 30 else 31.

Definition sum_days (f : Z -> Z) (from : Z) (n : nat) : Z :=
  foldr Z.add 0 ((fun i => f (from + Z.of_nat i)) <$> seq 0 n).
Definition days_before_year (y : Z) : Z := sum_days days_in_year 1970 (Z.to_nat (y - 1970)).
Definition days_before_month (y m : Z) : Z := sum_days (days_in_month y) 0 (Z.to_nat m).

(** seconds from 1970-01-01 00:00:00 to [t], by counting days *)
Definition calendar_seconds (t : tm) : Z :=
  let y := tm_year t + 1900 in
  (((days_before_year y + days_before_month y (tm_mon t) + (tm_mday t - 1)) * 24
    + tm_hour t) * 60 + tm_min t) * 60 + tm_sec t.

Definition valid_tm (t : tm) : Prop :=
  70 <= tm_year t <= 199 /\ 0 <= tm_mon t <= 11 /\
  1 <= tm_mday t <= days_in_month (tm_year t + 1900) (tm_mon t) /\
  0 <= tm_hour t <= 23 /\ 0 <= tm_min t <= 59 /\ 0 <= tm_sec t <= 60.

(** ** Clock registers *)

(** a byte in binary-coded decimal *)
Definition to_bcd (v : Z) : Z := Z.shiftl (v / 10) 4 + v mod 10.

(** the CMOS registers of a clock that shows [t] (month 1 to 12, two-digit year) *)
Definition rtc (t : tm) (a : Z) : Z :=
  if a =? 0 then to_bcd (tm_sec t) else if a =? 2 then to_bcd (tm_min t)
  else if a =? 4 then to_bcd (tm_hour t) else if a =? 7 then to_bcd (tm_mday t)
  else if a =? 8 then to_bcd (tm_mon t + 1) else if a =? 9 then to_bcd (tm_year t)
  else 0.

(** ** Proofs *)

(** the day number of the first of a month, as the source computes it *)
Definition source_days (y m : Z) : Z :=
  365 * (y - 1970) + (y - 1969) / 4 + nth (Z.to_nat m) month 0 / DAY
  - (if (1 <? m) && negb ((y - 1968) mod 4 =? 0) then 1 else 0).

Definition check_days : bool :=
  forallb (fun y => forallb (fun m =>
    source_days y m =? days_before_year y + days_before_month y m)
    (Z.of_nat <$> seq 0 12)) (Z.of_nat <$> seq 1970 130).

Lemma check_days_true : check_days = true.
Proof. vm_compute. reflexivity. Qed.

Lemma elem_of_Zseq x a n :
  Z.of_nat a <= x < Z.of_nat a + Z.of_nat n -> In x (Z.of_nat <$> seq a n).
Proof.
  intros. apply in_map_iff. exists (Z.to_nat x). split; [lia|]. apply in_seq. lia.
Qed.

Lemma forallb_Zseq f a n x :
  forallb f (Z.of_nat <$> seq a n) = true ->
  Z.of_nat a <= x < Z.of_nat a + Z.of_nat n -> f x = true.
Proof. intros H Hx. rewrite forallb_forall in H. by apply H, elem_of_Zseq. Qed.

Lemma source_days_calendar y m :
  1970 <= y <= 2099 -> 0 <= m <= 11 ->
  source_days y m = days_before_year y + days_before_month y m.
Proof.
  intros Hy Hm. pose proof check_days_true as H. unfold check_days in H.
  assert (H1 := forallb_Zseq _ _ _ y H). assert (H2 := forallb_Zseq _ _ _ m (H1 ltac:(lia))).
  specialize (H2 ltac:(lia)). by apply Z.eqb_eq in H2.
Qed.

Lemma month_entry m : 0 <= m <= 11 ->
  month !! Z.to_nat m = Some (DAY * (nth (Z.to_nat m) month 0 / DAY)).
Proof.
  intros. assert (In m (Z.of_nat <$> seq 0 12)) as Hin by (apply elem_of_Zseq; lia).
  cbn in Hin. decompose [or] Hin; subst; try reflexivity; done.
Qed.

Lemma kernel_mktime_days t :
  valid_tm t ->
  kernel_mktime t =
    Some (s32 (DAY * (source_days (tm_year t + 1900) (tm_mon t) + (tm_mday t - 1))
               + HOUR * tm_hour t + MINUTE * tm_min t + tm_sec t)).
Proof.
  intros (Hy & Hm & _). unfold kernel_mktime, source_days.
  rewrite (s32_id (tm_year t - 70)) by lia.
  destruct (Z.ltb_spec (tm_mon t) 0); [lia|]. rewrite month_entry by lia.
  set (k := nth _ _ _ / DAY). f_equal.
  rewrite Z.quot_div_nonneg, Z.rem_mod_nonneg by lia.
  replace (tm_year t + 1900 - 1968) with (tm_year t - 70 + 2) by lia.
  replace (tm_year t + 1900 - 1969) with (tm_year t - 70 + 1) by lia.
  generalize k; intros d. unfold nz.
  destruct (_ && _); wrap_once; f_equal; unfold YEAR, DAY, HOUR, MINUTE; lia.
Qed.

Lemma source_days_nonneg y m : 1970 <= y -> 0 <= m <= 11 -> 0 <= source_days y m.
Proof.
  intros Hy Hm. unfold source_days.
  assert (0 <= (y - 1969) / 4) by (apply Z.div_pos; lia).
  assert (0 <= nth (Z.to_nat m) month 0 / DAY /\
          (m <= 1 \/ 1 <= nth (Z.to_nat m) month 0 / DAY)) as [Hd Hc].
  { assert (In m (Z.of_nat <$> seq 0 12)) as Hin by (apply elem_of_Zseq; lia).
    cbn in Hin. decompose [or] Hin; subst; try done;
      (split; [vm_compute; discriminate|]); (left; lia) || (right; vm_compute; discriminate). }
  destruct (Z.ltb_spec 1 m); cbn [andb]; [destruct (negb _)|]; lia.
Qed.

(** C39: For every valid date from 1970 to 2099, [kernel_mktime] returns the
    seconds the Gregorian calendar counts since 1970, wrapped to a 32-bit
    [long]; up to 2038-01-19 03:14:07 nothing wraps and it is that number. *)
Theorem kernel_mktime_correct (t : tm) (H : valid_tm t) :
  kernel_mktime t = Some (s32 (calendar_seconds t)) /\
  (calendar_seconds t < 2 ^ 31 -> kernel_mktime t = Some (calendar_seconds t)).
Proof.
  assert (kernel_mktime t = Some (s32 (calendar_seconds t))) as E.
  { rewrite kernel_mktime_days by done. unfold calendar_seconds.
    destruct H as (Hy & Hm & _). rewrite source_days_calendar by lia.
    do 2 f_equal. unfold DAY, HOUR, MINUTE. lia. }
  split; [done|]. intros Hlt. rewrite E, s32_id; [done|].
  destruct H as (Hy & Hm & Hd & Hh & Hi & Hs). split; [|done].
  unfold calendar_seconds. rewrite <- source_days_calendar by lia.
  pose proof (source_days_nonneg (tm_year t + 1900) (tm_mon t)). lia.
Qed.

Definition leap_day : tm := mk_tm 30 45 13 29 1 124.   (* 2024-02-29 13:45:30 *)

Lemma kernel_mktime_correct_witness :
  valid_tm leap_day /\ kernel_mktime leap_day = Some 1709214330.
Proof.
  assert (valid_tm leap_day) as H by (repeat split; vm_compute; done).
  split; [exact H|].
  rewrite (proj2 (kernel_mktime_correct leap_day H)); [|vm_compute; done].
  vm_compute. reflexivity.
Defined.

(** ** Reading the clock *)

Lemma bcd_roundtrip v : 0 <= v < 100 -> BCD_TO_BIN (to_bcd v) = v.
Proof.
  intros Hv. unfold BCD_TO_BIN, to_bcd. rewrite Z.shiftl_mul_pow2, Z.shiftr_div_pow2 by lia.
  pose proof (Z.mod_pos_bound v 10). change 15 with (Z.ones 4). rewrite Z.land_ones by lia.
  pose proof (Z.div_mod v 10).
  rewrite (Z.add_comm (_ * _)), Z.mod_add, Z.div_add by lia.
  rewrite (Z.mod_small (v mod 10)), (Z.div_small (v mod 10)) by lia. lia.
Qed.

Lemma read_clock_run cmos rd st :
  read_clock cmos tt (mk_clock rd st) =
  Ret (if cmos rd 0 =? cmos (rd + 6)%nat 0
       then inr (mk_tm (cmos rd 0) (cmos (rd + 1)%nat 2) (cmos (rd + 2)%nat 4)
                       (cmos (rd + 3)%nat 7) (cmos (rd + 4)%nat 8) (cmos (rd + 5)%nat 9))
       else inl tt) (mk_clock (rd + 7) st).
Proof.
  unfold read_clock, CMOS_READ. mrun.
  rewrite (Nat.add_comm rd 7), (Nat.add_comm rd 6), (Nat.add_comm rd 5), (Nat.add_comm rd 4),
    (Nat.add_comm rd 3), (Nat.add_comm rd 2), (Nat.add_comm rd 1). reflexivity.
Qed.

(**  When the clock ticks during the first [n] rounds of reading (the
    seconds differ at the two ends of the round) and then shows [t] long enough
    for one round, [time_init] terminates after [n + 1] rounds and
    [startup_time] is the calendar's number of seconds for [t]; nothing read
    while the clock was changing is used. *)
Theorem time_init_correct (cmos : nat -> Z -> Z) (n : nat) (t : tm) (c : clock)
  (Hticks : forall i, (i < n)%nat -> cmos (reads c + 7 * i)%nat 0 <> cmos (reads c + 7 * i + 6)%nat 0)
  (Hstable : forall k a, (reads c + 7 * n <= k < reads c + 7 * n + 7)%nat -> cmos k a = rtc t a)
  (Ht : valid_tm t) (Hcentury : tm_year t < 100) (H32 : calendar_seconds t < 2 ^ 31) :
  time_init cmos (S n) c = Ret tt (mk_clock (reads c + 7 * n + 7) (calendar_seconds t)).
Proof.
  unfold time_init.
  assert (forall r, r = mk_tm (to_bcd (tm_sec t)) (to_bcd (tm_min t)) (to_bcd (tm_hour t))
                      (to_bcd (tm_mday t)) (to_bcd (tm_mon t + 1)) (to_bcd (tm_year t)) ->
    loop (S n) (read_clock cmos) tt c = Ret r (mk_clock (reads c + 7 * n + 7) (startup_time c)))
    as Hloop.
  { intros r ->. clear Ht Hcentury H32. destruct c as [rd st]; cbn [reads startup_time] in *.
    revert rd Hticks Hstable. induction n as [|n IH]; intros rd Hticks Hstable.
    - apply loop_done. rewrite read_clock_run, Hstable, Hstable, Z.eqb_refl by lia.
      rewrite !Hstable by lia. do 2 f_equal. lia.
    - specialize (IH (rd + 7)%nat).
      pose proof (Hticks O ltac:(lia)) as H0. rewrite Nat.mul_0_r, Nat.add_0_r in H0.
      erewrite loop_again by (rewrite read_clock_run, (proj2 (Z.eqb_neq _ _) H0); done).
      etransitivity; [apply IH|]; [intros i Hi|intros k a Hk|].
      + replace (rd + 7 + 7 * i)%nat with (rd + 7 * S i)%nat by lia. apply Hticks. lia.
      + apply Hstable. lia.
      + do 2 f_equal. lia. }
  rewrite (bind_Ret _ _ _ _ _ (Hloop _ eq_refl)). clear Hloop. cbn [tm_sec tm_min tm_hour tm_mday tm_mon tm_year].
  pose proof Ht as (Hy & Hm & Hd & Hh & Hi & Hs).
  assert (tm_mday t <= 31) by
    (revert Hd; unfold days_in_month; repeat (destruct (_ =? _) || destruct (is_leap _)); cbn; lia).
  rewrite !bcd_roundtrip by lia. rewrite Z.add_simpl_r.
  destruct t as [s mi h d mo y]. cbn [tm_sec tm_min tm_hour tm_mday tm_mon tm_year].
  rewrite (proj2 (kernel_mktime_correct _ Ht) H32). reflexivity.
Qed.

(** a clock that ticks once, between 13:45:29 and 13:45:30 *)
Definition ticking (k : nat) (a : Z) : Z :=
  if (k <? 6)%nat then rtc (mk_tm 29 45 13 29 1 99) a else rtc (mk_tm 30 45 13 28 1 99) a.

Lemma time_init_correct_witness :
  time_init ticking 2 (mk_clock 0 0) = Ret tt (mk_clock 14 920209530).
Proof.
  apply (time_init_correct ticking 1 (mk_tm 30 45 13 28 1 99) (mk_clock 0 0)).
  - intros i Hi. assert (i = O) as -> by lia. vm_compute. discriminate.
  - intros k a Hk. unfold ticking. cbn [reads] in Hk.
    destruct (Nat.ltb_spec k 6); [lia|reflexivity].
  - repeat split; vm_compute; done.
  - vm_compute. done.
  - vm_compute. done.
Defined.
