(* ===== verification/State.v ===== *)
(** * Kernel data: the structures of the headers and the state of the kernel

    Each C structure is a [Record] with the source's field names (those of
    [task_struct] get the prefix [t_], those of [tss_struct] the prefix
    [tss_]); a pointer that may be NULL is an [option].  Task pointers are the
    addresses of the [task_struct]s, pointers into a static table are indices
    into it.  [kst] is the whole kernel state, in one part per directory. *)

From S2P Require Import Prelude.

(** ** include/errno.h *)
Definition ERROR : Z := 99.
Definition EPERM : Z := 1.
Definition ENOENT : Z := 2.
Definition ESRCH : Z := 3.
Definition EINTR : Z := 4.
Definition EIO : Z := 5.
Definition ENXIO : Z := 6.
Definition E2BIG : Z := 7.
Definition ENOEXEC : Z := 8.
Definition EBADF : Z := 9.
Definition ECHILD : Z := 10.
Definition EAGAIN : Z := 11.
Definition ENOMEM : Z := 12.
Definition EACCES : Z := 13.
Definition EFAULT : Z := 14.
Definition ENOTBLK : Z := 15.
Definition EBUSY : Z := 16.
Definition EEXIST : Z := 17.
Definition EXDEV : Z := 18.
Definition ENODEV : Z := 19.
Definition ENOTDIR : Z := 20.
Definition EISDIR : Z := 21.
Definition EINVAL : Z := 22.
Definition ENFILE : Z := 23.
Definition EMFILE : Z := 24.
Definition ENOTTY : Z := 25.
Definition ETXTBSY : Z := 26.
Definition EFBIG : Z := 27.
Definition ENOSPC : Z := 28.
Definition ESPIPE : Z := 29.
Definition EROFS : Z := 30.
Definition EMLINK : Z := 31.
Definition EPIPE : Z := 32.
Definition EDOM : Z := 33.
Definition ERANGE : Z := 34.
Definition EDEADLK : Z := 35.
Definition ENAMETOOLONG : Z := 36.
Definition ENOLCK : Z := 37.
Definition ENOSYS : Z := 38.
Definition ENOTEMPTY : Z := 39.

(** ** include/linux/sched.h, include/signal.h, include/linux/head.h *)

Definition NR_TASKS : nat := 64.
Definition HZ : Z := 100.
Definition TASK_RUNNING : Z := 0.
Definition TASK_INTERRUPTIBLE : Z := 1.
Definition TASK_UNINTERRUPTIBLE : Z := 2.
Definition TASK_ZOMBIE : Z := 3.
Definition TASK_STOPPED : Z := 4.

Definition SIGHUP : Z := 1.
Definition SIGINT : Z := 2.
Definition SIGQUIT : Z := 3.
Definition SIGKILL : Z := 9.
Definition SIGSEGV : Z := 11.
Definition SIGPIPE : Z := 13.
Definition SIGALRM : Z := 14.
Definition SIGCHLD : Z := 17.
Definition SIGSTOP : Z := 19.
Definition SA_NOMASK : Z := 0x40000000.
Definition SA_ONESHOT : Z := 0x80000000.

Abbreviation tptr := Z (only parsing).

(** [struct desc_struct]: the two words of a segment descriptor *)
Record desc_struct : Type := mk_desc {
  d_a : Z; d_b : Z
}.
#[export] Instance eta_desc_struct : Eta desc_struct := fun r =>
  mk_desc (d_a r) (d_b r).

(** [struct sigaction]; handlers are code addresses *)
Record sigaction : Type := mk_sigaction {
  sa_handler : Z; sa_mask : Z; sa_flags : Z; sa_restorer : Z
}.
#[export] Instance eta_sigaction : Eta sigaction := fun r =>
  mk_sigaction (sa_handler r) (sa_mask r) (sa_flags r) (sa_restorer r).

(** [struct tss_struct], without the coprocessor image [i387], which only the FPU instructions read *)
Record tss_struct : Type := mk_tss {
  tss_back_link : Z; tss_esp0 : Z; tss_ss0 : Z; tss_esp1 : Z; tss_ss1 : Z; tss_esp2 : Z; tss_ss2 : Z; tss_cr3 : Z; tss_eip : Z; tss_eflags : Z;
  tss_eax : Z; tss_ecx : Z; tss_edx : Z; tss_ebx : Z; tss_esp : Z; tss_ebp : Z; tss_esi : Z; tss_edi : Z;
  tss_es : Z; tss_cs : Z; tss_ss : Z; tss_ds : Z; tss_fs : Z; tss_gs : Z; tss_ldt : Z; tss_trace_bitmap : Z
}.
#[export] Instance eta_tss_struct : Eta tss_struct := fun r =>
  mk_tss (tss_back_link r) (tss_esp0 r) (tss_ss0 r) (tss_esp1 r) (tss_ss1 r) (tss_esp2 r) 
    (tss_ss2 r) (tss_cr3 r) (tss_eip r) (tss_eflags r) (tss_eax r) (tss_ecx r) (tss_edx r) 
    (tss_ebx r) (tss_esp r) (tss_ebp r) (tss_esi r) (tss_edi r) (tss_es r) (tss_cs r) 
    (tss_ss r) (tss_ds r) (tss_fs r) (tss_gs r) (tss_ldt r) (tss_trace_bitmap r).

(** [struct task_struct]; [t_pwd], [t_root], [t_executable] point into [inode_table], [t_filp] into [file_table] *)
Record task_struct : Type := mk_task {
  t_state : Z; t_counter : Z; t_priority : Z; t_signal : Z; t_sigaction : list sigaction; t_blocked : Z;
  t_exit_code : Z; t_start_code : Z; t_end_code : Z; t_end_data : Z; t_brk : Z; t_start_stack : Z;
  t_pid : Z; t_father : Z; t_pgrp : Z; t_session : Z; t_leader : Z;
  t_uid : Z; t_euid : Z; t_suid : Z; t_gid : Z; t_egid : Z; t_sgid : Z;
  t_alarm : Z; t_utime : Z; t_stime : Z; t_cutime : Z; t_cstime : Z; t_start_time : Z; t_used_math : Z;
  t_tty : Z; t_umask : Z; t_pwd : option nat; t_root : option nat; t_executable : option nat;
  t_close_on_exec : Z; t_filp : list (option nat); t_ldt : list desc_struct; t_tss : tss_struct
}.
#[export] Instance eta_task_struct : Eta task_struct := fun r =>
  mk_task (t_state r) (t_counter r) (t_priority r) (t_signal r) (t_sigaction r) (t_blocked r) 
    (t_exit_code r) (t_start_code r) (t_end_code r) (t_end_data r) (t_brk r) (t_start_stack r) 
    (t_pid r) (t_father r) (t_pgrp r) (t_session r) (t_leader r) (t_uid r) (t_euid r) 
    (t_suid r) (t_gid r) (t_egid r) (t_sgid r) (t_alarm r) (t_utime r) (t_stime r) (t_cutime r) 
    (t_cstime r) (t_start_time r) (t_used_math r) (t_tty r) (t_umask r) (t_pwd r) (t_root r) 
    (t_executable r) (t_close_on_exec r) (t_filp r) (t_ldt r) (t_tss r).

(** ** include/linux/fs.h *)

Definition READ : Z := 0.
Definition WRITE : Z := 1.
Definition READA : Z := 2.
Definition WRITEA : Z := 3.

Definition MAJOR (a : Z) : Z := Z.shiftr (u32 a) 8.
Definition MINOR (a : Z) : Z := Z.land a 0xff.
Definition IS_SEEKABLE (x : Z) : bool := (1 <=? x) && (x <=? 3).

Definition NAME_LEN : Z := 14.
Definition ROOT_INO : Z := 1.
Definition I_MAP_SLOTS : nat := 8.
Definition Z_MAP_SLOTS : nat := 8.
Definition SUPER_MAGIC : Z := 0x137F.
Definition NR_OPEN : nat := 20.
Definition NR_INODE : nat := 32.
Definition NR_FILE : nat := 64.
Definition NR_SUPER : nat := 8.
Definition NR_HASH : nat := 307.
Definition BLOCK_SIZE : Z := 1024.
Definition BLOCK_SIZE_BITS : Z := 10.
Definition INODES_PER_BLOCK : Z := 32.       (* BLOCK_SIZE / sizeof (struct d_inode) *)
Definition DIR_ENTRIES_PER_BLOCK : Z := 64.  (* BLOCK_SIZE / sizeof (struct dir_entry) *)

(** [struct buffer_head]; [b_data] is the 1024-byte block itself and [b_addr] its address *)
Record buffer_head : Type := mk_bh {
  b_data : list Z; b_addr : Z; b_blocknr : Z; b_dev : Z; b_uptodate : Z; b_dirt : Z; b_count : Z; b_lock : Z;
  b_wait : option tptr; b_prev : option nat; b_next : option nat; b_prev_free : option nat; b_next_free : option nat
}.
#[export] Instance eta_buffer_head : Eta buffer_head := fun r =>
  mk_bh (b_data r) (b_addr r) (b_blocknr r) (b_dev r) (b_uptodate r) (b_dirt r) (b_count r) (b_lock r) 
    (b_wait r) (b_prev r) (b_next r) (b_prev_free r) (b_next_free r).

(** [struct m_inode] *)
Record m_inode : Type := mk_inode {
  i_mode : Z; i_uid : Z; i_size : Z; i_mtime : Z; i_gid : Z; i_nlinks : Z; i_zone : list Z;
  i_wait : option tptr; i_atime : Z; i_ctime : Z; i_dev : Z; i_num : Z; i_count : Z;
  i_lock : Z; i_dirt : Z; i_pipe : Z; i_mount : Z; i_seek : Z; i_update : Z
}.
#[export] Instance eta_m_inode : Eta m_inode := fun r =>
  mk_inode (i_mode r) (i_uid r) (i_size r) (i_mtime r) (i_gid r) (i_nlinks r) (i_zone r) 
    (i_wait r) (i_atime r) (i_ctime r) (i_dev r) (i_num r) (i_count r) (i_lock r) (i_dirt r) 
    (i_pipe r) (i_mount r) (i_seek r) (i_update r).

(** [struct file] *)
Record file : Type := mk_file {
  f_mode : Z; f_flags : Z; f_count : Z; f_inode : option nat; f_pos : Z
}.
#[export] Instance eta_file : Eta file := fun r =>
  mk_file (f_mode r) (f_flags r) (f_count r) (f_inode r) (f_pos r).

(** [struct super_block] *)
Record super_block : Type := mk_super {
  s_ninodes : Z; s_nzones : Z; s_imap_blocks : Z; s_zmap_blocks : Z; s_firstdatazone : Z;
  s_log_zone_size : Z; s_max_size : Z; s_magic : Z; s_imap : list (option nat); s_zmap : list (option nat);
  s_dev : Z; s_isup : option nat; s_imount : option nat; s_time : Z; s_wait : option tptr; s_lock : Z; s_rd_only : Z; s_dirt : Z
}.
#[export] Instance eta_super_block : Eta super_block := fun r =>
  mk_super (s_ninodes r) (s_nzones r) (s_imap_blocks r) (s_zmap_blocks r) (s_firstdatazone r) 
    (s_log_zone_size r) (s_max_size r) (s_magic r) (s_imap r) (s_zmap r) (s_dev r) (s_isup r) 
    (s_imount r) (s_time r) (s_wait r) (s_lock r) (s_rd_only r) (s_dirt r).

(** ** kernel/blk_drv/blk.h *)

Definition NR_BLK_DEV : nat := 7.
Definition NR_REQUEST : nat := 32.

(** [struct request]; the data pointer [buffer] is into the data of [bh]: [r_buffer] is its offset there *)
Record request : Type := mk_request {
  r_dev : Z; r_cmd : Z; r_errors : Z; r_sector : Z; r_nr_sectors : Z; r_buffer : Z; r_waiting : option tptr; r_bh : option nat; r_next : option nat
}.
#[export] Instance eta_request : Eta request := fun r =>
  mk_request (r_dev r) (r_cmd r) (r_errors r) (r_sector r) (r_nr_sectors r) (r_buffer r) (r_waiting r) 
    (r_bh r) (r_next r).

(** the block device drivers: the values [request_fn] takes *)
Inductive driver : Type := do_rd_request_fn | do_fd_request_fn | do_hd_request_fn.
#[export] Instance driver_eq_dec : EqDecision driver.
Proof. solve_decision. Defined.

(** [struct blk_dev_struct] *)
Record blk_dev_struct : Type := mk_blk_dev {
  request_fn : option driver; current_request : option nat
}.
#[export] Instance eta_blk_dev_struct : Eta blk_dev_struct := fun r =>
  mk_blk_dev (request_fn r) (current_request r).

(** ** include/linux/tty.h, include/termios.h *)

Definition TTY_BUF_SIZE : Z := 1024.

(** [struct tty_queue] *)
Record tty_queue : Type := mk_queue {
  q_data : Z; q_head : Z; q_tail : Z; q_proc_list : option tptr; q_buf : list Z
}.
#[export] Instance eta_tty_queue : Eta tty_queue := fun r =>
  mk_queue (q_data r) (q_head r) (q_tail r) (q_proc_list r) (q_buf r).

(** [struct termios] *)
Record termios : Type := mk_termios {
  c_iflag : Z; c_oflag : Z; c_cflag : Z; c_lflag : Z; c_line : Z; c_cc : list Z
}.
#[export] Instance eta_termios : Eta termios := fun r =>
  mk_termios (c_iflag r) (c_oflag r) (c_cflag r) (c_lflag r) (c_line r) (c_cc r).

(** [struct tty_struct]; the function [write] is fixed by the index in [tty_table] *)
Record tty_struct : Type := mk_tty {
  tty_termios : termios; tty_pgrp : Z; tty_stopped : Z; tty_read_q : tty_queue; tty_write_q : tty_queue; tty_secondary : tty_queue
}.
#[export] Instance eta_tty_struct : Eta tty_struct := fun r =>
  mk_tty (tty_termios r) (tty_pgrp r) (tty_stopped r) (tty_read_q r) (tty_write_q r) 
    (tty_secondary r).

(** ** The state, one record per part of the kernel *)

(** mm/memory.cc: the page use counts, the end of memory, the 32-bit words of physical memory (an address that is absent holds 0) and the direction flag of the processor *)
Record mm_st : Type := mk_mm {
  mem_map : list Z; HIGH_MEMORY : Z; phys : gmap Z Z; df : bool
}.
#[export] Instance eta_mm_st : Eta mm_st := fun r =>
  mk_mm (mem_map r) (HIGH_MEMORY r) (phys r) (df r).

(** [struct timer_list] of kernel/sched.cc; functions are code addresses *)
Record timer : Type := mk_timer {
  tm_jiffies : Z; tm_fn : option Z; tm_next : option nat
}.
#[export] Instance eta_timer : Eta timer := fun r =>
  mk_timer (tm_jiffies r) (tm_fn r) (tm_next r).

(** kernel/sched.cc and kernel/fork.cc: [task] is the table of pointers, [tmem] the [task_struct]s by address *)
Record sched_st : Type := mk_sched {
  task : list (option tptr); tmem : gmap Z task_struct; current : tptr;
  jiffies : Z; startup_time : Z; last_pid : Z; last_task_used_math : option tptr;
  timer_list : list timer; next_timer : option nat;
  wait_motor : list (option tptr); mon_timer : list Z; moff_timer : list Z; current_DOR : Z; selected : Z; beepcount : Z;
  gdt : list desc_struct
}.
#[export] Instance eta_sched_st : Eta sched_st := fun r =>
  mk_sched (task r) (tmem r) (current r) (jiffies r) (startup_time r) (last_pid r) 
    (last_task_used_math r) (timer_list r) (next_timer r) (wait_motor r) (mon_timer r) 
    (moff_timer r) (current_DOR r) (selected r) (beepcount r) (gdt r).

(** fs/: the buffer heads from [start_buffer] on, the inode, super block and file tables *)
Record fs_st : Type := mk_fs {
  bufs : list buffer_head; hash_table : list (option nat); free_list : option nat; buffer_wait : option tptr;
  inode_table : list m_inode; last_inode : nat; super_blocks : list super_block; ROOT_DEV : Z; file_table : list file
}.
#[export] Instance eta_fs_st : Eta fs_st := fun r =>
  mk_fs (bufs r) (hash_table r) (free_list r) (buffer_wait r) (inode_table r) (last_inode r) 
    (super_blocks r) (ROOT_DEV r) (file_table r).

(** kernel/blk_drv/: the request table, the devices, and the bytes of the ram disk from [rd_start] on *)
Record blk_st : Type := mk_blk {
  requests : list request; blk_dev : list blk_dev_struct; wait_for_request : option tptr;
  rd_data : list Z; rd_start : Z; rd_length : Z
}.
#[export] Instance eta_blk_st : Eta blk_st := fun r =>
  mk_blk (requests r) (blk_dev r) (wait_for_request r) (rd_data r) (rd_start r) (rd_length r).

(** kernel/blk_drv/hd.cc: the drives, their partitions, and what the next interrupt does *)
Record hd_i_struct : Type := mk_hd_i {
  hdi_head : Z; hdi_sect : Z; hdi_cyl : Z; hdi_wpcom : Z; hdi_lzone : Z; hdi_ctl : Z
}.
#[export] Instance eta_hd_i_struct : Eta hd_i_struct := fun r =>
  mk_hd_i (hdi_head r) (hdi_sect r) (hdi_cyl r) (hdi_wpcom r) (hdi_lzone r) (hdi_ctl r).
Record hd_struct : Type := mk_hd_part { start_sect : Z; nr_sects : Z }.
#[export] Instance eta_hd_struct : Eta hd_struct := fun r => mk_hd_part (start_sect r) (nr_sects r).
Inductive hd_intr : Type := read_intr_fn | write_intr_fn | recal_intr_fn.
Record hd_st : Type := mk_hd {
  do_hd : option hd_intr; hd_recalibrate : Z; hd_reset : Z; NR_HD : Z;
  hd_info : list hd_i_struct; hd : list hd_struct; callable : Z
}.
#[export] Instance eta_hd_st : Eta hd_st := fun r =>
  mk_hd (do_hd r) (hd_recalibrate r) (hd_reset r) (NR_HD r) (hd_info r) (hd r) (callable r).

(** kernel/blk_drv/floppy.cc: the variables that describe the current transfer *)
Inductive fd_intr : Type := rw_interrupt_fn | seek_interrupt_fn | recal_interrupt_fn | reset_interrupt_fn.
Record fd_st : Type := mk_fd {
  do_floppy : option fd_intr; fd_recalibrate : Z; fd_reset : Z; fd_seek : Z; reply_buffer : list Z;
  cur_spec1 : Z; cur_rate : Z; floppy : nat; current_drive : Z; fd_sector : Z; fd_head : Z; fd_track : Z;
  seek_track : Z; current_track : Z; fd_command : Z; wait_on_floppy_select : option tptr; tmp_floppy_area : list Z
}.
#[export] Instance eta_fd_st : Eta fd_st := fun r =>
  mk_fd (do_floppy r) (fd_recalibrate r) (fd_reset r) (fd_seek r) (reply_buffer r) (cur_spec1 r) (cur_rate r)
    (floppy r) (current_drive r) (fd_sector r) (fd_head r) (fd_track r) (seek_track r) (current_track r)
    (fd_command r) (wait_on_floppy_select r) (tmp_floppy_area r).

(** kernel/chr_drv/console.cc: the display, the cursor, the state of the escape
    sequences; [vram] holds the 16-bit cells of the video memory by address.
    [cr_flag] is the static variable of [tty_write] *)
Record con_st : Type := mk_con {
  video_type : Z; video_num_columns : Z; video_size_row : Z; video_num_lines : Z; video_mem_start : Z;
  video_mem_end : Z; video_port_reg : Z; video_port_val : Z; video_erase_char : Z;
  origin : Z; scr_end : Z; pos : Z; cur_x : Z; cur_y : Z; top : Z; bottom : Z;
  con_state : Z; npar : nat; par : list Z; ques : Z; attr : Z; saved_x : Z; saved_y : Z;
  vram : gmap Z Z; cr_flag : Z
}.
#[export] Instance eta_con_st : Eta con_st := fun r =>
  mk_con (video_type r) (video_num_columns r) (video_size_row r) (video_num_lines r) (video_mem_start r)
    (video_mem_end r) (video_port_reg r) (video_port_val r) (video_erase_char r) (origin r) (scr_end r) (pos r)
    (cur_x r) (cur_y r) (top r) (bottom r) (con_state r) (npar r) (par r) (ques r) (attr r) (saved_x r)
    (saved_y r) (vram r) (cr_flag r).

(** what the kernel sends to the outside *)
Inductive event : Type :=
| EvPrintk (fmt : string) (args : list Z)  (* a message: its format and its integer arguments *)
| EvOutb (value port : Z)        (* a byte to an I/O port *)
| EvOutw (value port : Z)        (* a 16-bit word to an I/O port *)
| EvIn (port : Z)                (* an I/O port is read *)
| EvCall (fn : Z).               (* a call through a function pointer *)

(** the kernel; [umem] is the data segment of the current process (what [fs] selects), by bytes *)
Record kst : Type := mk_kst {
  mm : mm_st; sched : sched_st; fsys : fs_st; blk : blk_st; hdd : hd_st; fdd : fd_st;
  con : con_st; tty_table : list tty_struct; umem : gmap Z Z; log : list event
}.
#[export] Instance eta_kst : Eta kst := fun r =>
  mk_kst (mm r) (sched r) (fsys r) (blk r) (hdd r) (fdd r) (con r) (tty_table r) (umem r) (log r).

Definition K : Type -> Type := M kst.

(** ** The world outside the code

    [env_resume]: what the other tasks and the interrupt handlers do to the
    kernel state between the moment a task gives up the processor and the moment
    it runs again.  [env_in]: what an I/O port reads.  [env_call]: the effect of a call through a
    timer's function pointer.  [env_fuel] bounds the number of rounds of the
    loops that wait.  Nothing is assumed of them here; a theorem that needs an
    assumption states it. *)
Class Env : Type := {
  env_fuel : nat;
  env_resume : kst -> kst;
  env_in : kst -> Z -> Z;
  env_call : Z -> kst -> kst
}.

(** a machine where nothing else runs *)
Definition quiet_env (n : nat) : Env :=
  {| env_fuel := n; env_resume := id; env_in := fun _ _ => 0; env_call := fun _ => id |}.

(** ** Access to the tables *)

Definition on_mm (f : mm_st -> mm_st) : K unit := modify (fun s => s <| mm ::= f |>).
Definition on_sched (f : sched_st -> sched_st) : K unit := modify (fun s => s <| sched ::= f |>).
Definition on_fs (f : fs_st -> fs_st) : K unit := modify (fun s => s <| fsys ::= f |>).
Definition on_hd (f : hd_st -> hd_st) : K unit := modify (fun s => s <| hdd ::= f |>).
Definition on_fd (f : fd_st -> fd_st) : K unit := modify (fun s => s <| fdd ::= f |>).
Definition on_con (f : con_st -> con_st) : K unit := modify (fun s => s <| con ::= f |>).
Definition on_blk (f : blk_st -> blk_st) : K unit := modify (fun s => s <| blk ::= f |>).

Definition zoom_mm {A} : M mm_st A -> K A := zoom mm (fun m s => s <| mm := m |>).
Definition zoom_sched {A} : M sched_st A -> K A := zoom sched (fun c s => s <| sched := c |>).

Definition printk (fmt : string) (args : list Z) : K unit :=
  modify (fun s => s <| log ::= cons (EvPrintk fmt args) |>).
(* a port is read: [env_in] sees the log, so two reads need not agree *)
Definition inb `{Env} (port : Z) : K Z :=
  s ← gets id; modify (fun s => s <| log ::= cons (EvIn port) |>) ;; mret (u8 (env_in s port)).
Definition inw `{Env} (port : Z) : K Z :=
  s ← gets id; modify (fun s => s <| log ::= cons (EvIn port) |>) ;; mret (u16 (env_in s port)).
Definition outw (v port : Z) : K unit := modify (fun s => s <| log ::= cons (EvOutw (u16 v) port) |>).
Definition outb (v port : Z) : K unit := modify (fun s => s <| log ::= cons (EvOutb (u8 v) port) |>).

(** a table entry: reading outside the table is a fault *)
Definition getbh (b : nat) : K buffer_head := s ← gets id; deref (bufs (fsys s) !! b).
Definition setbh (b : nat) (f : buffer_head -> buffer_head) : K unit :=
  x ← getbh b; on_fs (fun s => s <| bufs ::= <[b := f x]> |>).
Definition getino (i : nat) : K m_inode := s ← gets id; deref (inode_table (fsys s) !! i).
Definition setino (i : nat) (f : m_inode -> m_inode) : K unit :=
  x ← getino i; on_fs (fun s => s <| inode_table ::= <[i := f x]> |>).
Definition getsb (n : nat) : K super_block := s ← gets id; deref (super_blocks (fsys s) !! n).
Definition setsb (n : nat) (f : super_block -> super_block) : K unit :=
  x ← getsb n; on_fs (fun s => s <| super_blocks ::= <[n := f x]> |>).
Definition getfile (n : nat) : K file := s ← gets id; deref (file_table (fsys s) !! n).
Definition setfile (n : nat) (f : file -> file) : K unit :=
  x ← getfile n; on_fs (fun s => s <| file_table ::= <[n := f x]> |>).
Definition getreq (n : nat) : K request := s ← gets id; deref (requests (blk s) !! n).
Definition setreq (n : nat) (f : request -> request) : K unit :=
  x ← getreq n; on_blk (fun s => s <| requests ::= <[n := f x]> |>).
Definition gettask (p : tptr) : K task_struct := s ← gets id; deref (tmem (sched s) !! p).
Definition settask (p : tptr) (f : task_struct -> task_struct) : K unit :=
  t ← gettask p; on_sched (fun s => s <| tmem ::= <[p := f t]> |>).

(** [current->...] *)
Definition me : K task_struct := s ← gets id; gettask (current (sched s)).
Definition setme (f : task_struct -> task_struct) : K unit :=
  s ← gets id; settask (current (sched s)) f.

(** [#define suser() (current->euid == 0)] and [CURRENT_TIME] *)
Definition suser : K bool := t ← me; mret (t_euid t =? 0).
Definition CURRENT_TIME : K Z :=
  gets (fun s => s32 (startup_time (sched s) + Z.quot (jiffies (sched s)) HZ)).

(** asm/segment.h: the data segment of the current process *)
Definition get_fs_byte (a : Z) : K Z := gets (fun s => default 0 (umem s !! u32 a)).
Definition put_fs_byte (v a : Z) : K unit :=
  modify (fun s => s <| umem ::= insert (u32 a) (u8 v) |>).
Definition get_fs_long (a : Z) : K Z :=
  b0 ← get_fs_byte a; b1 ← get_fs_byte (a + 1); b2 ← get_fs_byte (a + 2); b3 ← get_fs_byte (a + 3);
  mret (b0 + 2 ^ 8 * b1 + 2 ^ 16 * b2 + 2 ^ 24 * b3).
Definition put_fs_long (v a : Z) : K unit :=
  put_fs_byte v a ;; put_fs_byte (Z.shiftr v 8) (a + 1) ;;
  put_fs_byte (Z.shiftr v 16) (a + 2) ;; put_fs_byte (Z.shiftr v 24) (a + 3).

(** ** Wait queues: the [struct task_struct *] variables tasks sleep on *)
Inductive waitq : Type :=
| WqBuffer (b : nat) | WqInode (i : nat) | WqSuper (n : nat)
| WqBufferWait | WqRequest | WqMotor (n : nat)
| WqReqWaiting (r : nat) | WqFloppySelect
| WqTty (t : nat) (q : nat).       (* q = 0: read_q, 1: write_q, 2: secondary *)

Definition tty_q (q : nat) (t : tty_struct) : tty_queue :=
  match q with 0%nat => tty_read_q t | 1%nat => tty_write_q t | _ => tty_secondary t end.
Definition set_tty_q (q : nat) (f : tty_queue -> tty_queue) (t : tty_struct) : tty_struct :=
  match q with
  | 0%nat => t <| tty_read_q ::= f |> | 1%nat => t <| tty_write_q ::= f |>
  | _ => t <| tty_secondary ::= f |>
  end.

Definition read_wq (s : kst) (q : waitq) : option tptr :=
  match q with
  | WqBuffer b => bufs (fsys s) !! b ≫= b_wait
  | WqInode i => inode_table (fsys s) !! i ≫= i_wait
  | WqSuper n => super_blocks (fsys s) !! n ≫= s_wait
  | WqBufferWait => buffer_wait (fsys s)
  | WqRequest => wait_for_request (blk s)
  | WqMotor n => wait_motor (sched s) !! n ≫= id
  | WqReqWaiting r => requests (blk s) !! r ≫= r_waiting
  | WqFloppySelect => wait_on_floppy_select (fdd s)
  | WqTty t q => tty_table s !! t ≫= (fun t => q_proc_list (tty_q q t))
  end.
Definition write_wq (q : waitq) (p : option tptr) (s : kst) : kst :=
  match q with
  | WqBuffer b => s <| fsys ::= fun f => f <| bufs ::= alter (fun x => x <| b_wait := p |>) b |> |>
  | WqInode i => s <| fsys ::= fun f => f <| inode_table ::= alter (fun x => x <| i_wait := p |>) i |> |>
  | WqSuper n => s <| fsys ::= fun f => f <| super_blocks ::= alter (fun x => x <| s_wait := p |>) n |> |>
  | WqBufferWait => s <| fsys ::= fun f => f <| buffer_wait := p |> |>
  | WqRequest => s <| blk ::= fun f => f <| wait_for_request := p |> |>
  | WqMotor n => s <| sched ::= fun c => c <| wait_motor ::= alter (fun _ => p) n |> |>
  | WqReqWaiting r => s <| blk ::= fun f => f <| requests ::= alter (fun x => x <| r_waiting := p |>) r |> |>
  | WqFloppySelect => s <| fdd ::= fun f => f <| wait_on_floppy_select := p |> |>
  | WqTty t q => s <| tty_table ::= alter (set_tty_q q (fun x => x <| q_proc_list := p |>)) t |>
  end.

(** ** The variables of the kernel before [kmain]: the .bss is zero *)
Definition zero_inode : m_inode := mk_inode 0 0 0 0 0 0 (replicate 9 0) None 0 0 0 0 0 0 0 0 0 0 0.
Definition zero_file : file := mk_file 0 0 0 None 0.
Definition zero_super : super_block :=
  mk_super 0 0 0 0 0 0 0 0 (replicate 8 None) (replicate 8 None) 0 None None 0 None 0 0 0.
Definition zero_request : request := mk_request 0 0 0 0 0 0 None None None.
Definition boot_mm : mm_st := mk_mm (replicate 3840 0) 0 ∅ false.
Definition boot_fs : fs_st :=
  {| bufs := []; hash_table := replicate NR_HASH None; free_list := None; buffer_wait := None;
     inode_table := replicate NR_INODE zero_inode; last_inode := 0%nat;
     super_blocks := replicate NR_SUPER zero_super; ROOT_DEV := 0;
     file_table := replicate NR_FILE zero_file |}.
Definition boot_blk : blk_st :=
  {| requests := replicate NR_REQUEST zero_request;
     blk_dev := replicate NR_BLK_DEV (mk_blk_dev None None);
     wait_for_request := None; rd_data := []; rd_start := 0; rd_length := 0 |}.
Definition boot_hd : hd_st :=
  {| do_hd := None; hd_recalibrate := 1; hd_reset := 1; NR_HD := 0;
     hd_info := replicate 2 (mk_hd_i 0 0 0 0 0 0); hd := replicate 10 (mk_hd_part 0 0); callable := 1 |}.
Definition boot_fd : fd_st :=
  {| do_floppy := None; fd_recalibrate := 0; fd_reset := 0; fd_seek := 0; reply_buffer := replicate 7 0;
     cur_spec1 := -1; cur_rate := -1; floppy := 0; current_drive := 0; fd_sector := 0; fd_head := 0;
     fd_track := 0; seek_track := 0; current_track := 255; fd_command := 0; wait_on_floppy_select := None;
     tmp_floppy_area := replicate 1024 0 |}.
Definition boot_con : con_st :=
  {| video_type := 0; video_num_columns := 0; video_size_row := 0; video_num_lines := 0; video_mem_start := 0;
     video_mem_end := 0; video_port_reg := 0; video_port_val := 0; video_erase_char := 0; origin := 0; scr_end := 0;
     pos := 0; cur_x := 0; cur_y := 0; top := 0; bottom := 0; con_state := 0; npar := 0; par := replicate 16 0;
     ques := 0; attr := 0x07; saved_x := 0; saved_y := 0; vram := ∅; cr_flag := 0 |}.

(** [tty_table] as it is initialised: the console and two serial lines *)
Definition INIT_C_CC : list Z := [3; 28; 127; 21; 4; 0; 1; 0; 17; 19; 26; 0; 18; 15; 23; 22; 0].
Definition zero_queue (data : Z) : tty_queue := mk_queue data 0 0 None (replicate 1024 0).
Definition boot_tty : list tty_struct :=
  let serial p := mk_tty (mk_termios 0 0 0x3B 0 0 INIT_C_CC) 0 0 (zero_queue p) (zero_queue p) (zero_queue 0) in
  [ mk_tty (mk_termios 0x100 0x5 0 0xA0B 0 INIT_C_CC) 0 0 (zero_queue 0) (zero_queue 0) (zero_queue 0);
    serial 0x3f8; serial 0x2f8 ].
