(* ===== verification/Sched.v ===== *)
(** * kernel/sched.cc: the scheduler, wait queues, timers and floppy motors *)

From S2P Require Import Prelude State.

Definition init_task : tptr := 0x201e0.    (* the address in System.map *)
Definition LATCH : Z := 1193180 / HZ.

Definition _S (nr : Z) : Z := bit (nr - 1).
Definition _BLOCKABLE : Z := not32 (Z.lor (_S SIGKILL) (_S SIGSTOP)).

(** [for (p = &LAST_TASK ; p > &FIRST_TASK ; --p)] *)
Definition tasks_down : list nat := rev (seq 1 (NR_TASKS - 1)).

(** ** Static initialisation *)

Definition FIRST_TSS_ENTRY : Z := 4.
Definition FIRST_LDT_ENTRY : Z := FIRST_TSS_ENTRY + 1.
Definition _TSS (n : Z) : Z := Z.shiftl n 4 + Z.shiftl FIRST_TSS_ENTRY 3.
Definition _LDT (n : Z) : Z := Z.shiftl n 4 + Z.shiftl FIRST_LDT_ENTRY 3.

(** [INIT_TASK]: task 0 as the compiler lays it out *)
Definition INIT_TASK : task_struct :=
  {| t_state := 0; t_counter := 15; t_priority := 15; t_signal := 0;
     t_sigaction := replicate 32 (mk_sigaction 0 0 0 0); t_blocked := 0;
     t_exit_code := 0; t_start_code := 0; t_end_code := 0; t_end_data := 0; t_brk := 0;
     t_start_stack := 0;
     t_pid := 0; t_father := -1; t_pgrp := 0; t_session := 0; t_leader := 0;
     t_uid := 0; t_euid := 0; t_suid := 0; t_gid := 0; t_egid := 0; t_sgid := 0;
     t_alarm := 0; t_utime := 0; t_stime := 0; t_cutime := 0; t_cstime := 0; t_start_time := 0;
     t_used_math := 0; t_tty := -1; t_umask := 22;
     t_pwd := None; t_root := None; t_executable := None; t_close_on_exec := 0;
     t_filp := replicate NR_OPEN None;
     t_ldt := [mk_desc 0 0; mk_desc 0x9f 0xc0fa00; mk_desc 0x9f 0xc0f200];
     t_tss := mk_tss 0 (4096 + init_task) 0x10 0 0 0 0 0 0 0 0 0 0 0 0 0 0 0
                     0x17 0x17 0x17 0x17 0x17 0x17 (_LDT 0) 0x80000000 |}.

(** the scheduler's variables before the first instruction of [kmain] *)
Definition boot_sched : sched_st :=
  {| task := Some init_task :: replicate (NR_TASKS - 1) None;
     tmem := {[init_task := INIT_TASK]}; current := init_task;
     jiffies := 0; startup_time := 0; last_pid := 0; last_task_used_math := None;
     timer_list := replicate 64 (mk_timer 0 None None); next_timer := None;
     wait_motor := replicate 4 None; mon_timer := replicate 4 0; moff_timer := replicate 4 0;
     current_DOR := 0x0C; selected := 0; beepcount := 0;
     gdt := replicate 256 (mk_desc 0 0) |}.

Definition boot_kst : kst :=
  {| mm := boot_mm; sched := boot_sched; fsys := boot_fs; blk := boot_blk; hdd := boot_hd; fdd := boot_fd;
     con := boot_con; tty_table := boot_tty; umem := ∅; log := [] |}.

(** two tasks besides task 0: one that has used up its quantum, and one that
    waits with a signal pending *)
Definition two_tasks : sched_st :=
  boot_sched
    <| task ::= fun l => <[2%nat := Some 0x3000]> (<[1%nat := Some 0x2000]> l) |>
    <| tmem ::= fun m => <[0x2000 := INIT_TASK <| t_pid := 1 |> <| t_counter := 0 |>]>
        (<[0x3000 := INIT_TASK <| t_pid := 2 |> <| t_counter := 0 |> <| t_state := TASK_INTERRUPTIBLE |>
                               <| t_signal := 2 |>]> m) |>.

(** ** The choice of the next task *)
Section Pick.
Definition slot (s : sched_st) (i : nat) : option tptr := task s !! i ≫= id.
Definition get_task (p : tptr) : M sched_st task_struct := s ← gets id; deref (tmem s !! p).
Definition set_task (p : tptr) (f : task_struct -> task_struct) : M sched_st unit :=
  t ← get_task p; modify (fun s => s <| tmem ::= <[p := f t]> |>).

Definition each_task (f : tptr -> M sched_st unit) : M sched_st unit :=
  for_each tasks_down (fun i =>
    o ← gets (fun s => slot s i);
    match o with Some p => f p | None => mret tt end).

(** the alarm and signal check of one task *)
Definition check_signals (p : tptr) : M sched_st unit :=
  t ← get_task p; now ← gets jiffies;
  when (nz (t_alarm t) && (t_alarm t <? now))
    (set_task p (fun t => t <| t_signal ::= fun x => Z.lor x (bit (SIGALRM - 1)) |> <| t_alarm := 0 |>)) ;;
  t ← get_task p;
  when (nz (Z.land (t_signal t) (not32 (Z.land _BLOCKABLE (t_blocked t))))
        && (t_state t =? TASK_INTERRUPTIBLE))
    (set_task p (fun t => t <| t_state := TASK_RUNNING |>)).

(** the body of the [while (--i)] loop *)
Definition scan_step (cn : Z * nat) (i : nat) : M sched_st (Z * nat) :=
  let '(c, next) := cn in
  o ← gets (fun s => slot s i);
  match o with
  | None => mret (c, next)
  | Some p =>
      t ← get_task p;
      mret (if (t_state t =? TASK_RUNNING) && (c <? t_counter t)
            then (t_counter t, i) else (c, next))
  end.

(** one pass: the largest counter and its task number *)
Definition scan : M sched_st (Z * nat) := for_fold tasks_down (-1, 0%nat) scan_step.

Definition recharge (p : tptr) : M sched_st unit :=
  set_task p (fun t => t <| t_counter := s32 (Z.shiftr (t_counter t) 1 + t_priority t) |>).

(** [schedule] up to [switch_to(next)] *)
Definition schedule_pick (fuel : nat) : M sched_st nat :=
  each_task check_signals ;;
  loop fuel (fun _ : unit =>
    '(c, next) ← scan;
    if nz c then mret (inr next) else each_task recharge ;; mret (inl tt)) tt.
End Pick.

Section Sched.
Context {E : Env}.

(** [switch_to(n)]: nothing when [n] is already running; otherwise the other
    tasks run until the processor comes back to this one *)
Definition switch_to (n : nat) : K unit :=
  s ← gets sched;
  p ← deref (slot s n);
  if p =? current s then mret tt
  else
    on_sched (fun c => c <| current := p |>) ;;
    modify env_resume ;;
    on_sched (fun c => c <| current := current s |>).

Definition schedule : K unit :=
  next ← zoom_sched (schedule_pick env_fuel); switch_to next.

Definition sys_pause : K Z :=
  setme (fun t => t <| t_state := TASK_INTERRUPTIBLE |>) ;; schedule ;; mret 0.

(** [sleep_on] before and after its call of [schedule] *)
Definition sleep_on_enter (q : waitq) : K (option tptr) :=
  s ← gets id;
  if current (sched s) =? init_task then panic "task[0] trying to sleep" else
  modify (write_wq q (Some (current (sched s)))) ;;
  setme (fun t => t <| t_state := TASK_UNINTERRUPTIBLE |>) ;;
  mret (read_wq s q).
Definition sleep_on_leave (tmp : option tptr) : K unit :=
  match tmp with
  | Some t => settask t (fun t => t <| t_state := 0 |>)
  | None => mret tt
  end.
Definition sleep_on (q : waitq) : K unit :=
  tmp ← sleep_on_enter q; schedule ;; sleep_on_leave tmp.

Definition interruptible_sleep_on (q : waitq) : K unit :=
  s ← gets id;
  if current (sched s) =? init_task then panic "task[0] trying to sleep" else
  let tmp := read_wq s q in
  modify (write_wq q (Some (current (sched s)))) ;;
  loop env_fuel (fun _ : unit =>
    setme (fun t => t <| t_state := TASK_INTERRUPTIBLE |>) ;;
    schedule ;;
    s' ← gets id;
    match read_wq s' q with
    | Some h =>
        if h =? current (sched s') then mret (inr tt)
        else settask h (fun t => t <| t_state := 0 |>) ;; mret (inl tt)
    | None => mret (inr tt)
    end) tt ;;
  modify (write_wq q None) ;;
  sleep_on_leave tmp.

Definition wake_up (q : waitq) : K unit :=
  s ← gets id;
  match read_wq s q with
  | Some p => settask p (fun t => t <| t_state := 0 |>) ;; modify (write_wq q None)
  | None => mret tt
  end.

(** ** Coprocessor owner *)
Definition math_state_restore : K unit :=
  s ← gets sched;
  if decide (last_task_used_math s = Some (current s)) then mret tt else
  on_sched (fun c => c <| last_task_used_math := Some (current c) |>) ;;
  t ← me;
  unless (nz (t_used_math t)) (setme (fun t => t <| t_used_math := 1 |>)).

(** ** Floppy motors *)
Definition ticks_to_floppy_on (nr : Z) : K Z :=
  let mask := u8 (Z.shiftl 0x10 nr) in
  if 3 <? nr then panic "floppy_on: nr>3" else
  let n := Z.to_nat nr in
  on_sched (fun c => c <| moff_timer ::= <[n := 10000]> |>) ;;
  c ← gets sched;
  let mask := Z.lor mask (current_DOR c) in
  let mask := if nz (selected c) then mask else Z.lor (Z.land mask 0xFC) nr in
  when (negb (mask =? current_DOR c))
    (outb mask 0x3f2 ;;
     m ← deref (mon_timer c !! n);
     (if nz (Z.land (Z.lxor mask (current_DOR c)) 0xf0)
      then on_sched (fun c => c <| mon_timer ::= <[n := HZ / 2]> |>)
      else when (m <? 2) (on_sched (fun c => c <| mon_timer ::= <[n := 2]> |>))) ;;
     on_sched (fun c => c <| current_DOR := mask |>)) ;;
  c ← gets sched; deref (mon_timer c !! n).

Definition floppy_on (nr : Z) : K unit :=
  loop env_fuel (fun _ : unit =>
    m ← ticks_to_floppy_on nr;
    if nz m then sleep_on (WqMotor (Z.to_nat nr)) ;; mret (inl tt) else mret (inr tt)) tt.

Definition floppy_off (nr : Z) : K unit :=
  on_sched (fun c => c <| moff_timer ::= <[Z.to_nat nr := 3 * HZ]> |>).

Definition do_floppy_timer : K unit :=
  for_each (seq 0 4) (fun i =>
    let mask := u8 (Z.shiftl 0x10 (Z.of_nat i)) in
    c ← gets sched;
    if negb (nz (Z.land mask (current_DOR c))) then mret tt else
    mon ← deref (mon_timer c !! i); moff ← deref (moff_timer c !! i);
    if nz mon then
      on_sched (fun c => c <| mon_timer ::= <[i := s32 (mon - 1)]> |>) ;;
      when (s32 (mon - 1) =? 0) (wake_up (WqMotor i))
    else if negb (nz moff) then
      on_sched (fun c => c <| current_DOR := Z.land (current_DOR c) (Z.lxor mask 0xff) |>) ;;
      c ← gets sched; outb (current_DOR c) 0x3f2
    else on_sched (fun c => c <| moff_timer ::= <[i := s32 (moff - 1)]> |>)).

(** ** Timers *)
Definition TIME_REQUESTS : nat := 64.

Definition gettimer (i : nat) : M sched_st timer := s ← gets id; deref (timer_list s !! i).
Definition settimer (i : nat) (f : timer -> timer) : M sched_st unit :=
  t ← gettimer i; modify (fun s => s <| timer_list ::= <[i := f t]> |>).

Definition call (fn : Z) : K unit :=
  modify (fun s => s <| log ::= cons (EvCall fn) |>) ;; modify (env_call fn).

(** [for (p = timer_list ; ...) if (!p->fn) break;] *)
Definition free_timer (s : sched_st) : option nat :=
  fst <$> list_find (fun t => tm_fn t = None) (timer_list s).

(** one round of the loop that moves the new entry behind the earlier ones *)
Definition sift_timer (p : nat) : M sched_st (nat + unit) :=
  t ← gettimer p;
  match tm_next t with
  | None => mret (inr tt)
  | Some n =>
      tn ← gettimer n;
      if tm_jiffies tn <? tm_jiffies t then
        settimer p (fun t => t <| tm_jiffies ::= fun j => s32 (j - tm_jiffies tn) |>) ;;
        t ← gettimer p;
        let fn := tm_fn t in
        settimer p (fun t => t <| tm_fn := tm_fn tn |>) ;;
        settimer n (fun t => t <| tm_fn := fn |>) ;;
        let jiffies := tm_jiffies t in
        settimer p (fun t => t <| tm_jiffies := tm_jiffies tn |>) ;;
        settimer n (fun t => t <| tm_jiffies := jiffies |>) ;;
        mret (inl n)
      else mret (inr tt)
  end.

Definition insert_timer (jif : Z) (fn : Z) : M sched_st unit :=
  o ← gets free_timer;
  match o with
  | None => panic "No more time requests free"
  | Some p =>
      nt ← gets next_timer;
      settimer p (fun _ => mk_timer jif (Some fn) nt) ;;
      modify (fun s => s <| next_timer := Some p |>) ;;
      loop (S TIME_REQUESTS) sift_timer p
  end.

Definition add_timer (jif : Z) (fn : option Z) : K unit :=
  match fn with
  | None => mret tt
  | Some f => if jif <=? 0 then call f else zoom_sched (insert_timer jif f)
  end.

Definition sysbeepstop : K unit :=
  v ← inb 0x61; outb (Z.land v 0xFC) 0x61.

(** the expired timers at the head of the list are removed and called *)
Definition run_timer : K (unit + unit) :=
  s ← gets sched;
  match next_timer s with
  | None => mret (inr tt)
  | Some p =>
      t ← zoom_sched (gettimer p);
      if tm_jiffies t <=? 0 then
        zoom_sched (settimer p (fun t => t <| tm_fn := None |>)) ;;
        on_sched (fun c => c <| next_timer := tm_next t |>) ;;
        f ← deref (tm_fn t); call f ;; mret (inl tt)
      else mret (inr tt)
  end.
Definition run_timers : K unit := loop (S TIME_REQUESTS) (fun _ => run_timer) tt.

(** the timer part of [do_timer] *)
Definition tick_timers : K unit :=
  s ← gets sched;
  match next_timer s with
  | Some p =>
      zoom_sched (settimer p (fun t => t <| tm_jiffies ::= fun j => s32 (j - 1) |>)) ;; run_timers
  | None => mret tt
  end.

Definition do_timer (cpl : Z) : K unit :=
  s ← gets sched;
  when (nz (beepcount s))
    (on_sched (fun c => c <| beepcount := s32 (beepcount c - 1) |>) ;;
     when (s32 (beepcount s - 1) =? 0) sysbeepstop) ;;
  (if nz cpl then setme (fun t => t <| t_utime ::= fun x => s32 (x + 1) |>)
   else setme (fun t => t <| t_stime ::= fun x => s32 (x + 1) |>)) ;;
  tick_timers ;;
  s ← gets sched;
  when (nz (Z.land (current_DOR s) 0xf0)) do_floppy_timer ;;
  setme (fun t => t <| t_counter ::= fun x => s32 (x - 1) |>) ;;
  t ← me;
  if 0 <? t_counter t then mret tt else
  setme (fun t => t <| t_counter := 0 |>) ;;
  if nz cpl then schedule else mret tt.

(** ** System calls *)
Definition sys_alarm (seconds : Z) : K Z :=
  t ← me; s ← gets sched;
  let old := t_alarm t in
  let old := if nz old then Z.quot (s32 (old - jiffies s)) HZ else old in
  setme (fun t => t <| t_alarm := if 0 <? seconds then s32 (jiffies s + s32 (HZ * seconds)) else 0 |>) ;;
  mret old.
Definition sys_getpid : K Z := t ← me; mret (t_pid t).
Definition sys_getppid : K Z := t ← me; mret (t_father t).
Definition sys_getuid : K Z := t ← me; mret (t_uid t).
Definition sys_geteuid : K Z := t ← me; mret (t_euid t).
Definition sys_getgid : K Z := t ← me; mret (t_gid t).
Definition sys_getegid : K Z := t ← me; mret (t_egid t).
Definition sys_nice (increment : Z) : K Z :=
  t ← me;
  when (0 <? s32 (t_priority t - increment))
    (setme (fun t => t <| t_priority ::= fun x => s32 (x - increment) |>)) ;;
  mret 0.
End Sched.
