(* ===== verification/SchedFacts.v ===== *)
(** * Facts about kernel/sched.cc: choice of the next task, wait queues, timers *)

From S2P Require Import Prelude State Sched.

(** ** Walking over the task table *)

(** the table is well formed: every pointer in it is the address of a
    [task_struct], and no task sits in two slots *)
Record sched_wf (s : sched_st) : Prop := {
  wf_valid : forall i p, slot s i = Some p -> is_Some (tmem s !! p);
  wf_inj : forall i j p, slot s i = Some p -> slot s j = Some p -> i = j
}.

(** [g] applied to the tasks [ps] of the store *)
Definition map_tasks (g : task_struct -> task_struct) (ps : list tptr)
  (m : gmap tptr task_struct) : gmap tptr task_struct :=
  foldl (fun m p => alter g p m) m ps.

Lemma alter_present (g : task_struct -> task_struct) (m : gmap tptr task_struct) p t :
  m !! p = Some t -> alter g p m = <[p := g t]> m.
Proof.
  intros H. apply map_eq. intros q. destruct (decide (p = q)) as [->|].
  - by rewrite lookup_insert_eq, lookup_alter_eq, H.
  - by rewrite lookup_insert_ne, lookup_alter_ne.
Qed.

Lemma map_tasks_lookup g ps m p :
  NoDup ps -> map_tasks g ps m !! p = if decide (p ∈ ps) then g <$> m !! p else m !! p.
Proof.
  revert m. induction ps as [|q ps IH]; intros m Hnd.
  - cbn. by rewrite decide_False by apply not_elem_of_nil.
  - apply NoDup_cons in Hnd as [Hq Hnd].
    change (map_tasks g (q :: ps) m) with (map_tasks g ps (alter g q m)). rewrite IH by done.
    destruct (decide (p = q)) as [->|Hpq].
    + rewrite decide_False by done. rewrite decide_True by left. by rewrite lookup_alter_eq.
    + rewrite lookup_alter_ne by done.
      destruct (decide (p ∈ ps)), (decide (p ∈ q :: ps)) as [Hin|Hin]; try done; exfalso;
        rewrite elem_of_cons in Hin; tauto.
Qed.

Definition task_ptrs (s : sched_st) (l : list nat) : list tptr := omap (slot s) l.

Lemma elem_of_task_ptrs s l p : p ∈ task_ptrs s l <-> exists i, i ∈ l /\ slot s i = Some p.
Proof. apply list_elem_of_omap. Qed.

Lemma task_ptrs_NoDup s l : sched_wf s -> NoDup l -> NoDup (task_ptrs s l).
Proof.
  intros Hwf. induction l as [|i l IH]; intros Hnd; cbn; [constructor|].
  apply NoDup_cons in Hnd as [Hi Hnd]. unfold task_ptrs in *.
  destruct (slot s i) as [p|] eqn:Hp; [|auto]. constructor; [|auto].
  intros (j & Hj & Hjp)%list_elem_of_omap. by rewrite (wf_inj _ Hwf _ _ _ Hp Hjp) in Hi.
Qed.

Lemma tasks_down_NoDup : NoDup tasks_down.
Proof. apply (bool_decide_unpack _). vm_compute. done. Qed.
Lemma elem_of_tasks_down i : i ∈ tasks_down <-> (1 <= i < NR_TASKS)%nat.
Proof.
  unfold tasks_down. rewrite list_elem_of_In, <- in_rev, in_seq. unfold NR_TASKS. lia.
Qed.

(** ** Schedule, first half: alarms and signals *)

(** what [check_signals] does to a task, as a function *)
Definition deliverable (t : task_struct) : bool :=
  nz (Z.land (t_signal t) (not32 (Z.land _BLOCKABLE (t_blocked t)))).
Definition alarm_due (now : Z) (t : task_struct) : bool := nz (t_alarm t) && (t_alarm t <? now).
Definition after_alarm (now : Z) (t : task_struct) : task_struct :=
  if alarm_due now t
  then t <| t_signal ::= fun x => Z.lor x (bit (SIGALRM - 1)) |> <| t_alarm := 0 |> else t.
Definition after_signals (now : Z) (t : task_struct) : task_struct :=
  let t := after_alarm now t in
  if deliverable t && (t_state t =? TASK_INTERRUPTIBLE) then t <| t_state := TASK_RUNNING |> else t.

Lemma set_task_run p f s t :
  tmem s !! p = Some t -> set_task p f s = Ret tt (s <| tmem ::= <[p := f t]> |>).
Proof. intros H. unfold set_task, get_task. mrun. by rewrite H. Qed.

Lemma get_task_run p s t : tmem s !! p = Some t -> get_task p s = Ret t s.
Proof. intros H. unfold get_task. mrun. by rewrite H. Qed.

Lemma sched_eta (s : sched_st) : s <| tmem := tmem s |> = s.
Proof. by destruct s. Qed.

Lemma insert_id' (s : sched_st) p t : tmem s !! p = Some t -> s <| tmem ::= <[p := t]> |> = s.
Proof. intros H. destruct s. unfold upd. cbn in *. by rewrite insert_id. Qed.

Lemma check_signals_run p s t :
  tmem s !! p = Some t ->
  check_signals p s = Ret tt (s <| tmem ::= <[p := after_signals (jiffies s) t]> |>).
Proof.
  intros H. unfold check_signals, after_signals, after_alarm, alarm_due, deliverable.
  rewrite (bind_Ret _ _ _ _ _ (get_task_run _ _ _ H)).
  rewrite (bind_Ret _ _ _ (jiffies s) s) by done.
  set (due := nz (t_alarm t) && _). destruct due; cbn [when].
  - rewrite (bind_Ret _ _ _ _ _ (set_task_run _ _ _ _ H)).
    set (t' := (_ : task_struct)). set (s' := (_ : sched_st)).
    assert (tmem s' !! p = Some t') as H' by apply lookup_insert_eq.
    rewrite (bind_Ret _ _ _ _ _ (get_task_run _ _ _ H')).
    destruct (_ && _); cbn [when].
    + rewrite (set_task_run _ _ _ _ H'). unfold s'. destruct s; unfold upd; cbn.
      by rewrite insert_insert_eq.
    + done.
  - rewrite (bind_Ret _ _ _ tt s) by done. rewrite (bind_Ret _ _ _ _ _ (get_task_run _ _ _ H)).
    destruct (_ && _); cbn [when].
    + by rewrite (set_task_run _ _ _ _ H).
    + rewrite insert_id' by done. done.
Qed.

(** a pass over the slots [l] that maps [g] over the tasks found there *)
Lemma each_slot_run (f : tptr -> M sched_st unit) (g : task_struct -> task_struct) (I : sched_st -> Prop) l s :
  (forall s m, I s -> I (s <| tmem := m |>)) ->
  (forall p s t, I s -> tmem s !! p = Some t -> f p s = Ret tt (s <| tmem ::= <[p := g t]> |>)) ->
  I s -> (forall i p, slot s i = Some p -> is_Some (tmem s !! p)) ->
  for_each l (fun i => o ← gets (fun s => slot s i);
                       match o with Some p => f p | None => mret tt end) s
  = Ret tt (s <| tmem := map_tasks g (task_ptrs s l) (tmem s) |>).
Proof.
  intros HI Hf. revert s. induction l as [|i l IH]; intros s HIs Hval.
  - cbn. by rewrite sched_eta.
  - cbn [for_each]. destruct (slot s i) as [p|] eqn:Hp.
    + destruct (Hval _ _ Hp) as [t Ht].
      erewrite bind_Ret.
      2:{ erewrite bind_Ret by done. rewrite Hp. by apply Hf. }
      rewrite IH; [|by apply HI|].
      * unfold task_ptrs. cbn. rewrite Hp. cbn. by rewrite (alter_present _ _ _ _ Ht).
      * intros j q Hq. unfold upd; cbn. destruct (decide (p = q)) as [->|].
        -- rewrite lookup_insert_eq. eauto.
        -- rewrite lookup_insert_ne by done. apply (Hval j q). apply Hq.
    + erewrite bind_Ret.
      2:{ erewrite bind_Ret by done. by rewrite Hp. }
      rewrite IH by done. unfold task_ptrs. cbn. by rewrite Hp.
Qed.

(** ** Schedule, second half: the largest counter *)

(** the runnable task of slot [i] *)
Definition runnable (s : sched_st) (i : nat) (t : task_struct) : Prop :=
  exists p, slot s i = Some p /\ tmem s !! p = Some t /\ t_state t = TASK_RUNNING.

Lemma scan_list l c next s :
  (forall i p, slot s i = Some p -> is_Some (tmem s !! p)) ->
  exists c' next', for_fold l (c, next) scan_step s = Ret (c', next') s /\
    c <= c' /\ (forall i t, i ∈ l -> runnable s i t -> t_counter t <= c') /\
    ((c', next') = (c, next) \/
     exists t, next' ∈ l /\ runnable s next' t /\ t_counter t = c' /\ c < c').
Proof.
  intros Hval. revert c next. induction l as [|i l IH]; intros c next.
  { exists c, next. split; [done|]. split; [lia|]. split; [|by left].
    intros i t Hi. set_solver. }
  cbn [for_fold]. destruct (slot s i) as [p|] eqn:Hp.
  - destruct (Hval _ _ Hp) as [t Ht].
    set (cn := if (t_state t =? TASK_RUNNING) && (c <? t_counter t) then (t_counter t, i) else (c, next)).
    erewrite (bind_Ret _ _ _ cn s).
    2:{ unfold scan_step. erewrite bind_Ret by done. rewrite Hp.
        by rewrite (bind_Ret _ _ _ _ _ (get_task_run _ _ _ Ht)). }
    destruct (IH cn.1 cn.2) as (c' & n' & Hrun & Hle & Hmax & Hor).
    exists c', n'. rewrite <- surjective_pairing in Hrun, Hor. split; [done|].
    assert (c <= cn.1 /\ (t_state t = TASK_RUNNING -> t_counter t <= cn.1) /\
            (cn = (c, next) \/ runnable s i t /\ cn = (t_counter t, i) /\ c < t_counter t)) as (A & B & C).
    { unfold cn. destruct (Z.eqb_spec (t_state t) TASK_RUNNING), (Z.ltb_spec c (t_counter t)); cbn;
        (split; [lia|]); (split; [intros; lia || done|]); try (by left).
      right. split; [|by split]. by exists p. }
    split; [lia|]. split.
    + intros j t' [->|Hj]%elem_of_cons Hr; [|by apply (Hmax j)].
      destruct Hr as (q & Hq & Hqt & Hst). assert (q = p) as -> by congruence.
      assert (t' = t) as -> by congruence. specialize (B Hst). lia.
    + destruct Hor as [Hcn|(t' & Hin & Hr & Hc & Hlt)].
      * destruct C as [C|(Hr & C & Hlt)]; rewrite C in Hcn; [by left|].
        injection Hcn as -> ->. right. exists t. split; [by left|]. by split_and!.
      * right. exists t'. split; [by right|]. split; [done|]. split; [done|]. lia.
  - erewrite (bind_Ret _ _ _ (c, next) s).
    2:{ unfold scan_step. erewrite bind_Ret by done. by rewrite Hp. }
    destruct (IH c next) as (c' & n' & Hrun & Hle & Hmax & Hor).
    exists c', n'. split; [done|]. split; [done|]. split.
    + intros j t' [->|Hj]%elem_of_cons Hr; [|by apply (Hmax j)].
      destruct Hr as (q & Hq & _). congruence.
    + destruct Hor as [->|(t' & Hin & Hr)]; [by left|]. right. exists t'. split; [by right|done].
Qed.

Definition some_runnable (s : sched_st) : Prop :=
  exists i t, (1 <= i < NR_TASKS)%nat /\ runnable s i t.

(** what a pass of the loop finds *)
Lemma scan_run s :
  (forall i p, slot s i = Some p -> is_Some (tmem s !! p)) ->
  (forall i t, (1 <= i < NR_TASKS)%nat -> runnable s i t -> 0 <= t_counter t) ->
  exists c next, scan s = Ret (c, next) s /\
    (forall i t, (1 <= i < NR_TASKS)%nat -> runnable s i t -> t_counter t <= c) /\
    ((c = -1 /\ next = 0%nat /\ ~ some_runnable s) \/
     (exists t, (1 <= next < NR_TASKS)%nat /\ runnable s next t /\ t_counter t = c /\ 0 <= c)).
Proof.
  intros Hval Hpos. destruct (scan_list tasks_down (-1) 0 s Hval) as (c & n & Hrun & Hle & Hmax & Hor).
  exists c, n. split; [exact Hrun|]. setoid_rewrite elem_of_tasks_down in Hmax. split; [done|].
  destruct Hor as [[= -> ->]|(t & Hin & Hr & Hc & Hlt)].
  - left. split; [done|]. split; [done|]. intros (i & t & Hi & Hr).
    specialize (Hmax i t Hi Hr). specialize (Hpos i t Hi Hr). lia.
  - right. exists t. apply elem_of_tasks_down in Hin.
    split; [exact Hin|]. split; [done|]. lia.
Qed.

Definition recharge_task (t : task_struct) : task_struct :=
  t <| t_counter := s32 (Z.shiftr (t_counter t) 1 + t_priority t) |>.

(** the state after the signal pass and after a recharge of every counter *)
Definition signals_pass (s : sched_st) : sched_st :=
  s <| tmem := map_tasks (after_signals (jiffies s)) (task_ptrs s tasks_down) (tmem s) |>.
Definition recharge_pass (s : sched_st) : sched_st :=
  s <| tmem := map_tasks recharge_task (task_ptrs s tasks_down) (tmem s) |>.

Lemma tmem_signals_pass s :
  tmem (signals_pass s) = map_tasks (after_signals (jiffies s)) (task_ptrs s tasks_down) (tmem s).
Proof. reflexivity. Qed.
Lemma tmem_recharge_pass s :
  tmem (recharge_pass s) = map_tasks recharge_task (task_ptrs s tasks_down) (tmem s).
Proof. reflexivity. Qed.

(** [next] is the choice the scheduler must make in [s]: a runnable task with
    the largest counter, which is positive, or the idle task 0 *)
Definition good_choice (s : sched_st) (next : nat) : Prop :=
  (next = 0%nat /\ ~ some_runnable s) \/
  (exists t, (1 <= next < NR_TASKS)%nat /\ runnable s next t /\ 0 < t_counter t /\
     forall i t', (1 <= i < NR_TASKS)%nat -> runnable s i t' -> t_counter t' <= t_counter t).

(** every task's quantum and priority are in range and no priority is 0 *)
Definition sane_priorities (s : sched_st) : Prop :=
  forall p t, tmem s !! p = Some t ->
    1 <= t_priority t < 2 ^ 29 /\ 0 <= t_counter t < 2 ^ 30.

Lemma map_pass_wf g l s :
  sched_wf s -> NoDup l -> sched_wf (s <| tmem := map_tasks g (task_ptrs s l) (tmem s) |>).
Proof.
  intros Hwf Hl. constructor.
  - intros i p Hp. change (slot s i = Some p) in Hp.
    change (is_Some (map_tasks g (task_ptrs s l) (tmem s) !! p)).
    rewrite map_tasks_lookup by (by apply task_ptrs_NoDup).
    destruct (wf_valid _ Hwf i p Hp) as [t Ht]. rewrite Ht. by case_decide; eexists.
  - exact (wf_inj _ Hwf).
Qed.

(** the task of a slot after a pass over all the slots *)
Lemma map_pass_lookup g s i p t :
  sched_wf s -> (1 <= i < NR_TASKS)%nat -> slot s i = Some p -> tmem s !! p = Some t ->
  map_tasks g (task_ptrs s tasks_down) (tmem s) !! p = Some (g t).
Proof.
  intros Hwf Hi Hp Ht. rewrite map_tasks_lookup by auto using task_ptrs_NoDup, tasks_down_NoDup.
  rewrite decide_True; [by rewrite Ht|]. apply elem_of_task_ptrs. exists i.
  by rewrite elem_of_tasks_down.
Qed.

Lemma map_pass_inv g s p t' :
  sched_wf s -> map_tasks g (task_ptrs s tasks_down) (tmem s) !! p = Some t' ->
  exists t, tmem s !! p = Some t /\ (t' = g t \/ t' = t).
Proof.
  intros Hwf. rewrite map_tasks_lookup by auto using task_ptrs_NoDup, tasks_down_NoDup.
  case_decide; [|eauto]. intros (t & -> & Ht)%fmap_Some. eauto.
Qed.

Lemma after_signals_fields now t :
  t_priority (after_signals now t) = t_priority t /\ t_counter (after_signals now t) = t_counter t.
Proof. unfold after_signals, after_alarm. by destruct (alarm_due _ _), (_ && _). Qed.

Lemma sane_signals s : sched_wf s -> sane_priorities s -> sane_priorities (signals_pass s).
Proof.
  intros Hwf Hs p t' Hp. rewrite tmem_signals_pass in Hp.
  apply map_pass_inv in Hp as (t & Ht & Hor); [|done].
  specialize (Hs p t Ht). destruct Hor as [->| ->]; [|done].
  destruct (after_signals_fields (jiffies s) t) as [-> ->]. done.
Qed.

Lemma shiftr1_bounds c : 0 <= c < 2 ^ 30 -> 0 <= Z.shiftr c 1 < 2 ^ 29.
Proof.
  intros H. rewrite Z.shiftr_div_pow2 by lia. split; [apply Z.div_pos; lia|].
  apply Z.div_lt_upper_bound; lia.
Qed.

(** a pass of [recharge] makes every counter of a task positive *)
Lemma recharge_positive s i t : sched_wf s -> sane_priorities s -> (1 <= i < NR_TASKS)%nat ->
  runnable (recharge_pass s) i t -> 0 < t_counter t.
Proof.
  intros Hwf Hs Hi (p & Hp & Ht & _). destruct (wf_valid _ Hwf i p Hp) as [t1 Ht1].
  rewrite tmem_recharge_pass, (map_pass_lookup _ _ i p t1) in Ht by done. injection Ht as <-.
  destruct (Hs _ _ Ht1) as [? Hc%shiftr1_bounds]. cbn. rewrite s32_id; lia.
Qed.
Lemma recharge_runnable s i t : sched_wf s -> (1 <= i < NR_TASKS)%nat -> runnable s i t ->
  runnable (recharge_pass s) i (recharge_task t).
Proof.
  intros Hwf Hi (p & Hp & Ht & Hst). exists p. split; [done|]. split; [|done].
  rewrite tmem_recharge_pass. by apply (map_pass_lookup recharge_task s i p t).
Qed.

(** the loop of [schedule] after the signal pass *)
Lemma schedule_rounds s fuel : sched_wf s -> sane_priorities s ->
  exists next s', loop (S (S fuel)) (fun _ : unit =>
      '(c, next) ← scan; if nz c then mret (inr next) else each_task recharge ;; mret (inl tt)) tt s = Ret next s' /\
    good_choice s' next /\
    (s' = s \/ s' = recharge_pass s /\ forall i t, (1 <= i < NR_TASKS)%nat -> runnable s i t -> t_counter t = 0).
Proof.
  intros Hwf Hs.
  assert (forall i t, (1 <= i < NR_TASKS)%nat -> runnable s i t -> 0 <= t_counter t) as Hpos
    by (intros i t _ (p & _ & Ht & _); specialize (Hs _ _ Ht); lia).
  destruct (scan_run s (wf_valid _ Hwf) Hpos) as (c & next & Hscan & Hmax & Hcase).
  destruct (decide (c = 0)) as [->|Hc].
  2:{ exists next, s. split; [|split; [|by left]].
      - erewrite loop_done; [done|]. rewrite (bind_Ret _ _ _ _ _ Hscan). by rewrite (proj2 (nz_true c) Hc).
      - destruct Hcase as [(-> & -> & Hno)|(t & Hi & Hr & <- & Hle)]; [by left|].
        right. exists t. split_and!; try done; lia. }
  destruct Hcase as [(? & _)|(t & Hi & Hr & Hct & _)]; [done|].
  assert (each_task recharge s = Ret tt (recharge_pass s)) as Hrec.
  { apply (each_slot_run recharge recharge_task (fun _ => True)); try done; [|apply Hwf].
    intros p s' t' _ Ht. by apply set_task_run. }
  erewrite loop_again; [|by rewrite (bind_Ret _ _ _ _ _ Hscan); cbn; rewrite (bind_Ret _ _ _ _ _ Hrec)].
  assert (sched_wf (recharge_pass s)) as Hwf2 by (apply map_pass_wf; auto using tasks_down_NoDup).
  destruct (scan_run (recharge_pass s) (wf_valid _ Hwf2)) as (c2 & n2 & Hscan2 & Hmax2 & Hcase2).
  { intros j t' Hj Hrj. pose proof (recharge_positive s j t' Hwf Hs Hj Hrj). lia. }
  destruct Hcase2 as [(_ & _ & Hno)|(t2 & Hi2 & Hr2 & <- & _)].
  { destruct Hno. exists next, (recharge_task t). split; [done|]. by apply recharge_runnable. }
  pose proof (recharge_positive s n2 t2 Hwf Hs Hi2 Hr2) as Hpos'. exists n2, (recharge_pass s). split; [|split].
  - erewrite loop_done; [done|]. rewrite (bind_Ret _ _ _ _ _ Hscan2). by rewrite (proj2 (nz_true (t_counter t2))) by lia.
  - right. by exists t2.
  - right. split; [done|]. intros j t' Hj Hrj. pose proof (Hmax j t' Hj Hrj). pose proof (Hpos j t' Hj Hrj). lia.
Qed.

Lemma signals_run s : sched_wf s -> each_task check_signals s = Ret tt (signals_pass s).
Proof.
  intros Hwf. apply (each_slot_run check_signals (after_signals (jiffies s)) (fun s' => jiffies s' = jiffies s));
    [done| |done|apply Hwf].
  intros p s' t Hj Ht. rewrite check_signals_run with (t := t) by exact Ht. by rewrite Hj.
Qed.
Lemma signals_wf s : sched_wf s -> sched_wf (signals_pass s).
Proof. intros. apply map_pass_wf; auto using tasks_down_NoDup. Qed.

(** the choice of [schedule], and the passes it made *)
Lemma schedule_pick_spec s fuel : sched_wf s -> sane_priorities s ->
  exists next s', schedule_pick (S (S fuel)) s = Ret next s' /\ good_choice s' next /\
    (s' = signals_pass s \/
     s' = recharge_pass (signals_pass s) /\
     forall i t, (1 <= i < NR_TASKS)%nat -> runnable (signals_pass s) i t -> t_counter t = 0).
Proof.
  intros Hwf Hs. unfold schedule_pick. rewrite (bind_Ret _ _ _ _ _ (signals_run s Hwf)).
  apply schedule_rounds; [by apply signals_wf|by apply sane_signals].
Qed.

(** C2: [schedule] chooses well and always terminates: from a well-formed task
    table whose priorities are positive, two rounds of the loop are enough; the
    task table, [current] and the clock are unchanged, every task has gone
    through the alarm and signal pass, the counters were recharged only when
    every runnable task had used up its quantum, and the number returned is a
    runnable task with the largest counter, which is positive, or 0 when no
    task is runnable. *)
Theorem schedule_pick_correct (s : sched_st) (fuel : nat)
  (Hwf : sched_wf s) (Hsane : sane_priorities s) (Hfuel : (2 <= fuel)%nat) :
  exists next s', schedule_pick fuel s = Ret next s' /\ good_choice s' next /\
    (task s' = task s /\ current s' = current s /\ jiffies s' = jiffies s) /\
    (s' = signals_pass s \/
     s' = recharge_pass (signals_pass s) /\
     forall i t, (1 <= i < NR_TASKS)%nat -> runnable (signals_pass s) i t -> t_counter t = 0).
Proof.
  destruct fuel as [|[|fuel]]; try lia.
  destruct (schedule_pick_spec s fuel Hwf Hsane) as (next & s' & Hrun & Hgood & Hs'). exists next, s'.
  split; [done|]. split; [done|]. split; [|done]. destruct Hs' as [->|[-> _]]; done.
Qed.

Lemma two_tasks_slot i p :
  slot two_tasks i = Some p -> i = 0%nat /\ p = init_task \/ i = 1%nat /\ p = 0x2000 \/ i = 2%nat /\ p = 0x3000.
Proof.
  assert (forall j, (3 <= j)%nat -> slot two_tasks j = None) as Hge.
  { intros j Hj. unfold slot. destruct (decide (j < 64)%nat) as [H|H].
    - do 64 (destruct j as [|j]; [lia || reflexivity|]). lia.
    - rewrite lookup_ge_None_2; [done|]. change (length (task two_tasks)) with 64%nat. lia. }
  intros H. destruct i as [|[|[|i]]]; [| | |by rewrite Hge in H by lia];
    vm_compute in H; injection H as <-; auto.
Qed.

Lemma two_tasks_wf : sched_wf two_tasks.
Proof.
  constructor.
  - intros i p [[-> ->]|[[-> ->]|[-> ->]]]%two_tasks_slot; vm_compute; eauto.
  - intros i j p [[-> ->]|[[-> ->]|[-> ->]]]%two_tasks_slot
      [[-> H]|[[-> H]|[-> H]]]%two_tasks_slot; done.
Qed.

Lemma two_tasks_sane : sane_priorities two_tasks.
Proof.
  assert (map_Forall (fun _ t => 1 <= t_priority t < 2 ^ 29 /\ 0 <= t_counter t < 2 ^ 30) (tmem two_tasks))
    as H by (apply (bool_decide_unpack _); vm_compute; done).
  exact H.
Qed.

Lemma schedule_pick_correct_witness :
  exists s', schedule_pick 2 two_tasks = Ret 2%nat s' /\ good_choice s' 2.
Proof.
  destruct (schedule_pick_correct two_tasks 2 two_tasks_wf two_tasks_sane ltac:(lia))
    as (next & s' & Hrun & Hgood & _).
  exists s'. assert (value_of (schedule_pick 2 two_tasks) = Some 2%nat) as Hv by (vm_compute; reflexivity).
  rewrite Hrun in Hv. injection Hv as ->. split; assumption.
Defined.
