(* ===== verification/StarvationFacts.v ===== *)
(** * kernel/sched.cc: no runnable task is starved

    [SchedFacts] shows what one call of [schedule] chooses.  Here the calls are
    composed: a turn is one choice followed by an arbitrary run of the chosen
    task that uses at least one tick of its quantum, and a task that stays
    runnable is chosen within a bounded number of turns. *)

From S2P Require Import Prelude State Sched SchedFacts.

(** ** Sums over the task slots *)

Definition zsum (f : nat -> Z) (l : list nat) : Z := foldr (fun i z => f i + z) 0 l.

Lemma zsum_le f g l : (forall i, i ∈ l -> f i <= g i) -> zsum f l <= zsum g l.
Proof.
  induction l as [|i l IH]; intros H; cbn; [lia|].
  pose proof (H i ltac:(by left)). apply Z.add_le_mono; [done|]. apply IH. intros j Hj. apply H. by right.
Qed.
Lemma zsum_ext f g l : (forall i, i ∈ l -> f i = g i) -> zsum f l = zsum g l.
Proof. intros H. apply Z.le_antisymm; apply zsum_le; intros i Hi; by rewrite H. Qed.
Lemma zsum_lt f g l n :
  n ∈ l -> f n < g n -> (forall i, i ∈ l -> f i <= g i) -> zsum f l < zsum g l.
Proof.
  induction l as [|i l IH]; intros Hn Hlt H; [set_solver|]. cbn.
  pose proof (H i ltac:(by left)). assert (forall j, j ∈ l -> f j <= g j) as Hl by (intros j Hj; apply H; by right).
  apply elem_of_cons in Hn as [->|Hn].
  - apply Z.add_lt_le_mono; [done|]. by apply zsum_le.
  - apply Z.add_le_lt_mono; [done|]. by apply IH.
Qed.
Lemma zsum_add f g l : zsum (fun i => f i + g i) l = zsum f l + zsum g l.
Proof. induction l as [|i l IH]; [done|]. cbn [zsum foldr]. unfold zsum in *. lia. Qed.
Lemma zsum_nonneg f l : (forall i, i ∈ l -> 0 <= f i) -> 0 <= zsum f l.
Proof.
  intros H. transitivity (zsum (fun _ => 0) l); [|by apply zsum_le].
  clear H. by induction l.
Qed.

(** the task of a slot, and the sum of a field over the slots 1 to 63 *)
Definition slot_task (s : sched_st) (i : nat) : option task_struct := p ← slot s i; tmem s !! p.
Definition slot_field (f : task_struct -> Z) (s : sched_st) (i : nat) : Z := default 0 (f <$> slot_task s i).
Definition slot_sum (f : task_struct -> Z) (s : sched_st) : Z := zsum (slot_field f s) tasks_down.

Lemma runnable_slot s i t : runnable s i t <-> slot_task s i = Some t /\ t_state t = TASK_RUNNING.
Proof.
  unfold runnable, slot_task. split.
  - intros (p & Hp & Ht & Hst). by rewrite Hp.
  - intros [(p & Hp & Ht)%bind_Some Hst]. eauto.
Qed.

(** what a pass over the task table does to a slot *)
Lemma slot_task_pass g s i : sched_wf s -> (1 <= i < NR_TASKS)%nat ->
  slot_task (s <| tmem := map_tasks g (task_ptrs s tasks_down) (tmem s) |>) i = g <$> slot_task s i.
Proof.
  intros Hwf Hi. unfold slot_task. change (slot (upd _ _ s) i) with (slot s i).
  destruct (slot s i) as [p|] eqn:Hp; [|done]. destruct (wf_valid _ Hwf i p Hp) as [t Ht].
  cbn [mbind option_bind]. rewrite Ht. exact (map_pass_lookup g s i p t Hwf Hi Hp Ht).
Qed.
Lemma slot_task_signals s i : sched_wf s -> (1 <= i < NR_TASKS)%nat ->
  slot_task (signals_pass s) i = after_signals (jiffies s) <$> slot_task s i.
Proof. apply slot_task_pass. Qed.
Lemma slot_task_recharge s i : sched_wf s -> (1 <= i < NR_TASKS)%nat ->
  slot_task (recharge_pass s) i = recharge_task <$> slot_task s i.
Proof. apply slot_task_pass. Qed.

Lemma slot_sane s i t : sane_priorities s -> slot_task s i = Some t ->
  1 <= t_priority t < 2 ^ 29 /\ 0 <= t_counter t < 2 ^ 30.
Proof. intros Hs (p & _ & Ht)%bind_Some. by apply (Hs p). Qed.

Lemma recharge_counter t : 1 <= t_priority t < 2 ^ 29 -> 0 <= t_counter t < 2 ^ 30 ->
  t_counter (recharge_task t) = Z.shiftr (t_counter t) 1 + t_priority t.
Proof. intros Hp Hc%shiftr1_bounds. cbn. apply s32_id. lia. Qed.

Lemma sane_recharge s : sched_wf s -> sane_priorities s -> sane_priorities (recharge_pass s).
Proof.
  intros Hwf Hs p t' Hp. rewrite tmem_recharge_pass in Hp.
  apply map_pass_inv in Hp as (t & Ht & Hor); [|done]. destruct (Hs p t Ht) as [Hpr Hc].
  destruct Hor as [->| ->]; [|done]. rewrite recharge_counter by done.
  pose proof (shiftr1_bounds _ Hc). change (t_priority (recharge_task t)) with (t_priority t). lia.
Qed.

(** ** Turns *)

(** what a turn of slot [n] may do to the task at [p]: everything except
    changing a priority or the counter of another task; the running task uses
    at least one tick of its own *)
Definition turn_task (running : Prop) (t t' : task_struct) : Prop :=
  t_priority t' = t_priority t /\
  (running -> 0 <= t_counter t' < t_counter t) /\ (~ running -> t_counter t' = t_counter t).

(** the scheduler chooses slot [n] in [s], and its task runs until [s'] *)
Definition turn (s : sched_st) (n : nat) (s' : sched_st) : Prop :=
  exists s1, schedule_pick 2 s = Ret n s1 /\ task s' = task s1 /\
    forall p, option_relation (turn_task (slot s1 n = Some p)) (fun _ => False) (fun _ => False)
                (tmem s1 !! p) (tmem s' !! p).

(** a run of turns in which slot [i] holds a runnable task at every choice *)
Inductive waiting_turns (i : nat) : sched_st -> list nat -> sched_st -> Prop :=
| turns_nil s : waiting_turns i s [] s
| turns_cons s t n s1 ns s' :
    runnable s i t -> turn s n s1 -> waiting_turns i s1 ns s' -> waiting_turns i s (n :: ns) s'.

(** the turns that can pass before slot [i] is served: the quanta still left,
    and one recharge if [i] has none *)
Definition patience (i : nat) (s : sched_st) : Z :=
  slot_sum t_counter s + (if decide (slot_field t_counter s i = 0) then slot_sum t_priority s else 0).

Section Step.
Variables (s1 s' : sched_st) (n : nat).
Hypothesis Hwf : sched_wf s1.
Hypothesis Hsane : sane_priorities s1.
Hypothesis Htask : task s' = task s1.
Hypothesis Hmem : forall p, option_relation (turn_task (slot s1 n = Some p)) (fun _ => False) (fun _ => False)
                              (tmem s1 !! p) (tmem s' !! p).

Lemma run_wf : sched_wf s'.
Proof.
  assert (forall i, slot s' i = slot s1 i) as Hslot by (intros i; unfold slot; by rewrite Htask).
  constructor.
  - intros i p Hp. rewrite Hslot in Hp. destruct (wf_valid _ Hwf i p Hp) as [t Ht].
    specialize (Hmem p). rewrite Ht in Hmem. destruct (tmem s' !! p); [eauto|done].
  - intros i j p. rewrite !Hslot. apply (wf_inj _ Hwf).
Qed.

Lemma run_sane : sane_priorities s'.
Proof.
  intros p t' Ht'. specialize (Hmem p). rewrite Ht' in Hmem.
  destruct (tmem s1 !! p) as [t|] eqn:Ht; [|done]. destruct Hmem as (-> & Hn & Ho).
  specialize (Hsane p t Ht). destruct (decide (slot s1 n = Some p)) as [Hd|Hd].
  - specialize (Hn Hd). lia.
  - rewrite (Ho Hd). lia.
Qed.

(** the slots before and after the run *)
Lemma run_slot i : 
  match slot_task s1 i with
  | None => slot_task s' i = None
  | Some t => exists t', slot_task s' i = Some t' /\ turn_task (i = n) t t'
  end.
Proof.
  assert (slot s' i = slot s1 i) as Hslot by (unfold slot; by rewrite Htask).
  unfold slot_task. rewrite Hslot. destruct (slot s1 i) as [p|] eqn:Hp; [|done].
  destruct (wf_valid _ Hwf i p Hp) as [t Ht]. cbn. rewrite Ht. specialize (Hmem p). rewrite Ht in Hmem.
  destruct (tmem s' !! p) as [t'|]; [|done]. exists t'. split; [done|].
  destruct Hmem as (H1 & H2 & H3). split; [done|]. split.
  - intros ->. by apply H2.
  - intros Hin. apply H3. intros Hn. by apply Hin, (wf_inj _ Hwf i n p).
Qed.

Lemma run_priority : slot_sum t_priority s' = slot_sum t_priority s1.
Proof.
  apply zsum_ext. intros i _. unfold slot_field. pose proof (run_slot i) as H.
  destruct (slot_task s1 i) as [t|]; [|by rewrite H]. destruct H as (t' & -> & Hp & _). exact Hp.
Qed.
Lemma run_counter_other i : i <> n -> slot_field t_counter s' i = slot_field t_counter s1 i.
Proof.
  intros Hi. unfold slot_field. pose proof (run_slot i) as H.
  destruct (slot_task s1 i) as [t|]; [|by rewrite H]. destruct H as (t' & -> & _ & _ & Ho). by apply Ho.
Qed.
Lemma run_counter t : slot_task s1 n = Some t -> (1 <= n < NR_TASKS)%nat ->
  slot_sum t_counter s' < slot_sum t_counter s1.
Proof.
  intros Ht Hn. assert (slot_field t_counter s' n < slot_field t_counter s1 n) as Hlt.
  { unfold slot_field. pose proof (run_slot n) as H. rewrite Ht in *. destruct H as (t' & -> & _ & Hc & _).
    cbn. by apply Hc. }
  apply zsum_lt with (n := n); [by apply elem_of_tasks_down|done|].
  intros i _. destruct (decide (i = n)) as [->|Hi]; [lia|]. by rewrite run_counter_other.
Qed.
End Step.

(** the signal pass changes neither counters nor priorities *)
Lemma signals_field s i : sched_wf s -> (1 <= i < NR_TASKS)%nat ->
  slot_field t_counter (signals_pass s) i = slot_field t_counter s i /\
  slot_field t_priority (signals_pass s) i = slot_field t_priority s i.
Proof.
  intros Hwf Hi. unfold slot_field. rewrite slot_task_signals by done.
  destruct (slot_task s i) as [t|]; [|done]. cbn. by destruct (after_signals_fields (jiffies s) t).
Qed.
Lemma signals_patience s i : sched_wf s -> (1 <= i < NR_TASKS)%nat ->
  patience i (signals_pass s) = patience i s.
Proof.
  intros Hwf Hi. unfold patience, slot_sum. destruct (signals_field s i Hwf Hi) as [-> _].
  f_equal; [|case_decide; [|done]]; apply zsum_ext; intros j Hj%elem_of_tasks_down; by apply signals_field.
Qed.

(** a recharge gives [i] a quantum, so that no second one will be needed *)
Lemma recharge_patience s i t : sched_wf s -> sane_priorities s -> (1 <= i < NR_TASKS)%nat ->
  slot_task s i = Some t -> t_counter t = 0 -> patience i (recharge_pass s) <= patience i s.
Proof.
  intros Hwf Hs Hi Ht Hc. unfold patience.
  assert (slot_field t_counter s i = 0) as -> by (unfold slot_field; by rewrite Ht).
  rewrite (decide_True (P := 0 = 0)) by done.
  assert (slot_field t_counter (recharge_pass s) i <> 0) as Hne.
  { unfold slot_field. rewrite slot_task_recharge, Ht by done. cbn [fmap option_fmap option_map default].
    destruct (slot_sane _ _ _ Hs Ht) as [Hp Hcc]. change (t_counter (recharge_task t) <> 0).
    rewrite recharge_counter, Hc by done. change (Z.shiftr 0 1) with 0. lia. }
  rewrite decide_False by done. rewrite Z.add_0_r. unfold slot_sum. rewrite <- zsum_add.
  apply zsum_le. intros j Hj%elem_of_tasks_down. unfold slot_field. rewrite slot_task_recharge by done.
  destruct (slot_task s j) as [u|] eqn:Hu; [|done]. destruct (slot_sane _ _ _ Hs Hu) as [Hp Hcc].
  change (t_counter (recharge_task u) <= t_counter u + t_priority u). rewrite recharge_counter by done.
  rewrite Z.shiftr_div_pow2 by lia. pose proof (Z.div_le_upper_bound (t_counter u) (2 ^ 1) (t_counter u)). lia.
Qed.

Lemma signals_runnable s i t : sched_wf s -> (1 <= i < NR_TASKS)%nat -> runnable s i t ->
  runnable (signals_pass s) i (after_signals (jiffies s) t).
Proof.
  intros Hwf Hi [Ht Hst]%runnable_slot. apply runnable_slot. rewrite slot_task_signals, Ht by done. split; [done|].
  unfold after_signals, after_alarm. by destruct (alarm_due _ _), (_ && _).
Qed.

(** one turn that does not serve [i] uses up some of the patience *)
Lemma turn_step s i t n s' :
  sched_wf s -> sane_priorities s -> (1 <= i < NR_TASKS)%nat -> runnable s i t -> turn s n s' ->
  sched_wf s' /\ sane_priorities s' /\ (n = i \/ patience i s' < patience i s).
Proof.
  intros Hwf Hs Hi Hr (s1 & Hrun & Htask & Hmem).
  pose proof (signals_wf s Hwf) as Hwf0. pose proof (sane_signals s Hwf Hs) as Hs0.
  pose proof (signals_runnable s i t Hwf Hi Hr) as Hr0.
  destruct (schedule_pick_spec s 0 Hwf Hs) as (n0 & s0 & Hrun0 & Hgood & Hs1).
  rewrite Hrun0 in Hrun. injection Hrun as -> ->.
  assert (sched_wf s1 /\ sane_priorities s1 /\ patience i s1 <= patience i s /\
          exists u, runnable s1 i u) as (Hwf1 & Hsane1 & Hpat & u & Hu).
  { destruct Hs1 as [->|[-> Hzero]]; split_and!; try done.
    - by rewrite signals_patience.
    - by eexists.
    - by apply map_pass_wf; auto using tasks_down_NoDup.
    - by apply sane_recharge.
    - rewrite <- (signals_patience s i) by done. pose proof (Hzero i _ Hi Hr0) as Hz.
      apply runnable_slot in Hr0 as [Ht0 _]. by eapply recharge_patience.
    - exists (recharge_task (after_signals (jiffies s) t)). by apply recharge_runnable. }
  split; [by apply (run_wf s1 s' n)|]. split; [by apply (run_sane s1 s' n)|].
  destruct (decide (n = i)) as [->|Hni]; [by left|]. right.
  destruct Hgood as [[_ Hno]|(v & Hn & Hrn & _)]; [by destruct Hno; exists i, u|].
  apply runnable_slot in Hrn as [Hv _].
  pose proof (run_counter s1 s' n Hwf1 Htask Hmem v Hv Hn).
  eapply Z.lt_le_trans; [|exact Hpat]. unfold patience.
  rewrite (run_priority s1 s' n) by done. rewrite (run_counter_other s1 s' n) by done. case_decide; lia.
Qed.

Lemma slot_sum_nonneg f s : (forall i t, slot_task s i = Some t -> 0 <= f t) -> 0 <= slot_sum f s.
Proof.
  intros H. apply zsum_nonneg. intros i _. unfold slot_field.
  destruct (slot_task s i) as [t|] eqn:Ht; [by apply (H i)|done].
Qed.
Lemma patience_nonneg i s : sane_priorities s -> 0 <= patience i s.
Proof.
  intros Hs. unfold patience.
  assert (0 <= slot_sum t_counter s /\ 0 <= slot_sum t_priority s) as [? ?]
    by (split; apply slot_sum_nonneg; intros j t Ht; destruct (slot_sane _ _ _ Hs Ht); lia).
  case_decide; lia.
Qed.

(** C11: No starvation: from a well-formed task table with positive
    priorities, a task that stays runnable is chosen by [schedule] before more
    turns have passed than the quanta all tasks have left, plus, when its own
    quantum is used up, the priorities of all tasks.  A turn is one choice of
    [schedule] (alarms, signals and recharge included) followed by any run of
    the chosen task that costs it at least one tick and neither forks, exits
    nor changes a priority. *)
Theorem schedule_no_starvation (s s' : sched_st) (i : nat) (ns : list nat)
  (Hwf : sched_wf s) (Hsane : sane_priorities s) (Hi : (1 <= i < NR_TASKS)%nat)
  (Hturns : waiting_turns i s ns s')
  (Hlong : patience i s < Z.of_nat (length ns)) :
  i ∈ ns.
Proof.
  induction Hturns as [s|s t n s1 ns s' Hr Hturn _ IH].
  - pose proof (patience_nonneg i s Hsane). cbn in Hlong. lia.
  - destruct (turn_step s i t n s1 Hwf Hsane Hi Hr Hturn) as (Hwf1 & Hs1 & [->|Hlt]); [by left|].
    right. apply IH; [done|done|]. cbn [length] in Hlong. lia.
Qed.

(** task 1 of [two_tasks], always runnable: task 2 is served first *)
Definition busy_tasks : sched_st :=
  two_tasks <| tmem ::= alter (fun t => t <| t_state := TASK_RUNNING |> <| t_counter := 1 |>) 0x3000 |>
            <| tmem ::= alter (fun t => t <| t_priority := 1 |>) 0x2000 |>
            <| tmem ::= alter (fun t => t <| t_priority := 1 |>) 0x3000 |>.

(** the task at [p] uses up [k] ticks *)
Definition burn (p : tptr) (k : Z) (s : sched_st) : sched_st :=
  s <| tmem ::= alter (fun t => t <| t_counter ::= fun c => c - k |>) p |>.

Lemma burn_turn s n s1 p t k :
  schedule_pick 2 s = Ret n s1 -> slot s1 n = Some p -> tmem s1 !! p = Some t -> 0 < k <= t_counter t ->
  turn s n (burn p k s1).
Proof.
  intros Hrun Hp Ht Hk. exists s1. split; [done|]. split; [done|]. intros q.
  set (g := fun t : task_struct => t <| t_counter ::= fun c => c - k |>).
  change (tmem (burn p k s1)) with (alter g p (tmem s1)). destruct (decide (q = p)) as [->|Hqp].
  - rewrite lookup_alter_eq, Ht. cbn. split; [done|]. split; [intros _; cbn; lia|]. intros Hno. by destruct Hno.
  - rewrite lookup_alter_ne by done. destruct (tmem s1 !! q) as [u|]; [|done]. cbn. split; [done|]. split; [|done].
    intros Hq. congruence.
Qed.

Definition picked (s : sched_st) : nat := default 0%nat (value_of (schedule_pick 2 s)).
Definition after_pick (s : sched_st) : sched_st := state_of (schedule_pick 2 s).
Definition busy (k : nat) : sched_st :=
  Nat.iter k (fun s => let s1 := after_pick s in burn (default 0 (slot s1 (picked s))) 1 s1) busy_tasks.

(** one check that round [k] of the example is a turn *)
Definition turn_check (k n : nat) : bool :=
  match schedule_pick 2 (busy k) with
  | Ret n' s1 =>
      bool_decide (n' = n) &&
      match slot s1 n with
      | Some p => match tmem s1 !! p with Some t => 1 <=? t_counter t | None => false end
      | None => false
      end &&
      match slot_task (busy k) 1 with Some t => t_state t =? TASK_RUNNING | None => false end
  | _ => false
  end.

Lemma turn_check_ok k n : turn_check k n = true ->
  turn (busy k) n (busy (S k)) /\ exists t, runnable (busy k) 1 t.
Proof.
  unfold turn_check. change (busy (S k)) with
    (burn (default 0 (slot (after_pick (busy k)) (picked (busy k)))) 1 (after_pick (busy k))).
  unfold after_pick, picked.
  destruct (schedule_pick 2 (busy k)) as [n' s1| | |] eqn:Hrun; try done. cbn [state_of value_of default].
  intros [[->%bool_decide_eq_true H]%andb_true_iff H']%andb_true_iff.
  destruct (slot s1 n) as [p|] eqn:Hp; [|done]. destruct (tmem s1 !! p) as [t|] eqn:Ht; [|done].
  apply Z.leb_le in H. destruct (slot_task (busy k) 1) as [u|] eqn:Hu; [|done]. apply Z.eqb_eq in H'. split.
  - replace (default 0 (slot s1 (id n))) with p by (by unfold id; rewrite Hp).
    apply (burn_turn _ _ _ _ t); [done..|]. lia.
  - exists u. by apply runnable_slot.
Qed.

Lemma busy_wf : sched_wf busy_tasks.
Proof.
  constructor.
  - intros i p [[-> ->]|[[-> ->]|[-> ->]]]%two_tasks_slot; vm_compute; eauto.
  - exact (wf_inj _ two_tasks_wf).
Qed.
Lemma busy_sane : sane_priorities busy_tasks.
Proof.
  assert (map_Forall (fun _ t => 1 <= t_priority t < 2 ^ 29 /\ 0 <= t_counter t < 2 ^ 30) (tmem busy_tasks))
    as H by (apply (bool_decide_unpack _); vm_compute; done).
  exact H.
Qed.

Lemma schedule_no_starvation_witness :
  waiting_turns 1 busy_tasks [2; 2; 1; 2]%nat (busy 4) /\ 1%nat ∈ [2; 2; 1; 2]%nat.
Proof.
  assert (waiting_turns 1 busy_tasks [2; 2; 1; 2]%nat (busy 4)) as H.
  { destruct (turn_check_ok 0 2) as (T0 & t0 & R0); [vm_compute; reflexivity|].
    destruct (turn_check_ok 1 2) as (T1 & t1 & R1); [vm_compute; reflexivity|].
    destruct (turn_check_ok 2 1) as (T2 & t2 & R2); [vm_compute; reflexivity|].
    destruct (turn_check_ok 3 2) as (T3 & t3 & R3); [vm_compute; reflexivity|].
    exact (turns_cons _ _ _ _ _ _ _ R0 T0 (turns_cons _ _ _ _ _ _ _ R1 T1
          (turns_cons _ _ _ _ _ _ _ R2 T2 (turns_cons _ _ _ _ _ _ _ R3 T3 (turns_nil _ _))))). }
  split; [exact H|].
  apply (schedule_no_starvation busy_tasks (busy 4) 1 [2; 2; 1; 2]%nat busy_wf busy_sane); [unfold NR_TASKS; lia|exact H|].
  vm_compute. reflexivity.
Defined.
