(* ===== verification/WaitFacts.v ===== *)
(** * Wait queues: no task is left behind on [sleep_on]'s implicit queue

    [sleep_on] keeps the queue of waiting tasks in the local variables [tmp] of
    the sleeping tasks themselves: [wake_up] wakes only the newest, and each
    task wakes the one before it when it runs again. *)

From S2P Require Import Prelude State Sched.

(** the variable the queue is held in exists *)
Definition wq_valid (s : kst) (q : waitq) : Prop :=
  match q with
  | WqBuffer b => (b < length (bufs (fsys s)))%nat
  | WqInode i => (i < length (inode_table (fsys s)))%nat
  | WqSuper n => (n < length (super_blocks (fsys s)))%nat
  | WqBufferWait | WqRequest | WqFloppySelect => True
  | WqMotor n => (n < length (wait_motor (sched s)))%nat
  | WqReqWaiting r => (r < length (requests (blk s)))%nat
  | WqTty t q => (t < length (tty_table s))%nat
  end.

(** a sleeping task: its address and its variable [tmp] *)
Definition sleeper : Type := tptr * option tptr.

Definition is_running (s : kst) (p : tptr) : Prop :=
  exists t, tmem (sched s) !! p = Some t /\ t_state t = TASK_RUNNING.

(** the events around one queue [q]; the list holds the tasks inside
    [sleep_on(q)], the newest first *)
Inductive wstep (q : waitq) : kst * list sleeper -> kst * list sleeper -> Prop :=
| ws_enter s l tmp s' :        (* the current task calls sleep_on *)
    current (sched s) ∉ l.*1 ->
    sleep_on_enter q s = Ret tmp s' ->
    wstep q (s, l) (s', (current (sched s), tmp) :: l)
| ws_wake s l s' :             (* somebody calls wake_up *)
    wake_up q s = Ret tt s' ->
    wstep q (s, l) (s', l)
| ws_leave s l1 p tmp l2 s' :  (* a sleeper that is running again returns *)
    is_running s p ->
    sleep_on_leave tmp s = Ret tt s' ->
    wstep q (s, l1 ++ (p, tmp) :: l2) (s', l1 ++ l2)
| ws_other s l s' :            (* anything else that leaves the queue alone *)
    read_wq s' q = read_wq s q -> wq_valid s' q ->
    (forall p, p ∈ l.*1 -> is_running s p -> is_running s' p) ->
    wstep q (s, l) (s', l).

(** every sleeper is running, or at the head of the queue, or remembered by a
    newer sleeper *)
Definition no_lost (q : waitq) (sl : kst * list sleeper) : Prop :=
  let '(s, l) := sl in
  wq_valid s q /\
  forall i p tmp, l !! i = Some (p, tmp) ->
    is_running s p \/ read_wq s q = Some p \/
    exists j p', (j < i)%nat /\ l !! j = Some (p', Some p).

(** ** Reading and writing a queue variable *)

Lemma alter_lookup_bind {A} (f : A -> option tptr) (g : A -> A) (l : list A) i :
  alter g i l !! i ≫= f = (l !! i) ≫= (fun x => f (g x)).
Proof. rewrite list_lookup_alter_eq. by destruct (l !! i). Qed.

Lemma read_write_wq s q p : wq_valid s q -> read_wq (write_wq q p s) q = p.
Proof.
  destruct q as [b|i|n| | |n|r| |t k]; cbn; unfold upd; cbn; try done;
    rewrite ?alter_lookup_bind; intros (x & Hx)%lookup_lt_is_Some; rewrite ?Hx; try done.
  cbn. by destruct k as [|[|k]].
Qed.

Lemma write_wq_sched s q p : tmem (sched (write_wq q p s)) = tmem (sched s).
Proof. by destruct q. Qed.
Lemma write_wq_current s q p : current (sched (write_wq q p s)) = current (sched s).
Proof. by destruct q. Qed.
Lemma write_wq_valid s q p : wq_valid s q -> wq_valid (write_wq q p s) q.
Proof. destruct q; cbn; unfold upd; cbn; rewrite ?length_alter; done. Qed.

Lemma settask_run p f s t :
  tmem (sched s) !! p = Some t ->
  settask p f s = Ret tt (s <| sched ::= fun c => c <| tmem ::= <[p := f t]> |> |>).
Proof. intros H. unfold settask, gettask, on_sched. mrun. by rewrite H. Qed.

Lemma settask_inv p f s s' u :
  settask p f s = Ret u s' ->
  exists t, tmem (sched s) !! p = Some t /\ s' = s <| sched ::= fun c => c <| tmem ::= <[p := f t]> |> |>.
Proof.
  unfold settask, gettask, on_sched. intros H. minv H. minv Hrun. minv H. eauto.
Qed.

Lemma store_read_wq s q f : read_wq (s <| sched ::= fun c => c <| tmem ::= f |> |>) q = read_wq s q.
Proof. by destruct q. Qed.
Lemma store_wq_valid s q f : wq_valid (s <| sched ::= fun c => c <| tmem ::= f |> |>) q = wq_valid s q.
Proof. by destruct q. Qed.

(** setting a task's state to 0 only makes tasks run *)
Lemma wake_task_running s p t p' :
  tmem (sched s) !! p = Some t ->
  let s' := s <| sched ::= fun c => c <| tmem ::= <[p := t <| t_state := 0 |>]> |> |> in
  (is_running s p' -> is_running s' p') /\ is_running s' p.
Proof.
  intros Ht s'. split.
  - intros (t' & Ht' & Hr). unfold s', is_running. cbn. destruct (decide (p = p')) as [->|Hne].
    + rewrite lookup_insert_eq. eauto.
    + rewrite lookup_insert_ne by done. eauto.
  - exists (t <| t_state := 0 |>). unfold s'. cbn. by rewrite lookup_insert_eq.
Qed.

Lemma sleep_on_enter_inv q s tmp s' :
  sleep_on_enter q s = Ret tmp s' ->
  exists t, tmem (sched s) !! current (sched s) = Some t /\ tmp = read_wq s q /\
    s' = (write_wq q (Some (current (sched s))) s)
           <| sched ::= fun c => c <| tmem ::= <[current (sched s) := t <| t_state := TASK_UNINTERRUPTIBLE |>]> |> |>.
Proof.
  unfold sleep_on_enter, setme. intros H. minv H.
  destruct (_ =? init_task) in H; [done|]. minv H.
  apply settask_inv in Hrun as (t & Ht & ->). unfold id in *.
  rewrite write_wq_sched, write_wq_current in Ht. rewrite write_wq_current. by exists t.
Qed.

Lemma no_lost_enter q s l tmp s' :
  current (sched s) ∉ l.*1 -> sleep_on_enter q s = Ret tmp s' ->
  no_lost q (s, l) -> no_lost q (s', (current (sched s), tmp) :: l).
Proof.
  intros Hfresh (t & Ht & -> & ->)%sleep_on_enter_inv [Hv Hl].
  split; [rewrite store_wq_valid; by apply write_wq_valid|]. rewrite store_read_wq, read_write_wq by done.
  intros [|i] p tmp Hi; cbn in Hi.
  - injection Hi as <- <-. right. by left.
  - destruct (Hl i p tmp Hi) as [(t' & Ht' & Hr)|[Hh|(j & p' & Hj & Hjp)]].
    + left. exists t'. split; [|done]. cbn. rewrite write_wq_sched.
      rewrite lookup_insert_ne; [done|]. intros <-. apply Hfresh.
      apply list_elem_of_fmap. exists (current (sched s), tmp). split; [done|].
      by apply list_elem_of_lookup_2 with i.
    + right. right. exists 0%nat, (current (sched s)). split; [lia|]. cbn. by rewrite Hh.
    + right. right. exists (S j), p'. split; [lia|done].
Qed.

Lemma no_lost_wake q s l s' :
  wake_up q s = Ret tt s' -> no_lost q (s, l) -> no_lost q (s', l).
Proof.
  unfold wake_up. intros Hw [Hv Hl]. minv Hw. unfold id in *.
  destruct (read_wq s q) as [h|] eqn:Hh; [|minv Hw].
  2:{ split; [done|]. by rewrite Hh. }
  minv Hw. apply settask_inv in Hrun as (t & Ht & ->).
  destruct (wake_task_running s h t 0 Ht) as [_ Hrun].
  split; [apply write_wq_valid; by rewrite store_wq_valid|].
  intros i p tmp Hi. destruct (Hl i p tmp Hi) as [Hr|[Hq|?]]; [| |by right; right].
  - left. unfold is_running. rewrite write_wq_sched. by apply (wake_task_running s h t p Ht).
  - injection Hq as <-. left. unfold is_running. by rewrite write_wq_sched.
Qed.

Lemma no_lost_leave q s l1 p tmp l2 s' :
  is_running s p -> sleep_on_leave tmp s = Ret tt s' ->
  no_lost q (s, l1 ++ (p, tmp) :: l2) -> no_lost q (s', l1 ++ l2).
Proof.
  intros Hp Hleave [Hv Hl].
  assert (wq_valid s' q /\ read_wq s' q = read_wq s q /\
          (forall p', is_running s p' -> is_running s' p') /\
          (forall p', tmp = Some p' -> is_running s' p')) as (Hv' & Hq & Hmono & Htmp).
  { destruct tmp as [h|]; cbn in Hleave; [|injection Hleave as <-; by split_and!].
    apply settask_inv in Hleave as (t & Ht & ->).
    split; [by rewrite store_wq_valid|]. split; [apply store_read_wq|].
    split; [intros p'; by apply wake_task_running|].
    intros p' [= <-]. by apply (wake_task_running s h t h). }
  split; [done|]. rewrite Hq. intros i p' tmp' Hi.
  set (k := if decide (i < length l1)%nat then i else S i).
  assert ((l1 ++ (p, tmp) :: l2) !! k = Some (p', tmp')) as Hk.
  { unfold k. destruct (decide (i < length l1)%nat) as [Hlt|Hge].
    - rewrite lookup_app_l in * by done. done.
    - rewrite lookup_app_r in * by lia. by replace (S i - length l1)%nat with (S (i - length l1)) by lia. }
  destruct (Hl k p' tmp' Hk) as [Hr|[Hh|(j & p'' & Hj & Hjp)]]; [by left; apply Hmono|by right; left|].
  destruct (decide (j = length l1)) as [->|Hne].
  { left. apply Htmp. rewrite list_lookup_middle in Hjp by done. by injection Hjp. }
  right. right. unfold k in Hj.
  destruct (decide (j < length l1)%nat) as [Hlt|Hge].
  - exists j, p''. split; [case_decide; lia|]. by rewrite lookup_app_l in * by done.
  - exists (j - 1)%nat, p''. split; [case_decide; lia|]. rewrite lookup_app_r in * by lia.
    by replace (j - length l1)%nat with (S (j - 1 - length l1)) in Hjp by lia.
Qed.

Lemma no_lost_step q c c' : wstep q c c' -> no_lost q c -> no_lost q c'.
Proof.
  intros [s l tmp s' Hf He|s l s' Hw|s l1 p tmp l2 s' Hp Hleave|s l s' Hq Hv Hr].
  - by apply no_lost_enter.
  - by apply no_lost_wake.
  - by apply no_lost_leave.
  - intros [_ Hl]. split; [done|]. rewrite Hq. intros i p tmp Hi.
    destruct (Hl i p tmp Hi) as [H|[H|H]]; [left|by right; left|by right; right].
    apply Hr; [|done]. apply list_elem_of_fmap. exists (p, tmp). split; [done|].
    by apply list_elem_of_lookup_2 with i.
Qed.

Lemma no_lost_steps q c c' : rtc (wstep q) c c' -> no_lost q c -> no_lost q c'.
Proof. induction 1; eauto using no_lost_step. Qed.

(** C5: No wake-up is lost on the implicit queue of [sleep_on]: in every state
    reachable by any interleaving of tasks that enter [sleep_on(q)], calls of
    [wake_up(q)], sleepers that return and other activity, once the queue
    variable is NULL and every sleeper that was made runnable has returned,
    nobody is asleep on [q] any more. *)
Theorem sleep_on_no_lost_wakeup (q : waitq) (s0 s : kst) (l : list sleeper)
  (Hvalid : wq_valid s0 q) (Hreach : rtc (wstep q) (s0, []) (s, l))
  (Hempty : read_wq s q = None) (Hdone : forall p, p ∈ l.*1 -> ~ is_running s p) :
  l = [].
Proof.
  assert (no_lost q (s, l)) as [_ Hl].
  { apply (no_lost_steps q _ _ Hreach). split; [done|].
    intros i p tmp Hi. by rewrite lookup_nil in Hi. }
  destruct l as [|[p tmp] l]; [done|exfalso].
  destruct (Hl 0%nat p tmp eq_refl) as [Hr|[Hq|(j & p' & Hj & _)]].
  - apply (Hdone p); [|done]. by left.
  - congruence.
  - lia.
Qed.

(** tasks 1 and 2 go to sleep for a free request, and one wake-up brings both back *)
Definition wait_start : kst :=
  boot_kst <| sched := two_tasks <| current := 0x2000 |> |>.
Definition run_state {A} (m : K A) (s : kst) : kst := state_of (m s).
Definition switch_current (p : tptr) (s : kst) : kst :=
  s <| sched ::= fun c => c <| current := p |> |>.
Definition wait_1 : kst := run_state (sleep_on_enter WqRequest) wait_start.
Definition wait_2 : kst := run_state (sleep_on_enter WqRequest) (switch_current 0x3000 wait_1).
Definition wait_3 : kst := run_state (wake_up WqRequest) (switch_current init_task wait_2).
Definition wait_4 : kst := run_state (sleep_on_leave (Some 0x2000)) wait_3.

Lemma sleep_on_no_lost_wakeup_witness :
  rtc (wstep WqRequest) (wait_start, []) (wait_4, []) /\
  is_running wait_3 0x3000 /\ ~ is_running wait_3 0x2000 /\ is_running wait_4 0x2000 /\
  ([] : list sleeper) = [].
Proof.
  assert (rtc (wstep WqRequest) (wait_start, []) (wait_4, [])) as Hreach.
  { eapply rtc_l; [apply (ws_enter _ _ _ None wait_1); [set_solver|vm_compute; reflexivity]|].
    eapply rtc_l; [apply (ws_other _ _ _ (switch_current 0x3000 wait_1)); [reflexivity|exact I|done]|].
    eapply rtc_l; [apply (ws_enter _ _ _ (Some 0x2000) wait_2);
                   [apply (bool_decide_unpack _); vm_compute; done|vm_compute; reflexivity]|].
    eapply rtc_l; [apply (ws_other _ _ _ (switch_current init_task wait_2)); [reflexivity|exact I|done]|].
    eapply rtc_l; [apply (ws_wake _ _ _ wait_3); vm_compute; reflexivity|].
    eapply rtc_l; [apply (ws_leave _ _ [] 0x3000 (Some 0x2000) _ wait_4);
                   [eexists; split; vm_compute; reflexivity|vm_compute; reflexivity]|].
    eapply rtc_l; [apply (ws_leave _ _ [] 0x2000 None [] wait_4);
                   [eexists; split; vm_compute; reflexivity|reflexivity]|].
    apply rtc_refl. }
  split; [exact Hreach|]. split; [eexists; split; vm_compute; reflexivity|].
  split; [intros (t & Ht & Hr); vm_compute in Ht; injection Ht as <-; discriminate Hr|].
  split; [eexists; split; vm_compute; reflexivity|].
  apply (sleep_on_no_lost_wakeup WqRequest wait_start wait_4 [] I Hreach); [reflexivity|].
  intros p Hp. by apply not_elem_of_nil in Hp.
Defined.
