(* ===== verification/Memory.v ===== *)
(** * mm/memory.cc: physical pages, page tables and their use counts

    Physical memory is read and written by 32-bit words at the addresses the
    code computes; the page directory is at address 0.  [invalidate()] flushes
    the translation cache and has no effect on this state. *)

From S2P Require Import Prelude State.

Definition LOW_MEM : Z := 0x100000.
Definition PAGING_MEMORY : Z := 15 * 1024 * 1024.
Definition PAGING_PAGES : nat := Z.to_nat (Z.shiftr PAGING_MEMORY 12).
Definition MAP_NR (addr : Z) : Z := Z.shiftr (u32 (addr - LOW_MEM)) 12.
Definition USED : Z := 100.

(** ** Words of physical memory *)
Definition word (m : mm_st) (a : Z) : Z := default 0 (phys m !! a).
Definition load (a : Z) : M mm_st Z := gets (fun m => word m a).
Definition store (a v : Z) : M mm_st unit := modify (fun m => m <| phys ::= insert a v |>).

(** one entry of [mem_map] *)
Definition get_count (i : Z) : M mm_st Z :=
  if i <? 0 then fault else m ← gets id; deref (mem_map m !! Z.to_nat i).
Definition set_count (i v : Z) : M mm_st unit :=
  _ ← get_count i; modify (fun m => m <| mem_map ::= <[Z.to_nat i := u8 v]> |>).

(** [rep ; stosl] of 0 over a page, and [copy_page] *)
Definition page_words : list Z := Z.of_nat <$> seq 0 1024.
Definition clear_page (p : Z) (h : gmap Z Z) : gmap Z Z :=
  foldr (fun k h => <[p + 4 * k := 0]> h) h page_words.
Definition copy_page (from to : Z) : M mm_st unit :=
  modify (fun m => m <| df := false |>) ;;                       (* cld *)
  for_each page_words (fun k => v ← load (from + 4 * k); store (to + 4 * k) v).

(** ** Allocation *)

(** [std ; repne ; scasb] from the last byte of [mem_map]: the index of the last 0 *)
Fixpoint scasb_down (l : list Z) (n : nat) : option nat :=
  match n with
  | O => None
  | S n => if default 0 (l !! n) =? 0 then Some n else scasb_down l n
  end.

Definition get_free_page : M mm_st Z :=
  m ← gets id;
  modify (fun m => m <| df := true |>) ;;                        (* std *)
  match scasb_down (mem_map m) PAGING_PAGES with
  | None => mret 0                                               (* jne 1f *)
  | Some ecx =>
      modify (fun m => m <| mem_map ::= <[ecx := 1]> |>) ;;      (* movb $1,1(%edi) *)
      let edx := Z.shiftl (Z.of_nat ecx) 12 + LOW_MEM in
      modify (fun m => m <| phys ::= clear_page edx |>) ;;       (* rep ; stosl *)
      modify (fun m => m <| df := false |>) ;;                   (* cld *)
      mret edx
  end.

Definition free_page (addr : Z) : M mm_st unit :=
  if addr <? LOW_MEM then mret tt else
  high ← gets HIGH_MEMORY;
  if u32 high <=? addr then panic "trying to free nonexistent page" else
  let addr := MAP_NR addr in
  c ← get_count addr;
  set_count addr (c - 1) ;;
  if nz c then mret tt else
  set_count addr 0 ;; panic "trying to free free page".

(** ** Page tables *)
Definition PRESENT (e : Z) : bool := nz (Z.land 1 e).
Definition frame (e : Z) : Z := Z.land 0xfffff000 e.
Definition dir_of (a : Z) : Z := Z.land (Z.shiftr a 20) 0xffc.

(** [for (nr=0 ; nr<1024 ; nr++)] of [free_page_tables] *)
Definition free_entry (pg_table nr : Z) : M mm_st unit :=
  e ← load (pg_table + 4 * nr);
  when (PRESENT e) (free_page (frame e)) ;;
  store (pg_table + 4 * nr) 0.

Definition free_dir (dir : Z) : M mm_st unit :=
  d ← load dir;
  if negb (PRESENT d) then mret tt else
  for_each page_words (free_entry (frame d)) ;;
  d ← load dir; free_page (frame d) ;;
  store dir 0.

Definition free_page_tables (from size : Z) : M mm_st Z :=
  if nz (Z.land from 0x3fffff) then panic "free_page_tables called with wrong alignment" else
  if from =? 0 then panic "Trying to free up swapper memory space" else
  let size := Z.shiftr (u32 (size + 0x3fffff)) 22 in
  for_each (seq 0 (Z.to_nat size)) (fun k => free_dir (dir_of from + 4 * Z.of_nat k)) ;;
  mret 0.

(** one entry of a page table that [fork] copies *)
Definition copy_entry (from_page_table to_page_table nr : Z) : M mm_st unit :=
  this_page ← load (from_page_table + 4 * nr);
  if negb (PRESENT this_page) then mret tt else
  let this_page := Z.land this_page (not32 2) in
  store (to_page_table + 4 * nr) this_page ;;
  when (LOW_MEM <? this_page)
    (store (from_page_table + 4 * nr) this_page ;;
     c ← get_count (MAP_NR this_page);
     set_count (MAP_NR this_page) (c + 1)).

(** one directory entry: [false] when there is no page for the new table *)
Definition copy_dir (from from_dir to_dir : Z) : M mm_st bool :=
  d ← load to_dir;
  if PRESENT d then panic "copy_page_tables: already exist" else
  e ← load from_dir;
  if negb (PRESENT e) then mret true else
  to_page_table ← get_free_page;
  if to_page_table =? 0 then mret false else
  store to_dir (Z.lor to_page_table 7) ;;
  for_each (if from =? 0 then take 0xA0 page_words else page_words)
    (copy_entry (frame e) to_page_table) ;;
  mret true.

Definition copy_page_tables (from to size : Z) : M mm_st Z :=
  if nz (Z.land from 0x3fffff) || nz (Z.land to 0x3fffff)
  then panic "copy_page_tables called with wrong alignment" else
  let size := Z.shiftr (u32 (size + 0x3fffff)) 22 in
  r ← for_find (seq 0 (Z.to_nat size)) (fun k =>
    ok ← copy_dir from (dir_of from + 4 * Z.of_nat k) (dir_of to + 4 * Z.of_nat k);
    mret (if ok : bool then None else Some (-1)));
  mret (default 0 r).

Definition put_page (page address : Z) : K Z :=
  high ← zoom_mm (gets HIGH_MEMORY);
  when ((page <? LOW_MEM) || (u32 high <=? page)) (printk "Trying to put page %p at %p" [page; address]) ;;
  c ← zoom_mm (get_count (MAP_NR page));
  unless (c =? 1) (printk "mem_map disagrees with %p at %p" [page; address]) ;;
  zoom_mm (
    let page_table := dir_of address in
    d ← load page_table;
    let slot := Z.land (Z.shiftr address 12) 0x3ff in
    if PRESENT d then
      store (frame d + 4 * slot) (Z.lor page 7) ;; mret page
    else
      tmp ← get_free_page;
      if tmp =? 0 then mret 0 else
      store page_table (Z.lor tmp 7) ;;
      store (tmp + 4 * slot) (Z.lor page 7) ;; mret page).

(** [un_wp_page] up to its call of [oom]: [false] when there is no free page *)
Definition un_wp (table_entry : Z) : M mm_st bool :=
  e ← load table_entry;
  let old_page := frame e in
  c ← (if LOW_MEM <=? old_page then get_count (MAP_NR old_page) else mret 0);
  if (LOW_MEM <=? old_page) && (c =? 1) then
    store table_entry (Z.lor e 2) ;; mret true
  else
    new_page ← get_free_page;
    if new_page =? 0 then mret false else
    when (LOW_MEM <=? old_page)
      (c ← get_count (MAP_NR old_page); set_count (MAP_NR old_page) (c - 1)) ;;
    store table_entry (Z.lor new_page 7) ;;
    copy_page old_page new_page ;; mret true.

(** ** Start-up and statistics *)
Definition mem_init (start_mem end_mem : Z) : M mm_st unit :=
  modify (fun m => m <| HIGH_MEMORY := end_mem |>) ;;
  for_each (seq 0 PAGING_PAGES) (fun i => set_count (Z.of_nat i) USED) ;;
  let i := Z.shiftr (s32 (start_mem - LOW_MEM)) 12 in
  let end_mem := Z.shiftr (s32 (end_mem - start_mem)) 12 in
  for_each (seq 0 (Z.to_nat end_mem)) (fun k => set_count (i + Z.of_nat k) 0).

(** [pg_dir], at address 0, as an array *)
Definition calc_mem : K unit :=
  free ← zoom_mm (for_fold (seq 0 PAGING_PAGES) 0 (fun free i =>
    c ← get_count (Z.of_nat i); mret (if c =? 0 then free + 1 else free)));
  printk "%d pages free (of %d)" [free; Z.of_nat PAGING_PAGES] ;;
  for_each (seq 2 1022) (fun i =>
    d ← zoom_mm (load (4 * Z.of_nat i));
    when (PRESENT d)
      (k ← zoom_mm (for_fold page_words 0 (fun k j =>
         e ← load (frame d + 4 * j); mret (if PRESENT e then k + 1 else k)));
       printk "Pg-dir[%d] uses %d pages" [Z.of_nat i; k])).
