(* ===== verification/MemoryFacts.v ===== *)
(** * mm/memory.cc: allocation, the use counts of shared page tables, copy on write *)

From S2P Require Import Prelude State Memory.

#[local] Arguments scasb_down : simpl never.
#[local] Arguments clear_page : simpl never.
#[local] Arguments page_words : simpl never.
#[local] Arguments PAGING_PAGES : simpl never.

(** ** Page numbers of page-table entries *)

Lemma land_mask32 e k : 0 <= e < 2 ^ 32 -> Z.land e (Z.land (Z.ones 32) (Z.lnot k)) = e - Z.land e k.
Proof.
  intros He. rewrite Z.land_assoc, Z.land_ones, Z.mod_small by lia. by rewrite Z.sub_land_same_l.
Qed.
Lemma frame_spec e : 0 <= e < 2 ^ 32 -> frame e = 4096 * (e / 4096).
Proof.
  intros He. unfold frame. rewrite Z.land_comm.
  change 0xfffff000 with (Z.land (Z.ones 32) (Z.lnot (Z.ones 12))).
  rewrite land_mask32, Z.land_ones by lia. change (2 ^ 12) with 4096.
  pose proof (Z.div_mod e 4096). lia.
Qed.
Lemma PRESENT_odd e : PRESENT e = Z.odd e.
Proof.
  unfold PRESENT, nz. rewrite Z.land_comm. change 1 with (Z.ones 1) at 1. rewrite Z.land_ones by lia.
  change (2 ^ 1) with 2. rewrite Zmod_odd. by destruct (Z.odd e).
Qed.

(** clearing the write bit keeps the page and the present bit *)
Lemma readonly_present e : PRESENT (Z.land e (not32 2)) = PRESENT e.
Proof. rewrite !PRESENT_odd, <- !Z.bit0_odd, Z.land_spec. apply andb_true_r. Qed.
Lemma readonly_page e : 0 <= e < 2 ^ 32 -> Z.land e (not32 2) / 4096 = e / 4096.
Proof.
  intros He. change 4096 with (2 ^ 12). rewrite <- !Z.shiftr_div_pow2, Z.shiftr_land by lia.
  change (Z.shiftr (not32 2) 12) with (Z.ones 20). rewrite Z.land_ones, Z.shiftr_div_pow2 by lia.
  apply Z.mod_small. split; [apply Z.div_pos; lia|]. apply Z.div_lt_upper_bound; lia.
Qed.
Lemma readonly_range e : 0 <= e < 2 ^ 32 -> 0 <= Z.land e (not32 2) < 2 ^ 32.
Proof.
  intros He. split; [apply Z.land_nonneg; lia|].
  destruct (Z.eq_dec (Z.land e (not32 2)) 0) as [->|Hne]; [lia|].
  assert (0 <= Z.land e (not32 2)) by (apply Z.land_nonneg; lia).
  apply Z.log2_lt_pow2; [lia|]. assert (Hl := Z.log2_land e (not32 2) ltac:(lia) ltac:(done)).
  change (Z.log2 (not32 2)) with 31 in Hl. lia.
Qed.

(** the page an entry refers to, when it is one [mem_map] counts *)
Definition counted (e : Z) : bool := PRESENT e && (256 <=? e / 4096).
Definition page_nr (e : Z) : nat := Z.to_nat (e / 4096 - 256).

Lemma MAP_NR_spec e : LOW_MEM <= e < 2 ^ 32 -> MAP_NR e = e / 4096 - 256.
Proof.
  unfold MAP_NR, LOW_MEM. intros He. rewrite u32_id, Z.shiftr_div_pow2 by lia.
  change (2 ^ 12) with 4096. replace (e - 0x100000) with (e + (-256) * 4096) by lia.
  rewrite Z.div_add by lia. lia.
Qed.

Lemma page_lower e : LOW_MEM <= e <-> 256 <= e / 4096.
Proof.
  unfold LOW_MEM. pose proof (Z.div_mod e 4096). pose proof (Z.mod_pos_bound e 4096). lia.
Qed.
Lemma readonly_counted e : 0 <= e < 2 ^ 32 -> PRESENT e = true ->
  (LOW_MEM <? Z.land e (not32 2)) = counted e.
Proof.
  intros He Hp. unfold counted. rewrite Hp. cbn [andb]. set (t := Z.land e (not32 2)).
  assert (t / 4096 = e / 4096) as <- by (by apply readonly_page).
  assert (Z.odd t = true) as Ht by (unfold t; by rewrite <- PRESENT_odd, readonly_present).
  assert (t <> LOW_MEM) by (intros Heq; by rewrite Heq in Ht).
  pose proof (page_lower t). destruct (Z.ltb_spec LOW_MEM t), (Z.leb_spec 256 (t / 4096)); lia.
Qed.

(** ** [get_free_page] *)

Lemma scasb_down_None l n :
  scasb_down l n = None -> forall i c, (i < n)%nat -> l !! i = Some c -> c <> 0.
Proof.
  induction n as [|n IH]; unfold scasb_down; fold scasb_down; [lia|].
  destruct (Z.eqb_spec (default 0 (l !! n)) 0) as [|Hne]; [done|]. intros Hs i c Hi Hl.
  destruct (decide (i = n)) as [->|]; [by rewrite Hl in Hne|]. apply (IH Hs i c); [lia|done].
Qed.
Lemma scasb_down_Some l n i :
  (n <= length l)%nat -> scasb_down l n = Some i ->
  (i < n)%nat /\ l !! i = Some 0 /\ forall j c, (i < j < n)%nat -> l !! j = Some c -> c <> 0.
Proof.
  intros Hn. induction n as [|n IH]; unfold scasb_down; fold scasb_down; [done|].
  destruct (Z.eqb_spec (default 0 (l !! n)) 0) as [Heq|Hne].
  - intros [= <-]. split; [lia|]. destruct (lookup_lt_is_Some_2 l n) as [c Hc]; [lia|].
    rewrite Hc in *. cbn in Heq. subst c. split; [done|]. intros; lia.
  - intros Hs. destruct IH as (Hi & Hl & Hd); [lia|done|]. split; [lia|]. split; [done|].
    intros j c Hj Hc. destruct (decide (j = n)) as [->|]; [by rewrite Hc in Hne|].
    apply (Hd j c); [lia|done].
Qed.

(** the words of the page at [p] *)
Definition in_page (p a : Z) : Prop := exists k, k ∈ page_words /\ a = p + 4 * k.

Lemma page_words_range k : k ∈ page_words <-> 0 <= k < 1024.
Proof.
  unfold page_words. rewrite list_elem_of_fmap. setoid_rewrite elem_of_seq. split.
  - intros (n & -> & Hn). lia.
  - intros Hk. exists (Z.to_nat k). lia.
Qed.
Lemma page_words_NoDup : NoDup page_words.
Proof. apply NoDup_fmap_2; [apply _|]. apply NoDup_seq. Qed.

#[export] Instance in_page_dec p a : Decision (in_page p a).
Proof.
  refine (cast_if (decide (p <= a < p + 4096 /\ (a - p) mod 4 = 0))); unfold in_page.
  - exists ((a - p) / 4). rewrite page_words_range. pose proof (Z.div_mod (a - p) 4). lia.
  - intros (k & Hk & ->). rewrite page_words_range in Hk. apply n. split; [lia|].
    replace (p + 4 * k - p) with (k * 4) by lia. apply Z_mod_mult.
Defined.

Lemma clear_page_lookup p h a :
  default 0 (clear_page p h !! a) = if decide (in_page p a) then 0 else default 0 (h !! a).
Proof.
  assert (forall l, (exists k, k ∈ l /\ a = p + 4 * k) ->
            foldr (fun k h => <[p + 4 * k := 0]> h) h l !! a = Some 0) as Hin.
  { induction l as [|k l IH]; intros (k' & Hk & ->); [by apply not_elem_of_nil in Hk|]. cbn.
    destruct (decide (k' = k)) as [->|Hne]; [apply lookup_insert_eq|].
    rewrite lookup_insert_ne by lia. apply IH. exists k'. set_solver. }
  assert (forall l, (~ exists k, k ∈ l /\ a = p + 4 * k) ->
            foldr (fun k h => <[p + 4 * k := 0]> h) h l !! a = h !! a) as Hout.
  { induction l as [|k l IH]; intros Hn; [done|]. cbn.
    rewrite lookup_insert_ne; [apply IH; set_solver|]. intros <-. apply Hn. exists k. set_solver. }
  unfold clear_page. case_decide; [by rewrite Hin|by rewrite Hout].
Qed.

(** what [get_free_page] does when there is no page, and when there is one *)
Lemma get_free_page_spec (m : mm_st) (Hlen : length (mem_map m) = PAGING_PAGES) :
  (Forall (fun c => c <> 0) (mem_map m) /\ get_free_page m = Ret 0 (m <| df := true |>)) \/
  exists i m', mem_map m !! i = Some 0 /\
    (forall j c, (i < j)%nat -> mem_map m !! j = Some c -> c <> 0) /\
    get_free_page m = Ret (LOW_MEM + 4096 * Z.of_nat i) m' /\
    mem_map m' = <[i := 1]> (mem_map m) /\ HIGH_MEMORY m' = HIGH_MEMORY m /\ df m' = false /\
    forall a, word m' a = if decide (in_page (LOW_MEM + 4096 * Z.of_nat i) a) then 0 else word m a.
Proof.
  unfold get_free_page. mrun. destruct (scasb_down (mem_map m) PAGING_PAGES) as [i|] eqn:Hs.
  - right. apply scasb_down_Some in Hs as (Hi & Hz & Hd); [|lia].
    exists i. eexists. split; [done|]. split.
    { intros j c Hj Hc. apply (Hd j c); [|done]. apply lookup_lt_Some in Hc. lia. }
    mrun. rewrite Z.shiftl_mul_pow2 by lia.
    replace (Z.of_nat i * 2 ^ 12 + LOW_MEM) with (LOW_MEM + 4096 * Z.of_nat i) by lia.
    split; [reflexivity|]. split_and!; [done..|]. intros a. apply clear_page_lookup.
  - left. split; [|done]. apply Forall_lookup. intros i c Hc.
    apply (scasb_down_None _ _ Hs i c); [|done]. apply lookup_lt_Some in Hc. lia.
Qed.

(** ** Use counts *)

(** [l] more (or fewer, [d = -1]) references to the pages in [l] *)
Definition occ (i : nat) (l : list nat) : Z := Z.of_nat (length (filter (fun j => j = i) l)).
Definition add_refs (d : Z) (l : list nat) (mm : list Z) : list Z :=
  imap (fun i c => c + d * occ i l) mm.

(** the pages the entries [ks] of the table at [p] refer to *)
Definition entry_page (e : Z) : option nat := if counted e then Some (page_nr e) else None.
Definition table_pages (m : mm_st) (p : Z) (ks : list Z) : list nat :=
  omap (fun k => entry_page (word m (p + 4 * k))) ks.

Lemma occ_nil i : occ i [] = 0.
Proof. done. Qed.
Lemma occ_cons i j l : occ i (j :: l) = (if decide (j = i) then 1 else 0) + occ i l.
Proof. unfold occ. rewrite filter_cons. repeat case_decide; cbn [length]; lia. Qed.
Lemma occ_nonneg i l : 0 <= occ i l.
Proof. unfold occ. lia. Qed.
Lemma occ_elem i l : i ∈ l -> 1 <= occ i l.
Proof.
  induction l as [|j l IH]; [intros H; by apply not_elem_of_nil in H|].
  rewrite occ_cons. pose proof (occ_nonneg i l). intros [->|Hi]%elem_of_cons.
  - case_decide; [lia|done].
  - specialize (IH Hi). case_decide; lia.
Qed.

Lemma add_refs_nil d mm : add_refs d [] mm = mm.
Proof.
  unfold add_refs. apply list_eq. intros i. rewrite list_lookup_imap, occ_nil.
  destruct (mm !! i); cbn; [|done]. f_equal. lia.
Qed.
Lemma add_refs_lookup d l mm i : add_refs d l mm !! i = (fun c => c + d * occ i l) <$> mm !! i.
Proof. apply list_lookup_imap. Qed.
Lemma add_refs_cons d j l mm c :
  mm !! j = Some c -> add_refs d l (<[j := c + d]> mm) = add_refs d (j :: l) mm.
Proof.
  intros Hc. apply list_eq. intros i. rewrite !add_refs_lookup, occ_cons.
  destruct (decide (j = i)) as [->|Hne].
  - rewrite list_lookup_insert_eq by (by apply lookup_lt_Some in Hc). rewrite Hc. cbn. f_equal; lia.
  - rewrite list_lookup_insert_ne by done. destruct (mm !! i); cbn; [|done]. f_equal; lia.
Qed.
Lemma add_refs_undo l mm : add_refs (-1) l (add_refs 1 l mm) = mm.
Proof.
  apply list_eq. intros i. rewrite !add_refs_lookup. destruct (mm !! i); cbn; [|done]. f_equal. lia.
Qed.
Lemma add_refs_insert d l mm i c :
  i ∉ l -> add_refs d l (<[i := c]> mm) = <[i := c]> (add_refs d l mm).
Proof.
  intros Hi. apply list_eq. intros k. rewrite add_refs_lookup.
  assert (occ i l = 0) as H0.
  { unfold occ. replace (filter (fun j => j = i) l) with (@nil nat); [done|].
    symmetry. clear - Hi. induction l as [|x l IH]; [done|].
    apply not_elem_of_cons in Hi as [? ?]. rewrite filter_cons_False by done. by apply IH. }
  destruct (decide (i = k)) as [->|Hne]; [|by rewrite !list_lookup_insert_ne, add_refs_lookup].
  destruct (decide (k < length mm)%nat).
  - rewrite !list_lookup_insert_eq; [cbn; f_equal; lia|by unfold add_refs; rewrite length_imap|done]. 
  - rewrite !list_insert_ge, add_refs_lookup by (unfold add_refs; rewrite ?length_imap; lia).
    by rewrite lookup_ge_None_2 by lia.
Qed.
Lemma length_add_refs d l mm : length (add_refs d l mm) = length mm.
Proof. apply length_imap. Qed.

(** ** Copying a page table and freeing it again *)

#[local] Opaque page_words.

Lemma get_count_run i c m : mem_map m !! i = Some c -> get_count (Z.of_nat i) m = Ret c m.
Proof.
  intros H. unfold get_count. rewrite (proj2 (Z.ltb_ge (Z.of_nat i) 0)) by lia.
  mrun. rewrite Nat2Z.id. by rewrite H.
Qed.
Lemma set_count_run i c v m : mem_map m !! i = Some c ->
  set_count (Z.of_nat i) v m = Ret tt (m <| mem_map ::= <[i := u8 v]> |>).
Proof.
  intros H. unfold set_count. rewrite (bind_Ret _ _ _ _ _ (get_count_run _ _ _ H)).
  unfold modify. by rewrite Nat2Z.id.
Qed.

Lemma store_run a v m : store a v m = Ret tt (m <| phys ::= insert a v |>).
Proof. done. Qed.
Lemma load_run a m : load a m = Ret (word m a) m.
Proof. done. Qed.
Lemma word_store_eq m a v : word (m <| phys ::= insert a v |>) a = v.
Proof. unfold word. cbn. by rewrite lookup_insert_eq. Qed.
Lemma word_store_ne m a b v : a <> b -> word (m <| phys ::= insert a v |>) b = word m b.
Proof. intros. unfold word. cbn. by rewrite lookup_insert_ne. Qed.

Lemma counted_page e : 0 <= e < 2 ^ 32 -> counted e = true ->
  MAP_NR (frame e) = Z.of_nat (page_nr e) /\ LOW_MEM <= frame e < 2 ^ 32.
Proof.
  unfold counted, page_nr. intros He [_ Hc%Z.leb_le]%andb_true_iff. rewrite frame_spec by done.
  assert (4096 * (e / 4096) <= e) by (apply Z.mul_div_le; lia).
  assert (LOW_MEM <= 4096 * (e / 4096)) by (unfold LOW_MEM; lia).
  rewrite MAP_NR_spec by lia. rewrite (Z.mul_comm 4096), Z.div_mul by lia. lia.
Qed.
Lemma readonly_MAP_NR e : 0 <= e < 2 ^ 32 -> counted e = true ->
  MAP_NR (Z.land e (not32 2)) = Z.of_nat (page_nr e).
Proof.
  intros He Hc. assert (H := readonly_counted e He). unfold counted in Hc.
  apply andb_true_iff in Hc as [Hp Hc]. specialize (H Hp). unfold counted in H. rewrite Hp, Hc in H.
  apply Z.ltb_lt in H. apply Z.leb_le in Hc. pose proof (readonly_range e He).
  rewrite MAP_NR_spec, readonly_page by lia. unfold page_nr. lia.
Qed.

(** an entry of a page table in use: its page exists and is in use *)
Definition entry_ok (m : mm_st) (e : Z) : Prop :=
  0 <= e < 2 ^ 32 /\
  (counted e = true -> frame e < u32 (HIGH_MEMORY m) /\
                       exists c, mem_map m !! page_nr e = Some c /\ 1 <= c).

(** the value [fork] leaves in an entry, in the new table and in the old *)
Definition child_entry (e : Z) : Z := if PRESENT e then Z.land e (not32 2) else 0.
Definition parent_entry (e : Z) : Z := if counted e then Z.land e (not32 2) else e.

Lemma copy_entry_run f t k m :
  let e := word m (f + 4 * k) in
  0 <= e < 2 ^ 32 -> word m (t + 4 * k) = 0 -> f + 4 * k <> t + 4 * k ->
  (forall i, entry_page e = Some i -> exists c, mem_map m !! i = Some c /\ 0 <= c < 255) ->
  exists m', copy_entry f t k m = Ret tt m' /\
    mem_map m' = (if entry_page e is Some i
                  then <[i := default 0 (mem_map m !! i) + 1]> (mem_map m) else mem_map m) /\
    HIGH_MEMORY m' = HIGH_MEMORY m /\ df m' = df m /\
    word m' (t + 4 * k) = child_entry e /\ word m' (f + 4 * k) = parent_entry e /\
    (forall a, a <> f + 4 * k -> a <> t + 4 * k -> word m' a = word m a).
Proof.
  intros e He Ht Hne Hc. unfold copy_entry, child_entry, parent_entry, entry_page in *.
  rewrite (bind_Ret _ _ _ _ _ (load_run _ _)). fold e.
  destruct (PRESENT e) eqn:Hp; cbn [negb].
  2:{ assert (counted e = false) as -> by (unfold counted; by rewrite Hp). exists m. by split_and!. }
  rewrite readonly_counted by done. rewrite (bind_Ret _ _ _ _ _ (store_run _ _ _)).
  destruct (counted e) eqn:Hcnt; cbn [when].
  - destruct (Hc _ eq_refl) as (c & Hm & Hrange). rewrite Hm. cbn [default].
    eexists. split; [|split; [|split_and!]].
    + rewrite (bind_Ret _ _ _ _ _ (store_run _ _ _)), readonly_MAP_NR by done.
      rewrite (bind_Ret _ _ _ c _) by (apply get_count_run; done).
      rewrite (set_count_run _ c) by done. reflexivity.
    + cbn. rewrite u8_id by lia. done.
    + done.
    + done.
    + unfold word. cbn. rewrite lookup_insert_ne by done. by rewrite lookup_insert_eq.
    + unfold word. cbn. by rewrite lookup_insert_eq.
    + intros a Ha Hb. unfold word. cbn. by rewrite !lookup_insert_ne by done.
  - eexists. split; [reflexivity|]. split_and!; [done|done|done|apply word_store_eq|by apply word_store_ne|].
    intros a Ha Hb. by apply word_store_ne.
Qed.

Lemma table_pages_cons m p k ks :
  table_pages m p (k :: ks) =
    (if entry_page (word m (p + 4 * k)) is Some i then [i] else []) ++ table_pages m p ks.
Proof. unfold table_pages. cbn. by destruct (entry_page _). Qed.
Lemma table_pages_ext m m' p p' ks :
  (forall k, k ∈ ks -> entry_page (word m' (p' + 4 * k)) = entry_page (word m (p + 4 * k))) ->
  table_pages m' p' ks = table_pages m p ks.
Proof.
  induction ks as [|k ks IH]; intros H; [done|]. rewrite !table_pages_cons.
  rewrite (H k) by (by left). f_equal. apply IH. intros k' Hk. apply H. by right.
Qed.

(** the two tables do not overlap *)
Definition disjoint_tables (f t : Z) : Prop :=
  forall k k', k ∈ page_words -> k' ∈ page_words -> f + 4 * k <> t + 4 * k'.

Lemma copy_loop f t ks m :
  disjoint_tables f t -> NoDup ks -> ks ⊆ page_words ->
  (forall k, k ∈ ks -> 0 <= word m (f + 4 * k) < 2 ^ 32 /\ word m (t + 4 * k) = 0) ->
  (forall i, i ∈ table_pages m f ks -> exists c, mem_map m !! i = Some c /\ 0 <= c /\
     c + occ i (table_pages m f ks) <= 255) ->
  exists m', for_each ks (copy_entry f t) m = Ret tt m' /\
    mem_map m' = add_refs 1 (table_pages m f ks) (mem_map m) /\
    HIGH_MEMORY m' = HIGH_MEMORY m /\ df m' = df m /\
    (forall k, k ∈ ks -> word m' (t + 4 * k) = child_entry (word m (f + 4 * k)) /\
                         word m' (f + 4 * k) = parent_entry (word m (f + 4 * k))) /\
    (forall a, (forall k, k ∈ ks -> a <> f + 4 * k /\ a <> t + 4 * k) -> word m' a = word m a).
Proof.
  intros Hdis. revert m. induction ks as [|k ks IH]; intros m Hnd Hsub Hw Hc.
  { exists m. cbn. rewrite add_refs_nil. split_and!; [done..|set_solver|done]. }
  apply NoDup_cons in Hnd as [Hk Hnd]. rewrite table_pages_cons in Hc |- *.
  assert (k ∈ page_words /\ ks ⊆ page_words) as [Hkp Hsub'] by set_solver.
  destruct (Hw k) as [He Ht]; [by left|].
  destruct (copy_entry_run f t k m) as (m1 & Hrun & Hmm & Hhi & Hdf & Hwt & Hwf & Hoth); [done..|by apply Hdis| |].
  { intros i Hi. rewrite Hi in Hc. destruct (Hc i) as (c & ? & ? & Hocc); [by left|]. exists c.
    split; [done|]. cbn [app] in Hocc. rewrite occ_cons in Hocc. case_decide; [|done].
    pose proof (occ_nonneg i (table_pages m f ks)). lia. }
  assert (forall k', k' ∈ ks -> word m1 (f + 4 * k') = word m (f + 4 * k') /\
                                word m1 (t + 4 * k') = word m (t + 4 * k')) as Hsame.
  { intros k' Hk'. assert (k' <> k) by set_solver. split; apply Hoth; try lia.
    - apply Hdis; [|done]. set_solver.
    - intros Heq. symmetry in Heq. revert Heq. apply Hdis; [done|set_solver]. }
  assert (table_pages m1 f ks = table_pages m f ks) as Htp.
  { apply table_pages_ext. intros k' Hk'. by rewrite (proj1 (Hsame k' Hk')). }
  destruct (IH m1) as (m' & Hrun' & Hmm' & Hhi' & Hdf' & Hkey & Hoth'); [done..| | |].
  { intros k' Hk'. destruct (Hsame k' Hk') as [-> ->]. apply Hw. by right. }
  { rewrite Htp, Hmm. intros i Hi.
    destruct (Hc i) as (c & Hm & Hc0 & Hocc); [apply elem_of_app; by right|].
    destruct (entry_page (word m (f + 4 * k))) as [j|] eqn:Hj; cbn [app] in Hocc; [|eauto].
    rewrite occ_cons in Hocc. destruct (decide (j = i)) as [->|Hne].
    - exists (c + 1). rewrite Hm. cbn [default].
      rewrite list_lookup_insert_eq by (by apply lookup_lt_Some in Hm). split; [done|]. lia.
    - exists c. rewrite list_lookup_insert_ne by done. split; [done|]. lia. }
  exists m'. split; [cbn [for_each]; by rewrite (bind_Ret _ _ _ _ _ Hrun)|].
  split; [|split; [congruence|split; [congruence|split]]].
  - rewrite Hmm', Htp, Hmm. destruct (entry_page (word m (f + 4 * k))) as [j|] eqn:Hj; [|done].
    destruct (Hc j) as (c & Hm & _); [by left|]. rewrite Hm. by apply add_refs_cons.
  - intros k' [->|Hk']%elem_of_cons.
    + assert (forall k'', k'' ∈ ks -> k'' <> k /\ k'' ∈ page_words) as Hks by set_solver.
      rewrite !Hoth'; [done|..]; intros k'' [Hne Hin]%Hks; (split; [|lia || by apply Hdis]); try lia.
      intros Heq. symmetry in Heq. revert Heq. by apply Hdis.
    + destruct (Hkey k' Hk') as [-> ->]. by rewrite !(proj1 (Hsame k' Hk')).
  - intros a Ha. rewrite Hoth'; [apply Hoth; apply Ha; by left|]. intros k' Hk'. apply Ha. by right.
Qed.

Lemma frame_not_counted e : 0 <= e < 2 ^ 32 -> PRESENT e = true -> counted e = false -> frame e < LOW_MEM.
Proof.
  unfold counted. intros He -> Hc%Z.leb_gt. rewrite frame_spec by done. unfold LOW_MEM. lia.
Qed.

Lemma free_page_run e m c :
  0 <= e < 2 ^ 32 -> counted e = true -> frame e < u32 (HIGH_MEMORY m) ->
  mem_map m !! page_nr e = Some c -> 0 < c < 256 ->
  free_page (frame e) m = Ret tt (m <| mem_map ::= <[page_nr e := c - 1]> |>).
Proof.
  intros He Hcnt Hhi Hm Hc. destruct (counted_page e He Hcnt) as [Hnr Hlow]. unfold free_page.
  rewrite (proj2 (Z.ltb_ge _ _)) by lia. rewrite (bind_Ret _ _ _ (HIGH_MEMORY m) m) by done.
  rewrite (proj2 (Z.leb_gt _ _)) by lia. rewrite Hnr.
  rewrite (bind_Ret _ _ _ _ _ (get_count_run _ _ _ Hm)).
  rewrite (bind_Ret _ _ _ _ _ (set_count_run _ _ _ _ Hm)).
  rewrite (proj2 (nz_true c)) by lia. by rewrite u8_id by lia.
Qed.
Lemma free_page_low e m : 0 <= e < 2 ^ 32 -> PRESENT e = true -> counted e = false ->
  free_page (frame e) m = Ret tt m.
Proof.
  intros He Hp Hc. unfold free_page. by rewrite (proj2 (Z.ltb_lt _ _)) by (by apply frame_not_counted).
Qed.

Lemma free_page_nr i m c : mem_map m !! i = Some c -> 0 <= c < 256 -> (i < PAGING_PAGES)%nat ->
  LOW_MEM + 4096 * Z.of_nat i < u32 (HIGH_MEMORY m) ->
  free_page (LOW_MEM + 4096 * Z.of_nat i) m =
  if c =? 0 then Panic "trying to free free page" (m <| mem_map ::= <[i := 0]> |>)
  else Ret tt (m <| mem_map ::= <[i := c - 1]> |>).
Proof.
  intros Hi Hc Hlt Hhi. unfold free_page. rewrite (proj2 (Z.ltb_ge _ _)) by lia.
  rewrite (bind_Ret _ _ _ (HIGH_MEMORY m) m) by done. rewrite (proj2 (Z.leb_gt _ _)) by lia.
  assert (MAP_NR (LOW_MEM + 4096 * Z.of_nat i) = Z.of_nat i) as ->.
  { assert (PAGING_PAGES = 3840%nat) as Hp by reflexivity. unfold MAP_NR. 
    replace (LOW_MEM + 4096 * Z.of_nat i - LOW_MEM) with (Z.of_nat i * 4096) by lia.
    rewrite u32_id, Z.shiftr_div_pow2 by lia. by apply Z.div_mul. }
  cbv zeta. rewrite (bind_Ret _ _ _ _ _ (get_count_run _ _ _ Hi)), (bind_Ret _ _ _ _ _ (set_count_run _ _ _ _ Hi)).
  unfold nz. destruct (Z.eqb_spec c 0) as [->|Hne]; cbn [negb].
  - set (m1 := m <| mem_map ::= _ |>). assert (mem_map m1 !! i = Some (u8 (0 - 1))) as Hi1.
    { apply list_lookup_insert_eq. by apply lookup_lt_Some in Hi. }
    rewrite (bind_Ret _ _ _ _ _ (set_count_run _ _ _ _ Hi1)). unfold panic. f_equal.
    unfold m1. destruct m; unfold upd; cbn. by rewrite list_insert_insert_eq.
  - by rewrite u8_id by lia.
Qed.

(** C15: [get_free_page] with a full [mem_map] returns 0 and changes only the
    direction flag, which it leaves set; otherwise it returns the last page
    whose use count is 0, with the use count 1, filled with zeros, and every
    other page, its contents and its use count, untouched.  [free_page] on that
    page gives the old use counts back, and a second [free_page] panics. *)
Theorem get_free_page_correct (m : mm_st) (Hlen : length (mem_map m) = PAGING_PAGES) :
  (Forall (fun c => c <> 0) (mem_map m) /\ get_free_page m = Ret 0 (m <| df := true |>)) \/
  exists i m', let p := LOW_MEM + 4096 * Z.of_nat i in
    mem_map m !! i = Some 0 /\
    (forall j c, (i < j)%nat -> mem_map m !! j = Some c -> c <> 0) /\
    get_free_page m = Ret p m' /\
    mem_map m' = <[i := 1]> (mem_map m) /\ HIGH_MEMORY m' = HIGH_MEMORY m /\ df m' = false /\
    (forall a, word m' a = if decide (in_page p a) then 0 else word m a) /\
    (p < u32 (HIGH_MEMORY m) ->
     exists m'', free_page p m' = Ret tt m'' /\ mem_map m'' = mem_map m /\
       exists m3, free_page p m'' = Panic "trying to free free page" m3 /\ mem_map m3 = mem_map m).
Proof.
  destruct (get_free_page_spec m Hlen) as [H|(i & m' & Hi & Hlast & Hrun & Hm & Hh & Hd & Hw)]; [by left|right].
  exists i, m'. split_and!; [done..|]. intros Hhi.
  pose proof (lookup_lt_Some _ _ _ Hi) as Hil. rewrite Hlen in Hil.
  assert (mem_map m' !! i = Some 1) as Hi1 by (rewrite Hm; apply list_lookup_insert_eq; by rewrite Hlen).
  assert (<[i := 0]> (mem_map m') = mem_map m) as Hback by (rewrite Hm, list_insert_insert_eq; by apply list_insert_id).
  set (m'' := m' <| mem_map ::= <[i := 0]> |>). exists m''.
  split; [by rewrite (free_page_nr i m' 1 Hi1 ltac:(lia) Hil ltac:(by rewrite Hh))|]. split; [exact Hback|].
  assert (mem_map m'' !! i = Some 0) as Hi0 by (unfold m'', upd; cbn; by rewrite Hback).
  exists (m'' <| mem_map ::= <[i := 0]> |>).
  split; [by rewrite (free_page_nr i m'' 0 Hi0 ltac:(lia) Hil ltac:(unfold m'', upd; cbn; by rewrite Hh))|].
  unfold m'', upd; cbn. rewrite Hback. by apply list_insert_id.
Qed.

(** two pages are free, the last of them is taken *)
Definition two_free : mm_st :=
  mk_mm (0 :: 0 :: replicate (PAGING_PAGES - 2) USED) 0x1000000 {[0x101000 := 7]} false.
Lemma get_free_page_correct_witness :
  exists m', get_free_page two_free = Ret 0x101000 m' /\ mem_map m' !! 1%nat = Some 1 /\ word m' 0x101000 = 0.
Proof.
  destruct (get_free_page_correct two_free) as [[Hall _]|(i & m' & Hi & Hlast & Hr & Hm & _ & _ & Hw & _)].
  - vm_compute. reflexivity.
  - exfalso. apply Forall_cons in Hall as [H _]. by apply H.
  - assert (i = 1%nat) as ->.
    { destruct (decide (i < 1)%nat) as [Hlt|].
      - exfalso. apply (Hlast 1%nat 0 Hlt eq_refl eq_refl).
      - destruct (decide (i = 1%nat)) as [|]; [done|exfalso].
        destruct i as [|[|i]]; [lia..|]. unfold two_free in Hi. cbn in Hi.
        apply lookup_replicate in Hi as [Hi _]. discriminate Hi. }
    exists m'. split; [exact Hr|]. rewrite Hm, Hw. split; [reflexivity|]. by vm_compute.
Defined.

Lemma free_entry_run t k m :
  let e := word m (t + 4 * k) in
  0 <= e < 2 ^ 32 ->
  (forall i, entry_page e = Some i -> frame e < u32 (HIGH_MEMORY m) /\
     exists c, mem_map m !! i = Some c /\ 0 < c < 256) ->
  exists m', free_entry t k m = Ret tt m' /\
    mem_map m' = (if entry_page e is Some i
                  then <[i := default 0 (mem_map m !! i) + -1]> (mem_map m) else mem_map m) /\
    HIGH_MEMORY m' = HIGH_MEMORY m /\ df m' = df m /\
    word m' (t + 4 * k) = 0 /\ (forall a, a <> t + 4 * k -> word m' a = word m a).
Proof.
  intros e He Hc. unfold free_entry, entry_page in *.
  rewrite (bind_Ret _ _ _ _ _ (load_run _ _)). fold e.
  assert (exists m1, when (PRESENT e) (free_page (frame e)) m = Ret tt m1 /\
    mem_map m1 = (if counted e then <[page_nr e := default 0 (mem_map m !! page_nr e) + -1]> (mem_map m)
                  else mem_map m) /\ HIGH_MEMORY m1 = HIGH_MEMORY m /\ df m1 = df m /\ phys m1 = phys m)
    as (m1 & Hrun & Hmm & Hhi & Hdf & Hph).
  { destruct (counted e) eqn:Hcnt.
    - destruct (Hc _ eq_refl) as (Hf & c & Hm & Hr). eexists.
      assert (PRESENT e = true) as -> by (unfold counted in Hcnt; by apply andb_true_iff in Hcnt as [? _]).
      cbn [when]. rewrite (free_page_run e m c) by done. split; [reflexivity|]. by rewrite Hm.
    - exists m. split; [|done]. destruct (PRESENT e) eqn:Hp; [|done]. by apply free_page_low. }
  rewrite (bind_Ret _ _ _ _ _ Hrun). eexists. split; [apply store_run|]. split_and!.
  - cbn. rewrite Hmm. by destruct (counted e).
  - done.
  - done.
  - apply word_store_eq.
  - intros a Ha. rewrite word_store_ne by done. unfold word. by rewrite Hph.
Qed.

Lemma free_loop t ks m :
  NoDup ks ->
  (forall k, k ∈ ks -> let e := word m (t + 4 * k) in
     0 <= e < 2 ^ 32 /\ (counted e = true -> frame e < u32 (HIGH_MEMORY m))) ->
  (forall i, i ∈ table_pages m t ks -> exists c, mem_map m !! i = Some c /\
     occ i (table_pages m t ks) <= c < 256) ->
  exists m', for_each ks (free_entry t) m = Ret tt m' /\
    mem_map m' = add_refs (-1) (table_pages m t ks) (mem_map m) /\
    HIGH_MEMORY m' = HIGH_MEMORY m /\ df m' = df m /\
    (forall k, k ∈ ks -> word m' (t + 4 * k) = 0) /\
    (forall a, (forall k, k ∈ ks -> a <> t + 4 * k) -> word m' a = word m a).
Proof.
  revert m. induction ks as [|k ks IH]; intros m Hnd Hw Hc.
  { exists m. cbn. rewrite add_refs_nil. split_and!; [done..|set_solver|done]. }
  apply NoDup_cons in Hnd as [Hk Hnd]. rewrite table_pages_cons in Hc |- *.
  destruct (Hw k) as [He Hf]; [by left|].
  destruct (free_entry_run t k m) as (m1 & Hrun & Hmm & Hhi & Hdf & Hwt & Hoth); [done|..].
  { intros i Hi. split.
    - apply Hf. unfold entry_page in Hi. by destruct (counted _).
    - rewrite Hi in Hc. destruct (Hc i) as (c & Hm & Hocc); [by left|]. exists c. split; [done|].
      cbn [app] in Hocc. rewrite occ_cons in Hocc. pose proof (occ_nonneg i (table_pages m t ks)).
      case_decide; [lia|done]. }
  assert (forall k', k' ∈ ks -> word m1 (t + 4 * k') = word m (t + 4 * k')) as Hsame.
  { intros k' Hk'. apply Hoth. assert (k' <> k) by set_solver. lia. }
  assert (table_pages m1 t ks = table_pages m t ks) as Htp.
  { apply table_pages_ext. intros k' Hk'. by rewrite Hsame. }
  destruct (IH m1) as (m' & Hrun' & Hmm' & Hhi' & Hdf' & Hkey & Hoth'); [done|..].
  { intros k' Hk'. rewrite Hsame, Hhi by done. apply Hw. by right. }
  { rewrite Htp, Hmm. intros i Hi. destruct (Hc i) as (c & Hm & Hocc); [apply elem_of_app; by right|].
    pose proof (occ_elem i _ Hi).
    destruct (entry_page (word m (t + 4 * k))) as [j|] eqn:Hj; cbn [app] in Hocc; [|eauto].
    rewrite occ_cons in Hocc. destruct (decide (j = i)) as [->|Hne].
    - exists (c + -1). rewrite Hm. cbn [default].
      rewrite list_lookup_insert_eq by (by apply lookup_lt_Some in Hm). split; [done|]. lia.
    - exists c. rewrite list_lookup_insert_ne by done. split; [done|]. lia. }
  exists m'. split; [cbn [for_each]; by rewrite (bind_Ret _ _ _ _ _ Hrun)|].
  split; [|split; [congruence|split; [congruence|split]]].
  - rewrite Hmm', Htp, Hmm. destruct (entry_page (word m (t + 4 * k))) as [j|] eqn:Hj; [|done].
    destruct (Hc j) as (c & Hm & _); [by left|]. rewrite Hm. by apply add_refs_cons.
  - intros k' [->|Hk']%elem_of_cons; [|by apply Hkey]. rewrite Hoth'; [done|].
    intros k'' Hk''. assert (k'' <> k) by set_solver. lia.
  - intros a Ha. rewrite Hoth'; [apply Hoth; apply Ha; by left|]. intros k' Hk'. apply Ha. by right.
Qed.

Lemma frame_aligned e : 0 <= e < 2 ^ 32 -> frame e mod 4096 = 0.
Proof. intros He. rewrite frame_spec, Z.mul_comm by done. apply Z_mod_mult. Qed.
Lemma aligned_disjoint f t : f mod 4096 = 0 -> t mod 4096 = 0 -> f <> t -> disjoint_tables f t.
Proof.
  intros Hf Ht Hne k k' Hk%page_words_range Hk'%page_words_range Heq. apply Hne.
  pose proof (Z.div_mod f 4096). pose proof (Z.div_mod t 4096). lia.
Qed.

Lemma child_entry_page e : 0 <= e < 2 ^ 32 -> entry_page (child_entry e) = entry_page e.
Proof.
  intros He. unfold child_entry, entry_page, counted, page_nr.
  destruct (PRESENT e) eqn:Hp; [|done]. by rewrite readonly_present, readonly_page, Hp by done.
Qed.
Lemma child_entry_range e : 0 <= e < 2 ^ 32 -> 0 <= child_entry e < 2 ^ 32.
Proof. intros He. unfold child_entry. destruct (PRESENT e); [by apply readonly_range|lia]. Qed.
Lemma child_entry_frame e : 0 <= e < 2 ^ 32 -> counted (child_entry e) = true ->
  counted e = true /\ frame (child_entry e) = frame e.
Proof.
  unfold counted, child_entry. intros He. destruct (PRESENT e) eqn:Hp; [|done].
  rewrite readonly_present, readonly_page, Hp by done. intros ->. split; [done|].
  rewrite !frame_spec by (done || by apply readonly_range). by rewrite readonly_page.
Qed.

(** what [fork] needs of the directory entry it copies: the table [f] behind
    it, the entries of the table and the use counts of the pages they map *)
Record copyable (m : mm_st) (from_dir to_dir f : Z) : Prop := {
  cp_len : length (mem_map m) = PAGING_PAGES;
  cp_dirs : 0 <= from_dir < 4096 /\ 0 <= to_dir < 4096 /\ from_dir <> to_dir;
  cp_from : PRESENT (word m from_dir) = true /\ 0 <= word m from_dir < 2 ^ 32 /\
            frame (word m from_dir) = f /\ 4096 <= f;
  cp_to : PRESENT (word m to_dir) = false;
  cp_entries : forall k, k ∈ page_words -> let e := word m (f + 4 * k) in
    0 <= e < 2 ^ 32 /\ (counted e = true -> frame e < u32 (HIGH_MEMORY m));
  cp_counts : forall i, i ∈ table_pages m f page_words ->
    exists c, mem_map m !! i = Some c /\ 1 <= c /\ c + occ i (table_pages m f page_words) <= 255;
  cp_used : forall i, mem_map m !! i = Some 0 ->
    f <> LOW_MEM + 4096 * Z.of_nat i /\ LOW_MEM + 4096 * Z.of_nat i < u32 (HIGH_MEMORY m)
}.

(** the page table [fork] creates *)
Lemma copy_dir_run from from_dir to_dir f m :
  from <> 0 -> copyable m from_dir to_dir f -> Exists (fun c => c = 0) (mem_map m) ->
  exists i m1, let t := LOW_MEM + 4096 * Z.of_nat i in
    mem_map m !! i = Some 0 /\ copy_dir from from_dir to_dir m = Ret true m1 /\
    word m1 to_dir = Z.lor t 7 /\
    mem_map m1 = add_refs 1 (table_pages m f page_words) (<[i := 1]> (mem_map m)) /\
    HIGH_MEMORY m1 = HIGH_MEMORY m /\
    (forall k, k ∈ page_words ->
       word m1 (t + 4 * k) = child_entry (word m (f + 4 * k)) /\
       word m1 (f + 4 * k) = parent_entry (word m (f + 4 * k))).
Proof.
  intros Hfrom [Hlen Hdirs (Hp & Hr & Hf & Hf4) Hto Hent Hcnt Hused] Hex.
  destruct (get_free_page_spec m Hlen) as [[Hall _]|(i & m0 & Hi & _ & Hget & Hm0 & Hh0 & _ & Hw0)].
  { exfalso. apply Exists_exists in Hex as (c & Hc & ->). rewrite Forall_forall in Hall. by apply (Hall 0). }
  set (t := LOW_MEM + 4096 * Z.of_nat i) in *.
  assert (t mod 4096 = 0) as Htal.
  { unfold t, LOW_MEM. replace (0x100000 + 4096 * Z.of_nat i) with ((256 + Z.of_nat i) * 4096) by lia. apply Z_mod_mult. }
  assert (f mod 4096 = 0) as Hfal by (rewrite <- Hf; by apply frame_aligned).
  assert (f <> t) as Hft by (by apply Hused).
  assert (disjoint_tables f t) as Hdis by (by apply aligned_disjoint).
  assert (LOW_MEM <= t) as Htl by (unfold t; lia).
  set (m1 := m0 <| phys ::= insert to_dir (Z.lor t 7) |>).
  assert (forall k, k ∈ page_words -> word m1 (f + 4 * k) = word m (f + 4 * k) /\ word m1 (t + 4 * k) = 0) as Hw1.
  { intros k Hk. assert (0 <= k < 1024) by (by apply page_words_range). unfold m1, LOW_MEM in *.
    rewrite !word_store_ne, !Hw0 by lia. split.
    - rewrite decide_False; [done|]. intros (k' & Hk' & Heq). by apply (Hdis k k').
    - rewrite decide_True; [done|]. by exists k. }
  assert (table_pages m1 f page_words = table_pages m f page_words) as Htp.
  { apply table_pages_ext. intros k Hk. by rewrite (proj1 (Hw1 k Hk)). }
  destruct (copy_loop f t page_words m1 Hdis page_words_NoDup) as (m2 & Hrun & Hmm & Hhi & _ & Hkey & Hoth).
  - done.
  - intros k Hk. destruct (Hw1 k Hk) as [-> ->]. split; [by apply Hent|done].
  - rewrite Htp. intros j Hj. destruct (Hcnt j Hj) as (c & Hc & Hc1 & Hocc). exists c.
    unfold m1. cbn. rewrite Hm0. rewrite list_lookup_insert_ne; [split; [done|lia]|].
    intros ->. rewrite Hi in Hc. injection Hc as <-. lia.
  - exists i, m2. cbv zeta. fold t. split; [done|]. split; [|split; [|split; [|split]]].
    + unfold copy_dir. rewrite (bind_Ret _ _ _ _ _ (load_run _ _)), Hto.
      rewrite (bind_Ret _ _ _ _ _ (load_run _ _)), Hp. cbn [negb].
      rewrite (bind_Ret _ _ _ _ _ Hget), (proj2 (Z.eqb_neq t 0)) by (unfold LOW_MEM in *; lia).
      rewrite (bind_Ret _ _ _ _ _ (store_run _ _ _)), (proj2 (Z.eqb_neq from 0)) by done. fold m1.
      rewrite Hf. by rewrite (bind_Ret _ _ _ _ _ Hrun).
    + rewrite Hoth; [apply word_store_eq|]. intros k Hk%page_words_range. unfold LOW_MEM in *. lia.
    + rewrite Hmm, Htp. unfold m1. cbn. by rewrite Hm0.
    + rewrite Hhi. exact Hh0.
    + intros k Hk. destruct (Hkey k Hk) as [-> ->]. by rewrite (proj1 (Hw1 k Hk)).
Qed.

Lemma new_table_frame t : 0 <= t < 2 ^ 32 -> t mod 4096 = 0 ->
  Z.lor t 7 = t + 7 /\ PRESENT (t + 7) = true /\ frame (t + 7) = t.
Proof.
  intros Ht Hal. split.
  - rewrite <- Z.lxor_lor, <- Z.add_nocarry_lxor; [done|..].
    all: change 7 with (Z.land 7 (Z.ones 12)); rewrite (Z.land_comm 7), Z.land_assoc, Z.land_ones by lia;
      change (2 ^ 12) with 4096; by rewrite Hal.
  - assert (t = 4096 * (t / 4096)) as Hd by (pose proof (Z.div_mod t 4096); lia).
    split.
    + rewrite PRESENT_odd, Z.odd_add, Hd, Z.odd_mul. done.
    + rewrite frame_spec by lia. replace (t + 7) with (7 + t / 4096 * 4096) by lia.
      rewrite Z.div_add by lia. change (7 / 4096) with 0. lia.
Qed.

(** C6: [fork] and [exit] keep the books: copying a page-directory entry gives
    the child a table of its own in which every present page is mapped read-only,
    write-protects the parent's counted pages and counts each of them once more;
    when the child's directory entry is freed again, every use count is what it was. *)
Theorem copy_dir_free_dir (from from_dir to_dir f : Z) (m : mm_st) (Hfrom : from <> 0)
  (Hcopy : copyable m from_dir to_dir f) (Hfree : Exists (fun c => c = 0) (mem_map m)) :
  exists m1 m2,
    copy_dir from from_dir to_dir m = Ret true m1 /\
    (forall k, k ∈ page_words ->
       word m1 (frame (word m1 to_dir) + 4 * k) = child_entry (word m (f + 4 * k)) /\
       word m1 (f + 4 * k) = parent_entry (word m (f + 4 * k))) /\
    (exists i, mem_map m !! i = Some 0 /\
       mem_map m1 = add_refs 1 (table_pages m f page_words) (<[i := 1]> (mem_map m))) /\
    free_dir to_dir m1 = Ret tt m2 /\ word m2 to_dir = 0 /\ mem_map m2 = mem_map m.
Proof.
  destruct (copy_dir_run _ _ _ _ _ Hfrom Hcopy Hfree) as (i & m1 & Hi & Hrun & Hdir & Hmm & Hhi & Hkey).
  set (t := LOW_MEM + 4096 * Z.of_nat i) in *. destruct Hcopy as [Hlen Hdirs _ _ Hent Hcnt Hused].
  destruct (Hused i Hi) as [_ Hth]. fold t in Hth. pose proof (u32_range (HIGH_MEMORY m)) as Hhr.
  assert (t mod 4096 = 0) as Htal.
  { unfold t, LOW_MEM. replace (0x100000 + 4096 * Z.of_nat i) with ((256 + Z.of_nat i) * 4096) by lia. apply Z_mod_mult. }
  assert (LOW_MEM <= t) as Htl by (unfold t; lia).
  destruct (new_table_frame t) as (Hlor & Htp & Htf); [unfold LOW_MEM in *; lia|done|]. rewrite Hlor in Hdir.
  set (l := table_pages m f page_words) in *.
  assert (i ∉ l) as Hil by (intros Hin; destruct (Hcnt i Hin) as (c & Hc & ? & _); rewrite Hi in Hc; injection Hc as <-; lia).
  assert (mem_map m1 = <[i := 1]> (add_refs 1 l (mem_map m))) as Hmm' by (rewrite Hmm; by apply add_refs_insert).
  assert (table_pages m1 t page_words = l) as Hl.
  { apply table_pages_ext. intros k Hk. rewrite (proj1 (Hkey k Hk)). by apply child_entry_page, Hent. }
  destruct (free_loop t page_words m1 page_words_NoDup) as (m2 & Hrun2 & Hmm2 & Hhi2 & _ & _ & Hoth).
  { intros k Hk. rewrite (proj1 (Hkey k Hk)), Hhi. destruct (Hent k Hk) as [Hr Hf].
    split; [by apply child_entry_range|]. intros Hc. destruct (child_entry_frame _ Hr Hc) as [? ->]. auto. }
  { rewrite Hl, Hmm'. intros j Hj. destruct (Hcnt j Hj) as (c & Hc & Hc1 & Hocc).
    exists (c + 1 * occ j l). rewrite list_lookup_insert_ne by (by intros ->).
    rewrite add_refs_lookup, Hc. cbn. split; [done|]. lia. }
  assert (mem_map m2 = <[i := 1]> (mem_map m)) as Hmm2'.
  { rewrite Hmm2, Hl, Hmm', add_refs_insert by done. by rewrite add_refs_undo. }
  assert (word m2 to_dir = t + 7) as Hdir2.
  { rewrite Hoth; [done|]. intros k Hk%page_words_range. unfold LOW_MEM in *. lia. }
  assert (page_nr (t + 7) = i /\ counted (t + 7) = true) as [Hnr Hcd].
  { assert ((t + 7) / 4096 = 256 + Z.of_nat i) as Hdv.
    { unfold t, LOW_MEM. replace (0x100000 + 4096 * Z.of_nat i + 7) with (7 + (256 + Z.of_nat i) * 4096) by lia.
      rewrite Z.div_add by lia. change (7 / 4096) with 0. lia. }
    unfold page_nr, counted. rewrite Hdv, Htp, (proj2 (Z.leb_le _ _)) by lia. split; [lia|done]. }
  assert (i < length (mem_map m))%nat as Hlt by (by apply lookup_lt_Some in Hi).
  assert (free_page t m2 = Ret tt (m2 <| mem_map ::= <[i := 0]> |>)) as Hfree3.
  { rewrite <- Htf, <- Hnr. apply (free_page_run _ _ 1); [unfold LOW_MEM in *; lia|done|..|lia].
    - rewrite Htf, Hhi2, Hhi. exact Hth.
    - rewrite Hmm2', Hnr. by apply list_lookup_insert_eq. }
  exists m1. eexists. split; [done|]. split; [by rewrite Hdir, Htf|].
  split; [by exists i|]. split; [|split; [apply word_store_eq|]].
  - unfold free_dir. rewrite (bind_Ret _ _ _ _ _ (load_run _ _)), Hdir, Htp. cbn [negb].
    rewrite Htf, (bind_Ret _ _ _ _ _ Hrun2), (bind_Ret _ _ _ _ _ (load_run _ _)), Hdir2, Htf.
    rewrite (bind_Ret _ _ _ _ _ Hfree3). apply store_run.
  - cbn. rewrite Hmm2', list_insert_insert_eq. by apply list_insert_id.
Qed.

(** a parent with one page table, at 0x101000, that maps the page 0x102000
    twice and the kernel page 0x5000 once *)
Definition parent_mm : mm_st :=
  mk_mm (0 :: 1 :: 2 :: replicate (PAGING_PAGES - 3) USED) 0x1000000
    {[0x40 := 0x101007; 0x101000 := 0x102007; 0x101004 := 0x102007; 0x101008 := 0x5007]} false.

Lemma parent_copyable : copyable parent_mm 0x40 0x80 0x101000.
Proof.
  split.
  - vm_compute. reflexivity.
  - lia.
  - split; [reflexivity|]. split; [vm_compute; split; congruence|]. split; [reflexivity|lia].
  - reflexivity.
  - intros k Hk. cbv zeta.
    assert (Forall (fun k => 0 <= word parent_mm (0x101000 + 4 * k) < 2 ^ 32 /\
      (counted (word parent_mm (0x101000 + 4 * k)) = true ->
       frame (word parent_mm (0x101000 + 4 * k)) < u32 (HIGH_MEMORY parent_mm))) page_words) as H.
    { apply (bool_decide_unpack _). vm_compute. done. }
    rewrite Forall_forall in H. by apply H.
  - replace (table_pages parent_mm 0x101000 page_words) with [2%nat; 2%nat] by (vm_compute; reflexivity).
    intros i Hi. assert (i = 2%nat) as -> by set_solver. exists 2. split; [reflexivity|]. split; [lia|].
    change (2 + 2 <= 255). lia.
  - intros [|[|[|i]]] Hi; [split; [discriminate|reflexivity]|discriminate Hi..|].
    unfold parent_mm in Hi. cbn in Hi. apply lookup_replicate in Hi as [Hi _]. discriminate Hi.
Qed.

Lemma copy_dir_free_dir_witness :
  exists m1 m2, copy_dir 0x4000000 0x40 0x80 parent_mm = Ret true m1 /\
    free_dir 0x80 m1 = Ret tt m2 /\ mem_map m2 = mem_map parent_mm.
Proof.
  destruct (copy_dir_free_dir 0x4000000 0x40 0x80 0x101000 parent_mm) as (m1 & m2 & H1 & _ & _ & H2 & _ & H3).
  - lia.
  - exact parent_copyable.
  - left. reflexivity.
  - exists m1, m2. auto.
Defined.

(** ** Copy on write *)

Lemma copy_words_run from to ks m :
  ks ⊆ page_words -> NoDup ks -> disjoint_tables from to ->
  exists m', for_each ks (fun k => v ← load (from + 4 * k); store (to + 4 * k) v) m = Ret tt m' /\
    mem_map m' = mem_map m /\
    (forall k, k ∈ ks -> word m' (to + 4 * k) = word m (from + 4 * k)) /\
    (forall a, (forall k, k ∈ ks -> a <> to + 4 * k) -> word m' a = word m a).
Proof.
  intros Hsub Hnd Hdis. revert m Hsub Hnd. induction ks as [|k ks IH]; intros m Hsub Hnd.
  { exists m. split_and!; [done..|set_solver|done]. }
  apply NoDup_cons in Hnd as [Hk Hnd]. assert (k ∈ page_words /\ ks ⊆ page_words) as [Hkp Hs] by set_solver.
  destruct (IH (m <| phys ::= insert (to + 4 * k) (word m (from + 4 * k)) |>)) as (m' & Hrun & Hmm & Hkey & Hoth); [done..|].
  assert (forall k', k' ∈ ks -> k' <> k /\ k' ∈ page_words) as Hks by set_solver.
  exists m'. split; [|split; [done|split]].
  - cbn [for_each]. rewrite <- Hrun. reflexivity.
  - intros k' [->|Hk']%elem_of_cons.
    + rewrite Hoth; [by apply word_store_eq|]. intros k' [? _]%Hks. lia.
    + rewrite (Hkey k' Hk'). apply word_store_ne. intros Heq. symmetry in Heq. revert Heq. apply Hdis; set_solver.
  - intros a Ha. rewrite Hoth; [|intros k' Hk'; apply Ha; by right]. apply word_store_ne.
    intros <-. apply (Ha k); [by left|done].
Qed.

Lemma set_write_bit e : 0 <= e < 2 ^ 32 -> frame (Z.lor e 2) = frame e /\ Z.testbit (Z.lor e 2) 1 = true.
Proof.
  intros He. split; [|by rewrite Z.lor_spec, orb_true_r].
  unfold frame. rewrite Z.land_lor_distr_r. change (Z.land 0xfffff000 2) with 0. apply Z.lor_0_r.
Qed.

Lemma in_page_intro p k : k ∈ page_words -> in_page p (p + 4 * k).
Proof. intros Hk. by exists k. Qed.

(** C10: Copy on write: after [un_wp_page] the entry maps a writable page with
    the contents the task saw before.  If the task was the only user of the page
    it is the same page and no count changes; otherwise it is a page that was
    free, it has one user, the old page has one user less, and no word of memory
    but the entry and the new page has changed: the other users see nothing. *)
Theorem un_wp_correct (a e c : Z) (m : mm_st)
  (Hlen : length (mem_map m) = PAGING_PAGES)
  (Hentry : word m a = e /\ 0 <= e < 2 ^ 32 /\ counted e = true)
  (Hcount : mem_map m !! page_nr e = Some c /\ 1 <= c < 256)
  (Hplace : ~ in_page (frame e) a /\
            forall i, mem_map m !! i = Some 0 -> ~ in_page (LOW_MEM + 4096 * Z.of_nat i) a)
  (Hfree : Exists (fun x => x = 0) (mem_map m)) :
  exists m' e', un_wp a m = Ret true m' /\ word m' a = e' /\ Z.testbit e' 1 = true /\
    (forall k, k ∈ page_words -> word m' (frame e' + 4 * k) = word m (frame e + 4 * k)) /\
    (forall b, b <> a -> c = 1 \/ ~ in_page (frame e') b -> word m' b = word m b) /\
    if c =? 1 then frame e' = frame e /\ mem_map m' = mem_map m
    else exists i, mem_map m !! i = Some 0 /\ frame e' = LOW_MEM + 4096 * Z.of_nat i /\
         mem_map m' = <[page_nr e := c - 1]> (<[i := 1]> (mem_map m)).
Proof.
  destruct Hentry as (Ha & He & Hcnt). destruct Hcount as [Hm Hc]. destruct Hplace as [Hp1 Hp2].
  destruct (counted_page e He Hcnt) as [Hnr Hlow]. unfold un_wp.
  rewrite (bind_Ret _ _ _ _ _ (load_run _ _)), Ha, (proj2 (Z.leb_le _ _)), Hnr by lia.
  rewrite (bind_Ret _ _ _ _ _ (get_count_run _ _ _ Hm)). cbn [andb].
  destruct (Z.eqb_spec c 1) as [->|Hne].
  - exists (m <| phys ::= insert a (Z.lor e 2) |>), (Z.lor e 2). destruct (set_write_bit e He) as [-> ?].
    split; [done|]. split; [apply word_store_eq|]. split; [done|].
    split; [|split; [intros b Hb _; by apply word_store_ne|done]].
    intros k Hk. apply word_store_ne. intros ->. apply Hp1. by apply in_page_intro.
  - destruct (get_free_page_spec m Hlen) as [[Hall _]|(i & m0 & Hi & _ & Hget & Hm0 & _ & _ & Hw0)].
    { exfalso. apply Exists_exists in Hfree as (x & Hx & ->). rewrite Forall_forall in Hall. by apply (Hall 0). }
    remember (LOW_MEM + 4096 * Z.of_nat i) as t eqn:Ht. assert (0 < t) by (rewrite Ht; unfold LOW_MEM; lia).
    assert (t mod 4096 = 0) as Htal.
    { rewrite Ht. unfold LOW_MEM. replace (0x100000 + 4096 * Z.of_nat i) with ((256 + Z.of_nat i) * 4096) by lia. apply Z_mod_mult. }
    assert (i < PAGING_PAGES)%nat as Hlt by (rewrite <- Hlen; by apply lookup_lt_Some in Hi).
    assert (t < 2 ^ 32) by (rewrite Ht; unfold LOW_MEM; change PAGING_PAGES with 3840%nat in Hlt; lia).
    assert (page_nr e <> i) as Hpi by (intros Heq; rewrite Heq, Hi in Hm; injection Hm as <-; lia).
    assert (frame e <> t) as Hft.
    { intros Heq. apply Hpi. unfold page_nr. rewrite frame_spec in Heq by done. rewrite Ht in Heq. unfold LOW_MEM in Heq. lia. }
    destruct (new_table_frame t) as (Hlor & _ & Htf); [lia|done|].
    assert (mem_map m0 !! page_nr e = Some c) as Hm0e by (rewrite Hm0; by rewrite list_lookup_insert_ne).
    set (m1 := m0 <| mem_map ::= <[page_nr e := u8 (c - 1)]> |> <| phys ::= insert a (t + 7) |> <| df := false |>).
    assert (forall b, word m1 b = if decide (b = a) then t + 7 else word m0 b) as Hw1.
    { intros b. unfold m1, word. cbn. case_decide as Hd; [subst; by rewrite lookup_insert_eq|]. by rewrite lookup_insert_ne. }
    destruct (copy_words_run (frame e) t page_words m1) as (m2 & Hrun & Hmm & Hkey & Hoth);
      [done|apply page_words_NoDup|apply aligned_disjoint; [by apply frame_aligned|done|done]|].
    assert (word m2 a = t + 7) as Hma.
    { rewrite Hoth; [rewrite Hw1; by apply decide_True|]. intros k Hk ->. apply (Hp2 i Hi). rewrite <- Ht. by apply in_page_intro. }
    exists m2, (t + 7). rewrite Htf. split; [|split; [done|split; [|split; [|split]]]].
    + rewrite (bind_Ret _ _ _ _ _ Hget), (proj2 (Z.eqb_neq t 0)) by lia. cbn [when].
      rewrite (bind_Ret _ _ _ tt (m0 <| mem_map ::= <[page_nr e := u8 (c - 1)]> |>)).
      2:{ rewrite (bind_Ret _ _ _ _ _ (get_count_run _ _ _ Hm0e)). by apply (set_count_run _ c). }
      rewrite (bind_Ret _ _ _ _ _ (store_run _ _ _)), Hlor. unfold copy_page.
      rewrite (bind_Ret _ _ _ tt m2); [done|]. by rewrite (bind_Ret _ _ _ tt m1).
    + rewrite <- Hlor, Z.lor_spec. apply orb_true_r.
    + intros k Hk. rewrite (Hkey k Hk), Hw1, Hw0. rewrite !decide_False; [done|..].
      * intros (k' & Hk' & Heq). revert Heq. by apply aligned_disjoint; [apply frame_aligned|..].
      * intros <-. apply Hp1. by apply in_page_intro.
    + intros b Hb [?|Hbt]; [contradiction|].
      rewrite Hoth, Hw1, decide_False, Hw0, decide_False; [reflexivity|exact Hbt|exact Hb|].
      intros k Hk ->. apply Hbt. by apply in_page_intro.
    + exists i. split; [done|]. split; [done|]. rewrite Hmm. unfold m1. cbn. by rewrite u8_id, Hm0 by lia.
Qed.

(** the page 0x102000 has two users and one of them writes *)
Lemma un_wp_correct_witness :
  exists m', un_wp 0x101000 parent_mm = Ret true m' /\
    (exists i, mem_map parent_mm !! i = Some 0 /\ frame (word m' 0x101000) = LOW_MEM + 4096 * Z.of_nat i /\
       mem_map m' = <[2%nat := 1]> (<[i := 1]> (mem_map parent_mm))).
Proof.
  destruct (un_wp_correct 0x101000 0x102007 2 parent_mm) as (m' & e' & H1 & H2 & _ & _ & _ & H3).
  - vm_compute. reflexivity.
  - split; [reflexivity|]. split; [lia|reflexivity].
  - split; [reflexivity|lia].
  - split; [apply (bool_decide_unpack _); vm_compute; done|]. intros [|[|[|i]]] Hi.
    + apply (bool_decide_unpack _). vm_compute. done.
    + discriminate Hi.
    + discriminate Hi.
    + exfalso. unfold parent_mm in Hi. cbn in Hi. apply lookup_replicate in Hi as [Hi _]. discriminate Hi.
  - left. reflexivity.
  - exists m'. rewrite H2. auto.
Defined.
