(* ===== verification/Malloc.v ===== *)
(** * lib/malloc.cc: the kernel memory allocator

    Pages are divided into objects of one size, the power-of-two buckets.  The
    bucket descriptors, the free lists and the objects are words of physical
    memory, as in the source: a descriptor at [d] has [page] at [d], [next] at
    [d + 4], [freeptr] at [d + 8], [refcnt] and [bucket_size] as the halves of
    the word at [d + 12].  [cli] and [sti] have no effect on this state. *)

From S2P Require Import Prelude State Memory.

Definition PAGE_SIZE : Z := 4096.
Definition DESC_SIZE : Z := 16.

(** the sizes of [bucket_dir], up to its end marker, and the static variables *)
Definition bucket_sizes : list Z := [16; 32; 64; 128; 256; 512; 1024; 2048; 4096].
Record malloc_st : Type := mk_malloc { heap : mm_st; chains : list Z; free_bucket_desc : Z; said : list Z }.
#[export] Instance eta_malloc : Eta malloc_st := fun r => mk_malloc (heap r) (chains r) (free_bucket_desc r) (said r).
Definition initial_malloc (m : mm_st) : malloc_st := mk_malloc m (replicate 9 0) 0 [].

Section Malloc.
Abbreviation MM := (M malloc_st).
Definition zoom_heap {A} : M mm_st A -> MM A := zoom heap (fun m s => s <| heap := m |>).
Definition peek (a : Z) : MM Z := zoom_heap (load a).
Definition poke (a v : Z) : MM unit := zoom_heap (store a v).

Definition page_of (d : Z) : MM Z := peek d.
Definition next_of (d : Z) : MM Z := peek (d + 4).
Definition freeptr_of (d : Z) : MM Z := peek (d + 8).
Definition refcnt_of (d : Z) : MM Z := w ← peek (d + 12); mret (u16 w).
Definition set_refcnt (d v : Z) : MM unit := w ← peek (d + 12); poke (d + 12) (Z.shiftl (Z.shiftr w 16) 16 + u16 v).
Definition set_bucket_size (d v : Z) : MM unit := w ← peek (d + 12); poke (d + 12) (u16 w + Z.shiftl (u16 v) 16).

Definition init_bucket_desc : MM unit :=
  first ← zoom_heap get_free_page;
  if first =? 0 then panic "Out of memory in init_bucket_desc()" else
  bdesc ← for_fold (seq 0 (Z.to_nat (PAGE_SIZE / DESC_SIZE) - 1)) first (fun bdesc _ =>
    poke (bdesc + 4) (bdesc + DESC_SIZE) ;; mret (bdesc + DESC_SIZE));
  s ← gets id;
  poke (bdesc + 4) (free_bucket_desc s) ;;
  modify (fun s => s <| free_bucket_desc := first |>).

(** [for (bdir = bucket_dir; bdir->size; bdir++) if (bdir->size >= (int)len) break;] *)
Definition find_bucket (len : Z) : option nat := fst <$> list_find (fun size => s32 len <= size) bucket_sizes.

(** a descriptor of the chain that has a free object; 0 for none *)
Definition find_space (fuel : nat) (head : Z) : MM Z :=
  loop fuel (fun bdesc =>
    if bdesc =? 0 then mret (inr 0) else
    f ← freeptr_of bdesc;
    if nz f then mret (inr bdesc) else next ← next_of bdesc; mret (inl next)) head.

(** a new page of objects of one size, at the head of the chain *)
Definition fill_bucket (k : nat) (size : Z) : MM Z :=
  s ← gets id;
  let bdesc := free_bucket_desc s in
  next ← next_of bdesc;
  modify (fun s => s <| free_bucket_desc := next |>) ;;
  set_refcnt bdesc 0 ;;
  set_bucket_size bdesc size ;;
  cp ← zoom_heap get_free_page;
  poke (bdesc + 8) cp ;; poke bdesc cp ;;
  if cp =? 0 then panic "Out of memory in kernel malloc()" else
  last ← for_fold (seq 0 (Z.to_nat (PAGE_SIZE / size) - 1)) cp (fun cp _ =>
    poke cp (cp + size) ;; mret (cp + size));
  poke last 0 ;;
  s ← gets id;
  head ← deref (chains s !! k);
  poke (bdesc + 4) head ;;
  modify (fun s => s <| chains ::= <[k := bdesc]> |>) ;;
  mret bdesc.
Definition new_bucket (k : nat) (size : Z) : MM Z :=
  s ← gets id;
  when (free_bucket_desc s =? 0) init_bucket_desc ;;
  fill_bucket k size.

(** the first free object of a bucket that has one *)
Definition take_object (bdesc : Z) : MM Z :=
  retval ← freeptr_of bdesc;
  f ← peek retval;
  poke (bdesc + 8) f ;;
  r ← refcnt_of bdesc;
  set_refcnt bdesc (r + 1) ;;
  mret retval.

Definition malloc (fuel : nat) (len : Z) : MM Z :=
  match find_bucket len with
  | None => modify (fun s => s <| said ::= cons len |>) ;; panic "malloc: bad arg"
  | Some k =>
      size ← deref (bucket_sizes !! k);
      s ← gets id;
      head ← deref (chains s !! k);
      bdesc ← find_space fuel head;
      bdesc ← (if bdesc =? 0 then new_bucket k size else mret bdesc);
      take_object bdesc
  end.

(** ** [free_s]: [free(x)] is [free_s(x,0)] *)

(** the descriptor of [page] in one chain, with the descriptor before it *)
Definition find_in_chain (fuel : nat) (page head : Z) : MM (option (Z * Z)) :=
  loop fuel (fun '(prev, bdesc) =>
    if bdesc =? 0 then mret (inr None) else
    p ← page_of bdesc;
    if p =? page then mret (inr (Some (prev, bdesc)))
    else next ← next_of bdesc; mret (inl (bdesc, next))) (0, head).
(** the first chain for objects of at least [size] that has it *)
Definition find_page (fuel : nat) (page size : Z) : MM (option (nat * Z * Z)) :=
  for_find (seq 0 (length bucket_sizes)) (fun k =>
    bsize ← deref (bucket_sizes !! k);
    if bsize <? size then mret None else
    s ← gets id;
    head ← deref (chains s !! k);
    r ← find_in_chain fuel page head;
    mret (match r with Some (prev, bdesc) => Some (k, prev, bdesc) | None => None end)).
(** the descriptor before [bdesc], looked for again when the one found does not lead to it *)
Definition find_prev (fuel : nat) (k : nat) (prev bdesc : Z) : MM Z :=
  s ← gets id;
  head ← deref (chains s !! k);
  n ← (if nz prev then next_of prev else mret head);
  if n =? bdesc then mret prev else
  loop fuel (fun prev =>
    if prev =? 0 then mret (inr 0) else
    n ← next_of prev;
    if n =? bdesc then mret (inr prev) else mret (inl n)) head.

(** [obj] at the head of the free objects; the number of objects still in use *)
Definition put_object (obj bdesc : Z) : MM Z :=
  f ← freeptr_of bdesc;
  poke obj f ;;
  poke (bdesc + 8) obj ;;
  r ← refcnt_of bdesc;
  set_refcnt bdesc (r - 1) ;;
  refcnt_of bdesc.
(** the bucket is taken out of its chain, its page and its descriptor are free *)
Definition release_bucket (fuel : nat) (k : nat) (prev bdesc : Z) : MM unit :=
  prev ← find_prev fuel k prev bdesc;
  next ← next_of bdesc;
  (if nz prev then poke (prev + 4) next
   else
     s ← gets id; head ← deref (chains s !! k);
     if negb (head =? bdesc) then panic "malloc bucket chains corrupted"
     else modify (fun s => s <| chains ::= <[k := next]> |>)) ;;
  p ← page_of bdesc;
  zoom_heap (free_page p) ;;
  s ← gets id;
  poke (bdesc + 4) (free_bucket_desc s) ;;
  modify (fun s => s <| free_bucket_desc := bdesc |>).

Definition free_s (fuel : nat) (obj size : Z) : MM unit :=
  let page := Z.land obj 0xfffff000 in
  o ← find_page fuel page size;
  match o with
  | None => panic "Bad address passed to kernel free_s()"
  | Some (k, prev, bdesc) =>
      r ← put_object obj bdesc;
      if negb (r =? 0) then mret tt else release_bucket fuel k prev bdesc
  end.
End Malloc.

(** four allocations and releases with three free pages *)
Definition three_pages : malloc_st :=
  initial_malloc (mk_mm (0 :: 0 :: 0 :: replicate (PAGING_PAGES - 3) USED) 0x1000000 ∅ false).
Definition some_calls : M malloc_st (list Z) :=
  a ← malloc 9 10; b ← malloc 9 16; c ← malloc 9 33; free_s 9 a 0 ;; d ← malloc 9 1; free_s 9 c 64 ;;
  e ← malloc 9 4000; free_s 9 e 0 ;; free_s 9 b 0 ;; free_s 9 d 0 ;; mret [a; b; c; d; e].
Example some_calls_run : value_of (some_calls three_pages) = Some [0x101000; 0x101010; 0x100000; 0x101000; 0x100000] /\
  mem_map (heap (state_of (some_calls three_pages))) !! 0%nat = Some 0 /\ mem_map (heap (state_of (some_calls three_pages))) !! 1%nat = Some 0.
Proof. vm_compute. repeat split; reflexivity. Qed.
