(* ===== verification/MallocFacts.v ===== *)
(** * lib/malloc.cc: the invariant of the allocator and its steps

    The lists of words that the allocator keeps in memory, an abstract list of
    buckets that they represent, and what taking an object, giving one back, a
    page of descriptors and a new bucket do to it. *)

From S2P Require Import Prelude State Memory MemoryFacts Malloc.

#[local] Arguments PAGING_PAGES : simpl never.

(** ** Words of the heap *)

Abbreviation W s := (word (heap s)).
Definition put (a v : Z) (s : malloc_st) : malloc_st := s <| heap ::= fun m => m <| phys ::= insert a v |> |>.

Lemma poke_run a v s : poke a v s = Ret tt (put a v s).
Proof. done. Qed.
Lemma peek_run a s : peek a s = Ret (W s a) s.
Proof. by destruct s. Qed.
Lemma W_put a v s x : W (put a v s) x = if decide (x = a) then v else W s x.
Proof.
  unfold put, upd; cbn. unfold word, upd; cbn. case_decide as H; [subst; by rewrite lookup_insert_eq|].
  by rewrite lookup_insert_ne.
Qed.
Lemma W_put_ne a v s x : x <> a -> W (put a v s) x = W s x.
Proof. intros H. by rewrite W_put, decide_False. Qed.
Lemma W_put_eq a v s : W (put a v s) a = v.
Proof. by rewrite W_put, decide_True. Qed.

(** everything but the words of memory is as it was *)
Record kept (s s' : malloc_st) : Prop := {
  kept_map : mem_map (heap s') = mem_map (heap s);
  kept_high : HIGH_MEMORY (heap s') = HIGH_MEMORY (heap s);
  kept_chains : chains s' = chains s;
  kept_free : free_bucket_desc s' = free_bucket_desc s }.
Lemma kept_put a v s : kept s (put a v s).
Proof. done. Qed.
Lemma kept_trans s1 s2 s3 : kept s1 s2 -> kept s2 s3 -> kept s1 s3.
Proof. intros [] []. split; congruence. Qed.

(** ** Linked lists in memory: [off] is the offset of the link, 0 the end *)

Fixpoint linked (w : Z -> Z) (off h : Z) (l : list Z) : Prop :=
  match l with
  | [] => h = 0
  | a :: l => h = a /\ a <> 0 /\ linked w off (w (a + off)) l
  end.

Lemma linked_same w w' off l : forall h, (forall a, a ∈ l -> w' (a + off) = w (a + off)) -> linked w off h l -> linked w' off h l.
Proof.
  induction l as [|a l IH]; intros h Hw; [done|]. cbn. intros (-> & Ha & Hl). split; [done|]. split; [done|].
  rewrite Hw by set_solver. apply IH; [|done]. set_solver.
Qed.
Lemma linked_head w off h l : linked w off h l -> h = default 0 (head l).
Proof. destruct l; cbn; naive_solver. Qed.
Lemma linked_nil w off h l : linked w off h l -> (h = 0 <-> l = []).
Proof. destruct l; cbn; naive_solver. Qed.

(** the objects of size [step] at [p] *)
Definition slots (p step : Z) (n : nat) : list Z := (fun j => p + step * Z.of_nat j) <$> seq 0 n.
Lemma slots_S p step n : slots p step (S n) = p :: slots (p + step) step n.
Proof.
  unfold slots. cbn [seq fmap list_fmap]. f_equal; [lia|]. rewrite <- fmap_S_seq, <- list_fmap_compose.
  apply list_fmap_ext. intros i x _. cbn. lia.
Qed.
Lemma slots_elem p step n x : x ∈ slots p step n <-> exists j, (j < n)%nat /\ x = p + step * Z.of_nat j.
Proof. unfold slots. rewrite list_elem_of_fmap. setoid_rewrite elem_of_seq. naive_solver lia. Qed.
Lemma length_slots p step n : length (slots p step n) = n.
Proof. unfold slots. by rewrite length_fmap, length_seq. Qed.
Lemma slots_NoDup p step n : 0 < step -> NoDup (slots p step n).
Proof. intros Hs. apply NoDup_fmap_2; [|apply NoDup_seq]. intros i j. nia. Qed.

Lemma linked_slots w off step rest : 0 < step -> forall n p, 0 < p ->
  (forall j, (j < n)%nat -> w (p + step * Z.of_nat j + off) = p + step * Z.of_nat (S j)) ->
  linked w off (w (p + step * Z.of_nat n + off)) rest ->
  linked w off p (slots p step (S n) ++ rest).
Proof.
  intros Hs n. induction n as [|n IH]; intros p Hp Hw Hr.
  - rewrite slots_S. cbn. rewrite Z.mul_0_r, Z.add_0_r in Hr. split; [done|]. split; [lia|done].
  - rewrite slots_S. cbn [app linked]. split; [done|]. split; [lia|].
    specialize (Hw 0%nat ltac:(lia)) as H0. rewrite Z.mul_0_r, Z.add_0_r in H0.
    rewrite H0, Z.mul_1_r. apply IH; [lia| |].
    + intros j Hj. replace (p + step + step * Z.of_nat j) with (p + step * Z.of_nat (S j)) by lia.
      rewrite Hw by lia. lia.
    + replace (p + step + step * Z.of_nat n) with (p + step * Z.of_nat (S n)) by lia. done.
Qed.

(** the loops that make such lists: [n] links from [p] on *)
Lemma link_loop (at_ : Z -> Z) off step : (forall a, at_ a = a + off) -> 0 < step -> forall n m p s,
  exists s', for_fold (seq m n) p (fun cp _ => poke (at_ cp) (cp + step) ;; mret (cp + step)) s =
      Ret (p + step * Z.of_nat n) s' /\ kept s s' /\
    (forall j, (j < n)%nat -> W s' (p + step * Z.of_nat j + off) = p + step * Z.of_nat (S j)) /\
    (forall x, (forall j, (j < n)%nat -> x <> p + step * Z.of_nat j + off) -> W s' x = W s x).
Proof.
  intros Hat Hs n. induction n as [|n IH]; intros m p s.
  - exists s. split; [cbn; unfold mret, M_ret; f_equal; lia|]. split; [done|]. split; [lia|done].
  - destruct (IH (S m) (p + step) (put (at_ p) (p + step) s)) as (s' & Hrun & Hk & Hl & Ho).
    exists s'. split; [|split; [|split]].
    + cbn [seq for_fold]. etransitivity; [exact Hrun|]. f_equal. lia.
    + eapply kept_trans; [apply kept_put|exact Hk].
    + intros [|j] Hj.
      * rewrite Ho by (intros j Hj'; nia). rewrite Z.mul_0_r, Z.add_0_r, Hat, W_put_eq. lia.
      * replace (p + step * Z.of_nat (S j)) with (p + step + step * Z.of_nat j) by lia.
        rewrite Hl by lia. lia.
    + intros x Hx. rewrite Ho.
      * apply W_put_ne. rewrite Hat. specialize (Hx 0%nat ltac:(lia)). lia.
      * intros j Hj. specialize (Hx (S j) ltac:(lia)). lia.
Qed.

(** ** Pages and the addresses in them *)

Definition page_at (i : nat) : Z := LOW_MEM + 4096 * Z.of_nat i.
Definition pgof (a : Z) : nat := Z.to_nat (a / 4096 - 256).

Lemma pgof_in i x : page_at i <= x < page_at i + 4096 -> pgof x = i.
Proof.
  unfold page_at, pgof, LOW_MEM. intros H.
  replace (x / 4096) with (256 + Z.of_nat i) by (Z.to_euclidean_division_equations; lia). lia.
Qed.
Lemma pgof_range x : LOW_MEM <= x -> page_at (pgof x) <= x < page_at (pgof x) + 4096.
Proof. unfold page_at, pgof, LOW_MEM. intros H. rewrite Z2Nat.id; Z.to_euclidean_division_equations; lia. Qed.
Lemma page_at_inj i j : page_at i = page_at j -> i = j.
Proof. unfold page_at. lia. Qed.
Lemma page_at_pos i : LOW_MEM <= page_at i.
Proof. unfold page_at. lia. Qed.
Lemma in_page_pgof i x : in_page (page_at i) x -> LOW_MEM <= x /\ pgof x = i.
Proof.
  intros (k & Hk%page_words_range & ->). pose proof (page_at_pos i). split; [lia|]. apply pgof_in. lia.
Qed.
(** an aligned block of 16 bytes lies in one page *)
Lemma pgof_block d k : LOW_MEM <= d -> d mod 16 = 0 -> 0 <= k < 16 -> pgof (d + k) = pgof d.
Proof.
  intros Hd Ha Hk. apply pgof_in. pose proof (pgof_range d Hd). unfold page_at, LOW_MEM in *.
  Z.to_euclidean_division_equations; lia.
Qed.

(** ** The state of the allocator in the abstract

    A bucket is a page of objects of one size: its place in [bucket_sizes], its
    descriptor, the number of its page and the objects that are free, in the
    order of the list.  The chain of a size is what a list of buckets holds of it. *)
Record bucket : Type := mk_bucket { bk_kind : nat; bk_desc : Z; bk_pg : nat; bk_free : list Z }.

Definition bk_size (b : bucket) : Z := default 0 (bucket_sizes !! bk_kind b).
Definition bk_page (b : bucket) : Z := page_at (bk_pg b).
Definition count (sz : Z) : nat := Z.to_nat (4096 / sz).
Definition objects (b : bucket) : list Z := slots (bk_page b) (bk_size b) (count (bk_size b)).
Definition in_use (b : bucket) : Z := Z.of_nat (count (bk_size b)) - Z.of_nat (length (bk_free b)).
Definition chain (k : nat) (A : list bucket) : list Z := bk_desc <$> filter (fun b => bk_kind b = k) A.
Definition descs (A : list bucket) (F : list Z) : list Z := (bk_desc <$> A) ++ F.

Record bucket_ok (w : Z -> Z) (b : bucket) : Prop := {
  ok_kind : (bk_kind b < 9)%nat;
  ok_page : w (bk_desc b) = bk_page b;
  ok_free : linked w 0 (w (bk_desc b + 8)) (bk_free b);
  ok_nodup : NoDup (bk_free b);
  ok_slots : bk_free b ⊆ objects b;
  ok_count : w (bk_desc b + 12) = in_use b + 65536 * bk_size b }.

(** [A]: the buckets; [F]: the free descriptors, in the order of their list *)
Record inv (s : malloc_st) (A : list bucket) (F : list Z) : Prop := {
  inv_len : length (mem_map (heap s)) = PAGING_PAGES;
  inv_high : forall i, mem_map (heap s) !! i = Some 0 \/ i ∈ bk_pg <$> A -> page_at i < u32 (HIGH_MEMORY (heap s));
  inv_nchains : length (chains s) = 9%nat;
  inv_chains : forall k h, chains s !! k = Some h -> linked (W s) 4 h (chain k A);
  inv_free : linked (W s) 4 (free_bucket_desc s) F;
  inv_buckets : Forall (bucket_ok (W s)) A;
  inv_descs : NoDup (descs A F);
  inv_pages : NoDup (bk_pg <$> A);
  inv_desc : forall d, d ∈ descs A F -> d mod 16 = 0 /\ LOW_MEM <= d /\
    mem_map (heap s) !! pgof d = Some 1 /\ pgof d ∉ bk_pg <$> A;
  inv_page : forall b, b ∈ A -> mem_map (heap s) !! bk_pg b = Some 1 }.

Lemma size_facts k : (k < 9)%nat -> let sz := default 0 (bucket_sizes !! k) in
  16 <= sz <= 4096 /\ sz * Z.of_nat (count sz) = 4096 /\ sz mod 16 = 0.
Proof. intros Hk. do 9 (destruct k as [|k]; [split_and!; vm_compute; (reflexivity || discriminate)|]). lia. Qed.
Lemma bk_size_facts w b : bucket_ok w b -> 16 <= bk_size b <= 4096 /\ bk_size b * Z.of_nat (count (bk_size b)) = 4096 /\ bk_size b mod 16 = 0.
Proof. intros H. exact (size_facts _ (ok_kind _ _ H)). Qed.

Lemma object_facts w b o : bucket_ok w b -> o ∈ objects b ->
  bk_page b <= o /\ o + bk_size b <= bk_page b + 4096 /\ LOW_MEM <= o /\ o mod 16 = 0 /\ pgof o = bk_pg b.
Proof.
  intros Hb (j & Hj & ->)%slots_elem. destruct (bk_size_facts w b Hb) as (Hs & Hc & Hm).
  pose proof (page_at_pos (bk_pg b)). unfold bk_page in *.
  assert (bk_size b * Z.of_nat j + bk_size b <= 4096) by nia.
  split; [nia|]. split; [lia|]. split; [nia|]. split; [|apply pgof_in; nia].
  unfold page_at, LOW_MEM. rewrite Z.add_mod, Z.mul_mod, Hm by lia.
  rewrite Z.mul_0_l. change (0 mod 16) with 0. rewrite Z.add_0_r, Z.mod_mod by lia.
  Z.to_euclidean_division_equations; lia.
Qed.

Lemma bucket_ok_ext w w' b : (forall k, 0 <= k < 16 -> k <> 4 -> w' (bk_desc b + k) = w (bk_desc b + k)) ->
  (forall o, o ∈ bk_free b -> w' o = w o) -> bucket_ok w b -> bucket_ok w' b.
Proof.
  intros Hd Ho []. pose proof (Hd 0 ltac:(lia) ltac:(lia)) as H0. rewrite Z.add_0_r in H0.
  split; rewrite ?Hd, ?H0 by lia; try done.
  eapply linked_same; [|done]. intros a Ha. rewrite Z.add_0_r. auto.
Qed.

(** ** What an invariant keeps apart *)

Section Inv.
Context (s : malloc_st) (A : list bucket) (F : list Z) (HI : inv s A F).

Lemma bucket_at b : b ∈ A -> bucket_ok (W s) b.
Proof using HI. intros Hb. eapply Forall_forall; [apply HI|done]. Qed.
Lemma desc_of b : b ∈ A -> bk_desc b ∈ descs A F.
Proof using. intros Hb. apply elem_of_app. left. by apply list_elem_of_fmap_2. Qed.
Lemma chain_desc k d : d ∈ chain k A -> d ∈ descs A F.
Proof using.
  unfold chain. rewrite list_elem_of_fmap. intros (b & -> & [_ Hb]%list_elem_of_filter). by apply desc_of.
Qed.

Lemma desc_apart d d' k k' : d ∈ descs A F -> d' ∈ descs A F -> d <> d' -> 0 <= k < 16 -> 0 <= k' < 16 -> d + k <> d' + k'.
Proof using HI.
  intros Hd Hd' Hne Hk Hk'. destruct (inv_desc _ _ _ HI d Hd) as [Ha _], (inv_desc _ _ _ HI d' Hd') as [Ha' _].
  Z.to_euclidean_division_equations; lia.
Qed.
Lemma desc_pgof d k : d ∈ descs A F -> 0 <= k < 16 -> pgof (d + k) = pgof d.
Proof using HI. intros Hd Hk. destruct (inv_desc _ _ _ HI d Hd) as (Ha & Hl & _). by apply pgof_block. Qed.
Lemma desc_object_apart d b o k : d ∈ descs A F -> b ∈ A -> o ∈ objects b -> 0 <= k < 16 -> d + k <> o.
Proof using HI.
  intros Hd Hb Ho Hk Heq. destruct (inv_desc _ _ _ HI d Hd) as (_ & _ & _ & Hn).
  apply Hn. rewrite <- (desc_pgof d k), Heq by done.
  destruct (object_facts _ _ _ (bucket_at b Hb) Ho) as (_ & _ & _ & _ & ->). by apply list_elem_of_fmap_2.
Qed.
Lemma object_apart b1 b2 o1 o2 : b1 ∈ A -> b2 ∈ A -> bk_pg b1 <> bk_pg b2 -> o1 ∈ objects b1 -> o2 ∈ objects b2 -> o1 <> o2.
Proof using HI.
  intros H1 H2 Hne Ho1 Ho2 ->.
  destruct (object_facts _ _ _ (bucket_at _ H1) Ho1) as (_ & _ & _ & _ & E1).
  destruct (object_facts _ _ _ (bucket_at _ H2) Ho2) as (_ & _ & _ & _ & E2). congruence.
Qed.
End Inv.

Lemma chain_of_app k A1 A2 : chain k (A1 ++ A2) = chain k A1 ++ chain k A2.
Proof. unfold chain. by rewrite filter_app, fmap_app. Qed.
Lemma chain_of_cons k b A : chain k (b :: A) = if decide (bk_kind b = k) then bk_desc b :: chain k A else chain k A.
Proof. unfold chain. rewrite filter_cons. by case_decide. Qed.

(** the words that the lists, the descriptors and the free objects of the other buckets consist of *)
Definition apart_from (b : bucket) (x : Z) : Prop := (x < bk_desc b \/ bk_desc b + 16 <= x) /\ x ∉ objects b.

Section Bucket.
Context (s : malloc_st) (A1 A2 : list bucket) (b : bucket) (F : list Z).
Context (HI : inv s (A1 ++ b :: A2) F).
#[local] Abbreviation A := (A1 ++ b :: A2).

Lemma b_in : b ∈ A.
Proof using. apply elem_of_mid. Qed.

Lemma b_desc_object_apart o k : o ∈ objects b -> 0 <= k < 16 -> bk_desc b + k <> o.
Proof using HI. intros Ho Hk. exact (desc_object_apart _ _ _ HI _ b _ _ (desc_of _ F _ b_in) b_in Ho Hk). Qed.
Lemma other_desc_apart d k : d ∈ descs A F -> d <> bk_desc b -> 0 <= k < 16 -> apart_from b (d + k).
Proof using HI.
  intros Hd Hne Hk. split.
  - destruct (inv_desc _ _ _ HI d Hd) as [Ha _], (inv_desc _ _ _ HI _ (desc_of _ F _ b_in)) as [Ha' _].
    Z.to_euclidean_division_equations; lia.
  - intros Ho. by apply (desc_object_apart _ _ _ HI d b (d + k) k Hd b_in Ho Hk).
Qed.
Lemma other_bucket b' : b' ∈ A1 ++ A2 -> b' ∈ A /\ bk_desc b' <> bk_desc b /\ bk_pg b' <> bk_pg b.
Proof using HI.
  intros Hb'. split; [set_solver|].
  pose proof (inv_descs _ _ _ HI) as Hd. pose proof (inv_pages _ _ _ HI) as Hp. unfold descs in Hd.
  apply NoDup_app in Hd as [Hd _].
  rewrite <- Permutation_middle, fmap_cons in Hd. apply NoDup_cons in Hd as [Hd _].
  rewrite <- Permutation_middle, fmap_cons in Hp. apply NoDup_cons in Hp as [Hp _].
  split; intros Heq; [apply Hd|apply Hp]; rewrite <- Heq; by apply list_elem_of_fmap_2.
Qed.
Lemma other_object_apart b' o : b' ∈ A1 ++ A2 -> o ∈ objects b' -> apart_from b o.
Proof using HI.
  intros Hb' Ho. destruct (other_bucket b' Hb') as (Hin & _ & Hne). split.
  - destruct (decide (bk_desc b <= o < bk_desc b + 16)) as [Hr|]; [|lia]. exfalso.
    apply (desc_object_apart _ _ _ HI (bk_desc b) b' o (o - bk_desc b)); [by apply desc_of, b_in|done|done|lia|lia].
  - intros Ho'. by apply (object_apart _ _ _ HI b' b o o Hin b_in Hne Ho Ho').
Qed.

(** the other buckets are as they were *)
Lemma others_ok s' : (forall x, apart_from b x -> W s' x = W s x) -> Forall (bucket_ok (W s')) (A1 ++ A2).
Proof using HI.
  intros Hw. apply Forall_forall. intros b' Hb'. destruct (other_bucket b' Hb') as (Hin & Hne & _).
  pose proof (bucket_at _ _ _ HI b' Hin) as Hok. revert Hok. apply bucket_ok_ext.
  - intros k Hk _. apply Hw, other_desc_apart; [by apply desc_of|done..].
  - intros o Ho. apply Hw, (other_object_apart b'); [done|]. by apply (bucket_at _ _ _ HI b' Hin).
Qed.

Lemma inv_update s' b' : kept s s' -> bk_kind b' = bk_kind b -> bk_desc b' = bk_desc b -> bk_pg b' = bk_pg b ->
  bucket_ok (W s') b' -> W s' (bk_desc b + 4) = W s (bk_desc b + 4) ->
  (forall x, apart_from b x -> W s' x = W s x) -> inv s' (A1 ++ b' :: A2) F.
Proof using HI.
  intros Hk Ekind Edesc Epg Hok Hnext Hw.
  assert (forall d, d ∈ descs A F -> W s' (d + 4) = W s (d + 4)) as Hlink.
  { intros d Hd. destruct (decide (d = bk_desc b)) as [->|Hne]; [done|]. by apply Hw, other_desc_apart. }
  assert (forall k, chain k (A1 ++ b' :: A2) = chain k A) as Echain.
  { intros k. by rewrite !chain_of_app, !chain_of_cons, Ekind, Edesc. }
  assert (bk_pg <$> A1 ++ b' :: A2 = bk_pg <$> A) as Epgs by (by rewrite !fmap_app, !fmap_cons, Epg).
  assert (descs (A1 ++ b' :: A2) F = descs A F) as Edescs
    by (unfold descs; by rewrite !fmap_app, !fmap_cons, Edesc).
  destruct HI as [H1 H2 H3 H4 H5 H6 H7 H8 H9 H10], Hk as [K1 K2 K3 K4].
  split; rewrite ?Edescs, ?Epgs, ?K1, ?K2, ?K3, ?K4; try done.
  - intros k h Hh. rewrite Echain. eapply linked_same; [|by eapply H4]. intros d Hd. by eapply Hlink, chain_desc.
  - eapply linked_same; [|done]. intros d Hd. apply Hlink. unfold descs. set_solver.
  - pose proof (others_ok s' Hw) as Ho. apply Forall_app in Ho as [? ?]. by apply Forall_app; split; [|constructor].
  - intros c Hc. apply elem_of_app in Hc as [Hc|[->|Hc]%elem_of_cons].
    + apply H10. set_solver.
    + rewrite Epg. apply H10, b_in.
    + apply H10. set_solver.
Qed.
End Bucket.

(** ** Taking an object of a bucket, giving one back *)

Lemma refcnt_run d r sz s : W s (d + 12) = r + 65536 * sz -> 0 <= r < 65536 -> refcnt_of d s = Ret r s.
Proof.
  intros Hw Hr. unfold refcnt_of. mstep (peek_run (d + 12) s). rewrite Hw. cbn.
  unfold mret, M_ret, u16. f_equal. change (2 ^ 16) with 65536. Z.to_euclidean_division_equations; lia.
Qed.
Lemma set_refcnt_run d v r sz s : W s (d + 12) = r + 65536 * sz -> 0 <= r < 65536 -> 0 <= v < 65536 ->
  set_refcnt d v s = Ret tt (put (d + 12) (v + 65536 * sz) s).
Proof.
  intros Hw Hr Hv. unfold set_refcnt. mstep (peek_run (d + 12) s). rewrite Hw, poke_run, u16_id by lia.
  rewrite Z.shiftl_mul_pow2, Z.shiftr_div_pow2 by lia. change (2 ^ 16) with 65536. do 2 f_equal.
  replace ((r + 65536 * sz) / 65536) with sz by (Z.to_euclidean_division_equations; lia). lia.
Qed.

Lemma in_use_range w b : bucket_ok w b -> 0 <= in_use b <= 256.
Proof.
  intros Hb. destruct (bk_size_facts w b Hb) as (Hs & Hc & _). unfold in_use.
  assert (length (bk_free b) <= count (bk_size b))%nat; [|nia].
  rewrite <- (length_slots (bk_page b) (bk_size b) (count (bk_size b))).
  apply submseteq_length, NoDup_submseteq; [apply Hb|]. intros x Hx. by apply (ok_slots _ _ Hb).
Qed.

Definition with_free (b : bucket) (l : list Z) : bucket := mk_bucket (bk_kind b) (bk_desc b) (bk_pg b) l.

Lemma take_object_run s A1 A2 b F o fr : inv s (A1 ++ b :: A2) F -> bk_free b = o :: fr ->
  exists s', take_object (bk_desc b) s = Ret o s' /\ inv s' (A1 ++ with_free b fr :: A2) F /\ kept s s' /\
    forall x, x < bk_desc b \/ bk_desc b + 16 <= x -> W s' x = W s x.
Proof.
  intros HI Hfree. pose proof (bucket_at _ _ _ HI b (b_in _ _ _)) as Hb. set (d := bk_desc b) in *.
  pose proof (ok_free _ _ Hb) as Hl. fold d in Hl. rewrite Hfree in Hl. cbn in Hl. destruct Hl as (Ho & Hne & Hl).
  pose proof (in_use_range _ _ Hb) as Hu.
  assert (in_use (with_free b fr) = in_use b + 1) as Hu'.
  { unfold in_use. cbn. rewrite Hfree. cbn [length]. unfold bk_size. cbn. lia. }
  set (s1 := put (d + 8) (W s o) s). set (s2 := put (d + 12) (in_use b + 1 + 65536 * bk_size b) s1).
  assert (forall x, x <> d + 8 -> x <> d + 12 -> W s2 x = W s x) as Hw.
  { intros x H1 H2. unfold s2, s1. by rewrite !W_put_ne. }
  assert (o ∈ objects b) as Hobj by (apply (ok_slots _ _ Hb); rewrite Hfree; set_solver).
  assert (forall o', o' ∈ objects b -> W s2 o' = W s o') as Hwo.
  { intros o' Ho'. pose proof (b_desc_object_apart _ _ _ _ _ HI o') as Hd.
    apply Hw; intros ->; [exact (Hd 8 Ho' ltac:(lia) eq_refl)|exact (Hd 12 Ho' ltac:(lia) eq_refl)]. }
  assert (W s1 (d + 12) = in_use b + 65536 * bk_size b) as H12.
  { unfold s1. rewrite W_put_ne by lia. apply (ok_count _ _ Hb). }
  assert (W s2 (d + 8) = W s o) as H8. { unfold s2, s1. by rewrite W_put_ne, W_put_eq by lia. }
  exists s2. split; [|split; [|split]].
  - unfold take_object. mstep (peek_run (d + 8) s). rewrite Ho. mstep (peek_run o s).
    mstep (poke_run (d + 8) (W s o) s). fold s1.
    mstep (refcnt_run _ _ _ _ H12 ltac:(lia)). by mstep (set_refcnt_run _ (in_use b + 1) _ _ _ H12 ltac:(lia) ltac:(lia)).
  - eapply inv_update; [exact HI|done..| | |].
    + destruct Hb as [B1 B2 B3 B4 B5 B6]. rewrite Hfree in B4, B5. split; cbn.
      * done.
      * rewrite Hw by (unfold d; lia). exact B2.
      * change (linked (W s2) 0 (W s2 (d + 8)) fr). rewrite H8.
        eapply linked_same; [|rewrite Z.add_0_r in Hl; exact Hl].
        intros o' Ho'. rewrite Z.add_0_r. apply Hwo. apply B5. set_solver.
      * by apply NoDup_cons in B4 as [_ ?].
      * intros o' Ho'. apply B5. set_solver.
      * rewrite Hu'. exact (W_put_eq (d + 12) _ s1).
    + apply Hw; unfold d; lia.
    + intros x [Hx _]. apply Hw; unfold d in *; lia.
  - eapply kept_trans; apply kept_put.
  - intros x Hx. apply Hw; lia.
Qed.

Lemma put_object_run s A1 A2 b F o : inv s (A1 ++ b :: A2) F -> o ∈ objects b -> o ∉ bk_free b ->
  let b' := with_free b (o :: bk_free b) in
  exists s', put_object o (bk_desc b) s = Ret (in_use b') s' /\ inv s' (A1 ++ b' :: A2) F /\ kept s s' /\
    forall x, x < bk_desc b \/ bk_desc b + 16 <= x -> x <> o -> W s' x = W s x.
Proof.
  intros HI Hobj Hnew b'. pose proof (bucket_at _ _ _ HI b (b_in _ _ _)) as Hb. set (d := bk_desc b) in *.
  destruct (object_facts _ _ _ Hb Hobj) as (_ & _ & Hpos & _).
  assert (in_use b' = in_use b - 1) as Hu'.
  { unfold in_use, b'. cbn. unfold bk_size. cbn. lia. }
  assert (0 <= in_use b' <= 255) as Hu.
  { assert (NoDup (o :: bk_free b)) as Hnd by (apply NoDup_cons; split; [done|apply Hb]).
    pose proof (in_use_range _ _ Hb).
    assert (length (o :: bk_free b) <= length (objects b))%nat as Hlen.
    { apply submseteq_length, NoDup_submseteq; [done|]. intros x [->|Hx]%elem_of_cons; [done|]. by apply (ok_slots _ _ Hb). }
    unfold objects in Hlen. rewrite length_slots in Hlen. cbn [length] in Hlen. unfold in_use in *. lia. }
  assert (forall k, 0 <= k < 16 -> d + k <> o) as Hdo.
  { intros k Hk. exact (b_desc_object_apart _ _ _ _ _ HI o k Hobj Hk). }
  set (f := W s (d + 8)).
  set (s1 := put o f s). set (s2 := put (d + 8) o s1). set (s3 := put (d + 12) (in_use b' + 65536 * bk_size b) s2).
  assert (forall x, x <> d + 8 -> x <> d + 12 -> x <> o -> W s3 x = W s x) as Hw.
  { intros x H1 H2 H3. unfold s3, s2, s1. by rewrite !W_put_ne. }
  assert (W s2 (d + 12) = in_use b + 65536 * bk_size b) as H12.
  { unfold s2, s1. rewrite W_put_ne by lia. rewrite W_put_ne by (apply Hdo; lia). apply (ok_count _ _ Hb). }
  pose proof (in_use_range _ _ Hb) as Hur.
  assert (W s3 (d + 8) = o) as H8. { unfold s3, s2. by rewrite W_put_ne, W_put_eq by lia. }
  assert (W s3 o = f) as Ho.
  { pose proof (Hdo 12 ltac:(lia)). pose proof (Hdo 8 ltac:(lia)).
    unfold s3, s2, s1. by rewrite W_put_ne, W_put_ne, W_put_eq by lia. }
  exists s3. split; [|split; [|split]].
  - unfold put_object. mstep (peek_run (d + 8) s). fold f. mstep (poke_run o f s). fold s1.
    mstep (poke_run (d + 8) o s1). fold s2. mstep (refcnt_run _ _ _ _ H12 ltac:(lia)).
    mstep (set_refcnt_run _ (in_use b - 1) _ _ _ H12 ltac:(lia) ltac:(lia)). rewrite <- Hu'. fold s3.
    apply (refcnt_run _ _ (bk_size b)); [|lia]. unfold s3. by rewrite W_put_eq.
  - eapply inv_update; [exact HI|done..| | |].
    + destruct Hb as [B1 B2 B3 B4 B5 B6]. split; cbn.
      * done.
      * rewrite Hw; [exact B2|unfold d; lia..|]. specialize (Hdo 0 ltac:(lia)). unfold d in *. lia.
      * split; [exact H8|]. split; [unfold LOW_MEM in Hpos; lia|]. change (linked (W s3) 0 (W s3 (o + 0)) (bk_free b)). rewrite Z.add_0_r, Ho.
        eapply linked_same; [|exact B3]. intros o' Ho'. rewrite Z.add_0_r.
        assert (forall k, 0 <= k < 16 -> d + k <> o').
        { intros k Hk. exact (b_desc_object_apart _ _ _ _ _ HI o' k (B5 _ Ho') Hk). }
        apply Hw; [intros ->; by apply (H 8)|intros ->; by apply (H 12)|intros ->; done].
      * apply NoDup_cons. done.
      * intros o' [->|Ho']%elem_of_cons; [done|]. by apply B5.
      * exact (W_put_eq (d + 12) _ s2).
    + apply Hw; [unfold d; lia..|]. apply Hdo. lia.
    + intros x [Hx Hno]. apply Hw; [unfold d in *; lia..|]. intros ->. done.
  - eapply kept_trans; [apply kept_put|]. eapply kept_trans; apply kept_put.
  - intros x Hx Hxo. apply Hw; [lia..|done].
Qed.

(** ** A new page *)

Definition no_page (s : malloc_st) : Prop := Forall (fun c => c <> 0) (mem_map (heap s)).

(** page [i] was free and is in use now; the words of other pages are as they were *)
Record got_page (i : nat) (s s' : malloc_st) : Prop := {
  got_free : mem_map (heap s) !! i = Some 0;
  got_map : mem_map (heap s') = <[i := 1]> (mem_map (heap s));
  got_high : HIGH_MEMORY (heap s') = HIGH_MEMORY (heap s) }.
Definition same_elsewhere (i : nat) (s s' : malloc_st) : Prop :=
  forall x, LOW_MEM <= x -> pgof x <> i -> W s' x = W s x.

Lemma new_page_run s : length (mem_map (heap s)) = PAGING_PAGES ->
  (no_page s /\ exists s', zoom_heap get_free_page s = Ret 0 s' /\ no_page s') \/
  exists i s', zoom_heap get_free_page s = Ret (page_at i) s' /\ got_page i s s' /\ same_elsewhere i s s' /\
    chains s' = chains s /\ free_bucket_desc s' = free_bucket_desc s.
Proof.
  intros Hlen. destruct (get_free_page_spec (heap s) Hlen) as [[Hn Hrun]|(i & m & Hi & _ & Hrun & Hm & Hh & _ & Hw)].
  - left. split; [done|]. eexists. unfold zoom_heap, zoom. rewrite Hrun. split; [reflexivity|done].
  - right. exists i. eexists. unfold zoom_heap, zoom. rewrite Hrun. split; [reflexivity|]. split; [by split|]. split; [|done].
    intros x Hx Hp. unfold upd; cbn. rewrite Hw, decide_False; [done|].
    by intros [_ ?]%in_page_pgof.
Qed.

Section Fresh.
Context (s s' : malloc_st) (A : list bucket) (F : list Z) (i : nat).
Context (HI : inv s A F) (HG : got_page i s s').

Lemma fresh_desc d k : d ∈ descs A F -> 0 <= k < 16 -> LOW_MEM <= d + k /\ pgof (d + k) <> i.
Proof using HI HG.
  intros Hd Hk. rewrite (desc_pgof _ _ _ HI) by done.
  destruct (inv_desc _ _ _ HI d Hd) as (_ & Hl & Hp & _). split; [lia|]. intros Heq.
  rewrite Heq, (got_free _ _ _ HG) in Hp. done.
Qed.
Lemma fresh_bucket b : b ∈ A -> bk_pg b <> i.
Proof using HI HG.
  intros Hb Heq. pose proof (inv_page _ _ _ HI b Hb) as Hp. rewrite Heq, (got_free _ _ _ HG) in Hp. done.
Qed.
Lemma fresh_object b o : b ∈ A -> o ∈ objects b -> LOW_MEM <= o /\ pgof o <> i.
Proof using HI HG.
  intros Hb Ho. destruct (object_facts _ _ _ (bucket_at _ _ _ HI b Hb) Ho) as (_ & _ & Hl & _ & ->).
  split; [done|]. by apply fresh_bucket.
Qed.
Lemma fresh_map j : mem_map (heap s) !! j = Some 1 -> mem_map (heap s') !! j = Some 1.
Proof using HG.
  intros Hj. rewrite (got_map _ _ _ HG). destruct (decide (j = i)) as [->|Hne]; [|by rewrite list_lookup_insert_ne].
  apply list_lookup_insert_eq. by apply lookup_lt_Some in Hj.
Qed.
Lemma fresh_page : mem_map (heap s') !! i = Some 1.
Proof using HG.
  rewrite (got_map _ _ _ HG). apply list_lookup_insert_eq. pose proof (got_free _ _ _ HG) as H. by apply lookup_lt_Some in H.
Qed.
Lemma fresh_others : same_elsewhere i s s' -> Forall (bucket_ok (W s')) A.
Proof using HI HG.
  intros HW. apply Forall_forall. intros b Hb. pose proof (bucket_at _ _ _ HI b Hb) as Hok. revert Hok. apply bucket_ok_ext.
  - intros k Hk _. destruct (fresh_desc (bk_desc b) k) as [? ?]; [by apply desc_of|done|]. by apply HW.
  - intros o Ho. destruct (fresh_object b o) as [? ?]; [done|by apply (bucket_at _ _ _ HI b Hb)|]. by apply HW.
Qed.
Lemma fresh_high j : mem_map (heap s') !! j = Some 0 \/ j ∈ bk_pg <$> A -> page_at j < u32 (HIGH_MEMORY (heap s')).
Proof using HI HG.
  rewrite (got_high _ _ _ HG). intros [Hj|Hj]; apply HI; [left|by right].
  rewrite (got_map _ _ _ HG) in Hj. destruct (decide (j = i)) as [->|Hne]; [|by rewrite list_lookup_insert_ne in Hj].
  apply HG.
Qed.
Lemma fresh_len : length (mem_map (heap s')) = PAGING_PAGES.
Proof using HI HG. rewrite (got_map _ _ _ HG), length_insert. apply HI. Qed.
End Fresh.

(** ** A new page of descriptors *)

Lemma init_bucket_desc_run s A : inv s A [] ->
  (exists e s', init_bucket_desc s = Panic e s' /\ no_page s') \/
  exists i s', init_bucket_desc s = Ret tt s' /\ got_page i s s' /\ same_elsewhere i s s' /\ chains s' = chains s /\
    inv s' A (slots (page_at i) 16 256).
Proof.
  intros HI. unfold init_bucket_desc.
  destruct (new_page_run s (inv_len _ _ _ HI)) as [(_ & s1 & Hrun & Hno)|(i & s1 & Hrun & HG & HW & Hch & Hfr)].
  { left. eexists _, s1. split; [|done]. by mstep Hrun. }
  right. pose proof (page_at_pos i) as Hpos. set (p := page_at i) in *.
  destruct (link_loop (fun a => a + 4) 4 16 ltac:(done) ltac:(lia) 255 0 p s1) as (s2 & Hrun2 & Hk & Hl & Ho).
  set (last := p + 16 * Z.of_nat 255) in *.
  set (s3 := (put (last + 4) (free_bucket_desc s2) s2) <| free_bucket_desc := p |>).
  assert (forall x, LOW_MEM <= x -> pgof x <> i -> W s3 x = W s x) as Hw.
  { intros x Hx Hp. change (W s3 x) with (W (put (last + 4) (free_bucket_desc s2) s2) x).
    assert (forall k, 0 <= k < 4096 -> x <> p + k) as Hne.
    { intros k Hr ->. apply Hp, pgof_in. unfold p in *. lia. }
    rewrite W_put_ne by (replace (last + 4) with (p + (4080 + 4)) by (unfold last; lia); apply Hne; lia).
    rewrite Ho by (intros j Hj; rewrite <- Z.add_assoc; apply Hne; lia). by apply HW. }
  assert (got_page i s s3) as HG3.
  { destruct HG as [G1 G2 G3], Hk as [K1 K2 K3 K4]. split; [done| |].
    - change (mem_map (heap s3)) with (mem_map (heap s2)). congruence.
    - change (HIGH_MEMORY (heap s3)) with (HIGH_MEMORY (heap s2)). congruence. }
  assert (chains s3 = chains s) as Hch3.
  { change (chains s3) with (chains s2). by rewrite (kept_chains _ _ Hk). }
  exists i, s3. split; [|split; [done|split; [done|split; [done|]]]].
  { mstep Hrun. rewrite (proj2 (Z.eqb_neq p 0)) by (unfold LOW_MEM in Hpos; lia).
    change (Z.to_nat (PAGE_SIZE / DESC_SIZE) - 1)%nat with 255%nat. cbv beta in Hrun2.
    change DESC_SIZE with 16.
    by mstep Hrun2. }
  assert (linked (W s3) 4 p (slots p 16 256)) as Hlist.
  { rewrite <- (app_nil_r (slots p 16 256)). change 256%nat with (S 255).
    assert (forall x, W s3 x = if decide (x = last + 4) then free_bucket_desc s2 else W s2 x) as H3 by (intros x; apply W_put).
    apply linked_slots; [lia|unfold LOW_MEM in Hpos; lia| |].
    - intros j Hj. rewrite H3, decide_False by (unfold last; lia). by apply Hl.
    - fold last. rewrite H3, decide_True by done. cbn. rewrite (kept_free _ _ Hk), Hfr. exact (inv_free _ _ _ HI). }
  fold p. split.
  - by eapply fresh_len.
  - by eapply fresh_high.
  - rewrite Hch3. apply HI.
  - intros k h. rewrite Hch3. intros Hh. eapply linked_same; [|by eapply HI].
    intros d Hd%(chain_desc A []). destruct (fresh_desc _ _ _ _ _ HI HG3 d 4 Hd) as [? ?]; [lia|]. by apply Hw.
  - exact Hlist.
  - by eapply fresh_others.
  - pose proof (inv_descs _ _ _ HI) as Hnd. unfold descs in *. rewrite app_nil_r in Hnd.
    apply NoDup_app. split; [done|]. split; [|by apply slots_NoDup].
    intros d Hd (j & Hj & ->)%slots_elem.
    destruct (fresh_desc _ _ _ _ _ HI HG3 (p + 16 * Z.of_nat j) 0) as [_ Hne];
      [apply elem_of_app; by left|lia|]. apply Hne, pgof_in. fold p. lia.
  - apply HI.
  - intros d [Hd|Hd]%elem_of_app.
    + destruct (inv_desc _ _ _ HI d) as (? & ? & ? & ?); [apply elem_of_app; by left|].
      split; [done|]. split; [done|]. split; [|done]. by eapply fresh_map.
    + apply slots_elem in Hd as (j & Hj & ->).
      assert (pgof (p + 16 * Z.of_nat j) = i) as -> by (apply pgof_in; fold p; lia).
      split; [unfold p, page_at, LOW_MEM; Z.to_euclidean_division_equations; lia|]. split; [lia|].
      split; [by eapply fresh_page|]. intros (b & Heq & Hb)%list_elem_of_fmap.
      by apply (fresh_bucket _ _ _ _ _ HI HG3 b).
  - intros b Hb. eapply fresh_map; [done|]. by apply HI.
Qed.

(** ** A new bucket *)

(** a descriptor leaves the free list for a page that was free *)
Lemma inv_add s s' A F d k i h : let sz := default 0 (bucket_sizes !! k) in
  let b := mk_bucket k d i (slots (page_at i) sz (count sz)) in
  inv s A (d :: F) -> got_page i s s' -> (k < 9)%nat ->
  chains s !! k = Some h -> chains s' = <[k := d]> (chains s) -> free_bucket_desc s' = W s (d + 4) ->
  bucket_ok (W s') b -> W s' (d + 4) = h ->
  (forall x, LOW_MEM <= x -> pgof x <> i -> x < d \/ d + 16 <= x -> W s' x = W s x) ->
  inv s' (b :: A) F.
Proof.
  intros sz b HI HG Hk9 Hh Hch Hfr Hok Hnext Hw.
  assert (d ∈ descs A (d :: F)) as Hdin by (apply elem_of_app; right; apply list_elem_of_here).
  assert (d ∉ descs A F) as Hdn.
  { pose proof (inv_descs _ _ _ HI) as Hnd. unfold descs in Hnd. rewrite <- Permutation_middle in Hnd.
    by apply NoDup_cons in Hnd as [? _]. }
  assert (forall d', d' ∈ descs A F -> d' ∈ descs A (d :: F)) as Hsub by (intros d'; unfold descs; rewrite !elem_of_app, elem_of_cons; tauto).
  assert (forall d' j, d' ∈ descs A F -> 0 <= j < 16 -> W s' (d' + j) = W s (d' + j)) as Hwd.
  { intros d' j Hd' Hj. destruct (fresh_desc _ _ _ _ _ HI HG d' j) as [? ?]; [auto..|]. apply Hw; [done..|].
    destruct (decide (d <= d' + j < d + 16)) as [Hr|]; [|lia]. exfalso.
    apply (desc_apart _ _ _ HI d d' (d' + j - d) j); [done|auto|by intros ->|lia..]. }
  assert (forall b' o, b' ∈ A -> o ∈ objects b' -> W s' o = W s o) as Hwo.
  { intros b' o Hb' Ho. destruct (fresh_object _ _ _ _ _ HI HG b' o Hb' Ho) as [? ?]. apply Hw; [done..|].
    destruct (decide (d <= o < d + 16)) as [Hr|]; [|lia]. exfalso.
    apply (desc_object_apart _ _ _ HI d b' o (o - d)); [done..|lia|lia]. }
  split.
  - by eapply fresh_len.
  - intros j. cbn. rewrite elem_of_cons. intros [Hj|[->|Hj]]; [eapply (fresh_high s s'); eauto| |eapply (fresh_high s s'); eauto].
    rewrite (got_high _ _ _ HG). apply HI. left. apply HG.
  - rewrite Hch, length_insert. apply HI.
  - intros k' h'. rewrite Hch, chain_of_cons. cbn [bk_kind bk_desc b]. intros Hl.
    destruct (decide (k = k')) as [<-|Hne].
    + rewrite list_lookup_insert_eq in Hl by (by apply lookup_lt_Some in Hh). injection Hl as <-.
      split; [done|]. split.
      * destruct (inv_desc _ _ _ HI d Hdin) as (_ & Hlow & _). unfold LOW_MEM in Hlow. lia.
      * rewrite Hnext. eapply linked_same; [|by eapply HI]. intros d' Hd'. apply Hwd; [by eapply chain_desc|lia].
    + rewrite list_lookup_insert_ne in Hl by done. eapply linked_same; [|by eapply HI].
      intros d' Hd'. apply Hwd; [by eapply chain_desc|lia].
  - rewrite Hfr. pose proof (inv_free _ _ _ HI) as (_ & _ & Hl). eapply linked_same; [|exact Hl].
    intros d' Hd'. apply Hwd; [apply elem_of_app; by right|lia].
  - constructor; [done|]. apply Forall_forall. intros b' Hb'.
    pose proof (bucket_at _ _ _ HI b' Hb') as Hok'. revert Hok'. apply bucket_ok_ext.
    + intros j Hj _. apply Hwd; [by apply desc_of|done].
    + intros o Ho. apply (Hwo b' o Hb'). by apply (bucket_at _ _ _ HI b' Hb').
  - unfold descs. cbn. apply NoDup_cons. split; [done|].
    pose proof (inv_descs _ _ _ HI) as Hnd. unfold descs in Hnd. rewrite <- Permutation_middle in Hnd.
    by apply NoDup_cons in Hnd as [_ ?].
  - cbn. apply NoDup_cons. split; [|apply HI]. intros (b' & Heq & Hb')%list_elem_of_fmap.
    by apply (fresh_bucket _ _ _ _ _ HI HG b').
  - intros d' Hd'. assert (d' ∈ descs A (d :: F)) as Hd2.
    { revert Hd'. unfold descs. cbn. rewrite elem_of_cons, !elem_of_app, elem_of_cons. tauto. }
    destruct (inv_desc _ _ _ HI d' Hd2) as (H1 & H2 & H3 & H4).
    split; [done|]. split; [done|]. split; [by eapply fresh_map|]. cbn. intros [Heq|Hin]%elem_of_cons; [|done].
    destruct (fresh_desc _ _ _ _ _ HI HG d' 0 Hd2 ltac:(lia)) as [_ Hne]. rewrite Z.add_0_r in Hne. done.
  - intros b' [->|Hb']%elem_of_cons; [by eapply fresh_page|]. eapply fresh_map; [done|]. by apply HI.
Qed.

Lemma set_bucket_size_run d sz v s : W s (d + 12) = 65536 * v -> 0 <= sz < 65536 ->
  set_bucket_size d sz s = Ret tt (put (d + 12) (65536 * sz) s).
Proof.
  intros Hw Hs. unfold set_bucket_size. mstep (peek_run (d + 12) s). rewrite Hw, poke_run, (u16_id sz) by lia.
  rewrite Z.shiftl_mul_pow2 by lia. change (2 ^ 16) with 65536. unfold u16.
  replace (65536 * v) with (v * 65536) by lia. rewrite Z.mod_mul by lia. do 2 f_equal. lia.
Qed.

Lemma kept_no_page s s' : kept s s' -> no_page s -> no_page s'.
Proof. intros [K _ _ _]. unfold no_page. by rewrite K. Qed.

(** the words of a descriptor [d] for page [q] and those of the objects at the end of [fill_bucket] *)
(** the words that [fill_bucket] writes into the new page: a chain of free objects *)
Lemma link_page d sz h i s : let q := page_at i in let n := (count sz - 1)%nat in let last := q + sz * Z.of_nat n in
  0 < sz -> sz * Z.of_nat (count sz) = 4096 -> LOW_MEM <= d -> pgof d <> i -> pgof (d + 4) <> i -> count sz = S n ->
  exists s', for_fold (seq 0 n) q (fun cp _ => poke cp (cp + sz) ;; mret (cp + sz)) s = Ret last s' /\ kept s s' /\
    let w := W (put (d + 4) h (put last 0 s')) in
    linked w 0 q (slots q sz (count sz)) /\ (forall x, LOW_MEM <= x -> pgof x <> i -> w x = if decide (x = d + 4) then h else W s x).
Proof.
  intros q n last Hsz Hcount Hd Hdi Hdi4 Hn. pose proof (page_at_pos i) as Hpos. fold q in Hpos.
  destruct (link_loop (fun a => a) 0 sz ltac:(intros a; cbv beta; lia) Hsz n 0 q s) as (s' & Hrun & Hk & Hl & Ho). fold last in Hrun.
  exists s'. split; [exact Hrun|]. split; [done|]. cbv zeta.
  assert (forall j, (j <= n)%nat -> q <= q + sz * Z.of_nat j < q + 4096) as Hin.
  { intros j Hj. assert (sz * Z.of_nat n = 4096 - sz) by (rewrite Hn in Hcount; lia). nia. }
  assert (forall y, q <= y < q + 4096 -> y <> d + 4) as Hne by (intros y Hy ->; by apply Hdi4, pgof_in).
  split.
  - rewrite <- (app_nil_r (slots q sz (count sz))), Hn. apply linked_slots; [lia|unfold LOW_MEM in Hpos; lia| |].
    + intros j Hj. rewrite W_put_ne by (rewrite Z.add_0_r; apply Hne, Hin; lia). rewrite W_put_ne by (unfold last; nia). by apply Hl.
    + fold last. rewrite Z.add_0_r. by rewrite W_put_ne, W_put_eq by (apply Hne, (Hin n); lia).
  - intros x Hx Hp. rewrite W_put. case_decide; [done|].
    assert (forall y, q <= y < q + 4096 -> x <> y) as Hxne by (intros y Hy ->; by apply Hp, pgof_in).
    rewrite W_put_ne by (apply Hxne, (Hin n); lia). apply Ho. intros j Hj. rewrite Z.add_0_r. apply Hxne, Hin. lia.
Qed.
(** the descriptor taken: the count is cleared and the size set *)
Lemma fill_start_run s A F d k : let sz := default 0 (bucket_sizes !! k) in
  inv s A (d :: F) -> 0 < sz < 65536 ->
  exists s3, (forall x, x <> d + 12 -> W s3 x = W s x) /\ W s3 (d + 12) = 65536 * sz /\
    mem_map (heap s3) = mem_map (heap s) /\ HIGH_MEMORY (heap s3) = HIGH_MEMORY (heap s) /\ chains s3 = chains s /\
    free_bucket_desc s3 = W s (d + 4) /\
    fill_bucket k sz s = (cp ← zoom_heap get_free_page;
    poke (d + 8) cp ;; poke d cp ;;
    if cp =? 0 then panic "Out of memory in kernel malloc()" else
    last ← for_fold (seq 0 (Z.to_nat (PAGE_SIZE / sz) - 1)) cp (fun cp _ => poke cp (cp + sz) ;; mret (cp + sz));
    poke last 0 ;;
    s ← gets id; head ← deref (chains s !! k);
    poke (d + 4) head ;; modify (fun s => s <| chains ::= <[k := d]> |>) ;; mret d) s3.
Proof.
  intros sz HI Hsz. pose proof (linked_head _ _ _ _ (inv_free _ _ _ HI)) as Hfree. cbn in Hfree.
  set (s1 := s <| free_bucket_desc := W s (d + 4) |>).
  set (w := W s (d + 12)). pose proof (Z.div_mod w 65536 ltac:(lia)) as Hdm.
  pose proof (Z.mod_pos_bound w 65536 ltac:(lia)) as Hm.
  set (s2 := put (d + 12) (0 + 65536 * (w / 65536)) s1).
  assert (set_refcnt d 0 s1 = Ret tt s2) as R2.
  { apply (set_refcnt_run d 0 (w mod 65536) (w / 65536)); [change (W s1 (d + 12)) with w; lia|lia..]. }
  set (s3 := put (d + 12) (65536 * sz) s2).
  assert (set_bucket_size d sz s2 = Ret tt s3) as R3.
  { apply (set_bucket_size_run d sz (w / 65536)); [|lia]. unfold s2. rewrite W_put_eq. lia. }
  exists s3. split; [intros x Hx; unfold s3, s2; by rewrite !W_put_ne by done|]. split; [apply W_put_eq|].
  split; [done|]. split; [done|]. split; [done|]. split; [done|].
  unfold fill_bucket. change ((gets id ≫= ?f) s) with (f s s). cbv beta. rewrite Hfree. unfold next_of.
  mstep (peek_run (d + 4) s). change ((modify _ ≫= ?f) s) with (f tt s1). cbv beta. mstep R2. by mstep R3.
Qed.

Lemma fill_bucket_run s A F d k h : let sz := default 0 (bucket_sizes !! k) in
  inv s A (d :: F) -> (k < 9)%nat -> chains s !! k = Some h ->
  (exists e s', fill_bucket k sz s = Panic e s' /\ no_page s') \/
  exists i s', fill_bucket k sz s = Ret d s' /\
    mem_map (heap s) !! i = Some 0 /\ mem_map (heap s') = <[i := 1]> (mem_map (heap s)) /\
    HIGH_MEMORY (heap s') = HIGH_MEMORY (heap s) /\
    chains s' = <[k := d]> (chains s) /\ free_bucket_desc s' = W s (d + 4) /\
    W s' d = page_at i /\ W s' (d + 4) = h /\ W s' (d + 8) = page_at i /\ W s' (d + 12) = 65536 * sz /\
    linked (W s') 0 (page_at i) (slots (page_at i) sz (count sz)) /\
    (forall x, LOW_MEM <= x -> pgof x <> i -> x < d \/ d + 16 <= x -> W s' x = W s x).
Proof.
  intros sz HI Hk Hh. pose proof (size_facts k Hk) as (Hsz & Hcount & _). fold sz in Hsz, Hcount.
  destruct (fill_start_run s A F d k HI) as (s3 & H3 & H12 & Hmap3 & Hhigh3 & Hch3 & Hfr3 & Hstart); [fold sz; lia|]. fold sz in H12, Hstart.
  rewrite Hstart. clear Hstart.
  destruct (new_page_run s3) as [(_ & s4 & Hrun & Hno)|(i & s4 & Hrun & HG & HW & Hch & Hfr)]; [rewrite Hmap3; apply HI|..].
  { left. eexists _, (put d 0 (put (d + 8) 0 s4)). split; [|exact Hno]. mstep Hrun.
    mstep (poke_run (d + 8) 0 s4). by mstep (poke_run d 0 (put (d + 8) 0 s4)). }
  right. exists i. pose proof (page_at_pos i) as Hpos.
  assert (mem_map (heap s) !! i = Some 0) as Hi0 by (rewrite <- Hmap3; exact (got_free _ _ _ HG)).
  destruct (inv_desc _ _ _ HI d) as (Hal & Hlow & Hmap & _); [apply elem_of_app; right; apply list_elem_of_here|].
  assert (pgof d <> i) as Hdi by (intros Heq; rewrite Heq, Hi0 in Hmap; done).
  assert (forall j, 0 <= j < 16 -> LOW_MEM <= d + j /\ pgof (d + j) <> i) as Hdj.
  { intros j Hj. rewrite pgof_block by done. split; [lia|done]. }
  set (q := page_at i) in *. set (s6 := put d q (put (d + 8) q s4)).
  assert (count sz = S (count sz - 1)) as Hn.
  { assert (count sz <> 0%nat) by (intros E; rewrite E in Hcount; lia). lia. }
  destruct (link_page d sz h i s6) as (s7 & Hrun7 & [K1 K2 K3 K4] & Hlink & Hw); [lia|done|done|done|by apply Hdj|done|]. fold q in Hrun7, Hlink, Hw.
  set (last := q + sz * Z.of_nat (count sz - 1)) in *. set (s9 := put (d + 4) h (put last 0 s7)) in *.
  assert (forall x, LOW_MEM <= x -> pgof x <> i ->
    W s9 x = if decide (x = d + 4) then h else if decide (x = d) then q else if decide (x = d + 8) then q else W s3 x) as Hout.
  { intros x Hx Hp. rewrite Hw by done. unfold s6. rewrite !W_put. repeat case_decide; try done. by apply HW. }
  exists (s9 <| chains ::= <[k := d]> |>). split_and!; [| | | | | |change (W s9 d = q)|change (W s9 (d + 4) = h)|change (W s9 (d + 8) = q)|change (W s9 (d + 12) = 65536 * sz)|exact Hlink|].
  - mstep Hrun. mstep (poke_run (d + 8) q s4). mstep (poke_run d q (put (d + 8) q s4)). fold s6.
    rewrite (proj2 (Z.eqb_neq q 0)) by (unfold LOW_MEM in Hpos; lia).
    change (Z.to_nat (PAGE_SIZE / sz)) with (count sz). mstep Hrun7.
    mstep (poke_run last 0 s7). change ((gets id ≫= ?f) (put last 0 s7)) with (f (put last 0 s7) (put last 0 s7)). cbv beta.
    assert (chains (put last 0 s7) !! k = Some h) as Hh' by (change (chains s7 !! k = Some h); rewrite K3; change (chains s4 !! k = Some h); congruence).
    mstep (deref_run _ _ (put last 0 s7) Hh'). by mstep (poke_run (d + 4) h (put last 0 s7)).
  - exact Hi0.
  - change (mem_map (heap s7) = <[i:=1]> (mem_map (heap s))). rewrite K1, <- Hmap3. apply HG.
  - change (HIGH_MEMORY (heap s7) = HIGH_MEMORY (heap s)). rewrite K2, <- Hhigh3. apply HG.
  - change (<[k := d]> (chains s7) = <[k := d]> (chains s)). f_equal. rewrite K3. change (chains s4 = chains s). congruence.
  - change (free_bucket_desc s7 = W s (d + 4)). rewrite K4. change (free_bucket_desc s4 = W s (d + 4)). congruence.
  - rewrite <- (Z.add_0_r d), Hout by (apply Hdj; lia). repeat case_decide; try done; lia.
  - rewrite Hout by (apply Hdj; lia). by rewrite decide_True.
  - rewrite Hout by (apply Hdj; lia). repeat case_decide; try done; lia.
  - rewrite Hout by (apply Hdj; lia). by rewrite !decide_False by lia.
  - intros x Hx Hp Hxd. change (W s9 x = W s x). rewrite Hout, !decide_False by (done || lia). apply H3. lia.
Qed.
