(* ===== verification/MallocSpec.v ===== *)
(** * lib/malloc.cc: objects do not overlap, are handed out once, and pages come back *)

From S2P Require Import Prelude State Memory MemoryFacts Malloc MallocFacts.

#[local] Arguments PAGING_PAGES : simpl never.

(** ** Searching the chains *)

Lemma find_space_run s l : forall fuel h, linked (W s) 4 h (bk_desc <$> l) -> Forall (bucket_ok (W s)) l ->
  (length l < fuel)%nat ->
  (exists l1 b l2, l = l1 ++ b :: l2 /\ bk_free b <> [] /\ find_space fuel h s = Ret (bk_desc b) s) \/
  (find_space fuel h s = Ret 0 s).
Proof.
  induction l as [|b l IH]; intros fuel h Hl Hok Hf; (destruct fuel as [|fuel]; [cbn in Hf; lia|]); cbn in Hl.
  - right. subst h. by apply loop_done.
  - destruct Hl as (-> & Hne & Hl). apply Forall_cons in Hok as [Hb Hok]. set (d := bk_desc b) in *.
    assert (d =? 0 = false) as Hz by (by apply Z.eqb_neq).
    pose proof (linked_nil _ _ _ _ (ok_free _ _ Hb)) as Hnil. fold d in Hnil.
    destruct (decide (W s (d + 8) = 0)) as [H0|H0].
    + destruct (IH fuel (W s (d + 4)) Hl Hok) as [(l1 & b' & l2 & -> & Hb' & Hrun)|Hrun]; [cbn in Hf; lia| |].
      * left. exists (b :: l1), b', l2. split; [done|]. split; [done|].
        etransitivity; [eapply loop_again|exact Hrun]. rewrite Hz. mstep (peek_run (d + 8) s). rewrite H0.
        cbn [nz Z.eqb negb]. by mstep (peek_run (d + 4) s).
      * right. etransitivity; [eapply loop_again|exact Hrun]. rewrite Hz. mstep (peek_run (d + 8) s). rewrite H0.
        cbn [nz Z.eqb negb]. by mstep (peek_run (d + 4) s).
    + left. exists [], b, l. split; [done|]. split; [tauto|]. apply (loop_done _ _ _ _ s s).
      rewrite Hz. mstep (peek_run (d + 8) s). by rewrite (proj2 (nz_true _) H0).
Qed.

(** the descriptor of page [q] in a list, with the one before it *)
Fixpoint with_prev (q prev : Z) (l : list bucket) : option (Z * Z) :=
  match l with
  | [] => None
  | b :: l => if decide (bk_page b = q) then Some (prev, bk_desc b) else with_prev q (bk_desc b) l
  end.
Lemma find_in_chain_run s q l : forall fuel prev h, linked (W s) 4 h (bk_desc <$> l) -> Forall (bucket_ok (W s)) l ->
  (length l < fuel)%nat ->
  loop fuel (fun '(prev, bdesc) =>
    if bdesc =? 0 then mret (inr None) else
    p ← page_of bdesc;
    if p =? q then mret (inr (Some (prev, bdesc)))
    else next ← next_of bdesc; mret (inl (bdesc, next))) (prev, h) s = Ret (with_prev q prev l) s.
Proof.
  induction l as [|b l IH]; intros fuel prev h Hl Hok Hf; (destruct fuel as [|fuel]; [cbn in Hf; lia|]); cbn in Hl.
  - subst h. by apply loop_done.
  - destruct Hl as (-> & Hne & Hl). apply Forall_cons in Hok as [Hb Hok]. set (d := bk_desc b) in *.
    assert (d =? 0 = false) as Hz by (by apply Z.eqb_neq). cbn [with_prev].
    case_decide as Hq.
    + apply (loop_done _ _ _ _ s s). rewrite Hz. mstep (peek_run d s). unfold d at 1. rewrite (ok_page _ _ Hb), Hq.
      by rewrite Z.eqb_refl.
    + etransitivity; [eapply loop_again|apply (IH fuel d (W s (d + 4)) Hl Hok); cbn in Hf; lia].
      rewrite Hz. mstep (peek_run d s). unfold d at 1. rewrite (ok_page _ _ Hb).
      rewrite (proj2 (Z.eqb_neq _ _) Hq). by mstep (peek_run (d + 4) s).
Qed.

Lemma with_prev_None q prev l : (forall b, b ∈ l -> bk_page b <> q) -> with_prev q prev l = None.
Proof.
  revert prev. induction l as [|b l IH]; intros prev H; [done|]. cbn.
  rewrite decide_False by (apply H; set_solver). apply IH. set_solver.
Qed.
Lemma with_prev_Some b l2 l1 : forall prev, (forall b', b' ∈ l1 -> bk_page b' <> bk_page b) ->
  with_prev (bk_page b) prev (l1 ++ b :: l2) = Some (default prev (bk_desc <$> last l1), bk_desc b).
Proof.
  induction l1 as [|c l1 IH]; intros prev H; cbn [app with_prev].
  - by rewrite decide_True.
  - rewrite decide_False by (apply H; set_solver). rewrite IH by set_solver.
    destruct l1 as [|c' l1]; [done|]. rewrite last_cons_cons. by destruct (last (c' :: l1)) eqn:E; [|by apply last_None in E].
Qed.

Definition of_kind (k : nat) (A : list bucket) : list bucket := filter (fun b => bk_kind b = k) A.
Lemma of_kind_ok s A F k : inv s A F -> Forall (bucket_ok (W s)) (of_kind k A).
Proof.
  intros HI. apply Forall_forall. intros b [_ Hb]%list_elem_of_filter. by apply (bucket_at _ _ _ HI).
Qed.
Lemma of_kind_length k A : (length (of_kind k A) <= length A)%nat.
Proof. apply length_filter. Qed.

(** a chain through a given bucket *)
Lemma of_kind_split A1 A2 b : let k := bk_kind b in
  of_kind k (A1 ++ b :: A2) = of_kind k A1 ++ b :: of_kind k A2.
Proof. cbn. unfold of_kind. rewrite filter_app, filter_cons. by rewrite decide_True. Qed.

Lemma for_find_at {S X R} (f : X -> M S (option R)) l1 x l2 y s :
  (forall z, z ∈ l1 -> f z s = Ret None s) -> f x s = Ret (Some y) s ->
  for_find (l1 ++ x :: l2) f s = Ret (Some y) s.
Proof.
  intros H1 Hx. induction l1 as [|z l1 IH]; cbn [app for_find].
  - by rewrite (bind_Ret _ _ _ _ _ Hx).
  - rewrite (bind_Ret _ _ _ _ _ (H1 z (list_elem_of_here _ _))). apply IH. intros z' Hz'. apply H1. by right.
Qed.

Lemma sizes_at k : (k < 9)%nat -> bucket_sizes !! k = Some (default 0 (bucket_sizes !! k)).
Proof. intros Hk. do 9 (destruct k as [|k]; [reflexivity|]). lia. Qed.

Lemma find_page_run s A1 A2 b F fuel size : inv s (A1 ++ b :: A2) F -> (length (A1 ++ b :: A2) < fuel)%nat ->
  size <= bk_size b ->
  find_page fuel (bk_page b) size s = Ret (Some (bk_kind b, default 0 (bk_desc <$> last (of_kind (bk_kind b) A1)), bk_desc b)) s.
Proof.
  intros HI Hf Hsz. set (A := A1 ++ b :: A2) in *. set (k := bk_kind b).
  pose proof (ok_kind _ _ (bucket_at _ _ _ HI b (b_in _ _ _))) as Hk. fold k in Hk.
  assert (forall b', b' ∈ A1 ++ A2 -> bk_page b' <> bk_page b) as Hne.
  { intros b' Hb' Heq. destruct (other_bucket _ _ _ _ _ HI b' Hb') as (_ & _ & Hn). by apply Hn, page_at_inj. }
  assert (forall j, (j < 9)%nat -> exists h, chains s !! j = Some h /\ linked (W s) 4 h (bk_desc <$> of_kind j A)) as Hch.
  { intros j Hj. destruct (lookup_lt_is_Some_2 (chains s) j) as [h Hh]; [rewrite (inv_nchains _ _ _ HI); lia|].
    exists h. split; [done|]. exact (inv_chains _ _ _ HI j h Hh). }
  assert (forall j h, chains s !! j = Some h -> linked (W s) 4 h (bk_desc <$> of_kind j A) ->
    find_in_chain fuel (bk_page b) h s = Ret (with_prev (bk_page b) 0 (of_kind j A)) s) as Hfind.
  { intros j h _ Hl. apply (find_in_chain_run s (bk_page b) (of_kind j A) fuel 0 h Hl); [by eapply of_kind_ok|].
    pose proof (of_kind_length j A). lia. }
  unfold find_page. change (seq 0 (length bucket_sizes)) with (seq 0 9).
  replace (seq 0 9) with (seq 0 k ++ k :: seq (S k) (8 - k)) by (rewrite <- (seq_app k (S (8 - k))); f_equal; lia).
  apply for_find_at.
  - intros j Hj%elem_of_seq. rewrite (bind_Ret _ _ _ _ _ (deref_run _ _ s (sizes_at j ltac:(lia)))).
    destruct (_ <? size); [done|]. destruct (Hch j ltac:(lia)) as (h & Hh & Hl).
    change ((gets id ≫= ?g) s) with (g s s). cbv beta. rewrite (bind_Ret _ _ _ _ _ (deref_run _ _ s Hh)).
    rewrite (bind_Ret _ _ _ _ _ (Hfind j h Hh Hl)), with_prev_None; [done|].
    intros b' [Hkind Hb']%list_elem_of_filter. apply Hne. unfold A in Hb'.
    apply elem_of_app in Hb' as [?|[->|?]%elem_of_cons]; [apply elem_of_app; by left| |apply elem_of_app; by right].
    unfold k in Hj. lia.
  - rewrite (bind_Ret _ _ _ _ _ (deref_run _ _ s (sizes_at k ltac:(lia)))).
    rewrite (proj2 (Z.ltb_ge _ _)) by exact Hsz. destruct (Hch k ltac:(lia)) as (h & Hh & Hl).
    change ((gets id ≫= ?g) s) with (g s s). cbv beta. rewrite (bind_Ret _ _ _ _ _ (deref_run _ _ s Hh)).
    rewrite (bind_Ret _ _ _ _ _ (Hfind k h Hh Hl)). unfold A. unfold k at 1. rewrite of_kind_split, with_prev_Some; [done|].
    intros b' [_ Hb']%list_elem_of_filter. apply Hne, elem_of_app. by left.
Qed.

(** ** Taking an element out of a list in memory *)
Lemma linked_at w off h l1 x l2 : linked w off h (l1 ++ x :: l2) ->
  x <> 0 /\ match last l1 with Some y => w (y + off) = x /\ y <> 0 | None => h = x end.
Proof.
  revert h. induction l1 as [|a l1 IH]; intros h; cbn; [naive_solver|]. intros (-> & Ha & Hl).
  destruct (IH _ Hl) as [Hx Hm]. split; [done|]. destruct l1 as [|b l1]; [done|].
    rewrite last_cons_cons. destruct (last (b :: l1)) eqn:E; [exact Hm|]. by apply last_None in E.
Qed.
Lemma linked_remove w w' off x l2 l1 : forall h, NoDup (l1 ++ x :: l2) -> linked w off h (l1 ++ x :: l2) ->
  (forall y, y ∈ l1 ++ l2 -> w' (y + off) = if bool_decide (Some y = last l1) then w (x + off) else w (y + off)) ->
  linked w' off (if l1 is [] then w (x + off) else h) (l1 ++ l2).
Proof.
  induction l1 as [|a l1 IH]; intros h Hnd Hl Hw; cbn [app] in *.
  - destruct Hl as (_ & _ & Hl). eapply linked_same; [|exact Hl]. intros y Hy. by rewrite Hw.
  - destruct Hl as (-> & Ha & Hl). apply NoDup_cons in Hnd as [Hna Hnd]. cbn. split; [done|]. split; [done|].
    destruct l1 as [|b l1].
    + rewrite Hw by (by left). rewrite bool_decide_true by done. apply (IH (w (a + off))); [done|done|].
      intros y Hy. rewrite Hw by (by right). rewrite !bool_decide_false; [done|done|].
      cbn. intros [= ->]. apply Hna. by right.
    + rewrite Hw by (by left). rewrite bool_decide_false.
      * apply (IH (w (a + off))); [done|done|]. intros y Hy. rewrite Hw by (by right).
        by rewrite last_cons_cons.
      * rewrite last_cons_cons. intros Heq. symmetry in Heq. apply last_Some_elem_of in Heq. apply Hna.
        apply elem_of_app. by left.
Qed.

(** ** Releasing a bucket *)

Lemma chain_split A1 A2 b : chain (bk_kind b) (A1 ++ b :: A2) =
  chain (bk_kind b) A1 ++ bk_desc b :: chain (bk_kind b) A2.
Proof. rewrite chain_of_app, chain_of_cons. by rewrite decide_True. Qed.
Lemma chain_NoDup s A F k : inv s A F -> NoDup (chain k A).
Proof.
  intros HI. pose proof (inv_descs _ _ _ HI) as Hd. unfold descs in Hd. apply NoDup_app in Hd as [Hd _].
  unfold chain. clear HI. induction A as [|b A IH]; [constructor|]. apply NoDup_cons in Hd as [Hb Hd].
  fold (chain k (b :: A)). rewrite chain_of_cons. case_decide; [|by apply IH]. apply NoDup_cons. split; [|by apply IH].
  intros (c & Heq & [_ Hc]%list_elem_of_filter)%list_elem_of_fmap. apply Hb. rewrite Heq. by apply list_elem_of_fmap_2.
Qed.

Lemma chain_disjoint s A F k k' x : inv s A F -> x ∈ chain k A -> x ∈ chain k' A -> k = k'.
Proof.
  intros HI. pose proof (inv_descs _ _ _ HI) as Hd. unfold descs in Hd. apply NoDup_app in Hd as [Hd _]. clear HI.
  intros (c & -> & [Hk Hc]%list_elem_of_filter)%list_elem_of_fmap (c' & Heq & [Hk' Hc']%list_elem_of_filter)%list_elem_of_fmap.
  apply list_elem_of_lookup in Hc as [i Hi], Hc' as [j Hj].
  assert (i = j) as ->; [|congruence].
  eapply (NoDup_lookup (bk_desc <$> A)); [done| |]; rewrite list_lookup_fmap; [rewrite Hi; reflexivity|].
  rewrite Hj. cbn. congruence.
Qed.
Lemma chain_not_free s A F k x : inv s A F -> x ∈ chain k A -> x ∉ F.
Proof.
  intros HI (c & -> & [_ Hc]%list_elem_of_filter)%list_elem_of_fmap. pose proof (inv_descs _ _ _ HI) as Hd.
  apply NoDup_app in Hd as (_ & Hd & _). apply Hd. by apply list_elem_of_fmap_2.
Qed.

(** a bucket leaves its chain, its page is free and its descriptor is the first of the free ones *)
Lemma inv_remove s s' A1 b A2 F : let d := bk_desc b in
  inv s (A1 ++ b :: A2) F ->
  mem_map (heap s') = <[bk_pg b := 0]> (mem_map (heap s)) -> HIGH_MEMORY (heap s') = HIGH_MEMORY (heap s) ->
  length (chains s') = 9%nat ->
  (forall k h, chains s' !! k = Some h -> linked (W s') 4 h (chain k (A1 ++ A2))) ->
  free_bucket_desc s' = d -> W s' (d + 4) = free_bucket_desc s ->
  (forall d', d' ∈ F -> W s' (d' + 4) = W s (d' + 4)) ->
  (forall x, (forall d', d' ∈ descs (A1 ++ b :: A2) F -> x <> d' + 4) -> W s' x = W s x) ->
  inv s' (A1 ++ A2) (d :: F).
Proof.
  intros d HI Hm Hh Hn Hch Hfr Hd4 HF Hw.
  assert (forall d', d' ∈ descs (A1 ++ A2) (d :: F) <-> d' ∈ descs (A1 ++ b :: A2) F) as Hds.
  { intros d'. unfold descs. rewrite !fmap_app, fmap_cons, !elem_of_app, !elem_of_cons. unfold d. tauto. }
  assert (forall b', b' ∈ A1 ++ A2 -> bk_pg b' <> bk_pg b) as Hpg by (intros b' Hb'; by apply (other_bucket _ _ _ _ _ HI)).
  split.
  - rewrite Hm, length_insert. apply HI.
  - intros i Hi. rewrite Hh. apply HI. rewrite Hm in Hi. destruct (decide (i = bk_pg b)) as [->|Hne].
    { right. apply list_elem_of_fmap_2, b_in. }
    rewrite list_lookup_insert_ne in Hi by done. destruct Hi as [Hi|Hi]; [by left|right].
    rewrite fmap_app, fmap_cons, elem_of_app, elem_of_cons. rewrite fmap_app, elem_of_app in Hi. tauto.
  - done.
  - exact Hch.
  - rewrite Hfr. split; [done|]. split.
    + destruct (inv_desc _ _ _ HI d) as (_ & Hl & _); [by apply desc_of, b_in|]. unfold LOW_MEM in Hl. lia.
    + rewrite Hd4. eapply linked_same; [|by apply HI]. exact HF.
  - apply Forall_forall. intros b' Hb'. destruct (other_bucket _ _ _ _ _ HI b' Hb') as (Hin & _ & _).
    pose proof (bucket_at _ _ _ HI b' Hin) as Hok. revert Hok. apply bucket_ok_ext.
    + intros k Hk Hk4. apply Hw. intros d' Hd' Heq. destruct (decide (d' = bk_desc b')) as [->|Hne]; [lia|].
      by apply (desc_apart _ _ _ HI d' (bk_desc b') 4 k Hd' (desc_of _ _ _ Hin) Hne).
    + intros o Ho. apply Hw. intros d' Hd' Heq. symmetry in Heq. revert Heq.
      apply (desc_object_apart _ _ _ HI d' b' o 4 Hd' Hin); [by apply (bucket_at _ _ _ HI b' Hin)|lia].
  - pose proof (inv_descs _ _ _ HI) as Hnd. unfold descs in *. rewrite fmap_app, fmap_cons in Hnd.
    rewrite fmap_app. rewrite <- Permutation_middle. rewrite <- app_assoc in Hnd. cbn in Hnd.
    rewrite <- Permutation_middle in Hnd. by rewrite app_assoc in Hnd.
  - pose proof (inv_pages _ _ _ HI) as Hnd. rewrite fmap_app, fmap_cons, <- Permutation_middle in Hnd.
    apply NoDup_cons in Hnd as [_ Hnd]. by rewrite fmap_app.
  - intros d' Hd'%Hds. destruct (inv_desc _ _ _ HI d' Hd') as (H1 & H2 & H3 & H4). rewrite fmap_app, fmap_cons in H4.
    split; [done|]. split; [done|]. split.
    + rewrite Hm, list_lookup_insert_ne; [done|]. intros Heq. apply H4. rewrite <- Heq.
      apply elem_of_app. right. by left.
    + intros Hin. apply H4. rewrite fmap_app, elem_of_app in Hin. rewrite elem_of_app, elem_of_cons. tauto.
  - intros b' Hb'. rewrite Hm, list_lookup_insert_ne by (intros Heq; by apply (Hpg b' Hb')).
    apply HI. apply elem_of_app in Hb' as [?|?]; apply elem_of_app; [by left|right; by right].
Qed.

Lemma find_prev_run s A1 b A2 F fuel h : let k := bk_kind b in
  let prev := default 0 (bk_desc <$> last (of_kind k A1)) in
  inv s (A1 ++ b :: A2) F -> chains s !! k = Some h ->
  find_prev fuel k prev (bk_desc b) s = Ret prev s /\ (prev = 0 <-> chain k A1 = []) /\ (prev = 0 -> h = bk_desc b) /\
  (prev <> 0 -> last (chain k A1) = Some prev).
Proof.
  intros k prev HI Hh. pose proof (inv_chains _ _ _ HI k h Hh) as Hl. unfold k in Hl. rewrite chain_split in Hl. fold k in Hl.
  assert (last (chain k A1) = bk_desc <$> last (of_kind k A1)) as Hlast by (unfold chain; apply fmap_last).
  apply linked_at in Hl as [_ Hl]. rewrite Hlast in Hl. unfold find_prev.
  change ((gets id ≫= ?g) s) with (g s s). cbv beta. rewrite (bind_Ret _ _ _ _ _ (deref_run _ _ s Hh)).
  unfold prev in *. destruct (last (of_kind k A1)) as [c|] eqn:E; cbn [fmap option_fmap option_map default id] in *.
  - destruct Hl as [Hn Hne]. unfold nz. rewrite (proj2 (Z.eqb_neq _ _) Hne). cbn [negb].
    split; [mstep (peek_run (bk_desc c + 4) s); by rewrite Hn, Z.eqb_refl|].
    split; [split; [done|]|split; [done|done]]. intros Hnil. rewrite Hnil in Hlast. done.
  - split; [cbn; rewrite Hl; unfold mbind, M_bind, mret, M_ret; by rewrite Z.eqb_refl|].
    split; [|done]. split; [|done]. intros _. by apply last_None in Hlast.
Qed.

(** *** A bucket taken out of its chain *)
Definition unlinked (k : nat) (prev next : Z) (s : malloc_st) : malloc_st :=
  if decide (prev = 0) then s <| chains ::= <[k := next]> |> else put (prev + 4) next s.
Lemma unlinked_W k prev next s x : W (unlinked k prev next s) x = if decide (prev <> 0 /\ x = prev + 4) then next else W s x.
Proof.
  unfold unlinked. destruct (decide (prev = 0)) as [Hz|Hz]; [by rewrite decide_False by tauto|]. rewrite W_put. repeat case_decide; tauto.
Qed.
Lemma unlinked_kept k prev next s : let s1 := unlinked k prev next s in mem_map (heap s1) = mem_map (heap s) /\
  HIGH_MEMORY (heap s1) = HIGH_MEMORY (heap s) /\ free_bucket_desc s1 = free_bucket_desc s /\ length (chains s1) = length (chains s).
Proof.
  unfold unlinked. cbv zeta. destruct (decide (prev = 0)); [|done]. split_and!; try done.
  change (length (<[k:=next]> (chains s)) = length (chains s)). apply length_insert.
Qed.
Lemma unlink_run k prev d next s h : chains s !! k = Some h -> (prev = 0 -> h = d) ->
  (if nz prev then poke (prev + 4) next
   else s ← gets id; head ← deref (chains s !! k);
     if negb (head =? d) then panic "malloc bucket chains corrupted"
     else modify (fun s => s <| chains ::= <[k := next]> |>)) s = Ret tt (unlinked k prev next s).
Proof.
  intros Hh Hhead. unfold unlinked, nz. destruct (Z.eqb_spec prev 0) as [Hz|Hz]; cbn [negb].
  - rewrite decide_True by done. change ((gets id ≫= ?g) s) with (g s s). cbv beta.
    rewrite (bind_Ret _ _ _ _ _ (deref_run _ _ s Hh)), (Hhead Hz), Z.eqb_refl. done.
  - by rewrite decide_False.
Qed.

Section Release.
Context (s s' : malloc_st) (A1 A2 : list bucket) (b : bucket) (F : list Z) (h : Z).
Abbreviation k := (bk_kind b).
Abbreviation d := (bk_desc b).
Abbreviation prev := (default 0 (bk_desc <$> last (of_kind (bk_kind b) A1))).
Abbreviation next := (W s (bk_desc b + 4)).
Abbreviation A := (A1 ++ b :: A2).
Hypothesis HI : inv s A F.
Hypothesis Hh : chains s !! k = Some h.

(** the descriptor before it in the chain *)
Lemma prev_desc : prev <> 0 -> prev ∈ descs A F /\ prev <> d /\ prev ∈ chain k A.
Proof.
  intros Hne. destruct (find_prev_run s A1 b A2 F 0 h HI Hh) as (_ & _ & _ & Hlast).
  apply Hlast in Hne. apply last_Some_elem_of in Hne. pose proof (chain_NoDup _ _ _ k HI) as Hnd. rewrite chain_split in Hnd.
  assert (prev ∈ chain k A) as Hin by (rewrite chain_split; apply elem_of_app; by left).
  split; [by apply (chain_desc _ _ k)|]. split; [|done].
  intros Heq. apply NoDup_app in Hnd as (_ & Hnd & _). apply (Hnd prev); [done|]. rewrite Heq. apply list_elem_of_here.
Qed.

(** the memory afterwards *)
Hypothesis Hw : forall x, W s' x = if decide (x = d + 4) then free_bucket_desc s else W (unlinked k prev next s) x.
Hypothesis Hch : chains s' = chains (unlinked k prev next s).

Lemma release_link d' : d' <> d -> d' <> prev -> W s' (d' + 4) = W s (d' + 4).
Proof. intros Hne Hnp. rewrite Hw, decide_False by lia. rewrite unlinked_W, decide_False; [done|]. lia. Qed.
Lemma release_own k' : k' = k -> forall h', chains s' !! k' = Some h' -> linked (W s') 4 h' (chain k' (A1 ++ A2)).
Proof.
  intros -> h' Hh'. destruct (find_prev_run s A1 b A2 F 0 h HI Hh) as (_ & Hnil & _ & Hlast).
  pose proof (linked_remove (W s) (W s') 4 d (chain k A2) (chain k A1) h) as Hrem.
  pose proof (chain_NoDup _ _ _ k HI) as Hnd. pose proof (inv_chains _ _ _ HI k h Hh) as Hl.
  rewrite chain_split in Hnd, Hl. rewrite chain_of_app. specialize (Hrem Hnd Hl).
  assert (h' = match chain k A1 with [] => next | _ => h end) as ->.
  { revert Hh'. rewrite Hch. unfold unlinked. destruct (decide (prev = 0)) as [Hz|Hz].
    - change (<[k:=next]> (chains s) !! k = Some h' -> h' = match chain k A1 with [] => next | _ => h end).
      rewrite list_lookup_insert_eq by (by apply lookup_lt_Some in Hh). rewrite (proj1 Hnil Hz). congruence.
    - change (chains s !! k = Some h' -> h' = match chain k A1 with [] => next | _ => h end). rewrite Hh.
      destruct (chain k A1); [tauto|congruence]. }
  apply Hrem. intros y Hy. assert (y <> d) as Hyd.
  { intros ->. rewrite <- Permutation_middle in Hnd. by apply NoDup_cons in Hnd as [? _]. }
  rewrite Hw, decide_False by lia. rewrite unlinked_W. case_bool_decide as Hc.
  - destruct (decide (prev = 0)) as [Hz|Hz]; [rewrite (proj1 Hnil Hz) in Hc; done|].
    rewrite (Hlast Hz) in Hc. injection Hc as ->. by rewrite decide_True.
  - rewrite decide_False; [done|]. intros [Hz Heq]. apply Hc. rewrite (Hlast Hz). f_equal. lia.
Qed.
Lemma release_others k' : k' <> k -> forall h', chains s' !! k' = Some h' -> linked (W s') 4 h' (chain k' (A1 ++ A2)).
Proof.
  intros Hkk h' Hh'. assert (chains s !! k' = Some h') as Hs.
  { revert Hh'. rewrite Hch. unfold unlinked. destruct (decide (prev = 0)); [|done].
    change (<[k:=next]> (chains s) !! k' = Some h' -> chains s !! k' = Some h'). by rewrite list_lookup_insert_ne. }
  pose proof (inv_chains _ _ _ HI k' h' Hs) as Hl.
  assert (chain k' A = chain k' (A1 ++ A2)) as <-.
  { rewrite !chain_of_app, chain_of_cons. by rewrite decide_False. }
  eapply linked_same; [|exact Hl]. intros d' Hd'.
  apply release_link; intros ->; apply Hkk; eapply (chain_disjoint s A F); eauto.
  - rewrite chain_split. apply elem_of_mid.
  - apply prev_desc. intros Hz. rewrite Hz in Hd'. apply (chain_desc A F) in Hd'.
    destruct (inv_desc _ _ _ HI 0 Hd') as (_ & Hlow & _). unfold LOW_MEM in Hlow. lia.
Qed.
Lemma release_free d' : d' ∈ F -> W s' (d' + 4) = W s (d' + 4).
Proof.
  intros Hd'. apply release_link; intros ->.
  - revert Hd'. eapply (chain_not_free s A F k); [done|]. rewrite chain_split. apply elem_of_mid.
  - destruct (decide (prev = 0)) as [Hz|Hz]; [|by apply (chain_not_free s A F k prev HI (proj2 (proj2 (prev_desc Hz))))].
    destruct (inv_desc _ _ _ HI prev) as (_ & Hlow & _); [apply elem_of_app; by right|].
    rewrite Hz in Hlow. unfold LOW_MEM in Hlow. lia.
Qed.
Lemma release_elsewhere x : (forall d', d' ∈ descs A F -> x <> d' + 4) -> W s' x = W s x.
Proof.
  intros Hx. rewrite Hw, decide_False, unlinked_W, decide_False; [done| |by apply Hx, desc_of, b_in].
  intros [Hne Heq]. destruct (prev_desc Hne) as [Hin _]. by apply (Hx prev).
Qed.
End Release.

Lemma release_bucket_run s A1 b A2 F fuel : let k := bk_kind b in
  let prev := default 0 (bk_desc <$> last (of_kind k A1)) in
  inv s (A1 ++ b :: A2) F ->
  exists s', release_bucket fuel k prev (bk_desc b) s = Ret tt s' /\ inv s' (A1 ++ A2) (bk_desc b :: F) /\
    mem_map (heap s') = <[bk_pg b := 0]> (mem_map (heap s)) /\
    forall x, (forall d, d ∈ descs (A1 ++ b :: A2) F -> x <> d + 4) -> W s' x = W s x.
Proof.
  intros k prev HI. set (d := bk_desc b).
  pose proof (bucket_at _ _ _ HI b (b_in _ _ _)) as Hb. pose proof (ok_kind _ _ Hb) as Hk. fold k in Hk.
  destruct (lookup_lt_is_Some_2 (chains s) k) as [h Hh]; [rewrite (inv_nchains _ _ _ HI); lia|].
  destruct (find_prev_run s A1 b A2 F fuel h HI Hh) as (Hprev & _ & Hhead & _). fold k prev d in Hprev, Hhead.
  set (s1 := unlinked k prev (W s (d + 4)) s). destruct (unlinked_kept k prev (W s (d + 4)) s) as (Hm1 & Hhi1 & Hf1 & Hl1). fold s1 in Hm1, Hhi1, Hf1, Hl1.
  assert (W s1 d = page_at (bk_pg b)) as Hp1.
  { unfold s1. rewrite unlinked_W, decide_False; [exact (ok_page _ _ Hb)|]. intros [Hne Heq].
    destruct (prev_desc s A1 A2 b F h HI Hh Hne) as (Hin & Hpne & _).
    apply (desc_apart _ _ _ HI d prev 0 4 (desc_of _ _ _ (b_in _ _ _)) Hin); [intros Hdp; apply Hpne; symmetry; exact Hdp|lia|lia|lia]. }
  pose proof (inv_page _ _ _ HI b (b_in _ _ _)) as Hone.
  set (s2 := s1 <| heap ::= fun m => m <| mem_map ::= <[bk_pg b := 0]> |> |>).
  assert (zoom_heap (free_page (page_at (bk_pg b))) s1 = Ret tt s2) as Hfree.
  { unfold zoom_heap, zoom. unfold page_at. rewrite (free_page_nr _ _ 1); [done|by rewrite Hm1|lia| |].
    - apply lookup_lt_Some in Hone. by rewrite (inv_len _ _ _ HI) in Hone.
    - rewrite Hhi1. apply HI. right. apply list_elem_of_fmap_2, b_in. }
  set (s3 := (put (d + 4) (free_bucket_desc s) s2) <| free_bucket_desc := d |>).
  assert (forall x, W s3 x = if decide (x = d + 4) then free_bucket_desc s else W s1 x) as H3.
  { intros x. change (W s3 x) with (W (put (d + 4) (free_bucket_desc s) s2) x). by rewrite W_put. }
  assert (mem_map (heap s3) = <[bk_pg b := 0]> (mem_map (heap s))) as Hm3 by (rewrite <- Hm1; done).
  pose proof (release_elsewhere s s3 A1 A2 b F h HI Hh H3) as Helse.
  exists s3. split; [|split; [|done]].
  - unfold release_bucket. mstep Hprev. mstep (peek_run (d + 4) s). mstep (unlink_run k prev d (W s (d + 4)) s h Hh Hhead).
    fold s1. mstep (peek_run d s1). rewrite Hp1. mstep Hfree.
    change ((gets id ≫= ?g) s2) with (g s2 s2). cbv beta. change (free_bucket_desc s2) with (free_bucket_desc s1). rewrite Hf1.
    by mstep (poke_run (d + 4) (free_bucket_desc s) s2).
  - apply (inv_remove s s3 A1 b A2 F HI); [done|by rewrite <- Hhi1| | |done| | |exact Helse].
    + change (length (chains s1) = 9%nat). rewrite Hl1. by apply HI.
    + intros k' h' Hh'. destruct (decide (k' = k)) as [Hkk|Hkk].
      * by apply (release_own s s3 A1 A2 b F h HI Hh H3 eq_refl k' Hkk).
      * by apply (release_others s s3 A1 A2 b F h HI Hh H3 eq_refl k' Hkk).
    + rewrite H3. by rewrite decide_True.
    + apply (release_free s s3 A1 A2 b F h HI Hh H3).
Qed.

(** ** What is allocated, and what must not change *)

(** the object at [o] of size [sz] is in use *)
Definition live (A : list bucket) (o sz : Z) : Prop :=
  exists b, b ∈ A /\ bk_size b = sz /\ o ∈ objects b /\ o ∉ bk_free b.
(** every bucket has an object in use *)
Definition busy (A : list bucket) : Prop := Forall (fun b => 0 < in_use b) A.

(** a word that is in no free page and in no descriptor *)
Definition stable (s : malloc_st) (A : list bucket) (F : list Z) (x : Z) : Prop :=
  LOW_MEM <= x /\ mem_map (heap s) !! pgof x <> Some 0 /\ forall d, d ∈ descs A F -> x < d \/ d + 16 <= x.
(** the words of objects in use, and of pages that the allocator has not got *)
Definition protected (s : malloc_st) (A : list bucket) (F : list Z) (x : Z) : Prop :=
  (exists o sz, live A o sz /\ o <= x < o + sz) \/
  (exists c, LOW_MEM <= x /\ mem_map (heap s) !! pgof x = Some c /\ c <> 0 /\
    pgof x ∉ bk_pg <$> A /\ pgof x ∉ pgof <$> descs A F).

Lemma block_pgof s A F d x : inv s A F -> d ∈ descs A F -> d <= x < d + 16 -> pgof x = pgof d.
Proof.
  intros HI Hd Hx. replace x with (d + (x - d)) by lia. apply (desc_pgof _ _ _ HI); [done|lia].
Qed.
Lemma object_pgof s A F b o x : inv s A F -> b ∈ A -> o ∈ objects b -> o <= x < o + bk_size b -> LOW_MEM <= x /\ pgof x = bk_pg b.
Proof.
  intros HI Hb Ho Hx. destruct (object_facts _ _ _ (bucket_at _ _ _ HI b Hb) Ho) as (H1 & H2 & H3 & _).
  split; [lia|]. apply pgof_in. unfold bk_page in *. lia.
Qed.
Lemma protected_stable s A F x : inv s A F -> protected s A F x -> stable s A F x.
Proof.
  intros HI [(o & sz & (b & Hb & <- & Ho & _) & Hx)|(c & Hl & Hm & Hc & Hp & Hd)].
  - destruct (object_pgof _ _ _ _ _ _ HI Hb Ho Hx) as [Hl Hp]. split; [done|]. rewrite Hp. split.
    + rewrite (inv_page _ _ _ HI b Hb). done.
    + intros d Hd. destruct (decide (d <= x < d + 16)) as [Hr|]; [|lia]. exfalso.
      destruct (inv_desc _ _ _ HI d Hd) as (_ & _ & _ & Hn). apply Hn.
      rewrite <- (block_pgof _ _ _ _ _ HI Hd Hr), Hp. by apply list_elem_of_fmap_2.
  - split; [done|]. rewrite Hm. split; [congruence|]. intros d Hd'.
    destruct (decide (d <= x < d + 16)) as [Hr|]; [|lia]. exfalso. apply Hd.
    rewrite (block_pgof _ _ _ _ _ HI Hd' Hr). by apply list_elem_of_fmap_2.
Qed.

Lemma page_bucket s A F b1 b2 : inv s A F -> b1 ∈ A -> b2 ∈ A -> bk_pg b1 = bk_pg b2 -> b1 = b2.
Proof.
  intros HI [i Hi]%list_elem_of_lookup [j Hj]%list_elem_of_lookup Heq. assert (i = j) as ->; [|congruence].
  eapply (NoDup_lookup (bk_pg <$> A)); [apply HI| |]; rewrite list_lookup_fmap; [rewrite Hi; reflexivity|].
  rewrite Hj. cbn. congruence.
Qed.

(** objects in use do not overlap *)
Lemma live_apart s A F o1 sz1 o2 sz2 : inv s A F -> live A o1 sz1 -> live A o2 sz2 -> o1 <> o2 -> o1 + sz1 <= o2 \/ o2 + sz2 <= o1.
Proof.
  intros HI (b1 & Hb1 & <- & Ho1 & _) (b2 & Hb2 & <- & Ho2 & _) Hne.
  pose proof (bucket_at _ _ _ HI b1 Hb1) as Hok1. pose proof (bucket_at _ _ _ HI b2 Hb2) as Hok2.
  destruct (bk_size_facts _ _ Hok1) as (Hs1 & _), (bk_size_facts _ _ Hok2) as (Hs2 & _).
  destruct (decide (bk_pg b1 = bk_pg b2)) as [Heq|Hp].
  - pose proof (page_bucket _ _ _ _ _ HI Hb1 Hb2 Heq) as ->.
    apply slots_elem in Ho1 as (j1 & _ & ->). apply slots_elem in Ho2 as (j2 & _ & ->).
    destruct (decide (j1 < j2)%nat); [left; nia|right]. assert (j1 <> j2) by congruence. nia.
  - destruct (object_facts _ _ _ Hok1 Ho1) as (P1 & Q1 & _), (object_facts _ _ _ Hok2 Ho2) as (P2 & Q2 & _).
    unfold bk_page, page_at in *. lia.
Qed.

Lemma find_bucket_least len : s32 len <= 4096 -> exists k, find_bucket len = Some k /\ (k < 9)%nat /\
  s32 len <= default 0 (bucket_sizes !! k) /\ forall z, z ∈ bucket_sizes -> s32 len <= z -> default 0 (bucket_sizes !! k) <= z.
Proof.
  intros Hl. unfold find_bucket. set (n := s32 len) in *.
  assert (exists k, (k < 9)%nat /\ n <= default 0 (bucket_sizes !! k) /\ forall j, (j < k)%nat -> default 0 (bucket_sizes !! j) < n) as (k & Hk & Hn & Hj).
  { destruct (decide (n <= 16)); [exists 0%nat; cbn; split_and!; [lia..|intros; lia]|].
    destruct (decide (n <= 32)); [exists 1%nat|destruct (decide (n <= 64)); [exists 2%nat|destruct (decide (n <= 128)); [exists 3%nat|
    destruct (decide (n <= 256)); [exists 4%nat|destruct (decide (n <= 512)); [exists 5%nat|destruct (decide (n <= 1024)); [exists 6%nat|
    destruct (decide (n <= 2048)); [exists 7%nat|exists 8%nat]]]]]]];
    (split; [lia|]; split; [cbn; lia|]; intros j Hj; do 8 (destruct j as [|j]; [cbn; lia|]); lia). }
  exists k. split_and!; [|done..|].
  - assert (list_find (fun size => n <= size) bucket_sizes = Some (k, default 0 (bucket_sizes !! k))) as ->; [|done].
    apply list_find_Some. split; [by apply sizes_at|]. split; [done|].
    intros j y Hy Hlt. specialize (Hj j Hlt). rewrite Hy in Hj. cbn in Hj. lia.
  - intros z [i Hi]%list_elem_of_lookup Hz. destruct (decide (i < k)%nat) as [Hlt|Hge].
    + specialize (Hj i Hlt). rewrite Hi in Hj. cbn in Hj. lia.
    + assert (i < 9)%nat as Hi9 by (by apply lookup_lt_Some in Hi). clear Hn Hj Hz Hl.
      revert Hi. do 9 (destruct k as [|k]; [do 9 (destruct i as [|i]; [cbn; intros [= <-]; lia|]); lia|]). lia.
Qed.

(** ** A bucket that has a free object *)

(** what changes while one is looked for: [x] keeps its value and stays stable *)
Definition carries (s : malloc_st) (A : list bucket) (F : list Z) (s' : malloc_st) (A' : list bucket) (F' : list Z) : Prop :=
  forall x, stable s A F x -> W s' x = W s x /\ stable s' A' F' x.

Lemma init_carries s s' A i F' : got_page i s s' -> same_elsewhere i s s' -> (forall d, d ∈ F' -> LOW_MEM <= d /\ d mod 16 = 0 /\ pgof d = i) -> carries s A [] s' A F'.
Proof.
  intros HG HW HF x (Hl & Hm & Hd).
  assert (pgof x <> i) as Hp by (intros Heq; apply Hm; rewrite Heq; apply HG).
  split; [by apply HW|]. split; [done|]. split.
  - rewrite (got_map _ _ _ HG), list_lookup_insert_ne by done. done.
  - intros d [Hd'|Hd']%elem_of_app; [apply Hd, elem_of_app; by left|].
    destruct (HF d Hd') as (H1 & H2 & H3). destruct (decide (d <= x < d + 16)) as [Hr|]; [|lia].
    exfalso. apply Hp. rewrite <- H3. replace x with (d + (x - d)) by lia. apply pgof_block; [done..|lia].
Qed.

Lemma new_bucket_run s A F k h : let sz := default 0 (bucket_sizes !! k) in
  inv s A F -> (k < 9)%nat -> chains s !! k = Some h ->
  (exists e s', new_bucket k sz s = Panic e s' /\ no_page s') \/
  exists s' b F', new_bucket k sz s = Ret (bk_desc b) s' /\ inv s' (b :: A) F' /\ bk_kind b = k /\
    bk_free b = objects b /\ carries s A F s' (b :: A) F'.
Proof.
  intros sz HI Hk Hh.
  assert (forall s1 F1, inv s1 A F1 -> F1 <> [] -> chains s1 !! k = Some h -> carries s A F s1 A F1 ->
    (exists e s', fill_bucket k sz s1 = Panic e s' /\ no_page s') \/
    exists s' b F', fill_bucket k sz s1 = Ret (bk_desc b) s' /\ inv s' (b :: A) F' /\ bk_kind b = k /\
      bk_free b = objects b /\ carries s A F s' (b :: A) F') as Hfill.
  { intros s1 [|d F1] HI1 Hne Hh1 Hc1; [done|].
    destruct (fill_bucket_run s1 A F1 d k h HI1 Hk Hh1) as [Hp|(i & s2 & Hrun & Hi & Hm & Hhi & Hch & Hfr & W0 & W4 & W8 & W12 & Hl & Hw)];
      [by left|right]. fold sz in Hrun, W12, Hl.
    set (b := mk_bucket k d i (slots (page_at i) sz (count sz))).
    exists s2, b, F1. split; [done|].
    assert (d ∈ descs A (d :: F1)) as Hdin by (apply elem_of_app; right; apply list_elem_of_here).
    destruct (inv_desc _ _ _ HI1 d Hdin) as (Hal & Hlow & Hmd & _).
    assert (bucket_ok (W s2) b) as Hok.
    { destruct (size_facts k Hk) as (Hs & Hcnt & _). fold sz in Hs, Hcnt.
      split; cbn [bk_kind bk_desc bk_pg bk_free b]; [done|exact W0| | | |].
      - by rewrite W8.
      - apply slots_NoDup. lia.
      - done.
      - rewrite W12. unfold in_use, bk_size. cbn [bk_kind bk_free b]. fold sz. rewrite length_slots. lia. }
    assert (got_page i s1 s2) as HG by done.
    split; [|split; [done|split; [done|]]].
    - eapply (inv_add s1 s2 A F1 d k i h); done.
    - intros x Hx. destruct (Hc1 x Hx) as [Hx1 (Hl1 & Hm1 & Hd1)].
      assert (pgof x <> i) as Hp by (intros Heq; apply Hm1; by rewrite Heq).
      rewrite (Hw x Hl1 Hp (Hd1 d Hdin)). split; [done|]. split; [done|]. split.
      + rewrite Hm, list_lookup_insert_ne by done. done.
      + intros d' Hd'. apply Hd1. revert Hd'. unfold descs. cbn. rewrite elem_of_cons, !elem_of_app, elem_of_cons. tauto. }
  unfold new_bucket. change ((gets id ≫= ?g) s) with (g s s). cbv beta.
  pose proof (linked_nil _ _ _ _ (inv_free _ _ _ HI)) as Hnil.
  destruct (Z.eqb_spec (free_bucket_desc s) 0) as [Hz|Hz]; cbn [when].
  - pose proof (proj1 Hnil Hz) as ->. destruct (init_bucket_desc_run s A HI) as [(e & s1 & Hrun & Hno)|(i & s1 & Hrun & HG & HW & Hch & HI1)].
    { left. exists e, s1. split; [|done]. by apply bind_Panic. }
    rewrite (bind_Ret _ _ _ _ _ Hrun). apply (Hfill s1 _ HI1); [done|congruence|].
    apply (init_carries s s1 A i); [done..|]. intros d Hd. pose proof (page_at_pos i).
    apply slots_elem in Hd as (j & Hj & ->). split; [lia|].
    split; [unfold page_at, LOW_MEM; Z.to_euclidean_division_equations; lia|apply pgof_in; lia].
  - apply (Hfill s F HI); [tauto|done|]. intros x Hx. done.
Qed.

(** the bucket [malloc] takes an object from: one of the chain, or a new one *)
Lemma bucket_with_space s A F k h fuel : let sz := default 0 (bucket_sizes !! k) in
  inv s A F -> (k < 9)%nat -> chains s !! k = Some h -> (length A < fuel)%nat ->
  (exists e s', (bdesc ← find_space fuel h; if bdesc =? 0 then new_bucket k sz else mret bdesc) s = Panic e s' /\ no_page s') \/
  exists s' A1 b A2 F' o fr, (bdesc ← find_space fuel h; if bdesc =? 0 then new_bucket k sz else mret bdesc) s = Ret (bk_desc b) s' /\
    inv s' (A1 ++ b :: A2) F' /\ bk_kind b = k /\ bk_free b = o :: fr /\
    (A1 ++ b :: A2 = A \/ A1 = [] /\ A2 = A /\ bk_free b = objects b) /\
    carries s A F s' (A1 ++ b :: A2) F'.
Proof.
  intros sz HI Hk Hh Hf.
  destruct (find_space_run s (of_kind k A) fuel h) as [(l1 & b & l2 & Hl & Hfree & Hrun)|Hrun];
    [exact (inv_chains _ _ _ HI k h Hh)|by eapply of_kind_ok|pose proof (of_kind_length k A); lia| |].
  - right. assert (b ∈ of_kind k A) as [Hkind Hb]%list_elem_of_filter by (rewrite Hl; apply elem_of_mid).
    apply list_elem_of_split in Hb as (A1 & A2 & ->).
    destruct (bk_free b) as [|o fr] eqn:E; [done|]. exists s, A1, b, A2, F, o, fr.
    split; [|split; [done|split; [done|split; [done|split; [by left|]]]]]; [|intros x Hx; done].
    rewrite (bind_Ret _ _ _ _ _ Hrun), (proj2 (Z.eqb_neq _ _)); [done|].
    destruct (inv_desc _ _ _ HI (bk_desc b)) as (_ & Hlow & _); [apply desc_of, b_in|]. unfold LOW_MEM in Hlow. lia.
  - rewrite (bind_Ret _ _ _ _ _ Hrun). cbn [Z.eqb].
    destruct (new_bucket_run s A F k h HI Hk Hh) as [Hp|(s' & b & F' & Hrun' & HI' & Hkind & Hfree & Hc)]; [by left|right].
    pose proof (bk_size_facts _ _ (bucket_at _ _ _ HI' b (list_elem_of_here _ _))) as (_ & Hcnt & _).
    destruct (bk_free b) as [|o fr] eqn:E.
    { exfalso. assert (length (objects b) = 0)%nat as H0 by (by rewrite <- Hfree). unfold objects in H0.
      rewrite length_slots in H0. rewrite H0 in Hcnt. lia. }
    exists s', [], b, A, F', o, fr. split_and!; [done..| |done]. right. by rewrite E.
Qed.

(** ** The objects in use, before and after *)

Lemma live_middle A1 b A2 o sz : live (A1 ++ b :: A2) o sz <->
  live (A1 ++ A2) o sz \/ bk_size b = sz /\ o ∈ objects b /\ o ∉ bk_free b.
Proof.
  unfold live. setoid_rewrite elem_of_app. setoid_rewrite elem_of_cons. split.
  - intros (c & [Hc|[->|Hc]] & H); [left|right; tauto|left]; exists c; tauto.
  - intros [(c & Hc & H)|H]; [exists c; tauto|exists b; tauto].
Qed.
Lemma live_take A1 b A2 o fr o' sz' : bk_free b = o :: fr -> NoDup (bk_free b) -> o ∈ objects b ->
  live (A1 ++ with_free b fr :: A2) o' sz' <-> live (A1 ++ b :: A2) o' sz' \/ o' = o /\ sz' = bk_size b.
Proof.
  intros E Hnd Ho. rewrite !live_middle, E. change (bk_size (with_free b fr)) with (bk_size b).
  change (objects (with_free b fr)) with (objects b). cbn [bk_free with_free].
  rewrite E in Hnd. apply NoDup_cons in Hnd as [Hn _]. rewrite not_elem_of_cons. split.
  - intros [?|(H1 & H2 & H3)]; [tauto|]. destruct (decide (o' = o)); [right; naive_solver|naive_solver].
  - intros [[?|?]|[-> ->]]; tauto.
Qed.
Lemma live_put A1 b A2 o o' sz' : 
  live (A1 ++ with_free b (o :: bk_free b) :: A2) o' sz' <->
  live (A1 ++ A2) o' sz' \/ bk_size b = sz' /\ o' ∈ objects b /\ o' ∉ bk_free b /\ o' <> o.
Proof.
  rewrite live_middle. change (bk_size (with_free b (o :: bk_free b))) with (bk_size b).
  change (objects (with_free b (o :: bk_free b))) with (objects b). cbn [bk_free with_free].
  rewrite not_elem_of_cons. tauto.
Qed.
Lemma live_new b A o sz : bk_free b = objects b -> live (b :: A) o sz <-> live A o sz.
Proof. intros E. rewrite (live_middle [] b A), E. cbn [app]. tauto. Qed.
(** the last object of a bucket is in use, or none is *)
Lemma none_in_use w b o : bucket_ok w b -> in_use b = 0 -> o ∈ objects b -> o ∈ bk_free b.
Proof.
  intros Hb Hu Ho. assert (objects b ⊆+ bk_free b) as Hsub; [|by eapply elem_of_submseteq].
  assert (bk_free b ≡ₚ objects b) as Hp.
  { apply submseteq_length_Permutation; [apply NoDup_submseteq; [apply Hb|intros x Hx; by apply (ok_slots _ _ Hb)]|].
    unfold objects. rewrite length_slots. unfold in_use in Hu. lia. }
  by rewrite Hp.
Qed.

Lemma malloc_run s A F fuel len : inv s A F -> busy A -> (length A < fuel)%nat -> s32 len <= 4096 ->
  (exists e s', malloc fuel len s = Panic e s' /\ no_page s') \/
  exists o sz s' A' F', malloc fuel len s = Ret o s' /\ inv s' A' F' /\ busy A' /\ (length A' <= S (length A))%nat /\
    s32 len <= sz /\ (forall z, z ∈ bucket_sizes -> s32 len <= z -> sz <= z) /\
    LOW_MEM <= o /\ o mod 16 = 0 /\
    (forall o' sz', live A' o' sz' <-> live A o' sz' \/ o' = o /\ sz' = sz) /\
    (forall o' sz', live A o' sz' -> o' + sz' <= o \/ o + sz <= o') /\
    (forall x, protected s A F x -> W s' x = W s x).
Proof.
  intros HI Hbusy Hf Hlen. destruct (find_bucket_least len Hlen) as (k & Hfind & Hk & Hle & Hleast).
  unfold malloc. rewrite Hfind. set (sz := default 0 (bucket_sizes !! k)) in *.
  destruct (lookup_lt_is_Some_2 (chains s) k) as [h Hh]; [rewrite (inv_nchains _ _ _ HI); lia|].
  rewrite (bind_Ret _ _ _ _ _ (deref_run _ _ s (sizes_at k Hk))). change ((gets id ≫= ?g) s) with (g s s). cbv beta.
  rewrite (bind_Ret _ _ _ _ _ (deref_run _ _ s Hh)). fold sz. rewrite bind_assoc.
  destruct (bucket_with_space s A F k h fuel HI Hk Hh Hf)
    as [(e & s' & Hrun & Hno)|(s1 & A1 & b & A2 & F' & o & fr & Hrun & HI1 & Hkind & Hfree & HA & Hc)].
  { left. exists e, s'. split; [|done]. by rewrite (bind_Panic _ _ _ _ _ Hrun). }
  right. pose proof (bucket_at _ _ _ HI1 b (b_in _ _ _)) as Hok.
  assert (o ∈ objects b) as Ho by (apply (ok_slots _ _ Hok); rewrite Hfree; apply list_elem_of_here).
  destruct (object_facts _ _ _ Hok Ho) as (_ & _ & Hlow & Hal & _).
  assert (bk_size b = sz) as Hsz by (unfold bk_size; by rewrite Hkind).
  destruct (take_object_run s1 A1 A2 b F' o fr HI1 Hfree) as (s2 & Hrun2 & HI2 & Hkept & Hw).
  assert (forall o' sz', live (A1 ++ b :: A2) o' sz' <-> live A o' sz') as HlA.
  { intros o' sz'. destruct HA as [<-|(-> & -> & E)]; [done|]. by apply live_new. }
  assert (forall o' sz', live (A1 ++ with_free b fr :: A2) o' sz' <-> live A o' sz' \/ o' = o /\ sz' = sz) as Hlive.
  { intros o' sz'. rewrite (live_take _ _ _ o), HlA, Hsz; [done|done|apply Hok|done]. }
  exists o, sz, s2, (A1 ++ with_free b fr :: A2), F'. split_and!; [|done| | |done|done|done|done|done| |].
  - by rewrite (bind_Ret _ _ _ _ _ Hrun).
  - pose proof (in_use_range _ _ Hok) as Hu. assert (0 < in_use (with_free b fr)) as Hpos.
    { unfold in_use in *. change (bk_size (with_free b fr)) with (bk_size b). cbn [bk_free with_free]. rewrite Hfree in Hu. cbn [length] in Hu. lia. }
    unfold busy in *. destruct HA as [<-|(-> & -> & _)]; [|by constructor].
    apply Forall_app in Hbusy as [? [? ?]%Forall_cons]. apply Forall_app. by split; [|constructor].
  - destruct HA as [<-|(-> & -> & _)]; [rewrite !length_app; cbn [length]; lia|done].
  - intros o' sz' Hl. assert (o' <> o) as Hne.
    { intros ->. apply HlA in Hl as (c & Hc' & _ & Hoc & Hnf).
      assert (c = b) as ->; [|apply Hnf; rewrite Hfree; apply list_elem_of_here].
      apply (page_bucket _ _ _ _ _ HI1 Hc' (b_in _ _ _)).
      destruct (object_facts _ _ _ (bucket_at _ _ _ HI1 c Hc') Hoc) as (_ & _ & _ & _ & <-).
      by destruct (object_facts _ _ _ Hok Ho) as (_ & _ & _ & _ & <-). }
    apply (live_apart s2 _ F' o' sz' o sz HI2); [apply Hlive; by left|apply Hlive; by right|done].
  - intros x Hx%(protected_stable _ _ _ _ HI). destruct (Hc x Hx) as [<- (_ & _ & Hd)].
    apply Hw, Hd, desc_of, b_in.
Qed.

(** the size is in the table, also for a length that is negative as an [int] *)
Lemma live_size s A F o sz : inv s A F -> live A o sz -> sz ∈ bucket_sizes.
Proof.
  intros HI (b & Hb & <- & _). destruct (lookup_lt_is_Some_2 bucket_sizes (bk_kind b)) as [z Hz].
  - exact (ok_kind _ _ (bucket_at _ _ _ HI b Hb)).
  - unfold bk_size. rewrite Hz. by apply list_elem_of_lookup_2 in Hz.
Qed.
Lemma find_bucket_none len : 4096 < s32 len -> find_bucket len = None.
Proof.
  intros H. unfold find_bucket. rewrite (proj2 (list_find_None _ _)); [done|].
  unfold bucket_sizes. repeat (constructor; [lia|]). constructor.
Qed.
Lemma smallest_size n sz : n <= 16 -> sz ∈ bucket_sizes -> (forall z, z ∈ bucket_sizes -> n <= z -> sz <= z) -> sz = 16.
Proof.
  intros Hn Hsz H. specialize (H 16 ltac:(by left) Hn). unfold bucket_sizes in Hsz. rewrite !elem_of_cons, elem_of_nil in Hsz. lia.
Qed.

(** C24: the length is read as an [int].  For one of at most a page [malloc]
    returns, as long as there are pages, an object that is large
    enough, of the smallest size there is for it, aligned to 16 bytes and apart
    from every object in use; only this object is in use in addition; the
    contents of all objects in use and of all pages that are not the
    allocator's stay as they are, and the lists in memory stay well formed.
    For such a length it panics only when there is no free page left.  For one
    of more than a page it always panics, after a message, with nothing else changed; from 2 GB on the
    [int] is negative, and the object has 16 bytes. *)
Theorem malloc_correct s A F fuel len : inv s A F -> busy A -> (length A < fuel)%nat ->
  if 4096 <? s32 len then malloc fuel len s = Panic "malloc: bad arg" (s <| said ::= cons len |>) else
  (exists e s', malloc fuel len s = Panic e s' /\ no_page s') \/
  exists o sz s' A' F', malloc fuel len s = Ret o s' /\ inv s' A' F' /\ busy A' /\ (length A' <= S (length A))%nat /\
    sz ∈ bucket_sizes /\ s32 len <= sz /\ (forall z, z ∈ bucket_sizes -> s32 len <= z -> sz <= z) /\
    (2 ^ 31 <= len < 2 ^ 32 -> sz = 16) /\ LOW_MEM <= o /\ o mod 16 = 0 /\
    (forall o' sz', live A' o' sz' <-> live A o' sz' \/ o' = o /\ sz' = sz) /\
    (forall o' sz', live A o' sz' -> o' + sz' <= o \/ o + sz <= o') /\
    (forall x, protected s A F x -> W s' x = W s x).
Proof.
  intros HI Hbusy Hf. destruct (Z.ltb_spec 4096 (s32 len)) as [Hlen|Hlen].
  { unfold malloc. by rewrite (find_bucket_none len Hlen). }
  destruct (malloc_run s A F fuel len HI Hbusy Hf Hlen) as [?|(o & sz & s' & A' & F' & H1 & H2 & H3 & H4 & H5 & H6 & H7 & H8 & H9 & H10)]; [by left|].
  right. exists o, sz, s', A', F'. assert (sz ∈ bucket_sizes) as Hsz by (apply (live_size s' A' F' o sz H2), H9; by right).
  split_and!; try done; [|apply H10..]. intros Hneg. apply (smallest_size (s32 len)); [|done..].
  unfold s32. Z.to_euclidean_division_equations; lia.
Qed.

Lemma some_in_use w b : bucket_ok w b -> in_use b <> 0 -> exists o, o ∈ objects b /\ o ∉ bk_free b.
Proof.
  intros Hok Hu. destruct (decide (Forall (fun x => x ∈ bk_free b) (objects b))) as [Hall|Hnot].
  - exfalso. rewrite Forall_forall in Hall. pose proof (in_use_range _ _ Hok).
    assert (length (objects b) <= length (bk_free b))%nat as Hlen.
    { apply submseteq_length, NoDup_submseteq; [|exact Hall]. destruct (bk_size_facts _ _ Hok) as (? & _). apply slots_NoDup. lia. }
    unfold objects in Hlen. rewrite length_slots in Hlen. unfold in_use in *. lia.
  - apply not_Forall_Exists in Hnot; [|intros ?; apply _]. apply Exists_exists in Hnot as (x & Hx & Hnx). eauto.
Qed.
Lemma live_given_back s A1 A2 b F o o' sz' : inv s (A1 ++ b :: A2) F -> o ∈ objects b ->
  live (A1 ++ b :: A2) o' sz' /\ o' <> o <-> live (A1 ++ with_free b (o :: bk_free b) :: A2) o' sz'.
Proof.
  intros HI Ho. rewrite live_put, live_middle. split; [tauto|].
  intros [Hl|?]; [|tauto]. split; [tauto|]. intros ->. destruct Hl as (c & Hc & _ & Hoc & _).
  destruct (other_bucket _ _ _ _ _ HI c Hc) as (Hcin & _ & Hn). apply Hn.
  destruct (object_facts _ _ _ (bucket_at _ _ _ HI b (b_in _ _ _)) Ho) as (_ & _ & _ & _ & <-).
  by destruct (object_facts _ _ _ (bucket_at _ _ _ HI c Hcin) Hoc) as (_ & _ & _ & _ & <-).
Qed.

Lemma object_page w b o i : bucket_ok w b -> o ∈ objects b -> (bk_pg b < i)%nat -> Z.of_nat i <= 2 ^ 19 -> Z.land o 0xfffff000 = bk_page b.
Proof.
  intros Hb Ho Hi Hi'. destruct (object_facts _ _ _ Hb Ho) as (H1 & H2 & H3 & _).
  destruct (bk_size_facts _ _ Hb) as (Hs & _). unfold bk_page, page_at, LOW_MEM in *.
  assert (Z.of_nat (bk_pg b) < 2 ^ 19) by lia.
  rewrite Z.land_comm. change (frame o = 0x100000 + 4096 * Z.of_nat (bk_pg b)). rewrite frame_spec by lia.
  Z.to_euclidean_division_equations; lia.
Qed.

(** C25: [free_s], with the size of the object, a smaller one or 0, gives back
    exactly the object it is told: all other objects stay in use, nothing but
    the first word of the object given back changes in them and in the pages
    that are not the allocator's, and the lists stay well formed.  The page of
    the object is free again when no object on it is in use any more, and the
    page counts are as before otherwise. *)
Theorem free_s_correct s A F fuel o sz size : inv s A F -> busy A -> (length A < fuel)%nat ->
  live A o sz -> size <= sz ->
  exists s' A' F', free_s fuel o size s = Ret tt s' /\ inv s' A' F' /\ busy A' /\ (length A' <= length A)%nat /\
    (forall o' sz', live A' o' sz' <-> live A o' sz' /\ o' <> o) /\
    (forall x, protected s A F x -> x <> o -> W s' x = W s x) /\
    ((exists o' sz', live A' o' sz' /\ pgof o' = pgof o) /\ mem_map (heap s') = mem_map (heap s) \/
     (forall o' sz', live A' o' sz' -> pgof o' <> pgof o) /\ mem_map (heap s') = <[pgof o := 0]> (mem_map (heap s))).
Proof.
  intros HI Hbusy Hf (b & Hb & <- & Ho & Hnf) Hsz.
  apply list_elem_of_split in Hb as (A1 & A2 & ->). pose proof (bucket_at _ _ _ HI b (b_in _ _ _)) as Hok.
  assert (Z.land o 0xfffff000 = bk_page b) as Hpage.
  { apply (object_page (W s) b o PAGING_PAGES Hok Ho); [|vm_compute; discriminate].
    rewrite <- (inv_len _ _ _ HI). eapply lookup_lt_Some, HI, b_in. }
  destruct (object_facts _ _ _ Hok Ho) as (_ & _ & _ & _ & Hpg).
  set (b' := with_free b (o :: bk_free b)).
  destruct (put_object_run s A1 A2 b F o HI Ho Hnf) as (s1 & Hrun1 & HI1 & Hk1 & Hw1). fold b' in Hrun1, HI1.
  assert (free_s fuel o size s = (if negb (in_use b' =? 0) then mret tt
    else release_bucket fuel (bk_kind b) (default 0 (bk_desc <$> last (of_kind (bk_kind b) A1))) (bk_desc b)) s1) as Hstart.
  { unfold free_s. rewrite Hpage. rewrite (bind_Ret _ _ _ _ _ (find_page_run s A1 A2 b F fuel size HI Hf Hsz)).
    by rewrite (bind_Ret _ _ _ _ _ Hrun1). }
  rewrite Hstart. clear Hstart.
  assert (forall x, protected s (A1 ++ b :: A2) F x -> x <> o -> W s1 x = W s x) as Hw.
  { intros x (_ & _ & Hd)%(protected_stable _ _ _ _ HI) Hxo. apply Hw1; [apply Hd, desc_of, b_in|done]. }
  pose proof (fun o' sz' => live_given_back s A1 A2 b F o o' sz' HI Ho) as Hlive. fold b' in Hlive.
  pose proof (bucket_at _ _ _ HI1 b' (b_in _ _ _)) as Hok'. pose proof (in_use_range _ _ Hok') as Hu.
  unfold busy in *. apply Forall_app in Hbusy as [Hb1 [_ Hb2]%Forall_cons].
  destruct (Z.eqb_spec (in_use b') 0) as [Hz|Hz]; cbn [negb].
  - destruct (release_bucket_run s1 A1 b' A2 F fuel HI1) as (s2 & Hrun2 & HI2 & Hm2 & Hw2).
    assert (forall o' sz', live (A1 ++ A2) o' sz' <-> live (A1 ++ b :: A2) o' sz' /\ o' <> o) as Hlive'.
    { intros o' sz'. rewrite Hlive, live_middle. split; [by left|]. intros [?|(_ & Hin & Hni)]; [done|].
      by apply (none_in_use _ _ _ Hok' Hz) in Hin. }
    exists s2, (A1 ++ A2), (bk_desc b :: F). split_and!; [exact Hrun2|exact HI2|by apply Forall_app| |done| |].
    + rewrite !length_app. cbn [length]. lia.
    + intros x Hx Hxo. rewrite <- (Hw x Hx Hxo). apply Hw2. intros d Hd ->.
      apply (protected_stable _ _ _ _ HI) in Hx as (_ & _ & Hds).
      assert (d ∈ descs (A1 ++ b :: A2) F) as Hd'.
      { revert Hd. unfold descs. rewrite !fmap_app, !fmap_cons. done. }
      specialize (Hds d Hd'). lia.
    + right. split.
      * intros o' sz' (c & Hc & _ & Hoc & _) Heq. destruct (other_bucket _ _ _ _ _ HI c Hc) as (Hcin & _ & Hn).
        apply Hn. rewrite <- Hpg, <- Heq.
        by destruct (object_facts _ _ _ (bucket_at _ _ _ HI c Hcin) Hoc) as (_ & _ & _ & _ & <-).
      * rewrite Hm2, (kept_map _ _ Hk1), Hpg. done.
  - exists s1, (A1 ++ b' :: A2), F. split_and!; [done|done| | | |exact Hw|].
    + apply Forall_app. split; [done|]. constructor; [lia|done].
    + rewrite !length_app. cbn [length]. lia.
    + intros o' sz'. by rewrite Hlive.
    + left. split; [|by rewrite (kept_map _ _ Hk1)].
      destruct (some_in_use _ _ Hok' ltac:(lia)) as (o' & Ho' & Hno').
      exists o', (bk_size b). split.
      * exists b'. split; [apply b_in|]. done.
      * destruct (object_facts _ _ _ Hok Ho') as (_ & _ & _ & _ & ->). done.
Qed.

(** ** At the start nothing is in use *)
Lemma initial_inv m : length (mem_map m) = PAGING_PAGES ->
  (forall i, mem_map m !! i = Some 0 -> page_at i < u32 (HIGH_MEMORY m)) -> inv (initial_malloc m) [] [].
Proof.
  intros Hl Hh. split; try done.
  - intros i [Hi|Hi]; [by apply Hh|]. by apply not_elem_of_nil in Hi.
  - intros k h Hk. cbn in Hk. do 9 (destruct k as [|k]; [by injection Hk as <-|]). done.
  - constructor.
  - constructor.
  - intros d Hd. by apply not_elem_of_nil in Hd.
  - intros b Hb. by apply not_elem_of_nil in Hb.
Qed.
Lemma three_pages_inv : inv three_pages [] [].
Proof.
  apply initial_inv; [by rewrite <- (length_replicate PAGING_PAGES USED)|].
  intros i Hi. assert (i < PAGING_PAGES)%nat as Hlt by (apply lookup_lt_Some in Hi; exact Hi).
  assert (Z.of_nat PAGING_PAGES = 3840) as HP by reflexivity.
  change (page_at i < 0x1000000). unfold page_at, LOW_MEM. lia.
Qed.

Lemma malloc_correct_witness : (exists o s' A' F', malloc 1 10 three_pages = Ret o s' /\ inv s' A' F' /\ live A' o 16) /\
  malloc 1 5000 three_pages = Panic "malloc: bad arg" (three_pages <| said := [5000] |>).
Proof.
  split; [|exact (malloc_correct three_pages [] [] 1 5000 three_pages_inv (Forall_nil_2 _) ltac:(cbn; lia))].
  assert (exists o sz s' A' F', malloc 1 10 three_pages = Ret o s' /\ inv s' A' F' /\ sz = 16 /\ live A' o sz) as (o & sz & s' & A' & F' & H1 & H2 & -> & H4).
  - destruct (malloc_correct three_pages [] [] 1 10 three_pages_inv (Forall_nil_2 _) ltac:(cbn; lia))
      as [(e & s' & Hrun & _)|(o & sz & s' & A' & F' & Hrun & HI & _ & _ & Hin & _ & Hleast & _ & _ & _ & Hlive & _)].
    + exfalso. assert (value_of (malloc 1 10 three_pages) <> None) as Hv by (vm_compute; discriminate).
      apply Hv. by rewrite Hrun.
    + exists o, sz, s', A', F'. split; [exact Hrun|]. split; [exact HI|].
      split; [apply (smallest_size (s32 10)); [vm_compute; discriminate|exact Hin|exact Hleast]|]. apply Hlive. right. split; reflexivity.
  - exists o, s', A', F'. split; [exact H1|]. split; [exact H2|exact H4].
Defined.

(** one object in use, then none *)
Lemma free_s_correct_witness : exists o s1 s' A' F', malloc 1 4000 three_pages = Ret o s1 /\
  free_s 9 o 0 s1 = Ret tt s' /\ inv s' A' F' /\ (forall o' sz', ~ live A' o' sz').
Proof.
  destruct (malloc_run three_pages [] [] 1 4000 three_pages_inv (Forall_nil_2 _) ltac:(cbn; lia) ltac:(vm_compute; discriminate))
    as [(e & s1 & Hrun & _)|(o & sz & s1 & A & F & Hrun & HI & Hbusy & Hlen & Hle & _ & _ & _ & Hlive & _)].
  - exfalso. assert (value_of (malloc 1 4000 three_pages) <> None) as Hv by (vm_compute; discriminate).
    apply Hv. by rewrite Hrun.
  - assert (s32 4000 = 4000) as E by reflexivity. rewrite E in Hle.
    destruct (free_s_correct s1 A F 9 o sz 0 HI Hbusy ltac:(cbn in Hlen; lia) ltac:(apply Hlive; right; split; reflexivity) ltac:(lia))
      as (s' & A' & F' & Hfree & HI' & _ & _ & Hl & _).
    exists o, s1, s', A', F'. split; [exact Hrun|]. split; [exact Hfree|]. split; [exact HI'|].
    intros o' sz' H. apply Hl in H as [H Hne]. apply Hlive in H as [(b & Hb & _)|[Heq _]].
    + exact (not_elem_of_nil _ Hb).
    + exact (Hne Heq).
Defined.
