(* ===== verification/Segment.v ===== *)
(** * include/linux/sched.h, include/asm/system.h: segment descriptors

    What is written into a descriptor is read back. *)

From S2P Require Import Prelude Bits State.

(** byte [n] of a 32-bit word, and the word with that byte replaced *)
Definition byte_of (w : Z) (n : Z) : Z := Z.land (Z.shiftr w (8 * n)) 0xff.
Definition set_byte (n v w : Z) : Z :=
  Z.lor (Z.land w (not32 (Z.shiftl 0xff (8 * n)))) (Z.shiftl (u8 v) (8 * n)).

(** [_set_base]: [movw %dx,2(addr)], [rorl $16], [movb %dl,4(addr)], [movb %dh,7(addr)] *)
Definition set_base (base : Z) (d : desc_struct) : desc_struct :=
  let base := u32 base in
  d <| d_a := Z.lor (Z.land (d_a d) 0xffff) (Z.shiftl (u16 base) 16) |>
    <| d_b := set_byte 3 (byte_of base 3) (set_byte 0 (byte_of base 2) (d_b d)) |>.

(** [_get_base]: [movb 7(addr),%dh], [movb 4(addr),%dl], [shll $16], [movw 2(addr),%dx] *)
Definition get_base (d : desc_struct) : Z :=
  Z.lor (Z.shiftl (Z.lor (Z.shiftl (byte_of (d_b d) 3) 8) (byte_of (d_b d) 0)) 16) (Z.shiftr (d_a d) 16).

(** [set_limit(ldt,limit)] stores [(limit-1)>>12]: the low word, and the low
    bits of byte 6, whose upper half is kept *)
Definition set_limit (limit : Z) (d : desc_struct) : desc_struct :=
  let l := Z.shiftr (u32 (limit - 1)) 12 in
  d <| d_a := Z.lor (Z.land (d_a d) 0xffff0000) (u16 l) |>
    <| d_b := set_byte 2 (Z.lor (byte_of l 2) (Z.land (byte_of (d_b d) 2) 0xf0)) (d_b d) |>.

(** [lsll] and [incl]: the limit in bytes of a descriptor with or without the
    granularity bit *)
Definition get_limit (d : desc_struct) : Z :=
  let l := Z.lor (Z.land (d_a d) 0xffff) (Z.land (d_b d) 0xf0000) in
  u32 ((if Z.testbit (d_b d) 23 then Z.lor (Z.shiftl l 12) 0xfff else l) + 1).

(** [_set_tssldt_desc]: limit 104, base [addr], type byte *)
Definition set_tssldt_desc (addr type : Z) (d : desc_struct) : desc_struct :=
  mk_desc (Z.lor 104 (Z.shiftl (u16 addr) 16))
          (Z.lor (Z.lor (byte_of (u32 addr) 2) (Z.shiftl (u8 type) 8)) (Z.shiftl (byte_of (u32 addr) 3) 24)).
Definition set_tss_desc (addr : Z) (d : desc_struct) : desc_struct := set_tssldt_desc addr 0x89 d.
Definition set_ldt_desc (addr : Z) (d : desc_struct) : desc_struct := set_tssldt_desc addr 0x82 d.

(** ** Bits and bytes of descriptors *)

Lemma set_byte_bits k v w n : 0 <= k <= 3 ->
  Z.testbit (set_byte k v w) n =
  if (8 * k <=? n) && (n <? 8 * k + 8) then Z.testbit v (n - 8 * k) else (n <? 32) && Z.testbit w n.
Proof.
  intros Hk. unfold set_byte, u8. change 0xff with (Z.ones 8).
  rewrite testbit_lor, testbit_land, testbit_not32, testbit_mask, testbit_shiftl, testbit_mod by lia.
  destruct (Z.ltb_spec n 0).
  { rewrite !(Z.testbit_neg_r _ n), !(Z.testbit_neg_r _ (n - 8 * k)) by lia. bits_cases. }
  bits_cases.
  by rewrite (Z.testbit_neg_r v), orb_false_r by lia.
Qed.
Lemma byte_of_bits w k n : 0 <= k -> Z.testbit (byte_of w k) n = (0 <=? n) && (n <? 8) && Z.testbit w (n + 8 * k).
Proof.
  intros. unfold byte_of. rewrite testbit_land, testbit_shiftr by lia.
  change 0xff with (Z.shiftl (Z.ones 8) 0). rewrite testbit_mask by lia.
  rewrite (Z.add_comm n). bits_cases; rewrite Z.add_comm; bits_cases.
Qed.

#[local] Hint Rewrite set_byte_bits byte_of_bits using lia : bits.

Lemma get_set_base base d : word32 (d_a d) -> word32 (d_b d) -> get_base (set_base base d) = u32 base.
Proof.
  intros Ha Hb. unfold get_base, set_base, u16, u32. cbn. change 0xffff with (Z.shiftl (Z.ones 16) 0).
  bits.
Qed.
Definition limit_field (d : desc_struct) : Z := Z.lor (Z.land (d_a d) 0xffff) (Z.land (d_b d) 0xf0000).
Lemma limit_field_set_base base d : word32 (d_a d) -> word32 (d_b d) -> limit_field (set_base base d) = limit_field d.
Proof.
  intros Ha Hb. unfold limit_field, set_base, u16, u32. cbn. 
  change 0xffff with (Z.shiftl (Z.ones 16) 0). change 0xf0000 with (Z.shiftl (Z.ones 4) 16).
  bits.
Qed.
Lemma limit_field_set_limit limit d : word32 (d_a d) -> word32 (d_b d) ->
  limit_field (set_limit limit d) = Z.shiftr (u32 (limit - 1)) 12.
Proof.
  intros Ha Hb. unfold limit_field, set_limit, u16, u32. cbn. 
  change 0xffff with (Z.shiftl (Z.ones 16) 0). change 0xf0000 with (Z.shiftl (Z.ones 4) 16).
  change 0xffff0000 with (Z.shiftl (Z.ones 16) 16). change 0xf0 with (Z.shiftl (Z.ones 4) 4).
  bits.
Qed.
Lemma get_base_set_limit limit d : word32 (d_a d) -> word32 (d_b d) ->
  get_base (set_limit limit d) = get_base d.
Proof.
  intros Ha Hb. unfold get_base, set_limit, u16, u32. cbn. 
  change 0xffff0000 with (Z.shiftl (Z.ones 16) 16). change 0xf0 with (Z.shiftl (Z.ones 4) 4).
  bits.
Qed.
Lemma get_base_tssldt addr type d : 0 <= type < 256 -> get_base (set_tssldt_desc addr type d) = u32 addr.
Proof.
  intros Ha. unfold get_base, set_tssldt_desc, u16, u8, u32. cbn. 
  assert (0 <= 104 < 2 ^ 16) as Hc by lia. set (c := 104) in *. clearbody c.
  bits.
Qed.
Lemma granular_set_base base d : word32 (d_b d) -> Z.testbit (d_b (set_base base d)) 23 = Z.testbit (d_b d) 23.
Proof. intros. cbn. autorewrite with bits. bits_cases. Qed.
Lemma granular_set_limit limit d : word32 (d_b d) -> Z.testbit (d_b (set_limit limit d)) 23 = Z.testbit (d_b d) 23.
Proof. intros. unfold set_limit, u32. cbn. change 0xf0 with (Z.shiftl (Z.ones 4) 4). autorewrite with bits. bits_cases; bits_done. Qed.

Lemma access_byte base limit d : word32 (d_a d) -> word32 (d_b d) ->
  byte_of (d_b (set_base base d)) 1 = byte_of (d_b d) 1 /\ byte_of (d_b (set_limit limit d)) 1 = byte_of (d_b d) 1.
Proof. intros Ha Hb. unfold set_limit, set_base, u32. cbn. split; bits. Qed.

(** The segment descriptor of a task holds what is written into it: the
    base set is the base read back, also for the descriptors of the task state
    and the local descriptor table, the limit set is read back rounded up to a
    whole number of pages when the segment is page-granular, and neither
    operation touches the other field or the access byte. *)
Theorem descriptor_roundtrip (base limit addr type : Z) (d : desc_struct)
  (Hd : word32 (d_a d) /\ word32 (d_b d)) (Hlimit : 0 < limit < 2 ^ 32) (Htype : 0 <= type < 256) :
  get_base (set_base base d) = u32 base /\ get_limit (set_base base d) = get_limit d /\
  get_base (set_limit limit d) = get_base d /\
  (Z.testbit (d_b d) 23 = true -> get_limit (set_limit limit d) = u32 (4096 * ((limit + 4095) / 4096))) /\
  get_base (set_tssldt_desc addr type d) = u32 addr /\
  byte_of (d_b (set_base base d)) 1 = byte_of (d_b d) 1 /\
  byte_of (d_b (set_limit limit d)) 1 = byte_of (d_b d) 1.
Proof.
  destruct Hd as [Ha Hb]. split_and!.
  - by apply get_set_base.
  - unfold get_limit. fold (limit_field (set_base base d)) (limit_field d).
    by rewrite limit_field_set_base, granular_set_base.
  - by apply get_base_set_limit.
  - intros Hg. unfold get_limit. fold (limit_field (set_limit limit d)).
    rewrite limit_field_set_limit, granular_set_limit, Hg, lor_low12 by done.
    rewrite (u32_id (limit - 1)) by lia. rewrite Z.shiftr_div_pow2 by lia. f_equal.
    replace (limit + 4095) with (limit - 1 + 1 * 4096) by lia. rewrite Z.div_add by lia. change (2 ^ 12) with 4096. lia.
  - by apply get_base_tssldt.
  - by apply access_byte.
  - by apply access_byte.
Qed.

Lemma descriptor_roundtrip_witness :
  get_base (set_base 0x4000000 (mk_desc 0x9f 0xc0fa00)) = 0x4000000 /\
  get_limit (set_limit 0xA0001 (mk_desc 0x9f 0xc0fa00)) = 0xA1000 /\
  get_base (set_tssldt_desc 0x201e0 0x89 (mk_desc 0x9f 0xc0fa00)) = 0x201e0.
Proof.
  destruct (descriptor_roundtrip 0x4000000 0xA0001 0x201e0 0x89 (mk_desc 0x9f 0xc0fa00)) as (Hb & _ & _ & Hl & Ht & _).
  - split; split; vm_compute; congruence.
  - split; vm_compute; congruence.
  - split; vm_compute; congruence.
  - split; [exact Hb|]. split; [exact (Hl eq_refl)|exact Ht].
Defined.
