(* ===== verification/Request.v ===== *)
(** * kernel/blk_drv/blk.h and ramdisk.cc: the request queue of a device, the ram disk

    The inline functions of [blk.h] are compiled into each driver with that
    driver's [MAJOR_NR]; here they take the driver as an argument. *)

From S2P Require Import Prelude State Sched.

Definition MAJOR_NR (d : driver) : nat :=
  match d with do_rd_request_fn => 1 | do_fd_request_fn => 2 | do_hd_request_fn => 3 end%nat.

(** [IN_ORDER(s1,s2)] *)
Definition IN_ORDER (s1 s2 : request) : bool :=
  (r_cmd s1 <? r_cmd s2) ||
  ((r_cmd s1 =? r_cmd s2) &&
   ((r_dev s1 <? r_dev s2) ||
    ((r_dev s1 =? r_dev s2) && (r_sector s1 <? r_sector s2)))).

(** [memcpy] between byte arrays: [len] bytes of [src] from [i] on go to [dst] at [j] *)
Definition sublist (l : list Z) (i len : nat) : list Z := take len (drop i l).
Definition memcpy (dst : list Z) (j : nat) (src : list Z) (i len : nat) : list Z :=
  list_inserts j (sublist src i len) dst.

Section Request.
Context {E : Env}.

(** [CURRENT] *)
Definition CURRENT (d : driver) : K (option nat) :=
  s ← gets blk; b ← deref (blk_dev s !! MAJOR_NR d); mret (current_request b).
Definition set_CURRENT (d : driver) (r : option nat) : K unit :=
  on_blk (fun s => s <| blk_dev ::= alter (fun b => b <| current_request := r |>) (MAJOR_NR d) |>).
(** [CURRENT->...] *)
Definition CURRENT_req (d : driver) : K request :=
  c ← CURRENT d; r ← deref c; getreq r.
Definition set_CURRENT_req (d : driver) (f : request -> request) : K unit :=
  c ← CURRENT d; r ← deref c; setreq r f.

Definition DEVICE_NR (d : driver) (device : Z) : Z :=
  match d with
  | do_rd_request_fn => Z.land device 7
  | do_fd_request_fn => Z.land device 3
  | do_hd_request_fn => MINOR device / 5
  end.
Definition DEVICE_OFF (d : driver) (device : Z) : K unit :=
  match d with do_fd_request_fn => floppy_off (DEVICE_NR d device) | _ => mret tt end.

(** the text of the messages, with DEVICE_NAME in front *)
Definition dev_msg (d : driver) (msg : string) : string :=
  (match d with do_rd_request_fn => "ramdisk" | do_fd_request_fn => "floppy" | do_hd_request_fn => "harddisk" end
   +:+ msg)%string.

Definition unlock_buffer (msg : string) (b : nat) : K unit :=
  x ← getbh b;
  unless (nz (b_lock x)) (printk msg []) ;;
  setbh b (fun x => x <| b_lock := 0 |>) ;;
  wake_up (WqBuffer b).

Definition end_request (d : driver) (uptodate : Z) : K unit :=
  r ← CURRENT_req d;
  DEVICE_OFF d (r_dev r) ;;
  match r_bh r with
  | Some b =>
      setbh b (fun x => x <| b_uptodate := uptodate |>) ;;
      unlock_buffer (dev_msg d ": free buffer being unlocked") b
  | None => mret tt
  end ;;
  unless (nz uptodate)
    (printk (dev_msg d " I/O error") [] ;;
     r ← CURRENT_req d; b ← deref (r_bh r); x ← getbh b;
     printk "dev %04x, block %d" [r_dev r; b_blocknr x]) ;;
  c ← CURRENT d; c ← deref c;
  wake_up (WqReqWaiting c) ;;
  wake_up WqRequest ;;
  setreq c (fun r => r <| r_dev := -1 |>) ;;
  r ← getreq c;
  set_CURRENT d (r_next r).

(** [INIT_REQUEST]: [None] when there is nothing to do *)
Definition INIT_REQUEST (d : driver) : K (option request) :=
  c ← CURRENT d;
  match c with
  | None => mret None
  | Some c =>
      r ← getreq c;
      if negb (MAJOR (r_dev r) =? Z.of_nat (MAJOR_NR d)) then panic (dev_msg d ": request list destroyed") else
      match r_bh r with
      | Some b =>
          x ← getbh b;
          if negb (nz (b_lock x)) then panic (dev_msg d ": block not locked") else mret (Some r)
      | None => mret (Some r)
      end
  end.

(** ** The ram disk *)

(** one round of [do_rd_request]; the data of a request is 1024 bytes of a buffer *)
Definition rd_step : K (unit + unit) :=
  o ← INIT_REQUEST do_rd_request_fn;
  match o with
  | None => mret (inr tt)
  | Some r =>
      s ← gets blk;
      let addr := u32 (rd_start s + u32 (Z.shiftl (r_sector r) 9)) in
      let len := s32 (Z.shiftl (r_nr_sectors r) 9) in
      if negb (MINOR (r_dev r) =? 1) || (u32 (rd_start s + rd_length s) <? u32 (addr + len)) then
        end_request do_rd_request_fn 0 ;; mret (inl tt)
      else if addr <? rd_start s then fault else
      let off := Z.to_nat (addr - rd_start s) in
      b ← deref (r_bh r); x ← getbh b;
      (if r_cmd r =? WRITE then
         on_blk (fun s => s <| rd_data ::= fun rd => memcpy rd off (b_data x) (Z.to_nat (r_buffer r)) (Z.to_nat len) |>)
       else if r_cmd r =? READ then
         setbh b (fun x => x <| b_data ::= fun dt => memcpy dt (Z.to_nat (r_buffer r)) (rd_data s) off (Z.to_nat len) |>)
       else panic "unknown ramdisk-command") ;;
      end_request do_rd_request_fn 1 ;; mret (inl tt)
  end.
(** each round ends one of the requests of the table *)
Definition do_rd_request : K unit := loop (S NR_REQUEST) (fun _ => rd_step) tt.

Definition rd_init (mem_start length : Z) : K Z :=
  on_blk (fun s => s <| blk_dev ::= alter (fun b => b <| request_fn := Some do_rd_request_fn |>) 1%nat |>
                     <| rd_start := mem_start |> <| rd_length := length |>
                     <| rd_data := replicate (Z.to_nat length) 0 |>) ;;
  mret length.
End Request.
