(* ===== verification/Hd.v ===== *)
(** * kernel/blk_drv/hd.cc: the hard disk driver

    The request function starts a command and returns; the interrupt handlers
    move the data and go on with the next request.  [do_hd] is the handler the
    next interrupt runs. *)

From S2P Require Import Prelude State Sched Request.

(** ** include/linux/hdreg.h *)
Definition HD_DATA : Z := 0x1f0.
Definition HD_ERROR : Z := 0x1f1.
Definition HD_STATUS : Z := 0x1f7.
Definition HD_CMD : Z := 0x3f6.
Definition ERR_STAT : Z := 0x01.
Definition DRQ_STAT : Z := 0x08.
Definition SEEK_STAT : Z := 0x10.
Definition WRERR_STAT : Z := 0x20.
Definition READY_STAT : Z := 0x40.
Definition BUSY_STAT : Z := 0x80.
Definition WIN_RESTORE : Z := 0x10.
Definition WIN_READ : Z := 0x20.
Definition WIN_WRITE : Z := 0x30.
Definition WIN_SPECIFY : Z := 0x91.
Definition MAX_ERRORS : Z := 7.
Definition MAX_HD : nat := 2.

Section Hd.
Context {E : Env}.

(** [insw] and [outsw]: [nr] words between a port and bytes *)
Fixpoint port_read (port : Z) (nr : nat) : K (list Z) :=
  match nr with
  | O => mret []
  | S nr => w ← inw port; l ← port_read port nr; mret (u8 w :: Z.shiftr w 8 :: l)
  end.
Fixpoint port_write (port : Z) (l : list Z) : K unit :=
  match l with
  | lo :: hi :: l => outw (lo + 2 ^ 8 * hi) port ;; port_write port l
  | _ => mret tt
  end.

(** [while (--retries && ...)]: what is left of the retries *)
Fixpoint poll_ready (retries : nat) : K nat :=
  match retries with
  | O => mret 0%nat
  | S retries =>
      match retries with
      | O => mret 0%nat
      | S _ =>
          v ← inb HD_STATUS;
          if Z.land v 0xc0 =? 0x40 then mret retries else poll_ready retries
      end
  end.
Definition controller_ready : K nat := poll_ready (Z.to_nat 10000).

Definition win_result : K Z :=
  i ← inb HD_STATUS;
  if Z.land i (Z.lor BUSY_STAT (Z.lor READY_STAT (Z.lor WRERR_STAT (Z.lor SEEK_STAT ERR_STAT))))
     =? Z.lor READY_STAT SEEK_STAT then mret 0 else
  when (nz (Z.land i 1)) (_ ← inb HD_ERROR; mret tt) ;;
  mret 1.

Definition get_hd_info (drive : Z) : K hd_i_struct :=
  s ← gets hdd; deref (hd_info s !! Z.to_nat drive).

Definition hd_out (drive nsect sect head cyl cmd : Z) (intr_addr : hd_intr) : K unit :=
  if (1 <? drive) || (15 <? head) then panic "Trying to write bad sector" else
  r ← controller_ready;
  if decide (r = 0%nat) then panic "HD controller not ready" else
  on_hd (fun h => h <| do_hd := Some intr_addr |>) ;;
  i ← get_hd_info drive;
  outb (hdi_ctl i) HD_CMD ;;
  outb (Z.shiftr (hdi_wpcom i) 2) (HD_DATA + 1) ;;
  outb nsect (HD_DATA + 2) ;;
  outb sect (HD_DATA + 3) ;;
  outb cyl (HD_DATA + 4) ;;
  outb (Z.shiftr cyl 8) (HD_DATA + 5) ;;
  outb (Z.lor (Z.lor 0xA0 (Z.shiftl drive 4)) head) (HD_DATA + 6) ;;
  outb cmd (HD_DATA + 7).

Fixpoint poll_busy (n : nat) : K unit :=
  match n with
  | O => mret tt
  | S n =>
      v ← inb HD_STATUS;
      if Z.land v (Z.lor BUSY_STAT READY_STAT) =? READY_STAT then mret tt else poll_busy n
  end.
Definition drive_busy : K Z :=
  poll_busy (Z.to_nat 10000) ;;
  i ← inb HD_STATUS;
  if Z.land i (Z.lor BUSY_STAT (Z.lor READY_STAT SEEK_STAT)) =? Z.lor READY_STAT SEEK_STAT then mret 0 else
  printk "HD controller times out" [] ;; mret 1.

Definition reset_controller : K unit :=
  outb 4 HD_CMD ;;
  i ← get_hd_info 0;
  outb (Z.land (hdi_ctl i) 0x0f) HD_CMD ;;
  b ← drive_busy;
  when (nz b) (printk "HD-controller still busy" []) ;;
  i ← inb HD_ERROR;
  unless (i =? 1) (printk "HD-controller reset failed: %02x" [i]).

Definition reset_hd (nr : Z) : K unit :=
  reset_controller ;;
  i ← get_hd_info nr;
  hd_out nr (u32 (hdi_sect i)) (u32 (hdi_sect i)) (u32 (hdi_head i - 1)) (u32 (hdi_cyl i)) WIN_SPECIFY recal_intr_fn.

Definition bad_rw_intr : K unit :=
  set_CURRENT_req do_hd_request_fn (fun r => r <| r_errors ::= fun e => s32 (e + 1) |>) ;;
  r ← CURRENT_req do_hd_request_fn;
  when (MAX_ERRORS <=? r_errors r) (end_request do_hd_request_fn 0) ;;
  r ← CURRENT_req do_hd_request_fn;       (* CURRENT may be another request now, or NULL *)
  when (Z.quot MAX_ERRORS 2 <? r_errors r) (on_hd (fun h => h <| hd_reset := 1 |>)).

(** the write part of a command: wait for DRQ and send the first sector *)
Fixpoint poll_drq (n : nat) : K bool :=
  match n with
  | O => mret false
  | S n => v ← inb HD_STATUS; if nz (Z.land v DRQ_STAT) then mret true else poll_drq n
  end.

(** 512 bytes from [CURRENT->buffer] *)
Definition current_sector : K (list Z) :=
  r ← CURRENT_req do_hd_request_fn; b ← deref (r_bh r); x ← getbh b;
  mret (sublist (b_data x) (Z.to_nat (r_buffer r)) 512).

(** one round of [do_hd_request] *)
Definition hd_step : K (unit + unit) :=
  o ← INIT_REQUEST do_hd_request_fn;
  match o with
  | None => mret (inr tt)
  | Some r =>
      let dev := MINOR (r_dev r) in
      let block := u32 (r_sector r) in
      h ← gets hdd;
      if 5 * NR_HD h <=? dev then end_request do_hd_request_fn 0 ;; mret (inl tt) else
      p ← deref (hd h !! Z.to_nat dev);
      if nr_sects p <? s32 (s32 block + 2) then end_request do_hd_request_fn 0 ;; mret (inl tt) else
      let block := u32 (block + start_sect p) in
      let dev := dev / 5 in
      i ← get_hd_info dev;
      if (u32 (hdi_sect i) =? 0) || (u32 (hdi_head i) =? 0) then fault else   (* divl by 0 *)
      let sec := block mod u32 (hdi_sect i) in
      let block := block / u32 (hdi_sect i) in
      let head := block mod u32 (hdi_head i) in
      let cyl := block / u32 (hdi_head i) in
      let sec := u32 (sec + 1) in
      let nsect := u32 (r_nr_sectors r) in
      let cur_dev := DEVICE_NR do_hd_request_fn (r_dev r) in
      if nz (hd_reset h) then
        on_hd (fun h => h <| hd_reset := 0 |> <| hd_recalibrate := 1 |>) ;;
        reset_hd cur_dev ;; mret (inr tt)
      else if nz (hd_recalibrate h) then
        on_hd (fun h => h <| hd_recalibrate := 0 |>) ;;
        ic ← get_hd_info cur_dev;
        hd_out dev (u32 (hdi_sect ic)) 0 0 0 WIN_RESTORE recal_intr_fn ;; mret (inr tt)
      else if r_cmd r =? WRITE then
        hd_out dev nsect sec head cyl WIN_WRITE write_intr_fn ;;
        ok ← poll_drq (Z.to_nat 3000);
        if negb ok then bad_rw_intr ;; mret (inl tt) else
        l ← current_sector; port_write HD_DATA l ;; mret (inr tt)
      else if r_cmd r =? READ then
        hd_out dev nsect sec head cyl WIN_READ read_intr_fn ;; mret (inr tt)
      else panic "unknown hd-command"
  end.
(** each round ends a request or adds one to the errors of the current one *)
Definition do_hd_request : K unit := loop (S (NR_REQUEST * 8)) (fun _ => hd_step) tt.

(** ** Interrupt handlers *)
Definition read_intr : K unit :=
  bad ← win_result;
  if nz bad then bad_rw_intr ;; do_hd_request else
  l ← port_read HD_DATA 256;
  r ← CURRENT_req do_hd_request_fn; b ← deref (r_bh r);
  setbh b (fun x => x <| b_data ::= fun dt => list_inserts (Z.to_nat (r_buffer r)) l dt |>) ;;
  set_CURRENT_req do_hd_request_fn (fun r =>
    r <| r_errors := 0 |> <| r_buffer ::= Z.add 512 |> <| r_sector ::= fun x => u32 (x + 1) |>
      <| r_nr_sectors ::= fun x => u32 (x - 1) |>) ;;
  r ← CURRENT_req do_hd_request_fn;
  if nz (r_nr_sectors r) then on_hd (fun h => h <| do_hd := Some read_intr_fn |>) else
  end_request do_hd_request_fn 1 ;; do_hd_request.

Definition write_intr : K unit :=
  bad ← win_result;
  if nz bad then bad_rw_intr ;; do_hd_request else
  set_CURRENT_req do_hd_request_fn (fun r => r <| r_nr_sectors ::= fun x => u32 (x - 1) |>) ;;
  r ← CURRENT_req do_hd_request_fn;
  if nz (r_nr_sectors r) then
    set_CURRENT_req do_hd_request_fn (fun r => r <| r_sector ::= fun x => u32 (x + 1) |> <| r_buffer ::= Z.add 512 |>) ;;
    on_hd (fun h => h <| do_hd := Some write_intr_fn |>) ;;
    l ← current_sector; port_write HD_DATA l
  else end_request do_hd_request_fn 1 ;; do_hd_request.

Definition recal_intr : K unit :=
  bad ← win_result;
  when (nz bad) bad_rw_intr ;; do_hd_request.

Definition unexpected_hd_interrupt : K unit := printk "Unexpected HD interrupt" [].

(** the interrupt takes the handler out of [do_hd] and runs it *)
Definition hd_interrupt : K unit :=
  outb 0x20 0xA0 ;;
  h ← gets hdd;
  on_hd (fun h => h <| do_hd := None |>) ;;
  outb 0x20 0x20 ;;
  match do_hd h with
  | Some read_intr_fn => read_intr
  | Some write_intr_fn => write_intr
  | Some recal_intr_fn => recal_intr
  | None => unexpected_hd_interrupt
  end.

Definition hd_init : K unit :=
  on_blk (fun s => s <| blk_dev ::= alter (fun b => b <| request_fn := Some do_hd_request_fn |>) 3%nat |>) ;;
  v ← inb 0x21; outb (Z.land v 0xfb) 0x21 ;;
  v ← inb 0xA1; outb (Z.land v 0xbf) 0xA1.
End Hd.
