(* ===== verification/Floppy.v ===== *)
(** * kernel/blk_drv/floppy.cc: the floppy driver

    A request goes through motor-on, seek and transfer, each step started by
    the interrupt or the timer that ends the one before.  The functions
    [transfer] and [floppy_on_interrupt] are given to [add_timer] by their
    addresses in System.map. *)

From S2P Require Import Prelude State Sched Request.

(** ** include/linux/fdreg.h *)
Definition FD_STATUS : Z := 0x3f4.
Definition FD_DATA : Z := 0x3f5.
Definition FD_DOR : Z := 0x3f2.
Definition FD_DIR : Z := 0x3f7.
Definition FD_DCR : Z := 0x3f7.
Definition STATUS_BUSY : Z := 0x10.
Definition STATUS_DIR : Z := 0x40.
Definition STATUS_READY : Z := 0x80.
Definition FD_RECALIBRATE : Z := 0x07.
Definition FD_SEEK : Z := 0x0F.
Definition FD_READ : Z := 0xE6.
Definition FD_WRITE : Z := 0xC5.
Definition FD_SENSEI : Z := 0x08.
Definition FD_SPECIFY : Z := 0x03.
Definition DMA_READ : Z := 0x46.
Definition DMA_WRITE : Z := 0x4A.
Definition FD_MAX_ERRORS : Z := 8.
Definition MAX_REPLIES : nat := 7.

Record floppy_struct : Type := mk_floppy {
  fl_size : Z; fl_sect : Z; fl_head : Z; fl_track : Z; fl_stretch : Z; fl_gap : Z; fl_rate : Z; fl_spec1 : Z
}.
Definition floppy_type : list floppy_struct :=
  [ mk_floppy 0 0 0 0 0 0x00 0x00 0x00; mk_floppy 720 9 2 40 0 0x2A 0x02 0xDF;
    mk_floppy 2400 15 2 80 0 0x1B 0x00 0xDF; mk_floppy 720 9 2 40 1 0x2A 0x02 0xDF;
    mk_floppy 1440 9 2 80 0 0x2A 0x02 0xDF; mk_floppy 720 9 2 40 1 0x23 0x01 0xDF;
    mk_floppy 1440 9 2 80 0 0x23 0x01 0xDF; mk_floppy 2880 18 2 80 0 0x1B 0x00 0xCF ].

(** where System.map puts the two functions and the bounce buffer *)
Definition transfer_fn : Z := 0x13137.
Definition floppy_on_interrupt_fn : Z := 0x134cc.
Definition tmp_floppy_area_addr : Z := 0x5000.

Section Floppy.
Context {E : Env}.

Definition getfd : K fd_st := gets fdd.
Definition floppy_deselect (nr : Z) : K unit :=
  s ← gets sched;
  unless (nr =? Z.land (current_DOR s) 3) (printk "floppy_deselect: drive not selected" []) ;;
  on_sched (fun s => s <| selected := 0 |>) ;;
  wake_up WqFloppySelect.

Definition floppy_change (nr : Z) : K Z :=
  loop env_fuel (fun _ : unit =>
    floppy_on nr ;;
    while env_fuel (gets (fun s => negb (Z.land (current_DOR (sched s)) 3 =? nr) && nz (selected (sched s))))
      (interruptible_sleep_on WqFloppySelect) ;;
    s ← gets sched;
    mret (if Z.land (current_DOR s) 3 =? nr then inr tt else inl tt)) tt ;;
  v ← inb FD_DIR;
  floppy_off nr ;;
  mret (if nz (Z.land v 0x80) then 1 else 0).

Definition setup_DMA : K unit :=
  r ← CURRENT_req do_fd_request_fn; b ← deref (r_bh r); x ← getbh b; f ← getfd;
  let addr := s32 (b_addr x + r_buffer r) in
  let high := 0x100000 <=? addr in
  when (high && (fd_command f =? FD_WRITE))
    (on_fd (fun f => f <| tmp_floppy_area := sublist (b_data x) (Z.to_nat (r_buffer r)) 1024 |>)) ;;
  let addr := if high then tmp_floppy_area_addr else addr in
  outb (Z.lor 4 2) 10 ;;
  let al := if fd_command f =? FD_READ then DMA_READ else DMA_WRITE in
  outb al 12 ;; outb al 11 ;;
  outb addr 4 ;; outb (Z.shiftr addr 8) 4 ;; outb (Z.shiftr addr 16) 0x81 ;;
  outb 0xff 5 ;; outb 3 5 ;;
  outb (Z.lor 0 2) 10.

(** up to 10000 polls of the status register *)
Fixpoint poll_out (n : nat) : K bool :=
  match n with
  | O => mret false
  | S n =>
      v ← inb FD_STATUS;
      if Z.land v (Z.lor STATUS_READY STATUS_DIR) =? STATUS_READY then mret true else poll_out n
  end.
Definition output_byte (byte : Z) : K unit :=
  f ← getfd;
  if nz (fd_reset f) then mret tt else
  ok ← poll_out (Z.to_nat 10000);
  if ok : bool then outb byte FD_DATA else
  on_fd (fun f => f <| fd_reset := 1 |>) ;;
  printk "Unable to send byte to FDC" [].

(** the bytes of a reply: [None] when the controller does not answer properly *)
Fixpoint poll_result (n i : nat) : K (option nat) :=
  match n with
  | O => mret None
  | S n =>
      v ← inb FD_STATUS;
      let status := Z.land v (Z.lor STATUS_DIR (Z.lor STATUS_READY STATUS_BUSY)) in
      if status =? STATUS_READY then mret (Some i)
      else if status =? Z.lor STATUS_DIR (Z.lor STATUS_READY STATUS_BUSY) then
        if decide (MAX_REPLIES <= i)%nat then mret None else
        v ← inb FD_DATA;
        on_fd (fun f => f <| reply_buffer ::= <[i := v]> |>) ;;
        poll_result n (S i)
      else poll_result n i
  end.
Definition result : K Z :=
  f ← getfd;
  if nz (fd_reset f) then mret (-1) else
  o ← poll_result (Z.to_nat 10000) 0;
  match o with
  | Some i => mret (Z.of_nat i)
  | None => on_fd (fun f => f <| fd_reset := 1 |>) ;; printk "Getstatus times out" [] ;; mret (-1)
  end.
Definition ST (n : nat) : K Z := f ← getfd; deref (reply_buffer f !! n).

Definition bad_flp_intr : K unit :=
  set_CURRENT_req do_fd_request_fn (fun r => r <| r_errors ::= fun e => s32 (e + 1) |>) ;;
  r ← CURRENT_req do_fd_request_fn;
  when (FD_MAX_ERRORS <? r_errors r)
    (f ← getfd; floppy_deselect (current_drive f) ;; end_request do_fd_request_fn 0) ;;
  r ← CURRENT_req do_fd_request_fn;       (* CURRENT may be another request now, or NULL *)
  if Z.quot FD_MAX_ERRORS 2 <? r_errors r then on_fd (fun f => f <| fd_reset := 1 |>)
  else on_fd (fun f => f <| fd_recalibrate := 1 |>).

Definition reset_floppy : K unit :=
  on_fd (fun f => f <| fd_reset := 0 |> <| cur_spec1 := -1 |> <| cur_rate := -1 |> <| fd_recalibrate := 1 |>) ;;
  printk "Reset-floppy called" [] ;;
  on_fd (fun f => f <| do_floppy := Some reset_interrupt_fn |>) ;;
  s ← gets sched;
  outb (Z.land (current_DOR s) (Z.lxor 0x04 0xff)) FD_DOR ;;
  outb (current_DOR s) FD_DOR.

(** [do_fd_request] may call itself, through [recalibrate_floppy], once: the
    second call finds [reset] set *)
Definition recalibrate_floppy (do_fd_request : K unit) : K unit :=
  on_fd (fun f => f <| fd_recalibrate := 0 |> <| current_track := 0 |> <| do_floppy := Some recal_interrupt_fn |>) ;;
  output_byte FD_RECALIBRATE ;;
  f ← getfd;
  output_byte (Z.lor (Z.shiftl (fd_head f) 2) (current_drive f)) ;;
  f ← getfd;
  when (nz (fd_reset f)) do_fd_request.

(** one round of the part of [do_fd_request] after [INIT_REQUEST] *)
Definition fd_step : K (unit + unit) :=
  o ← INIT_REQUEST do_fd_request_fn;
  match o with
  | None => mret (inr tt)
  | Some r =>
      let fl := Z.to_nat (Z.shiftr (MINOR (r_dev r)) 2) in
      on_fd (fun f => f <| floppy := fl |>) ;;
      t ← deref (floppy_type !! fl);
      f ← getfd;
      let dev := DEVICE_NR do_fd_request_fn (r_dev r) in
      on_fd (fun f => f <| fd_seek ::= fun s => if current_drive f =? dev then s else 1 |> <| current_drive := u8 dev |>) ;;
      let block := u32 (r_sector r) in
      if fl_size t <? u32 (block + 2) then end_request do_fd_request_fn 0 ;; mret (inl tt) else
      if (fl_sect t =? 0) || (fl_head t =? 0) then fault else    (* division by 0 *)
      let sector := u8 (block mod fl_sect t) in
      let block := block / fl_sect t in
      let track := u8 (block / fl_head t) in
      on_fd (fun f => f <| fd_head := u8 (block mod fl_head t) |> <| fd_track := track |>
                        <| seek_track := u8 (Z.shiftl track (fl_stretch t)) |>) ;;
      f ← getfd;
      unless (seek_track f =? current_track f) (on_fd (fun f => f <| fd_seek := 1 |>)) ;;
      on_fd (fun f => f <| fd_sector := u8 (sector + 1) |>) ;;
      (if r_cmd r =? READ then on_fd (fun f => f <| fd_command := FD_READ |>)
       else if r_cmd r =? WRITE then on_fd (fun f => f <| fd_command := FD_WRITE |>)
       else panic "do_fd_request: unknown command") ;;
      f ← getfd;
      ticks ← ticks_to_floppy_on (current_drive f);
      add_timer ticks (Some floppy_on_interrupt_fn) ;; mret (inr tt)
  end.

Fixpoint do_fd_request_n (n : nat) : K unit :=
  match n with
  | O => spin
  | S n =>
      on_fd (fun f => f <| fd_seek := 0 |>) ;;
      f ← getfd;
      if nz (fd_reset f) then reset_floppy
      else if nz (fd_recalibrate f) then recalibrate_floppy (do_fd_request_n n)
      else loop (S NR_REQUEST) (fun _ => fd_step) tt
  end.
Definition do_fd_request : K unit := do_fd_request_n 3.

(** ** Interrupt handlers *)
Definition rw_interrupt : K unit :=
  n ← result;
  st0 ← ST 0; st1 ← ST 1; st2 ← ST 2; f ← getfd;
  if negb (n =? 7) || nz (Z.land st0 0xf8) || nz (Z.land st1 0xbf) || nz (Z.land st2 0x73) then
    (if nz (Z.land st1 0x02) then
       printk "Drive %d is write protected" [current_drive f] ;;
       floppy_deselect (current_drive f) ;; end_request do_fd_request_fn 0
     else bad_flp_intr) ;;
    do_fd_request
  else
    r ← CURRENT_req do_fd_request_fn; b ← deref (r_bh r); x ← getbh b;
    when ((fd_command f =? FD_READ) && (0x100000 <=? u32 (b_addr x + r_buffer r)))
      (setbh b (fun x => x <| b_data ::= list_inserts (Z.to_nat (r_buffer r)) (tmp_floppy_area f) |>)) ;;
    floppy_deselect (current_drive f) ;;
    end_request do_fd_request_fn 1 ;;
    do_fd_request.

Definition setup_rw_floppy : K unit :=
  setup_DMA ;;
  on_fd (fun f => f <| do_floppy := Some rw_interrupt_fn |>) ;;
  f ← getfd; t ← deref (floppy_type !! floppy f);
  output_byte (fd_command f) ;;
  output_byte (Z.lor (Z.shiftl (fd_head f) 2) (current_drive f)) ;;
  output_byte (fd_track f) ;;
  output_byte (fd_head f) ;;
  output_byte (fd_sector f) ;;
  output_byte 2 ;;
  output_byte (fl_sect t) ;;
  output_byte (fl_gap t) ;;
  output_byte 0xFF ;;
  f ← getfd; when (nz (fd_reset f)) do_fd_request.

Definition seek_interrupt : K unit :=
  output_byte FD_SENSEI ;;
  n ← result; st0 ← ST 0; st1 ← ST 1; f ← getfd;
  if negb (n =? 2) || negb (Z.land st0 0xF8 =? 0x20) || negb (st1 =? seek_track f) then
    bad_flp_intr ;; do_fd_request
  else on_fd (fun f => f <| current_track := st1 |>) ;; setup_rw_floppy.

Definition transfer : K unit :=
  f ← getfd; t ← deref (floppy_type !! floppy f);
  unless (cur_spec1 f =? fl_spec1 t)
    (on_fd (fun f => f <| cur_spec1 := fl_spec1 t |>) ;;
     output_byte FD_SPECIFY ;; output_byte (fl_spec1 t) ;; output_byte 6) ;;
  f ← getfd;
  unless (cur_rate f =? fl_rate t)
    (on_fd (fun f => f <| cur_rate := fl_rate t |>) ;; outb (fl_rate t) FD_DCR) ;;
  f ← getfd;
  if nz (fd_reset f) then do_fd_request else
  if negb (nz (fd_seek f)) then setup_rw_floppy else
  on_fd (fun f => f <| do_floppy := Some seek_interrupt_fn |>) ;;
  let sel := Z.lor (Z.shiftl (fd_head f) 2) (current_drive f) in
  (if nz (seek_track f) then output_byte FD_SEEK ;; output_byte sel ;; output_byte (seek_track f)
   else output_byte FD_RECALIBRATE ;; output_byte sel) ;;
  f ← getfd; when (nz (fd_reset f)) do_fd_request.

(** the test both recalibration handlers make on the sense reply *)
Definition sense_failed : K bool :=
  output_byte FD_SENSEI ;;
  n ← result; st0 ← ST 0;
  mret (negb (n =? 2) || (Z.land st0 0xE0 =? 0x60)).
Definition recal_interrupt : K unit :=
  bad ← sense_failed;
  (if bad : bool then on_fd (fun f => f <| fd_reset := 1 |>) else on_fd (fun f => f <| fd_recalibrate := 0 |>)) ;;
  do_fd_request.
Definition unexpected_floppy_interrupt : K unit :=
  bad ← sense_failed;
  if bad : bool then on_fd (fun f => f <| fd_reset := 1 |>) else on_fd (fun f => f <| fd_recalibrate := 1 |>).

Definition reset_interrupt : K unit :=
  output_byte FD_SENSEI ;;
  _ ← result;
  output_byte FD_SPECIFY ;;
  f ← getfd;
  output_byte (cur_spec1 f) ;;
  output_byte 6 ;;
  do_fd_request.

Definition floppy_on_interrupt : K unit :=
  on_sched (fun s => s <| selected := 1 |>) ;;
  s ← gets sched; f ← getfd;
  if current_drive f =? Z.land (current_DOR s) 3 then transfer else
  on_sched (fun s => s <| current_DOR ::= fun d => Z.lor (Z.land d 0xFC) (current_drive f) |>) ;;
  s ← gets sched;
  outb (current_DOR s) FD_DOR ;;
  add_timer 2 (Some transfer_fn).

Definition floppy_interrupt : K unit :=
  outb 0x20 0x20 ;;
  f ← getfd;
  on_fd (fun f => f <| do_floppy := None |>) ;;
  match do_floppy f with
  | Some rw_interrupt_fn => rw_interrupt
  | Some seek_interrupt_fn => seek_interrupt
  | Some recal_interrupt_fn => recal_interrupt
  | Some reset_interrupt_fn => reset_interrupt
  | None => unexpected_floppy_interrupt
  end.

Definition floppy_init : K unit :=
  on_blk (fun s => s <| blk_dev ::= alter (fun b => b <| request_fn := Some do_fd_request_fn |>) 2%nat |>) ;;
  v ← inb 0x21; outb (Z.land v (not32 0x40)) 0x21.
End Floppy.
