(* ===== verification/TimerFacts.v ===== *)
(** * Timers: the list of [add_timer] and [do_timer] against a list of expiry times

    [add_timer] is an insertion into the list of expiry times, with the delays the source
    causes.  A tick calls the timers that are due; the functions called may start timers themselves,
    as those of the floppy driver do. *)

From S2P Require Import Prelude State Sched Request Floppy.

(** the timers reachable from [h], with their indices: remaining ticks after
    the previous one, and function *)
Fixpoint chain (tl : list timer) (h : option nat) (l : list (nat * (Z * Z))) : Prop :=
  match l with
  | [] => h = None
  | (p, (j, f)) :: l =>
      h = Some p /\ exists n, tl !! p = Some (mk_timer j (Some f) n) /\ chain tl n l
  end.

(** the insertion the loop of [add_timer] performs on the deltas *)
Fixpoint insert_delta (jf : Z * Z) (l : list (Z * Z)) : list (Z * Z) :=
  match l with
  | [] => [jf]
  | (j', f') :: l' =>
      if j' <? jf.1 then (j', f') :: insert_delta (jf.1 - j', jf.2) l' else jf :: l
  end.

(** expiry times, in ticks from now, of a list of deltas that starts at [now] *)
Fixpoint expiries (now : Z) (l : list (Z * Z)) : list (Z * Z) :=
  match l with
  | [] => []
  | (j, f) :: l => (now + j, f) :: expiries (now + j) l
  end.

Definition delay (d : Z) (l : list (Z * Z)) : list (Z * Z) := (fun '(e, f) => (e + d, f)) <$> l.

#[local] Arguments delay : simpl never.

(** the timers that expire before [j], and the others *)
Fixpoint expire_before (j : Z) (l : list (Z * Z)) : list (Z * Z) :=
  match l with
  | [] => []
  | (e, f) :: l => if e <? j then (e, f) :: expire_before j l else []
  end.
Definition expire_after (j : Z) (l : list (Z * Z)) : list (Z * Z) :=
  drop (length (expire_before j l)) l.
Definition last_expiry (now : Z) (l : list (Z * Z)) : Z := default now (fst <$> last l).

Lemma delay_0 l : delay 0 l = l.
Proof. unfold delay. induction l as [|[e f] l IH]; cbn; [done|]. by rewrite Z.add_0_r, IH. Qed.
Lemma expiries_shift now d l : expiries (now + d) l = delay d (expiries now l).
Proof.
  unfold delay. revert now. induction l as [|[j f] l IH]; intros now; cbn; [done|].
  f_equal; [f_equal; lia|]. rewrite <- IH. f_equal. lia.
Qed.
Lemma last_expiry_cons now ef l : last_expiry now (ef :: l) = last_expiry ef.1 l.
Proof. unfold last_expiry. destruct l as [|x l]; [done|]. rewrite last_cons_cons. destruct (last (x :: l)) eqn:H; [done|]. by apply last_None in H. Qed.

(** what the insertion does to the expiry times *)
Lemma insert_delta_expiries j f l now :
  expiries now (insert_delta (j, f) l) =
  let before := expire_before (now + j) (expiries now l) in
  before ++ (now + j, f) ::
    delay (now + j - last_expiry now before) (expire_after (now + j) (expiries now l)).
Proof.
  revert j now. induction l as [|[j' f'] l IH]; intros j now; cbn; [done|].
  destruct (Z.ltb_spec j' j) as [Hlt|Hge].
  - destruct (Z.ltb_spec (now + j') (now + j)); [|lia]. cbn.
    rewrite IH. cbn. replace (now + j' + (j - j')) with (now + j) by lia.
    by rewrite last_expiry_cons.
  - destruct (Z.ltb_spec (now + j') (now + j)); [lia|]. cbn. f_equal.
    unfold last_expiry; cbn. change (delay ?d (?x :: ?l)) with ((x.1 + d, x.2) :: delay d l).
    f_equal; [cbn; f_equal; lia|]. rewrite <- expiries_shift. f_equal. lia.
Qed.

(** ** [add_timer] on the linked list *)

Definition deltas (l : list (nat * (Z * Z))) : list (Z * Z) := l.*2.

Lemma gettimer_run i s t : timer_list s !! i = Some t -> gettimer i s = Ret t s.
Proof. intros H. unfold gettimer. mrun. by rewrite H. Qed.
Lemma settimer_run i f s t :
  timer_list s !! i = Some t -> settimer i f s = Ret tt (s <| timer_list ::= <[i := f t]> |>).
Proof. intros H. unfold settimer, gettimer. mrun. by rewrite H. Qed.

Lemma chain_frame tl tl' h l :
  (forall i, i ∈ l.*1 -> tl' !! i = tl !! i) -> chain tl h l -> chain tl' h l.
Proof.
  revert h. induction l as [|[p [j f]] l IH]; intros h Hsame; cbn; [done|].
  intros (-> & n & Hp & Hc). split; [done|]. exists n. split.
  - rewrite Hsame; [done|by left].
  - apply IH; [|done]. intros i Hi. apply Hsame. by right.
Qed.

Lemma chain_lt tl h l i : chain tl h l -> i ∈ l.*1 -> (i < length tl)%nat.
Proof.
  revert h. induction l as [|[p [j f]] l IH]; intros h; cbn; [set_solver|].
  intros (-> & n & Hp & Hc) [->|Hi]%elem_of_cons; [by apply lookup_lt_Some in Hp|eauto].
Qed.

(** one exchange: the entry moves behind its successor *)
Lemma sift_timer_swap s p q j f j' f' n :
  timer_list s !! p = Some (mk_timer j (Some f) (Some q)) ->
  timer_list s !! q = Some (mk_timer j' (Some f') n) -> p <> q ->
  0 <= j' < j -> j < 2 ^ 31 ->
  sift_timer p s = Ret (inl q) (s <| timer_list ::= fun tl =>
    <[q := mk_timer (j - j') (Some f) n]> (<[p := mk_timer j' (Some f') (Some q)]> tl) |>).
Proof.
  intros Hp Hq Hne Hj H31. unfold sift_timer.
  assert (p < length (timer_list s))%nat as Hpl by (by apply lookup_lt_Some in Hp).
  assert (q < length (timer_list s))%nat as Hql by (by apply lookup_lt_Some in Hq).
  rewrite (bind_Ret _ _ _ _ _ (gettimer_run _ _ _ Hp)). cbn [tm_next].
  rewrite (bind_Ret _ _ _ _ _ (gettimer_run _ _ _ Hq)). cbn [tm_jiffies].
  rewrite (proj2 (Z.ltb_lt j' j)) by lia.
  unfold settimer, gettimer. mrun.
  repeat first
    [ rewrite Hp | rewrite Hq | progress mrun | progress unfold upd
    | rewrite list_lookup_insert_eq by (rewrite ?length_insert; assumption)
    | rewrite list_lookup_insert_ne by congruence ].
  do 2 f_equal. rewrite s32_id by lia.
  rewrite !(list_insert_insert_ne _ p q) by done. by rewrite !list_insert_insert_eq.
Qed.

Lemma sift_timer_stop s p j f h l :
  chain (timer_list s) (Some p) ((p, (j, f)) :: l) -> h = hd_error l ->
  (forall q j' f', h = Some (q, (j', f')) -> j <= j') -> sift_timer p s = Ret (inr tt) s.
Proof.
  intros (_ & n & Hp & Hc) -> Hle. unfold sift_timer.
  rewrite (bind_Ret _ _ _ _ _ (gettimer_run _ _ _ Hp)). cbn [tm_next].
  destruct l as [|[q [j' f']] l]; cbn in Hc; [by subst n|].
  destruct Hc as (-> & n' & Hq & _).
  rewrite (bind_Ret _ _ _ _ _ (gettimer_run _ _ _ Hq)). cbn [tm_jiffies].
  specialize (Hle q j' f' eq_refl). by rewrite (proj2 (Z.ltb_ge j' j)) by lia.
Qed.

Lemma timer_list_eta s : s <| timer_list := timer_list s |> = s.
Proof. by destruct s. Qed.

(** the deltas of pending timers: non-negative, and in range for [long] *)
Definition deltas_ok (l : list (Z * Z)) : Prop := Forall (fun jf => 0 <= jf.1 < 2 ^ 31) l.

Lemma sift_loop l p j f s fuel :
  chain (timer_list s) (Some p) ((p, (j, f)) :: l) ->
  NoDup (p :: l.*1) -> deltas_ok (l.*2) -> 0 <= j < 2 ^ 31 -> (length l < fuel)%nat ->
  exists tl' l', loop fuel sift_timer p s = Ret tt (s <| timer_list := tl' |>) /\
    chain tl' (Some p) l' /\ l'.*1 = p :: l.*1 /\ l'.*2 = insert_delta (j, f) (l.*2) /\
    length tl' = length (timer_list s) /\
    (forall i, i ∉ p :: l.*1 -> tl' !! i = timer_list s !! i).
Proof.
  revert p j s fuel. induction l as [|[q [j' f']] l IH]; intros p j s [|fuel] Hc Hnd Hok Hj Hfuel;
    cbn in Hfuel; try lia.
  { exists (timer_list s), [(p, (j, f))]. split_and!; try done.
    rewrite timer_list_eta. apply loop_done, (sift_timer_stop s p j f _ _ Hc eq_refl). by intros ? ? ?. }
  apply Forall_cons in Hok as [Hj' Hok]. cbn in Hj'.
  apply NoDup_cons in Hnd as [Hpl Hnd]. cbn in Hpl, Hnd.
  assert (p <> q) as Hne by set_solver.
  destruct (Z.ltb_spec j' j) as [Hlt|Hge].
  2:{ exists (timer_list s), ((p, (j, f)) :: (q, (j', f')) :: l).
      rewrite timer_list_eta.
      split; [apply loop_done with (s' := s), (sift_timer_stop s p j f _ _ Hc eq_refl); by intros ? ? ? [= <- <- <-]|].
      split; [exact Hc|]. cbn. destruct (Z.ltb_spec j' j); [lia|]. by split_and!. }
  destruct Hc as (_ & n & Hp & Hq & n' & Hqt & Hc). subst n.
  rewrite (loop_again _ _ _ _ _ _ (sift_timer_swap s p q j f j' f' n' Hp Hqt Hne ltac:(lia) ltac:(lia))).
  set (s1 := s <| timer_list ::= _ |>).
  assert (p < length (timer_list s))%nat as Hpl' by (by apply lookup_lt_Some in Hp).
  assert (q < length (timer_list s))%nat as Hql' by (by apply lookup_lt_Some in Hqt).
  destruct (IH q (j - j') s1 fuel) as (tl' & l' & Hrun & Hc' & Hidx & Hval & Hlen & Hframe);
    [|done|done|lia|lia|].
  { cbn. split; [done|]. exists n'. split; [by rewrite list_lookup_insert_eq by (by rewrite length_insert)|].
    apply (chain_frame (timer_list s)); [|done]. intros i Hi.
    assert (i <> q /\ i <> p) as [] by (apply NoDup_cons in Hnd as [? _]; set_solver).
    by rewrite !list_lookup_insert_ne by done. }
  exists tl', ((p, (j', f')) :: l'). cbn. destruct (Z.ltb_spec j' j); [|lia].
  split; [by rewrite Hrun|]. split; [|split_and!].
  - split; [done|]. exists (Some q). split; [|done].
    rewrite Hframe by set_solver. unfold s1; cbn.
    rewrite list_lookup_insert_ne by done. by rewrite list_lookup_insert_eq.
  - by rewrite Hidx.
  - by rewrite Hval.
  - rewrite Hlen. unfold s1; cbn. by rewrite !length_insert.
  - intros i Hi. rewrite Hframe by set_solver. unfold s1; cbn.
    by rewrite !list_lookup_insert_ne by set_solver.
Qed.

Lemma free_timer_spec s i :
  free_timer s = Some i -> exists t, timer_list s !! i = Some t /\ tm_fn t = None.
Proof.
  unfold free_timer. destruct (list_find _ _) as [[k t]|] eqn:Hf; [|done]. intros [= <-].
  apply list_find_Some in Hf as (Ht & Hn & _). eauto.
Qed.

Lemma chain_busy tl h l i : chain tl h l -> i ∈ l.*1 ->
  exists j f n, tl !! i = Some (mk_timer j (Some f) n).
Proof.
  revert h. induction l as [|[p [j f]] l IH]; intros h; cbn; [set_solver|].
  intros (-> & n & Hp & Hc) [->|Hi]%elem_of_cons; eauto.
Qed.

(** the pending timers of a state: their deltas and functions, in list order;
    the first one is due at a later tick *)
Definition due_later (l : list (Z * Z)) : Prop :=
  match l with (j, _) :: _ => 0 < j | [] => True end.
Definition pending (s : sched_st) (l : list (nat * (Z * Z))) : Prop :=
  chain (timer_list s) (next_timer s) l /\ NoDup l.*1 /\ deltas_ok l.*2 /\ due_later l.*2.

Lemma insert_delta_ok j f l :
  0 <= j < 2 ^ 31 -> deltas_ok l -> deltas_ok (insert_delta (j, f) l).
Proof.
  unfold deltas_ok. intros Hj Hok. revert j Hj. induction l as [|[j' f'] l IH]; intros j Hj; cbn.
  { constructor; [cbn; lia|done]. }
  apply Forall_cons in Hok as [Hj' Hok]. cbn in Hj'. destruct (Z.ltb_spec j' j).
  - constructor; [cbn; lia|]. apply IH; [done|lia].
  - constructor; [cbn; lia|]. by constructor.
Qed.
Lemma insert_delta_due j f l : 0 < j -> due_later l -> due_later (insert_delta (j, f) l).
Proof. destruct l as [|[j' f'] l]; cbn; [done|]. by destruct (j' <? j). Qed.

Lemma timer_chain_length tl h l : chain tl h l -> NoDup l.*1 -> (length l <= length tl)%nat.
Proof.
  intros Hc Hnd. rewrite <- (length_fmap fst), <- (length_seq (length tl) 0).
  apply submseteq_length, NoDup_submseteq; [done|]. intros k Hk. apply elem_of_seq.
  apply (chain_lt _ _ _ _ Hc) in Hk. lia.
Qed.

(** ** The tick *)

(** the functions that are called at a tick when the deltas are [l], and the deltas left *)
Fixpoint fired (l : list (nat * (Z * Z))) : list Z :=
  match l with (_, (j, f)) :: l => if j <=? 0 then f :: fired l else [] | [] => [] end.
Fixpoint unfired (l : list (nat * (Z * Z))) : list (nat * (Z * Z)) :=
  match l with (p, (j, f)) :: l' => if j <=? 0 then unfired l' else l | [] => [] end.
Definition tick_head (l : list (nat * (Z * Z))) : list (nat * (Z * Z)) :=
  match l with (p, (j, f)) :: l => (p, (j - 1, f)) :: l | [] => [] end.

Lemma expiries_lower now l : deltas_ok l -> Forall (fun ef => now <= ef.1) (expiries now l).
Proof.
  unfold deltas_ok. revert now. induction l as [|[j f] l IH]; intros now; cbn; [by constructor|].
  intros [Hj Hok]%Forall_cons. cbn in Hj. constructor; [cbn; lia|].
  eapply Forall_impl; [apply IH, Hok|]. cbn. intros; lia.
Qed.

Lemma filter_all {A} (P : A -> Prop) `{!forall x, Decision (P x)} l : Forall P l -> filter P l = l.
Proof. induction 1; [done|]. rewrite filter_cons_True by done. by f_equal. Qed.
Lemma filter_none {A} (P : A -> Prop) `{!forall x, Decision (P x)} l :
  Forall (fun x => ~ P x) l -> filter P l = [].
Proof. induction 1; [done|]. by rewrite filter_cons_False. Qed.

#[local] Arguments filter : simpl never.

(** the expired timers are a prefix of the list *)
Lemma fired_expiries now l : deltas_ok l.*2 ->
  fired l = (filter (fun ef => ef.1 <= now) (expiries now l.*2)).*2.
Proof.
  unfold deltas_ok. induction l as [|[p [j f]] l IH]; cbn; [done|].
  intros [Hj Hok]%Forall_cons. cbn in Hj. destruct (Z.leb_spec j 0).
  - replace j with 0 by lia. rewrite Z.add_0_r, filter_cons_True by (cbn; lia). cbn. by rewrite IH.
  - rewrite filter_cons_False by (cbn; lia). rewrite filter_none; [done|].
    eapply Forall_impl; [apply expiries_lower, Hok|]. cbn. intros; lia.
Qed.
Lemma unfired_expiries now l : deltas_ok l.*2 ->
  expiries now (unfired l).*2 = filter (fun ef => now < ef.1) (expiries now l.*2).
Proof.
  unfold deltas_ok. induction l as [|[p [j f]] l IH]; cbn; [done|].
  intros [Hj Hok]%Forall_cons. cbn in Hj. destruct (Z.leb_spec j 0).
  - replace j with 0 by lia. rewrite Z.add_0_r, filter_cons_False by (cbn; lia). by rewrite IH.
  - rewrite filter_all; [done|]. constructor; [cbn; lia|].
    eapply Forall_impl; [apply expiries_lower, Hok|]. cbn. intros; lia.
Qed.
Lemma unfired_ok l : NoDup l.*1 -> deltas_ok l.*2 ->
  NoDup (unfired l).*1 /\ deltas_ok (unfired l).*2 /\ due_later (unfired l).*2.
Proof.
  unfold deltas_ok. induction l as [|[p [j f]] l IH]; cbn; [done|].
  intros [? Hnd]%NoDup_cons [Hj Hok]%Forall_cons. destruct (Z.leb_spec j 0); [auto|].
  split_and!; [by constructor|by constructor|done].
Qed.

(** [insert_timer] with a free entry *)
Lemma insert_timer_run c l j f : chain (timer_list c) (next_timer c) l -> NoDup l.*1 -> deltas_ok l.*2 ->
  length (timer_list c) = TIME_REQUESTS -> 0 < j < 2 ^ 31 -> is_Some (free_timer c) ->
  exists c' l', insert_timer j f c = Ret tt c' /\ chain (timer_list c') (next_timer c') l' /\ NoDup l'.*1 /\
    l'.*2 = insert_delta (j, f) l.*2 /\ length (timer_list c') = TIME_REQUESTS /\
    forall k, k ∉ l'.*1 -> k ∉ l.*1 /\ timer_list c' !! k = timer_list c !! k.
Proof.
  intros Hc Hnd Hok Hlen Hj [i Hi]. destruct (free_timer_spec _ _ Hi) as (t & Ht & Hfn).
  assert (i ∉ l.*1) as Hil.
  { intros Hin. destruct (chain_busy _ _ _ _ Hc Hin) as (? & ? & ? & Hb). by rewrite Ht in Hb; injection Hb as ->. }
  pose proof (timer_chain_length _ _ _ Hc Hnd) as Hll.
  set (c1 := c <| timer_list ::= <[i := mk_timer j (Some f) (next_timer c)]> |> <| next_timer := Some i |>).
  assert (i < length (timer_list c))%nat as Hilen by (by apply lookup_lt_Some in Ht).
  destruct (sift_loop l i j f c1 (S TIME_REQUESTS)) as (tl' & l' & Hrun & Hc' & Hidx & Hval & Hl' & Hframe);
    [|by apply NoDup_cons|done|lia|lia|].
  { cbn. split; [done|]. exists (next_timer c). rewrite list_lookup_insert_eq by done.
    split; [done|]. apply (chain_frame (timer_list c)); [|done].
    intros k Hk. rewrite list_lookup_insert_ne; [done|]. by intros ->. }
  exists (c1 <| timer_list := tl' |>), l'. split; [|split; [exact Hc'|split; [rewrite Hidx; by apply NoDup_cons|split; [exact Hval|split]]]].
  - unfold insert_timer. rewrite (bind_Ret _ _ _ (Some i) c) by (unfold gets; by rewrite Hi).
    rewrite (bind_Ret _ _ _ (next_timer c) c) by done. rewrite (bind_Ret _ _ _ _ _ (settimer_run _ _ _ _ Ht)).
    rewrite (bind_Ret _ _ _ tt c1) by done. by rewrite Hrun.
  - change (length tl' = TIME_REQUESTS). rewrite Hl'. unfold c1. cbn. by rewrite length_insert.
  - intros k Hk. rewrite Hidx in Hk. split; [set_solver|]. change (tl' !! k = timer_list c !! k). rewrite Hframe by done.
    unfold c1. cbn. rewrite list_lookup_insert_ne; [done|set_solver].
Qed.

(** C26: [add_timer] with a free slot always terminates; the new timer expires
    exactly after the requested number of ticks and the timers due before it
    keep their expiry times.  Those due later are postponed, by the time between
    the new timer and the one before it: the source subtracts the deltas it
    passes from the new entry but never the new entry's delta from its
    successor. *)
Theorem add_timer_correct {E : Env} (s : kst) (l : list (nat * (Z * Z))) (j f : Z)
  (Hpend : pending (sched s) l) (Hj : 0 < j < 2 ^ 31)
  (Hlen : length (timer_list (sched s)) = TIME_REQUESTS)
  (Hfree : is_Some (free_timer (sched s))) :
  exists c' l', add_timer j (Some f) s = Ret tt (s <| sched := c' |>) /\ pending c' l' /\
    let old := expiries 0 l.*2 in
    let before := expire_before j old in
    expiries 0 l'.*2 = before ++ (j, f) :: delay (j - last_expiry 0 before) (expire_after j old).
Proof.
  destruct Hpend as (Hc & Hnd & Hok & Hdue).
  destruct (insert_timer_run (sched s) l j f Hc Hnd Hok Hlen Hj Hfree) as (c' & l' & Hrun & Hc' & Hnd' & Hval & _).
  exists c', l'. split; [|split].
  - unfold add_timer. rewrite (proj2 (Z.leb_gt j 0)) by lia. unfold zoom_sched, zoom. by rewrite Hrun.
  - unfold pending. rewrite Hval. split_and!; [done|done|apply insert_delta_ok; [lia|done]|apply insert_delta_due; [lia|done]].
  - rewrite Hval, insert_delta_expiries. by rewrite Z.add_0_l.
Qed.

(** one timer due in 5 ticks is pending in entry 0; a timer of 3 ticks is added *)
Definition one_timer : kst :=
  boot_kst <| sched ::= fun c => c <| timer_list ::= <[0%nat := mk_timer 5 (Some 0x7000) None]> |>
                                   <| next_timer := Some 0%nat |> |>.

Lemma add_timer_correct_witness :
  exists c' l', add_timer (E := quiet_env 1) 3 (Some 0x8000) one_timer = Ret tt (one_timer <| sched := c' |>) /\
    pending c' l' /\ expiries 0 l'.*2 = [(3, 0x8000); (8, 0x7000)].
Proof.
  apply (add_timer_correct (E := quiet_env 1) one_timer [(0%nat, (5, 0x7000))] 3 0x8000).
  - split; [|split; [|split]].
    + split; [reflexivity|]. exists None. split; reflexivity.
    + apply NoDup_singleton.
    + constructor; [cbn; lia|constructor].
    + cbn. lia.
  - lia.
  - reflexivity.
  - exists 1%nat. vm_compute. reflexivity.
Defined.

(** a tick on the expiry times *)
Lemma tick_expiries p j f (l : list (nat * (Z * Z))) :
  expiries 0 ((p, (j - 1, f)) :: l).*2 = delay (-1) (expiries 0 ((p, (j, f)) :: l).*2).
Proof.
  cbn. change (delay ?d (?x :: ?l)) with ((x.1 + d, x.2) :: delay d l).
  rewrite <- expiries_shift. cbn. by rewrite Z.add_sub_assoc.
Qed.
Lemma filter_delay (P Q : Z * Z -> Prop) `{!forall x, Decision (P x), !forall x, Decision (Q x)} d l :
  (forall e f, P (e + d, f) <-> Q (e, f)) -> filter P (delay d l) = delay d (filter Q l).
Proof.
  intros Hpq. induction l as [|[e f] l IH]; [done|].
  change (delay d ((e, f) :: l)) with ((e + d, f) :: delay d l).
  destruct (decide (Q (e, f))) as [Hq|Hq].
  - rewrite !filter_cons_True by first [apply Hpq, Hq|exact Hq]. by rewrite IH.
  - rewrite !filter_cons_False by first [rewrite Hpq; exact Hq|exact Hq]. by rewrite IH.
Qed.
Lemma delay_snd d l : (delay d l).*2 = l.*2.
Proof. induction l as [|[e f] l IH]; [done|].
  change (delay d ((e, f) :: l)) with ((e + d, f) :: delay d l). cbn. by rewrite IH. Qed.

(** ** What a timer function may do

    The functions that [run_timer] calls start timers of their own.  Those are
    due later than the ones that have expired and are still to be called; the
    others may be postponed. *)

(** the calls through function pointers, last first *)
Definition calls (l : list event) : list Z := omap (fun e => match e with EvCall f => Some f | _ => None end) l.
(** the expiry times of the timers that are not due *)
Definition left_after (l : list (nat * (Z * Z))) : list (Z * Z) := expiries 0 (unfired l).*2.
(** the timers [l] are running, in a list that [add_timer] and [run_timer] can work on; every other entry is free *)
Record timers_ok (c : sched_st) (l : list (nat * (Z * Z))) : Prop := {
  tk_chain : chain (timer_list c) (next_timer c) l;
  tk_nodup : NoDup l.*1;
  tk_deltas : deltas_ok l.*2;
  tk_len : length (timer_list c) = TIME_REQUESTS;
  tk_free : forall k t, timer_list c !! k = Some t -> k ∉ l.*1 -> tm_fn t = None
}.

(** the timers that have expired stay, in their order, the expiry times of the others change
    as [T] says, and no function is called *)
Definition timer_safe (T : relation (list (Z * Z))) : relation kst := fun s s' =>
  (forall l, timers_ok (sched s) l -> exists l', timers_ok (sched s') l' /\ fired l' = fired l /\ T (left_after l) (left_after l')) /\
  calls (log s') = calls (log s).
#[export] Instance timer_safe_preorder T : PreOrder T -> PreOrder (timer_safe T).
Proof.
  intros HT. split.
  - intros s. split; [|done]. intros l Hl. by exists l.
  - intros s1 s2 s3 [H1 C1] [H2 C2]. split; [|congruence]. intros l Hl. destruct (H1 l Hl) as (l' & Hl' & F1 & T1).
    destruct (H2 l' Hl') as (l'' & Hl'' & F2 & T2). exists l''. split; [done|]. split; [congruence|]. by etransitivity.
Qed.

(** every timer is still there, and not earlier; there may be new ones *)
Inductive postponed : relation (list (Z * Z)) :=
| postponed_nil l : postponed [] l
| postponed_new x l l' : postponed l l' -> postponed l (x :: l')
| postponed_keep e e' f l l' : e <= e' -> postponed l l' -> postponed ((e, f) :: l) ((e', f) :: l').
#[export] Instance postponed_preorder : PreOrder postponed.
Proof.
  split.
  - intros l. induction l as [|[e f] l IH]; constructor; [lia|done].
  - intros l1 l2 l3 H12 H23. revert l1 H12. induction H23 as [l|x l l' _ IH|e e' f l l' He _ IH]; intros l1 H12.
    + inversion H12. constructor.
    + constructor. by apply IH.
    + inversion H12 as [|? ? ? H|? ? ? ? ? ? H]; subst; [constructor|constructor; by apply IH|constructor; [lia|by apply IH]].
Qed.
Lemma postponed_later d l : 0 <= d -> postponed l (delay d l).
Proof.
  intros Hd. induction l as [|[e f] l IH]; [constructor|].
  change (delay d ((e, f) :: l)) with ((e + d, f) :: delay d l). constructor; [lia|done].
Qed.
Lemma postponed_insert j f l now : 0 <= j -> postponed (expiries now l) (expiries now (insert_delta (j, f) l)).
Proof.
  revert j now. induction l as [|[j' f'] l IH]; intros j now Hj; [constructor|]. cbn [insert_delta fst snd].
  destruct (Z.ltb_spec j' j).
  - cbn [expiries]. constructor; [lia|]. apply IH. lia.
  - change (expiries now ((j, f) :: (j', f') :: l)) with ((now + j, f) :: expiries (now + j) ((j', f') :: l)). constructor.
    rewrite expiries_shift. by apply postponed_later.
Qed.

(** a new timer comes after the ones that have expired *)
Lemma insert_after_fired j f l l' : 0 < j -> deltas_ok l.*2 -> l'.*2 = insert_delta (j, f) l.*2 ->
  fired l' = fired l /\ (unfired l').*2 = insert_delta (j, f) (unfired l).*2.
Proof.
  intros Hj. revert l'. induction l as [|[p [j0 f0]] l IH]; intros l' Hok Hl'; cbn in Hl'.
  - destruct l' as [|[p' [j' f']] [|? ?]]; [done| |done]. injection Hl' as -> ->. cbn. destruct (Z.leb_spec j 0); [lia|done].
  - apply Forall_cons in Hok as [Hj0 Hok]. cbn in Hj0. cbn [fired unfired].
    destruct (Z.leb_spec j0 0) as [Hz|Hz].
    + assert (j0 = 0) as -> by lia. rewrite (proj2 (Z.ltb_lt 0 j)), Z.sub_0_r in Hl' by lia.
      destruct l' as [|[p' [j' f']] l']; [done|]. injection Hl' as -> -> Hl'. cbn [fired unfired]. cbn.
      destruct (IH l' Hok Hl') as [-> ->]. done.
    + assert (fired l' = [] /\ unfired l' = l') as [-> ->].
      { destruct l' as [|[p' [j' f']] l']; [done|]. cbn. assert (0 < j') as Hj'.
        { destruct (j0 <? j); injection Hl' as -> _ _; lia. }
        by destruct (Z.leb_spec j' 0); [lia|]. }
      split; [done|exact Hl'].
Qed.
Lemma insert_timer_safe j f : 0 < j < 2 ^ 31 -> guar (timer_safe postponed) (zoom_sched (insert_timer j f)).
Proof.
  intros Hj s. split.
  2:{ unfold zoom_sched, zoom. by destruct (insert_timer j f (sched s)). }
  intros l Hl. pose proof Hl as [Hc Hnd Hok Hlen Hfr]. destruct (free_timer (sched s)) as [i|] eqn:Hi.
  - destruct (insert_timer_run (sched s) l j f Hc Hnd Hok Hlen Hj ltac:(by rewrite Hi)) as (c' & l' & Hrun & Hc' & Hnd' & Hval & Hlen' & Hframe).
    destruct (insert_after_fired j f l l' ltac:(lia) Hok Hval) as [Hf Hu]. exists l'. unfold zoom_sched, zoom. rewrite Hrun.
    split; [|split; [done|]].
    + constructor; [done|done|rewrite Hval; apply insert_delta_ok; [lia|done]|done|].
      intros k t Hk Hkl. destruct (Hframe k Hkl) as [Hkl' Heq]. cbn in Hk. rewrite Heq in Hk. by apply (Hfr k t).
    + unfold left_after. rewrite Hu. apply postponed_insert. lia.
  - exists l. unfold zoom_sched, zoom, insert_timer. rewrite (bind_Ret _ _ _ None (sched s)) by (unfold gets; by rewrite Hi). done.
Qed.

(** ** The timer functions of the floppy driver *)
Section FloppySafe.
Context {E : Env}.
Abbreviation R := (timer_safe postponed).

Lemma safe_view s s' : timer_list (sched s') = timer_list (sched s) -> next_timer (sched s') = next_timer (sched s) ->
  calls (log s') = calls (log s) -> R s s'.
Proof. intros H1 H2 H3. split; [|done]. intros l [C1 C2 C3 C4 C5]. exists l. split; [|done]. constructor; rewrite ?H1, ?H2; done. Qed.
Ltac safe := guar_walk ltac:(apply guar_modify; intros ?; apply safe_view; reflexivity).
Lemma safe_on_fd f : guar R (on_fd f).
Proof. unfold on_fd. safe. Qed.
Lemma safe_printk f a : guar R (printk f a).
Proof. unfold printk. safe. Qed.
Lemma safe_outb v p : guar R (outb v p).
Proof. unfold outb. safe. Qed.
Lemma safe_inb p : guar R (inb p).
Proof. unfold inb. safe. Qed.
Lemma safe_getbh b : guar R (getbh b).
Proof. unfold getbh. safe. Qed.
#[local] Hint Resolve safe_on_fd safe_printk safe_outb safe_inb safe_getbh : guar.
Lemma safe_CURRENT_req d : guar R (CURRENT_req d).
Proof. unfold CURRENT_req, CURRENT, getreq. safe. Qed.
Lemma safe_poll_out n : guar R (poll_out n).
Proof. induction n; cbn [poll_out]; safe. Qed.
#[local] Hint Resolve safe_CURRENT_req safe_poll_out : guar.
Lemma safe_output_byte b : guar R (output_byte b).
Proof. unfold output_byte, getfd. safe. Qed.
Lemma safe_setup_DMA : guar R setup_DMA.
Proof. unfold setup_DMA, getfd. safe. Qed.
#[local] Hint Resolve safe_output_byte safe_setup_DMA : guar.

(** the controller has to be reset: no request is looked at *)
Lemma do_fd_request_reset s : nz (fd_reset (fdd s)) = true ->
  do_fd_request s = (on_fd (fun f => f <| fd_seek := 0 |>) ;; reset_floppy) s.
Proof.
  intros Hr. unfold do_fd_request. cbn [do_fd_request_n]. set (s1 := s <| fdd ::= fun f => f <| fd_seek := 0 |> |>).
  rewrite !(bind_Ret (on_fd _) _ s tt s1) by done. rewrite (bind_Ret getfd _ s1 (fdd s1) s1) by done.
  change (fd_reset (fdd s1)) with (fd_reset (fdd s)). by rewrite Hr.
Qed.
Lemma safe_if_reset (m : fd_st -> K unit) : (forall f, guar R (m f)) -> guar R (f ← getfd; if nz (fd_reset f) then do_fd_request else m f).
Proof.
  intros Hm s. rewrite (bind_Ret getfd _ s (fdd s) s) by done. destruct (nz (fd_reset (fdd s))) eqn:Hr; [|apply Hm].
  rewrite (do_fd_request_reset s Hr). revert s Hr. enough (guar R (on_fd (fun f => f <| fd_seek := 0 |>) ;; reset_floppy)) as H by (intros s _; apply H).
  unfold reset_floppy. safe.
Qed.
Lemma safe_when_reset : guar R (f ← getfd; when (nz (fd_reset f)) do_fd_request).
Proof. apply (safe_if_reset (fun _ => mret tt)). intros _. safe. Qed.
Lemma safe_getfd : guar R getfd.
Proof. unfold getfd. safe. Qed.
#[local] Hint Resolve safe_getfd : guar.
Ltac floppy := repeat first [apply safe_when_reset | apply safe_if_reset; intros ? | progress cbv zeta | guar_step fail].

Lemma safe_setup_rw_floppy : guar R setup_rw_floppy.
Proof. unfold setup_rw_floppy. floppy. Qed.
#[local] Hint Resolve safe_setup_rw_floppy : guar.
Lemma safe_transfer : guar R transfer.
Proof. unfold transfer. floppy. Qed.
#[local] Hint Resolve safe_transfer : guar.
Lemma safe_on_sched f : (forall c, timer_list (f c) = timer_list c /\ next_timer (f c) = next_timer c) -> guar R (on_sched f).
Proof. intros Hf. apply guar_modify. intros s. by apply safe_view; [apply Hf..|]. Qed.
Lemma safe_floppy_on_interrupt : guar R floppy_on_interrupt.
Proof.
  assert (guar R (add_timer 2 (Some transfer_fn))) as Hadd by exact (insert_timer_safe 2 transfer_fn ltac:(lia)).
  unfold floppy_on_interrupt. apply guar_bind; [exact _|by apply safe_on_sched|intros _].
  apply guar_bind; [exact _|safe|intros s]. apply guar_bind; [exact _|safe|intros f]. destruct (_ =? _); [safe|].
  apply guar_bind; [exact _|by apply safe_on_sched|intros _]. safe.
Qed.
End FloppySafe.

(** the functions that the driver gives to [add_timer], by their addresses; they are the only ones *)
Definition floppy_env (E : Env) : Env := {|
  env_fuel := env_fuel; env_resume := env_resume; env_in := env_in;
  env_call := fun f s =>
    if f =? transfer_fn then state_of (transfer s)
    else if f =? floppy_on_interrupt_fn then state_of (floppy_on_interrupt s)
    else s
|}.
Lemma floppy_env_safe (E : Env) f s : timer_safe postponed s (@env_call (floppy_env E) f s).
Proof. cbn. destruct (f =? _); [apply safe_transfer|]. destruct (f =? _); [apply safe_floppy_on_interrupt|reflexivity]. Qed.

(** ** [tick_timers] *)

Section Tick.
Context {E : Env} (T : relation (list (Z * Z))) {HT : PreOrder T}.
Hypothesis Hcall : forall f s, timer_safe T s (env_call f s).

(** the first timer has expired: it is taken out and called *)
Lemma run_timer_due s p f n l : timers_ok (sched s) ((p, (0, f)) :: l) -> timer_list (sched s) !! p = Some (mk_timer 0 (Some f) n) ->
  exists s1, run_timer s = Ret (inl tt) (env_call f s1) /\ timers_ok (sched s1) l /\ log s1 = EvCall f :: log s.
Proof.
  intros [(Hh & n' & Hp' & Hc) Hnd Hok Hlen Hfr] Hp. rewrite Hp in Hp'. injection Hp' as <-.
  apply NoDup_cons in Hnd as [Hpl Hnd]. apply Forall_cons in Hok as [_ Hok].
  exists (s <| sched ::= fun c => c <| timer_list ::= <[p := mk_timer 0 None n]> |> <| next_timer := n |> |> <| log ::= cons (EvCall f) |>).
  split; [|split; [|done]].
  - unfold run_timer, zoom_sched, on_sched, call. mrun. rewrite Hh. mrun. unfold gettimer. mrun. rewrite Hp. mrun.
    unfold settimer, gettimer. mrun. rewrite Hp. reflexivity.
  - constructor; [|done|done|cbn; by rewrite length_insert|].
    + cbn. apply (chain_frame (timer_list (sched s))); [|done]. intros i Hi. rewrite list_lookup_insert_ne; [done|]. by intros ->.
    + cbn. intros k t Hk Hkl. destruct (decide (k = p)) as [->|Hne].
      * rewrite list_lookup_insert_eq in Hk by (by apply lookup_lt_Some in Hp). by injection Hk as <-.
      * rewrite list_lookup_insert_ne in Hk by done. apply (Hfr k t Hk). set_solver.
Qed.
(** no timer has expired *)
Lemma run_timer_none s l : timers_ok (sched s) l -> fired l = [] -> run_timer s = Ret (inr tt) s.
Proof.
  intros [Hc _ _ _ _] Hf. unfold run_timer. destruct l as [|[p [j f]] l]; [mrun; by rewrite Hc|].
  destruct Hc as (Hh & n & Hp & _). cbn in Hf. destruct (Z.leb_spec j 0); [done|].
  unfold zoom_sched. mrun. rewrite Hh. unfold gettimer. mrun. rewrite Hp. mrun.
  rewrite (proj2 (Z.leb_gt j 0)) by done. by destruct s.
Qed.

Lemma run_loop fuel s l : timers_ok (sched s) l -> (length (fired l) < fuel)%nat ->
  exists s' l', loop fuel (fun _ => run_timer) tt s = Ret tt s' /\ timers_ok (sched s') l' /\ fired l' = [] /\
    T (left_after l) (left_after l') /\ calls (log s') = rev (fired l) ++ calls (log s).
Proof.
  revert s l. induction fuel as [|fuel IH]; intros s l Hl Hf; [lia|]. destruct (fired l) as [|f fs] eqn:Hfl.
  { exists s, l. split; [by apply loop_done, (run_timer_none s l)|]. by split_and!. }
  destruct l as [|[p [j f0]] l]; [done|]. cbn in Hfl. destruct (Z.leb_spec j 0) as [Hj|]; [|done]. injection Hfl as -> <-.
  assert (j = 0) as -> by (pose proof (tk_deltas _ _ Hl) as [H _]%Forall_cons; cbn in H; lia).
  destruct (tk_chain _ _ Hl) as (_ & n & Hp & _). destruct (run_timer_due s p f n l Hl Hp) as (s1 & Hrun & Hl1 & Hlog).
  destruct (Hcall f s1) as [Hsafe Hcalls]. destruct (Hsafe l Hl1) as (l2 & Hl2 & Hf2 & HT2).
  destruct (IH (env_call f s1) l2 Hl2) as (s' & l' & Hrun' & Hl' & Hf' & HT' & Hc'); [rewrite Hf2; cbn in Hf; lia|].
  exists s', l'. split; [rewrite <- Hrun'; by apply loop_again|]. split; [done|]. split; [done|]. split.
  - unfold left_after in *. cbn. by etransitivity.
  - rewrite Hc', Hf2, Hcalls, Hlog. cbn. by rewrite <- app_assoc.
Qed.

Lemma fired_length l : (length (fired l) <= length l)%nat.
Proof. induction l as [|[p [j f]] l IH]; cbn; [lia|]. destruct (j <=? 0); cbn; lia. Qed.
(** the timers after a tick that leaves none expired *)
Lemma none_due l : fired l = [] -> due_later l.*2 /\ left_after l = expiries 0 l.*2.
Proof. destruct l as [|[p [j f]] l]; [done|]. unfold left_after. cbn. destruct (Z.leb_spec j 0); [done|]. by split. Qed.

Lemma tick_timers_run s l : timers_ok (sched s) l -> due_later l.*2 ->
  exists s' l', tick_timers s = Ret tt s' /\ timers_ok (sched s') l' /\ due_later l'.*2 /\
    calls (log s') = rev (filter (fun ef => ef.1 <= 1) (expiries 0 l.*2)).*2 ++ calls (log s) /\
    T (delay (-1) (filter (fun ef => 1 < ef.1) (expiries 0 l.*2))) (expiries 0 l'.*2).
Proof.
  intros Hl Hdue. pose proof Hl as [Hc Hnd Hok Hlen Hfr]. pose proof (timer_chain_length _ _ _ Hc Hnd) as Hll.
  destruct l as [|[p [j f]] l].
  { exists s, []. split_and!; [|done..]. unfold tick_timers. mrun. by rewrite Hc. }
  destruct Hc as (Hh & n & Hp & Hc). apply Forall_cons in Hok as [Hj Hok]. cbn in Hj, Hdue.
  set (s1 := s <| sched ::= fun c => c <| timer_list ::= <[p := mk_timer (s32 (j - 1)) (Some f) n]> |> |>).
  assert (s32 (j - 1) = j - 1) as H32 by (apply s32_id; lia).
  assert (p < length (timer_list (sched s)))%nat as Hpl by (by apply lookup_lt_Some in Hp).
  assert (deltas_ok ((p, (j - 1, f)) :: l).*2) as Hok' by (constructor; [cbn; lia|done]).
  pose proof (fired_length ((p, (j - 1, f)) :: l)) as Hfl.
  destruct (run_loop (S TIME_REQUESTS) s1 ((p, (j - 1, f)) :: l)) as (s' & l' & Hrun & Hl' & Hf' & HT' & Hcalls).
  - constructor; [|done|done|cbn; by rewrite length_insert|].
    + unfold s1. cbn. rewrite H32. split; [done|]. exists n.
      rewrite list_lookup_insert_eq by done. split; [done|]. apply NoDup_cons in Hnd as [Hpn _].
      apply (chain_frame (timer_list (sched s))); [|done]. intros i Hi. rewrite list_lookup_insert_ne; [done|]. by intros ->.
    + cbn. intros k t Hk Hkl. rewrite list_lookup_insert_ne in Hk; [by apply (Hfr k t)|]. intros ->. apply Hkl. by left.
  - cbn [length] in Hll, Hfl. lia.
  - exists s', l'. destruct (none_due l' Hf') as [Hdue' Hleft]. split; [|split; [done|split; [done|split]]].
    + rewrite <- Hrun. unfold tick_timers, zoom_sched, settimer, gettimer. mrun. rewrite Hh. mrun. by rewrite Hp.
    + rewrite Hcalls, (fired_expiries 0) by done. rewrite tick_expiries, (filter_delay _ (fun ef => ef.1 <= 1)), delay_snd; [done|]. cbn. lia.
    + rewrite <- Hleft. unfold left_after in HT' at 1. rewrite unfired_expiries in HT' by done. rewrite tick_expiries in HT'.
      rewrite (filter_delay _ (fun ef => 1 < ef.1)) in HT'; [exact HT'|]. cbn. lia.
Qed.
End Tick.

(** C27: At a clock tick exactly the timers that are due are called, each once, in the
    order of their expiry, and removed, their entries free again, also when the functions called start
    timers of their own.  Every other timer comes one tick nearer if the functions
    leave the list alone, and is at least not called too early if they only
    postpone timers and add new ones; in general its expiry time changes as the functions change it
    ([T]).  The timer functions of the floppy driver, [transfer] and
    [floppy_on_interrupt], the only ones there are, are of the second kind. *)
Theorem tick_timers_correct :
  (forall (E : Env) (T : relation (list (Z * Z))), PreOrder T -> (forall f s, timer_safe T s (env_call f s)) ->
   forall s l, timers_ok (sched s) l -> due_later l.*2 ->
   exists s' l', tick_timers s = Ret tt s' /\ timers_ok (sched s') l' /\ due_later l'.*2 /\
     let old := expiries 0 l.*2 in
     calls (log s') = rev (filter (fun ef => ef.1 <= 1) old).*2 ++ calls (log s) /\
     T (delay (-1) (filter (fun ef => 1 < ef.1) old)) (expiries 0 l'.*2)) /\
  (forall (E : Env) f s, timer_safe postponed s (@env_call (floppy_env E) f s)).
Proof. split; [|exact floppy_env_safe]. intros E T HT Hcall s l. exact (tick_timers_run T Hcall s l). Qed.

(** the motor of drive 1 is on and drive 0 selected; at the next tick [floppy_on_interrupt] is called,
    another timer has six ticks left *)
Definition due_timer : kst :=
  boot_kst <| fdd ::= fun f => f <| current_drive := 1 |> |> <| sched ::= fun c => c <| timer_list ::= fun tl =>
      <[0%nat := mk_timer 1 (Some floppy_on_interrupt_fn) (Some 1%nat)]> (<[1%nat := mk_timer 5 (Some 0x7000) None]> tl) |>
    <| next_timer := Some 0%nat |> |>.
Lemma due_timer_ok : timers_ok (sched due_timer) [(0%nat, (1, floppy_on_interrupt_fn)); (1%nat, (5, 0x7000))].
Proof.
  constructor.
  - split; [reflexivity|]. exists (Some 1%nat). split; [reflexivity|]. split; [reflexivity|]. exists None. split; reflexivity.
  - apply (bool_decide_unpack _). vm_compute. done.
  - repeat constructor; cbn; lia.
  - reflexivity.
  - intros k t Hk Hkl. destruct k as [|[|k]]; [set_solver|set_solver|].
    apply (Forall_lookup_1 (fun t => tm_fn t = None) (drop 2 (timer_list (sched due_timer))) k t); [|by rewrite lookup_drop].
    apply (bool_decide_unpack _). vm_compute. done.
Qed.

(** with the driver's functions, and with functions that do nothing *)
Lemma tick_timers_correct_witness :
  (exists s' l', tick_timers (E := floppy_env (quiet_env 1)) due_timer = Ret tt s' /\ timers_ok (sched s') l' /\ due_later l'.*2 /\
    calls (log s') = [floppy_on_interrupt_fn] /\ postponed [(5, 0x7000)] (expiries 0 l'.*2)) /\
  (exists s' l', tick_timers (E := quiet_env 1) due_timer = Ret tt s' /\ timers_ok (sched s') l' /\ due_later l'.*2 /\
    calls (log s') = [floppy_on_interrupt_fn] /\ [(5, 0x7000)] = expiries 0 l'.*2).
Proof.
  split.
  - exact (proj1 tick_timers_correct (floppy_env (quiet_env 1)) postponed _ (proj2 tick_timers_correct (quiet_env 1))
             due_timer _ due_timer_ok eq_refl).
  - exact (proj1 tick_timers_correct (quiet_env 1) eq _ (fun f s => reflexivity s) due_timer _ due_timer_ok eq_refl).
Defined.

(** the driver starts [transfer] in two ticks, and the other timer is postponed *)
Example due_timer_run : (fun c => (fun t => (tm_jiffies t, tm_fn t)) <$> take 2 (timer_list c)) (sched (state_of (tick_timers (E := floppy_env (quiet_env 1)) due_timer))) =
  [(2, Some transfer_fn); (5, Some 0x7000)].
Proof. vm_compute. reflexivity. Qed.
