(* ===== verification/LlRw.v ===== *)
(** * kernel/blk_drv/ll_rw_blk.cc: requests to block devices and the elevator *)

From S2P Require Import Prelude State Sched Request Hd Floppy.

Section LlRw.
Context {E : Env}.

(** [(dev->request_fn)()] *)
Definition call_request_fn (d : driver) : K unit :=
  match d with
  | do_rd_request_fn => do_rd_request
  | do_hd_request_fn => do_hd_request
  | do_fd_request_fn => do_fd_request
  end.

Definition lock_buffer (b : nat) : K unit :=
  while env_fuel (x ← getbh b; mret (nz (b_lock x))) (sleep_on (WqBuffer b)) ;;
  setbh b (fun x => x <| b_lock := 1 |>).

(** the place in the queue: the request to insert after.  The queue has at most
    NR_REQUEST entries *)
Definition elevator_step (req : request) (tmp : nat) : K (nat + nat) :=
  t ← getreq tmp;
  match r_next t with
  | None => mret (inr tmp)
  | Some n =>
      tn ← getreq n;
      mret (if (IN_ORDER t req || negb (IN_ORDER t tn)) && IN_ORDER req tn then inr tmp else inl n)
  end.

Definition add_request (dev : nat) (req : nat) : K unit :=
  setreq req (fun r => r <| r_next := None |>) ;;
  r ← getreq req;
  match r_bh r with
  | Some b => setbh b (fun x => x <| b_dirt := 0 |>)
  | None => mret tt
  end ;;
  s ← gets blk; d ← deref (blk_dev s !! dev);
  match current_request d with
  | None =>
      on_blk (fun s => s <| blk_dev ::= alter (fun d => d <| current_request := Some req |>) dev |>) ;;
      f ← deref (request_fn d); call_request_fn f
  | Some tmp =>
      tmp ← loop (S NR_REQUEST) (elevator_step r) tmp;
      t ← getreq tmp;
      setreq req (fun r => r <| r_next := r_next t |>) ;;
      setreq tmp (fun t => t <| r_next := Some req |>)
  end.

(** [while (--req >= request) if (req->dev<0) break;] from [n] down *)
Fixpoint free_request (l : list request) (n : nat) : option nat :=
  match n with
  | O => None
  | S n => match l !! n with
           | Some r => if r_dev r <? 0 then Some n else free_request l n
           | None => free_request l n
           end
  end.

Definition LLRW_MSG : string := "ll_rw_block.c: buffer not locked".

(** from [repeat:] on: [None] when a read-ahead gives up *)
Definition get_request (rw : Z) (rw_ahead : bool) : K (option nat) :=
  loop env_fuel (fun _ : unit =>
    s ← gets blk;
    match free_request (requests s) (if rw =? READ then NR_REQUEST else (NR_REQUEST * 2 / 3)%nat) with
    | Some req => mret (inr (Some req))
    | None => if rw_ahead then mret (inr None) else sleep_on WqRequest ;; mret (inl tt)
    end) tt.

Definition make_request (major : nat) (rw : Z) (b : nat) : K unit :=
  x ← getbh b;
  let rw_ahead := (rw =? READA) || (rw =? WRITEA) in
  if rw_ahead && nz (b_lock x) then mret tt else
  let rw := if rw_ahead then (if rw =? READA then READ else WRITE) else rw in
  if negb (rw =? READ) && negb (rw =? WRITE) then panic "Bad block dev command, must be R/W/RA/WA" else
  lock_buffer b ;;
  x ← getbh b;
  if ((rw =? WRITE) && negb (nz (b_dirt x))) || ((rw =? READ) && nz (b_uptodate x))
  then unlock_buffer LLRW_MSG b
  else
    o ← get_request rw rw_ahead;
    match o with
    | None => unlock_buffer LLRW_MSG b
    | Some req =>
        x ← getbh b;
        setreq req (fun _ =>
          {| r_dev := b_dev x; r_cmd := rw; r_errors := 0; r_sector := u32 (Z.shiftl (b_blocknr x) 1);
             r_nr_sectors := 2; r_buffer := 0; r_waiting := None; r_bh := Some b; r_next := None |}) ;;
        add_request major req
    end.

Definition ll_rw_block (rw : Z) (b : nat) : K unit :=
  x ← getbh b; s ← gets blk;
  let major := Z.to_nat (MAJOR (b_dev x)) in
  match blk_dev s !! major ≫= request_fn with
  | None => printk "Trying to read nonexistent block-device" []
  | Some _ => make_request major rw b
  end.

Definition blk_dev_init : K unit :=
  for_each (seq 0 NR_REQUEST) (fun i =>
    setreq i (fun r => r <| r_dev := -1 |> <| r_next := None |>)).
End LlRw.
