(* ===== verification/LlRwFacts.v ===== *)
(** * The elevator: how a request enters the queue of a busy device *)

From S2P Require Import Prelude State Sched SchedFacts Request LlRw.

(** ** The order of requests *)

Definition key (r : request) : Z * Z * Z := (r_cmd r, r_dev r, r_sector r).

Lemma IN_ORDER_spec a b : IN_ORDER a b = true <->
  r_cmd a < r_cmd b \/ r_cmd a = r_cmd b /\ (r_dev a < r_dev b \/ r_dev a = r_dev b /\ r_sector a < r_sector b).
Proof. unfold IN_ORDER. rewrite !orb_true_iff, !andb_true_iff, !orb_true_iff, !andb_true_iff. lia. Qed.
Lemma IN_ORDER_trans a b c : IN_ORDER a b = true -> IN_ORDER b c = true -> IN_ORDER a c = true.
Proof. rewrite !IN_ORDER_spec. lia. Qed.
Lemma IN_ORDER_asym a b : IN_ORDER a b = true -> IN_ORDER b a = false.
Proof. rewrite <- not_true_iff_false, !IN_ORDER_spec. lia. Qed.
Lemma IN_ORDER_total a b : key a <> key b -> IN_ORDER a b = false -> IN_ORDER b a = true.
Proof.
  rewrite <- not_true_iff_false, !IN_ORDER_spec. unfold key. intros Hk Ha.
  destruct (Z.lt_total (r_cmd a) (r_cmd b)) as [|[|]], (Z.lt_total (r_dev a) (r_dev b)) as [|[|]],
    (Z.lt_total (r_sector a) (r_sector b)) as [|[|]]; try lia. congruence.
Qed.

(** ** The place of a request, on lists *)

(** where [add_request] puts [req] in the non-empty queue [l] *)
Fixpoint place (req : request) (l : list request) : list request :=
  match l with
  | [] => [req]
  | t :: l' =>
      match l' with
      | [] => [t; req]
      | n :: _ => if (IN_ORDER t req || negb (IN_ORDER t n)) && IN_ORDER req n
                  then t :: req :: l' else t :: place req l'
      end
  end.

(** how often the head has to go back while it serves [l] *)
Fixpoint turns (l : list request) : nat :=
  match l with
  | t :: (n :: _) as l' => ((if IN_ORDER n t then 1 else 0) + turns l')%nat
  | _ => 0%nat
  end.

Lemma place_head req t l : exists l', place req (t :: l) = t :: l'.
Proof. destruct l as [|n l]; cbn; [eauto|]. case_match; eauto. Qed.
Lemma place_cons req t n l : place req (t :: n :: l) =
  if (IN_ORDER t req || negb (IN_ORDER t n)) && IN_ORDER req n then t :: req :: n :: l else t :: place req (n :: l).
Proof. done. Qed.
Lemma turns_cons t n l : turns (t :: n :: l) = ((if IN_ORDER n t then 1 else 0) + turns (n :: l))%nat.
Proof. done. Qed.
Lemma turns_place_cons req t n l :
  turns (t :: place req (n :: l)) = ((if IN_ORDER n t then 1 else 0) + turns (place req (n :: l)))%nat.
Proof. destruct (place_head req n l) as [l' ->]. done. Qed.

Lemma distinct_keys req t n l : NoDup (key <$> req :: t :: n :: l) ->
  key req <> key t /\ key n <> key req /\ key t <> key n /\ NoDup (key <$> req :: n :: l).
Proof.
  cbn. rewrite !NoDup_cons, !not_elem_of_cons. intros ((Hrt & Hrn & Hr) & (Htn & _) & Hn & Hl).
  split_and!; congruence || done.
Qed.

Lemma place_rising req t l :
  NoDup (key <$> req :: t :: l) -> turns (t :: l) = 0%nat ->
  (turns (place req (t :: l)) <= 1)%nat /\ (IN_ORDER t req = true -> turns (place req (t :: l)) = 0%nat).
Proof.
  revert t. induction l as [|n l IH]; intros t Hnd Ht.
  { cbn. split; [case_match; lia|]. intros H. by rewrite (IN_ORDER_asym _ _ H). }
  rewrite turns_cons in Ht. apply distinct_keys in Hnd as (Hrt & Hnr & Htn' & Hnd').
  assert (IN_ORDER n t = false) as Hnt' by (by destruct (IN_ORDER n t)). rewrite Hnt' in Ht.
  assert (IN_ORDER t n = true) as Htn by (apply IN_ORDER_total; [congruence|done]).
  destruct (IH n Hnd' Ht) as [IH1 IH2]. rewrite place_cons, Htn. cbn [negb]. rewrite orb_false_r.
  destruct (IN_ORDER t req) eqn:Htr, (IN_ORDER req n) eqn:Hrn; cbn [andb]; rewrite ?turns_place_cons, ?Hnt'.
  - rewrite !turns_cons, (IN_ORDER_asym _ _ Htr), (IN_ORDER_asym _ _ Hrn), Ht. lia.
  - rewrite IH2; [lia|]. apply IN_ORDER_total; [congruence|done].
  - split; [lia|done].
  - split; [lia|done].
Qed.

(** a queue served in one sweep and at most one return stays one *)
Lemma place_turns req t l :
  NoDup (key <$> req :: t :: l) -> (turns (t :: l) <= 1)%nat -> (turns (place req (t :: l)) <= 1)%nat.
Proof.
  revert t. induction l as [|n l IH]; intros t Hnd Ht; [cbn; case_match; lia|].
  rewrite turns_cons in Ht. apply distinct_keys in Hnd as (Hrt & Hnr & Htn' & Hnd').
  destruct (IN_ORDER n t) eqn:Hd.
  - destruct (place_rising req n l Hnd' ltac:(lia)) as [_ Hrise].
    rewrite place_cons, (IN_ORDER_asym _ _ Hd). cbn [negb]. rewrite orb_true_r. cbn [andb].
    destruct (IN_ORDER req n) eqn:Hrn.
    + rewrite !turns_cons, (IN_ORDER_asym _ _ Hrn). destruct (IN_ORDER req t); lia.
    + rewrite turns_place_cons, Hd, Hrise; [lia|]. apply IN_ORDER_total; [congruence|done].
  - rewrite place_cons. assert (IN_ORDER t n = true) as -> by (apply IN_ORDER_total; [congruence|done]).
    cbn [negb]. rewrite orb_false_r.
    destruct (IN_ORDER t req) eqn:Htr, (IN_ORDER req n) eqn:Hrn; cbn [andb];
      rewrite ?turns_place_cons, ?Hd, ?turns_cons, ?(IN_ORDER_asym _ _ Htr), ?(IN_ORDER_asym _ _ Hrn);
      auto with lia; apply IH; done || lia.
Qed.

(** ** The queue of a device in the request table *)

(** [rq_chain rs p l]: from [p] on, the [next] pointers lead through the slots [l] *)
Fixpoint rq_chain (rs : list request) (p : option nat) (l : list nat) : Prop :=
  match l with
  | [] => p = None
  | i :: l => p = Some i /\ exists r, rs !! i = Some r /\ rq_chain rs (r_next r) l
  end.
(** the requests in these slots *)
Definition at_slots (rs : list request) (l : list nat) : list request := omap (fun i => rs !! i) l.

Lemma at_slots_cons rs i r l : rs !! i = Some r -> at_slots rs (i :: l) = r :: at_slots rs l.
Proof. intros H. cbn. by rewrite H. Qed.

Definition unlinked (r : request) : request := r <| r_next := None |>.
(** the same requests, apart from their links *)
Definition same_requests (rs rs' : list request) : Prop := unlinked <$> rs = unlinked <$> rs'.

Lemma rq_chain_frame rs rs' p l :
  rq_chain rs p l -> (forall i, i ∈ l -> rs' !! i = rs !! i) -> rq_chain rs' p l.
Proof.
  revert p. induction l as [|i l IH]; intros p; [done|]. intros [-> (r & Hr & Hl)] Hf.
  split; [done|]. exists r. split; [rewrite Hf; [done|set_solver]|]. apply IH; [done|]. intros j Hj. apply Hf. set_solver.
Qed.
Lemma rq_chain_slots rs p l i : rq_chain rs p l -> i ∈ l -> is_Some (rs !! i).
Proof.
  revert p. induction l as [|j l IH]; intros p; [by intros _ ?%elem_of_nil|].
  intros [_ (r & Hr & Hl)] [->|Hi]%elem_of_cons; eauto.
Qed.
Lemma rq_chain_length rs p l : rq_chain rs p l -> NoDup l -> (length l <= length rs)%nat.
Proof.
  intros Hc Hnd. rewrite <- (length_seq (length rs) 0). apply submseteq_length, NoDup_submseteq; [done|].
  intros i Hi. apply elem_of_seq. destruct (rq_chain_slots _ _ _ _ Hc Hi) as [r Hr]. apply lookup_lt_Some in Hr. lia.
Qed.

Section Elevator.
Context {E : Env}.

Lemma getreq_run n r s : requests (blk s) !! n = Some r -> getreq n s = Ret r s.
Proof. intros H. unfold getreq. mrun. by rewrite H. Qed.
Lemma setreq_run n f r s : requests (blk s) !! n = Some r ->
  setreq n f s = Ret tt (s <| blk ::= fun b => b <| requests ::= <[n := f r]> |> |>).
Proof. intros H. unfold setreq. rewrite (bind_Ret _ _ _ _ _ (getreq_run _ _ _ H)). done. Qed.

(** the loop finds the slot after which [place] puts the request *)
Lemma elevator_loop req rs l fuel p s : (length l < fuel)%nat -> requests (blk s) = rs ->
  rq_chain rs (Some p) (p :: l) ->
  exists l1 q l2, p :: l = l1 ++ q :: l2 /\ loop fuel (elevator_step req) p s = Ret q s /\
    place req (at_slots rs (p :: l)) = at_slots rs (l1 ++ [q]) ++ req :: at_slots rs l2.
Proof.
  intros Hf Hrs. revert p fuel Hf. induction l as [|n l IH]; intros p fuel Hf [_ (r & Hr & Hc)];
    (destruct fuel as [|fuel]; [lia|]).
  - exists [], p, []. split; [done|]. cbn in Hc. cbn. rewrite Hr. split; [|done].
    apply loop_done. unfold elevator_step. rewrite (bind_Ret _ _ _ _ _ (getreq_run p r s ltac:(by rewrite Hrs))).
    by rewrite Hc.
  - destruct Hc as [Hn (rn & Hrn & Hc)].
    assert (elevator_step req p s =
      Ret (if (IN_ORDER r req || negb (IN_ORDER r rn)) && IN_ORDER req rn then inr p else inl n) s) as Hstep.
    { unfold elevator_step. rewrite (bind_Ret _ _ _ _ _ (getreq_run p r s ltac:(by rewrite Hrs))), Hn.
      by rewrite (bind_Ret _ _ _ _ _ (getreq_run n rn s ltac:(by rewrite Hrs))). }
    rewrite (at_slots_cons _ _ _ _ Hr), (at_slots_cons _ _ _ _ Hrn).
    rewrite place_cons. case_match.
    + exists [], p, (n :: l). split; [done|]. split; [by apply loop_done|].
      cbn [app]. by rewrite (at_slots_cons _ _ _ _ Hr), (at_slots_cons _ _ _ _ Hrn).
    + destruct (IH n fuel) as (l1 & q & l2 & Heq & Hl & Hp); [cbn in Hf; lia|by split; eauto|].
      exists (p :: l1), q, l2. split; [cbn; by rewrite Heq|]. split.
      { by rewrite (loop_again _ _ _ _ _ _ Hstep). }
      rewrite <- (at_slots_cons _ _ _ _ Hrn), Hp. cbn [app]. by rewrite (at_slots_cons _ _ _ _ Hr).
Qed.

Lemma turns_unlinked l : turns (unlinked <$> l) = turns l.
Proof.
  induction l as [|t [|n l] IH]; [done..|].
  change (turns (unlinked t :: unlinked n :: (unlinked <$> l)) = turns (t :: n :: l)).
  rewrite !turns_cons. f_equal. exact IH.
Qed.
Lemma same_requests_slots rs rs' l : same_requests rs rs' ->
  unlinked <$> at_slots rs l = unlinked <$> at_slots rs' l.
Proof.
  intros Hs. induction l as [|i l IH]; [done|]. cbn.
  pose proof (f_equal (lookup i) Hs) as Hi. rewrite !list_lookup_fmap in Hi.
  destruct (rs !! i) as [r|], (rs' !! i) as [r'|]; cbn [fmap option_fmap option_map] in Hi; [|done..|done].
  apply (inj Some) in Hi. change (unlinked r :: (unlinked <$> at_slots rs l) = unlinked r' :: (unlinked <$> at_slots rs' l)).
  by rewrite Hi, IH.
Qed.
Lemma same_requests_insert rs i r r' : rs !! i = Some r -> unlinked r' = unlinked r -> same_requests rs (<[i := r']> rs).
Proof. intros Hr Hu. unfold same_requests. rewrite list_fmap_insert, Hu. symmetry. apply list_insert_id. by rewrite list_lookup_fmap, Hr. Qed.

(** linking slot [n] in after slot [q] *)
Definition link_after (q n : nat) (t r : request) (rs : list request) : list request :=
  <[q := t <| r_next := Some n |>]> (<[n := r <| r_next := r_next t |>]> rs).

Lemma link_after_chain rs p l1 q l2 n t r :
  rq_chain rs p (l1 ++ q :: l2) -> NoDup (n :: l1 ++ q :: l2) -> rs !! q = Some t -> rs !! n = Some r ->
  rq_chain (link_after q n t r rs) p (l1 ++ q :: n :: l2).
Proof.
  intros Hc [Hn Hnd]%NoDup_cons Hq Hr. revert p Hc.
  assert (forall i, i <> q -> i <> n -> link_after q n t r rs !! i = rs !! i) as Hother.
  { intros i Hiq Hin. unfold link_after. by rewrite !list_lookup_insert_ne by done. }
  apply not_elem_of_app in Hn as [Hn1 [Hnq Hn2]%not_elem_of_cons].
  apply NoDup_app in Hnd as (_ & Hl1 & [Hq2 _]%NoDup_cons).
  pose proof (lookup_lt_Some _ _ _ Hq). pose proof (lookup_lt_Some _ _ _ Hr).
  induction l1 as [|i l1 IH]; intros p [-> (x & Hx & Hc)]; cbn [app] in *.
  - assert (x = t) as -> by congruence. split; [done|]. eexists. split.
    { unfold link_after. rewrite list_lookup_insert_eq by (by rewrite length_insert). done. }
    cbn. split; [done|]. eexists. split.
    { unfold link_after. rewrite list_lookup_insert_ne, list_lookup_insert_eq by done. done. }
    apply (rq_chain_frame _ _ _ _ Hc). intros j Hj. apply Hother; congruence || (intros ->; contradiction).
  - apply not_elem_of_cons in Hn1 as [Hni Hn1]. split; [done|]. exists x.
    assert (i <> q) by (intros ->; apply (Hl1 q); [apply list_elem_of_here|apply list_elem_of_here]).
    rewrite Hother by congruence. split; [done|]. apply IH; [done| |done].
    intros j Hj. apply Hl1. by apply list_elem_of_further.
Qed.

Lemma link_after_same rs q n t r : rs !! q = Some t -> rs !! n = Some r -> q <> n ->
  same_requests rs (link_after q n t r rs).
Proof.
  intros Hq Hr Hne. unfold link_after. etransitivity; [by apply (same_requests_insert rs n r (r <| r_next := r_next t |>))|].
  apply (same_requests_insert _ q t); [by rewrite list_lookup_insert_ne|done].
Qed.
Lemma at_slots_frame rs rs' l : (forall i, i ∈ l -> rs' !! i = rs !! i) -> at_slots rs' l = at_slots rs l.
Proof.
  unfold at_slots. induction l as [|i l IH]; intros H; [done|]. cbn. rewrite H by apply list_elem_of_here.
  rewrite IH; [done|]. intros j Hj. apply H. by apply list_elem_of_further.
Qed.
(** the buffer of a request is clean once the request is in the queue *)
Definition clean_fs (b : nat) (x : buffer_head) (f : fs_st) : fs_st := f <| bufs ::= <[b := x <| b_dirt := 0 |>]> |>.

Lemma setbh_mapped b f x s : bufs (fsys s) !! b = Some x ->
  setbh b f s = Ret tt (s <| fsys ::= fun g => g <| bufs ::= <[b := f x]> |> |>).
Proof. intros H. unfold setbh, getbh. mrun. by rewrite H. Qed.

Lemma add_request_run s dev req r b x d h q t :
  requests (blk s) !! req = Some r -> r_bh r = Some b -> bufs (fsys s) !! b = Some x ->
  blk_dev (blk s) !! dev = Some d -> current_request d = Some h ->
  let s1 := s <| blk ::= fun c => c <| requests := <[req := unlinked r]> (requests (blk s)) |> |> <| fsys ::= clean_fs b x |> in
  loop (S NR_REQUEST) (elevator_step (unlinked r)) h s1 = Ret q s1 -> q <> req ->
  requests (blk s) !! q = Some t ->
  add_request dev req s = Ret tt (s1 <| blk ::= fun c => c <| requests := link_after q req t (unlinked r) (requests (blk s1)) |> |>).
Proof.
  intros Hr Hb Hx Hd Hh s1 Hloop Hne Ht. pose proof (lookup_lt_Some _ _ _ Hr) as Hlt.
  assert (requests (blk s1) !! req = Some (unlinked r)) as Hr1 by (by apply list_lookup_insert_eq).
  assert (requests (blk s1) !! q = Some t) as Ht1 by (cbn; by rewrite list_lookup_insert_ne).
  unfold add_request. mstep (setreq_run _ (fun r => r <| r_next := None |>) r s Hr).
  set (s0 := s <| blk ::= fun c => c <| requests ::= <[req := unlinked r]> |> |>).
  mstep (getreq_run req (unlinked r) s0 Hr1). change (r_bh (unlinked r)) with (r_bh r). rewrite Hb.
  mstep (setbh_mapped b (fun x => x <| b_dirt := 0 |>) x s0 Hx).
  etransitivity; [apply (bind_Ret (gets blk)); reflexivity|].
  mstep (deref_run (blk_dev (blk s) !! dev) d s1 Hd). rewrite Hh.
  mstep Hloop. mstep (getreq_run q t s1 Ht1).
  mstep (setreq_run req (fun r => r <| r_next := r_next t |>) (unlinked r) s1 Hr1).
  etransitivity; [apply (setreq_run q _ t)|done].
  cbn. by rewrite list_lookup_insert_ne.
Qed.

(** C17: A request for a busy device is linked into its queue: no request is
    lost, dropped or reordered, the one being served stays in front, the search
    for the place terminates, and the elevator works: when the requests are
    distinct and the queue is served in one sweep of the head and at most one
    return, this is still so after the insertion. *)
Theorem add_request_correct (s : kst) (dev req : nat) (r : request) (d : blk_dev_struct) (l : list nat)
  (b : nat) (x : buffer_head)
  (Hreq : requests (blk s) !! req = Some r /\ r_bh r = Some b /\ bufs (fsys s) !! b = Some x)
  (Hdev : blk_dev (blk s) !! dev = Some d)
  (Hqueue : rq_chain (requests (blk s)) (current_request d) l /\ l <> [] /\ NoDup (req :: l))
  (Hlen : length (requests (blk s)) = NR_REQUEST) :
  exists s' l1 l2, add_request dev req s = Ret tt s' /\ l = l1 ++ l2 /\ l1 <> [] /\
    rq_chain (requests (blk s')) (current_request d) (l1 ++ req :: l2) /\
    same_requests (requests (blk s)) (requests (blk s')) /\ blk_dev (blk s') = blk_dev (blk s) /\
    fsys s' = clean_fs b x (fsys s) /\
    (NoDup (key <$> r :: at_slots (requests (blk s)) l) -> (turns (at_slots (requests (blk s)) l) <= 1)%nat ->
     (turns (at_slots (requests (blk s')) (l1 ++ req :: l2)) <= 1)%nat).
Proof.
  destruct Hreq as (Hr & Hb & Hx). destruct Hqueue as (Hq & Hne & Hnd).
  pose proof (lookup_lt_Some _ _ _ Hr) as Hlt. set (rs := requests (blk s)) in *.
  set (rs1 := <[req := unlinked r]> rs).
  assert (rs1 !! req = Some (unlinked r)) as Hr1 by (by apply list_lookup_insert_eq).
  assert (req ∉ l) as Hrl by (by apply NoDup_cons in Hnd as [? _]).
  assert (rq_chain rs1 (current_request d) l) as Hq1.
  { apply (rq_chain_frame _ _ _ _ Hq). intros i Hi. apply list_lookup_insert_ne. by intros ->. }
  destruct l as [|h l]; [done|]. pose proof Hq1 as [Hh _].
  set (s1 := s <| blk ::= fun c => c <| requests := rs1 |> |> <| fsys ::= clean_fs b x |>).
  destruct (elevator_loop (unlinked r) rs1 l (S NR_REQUEST) h s1) as (l1 & q & l2 & Hl & Hrun & Hplace).
  { apply rq_chain_length in Hq; [cbn in Hq; lia|by apply NoDup_cons in Hnd as [_ ?]]. }
  { done. }
  { by rewrite Hh in Hq1. }
  assert (q <> req) as Hqr by (intros ->; apply Hrl; rewrite Hl; apply elem_of_mid).
  assert (at_slots rs1 (h :: l) = at_slots rs (h :: l)) as Hslots.
  { apply at_slots_frame. intros i Hi. apply list_lookup_insert_ne. intros ->. contradiction. }
  pose proof Hq1 as Hqq. rewrite Hl in Hqq, Hnd.
  destruct (rq_chain_slots _ _ _ q Hqq (elem_of_mid _ _ _)) as [t Ht].
  exists (s1 <| blk ::= fun c => c <| requests := link_after q req t (unlinked r) rs1 |> |>), (l1 ++ [q]), l2.
  assert (same_requests rs rs1) as Hsame by (by apply (same_requests_insert _ _ r)).
  pose proof (link_after_same rs1 q req t (unlinked r) Ht Hr1 Hqr) as Hsame'.
  split_and!; [|by rewrite <- app_assoc|by destruct l1| | |done|done|].
  - apply (add_request_run s dev req r b x d h q); try done.
    unfold rs1 in Ht. by rewrite list_lookup_insert_ne in Ht.
  - rewrite <- app_assoc. by apply link_after_chain.
  - unfold same_requests in *. by etransitivity.
  - intros Hk Ht1.
    change (turns (at_slots (link_after q req t (unlinked r) rs1) ((l1 ++ [q]) ++ req :: l2)) <= 1)%nat.
    rewrite <- turns_unlinked, <- (same_requests_slots _ _ _ Hsame'), turns_unlinked. revert Hk Ht1.
    assert (at_slots rs1 ((l1 ++ [q]) ++ req :: l2) = place (unlinked r) (at_slots rs1 (h :: l))) as ->.
    { rewrite Hplace. unfold at_slots. rewrite omap_app. f_equal. cbn. by rewrite Hr1. }
    rewrite Hslots. destruct Hq as [_ (rh & Hrh & _)]. rewrite (at_slots_cons _ _ _ _ Hrh). exact (place_turns (unlinked r) rh _).
Qed.
End Elevator.

(** a disk with three queued requests, the third behind the head *)
Definition disk_request (sector : Z) (bh : nat) (next : option nat) : request :=
  mk_request 0x301 0 0 sector 2 0 None (Some bh) next.
Definition busy_disk : kst :=
  boot_kst <| blk ::= fun b =>
       b <| requests ::= fun rs =>
              <[5%nat := disk_request 150 3 None]> (<[31%nat := disk_request 100 0 (Some 30%nat)]>
              (<[30%nat := disk_request 200 1 (Some 29%nat)]> (<[29%nat := disk_request 20 2 None]> rs))) |>
         <| blk_dev ::= <[3%nat := mk_blk_dev (Some do_hd_request_fn) (Some 31%nat)]> |> |>
    <| fsys ::= fun f => f <| bufs := replicate 4 (mk_bh [] 0 0 0x301 1 1 1 1 None None None None None) |> |>.

Lemma add_request_correct_witness : exists s', @add_request (quiet_env 1) 3 5 busy_disk = Ret tt s' /\
  rq_chain (requests (blk s')) (Some 31%nat) [31; 5; 30; 29]%nat.
Proof.
  destruct (@add_request_correct (quiet_env 1) busy_disk 3 5 (disk_request 150 3 None)
    (mk_blk_dev (Some do_hd_request_fn) (Some 31%nat)) [31; 30; 29]%nat 3
    (mk_bh [] 0 0 0x301 1 1 1 1 None None None None None)) as (s' & _ & _ & Hrun & _).
  - repeat split.
  - reflexivity.
  - split; [repeat (split; [done|]; eexists; split; [reflexivity|]); done|]. split; [done|].
    apply (bool_decide_unpack _). vm_compute. done.
  - reflexivity.
  - exists s'. split; [exact Hrun|]. vm_compute in Hrun. injection Hrun as <-.
    repeat (split; [done|]; eexists; split; [reflexivity|]). done.
Defined.
