(* ===== verification/Buffer.v ===== *)
(** * fs/buffer.cc: the buffer cache, and the locks it shares with inode.cc and super.cc

    [getblk] may write dirty buffers back, [sync_dev] writes the inodes into
    buffers first, and for that [write_inode] of inode.cc reads a block: the
    functions are mutually recursive.  Those on the cycle are defined here with
    [sync_inodes] as a parameter (suffix [_with]); Inode.v ties the knot. *)

From S2P Require Import Prelude State Memory Sched Request LlRw.

Section Locks.
Context {E : Env}.

Definition wait_on_buffer (b : nat) : K unit :=
  while env_fuel (x ← getbh b; mret (nz (b_lock x))) (sleep_on (WqBuffer b)).

Definition wait_on_inode (i : nat) : K unit :=
  while env_fuel (x ← getino i; mret (nz (i_lock x))) (sleep_on (WqInode i)).
Definition lock_inode (i : nat) : K unit :=
  wait_on_inode i ;; setino i (fun x => x <| i_lock := 1 |>).
Definition unlock_inode (i : nat) : K unit :=
  setino i (fun x => x <| i_lock := 0 |>) ;; wake_up (WqInode i).

Definition wait_on_super (n : nat) : K unit :=
  while env_fuel (x ← getsb n; mret (nz (s_lock x))) (sleep_on (WqSuper n)).
Definition lock_super (n : nat) : K unit :=
  wait_on_super n ;; setsb n (fun x => x <| s_lock := 1 |>).
Definition free_super (n : nat) : K unit :=
  setsb n (fun x => x <| s_lock := 0 |>) ;; wake_up (WqSuper n).

(** the scan starts again from the first entry when the one found changed
    while the task slept; one fuel for scan steps and restarts *)
Definition get_super (dev : Z) : K (option nat) :=
  if dev =? 0 then mret None else
  loop (S NR_SUPER * S env_fuel) (fun n : nat =>
    if decide (NR_SUPER <= n)%nat then mret (inr None) else
    x ← getsb n;
    if s_dev x =? dev then
      wait_on_super n ;;
      x ← getsb n;
      mret (if s_dev x =? dev then inr (Some n) else inl 0%nat)
    else mret (inl (S n))) 0%nat.
End Locks.

(** ** The hash table *)

Definition _hashfn (dev block : Z) : nat := Z.to_nat (u32 (Z.lxor dev block) mod Z.of_nat NR_HASH).
(** addresses of the buffer heads, from [end] in System.map; the structure has 36 bytes *)
Definition start_buffer : Z := 0x27f94.
Definition BH_SIZE : Z := 36.
Definition bh_addr (b : nat) : Z := start_buffer + BH_SIZE * Z.of_nat b.
(** [b_prev] of the structure at address 0 *)
Definition NULL_b_prev : Z := 20.

Definition hash_head (dev block : Z) : K (option nat) :=
  s ← gets fsys; deref (hash_table s !! _hashfn dev block).
Definition set_hash_head (dev block : Z) (o : option nat) : K unit :=
  on_fs (fun s => s <| hash_table ::= <[_hashfn dev block := o]> |>).

(** [remove_from_queues], first part: remove from hash-queue *)
Definition remove_from_hash (b : nat) : K unit :=
  x ← getbh b;
  match b_next x with
  | Some n => setbh n (fun y => y <| b_prev := b_prev x |>)
  | None => mret tt
  end ;;
  x ← getbh b;
  match b_prev x with
  | Some p => setbh p (fun y => y <| b_next := b_next x |>)
  | None => mret tt
  end ;;
  x ← getbh b;
  h ← hash_head (b_dev x) (b_blocknr x);
  when (bool_decide (h = Some b)) (set_hash_head (b_dev x) (b_blocknr x) (b_next x)).
(** second part: remove from free list *)
Definition remove_from_free (b : nat) : K unit :=
  x ← getbh b;
  match b_prev_free x, b_next_free x with
  | Some pf, Some nf =>
      setbh pf (fun y => y <| b_next_free := Some nf |>) ;;
      x ← getbh b; nf ← deref (b_next_free x);
      setbh nf (fun y => y <| b_prev_free := b_prev_free x |>) ;;
      x ← getbh b; s ← gets fsys;
      when (bool_decide (free_list s = Some b)) (on_fs (fun s => s <| free_list := b_next_free x |>))
  | _, _ => panic "Free block list corrupted"
  end.
Definition remove_from_queues (b : nat) : K unit := remove_from_hash b ;; remove_from_free b.

(** [insert_into_queues], first part: put at end of free list *)
Definition insert_free_tail (b : nat) : K unit :=
  s ← gets fsys; fl ← deref (free_list s);
  f ← getbh fl;
  setbh b (fun x => x <| b_next_free := Some fl |> <| b_prev_free := b_prev_free f |>) ;;
  f ← getbh fl; pf ← deref (b_prev_free f);
  setbh pf (fun x => x <| b_next_free := Some b |>) ;;
  setbh fl (fun x => x <| b_prev_free := Some b |>).
(** second part: put the buffer in new hash-queue if it has a device.  The new
    head of a chain is linked even when the chain was empty:
    [bh->b_next->b_prev = bh] then writes through a NULL pointer *)
Definition insert_hash_head (b : nat) : K unit :=
  setbh b (fun x => x <| b_prev := None |> <| b_next := None |>) ;;
  x ← getbh b;
  if b_dev x =? 0 then mret tt else
  h ← hash_head (b_dev x) (b_blocknr x);
  setbh b (fun x => x <| b_next := h |>) ;;
  set_hash_head (b_dev x) (b_blocknr x) (Some b) ;;
  match h with
  | Some n => setbh n (fun y => y <| b_prev := Some b |>)
  | None => zoom_mm (store NULL_b_prev (bh_addr b))
  end.
Definition insert_into_queues (b : nat) : K unit := insert_free_tail b ;; insert_hash_head b.

(** a chain has at most as many members as there are buffers *)
Definition find_buffer (dev block : Z) : K (option nat) :=
  s ← gets fsys; h ← hash_head dev block;
  loop (S (length (bufs s))) (fun tmp : option nat =>
    match tmp with
    | None => mret (inr None)
    | Some b =>
        x ← getbh b;
        mret (if (b_dev x =? dev) && (s32 (b_blocknr x) =? block) then inr (Some b) else inl (b_next x))
    end) h.

Section Cache.
Context {E : Env}.

Definition NR_BUFFERS : K nat := gets (fun s => length (bufs (fsys s))).
Definition each_buffer (f : nat -> K unit) : K unit := n ← NR_BUFFERS; for_each (seq 0 n) f.

Definition get_hash_table (dev block : Z) : K (option nat) :=
  loop env_fuel (fun _ : unit =>
    o ← find_buffer dev block;
    match o with
    | None => mret (inr None)
    | Some b =>
        setbh b (fun x => x <| b_count ::= fun c => u8 (c + 1) |>) ;;
        wait_on_buffer b ;;
        x ← getbh b;
        if (b_dev x =? dev) && (s32 (b_blocknr x) =? block) then mret (inr (Some b)) else
        setbh b (fun x => x <| b_count ::= fun c => u8 (c - 1) |>) ;; mret (inl tt)
    end) tt.

(** [BADNESS(bh)] *)
Definition BADNESS (x : buffer_head) : Z := Z.shiftl (b_dirt x) 1 + b_lock x.

(** the scan of the free list: the best unused buffer *)
Definition scan_free : K (option nat) :=
  s ← gets fsys; first ← deref (free_list s);
  loop (S (length (bufs s))) (fun '(tmp, bh) =>
    x ← getbh tmp;
    let again (bh : option nat) : K ((nat * option nat) + option nat) :=
      next ← deref (b_next_free x);
      mret (if decide (next = first) then inr bh else inl (next, bh)) in
    if nz (b_count x) then again bh else
    y ← match bh with Some b => y ← getbh b; mret (Some y) | None => mret None end;
    if match y with Some y => BADNESS x <? BADNESS y | None => true end
    then (if BADNESS x =? 0 then mret (inr (Some tmp)) else again (Some tmp))
    else again bh) (first, None).

Definition brelse (o : option nat) : K unit :=
  match o with
  | None => mret tt
  | Some b =>
      wait_on_buffer b ;;
      x ← getbh b;
      setbh b (fun x => x <| b_count ::= fun c => u8 (c - 1) |>) ;;
      if b_count x =? 0 then panic "Trying to free free buffer" else
      wake_up WqBufferWait
  end.

(** ** The functions on the cycle through [sync_inodes] *)
Section Sync.
Variable sync_inodes : K unit.

Definition sync_buffers (dev : Z) : K unit :=
  each_buffer (fun b =>
    x ← getbh b;
    if negb (b_dev x =? dev) then mret tt else
    wait_on_buffer b ;;
    x ← getbh b;
    when ((b_dev x =? dev) && nz (b_dirt x)) (ll_rw_block WRITE b)).
Definition sync_dev_with (dev : Z) : K Z :=
  sync_buffers dev ;; sync_inodes ;; sync_buffers dev ;; mret 0.

(** [while (bh->b_dirt)]: [false] when somebody took the buffer *)
Definition clean_buffer (b : nat) : K bool :=
  loop env_fuel (fun _ : unit =>
    x ← getbh b;
    if negb (nz (b_dirt x)) then mret (inr true) else
    sync_dev_with (b_dev x) ;;
    wait_on_buffer b ;;
    x ← getbh b;
    mret (if nz (b_count x) then inr false else inl tt)) tt.

(** the buffer is taken out of the queues and put in again under its new name *)
Definition rename_buffer (b : nat) (dev block : Z) : K unit :=
  setbh b (fun x => x <| b_count := 1 |> <| b_dirt := 0 |> <| b_uptodate := 0 |>) ;;
  remove_from_queues b ;;
  setbh b (fun x => x <| b_dev := u16 dev |> <| b_blocknr := u32 block |>) ;;
  insert_into_queues b.

Definition getblk_with (dev block : Z) : K nat :=
  loop env_fuel (fun _ : unit =>
    o ← get_hash_table dev block;
    match o with
    | Some b => mret (inr b)
    | None =>
        o ← scan_free;
        match o with
        | None => sleep_on WqBufferWait ;; mret (inl tt)
        | Some b =>
            wait_on_buffer b ;;
            x ← getbh b;
            if nz (b_count x) then mret (inl tt) else
            ok ← clean_buffer b;
            if negb ok then mret (inl tt) else
            o ← find_buffer dev block;
            match o with
            | Some _ => mret (inl tt)
            | None => rename_buffer b dev block ;; mret (inr b)
            end
        end
    end) tt.

Definition bread_with (dev block : Z) : K (option nat) :=
  b ← getblk_with dev block;
  x ← getbh b;
  if nz (b_uptodate x) then mret (Some b) else
  ll_rw_block READ b ;;
  wait_on_buffer b ;;
  x ← getbh b;
  if nz (b_uptodate x) then mret (Some b) else
  brelse (Some b) ;; mret None.
End Sync.

Definition invalidate_buffers (dev : Z) : K unit :=
  each_buffer (fun b =>
    x ← getbh b;
    if negb (b_dev x =? dev) then mret tt else
    wait_on_buffer b ;;
    x ← getbh b;
    when (b_dev x =? dev) (setbh b (fun x => x <| b_uptodate := 0 |> <| b_dirt := 0 |>))).

(** ** Start-up *)

(** [while ((b -= BLOCK_SIZE) >= h+1)]: the heads grow up from
    [end], the blocks down from [b], around the video memory and the ROMs *)
Fixpoint buffer_heads (fuel : nat) (b : Z) (h : nat) : list buffer_head :=
  match fuel with
  | O => []
  | S fuel =>
      let b := b - BLOCK_SIZE in
      if b <? bh_addr (h + 1) then [] else
      {| b_data := replicate 1024 0; b_addr := b; b_blocknr := 0; b_dev := 0; b_uptodate := 0; b_dirt := 0;
         b_count := 0; b_lock := 0; b_wait := None; b_prev := None; b_next := None;
         b_prev_free := Some (h - 1)%nat; b_next_free := Some (h + 1)%nat |}
      :: buffer_heads fuel (if b =? 0x100000 then 0xA0000 else b) (S h)
  end.
Definition buffer_init (buffer_end : Z) : K unit :=
  let b := if buffer_end =? Z.shiftl 1 20 then 640 * 1024 else buffer_end in
  let l := buffer_heads (Z.to_nat (b / BLOCK_SIZE)) b 0 in
  on_fs (fun s => s <| bufs := l |> <| free_list := Some 0%nat |> <| hash_table := replicate NR_HASH None |>) ;;
  let h := (length l - 1)%nat in
  setbh 0 (fun x => x <| b_prev_free := Some h |>) ;;
  setbh h (fun x => x <| b_next_free := Some 0%nat |>).
End Cache.
