(* ===== verification/BufferFacts.v ===== *)
(** * fs/buffer.cc: the queues of the buffer cache

    The free list is a ring of all buffers through [b_prev_free] and
    [b_next_free]; every buffer with a device is in the chain of its hash value
    through [b_prev] and [b_next].  The two parts of [remove_from_queues] and
    [insert_into_queues] are shown to implement removal and insertion on lists
    of buffer numbers. *)

From S2P Require Import Prelude Bits State Memory Sched Request LlRw Buffer.

(** ** Doubly linked lists over link functions *)
Section Links.
Implicit Types (N P : nat -> option nat) (l : list nat).

Definition joined N P (oa ob : option nat) : Prop :=
  match oa, ob with Some a, Some b => N a = Some b /\ P b = Some a | _, _ => True end.
Fixpoint linked N P l : Prop :=
  match l with a :: l' => joined N P (Some a) (head l') /\ linked N P l' | [] => True end.

Lemma head_app l1 l2 : head (l1 ++ l2) = match head l1 with Some a => Some a | None => head l2 end.
Proof. by destruct l1. Qed.
Lemma last_app' l1 l2 : last (l1 ++ l2) = match last l2 with Some a => Some a | None => last l1 end.
Proof. apply last_app. Qed.

Lemma linked_app N P l1 l2 :
  linked N P (l1 ++ l2) <-> (linked N P l1) /\ (linked N P l2) /\ joined N P (last l1) (head l2).
Proof.
  induction l1 as [|a l1 IH]; [cbn; tauto|]. cbn [app linked]. rewrite IH, head_app.
  destruct l1 as [|b l1]; [cbn; tauto|]. cbn [head]. change (last (a :: b :: l1)) with (last (b :: l1)). tauto.
Qed.

(** only the links inside the list matter *)
Lemma linked_ext N P N' P' l :
  (forall i, i ∈ l -> last l <> Some i -> N' i = N i) ->
  (forall i, i ∈ l -> head l <> Some i -> P' i = P i) -> NoDup l ->
  linked N P l -> linked N' P' l.
Proof.
  induction l as [|a l IH]; intros HN HP Hnd; [done|]. apply NoDup_cons in Hnd as [Ha Hnd].
  cbn [linked]. intros [Hj Hl]. destruct l as [|b l]; [done|]. split.
  - cbn in *. destruct Hj as [Hj1 Hj2]. split.
    + rewrite HN; [done|by left|]. intros [= Hlast]. apply Ha. apply last_Some_elem_of. exact Hlast.
    + rewrite HP; [done|by right; left|]. intros [= ->]. apply Ha. by left.
  - apply IH; [| |done|done].
    + intros i Hi Hlast. apply HN; [by right|done].
    + intros i Hi Hh. apply HP; [by right|]. intros [= ->]. by apply Ha.
Qed.

(** a chain: NULL at both ends *)
Definition chain N P l : Prop :=
  linked N P l /\ (forall a, last l = Some a -> N a = None) /\ (forall a, head l = Some a -> P a = None).

Lemma chain_neighbours N P l1 b l2 : chain N P (l1 ++ b :: l2) -> N b = head l2 /\ P b = last l1.
Proof.
  intros (Hl & Hlast & Hhead). apply linked_app in Hl as (_ & [Hj2 _] & Hj1). split.
  - destruct l2 as [|c l2]; [|by destruct Hj2]. apply Hlast. by rewrite last_snoc.
  - destruct l1 as [|a l1 _] using rev_ind; [by apply Hhead|].
    rewrite last_snoc in *. by destruct Hj1.
Qed.

Lemma NoDup_middle l1 (b : nat) l2 : NoDup (l1 ++ b :: l2) ->
  NoDup l1 /\ NoDup l2 /\ (b ∉ l1) /\ (b ∉ l2) /\ (forall i, i ∈ l1 -> i ∈ l2 -> False).
Proof.
  intros (H1 & H2 & H3)%NoDup_app. apply NoDup_cons in H3 as [H3 H4]. split_and!; try done.
  - intros Hb. apply (H2 b Hb). by left.
  - intros i Hi1 Hi2. apply (H2 i Hi1). by right.
Qed.
Lemma head_elem l (i : nat) : head l = Some i -> i ∈ l.
Proof. destruct l; [done|]. intros [= ->]. by left. Qed.

Lemma chain_remove N P N' P' l1 b l2 :
  NoDup (l1 ++ b :: l2) -> chain N P (l1 ++ b :: l2) ->
  (forall i, i ∈ l1 ++ l2 -> N' i = if decide (last l1 = Some i) then head l2 else N i) ->
  (forall i, i ∈ l1 ++ l2 -> P' i = if decide (head l2 = Some i) then last l1 else P i) ->
  chain N' P' (l1 ++ l2).
Proof.
  intros (Hn1 & Hn2 & Hb1 & Hb2 & Hdis)%NoDup_middle (Hl & Hlast & Hhead) HN HP.
  apply linked_app in Hl as (L1 & [_ L2] & _).
  assert (forall i, i ∈ l1 -> head l2 <> Some i) as D1 by (intros i Hi Hh; by apply (Hdis i), head_elem).
  assert (forall i, i ∈ l2 -> last l1 <> Some i) as D2
    by (intros i Hi Hh; eapply Hdis; [by apply last_Some_elem_of|done]).
  split; [|split].
  - apply linked_app. split_and!.
    + apply (linked_ext N P); [|  |done|done].
      * intros i Hi Hi'. rewrite HN by set_solver. by rewrite decide_False.
      * intros i Hi Hi'. rewrite HP by set_solver. rewrite decide_False by auto. done.
    + apply (linked_ext N P); [| |done|done].
      * intros i Hi Hi'. rewrite HN by set_solver. rewrite decide_False by auto. done.
      * intros i Hi Hi'. rewrite HP by set_solver. by rewrite decide_False.
    + destruct (last l1) as [a|] eqn:Ha; [|done]. destruct (head l2) as [c|] eqn:Hc; [|done]. split.
      * rewrite HN by (apply elem_of_app; left; by apply last_Some_elem_of). by rewrite decide_True.
      * rewrite HP by (apply elem_of_app; right; by apply head_elem). by rewrite decide_True.
  - intros a Ha. rewrite HN by (by apply last_Some_elem_of). rewrite last_app in Ha.
    destruct (last l2) as [c|] eqn:Hc.
    + injection Ha as ->. rewrite decide_False by (apply D2; by apply last_Some_elem_of).
      apply Hlast. by rewrite last_app, last_cons, Hc.
    + rewrite decide_True by done. by destruct l2 using rev_ind; [|rewrite last_snoc in Hc].
  - intros a Ha. rewrite HP by (by apply head_elem). rewrite head_app in Ha. destruct l1 as [|c l1].
    + cbn in Ha. by rewrite decide_True.
    + injection Ha as ->. rewrite decide_False by (apply D1; by left). by apply Hhead.
Qed.

Lemma chain_cons N P N' P' b l :
  b ∉ l -> NoDup l -> chain N P l -> N' b = head l -> P' b = None ->
  (forall i, i ∈ l -> N' i = N i) ->
  (forall i, i ∈ l -> P' i = if decide (head l = Some i) then Some b else P i) ->
  chain N' P' (b :: l).
Proof.
  intros Hb Hnd (Hl & Hlast & Hhead) HNb HPb HN HP. split; [|split].
  - split.
    + destruct l as [|c l]; [done|]. split; [done|]. rewrite HP by left. by rewrite decide_True.
    + apply (linked_ext N P); [auto| |done|done]. intros i Hi Hh. rewrite HP by done. by rewrite decide_False.
  - intros a. rewrite last_cons. destruct (last l) as [c|] eqn:Hc.
    + intros [= ->]. rewrite HN by (by apply last_Some_elem_of). by apply Hlast.
    + intros [= <-]. rewrite HNb. by destruct l using rev_ind; [|rewrite last_snoc in Hc].
  - by intros a [= <-].
Qed.

(** a ring: the last leads back to the first *)
Definition ring N P l : Prop := linked N P l /\ joined N P (last l) (head l).

Lemma ring_rotate N P l1 l2 : ring N P (l1 ++ l2) <-> ring N P (l2 ++ l1).
Proof.
  destruct l1 as [|a l1]; [by rewrite app_nil_r|]. destruct l2 as [|b l2]; [by rewrite app_nil_r|].
  unfold ring. rewrite !linked_app, !last_app, !head_app.
  destruct (last (a :: l1)) eqn:E1; [|by destruct (last_is_Some (a :: l1)) as [_ H]; destruct H; [|congruence]].
  destruct (last (b :: l2)) eqn:E2; [|by destruct (last_is_Some (b :: l2)) as [_ H]; destruct H; [|congruence]].
  cbn [head]. tauto.
Qed.

Lemma ring_neighbours N P b m : m <> [] -> ring N P (b :: m) -> N b = head m /\ P b = last m.
Proof.
  intros Hm [[Hj Hl] Hr]. destruct m as [|c m]; [done|]. split; [by destruct Hj|].
  rewrite last_cons in Hr. destruct (last (c :: m)) as [a|] eqn:Ha; [by destruct Hr|].
  by apply last_None in Ha.
Qed.

Lemma ring_remove N P N' P' b m :
  NoDup m -> ring N P (b :: m) ->
  (forall i, i ∈ m -> N' i = if decide (last m = Some i) then head m else N i) ->
  (forall i, i ∈ m -> P' i = if decide (head m = Some i) then last m else P i) ->
  ring N' P' m.
Proof.
  intros Hnd [[_ Hl] _] HN HP. split.
  - apply (linked_ext N P); [| |done|done].
    + intros i Hi Hh. rewrite HN by done. by rewrite decide_False.
    + intros i Hi Hh. rewrite HP by done. by rewrite decide_False.
  - destruct (last m) as [a|] eqn:Ha; [|done]. destruct (head m) as [c|] eqn:Hc; [|done]. split.
    + rewrite HN by (by apply last_Some_elem_of). by rewrite decide_True.
    + rewrite HP by (by apply head_elem). by rewrite decide_True.
Qed.

Lemma ring_insert N P N' P' b m h t :
  NoDup m -> b ∉ m -> head m = Some h -> last m = Some t -> ring N P m -> N' b = Some h -> P' b = Some t ->
  (forall i, i ∈ m -> N' i = if decide (i = t) then Some b else N i) ->
  (forall i, i ∈ m -> P' i = if decide (i = h) then Some b else P i) ->
  ring N' P' (m ++ [b]).
Proof.
  intros Hnd Hb Hh Ht [Hl _] HNb HPb HN HP. split.
  - apply linked_app. split_and!; [|done|].
    + apply (linked_ext N P); [| |done|done].
      * intros i Hi Hi'. rewrite HN by done. rewrite decide_False by congruence. done.
      * intros i Hi Hi'. rewrite HP by done. rewrite decide_False by congruence. done.
    + rewrite Ht. split; [|done]. rewrite HN by (by apply last_Some_elem_of). by rewrite decide_True.
  - rewrite last_snoc, head_app, Hh. split; [done|]. rewrite HP by (by apply head_elem). by rewrite decide_True.
Qed.
End Links.

(** ** The representation *)

Definition without (b : nat) (l : list nat) : list nat := filter (fun i => i <> b) l.

Lemma without_id b l : b ∉ l -> without b l = l.
Proof.
  unfold without. induction l as [|i l IH]; intros Hb; [done|].
  rewrite filter_cons_True by (intros ->; apply Hb; by left). f_equal. apply IH. intros Hin. apply Hb. by right.
Qed.
Lemma without_middle b l1 l2 : NoDup (l1 ++ b :: l2) -> without b (l1 ++ b :: l2) = l1 ++ l2.
Proof.
  intros (Hn1 & Hn2 & Hb1 & Hb2 & _)%NoDup_middle.
  unfold without. rewrite filter_app, filter_cons_False by naive_solver. f_equal; by apply without_id.
Qed.
Lemma elem_of_without b l i : i ∈ without b l <-> (i <> b) /\ i ∈ l.
Proof. unfold without. by rewrite list_elem_of_filter. Qed.
Lemma without_NoDup b l : NoDup l -> NoDup (without b l).
Proof. apply NoDup_filter. Qed.

(** the part of a buffer head the hash queues are about *)
Record hlink : Type := mk_hlink { h_dev : Z; h_blk : Z; h_prev : option nat; h_next : option nat }.
Definition hview (x : buffer_head) : hlink := mk_hlink (b_dev x) (b_blocknr x) (b_prev x) (b_next x).
Definition nx (V : list hlink) (i : nat) : option nat := V !! i ≫= h_next.
Definition pv (V : list hlink) (i : nat) : option nat := V !! i ≫= h_prev.

(** the buffers [V] and the table [tbl] hold the chains [ch]; buffer [out], if
    any, is between two chains *)
Record hash_rep (V : list hlink) (tbl : list (option nat)) (ch : nat -> list nat) (out : option nat) : Prop := {
  hr_len : length tbl = NR_HASH;
  hr_head : forall k, (k < NR_HASH)%nat -> tbl !! k = Some (head (ch k));
  hr_chain : forall k, (k < NR_HASH)%nat -> chain (nx V) (pv V) (ch k);
  hr_nodup : forall k, (k < NR_HASH)%nat -> NoDup (ch k);
  hr_mem : forall k i, (k < NR_HASH)%nat -> i ∈ ch k -> exists v, V !! i = Some v /\ h_dev v <> 0 /\
    _hashfn (h_dev v) (h_blk v) = k /\ out <> Some i;
  hr_in : forall i v, V !! i = Some v -> out <> Some i ->
    if h_dev v =? 0 then h_next v = None /\ h_prev v = None else i ∈ ch (_hashfn (h_dev v) (h_blk v))
}.

Definition fnx (bs : list buffer_head) (i : nat) : option nat := bs !! i ≫= b_next_free.
Definition fpv (bs : list buffer_head) (i : nat) : option nat := bs !! i ≫= b_prev_free.

(** [l] is the free list of the buffers [bs], from [first] on *)
Record free_rep (bs : list buffer_head) (first : option nat) (l : list nat) : Prop := {
  fr_first : first = head l;
  fr_ring : ring (fnx bs) (fpv bs) l;
  fr_nodup : NoDup l
}.

(** no two buffers hold the same block of a device; the names are in range *)
Record names_ok (V : list hlink) : Prop := {
  no_range : forall i v, V !! i = Some v -> 0 <= h_dev v < 2 ^ 16 /\ 0 <= h_blk v < 2 ^ 32;
  no_uniq : forall i j v w, V !! i = Some v -> V !! j = Some w ->
    h_dev v <> 0 -> h_dev v = h_dev w -> h_blk v = h_blk w -> i = j
}.

Record cache_rep (F : fs_st) (l : list nat) (ch : nat -> list nat) : Prop := {
  cr_hash : hash_rep (hview <$> bufs F) (hash_table F) ch None;
  cr_free : free_rep (bufs F) (free_list F) l;
  cr_all : forall i, i ∈ l <-> (i < length (bufs F))%nat;
  cr_names : names_ok (hview <$> bufs F)
}.

(** ** Stepping through the buffer heads *)

Definition with_fs (s : kst) (F : fs_st) : kst := s <| fsys := F |>.
Lemma with_fs_id s : with_fs s (fsys s) = s.
Proof. by destruct s. Qed.

Lemma alter_lookup {A} (f : A -> A) (n : nat) (l : list A) i : alter f n l !! i = if decide (i = n) then f <$> l !! i else l !! i.
Proof.
  destruct (decide (i = n)) as [->|Hn]; [apply list_lookup_alter_eq|by apply list_lookup_alter_ne].
Qed.
Lemma alter_insert {A} (f : A -> A) (n : nat) (l : list A) x : l !! n = Some x -> <[n := f x]> l = alter f n l.
Proof.
  intros Hx. apply list_eq. intros i. rewrite alter_lookup. destruct (decide (i = n)) as [->|Hn].
  - rewrite Hx. apply list_lookup_insert_eq. by eapply lookup_lt_Some.
  - by apply list_lookup_insert_ne.
Qed.
Lemma fmap_alter_same {A B} (g : A -> B) (f : A -> A) (n : nat) (l : list A) : (forall x, g (f x) = g x) -> g <$> alter f n l = g <$> l.
Proof.
  intros Hg. apply list_eq. intros i. rewrite !list_lookup_fmap, alter_lookup.
  case_decide; [|done]. destruct (l !! i); cbn; by rewrite ?Hg.
Qed.

Lemma getbh_run b s F x : bufs F !! b = Some x -> getbh b (with_fs s F) = Ret x (with_fs s F).
Proof. intros H. unfold getbh. mrun. by rewrite H. Qed.
Lemma setbh_run b f s F x : bufs F !! b = Some x ->
  setbh b f (with_fs s F) = Ret tt (with_fs s (F <| bufs ::= alter f b |>)).
Proof.
  intros H. unfold setbh. rewrite (bind_Ret _ _ _ _ _ (getbh_run _ _ _ _ H)).
  unfold on_fs, modify, with_fs. unfold upd. cbn. rewrite (alter_insert _ _ _ _ H). by destruct F.
Qed.
(** [if (p) p->... = ...] *)
Definition oalter (f : buffer_head -> buffer_head) (o : option nat) (bs : list buffer_head) : list buffer_head :=
  match o with Some n => alter f n bs | None => bs end.
Lemma osetbh_run o f s F : (forall n, o = Some n -> is_Some (bufs F !! n)) ->
  match o with Some n => setbh n f | None => mret tt end (with_fs s F) = Ret tt (with_fs s (F <| bufs ::= oalter f o |>)).
Proof.
  intros H. destruct o as [n|]; [|by destruct F]. destruct (H n eq_refl) as [x Hx]. by rewrite (setbh_run _ _ _ _ _ Hx).
Qed.
Lemma oalter_lookup f o bs i :
  oalter f o bs !! i = if decide (o = Some i) then f <$> bs !! i else bs !! i.
Proof.
  destruct o as [n|]; cbn; [|done]. rewrite alter_lookup. destruct (decide (i = n)) as [->|Hn].
  - by rewrite decide_True.
  - rewrite decide_False by congruence. done.
Qed.
Lemma fmap_oalter_same {B} (g : buffer_head -> B) f o bs : (forall x, g (f x) = g x) -> g <$> oalter f o bs = g <$> bs.
Proof. intros Hg. destruct o; [by apply fmap_alter_same|done]. Qed.

Lemma hash_lt dev block : (_hashfn dev block < NR_HASH)%nat.
Proof. unfold _hashfn, NR_HASH. pose proof (Z.mod_pos_bound (u32 (Z.lxor dev block)) 307). lia. Qed.
Lemma hash_head_run dev block s F o : hash_table F !! _hashfn dev block = Some o ->
  hash_head dev block (with_fs s F) = Ret o (with_fs s F).
Proof. intros H. unfold hash_head. rewrite (bind_Ret _ _ _ F (with_fs s F)) by done. by apply deref_run. Qed.
Lemma set_hash_head_run dev block o s F :
  set_hash_head dev block o (with_fs s F) = Ret tt (with_fs s (F <| hash_table ::= <[_hashfn dev block := o]> |>)).
Proof. by destruct F. Qed.

(** ** Remove from hash-queue *)

Definition sans_hash (x : buffer_head) : buffer_head := x <| b_prev := None |> <| b_next := None |>.

Lemma hash_rep_head V tbl ch out k i : hash_rep V tbl ch out -> (k < NR_HASH)%nat ->
  tbl !! k = Some (Some i) -> i ∈ ch k.
Proof. intros Hr Hk Ht. rewrite (hr_head _ _ _ _ Hr k Hk) in Ht. injection Ht as Ht. by apply head_elem. Qed.
Lemma hash_rep_lt bs tbl ch out k i : hash_rep (hview <$> bs) tbl ch out -> (k < NR_HASH)%nat -> i ∈ ch k -> is_Some (bs !! i).
Proof.
  intros Hr Hk Hi. destruct (hr_mem _ _ _ _ Hr k i Hk Hi) as (v & Hv & _). rewrite list_lookup_fmap in Hv.
  destruct (bs !! i); [eauto|done].
Qed.

(** the links of a chain member are inside the chain *)
Lemma hash_rep_links bs tbl ch out b x : hash_rep (hview <$> bs) tbl ch out -> bs !! b = Some x -> out <> Some b ->
  b_dev x <> 0 ->
  exists l1 l2, ch (_hashfn (b_dev x) (b_blocknr x)) = l1 ++ b :: l2 /\ NoDup (l1 ++ b :: l2) /\
    b_next x = head l2 /\ b_prev x = last l1.
Proof.
  intros Hr Hx Hout Hd. pose proof (hr_in _ _ _ _ Hr b (hview x)) as Hin.
  rewrite list_lookup_fmap, Hx in Hin. specialize (Hin eq_refl Hout).
  change (h_dev (hview x)) with (b_dev x) in Hin. rewrite (proj2 (Z.eqb_neq _ _) Hd) in Hin.
  change (h_blk (hview x)) with (b_blocknr x) in Hin.
  pose proof (hash_lt (b_dev x) (b_blocknr x)) as Hk. set (k := _hashfn _ _) in *.
  apply list_elem_of_split in Hin as (l1 & l2 & Heq). exists l1, l2. split; [done|].
  pose proof (hr_nodup _ _ _ _ Hr k Hk) as Hnd. pose proof (hr_chain _ _ _ _ Hr k Hk) as Hch. rewrite Heq in *.
  split; [done|]. apply chain_neighbours in Hch. unfold nx, pv in Hch. by rewrite list_lookup_fmap, Hx in Hch.
Qed.

(** what taking [b] out does to the links *)
Definition hash_unlinked (x : buffer_head) (bs : list buffer_head) : list buffer_head :=
  oalter (fun y => y <| b_next := b_next x |>) (b_prev x) (oalter (fun y => y <| b_prev := b_prev x |>) (b_next x) bs).
Lemma hash_unlinked_lookup x bs i : hash_unlinked x bs !! i =
  (fun y => y <| b_prev := if decide (b_next x = Some i) then b_prev x else b_prev y |>
              <| b_next := if decide (b_prev x = Some i) then b_next x else b_next y |>) <$> bs !! i.
Proof.
  unfold hash_unlinked. rewrite !oalter_lookup. destruct (bs !! i) as [y|]; [|by repeat case_decide].
  repeat case_decide; by destruct y.
Qed.

Lemma hash_unlinked_nx x bs i : is_Some (bs !! i) ->
  nx (hview <$> hash_unlinked x bs) i = if decide (b_prev x = Some i) then b_next x else nx (hview <$> bs) i.
Proof.
  intros [y Hy]. unfold nx. rewrite !list_lookup_fmap, hash_unlinked_lookup, Hy. cbn. by repeat case_decide.
Qed.
Lemma hash_unlinked_pv x bs i : is_Some (bs !! i) ->
  pv (hview <$> hash_unlinked x bs) i = if decide (b_next x = Some i) then b_prev x else pv (hview <$> bs) i.
Proof.
  intros [y Hy]. unfold pv. rewrite !list_lookup_fmap, hash_unlinked_lookup, Hy. cbn. by repeat case_decide.
Qed.
Lemma hash_unlinked_sans x bs : sans_hash <$> hash_unlinked x bs = sans_hash <$> bs.
Proof. unfold hash_unlinked. rewrite !fmap_oalter_same; done. Qed.

(** a chain away from the change is as it was *)
Lemma chain_same N P N' P' l : chain N P l -> (forall i, i ∈ l -> N' i = N i /\ P' i = P i) -> NoDup l -> chain N' P' l.
Proof.
  intros (Hl & Hlast & Hhead) H Hnd. split; [|split].
  - apply (linked_ext N P); [| |done|done]; intros i Hi _; by apply H.
  - intros a Ha. destruct (H a) as [-> _]; [by apply last_Some_elem_of|auto].
  - intros a Ha. destruct (H a) as [_ ->]; [by apply head_elem|auto].
Qed.

(** the new head of the chain [b] was in *)
Definition hash_table_without (b : nat) (x : buffer_head) (tbl : list (option nat)) : list (option nat) :=
  if decide (tbl !! _hashfn (b_dev x) (b_blocknr x) = Some (Some b))
  then <[_hashfn (b_dev x) (b_blocknr x) := b_next x]> tbl else tbl.

(** taking out a buffer that is in no chain, and one that is in its chain *)
Lemma hash_rep_remove_idle bs tbl ch b x : hash_rep (hview <$> bs) tbl ch None -> bs !! b = Some x -> b_dev x = 0 ->
  hash_unlinked x bs = bs /\ hash_table_without b x tbl = tbl /\
  hash_rep (hview <$> bs) tbl (fun k => without b (ch k)) (Some b).
Proof.
  intros Hr Hx Hd. assert ((hview <$> bs) !! b = Some (hview x)) as HV by (by rewrite list_lookup_fmap, Hx).
  assert (forall k, (k < NR_HASH)%nat -> b ∉ ch k) as Hno.
  { intros k Hk Hb. destruct (hr_mem _ _ _ _ Hr k b Hk Hb) as (v & Hv & Hdv & _).
    rewrite HV in Hv. injection Hv as <-. done. }
  pose proof (hr_in _ _ _ _ Hr b _ HV ltac:(done)) as Hnone. cbn [hview h_dev h_next h_prev] in Hnone.
  rewrite Hd in Hnone. destruct Hnone as [Hn Hp]. split; [unfold hash_unlinked; by rewrite Hn, Hp|]. split.
  - unfold hash_table_without. rewrite decide_False; [done|]. intros Ht.
    eapply Hno; [apply hash_lt|]. by eapply hash_rep_head; [|apply hash_lt|].
  - destruct Hr as [Hlen Hhead Hchain Hnd Hmem Hin].
    assert (forall k, (k < NR_HASH)%nat -> without b (ch k) = ch k) as Hw by (intros k Hk; by apply without_id, Hno).
    constructor; try done.
    + intros k Hk. rewrite Hw by done. auto.
    + intros k Hk. rewrite Hw by done. auto.
    + intros k Hk. rewrite Hw by done. auto.
    + intros k i Hk. rewrite Hw by done. intros Hi. destruct (Hmem k i Hk Hi) as (v & Hv & Hdv & Hh & _).
      exists v. split_and!; try done. intros [= <-]. by apply (Hno k).
    + intros i v Hv Hib. specialize (Hin i v Hv ltac:(done)). rewrite Hw by apply hash_lt. done.
Qed.

(** [b] with a device, between [l1] and [l2] in the chain [kb] *)
Section Unlink.
Variables (bs : list buffer_head) (tbl : list (option nat)) (ch : nat -> list nat) (b : nat) (x : buffer_head).
Variables (l1 l2 : list nat).
Let kb : nat := _hashfn (b_dev x) (b_blocknr x).
Hypothesis Hr : hash_rep (hview <$> bs) tbl ch None.
Hypothesis Hx : bs !! b = Some x.
Hypothesis Hch : ch kb = l1 ++ b :: l2.
Hypothesis Hnd : NoDup (l1 ++ b :: l2).
Hypothesis Hn : b_next x = head l2.
Hypothesis Hp : b_prev x = last l1.

Lemma unlink_kb : (kb < NR_HASH)%nat.
Proof. apply hash_lt. Qed.
Lemma unlink_valid k i : (k < NR_HASH)%nat -> i ∈ ch k -> is_Some (bs !! i).
Proof. intros. by eapply hash_rep_lt. Qed.
Lemma unlink_valid_kb i : i ∈ l1 ++ l2 -> is_Some (bs !! i).
Proof.
  intros Hi. apply (unlink_valid kb); [apply unlink_kb|]. rewrite Hch.
  rewrite elem_of_app in *. rewrite elem_of_cons. tauto.
Qed.

(** the other chains have nothing to do with [b] and its neighbours *)
Lemma unlink_other k : k <> kb -> (k < NR_HASH)%nat ->
  (b ∉ ch k) /\ forall i, i ∈ ch k -> b_next x <> Some i /\ b_prev x <> Some i.
Proof.
  intros Hk Hlt. assert (forall i, i ∈ ch k -> i ∉ ch kb) as Hdis.
  { intros i H1 H2. destruct (hr_mem _ _ _ _ Hr k i Hlt H1) as (v & Hv & _ & Hh & _).
    destruct (hr_mem _ _ _ _ Hr kb i unlink_kb H2) as (w & Hw & _ & Hh' & _). congruence. }
  rewrite Hch in Hdis. split; [intros Hb; apply (Hdis b Hb), elem_of_mid|].
  intros i Hi. rewrite Hn, Hp. split; intros Hi'; apply (Hdis i Hi), elem_of_app.
  - right. right. by apply head_elem.
  - left. by apply last_Some_elem_of.
Qed.
Lemma unlink_without k : (k < NR_HASH)%nat -> without b (ch k) = if decide (k = kb) then l1 ++ l2 else ch k.
Proof.
  intros Hk. case_decide as H; [subst k; rewrite Hch; by apply without_middle|]. by apply without_id, unlink_other.
Qed.

(** what a buffer shows afterwards *)
Lemma unlink_lookup i y : bs !! i = Some y -> exists v,
  (hview <$> hash_unlinked x bs) !! i = Some v /\ h_dev v = b_dev y /\ h_blk v = b_blocknr y /\
  ((i ∉ ch kb) -> v = hview y).
Proof.
  intros Hy. rewrite list_lookup_fmap, hash_unlinked_lookup, Hy. eexists. split; [done|]. split_and!; [done..|].
  rewrite Hch, elem_of_app, elem_of_cons, Hn, Hp. intros Hno. rewrite !decide_False; [by destruct y| |].
  - intros H%head_elem. tauto.
  - intros H%last_Some_elem_of. tauto.
Qed.

Lemma unlink_head k : (k < NR_HASH)%nat -> hash_table_without b x tbl !! k = Some (head (without b (ch k))).
Proof.
  intros Hk. unfold hash_table_without. fold kb. rewrite unlink_without by done.
  pose proof (hr_head _ _ _ _ Hr) as Hhead. pose proof unlink_kb as Hkb. rewrite (Hhead kb Hkb), Hch.
  pose proof (hr_len _ _ _ _ Hr). destruct (decide (k = kb)) as [->|Hne].
  - destruct l1 as [|a l1'].
    + rewrite decide_True by done. rewrite list_lookup_insert_eq by lia. by rewrite Hn.
    + rewrite decide_False; [by rewrite (Hhead kb Hkb), Hch|]. intros [= ->].
      apply NoDup_cons in Hnd as [Hno _]. apply Hno, elem_of_mid.
  - case_decide; [rewrite list_lookup_insert_ne by done|]; auto.
Qed.

Lemma unlink_chain k : (k < NR_HASH)%nat ->
  chain (nx (hview <$> hash_unlinked x bs)) (pv (hview <$> hash_unlinked x bs)) (without b (ch k)).
Proof.
  intros Hk. rewrite unlink_without by done. pose proof (hr_chain _ _ _ _ Hr) as Hchain.
  destruct (decide (k = kb)) as [->|Hne].
  - apply (chain_remove (nx (hview <$> bs)) (pv (hview <$> bs)) _ _ l1 b l2 Hnd); [by rewrite <- Hch; auto| |].
    + intros i Hi. rewrite hash_unlinked_nx by (by apply unlink_valid_kb). by rewrite Hn, Hp.
    + intros i Hi. rewrite hash_unlinked_pv by (by apply unlink_valid_kb). by rewrite Hn, Hp.
  - apply (chain_same (nx (hview <$> bs)) (pv (hview <$> bs))); [auto| |by apply (hr_nodup _ _ _ _ Hr)].
    intros i Hi. rewrite hash_unlinked_nx, hash_unlinked_pv by (by apply (unlink_valid k)).
    destruct (proj2 (unlink_other k Hne Hk) i Hi). by rewrite !decide_False.
Qed.

Lemma unlink_rep : b_dev x <> 0 ->
  hash_rep (hview <$> hash_unlinked x bs) (hash_table_without b x tbl) (fun k => without b (ch k)) (Some b).
Proof.
  intros Hd. constructor; [|apply unlink_head|apply unlink_chain| | |].
  - unfold hash_table_without. pose proof (hr_len _ _ _ _ Hr). case_decide; [by rewrite length_insert|done].
  - intros k Hk. apply without_NoDup, (hr_nodup _ _ _ _ Hr k Hk).
  - intros k i Hk [Hib Hi]%elem_of_without. destruct (hr_mem _ _ _ _ Hr k i Hk Hi) as (v & Hv & Hdv & Hh & _).
    rewrite list_lookup_fmap in Hv. destruct (bs !! i) as [y|] eqn:Hy; [|done]. injection Hv as <-.
    destruct (unlink_lookup i y Hy) as (v' & Hv' & Hd' & Hb' & _). exists v'. rewrite Hd', Hb'.
    split_and!; [done..|congruence].
  - intros i v' Hv' Hib. destruct (bs !! i) as [y|] eqn:Hy.
    2:{ by rewrite list_lookup_fmap, hash_unlinked_lookup, Hy in Hv'. }
    destruct (unlink_lookup i y Hy) as (w & Hw & Hd' & Hb' & Hsame). rewrite Hv' in Hw. injection Hw as <-.
    assert ((hview <$> bs) !! i = Some (hview y)) as HV by (by rewrite list_lookup_fmap, Hy).
    pose proof (hr_in _ _ _ _ Hr i _ HV ltac:(done)) as Hin. cbn [hview h_dev h_blk] in Hin. rewrite Hd', Hb'.
    destruct (Z.eqb_spec (b_dev y) 0) as [Hz|Hz].
    + rewrite Hsame; [done|]. intros Hi. destruct (hr_mem _ _ _ _ Hr kb i unlink_kb Hi) as (w & Hw & Hdw & _).
      rewrite HV in Hw. by injection Hw as <-.
    + apply elem_of_without. split; [congruence|done].
Qed.
End Unlink.

Lemma hash_rep_remove bs tbl ch b x : hash_rep (hview <$> bs) tbl ch None -> bs !! b = Some x ->
  hash_rep (hview <$> hash_unlinked x bs) (hash_table_without b x tbl) (fun k => without b (ch k)) (Some b).
Proof.
  intros Hr Hx. destruct (decide (b_dev x = 0)) as [Hd|Hd].
  - by destruct (hash_rep_remove_idle _ _ _ _ _ Hr Hx Hd) as (-> & -> & H).
  - destruct (hash_rep_links _ _ _ _ _ _ Hr Hx ltac:(done) Hd) as (l1 & l2 & Hch & Hnd & Hn & Hp).
    by apply (unlink_rep bs tbl ch b x l1 l2).
Qed.

(** the code computes this *)
Lemma remove_from_hash_run s F ch b x : hash_rep (hview <$> bufs F) (hash_table F) ch None -> bufs F !! b = Some x ->
  remove_from_hash b (with_fs s F) =
    Ret tt (with_fs s (F <| bufs ::= hash_unlinked x |> <| hash_table ::= hash_table_without b x |>)).
Proof.
  intros Hr Hx.
  assert ((forall n, b_next x = Some n -> n <> b /\ is_Some (bufs F !! n)) /\
          (forall n, b_prev x = Some n -> n <> b /\ is_Some (bufs F !! n))) as [Hn Hp].
  { destruct (decide (b_dev x = 0)) as [Hd|Hd].
    - assert ((hview <$> bufs F) !! b = Some (hview x)) as HV by (by rewrite list_lookup_fmap, Hx).
      pose proof (hr_in _ _ _ _ Hr b _ HV ltac:(done)) as H. cbn [hview h_dev h_next h_prev] in H.
      rewrite Hd in H. destruct H as [-> ->]. done.
    - destruct (hash_rep_links _ _ _ _ _ _ Hr Hx ltac:(done) Hd) as (l1 & l2 & Hch & Hnd & -> & ->).
      pose proof (NoDup_middle _ _ _ Hnd) as (_ & _ & H1 & H2 & _).
      split; intros n; [intros Hi%head_elem|intros Hi%last_Some_elem_of];
        (split; [by intros ->|eapply hash_rep_lt; [done|apply hash_lt|rewrite Hch]]); rewrite elem_of_app, elem_of_cons; tauto. }
  unfold remove_from_hash. mstep (getbh_run b s F x Hx).
  mstep (osetbh_run (b_next x) (fun y => y <| b_prev := b_prev x |>) s F (fun n H => proj2 (Hn n H))).
  set (F1 := F <| bufs ::= _ |>). assert (bufs F1 !! b = Some x) as Hx1.
  { change (oalter (fun y => y <| b_prev := b_prev x |>) (b_next x) (bufs F) !! b = Some x).
    rewrite oalter_lookup, decide_False; [done|]. intros H. by apply (Hn b). }
  mstep (getbh_run b s F1 x Hx1).
  assert (forall n, b_prev x = Some n -> is_Some (bufs F1 !! n)) as Hp1.
  { intros n H. change (is_Some (oalter (fun y => y <| b_prev := b_prev x |>) (b_next x) (bufs F) !! n)).
    rewrite oalter_lookup. destruct (Hp n H) as [_ [y ->]]. case_decide; cbn; eauto. }
  mstep (osetbh_run (b_prev x) (fun y => y <| b_next := b_next x |>) s F1 Hp1).
  set (F2 := F1 <| bufs ::= _ |>). assert (bufs F2 !! b = Some x) as Hx2.
  { change (oalter (fun y => y <| b_next := b_next x |>) (b_prev x) (bufs F1) !! b = Some x).
    rewrite oalter_lookup, decide_False; [done|]. intros H. by apply (Hp b). }
  mstep (getbh_run b s F2 x Hx2).
  assert (hash_table F2 !! _hashfn (b_dev x) (b_blocknr x) = Some (head (ch (_hashfn (b_dev x) (b_blocknr x))))) as Hh
    by (apply (hr_head _ _ _ _ Hr), hash_lt).
  mstep (hash_head_run (b_dev x) (b_blocknr x) s F2 _ Hh).
  assert (with_fs s (F <| bufs ::= hash_unlinked x |> <| hash_table ::= hash_table_without b x |>) =
          with_fs s (F2 <| hash_table ::= hash_table_without b x |>)) as -> by (by destruct F).
  assert (forall t, with_fs s (F2 <| hash_table ::= t |>) = with_fs s (F2 <| hash_table := t (hash_table F2) |>)) as Ht
    by (by destruct F).
  rewrite Ht. unfold hash_table_without. rewrite Hh. case_bool_decide as Hb.
  - rewrite decide_True by congruence. cbn [when]. rewrite set_hash_head_run. by destruct F.
  - rewrite decide_False by congruence. by destruct F.
Qed.

(** ** Remove from free list *)

Definition free_unlinked (x : buffer_head) (bs : list buffer_head) : list buffer_head :=
  oalter (fun y => y <| b_prev_free := b_prev_free x |>) (b_next_free x)
    (oalter (fun y => y <| b_next_free := b_next_free x |>) (b_prev_free x) bs).
Definition free_list_without (b : nat) (x : buffer_head) (first : option nat) : option nat :=
  if decide (first = Some b) then b_next_free x else first.

Lemma free_unlinked_lookup x bs i : free_unlinked x bs !! i =
  (fun y => y <| b_prev_free := if decide (b_next_free x = Some i) then b_prev_free x else b_prev_free y |>
              <| b_next_free := if decide (b_prev_free x = Some i) then b_next_free x else b_next_free y |>) <$> bs !! i.
Proof.
  unfold free_unlinked. rewrite !oalter_lookup. destruct (bs !! i) as [y|]; [|by repeat case_decide].
  repeat case_decide; by destruct y.
Qed.
Lemma free_unlinked_fnx x bs i : is_Some (bs !! i) ->
  fnx (free_unlinked x bs) i = if decide (b_prev_free x = Some i) then b_next_free x else fnx bs i.
Proof. intros [y Hy]. unfold fnx. rewrite free_unlinked_lookup, Hy. cbn. by repeat case_decide. Qed.
Lemma free_unlinked_fpv x bs i : is_Some (bs !! i) ->
  fpv (free_unlinked x bs) i = if decide (b_next_free x = Some i) then b_prev_free x else fpv bs i.
Proof. intros [y Hy]. unfold fpv. rewrite free_unlinked_lookup, Hy. cbn. by repeat case_decide. Qed.

(** [b] between [l1] and [l2] in the ring; [l2 ++ l1] is the ring without it *)
Section Unring.
Variables (bs : list buffer_head) (first : option nat) (b : nat) (x : buffer_head) (l1 l2 : list nat).
Hypothesis Hr : free_rep bs first (l1 ++ b :: l2).
Hypothesis Hval : forall i, i ∈ l1 ++ b :: l2 -> is_Some (bs !! i).
Hypothesis Hx : bs !! b = Some x.
Hypothesis Hne : l2 ++ l1 <> [].

Lemma unring_rotated : ring (fnx bs) (fpv bs) (b :: l2 ++ l1).
Proof. apply (ring_rotate _ _ (b :: l2) l1), Hr. Qed.
Lemma unring_links : b_next_free x = head (l2 ++ l1) /\ b_prev_free x = last (l2 ++ l1).
Proof. pose proof (ring_neighbours _ _ _ _ Hne unring_rotated) as H. unfold fnx, fpv in H. by rewrite Hx in H. Qed.
Lemma unring_member i : i ∈ l2 ++ l1 -> i <> b /\ is_Some (bs !! i).
Proof.
  intros Hi. pose proof (NoDup_middle _ _ _ (fr_nodup _ _ _ Hr)) as (_ & _ & H1 & H2 & _). split.
  - intros ->. by apply elem_of_app in Hi as [?|?].
  - apply Hval. rewrite elem_of_app in *. rewrite elem_of_cons. tauto.
Qed.
Lemma unring_NoDup : NoDup (l1 ++ l2).
Proof. rewrite <- (without_middle b); [|apply Hr]. apply without_NoDup, Hr. Qed.

Lemma unring_rep : free_rep (free_unlinked x bs) (free_list_without b x first) (l1 ++ l2).
Proof.
  destruct unring_links as [Hn Hp]. constructor; [| |apply unring_NoDup].
  - pose proof unring_member as Hm. unfold free_list_without. rewrite (fr_first _ _ _ Hr), Hn. clear - Hm. destruct l1 as [|a l1'].
    + rewrite decide_True by done. by rewrite app_nil_r.
    + rewrite decide_False; [done|]. intros [= Hab]. destruct (Hm a) as [? _]; [apply elem_of_app; right; by left|done].
  - apply ring_rotate, (ring_remove (fnx bs) (fpv bs) _ _ b).
    + rewrite (Permutation_app_comm l2 l1). apply unring_NoDup.
    + apply unring_rotated.
    + intros i Hi. rewrite free_unlinked_fnx by (by apply unring_member). by rewrite Hn, Hp.
    + intros i Hi. rewrite free_unlinked_fpv by (by apply unring_member). by rewrite Hn, Hp.
Qed.
End Unring.

Lemma remove_from_free_run s F l b x : free_rep (bufs F) (free_list F) l -> (forall i, i ∈ l -> is_Some (bufs F !! i)) ->
  (2 <= length l)%nat -> b ∈ l -> bufs F !! b = Some x ->
  remove_from_free b (with_fs s F) =
    Ret tt (with_fs s (F <| bufs ::= free_unlinked x |> <| free_list ::= free_list_without b x |>)) /\
  free_rep (free_unlinked x (bufs F)) (free_list_without b x (free_list F)) (without b l).
Proof.
  intros Hr Hval Hlen Hb Hx. apply list_elem_of_split in Hb as (l1 & l2 & ->).
  assert (l2 ++ l1 <> []) as Hne.
  { intros H. apply app_nil in H as [-> ->]. cbn in Hlen. lia. }
  rewrite without_middle by apply Hr. split; [|by apply unring_rep].
  destruct (unring_links _ _ _ _ _ _ Hr Hx Hne) as [Hn Hp].
  assert (exists nf pf, b_next_free x = Some nf /\ b_prev_free x = Some pf /\ nf ∈ l2 ++ l1 /\ pf ∈ l2 ++ l1) as
    (nf & pf & Hnf & Hpf & Inf & Ipf).
  { destruct (head (l2 ++ l1)) as [nf|] eqn:Hh; [|by destruct (l2 ++ l1)].
    destruct (last (l2 ++ l1)) as [pf|] eqn:Hl; [|by apply last_None in Hl].
    exists nf, pf. split_and!; [done|done|by apply head_elem|by apply last_Some_elem_of]. }
  destruct (unring_member _ _ _ _ _ Hr Hval nf Inf) as [Nnf Vnf].
  destruct (unring_member _ _ _ _ _ Hr Hval pf Ipf) as [Npf [xp Vpf]].
  unfold remove_from_free. mstep (getbh_run b s F x Hx). rewrite Hpf, Hnf.
  mstep (setbh_run pf (fun y => y <| b_next_free := Some nf |>) s F xp Vpf).
  set (F1 := F <| bufs ::= _ |>).
  assert (bufs F1 = alter (fun y => y <| b_next_free := Some nf |>) pf (bufs F)) as HF1 by done.
  assert (bufs F1 !! b = Some x) as Hx1 by (by rewrite HF1, alter_lookup, decide_False).
  mstep (getbh_run b s F1 x Hx1). mstep (deref_run (b_next_free x) nf (with_fs s F1) Hnf).
  assert (is_Some (bufs F1 !! nf)) as [xn Hxn].
  { rewrite HF1, alter_lookup. destruct Vnf as [y ->]. case_decide; cbn; eauto. }
  mstep (setbh_run nf (fun y => y <| b_prev_free := b_prev_free x |>) s F1 xn Hxn).
  set (F2 := F1 <| bufs ::= _ |>).
  assert (bufs F2 = free_unlinked x (bufs F)) as HF2 by (unfold F2, F1, free_unlinked; rewrite Hpf, Hnf; by destruct F).
  assert (bufs F2 !! b = Some x) as Hx2.
  { change (bufs F2) with (alter (fun y => y <| b_prev_free := b_prev_free x |>) nf (bufs F1)).
    by rewrite alter_lookup, decide_False. }
  mstep (getbh_run b s F2 x Hx2). rewrite (bind_Ret (gets fsys) _ (with_fs s F2) F2 (with_fs s F2)) by done.
  assert (with_fs s (F <| bufs ::= free_unlinked x |> <| free_list ::= free_list_without b x |>) =
          with_fs s (F2 <| free_list := free_list_without b x (free_list F2) |>)) as ->
    by (unfold F2, F1, free_unlinked; rewrite Hpf, Hnf; by destruct F).
  unfold free_list_without. case_bool_decide as Hb.
  - rewrite decide_True by done. by destruct F.
  - rewrite decide_False by done. by destruct F.
Qed.

(** ** Put at end of free list *)

(** the buffers after [b] has been put between the last [t] and the first [h] *)
Definition free_inserted (b h t : nat) (bs : list buffer_head) : list buffer_head :=
  alter (fun y => y <| b_prev_free := Some b |>) h
    (alter (fun y => y <| b_next_free := Some b |>) t
      (alter (fun y => y <| b_next_free := Some h |> <| b_prev_free := Some t |>) b bs)).

Lemma free_inserted_lookup b h t bs i : b <> h -> b <> t -> free_inserted b h t bs !! i =
  (fun y => y <| b_prev_free := if decide (i = b) then Some t else if decide (i = h) then Some b else b_prev_free y |>
              <| b_next_free := if decide (i = b) then Some h else if decide (i = t) then Some b else b_next_free y |>)
  <$> bs !! i.
Proof.
  intros Hh Ht. unfold free_inserted. rewrite !alter_lookup. destruct (bs !! i) as [y|]; [|by repeat case_decide].
  repeat case_decide; subst; try done; by destruct y.
Qed.

Lemma free_inserted_rep bs first m b h t : free_rep bs first m -> head m = Some h -> last m = Some t -> b ∉ m ->
  (forall i, i ∈ m -> is_Some (bs !! i)) -> is_Some (bs !! b) ->
  free_rep (free_inserted b h t bs) first (m ++ [b]).
Proof.
  intros Hr Hh Ht Hb Hval [x Hx]. assert (b <> h) as Hbh by (intros ->; by apply Hb, head_elem).
  assert (b <> t) as Hbt by (intros ->; by apply Hb, last_Some_elem_of).
  constructor.
  - rewrite (fr_first _ _ _ Hr), head_app. by rewrite Hh.
  - apply (ring_insert (fnx bs) (fpv bs) _ _ b m h t); try done; try apply Hr.
    + unfold fnx. rewrite free_inserted_lookup, Hx by done. cbn. by rewrite !decide_True.
    + unfold fpv. rewrite free_inserted_lookup, Hx by done. cbn. by rewrite !decide_True.
    + intros i Hi. destruct (Hval i Hi) as [y Hy]. unfold fnx. rewrite free_inserted_lookup, Hy by done. cbn.
      rewrite decide_False by (by intros ->). done.
    + intros i Hi. destruct (Hval i Hi) as [y Hy]. unfold fpv. rewrite free_inserted_lookup, Hy by done. cbn.
      rewrite decide_False by (by intros ->). done.
  - apply NoDup_app. split; [apply Hr|]. split; [|apply NoDup_singleton].
    intros i Hi ->%list_elem_of_singleton. done.
Qed.

Lemma insert_free_tail_run s F m b h t : free_rep (bufs F) (free_list F) m -> head m = Some h -> last m = Some t -> b ∉ m ->
  (forall i, i ∈ m -> is_Some (bufs F !! i)) -> is_Some (bufs F !! b) ->
  insert_free_tail b (with_fs s F) = Ret tt (with_fs s (F <| bufs ::= free_inserted b h t |>)).
Proof.
  intros Hr Hh Ht Hb Hval [x Hx]. assert (b <> h) as Hbh by (intros ->; by apply Hb, head_elem).
  assert (b <> t) as Hbt by (intros ->; by apply Hb, last_Some_elem_of).
  destruct (Hval h (head_elem _ _ Hh)) as [xh Hxh].
  assert (t ∈ m) as Int by (by apply last_Some_elem_of). destruct (Hval t Int) as [xt Hxt].
  assert (b_prev_free xh = Some t) as Hprev.
  { pose proof (proj2 (fr_ring _ _ _ Hr)) as Hj. rewrite Hh, Ht in Hj. destruct Hj as [_ Hj].
    unfold fpv in Hj. by rewrite Hxh in Hj. }
  unfold insert_free_tail. rewrite (bind_Ret (gets fsys) _ (with_fs s F) F (with_fs s F)) by done.
  mstep (deref_run (free_list F) h (with_fs s F) (eq_trans (fr_first _ _ _ Hr) Hh)).
  mstep (getbh_run h s F xh Hxh).
  mstep (setbh_run b (fun x => x <| b_next_free := Some h |> <| b_prev_free := b_prev_free xh |>) s F x Hx).
  set (F1 := F <| bufs ::= _ |>).
  assert (forall i, i <> b -> bufs F1 !! i = bufs F !! i) as HF1 by (intros i Hi; by apply list_lookup_alter_ne).
  mstep (getbh_run h s F1 xh (eq_trans (HF1 h ltac:(done)) Hxh)).
  mstep (deref_run (b_prev_free xh) t (with_fs s F1) Hprev).
  mstep (setbh_run t (fun x => x <| b_next_free := Some b |>) s F1 xt (eq_trans (HF1 t ltac:(done)) Hxt)).
  set (F2 := F1 <| bufs ::= _ |>).
  assert (is_Some (bufs F2 !! h)) as [xh2 Hxh2].
  { change (bufs F2) with (alter (fun x => x <| b_next_free := Some b |>) t (bufs F1)).
    rewrite alter_lookup, HF1, Hxh by done. case_decide; cbn; eauto. }
  rewrite (setbh_run h (fun x => x <| b_prev_free := Some b |>) s F2 xh2 Hxh2).
  unfold F2, F1. rewrite Hprev. by destruct F.
Qed.

(** ** Put in new hash-queue *)

Definition hash_inserted (b : nat) (o : option nat) (bs : list buffer_head) : list buffer_head :=
  oalter (fun y => y <| b_prev := Some b |>) o
    (alter (fun y => y <| b_prev := None |> <| b_next := o |>) b bs).

Lemma hash_inserted_lookup b o bs i : o <> Some b -> hash_inserted b o bs !! i =
  (fun y => y <| b_prev := if decide (i = b) then None else if decide (o = Some i) then Some b else b_prev y |>
              <| b_next := if decide (i = b) then o else b_next y |>) <$> bs !! i.
Proof.
  intros Ho. unfold hash_inserted. rewrite oalter_lookup, alter_lookup. destruct (bs !! i) as [y|]; [|by repeat case_decide].
  repeat case_decide; subst; try done; by destruct y.
Qed.

(** [b] goes in front of the chain of its hash value *)
Section Inhash.
Variables (bs : list buffer_head) (tbl : list (option nat)) (ch : nat -> list nat) (b : nat) (x : buffer_head).
Let kb : nat := _hashfn (b_dev x) (b_blocknr x).
Let bs' : list buffer_head := hash_inserted b (head (ch kb)) bs.
Definition ch_inserted (k : nat) : list nat := if decide (k = kb) then b :: ch k else ch k.
Hypothesis Hr : hash_rep (hview <$> bs) tbl ch (Some b).
Hypothesis Hx : bs !! b = Some x.
Hypothesis Hd : b_dev x <> 0.

Lemma inhash_fresh k : (k < NR_HASH)%nat -> b ∉ ch k.
Proof. intros Hk Hb. by destruct (hr_mem _ _ _ _ Hr k b Hk Hb) as (v & _ & _ & _ & []). Qed.
Lemma inhash_head : head (ch kb) <> Some b.
Proof. intros H%head_elem. by apply (inhash_fresh kb); [apply hash_lt|]. Qed.
Lemma inhash_lookup i y : bs !! i = Some y -> exists v, (hview <$> bs') !! i = Some v /\ h_dev v = b_dev y /\
  h_blk v = b_blocknr y /\ (i <> b -> h_next v = b_next y) /\ (i <> b -> head (ch kb) <> Some i -> h_prev v = b_prev y).
Proof.
  intros Hy. unfold bs'. rewrite list_lookup_fmap, hash_inserted_lookup, Hy by apply inhash_head.
  eexists. split; [done|]. split_and!; [done..| |].
  - intros Hi. cbn. by rewrite decide_False.
  - intros Hi Hi'. cbn. by rewrite !decide_False.
Qed.

Lemma inhash_valid k i : (k < NR_HASH)%nat -> i ∈ ch k -> i <> b /\ is_Some (bs !! i).
Proof. intros Hk Hi. split; [intros ->; by apply (inhash_fresh k)|by eapply hash_rep_lt]. Qed.
Lemma inhash_chain k : (k < NR_HASH)%nat -> chain (nx (hview <$> bs')) (pv (hview <$> bs')) (ch_inserted k).
Proof.
  intros Hk. pose proof (hash_lt (b_dev x) (b_blocknr x)) as Hkb. fold kb in Hkb. unfold ch_inserted.
  assert (forall i, i ∈ ch k -> nx (hview <$> bs') i = nx (hview <$> bs) i) as HN.
  { intros i Hi. destruct (inhash_valid k i Hk Hi) as [Hib [y Hy]]. destruct (inhash_lookup i y Hy) as (v & Hv & _ & _ & Hn & _).
    unfold nx. rewrite Hv, list_lookup_fmap, Hy. by apply Hn. }
  case_decide as Hd'.
  + subst k. apply (chain_cons (nx (hview <$> bs)) (pv (hview <$> bs))); try done.
    * by apply inhash_fresh.
    * by apply (hr_nodup _ _ _ _ Hr).
    * by apply (hr_chain _ _ _ _ Hr).
    * unfold nx, bs'. rewrite list_lookup_fmap, hash_inserted_lookup, Hx by apply inhash_head. cbn. by rewrite decide_True.
    * unfold pv, bs'. rewrite list_lookup_fmap, hash_inserted_lookup, Hx by apply inhash_head. cbn. by rewrite decide_True.
    * intros i Hi. destruct (inhash_valid kb i Hk Hi) as [Hib [y Hy]]. unfold pv, bs'.
      rewrite !list_lookup_fmap, hash_inserted_lookup, Hy by apply inhash_head. cbn. by rewrite (decide_False (P := i = b)).
  + apply (chain_same (nx (hview <$> bs)) (pv (hview <$> bs))); [by apply (hr_chain _ _ _ _ Hr)| |by apply (hr_nodup _ _ _ _ Hr)].
    intros i Hi. split; [auto|]. destruct (inhash_valid k i Hk Hi) as [Hib [y Hy]].
    destruct (inhash_lookup i y Hy) as (v & Hv & _ & _ & _ & Hp). unfold pv. rewrite Hv, list_lookup_fmap, Hy.
    apply Hp; [done|]. intros Hi'%head_elem.
    destruct (hr_mem _ _ _ _ Hr k i Hk Hi) as (w & Hw & _ & Hh & _).
    destruct (hr_mem _ _ _ _ Hr kb i Hkb Hi') as (w' & Hw' & _ & Hh' & _). congruence.
Qed.
Lemma inhash_rep : hash_rep (hview <$> bs') (<[kb := Some b]> tbl) ch_inserted None.
Proof.
  pose proof (hash_lt (b_dev x) (b_blocknr x)) as Hkb. fold kb in Hkb. pose proof (hr_len _ _ _ _ Hr) as Hlen.
  constructor; [| |apply inhash_chain|..]; unfold ch_inserted.
  - by rewrite length_insert.
  - intros k Hk. case_decide as Hd'; [subst k; apply list_lookup_insert_eq; lia|].
    rewrite list_lookup_insert_ne by done. by apply (hr_head _ _ _ _ Hr).
  - intros k Hk. case_decide as Hd'; [apply NoDup_cons; subst k; split; [by apply inhash_fresh|]|]; by apply (hr_nodup _ _ _ _ Hr).
  - intros k i Hk Hi. assert (i = b /\ k = kb \/ i ∈ ch k) as [[-> ->]|Hi'].
    { case_decide as Hd'; [|by right]. apply elem_of_cons in Hi as [->|Hi]; [by left|by right]. }
    + destruct (inhash_lookup b x Hx) as (v & Hv & Hdv & Hbv & _). exists v. by rewrite Hdv, Hbv.
    + destruct (hr_mem _ _ _ _ Hr k i Hk Hi') as (w & Hw & Hdw & Hhw & _). rewrite list_lookup_fmap in Hw.
      destruct (bs !! i) as [y|] eqn:Hy; [|done]. injection Hw as <-.
      destruct (inhash_lookup i y Hy) as (v & Hv & Hdv & Hbv & _). exists v. by rewrite Hdv, Hbv.
  - intros i v' Hv' _. assert (is_Some (bs !! i)) as [y Hy].
    { unfold bs' in Hv'. rewrite list_lookup_fmap, hash_inserted_lookup in Hv' by apply inhash_head.
      destruct (bs !! i); [eauto|done]. }
    destruct (inhash_lookup i y Hy) as (v & Hv & Hdv & Hbv & Hn & Hp). rewrite Hv' in Hv. injection Hv as <-.
    rewrite Hdv, Hbv. destruct (decide (i = b)) as [->|Hib].
    + assert (y = x) as -> by congruence. rewrite (proj2 (Z.eqb_neq _ _) Hd). fold kb.
      rewrite decide_True by done. by left.
    + assert ((hview <$> bs) !! i = Some (hview y)) as HV by (by rewrite list_lookup_fmap, Hy).
      pose proof (hr_in _ _ _ _ Hr i _ HV ltac:(congruence)) as Hin. cbn [hview h_dev h_blk h_next h_prev] in Hin.
      case_match eqn:Hz; [|case_decide; [by right|done]].
      rewrite Hn, Hp; [done|done| |done]. intros Hi%head_elem.
      destruct (hr_mem _ _ _ _ Hr kb i Hkb Hi) as (w & Hw & Hdw & _). rewrite HV in Hw. injection Hw as <-.
      by apply Z.eqb_eq in Hz.
Qed.
End Inhash.

Lemma alter_alter {A} (f g : A -> A) (n : nat) (l : list A) : alter f n (alter g n l) = alter (f ∘ g) n l.
Proof.
  apply list_eq. intros i. rewrite !alter_lookup. case_decide; [|done]. by destruct (l !! i).
Qed.

Definition hash_cleared (b : nat) (bs : list buffer_head) : list buffer_head :=
  alter (fun y => y <| b_prev := None |> <| b_next := None |>) b bs.

Lemma insert_hash_head_idle s F ch b x : hash_rep (hview <$> bufs F) (hash_table F) ch (Some b) ->
  bufs F !! b = Some x -> b_dev x = 0 ->
  insert_hash_head b (with_fs s F) = Ret tt (with_fs s (F <| bufs ::= hash_cleared b |>)) /\
  hash_rep (hview <$> hash_cleared b (bufs F)) (hash_table F) ch None.
Proof.
  intros Hr Hx Hd. split.
  - unfold insert_hash_head. mstep (setbh_run b (fun x => x <| b_prev := None |> <| b_next := None |>) s F x Hx).
    set (F1 := F <| bufs ::= _ |>).
    assert (bufs F1 !! b = Some (x <| b_prev := None |> <| b_next := None |>)) as Hx1.
    { change (hash_cleared b (bufs F) !! b = Some (x <| b_prev := None |> <| b_next := None |>)).
      unfold hash_cleared. rewrite alter_lookup, decide_True by done. by rewrite Hx. }
    mstep (getbh_run b s F1 _ Hx1). change (b_dev (x <| b_prev := None |> <| b_next := None |>)) with (b_dev x).
    by rewrite Hd.
  - assert (forall i, i <> b -> (hview <$> hash_cleared b (bufs F)) !! i = (hview <$> bufs F) !! i) as Hlk
      by (intros i Hi; unfold hash_cleared; by rewrite !list_lookup_fmap, list_lookup_alter_ne).
    destruct Hr as [Hlen Hhead Hchain Hnd Hmem Hin].
    assert (forall k i, (k < NR_HASH)%nat -> i ∈ ch k -> i <> b) as Hfresh.
    { intros k i Hk Hi ->. by destruct (Hmem k b Hk Hi) as (v & _ & _ & _ & []). }
    constructor; try done.
    + intros k Hk. apply (chain_same (nx (hview <$> bufs F)) (pv (hview <$> bufs F))); auto.
      intros i Hi. unfold nx, pv. by rewrite Hlk by (by apply (Hfresh k)).
    + intros k i Hk Hi. destruct (Hmem k i Hk Hi) as (v & Hv & Hdv & Hh & _). exists v.
      by rewrite Hlk by (by apply (Hfresh k)).
    + intros i v Hv _. destruct (decide (i = b)) as [->|Hib].
      * unfold hash_cleared in Hv. rewrite list_lookup_fmap, alter_lookup, decide_True, Hx in Hv by done.
        injection Hv as <-. change (if b_dev x =? 0 then None (A := nat) = None /\ None (A := nat) = None else
          b ∈ ch (_hashfn (b_dev x) (b_blocknr x))). by rewrite Hd.
      * rewrite Hlk in Hv by done. apply Hin; [done|congruence].
Qed.

(** the write through [bh->b_next] when the chain was empty *)
Definition null_write (b : nat) (o : option nat) (s : kst) : kst :=
  match o with Some _ => s | None => s <| mm ::= fun m => m <| phys ::= insert NULL_b_prev (bh_addr b) |> |> end.
Lemma null_write_fs b o s : s <| mm := mm (null_write b o s) |> = null_write b o s.
Proof. by destruct o, s. Qed.

Lemma insert_hash_head_linked s F ch b x : hash_rep (hview <$> bufs F) (hash_table F) ch (Some b) ->
  bufs F !! b = Some x -> b_dev x <> 0 ->
  let kb := _hashfn (b_dev x) (b_blocknr x) in
  insert_hash_head b (with_fs s F) =
    Ret tt (with_fs (null_write b (head (ch kb)) s) (F <| bufs ::= hash_inserted b (head (ch kb)) |> <| hash_table ::= <[kb := Some b]> |>)).
Proof.
  intros Hr Hx Hd kb. pose proof (inhash_head _ _ _ _ x Hr) as Hhead. fold kb in Hhead.
  unfold insert_hash_head. mstep (setbh_run b (fun x => x <| b_prev := None |> <| b_next := None |>) s F x Hx).
  set (F1 := F <| bufs ::= _ |>). set (x1 := x <| b_prev := None |> <| b_next := None |>).
  assert (bufs F1 !! b = Some x1) as Hx1.
  { change (hash_cleared b (bufs F) !! b = Some x1). unfold hash_cleared. by rewrite alter_lookup, decide_True, Hx by done. }
  mstep (getbh_run b s F1 x1 Hx1). change (b_dev x1) with (b_dev x). change (b_blocknr x1) with (b_blocknr x).
  rewrite (proj2 (Z.eqb_neq _ _) Hd).
  assert (hash_table F1 !! kb = Some (head (ch kb))) as Hh by (apply (hr_head _ _ _ _ Hr), hash_lt).
  mstep (hash_head_run (b_dev x) (b_blocknr x) s F1 _ Hh).
  mstep (setbh_run b (fun x => x <| b_next := head (ch kb) |>) s F1 x1 Hx1). set (F2 := F1 <| bufs ::= _ |>).
  mstep (set_hash_head_run (b_dev x) (b_blocknr x) (Some b) s F2). fold kb. set (F3 := F2 <| hash_table ::= _ |>).
  assert (bufs F3 = alter (fun y => y <| b_prev := None |> <| b_next := head (ch kb) |>) b (bufs F)) as HF3
    by (change (bufs F3) with (alter (fun x => x <| b_next := head (ch kb) |>) b
                                (alter (fun x => x <| b_prev := None |> <| b_next := None |>) b (bufs F)));
        by rewrite alter_alter).
  assert (forall s, with_fs s (F <| bufs ::= hash_inserted b (head (ch kb)) |> <| hash_table ::= <[kb := Some b]> |>)
    = with_fs s (F3 <| bufs := oalter (fun y => y <| b_prev := Some b |>) (head (ch kb)) (bufs F3) |>)) as HF
    by (intros s0; unfold hash_inserted; rewrite HF3; by destruct F).
  rewrite HF. destruct (head (ch kb)) as [n|] eqn:Hn.
  - assert (is_Some (bufs F3 !! n)) as [xn Hxn].
    { destruct (hash_rep_lt _ _ _ _ kb n Hr (hash_lt _ _) (head_elem _ _ Hn)) as [y Hy].
      rewrite HF3, alter_lookup, decide_False by congruence. eauto. }
    rewrite (setbh_run n _ s F3 xn Hxn). by destruct F.
  - unfold zoom_mm, zoom, store, modify. by destruct s, F.
Qed.

(** ** The whole: a buffer gets a new name *)

(** what is not a link: the contents of a buffer and its state *)
Definition sans_links (x : buffer_head) : buffer_head :=
  x <| b_prev := None |> <| b_next := None |> <| b_prev_free := None |> <| b_next_free := None |>.
Definition renamed (dev block : Z) (x : buffer_head) : buffer_head :=
  x <| b_count := 1 |> <| b_dirt := 0 |> <| b_uptodate := 0 |> <| b_dev := u16 dev |> <| b_blocknr := u32 block |>.
Definition ch_renamed (b : nat) (dev block : Z) (ch : nat -> list nat) (k : nat) : list nat :=
  if decide (u16 dev <> 0 /\ k = _hashfn (u16 dev) (u32 block)) then b :: without b (ch k) else without b (ch k).

Definition fview (x : buffer_head) : option nat * option nat := (b_prev_free x, b_next_free x).

Lemma free_rep_fview bs bs' first l : fview <$> bs' = fview <$> bs -> free_rep bs first l -> free_rep bs' first l.
Proof.
  intros Heq [H1 [Hl Hj] H3].
  assert (forall i, fnx bs' i = fnx bs i /\ fpv bs' i = fpv bs i) as Hsame.
  { intros i. assert ((fview <$> bs') !! i = (fview <$> bs) !! i) as H by (by rewrite Heq).
    rewrite !list_lookup_fmap in H. unfold fnx, fpv.
    destruct (bs' !! i), (bs !! i); try done. cbn in *. injection H as H1' H2'. split; congruence. }
  constructor; [done| |done]. split; [by apply (linked_ext (fnx bs) (fpv bs)); [intros i _ _; apply Hsame..| |]|].
  unfold joined in *. destruct (last l) as [a|], (head l) as [c|]; try done.
  destruct (Hsame a) as [-> _], (Hsame c) as [_ ->]. exact Hj.
Qed.
(** what the hash queues say does not depend on the buffer that is out *)
Lemma hash_rep_out V V' tbl ch b : hash_rep V tbl ch (Some b) -> (forall i, i <> b -> V' !! i = V !! i) ->
  hash_rep V' tbl ch (Some b).
Proof.
  intros [Hlen Hhead Hchain Hnd Hmem Hin] HV.
  assert (forall k i, (k < NR_HASH)%nat -> i ∈ ch k -> i <> b) as Hfresh.
  { intros k i Hk Hi ->. by destruct (Hmem k b Hk Hi) as (v & _ & _ & _ & []). }
  constructor; try done.
  - intros k Hk. apply (chain_same (nx V) (pv V)); auto.
    intros i Hi. unfold nx, pv. by rewrite HV by (by apply (Hfresh k)).
  - intros k i Hk Hi. rewrite HV by (by apply (Hfresh k)). auto.
  - intros i v Hv Hib. rewrite HV in Hv by congruence. by apply Hin.
Qed.

Lemma fmap_is_Some {A B} (g : A -> B) (l l' : list A) i : g <$> l' = g <$> l -> is_Some (l !! i) -> is_Some (l' !! i).
Proof.
  intros H [x Hx]. assert ((g <$> l') !! i = (g <$> l) !! i) as Hi by (by rewrite H).
  rewrite !list_lookup_fmap, Hx in Hi. destruct (l' !! i); [eauto|done].
Qed.

Lemma hash_rep_ch V tbl ch ch' out : hash_rep V tbl ch out -> (forall k, (k < NR_HASH)%nat -> ch' k = ch k) ->
  hash_rep V tbl ch' out.
Proof.
  intros [Hlen Hhead Hchain Hnd Hmem Hin] H. constructor; [done|..].
  - intros k Hk. rewrite H by done. auto.
  - intros k Hk. rewrite H by done. auto.
  - intros k Hk. rewrite H by done. auto.
  - intros k i Hk. rewrite H by done. auto.
  - intros i v Hv Ho. rewrite H by apply hash_lt. by apply Hin.
Qed.

(** taking [b] out of both queues *)
Lemma remove_from_queues_run s F l ch b x :
  hash_rep (hview <$> bufs F) (hash_table F) ch None -> free_rep (bufs F) (free_list F) l ->
  (forall i, i ∈ l -> is_Some (bufs F !! i)) -> (2 <= length l)%nat -> b ∈ l -> bufs F !! b = Some x ->
  exists bs tbl fl, remove_from_queues b (with_fs s F) =
      Ret tt (with_fs s (F <| bufs := bs |> <| hash_table := tbl |> <| free_list := fl |>)) /\
    hash_rep (hview <$> bs) tbl (fun k => without b (ch k)) (Some b) /\ free_rep bs fl (without b l) /\
    sans_links <$> bs = sans_links <$> bufs F.
Proof.
  intros Hh Hf Hval Hlen Hb Hx.
  set (bs1 := hash_unlinked x (bufs F)). set (F1 := F <| bufs := bs1 |> <| hash_table ::= hash_table_without b x |>).
  assert (sans_hash <$> bs1 = sans_hash <$> bufs F) as Hsame by apply hash_unlinked_sans.
  assert (fview <$> bs1 = fview <$> bufs F) as Hfv by (unfold bs1, hash_unlinked; by rewrite !fmap_oalter_same).
  destruct (fmap_is_Some sans_hash (bufs F) bs1 b Hsame ltac:(eauto)) as [x1 Hx1].
  destruct (remove_from_free_run s F1 l b x1) as [Hrun Hfree]; try done.
  - by apply (free_rep_fview (bufs F)).
  - intros i Hi. apply (fmap_is_Some sans_hash (bufs F)); [done|auto].
  - exists (free_unlinked x1 bs1), (hash_table_without b x (hash_table F)), (free_list_without b x1 (free_list F)).
    split; [|split; [|split]].
    + unfold remove_from_queues. rewrite (bind_Ret _ _ _ _ _ (remove_from_hash_run s F ch b x Hh Hx)).
      assert (F <| bufs ::= hash_unlinked x |> <| hash_table ::= hash_table_without b x |> = F1) as -> by (by destruct F).
      rewrite Hrun. unfold F1. by destruct F.
    + assert (hview <$> free_unlinked x1 bs1 = hview <$> bs1) as ->
        by (unfold free_unlinked; by rewrite !fmap_oalter_same).
      by apply hash_rep_remove.
    + exact Hfree.
    + unfold free_unlinked. rewrite !fmap_oalter_same by done. unfold bs1, hash_unlinked. by rewrite !fmap_oalter_same.
Qed.

(** putting [b] into both queues *)
Lemma insert_into_queues_run s F m ch b x :
  hash_rep (hview <$> bufs F) (hash_table F) ch (Some b) -> free_rep (bufs F) (free_list F) m ->
  (forall i, i ∈ m -> is_Some (bufs F !! i)) -> m <> [] -> b ∉ m -> bufs F !! b = Some x ->
  let kb := _hashfn (b_dev x) (b_blocknr x) in
  exists s' bs tbl, insert_into_queues b (with_fs s F) =
      Ret tt (with_fs s' (F <| bufs := bs |> <| hash_table := tbl |>)) /\
    s' = (if decide (b_dev x = 0) then s else null_write b (head (ch kb)) s) /\
    hash_rep (hview <$> bs) tbl (fun k => if decide (b_dev x <> 0 /\ k = kb) then b :: ch k else ch k) None /\
    free_rep bs (free_list F) (m ++ [b]) /\ sans_links <$> bs = sans_links <$> bufs F.
Proof.
  intros Hh Hf Hval Hm Hb Hx kb.
  destruct (head m) as [h|] eqn:Hhd; [|by destruct m]. destruct (last m) as [t|] eqn:Htl; [|by apply last_None in Htl].
  set (bs1 := free_inserted b h t (bufs F)). set (F1 := F <| bufs := bs1 |>).
  assert (free_rep bs1 (free_list F) (m ++ [b])) as Hf1 by (apply free_inserted_rep; eauto).
  assert (hview <$> bs1 = hview <$> bufs F) as Hhv by (unfold bs1, free_inserted; by rewrite !fmap_alter_same).
  assert (exists x1, bs1 !! b = Some x1 /\ b_dev x1 = b_dev x /\ b_blocknr x1 = b_blocknr x) as (x1 & Hx1 & Hd1 & Hb1).
  { assert ((hview <$> bs1) !! b = Some (hview x)) as H by (by rewrite Hhv, list_lookup_fmap, Hx).
    rewrite list_lookup_fmap in H. destruct (bs1 !! b) as [x1|]; [|done]. injection H as ? ? ? ?. by exists x1. }
  rewrite <- Hhv in Hh. assert (insert_free_tail b (with_fs s F) = Ret tt (with_fs s F1)) as Hrun
    by (rewrite (insert_free_tail_run s F m b h t); eauto; by destruct F).
  assert (sans_links <$> bs1 = sans_links <$> bufs F) as Hsl by (unfold bs1, free_inserted; by rewrite !fmap_alter_same).
  unfold insert_into_queues. rewrite (bind_Ret _ _ _ _ _ Hrun). destruct (decide (b_dev x = 0)) as [Hd|Hd].
  - destruct (insert_hash_head_idle s F1 ch b x1 Hh Hx1 ltac:(congruence)) as [-> Hr].
    exists s, (hash_cleared b bs1), (hash_table F). split; [by destruct F|]. split; [done|]. split; [|split].
    + apply (hash_rep_ch _ _ _ _ _ Hr). intros k _. by rewrite decide_False by tauto.
    + apply (free_rep_fview bs1); [|done]. unfold hash_cleared. by rewrite fmap_alter_same.
    + unfold hash_cleared. by rewrite fmap_alter_same.
  - pose proof (insert_hash_head_linked s F1 ch b x1 Hh Hx1 ltac:(congruence)) as Hrun1. cbv zeta in Hrun1.
    rewrite Hrun1. rewrite Hd1, Hb1. fold kb. pose proof (inhash_rep bs1 (hash_table F) ch b x1 Hh Hx1 ltac:(congruence)) as Hr.
    rewrite Hd1, Hb1 in Hr. fold kb in Hr.
    eexists _, (hash_inserted b (head (ch kb)) bs1), (<[kb := Some b]> (hash_table F)). split; [by destruct F|].
    split; [|split; [|split]].
    + done.
    + apply (hash_rep_ch _ _ _ _ _ Hr). intros k _. unfold ch_inserted. rewrite Hd1, Hb1. fold kb. repeat case_decide; tauto.
    + apply (free_rep_fview bs1); [|done]. unfold hash_inserted. by rewrite fmap_oalter_same, fmap_alter_same.
    + unfold hash_inserted. by rewrite fmap_oalter_same, fmap_alter_same.
Qed.

(** the names after the change are still unique *)
Lemma names_renamed V V' b dev block :
  names_ok V -> (forall i, i <> b -> (fun v => (h_dev v, h_blk v)) <$> V' !! i = (fun v => (h_dev v, h_blk v)) <$> V !! i) ->
  (forall v, V' !! b = Some v -> h_dev v = u16 dev /\ h_blk v = u32 block) ->
  (forall i v, V !! i = Some v -> u16 dev <> 0 -> ~ (h_dev v = u16 dev /\ h_blk v = u32 block)) ->
  names_ok V'.
Proof.
  intros [Hrange Huniq] Hother Hb Hfree.
  assert (forall i v', V' !! i = Some v' -> i <> b -> exists v, V !! i = Some v /\ h_dev v' = h_dev v /\ h_blk v' = h_blk v) as Hget.
  { intros i v' Hv' Hi. specialize (Hother i Hi). rewrite Hv' in Hother. destruct (V !! i) as [v|]; [|done].
    injection Hother as H1 H2. by exists v. }
  constructor.
  - intros i v' Hv'. destruct (decide (i = b)) as [->|Hi].
    + destruct (Hb v' Hv') as [-> ->]. split; [apply u16_range|apply u32_range].
    + destruct (Hget i v' Hv' Hi) as (v & Hv & -> & ->). by apply (Hrange i).
  - intros i j v' w' Hv' Hw' Hd Hdd Hbb. destruct (decide (i = b)) as [->|Hi], (decide (j = b)) as [->|Hj]; [done|..].
    + destruct (Hget j w' Hw' Hj) as (w & Hw & Hwd & Hwb). destruct (Hb v' Hv') as [H1 H2].
      destruct (Hfree j w Hw); [congruence|]. split; congruence.
    + destruct (Hget i v' Hv' Hi) as (v & Hv & Hvd & Hvb). destruct (Hb w' Hw') as [H1 H2].
      destruct (Hfree i v Hv); [congruence|]. split; congruence.
    + destruct (Hget i v' Hv' Hi) as (v & Hv & Hvd & Hvb). destruct (Hget j w' Hw' Hj) as (w & Hw & Hwd & Hwb).
      apply (Huniq i j v w); congruence.
Qed.

Lemma sans_links_names (bs bs' : list buffer_head) : sans_links <$> bs' = sans_links <$> bs ->
  forall i, (fun v => (h_dev v, h_blk v)) <$> (hview <$> bs') !! i = (fun v => (h_dev v, h_blk v)) <$> (hview <$> bs) !! i.
Proof.
  intros H i. assert ((sans_links <$> bs') !! i = (sans_links <$> bs) !! i) as Hi by (by rewrite H).
  rewrite !list_lookup_fmap in *. destruct (bs' !! i) as [x|], (bs !! i) as [y|]; try done.
  assert (sans_links x = sans_links y) as Hxy.
  { assert (Some (sans_links x) = Some (sans_links y)) by exact Hi. congruence. }
  change (Some (b_dev (sans_links x), b_blocknr (sans_links x)) = Some (b_dev (sans_links y), b_blocknr (sans_links y))).
  by rewrite Hxy.
Qed.
Lemma sans_links_lookup (bs bs' : list buffer_head) i x' : sans_links <$> bs' = sans_links <$> bs -> bs' !! i = Some x' ->
  exists x, bs !! i = Some x /\ sans_links x' = sans_links x.
Proof.
  intros H Hx'. assert ((sans_links <$> bs') !! i = (sans_links <$> bs) !! i) as Hi by (by rewrite H).
  rewrite !list_lookup_fmap, Hx' in Hi. destruct (bs !! i) as [x|]; [|done]. exists x. split; [done|].
  assert (Some (sans_links x') = Some (sans_links x)) by exact Hi. congruence.
Qed.
Lemma fmap_alter_comm {A B} (g : A -> B) (f : A -> A) (f' : B -> B) (n : nat) (l : list A) :
  (forall x, g (f x) = f' (g x)) -> g <$> alter f n l = alter f' n (g <$> l).
Proof.
  intros H. apply list_eq. intros i. rewrite list_lookup_fmap, !alter_lookup, list_lookup_fmap.
  case_decide; [|done]. destruct (l !! i); cbn; by rewrite ?H.
Qed.

Lemma cache_rep_length F l ch : cache_rep F l ch -> length l = length (bufs F).
Proof.
  intros [_ Hf Hall _]. assert (l ≡ₚ seq 0 (length (bufs F))) as ->; [|by rewrite length_seq].
  apply NoDup_Permutation; [apply Hf|apply NoDup_seq|]. intros i. rewrite Hall, elem_of_seq. lia.
Qed.
Lemma cache_rep_without F l ch b : cache_rep F l ch -> (2 <= length (bufs F))%nat -> b ∈ l -> without b l <> [].
Proof.
  intros Hc Hlen Hb. rewrite <- (cache_rep_length _ _ _ Hc) in Hlen.
  apply list_elem_of_split in Hb as (l1 & l2 & ->). rewrite without_middle by apply Hc.
  rewrite length_app in Hlen. cbn in Hlen. destruct l1, l2; cbn in *; try done; lia.
Qed.

(** the new queues and the new names together *)
Lemma cache_rep_renamed F bs tbl fl l ch b x dev block :
  cache_rep F l ch -> bufs F !! b = Some x ->
  (forall i y, bufs F !! i = Some y -> u16 dev <> 0 -> ~ (b_dev y = u16 dev /\ b_blocknr y = u32 block)) ->
  hash_rep (hview <$> bs) tbl (ch_renamed b dev block ch) None -> free_rep bs fl (without b l ++ [b]) ->
  sans_links <$> bs = sans_links <$> alter (renamed dev block) b (bufs F) ->
  cache_rep (F <| bufs := bs |> <| hash_table := tbl |> <| free_list := fl |>) (without b l ++ [b]) (ch_renamed b dev block ch).
Proof.
  intros [_ _ Hall Hn] Hx Hfree Hh Hf Hsl. constructor; [done|done| |].
  - intros i. change (i ∈ without b l ++ [b] <-> (i < length bs)%nat).
    assert (length bs = length (bufs F)) as ->
      by (by rewrite <- (length_fmap sans_links bs), Hsl, length_fmap, length_alter).
    rewrite <- Hall, elem_of_app, elem_of_without, list_elem_of_singleton.
    destruct (decide (i = b)) as [->|]; [|tauto]. rewrite Hall. split; [|tauto]. intros _. by eapply lookup_lt_Some.
  - change (names_ok (hview <$> bs)). apply (names_renamed (hview <$> bufs F) _ b dev block Hn).
    + intros i Hi. rewrite (sans_links_names _ _ Hsl). by rewrite !list_lookup_fmap, list_lookup_alter_ne.
    + intros v Hv. pose proof (sans_links_names _ _ Hsl b) as H.
      rewrite Hv, list_lookup_fmap, alter_lookup, decide_True, Hx in H by done. by injection H as -> ->.
    + intros i v Hv Hd. rewrite list_lookup_fmap in Hv. destruct (bufs F !! i) as [y|] eqn:Hy; [|done].
      injection Hv as <-. by apply (Hfree i y).
Qed.

Lemma rename_buffer_run s l ch b x dev block :
  cache_rep (fsys s) l ch -> (2 <= length (bufs (fsys s)))%nat -> bufs (fsys s) !! b = Some x ->
  (forall i y, bufs (fsys s) !! i = Some y -> u16 dev <> 0 -> ~ (b_dev y = u16 dev /\ b_blocknr y = u32 block)) ->
  exists s' bs tbl fl, rename_buffer b dev block s =
      Ret tt (with_fs s' ((fsys s) <| bufs := bs |> <| hash_table := tbl |> <| free_list := fl |>)) /\
    s' = (if decide (u16 dev = 0) then s else null_write b (head (without b (ch (_hashfn (u16 dev) (u32 block))))) s) /\
    cache_rep ((fsys s) <| bufs := bs |> <| hash_table := tbl |> <| free_list := fl |>) (without b l ++ [b])
      (ch_renamed b dev block ch) /\
    sans_links <$> bs = sans_links <$> alter (renamed dev block) b (bufs (fsys s)).
Proof.
  intros Hc Hlen Hx Hfree. set (F := fsys s) in *. pose proof Hc as [Hh Hf Hall Hn].
  assert (b ∈ l) as Hb by (apply Hall; by eapply lookup_lt_Some).
  assert (forall i, i ∈ l -> is_Some (bufs F !! i)) as Hval by (intros i Hi; by apply lookup_lt_is_Some, Hall).
  pose proof (cache_rep_without _ _ _ _ Hc Hlen Hb) as Hne.
  unfold rename_buffer. set (f1 := fun x : buffer_head => x <| b_count := 1 |> <| b_dirt := 0 |> <| b_uptodate := 0 |>).
  assert (setbh b f1 s = Ret tt (with_fs s (F <| bufs ::= alter f1 b |>))) as Hrun1
    by (rewrite <- (setbh_run b f1 s F x Hx); by rewrite with_fs_id).
  rewrite (bind_Ret _ _ _ _ _ Hrun1). set (F1 := F <| bufs ::= alter f1 b |>).
  assert (bufs F1 = alter f1 b (bufs F)) as HF1 by done.
  assert (bufs F1 !! b = Some (f1 x)) as Hx1 by (by rewrite HF1, alter_lookup, decide_True, Hx by done).
  destruct (remove_from_queues_run s F1 l ch b (f1 x)) as (bs2 & tbl2 & fl2 & Hrun2 & Hh2 & Hf2 & Hs2); try done.
  { by rewrite HF1, fmap_alter_same. }
  { apply (free_rep_fview (bufs F)); [by rewrite HF1, fmap_alter_same|done]. }
  { intros i Hi. rewrite HF1, alter_lookup. destruct (Hval i Hi) as [y ->]. case_decide; cbn; eauto. }
  { by rewrite (cache_rep_length _ _ _ Hc). }
  rewrite (bind_Ret _ _ _ _ _ Hrun2). set (F2 := F1 <| bufs := bs2 |> <| hash_table := tbl2 |> <| free_list := fl2 |>).
  assert (is_Some (bs2 !! b)) as [x2 Hx2] by (apply (fmap_is_Some sans_links (bufs F1)); [done|eauto]).
  set (f3 := fun x : buffer_head => x <| b_dev := u16 dev |> <| b_blocknr := u32 block |>).
  rewrite (bind_Ret _ _ _ _ _ (setbh_run b f3 s F2 x2 Hx2)). set (F3 := F2 <| bufs ::= alter f3 b |>).
  assert (bufs F3 = alter f3 b bs2) as HF3 by done.
  assert (forall i, i ∈ without b l -> is_Some (bufs F3 !! i)) as Hval3.
  { intros i [_ Hi]%elem_of_without. destruct (Hval i Hi) as [y Hy].
    assert (is_Some (bs2 !! i)) as [y2 Hy2].
    { apply (fmap_is_Some sans_links (bufs F1)); [done|]. rewrite HF1, alter_lookup, Hy. case_decide; cbn; eauto. }
    rewrite HF3, alter_lookup, Hy2. case_decide; cbn; eauto. }
  destruct (insert_into_queues_run s F3 (without b l) (fun k => without b (ch k)) b (f3 x2)) as
    (s' & bs4 & tbl4 & Hrun4 & Hs' & Hh4 & Hf4 & Hs4).
  { apply (hash_rep_out (hview <$> bs2)); [done|]. intros i Hi. rewrite !list_lookup_fmap, HF3.
    by rewrite list_lookup_alter_ne. }
  { apply (free_rep_fview bs2); [by rewrite HF3, fmap_alter_same|done]. }
  { exact Hval3. }
  { exact Hne. }
  { by intros [? _]%elem_of_without. }
  { by rewrite HF3, alter_lookup, decide_True, Hx2 by done. }
  assert (sans_links <$> bs4 = sans_links <$> alter (renamed dev block) b (bufs F)) as Hsl.
  { rewrite Hs4, HF3, (fmap_alter_comm _ _ (fun y => f3 y) b bs2) by done. rewrite Hs2, HF1.
    rewrite !(fmap_alter_comm sans_links _ (fun y => f1 y)) by done.
    rewrite (fmap_alter_comm sans_links (renamed dev block) (renamed dev block)) by done. by rewrite alter_alter. }
  exists s', bs4, tbl4, fl2. split_and!; [|done| |done].
  - rewrite Hrun4. unfold F3, F2, F1. by destruct F.
  - by apply (cache_rep_renamed F _ _ _ l ch b x).
Qed.

(** ** Looking a block up *)

(** buffer [b] holds block [block] of device [dev] *)
Definition named (F : fs_st) (dev block : Z) (b : nat) : Prop :=
  exists x, bufs F !! b = Some x /\ b_dev x = dev /\ b_blocknr x = u32 block.

Lemma u32_mod_lxor a b : 0 <= a < 2 ^ 32 -> u32 (Z.lxor a b) = u32 (Z.lxor a (u32 b)).
Proof.
  intros Ha. unfold u32. apply Z.bits_inj'. intros n Hn. rewrite !testbit_mod by lia.
  destruct (Z.ltb_spec n 32); [|done]. cbn [andb]. rewrite !Z.lxor_spec, testbit_mod by lia.
  by rewrite (proj2 (Z.ltb_lt n 32)) by lia.
Qed.
Lemma hashfn_u32 dev block : 0 <= dev < 2 ^ 16 -> _hashfn dev block = _hashfn dev (u32 block).
Proof. intros Hd. unfold _hashfn. by rewrite u32_mod_lxor by lia. Qed.
Lemma same_block n block : 0 <= n < 2 ^ 32 -> - 2 ^ 31 <= block < 2 ^ 31 -> (s32 n =? block) = (n =? u32 block).
Proof.
  intros Hn Hb. apply eq_true_iff_eq. rewrite !Z.eqb_eq. unfold s32, u32.
  pose proof (Z.div_mod (n + 2 ^ 31) (2 ^ 32) ltac:(lia)). pose proof (Z.mod_pos_bound (n + 2 ^ 31) (2 ^ 32) ltac:(lia)).
  pose proof (Z.div_mod block (2 ^ 32) ltac:(lia)). pose proof (Z.mod_pos_bound block (2 ^ 32) ltac:(lia)). lia.
Qed.

Lemma chain_length F l ch k : cache_rep F l ch -> (k < NR_HASH)%nat -> (length (ch k) <= length (bufs F))%nat.
Proof.
  intros [Hh _ _ _] Hk. rewrite <- (length_seq (length (bufs F)) 0). apply submseteq_length.
  apply NoDup_submseteq; [by apply (hr_nodup _ _ _ _ Hh)|].
  intros i Hi. apply elem_of_seq. split; [lia|]. eapply lookup_lt_is_Some, hash_rep_lt; done.
Qed.

(** the rest [suf] of the chain is searched *)
Lemma find_loop s l ch dev block suf pre n : cache_rep (fsys s) l ch -> - 2 ^ 31 <= block < 2 ^ 31 ->
  ch (_hashfn dev block) = pre ++ suf -> (length suf < n)%nat -> (forall b, b ∈ pre -> ~ named (fsys s) dev block b) ->
  exists o, loop n (fun tmp : option nat => match tmp with
      | None => mret (inr None)
      | Some b => x ← getbh b;
          mret (if (b_dev x =? dev) && (s32 (b_blocknr x) =? block) then inr (Some b) else inl (b_next x))
      end) (head suf) s = Ret o s /\
    match o with Some b => named (fsys s) dev block b
               | None => forall b, b ∈ ch (_hashfn dev block) -> ~ named (fsys s) dev block b end.
Proof.
  intros Hc Hb. pose proof (hash_lt dev block) as Hk. set (k := _hashfn dev block) in *.
  pose proof (cr_hash _ _ _ Hc) as Hh. revert pre n. induction suf as [|b suf IH]; intros pre n Heq Hn Hpre.
  - destruct n as [|n]; [lia|]. exists None. split; [done|]. by rewrite Heq, app_nil_r.
  - destruct n as [|n]; [cbn in Hn; lia|]. cbn in Hn.
    assert (b ∈ ch k) as Hin by (rewrite Heq; apply elem_of_mid).
    destruct (hash_rep_lt _ _ _ _ k b Hh Hk Hin) as [x Hx].
    assert (getbh b s = Ret x s) as Hget by (rewrite <- (with_fs_id s) at 1 2; by apply getbh_run).
    assert ((hview <$> bufs (fsys s)) !! b = Some (hview x)) as HV by (by rewrite list_lookup_fmap, Hx).
    destruct (no_range _ (cr_names _ _ _ Hc) b _ HV) as [_ Hrange]. change (h_blk (hview x)) with (b_blocknr x) in Hrange.
    cbn [loop head]. destruct ((b_dev x =? dev) && (s32 (b_blocknr x) =? block)) eqn:Hname.
    + exists (Some b). split.
      * rewrite (bind_Ret _ _ s (inr (Some b)) s); [done|]. by rewrite (bind_Ret _ _ _ _ _ Hget), Hname.
      * exists x. apply andb_true_iff in Hname as [H1 H2]. rewrite same_block in H2 by done.
        split; [done|]. split; by apply Z.eqb_eq.
    + assert (b_next x = head suf) as Hnext.
      { pose proof (hr_chain _ _ _ _ Hh k Hk) as Hch. rewrite Heq in Hch. apply chain_neighbours in Hch as [Hch _].
        unfold nx in Hch. by rewrite HV in Hch. }
      destruct (IH (pre ++ [b]) n) as (o & Hrun & Ho).
      * by rewrite <- app_assoc.
      * lia.
      * intros c [Hc'| ->%list_elem_of_singleton]%elem_of_app; [by apply Hpre|].
        intros (y & Hy & Hyd & Hyb). assert (y = x) as -> by congruence.
        rewrite same_block, Hyd, Hyb, !Z.eqb_refl in Hname; done.
      * exists o. split; [|done]. rewrite (bind_Ret _ _ s (inl (head suf)) s); [done|].
        by rewrite (bind_Ret _ _ _ _ _ Hget), Hname, Hnext.
Qed.

Lemma find_buffer_run s l ch dev block : cache_rep (fsys s) l ch -> 0 <= dev < 2 ^ 16 -> - 2 ^ 31 <= block < 2 ^ 31 ->
  exists o, find_buffer dev block s = Ret o s /\
    match o with Some b => named (fsys s) dev block b | None => dev <> 0 -> forall b, ~ named (fsys s) dev block b end.
Proof.
  intros Hc Hd Hb. pose proof (hash_lt dev block) as Hk. set (k := _hashfn dev block) in *.
  pose proof (cr_hash _ _ _ Hc) as Hh. pose proof (chain_length _ _ _ k Hc Hk) as Hlen.
  unfold find_buffer. rewrite (bind_Ret (gets fsys) _ s (fsys s) s) by done.
  assert (hash_head dev block s = Ret (head (ch k)) s) as Hhead
    by (rewrite <- (with_fs_id s) at 1 2; apply hash_head_run, (hr_head _ _ _ _ Hh k Hk)).
  rewrite (bind_Ret _ _ _ _ _ Hhead).
  destruct (find_loop s l ch dev block (ch k) [] (S (length (bufs s.(fsys)))) Hc Hb) as (o & Hrun & Ho); [done|lia|set_solver|].
  exists o. split; [exact Hrun|]. destruct o as [b|]; [done|]. intros Hd0 b Hname. apply (Ho b); [|done].
  destruct Hname as (x & Hx & Hxd & Hxb).
  assert ((hview <$> bufs (fsys s)) !! b = Some (hview x)) as HV by (by rewrite list_lookup_fmap, Hx).
  pose proof (hr_in _ _ _ _ Hh b _ HV ltac:(done)) as Hin. cbn [hview h_dev h_blk] in Hin.
  rewrite Hxd, Hxb, (proj2 (Z.eqb_neq _ _) Hd0) in Hin. unfold k. by rewrite hashfn_u32.
Qed.

(** ** Taking a buffer and giving it back *)

(** one buffer head is changed *)
Definition alter_bh (f : buffer_head -> buffer_head) (b : nat) (s : kst) : kst := with_fs s ((fsys s) <| bufs ::= alter f b |>).
Definition counted (d : Z) (x : buffer_head) : buffer_head := x <| b_count ::= fun c => u8 (c + d) |>.
(** the state in which buffer [b] is taken *)
Definition taken (b : nat) (s : kst) : kst := alter_bh (counted 1) b s.

Lemma getbh_at b s x : bufs (fsys s) !! b = Some x -> getbh b s = Ret x s.
Proof. intros H. unfold getbh. mrun. by rewrite H. Qed.
Lemma setbh_at b f s x : bufs (fsys s) !! b = Some x -> setbh b f s = Ret tt (alter_bh f b s).
Proof. intros H. unfold alter_bh. rewrite <- (with_fs_id s) at 1. by rewrite (setbh_run b f s (fsys s) x H). Qed.
Lemma alter_bh_lookup f b s c : bufs (fsys (alter_bh f b s)) !! c = if decide (c = b) then f <$> bufs (fsys s) !! c else bufs (fsys s) !! c.
Proof. change (bufs (fsys (alter_bh f b s))) with (alter f b (bufs (fsys s))). apply alter_lookup. Qed.
Lemma alter_bh_same f b s : f <$> bufs (fsys s) !! b = bufs (fsys s) !! b -> alter_bh f b s = s.
Proof.
  intros H. assert (alter f b (bufs (fsys s)) = bufs (fsys s)) as Heq.
  { apply list_eq. intros i. rewrite alter_lookup. case_decide as Hi; [by subst i|done]. }
  unfold alter_bh, with_fs, upd. cbv beta. rewrite Heq. by destruct s as [? ? []].
Qed.
Lemma alter_bh_twice f g b s : alter_bh f b (alter_bh g b s) = alter_bh (f ∘ g) b s.
Proof. unfold alter_bh. destruct s as [? ? []]. unfold with_fs, upd. cbn. by rewrite alter_alter. Qed.
Lemma alter_bh_ext f g b s x : bufs (fsys s) !! b = Some x -> f x = g x -> alter_bh f b s = alter_bh g b s.
Proof.
  intros Hx Hfg. assert (alter f b (bufs (fsys s)) = alter g b (bufs (fsys s))) as Heq.
  { apply list_eq. intros i. rewrite !alter_lookup. case_decide as Hi; [subst i; rewrite Hx; cbn; by rewrite Hfg|done]. }
  unfold alter_bh, with_fs, upd. cbv beta. by rewrite Heq.
Qed.
Lemma taken_lookup b s : bufs (fsys (taken b s)) !! b = counted 1 <$> bufs (fsys s) !! b.
Proof. unfold taken. by rewrite alter_bh_lookup, decide_True. Qed.
Lemma counted_back x : 0 <= b_count x < 255 -> counted (- 1) (counted 1 x) = x.
Proof. intros H. destruct x. unfold counted, upd; cbn in *. f_equal. unfold u8. rewrite !Z.mod_small by (rewrite ?Z.mod_small; lia). lia. Qed.

Section Taking.
Context {E : Env}.
Hypothesis Hfuel : env_fuel <> 0%nat.

Lemma fuel_S : exists n, env_fuel = S n.
Proof. destruct env_fuel as [|n]; [done|by exists n]. Qed.
Lemma wait_on_buffer_free b s x : bufs (fsys s) !! b = Some x -> b_lock x = 0 -> wait_on_buffer b s = Ret tt s.
Proof.
  intros Hx Hl. unfold wait_on_buffer, while. destruct env_fuel as [|n]; [done|]. cbn [loop].
  rewrite (bind_Ret _ _ s (inr tt) s); [done|]. rewrite (bind_Ret _ _ s false s); [done|].
  rewrite (bind_Ret _ _ _ _ _ (getbh_at b s x Hx)). by rewrite Hl.
Qed.

(** a buffer that holds the block and is not locked is found without sleeping *)
Lemma get_hash_table_cached s l ch dev blk b x : cache_rep (fsys s) l ch -> 0 < dev < 2 ^ 16 -> 0 <= blk < 2 ^ 31 ->
  bufs (fsys s) !! b = Some x -> b_dev x = dev -> b_blocknr x = blk -> b_lock x = 0 ->
  get_hash_table dev blk s = Ret (Some b) (taken b s).
Proof.
  intros Hc Hdev Hblk Hx Hd Hb Hl. destruct (find_buffer_run s l ch dev blk Hc ltac:(lia) ltac:(lia)) as (o & Hrun & Ho).
  assert (o = Some b) as ->.
  { destruct o as [c|]; [|exfalso; apply (Ho ltac:(lia) b); exists x; rewrite u32_id by lia; done].
    destruct Ho as (y & Hy & Hyd & Hyb). rewrite u32_id in Hyb by lia. f_equal.
    apply (no_uniq _ (cr_names _ _ _ Hc) c b (hview y) (hview x)); rewrite ?list_lookup_fmap, ?Hy, ?Hx; try done; cbn; [|congruence..].
    unfold hview; cbn. lia. }
  pose proof (taken_lookup b s) as Ht. rewrite Hx in Ht. cbn in Ht.
  unfold get_hash_table. destruct fuel_S as [n Hn]. rewrite Hn. cbn [loop]. rewrite (bind_Ret _ _ s (inr (Some b)) (taken b s)); [done|].
  rewrite (bind_Ret _ _ _ _ _ Hrun). rewrite (bind_Ret _ _ _ _ _ (setbh_at b (counted 1) s x Hx)).
  rewrite (bind_Ret _ _ _ _ _ (wait_on_buffer_free b (taken b s) _ Ht Hl)).
  rewrite (bind_Ret _ _ _ _ _ (getbh_at b (taken b s) _ Ht)). cbn. rewrite Hd, Hb, Z.eqb_refl.
  assert (s32 blk = blk) as -> by (unfold s32; rewrite Z.mod_small; lia). by rewrite Z.eqb_refl.
Qed.
Lemma get_hash_table_none s l ch dev block : cache_rep (fsys s) l ch ->
  0 < dev < 2 ^ 16 -> - 2 ^ 31 <= block < 2 ^ 31 -> (forall b, ~ named (fsys s) dev block b) ->
  get_hash_table dev block s = Ret None s.
Proof.
  intros Hc Hd Hb Hno. unfold get_hash_table. destruct fuel_S as [f ->]. apply loop_done.
  destruct (find_buffer_run s l ch dev block Hc ltac:(lia) Hb) as (o & Hrun & Ho). rewrite (bind_Ret _ _ _ _ _ Hrun).
  destruct o as [b|]; [|done]. by destruct (Hno b).
Qed.

(** [brelse] of a buffer that is in use and not locked *)
Lemma brelse_run s b x : bufs (fsys s) !! b = Some x -> b_lock x = 0 -> b_count x <> 0 ->
  brelse (Some b) s = wake_up WqBufferWait (alter_bh (counted (- 1)) b s).
Proof.
  intros Hx Hl Hc. unfold brelse. rewrite (bind_Ret _ _ _ _ _ (wait_on_buffer_free b s _ Hx Hl)).
  rewrite (bind_Ret _ _ _ _ _ (getbh_at b s _ Hx)), (bind_Ret _ _ _ _ _ (setbh_at b (counted (- 1)) s _ Hx)).
  by destruct (Z.eqb_spec (b_count x) 0).
Qed.
Lemma wake_nobody q s : read_wq s q = None -> wake_up q s = Ret tt s.
Proof. intros H. unfold wake_up. rewrite (bind_Ret _ _ s s s) by done. by rewrite H. Qed.
Lemma brelse_quiet s b x : buffer_wait (fsys s) = None -> bufs (fsys s) !! b = Some x -> b_lock x = 0 -> b_count x <> 0 ->
  brelse (Some b) s = Ret tt (alter_bh (counted (- 1)) b s).
Proof. intros Hw Hx Hl Hc. rewrite (brelse_run s b x) by done. by apply wake_nobody. Qed.
Lemma brelse_taken s b x : buffer_wait (fsys s) = None -> bufs (fsys s) !! b = Some x -> b_lock x = 0 -> 0 <= b_count x < 255 ->
  brelse (Some b) (taken b s) = Ret tt s.
Proof.
  intros Hw Hx Hl Hc. pose proof (taken_lookup b s) as Ht. rewrite Hx in Ht. cbn in Ht.
  rewrite (brelse_quiet (taken b s) b (counted 1 x)); [|done..|].
  - f_equal. unfold taken. rewrite alter_bh_twice. apply alter_bh_same. rewrite Hx. cbn. by rewrite counted_back.
  - unfold counted, upd; cbn. unfold u8. rewrite Z.mod_small by lia. lia.
Qed.
End Taking.
