(* ===== verification/Bitmap.v ===== *)
(** * fs/bitmap.cc and the knot of buffer.cc and inode.cc

    [write_inode] and [sync_inodes] close the recursion of the buffer cache;
    then come the functions of buffer.cc that use it, and the block and inode
    bitmaps. *)

From S2P Require Import Prelude State Memory Sched Request LlRw Buffer.

(** ** Inodes on disk: [struct d_inode], 32 bytes *)

Definition D_INODE_SIZE : nat := 32.
Definition inode_at (nr : Z) : nat := (Z.to_nat (u32 (nr - 1) mod INODES_PER_BLOCK) * D_INODE_SIZE)%nat.

Definition encode_inode (x : m_inode) : list Z :=
  le16 (i_mode x) ++ le16 (i_uid x) ++ le32 (i_size x) ++ le32 (i_mtime x) ++
  [u8 (i_gid x); u8 (i_nlinks x)] ++ (i_zone x ≫= le16).
Definition decode_inode (l : list Z) (o : nat) (x : m_inode) : m_inode :=
  x <| i_mode := get16 l o |> <| i_uid := get16 l (o + 2) |> <| i_size := get32 l (o + 4) |>
    <| i_mtime := get32 l (o + 8) |> <| i_gid := get8 l (o + 12) |> <| i_nlinks := get8 l (o + 13) |>
    <| i_zone := (fun k => get16 l (o + 14 + 2 * k)%nat) <$> seq 0 9 |>.

Section Knot.
Context {E : Env}.

Definition inode_block (sb : super_block) (nr : Z) : Z :=
  s32 (2 + s_imap_blocks sb + s_zmap_blocks sb + u32 (nr - 1) / INODES_PER_BLOCK).

Definition write_inode_with (sync_inodes : K unit) (i : nat) : K unit :=
  lock_inode i ;;
  x ← getino i;
  if negb (nz (i_dirt x)) || (i_dev x =? 0) then unlock_inode i else
  o ← get_super (i_dev x);
  match o with
  | None => panic "trying to write inode without device"
  | Some n =>
      sb ← getsb n; x ← getino i;
      o ← bread_with sync_inodes (i_dev x) (inode_block sb (i_num x));
      match o with
      | None => panic "unable to read i-node block"
      | Some b =>
          x ← getino i;
          setbh b (fun y => y <| b_data ::= list_inserts (inode_at (i_num x)) (encode_inode x) |> <| b_dirt := 1 |>) ;;
          setino i (fun x => x <| i_dirt := 0 |>) ;;
          brelse (Some b) ;;
          unlock_inode i
      end
  end.

(** the depth of the recursion is bounded by the fuel of the waiting loops *)
Fixpoint sync_inodes_n (n : nat) : K unit :=
  match n with
  | O => spin
  | S n =>
      for_each (seq 0 NR_INODE) (fun i =>
        wait_on_inode i ;;
        x ← getino i;
        when (nz (i_dirt x) && negb (nz (i_pipe x))) (write_inode_with (sync_inodes_n n) i))
  end.
Definition sync_inodes : K unit := sync_inodes_n env_fuel.
Definition write_inode (i : nat) : K unit := write_inode_with sync_inodes i.
Definition getblk (dev block : Z) : K nat := getblk_with sync_inodes dev block.
Definition bread (dev block : Z) : K (option nat) := bread_with sync_inodes dev block.
Definition sync_dev (dev : Z) : K Z := sync_dev_with sync_inodes dev.

(** ** The rest of buffer.cc *)

Definition sys_sync : K Z :=
  sync_inodes ;;
  each_buffer (fun b =>
    wait_on_buffer b ;;
    x ← getbh b;
    when (nz (b_dirt x)) (ll_rw_block WRITE b)) ;;
  mret 0.

(** [COPYBLK]: a block into physical memory, by words *)
Definition COPYBLK (data : list Z) (address : Z) : M mm_st unit :=
  modify (fun m => m <| df := false |>) ;;
  for_each (seq 0 256) (fun k => store (address + 4 * Z.of_nat k) (get32 data (4 * k))).

Definition bread_page (address dev : Z) (nr : list Z) : K unit :=
  bh ← for_fold nr [] (fun bh block =>
    if nz block then
      b ← getblk dev block; x ← getbh b;
      unless (nz (b_uptodate x)) (ll_rw_block READ b) ;;
      mret (bh ++ [Some b])
    else mret (bh ++ [None]));
  for_each (imap pair bh) (fun '(i, o) =>
    match o with
    | None => mret tt
    | Some b =>
        wait_on_buffer b ;;
        x ← getbh b;
        when (nz (b_uptodate x)) (zoom_mm (COPYBLK (b_data x) (address + BLOCK_SIZE * Z.of_nat i))) ;;
        brelse (Some b)
    end).

(** the read-ahead request names [bh], not [tmp] *)
Definition breada (dev first : Z) (more : list Z) : K (option nat) :=
  b ← getblk dev first;
  x ← getbh b;
  unless (nz (b_uptodate x)) (ll_rw_block READ b) ;;
  for_each more (fun block =>
    tmp ← getblk dev block;
    y ← getbh tmp;
    unless (nz (b_uptodate y)) (ll_rw_block READA b) ;;
    setbh tmp (fun y => y <| b_count ::= fun c => u8 (c - 1) |>)) ;;
  wait_on_buffer b ;;
  x ← getbh b;
  if nz (b_uptodate x) then mret (Some b) else
  brelse (Some b) ;; mret None.
End Knot.

(** ** Bits *)

(** [bsfl] of the complement: the first clear bit of a word *)
Fixpoint clear_bit_of (w : Z) (n k : nat) : option nat :=
  match n with
  | O => None
  | S n => if Z.testbit w (Z.of_nat k) then clear_bit_of w n (S k) else Some k
  end.
Fixpoint find_zero_word (l : list Z) (n ecx : nat) : nat :=
  match n with
  | O => ecx
  | S n => match clear_bit_of (get32 l (ecx / 8)) 32 0 with
           | Some edx => (ecx + edx)%nat
           | None => find_zero_word l n (ecx + 32)
           end
  end.
(** [find_first_zero(addr)]: 8192 when there is none *)
Definition find_first_zero (l : list Z) : nat := find_zero_word l 256 0.

Definition test_bit (nr : nat) (l : list Z) : bool := Z.testbit (get8 l (nr / 8)) (Z.of_nat (nr mod 8)).
(** [btsl] and [btrl] on a bit string *)
Definition bts (nr : nat) (l : list Z) : list Z :=
  <[(nr / 8)%nat := Z.lor (get8 l (nr / 8)) (Z.shiftl 1 (Z.of_nat (nr mod 8)))]> l.
Definition btr (nr : nat) (l : list Z) : list Z :=
  <[(nr / 8)%nat := Z.ldiff (get8 l (nr / 8)) (Z.shiftl 1 (Z.of_nat (nr mod 8)))]> l.

Section Bitmap.
Context {E : Env}.

(** [set_bit] returns the old bit, [clear_bit] its negation *)
Definition set_bit (nr : nat) (b : nat) : K bool :=
  x ← getbh b;
  setbh b (fun x => x <| b_data ::= bts nr |>) ;; mret (test_bit nr (b_data x)).
Definition clear_bit (nr : nat) (b : nat) : K bool :=
  x ← getbh b;
  setbh b (fun x => x <| b_data ::= btr nr |>) ;; mret (negb (test_bit nr (b_data x))).

Definition free_block (dev block : Z) : K unit :=
  o ← get_super dev;
  match o with
  | None => panic "trying to free block on nonexistent device"
  | Some n =>
      sb ← getsb n;
      if (block <? s_firstdatazone sb) || (s_nzones sb <=? block) then panic "trying to free block not in datazone" else
      o ← get_hash_table dev block;
      shared ← match o with
        | None => mret false
        | Some b =>
            x ← getbh b;
            if negb (b_count x =? 1) then
              printk "trying to free block (%04x:%d), count=%d" [dev; block; b_count x] ;; mret true
            else
              setbh b (fun x => x <| b_dirt := 0 |> <| b_uptodate := 0 |>) ;;
              brelse (Some b) ;; mret false
        end;
      if shared : bool then mret tt else
      sb ← getsb n;
      let block := block - (s_firstdatazone sb - 1) in
      z ← deref (s_zmap sb !! Z.to_nat (Z.quot block 8192));
      z ← deref z;
      bad ← clear_bit (Z.to_nat (Z.land block 8191)) z;
      if bad : bool then
        printk "block (%04x:%d) " [dev; block + s_firstdatazone sb - 1] ;;
        panic "free_block: bit already cleared"
      else setbh z (fun x => x <| b_dirt := 1 |>)
  end.

(** the first slot of a bitmap with a clear bit: slot, buffer and bit.  A slot
    without a buffer is skipped *)
Fixpoint scan_map (i : nat) (m : list (option nat)) : K (option (nat * nat * nat)) :=
  match m with
  | [] => mret None
  | None :: m => scan_map (S i) m
  | Some b :: m =>
      x ← getbh b;
      let j := find_first_zero (b_data x) in
      if (j <? 8192)%nat then mret (Some (i, b, j)) else scan_map (S i) m
  end.

Definition new_block (dev : Z) : K Z :=
  o ← get_super dev;
  match o with
  | None => panic "trying to get new block from nonexistant device"
  | Some n =>
      sb ← getsb n;
      o ← scan_map 0 (take 8 (s_zmap sb));
      match o with
      | None => mret 0
      | Some (i, b, j) =>
          old ← set_bit j b;
          if old : bool then panic "new_block: bit already set" else
          setbh b (fun x => x <| b_dirt := 1 |>) ;;
          let j := Z.of_nat j + Z.of_nat i * 8192 + s_firstdatazone sb - 1 in
          if s_nzones sb <=? j then mret 0 else
          b ← getblk dev j;
          x ← getbh b;
          if negb (b_count x =? 1) then panic "new block: count is != 1" else
          setbh b (fun x => x <| b_data := replicate 1024 0 |> <| b_uptodate := 1 |> <| b_dirt := 1 |>) ;;
          brelse (Some b) ;;
          mret j
      end
  end.

Definition free_inode (o : option nat) : K unit :=
  match o with
  | None => mret tt
  | Some i =>
      x ← getino i;
      if i_dev x =? 0 then setino i (fun _ => zero_inode) else
      if 1 <? i_count x then printk "trying to free inode with count=%d" [i_count x] ;; panic "free_inode" else
      if nz (i_nlinks x) then panic "trying to free inode with links" else
      o ← get_super (i_dev x);
      match o with
      | None => panic "trying to free inode on nonexistent device"
      | Some n =>
          sb ← getsb n; x ← getino i;
          if (i_num x <? 1) || (s_ninodes sb <? i_num x) then panic "trying to free inode 0 or nonexistant inode" else
          m ← deref (s_imap sb !! Z.to_nat (Z.shiftr (i_num x) 13));
          match m with
          | None => panic "nonexistent imap in superblock"
          | Some b =>
              bad ← clear_bit (Z.to_nat (Z.land (i_num x) 8191)) b;
              when bad (printk "free_inode: bit already cleared." []) ;;
              setbh b (fun x => x <| b_dirt := 1 |>) ;;
              setino i (fun _ => zero_inode)
          end
      end
  end.
End Bitmap.
