(* ===== verification/CacheFacts.v ===== *)
(** * fs/buffer.cc: one buffer per block, whatever happens while [getblk] sleeps

    [getblk] sleeps in many places, and other tasks use the buffer cache
    meanwhile.  The invariant says that the queues represent the buffers and
    that no two buffers hold the same block of a device.  Everything on the way
    through the drivers keeps it, if the other tasks and the timer functions do. *)

From S2P Require Import Prelude Bits State Memory Sched Request Hd Floppy LlRw Buffer Bitmap BufferFacts.

(** ** The invariant *)

Definition cache_ok (F : fs_st) : Prop :=
  (2 <= length (bufs F))%nat /\ (exists l ch, cache_rep F l ch) /\
  (forall i x, inode_table F !! i = Some x -> 0 <= i_dev x < 2 ^ 16).
Definition cache_inv (s : kst) : Prop := cache_ok (fsys s).

(** what the invariant depends on *)
Definition key_view (F : fs_st) : list hlink * list (option nat * option nat) * list (option nat) * option nat * list Z :=
  (hview <$> bufs F, fview <$> bufs F, hash_table F, free_list F, i_dev <$> inode_table F).

Lemma cache_rep_view F F' l ch :
  hview <$> bufs F' = hview <$> bufs F -> fview <$> bufs F' = fview <$> bufs F ->
  hash_table F' = hash_table F -> free_list F' = free_list F -> cache_rep F l ch -> cache_rep F' l ch.
Proof.
  intros Hv Hf Ht Hl [C1 C2 C3 C4]. constructor.
  - by rewrite Hv, Ht.
  - rewrite Hl. by apply (free_rep_fview (bufs F)).
  - intros i. rewrite C3. by rewrite <- (length_fmap hview (bufs F)), <- Hv, length_fmap.
  - by rewrite Hv.
Qed.

Lemma cache_ok_view F F' : key_view F' = key_view F -> cache_ok F -> cache_ok F'.
Proof.
  intros [= Hv Hf Ht Hl Hi] (H1 & (l & ch & H2) & H3). split; [|split].
  - by rewrite <- (length_fmap hview (bufs F')), Hv, length_fmap.
  - exists l, ch. by apply (cache_rep_view F).
  - intros i x Hx. assert ((i_dev <$> inode_table F') !! i = (i_dev <$> inode_table F) !! i) as H by (by rewrite Hi).
    rewrite !list_lookup_fmap, Hx in H. destruct (inode_table F !! i) as [y|] eqn:Hy; [|done].
    assert (i_dev x = i_dev y) as -> by (by injection H). by apply (H3 i).
Qed.

Abbreviation keeps := (keeps_inv cache_inv).

Lemma keeps_key s s' : key_view (fsys s') = key_view (fsys s) -> keeps s s'.
Proof. intros H Hs. by apply (cache_ok_view (fsys s)). Qed.
Lemma keeps_view f : (forall s, key_view (fsys (f s)) = key_view (fsys s)) -> guar keeps (modify f).
Proof. intros Hf. apply guar_modify. intros s. by apply keeps_key, Hf. Qed.

(** ** What waiting, the drivers and the request queue leave alone

    They change neither the queues of the buffers nor which inodes are where and
    how often they are in use.  A relation that depends on nothing else, and that
    other tasks and timer functions respect, is a guarantee of all of them. *)
Definition iuse (x : m_inode) : Z * Z * Z := (i_dev x, i_num x, i_count x).
Definition quiet_view (F : fs_st) : list hlink * list (option nat * option nat) * list (option nat) * option nat * list (Z * Z * Z) * list Z :=
  (hview <$> bufs F, fview <$> bufs F, hash_table F, free_list F, iuse <$> inode_table F, s_dev <$> super_blocks F).

Class Quiet `{E : Env} (R : relation kst) : Prop := {
  quiet_pre : PreOrder R;
  quiet_same : forall s s', quiet_view (fsys s') = quiet_view (fsys s) -> R s s';
  quiet_env_resume : forall s, R s (env_resume s);
  quiet_env_call : forall f s, R s (env_call f s)
}.
#[export] Existing Instance quiet_pre.

Lemma setino_run i f s x : inode_table (fsys s) !! i = Some x ->
  setino i f s = Ret tt (with_fs s ((fsys s) <| inode_table ::= alter f i |>)).
Proof.
  intros H. assert (getino i s = Ret x s) as Hget by (unfold getino; mrun; by rewrite H).
  unfold setino. rewrite (bind_Ret _ _ _ _ _ Hget). unfold on_fs, modify, with_fs. unfold upd. cbn.
  by rewrite (alter_insert f i _ x H).
Qed.
Section Quiet.
Context {E : Env} (R : relation kst) {Q : Quiet R}.

Lemma quiet_view_of f : (forall s, quiet_view (fsys (f s)) = quiet_view (fsys s)) -> guar R (modify f).
Proof. intros Hf. apply (guar_modify R). intros s. by apply quiet_same, Hf. Qed.
(** an update of one table entry that leaves names and links alone *)
Lemma quiet_setbh b f : (forall x, hview (f x) = hview x) -> (forall x, fview (f x) = fview x) -> guar R (setbh b f).
Proof.
  intros Hv Hf s. destruct (bufs (fsys s) !! b) as [x|] eqn:Hx.
  - rewrite <- (with_fs_id s) at 2. rewrite (setbh_run b f s (fsys s) x Hx). apply quiet_same. unfold quiet_view.
    change (fsys (state_of (Ret tt (with_fs s ((fsys s) <| bufs ::= alter f b |>))))) with ((fsys s) <| bufs ::= alter f b |>).
    change (bufs ((fsys s) <| bufs ::= alter f b |>)) with (alter f b (bufs (fsys s))).
    rewrite !fmap_alter_same by done. by destruct (fsys s).
  - unfold setbh, getbh. mrun. rewrite Hx. apply (guar_fault R).
Qed.
Lemma quiet_setino i f : (forall x, iuse (f x) = iuse x) -> guar R (setino i f).
Proof.
  intros Hf s. destruct (inode_table (fsys s) !! i) as [x|] eqn:Hx.
  - rewrite (setino_run i f s x Hx). apply quiet_same. unfold quiet_view.
    change (fsys (state_of (Ret tt (with_fs s ((fsys s) <| inode_table ::= alter f i |>))))) with ((fsys s) <| inode_table ::= alter f i |>).
    change (inode_table ((fsys s) <| inode_table ::= alter f i |>)) with (alter f i (inode_table (fsys s))).
    rewrite (fmap_alter_same iuse) by done. by destruct (fsys s).
  - unfold setino, getino. mrun. rewrite Hx. apply (guar_fault R).
Qed.

Lemma quiet_zoom_sched {A} (m : M sched_st A) : guar R (zoom_sched m).
Proof. intros s. apply quiet_same. unfold zoom_sched, zoom. by destruct (m (sched s)), s. Qed.
Lemma quiet_zoom_mm {A} (m : M mm_st A) : guar R (zoom_mm m).
Proof. intros s. apply quiet_same. unfold zoom_mm, zoom. by destruct (m (mm s)), s. Qed.
Lemma quiet_write_wq q p : guar R (modify (write_wq q p)).
Proof.
  apply quiet_view_of. intros s. unfold quiet_view. destruct q; try done; unfold write_wq, upd; cbn.
  - by rewrite !fmap_alter_same.
  - by rewrite (fmap_alter_same iuse).
  - by rewrite (fmap_alter_same s_dev).
Qed.
Lemma quiet_resume : guar R (modify env_resume).
Proof. apply (guar_modify R). exact quiet_env_resume. Qed.
Lemma quiet_call f : guar R (modify (env_call f)).
Proof. apply (guar_modify R). exact (quiet_env_call f). Qed.
End Quiet.

Ltac quiet_modify :=
  first [apply quiet_resume; exact _ | apply quiet_call; exact _ | apply quiet_write_wq; exact _ | apply quiet_view_of; [exact _|reflexivity]].
Ltac quiet := guar_walk ltac:(quiet_modify).

#[export] Hint Extern 0 (Quiet _) => exact _ : guar.
#[export] Hint Resolve quiet_zoom_sched quiet_zoom_mm : guar.
#[export] Hint Extern 1 (guar _ (setbh _ _)) => apply quiet_setbh; [exact _|reflexivity..] : guar.
#[export] Hint Extern 1 (guar _ (setino _ _)) => apply quiet_setino; [exact _|reflexivity] : guar.

Section QuietCode.
Context {E : Env} (R : relation kst) {Q : Quiet R}.

Lemma quiet_getbh b : guar R (getbh b).
Proof. unfold getbh. quiet. Qed.
Lemma quiet_getino i : guar R (getino i).
Proof. unfold getino. quiet. Qed.
Lemma quiet_getsb n : guar R (getsb n).
Proof. unfold getsb. quiet. Qed.
Lemma quiet_getreq r : guar R (getreq r).
Proof. unfold getreq. quiet. Qed.
Lemma quiet_gettask p : guar R (gettask p).
Proof. unfold gettask. quiet. Qed.
#[local] Hint Resolve quiet_getbh quiet_getino quiet_getsb quiet_getreq quiet_gettask : guar.
Lemma quiet_on_sched f : guar R (on_sched f).
Proof. unfold on_sched. quiet. Qed.
Lemma quiet_on_blk f : guar R (on_blk f).
Proof. unfold on_blk. quiet. Qed.
Lemma quiet_on_hd f : guar R (on_hd f).
Proof. unfold on_hd. quiet. Qed.
Lemma quiet_on_fd f : guar R (on_fd f).
Proof. unfold on_fd. quiet. Qed.
#[local] Hint Resolve quiet_on_sched quiet_on_blk quiet_on_hd quiet_on_fd : guar.
Lemma quiet_setreq r f : guar R (setreq r f).
Proof. unfold setreq. quiet. Qed.
Lemma quiet_settask p f : guar R (settask p f).
Proof. unfold settask. quiet. Qed.
Lemma quiet_printk f a : guar R (printk f a).
Proof. unfold printk. quiet. Qed.
Lemma quiet_inb p : guar R (inb p).
Proof. unfold inb. quiet. Qed.
Lemma quiet_inw p : guar R (inw p).
Proof. unfold inw. quiet. Qed.
Lemma quiet_outb v p : guar R (outb v p).
Proof. unfold outb. quiet. Qed.
Lemma quiet_outw v p : guar R (outw v p).
Proof. unfold outw. quiet. Qed.
#[local] Hint Resolve quiet_setreq quiet_settask quiet_printk quiet_inb quiet_inw quiet_outb quiet_outw : guar.
Lemma quiet_setme f : guar R (setme f).
Proof. unfold setme. quiet. Qed.
#[local] Hint Resolve quiet_setme : guar.

(** *** sched.cc *)
Lemma quiet_schedule : guar R schedule.
Proof. unfold schedule, switch_to. quiet. Qed.
Lemma quiet_wake_up q : guar R (wake_up q).
Proof. unfold wake_up. quiet. Qed.
#[local] Hint Resolve quiet_schedule quiet_wake_up : guar.
Lemma quiet_sleep_on q : guar R (sleep_on q).
Proof. unfold sleep_on, sleep_on_enter, sleep_on_leave. quiet. Qed.
Lemma quiet_add_timer j f : guar R (add_timer j f).
Proof. unfold add_timer, call. quiet. Qed.
Lemma quiet_ticks n : guar R (ticks_to_floppy_on n).
Proof. unfold ticks_to_floppy_on. quiet. Qed.
Lemma quiet_floppy_off n : guar R (floppy_off n).
Proof. unfold floppy_off. quiet. Qed.
#[local] Hint Resolve quiet_sleep_on quiet_add_timer quiet_ticks quiet_floppy_off : guar.

(** *** blk.h and the drivers *)
Lemma quiet_CURRENT d : guar R (CURRENT d).
Proof. unfold CURRENT. quiet. Qed.
#[local] Hint Resolve quiet_CURRENT : guar.
Lemma quiet_CURRENT_req d : guar R (CURRENT_req d).
Proof. unfold CURRENT_req. quiet. Qed.
Lemma quiet_set_CURRENT_req d f : guar R (set_CURRENT_req d f).
Proof. unfold set_CURRENT_req. quiet. Qed.
Lemma quiet_unlock_buffer m b : guar R (unlock_buffer m b).
Proof. unfold unlock_buffer. quiet. Qed.
#[local] Hint Resolve quiet_CURRENT_req quiet_set_CURRENT_req quiet_unlock_buffer : guar.
Lemma quiet_end_request d u : guar R (end_request d u).
Proof. unfold end_request, DEVICE_OFF, set_CURRENT. quiet. Qed.
Lemma quiet_INIT_REQUEST d : guar R (INIT_REQUEST d).
Proof. unfold INIT_REQUEST. quiet. Qed.
#[local] Hint Resolve quiet_end_request quiet_INIT_REQUEST : guar.
Lemma quiet_do_rd_request : guar R do_rd_request.
Proof. unfold do_rd_request, rd_step. quiet. Qed.

Lemma quiet_port_write p l : guar R (port_write p l).
Proof.
  enough (forall n l, (length l <= n)%nat -> guar R (port_write p l)) as H by by eapply H.
  clear l. induction n as [|n IH]; intros l Hl.
  - destruct l; [|cbn in Hl; lia]. apply guar_ret; exact _.
  - destruct l as [|lo [|hi l]]; cbn [port_write]; [quiet..|]. apply guar_bind; [exact _|eauto with guar|].
    intros _. apply IH. cbn in Hl. lia.
Qed.
Lemma quiet_poll_ready n : guar R (poll_ready n).
Proof. induction n; cbn [poll_ready]; quiet. Qed.
Lemma quiet_poll_busy n : guar R (poll_busy n).
Proof. induction n; cbn [poll_busy]; quiet. Qed.
Lemma quiet_poll_drq n : guar R (poll_drq n).
Proof. induction n; cbn [poll_drq]; quiet. Qed.
#[local] Hint Resolve quiet_port_write quiet_poll_ready quiet_poll_busy quiet_poll_drq : guar.
Lemma quiet_get_hd_info d : guar R (get_hd_info d).
Proof. unfold get_hd_info. quiet. Qed.
#[local] Hint Resolve quiet_get_hd_info : guar.
Lemma quiet_hd_out a b c d e f g : guar R (hd_out a b c d e f g).
Proof. unfold hd_out, controller_ready. quiet. Qed.
#[local] Hint Resolve quiet_hd_out : guar.
Lemma quiet_reset_hd n : guar R (reset_hd n).
Proof. unfold reset_hd, reset_controller, drive_busy. quiet. Qed.
Lemma quiet_bad_rw_intr : guar R bad_rw_intr.
Proof. unfold bad_rw_intr. quiet. Qed.
Lemma quiet_current_sector : guar R current_sector.
Proof. unfold current_sector. quiet. Qed.
#[local] Hint Resolve quiet_reset_hd quiet_bad_rw_intr quiet_current_sector : guar.
Lemma quiet_hd_step : guar R hd_step.
Proof. unfold hd_step. quiet. Qed.
#[local] Hint Resolve quiet_hd_step : guar.
Lemma quiet_do_hd_request : guar R do_hd_request.
Proof. unfold do_hd_request. quiet. Qed.

Lemma quiet_poll_out n : guar R (poll_out n).
Proof. induction n; cbn [poll_out]; quiet. Qed.
#[local] Hint Resolve quiet_poll_out : guar.
Lemma quiet_output_byte b : guar R (output_byte b).
Proof. unfold output_byte, getfd. quiet. Qed.
#[local] Hint Resolve quiet_output_byte : guar.
Lemma quiet_fd_step : guar R fd_step.
Proof. unfold fd_step, getfd. quiet. Qed.
#[local] Hint Resolve quiet_fd_step : guar.
Lemma quiet_do_fd_request_n n : guar R (do_fd_request_n n).
Proof. induction n; cbn [do_fd_request_n]; unfold getfd, reset_floppy, recalibrate_floppy, getfd; quiet. Qed.
Lemma quiet_do_fd_request : guar R do_fd_request.
Proof. apply quiet_do_fd_request_n. Qed.
#[local] Hint Resolve quiet_do_rd_request quiet_do_hd_request quiet_do_fd_request : guar.

(** *** ll_rw_blk.c *)
Lemma quiet_call_request_fn d : guar R (call_request_fn d).
Proof. unfold call_request_fn. quiet. Qed.
Lemma quiet_lock_buffer b : guar R (lock_buffer b).
Proof. unfold lock_buffer. quiet. Qed.
Lemma quiet_elevator_step r t : guar R (elevator_step r t).
Proof. unfold elevator_step. quiet. Qed.
#[local] Hint Resolve quiet_call_request_fn quiet_lock_buffer quiet_elevator_step : guar.
Lemma quiet_add_request d r : guar R (add_request d r).
Proof. unfold add_request. quiet. Qed.
Lemma quiet_get_request rw ra : guar R (get_request rw ra).
Proof. unfold get_request. quiet. Qed.
#[local] Hint Resolve quiet_add_request quiet_get_request : guar.
Lemma quiet_make_request m rw b : guar R (make_request m rw b).
Proof. unfold make_request. quiet. Qed.
#[local] Hint Resolve quiet_make_request : guar.
Lemma quiet_ll_rw_block rw b : guar R (ll_rw_block rw b).
Proof. unfold ll_rw_block. quiet. Qed.
#[local] Hint Resolve quiet_ll_rw_block : guar.

(** *** buffer.cc, without the renaming *)
Lemma quiet_wait_on_buffer b : guar R (wait_on_buffer b).
Proof. unfold wait_on_buffer. quiet. Qed.
Lemma quiet_wait_on_inode i : guar R (wait_on_inode i).
Proof. unfold wait_on_inode. quiet. Qed.
Lemma quiet_wait_on_super n : guar R (wait_on_super n).
Proof. unfold wait_on_super. quiet. Qed.
#[local] Hint Resolve quiet_wait_on_buffer quiet_wait_on_inode quiet_wait_on_super : guar.
Lemma quiet_lock_inode i : guar R (lock_inode i).
Proof. unfold lock_inode. quiet. Qed.
Lemma quiet_unlock_inode i : guar R (unlock_inode i).
Proof. unfold unlock_inode. quiet. Qed.
Lemma quiet_get_super d : guar R (get_super d).
Proof. unfold get_super. quiet. Qed.
Lemma quiet_hash_head d b : guar R (hash_head d b).
Proof. unfold hash_head. quiet. Qed.
#[local] Hint Resolve quiet_lock_inode quiet_unlock_inode quiet_get_super quiet_hash_head : guar.
Lemma quiet_find_buffer d b : guar R (find_buffer d b).
Proof. unfold find_buffer. quiet. Qed.
#[local] Hint Resolve quiet_find_buffer : guar.
Lemma quiet_get_hash_table d b : guar R (get_hash_table d b).
Proof. unfold get_hash_table. quiet. Qed.
Lemma quiet_scan_free : guar R scan_free.
Proof. unfold scan_free. quiet. Qed.
Lemma quiet_brelse o : guar R (brelse o).
Proof. unfold brelse. quiet. Qed.
Lemma quiet_sync_buffers d : guar R (sync_buffers d).
Proof. unfold sync_buffers, each_buffer, NR_BUFFERS. quiet. Qed.
#[local] Hint Resolve quiet_get_hash_table quiet_scan_free quiet_brelse quiet_sync_buffers : guar.

End QuietCode.
#[export] Hint Resolve quiet_getbh quiet_getino quiet_getsb quiet_getreq quiet_gettask quiet_on_sched quiet_on_blk quiet_on_hd quiet_on_fd quiet_setreq quiet_settask quiet_printk quiet_inb quiet_inw quiet_outb quiet_outw quiet_setme quiet_schedule quiet_wake_up quiet_sleep_on quiet_add_timer quiet_ticks quiet_floppy_off quiet_CURRENT quiet_CURRENT_req quiet_set_CURRENT_req quiet_unlock_buffer quiet_end_request quiet_INIT_REQUEST quiet_do_rd_request quiet_port_write quiet_poll_ready quiet_poll_busy quiet_poll_drq quiet_get_hd_info quiet_hd_out quiet_reset_hd quiet_bad_rw_intr quiet_current_sector quiet_hd_step quiet_do_hd_request quiet_poll_out quiet_output_byte quiet_fd_step quiet_do_fd_request_n quiet_do_fd_request quiet_call_request_fn quiet_lock_buffer quiet_elevator_step quiet_add_request quiet_get_request quiet_make_request quiet_ll_rw_block quiet_wait_on_buffer quiet_wait_on_inode quiet_wait_on_super quiet_lock_inode quiet_unlock_inode quiet_get_super quiet_hash_head quiet_find_buffer quiet_get_hash_table quiet_scan_free quiet_brelse quiet_sync_buffers : guar.

Section Keeps.
Context {E : Env}.
Hypothesis Hresume : forall s, cache_inv s -> cache_inv (env_resume s).
Hypothesis Hcall : forall f s, cache_inv s -> cache_inv (env_call f s).

#[local] Instance keeps_quiet : Quiet keeps.
Proof.
  split; [exact _| |exact Hresume|exact Hcall]. intros s s' [= H1 H2 H3 H4 H5 _]. apply keeps_key. unfold key_view. rewrite H1, H2, H3, H4. f_equal.
  assert (forall l, i_dev <$> l = (fun u => u.1.1) <$> (iuse <$> l)) as Hdev by (intros l; by rewrite <- list_fmap_compose). by rewrite !Hdev, H5.
Qed.

(** ** [getblk] *)

Lemma wp_keeps {A} (m : K A) (Q : A -> kst -> Prop) s :
  guar keeps m -> cache_inv s -> (forall a s', cache_inv s' -> Q a s') -> wp m Q cache_inv s.
Proof. intros Hm Hs HQ. specialize (Hm s Hs). unfold wp. destruct (m s); auto. Qed.

(** a loop whose rounds keep the invariant *)
Lemma wp_loop_keeps {X R} n (body : X -> K (X + R)) (Q : R -> kst -> Prop) x s :
  (forall x s, cache_inv s -> wp (body x) (fun r s' => cache_inv s' /\ match r with inl _ => True | inr y => Q y s' end) cache_inv s) ->
  cache_inv s -> wp (loop n body x) Q cache_inv s.
Proof.
  intros Hb. revert x s. induction n as [|n IH]; intros x s Hs; [exact Hs|]. cbn [loop]. apply wp_bind.
  eapply wp_mono; [by apply Hb| |done]. intros [x'|y] s' [Hs' HQ]; [by apply IH|exact HQ].
Qed.

Lemma cache_named s b x dev block : cache_inv s -> - 2 ^ 31 <= block < 2 ^ 31 -> bufs (fsys s) !! b = Some x ->
  (b_dev x =? dev) && (s32 (b_blocknr x) =? block) = true -> named (fsys s) dev block b.
Proof.
  intros (_ & (l & ch & Hc) & _) Hb Hx [H1 H2]%andb_true_iff. exists x.
  assert ((hview <$> bufs (fsys s)) !! b = Some (hview x)) as HV by (by rewrite list_lookup_fmap, Hx).
  destruct (no_range _ (cr_names _ _ _ Hc) b _ HV) as [_ Hr]. change (h_blk (hview x)) with (b_blocknr x) in Hr.
  rewrite same_block in H2 by done. split; [done|]. split; by apply Z.eqb_eq.
Qed.

Lemma wp_getbh b (Q : buffer_head -> kst -> Prop) s : cache_inv s ->
  (forall x, bufs (fsys s) !! b = Some x -> Q x s) -> wp (getbh b) Q cache_inv s.
Proof. intros Hs HQ. unfold getbh, wp. mrun. destruct (bufs (fsys s) !! b); [by apply HQ|done]. Qed.

Lemma wp_get_hash_table dev block s : cache_inv s -> - 2 ^ 31 <= block < 2 ^ 31 ->
  wp (get_hash_table dev block)
     (fun o s' => cache_inv s' /\ match o with Some b => named (fsys s') dev block b | None => True end) cache_inv s.
Proof.
  intros Hs Hb. unfold get_hash_table. apply wp_loop_keeps; [|done]. clear s Hs. intros _ s Hs. apply wp_bind.
  apply wp_keeps; [eauto with guar|done|]. intros [b|] s1 Hs1; [|by apply wp_ret].
  apply wp_bind, wp_keeps; [eauto with guar|done|]. intros _ s2 Hs2.
  apply wp_bind, wp_keeps; [eauto with guar|done|]. intros _ s3 Hs3.
  apply wp_bind, wp_getbh; [done|]. intros x Hx. destruct (_ && _) eqn:Hname.
  - apply wp_ret. split; [done|]. split; [done|]. by apply (cache_named s3 b x).
  - apply wp_bind, wp_keeps; [eauto with guar|done|]. intros _ s4 Hs4. by apply wp_ret.
Qed.

(** the buffer that [rename_buffer] leaves *)
Lemma wp_rename_buffer b dev block s : cache_inv s -> 0 <= dev < 2 ^ 16 -> 
  (dev <> 0 -> forall c, ~ named (fsys s) dev block c) ->
  wp (rename_buffer b dev block) (fun _ s' => cache_inv s' /\ named (fsys s') dev block b) cache_inv s.
Proof.
  intros Hs Hd Hfree. pose proof Hs as (Hlen & (l & ch & Hc) & Hino).
  destruct (bufs (fsys s) !! b) as [x|] eqn:Hx.
  - destruct (rename_buffer_run s l ch b x dev block Hc Hlen Hx) as (s' & bs & tbl & fl & Hrun & Hs' & Hc' & Hsl).
    { rewrite u16_id by lia. intros i y Hy Hd0 [Hyd Hyb]. apply (Hfree Hd0 i). by exists y. }
    unfold wp. rewrite Hrun. split.
    + split; [|split; [by exists (without b l ++ [b]), (ch_renamed b dev block ch)|exact Hino]].
      change (2 <= length bs)%nat. rewrite <- (length_fmap sans_links bs), Hsl, length_fmap, length_alter. done.
    + assert (is_Some (bs !! b)) as [y Hy].
      { apply (fmap_is_Some sans_links (alter (renamed dev block) b (bufs (fsys s)))); [done|].
        rewrite alter_lookup, decide_True, Hx by done. cbn. eauto. }
      exists y. split; [done|]. destruct (sans_links_lookup _ _ b y Hsl Hy) as (z & Hz & Heq).
      rewrite alter_lookup, decide_True, Hx in Hz by done. cbn in Hz. injection Hz as <-.
      change (b_dev y) with (b_dev (sans_links y)). change (b_blocknr y) with (b_blocknr (sans_links y)).
      rewrite Heq. split; [|done]. exact (u16_id dev Hd).
  - unfold rename_buffer, setbh, getbh, wp. mrun. by rewrite Hx.
Qed.

Section Knot.
Variable sync : K unit.
Hypothesis Hsync : guar keeps sync.

Lemma keeps_sync_dev d : guar keeps (sync_dev_with sync d).
Proof. unfold sync_dev_with. quiet. Qed.
#[local] Hint Resolve keeps_sync_dev : guar.
Lemma keeps_clean_buffer b : guar keeps (clean_buffer sync b).
Proof. unfold clean_buffer. quiet. Qed.
#[local] Hint Resolve keeps_clean_buffer : guar.

Lemma wp_getblk_with dev block s : cache_inv s -> 0 <= dev < 2 ^ 16 -> - 2 ^ 31 <= block < 2 ^ 31 ->
  wp (getblk_with sync dev block) (fun b s' => cache_inv s' /\ named (fsys s') dev block b) cache_inv s.
Proof.
  intros Hs Hd Hb. unfold getblk_with. apply wp_loop_keeps; [|done]. clear s Hs. intros _ s Hs. apply wp_bind.
  eapply wp_mono; [by apply wp_get_hash_table| |done]. intros [b|] s1 [Hs1 Hname]; [by apply wp_ret|].
  apply wp_bind, wp_keeps; [eauto with guar|done|]. intros [b|] s2 Hs2.
  2:{ apply wp_bind, wp_keeps; [eauto with guar|done|]. intros _ s3 Hs3. by apply wp_ret. }
  apply wp_bind, wp_keeps; [eauto with guar|done|]. intros _ s3 Hs3. apply wp_bind, wp_getbh; [done|]. intros x Hx.
  destruct (nz (b_count x)); [by apply wp_ret|]. apply wp_bind, wp_keeps; [eauto with guar|done|]. intros ok s4 Hs4.
  destruct (negb ok); [by apply wp_ret|]. apply wp_bind. pose proof Hs4 as (_ & (l & ch & Hc) & _).
  destruct (find_buffer_run s4 l ch dev block Hc Hd Hb) as (o & Hrun & Ho). unfold wp at 1. rewrite Hrun.
  destruct o as [c|]; [by apply wp_ret|]. apply wp_bind. eapply wp_mono; [by apply wp_rename_buffer| |done].
  intros _ s5 [Hs5 Hn5]. by apply wp_ret.
Qed.
Lemma keeps_getblk_with dev block : 0 <= dev < 2 ^ 16 -> - 2 ^ 31 <= block < 2 ^ 31 -> guar keeps (getblk_with sync dev block).
Proof.
  intros Hd Hb s Hs. pose proof (wp_getblk_with dev block s Hs Hd Hb) as H. unfold wp in H.
  destruct (getblk_with sync dev block s); [by destruct H|done..].
Qed.
Lemma keeps_bread_with dev block : 0 <= dev < 2 ^ 16 -> - 2 ^ 31 <= block < 2 ^ 31 -> guar keeps (bread_with sync dev block).
Proof. intros Hd Hb. pose proof (keeps_getblk_with dev block Hd Hb). unfold bread_with. quiet. Qed.

Lemma keeps_bind_getino {B} i (k : m_inode -> K B) :
  (forall x, 0 <= i_dev x < 2 ^ 16 -> guar keeps (k x)) -> guar keeps (getino i ≫= k).
Proof.
  intros Hk s Hs. unfold getino. mrun. destruct (inode_table (fsys s) !! i) as [x|] eqn:Hx; [|done].
  apply (Hk x); [|done]. by apply (proj2 (proj2 Hs) i).
Qed.
Lemma keeps_write_inode_with i : guar keeps (write_inode_with sync i).
Proof.
  unfold write_inode_with. apply guar_bind; [exact _|eauto with guar|intros _]. apply guar_bind; [exact _|eauto with guar|].
  intros x. destruct (_ || _); [eauto with guar|]. apply guar_bind; [exact _|eauto with guar|]. intros [n|]; [|quiet].
  apply guar_bind; [exact _|eauto with guar|]. intros sb. apply keeps_bind_getino. intros y Hy.
  pose proof (keeps_bread_with (i_dev y) (inode_block sb (i_num y)) Hy (s32_range _)). quiet.
Qed.
End Knot.

Lemma keeps_sync_inodes_n n : guar keeps (sync_inodes_n n).
Proof.
  induction n as [|n IH]; cbn [sync_inodes_n]; [quiet|]. pose proof (keeps_write_inode_with _ IH). quiet.
Qed.
End Keeps.

(** C4: One buffer per block: if the queues represent the buffers and no two
    buffers hold the same block of a device, then [getblk] keeps it that way,
    and the buffer it returns holds the block asked for.  The other tasks may
    do anything that keeps the invariant whenever it sleeps, and so may the
    timer functions; also when it does not return the invariant holds. *)
Theorem getblk_correct `{E : Env} (dev block : Z) (s : kst)
  (Hresume : forall s, cache_inv s -> cache_inv (env_resume s))
  (Hcall : forall f s, cache_inv s -> cache_inv (env_call f s))
  (Hs : cache_inv s) (Hdev : 0 <= dev < 2 ^ 16) (Hblock : - 2 ^ 31 <= block < 2 ^ 31) :
  cache_inv (state_of (getblk dev block s)) /\
  forall b s', getblk dev block s = Ret b s' ->
    exists x, bufs (fsys s') !! b = Some x /\ b_dev x = dev /\ b_blocknr x = u32 block /\
      forall c y, bufs (fsys s') !! c = Some y -> dev <> 0 -> b_dev y = dev -> b_blocknr y = u32 block -> c = b.
Proof.
  pose proof (wp_getblk_with Hresume Hcall _ (keeps_sync_inodes_n Hresume Hcall env_fuel) dev block s Hs Hdev Hblock) as H.
  unfold getblk, sync_inodes, wp in *. destruct (getblk_with _ dev block s) as [b s'|e s'|s'|s']; [|done..].
  destruct H as [Hinv (x & Hx & Hxd & Hxb)]. split; [done|]. intros b' s'' [= <- <-].
  exists x. split_and!; try done. intros c y Hy Hd0 Hyd Hyb. destruct Hinv as (_ & (l & ch & Hc) & _).
  apply (no_uniq _ (cr_names _ _ _ Hc) c b (hview y) (hview x)).
  - by rewrite list_lookup_fmap, Hy.
  - by rewrite list_lookup_fmap, Hx.
  - cbn. congruence.
  - cbn. congruence.
  - cbn. congruence.
Qed.

(** ** Start-up *)

Lemma linked_seq N P a n :
  (forall i, (a <= i)%nat -> (S i < a + n)%nat -> N i = Some (S i) /\ P (S i) = Some i) -> linked N P (seq a n).
Proof.
  revert a. induction n as [|n IH]; intros a H; [done|]. cbn [seq linked]. split.
  - destruct n as [|n]; [done|]. cbn. apply H; lia.
  - apply IH. intros i Hi Hlt. apply H; lia.
Qed.

(** buffers without a device in a ring by their numbers *)
Lemma fresh_cache_rep F n : length (bufs F) = n -> (0 < n)%nat -> free_list F = Some 0%nat -> hash_table F = replicate NR_HASH None ->
  (forall i x, bufs F !! i = Some x -> hview x = mk_hlink 0 0 None None /\
     b_prev_free x = Some (if decide (i = 0)%nat then n - 1 else i - 1)%nat /\
     b_next_free x = Some (if decide (S i = n) then 0 else S i)%nat) ->
  cache_rep F (seq 0 n) (fun _ => []).
Proof.
  intros Hlen Hn Hfl Htbl Hx. assert (forall i, (i < n)%nat -> exists x, bufs F !! i = Some x) as Hget
    by (intros i Hi; apply lookup_lt_is_Some; lia).
  constructor.
  - constructor.
    + by rewrite Htbl, length_replicate.
    + intros k Hk. rewrite Htbl. by rewrite lookup_replicate_2.
    + done.
    + intros k _. constructor.
    + intros k i _ Hi. by apply not_elem_of_nil in Hi.
    + intros i v Hv _. rewrite list_lookup_fmap in Hv. destruct (bufs F !! i) as [x|] eqn:H; [|done].
      injection Hv as <-. destruct (Hx i x H) as [-> _]. done.
  - assert (forall i, (S i < n)%nat -> fnx (bufs F) i = Some (S i) /\ fpv (bufs F) (S i) = Some i) as Hlinks.
    { intros i Hi. destruct (Hget i) as [x H]; [lia|]. destruct (Hget (S i)) as [y H']; [lia|].
      unfold fnx, fpv. rewrite H, H'. cbn. destruct (Hx i x H) as (_ & _ & ->), (Hx (S i) y H') as (_ & -> & _).
      rewrite !decide_False by lia. split; [done|]. f_equal. lia. }
    constructor.
    + rewrite Hfl. by destruct n; [lia|].
    + split; [apply linked_seq; intros i _ Hi; apply Hlinks; lia|]. destruct n as [|n]; [lia|].
      rewrite seq_S, last_snoc at 1. cbn [head seq joined plus]. destruct (Hget n) as [x H]; [lia|]. destruct (Hget 0%nat) as [y H']; [lia|].
      unfold fnx, fpv. rewrite H, H'. cbn. destruct (Hx n x H) as (_ & _ & ->), (Hx 0%nat y H') as (_ & -> & _).
      rewrite !decide_True by lia. split; [done|]. f_equal. lia.
    + apply NoDup_seq.
  - intros i. rewrite elem_of_seq. lia.
  - constructor.
    + intros i v Hv. rewrite list_lookup_fmap in Hv. destruct (bufs F !! i) as [x|] eqn:H; [|done].
      injection Hv as <-. destruct (Hx i x H) as [-> _]. cbn. lia.
    + intros i j v w Hv _ Hd. rewrite list_lookup_fmap in Hv. destruct (bufs F !! i) as [x|] eqn:H; [|done].
      injection Hv as <-. destruct (Hx i x H) as [Hxv _]. by rewrite Hxv in Hd.
Qed.

Lemma buffer_heads_lookup fuel b h i x : buffer_heads fuel b h !! i = Some x ->
  hview x = mk_hlink 0 0 None None /\ b_count x = 0 /\ b_prev_free x = Some (h + i - 1)%nat /\ b_next_free x = Some (h + i + 1)%nat /\ length (b_data x) = 1024%nat.
Proof.
  revert b h i. induction fuel as [|fuel IH]; intros b h i; [done|]. cbn [buffer_heads].
  case_match; [done|]. destruct i as [|i]; [intros [= <-]; rewrite Nat.add_0_r; split_and!; try done; apply (length_replicate 1024)|].
  intros H'. apply IH in H' as (-> & -> & -> & -> & ->). split_and!; try done; f_equal; lia.
Qed.
Lemma buffer_heads_two fuel b : (2 <= fuel)%nat -> start_buffer + 4096 <= b -> (2 <= length (buffer_heads fuel b 0))%nat.
Proof.
  intros Hf Hb. destruct fuel as [|[|fuel]]; [lia..|]. cbn [buffer_heads]. unfold bh_addr, BLOCK_SIZE, BH_SIZE in *.
  unfold start_buffer in *. destruct (Z.ltb_spec (b - 1024) (163732 + 36 * Z.of_nat (0 + 1))) as [H|H]; [lia|].
  cbn [length]. set (b' := if b - 1024 =? 0x100000 then 0xA0000 else b - 1024).
  assert (163732 + 3072 <= b') as Hb' by (unfold b'; destruct (Z.eqb_spec (b - 1024) 0x100000); lia).
  destruct (Z.ltb_spec (b' - 1024) (163732 + 36 * Z.of_nat (1 + 1))) as [H'|H']; [lia|]. cbn [length]. lia.
Qed.

Lemma buffer_init_cache buffer_end s : start_buffer + 4096 <= buffer_end ->
  exists bs, buffer_init buffer_end s =
    Ret tt (with_fs s ((fsys s) <| bufs := bs |> <| free_list := Some 0%nat |> <| hash_table := replicate NR_HASH None |>)) /\
    (2 <= length bs)%nat /\
    (forall i x, bs !! i = Some x -> hview x = mk_hlink 0 0 None None /\ b_count x = 0 /\
       b_prev_free x = Some (if decide (i = 0)%nat then length bs - 1 else i - 1)%nat /\
       b_next_free x = Some (if decide (S i = length bs) then 0 else S i)%nat /\ length (b_data x) = 1024%nat).
Proof.
  intros Hend. unfold buffer_init.
  set (b := if buffer_end =? Z.shiftl 1 20 then 640 * 1024 else buffer_end).
  assert (start_buffer + 4096 <= b) as Hb by (unfold b, start_buffer in *; case_match; lia).
  set (l := buffer_heads (Z.to_nat (b / BLOCK_SIZE)) b 0).
  assert (2 <= length l)%nat as Hl.
  { apply buffer_heads_two; [|done]. unfold start_buffer, BLOCK_SIZE in *.
    pose proof (Z.div_le_lower_bound b 1024 2). lia. }
  set (h := (length l - 1)%nat).
  set (F1 := (fsys s) <| bufs := l |> <| free_list := Some 0%nat |> <| hash_table := replicate NR_HASH None |>).
  rewrite (bind_Ret _ _ s tt (with_fs s F1)) by (by destruct s as [? ? []]).
  destruct (lookup_lt_is_Some_2 l 0) as [x0 Hx0]; [lia|]. destruct (lookup_lt_is_Some_2 l h) as [xh Hxh]; [lia|].
  rewrite (bind_Ret _ _ _ _ _ (setbh_run 0 (fun x => x <| b_prev_free := Some h |>) s F1 x0 Hx0)).
  set (F2 := F1 <| bufs ::= _ |>).
  assert (bufs F2 !! h = Some xh) as Hxh2.
  { change (alter (fun x => x <| b_prev_free := Some h |>) 0%nat l !! h = Some xh).
    rewrite alter_lookup, decide_False by lia. done. }
  rewrite (setbh_run h (fun x => x <| b_next_free := Some 0%nat |>) s F2 xh Hxh2).
  exists (alter (fun x => x <| b_next_free := Some 0%nat |>) h (alter (fun x => x <| b_prev_free := Some h |>) 0%nat l)).
  split; [by destruct s as [? ? []]|]. split; [by rewrite !length_alter|].
  intros i x Hx. rewrite !length_alter in *. rewrite !alter_lookup in Hx.
  destruct (l !! i) as [y|] eqn:Hy; [|by repeat case_decide].
  pose proof (buffer_heads_lookup _ _ _ _ _ Hy) as (Hv & Hc & Hp & Hn & Hd). pose proof (lookup_lt_Some _ _ _ Hy) as Hi.
  fold h. assert (x = y <| b_prev_free := if decide (i = 0%nat) then Some h else b_prev_free y |>
                    <| b_next_free := if decide (i = h) then Some 0%nat else b_next_free y |>) as ->
    by (repeat case_decide; cbn in Hx; injection Hx as <-; by destruct y).
  split; [exact Hv|]. split; [exact Hc|]. cbn. rewrite Hp, Hn. cbn. split_and!; [repeat case_decide; try lia; f_equal; lia..|exact Hd].
Qed.

Definition inodes_ok (F : fs_st) : Prop := forall i x, inode_table F !! i = Some x -> 0 <= i_dev x < 2 ^ 16.

Lemma buffer_init_inv buffer_end s : start_buffer + 4096 <= buffer_end -> inodes_ok (fsys s) ->
  exists s', buffer_init buffer_end s = Ret tt s' /\ cache_inv s' /\
    cache_rep (fsys s') (seq 0 (length (bufs (fsys s')))) (fun _ => []) /\
    forall i x, bufs (fsys s') !! i = Some x -> b_dev x = 0 /\ b_count x = 0.
Proof.
  intros Hend Hino. destruct (buffer_init_cache buffer_end s Hend) as (bs & Hrun & Hlen & Hbs).
  eexists. split; [exact Hrun|]. set (F := (fsys s) <| bufs := bs |> <| free_list := _ |> <| hash_table := _ |>).
  change (cache_ok F /\ cache_rep F (seq 0 (length bs)) (fun _ => []) /\ forall i x, bs !! i = Some x -> b_dev x = 0 /\ b_count x = 0).
  assert (cache_rep F (seq 0 (length bs)) (fun _ => [])) as Hrep.
  { apply fresh_cache_rep; [done|lia|done|done|]. intros i x Hx. destruct (Hbs i x Hx) as (H1 & _ & H2 & H3 & _). done. }
  split; [|split; [done|]].
  - split; [done|]. split; [eauto|exact Hino].
  - intros i x Hx. destruct (Hbs i x Hx) as (H1 & H2 & _). split; [|done]. by injection H1.
Qed.

(** [buffer_init] sets the cache up: with room for four blocks it returns,
    the queues represent the buffers, all unused and in one free list in
    address order, no chain has a member, and [find_buffer] finds nothing. *)
Theorem buffer_init_correct (buffer_end : Z) (s : kst)
  (Hend : start_buffer + 4096 <= buffer_end) (Hino : inodes_ok (fsys s)) :
  exists s', buffer_init buffer_end s = Ret tt s' /\ cache_inv s' /\
    cache_rep (fsys s') (seq 0 (length (bufs (fsys s')))) (fun _ => []) /\
    (forall i x, bufs (fsys s') !! i = Some x -> b_dev x = 0 /\ b_count x = 0) /\
    forall dev block, 0 < dev < 2 ^ 16 -> - 2 ^ 31 <= block < 2 ^ 31 -> find_buffer dev block s' = Ret None s'.
Proof.
  destruct (buffer_init_inv buffer_end s Hend Hino) as (s' & Hrun & Hinv & Hrep & Hfree).
  exists s'. split_and!; try done. intros dev block Hd Hb.
  destruct (find_buffer_run s' _ _ dev block Hrep ltac:(lia) Hb) as (o & Ho & Hn). rewrite Ho.
  destruct o as [b|]; [|done]. destruct Hn as (x & Hx & Hxd & _). destruct (Hfree b x Hx). lia.
Qed.

Lemma boot_inodes_ok : inodes_ok (fsys boot_kst).
Proof. intros i x Hx. apply lookup_replicate in Hx as [-> _]. cbn. lia. Qed.

Lemma buffer_init_correct_witness : start_buffer + 4096 <= 170000 /\
  exists s', buffer_init 170000 boot_kst = Ret tt s' /\ cache_inv s'.
Proof.
  assert (start_buffer + 4096 <= 170000) as H by (vm_compute; discriminate). split; [exact H|].
  destruct (buffer_init_correct 170000 boot_kst H boot_inodes_ok) as (s' & Hrun & Hinv & _).
  exists s'. split; assumption.
Defined.

(** a small machine: five buffers; block 7 of device 0x301 gets one of them *)
Definition five_buffers : kst := state_of (buffer_init 170000 boot_kst).
Lemma five_buffers_inv : cache_inv five_buffers.
Proof.
  destruct (buffer_init_inv 170000 boot_kst) as (s' & Hrun & Hinv & _); [vm_compute; discriminate|apply boot_inodes_ok|].
  unfold five_buffers. by rewrite Hrun.
Qed.

Lemma getblk_correct_witness : exists s', @getblk (quiet_env 3) 0x301 7 five_buffers = Ret 0%nat s' /\ cache_inv s'.
Proof.
  destruct (@getblk_correct (quiet_env 3) 0x301 7 five_buffers (fun s H => H) (fun f s H => H) five_buffers_inv
              ltac:(lia) ltac:(lia)) as [Hinv _].
  assert (value_of (@getblk (quiet_env 3) 0x301 7 five_buffers) = Some 0%nat) as Hv by (vm_compute; reflexivity).
  destruct (@getblk (quiet_env 3) 0x301 7 five_buffers) as [b s'| | |]; try discriminate Hv.
  exists s'. injection Hv as ->. split; [reflexivity|exact Hinv].
Defined.

(** C16: The queues implement lists: giving buffer [b] the name of a block that
    no buffer holds takes it out of its place in the free list and puts it at
    the end, takes it out of its chain and puts it at the front of the chain of
    the new name, changes nothing else in any buffer, and returns.  Outside the
    cache nothing changes either, with one exception: when no other buffer is in the
    chain of the new name, the address of the buffer head is stored at address 20 of physical
    memory, an entry of the page directory, through a NULL pointer. *)
Theorem rename_buffer_refines (s : kst) (l : list nat) (ch : nat -> list nat) (b : nat) (x : buffer_head) (dev block : Z)
  (Hrep : cache_rep (fsys s) l ch) (Htwo : (2 <= length (bufs (fsys s)))%nat) (Hb : bufs (fsys s) !! b = Some x)
  (Hdev : 0 < dev < 2 ^ 16) (Hblock : 0 <= block < 2 ^ 32) (Hfree : forall i, ~ named (fsys s) dev block i) :
  exists s', rename_buffer b dev block s = Ret tt s' /\
    cache_rep (fsys s') (without b l ++ [b])
      (fun k => if decide (k = _hashfn dev block) then b :: without b (ch k) else without b (ch k)) /\
    sans_links <$> bufs (fsys s') = sans_links <$> alter (renamed dev block) b (bufs (fsys s)) /\
    fsys s' = (fsys s) <| bufs := bufs (fsys s') |> <| hash_table := hash_table (fsys s') |> <| free_list := free_list (fsys s') |> /\
    s' = s <| fsys := fsys s' |> <| mm := mm s' |> /\
    mm s' = (if decide (without b (ch (_hashfn dev block)) = [])
             then (mm s) <| phys ::= insert NULL_b_prev (bh_addr b) |> else mm s).
Proof.
  destruct (rename_buffer_run s l ch b x dev block Hrep Htwo Hb) as (s' & bs & tbl & fl & Hrun & Hs' & Hc & Hsl).
  { rewrite u16_id by lia. intros i y Hy _ [Hyd Hyb]. apply (Hfree i). by exists y. }
  rewrite u16_id, u32_id, decide_False in Hs' by lia.
  exists (with_fs s' ((fsys s) <| bufs := bs |> <| hash_table := tbl |> <| free_list := fl |>)).
  split; [exact Hrun|]. split; [|split; [exact Hsl|split; [by destruct (fsys s)|split]]].
  - destruct Hc as [C1 C2 C3 C4]. constructor; [|exact C2|exact C3|exact C4]. apply (hash_rep_ch _ _ _ _ _ C1). intros k _.
    unfold ch_renamed. rewrite u16_id, u32_id by lia. repeat case_decide; try done; lia.
  - rewrite Hs'. by destruct (head _), s.
  - rewrite Hs'. by destruct (without b (ch (_hashfn dev block))).
Qed.

Lemma five_buffers_rep : cache_rep (fsys five_buffers) (seq 0 5) (fun _ => []).
Proof.
  destruct (buffer_init_inv 170000 boot_kst) as (s' & Hrun & _ & Hrep & _); [vm_compute; discriminate|apply boot_inodes_ok|].
  assert (five_buffers = s') as -> by (unfold five_buffers; by rewrite Hrun).
  replace 5%nat with (length (bufs (fsys s'))); [done|].
  assert (length (bufs (fsys five_buffers)) = 5%nat) as H by (vm_compute; reflexivity).
  unfold five_buffers in H. by rewrite Hrun in H.
Qed.

Lemma rename_buffer_refines_witness : exists s', rename_buffer 2 0x301 7 five_buffers = Ret tt s' /\
  cache_rep (fsys s') [0; 1; 3; 4; 2]%nat (fun k => if decide (k = _hashfn 0x301 7) then [2%nat] else []) /\
  phys (mm s') = <[20 := bh_addr 2]> (phys (mm five_buffers)).
Proof.
  destruct (rename_buffer_refines five_buffers (seq 0 5) (fun _ => []) 2
    (default (mk_bh [] 0 0 0 0 0 0 0 None None None None None) (bufs (fsys five_buffers) !! 2%nat)) 0x301 7 five_buffers_rep)
    as (s' & Hrun & Hrep & _ & _ & _ & Hmm).
  - vm_compute. lia.
  - vm_compute. reflexivity.
  - lia.
  - lia.
  - intros i (x & Hx & Hxd & _). pose proof (no_range _ (cr_names _ _ _ five_buffers_rep)) as _.
    assert (Forall (fun x => b_dev x = 0) (bufs (fsys five_buffers))) as Hz
      by (apply (bool_decide_unpack _); vm_compute; reflexivity).
    rewrite (Forall_lookup_1 _ _ _ _ Hz Hx) in Hxd. discriminate Hxd.
  - exists s'. split; [exact Hrun|]. split; [exact Hrep|]. rewrite Hmm. reflexivity.
Defined.
