(* ===== verification/BitmapFacts.v ===== *)
(** * fs/bitmap.cc: bit operations on a block, inodes on disk, allocation of blocks *)

From S2P Require Import Prelude Bits State Memory Sched Request LlRw Buffer BufferFacts Bitmap CacheFacts.

(** ** Bits of a block of bytes *)

Definition bytes (l : list Z) : Prop := forall i, 0 <= get8 l i < 2 ^ 8.

Lemma bytes_Forall l : Forall (fun x => 0 <= x < 2 ^ 8) l -> bytes l.
Proof.
  intros H i. unfold get8. destruct (l !! i) as [x|] eqn:Hx; [|cbn; lia]. exact (Forall_lookup_1 _ _ _ _ H Hx).
Qed.

Lemma testbit_concat n a b k : 0 <= n -> 0 <= a < 2 ^ n -> 0 <= k ->
  Z.testbit (a + 2 ^ n * b) k = if k <? n then Z.testbit a k else Z.testbit b (k - n).
Proof.
  intros Hn Ha Hk. assert ((a + 2 ^ n * b) mod 2 ^ n = a) as Hmod
    by (rewrite Z.mul_comm, Z.mod_add by lia; by apply Z.mod_small).
  assert ((a + 2 ^ n * b) / 2 ^ n = b) as Hdiv
    by (rewrite Z.mul_comm, Z.div_add, Z.div_small by lia; lia).
  destruct (Z.ltb_spec k n).
  - rewrite <- Hmod at 2. by rewrite Z.mod_pow2_bits_low by lia.
  - rewrite <- Hdiv at 2. rewrite Z.div_pow2_bits by lia. f_equal. lia.
Qed.

Lemma test_bit_at l i r : (r < 8)%nat -> test_bit (8 * i + r) l = Z.testbit (get8 l i) (Z.of_nat r).
Proof.
  intros Hr. unfold test_bit. replace ((8 * i + r) / 8)%nat with i.
  - by replace ((8 * i + r) mod 8)%nat with r by (rewrite Nat.mul_comm, Nat.add_comm, Nat.Div0.mod_add; by rewrite Nat.mod_small).
  - rewrite Nat.mul_comm, Nat.div_add_l by lia. by rewrite Nat.div_small, Nat.add_0_r.
Qed.

Lemma get16_range l i : bytes l -> 0 <= get16 l i < 2 ^ 16.
Proof. intros Hl. pose proof (Hl i). pose proof (Hl (i + 1)%nat). unfold get16. lia. Qed.
Lemma get16_bit l i k : bytes l -> (k < 16)%nat -> Z.testbit (get16 l i) (Z.of_nat k) = test_bit (8 * i + k) l.
Proof.
  intros Hl Hk. unfold get16. rewrite testbit_concat by (try apply Hl; lia).
  destruct (Z.ltb_spec (Z.of_nat k) 8).
  - by rewrite test_bit_at by lia.
  - replace (8 * i + k)%nat with (8 * (i + 1) + (k - 8))%nat by lia. rewrite test_bit_at by lia. f_equal. lia.
Qed.
Lemma get32_bit l i k : bytes l -> (k < 32)%nat -> Z.testbit (get32 l i) (Z.of_nat k) = test_bit (8 * i + k) l.
Proof.
  intros Hl Hk. unfold get32. rewrite testbit_concat by (try apply get16_range; try done; lia).
  destruct (Z.ltb_spec (Z.of_nat k) 16).
  - by rewrite get16_bit by (done || lia).
  - replace (8 * i + k)%nat with (8 * (i + 2) + (k - 16))%nat by lia. rewrite <- get16_bit by (done || lia). f_equal. lia.
Qed.

(** [n] bits of [w] from [k] on *)
Lemma clear_bit_of_spec w n k :
  match clear_bit_of w n k with
  | Some e => (k <= e < k + n)%nat /\ Z.testbit w (Z.of_nat e) = false /\
              forall i, (k <= i < e)%nat -> Z.testbit w (Z.of_nat i) = true
  | None => forall i, (k <= i < k + n)%nat -> Z.testbit w (Z.of_nat i) = true
  end.
Proof.
  revert k. induction n as [|n IH]; intros k; cbn [clear_bit_of]; [intros i; lia|].
  destruct (Z.testbit w (Z.of_nat k)) eqn:Hk.
  - specialize (IH (S k)). destruct (clear_bit_of w n (S k)) as [e|].
    + destruct IH as (H1 & H2 & H3). split; [lia|]. split; [done|]. intros i Hi.
      destruct (decide (i = k)) as [->|]; [done|]. apply H3. lia.
    + intros i Hi. destruct (decide (i = k)) as [->|]; [done|]. apply IH. lia.
  - split; [lia|]. split; [done|]. intros i. lia.
Qed.

(** the search from word [w] on, when all bits before are set *)
Lemma find_zero_word_spec l n w : bytes l -> (forall i, (i < 32 * w)%nat -> test_bit i l = true) ->
  let j := find_zero_word l n (32 * w) in
  (j <= 32 * (w + n))%nat /\ (forall i, (i < j)%nat -> test_bit i l = true) /\ ((j < 32 * (w + n))%nat -> test_bit j l = false).
Proof.
  intros Hl. revert w. induction n as [|n IH]; intros w Hw; cbn [find_zero_word]; [split; [lia|]; split; [done|lia]|].
  replace (32 * w / 8)%nat with (4 * w)%nat by (replace (32 * w)%nat with (4 * w * 8)%nat by lia; by rewrite Nat.div_mul).
  pose proof (clear_bit_of_spec (get32 l (4 * w)) 32 0) as H.
  destruct (clear_bit_of (get32 l (4 * w)) 32 0) as [e|].
  - destruct H as (He & H1 & H2). rewrite get32_bit in H1 by (done || lia).
    replace (8 * (4 * w) + e)%nat with (32 * w + e)%nat in H1 by lia. split; [lia|]. split; [|done].
    intros i Hi. destruct (decide (i < 32 * w)%nat); [by apply Hw|].
    pose proof (H2 (i - 32 * w)%nat ltac:(lia)) as Hb. rewrite get32_bit in Hb by (done || lia). rewrite <- Hb. f_equal. lia.
  - replace (32 * w + 32)%nat with (32 * S w)%nat by lia. replace (w + S n)%nat with (S w + n)%nat by lia. apply IH.
    intros i Hi. destruct (decide (i < 32 * w)%nat); [by apply Hw|].
    pose proof (H (i - 32 * w)%nat ltac:(lia)) as Hb. rewrite get32_bit in Hb by (done || lia). rewrite <- Hb. f_equal. lia.
Qed.
Lemma find_first_zero_spec l : bytes l ->
  (find_first_zero l <= 8 * 1024)%nat /\ (forall i, (i < find_first_zero l)%nat -> test_bit i l = true) /\
  ((find_first_zero l < 8 * 1024)%nat -> test_bit (find_first_zero l) l = false).
Proof. intros Hl. apply (find_zero_word_spec l 256 0 Hl). intros i. lia. Qed.

(** setting and clearing a bit *)
Lemma get8_insert l i v j : (i < length l)%nat -> get8 (<[i := v]> l) j = if decide (j = i) then v else get8 l j.
Proof.
  intros Hi. unfold get8. destruct (decide (j = i)) as [->|Hj]; [by rewrite list_lookup_insert_eq|by rewrite list_lookup_insert_ne].
Qed.
Lemma bit_pos (n : nat) : n = (8 * (n / 8) + n mod 8)%nat /\ (n mod 8 < 8)%nat.
Proof. split; [apply Nat.div_mod_eq|apply Nat.mod_upper_bound; lia]. Qed.
Lemma same_pos n m : ((n / 8)%nat = (m / 8)%nat) -> (n =? m)%nat = ((n mod 8)%nat =? (m mod 8)%nat)%nat.
Proof.
  intros H. destruct (bit_pos n) as [Hn _], (bit_pos m) as [Hm _]. apply eq_true_iff_eq. rewrite !Nat.eqb_eq. lia.
Qed.
Lemma testbit_pow2 a b : 0 <= a -> Z.testbit (Z.shiftl 1 a) b = (b =? a).
Proof.
  intros Ha. rewrite Z.shiftl_1_l. destruct (Z.eqb_spec b a) as [->|Hne]; [by apply Z.pow2_bits_true|].
  by apply Z.pow2_bits_false.
Qed.

Lemma test_bts nr l k : (nr / 8 < length l)%nat -> test_bit k (bts nr l) = (k =? nr)%nat || test_bit k l.
Proof.
  intros Hl. unfold test_bit, bts. rewrite get8_insert by done. destruct (decide (k / 8 = nr / 8)%nat) as [He|He].
  - rewrite Z.lor_spec, testbit_pow2, He, (same_pos k nr He) by lia. rewrite orb_comm. f_equal.
    apply eq_true_iff_eq. rewrite Z.eqb_eq, Nat.eqb_eq. lia.
  - destruct (Nat.eqb_spec k nr) as [->|]; [done|]. done.
Qed.
Lemma test_btr nr l k : (nr / 8 < length l)%nat -> test_bit k (btr nr l) = negb (k =? nr)%nat && test_bit k l.
Proof.
  intros Hl. unfold test_bit, btr. rewrite get8_insert by done. destruct (decide (k / 8 = nr / 8)%nat) as [He|He].
  - rewrite Z.ldiff_spec, testbit_pow2, He, (same_pos k nr He) by lia. rewrite andb_comm. f_equal. f_equal.
    apply eq_true_iff_eq. rewrite Z.eqb_eq, Nat.eqb_eq. lia.
  - destruct (Nat.eqb_spec k nr) as [->|]; [done|]. done.
Qed.
Lemma bytes_bts nr l : bytes l -> (nr / 8 < length l)%nat -> bytes (bts nr l).
Proof.
  intros Hl Hn i. unfold bts. rewrite get8_insert by done. case_decide; [|apply Hl].
  pose proof (Hl (nr / 8)%nat) as Hb. set (b := get8 l (nr / 8)) in *.
  assert (Z.lor b (Z.shiftl 1 (Z.of_nat (nr mod 8))) = Z.lor b (Z.shiftl 1 (Z.of_nat (nr mod 8))) mod 2 ^ 8) as ->;
    [|apply Z.mod_pos_bound; lia].
  destruct (bit_pos nr) as [_ Hr]. apply Z.bits_inj'. intros n Hn'. rewrite testbit_mod, Z.lor_spec, testbit_pow2 by lia.
  destruct (Z.ltb_spec n 8); [by rewrite andb_true_l|]. rewrite (testbit_word b 8 n), orb_false_l, andb_false_l by lia.
  apply Z.eqb_neq. lia.
Qed.
Lemma bytes_btr nr l : bytes l -> (nr / 8 < length l)%nat -> bytes (btr nr l).
Proof.
  intros Hl Hn i. unfold btr. rewrite get8_insert by done. case_decide; [|apply Hl].
  pose proof (Hl (nr / 8)%nat) as Hb. set (b := get8 l (nr / 8)) in *. set (m := Z.shiftl 1 _).
  assert (Z.ldiff b m = Z.ldiff b m mod 2 ^ 8) as ->; [|apply Z.mod_pos_bound; lia].
  apply Z.bits_inj'. intros n Hn'. rewrite testbit_mod, Z.ldiff_spec by lia.
  destruct (Z.ltb_spec n 8); [by rewrite andb_true_l|]. by rewrite (testbit_word b 8 n) by lia.
Qed.

(** C34: The bit operations on a block of 1024 bytes: [find_first_zero] finds
    the first clear bit, 8192 when all are set; setting and clearing a bit, as
    [set_bit] and [clear_bit] do, changes that bit only and leaves bytes. *)
Theorem bitmap_bits_correct (l : list Z) (Hlen : length l = 1024%nat) (Hl : Forall (fun x => 0 <= x < 2 ^ 8) l) :
  (forall j, find_first_zero l = j <->
     (j < 8 * 1024)%nat /\ test_bit j l = false /\ (forall i, (i < j)%nat -> test_bit i l = true) \/
     j = (8 * 1024)%nat /\ forall i, (i < 8 * 1024)%nat -> test_bit i l = true) /\
  forall nr, (nr < 8 * 1024)%nat ->
    (forall k, test_bit k (bts nr l) = (k =? nr)%nat || test_bit k l) /\
    (forall k, test_bit k (btr nr l) = negb (k =? nr)%nat && test_bit k l) /\
    bytes (bts nr l) /\ bytes (btr nr l).
Proof.
  pose proof (bytes_Forall l Hl) as Hb. pose proof (find_first_zero_spec l Hb) as (H1 & H2 & H3). split.
  - intros j. split; [intros <-|].
    + destruct (decide (find_first_zero l < 8 * 1024)%nat); [left; auto|right].
      assert (find_first_zero l = (8 * 1024)%nat) as He by lia. split; [done|]. intros i Hi. apply H2. lia.
    + intros [(Hj & Hf & Ht)|[-> Hall]].
      * destruct (lt_eq_lt_dec (find_first_zero l) j) as [[Hlt|He]|Hgt]; [|done|by rewrite H2 in Hf].
        specialize (H3 (Nat.lt_trans _ _ _ Hlt Hj)). by rewrite Ht in H3.
      * destruct (decide (find_first_zero l < 8 * 1024)%nat) as [Hlt|]; [|lia]. specialize (H3 Hlt). by rewrite Hall in H3.
  - intros nr Hnr. assert ((nr / 8 < length l)%nat) as Hi by (rewrite Hlen; apply Nat.Div0.div_lt_upper_bound; lia).
    split_and!; [intros k; by apply test_bts|intros k; by apply test_btr|by apply bytes_bts|by apply bytes_btr].
Qed.

Definition first_bits_set : list Z := 0xff :: 0x07 :: replicate 1022 0.
Lemma bitmap_bits_correct_witness : find_first_zero first_bits_set = 11%nat /\ test_bit 11 (bts 11 first_bits_set) = true.
Proof.
  destruct (bitmap_bits_correct first_bits_set) as [H1 H2].
  - vm_compute. reflexivity.
  - apply (bool_decide_unpack _). vm_compute. reflexivity.
  - split.
    + apply H1. left. split; [lia|]. split; [vm_compute; reflexivity|]. intros i Hi.
      do 11 (destruct i as [|i]; [vm_compute; reflexivity|]). lia.
    + destruct (H2 11%nat) as [H _]; [lia|]. rewrite H. reflexivity.
Defined.

(** ** Inodes on disk *)

Lemma get8_inserts o k l i : (o + length k <= length l)%nat ->
  get8 (list_inserts o k l) i = if decide (o <= i < o + length k)%nat then get8 k (i - o) else get8 l i.
Proof.
  intros Hlen. unfold get8. case_decide as H.
  - by rewrite list_lookup_inserts by lia.
  - f_equal. destruct (decide (i < o)%nat); [by rewrite list_lookup_inserts_lt by lia|by rewrite list_lookup_inserts_ge by lia].
Qed.
Lemma get16_inserts o k l a : (o + length k <= length l)%nat -> (a + 2 <= length k)%nat ->
  get16 (list_inserts o k l) (o + a) = get16 k a.
Proof.
  intros Hlen Ha. unfold get16. rewrite !get8_inserts, !decide_True by lia.
  replace (o + a - o)%nat with a by lia. by replace (o + a + 1 - o)%nat with (a + 1)%nat by lia.
Qed.
Lemma get32_inserts o k l a : (o + length k <= length l)%nat -> (a + 4 <= length k)%nat ->
  get32 (list_inserts o k l) (o + a) = get32 k a.
Proof.
  intros Hlen Ha. unfold get32. replace (o + a + 2)%nat with (o + (a + 2))%nat by lia. by rewrite !get16_inserts by lia.
Qed.
(** bytes outside what was written *)
Lemma get16_outside o k l a : (o + length k <= length l)%nat -> (a + 2 <= o \/ o + length k <= a)%nat ->
  get16 (list_inserts o k l) a = get16 l a.
Proof. intros Hlen Ha. unfold get16. by rewrite !get8_inserts, !decide_False by lia. Qed.
Lemma get32_outside o k l a : (o + length k <= length l)%nat -> (a + 4 <= o \/ o + length k <= a)%nat ->
  get32 (list_inserts o k l) a = get32 l a.
Proof. intros Hlen Ha. unfold get32. by rewrite !get16_outside by lia. Qed.

Lemma le16_value v : 0 <= v < 2 ^ 16 -> u8 v + 2 ^ 8 * u8 (Z.shiftr v 8) = v.
Proof.
  intros Hv. unfold u8. rewrite Z.shiftr_div_pow2 by lia. pose proof (Z.div_mod v (2 ^ 8) ltac:(lia)).
  rewrite (Z.mod_small (v / 2 ^ 8)); [lia|]. split; [apply Z.div_pos; lia|apply Z.div_lt_upper_bound; lia].
Qed.
Lemma u8_mod16 v : u8 (v mod 2 ^ 16) = u8 v.
Proof. unfold u8. apply Z.bits_inj'. intros n Hn. rewrite !testbit_mod by lia. destruct (Z.ltb_spec n 8); [|done].
  cbn [andb]. by rewrite (proj2 (Z.ltb_lt n 16)) by lia. Qed.
Lemma le32_value v : 0 <= v < 2 ^ 32 ->
  u8 v + 2 ^ 8 * u8 (Z.shiftr v 8) + 2 ^ 16 * (u8 (Z.shiftr v 16) + 2 ^ 8 * u8 (Z.shiftr (Z.shiftr v 16) 8)) = v.
Proof.
  intros Hv. rewrite (le16_value (Z.shiftr v 16)).
  2:{ rewrite Z.shiftr_div_pow2 by lia. split; [apply Z.div_pos; lia|apply Z.div_lt_upper_bound; lia]. }
  pose proof (le16_value (v mod 2 ^ 16) (Z.mod_pos_bound v (2 ^ 16) ltac:(lia))) as H.
  assert (u8 (Z.shiftr (v mod 2 ^ 16) 8) = u8 (Z.shiftr v 8)) as Hh.
  { unfold u8. apply Z.bits_inj'. intros n Hn. autorewrite with bits. destruct (Z.ltb_spec n 8); [|done].
    cbn [andb]. by rewrite (proj2 (Z.leb_le 0 n)), (proj2 (Z.ltb_lt (n + 8) 16)) by lia. }
  rewrite u8_mod16, Hh in H. rewrite H. rewrite Z.shiftr_div_pow2 by lia. pose proof (Z.div_mod v (2 ^ 16) ltac:(lia)). lia.
Qed.

(** the fields of a disk inode are in range *)
Record disk_inode (x : m_inode) : Prop := {
  di_mode : 0 <= i_mode x < 2 ^ 16; di_uid : 0 <= i_uid x < 2 ^ 16; di_size : 0 <= i_size x < 2 ^ 32;
  di_mtime : 0 <= i_mtime x < 2 ^ 32; di_gid : 0 <= i_gid x < 2 ^ 8; di_nlinks : 0 <= i_nlinks x < 2 ^ 8;
  di_zones : length (i_zone x) = 9%nat; di_zone : Forall (fun z => 0 <= z < 2 ^ 16) (i_zone x)
}.

Lemma encode_length x : disk_inode x -> length (encode_inode x) = 32%nat.
Proof.
  intros H. unfold encode_inode. rewrite !length_app. cbn [length le16 le32 app].
  pose proof (di_zones x H) as Hz. revert Hz. generalize (i_zone x). intros zs Hz.
  do 9 (destruct zs as [|? zs]; [done|]). by destruct zs.
Qed.

Lemma decode_encode x : disk_inode x -> forall l o y, (o + 32 <= length l)%nat ->
  decode_inode (list_inserts o (encode_inode x) l) o y =
  y <| i_mode := i_mode x |> <| i_uid := i_uid x |> <| i_size := i_size x |> <| i_mtime := i_mtime x |>
    <| i_gid := i_gid x |> <| i_nlinks := i_nlinks x |> <| i_zone := i_zone x |>.
Proof.
  intros Hx l o y Hlen. pose proof (encode_length x Hx) as He.
  assert (forall a, (a + 1 <= 32)%nat -> get8 (list_inserts o (encode_inode x) l) (o + a) = get8 (encode_inode x) a) as H8.
  { intros a Ha. rewrite get8_inserts, decide_True by lia. f_equal. lia. }
  assert (forall a, (a + 2 <= 32)%nat -> get16 (list_inserts o (encode_inode x) l) (o + a) = get16 (encode_inode x) a) as H16
    by (intros; apply get16_inserts; lia).
  assert (forall a, (a + 4 <= 32)%nat -> get32 (list_inserts o (encode_inode x) l) (o + a) = get32 (encode_inode x) a) as H32
    by (intros; apply get32_inserts; lia).
  pose proof (H16 0%nat ltac:(lia)) as H0. rewrite Nat.add_0_r in H0. unfold decode_inode.
  rewrite H0, (H16 2%nat), (H32 4%nat), (H32 8%nat), (H8 12%nat), (H8 13%nat) by lia.
  assert ((fun k => get16 (list_inserts o (encode_inode x) l) (o + 14 + 2 * k)%nat) <$> seq 0 9 =
          (fun k => get16 (encode_inode x) (14 + 2 * k)%nat) <$> seq 0 9) as ->.
  { apply list_fmap_ext. intros i k Hk. apply lookup_seq in Hk as [-> Hk]. rewrite <- H16 by lia. f_equal. lia. }
  clear H8 H16 H32 H0. destruct Hx as [D1 D2 D3 D4 D5 D6 D7 D8].
  assert (get16 (encode_inode x) 0 = i_mode x) as -> by exact (le16_value _ D1).
  assert (get16 (encode_inode x) 2 = i_uid x) as -> by exact (le16_value _ D2).
  assert (get32 (encode_inode x) 4 = i_size x) as -> by exact (le32_value _ D3).
  assert (get32 (encode_inode x) 8 = i_mtime x) as -> by exact (le32_value _ D4).
  assert (get8 (encode_inode x) 12 = i_gid x) as -> by exact (u8_id _ D5).
  assert (get8 (encode_inode x) 13 = i_nlinks x) as -> by exact (u8_id _ D6).
  assert ((fun k => get16 (encode_inode x) (14 + 2 * k)%nat) <$> seq 0 9 = i_zone x) as ->; [|done].
  unfold encode_inode. destruct x as [? ? ? ? ? ? zs]. cbn in D7, D8.
  do 9 (destruct zs as [|? zs]; [done|]). destruct zs; [|done].
  repeat match goal with H : Forall _ (_ :: _) |- _ => apply Forall_cons in H as [? H] end.
  cbn [seq fmap list_fmap i_zone].
  repeat (apply f_equal2; [match goal with |- _ = ?v => exact (le16_value v ltac:(assumption)) end|]). reflexivity.
Qed.

Lemma decode_ext l l' o y :
  (forall a, (a < 32)%nat -> get8 l' (o + a) = get8 l (o + a)) -> decode_inode l' o y = decode_inode l o y.
Proof.
  intros H. assert (forall a, (a + 2 <= 32)%nat -> get16 l' (o + a) = get16 l (o + a)) as H16.
  { intros a Ha. unfold get16. rewrite (H a) by lia. replace (o + a + 1)%nat with (o + (a + 1))%nat by lia. by rewrite H by lia. }
  assert (forall a, (a + 4 <= 32)%nat -> get32 l' (o + a) = get32 l (o + a)) as H32.
  { intros a Ha. unfold get32. rewrite (H16 a) by lia. replace (o + a + 2)%nat with (o + (a + 2))%nat by lia. by rewrite H16 by lia. }
  pose proof (H16 0%nat ltac:(lia)) as H0. rewrite Nat.add_0_r in H0. unfold decode_inode.
  rewrite H0, (H16 2%nat), (H32 4%nat), (H32 8%nat), (H 12%nat), (H 13%nat) by lia.
  assert ((fun k => get16 l' (o + 14 + 2 * k)%nat) <$> seq 0 9 = (fun k => get16 l (o + 14 + 2 * k)%nat) <$> seq 0 9) as ->; [|done].
  apply list_fmap_ext. intros i k Hk. apply lookup_seq in Hk as [-> Hk].
  replace (o + 14 + 2 * (0 + i))%nat with (o + (14 + 2 * i))%nat by lia. by rewrite H16 by lia.
Qed.

Lemma inode_at_value n : 1 <= n < 2 ^ 16 -> inode_at n = (32 * Z.to_nat ((n - 1) mod 32))%nat.
Proof. intros Hn. unfold inode_at, D_INODE_SIZE, INODES_PER_BLOCK. rewrite u32_id by lia. lia. Qed.
Lemma inode_at_bound n : 1 <= n < 2 ^ 16 -> (inode_at n + 32 <= 1024)%nat.
Proof. intros Hn. rewrite inode_at_value by done. pose proof (Z.mod_pos_bound (n - 1) 32). lia. Qed.

(** C33: Inodes on disk: writing an inode into its block and reading it back
    gives its seven fields again; the slot of every inode number lies inside the
    block, and inodes whose numbers share the block have disjoint slots, so that
    writing one changes no other. *)
Theorem inode_on_disk_roundtrip (x y : m_inode) (l : list Z) (sb : super_block) (n : Z)
  (Hx : disk_inode x) (Hlen : length l = 1024%nat) (Hn : 1 <= n < 2 ^ 16)
  (Hmaps : 0 <= s_imap_blocks sb < 2 ^ 16 /\ 0 <= s_zmap_blocks sb < 2 ^ 16) :
  let l' := list_inserts (inode_at n) (encode_inode x) l in
  length l' = 1024%nat /\
  decode_inode l' (inode_at n) y =
    y <| i_mode := i_mode x |> <| i_uid := i_uid x |> <| i_size := i_size x |> <| i_mtime := i_mtime x |>
      <| i_gid := i_gid x |> <| i_nlinks := i_nlinks x |> <| i_zone := i_zone x |> /\
  forall m, 1 <= m < 2 ^ 16 -> m <> n -> inode_block sb m = inode_block sb n ->
    decode_inode l' (inode_at m) y = decode_inode l (inode_at m) y.
Proof.
  intros l'. pose proof (inode_at_bound n Hn) as Hb. split; [unfold l'; by rewrite length_inserts|].
  split; [apply decode_encode; [done|lia]|]. intros m Hm Hne Heq.
  pose proof (inode_at_bound m Hm) as Hb'. apply decode_ext. intros a Ha. unfold l'.
  rewrite get8_inserts, encode_length by (rewrite ?encode_length by done; lia || done).
  rewrite decide_False; [done|]. intros Hin. apply Hne. rewrite !inode_at_value in Hin by done.
  unfold inode_block in Heq. unfold INODES_PER_BLOCK in Heq. rewrite !u32_id in Heq by lia.
  assert (forall k, 1 <= k < 2 ^ 16 -> 0 <= (k - 1) / 32 < 2 ^ 16) as Hq
    by (intros k Hk; split; [apply Z.div_pos; lia|apply Z.div_lt_upper_bound; lia]).
  pose proof (Hq n Hn). pose proof (Hq m Hm). rewrite !s32_id in Heq by lia.
  pose proof (Z.div_mod (n - 1) 32 ltac:(lia)). pose proof (Z.div_mod (m - 1) 32 ltac:(lia)).
  pose proof (Z.mod_pos_bound (n - 1) 32 ltac:(lia)). pose proof (Z.mod_pos_bound (m - 1) 32 ltac:(lia)). lia.
Qed.

Definition small_inode : m_inode := zero_inode <| i_mode := 0x81a4 |> <| i_size := 70000 |> <| i_nlinks := 1 |>
  <| i_zone := [30; 31; 32; 33; 34; 35; 36; 0x1234; 0] |>.
Lemma inode_on_disk_roundtrip_witness :
  disk_inode small_inode /\
  decode_inode (list_inserts (inode_at 40) (encode_inode small_inode) (replicate 1024 0)) (inode_at 40) zero_inode = small_inode.
Proof.
  assert (disk_inode small_inode) as Hx.
  { constructor; try (cbn; lia). apply (bool_decide_unpack _). vm_compute. reflexivity. }
  split; [exact Hx|].
  destruct (inode_on_disk_roundtrip small_inode zero_inode (replicate 1024 0) zero_super 40 Hx) as (_ & H & _).
  - reflexivity.
  - lia.
  - cbn. lia.
  - exact H.
Defined.

(** ** Allocation of blocks *)

(** [dev] is mounted: its super block [sb] is entry [n], and not locked *)
Record mounted (s : kst) (dev : Z) (n : nat) (sb : super_block) : Prop := {
  mt_dev : dev <> 0;
  mt_sb : super_blocks (fsys s) !! n = Some sb;
  mt_bound : (n < NR_SUPER)%nat;
  mt_name : s_dev sb = dev;
  mt_lock : s_lock sb = 0;
  mt_first : forall m sb', (m < n)%nat -> super_blocks (fsys s) !! m = Some sb' -> s_dev sb' <> dev
}.

Section Alloc.
Context {E : Env}.
Hypothesis Hfuel : (1 <= env_fuel)%nat.
Variables (s : kst) (dev : Z) (n : nat) (sb : super_block).
Hypothesis Hm : mounted s dev n sb.

Lemma getsb_run k x : super_blocks (fsys s) !! k = Some x -> getsb k s = Ret x s.
Proof. intros H. unfold getsb. mrun. by rewrite H. Qed.

Lemma wait_on_super_run : wait_on_super n s = Ret tt s.
Proof.
  unfold wait_on_super, while. destruct env_fuel as [|f]; [lia|]. apply loop_done.
  rewrite (bind_Ret _ _ s false s); [done|]. rewrite (bind_Ret _ _ _ _ _ (getsb_run _ _ (mt_sb _ _ _ _ Hm))).
  by rewrite (mt_lock _ _ _ _ Hm).
Qed.

Lemma get_super_run : get_super dev s = Ret (Some n) s.
Proof.
  unfold get_super. rewrite (proj2 (Z.eqb_neq _ _) (mt_dev _ _ _ _ Hm)). pose proof (mt_bound _ _ _ _ Hm) as Hn.
  assert (exists f, (S NR_SUPER * S env_fuel = S n + f)%nat) as [f ->] by (exists (S NR_SUPER * S env_fuel - S n)%nat; nia).
  assert (forall d k, (k + d = n)%nat -> loop (S d + f) (fun n : nat =>
    if decide (NR_SUPER <= n)%nat then mret (inr None) else
    x ← getsb n;
    if s_dev x =? dev then
      wait_on_super n ;; x ← getsb n; mret (if s_dev x =? dev then inr (Some n) else inl 0%nat)
    else mret (inl (S n))) k s = Ret (Some n) s) as H; [|by apply (H n 0%nat)].
  induction d as [|d IH]; intros k Hk.
  - assert (k = n) as -> by lia. apply loop_done. rewrite decide_False by lia.
    rewrite (bind_Ret _ _ _ _ _ (getsb_run _ _ (mt_sb _ _ _ _ Hm))), (mt_name _ _ _ _ Hm), Z.eqb_refl.
    rewrite (bind_Ret _ _ _ _ _ wait_on_super_run), (bind_Ret _ _ _ _ _ (getsb_run _ _ (mt_sb _ _ _ _ Hm))).
    by rewrite (mt_name _ _ _ _ Hm), Z.eqb_refl.
  - assert (is_Some (super_blocks (fsys s) !! k)) as [x Hx].
    { apply lookup_lt_is_Some. pose proof (lookup_lt_Some _ _ _ (mt_sb _ _ _ _ Hm)). lia. }
    rewrite <- (IH (S k)) by lia. apply loop_again. rewrite decide_False by lia.
    rewrite (bind_Ret _ _ _ _ _ (getsb_run _ _ Hx)).
    by rewrite (proj2 (Z.eqb_neq _ _) (mt_first _ _ _ _ Hm k x ltac:(lia) Hx)).
Qed.
End Alloc.

(** a map buffer: in core, 1024 bytes *)
Definition map_buffer (s : kst) (b : nat) (x : buffer_head) : Prop :=
  bufs (fsys s) !! b = Some x /\ length (b_data x) = 1024%nat /\ bytes (b_data x).
Definition full (x : buffer_head) : Prop := forall k, (k < 8 * 1024)%nat -> test_bit k (b_data x) = true.

Lemma scan_map_run s m i : (forall b, Some b ∈ m -> exists x, map_buffer s b x) ->
  exists o, scan_map i m s = Ret o s /\
    match o with
    | None => forall b x, Some b ∈ m -> map_buffer s b x -> full x
    | Some (i', b, k) => exists p x, i' = (i + p)%nat /\ m !! p = Some (Some b) /\ map_buffer s b x /\ (k < 8 * 1024)%nat /\
        test_bit k (b_data x) = false /\ (forall k', (k' < k)%nat -> test_bit k' (b_data x) = true) /\
        (forall p' b' x', (p' < p)%nat -> m !! p' = Some (Some b') -> map_buffer s b' x' -> full x')
    end.
Proof.
  revert i. induction m as [|[b|] m IH]; intros i Hmap.
  - exists None. split; [done|]. intros b x Hb. by apply not_elem_of_nil in Hb.
  - destruct (Hmap b ltac:(by left)) as (x & Hx & Hlen & Hbytes). cbn [scan_map].
    assert (getbh b s = Ret x s) as Hget by (unfold getbh; mrun; by rewrite Hx).
    rewrite (bind_Ret _ _ _ _ _ Hget). cbv zeta. destruct (find_first_zero_spec (b_data x) Hbytes) as (H1 & H2 & H3).
    destruct (_ <? _)%nat eqn:Hcmp; [apply Nat.ltb_lt in Hcmp as Hlt|apply Nat.ltb_ge in Hcmp as Hge].
    + eexists. split; [done|]. exists 0%nat, x. split; [lia|]. split_and!; try done; [by apply H3|].
      intros p' b' x' Hp'. lia.
    + destruct (IH (S i)) as (o & Hrun & Ho); [intros c Hc; apply Hmap; by right|].
      assert (full x) as Hfull by (intros k Hk; apply H2; eapply Nat.lt_le_trans; [exact Hk|exact Hge]).
      assert (forall x', map_buffer s b x' -> full x') as Hb by (intros x' (Hx' & _); by replace x' with x by congruence).
      exists o. split; [exact Hrun|]. destruct o as [[[i' c] k]|].
      * destruct Ho as (p & y & -> & Hp & Hy & Hk & Hc1 & Hc2 & Hc3). exists (S p), y. split; [lia|]. split_and!; try done.
        intros [|p'] b' x' Hlt Hp' Hx'; [injection Hp' as <-; auto|]. apply (Hc3 p' b' x'); [lia|done|done].
      * intros c y [[= ->]|Hc]%elem_of_cons Hy; [auto|by apply (Ho c y)].
  - cbn [scan_map]. destruct (IH (S i)) as (o & Hrun & Ho); [intros c Hc; apply Hmap; by right|].
    exists o. split; [exact Hrun|]. destruct o as [[[i' c] k]|].
    + destruct Ho as (p & y & -> & Hp & Hy & Hk & Hc1 & Hc2 & Hc3). exists (S p), y. split; [lia|]. split_and!; try done.
      intros [|p'] b' x' Hlt Hp' Hx'; [done|]. apply (Hc3 p' b' x'); [lia|done|done].
    + intros c y [[=]|Hc]%elem_of_cons Hy. by apply (Ho c y).
Qed.

(** an update of a bit, before the buffer is made dirty *)
Definition bit_changed (f : list Z -> list Z) (s : kst) (b : nat) : kst := alter_bh (fun x => x <| b_data ::= f |>) b s.
Lemma set_bit_run s b k x : bufs (fsys s) !! b = Some x ->
  set_bit k b s = Ret (test_bit k (b_data x)) (bit_changed (bts k) s b).
Proof. intros Hx. unfold set_bit. by rewrite (bind_Ret _ _ _ _ _ (getbh_at _ _ _ Hx)), (bind_Ret _ _ _ _ _ (setbh_at _ _ _ _ Hx)). Qed.
Lemma clear_bit_run s b k x : bufs (fsys s) !! b = Some x ->
  clear_bit k b s = Ret (negb (test_bit k (b_data x))) (bit_changed (btr k) s b).
Proof. intros Hx. unfold clear_bit. by rewrite (bind_Ret _ _ _ _ _ (getbh_at _ _ _ Hx)), (bind_Ret _ _ _ _ _ (setbh_at _ _ _ _ Hx)). Qed.
(** and then *)
Definition made_dirty (f : list Z -> list Z) (s : kst) (b : nat) : kst := alter_bh (fun x => x <| b_data ::= f |> <| b_dirt := 1 |>) b s.
Lemma made_dirty_run f s b x : bufs (fsys s) !! b = Some x ->
  setbh b (fun x => x <| b_dirt := 1 |>) (bit_changed f s b) = Ret tt (made_dirty f s b).
Proof.
  intros Hx. unfold bit_changed. rewrite (setbh_at b _ _ (x <| b_data ::= f |>)); [by rewrite alter_bh_twice|].
  by rewrite alter_bh_lookup, decide_True, Hx by done.
Qed.

(** [new_block] after the bit has been found and set *)
Definition new_block_rest `{E : Env} (dev j : Z) (sb : super_block) : K Z :=
  if s_nzones sb <=? j then mret 0 else
  b ← getblk dev j;
  x ← getbh b;
  if negb (b_count x =? 1) then panic "new block: count is != 1" else
  setbh b (fun x => x <| b_data := replicate 1024 0 |> <| b_uptodate := 1 |> <| b_dirt := 1 |>) ;;
  brelse (Some b) ;;
  mret j.
Lemma new_block_run `{E : Env} s dev n sb o : (1 <= env_fuel)%nat -> mounted s dev n sb ->
  scan_map 0 (take 8 (s_zmap sb)) s = Ret o s ->
  match o with
  | None => new_block dev s = Ret 0 s
  | Some (i, b, k) => forall x, bufs (fsys s) !! b = Some x -> test_bit k (b_data x) = false ->
      new_block dev s = new_block_rest dev (Z.of_nat k + Z.of_nat i * 8192 + s_firstdatazone sb - 1) sb (made_dirty (bts k) s b)
  end.
Proof.
  intros Hfuel Hm Hscan.
  destruct o as [[[i b] k]|]; [intros x Hx Hk|]; unfold new_block;
    rewrite (bind_Ret _ _ _ _ _ (get_super_run Hfuel s dev n sb Hm)),
      (bind_Ret _ _ _ _ _ (getsb_run s n sb (mt_sb _ _ _ _ Hm))), (bind_Ret _ _ _ _ _ Hscan); [|done].
  rewrite (bind_Ret _ _ _ _ _ (set_bit_run s b k x Hx)), Hk.
  by rewrite (bind_Ret _ _ _ _ _ (made_dirty_run (bts k) s b x Hx)).
Qed.

(** a change of a buffer head that leaves the queues and the name alone *)
Lemma cache_rep_alter f b s l ch : (forall x, hview (f x) = hview x) -> (forall x, fview (f x) = fview x) ->
  cache_rep (fsys s) l ch -> cache_rep (fsys (alter_bh f b s)) l ch.
Proof.
  intros Hh Hf. apply cache_rep_view; [| |done..]; change (bufs (fsys (alter_bh f b s))) with (alter f b (bufs (fsys s))); by apply fmap_alter_same.
Qed.
Lemma named_alter f b s dev blk c : (forall x, hview (f x) = hview x) -> named (fsys (alter_bh f b s)) dev blk c -> named (fsys s) dev blk c.
Proof.
  intros Hh (y & Hy & Hd & Hn). rewrite alter_bh_lookup in Hy. case_decide; [|by exists y].
  destruct (bufs (fsys s) !! c) as [x|] eqn:Hx; [|done]. injection Hy as <-. exists x. specialize (Hh x). injection Hh as ? ? ? ?.
  split; [done|]. split; congruence.
Qed.

(** ** Freeing of blocks *)

Lemma zone_position i k first : (k < 8 * 1024)%nat -> let z := Z.of_nat k + Z.of_nat i * 8192 in
  Z.to_nat (Z.quot z 8192) = i /\ Z.to_nat (Z.land z 8191) = k /\ first - 1 + z - (first - 1) = z.
Proof.
  intros Hk z. assert (0 <= z) as Hz by lia. split_and!; [| |lia].
  - rewrite Z.quot_div_nonneg by lia. unfold z. rewrite Z.div_add, Z.div_small by lia. lia.
  - change 8191 with (Z.ones 13). rewrite Z.land_ones by lia. change (2 ^ 13) with 8192. unfold z.
    rewrite Z.mod_add, Z.mod_small by lia. lia.
Qed.

(** setting and then clearing a clear bit changes nothing *)
Lemma btr_bts k l : (k / 8 < length l)%nat -> bytes l -> test_bit k l = false -> btr k (bts k l) = l.
Proof.
  intros Hlt Hl Hk. unfold btr, bts. rewrite get8_insert, decide_True by done. apply list_eq. intros i.
  destruct (decide (i = (k / 8)%nat)) as [->|Hi].
  - rewrite list_lookup_insert_eq by (by rewrite length_insert). unfold test_bit in Hk. pose proof (Hl (k / 8)%nat) as Hb.
    unfold get8 in *. destruct (l !! (k / 8)%nat) as [v|] eqn:Hv; [|by apply lookup_ge_None in Hv; lia]. cbn [default id] in *.
    f_equal. apply Z.bits_inj'. intros m Hm. rewrite Z.ldiff_spec, Z.lor_spec, testbit_pow2 by lia.
    destruct (Z.eqb_spec m (Z.of_nat (k mod 8))) as [->|Hne]; [by rewrite Hk|]. by rewrite orb_false_r, andb_true_r.
  - by rewrite !list_lookup_insert_ne by done.
Qed.

(** the contents of buffer [c] are given up *)
Definition discarded (c : nat) (s : kst) : kst := alter_bh (fun y => y <| b_dirt := 0 |> <| b_uptodate := 0 |>) c s.
Definition not_freed (dev block count : Z) : event := EvPrintk "trying to free block (%04x:%d), count=%d" [dev; block; count].
(** the outcome [r] of [free_block] in state [s]: bit [k] of map buffer [b] is cleared, or it was clear *)
Definition bit_freed (r : out kst unit) (k b : nat) (x : buffer_head) (s : kst) : Prop :=
  if test_bit k (b_data x) then r = Ret tt (made_dirty (btr k) s b)
  else exists s', r = Panic "free_block: bit already cleared" s'.

Section Free.
Context {E : Env}.
Hypothesis Hfuel : (1 <= env_fuel)%nat.
Variables (s : kst) (dev : Z) (n : nat) (sb : super_block) (i k b : nat) (x : buffer_head) (l : list nat) (ch : nat -> list nat).
Hypothesis Hm : mounted s dev n sb.
Hypothesis Hdev : 0 < dev < 2 ^ 16.
Hypothesis Hcache : cache_rep (fsys s) l ch.
Hypothesis Hk : (k < 8 * 1024)%nat.
Hypothesis Hslot : s_zmap sb !! i = Some (Some b).
Hypothesis Hx : bufs (fsys s) !! b = Some x.
Abbreviation block := (s_firstdatazone sb - 1 + (Z.of_nat k + Z.of_nat i * 8192)).
Hypothesis Hin : (block <? s_firstdatazone sb) || (s_nzones sb <=? block) = false.
Hypothesis Hrange : 0 <= block < 2 ^ 16.

(** the part of [free_block] after the buffer of the block has been dealt with *)
Definition free_bit (blk : Z) : K unit :=
  sb ← getsb n;
  let blk := blk - (s_firstdatazone sb - 1) in
  z ← deref (s_zmap sb !! Z.to_nat (Z.quot blk 8192));
  z ← deref z;
  bad ← clear_bit (Z.to_nat (Z.land blk 8191)) z;
  if bad : bool then
    printk "block (%04x:%d) " [dev; blk + s_firstdatazone sb - 1] ;;
    panic "free_block: bit already cleared"
  else setbh z (fun x => x <| b_dirt := 1 |>).
Lemma free_bit_run s1 x1 : super_blocks (fsys s1) !! n = Some sb -> bufs (fsys s1) !! b = Some x1 -> b_data x1 = b_data x ->
  bit_freed (free_bit block s1) k b x s1.
Proof using Hk Hslot.
  intros Hsb Hx1 Hd. destruct (zone_position i k (s_firstdatazone sb) Hk) as (Hq & Hr & Hz).
  unfold free_bit, bit_freed. rewrite (bind_Ret _ _ _ _ _ (getsb_run s1 n sb Hsb)). cbv zeta. rewrite Hz, Hq, Hr.
  rewrite (bind_Ret _ _ _ _ _ (deref_run _ _ s1 Hslot)), (bind_Ret _ _ _ _ _ (deref_run (Some b) _ s1 eq_refl)).
  rewrite (bind_Ret _ _ _ _ _ (clear_bit_run s1 b k x1 Hx1)), Hd.
  destruct (test_bit k (b_data x)); cbn [negb]; [exact (made_dirty_run (btr k) s1 b x1 Hx1)|eexists; reflexivity].
Qed.
Lemma free_block_start o s1 :
  get_hash_table dev block s = Ret o s1 ->
  free_block dev block s =
  (shared ← match o with
    | None => mret false
    | Some b =>
        x ← getbh b;
        if negb (b_count x =? 1) then
          printk "trying to free block (%04x:%d), count=%d" [dev; block; b_count x] ;; mret true
        else setbh b (fun x => x <| b_dirt := 0 |> <| b_uptodate := 0 |>) ;; brelse (Some b) ;; mret false
    end;
   if shared : bool then mret tt else free_bit block) s1.
Proof using Hfuel Hm Hin.
  intros Hget. unfold free_block. rewrite (bind_Ret _ _ _ _ _ (get_super_run Hfuel s dev n sb Hm)).
  rewrite (bind_Ret _ _ _ _ _ (getsb_run s n sb (mt_sb _ _ _ _ Hm))). rewrite Hin. by rewrite (bind_Ret _ _ _ _ _ Hget).
Qed.

(** no buffer holds the block *)
Lemma free_block_uncached : (forall c, ~ named (fsys s) dev block c) -> bit_freed (free_block dev block s) k b x s.
Proof using All.
  intros Hno. rewrite (free_block_start None s).
  - exact (free_bit_run s x (mt_sb _ _ _ _ Hm) Hx eq_refl).
  - apply (get_hash_table_none ltac:(lia) s l ch); [done|done|lia|done].
Qed.

(** buffer [c] holds it *)
Context (c : nat) (y : buffer_head).
Hypothesis Hy : bufs (fsys s) !! c = Some y.
Hypothesis Hyd : b_dev y = dev.
Hypothesis Hyn : b_blocknr y = block.
Hypothesis Hyl : b_lock y = 0.
Hypothesis Hyc : 0 <= b_count y < 255.
Lemma cached_get : get_hash_table dev block s = Ret (Some c) (taken c s) /\ bufs (fsys (taken c s)) !! c = Some (counted 1 y) /\
  b_count (counted 1 y) = b_count y + 1.
Proof using All.
  split; [apply (get_hash_table_cached ltac:(lia) s l ch dev block c y); try done; lia|].
  split; [by rewrite taken_lookup, Hy|]. unfold counted, upd; cbn. unfold u8. apply Z.mod_small. lia.
Qed.
Lemma free_block_shared : b_count y <> 0 -> free_block dev block s = Ret tt ((taken c s) <| log ::= cons (not_freed dev block (b_count y + 1)) |>).
Proof using All.
  intros Hc. destruct cached_get as (Hget & Ht & Hcnt). rewrite (free_block_start _ _ Hget). cbv iota.
  rewrite <- (bind_assoc (getbh c)), (bind_Ret _ _ _ _ _ (getbh_at _ _ _ Ht)), Hcnt.
  destruct (Z.eqb_spec (b_count y + 1) 1); [lia|]. reflexivity.
Qed.
Lemma free_block_unused : b_count y = 0 -> buffer_wait (fsys s) = None -> bit_freed (free_block dev block s) k b x (discarded c s).
Proof using All.
  intros Hc Hw. destruct cached_get as (Hget & Ht & Hcnt). rewrite (free_block_start _ _ Hget). cbv iota.
  rewrite <- (bind_assoc (getbh c)), (bind_Ret _ _ _ _ _ (getbh_at _ _ _ Ht)), Hcnt, Hc. change (negb (0 + 1 =? 1)) with false. cbv iota.
  rewrite <- (bind_assoc (setbh c _)), (bind_Ret _ _ _ _ _ (setbh_at _ _ _ _ Ht)). fold (discarded c (taken c s)).
  assert (bufs (fsys (discarded c (taken c s))) !! c = Some ((counted 1 y) <| b_dirt := 0 |> <| b_uptodate := 0 |>)) as Hd
    by (unfold discarded; by rewrite alter_bh_lookup, decide_True, Ht by done).
  rewrite <- (bind_assoc (brelse (Some c))), (bind_Ret _ _ _ tt (discarded c s)).
  - assert (exists x1, bufs (fsys (discarded c s)) !! b = Some x1 /\ b_data x1 = b_data x) as (x1 & Hx1 & Hd1).
    { unfold discarded. rewrite alter_bh_lookup, Hx. case_decide; by eexists. }
    by apply (free_bit_run (discarded c s) x1 (mt_sb _ _ _ _ Hm)).
  - rewrite (brelse_quiet ltac:(lia) (discarded c (taken c s)) c _ Hw Hd Hyl) by (change (b_count (counted 1 y) <> 0); lia).
    f_equal. unfold discarded, taken. rewrite !alter_bh_twice. apply (alter_bh_ext _ _ _ _ y Hy).
    destruct y. cbn in Hc. subst. reflexivity.
Qed.
End Free.

(** C19: [free_block], for the block of bit [k] of map slot [i].  A block outside
    the data zone is a panic.  If no buffer holds the block, or an unlocked one that
    is not in use, the contents of that buffer are given up, the bit is cleared and the map made
    dirty, and nothing else changes; a bit already clear is a panic.  If the buffer
    of the block is in use, the block is not freed: there is a message, the bit stays as it is, and the
    buffer stays counted once more. *)
Theorem free_block_correct `{E : Env} (s : kst) (dev : Z) (n : nat) (sb : super_block) (i k b : nat) (x : buffer_head)
  (l : list nat) (ch : nat -> list nat) (Hfuel : (1 <= env_fuel)%nat) (Hm : mounted s dev n sb) (Hdev : 0 < dev < 2 ^ 16)
  (Hcache : cache_rep (fsys s) l ch) (Hk : (k < 8 * 1024)%nat)
  (Hslot : s_zmap sb !! i = Some (Some b)) (Hx : bufs (fsys s) !! b = Some x) (Hzones : 0 < s_nzones sb < 2 ^ 16) :
  let block := s_firstdatazone sb - 1 + (Z.of_nat k + Z.of_nat i * 8192) in
  if (block <? s_firstdatazone sb) || (s_nzones sb <=? block)
  then free_block dev block s = Panic "trying to free block not in datazone" s else
  0 <= block ->
  ((forall c, ~ named (fsys s) dev block c) -> bit_freed (free_block dev block s) k b x s) /\
  (forall c y, bufs (fsys s) !! c = Some y -> b_dev y = dev -> b_blocknr y = block -> b_lock y = 0 -> 0 <= b_count y < 255 ->
     if b_count y =? 0 then buffer_wait (fsys s) = None -> bit_freed (free_block dev block s) k b x (discarded c s)
     else free_block dev block s = Ret tt ((taken c s) <| log ::= cons (not_freed dev block (b_count y + 1)) |>)).
Proof.
  intros block. destruct (_ || _) eqn:Hout.
  { unfold free_block. rewrite (bind_Ret _ _ _ _ _ (get_super_run Hfuel s dev n sb Hm)).
    rewrite (bind_Ret _ _ _ _ _ (getsb_run s n sb (mt_sb _ _ _ _ Hm))). by rewrite Hout. }
  intros H0. assert (0 <= block < 2 ^ 16) as Hr by (apply orb_false_iff in Hout as [_ H2]; apply Z.leb_gt in H2; lia).
  split; [by apply (free_block_uncached Hfuel s dev n sb i k b x l ch)|]. intros c y Hy Hyd Hyn Hyl Hyc.
  destruct (Z.eqb_spec (b_count y) 0); [intros Hw; by apply (free_block_unused Hfuel s dev n sb i k b x l ch) with (y := y)|].
  by apply (free_block_shared Hfuel s dev n sb i k b x l ch) with (y := y).
Qed.

(** ** Allocation *)

(** the buffer of a new block: zeros, to be written, not in use *)
Definition zeroed (y : buffer_head) : buffer_head := y <| b_data := replicate 1024 0 |> <| b_uptodate := 1 |> <| b_dirt := 1 |> <| b_count := 0 |>.

Section Fresh.
Context {E : Env}.
Hypothesis Hfuel : (1 <= env_fuel)%nat.

Lemma new_block_end c y j s2 : bufs (fsys s2) !! c = Some y ->
  (x ← getbh c;
   if negb (b_count x =? 1) then panic "new block: count is != 1" else
   setbh c (fun x => x <| b_data := replicate 1024 0 |> <| b_uptodate := 1 |> <| b_dirt := 1 |>) ;;
   brelse (Some c) ;;
   mret j : K Z) s2 = if b_count y =? 1 then (brelse (Some c) ;; mret j) (alter_bh (fun x => x <| b_data := replicate 1024 0 |> <| b_uptodate := 1 |> <| b_dirt := 1 |>) c s2)
                      else Panic "new block: count is != 1" s2.
Proof.
  intros Hy. rewrite (bind_Ret _ _ _ _ _ (getbh_at _ _ _ Hy)). destruct (b_count y =? 1); cbn [negb]; [|done].
  by rewrite (bind_Ret _ _ _ _ _ (setbh_at _ _ _ _ Hy)).
Qed.
Lemma new_block_give c y s2 : bufs (fsys s2) !! c = Some y -> b_count y = 1 -> b_lock y = 0 ->
  brelse (Some c) (alter_bh (fun x => x <| b_data := replicate 1024 0 |> <| b_uptodate := 1 |> <| b_dirt := 1 |>) c s2) =
  wake_up WqBufferWait (alter_bh zeroed c s2).
Proof.
  intros Hy Hc Hl. rewrite (brelse_run ltac:(lia) _ _ (y <| b_data := replicate 1024 0 |> <| b_uptodate := 1 |> <| b_dirt := 1 |>)); [| |done|].
  - f_equal. rewrite alter_bh_twice. apply (alter_bh_ext _ _ _ _ y Hy). destruct y. cbn in Hc. subst. reflexivity.
  - by rewrite alter_bh_lookup, decide_True, Hy by done.
  - change (b_count y <> 0). lia.
Qed.

(** a block that no buffer holds gets the unused buffer that [scan_free] finds *)
Lemma getblk_fresh s l ch dev block c y s' : cache_rep (fsys s) l ch -> 0 < dev < 2 ^ 16 -> 0 <= block < 2 ^ 31 ->
  (forall b, ~ named (fsys s) dev block b) -> scan_free s = Ret (Some c) s -> bufs (fsys s) !! c = Some y ->
  b_count y = 0 -> b_dirt y = 0 -> b_lock y = 0 -> rename_buffer c dev block s = Ret tt s' -> getblk dev block s = Ret c s'.
Proof.
  intros Hc Hd Hb Hno Hscan Hy H1 H2 H3 Hren. unfold getblk, getblk_with. destruct (fuel_S ltac:(lia)) as [f Hf].
  enough (forall m : K unit, clean_buffer m c s = Ret true s) as Hclean.
  - rewrite Hf at 1. apply loop_done.
    rewrite (bind_Ret _ _ _ _ _ (get_hash_table_none ltac:(lia) s l ch dev block Hc Hd ltac:(lia) Hno)).
    rewrite (bind_Ret _ _ _ _ _ Hscan), (bind_Ret _ _ _ _ _ (wait_on_buffer_free ltac:(lia) c s y Hy H3)).
    rewrite (bind_Ret _ _ _ _ _ (getbh_at c s y Hy)), H1. cbn [nz Z.eqb negb].
    rewrite (bind_Ret _ _ _ _ _ (Hclean _)). cbn [negb].
    destruct (find_buffer_run s l ch dev block Hc ltac:(lia) ltac:(lia)) as (o & Hrun & Ho). rewrite (bind_Ret _ _ _ _ _ Hrun).
    destruct o as [d|]; [by destruct (Hno d)|]. by rewrite (bind_Ret _ _ _ _ _ Hren).
  - intros m. unfold clean_buffer. rewrite Hf. apply loop_done. rewrite (bind_Ret _ _ _ _ _ (getbh_at c s y Hy)). by rewrite H2.
Qed.
End Fresh.

Lemma fs_queues (F : fs_st) f bs tbl fl g :
  F <| bufs ::= f |> <| bufs := bs |> <| hash_table := tbl |> <| free_list := fl |> <| bufs ::= g |> =
  F <| bufs := g bs |> <| hash_table := tbl |> <| free_list := fl |>.
Proof. by destruct F. Qed.

Section Undone.
Context {E : Env}.
Hypothesis Hfuel : (1 <= env_fuel)%nat.
Variables (s : kst) (dev : Z) (n : nat) (sb : super_block) (i k b : nat) (x : buffer_head) (l : list nat) (ch : nat -> list nat).
Hypothesis Hm : mounted s dev n sb.
Hypothesis Hdev : 0 < dev < 2 ^ 16.
Hypothesis Hcache : cache_rep (fsys s) l ch.
Hypothesis Htwo : (2 <= length (bufs (fsys s)))%nat.
Hypothesis Hk : (k < 8 * 1024)%nat.
Hypothesis Hslot : s_zmap sb !! i = Some (Some b).
Hypothesis Hx : map_buffer s b x.
Hypothesis Hclear : test_bit k (b_data x) = false.
Abbreviation block := (s_firstdatazone sb - 1 + (Z.of_nat k + Z.of_nat i * 8192)).
Abbreviation s1 := (made_dirty (bts k) s b).
Hypothesis Hrange : 0 <= block < 2 ^ 16.
Hypothesis Hno : forall c, ~ named (fsys s) dev block c.
Context (c : nat) (y : buffer_head).
Hypothesis Hscan : scan_free s1 = Ret (Some c) s1.
Hypothesis Hy : bufs (fsys s1) !! c = Some y.
Hypothesis Hidle : b_count y = 0 /\ b_dirt y = 0 /\ b_lock y = 0.
Hypothesis Hwait : buffer_wait (fsys s) = None.

(** the state in which [new_block] returns *)
Record allocated (s' : kst) : Prop := {
  al_cache : cache_rep (fsys s') (without c l ++ [c]) (fun k => if decide (k = _hashfn dev block) then c :: without c (ch k) else without c (ch k));
  al_bufs : sans_links <$> bufs (fsys s') = sans_links <$> alter (zeroed ∘ renamed dev block) c (bufs (fsys s1));
  al_fs : fsys s' = (fsys s) <| bufs := bufs (fsys s') |> <| hash_table := hash_table (fsys s') |> <| free_list := free_list (fsys s') |>
}.

Lemma new_block_fresh : exists s2 y2, getblk dev block s1 = Ret c s2 /\ bufs (fsys s2) !! c = Some y2 /\
  b_count y2 = 1 /\ b_lock y2 = 0 /\ read_wq s2 WqBufferWait = None /\ allocated (alter_bh zeroed c s2).
Proof using All.
  assert (cache_rep (fsys s1) l ch) as Hc1 by (by apply cache_rep_alter).
  assert (forall d, ~ named (fsys s1) dev block d) as Hno1 by (intros d Hd; apply (Hno d); revert Hd; by apply named_alter).
  assert (2 <= length (bufs (fsys s1)))%nat as Htwo1.
  { change (bufs (fsys s1)) with (alter (fun x => x <| b_data ::= bts k |> <| b_dirt := 1 |>) b (bufs (fsys s))). by rewrite length_alter. }
  destruct (rename_buffer_run s1 l ch c y dev block Hc1 Htwo1 Hy) as (t & bs & tbl & fl & Hren & Ht & Hc2 & Hsl).
  { rewrite u16_id by lia. intros j z Hz _ [Hzd Hzb]. apply (Hno1 j). by exists z. }
  rewrite u16_id, u32_id, decide_False in Ht by lia.
  set (s2 := with_fs t _) in *. assert (is_Some (bs !! c)) as [y2 Hy2].
  { apply (fmap_is_Some sans_links (alter (renamed dev block) c (bufs (fsys s1)))); [done|].
    rewrite alter_lookup, decide_True, Hy by done. cbn. eauto. }
  destruct (sans_links_lookup _ _ c y2 Hsl Hy2) as (z & Hz & Heq).
  rewrite alter_lookup, decide_True, Hy in Hz by done. cbn in Hz. injection Hz as <-.
  assert (b_count y2 = 1 /\ b_lock y2 = 0) as [Hcnt Hlock].
  { change (b_count y2) with (b_count (sans_links y2)). change (b_lock y2) with (b_lock (sans_links y2)). rewrite Heq.
    split; [done|apply Hidle]. }
  destruct Hidle as (I1 & I2 & I3).
  exists s2, y2. split; [by apply (getblk_fresh Hfuel s1 l ch dev block c y s2); try done; lia|].
  split; [done|]. split; [done|]. split; [done|]. split; [exact Hwait|]. constructor.
  - assert (cache_rep (fsys s2) (without c l ++ [c]) (ch_renamed c dev block ch)) as Hc3 by exact Hc2.
    apply (cache_rep_alter zeroed c) in Hc3; [|done..]. destruct Hc3 as [C1 C2 C3 C4]. constructor; [|exact C2|exact C3|exact C4].
    apply (hash_rep_ch _ _ _ _ _ C1). intros j _. unfold ch_renamed. rewrite u16_id, u32_id by lia. repeat case_decide; try done; lia.
  - change (sans_links <$> alter zeroed c bs = sans_links <$> alter (zeroed ∘ renamed dev block) c (bufs (fsys s1))).
    rewrite (fmap_alter_comm sans_links zeroed zeroed) by done. rewrite Hsl, <- (fmap_alter_comm sans_links zeroed zeroed) by done.
    by rewrite alter_alter.
  - exact (fs_queues (fsys s) _ bs tbl fl _).
Qed.

(** the map is as it was when the block is freed again *)
Lemma freed_again s' : allocated s' -> (block <? s_firstdatazone sb) || (s_nzones sb <=? block) = false ->
  exists s'' x'', free_block dev block s' = Ret tt s'' /\ bufs (fsys s'') !! b = Some x'' /\ b_data x'' = b_data x.
Proof using All.
  intros [A1 A2 A3] Hin. destruct Hx as (Hxb & Hlen & Hbytes). assert (k / 8 < length (b_data x))%nat as Hk8
    by (rewrite Hlen; apply Nat.Div0.div_lt_upper_bound; lia).
  assert (c <> b) as Hcb.
  { intros ->. unfold made_dirty in Hy. rewrite alter_bh_lookup, decide_True, Hxb in Hy by done. injection Hy as <-. by destruct Hidle as (_ & ? & _). }
  assert (forall d z, alter (zeroed ∘ renamed dev block) c (bufs (fsys s1)) !! d = Some z ->
    exists z', bufs (fsys s') !! d = Some z' /\ sans_links z' = sans_links z) as Hback.
  { intros d z Hz. destruct (sans_links_lookup _ _ d z (eq_sym A2) Hz) as (z' & Hz' & He). by exists z'. }
  destruct (Hback c (zeroed (renamed dev block y))) as (y' & Hy' & Hye); [by rewrite alter_lookup, decide_True, Hy|].
  destruct (Hback b (x <| b_data ::= bts k |> <| b_dirt := 1 |>)) as (x' & Hx' & Hxe).
  { rewrite alter_lookup, decide_False by done. unfold made_dirty. by rewrite alter_bh_lookup, decide_True, Hxb. }
  assert (b_data x' = bts k (b_data x)) as Hd' by (change (b_data (sans_links x') = bts k (b_data x)); by rewrite Hxe).
  assert (mounted s' dev n sb) as Hm'.
  { destruct Hm as [M1 M2 M3 M4 M5 M6]. constructor; try done; rewrite A3; done. }
  pose proof (free_block_unused Hfuel s' dev n sb i k b x' _ _ Hm' Hdev A1 Hk Hslot Hx' Hin Hrange c y' Hy') as Hfree.
  unfold bit_freed in Hfree. rewrite Hd' in Hfree. rewrite test_bts, Nat.eqb_refl in Hfree by done.
  eexists _, _. split; [apply Hfree|split].
  - change (b_dev (sans_links y') = dev). rewrite Hye. exact (u16_id dev ltac:(lia)).
  - change (b_blocknr (sans_links y') = block). rewrite Hye. exact (u32_id block ltac:(lia)).
  - change (b_lock (sans_links y') = 0). rewrite Hye. apply Hidle.
  - change (0 <= b_count (sans_links y') < 255). rewrite Hye. cbn. lia.
  - change (b_count (sans_links y') = 0). by rewrite Hye.
  - rewrite A3. exact Hwait.
  - unfold made_dirty, discarded. rewrite alter_bh_lookup, decide_True, alter_bh_lookup, decide_False by done. by rewrite Hx'.
  - cbn. rewrite Hd'. by apply btr_bts.
Qed.
End Undone.

(** C18: [new_block] hands out a block that was free.  With the device mounted
    and its zone map in core: if every bit of the map is set it returns 0 and
    changes nothing; otherwise it takes the first clear bit, sets it and makes
    the map dirty before anything can sleep.  If that bit lies beyond the end of
    the device it returns 0.  Otherwise it gets a buffer for the block: if
    the buffer is in use by nobody else and not locked, it is filled with zeros, marked up to date
    and dirty and given back, and the number of the block is returned; if its count is not 1, [new_block] panics.
    When no buffer holds the block and the unused buffer that the scan
    of the free list finds is clean and not locked, nothing sleeps and [new_block] always returns the block: that buffer
    holds its zeros, no other buffer changes except the map, and [free_block] then
    gives the block back and leaves the map as it was. *)
Theorem new_block_correct `{E : Env} (s : kst) (dev : Z) (n : nat) (sb : super_block)
  (Hfuel : (1 <= env_fuel)%nat) (Hm : mounted s dev n sb)
  (Hmap : forall b, Some b ∈ take 8 (s_zmap sb) -> exists x, map_buffer s b x) :
  (forall b x, Some b ∈ take 8 (s_zmap sb) -> map_buffer s b x -> full x) /\ new_block dev s = Ret 0 s \/
  exists i b k x, take 8 (s_zmap sb) !! i = Some (Some b) /\ map_buffer s b x /\ (k < 8 * 1024)%nat /\
    test_bit k (b_data x) = false /\ (forall k', (k' < k)%nat -> test_bit k' (b_data x) = true) /\
    (forall i' b' x', (i' < i)%nat -> take 8 (s_zmap sb) !! i' = Some (Some b') -> map_buffer s b' x' -> full x') /\
    let j := s_firstdatazone sb - 1 + (Z.of_nat k + Z.of_nat i * 8192) in let s1 := made_dirty (bts k) s b in
    if s_nzones sb <=? j then new_block dev s = Ret 0 s1 else
    (forall r s', new_block dev s = Ret r s' -> r = j) /\
    (forall c s2 y, getblk dev j s1 = Ret c s2 -> bufs (fsys s2) !! c = Some y ->
       if b_count y =? 1 then b_lock y = 0 -> new_block dev s = (wake_up WqBufferWait ;; mret j) (alter_bh zeroed c s2)
       else new_block dev s = Panic "new block: count is != 1" s2) /\
    (forall l ch c y, cache_rep (fsys s) l ch -> (2 <= length (bufs (fsys s)))%nat -> 0 < dev < 2 ^ 16 ->
       s_firstdatazone sb <= j -> 0 <= j -> s_nzones sb < 2 ^ 16 -> (forall d, ~ named (fsys s) dev j d) -> buffer_wait (fsys s) = None ->
       scan_free s1 = Ret (Some c) s1 -> bufs (fsys s1) !! c = Some y -> b_count y = 0 /\ b_dirt y = 0 /\ b_lock y = 0 ->
       exists s' s'' x'', new_block dev s = Ret j s' /\
         sans_links <$> bufs (fsys s') = sans_links <$> alter (zeroed ∘ renamed dev j) c (bufs (fsys s1)) /\
         cache_rep (fsys s') (without c l ++ [c]) (fun k => if decide (k = _hashfn dev j) then c :: without c (ch k) else without c (ch k)) /\
         free_block dev j s' = Ret tt s'' /\ bufs (fsys s'') !! b = Some x'' /\ b_data x'' = b_data x).
Proof.
  destruct (scan_map_run s (take 8 (s_zmap sb)) 0 Hmap) as (o & Hrun & Ho).
  pose proof (new_block_run s dev n sb o Hfuel Hm Hrun) as Hnew.
  destruct o as [[[i b] k]|]; [right|by left].
  destruct Ho as (p & x & -> & Hp & Hx & Hk & H1 & H2 & H3). exists p, b, k, x. do 6 (split; [done|]).
  intros j s1. specialize (Hnew x (proj1 Hx) H1). replace (Z.of_nat k + Z.of_nat (0 + p) * 8192 + s_firstdatazone sb - 1) with j in Hnew
    by (unfold j; cbn [Nat.add]; lia).
  rewrite Hnew. fold s1. unfold new_block_rest. destruct (Z.leb_spec (s_nzones sb) j) as [Hout|Hin]; [done|].
  assert (forall c s2 y, getblk dev j s1 = Ret c s2 -> bufs (fsys s2) !! c = Some y ->
    if b_count y =? 1 then b_lock y = 0 -> new_block_rest dev j sb s1 = (wake_up WqBufferWait ;; mret j) (alter_bh zeroed c s2)
    else new_block_rest dev j sb s1 = Panic "new block: count is != 1" s2) as Hend.
  { intros c s2 y Hget Hy. unfold new_block_rest. rewrite (proj2 (Z.leb_gt _ _) Hin).
    rewrite (bind_Ret _ _ _ _ _ Hget), (new_block_end c y j s2 Hy).
    destruct (Z.eqb_spec (b_count y) 1) as [Hc|]; [|done]. intros Hl. unfold mbind, M_bind. by rewrite (new_block_give Hfuel c y). }
  unfold new_block_rest in Hend. rewrite (proj2 (Z.leb_gt _ _) Hin) in Hend. split; [|split; [exact Hend|]].
  - intros r s' Hr. apply bind_Ret_inv in Hr as (c & s2 & _ & Hr). apply bind_Ret_inv in Hr as (y & s3 & _ & Hr). destruct (negb _); [done|].
    apply bind_Ret_inv in Hr as (_ & s4 & _ & Hr). apply bind_Ret_inv in Hr as (_ & s5 & _ & Hr). by injection Hr.
  - intros l ch c y Hc Htwo Hdev Hfirst H0 Hz Hno Hwait Hscan Hy Hidle.
    assert (s_zmap sb !! p = Some (Some b)) as Hslot by (by apply lookup_take_Some in Hp as [Hp _]).
    assert (0 <= j < 2 ^ 16) as Hr by lia.
    destruct (new_block_fresh Hfuel s dev n sb p k b x l ch Hm Hdev Hc Htwo Hk Hslot Hx H1 Hr Hno c y Hscan Hy Hidle Hwait)
      as (s2 & y2 & Hget & Hy2 & Hcnt & Hl & Hwq & Hal).
    destruct (freed_again Hfuel s dev n sb p k b x l ch Hm Hdev Hc Htwo Hk Hslot Hx H1 Hr Hno c y Hscan Hy Hidle Hwait (alter_bh zeroed c s2) Hal)
      as (s'' & x'' & Hfree & Hx'' & Hd''); [apply orb_false_iff; split; [by apply Z.ltb_ge|by apply Z.leb_gt]|].
    exists (alter_bh zeroed c s2), s'', x''. specialize (Hend c s2 y2 Hget Hy2). rewrite Hcnt in Hend. specialize (Hend Hl).
    split; [|by destruct Hal]. rewrite Hend. by rewrite (bind_Ret _ _ _ _ _ (wake_nobody WqBufferWait (alter_bh zeroed c s2) Hwq)).
Qed.

Definition small_super : super_block :=
  zero_super <| s_dev := 0x301 |> <| s_nzones := 100 |> <| s_firstdatazone := 20 |>
             <| s_zmap := Some 0%nat :: replicate 7 None |>.
(** a file system whose first eleven zones are in use: buffer 0 holds the map, buffer 1
    block 22, which somebody uses, and buffer 2 is unused *)
Definition map_head : buffer_head := mk_bh first_bits_set 0 3 0x301 1 0 1 0 None None None (Some 2%nat) (Some 1%nat).
Definition used_head : buffer_head := mk_bh (replicate 1024 0) 0 22 0x301 1 0 1 0 None None None (Some 0%nat) (Some 2%nat).
Definition spare_head : buffer_head := mk_bh (replicate 1024 7) 0 0 0 0 0 0 0 None None None (Some 1%nat) (Some 0%nat).
Definition small_fs : kst := with_fs boot_kst ((fsys boot_kst)
  <| bufs := [map_head; used_head; spare_head] |>
  <| hash_table ::= fun t => <[_hashfn 0x301 22 := Some 1%nat]> (<[_hashfn 0x301 3 := Some 0%nat]> t) |> <| free_list := Some 0%nat |>
  <| super_blocks := small_super :: replicate 7 zero_super |>).
Definition small_chains (k : nat) : list nat :=
  if decide (k = _hashfn 0x301 22) then [1%nat] else if decide (k = _hashfn 0x301 3) then [0%nat] else [].
Lemma small_fs_mounted : mounted small_fs 0x301 0 small_super.
Proof. constructor; try done; [unfold NR_SUPER; lia|]. intros m sb' Hm. lia. Qed.
Lemma first_bits_bytes : bytes first_bits_set.
Proof. apply bytes_Forall, (bool_decide_unpack _). vm_compute. reflexivity. Qed.

Lemma small_fs_lookup i v : (hview <$> bufs (fsys small_fs)) !! i = Some v ->
  (i = 0%nat /\ v = mk_hlink 0x301 3 None None) \/ (i = 1%nat /\ v = mk_hlink 0x301 22 None None) \/ (i = 2%nat /\ v = mk_hlink 0 0 None None).
Proof. destruct i as [|[|[|i]]]; [..|done]; intros [= <-]; tauto. Qed.
Lemma small_chain k : small_chains k = [] \/
  (small_chains k = [0%nat] /\ k = _hashfn 0x301 3) \/ (small_chains k = [1%nat] /\ k = _hashfn 0x301 22).
Proof. unfold small_chains. repeat case_decide; tauto. Qed.
Lemma small_fs_hash : hash_rep (hview <$> bufs (fsys small_fs)) (hash_table (fsys small_fs)) small_chains None.
Proof.
  change (hash_table (fsys small_fs)) with (<[_hashfn 0x301 22 := Some 1%nat]> (<[_hashfn 0x301 3 := Some 0%nat]> (replicate NR_HASH None))).
  constructor.
  - by rewrite !length_insert, length_replicate.
  - intros k Hk. unfold small_chains. case_decide as H1; [|case_decide as H2].
    + subst k. apply list_lookup_insert_eq. by rewrite length_insert, length_replicate.
    + subst k. rewrite list_lookup_insert_ne by done. apply list_lookup_insert_eq. by rewrite length_replicate.
    + rewrite !list_lookup_insert_ne by done. by rewrite lookup_replicate_2.
  - intros k _. destruct (small_chain k) as [->|[[-> _]|[-> _]]]; [done|..]; (split; [done|]; split; intros a [= <-]; reflexivity).
  - intros k _. destruct (small_chain k) as [->|[[-> _]|[-> _]]]; [constructor|apply NoDup_singleton..].
  - intros k i _ Hi. destruct (small_chain k) as [H|[[H ->]|[H ->]]]; rewrite H in Hi; [by apply not_elem_of_nil in Hi|..];
      apply list_elem_of_singleton in Hi as ->; eexists; (split; [reflexivity|done]).
  - intros i v Hv _. apply small_fs_lookup in Hv as [[-> ->]|[[-> ->]|[-> ->]]]; [by left..|done].
Qed.
Lemma small_fs_cache : cache_rep (fsys small_fs) [0; 1; 2]%nat small_chains.
Proof.
  constructor; [apply small_fs_hash|..].
  - constructor; [done| |apply (bool_decide_unpack _); reflexivity]. repeat split; reflexivity.
  - intros i. rewrite !elem_of_cons, elem_of_nil. change (length (bufs (fsys small_fs))) with 3%nat. lia.
  - constructor.
    + intros i v Hv. apply small_fs_lookup in Hv as [[-> ->]|[[-> ->]|[-> ->]]]; cbn; lia.
    + intros i j v w Hv Hw. apply small_fs_lookup in Hv as [[-> ->]|[[-> ->]|[-> ->]]]; 
        apply small_fs_lookup in Hw as [[-> ->]|[[-> ->]|[-> ->]]]; cbn; done.
Qed.
Lemma small_fs_unnamed blk d : blk <> 3 -> blk <> 22 -> 0 <= blk < 2 ^ 32 -> ~ named (fsys small_fs) 0x301 blk d.
Proof.
  intros H1 H2 Hr (y & Hy & Hyd & Hyb). rewrite u32_id in Hyb by lia. destruct d as [|[|[|d]]]; [..|done]; injection Hy as <-; cbn in *; congruence.
Qed.

(** block 23 is freed, block 22 is in use *)
Lemma free_block_correct_witness :
  @free_block (quiet_env 2) 0x301 23 small_fs = Ret tt (made_dirty (btr 4) small_fs 0) /\
  @free_block (quiet_env 2) 0x301 22 small_fs = Ret tt ((taken 1 small_fs) <| log ::= cons (not_freed 0x301 22 2) |>).
Proof.
  split.
  - apply (@free_block_correct (quiet_env 2) small_fs 0x301 0 small_super 0 4 0 map_head [0; 1; 2]%nat small_chains
      ltac:(cbn; lia) small_fs_mounted ltac:(lia) small_fs_cache ltac:(lia) eq_refl eq_refl ltac:(cbn; lia)).
    + cbn. lia.
    + intros d. apply small_fs_unnamed; cbn; lia.
  - apply (proj2 (@free_block_correct (quiet_env 2) small_fs 0x301 0 small_super 0 3 0 map_head [0; 1; 2]%nat small_chains
      ltac:(cbn; lia) small_fs_mounted ltac:(lia) small_fs_cache ltac:(lia) eq_refl eq_refl ltac:(cbn; lia) ltac:(cbn; lia)) 1%nat used_head);
      try reflexivity. cbn. lia.
Defined.

Lemma small_map b x : Some b ∈ take 8 (s_zmap small_super) -> map_buffer small_fs b x -> b = 0%nat /\ x = map_head.
Proof.
  intros Hb (Hx & _). assert (b = 0%nat) as ->; [|by injection Hx as <-].
  cbn in Hb. repeat (apply elem_of_cons in Hb as [Hb|Hb]; [first [discriminate Hb | by injection Hb]|]). by apply not_elem_of_nil in Hb.
Qed.
Lemma small_map_buffer b : Some b ∈ take 8 (s_zmap small_super) -> exists x, map_buffer small_fs b x.
Proof.
  intros Hb. exists map_head. assert (b = 0%nat) as ->; [|split; [reflexivity|split; [reflexivity|apply first_bits_bytes]]].
  cbn in Hb. repeat (apply elem_of_cons in Hb as [Hb|Hb]; [first [discriminate Hb | by injection Hb]|]). by apply not_elem_of_nil in Hb.
Qed.
Lemma small_first k : test_bit k first_bits_set = false -> (forall k', (k' < k)%nat -> test_bit k' first_bits_set = true) -> k = 11%nat.
Proof.
  intros H1 H2. destruct (Nat.lt_trichotomy k 11) as [Hlt|[->|Hgt]]; [|done|].
  - exfalso. do 11 (destruct k as [|k]; [discriminate H1|]). lia.
  - specialize (H2 11%nat Hgt). discriminate H2.
Qed.
Lemma small_scan : scan_free (made_dirty (bts 11) small_fs 0) = Ret (Some 2%nat) (made_dirty (bts 11) small_fs 0).
Proof. vm_compute. reflexivity. Qed.

(** block 30 is allocated, in buffer 2, and freed again *)
Lemma new_block_correct_witness : exists s' s'' x'', @new_block (quiet_env 2) 0x301 small_fs = Ret 30 s' /\
  @free_block (quiet_env 2) 0x301 30 s' = Ret tt s'' /\ bufs (fsys s'') !! 0%nat = Some x'' /\ b_data x'' = first_bits_set.
Proof.
  destruct (@new_block_correct (quiet_env 2) small_fs 0x301 0 small_super ltac:(cbn; lia) small_fs_mounted small_map_buffer)
    as [[Hfull _]|(i & b & k & x & Hi & Hx & _ & H1 & H2 & _ & H)].
  - exfalso. assert (test_bit 11 first_bits_set = true) as H; [|discriminate H].
    refine (Hfull 0%nat map_head _ _ 11%nat _); [by left| |lia]. split; [reflexivity|]. split; [reflexivity|]. exact first_bits_bytes.
  - destruct (small_map b x (list_elem_of_lookup_2 _ _ _ Hi) Hx) as [-> ->].
    assert (i = 0%nat) as -> by (destruct i as [|[|[|[|[|[|[|[|i]]]]]]]]; [reflexivity|discriminate Hi..]).
    pose proof (small_first k H1 H2) as ->. cbv zeta in H.
    change (s_firstdatazone small_super - 1 + (Z.of_nat 11 + Z.of_nat 0 * 8192)) with 30 in H.
    change (s_nzones small_super <=? 30) with false in H. cbv iota in H. destruct H as (_ & _ & H).
    destruct (H [0; 1; 2]%nat small_chains 2%nat spare_head small_fs_cache) as (s' & s'' & x'' & R1 & _ & _ & R2 & R3 & R4).
    + cbn. lia.
    + lia.
    + cbn. lia.
    + lia.
    + cbn. lia.
    + intros d. apply small_fs_unnamed; lia.
    + reflexivity.
    + exact small_scan.
    + reflexivity.
    + split; [reflexivity|split; reflexivity].
    + exists s', s'', x''. split; [exact R1|]. split; [exact R2|]. split; [exact R3|exact R4].
Defined.
