(* ===== verification/Inode.v ===== *)
(** * fs/inode.cc, fs/truncate.cc, and the parts of super.cc and buffer.cc they lead to *)

From S2P Require Import Prelude State Memory Sched Request LlRw Buffer Bitmap.

(** ** include/sys/stat.h *)
Definition S_IFMT : Z := 0xF000.  (* octal 170000 *)
Definition S_IFREG : Z := 0x8000.  (* octal 100000 *)
Definition S_IFBLK : Z := 0x6000.  (* octal 060000 *)
Definition S_IFDIR : Z := 0x4000.  (* octal 040000 *)
Definition S_IFCHR : Z := 0x2000.  (* octal 020000 *)
Definition S_IFIFO : Z := 0x1000.  (* octal 010000 *)
Definition S_ISUID : Z := 0x800.  (* octal 4000 *)
Definition S_ISGID : Z := 0x400.  (* octal 2000 *)
Definition S_ISVTX : Z := 0x200.  (* octal 1000 *)
Definition S_ISREG (m : Z) : bool := Z.land m S_IFMT =? S_IFREG.
Definition S_ISDIR (m : Z) : bool := Z.land m S_IFMT =? S_IFDIR.
Definition S_ISCHR (m : Z) : bool := Z.land m S_IFMT =? S_IFCHR.
Definition S_ISBLK (m : Z) : bool := Z.land m S_IFMT =? S_IFBLK.
Definition S_ISFIFO (m : Z) : bool := Z.land m S_IFMT =? S_IFIFO.

Section Inode.
Context {E : Env}.

Definition invalidate_inodes (dev : Z) : K unit :=
  for_each (seq 0 NR_INODE) (fun i =>
    wait_on_inode i ;;
    x ← getino i;
    when (i_dev x =? dev)
      (when (nz (i_count x)) (printk "inode in use on removed disk" []) ;;
       setino i (fun x => x <| i_dirt := 0 |> <| i_dev := 0 |>))).

(** [inode->i_zone[k]] *)
Definition get_zone (i k : nat) : K Z := x ← getino i; deref (i_zone x !! k).
Definition set_zone (i k : nat) (v : Z) : K unit :=
  setino i (fun x => x <| i_zone ::= <[k := u16 v]> |>).

(** the zone in slot [k] of the inode, allocated on demand *)
Definition bmap_slot (i k : nat) (create : bool) : K Z :=
  z ← get_zone i k;
  when (create && (z =? 0))
    (x ← getino i; nb ← new_block (i_dev x);
     set_zone i k nb ;;
     t ← CURRENT_TIME;
     when (nz (u16 nb)) (setino i (fun x => x <| i_ctime := u32 t |> <| i_dirt := 1 |>))) ;;
  get_zone i k.

(** entry [k] of an indirect block *)
Definition bmap_indirect (i : nat) (ind : Z) (k : nat) (create : bool) : K Z :=
  x ← getino i;
  o ← bread (i_dev x) ind;
  match o with
  | None => mret 0
  | Some b =>
      y ← getbh b;
      let z := get16 (b_data y) (2 * k) in
      z ← (if create && (z =? 0) then
             x ← getino i; nb ← new_block (i_dev x);
             when (nz nb) (setbh b (fun y => y <| b_data ::= set16 (2 * k) nb |> <| b_dirt := 1 |>)) ;;
             mret nb
           else mret z);
      brelse (Some b) ;; mret z
  end.

Definition _bmap (i : nat) (block : Z) (create : bool) : K Z :=
  if block <? 0 then panic "_bmap: block<0" else
  if 7 + 512 + 512 * 512 <=? block then panic "_bmap: block>big" else
  if block <? 7 then bmap_slot i (Z.to_nat block) create else
  let block := block - 7 in
  if block <? 512 then
    z ← bmap_slot i 7 create;
    if z =? 0 then mret 0 else bmap_indirect i z (Z.to_nat block) create
  else
    let block := block - 512 in
    z ← bmap_slot i 8 create;
    if z =? 0 then mret 0 else
    z ← bmap_indirect i z (Z.to_nat (Z.shiftr block 9)) create;
    if z =? 0 then mret 0 else
    bmap_indirect i z (Z.to_nat (Z.land block 511)) create.
Definition bmap (i : nat) (block : Z) : K Z := _bmap i block false.
Definition create_block (i : nat) (block : Z) : K Z := _bmap i block true.

(** ** fs/truncate.cc *)

(** the non-zero entries of an indirect block are freed with [f]; the block is
    read through [b] at each step *)
Definition free_entries (b : nat) (f : Z -> K unit) : K unit :=
  for_each (seq 0 512) (fun k =>
    y ← getbh b;
    let p := get16 (b_data y) (2 * k) in
    when (nz p) (f p)).
Definition free_ind (dev block : Z) : K unit :=
  if block =? 0 then mret tt else
  o ← bread dev block;
  match o with
  | Some b => free_entries b (free_block dev) ;; brelse (Some b)
  | None => mret tt
  end ;;
  free_block dev block.
Definition free_dind (dev block : Z) : K unit :=
  if block =? 0 then mret tt else
  o ← bread dev block;
  match o with
  | Some b => free_entries b (free_ind dev) ;; brelse (Some b)
  | None => mret tt
  end ;;
  free_block dev block.

Definition truncate (i : nat) : K unit :=
  x ← getino i;
  if negb (S_ISREG (i_mode x) || S_ISDIR (i_mode x)) then mret tt else
  for_each (seq 0 7) (fun k =>
    z ← get_zone i k;
    when (nz z) (x ← getino i; free_block (i_dev x) z ;; set_zone i k 0)) ;;
  x ← getino i; z ← get_zone i 7; free_ind (i_dev x) z ;;
  x ← getino i; z ← get_zone i 8; free_dind (i_dev x) z ;;
  set_zone i 8 0 ;; set_zone i 7 0 ;;
  t ← CURRENT_TIME;
  setino i (fun x => x <| i_size := 0 |> <| i_dirt := 1 |> <| i_ctime := u32 t |> <| i_mtime := u32 t |>).

(** ** The inode table *)

Definition dec_count (i : nat) : K unit := setino i (fun x => x <| i_count ::= fun c => u16 (c - 1) |>).

Definition iput (o : option nat) : K unit :=
  match o with
  | None => mret tt
  | Some i =>
      wait_on_inode i ;;
      x ← getino i;
      if i_count x =? 0 then panic "iput: trying to free free inode" else
      if nz (i_pipe x) then
        wake_up (WqInode i) ;;
        dec_count i ;;
        x ← getino i;
        if nz (i_count x) then mret tt else
        zoom_mm (free_page (i_size x)) ;;
        setino i (fun x => x <| i_count := 0 |> <| i_dirt := 0 |> <| i_pipe := 0 |>)
      else if i_dev x =? 0 then dec_count i
      else
        when (S_ISBLK (i_mode x)) (z ← get_zone i 0; _ ← sync_dev z; wait_on_inode i) ;;
        loop env_fuel (fun _ : unit =>
          x ← getino i;
          if 1 <? i_count x then dec_count i ;; mret (inr tt) else
          if i_nlinks x =? 0 then truncate i ;; free_inode (Some i) ;; mret (inr tt) else
          if nz (i_dirt x) then write_inode i ;; wait_on_inode i ;; mret (inl tt) else
          dec_count i ;; mret (inr tt)) tt
  end.

(** the scan of [get_empty_inode]: an unused inode, a clean and unlocked one if there is one *)
Fixpoint scan_inodes (n : nat) (inode : option nat) : K (option nat) :=
  match n with
  | O => mret inode
  | S n =>
      on_fs (fun s => s <| last_inode ::= fun l => if decide (NR_INODE <= S l)%nat then 0%nat else S l |>) ;;
      s ← gets fsys; x ← getino (last_inode s);
      if nz (i_count x) then scan_inodes n inode else
      if negb (nz (i_dirt x)) && negb (nz (i_lock x)) then mret (Some (last_inode s))
      else scan_inodes n (Some (last_inode s))
  end.

Definition get_empty_inode : K nat :=
  i ← loop env_fuel (fun _ : unit =>
    o ← scan_inodes NR_INODE None;
    match o with
    | None =>
        for_each (seq 0 NR_INODE) (fun i => x ← getino i; printk "%04x: %6d" [i_dev x; i_num x]) ;;
        panic "No free inodes in mem"
    | Some i =>
        wait_on_inode i ;;
        while env_fuel (x ← getino i; mret (nz (i_dirt x))) (write_inode i ;; wait_on_inode i) ;;
        x ← getino i;
        mret (if nz (i_count x) then inl tt else inr i)
    end) tt;
  setino i (fun _ => zero_inode <| i_count := 1 |>) ;;
  mret i.

Definition get_pipe_inode : K (option nat) :=
  i ← get_empty_inode;
  p ← zoom_mm get_free_page;
  setino i (fun x => x <| i_size := p |>) ;;
  if p =? 0 then setino i (fun x => x <| i_count := 0 |>) ;; mret None else
  setino i (fun x => x <| i_count := 2 |>) ;;
  set_zone i 1 0 ;; set_zone i 0 0 ;;
  setino i (fun x => x <| i_pipe := 1 |>) ;;
  mret (Some i).

Definition read_inode (i : nat) : K unit :=
  lock_inode i ;;
  x ← getino i;
  o ← get_super (i_dev x);
  match o with
  | None => panic "trying to read inode without dev"
  | Some n =>
      sb ← getsb n; x ← getino i;
      o ← bread (i_dev x) (inode_block sb (i_num x));
      match o with
      | None => panic "unable to read i-node block"
      | Some b =>
          y ← getbh b; x ← getino i;
          setino i (decode_inode (b_data y) (inode_at (i_num x))) ;;
          brelse (Some b) ;;
          unlock_inode i
      end
  end.

(** the super block whose mount point is inode [i] *)
Definition find_mount (i : nat) : K (option nat) :=
  for_find (seq 0 NR_SUPER) (fun n =>
    sb ← getsb n; mret (if decide (s_imount sb = Some i) then Some n else None)).

(** the loop over the inode table, restarted for the root of a mounted file
    system; one fuel for scan steps and restarts.  [inr None]: not in the table *)
Definition iget (dev nr : Z) : K nat :=
  if dev =? 0 then panic "iget with dev==0" else
  empty ← get_empty_inode;
  r ← loop (S NR_INODE * S env_fuel) (fun '(dev, nr, i) =>
    if decide (NR_INODE <= i)%nat then mret (inr (inr (dev, nr))) else
    x ← getino i;
    if negb (i_dev x =? dev) || negb (i_num x =? nr) then mret (inl (dev, nr, S i)) else
    wait_on_inode i ;;
    x ← getino i;
    if negb (i_dev x =? dev) || negb (i_num x =? nr) then mret (inl (dev, nr, 0%nat)) else
    setino i (fun x => x <| i_count ::= fun c => u16 (c + 1) |>) ;;
    x ← getino i;
    if nz (i_mount x) then
      o ← find_mount i;
      match o with
      | None => printk "Mounted inode hasn't got sb" [] ;; iput (Some empty) ;; mret (inr (inl i))
      | Some n =>
          iput (Some i) ;;
          sb ← getsb n;
          mret (inl (s_dev sb, ROOT_INO, 0%nat))
      end
    else iput (Some empty) ;; mret (inr (inl i))) (dev, nr, 0%nat);
  match r with
  | inl i => mret i
  | inr (dev, nr) =>
      setino empty (fun x => x <| i_dev := u16 dev |> <| i_num := u16 nr |>) ;;
      read_inode empty ;;
      mret empty
  end.

(** ** [new_inode] of bitmap.cc *)
Definition new_inode (dev : Z) : K (option nat) :=
  i ← get_empty_inode;
  o ← get_super dev;
  match o with
  | None => panic "new_inode with unknown device"
  | Some n =>
      sb ← getsb n;
      o ← scan_map 0 (take 8 (s_imap sb));
      match o with
      | None => iput (Some i) ;; mret None
      | Some (k, b, j) =>
          let nr := Z.of_nat j + Z.of_nat k * 8192 in
          if s_ninodes sb <? nr then iput (Some i) ;; mret None else
          old ← set_bit j b;
          if old : bool then panic "new_inode: bit already set" else
          setbh b (fun x => x <| b_dirt := 1 |>) ;;
          t ← me; now ← CURRENT_TIME;
          setino i (fun x => x <| i_count := 1 |> <| i_nlinks := 1 |> <| i_dev := u16 dev |>
            <| i_uid := t_euid t |> <| i_gid := u8 (t_egid t) |> <| i_dirt := 1 |> <| i_num := u16 nr |>
            <| i_mtime := u32 now |> <| i_atime := u32 now |> <| i_ctime := u32 now |>) ;;
          mret (Some i)
      end
  end.

(** ** The parts of super.cc that buffer.cc calls *)
Definition put_super (dev : Z) : K unit :=
  s ← gets fsys;
  if dev =? ROOT_DEV s then printk "root diskette changed: prepare for armageddon" [] else
  o ← get_super dev;
  match o with
  | None => mret tt
  | Some n =>
      sb ← getsb n;
      if bool_decide (is_Some (s_imount sb)) then printk "Mounted disk changed - tssk, tssk" [] else
      lock_super n ;;
      setsb n (fun x => x <| s_dev := 0 |>) ;;
      for_each (seq 0 I_MAP_SLOTS) (fun k => sb ← getsb n; b ← deref (s_imap sb !! k); brelse b) ;;
      for_each (seq 0 Z_MAP_SLOTS) (fun k => sb ← getsb n; b ← deref (s_zmap sb !! k); brelse b) ;;
      free_super n
  end.
End Inode.
