(* ===== verification/Namei.v ===== *)
(** * fs/namei.cc: names, directories, permissions

    A [struct dir_entry] (a 16-bit inode number and 14 bytes of name) is a
    position in the data of a buffer: the buffer and the offset of the entry.
    A NULL buffer of the directory scans counts as used up: [bh->b_data] of a
    NULL [bh] is the word at address 0, which is below every buffer. *)

From S2P Require Import Prelude State Memory Sched Request LlRw Buffer Bitmap Inode.

(** ** include/fcntl.h, include/const.h (octal constants) *)
Definition O_ACCMODE : Z := 3.
Definition O_WRONLY : Z := 1.
Definition O_CREAT : Z := 0x40.
Definition O_EXCL : Z := 0x80.
Definition O_TRUNC : Z := 0x200.
Definition O_APPEND : Z := 0x400.
Definition O_NONBLOCK : Z := 0x800.
Definition I_DIRECTORY : Z := 0x4000.
Definition I_REGULAR : Z := 0x8000.

Definition MAY_EXEC : Z := 1.
Definition MAY_WRITE : Z := 2.
Definition MAY_READ : Z := 4.

(** [ACC_MODE(x)]: [\377] is a [char], so -1 *)
Definition ACC_MODE (x : Z) : Z := default 0 ([4; 2; 6; -1] !! Z.to_nat (Z.land x O_ACCMODE)).

Definition DIR_ENTRY_SIZE : nat := 16.
Definition chr (c : Ascii.ascii) : Z := Z.of_nat (Ascii.nat_of_ascii c).
(** [strcmp(s, name) == 0] for a string of the kernel and the name of an entry *)
Definition name_is (s : list Z) (data : list Z) (de : nat) : bool :=
  bool_decide ((fun k => get8 data (de + 2 + k)) <$> seq 0 (length s + 1) = s ++ [0]).
Definition DOT : Z := 0x2e.
Definition SLASH : Z := 0x2f.

Section Namei.
Context {E : Env}.

(** the mode bits that apply to the current task *)
Definition permission (i : nat) (mask : Z) : K bool :=
  x ← getino i; t ← me;
  if nz (i_dev x) && (i_nlinks x =? 0) then mret false else
  let mode := if t_euid t =? i_uid x then Z.shiftr (i_mode x) 6
              else if t_egid t =? i_gid x then Z.shiftr (i_mode x) 3
              else i_mode x in
  mret ((Z.land (Z.land mode mask) 7 =? mask) || (t_euid t =? 0)).

(** [repe ; cmpsb] of [len] bytes of a user string and of a name *)
Fixpoint same_bytes (name : Z) (data : list Z) (o len : nat) : K bool :=
  match len with
  | O => mret true
  | S len => c ← get_fs_byte name;
             if c =? get8 data o then same_bytes (name + 1) data (S o) len else mret false
  end.
Definition match_ (len name : Z) (data : list Z) (de : nat) : K bool :=
  if (get16 data de =? 0) || (NAME_LEN <? len) then mret false else
  if (len <? NAME_LEN) && nz (get8 data (de + 2 + Z.to_nat len)) then mret false else
  same_bytes name data (de + 2) (Z.to_nat len).

Definition entries_of (x : m_inode) : Z := s32 (i_size x / Z.of_nat DIR_ENTRY_SIZE).
Definition dec_nlinks (i : nat) : K unit := setino i (fun x => x <| i_nlinks ::= fun n => u8 (n - 1) |>).
Definition inc_count (i : nat) : K unit := setino i (fun x => x <| i_count ::= fun c => u16 (c + 1) |>).
Definition set_de_inode (b de : nat) (v : Z) : K unit := setbh b (fun y => y <| b_data ::= set16 de v |>).
Definition mark_dirty (b : nat) : K unit := setbh b (fun y => y <| b_dirt := 1 |>).
(** [de->inode], read through the buffer *)
Definition get_de_inode (b de : nat) : K Z := y ← getbh b; mret (get16 (b_data y) de).

(** one step of the scan of [find_entry]: number, buffer and offset of the entry *)
Definition find_step (dir : nat) (namelen name entries : Z)
    : Z * option nat * nat -> K (Z * option nat * nat + option (nat * nat)) := fun '(i, bh, de) =>
  if entries <=? i then brelse bh ;; mret (inr None) else
  let scan b de :=
    y ← getbh b;
    found ← match_ namelen name (b_data y) de;
    mret (if found : bool then inr (Some (b, de)) else inl (i + 1, Some b, (de + DIR_ENTRY_SIZE)%nat)) in
  let next_block :=
    block ← bmap dir (i / DIR_ENTRIES_PER_BLOCK);
    x ← getino dir;
    bh ← (if block =? 0 then mret None else bread (i_dev x) block);
    match bh with
    | Some b => scan b 0%nat
    | None => mret (inl (i + DIR_ENTRIES_PER_BLOCK, None, de))
    end in
  match bh with
  | Some b => if (de <? 1024)%nat then scan b de else brelse bh ;; next_block
  | None => next_block
  end.

(** the directory to search and the length to compare: [..] in a root directory *)
Definition cross_dotdot (dir : nat) (name namelen : Z) : K (nat * Z) :=
  c0 ← get_fs_byte name; c1 ← get_fs_byte (name + 1);
  if negb ((namelen =? 2) && (c0 =? DOT) && (c1 =? DOT)) then mret (dir, namelen) else
  t ← me; x ← getino dir;
  if decide (t_root t = Some dir) then mret (dir, 1)
  else if i_num x =? ROOT_INO then
    o ← get_super (i_dev x); n ← deref o; sb ← getsb n;
    match s_imount sb with
    | None => mret (dir, namelen)
    | Some _ =>
        iput (Some dir) ;;
        sb ← getsb n; d ← deref (s_imount sb);
        inc_count d ;; mret (d, namelen)
    end
  else mret (dir, namelen).

(** the entry found, and the directory, which [..] may have exchanged *)
Definition find_entry (dir : nat) (name namelen : Z) : K (nat * option (nat * nat)) :=
  let namelen := if NAME_LEN <? namelen then NAME_LEN else namelen in
  x ← getino dir;
  let entries := entries_of x in
  if namelen =? 0 then mret (dir, None) else
  '(dir, namelen) ← cross_dotdot dir name namelen;
  block ← get_zone dir 0;
  if block =? 0 then mret (dir, None) else
  x ← getino dir;
  o ← bread (i_dev x) block;
  match o with
  | None => mret (dir, None)
  | Some b =>
      r ← loop (S (Z.to_nat entries)) (find_step dir namelen name entries) (0, Some b, 0%nat);
      mret (dir, r)
  end.

(** the [NAME_LEN] bytes of a new name, padded with 0 *)
Definition put_name (b de : nat) (name namelen : Z) : K unit :=
  for_each (seq 0 (Z.to_nat NAME_LEN)) (fun k =>
    c ← (if Z.of_nat k <? namelen then get_fs_byte (name + Z.of_nat k) else mret 0);
    setbh b (fun y => y <| b_data ::= <[(de + 2 + k)%nat := c]> |>)).

(** one step of [add_entry] *)
Definition add_step (dir : nat) (namelen name : Z)
    : Z * option nat * nat -> K (Z * option nat * nat + option (nat * nat)) := fun '(i, bh, de) =>
  let scan b de :=
    x ← getino dir;
    when (i_size x <=? u32 (i * Z.of_nat DIR_ENTRY_SIZE))
      (set_de_inode b de 0 ;;
       t ← CURRENT_TIME;
       setino dir (fun x => x <| i_size := u32 ((i + 1) * Z.of_nat DIR_ENTRY_SIZE) |> <| i_dirt := 1 |>
                              <| i_ctime := u32 t |>)) ;;
    nr ← get_de_inode b de;
    if nz nr then mret (inl (i + 1, Some b, (de + DIR_ENTRY_SIZE)%nat)) else
    t ← CURRENT_TIME;
    setino dir (fun x => x <| i_mtime := u32 t |>) ;;
    put_name b de name namelen ;;
    mark_dirty b ;;
    mret (inr (Some (b, de))) in
  let next_block :=
    block ← create_block dir (i / DIR_ENTRIES_PER_BLOCK);
    if block =? 0 then mret (inr None) else
    x ← getino dir;
    bh ← bread (i_dev x) block;
    match bh with
    | Some b => scan b 0%nat
    | None => mret (inl (i + DIR_ENTRIES_PER_BLOCK, None, de))
    end in
  match bh with
  | Some b => if (de <? 1024)%nat then scan b de else brelse bh ;; next_block
  | None => next_block
  end.

(** the scan stops at the latest at the end of the directory *)
Definition add_entry (dir : nat) (name namelen : Z) : K (option (nat * nat)) :=
  let namelen := if NAME_LEN <? namelen then NAME_LEN else namelen in
  if namelen =? 0 then mret None else
  block ← get_zone dir 0;
  if block =? 0 then mret None else
  x ← getino dir;
  o ← bread (i_dev x) block;
  match o with
  | None => mret None
  | Some b => loop (2 + Z.to_nat (i_size x / 16)) (add_step dir namelen name) (0, Some b, 0%nat)
  end.

(** the length of the name at [path] and the character that ends it *)
Definition scan_component (path : Z) : K (Z * Z) :=
  loop env_fuel (fun n =>
    c ← get_fs_byte (path + n);
    mret (if (c =? 0) || (c =? SLASH) then inr (n, c) else inl (n + 1))) 0.

Definition get_dir (pathname : Z) : K (option nat) :=
  t ← me;
  root ← match t_root t with Some r => mret r | None => panic "No root inode" end;
  xr ← getino root;
  if i_count xr =? 0 then panic "No root inode" else
  pwd ← match t_pwd t with Some p => mret p | None => panic "No cwd inode" end;
  xp ← getino pwd;
  if i_count xp =? 0 then panic "No cwd inode" else
  c ← get_fs_byte pathname;
  if c =? 0 then mret None else
  let '(inode, pathname) := if c =? SLASH then (root, pathname + 1) else (pwd, pathname) in
  inc_count inode ;;
  loop env_fuel (fun '(inode, pathname) =>
    x ← getino inode;
    ok ← (if S_ISDIR (i_mode x) then permission inode MAY_EXEC else mret false);
    if negb ok then iput (Some inode) ;; mret (inr None) else
    '(namelen, c) ← scan_component pathname;
    if c =? 0 then mret (inr (Some inode)) else
    '(inode, found) ← find_entry inode pathname namelen;
    match found with
    | None => iput (Some inode) ;; mret (inr None)
    | Some (b, de) =>
        inr_ ← get_de_inode b de;
        x ← getino inode;
        brelse (Some b) ;;
        iput (Some inode) ;;
        i ← iget (i_dev x) inr_;
        mret (inl (i, pathname + namelen + 1))
    end) (inode, pathname).

(** the last component of a path: its address and length *)
Definition basename (pathname : Z) : K (Z * Z) :=
  '(p, b) ← loop env_fuel (fun '(p, b) =>
    c ← get_fs_byte p;
    mret (if c =? 0 then inr (p + 1, b) else if c =? SLASH then inl (p + 1, p + 1) else inl (p + 1, b)))
    (pathname, pathname);
  mret (b, p - b - 1).

Definition dir_namei (pathname : Z) : K (option (nat * Z * Z)) :=
  o ← get_dir pathname;
  match o with
  | None => mret None
  | Some dir => '(name, namelen) ← basename pathname; mret (Some (dir, name, namelen))
  end.

Definition namei (pathname : Z) : K (option nat) :=
  o ← dir_namei pathname;
  match o with
  | None => mret None
  | Some (dir, name, namelen) =>
      if namelen =? 0 then mret (Some dir) else
      '(dir, found) ← find_entry dir name namelen;
      match found with
      | None => iput (Some dir) ;; mret None
      | Some (b, de) =>
          nr ← get_de_inode b de;
          x ← getino dir;
          brelse (Some b) ;; iput (Some dir) ;;
          i ← iget (i_dev x) nr;
          t ← CURRENT_TIME;
          setino i (fun x => x <| i_atime := u32 t |> <| i_dirt := 1 |>) ;;
          mret (Some i)
      end
  end.

(** [open] of a name that does not exist yet *)
Definition open_create (dir : nat) (name namelen mode : Z) : K (Z + nat) :=
  ok ← permission dir MAY_WRITE;
  if negb ok then iput (Some dir) ;; mret (inl (- EACCES)) else
  xd ← getino dir;
  o ← new_inode (i_dev xd);
  match o with
  | None => iput (Some dir) ;; mret (inl (- ENOSPC))
  | Some i =>
      t ← me;
      setino i (fun x => x <| i_uid := t_euid t |> <| i_mode := u16 mode |> <| i_dirt := 1 |>) ;;
      o ← add_entry dir name namelen;
      match o with
      | None => dec_nlinks i ;; iput (Some i) ;; iput (Some dir) ;; mret (inl (- ENOSPC))
      | Some (b, de) =>
          x ← getino i;
          set_de_inode b de (i_num x) ;; mark_dirty b ;;
          brelse (Some b) ;; iput (Some dir) ;;
          mret (inr i)
      end
  end.

(** an error number or the inode *)
Definition open_namei (pathname flag mode : Z) : K (Z + nat) :=
  let flag := if nz (Z.land flag O_TRUNC) && (Z.land flag O_ACCMODE =? 0) then Z.lor flag O_WRONLY else flag in
  t ← me;
  let mode := Z.lor (Z.land mode (Z.land 0x1FF (not32 (t_umask t)))) I_REGULAR in
  o ← dir_namei pathname;
  match o with
  | None => mret (inl (- ENOENT))
  | Some (dir, name, namelen) =>
      if namelen =? 0 then
        (if Z.land flag (Z.lor O_ACCMODE (Z.lor O_CREAT O_TRUNC)) =? 0 then mret (inr dir)
         else iput (Some dir) ;; mret (inl (- EISDIR)))
      else
      '(dir, found) ← find_entry dir name namelen;
      match found with
      | None =>
          if Z.land flag O_CREAT =? 0 then iput (Some dir) ;; mret (inl (- ENOENT))
          else open_create dir name namelen mode
      | Some (b, de) =>
          nr ← get_de_inode b de;
          x ← getino dir;
          brelse (Some b) ;; iput (Some dir) ;;
          if nz (Z.land flag O_EXCL) then mret (inl (- EEXIST)) else
          i ← iget (i_dev x) nr;
          x ← getino i;
          ok ← (if S_ISDIR (i_mode x) && nz (Z.land flag O_ACCMODE) then mret false
                else permission i (ACC_MODE flag));
          if negb ok then iput (Some i) ;; mret (inl (- EPERM)) else
          t ← CURRENT_TIME;
          setino i (fun x => x <| i_atime := u32 t |>) ;;
          when (nz (Z.land flag O_TRUNC)) (truncate i) ;;
          mret (inr i)
      end
  end.
End Namei.
