(* ===== verification/Dirs.v ===== *)
(** * fs/namei.cc: the system calls that change directories *)

From S2P Require Import Prelude State Memory Sched Request LlRw Buffer Bitmap Inode Namei.

Section Dirs.
Context {E : Env}.

Definition iputs (l : list nat) : K unit := for_each l (fun i => iput (Some i)).
(** release the inodes and the buffer and return an error *)
Definition fail (l : list nat) (b : option nat) (err : Z) : K Z :=
  iputs l ;; brelse b ;; mret (- err).

Definition sys_mknod (filename mode dev : Z) : K Z :=
  su ← suser;
  if negb su then mret (- EPERM) else
  o ← dir_namei filename;
  match o with
  | None => mret (- ENOENT)
  | Some (dir, name, namelen) =>
      if namelen =? 0 then fail [dir] None ENOENT else
      ok ← permission dir MAY_WRITE;
      if negb ok then fail [dir] None EPERM else
      '(dir, found) ← find_entry dir name namelen;
      match found with
      | Some (b, _) => brelse (Some b) ;; fail [dir] None EEXIST
      | None =>
          xd ← getino dir;
          o ← new_inode (i_dev xd);
          match o with
          | None => fail [dir] None ENOSPC
          | Some i =>
              setino i (fun x => x <| i_mode := u16 mode |>) ;;
              when (S_ISBLK mode || S_ISCHR mode) (set_zone i 0 dev) ;;
              t ← CURRENT_TIME;
              setino i (fun x => x <| i_mtime := u32 t |> <| i_atime := u32 t |> <| i_dirt := 1 |>) ;;
              o ← add_entry dir name namelen;
              match o with
              | None =>
                  iput (Some dir) ;;
                  setino i (fun x => x <| i_nlinks := 0 |>) ;;
                  fail [i] None ENOSPC
              | Some (b, de) =>
                  x ← getino i;
                  set_de_inode b de (i_num x) ;; mark_dirty b ;;
                  iputs [dir; i] ;; brelse (Some b) ;; mret 0
              end
          end
      end
  end.

(** [strcpy] of a name into an entry: the bytes and the terminating 0 *)
Definition strcpy_name (b de : nat) (name : list Z) : K unit :=
  setbh b (fun y => y <| b_data ::= list_inserts (de + 2) (name ++ [0]) |>).

(** the directory block of a new directory: [.] and [..] *)
Definition fill_dir_block (b i dir : nat) : K unit :=
  x ← getino i; set_de_inode b 0 (i_num x) ;;
  strcpy_name b 0 [DOT] ;;
  xd ← getino dir; set_de_inode b 16 (i_num xd) ;;
  strcpy_name b 16 [DOT; DOT] ;;
  setino i (fun x => x <| i_nlinks := 2 |>) ;;
  mark_dirty b ;;
  brelse (Some b).

Definition sys_mkdir (pathname mode : Z) : K Z :=
  su ← suser;
  if negb su then mret (- EPERM) else
  o ← dir_namei pathname;
  match o with
  | None => mret (- ENOENT)
  | Some (dir, name, namelen) =>
      if namelen =? 0 then fail [dir] None ENOENT else
      ok ← permission dir MAY_WRITE;
      if negb ok then fail [dir] None EPERM else
      '(dir, found) ← find_entry dir name namelen;
      match found with
      | Some (b, _) => brelse (Some b) ;; fail [dir] None EEXIST
      | None =>
          xd ← getino dir;
          o ← new_inode (i_dev xd);
          match o with
          | None => fail [dir] None ENOSPC
          | Some i =>
              t ← CURRENT_TIME;
              setino i (fun x => x <| i_size := 32 |> <| i_dirt := 1 |> <| i_mtime := u32 t |> <| i_atime := u32 t |>) ;;
              x ← getino i; nb ← new_block (i_dev x);
              set_zone i 0 nb ;;
              if u16 nb =? 0 then iput (Some dir) ;; dec_nlinks i ;; fail [i] None ENOSPC else
              setino i (fun x => x <| i_dirt := 1 |>) ;;
              x ← getino i; z ← get_zone i 0;
              o ← bread (i_dev x) z;
              match o with
              | None =>
                  iput (Some dir) ;;
                  x ← getino i; z ← get_zone i 0; free_block (i_dev x) z ;;
                  dec_nlinks i ;; fail [i] None ERROR
              | Some blk =>
                  fill_dir_block blk i dir ;;
                  t ← me;
                  setino i (fun x => x <| i_mode := u16 (Z.lor I_DIRECTORY (Z.land mode (Z.land 0x1FF (not32 (t_umask t))))) |>
                                       <| i_dirt := 1 |>) ;;
                  o ← add_entry dir name namelen;
                  match o with
                  | None =>       (* the block is freed here and again by [truncate] in [iput] *)
                      iput (Some dir) ;;
                      x ← getino i; z ← get_zone i 0; free_block (i_dev x) z ;;
                      setino i (fun x => x <| i_nlinks := 0 |>) ;;
                      fail [i] None ENOSPC
                  | Some (b, de) =>
                      x ← getino i;
                      set_de_inode b de (i_num x) ;; mark_dirty b ;;
                      setino dir (fun x => x <| i_nlinks ::= fun n => u8 (n + 1) |> <| i_dirt := 1 |>) ;;
                      iputs [dir; i] ;; brelse (Some b) ;; mret 0
                  end
              end
          end
      end
  end.

(** the scan of [empty_dir] from entry 2 on.  [bh] may have been released
    already when a block is missing: it is then released again *)
Definition empty_step (inode : nat) (len : Z) : Z * nat * nat -> K (Z * nat * nat + Z) := fun '(nr, b, de) =>
  if len <=? nr then brelse (Some b) ;; mret (inr 1) else
  let scan b de :=
    v ← get_de_inode b de;
    if nz v then brelse (Some b) ;; mret (inr 0) else mret (inl (nr + 1, b, (de + DIR_ENTRY_SIZE)%nat)) in
  if (de <? 1024)%nat then scan b de else
  brelse (Some b) ;;
  block ← bmap inode (nr / DIR_ENTRIES_PER_BLOCK);
  if block =? 0 then mret (inl (nr + DIR_ENTRIES_PER_BLOCK, b, de)) else
  x ← getino inode;
  o ← bread (i_dev x) block;
  match o with
  | None => mret (inr 0)
  | Some b => scan b 0%nat
  end.

Definition empty_dir (inode : nat) : K Z :=
  x ← getino inode;
  let len := entries_of x in
  let bad := x ← getino inode; printk "warning - bad directory on dev %04x" [i_dev x] ;; mret 0 in
  z ← get_zone inode 0;
  if (len <? 2) || (z =? 0) then bad else
  o ← bread (i_dev x) z;
  match o with
  | None => bad
  | Some b =>
      y ← getbh b; x ← getino inode;
      let d := b_data y in
      if negb (get16 d 0 =? i_num x) || (get16 d 16 =? 0) || negb (name_is [DOT] d 0) || negb (name_is [DOT; DOT] d 16)
      then bad       (* [bh] is not released *)
      else loop (S (Z.to_nat len)) (empty_step inode len) (2, b, 32%nat)
  end.

Definition sys_rmdir (name : Z) : K Z :=
  su ← suser;
  if negb su then mret (- EPERM) else
  o ← dir_namei name;
  match o with
  | None => mret (- ENOENT)
  | Some (dir, base, namelen) =>
      if namelen =? 0 then fail [dir] None ENOENT else
      ok ← permission dir MAY_WRITE;
      if negb ok then fail [dir] None EPERM else
      '(dir, found) ← find_entry dir base namelen;
      match found with
      | None => fail [dir] None ENOENT
      | Some (b, de) =>
          xd ← getino dir; nr ← get_de_inode b de;
          i ← iget (i_dev xd) nr;
          xd ← getino dir; x ← getino i; t ← me;
          if nz (Z.land (i_mode xd) S_ISVTX) && nz (t_euid t) && negb (i_uid x =? t_euid t)
          then fail [dir; i] (Some b) EPERM else
          if negb (i_dev x =? i_dev xd) || (1 <? i_count x) then fail [dir; i] (Some b) EPERM else
          if decide (i = dir) then fail [i; dir] (Some b) EPERM else
          if negb (S_ISDIR (i_mode x)) then fail [i; dir] (Some b) ENOTDIR else
          e ← empty_dir i;
          if e =? 0 then fail [i; dir] (Some b) ENOTEMPTY else
          x ← getino i;
          unless (i_nlinks x =? 2) (printk "empty directory has nlink!=2 (%d)" [i_nlinks x]) ;;
          set_de_inode b de 0 ;; mark_dirty b ;; brelse (Some b) ;;
          setino i (fun x => x <| i_nlinks := 0 |> <| i_dirt := 1 |>) ;;
          now ← CURRENT_TIME;
          setino dir (fun x => x <| i_nlinks ::= fun n => u8 (n - 1) |> <| i_mtime := u32 now |> <| i_ctime := u32 now |>
                                 <| i_dirt := 1 |>) ;;
          iputs [dir; i] ;; mret 0
      end
  end.

Definition sys_unlink (name : Z) : K Z :=
  o ← dir_namei name;
  match o with
  | None => mret (- ENOENT)
  | Some (dir, base, namelen) =>
      if namelen =? 0 then fail [dir] None ENOENT else
      ok ← permission dir MAY_WRITE;
      if negb ok then fail [dir] None EPERM else
      '(dir, found) ← find_entry dir base namelen;
      match found with
      | None => fail [dir] None ENOENT
      | Some (b, de) =>
          xd ← getino dir; nr ← get_de_inode b de;
          i ← iget (i_dev xd) nr;
          xd ← getino dir; x ← getino i; t ← me;
          if nz (Z.land (i_mode xd) S_ISVTX) && negb (t_euid t =? 0) && negb (t_euid t =? i_uid x) && negb (t_euid t =? i_uid xd)
          then fail [dir; i] (Some b) EPERM else
          if S_ISDIR (i_mode x) then fail [i; dir] (Some b) EPERM else
          when (i_nlinks x =? 0)
            (printk "Deleting nonexistent file (%04x:%d), %d" [i_dev x; i_num x; i_nlinks x] ;;
             setino i (fun x => x <| i_nlinks := 1 |>)) ;;
          set_de_inode b de 0 ;; mark_dirty b ;; brelse (Some b) ;;
          now ← CURRENT_TIME;
          setino i (fun x => x <| i_nlinks ::= fun n => u8 (n - 1) |> <| i_dirt := 1 |> <| i_ctime := u32 now |>) ;;
          iputs [i; dir] ;; mret 0
      end
  end.

Definition sys_link (oldname newname : Z) : K Z :=
  o ← namei oldname;
  match o with
  | None => mret (- ENOENT)
  | Some old =>
      x ← getino old;
      if S_ISDIR (i_mode x) then fail [old] None EPERM else
      o ← dir_namei newname;
      match o with
      | None => fail [old] None EACCES
      | Some (dir, name, namelen) =>
          if namelen =? 0 then fail [old; dir] None EPERM else
          xd ← getino dir; x ← getino old;
          if negb (i_dev xd =? i_dev x) then fail [dir; old] None EXDEV else
          ok ← permission dir MAY_WRITE;
          if negb ok then fail [dir; old] None EACCES else
          '(dir, found) ← find_entry dir name namelen;
          match found with
          | Some (b, _) => brelse (Some b) ;; fail [dir; old] None EEXIST
          | None =>
              o ← add_entry dir name namelen;
              match o with
              | None => fail [dir; old] None ENOSPC
              | Some (b, de) =>
                  x ← getino old;
                  set_de_inode b de (i_num x) ;; mark_dirty b ;; brelse (Some b) ;;
                  iput (Some dir) ;;
                  now ← CURRENT_TIME;
                  setino old (fun x => x <| i_nlinks ::= fun n => u8 (n + 1) |> <| i_ctime := u32 now |> <| i_dirt := 1 |>) ;;
                  iput (Some old) ;; mret 0
              end
          end
      end
  end.
End Dirs.
