(* ===== verification/TtyQueue.v ===== *)
(** * include/linux/tty.h: the character queues, and waiting for them (kernel/chr_drv/tty_io.cc) *)

From S2P Require Import Prelude State Memory Sched.

(** queues of a terminal *)
Definition READ_Q : nat := 0.
Definition WRITE_Q : nat := 1.
Definition SECONDARY : nat := 2.

(** ** The macros, on a queue *)
Definition mask (x : Z) : Z := Z.land (u32 x) (TTY_BUF_SIZE - 1).
Definition EMPTY (q : tty_queue) : bool := q_head q =? q_tail q.
Definition LEFT (q : tty_queue) : Z := mask (q_tail q - q_head q - 1).
Definition LAST (q : tty_queue) : Z := get8 (q_buf q) (Z.to_nat (mask (q_head q - 1))).
Definition FULL (q : tty_queue) : bool := LEFT q =? 0.
Definition CHARS (q : tty_queue) : Z := mask (q_head q - q_tail q).
(** [PUTCH(c,queue)]; [GETCH(queue,c)] is the byte at the tail and [pop] *)
Definition PUTCH (c : Z) (q : tty_queue) : tty_queue :=
  q <| q_buf ::= <[Z.to_nat (q_head q) := u8 c]> |> <| q_head ::= fun h => mask (h + 1) |>.
Definition GETCH (q : tty_queue) : Z := get8 (q_buf q) (Z.to_nat (q_tail q)).
Definition pop (q : tty_queue) : tty_queue := q <| q_tail ::= fun t => mask (t + 1) |>.
(** [DEC(head)] *)
Definition unput (q : tty_queue) : tty_queue := q <| q_head ::= fun h => mask (h - 1) |>.

(** the characters in the queue, the oldest first *)
Definition q_contents (q : tty_queue) : list Z :=
  (fun k => get8 (q_buf q) (Z.to_nat (mask (q_tail q + Z.of_nat k)))) <$> seq 0 (Z.to_nat (CHARS q)).

Section TtyQueue.
Context {E : Env}.

Definition gettty (t : nat) : K tty_struct := s ← gets id; deref (tty_table s !! t).
Definition settty (t : nat) (f : tty_struct -> tty_struct) : K unit :=
  x ← gettty t; modify (fun s => s <| tty_table ::= <[t := f x]> |>).
Definition getq (t q : nat) : K tty_queue := x ← gettty t; mret (tty_q q x).
Definition setq (t q : nat) (f : tty_queue -> tty_queue) : K unit := settty t (set_tty_q q f).
Definition putch (t q : nat) (c : Z) : K unit := setq t q (PUTCH c).
Definition getch (t q : nat) : K Z := x ← getq t q; setq t q pop ;; mret (GETCH x).

Definition no_signal : K bool := t ← me; mret (t_signal t =? 0).
Definition sleep_if_empty (t q : nat) : K unit :=
  while env_fuel (ok ← no_signal; x ← getq t q; mret (ok && EMPTY x)) (interruptible_sleep_on (WqTty t q)).
Definition sleep_if_full (t q : nat) : K unit :=
  x ← getq t q;
  if negb (FULL x) then mret tt else
  while env_fuel (ok ← no_signal; x ← getq t q; mret (ok && (LEFT x <? 128))) (interruptible_sleep_on (WqTty t q)).
Definition wait_for_keypress : K unit := sleep_if_empty 0 SECONDARY.

(** a signal to every task of the terminal's process group *)
Definition tty_intr (t : nat) (m : Z) : K unit :=
  x ← gettty t;
  if tty_pgrp x <=? 0 then mret tt else
  for_each (seq 0 NR_TASKS) (fun i =>
    s ← gets sched;
    match slot s i with
    | None => mret tt
    | Some p =>
        k ← gettask p;
        when (t_pgrp k =? tty_pgrp x) (settask p (fun k => k <| t_signal ::= fun g => Z.lor g m |>))
    end).
End TtyQueue.
