(* ===== verification/TtyQueueFacts.v ===== *)
(** * The character queues implement a bounded FIFO *)

From S2P Require Import Prelude Bits State Memory Sched TtyQueue.

(** ** The abstract queue: a list of at most 1023 characters *)

Definition CAPACITY : Z := TTY_BUF_SIZE - 1.

(** the representation invariant *)
Record wf_queue (q : tty_queue) : Prop := {
  wq_buf : length (q_buf q) = 1024%nat;
  wq_head : 0 <= q_head q < 1024;
  wq_tail : 0 <= q_tail q < 1024
}.

Lemma mask_mod x : mask x = x mod 1024.
Proof.
  unfold mask, TTY_BUF_SIZE, u32. change (1024 - 1) with (Z.ones 10). rewrite Z.land_ones by lia.
  apply Z.mod_mod_divide. by exists (2 ^ 22).
Qed.

Lemma q_contents_length q : length (q_contents q) = Z.to_nat (CHARS q).
Proof. unfold q_contents. by rewrite length_fmap, length_seq. Qed.
Lemma CHARS_range q : 0 <= CHARS q < 1024.
Proof. unfold CHARS. rewrite mask_mod. apply Z.mod_pos_bound. lia. Qed.

(** the [k]-th oldest character *)
Definition slot_of (q : tty_queue) (k : Z) : Z := (q_tail q + k) mod 1024.
Lemma q_contents_lookup q k : q_contents q !! k =
  if decide (Z.of_nat k < CHARS q) then Some (get8 (q_buf q) (Z.to_nat (slot_of q (Z.of_nat k)))) else None.
Proof.
  unfold q_contents, slot_of. rewrite list_lookup_fmap. case_decide.
  - rewrite lookup_seq_lt by lia. cbn. by rewrite mask_mod.
  - rewrite lookup_seq_ge by lia. done.
Qed.

Ltac queue_mod := rewrite ?mask_mod in *; Z.div_mod_to_equations; lia.

Lemma CHARS_PUTCH c q : wf_queue q -> CHARS (PUTCH c q) = (CHARS q + 1) mod 1024.
Proof. intros []. unfold CHARS. cbn. queue_mod. Qed.
Lemma CHARS_pop q : wf_queue q -> CHARS (pop q) = (CHARS q - 1) mod 1024.
Proof. intros []. unfold CHARS. cbn. queue_mod. Qed.
Lemma CHARS_unput q : wf_queue q -> CHARS (unput q) = (CHARS q - 1) mod 1024.
Proof. intros []. unfold CHARS. cbn. queue_mod. Qed.
Lemma LEFT_CHARS q : LEFT q = CAPACITY - CHARS q.
Proof. unfold LEFT, CHARS, CAPACITY, TTY_BUF_SIZE. queue_mod. Qed.

Lemma slot_of_range q k : 0 <= slot_of q k < 1024.
Proof. apply Z.mod_pos_bound. lia. Qed.
Lemma slot_of_inj q j k : 0 <= j < 1024 -> 0 <= k < 1024 -> slot_of q j = slot_of q k -> j = k.
Proof. unfold slot_of. queue_mod. Qed.
Lemma slot_of_head q : wf_queue q -> slot_of q (CHARS q) = q_head q.
Proof. intros []. unfold slot_of, CHARS. queue_mod. Qed.

Lemma wf_PUTCH c q : wf_queue q -> wf_queue (PUTCH c q).
Proof. intros []. split; cbn; rewrite ?length_insert, ?mask_mod; [done|by apply Z.mod_pos_bound|done]. Qed.
Lemma wf_pop q : wf_queue q -> wf_queue (pop q).
Proof. intros []. split; cbn; rewrite ?mask_mod; [done|done|by apply Z.mod_pos_bound]. Qed.
Lemma wf_unput q : wf_queue q -> wf_queue (unput q).
Proof. intros []. split; cbn; rewrite ?mask_mod; [done|by apply Z.mod_pos_bound|done]. Qed.

Lemma get8_insert_eq i v l : (i < length l)%nat -> get8 (<[i:=v]> l) i = v.
Proof. intros. unfold get8. by rewrite list_lookup_insert_eq. Qed.
Lemma get8_insert_ne i j v l : i <> j -> get8 (<[i:=v]> l) j = get8 l j.
Proof. intros. unfold get8. by rewrite list_lookup_insert_ne. Qed.

(** a character put where there is room becomes the newest one *)
Lemma contents_PUTCH c q : wf_queue q -> CHARS q < CAPACITY ->
  q_contents (PUTCH c q) = q_contents q ++ [u8 c].
Proof.
  intros W HC. pose proof (CHARS_range q) as HR. unfold CAPACITY, TTY_BUF_SIZE in HC.
  apply list_eq. intros k. rewrite q_contents_lookup, CHARS_PUTCH, Z.mod_small by (done || lia).
  pose proof (slot_of_head q W) as Hh. pose proof (wq_head q W). pose proof (wq_buf q W).
  destruct (decide (Z.of_nat k < CHARS q)).
  - rewrite decide_True, lookup_app_l by (rewrite ?q_contents_length; lia).
    rewrite q_contents_lookup, decide_True by done. f_equal.
    apply get8_insert_ne. intros Heq.
    pose proof (slot_of_range q (Z.of_nat k)) as Hs. change (slot_of (PUTCH c q)) with (slot_of q) in Heq.
    assert (slot_of q (Z.of_nat k) = slot_of q (CHARS q)) as E%slot_of_inj by lia; lia.
  - rewrite lookup_app_r by (rewrite q_contents_length; lia). rewrite q_contents_length.
    destruct (decide (Z.of_nat k = CHARS q)) as [E|].
    + rewrite decide_True by lia. replace (k - Z.to_nat (CHARS q))%nat with 0%nat by lia. cbn. f_equal.
      change (slot_of (PUTCH c q)) with (slot_of q). rewrite E, Hh. apply get8_insert_eq. lia.
    + rewrite decide_False by lia. symmetry. apply lookup_ge_None. cbn. lia.
Qed.

Lemma contents_cons q : wf_queue q -> 0 < CHARS q -> q_contents q = GETCH q :: q_contents (pop q).
Proof.
  intros W HC. pose proof (CHARS_range q). pose proof (wq_tail q W).
  apply list_eq. intros [|k]; cbn.
  - rewrite q_contents_lookup, decide_True by done. unfold slot_of, GETCH. cbn.
    by rewrite Z.add_0_r, Z.mod_small.
  - rewrite !q_contents_lookup, CHARS_pop, Z.mod_small by (done || lia).
    repeat case_decide; [|lia..|done]. do 3 f_equal. unfold slot_of. cbn. queue_mod.
Qed.
Lemma contents_snoc q : wf_queue q -> 0 < CHARS q -> q_contents q = q_contents (unput q) ++ [LAST q].
Proof.
  intros W HC. pose proof (CHARS_range q). pose proof (CHARS_unput q W) as HU. destruct W as [_ Hh Ht].
  apply list_eq. intros k. rewrite q_contents_lookup. rewrite Z.mod_small in HU by lia.
  destruct (decide (Z.of_nat k < CHARS q - 1)).
  - rewrite decide_True, lookup_app_l by (rewrite ?q_contents_length, ?HU; done || lia).
    by rewrite q_contents_lookup, HU, decide_True by done.
  - rewrite lookup_app_r, q_contents_length, HU by (rewrite ?q_contents_length, ?HU; done || lia).
    destruct (decide (Z.of_nat k = CHARS q - 1)) as [E|].
    + rewrite decide_True by lia. replace (k - Z.to_nat (CHARS q - 1))%nat with 0%nat by lia. cbn.
      unfold LAST. do 3 f_equal. unfold slot_of. rewrite E. unfold CHARS. queue_mod.
    + rewrite decide_False by lia. symmetry. apply lookup_ge_None. cbn. lia.
Qed.

Lemma EMPTY_contents q : wf_queue q -> EMPTY q = bool_decide (q_contents q = []).
Proof.
  intros []. unfold EMPTY. apply eq_true_iff_eq. rewrite Z.eqb_eq, bool_decide_eq_true.
  rewrite <- length_zero_iff_nil, q_contents_length. unfold CHARS. queue_mod.
Qed.
Lemma FULL_contents q : FULL q = bool_decide (Z.of_nat (length (q_contents q)) = CAPACITY).
Proof.
  unfold FULL. rewrite LEFT_CHARS. apply eq_true_iff_eq. rewrite Z.eqb_eq, bool_decide_eq_true.
  rewrite q_contents_length. pose proof (CHARS_range q). lia.
Qed.

Lemma contents_overflow c q : wf_queue q -> FULL q = true -> q_contents (PUTCH c q) = [].
Proof.
  intros W HF. apply length_zero_iff_nil. rewrite q_contents_length, CHARS_PUTCH by done.
  unfold FULL in HF. apply Z.eqb_eq in HF. rewrite LEFT_CHARS in HF.
  replace (CHARS q) with CAPACITY by lia. done.
Qed.

(** ** The specification: a list with room for [CAPACITY] characters

    An operation, what its caller sees of it, and what it does to the list;
    [None]: the caller may not do it (put on a full queue, take from an empty one). *)

Inductive qop := Put (c : Z) | Get | Unput.
Inductive qobs := Obs (value : option Z) (empty full : bool) (left chars : Z).

Definition spec_step (o : qop) (l : list Z) : option (option Z * list Z) :=
  match o, l with
  | Put c, _ => if decide (Z.of_nat (length l) < CAPACITY) then Some (None, l ++ [u8 c]) else None
  | Get, [] | Unput, [] => None
  | Get, x :: l => Some (Some x, l)
  | Unput, _ => Some (last l, removelast l)
  end.
Definition spec_obs (v : option Z) (l : list Z) : qobs :=
  let n := Z.of_nat (length l) in Obs v (bool_decide (l = [])) (bool_decide (n = CAPACITY)) (CAPACITY - n) n.
Fixpoint spec_run (os : list qop) (l : list Z) : option (list qobs * list Z) :=
  match os with
  | [] => Some ([], l)
  | o :: os => '(v, l) ← spec_step o l; '(r, l') ← spec_run os l; Some (spec_obs v l :: r, l')
  end.

(** the implementation, by the macros of tty.h *)
Definition impl_step (o : qop) (q : tty_queue) : option Z * tty_queue :=
  match o with
  | Put c => (None, PUTCH c q)
  | Get => (Some (GETCH q), pop q)
  | Unput => (Some (LAST q), unput q)
  end.
Definition impl_obs (v : option Z) (q : tty_queue) : qobs := Obs v (EMPTY q) (FULL q) (LEFT q) (CHARS q).
Fixpoint impl_run (os : list qop) (q : tty_queue) : list qobs * tty_queue :=
  match os with
  | [] => ([], q)
  | o :: os => let '(v, q) := impl_step o q in let '(r, q') := impl_run os q in (impl_obs v q :: r, q')
  end.

Lemma obs_contents v q : wf_queue q -> impl_obs v q = spec_obs v (q_contents q).
Proof.
  intros W. pose proof (CHARS_range q). unfold impl_obs, spec_obs.
  by rewrite EMPTY_contents, FULL_contents, LEFT_CHARS, q_contents_length, Z2Nat.id by (done || lia).
Qed.
Lemma contents_pos q : q_contents q <> [] -> 0 < CHARS q.
Proof.
  intros H. pose proof (CHARS_range q). apply Z.le_neq; split; [lia|]. intros E. destruct H.
  apply length_zero_iff_nil. by rewrite q_contents_length, <- E.
Qed.
Lemma wf_impl_step o q : wf_queue q -> wf_queue (impl_step o q).2.
Proof. destruct o; cbn; auto using wf_PUTCH, wf_pop, wf_unput. Qed.

Lemma step_refines o q v l : wf_queue q -> spec_step o (q_contents q) = Some (v, l) ->
  v = (impl_step o q).1 /\ l = q_contents (impl_step o q).2.
Proof.
  intros W. destruct o as [c| |]; cbn.
  - case_decide as H; [|done]. intros [= <- <-].
    rewrite q_contents_length, Z2Nat.id in H by apply CHARS_range. by rewrite contents_PUTCH.
  - intros H. assert (0 < CHARS q) by (apply contents_pos; intros E; by rewrite E in H).
    rewrite contents_cons in H by done. by injection H as <- <-.
  - intros H. assert (0 < CHARS q) by (apply contents_pos; intros E; by rewrite E in H).
    rewrite contents_snoc in H by done. destruct (q_contents (unput q) ++ [LAST q]) eqn:E; [by destruct (q_contents (unput q))|].
    rewrite <- E in H. injection H as <- <-. by rewrite last_snoc, removelast_last.
Qed.

(** C20: the queue macros implement a bounded FIFO of 1023 characters with
    "take back the newest" (the erase characters): any sequence of puts, gets
    and take-backs that the specification allows gives the same characters and
    the same [EMPTY], [FULL], [LEFT] and [CHARS] at every step, and ends in a
    well-formed queue with the specified contents.  There is no overflow check
    in [PUTCH]: one character too many loses all 1023. *)
Theorem queue_refines_fifo (os : list qop) (q : tty_queue) (W : wf_queue q) :
  (forall r l, spec_run os (q_contents q) = Some (r, l) ->
     (impl_run os q).1 = r /\ wf_queue (impl_run os q).2 /\ q_contents (impl_run os q).2 = l) /\
  (FULL q = true -> forall c, q_contents (PUTCH c q) = []).
Proof.
  split; [|auto using contents_overflow]. revert q W.
  induction os as [|o os IH]; intros q W r l; cbn.
  - intros [= <- <-]. auto.
  - pose proof (wf_impl_step o q W) as W'.
    destruct (spec_step o (q_contents q)) as [[v l1]|] eqn:E1; [|done]; cbn.
    destruct (step_refines _ _ _ _ W E1) as [-> ->].
    destruct (impl_step o q) as [v q1]; cbn in *.
    destruct (spec_run os (q_contents q1)) as [[r1 l2]|] eqn:E2; [|done]; cbn. intros [= <- <-].
    specialize (IH q1 W' _ _ E2). destruct (impl_run os q1) as [r2 q2]; cbn in *.
    destruct IH as (-> & Hw & Hc). by rewrite obs_contents.
Qed.

(** a queue just before the end of its buffer, with one character in it *)
Definition wrapping_queue : tty_queue := mk_queue 0 0 1023 None (replicate 1023 0 ++ [97]).
Lemma queue_refines_fifo_witness :
  q_contents wrapping_queue = [97] /\
  wf_queue wrapping_queue /\
  spec_run [Put 98; Put 355; Get; Unput; Get] [97] =
    Some ([Obs None false false 1021 2; Obs None false false 1020 3; Obs (Some 97) false false 1021 2;
           Obs (Some 99) false false 1022 1; Obs (Some 98) true false 1023 0], []) /\
  q_contents (impl_run [Put 98; Put 355; Get; Unput; Get] wrapping_queue).2 = [].
Proof.
  assert (q_contents wrapping_queue = [97]) as E by (vm_compute; reflexivity).
  assert (wf_queue wrapping_queue) as W by (split; [vm_compute; reflexivity|cbn; lia..]).
  assert (spec_run [Put 98; Put 355; Get; Unput; Get] [97] =
    Some ([Obs None false false 1021 2; Obs None false false 1020 3; Obs (Some 97) false false 1021 2;
           Obs (Some 99) false false 1022 1; Obs (Some 98) true false 1023 0], [])) as R by (vm_compute; reflexivity).
  split; [exact E|split; [exact W|split; [exact R|]]].
  rewrite <- E in R. exact (proj2 (proj2 (proj1 (queue_refines_fifo _ _ W) _ _ R))).
Defined.
