(* ===== verification/Super.v ===== *)
(** * fs/super.cc: mounting; the ram disk image and [sys_setup] that lead to it *)

From S2P Require Import Prelude State Memory Sched Request LlRw Hd Floppy Buffer Bitmap Inode Namei TtyQueue.

(** [*(struct d_super_block * ) s = *(struct d_super_block * ) bh->b_data] *)
Definition decode_super (l : list Z) (s : super_block) : super_block :=
  s <| s_ninodes := get16 l 0 |> <| s_nzones := get16 l 2 |> <| s_imap_blocks := get16 l 4 |>
    <| s_zmap_blocks := get16 l 6 |> <| s_firstdatazone := get16 l 8 |> <| s_log_zone_size := get16 l 10 |>
    <| s_max_size := get32 l 12 |> <| s_magic := get16 l 16 |>.

Section Super.
Context {E : Env}.

(** [check_disk_change] of buffer.cc *)
Definition check_disk_change (dev : Z) : K unit :=
  if negb (MAJOR dev =? 2) then mret tt else
  ch ← floppy_change (Z.land dev 3);
  if ch =? 0 then mret tt else
  for_each (seq 0 NR_SUPER) (fun n => sb ← getsb n; when (s_dev sb =? dev) (put_super (s_dev sb))) ;;
  invalidate_inodes dev ;;
  invalidate_buffers dev.

(** the first unused super block *)
Definition free_slot : K (option nat) :=
  for_find (seq 0 NR_SUPER) (fun n => sb ← getsb n; mret (if s_dev sb =? 0 then Some n else None)).

(** the bitmap blocks from [block] on, into the slots of [set]; stops at the
    first that cannot be read *)
Fixpoint read_map (dev : Z) (set : nat -> option nat -> K unit) (i : nat) (n : nat) (block : Z) : K Z :=
  match n with
  | O => mret block
  | S n =>
      o ← bread dev block;
      set i o ;;
      match o with
      | None => mret block
      | Some _ => read_map dev set (S i) n (block + 1)
      end
  end.
(** a slot of the maps; the source does not check the bounds of the arrays *)
Definition set_imap (n i : nat) (o : option nat) : K unit :=
  if decide (i < I_MAP_SLOTS)%nat then setsb n (fun s => s <| s_imap ::= <[i := o]> |>) else fault.
Definition set_zmap (n i : nat) (o : option nat) : K unit :=
  if decide (i < Z_MAP_SLOTS)%nat then setsb n (fun s => s <| s_zmap ::= <[i := o]> |>) else fault.

Definition super_failed (n : nat) : K (option nat) :=
  setsb n (fun s => s <| s_dev := 0 |>) ;; free_super n ;; mret None.

Definition read_super (dev : Z) : K (option nat) :=
  if dev =? 0 then mret None else
  check_disk_change dev ;;
  o ← get_super dev;
  match o with
  | Some n => mret (Some n)
  | None =>
      o ← free_slot;
      match o with
      | None => mret None
      | Some n =>
          setsb n (fun s => s <| s_dev := u16 dev |> <| s_isup := None |> <| s_imount := None |> <| s_time := 0 |>
                              <| s_rd_only := 0 |> <| s_dirt := 0 |>) ;;
          lock_super n ;;
          o ← bread dev 1;
          match o with
          | None => super_failed n
          | Some b =>
              y ← getbh b;
              setsb n (decode_super (b_data y)) ;;
              brelse (Some b) ;;
              s ← getsb n;
              if negb (s_magic s =? SUPER_MAGIC) then super_failed n else
              setsb n (fun s => s <| s_imap := replicate I_MAP_SLOTS None |> <| s_zmap := replicate Z_MAP_SLOTS None |>) ;;
              block ← read_map dev (set_imap n) 0 (Z.to_nat (s_imap_blocks s)) 2;
              s ← getsb n;
              block ← read_map dev (set_zmap n) 0 (Z.to_nat (s_zmap_blocks s)) block;
              s ← getsb n;
              if negb (block =? 2 + s_imap_blocks s + s_zmap_blocks s) then
                for_each (seq 0 I_MAP_SLOTS) (fun k => s ← getsb n; b ← deref (s_imap s !! k); brelse b) ;;
                for_each (seq 0 Z_MAP_SLOTS) (fun k => s ← getsb n; b ← deref (s_zmap s !! k); brelse b) ;;
                super_failed n
              else
                im ← deref (s_imap s !! 0%nat); im ← deref im;
                setbh im (fun y => y <| b_data ::= bts 0 |>) ;;
                zm ← deref (s_zmap s !! 0%nat); zm ← deref zm;
                setbh zm (fun y => y <| b_data ::= bts 0 |>) ;;
                free_super n ;; mret (Some n)
          end
      end
  end.

(** an inode of [dev] is in use *)
Definition dev_busy (dev : Z) : K bool :=
  o ← for_find (seq 0 NR_INODE) (fun i =>
    x ← getino i; mret (if (i_dev x =? dev) && nz (i_count x) then Some tt else None));
  mret (bool_decide (is_Some o)).

Definition sys_umount (dev_name : Z) : K Z :=
  o ← namei dev_name;
  match o with
  | None => mret (- ENOENT)
  | Some i =>
      x ← getino i; dev ← get_zone i 0;
      if negb (S_ISBLK (i_mode x)) then iput (Some i) ;; mret (- ENOTBLK) else
      iput (Some i) ;;
      s ← gets fsys;
      if dev =? ROOT_DEV s then mret (- EBUSY) else
      o ← get_super dev;
      match o with
      | None => mret (- ENOENT)
      | Some n =>
          sb ← getsb n;
          match s_imount sb with
          | None => mret (- ENOENT)
          | Some m =>
              xm ← getino m;
              when (i_mount xm =? 0) (printk "Mounted inode has i_mount=0" []) ;;
              busy ← dev_busy dev;
              if busy : bool then mret (- EBUSY) else
              setino m (fun x => x <| i_mount := 0 |>) ;;
              iput (Some m) ;;
              setsb n (fun s => s <| s_imount := None |>) ;;
              sb ← getsb n;
              iput (s_isup sb) ;;
              setsb n (fun s => s <| s_isup := None |>) ;;
              put_super dev ;;
              _ ← sync_dev dev;
              mret 0
          end
      end
  end.

Definition sys_mount (dev_name dir_name rw_flag : Z) : K Z :=
  o ← namei dev_name;
  match o with
  | None => mret (- ENOENT)
  | Some di =>
      x ← getino di; dev ← get_zone di 0;
      if negb (S_ISBLK (i_mode x)) then iput (Some di) ;; mret (- EPERM) else
      iput (Some di) ;;
      o ← namei dir_name;
      match o with
      | None => mret (- ENOENT)
      | Some dir =>
          x ← getino dir;
          if negb (i_count x =? 1) || (i_num x =? ROOT_INO) then iput (Some dir) ;; mret (- EBUSY) else
          if negb (S_ISDIR (i_mode x)) then iput (Some dir) ;; mret (- EPERM) else
          o ← read_super dev;
          match o with
          | None => iput (Some dir) ;; mret (- EBUSY)
          | Some n =>
              sb ← getsb n; x ← getino dir;
              if bool_decide (is_Some (s_imount sb)) then iput (Some dir) ;; mret (- EBUSY) else
              if nz (i_mount x) then iput (Some dir) ;; mret (- EPERM) else
              setsb n (fun s => s <| s_imount := Some dir |>) ;;
              setino dir (fun x => x <| i_mount := 1 |> <| i_dirt := 1 |>) ;;
              mret 0
          end
      end
  end.

(** the clear bits of a bitmap among the bits [0 .. n-1], from the last on *)
Definition count_clear (m : list (option nat)) (n : nat) : K Z :=
  for_fold (rev (seq 0 n)) 0 (fun free i =>
    b ← deref (m !! (i / 8192)%nat); b ← deref b; y ← getbh b;
    mret (if test_bit (i mod 8192) (b_data y) then free else free + 1)).

Definition mount_root : K unit :=
  for_each (seq 0 NR_FILE) (fun i => setfile i (fun f => f <| f_count := 0 |>)) ;;
  s ← gets fsys;
  when (MAJOR (ROOT_DEV s) =? 2) (printk "Insert root floppy and press ENTER" [] ;; wait_for_keypress) ;;
  for_each (seq 0 NR_SUPER) (fun n => setsb n (fun s => s <| s_dev := 0 |> <| s_lock := 0 |> <| s_wait := None |>)) ;;
  s ← gets fsys;
  o ← read_super (ROOT_DEV s);
  match o with
  | None => panic "Unable to mount root"
  | Some n =>
      mi ← iget (ROOT_DEV s) ROOT_INO;
      setino mi (fun x => x <| i_count ::= fun c => u16 (c + 3) |>) ;;
      setsb n (fun s => s <| s_isup := Some mi |> <| s_imount := Some mi |>) ;;
      setme (fun t => t <| t_pwd := Some mi |>) ;;
      setme (fun t => t <| t_root := Some mi |>) ;;
      sb ← getsb n;
      free ← count_clear (s_zmap sb) (Z.to_nat (s_nzones sb));
      printk "%d/%d free blocks" [free; s_nzones sb] ;;
      free ← count_clear (s_imap sb) (Z.to_nat (s_ninodes sb + 1));
      printk "%d/%d free inodes" [free; s_ninodes sb]
  end.

(** ** [rd_load] of ramdisk.cc *)
Definition rd_load_step : Z * Z * Z * nat -> K (Z * Z * Z * nat + bool) := fun '(nblocks, block, i, cp) =>
  if nblocks =? 0 then mret (inr true) else
  s ← gets fsys;
  o ← (if 2 <? nblocks then breada (ROOT_DEV s) block [block + 1; block + 2] else bread (ROOT_DEV s) block);
  match o with
  | None => printk "I/O error on block %d, aborting load" [block] ;; mret (inr false)
  | Some b =>
      y ← getbh b;
      on_blk (fun s => s <| rd_data ::= fun rd => memcpy rd cp (b_data y) 0 1024 |>) ;;
      brelse (Some b) ;;
      printk "%4dk" [i] ;;
      mret (inl (nblocks - 1, block + 1, i + 1, (cp + 1024)%nat))
  end.

Definition rd_load : K unit :=
  d ← gets blk;
  if rd_length d =? 0 then mret tt else
  printk "Ram disk: %d bytes, starting at 0x%x" [rd_length d; rd_start d] ;;
  s ← gets fsys;
  if negb (MAJOR (ROOT_DEV s) =? 2) then mret tt else
  o ← breada (ROOT_DEV s) 257 [256; 258];
  match o with
  | None => printk "Disk error while looking for ramdisk!" []
  | Some b =>
      y ← getbh b;
      let sb := decode_super (b_data y) zero_super in
      brelse (Some b) ;;
      if negb (s_magic sb =? SUPER_MAGIC) then mret tt else
      let nblocks := s32 (Z.shiftl (s_nzones sb) (s_log_zone_size sb)) in
      let avail := Z.shiftr (rd_length d) BLOCK_SIZE_BITS in
      if avail <? nblocks then printk "Ram disk image too big!  (%d blocks, %d avail)" [nblocks; avail] else
      printk "Loading %d bytes into ram disk... 0000k" [s32 (Z.shiftl nblocks BLOCK_SIZE_BITS)] ;;
      ok ← loop (S (Z.to_nat nblocks)) rd_load_step (nblocks, 256, 1, 0%nat);
      when ok (printk "done" [] ;; on_fs (fun s => s <| ROOT_DEV := 0x0101 |>))
  end.

(** ** [sys_setup] of hd.cc *)

(** the BIOS table of a drive: 16 bytes of user memory *)
Definition bios_drive (t : list Z) (o : nat) : hd_i_struct :=
  {| hdi_cyl := get16 t o; hdi_head := get8 t (o + 2); hdi_wpcom := get16 t (o + 5);
     hdi_ctl := get8 t (o + 8); hdi_lzone := get16 t (o + 12); hdi_sect := get8 t (o + 14) |}.

(** the four entries of a partition table, at 0x1BE *)
Definition partition (l : list Z) (k : nat) : hd_struct :=
  mk_hd_part (s32 (get32 l (0x1BE + 16 * k + 8))) (s32 (get32 l (0x1BE + 16 * k + 12))).

Definition read_partitions (drive : nat) : K unit :=
  o ← bread (0x300 + Z.of_nat drive * 5) 0;
  match o with
  | None => printk "Unable to read partition table of drive %d" [Z.of_nat drive] ;; panic ""
  | Some b =>
      y ← getbh b;
      if negb (get8 (b_data y) 510 =? 0x55) || negb (get8 (b_data y) 511 =? 0xAA) then
        printk "Bad partition table on drive %d" [Z.of_nat drive] ;; panic ""
      else
      for_each (seq 1 4) (fun i =>
        on_hd (fun h => h <| hd ::= <[(i + 5 * drive)%nat := partition (b_data y) (i - 1)]> |>)) ;;
      brelse (Some b)
  end.

Definition sys_setup (bios : list Z) : K Z :=
  h ← gets hdd;
  if callable h =? 0 then mret (-1) else
  on_hd (fun h => h <| callable := 0 |>
    <| hd_info := [bios_drive bios 0; bios_drive bios 16] |>
    <| NR_HD := if nz (hdi_cyl (bios_drive bios 16)) then 2 else 1 |>) ;;
  h ← gets hdd;
  for_each (seq 0 (Z.to_nat (NR_HD h))) (fun i =>
    x ← get_hd_info (Z.of_nat i);
    on_hd (fun h => h <| hd ::= <[(i * 5)%nat := mk_hd_part 0 (s32 (hdi_head x * hdi_sect x * hdi_cyl x))]> |>)) ;;
  for_each (seq (Z.to_nat (NR_HD h)) (2 - Z.to_nat (NR_HD h))) (fun i =>
    on_hd (fun h => h <| hd ::= <[(i * 5)%nat := mk_hd_part 0 0]> |>)) ;;
  for_each (seq 0 (Z.to_nat (NR_HD h))) read_partitions ;;
  when (nz (NR_HD h)) (printk "Partition table%s ok." []) ;;
  rd_load ;;
  mount_root ;;
  mret 0.
End Super.
