(* ===== verification/Open.v ===== *)
(** * fs/open.cc, fs/fcntl.cc: file descriptors

    A descriptor is an index into [t_filp] of the current task, which holds an
    index into [file_table]. *)

From S2P Require Import Prelude State Memory Sched Request LlRw Buffer Bitmap Inode Namei TtyQueue Super.

Section Open.
Context {E : Env}.

Definition sys_ustat : Z := - ENOSYS.

Definition sys_utime (filename times : Z) : K Z :=
  o ← namei filename;
  match o with
  | None => mret (- ENOENT)
  | Some i =>
      '(actime, modtime) ← (if nz times then
        a ← get_fs_long times; m ← get_fs_long (times + 4); mret (a, m)
      else t ← CURRENT_TIME; mret (u32 t, u32 t));
      setino i (fun x => x <| i_atime := actime |> <| i_mtime := modtime |> <| i_dirt := 1 |>) ;;
      iput (Some i) ;; mret 0
  end.

(** the test of [sys_access], on the inode as it is after [iput]; the group
    bits are taken with the owner's shift *)
Definition access_ok (x : m_inode) (i_mode0 mode : Z) (t : task_struct) : bool :=
  let res := if t_uid t =? i_uid x then Z.shiftr i_mode0 6
             else if t_gid t =? i_gid x then Z.shiftr i_mode0 6 else i_mode0 in
  (Z.land (Z.land res 7) mode =? mode) ||
  ((t_uid t =? 0) && ((Z.land mode 1 =? 0) || nz (Z.land i_mode0 0x49))).    (* octal 0111 *)
Definition sys_access (filename mode : Z) : K Z :=
  let mode := Z.land mode 7 in
  o ← namei filename;
  match o with
  | None => mret (- EACCES)
  | Some i =>
      x ← getino i;
      let i_mode0 := Z.land (i_mode x) 0x1FF in
      iput (Some i) ;;
      x ← getino i; t ← me;
      mret (if access_ok x i_mode0 mode t then 0 else - EACCES)
  end.

(** [chdir] and [chroot]: the inode of a directory, and what to do with it *)
Definition change_dir (filename : Z) (old : task_struct -> option nat) (set : option nat -> task_struct -> task_struct) : K Z :=
  o ← namei filename;
  match o with
  | None => mret (- ENOENT)
  | Some i =>
      x ← getino i;
      if negb (S_ISDIR (i_mode x)) then iput (Some i) ;; mret (- ENOTDIR) else
      t ← me;
      iput (old t) ;;
      setme (set (Some i)) ;; mret 0
  end.
Definition sys_chdir (filename : Z) : K Z := change_dir filename t_pwd (fun o t => t <| t_pwd := o |>).
Definition sys_chroot (filename : Z) : K Z := change_dir filename t_root (fun o t => t <| t_root := o |>).

Definition sys_chmod (filename mode : Z) : K Z :=
  o ← namei filename;
  match o with
  | None => mret (- ENOENT)
  | Some i =>
      x ← getino i; t ← me;
      if negb (t_euid t =? i_uid x) && negb (t_euid t =? 0) then iput (Some i) ;; mret (- EACCES) else
      setino i (fun x => x <| i_mode ::= fun m => u16 (Z.lor (Z.land mode 0xFFF) (Z.ldiff m 0xFFF)) |> <| i_dirt := 1 |>) ;;
      iput (Some i) ;; mret 0
  end.
Definition sys_chown (filename uid gid : Z) : K Z :=
  o ← namei filename;
  match o with
  | None => mret (- ENOENT)
  | Some i =>
      su ← suser;
      if negb su then iput (Some i) ;; mret (- EACCES) else
      setino i (fun x => x <| i_uid := u16 uid |> <| i_gid := u8 gid |> <| i_dirt := 1 |>) ;;
      iput (Some i) ;; mret 0
  end.

(** the first NULL entry of a descriptor table, from [n] on *)
Fixpoint free_fd (l : list (option nat)) (n : nat) : option nat :=
  match l with
  | [] => None
  | None :: _ => Some n
  | Some _ :: l => free_fd l (S n)
  end.
(** the first entry of [file_table] that is not in use *)
Fixpoint free_file (l : list file) (n : nat) : option nat :=
  match l with
  | [] => None
  | f :: l => if f_count f =? 0 then Some n else free_file l (S n)
  end.

(** [current->filp[fd]] *)
Definition set_filp (fd : nat) (o : option nat) : K unit := setme (fun t => t <| t_filp ::= <[fd := o]> |>).
Definition clear_cloexec (fd : Z) : K unit :=
  setme (fun t => t <| t_close_on_exec ::= fun c => Z.land c (not32 (bit fd)) |>).

(** terminals are special: [false] when /dev/tty is opened without a terminal *)
Definition open_tty (inode : nat) : K bool :=
  x ← getino inode; z ← get_zone inode 0; t ← me;
  if negb (S_ISCHR (i_mode x)) then mret true
  else if MAJOR z =? 4 then
    when (nz (t_leader t) && (t_tty t <? 0))
      (setme (fun t => t <| t_tty := MINOR z |>) ;;
       settty (Z.to_nat (MINOR z)) (fun y => y <| tty_pgrp := t_pgrp t |>)) ;;
    mret true
  else mret (negb ((MAJOR z =? 5) && (t_tty t <? 0))).

Definition sys_open (filename flag mode : Z) : K Z :=
  t ← me;
  let mode := Z.land mode (Z.land 0x1FF (not32 (t_umask t))) in
  match free_fd (t_filp t) 0 with
  | None => mret (- EINVAL)
  | Some fd =>
      clear_cloexec (Z.of_nat fd) ;;
      s ← gets fsys;
      match free_file (file_table s) 0 with
      | None => mret (- EINVAL)
      | Some f =>
          set_filp fd (Some f) ;;
          setfile f (fun x => x <| f_count ::= fun c => u16 (c + 1) |>) ;;
          r ← open_namei filename flag mode;
          match r with
          | inl err =>
              set_filp fd None ;;
              setfile f (fun x => x <| f_count := 0 |>) ;;
              mret err
          | inr inode =>
              ok ← open_tty inode;
              if negb ok then
                iput (Some inode) ;;
                set_filp fd None ;;
                setfile f (fun x => x <| f_count := 0 |>) ;;
                mret (- EPERM)
              else
              x ← getino inode;
              when (S_ISBLK (i_mode x)) (z ← get_zone inode 0; check_disk_change z) ;;
              x ← getino inode;
              setfile f (fun _ => {| f_mode := i_mode x; f_flags := u16 flag; f_count := 1;
                                     f_inode := Some inode; f_pos := 0 |}) ;;
              mret (Z.of_nat fd)
          end
      end
  end.
Definition sys_creat (pathname mode : Z) : K Z := sys_open pathname (Z.lor O_CREAT O_TRUNC) mode.

Definition sys_close (fd : Z) : K Z :=
  if Z.of_nat NR_OPEN <=? fd then mret (- EINVAL) else
  clear_cloexec fd ;;
  t ← me; o ← deref (t_filp t !! Z.to_nat fd);
  match o with
  | None => mret (- EINVAL)
  | Some f =>
      set_filp (Z.to_nat fd) None ;;
      x ← getfile f;
      if f_count x =? 0 then panic "Close: file count is 0" else
      setfile f (fun x => x <| f_count ::= fun c => u16 (c - 1) |>) ;;
      x ← getfile f;
      if nz (f_count x) then mret 0 else
      iput (f_inode x) ;; mret 0
  end.

(** ** fs/fcntl.cc *)
Definition F_DUPFD : Z := 0.
Definition F_GETFD : Z := 1.
Definition F_SETFD : Z := 2.
Definition F_GETFL : Z := 3.
Definition F_SETFL : Z := 4.

Definition fd_file (fd : Z) : K (option nat) :=
  if Z.of_nat NR_OPEN <=? fd then mret None else
  t ← me; deref (t_filp t !! Z.to_nat fd).

Definition dupfd (fd arg : Z) : K Z :=
  o ← fd_file fd;
  match o with
  | None => mret (- EBADF)
  | Some f =>
      if Z.of_nat NR_OPEN <=? arg then mret (- EINVAL) else
      t ← me;
      match free_fd (drop (Z.to_nat arg) (t_filp t)) (Z.to_nat arg) with
      | None => mret (- EMFILE)
      | Some new =>
          clear_cloexec (Z.of_nat new) ;;
          set_filp new (Some f) ;;
          setfile f (fun x => x <| f_count ::= fun c => u16 (c + 1) |>) ;;
          mret (Z.of_nat new)
      end
  end.
Definition sys_dup2 (oldfd newfd : Z) : K Z := _ ← sys_close newfd; dupfd oldfd newfd.
Definition sys_dup (fildes : Z) : K Z := dupfd fildes 0.

Definition sys_fcntl (fd cmd arg : Z) : K Z :=
  o ← fd_file fd;
  match o with
  | None => mret (- EBADF)
  | Some f =>
      if cmd =? F_DUPFD then dupfd fd arg
      else if cmd =? F_GETFD then t ← me; mret (Z.land (Z.shiftr (t_close_on_exec t) fd) 1)
      else if cmd =? F_SETFD then
        (if nz (Z.land arg 1) then setme (fun t => t <| t_close_on_exec ::= fun c => Z.lor c (bit fd) |>)
         else clear_cloexec fd) ;; mret 0
      else if cmd =? F_GETFL then x ← getfile f; mret (f_flags x)
      else if cmd =? F_SETFL then
        let m := Z.lor O_APPEND O_NONBLOCK in
        setfile f (fun x => x <| f_flags ::= fun g => Z.lor (Z.ldiff g m) (Z.land arg m) |>) ;; mret 0
      else mret (-1)
  end.
End Open.
