(* ===== verification/Exit.v ===== *)
(** * kernel/exit.cc: signals to other tasks, the end of a task *)

From S2P Require Import Prelude State Segment Memory Sched Request LlRw Buffer Bitmap Inode Namei TtyQueue Super Open.

Section Exit.
Context {E : Env}.

(** [task[i]], outside the table a fault *)
Definition task_slot (i : nat) : K (option tptr) := s ← gets sched; deref (task s !! i).

Definition release (p : tptr) : K unit :=
  o ← for_find (seq 1 (NR_TASKS - 1)) (fun i =>
    q ← task_slot i; mret (if decide (q = Some p) then Some i else None));
  match o with
  | None => panic "trying to release non-existent task"
  | Some i =>
      on_sched (fun s => s <| task ::= <[i := None]> |>) ;;
      zoom_mm (free_page p) ;;
      schedule
  end.

Definition send_sig (sig : Z) (p : option tptr) (priv : bool) : K Z :=
  match p with
  | None => mret (- EINVAL)
  | Some p =>
      if (sig <? 1) || (32 <? sig) then mret (- EINVAL) else
      t ← me; k ← gettask p;
      if priv || (t_euid t =? t_euid k) || (t_euid t =? 0) then
        settask p (fun k => k <| t_signal ::= fun g => Z.lor g (bit (sig - 1)) |>) ;; mret 0
      else mret (- EPERM)
  end.

Definition kill_session : K unit :=
  for_each tasks_down (fun i =>
    o ← task_slot i;
    match o with
    | None => mret tt
    | Some p =>
        k ← gettask p; t ← me;
        when (t_session k =? t_session t)
          (settask p (fun k => k <| t_signal ::= fun g => Z.lor g (bit (SIGHUP - 1)) |>))
    end).

(** the tasks a signal goes to: [send] says whether and with which privilege.
    A NULL entry is passed on only for [pid == -1] *)
Definition kill_tasks (sig : Z) (priv : bool) (send : task_struct -> bool) (null : bool) : K Z :=
  for_fold tasks_down 0 (fun retval i =>
    o ← task_slot i;
    go ← match o with
         | None => mret null
         | Some p => k ← gettask p; mret (send k)
         end;
    if negb go then mret retval else
    err ← send_sig sig o priv;
    mret (if nz err then err else retval)).

(** [pid == 0] compares the process groups with [current->pid] *)
Definition sys_kill (pid sig : Z) : K Z :=
  t ← me;
  if pid =? 0 then kill_tasks sig true (fun k => t_pgrp k =? t_pid t) false
  else if 0 <? pid then kill_tasks sig false (fun k => t_pid k =? pid) false
  else if pid =? -1 then kill_tasks sig false (fun _ => true) true
  else kill_tasks sig false (fun k => t_pgrp k =? s32 (- pid)) false.

Definition tell_father (pid : Z) : K unit :=
  o ← (if pid =? 0 then mret None else
       for_find (seq 0 NR_TASKS) (fun i =>
         o ← task_slot i;
         match o with
         | None => mret None
         | Some p => k ← gettask p; mret (if t_pid k =? pid then Some p else None)
         end));
  match o with
  | Some p => settask p (fun k => k <| t_signal ::= fun g => Z.lor g (bit (SIGCHLD - 1)) |>)
  | None =>
      printk "BAD BAD - no father found" [] ;;
      s ← gets sched; release (current s)
  end.

(** entry [k] of the local descriptor table of the current task *)
Definition my_ldt (k : nat) : K desc_struct := t ← me; deref (t_ldt t !! k).

(** the pages of the code and data segments *)
Definition free_segment (k : nat) : K unit :=
  d ← my_ldt k;
  _ ← zoom_mm (free_page_tables (get_base d) (get_limit d)); mret tt.

(** the children of a task that ends become children of task 1 *)
Definition adopt_children : K unit :=
  for_each (seq 0 NR_TASKS) (fun i =>
    o ← task_slot i;
    match o with
    | None => mret tt
    | Some p =>
        k ← gettask p; t ← me;
        when (t_father k =? t_pid t)
          (settask p (fun k => k <| t_father := 1 |>) ;;
           when (t_state k =? TASK_ZOMBIE) (o ← task_slot 1; _ ← send_sig SIGCHLD o true; mret tt))
    end).

Definition close_files : K unit :=
  for_each (seq 0 NR_OPEN) (fun i =>
    t ← me; o ← deref (t_filp t !! i);
    when (bool_decide (is_Some o)) (_ ← sys_close (Z.of_nat i); mret tt)).

Definition do_exit (code : Z) : K Z :=
  free_segment 1 ;;
  free_segment 2 ;;
  adopt_children ;;
  close_files ;;
  t ← me; iput (t_pwd t) ;; setme (fun t => t <| t_pwd := None |>) ;;
  t ← me; iput (t_root t) ;; setme (fun t => t <| t_root := None |>) ;;
  t ← me; iput (t_executable t) ;; setme (fun t => t <| t_executable := None |>) ;;
  t ← me;
  when (nz (t_leader t) && (0 <=? t_tty t)) (settty (Z.to_nat (t_tty t)) (fun y => y <| tty_pgrp := 0 |>)) ;;
  s ← gets sched;
  when (bool_decide (last_task_used_math s = Some (current s)))
    (on_sched (fun s => s <| last_task_used_math := None |>)) ;;
  when (nz (t_leader t)) kill_session ;;
  setme (fun t => t <| t_state := TASK_ZOMBIE |> <| t_exit_code := s32 code |>) ;;
  tell_father (t_father t) ;;
  schedule ;;
  mret (-1).
Definition sys_exit (error_code : Z) : K Z := do_exit (Z.shiftl (Z.land error_code 0xff) 8).

(** ** The page faults of mm/memory.cc, which end in [do_exit] when memory runs out *)
Definition oom : K unit := printk "out of memory" [] ;; _ ← do_exit SIGSEGV; mret tt.

(** a task that has called [do_exit] does not come back: nothing after [oom] runs *)
Definition die {A} : K A := oom ;; fault.

Definition un_wp_page (table_entry : Z) : K unit :=
  ok ← zoom_mm (un_wp table_entry);
  if ok : bool then mret tt else die.

Definition do_wp_page (error_code address : Z) : K unit :=
  d ← zoom_mm (load (dir_of address));
  un_wp_page (Z.land (Z.shiftr address 10) 0xffc + frame d).

Definition write_verify (address : Z) : K unit :=
  page ← zoom_mm (load (dir_of address));
  if negb (PRESENT page) then mret tt else
  let page := u32 (frame page + Z.land (Z.shiftr address 10) 0xffc) in
  e ← zoom_mm (load page);
  when (Z.land 3 e =? 1) (un_wp_page page).

Definition get_empty_page (address : Z) : K unit :=
  tmp ← zoom_mm get_free_page;
  r ← (if tmp =? 0 then mret 0 else put_page tmp address);
  if r =? 0 then zoom_mm (free_page tmp) ;; die else mret tt.

(** shares the page at [address] of the task at [p] with the current task *)
Definition try_to_share (address : Z) (p : tptr) : K bool :=
  k ← gettask p; t ← me;
  let from_page := dir_of address + dir_of (t_start_code k) in
  let to_page := dir_of address + dir_of (t_start_code t) in
  from ← zoom_mm (load from_page);
  if negb (PRESENT from) then mret false else
  let from_page := frame from + Z.land (Z.shiftr address 10) 0xffc in
  phys_addr ← zoom_mm (load from_page);
  if negb (Z.land phys_addr 0x41 =? 0x01) then mret false else
  let phys_addr := frame phys_addr in
  high ← zoom_mm (gets HIGH_MEMORY);
  if (u32 high <=? phys_addr) || (phys_addr <? LOW_MEM) then mret false else
  to ← zoom_mm (load to_page);
  to ← (if PRESENT to then mret to else
        to ← zoom_mm get_free_page;
        if to =? 0 then die else zoom_mm (store to_page (Z.lor to 7)) ;; mret to);
  let to_page := frame to + Z.land (Z.shiftr address 10) 0xffc in
  e ← zoom_mm (load to_page);
  if PRESENT e then panic "try_to_share: to_page already exists" else
  zoom_mm (
    v ← load from_page; store from_page (Z.land v (not32 2)) ;;
    v ← load from_page; store to_page v ;;
    c ← get_count (MAP_NR phys_addr); set_count (MAP_NR phys_addr) (c + 1)) ;;
  mret true.

Definition share_page (address : Z) : K bool :=
  t ← me;
  match t_executable t with
  | None => mret false
  | Some x =>
      xi ← getino x;
      if i_count xi <? 2 then mret false else
      o ← for_find tasks_down (fun i =>
        o ← task_slot i; s ← gets sched;
        match o with
        | None => mret None
        | Some p =>
            if p =? current s then mret None else
            k ← gettask p;
            if negb (bool_decide (t_executable k = Some x)) then mret None else
            ok ← try_to_share address p;
            mret (if ok : bool then Some tt else None)
        end);
      mret (bool_decide (is_Some o))
  end.

(** [*(char * ) a = 0] in a word of physical memory *)
Definition clear_byte (a : Z) : M mm_st unit :=
  let w := a - a mod 4 in
  v ← load w; store w (set_byte (a mod 4) 0 v).

Definition do_no_page (error_code address : Z) : K unit :=
  let address := Z.land address 0xfffff000 in
  t ← me;
  let tmp := u32 (address - t_start_code t) in
  match t_executable t with
  | None => get_empty_page address
  | Some x =>
      if t_end_data t <=? tmp then get_empty_page address else
      shared ← share_page tmp;
      if shared : bool then mret tt else
      page ← zoom_mm get_free_page;
      if page =? 0 then die else
      let block := 1 + tmp / BLOCK_SIZE in
      nr ← for_fold [0; 1; 2; 3] [] (fun nr i => b ← bmap x (block + i); mret (nr ++ [b]));
      xi ← getino x;
      bread_page page (i_dev xi) nr ;;
      t ← me;
      let i := s32 (tmp + 4096 - t_end_data t) in
      for_each (seq 0 (Z.to_nat i)) (fun k => zoom_mm (clear_byte (page + 4096 - 1 - Z.of_nat k))) ;;
      r ← put_page page address;
      if nz r then mret tt else zoom_mm (free_page page) ;; die
  end.
End Exit.
