(* ===== verification/Fork.v ===== *)
(** * kernel/fork.cc, kernel/signal.cc, [sys_waitpid], [sched_init]: the life of a task *)

From S2P Require Import Prelude State Segment Memory Sched Request LlRw Buffer Bitmap Inode Namei TtyQueue Super Open Exit.

Section Fork.
Context {E : Env}.

(** the pages of [size] bytes at [addr] are made writable one by one *)
Definition verify_area (addr size : Z) : K unit :=
  let size := s32 (size + Z.land addr 0xfff) in
  d ← my_ldt 2;
  let start := u32 (Z.land addr 0xfffff000 + get_base d) in
  for_each (seq 0 (Z.to_nat ((size + 4095) / 4096))) (fun k => write_verify (u32 (start + 4096 * Z.of_nat k))).

Definition copy_mem (nr : Z) (p : tptr) : K Z :=
  dc ← my_ldt 1; dd ← my_ldt 2;
  let code_limit := get_limit dc in
  let data_limit := get_limit dd in
  let old_code_base := get_base dc in
  let old_data_base := get_base dd in
  if negb (old_data_base =? old_code_base) then panic "We don't support separate I&D" else
  if data_limit <? code_limit then panic "Bad data_limit" else
  let new_base := u32 (nr * 0x4000000) in
  settask p (fun k => k <| t_start_code := new_base |>
    <| t_ldt ::= fun l => alter (set_base new_base) 2%nat (alter (set_base new_base) 1%nat l) |>) ;;
  r ← zoom_mm (copy_page_tables old_data_base new_base data_limit);
  if nz r then
    printk "free_page_tables: from copy_mem" [] ;;
    _ ← zoom_mm (free_page_tables new_base data_limit);
    mret (- ENOMEM)
  else mret 0.

(** the registers the system call pushed *)
Record regs : Type := mk_regs {
  g_ebp : Z; g_edi : Z; g_esi : Z; g_gs : Z; g_ebx : Z; g_ecx : Z; g_edx : Z;
  g_fs : Z; g_es : Z; g_ds : Z; g_eip : Z; g_cs : Z; g_eflags : Z; g_esp : Z; g_ss : Z
}.

(** the child's [task_struct]: a copy of the parent's with new accounts and registers *)
Definition child_task (nr : Z) (p : tptr) (pid now : Z) (r : regs) (t : task_struct) : task_struct :=
  t <| t_state := TASK_UNINTERRUPTIBLE |> <| t_pid := pid |> <| t_father := t_pid t |>
    <| t_counter := t_priority t |> <| t_signal := 0 |> <| t_alarm := 0 |> <| t_leader := 0 |>
    <| t_utime := 0 |> <| t_stime := 0 |> <| t_cutime := 0 |> <| t_cstime := 0 |> <| t_start_time := now |>
    <| t_tss ::= fun s =>
         s <| tss_back_link := 0 |> <| tss_esp0 := 4096 + p |> <| tss_ss0 := 0x10 |>
           <| tss_eip := g_eip r |> <| tss_eflags := g_eflags r |> <| tss_eax := 0 |>
           <| tss_ecx := g_ecx r |> <| tss_edx := g_edx r |> <| tss_ebx := g_ebx r |>
           <| tss_esp := g_esp r |> <| tss_ebp := g_ebp r |> <| tss_esi := g_esi r |> <| tss_edi := g_edi r |>
           <| tss_es := Z.land (g_es r) 0xffff |> <| tss_cs := Z.land (g_cs r) 0xffff |>
           <| tss_ss := Z.land (g_ss r) 0xffff |> <| tss_ds := Z.land (g_ds r) 0xffff |>
           <| tss_fs := Z.land (g_fs r) 0xffff |> <| tss_gs := Z.land (g_gs r) 0xffff |>
           <| tss_ldt := _LDT nr |> <| tss_trace_bitmap := 0x80000000 |> |>.

(** offsets of [ldt] and [tss] in [struct task_struct] *)
Definition ldt_offset : Z := 720.
Definition tss_offset : Z := 744.

(** one more user of an inode the child inherits *)
Definition share_inode (o : option nat) : K unit :=
  match o with Some i => inc_count i | None => mret tt end.

(** [if (last_task_used_math == current) fnsave] saves the coprocessor image, which is not modelled *)
Definition copy_process (nr : nat) (r : regs) : K Z :=
  p ← zoom_mm get_free_page;
  if p =? 0 then mret (- EAGAIN) else
  on_sched (fun s => s <| task ::= <[nr := Some p]> |>) ;;
  t ← me; s ← gets sched;
  on_sched (fun s => s <| tmem ::= <[p := child_task (Z.of_nat nr) p (last_pid s) (jiffies s) r t]> |>) ;;
  err ← copy_mem (Z.of_nat nr) p;
  if nz err then
    on_sched (fun s => s <| task ::= <[nr := None]> |>) ;;
    zoom_mm (free_page p) ;; mret (- EAGAIN)
  else
  for_each (seq 0 NR_OPEN) (fun i =>
    k ← gettask p; o ← deref (t_filp k !! i);
    match o with
    | Some f => setfile f (fun x => x <| f_count ::= fun c => u16 (c + 1) |>)
    | None => mret tt
    end) ;;
  t ← me;
  share_inode (t_pwd t) ;; share_inode (t_root t) ;; share_inode (t_executable t) ;;
  on_sched (fun s => s <| gdt ::= alter (set_tss_desc (p + tss_offset)) (2 * nr + Z.to_nat FIRST_TSS_ENTRY)%nat |>) ;;
  on_sched (fun s => s <| gdt ::= alter (set_ldt_desc (p + ldt_offset)) (2 * nr + Z.to_nat FIRST_LDT_ENTRY)%nat |>) ;;
  settask p (fun k => k <| t_state := TASK_RUNNING |>) ;;
  s ← gets sched; mret (last_pid s).

(** some task has the process number [pid] *)
Definition pid_in_use (s : sched_st) (pid : Z) : bool :=
  existsb (fun o => match o ≫= (fun p => tmem s !! p) with Some t => t_pid t =? pid | None => false end) (task s).

(** each round that fails meets a task with that process number *)
Definition next_pid : M sched_st unit :=
  loop (S NR_TASKS + 1) (fun _ : unit =>
    modify (fun s => s <| last_pid ::= fun n => if s32 (n + 1) <? 0 then 1 else s32 (n + 1) |>) ;;
    s ← gets id;
    mret (if pid_in_use s (last_pid s) then inl tt else inr tt)) tt.
Definition find_empty_process : M sched_st Z :=
  next_pid ;;
  s ← gets id;
  mret (match list_find (fun i => task s !! i = Some None) (seq 1 (NR_TASKS - 1)) with
        | Some (_, i) => Z.of_nat i
        | None => - EAGAIN
        end).

(** ** [sys_waitpid] of exit.cc *)
Definition WNOHANG : Z := 1.
Definition WUNTRACED : Z := 2.

(** the child is one that is waited for *)
Definition waits_for (pid : Z) (t k : task_struct) : bool :=
  (t_father k =? t_pid t) &&
  (if 0 <? pid then t_pid k =? pid
   else if pid =? 0 then t_pgrp k =? t_pgrp t
   else if pid =? -1 then true
   else t_pgrp k =? s32 (- pid)).

(** one entry of the scan: [Some r] to return [r]; the flag says a child is still running *)
Definition wait_step (pid stat_addr options : Z) (acc : Z * option Z) (i : nat) : K (Z * option Z) :=
  match acc with
  | (_, Some _) => mret acc
  | (flag, None) =>
      o ← task_slot i; s ← gets sched;
      match o with
      | None => mret acc
      | Some p =>
          if p =? current s then mret acc else
          t ← me; k ← gettask p;
          if negb (waits_for pid t k) then mret acc else
          if t_state k =? TASK_STOPPED then
            (if Z.land options WUNTRACED =? 0 then mret acc else
             put_fs_long 0x7f stat_addr ;; k ← gettask p; mret (flag, Some (t_pid k)))
          else if t_state k =? TASK_ZOMBIE then
            setme (fun t => t <| t_cutime ::= fun c => s32 (c + t_utime k) |>
                              <| t_cstime ::= fun c => s32 (c + t_stime k) |>) ;;
            release p ;;
            put_fs_long (t_exit_code k) stat_addr ;;
            mret (flag, Some (t_pid k))
          else mret (1, None)
      end
  end.

Definition sys_waitpid (pid stat_addr options : Z) : K Z :=
  verify_area stat_addr 4 ;;
  loop env_fuel (fun _ : unit =>
    '(flag, r) ← for_fold tasks_down (0, None) (wait_step pid stat_addr options);
    match r with
    | Some v => mret (inr v)
    | None =>
        if flag =? 0 then mret (inr (- ECHILD)) else
        if nz (Z.land options WNOHANG) then mret (inr 0) else
        setme (fun t => t <| t_state := TASK_INTERRUPTIBLE |>) ;;
        schedule ;;
        setme (fun t => t <| t_signal ::= fun g => Z.land g (not32 (bit (SIGCHLD - 1))) |>) ;;
        t ← me;
        mret (if t_signal t =? 0 then inl tt else inr (- EINTR))
    end) tt.

(** ** kernel/signal.cc *)
Definition sys_sgetmask : K Z := t ← me; mret (s32 (t_blocked t)).
Definition sys_ssetmask (newmask : Z) : K Z :=
  t ← me;
  setme (fun t => t <| t_blocked := Z.land (u32 newmask) (not32 (bit (SIGKILL - 1))) |>) ;;
  mret (s32 (t_blocked t)).

(** a [struct sigaction] as 16 bytes: handler, mask, flags, restorer *)
Definition sigaction_bytes (a : sigaction) : list Z :=
  le32 (sa_handler a) ++ le32 (sa_mask a) ++ le32 (sa_flags a) ++ le32 (sa_restorer a).
Definition save_old (from : sigaction) (to : Z) : K unit :=
  verify_area to 16 ;;
  for_each (imap pair (sigaction_bytes from)) (fun '(k, c) => put_fs_byte c (to + Z.of_nat k)).
Definition get_new (from : Z) : K sigaction :=
  h ← get_fs_long from; m ← get_fs_long (from + 4); f ← get_fs_long (from + 8); r ← get_fs_long (from + 12);
  mret (mk_sigaction h m f r).

Definition bad_signum (signum : Z) : bool := (signum <? 1) || (32 <? signum) || (signum =? SIGKILL).
(** [current->sigaction[signum-1]] *)
Definition get_sigaction (signum : Z) : K sigaction :=
  t ← me; deref (t_sigaction t !! Z.to_nat (signum - 1)).
Definition set_sigaction (signum : Z) (f : sigaction -> sigaction) : K unit :=
  setme (fun t => t <| t_sigaction ::= alter f (Z.to_nat (signum - 1)) |>).

Definition sys_signal (signum handler restorer : Z) : K Z :=
  if bad_signum signum then mret (-1) else
  old ← get_sigaction signum;
  set_sigaction signum (fun _ => mk_sigaction handler 0 (Z.lor SA_ONESHOT SA_NOMASK) restorer) ;;
  mret (s32 (sa_handler old)).

Definition sys_sigaction (signum action oldaction : Z) : K Z :=
  if bad_signum signum then mret (-1) else
  tmp ← get_sigaction signum;
  new ← get_new action;
  set_sigaction signum (fun _ => new) ;;
  when (nz oldaction) (save_old tmp oldaction) ;;
  set_sigaction signum (fun a =>
    a <| sa_mask := if nz (Z.land (sa_flags a) SA_NOMASK) then 0 else Z.lor (sa_mask a) (bit (signum - 1)) |>) ;;
  mret 0.

(** the frame on the user stack that [do_signal] builds: new [eip] and [esp] *)
Definition do_signal (signr eax ebx ecx edx fs es ds eip cs eflags esp ss : Z) : K (Z * Z) :=
  sa ← get_sigaction signr;
  if sa_handler sa =? 1 then mret (eip, esp) else
  (if sa_handler sa =? 0 then
     if signr =? SIGCHLD then mret tt else _ ← do_exit (bit (signr - 1)); fault
   else mret tt) ;;
  if sa_handler sa =? 0 then mret (eip, esp) else
  when (nz (Z.land (sa_flags sa) SA_ONESHOT)) (set_sigaction signr (fun a => a <| sa_handler := 0 |>)) ;;
  let nomask := nz (Z.land (sa_flags sa) SA_NOMASK) in
  let longs := if nomask then 7 else 8 in
  let new_esp := u32 (esp - 4 * longs) in
  verify_area new_esp (longs * 4) ;;
  t ← me;
  for_each (imap pair ([sa_restorer sa; signr] ++ (if nomask then [] else [t_blocked t]) ++ [eax; ecx; edx; eflags; eip]))
    (fun '(k, v) => put_fs_long v (new_esp + 4 * Z.of_nat k)) ;;
  setme (fun t => t <| t_blocked ::= fun b => Z.lor b (sa_mask sa) |>) ;;
  mret (sa_handler sa, new_esp).

(** ** [sched_init] of sched.cc: the first descriptors, the empty task table, the timer chip *)
Definition sched_init : K unit :=
  on_sched (fun s => s <| gdt ::= alter (set_tss_desc (init_task + tss_offset)) (Z.to_nat FIRST_TSS_ENTRY) |>) ;;
  on_sched (fun s => s <| gdt ::= alter (set_ldt_desc (init_task + ldt_offset)) (Z.to_nat FIRST_LDT_ENTRY) |>) ;;
  for_each (seq 1 (NR_TASKS - 1)) (fun i =>
    let p := (2 + Z.to_nat FIRST_TSS_ENTRY + 2 * (i - 1))%nat in
    on_sched (fun s => s <| task ::= <[i := None]> |>
      <| gdt ::= fun g => <[(p + 1)%nat := mk_desc 0 0]> (<[p := mk_desc 0 0]> g) |>)) ;;
  outb 0x36 0x43 ;;
  outb (Z.land LATCH 0xff) 0x40 ;;
  outb (Z.shiftr LATCH 8) 0x40 ;;
  v ← inb 0x21; outb (Z.land v (not32 0x01)) 0x21.
End Fork.
