(* ===== verification/Sys.v ===== *)
(** * kernel/sys.cc: identity, times, break, sessions *)

From S2P Require Import Prelude State Segment Memory Sched Request LlRw Buffer Bitmap Inode Namei TtyQueue Super Open Exit Fork.

(** the calls that are not implemented *)
Definition sys_ftime : Z := - ENOSYS.
Definition sys_break : Z := - ENOSYS.
Definition sys_ptrace : Z := - ENOSYS.
Definition sys_stty : Z := - ENOSYS.
Definition sys_gtty : Z := - ENOSYS.
Definition sys_rename : Z := - ENOSYS.
Definition sys_prof : Z := - ENOSYS.
Definition sys_acct : Z := - ENOSYS.
Definition sys_phys : Z := - ENOSYS.
Definition sys_lock : Z := - ENOSYS.
Definition sys_mpx : Z := - ENOSYS.
Definition sys_ulimit : Z := - ENOSYS.

Section Sys.
Context {E : Env}.

(** the two halves of [sys_setregid]: [false] when it is not permitted *)
Definition set_rgid (rgid : Z) : K bool :=
  if rgid <=? 0 then mret true else
  t ← me;
  if (t_gid t =? rgid) || (t_euid t =? 0) then setme (fun t => t <| t_gid := u16 rgid |>) ;; mret true
  else mret false.
Definition set_egid (egid : Z) : K bool :=
  if egid <=? 0 then mret true else
  t ← me;
  if (t_gid t =? egid) || (t_egid t =? egid) || (t_sgid t =? egid) || (t_euid t =? 0)
  then setme (fun t => t <| t_egid := u16 egid |>) ;; mret true
  else mret false.
Definition sys_setregid (rgid egid : Z) : K Z :=
  ok ← set_rgid rgid;
  if negb ok then mret (- EPERM) else
  ok ← set_egid egid;
  mret (if ok : bool then 0 else - EPERM).
Definition sys_setgid (gid : Z) : K Z := sys_setregid gid gid.

Definition sys_time (tloc : Z) : K Z :=
  i ← CURRENT_TIME;
  when (nz tloc) (verify_area tloc 4 ;; put_fs_long i tloc) ;;
  mret i.

Definition set_ruid (old_ruid ruid : Z) : K bool :=
  if ruid <=? 0 then mret true else
  t ← me;
  if (t_euid t =? ruid) || (old_ruid =? ruid) || (t_euid t =? 0)
  then setme (fun t => t <| t_uid := u16 ruid |>) ;; mret true
  else mret false.
Definition set_euid (old_ruid euid : Z) : K bool :=
  if euid <=? 0 then mret true else
  t ← me;
  if (old_ruid =? euid) || (t_euid t =? euid) || (t_euid t =? 0)
  then setme (fun t => t <| t_euid := u16 euid |>) ;; mret true
  else setme (fun t => t <| t_uid := old_ruid |>) ;; mret false.
Definition sys_setreuid (ruid euid : Z) : K Z :=
  t ← me;
  let old_ruid := t_uid t in
  ok ← set_ruid old_ruid ruid;
  if negb ok then mret (- EPERM) else
  ok ← set_euid old_ruid euid;
  mret (if ok : bool then 0 else - EPERM).
Definition sys_setuid (uid : Z) : K Z := sys_setreuid uid uid.

Definition sys_stime (tptr : Z) : K Z :=
  su ← suser;
  if negb su then mret (- EPERM) else
  v ← get_fs_long tptr; s ← gets sched;
  on_sched (fun c => c <| startup_time := s32 (v - Z.quot (jiffies s) HZ) |>) ;;
  mret 0.

Definition sys_times (tbuf : Z) : K Z :=
  when (nz tbuf)
    (verify_area tbuf 16 ;;
     t ← me;
     put_fs_long (t_utime t) tbuf ;; put_fs_long (t_stime t) (tbuf + 4) ;;
     put_fs_long (t_cutime t) (tbuf + 8) ;; put_fs_long (t_cstime t) (tbuf + 12)) ;;
  s ← gets sched; mret (jiffies s).

Definition sys_brk (end_data_seg : Z) : K Z :=
  t ← me;
  when ((t_end_code t <=? end_data_seg) && (end_data_seg <? u32 (t_start_stack t - 16384)))
    (setme (fun t => t <| t_brk := end_data_seg |>)) ;;
  t ← me; mret (s32 (t_brk t)).

Definition sys_setpgid (pid pgid : Z) : K Z :=
  t ← me;
  let pid := if pid =? 0 then t_pid t else pid in
  let pgid := if pgid =? 0 then t_pid t else pgid in
  o ← for_find (seq 0 NR_TASKS) (fun i =>
    o ← task_slot i;
    match o with
    | None => mret None
    | Some p => k ← gettask p; mret (if t_pid k =? pid then Some p else None)
    end);
  match o with
  | None => mret (- ESRCH)
  | Some p =>
      k ← gettask p; t ← me;
      if nz (t_leader k) then mret (- EPERM) else
      if negb (t_session k =? t_session t) then mret (- EPERM) else
      settask p (fun k => k <| t_pgrp := pgid |>) ;; mret 0
  end.
Definition sys_getpgrp : K Z := t ← me; mret (t_pgrp t).
Definition sys_setsid : K Z :=
  t ← me;
  if nz (t_leader t) && negb (t_euid t =? 0) then mret (- EPERM) else
  setme (fun t => t <| t_leader := 1 |> <| t_pgrp := t_pid t |> <| t_session := t_pid t |> <| t_tty := -1 |>) ;;
  t ← me; mret (t_pgrp t).

(** the five fields of [struct utsname], 9 bytes each *)
Definition utsname_field (s : string) : list Z :=
  let l := (fun c => chr c) <$> String.list_ascii_of_string s in
  take 9 (l ++ replicate 9 0).
Definition thisname : list Z :=
  ["linux .0"; "nodename"; "release "; "version "; "machine "]%string ≫= utsname_field.
Definition sys_uname (name : Z) : K Z :=
  if name =? 0 then mret (- ERROR) else
  verify_area name (Z.of_nat (length thisname)) ;;
  for_each (imap pair thisname) (fun '(k, c) => put_fs_byte c (name + Z.of_nat k)) ;;
  mret 0.

Definition sys_umask (mask : Z) : K Z :=
  t ← me;
  setme (fun t => t <| t_umask := Z.land mask 0x1FF |>) ;; mret (t_umask t).
End Sys.
