(* ===== verification/SysFacts.v ===== *)
(** * kernel/sys.cc, fork.cc, fs/fcntl.cc, open.cc: identities, process numbers, descriptors *)

From S2P Require Import Prelude State Sched Memory Buffer Inode Namei Open Exit Fork Sys.

(** ** The current task *)

(** the task that runs is [t] *)
Definition running (s : kst) (t : task_struct) : Prop := tmem (sched s) !! current (sched s) = Some t.
Definition with_me (t : task_struct) (s : kst) : kst :=
  s <| sched ::= fun c => c <| tmem ::= <[current c := t]> |> |>.

Lemma me_run s t : running s t -> me s = Ret t s.
Proof. unfold running, me, gettask. intros H. mrun. by rewrite H. Qed.
Lemma setme_run s t f : running s t -> setme f s = Ret tt (with_me (f t) s).
Proof. unfold running, setme, settask, gettask. intros H. mrun. rewrite H. by destruct s as [? []]. Qed.
Lemma running_with_me t s : running (with_me t s) t.
Proof. unfold running, with_me, upd. cbn. apply lookup_insert_eq. Qed.
Lemma with_me_twice t t' s : with_me t (with_me t' s) = with_me t s.
Proof. destruct s as [? []]. unfold with_me, upd. cbn. by rewrite insert_insert_eq. Qed.
Lemma with_me_id s t : running s t -> with_me t s = s.
Proof. unfold running. intros H. destruct s as [? []]. unfold with_me, upd. cbn in *. by rewrite insert_id. Qed.

Lemma me_with_me s t : me (with_me t s) = Ret t (with_me t s).
Proof. apply me_run, running_with_me. Qed.
Lemma setme_with_me s t f : setme f (with_me t s) = Ret tt (with_me (f t) s).
Proof. rewrite (setme_run _ t); [by rewrite with_me_twice|apply running_with_me]. Qed.

(** ** User and group identities *)

(** what one half of the calls does to an identity: [Some] new value, [None] not permitted *)
Definition new_id (allowed : bool) (id old : Z) : option Z :=
  if id <=? 0 then Some old else if allowed then Some (u16 id) else None.

Lemma set_ruid_run s t old ruid : running s t ->
  set_ruid old ruid s =
    match new_id ((t_euid t =? ruid) || (old =? ruid) || (t_euid t =? 0)) ruid (t_uid t) with
    | Some u => Ret true (with_me (t <| t_uid := u |>) s)
    | None => Ret false s
    end.
Proof.
  intros Ht. unfold set_ruid, new_id. destruct (ruid <=? 0).
  - replace (t <| t_uid := t_uid t |>) with t by (by destruct t). by rewrite with_me_id.
  - rewrite (bind_Ret _ _ _ _ _ (me_run _ _ Ht)). destruct (_ || _); [|done].
    by rewrite (bind_Ret _ _ _ _ _ (setme_run _ _ _ Ht)).
Qed.
Lemma set_euid_run s t old euid :
  set_euid old euid (with_me t s) =
    match new_id ((old =? euid) || (t_euid t =? euid) || (t_euid t =? 0)) euid (t_euid t) with
    | Some u => Ret true (with_me (t <| t_euid := u |>) s)
    | None => Ret false (with_me (t <| t_uid := old |>) s)
    end.
Proof.
  unfold set_euid, new_id. destruct (euid <=? 0).
  - by replace (t <| t_euid := t_euid t |>) with t by (by destruct t).
  - rewrite (bind_Ret _ _ _ _ _ (me_with_me _ _)).
    destruct (_ || _); by rewrite (bind_Ret _ _ _ _ _ (setme_with_me _ _ _)).
Qed.

Lemma new_id_cases (p : bool) id old a b :
  0 <= a < 2 ^ 16 -> 0 <= b < 2 ^ 16 -> (p = true -> id = a \/ id = b) -> old = a \/ old = b ->
  match new_id p id old with Some u => u = a \/ u = b | None => True end.
Proof.
  intros Ha Hb Hp Hold. unfold new_id. destruct (id <=? 0); [done|]. destruct p; [|done].
  destruct (Hp eq_refl) as [->| ->]; [left|right]; by apply u16_id.
Qed.

(** C28: [setreuid] gives no privileges: it returns 0 or -EPERM; on -EPERM
    nothing has changed; without privileges the real and the effective user
    after the call are among those before it; with privileges the call succeeds
    and sets both; no other field of the task and nothing else changes. *)
Theorem setreuid_safe (s : kst) (t : task_struct) (ruid euid : Z)
  (Ht : running s t) (Hu : 0 <= t_uid t < 2 ^ 16) (He : 0 <= t_euid t < 2 ^ 16) :
  exists r u e, sys_setreuid ruid euid s = Ret r (with_me (t <| t_uid := u |> <| t_euid := e |>) s) /\
    (r = 0 \/ r = - EPERM /\ u = t_uid t /\ e = t_euid t) /\
    (t_euid t <> 0 -> (u = t_uid t \/ u = t_euid t) /\ (e = t_uid t \/ e = t_euid t)) /\
    (t_euid t = 0 -> r = 0 /\ u = (if 0 <? ruid then u16 ruid else t_uid t) /\ e = (if 0 <? euid then u16 euid else 0)).
Proof.
  unfold sys_setreuid. rewrite (bind_Ret _ _ _ _ _ (me_run _ _ Ht)). cbv zeta.
  pose proof (set_ruid_run s t (t_uid t) ruid Ht) as Hr.
  pose proof (new_id_cases ((t_euid t =? ruid) || (t_uid t =? ruid) || (t_euid t =? 0)) ruid (t_uid t) (t_uid t) (t_euid t) Hu He) as Cr.
  pose proof (new_id_cases ((t_uid t =? euid) || (t_euid t =? euid) || (t_euid t =? 0)) euid (t_euid t) (t_uid t) (t_euid t) Hu He) as Ce.
  set (nu := new_id _ ruid (t_uid t)) in *. set (ne := new_id _ euid (t_euid t)) in Ce.
  assert (t_euid t = 0 -> nu = Some (if 0 <? ruid then u16 ruid else t_uid t) /\ ne = Some (if 0 <? euid then u16 euid else 0)) as Hroot.
  { intros H0. unfold nu, ne, new_id. rewrite H0, !orb_true_r. destruct (Z.leb_spec ruid 0), (Z.ltb_spec 0 ruid), (Z.leb_spec euid 0), (Z.ltb_spec 0 euid); lia || done. }
  assert (t_euid t <> 0 -> (forall p q, p || q || (t_euid t =? 0) = p || q)) as Huser
    by (intros H0 p q; rewrite (proj2 (Z.eqb_neq _ _) H0); by rewrite orb_false_r).
  destruct nu as [u|].
  - rewrite (bind_Ret _ _ _ _ _ Hr). cbn [negb]. pose proof (set_euid_run s (t <| t_uid := u |>) (t_uid t) euid) as Hse.
    change (t_euid (t <| t_uid := u |>)) with (t_euid t) in Hse. fold ne in Hse. destruct ne as [e|].
    + rewrite (bind_Ret _ _ _ _ _ Hse). exists 0, u, e. split; [done|]. split; [by left|]. split.
      * intros H0. rewrite !Huser in * by done. split; [apply Cr|apply Ce]; try (by left); try (by right);
          rewrite orb_true_iff, !Z.eqb_eq; lia.
      * intros H0. destruct (Hroot H0) as [[= ->] [= ->]]. done.
    + rewrite (bind_Ret _ _ _ _ _ Hse). exists (- EPERM), (t_uid t), (t_euid t). split.
      * by replace (t <| t_uid := u |> <| t_uid := t_uid t |>) with (t <| t_uid := t_uid t |> <| t_euid := t_euid t |>) by (by destruct t).
      * split; [by right|]. split; [auto|]. intros H0. by destruct (Hroot H0) as [_ [=]].
  - rewrite (bind_Ret _ _ _ _ _ Hr). exists (- EPERM), (t_uid t), (t_euid t). split.
    + replace (t <| t_uid := t_uid t |> <| t_euid := t_euid t |>) with t by (by destruct t). by rewrite with_me_id.
    + split; [by right|]. split; [auto|]. intros H0. by destruct (Hroot H0) as [[=] _].
Qed.

Lemma setreuid_safe_witness : let t := INIT_TASK <| t_uid := 100 |> <| t_euid := 200 |> in
  running (with_me t boot_kst) t /\
  exists r s', sys_setreuid 200 0 (with_me t boot_kst) = Ret r s' /\ (r = 0 \/ r = - EPERM).
Proof.
  intros t. split; [apply running_with_me|].
  destruct (setreuid_safe (with_me t boot_kst) t 200 0 (running_with_me t boot_kst))
    as (r & u & e & Hrun & Hr & _); [cbn; lia..|].
  exists r, (with_me (t <| t_uid := u |> <| t_euid := e |>) (with_me t boot_kst)). split; [exact Hrun|].
  destruct Hr as [Hr|[Hr _]]; [left|right]; exact Hr.
Defined.

(** ** Process numbers *)

(** the process number after [k + 1] increments of [last_pid] *)
Definition pid_after (n : Z) (k : nat) : Z :=
  let v := n + Z.of_nat k + 1 in if v <? 2 ^ 31 then v else v - 2 ^ 31 + 1.

Lemma pid_after_range n k : 0 <= n < 2 ^ 31 -> (k <= 100)%nat -> 1 <= pid_after n k < 2 ^ 31.
Proof. intros Hn Hk. unfold pid_after. cbv zeta. case_match eqn:H; [apply Z.ltb_lt in H|apply Z.ltb_ge in H]; lia. Qed.
Lemma pid_after_inj n i j : 0 <= n < 2 ^ 31 -> (i <= 100)%nat -> (j <= 100)%nat -> pid_after n i = pid_after n j -> i = j.
Proof.
  intros Hn Hi Hj. unfold pid_after. cbv zeta.
  destruct (Z.ltb_spec (n + Z.of_nat i + 1) (2 ^ 31)), (Z.ltb_spec (n + Z.of_nat j + 1) (2 ^ 31)); lia.
Qed.

(** the next one, as the code computes it *)
Definition step_pid (n : Z) : Z := if s32 (n + 1) <? 0 then 1 else s32 (n + 1).
Lemma step_pid_spec n : 0 <= n < 2 ^ 31 -> step_pid n = if n + 1 <? 2 ^ 31 then n + 1 else 1.
Proof.
  intros Hn. unfold step_pid. destruct (Z.ltb_spec (n + 1) (2 ^ 31)).
  - rewrite s32_id by lia. destruct (Z.ltb_spec (n + 1) 0); [lia|done].
  - assert (n + 1 = 2 ^ 31) as -> by lia. reflexivity.
Qed.
Lemma step_pid_range n : 0 <= n < 2 ^ 31 -> 1 <= step_pid n < 2 ^ 31.
Proof. intros Hn. rewrite step_pid_spec by done. destruct (Z.ltb_spec (n + 1) (2 ^ 31)); lia. Qed.
Lemma pid_after_step n k : 0 <= n < 2 ^ 31 -> (k <= 99)%nat -> pid_after (step_pid n) k = pid_after n (S k).
Proof.
  intros Hn Hk. rewrite step_pid_spec by done. unfold pid_after. cbv zeta.
  destruct (Z.ltb_spec (n + 1) (2 ^ 31)).
  - destruct (Z.ltb_spec (n + 1 + Z.of_nat k + 1) (2 ^ 31)), (Z.ltb_spec (n + Z.of_nat (S k) + 1) (2 ^ 31)); lia.
  - destruct (Z.ltb_spec (1 + Z.of_nat k + 1) (2 ^ 31)), (Z.ltb_spec (n + Z.of_nat (S k) + 1) (2 ^ 31)); lia.
Qed.

(** the process numbers in the task table *)
Definition pids (s : sched_st) : list Z := omap (fun o => p ← o; t_pid <$> tmem s !! p) (task s).

Lemma pid_in_use_spec s n : pid_in_use s n = true <-> n ∈ pids s.
Proof.
  unfold pid_in_use, pids. rewrite existsb_exists. rewrite list_elem_of_omap. split.
  - intros (o & Ho & H). exists o. split; [by apply list_elem_of_In|]. destruct o as [p|]; [|done]. cbn in *.
    destruct (tmem s !! p) as [t|]; [|done]. apply Z.eqb_eq in H. cbn. congruence.
  - intros (o & Ho & H). exists o. split; [by apply list_elem_of_In|]. destruct o as [p|]; [|done]. cbn in *.
    destruct (tmem s !! p) as [t|]; [|done]. cbn in H. injection H as <-. apply Z.eqb_refl.
Qed.

Lemma omap_length {A B} (f : A -> option B) (l : list A) : (length (omap f l) <= length l)%nat.
Proof. induction l as [|x l IH]; cbn; [lia|]. destruct (f x); cbn; lia. Qed.
Lemma pids_length s : (length (pids s) <= length (task s))%nat.
Proof. apply omap_length. Qed.

Definition with_pid (n : Z) (s : sched_st) : sched_st := s <| last_pid := n |>.

(** [n] rounds at most while the numbers tried so far are all taken *)
Lemma next_pid_loop s fuel k0 : 0 <= last_pid s < 2 ^ 31 ->
  (k0 < fuel)%nat -> (k0 <= 99)%nat -> pid_after (last_pid s) k0 ∉ pids s ->
  exists k, (k <= k0)%nat /\ (pid_after (last_pid s) k ∉ pids s) /\ (forall i, (i < k)%nat -> pid_after (last_pid s) i ∈ pids s) /\
    loop fuel (fun _ : unit =>
      modify (fun s => s <| last_pid ::= fun n => if s32 (n + 1) <? 0 then 1 else s32 (n + 1) |>) ;;
      s ← gets id;
      mret (if pid_in_use s (last_pid s) then inl tt else inr tt)) tt s = Ret tt (with_pid (pid_after (last_pid s) k) s).
Proof.
  revert s k0. induction fuel as [|fuel IH]; intros s k Hn Hk Hk9 Hfree; [lia|].
  set (s1 := with_pid (step_pid (last_pid s)) s).
  assert (forall j, (j <= 99)%nat -> pid_after (last_pid s1) j = pid_after (last_pid s) (S j)) as Hstep
    by (intros j Hj; by apply pid_after_step).
  assert (pid_after (last_pid s) 0 = step_pid (last_pid s)) as H0.
  { rewrite step_pid_spec by done. unfold pid_after. cbv zeta. change (Z.of_nat 0) with 0. rewrite Z.add_0_r.
    destruct (Z.ltb_spec (last_pid s + 1) (2 ^ 31)); [done|lia]. }
  destruct (pid_in_use s1 (step_pid (last_pid s))) eqn:Huse.
  - assert (pid_after (last_pid s) 0 ∈ pids s) as Hin by (rewrite H0; by apply (pid_in_use_spec s1)).
    destruct k as [|k]; [by destruct Hfree|].
    destruct (IH s1 k) as (j & Hj & Hjf & Hji & Hrun); [|lia|lia| |].
    + pose proof (step_pid_range _ Hn). change (last_pid s1) with (step_pid (last_pid s)). lia.
    + change (pids s1) with (pids s). by rewrite Hstep by lia.
    + exists (S j). split; [lia|]. rewrite Hstep in Hjf, Hrun by lia. split; [exact Hjf|]. split.
      * intros [|i] Hi; [done|]. rewrite <- Hstep by lia. apply (Hji i). lia.
      * rewrite (loop_again _ _ tt tt s s1); [exact Hrun|].
        rewrite (bind_Ret _ _ s tt s1) by done. rewrite (bind_Ret _ _ s1 s1 s1) by done.
        change (last_pid s1) with (step_pid (last_pid s)). by rewrite Huse.
  - exists 0%nat. split; [lia|]. split; [rewrite H0; intros Hin%(pid_in_use_spec s1); congruence|]. split; [lia|].
    rewrite (loop_done _ _ tt tt s s1); [by rewrite H0|].
    rewrite (bind_Ret _ _ s tt s1) by done. rewrite (bind_Ret _ _ s1 s1 s1) by done.
    change (last_pid s1) with (step_pid (last_pid s)). by rewrite Huse.
Qed.

(** of more numbers than there are tasks one is free *)
Lemma some_pid_free s : 0 <= last_pid s < 2 ^ 31 -> (length (task s) <= NR_TASKS)%nat ->
  exists k, (k <= NR_TASKS)%nat /\ pid_after (last_pid s) k ∉ pids s.
Proof.
  intros Hn Hlen. unfold NR_TASKS in *.
  assert (~ forall k, k ∈ seq 0 65 -> pid_after (last_pid s) k ∈ pids s) as Hno.
  { intros Hall. assert (pid_after (last_pid s) <$> seq 0 65 ⊆+ pids s) as Hsub.
    - apply NoDup_submseteq.
      + apply NoDup_fmap_2_strong; [|apply NoDup_seq]. intros i j Hi%elem_of_seq Hj%elem_of_seq. apply pid_after_inj; lia.
      + intros x (k & -> & Hk)%list_elem_of_fmap. by apply Hall.
    - apply submseteq_length in Hsub. rewrite length_fmap, length_seq in Hsub. pose proof (pids_length s). lia. }
  destruct (decide (Forall (fun k => pid_after (last_pid s) k ∈ pids s) (seq 0 65))) as [H|H].
  - destruct Hno. by apply Forall_forall.
  - apply not_Forall_Exists in H; [|apply _]. apply Exists_exists in H as (k & Hk%elem_of_seq & Hf). exists k. split; [lia|done].
Qed.

(** C29: [find_empty_process] always ends and gives the child a process number
    of its own: with at most 64 tasks the search ends within 65 rounds, also when
    the counter overflows; the new [last_pid] is positive, no task has it, and
    it is the first free one; the result is the lowest free slot, or -EAGAIN
    exactly when there is none; nothing else changes. *)
Theorem find_empty_process_correct (s : sched_st)
  (Hn : 0 <= last_pid s < 2 ^ 31) (Hlen : length (task s) = NR_TASKS) :
  exists k r, (k <= NR_TASKS)%nat /\ let n := pid_after (last_pid s) k in
    find_empty_process s = Ret r (with_pid n s) /\ 1 <= n < 2 ^ 31 /\ (n ∉ pids s) /\
    (forall i, (i < k)%nat -> pid_after (last_pid s) i ∈ pids s) /\
    ((exists i, r = Z.of_nat i /\ (1 <= i < NR_TASKS)%nat /\ task s !! i = Some None /\
        forall j, (1 <= j < i)%nat -> task s !! j <> Some None) \/
     r = - EAGAIN /\ forall j, (1 <= j < NR_TASKS)%nat -> task s !! j <> Some None).
Proof.
  destruct (some_pid_free s Hn ltac:(lia)) as (k0 & Hk0 & Hfree0). unfold NR_TASKS in Hk0.
  destruct (next_pid_loop s (S NR_TASKS + 1) k0 Hn ltac:(unfold NR_TASKS; lia) ltac:(lia) Hfree0) as (k & Hk & Hfree & Hfirst & Hrun).
  set (n := pid_after (last_pid s) k) in *.
  unfold find_empty_process. exists k. rewrite (bind_Ret next_pid _ s tt (with_pid n s) Hrun).
  rewrite (bind_Ret _ _ (with_pid n s) (with_pid n s) (with_pid n s)) by done. change (task (with_pid n s)) with (task s).
  destruct (list_find (fun i => task s !! i = Some None) (seq 1 (NR_TASKS - 1))) as [[i0 i]|] eqn:Hfind.
  - exists (Z.of_nat i). split; [unfold NR_TASKS; lia|]. cbv zeta. split; [done|].
    split; [apply pid_after_range; lia|]. do 2 (split; [done|]). left. exists i. split; [done|].
    apply list_find_Some in Hfind as (Hi & Hnone & Hbefore). apply lookup_seq in Hi as [-> Hi].
    split; [unfold NR_TASKS in *; lia|]. split; [done|]. intros j Hj. apply (Hbefore (j - 1)%nat j); [|lia].
    apply lookup_seq. unfold NR_TASKS in *. lia.
  - exists (- EAGAIN). split; [unfold NR_TASKS; lia|]. cbv zeta. split; [done|].
    split; [apply pid_after_range; lia|]. do 2 (split; [done|]). right. split; [done|].
    apply list_find_None in Hfind. intros j Hj. rewrite Forall_forall in Hfind. apply Hfind, elem_of_seq. lia.
Qed.

Lemma last_pid_with n s : last_pid (with_pid n s) = n.
Proof. reflexivity. Qed.
(** the counter overflows and 1 and 2 are taken *)
Definition overflowing : sched_st := with_pid (2 ^ 31 - 1) two_tasks.
Lemma find_empty_process_correct_witness :
  exists r s', find_empty_process overflowing = Ret r s' /\ last_pid s' ∉ pids overflowing.
Proof.
  destruct (find_empty_process_correct overflowing) as (k & r & _ & Hrun & _ & Hfree & _).
  - cbn. lia.
  - vm_compute. reflexivity.
  - exists r, (with_pid (pid_after (last_pid overflowing) k) overflowing). rewrite last_pid_with. split; [exact Hrun|exact Hfree].
Defined.

(** ** File descriptors *)

Lemma free_fd_spec l n : match free_fd l n with
  | Some k => exists i, k = (n + i)%nat /\ l !! i = Some None /\ forall j, (j < i)%nat -> exists f, l !! j = Some (Some f)
  | None => forall j, (j < length l)%nat -> exists f, l !! j = Some (Some f)
  end.
Proof.
  revert n. induction l as [|[f|] l IH]; intros n; cbn [free_fd].
  - intros j. cbn. lia.
  - specialize (IH (S n)). destruct (free_fd l (S n)) as [k|].
    + destruct IH as (i & -> & Hi & Hj). exists (S i). split; [lia|]. split; [done|].
      intros [|j] Hlt; [by exists f|]. apply Hj. lia.
    + intros [|j] Hlt; [by exists f|]. apply IH. cbn in Hlt. lia.
  - exists 0%nat. split; [lia|]. split; [done|]. lia.
Qed.

Definition with_file (f : nat) (x : file) (s : kst) : kst := s <| fsys ::= fun y => y <| file_table ::= <[f := x]> |> |>.
Lemma getfile_run s f x : file_table (fsys s) !! f = Some x -> getfile f s = Ret x s.
Proof. intros H. unfold getfile. mrun. by rewrite H. Qed.
Lemma setfile_run s f x g : file_table (fsys s) !! f = Some x -> setfile f g s = Ret tt (with_file f (g x) s).
Proof. intros H. unfold setfile. by rewrite (bind_Ret _ _ _ _ _ (getfile_run _ _ _ H)). Qed.

(** the state with task [t] running and entry [x] of file [f] *)
Definition with_both (t : task_struct) (f : nat) (x : file) (s : kst) : kst := with_file f x (with_me t s).
Lemma me_both t f x s : me (with_both t f x s) = Ret t (with_both t f x s).
Proof. apply me_run. apply (running_with_me t s). Qed.
Lemma setme_both t f x s g : setme g (with_both t f x s) = Ret tt (with_both (g t) f x s).
Proof.
  rewrite (setme_run _ t) by (apply (running_with_me t s)). unfold with_both.
  f_equal. destruct s as [? []]. unfold with_me, with_file, upd. cbn. by rewrite insert_insert_eq.
Qed.
Lemma setfile_both t f x s g : (f < length (file_table (fsys s)))%nat ->
  setfile f g (with_both t f x s) = Ret tt (with_both t f (g x) s).
Proof.
  intros Hf. rewrite (setfile_run _ f x).
  - f_equal. destruct s as [? ? []]. unfold with_both, with_me, with_file, upd. cbn. by rewrite list_insert_insert_eq.
  - unfold with_both, with_file, with_me, upd. cbn. by apply list_lookup_insert_eq.
Qed.
Lemma getfile_both t f x s : (f < length (file_table (fsys s)))%nat -> getfile f (with_both t f x s) = Ret x (with_both t f x s).
Proof. intros Hf. apply getfile_run. unfold with_both, with_file, with_me, upd. cbn. by apply list_lookup_insert_eq. Qed.
Lemma with_both_id t f x s : running s t -> file_table (fsys s) !! f = Some x -> with_both t f x s = s.
Proof.
  intros Ht Hf. unfold with_both. rewrite with_me_id by done. destruct s as [? ? []]. unfold with_file, upd. cbn in *.
  by rewrite list_insert_id.
Qed.

(** the task after descriptor [fd] has been given to file [o] *)
Definition with_fd (fd : nat) (o : option nat) (t : task_struct) : task_struct :=
  t <| t_close_on_exec ::= fun c => Z.land c (not32 (bit (Z.of_nat fd))) |> <| t_filp ::= <[fd := o]> |>.
Definition counted (d : Z) (x : file) : file := x <| f_count ::= fun c => u16 (c + d) |>.

Section Dup.
Context {E : Env}.
Variables (s : kst) (t : task_struct) (f : nat) (x : file).
Hypothesis Ht : running s t.
Hypothesis Hopen : length (t_filp t) = NR_OPEN.
Hypothesis Hx : file_table (fsys s) !! f = Some x.

Lemma dup_run fd new : (fd < NR_OPEN)%nat -> t_filp t !! fd = Some (Some f) -> free_fd (t_filp t) 0 = Some new ->
  sys_dup (Z.of_nat fd) s = Ret (Z.of_nat new) (with_both (with_fd new (Some f) t) f (counted 1 x) s).
Proof.
  intros Hfd Hf Hnew. pose proof (lookup_lt_Some _ _ _ Hx) as Hlt. rewrite <- (with_both_id t f x s Ht Hx) at 1.
  unfold sys_dup, dupfd. rewrite (bind_Ret _ _ _ (Some f) (with_both t f x s)).
  2:{ unfold fd_file. destruct (Z.leb_spec (Z.of_nat NR_OPEN) (Z.of_nat fd)); [lia|].
      rewrite (bind_Ret _ _ _ _ _ (me_both _ _ _ _)), Nat2Z.id, Hf. done. }
  change (Z.of_nat NR_OPEN <=? 0) with false. cbn iota. rewrite (bind_Ret _ _ _ _ _ (me_both _ _ _ _)).
  change (drop (Z.to_nat 0) (t_filp t)) with (t_filp t). change (Z.to_nat 0) with 0%nat. rewrite Hnew.
  unfold clear_cloexec, set_filp. rewrite (bind_Ret _ _ _ _ _ (setme_both _ _ _ _ _)).
  rewrite (bind_Ret _ _ _ _ _ (setme_both _ _ _ _ _)). by rewrite (bind_Ret _ _ _ _ _ (setfile_both _ _ _ _ _ Hlt)).
Qed.

(** closing a descriptor of a file that has another user *)
Lemma close_run fd t' c : (fd < NR_OPEN)%nat -> t_filp t' !! fd = Some (Some f) -> 1 < f_count c < 2 ^ 16 ->
  sys_close (Z.of_nat fd) (with_both t' f c s) = Ret 0 (with_both (with_fd fd None t') f (counted (-1) c) s).
Proof using E Hx.
  clear Hopen Ht.
  intros Hfd Hf Hc. pose proof (lookup_lt_Some _ _ _ Hx) as Hlt. unfold sys_close.
  destruct (Z.leb_spec (Z.of_nat NR_OPEN) (Z.of_nat fd)); [lia|]. unfold clear_cloexec, set_filp.
  rewrite (bind_Ret _ _ _ _ _ (setme_both _ _ _ _ _)), (bind_Ret _ _ _ _ _ (me_both _ _ _ _)), Nat2Z.id.
  rewrite (bind_Ret _ _ _ _ _ (deref_run _ _ _ Hf)). rewrite (bind_Ret _ _ _ _ _ (setme_both _ _ _ _ _)).
  rewrite (bind_Ret _ _ _ _ _ (getfile_both _ _ _ _ Hlt)). rewrite (proj2 (Z.eqb_neq _ _)) by lia.
  rewrite (bind_Ret _ _ _ _ _ (setfile_both _ _ _ _ _ Hlt)), (bind_Ret _ _ _ _ _ (getfile_both _ _ _ _ Hlt)).
  change (f_count (c <| f_count ::= fun c => u16 (c - 1) |>)) with (u16 (f_count c - 1)). rewrite u16_id by lia.
  rewrite (proj2 (nz_true _)) by lia. done.
Qed.
End Dup.

(** C30: [dup] and [close]: [dup] of an open descriptor takes the lowest free
    descriptor, makes it refer to the same open file and counts one more user;
    closing it returns 0 and gives back the descriptor table, the count and
    every other part of the state, the close-on-exec flag of that number apart;
    with no free descriptor [dup] returns -EMFILE and changes nothing. *)
Theorem dup_close_roundtrip `{E : Env} (s : kst) (t : task_struct) (fd f : nat) (x : file)
  (Ht : running s t) (Hopen : length (t_filp t) = NR_OPEN) (Hfd : (fd < NR_OPEN)%nat)
  (Hf : t_filp t !! fd = Some (Some f)) (Hx : file_table (fsys s) !! f = Some x) (Hc : 1 <= f_count x < 2 ^ 16 - 1) :
  (forall i, (i < NR_OPEN)%nat -> exists g, t_filp t !! i = Some (Some g)) /\ sys_dup (Z.of_nat fd) s = Ret (- EMFILE) s \/
  exists new s1, t_filp t !! new = Some None /\ (forall i, (i < new)%nat -> exists g, t_filp t !! i = Some (Some g)) /\
    sys_dup (Z.of_nat fd) s = Ret (Z.of_nat new) s1 /\
    (exists t1, running s1 t1 /\ t_filp t1 = <[new := Some f]> (t_filp t)) /\
    file_table (fsys s1) = <[f := x <| f_count := f_count x + 1 |>]> (file_table (fsys s)) /\
    sys_close (Z.of_nat new) s1 =
      Ret 0 (with_me (t <| t_close_on_exec ::= fun c => Z.land c (not32 (bit (Z.of_nat new))) |>) s).
Proof.
  pose proof (free_fd_spec (t_filp t) 0) as Hspec. destruct (free_fd (t_filp t) 0) as [new|] eqn:Hnew.
  - right. destruct Hspec as (new' & -> & Hnone & Hbefore). rename new' into new.
    pose proof (lookup_lt_Some _ _ _ Hnone) as Hlt. rewrite Hopen in Hlt.
    exists new, (with_both (with_fd new (Some f) t) f (counted 1 x) s).
    assert (counted 1 x = x <| f_count := f_count x + 1 |>) as Hcount by (unfold counted, upd; cbn; by rewrite u16_id by lia).
    split; [done|]. split; [done|]. split; [by apply dup_run|]. split.
    + exists (with_fd new (Some f) t). split; [apply (running_with_me _ s)|done].
    + split; [by rewrite <- Hcount|]. rewrite (close_run s f x); [|done|done| |].
      * f_equal. rewrite <- (with_both_id t f x s Ht Hx) at 2. unfold with_both.
        assert (counted (-1) (counted 1 x) = x) as ->.
        { rewrite Hcount. destruct x. unfold counted, upd. cbn in *. f_equal. rewrite u16_id by lia. lia. }
        assert (with_fd new None (with_fd new (Some f) t) =
                t <| t_close_on_exec ::= fun c => Z.land c (not32 (bit (Z.of_nat new))) |>) as ->.
        { destruct t. unfold with_fd, upd. cbn in *. f_equal; [by rewrite <- Z.land_assoc, Z.land_diag|].
          by rewrite list_insert_insert_eq, list_insert_id. }
        destruct s as [? [] []]. unfold with_me, with_file, upd. cbn. by rewrite insert_insert_eq.
      * change (<[new := Some f]> (t_filp t) !! new = Some (Some f)). apply list_lookup_insert_eq. lia.
      * rewrite Hcount. cbn. lia.
  - left. rewrite Hopen in Hspec. split; [done|].
    unfold sys_dup, dupfd. rewrite (bind_Ret _ _ s (Some f) s).
    2:{ unfold fd_file. destruct (Z.leb_spec (Z.of_nat NR_OPEN) (Z.of_nat fd)); [lia|].
        by rewrite (bind_Ret _ _ _ _ _ (me_run _ _ Ht)), Nat2Z.id, Hf. }
    change (Z.of_nat NR_OPEN <=? 0) with false. cbn iota. rewrite (bind_Ret _ _ _ _ _ (me_run _ _ Ht)).
    change (drop (Z.to_nat 0) (t_filp t)) with (t_filp t). change (Z.to_nat 0) with 0%nat. by rewrite Hnew.
Qed.

(** task 0 with descriptor 0 open on file 5 *)
Definition one_open : task_struct := INIT_TASK <| t_filp ::= <[0%nat := Some 5%nat]> |>.
Definition one_open_file : kst := with_both one_open 5 (mk_file 0 0 1 (Some 3%nat) 0) boot_kst.
Lemma dup_close_roundtrip_witness : exists s1 s2,
  sys_dup 0 one_open_file = Ret 1 s1 /\ @sys_close (quiet_env 1) 1 s1 = Ret 0 s2.
Proof.
  destruct (@dup_close_roundtrip (quiet_env 1) one_open_file one_open 0 5 (mk_file 0 0 1 (Some 3%nat) 0))
    as [[Hall _]|(new & s1 & Hnone & Hbefore & Hdup & _ & _ & Hclose)].
  - apply (running_with_me one_open boot_kst).
  - vm_compute. reflexivity.
  - unfold NR_OPEN. lia.
  - reflexivity.
  - vm_compute. reflexivity.
  - cbn. lia.
  - exfalso. destruct (Hall 1%nat) as [g Hg]; [unfold NR_OPEN; lia|discriminate Hg].
  - assert (new = 1%nat) as ->.
    { destruct new as [|[|new]]; [discriminate Hnone|reflexivity|].
      destruct (Hbefore 1%nat) as [g Hg]; [lia|discriminate Hg]. }
    eexists s1, _. split; [exact Hdup|exact Hclose].
Defined.
