(* ===== verification/Console.v ===== *)
(** * kernel/chr_drv/console.cc, serial.cc, tty_io.cc: terminals

    The console echoes through the terminal layer and the terminal layer writes
    through the console: [con_write] takes [copy_to_cooked] as a parameter,
    [copy_to_cooked] the [write] function of the terminal, and [tty_write_fn]
    ties the knot. *)

From S2P Require Import Prelude State Memory Sched TtyQueue.

Definition VIDEO_TYPE_MDA : Z := 0x10.
Definition VIDEO_TYPE_CGA : Z := 0x11.
Definition VIDEO_TYPE_EGAM : Z := 0x20.
Definition VIDEO_TYPE_EGAC : Z := 0x21.
Definition NPAR : nat := 16.

(** a cell of the display: attribute and character *)
Definition cell (c : con_st) (a : Z) : Z := default 0 (vram c !! a).
Definition put_cell (a v : Z) (c : con_st) : con_st := c <| vram ::= insert a (u16 v) |>.

(** [rep ; stosw]: [n] cells from [a] on, upwards or downwards *)
Definition stosw (a : Z) (n : nat) (v : Z) (c : con_st) : con_st :=
  foldl (fun c k => put_cell (a + 2 * Z.of_nat k) v c) c (seq 0 n).
Definition stosw_down (a : Z) (n : nat) (v : Z) (c : con_st) : con_st :=
  foldl (fun c k => put_cell (a - 2 * Z.of_nat k) v c) c (seq 0 n).
(** [rep ; movsl]: [n] pairs of cells *)
Definition movsl (from to : Z) (n : nat) (c : con_st) : con_st :=
  foldl (fun c k => put_cell (to + 2 * Z.of_nat k) (cell c (from + 2 * Z.of_nat k)) c) c (seq 0 (2 * n)).
Definition movsl_down (from to : Z) (n : nat) (c : con_st) : con_st :=
  foldl (fun c k => put_cell (to + 2 - 2 * Z.of_nat k) (cell c (from + 2 - 2 * Z.of_nat k)) c) c (seq 0 (2 * n)).

Definition columns (c : con_st) : nat := Z.to_nat (video_num_columns c).
(** the cells of the scroll region but one line, in pairs *)
Definition region_pairs (c : con_st) : nat :=
  Z.to_nat (Z.shiftr (u32 (u32 (bottom c - top c - 1) * video_num_columns c)) 1).

(** ** The cursor and scrolling, on the display state *)

Definition gotoxy (new_x new_y : Z) (c : con_st) : con_st :=
  if (video_num_columns c <? u32 new_x) || (video_num_lines c <=? u32 new_y) then c else
  c <| cur_x := u32 new_x |> <| cur_y := u32 new_y |>
    <| pos := u32 (origin c + u32 new_y * video_size_row c + 2 * u32 new_x) |>.

Definition is_ega (c : con_st) : bool := (video_type c =? VIDEO_TYPE_EGAC) || (video_type c =? VIDEO_TYPE_EGAM).

(** scrolling by moving the lines of the region *)
Definition scroll_up_region (c : con_st) : con_st :=
  let d := origin c + video_size_row c * top c in
  let n := region_pairs c in
  stosw (d + 4 * Z.of_nat n) (columns c) (video_erase_char c) (movsl (d + video_size_row c) d n c).

(** scrolling by moving the origin; when the end of the video memory is
    reached the display is copied back to its start *)
Definition scroll_up_origin (c : con_st) : con_st :=
  let c := c <| origin ::= Z.add (video_size_row c) |> <| pos ::= Z.add (video_size_row c) |>
             <| scr_end ::= Z.add (video_size_row c) |> in
  if video_mem_end c <? scr_end c then
    let n := Z.to_nat (Z.shiftr (u32 (u32 (video_num_lines c - 1) * video_num_columns c)) 1) in
    let c := stosw (video_mem_start c + 4 * Z.of_nat n) (columns c) (video_erase_char c)
               (movsl (origin c) (video_mem_start c) n c) in
    let d := origin c - video_mem_start c in
    c <| scr_end ::= fun e => e - d |> <| pos ::= fun p => p - d |> <| origin := video_mem_start c |>
  else stosw (scr_end c - video_size_row c) (columns c) (video_erase_char c) c.

Definition scrolls_origin (c : con_st) : bool := is_ega c && (top c =? 0) && (bottom c =? video_num_lines c).

Definition scrdown (c : con_st) : con_st :=
  let d := origin c + video_size_row c * bottom c - 4 in
  let s := origin c + video_size_row c * (bottom c - 1) - 4 in
  let n := region_pairs c in
  stosw_down (d - 4 * Z.of_nat n + 2) (columns c) (video_erase_char c) (movsl_down s d n c).

Definition ri (c : con_st) : con_st :=
  if top c <? cur_y c then c <| cur_y ::= fun y => y - 1 |> <| pos ::= fun p => p - video_size_row c |> else scrdown c.
Definition cr (c : con_st) : con_st := c <| pos ::= fun p => p - 2 * cur_x c |> <| cur_x := 0 |>.
Definition del (c : con_st) : con_st :=
  if cur_x c =? 0 then c else
  put_cell (pos c - 2) (video_erase_char c) (c <| pos ::= fun p => p - 2 |> <| cur_x ::= fun x => x - 1 |>).

Definition csi_J (p : Z) (c : con_st) : con_st :=
  if p =? 0 then stosw (pos c) (Z.to_nat (Z.shiftr (u32 (scr_end c - pos c)) 1)) (video_erase_char c) c
  else if p =? 1 then stosw (origin c) (Z.to_nat (Z.shiftr (u32 (pos c - origin c)) 1)) (video_erase_char c) c
  else if p =? 2 then stosw (origin c) (Z.to_nat (video_num_columns c * video_num_lines c)) (video_erase_char c) c
  else c.
Definition csi_K (p : Z) (c : con_st) : con_st :=
  if p =? 0 then
    if video_num_columns c <=? cur_x c then c
    else stosw (pos c) (Z.to_nat (video_num_columns c - cur_x c)) (video_erase_char c) c
  else if p =? 1 then stosw (pos c - 2 * cur_x c) (Z.to_nat (Z.min (cur_x c) (video_num_columns c))) (video_erase_char c) c
  else if p =? 2 then stosw (pos c - 2 * cur_x c) (columns c) (video_erase_char c) c
  else c.

Definition csi_m (c : con_st) : con_st :=
  foldl (fun c p => if p =? 0 then c <| attr := 0x07 |> else if p =? 1 then c <| attr := 0x0f |>
                    else if p =? 4 then c <| attr := 0x0f |> else if p =? 7 then c <| attr := 0x70 |>
                    else if p =? 27 then c <| attr := 0x07 |> else c) c (take (S (npar c)) (par c)).

(** the characters from the cursor to the end of the line move right, or left *)
Definition insert_char (c : con_st) : con_st :=
  fst (foldl (fun '(c, old) k => let p := pos c + 2 * Z.of_nat k in (put_cell p old c, cell c p))
             (c, video_erase_char c) (seq 0 (Z.to_nat (video_num_columns c - cur_x c)))).
Definition delete_char (c : con_st) : con_st :=
  if video_num_columns c <=? cur_x c then c else
  let n := Z.to_nat (video_num_columns c - cur_x c - 1) in
  put_cell (pos c + 2 * Z.of_nat n) (video_erase_char c)
    (foldl (fun c k => let p := pos c + 2 * Z.of_nat k in put_cell p (cell c (p + 2)) c) c (seq 0 n)).

(** a line operation works on the region from the cursor line to the bottom of the display *)
Definition below_cursor (f : con_st -> con_st) (c : con_st) : con_st :=
  (f (c <| top := cur_y c |> <| bottom := video_num_lines c |>)) <| top := top c |> <| bottom := bottom c |>.
Definition insert_line : con_st -> con_st := below_cursor scrdown.

(** how often an operation with parameter [nr] is repeated *)
Definition repeats (nr limit : Z) : nat := Z.to_nat (if limit <? u32 nr then limit else if u32 nr =? 0 then 1 else u32 nr).
Definition csi_at (nr : Z) (c : con_st) : con_st := Nat.iter (repeats nr (video_num_columns c)) insert_char c.
Definition csi_L (nr : Z) (c : con_st) : con_st := Nat.iter (repeats nr (video_num_lines c)) insert_line c.
Definition csi_P (nr : Z) (c : con_st) : con_st := Nat.iter (repeats nr (video_num_columns c)) delete_char c.

Definition save_cur (c : con_st) : con_st := c <| saved_x := s32 (cur_x c) |> <| saved_y := s32 (cur_y c) |>.
Definition restore_cur (c : con_st) : con_st := gotoxy (saved_x c) (saved_y c) c.

Section Console.
Context {E : Env}.

Definition getcon : K con_st := gets con.

(** the registers [hi] and [hi+1] of the display controller get a cell number *)
Definition set_video_reg (reg : Z) (a : con_st -> Z) : K unit :=
  c ← getcon;
  let o := u32 (a c - video_mem_start c) in
  outb reg (video_port_reg c) ;; outb (Z.land 0xff (Z.shiftr o 9)) (video_port_val c) ;;
  outb (reg + 1) (video_port_reg c) ;; outb (Z.land 0xff (Z.shiftr o 1)) (video_port_val c).
Definition set_origin : K unit := set_video_reg 12 origin.
Definition set_cursor : K unit := set_video_reg 14 pos.

Definition scrup : K unit :=
  c ← getcon;
  if scrolls_origin c then on_con scroll_up_origin ;; set_origin else on_con scroll_up_region.

Definition lf : K unit :=
  c ← getcon;
  if cur_y c + 1 <? bottom c
  then on_con (fun c => c <| cur_y ::= Z.add 1 |> <| pos ::= Z.add (video_size_row c) |>)
  else scrup.

(** [delete_line] may set the origin, so it is not a pure function of the display *)
Definition delete_line : K unit :=
  c ← getcon;
  on_con (fun c => c <| top := cur_y c |> <| bottom := video_num_lines c |>) ;;
  scrup ;;
  on_con (fun d => d <| top := top c |> <| bottom := bottom c |>).
Definition csi_M (nr : Z) : K unit :=
  c ← getcon; for_each (seq 0 (repeats nr (video_num_lines c))) (fun _ => delete_line).

Definition sysbeep : K unit :=
  v ← inb 0x61; outb (Z.lor v 3) 0x61 ;;
  outb 0xB6 0x43 ;; outb 0x37 0x42 ;; outb 0x06 0x42 ;;
  on_sched (fun s => s <| beepcount := HZ / 8 |>).

(** the final character of a CSI sequence, with its parameters.  [par] is changed in place *)
Definition get_par (k : nat) : K Z := c ← getcon; deref (par c !! k).
Definition set_par (k : nat) (f : Z -> Z) : K unit := on_con (fun c => c <| par ::= alter (fun v => u32 (f v)) k |>).
Definition dec_par (k : nat) : K unit := set_par k (fun v => if v =? 0 then v else v - 1).
Definition one_par : K unit := set_par 0 (fun v => if v =? 0 then 1 else v).

Definition csi_final (c : Z) : K unit :=
  let among (l : list Z) := bool_decide (c ∈ l) in
  if among [0x47; 0x60] then dec_par 0 ;; p ← get_par 0; on_con (fun c => gotoxy p (cur_y c) c)                (* G ` *)
  else if among [0x41] then one_par ;; p ← get_par 0; on_con (fun c => gotoxy (cur_x c) (cur_y c - p) c)       (* A *)
  else if among [0x42; 0x65] then one_par ;; p ← get_par 0; on_con (fun c => gotoxy (cur_x c) (cur_y c + p) c) (* B e *)
  else if among [0x43; 0x61] then one_par ;; p ← get_par 0; on_con (fun c => gotoxy (cur_x c + p) (cur_y c) c) (* C a *)
  else if among [0x44] then one_par ;; p ← get_par 0; on_con (fun c => gotoxy (cur_x c - p) (cur_y c) c)       (* D *)
  else if among [0x45] then one_par ;; p ← get_par 0; on_con (fun c => gotoxy 0 (cur_y c + p) c)               (* E *)
  else if among [0x46] then one_par ;; p ← get_par 0; on_con (fun c => gotoxy 0 (cur_y c - p) c)               (* F *)
  else if among [0x64] then dec_par 0 ;; p ← get_par 0; on_con (fun c => gotoxy (cur_x c) p c)                 (* d *)
  else if among [0x48; 0x66] then                                                                              (* H f *)
    dec_par 0 ;; dec_par 1 ;; p ← get_par 0; q ← get_par 1; on_con (gotoxy q p)
  else if among [0x4A] then p ← get_par 0; on_con (csi_J (s32 p))                                              (* J *)
  else if among [0x4B] then p ← get_par 0; on_con (csi_K (s32 p))                                              (* K *)
  else if among [0x4C] then p ← get_par 0; on_con (csi_L p)                                                    (* L *)
  else if among [0x4D] then p ← get_par 0; csi_M p                                                             (* M *)
  else if among [0x50] then p ← get_par 0; on_con (csi_P p)                                                    (* P *)
  else if among [0x40] then p ← get_par 0; on_con (csi_at p)                                                   (* @ *)
  else if among [0x6D] then on_con csi_m                                                                       (* m *)
  else if among [0x72] then                                                                                    (* r *)
    dec_par 0 ;; c ← getcon;
    set_par 1 (fun v => if v =? 0 then video_num_lines c else v) ;;
    p ← get_par 0; q ← get_par 1;
    when ((p <? q) && (q <=? video_num_lines c)) (on_con (fun c => c <| top := p |> <| bottom := q |>))
  else if among [0x73] then on_con save_cur                                                                    (* s *)
  else if among [0x75] then on_con restore_cur                                                                 (* u *)
  else mret tt.

(** beyond the last column the cursor goes to the next line first *)
Definition wrap_column : K unit :=
  on_con (fun c => c <| cur_x ::= fun x => x - video_num_columns c |> <| pos ::= fun p => p - video_size_row c |>) ;; lf.

(** a character outside an escape sequence *)
Definition con_plain (t : nat) (ch : Z) : K unit :=
  c ← getcon; x ← gettty t;
  if (31 <? ch) && (ch <? 127) then
    when (video_num_columns c <=? cur_x c) wrap_column ;;
    on_con (fun c => put_cell (pos c) (ch + 2 ^ 8 * attr c) c) ;;
    on_con (fun c => c <| pos ::= Z.add 2 |> <| cur_x ::= Z.add 1 |>)
  else if ch =? 27 then on_con (fun c => c <| con_state := 1 |>)
  else if (ch =? 10) || (ch =? 11) || (ch =? 12) then lf
  else if ch =? 13 then on_con cr
  else if ch =? get8 (c_cc (tty_termios x)) 2 then on_con del          (* ERASE_CHAR *)
  else if ch =? 8 then
    on_con (fun c => if cur_x c =? 0 then c else c <| cur_x ::= fun x => x - 1 |> <| pos ::= fun p => p - 2 |>)
  else if ch =? 9 then
    on_con (fun c => let n := 8 - Z.land (cur_x c) 7 in c <| cur_x ::= Z.add n |> <| pos ::= Z.add (2 * n) |>) ;;
    c ← getcon; when (video_num_columns c <? cur_x c) wrap_column
  else when (ch =? 7) sysbeep.

(** a character of a CSI sequence: a parameter or the final character *)
Definition con_csi (ch : Z) : K unit :=
  c ← getcon;
  if (ch =? 0x3B) && (npar c <? NPAR - 1)%nat then on_con (fun c => c <| npar ::= S |>)
  else if (0x30 <=? ch) && (ch <=? 0x39) then set_par (npar c) (fun v => 10 * v + ch - 0x30)
  else on_con (fun c => c <| con_state := 0 |>) ;; csi_final ch.

Definition RESPONSE : list Z := [27; 0x5B; 0x3F; 0x31; 0x3B; 0x32; 0x63].     (* ESC [ ? 1 ; 2 c *)

(** [c] is a [char]: what is above 127 is negative *)
Definition con_char (copy_to_cooked : nat -> K unit) (t : nat) (ch : Z) : K unit :=
  c ← getcon;
  if con_state c =? 0 then con_plain t (s8 ch)
  else if con_state c =? 1 then
    on_con (fun c => c <| con_state := 0 |>) ;;
    if ch =? 0x5B then on_con (fun c => c <| con_state := 2 |>)
    else if ch =? 0x45 then on_con (fun c => gotoxy 0 (cur_y c + 1) c)
    else if ch =? 0x4D then on_con ri
    else if ch =? 0x44 then lf
    else if ch =? 0x5A then for_each RESPONSE (putch t READ_Q) ;; copy_to_cooked t
    else if cur_x c =? 0x37 then on_con save_cur          (* the code tests [x], not [c] *)
    else when (cur_x c =? 0x38) (on_con restore_cur)
  else if con_state c =? 2 then
    on_con (fun c => c <| par := replicate NPAR 0 |> <| npar := 0%nat |> <| con_state := 3 |>
                       <| ques := b2z (ch =? 0x3F) |>) ;;
    if ch =? 0x3F then mret tt else con_csi ch
  else con_csi ch.

Definition con_write_with (copy_to_cooked : nat -> K unit) (t : nat) : K unit :=
  x ← getq t WRITE_Q;
  for_each (seq 0 (Z.to_nat (CHARS x))) (fun _ => c ← getch t WRITE_Q; con_char copy_to_cooked t c) ;;
  set_cursor.

Definition con_init (cols lines_x lines_y mode ega_bx : Z) : K unit :=
  let mono := mode =? 7 in
  let ega := negb (Z.land ega_bx 0xff =? 0x10) in
  let start := if mono then 0xb0000 else 0xb8000 in
  on_con (fun c => c
    <| video_num_columns := cols |> <| video_size_row := cols * 2 |> <| video_num_lines := 25 |>
    <| video_erase_char := 0x0720 |> <| video_mem_start := start |>
    <| video_port_reg := if mono then 0x3b4 else 0x3d4 |> <| video_port_val := if mono then 0x3b5 else 0x3d5 |>
    <| video_type := if mono then (if ega then VIDEO_TYPE_EGAM else VIDEO_TYPE_MDA)
                     else (if ega then VIDEO_TYPE_EGAC else VIDEO_TYPE_CGA) |>
    <| video_mem_end := if mono then (if ega then 0xb8000 else 0xb2000) else (if ega then 0xbc000 else 0xba000) |>) ;;
  (* the four letters of the type at the end of the first line: only the characters change *)
  let desc := if mono then (if ega then [0x45; 0x47; 0x41; 0x6D] else [0x2A; 0x4D; 0x44; 0x41])
              else (if ega then [0x45; 0x47; 0x41; 0x63] else [0x2A; 0x43; 0x47; 0x41]) in
  for_each (imap pair desc) (fun '(k, ch) =>
    on_con (fun c => let a := start + cols * 2 - 8 + 2 * Z.of_nat k in
                     put_cell a (Z.lor (Z.land (cell c a) 0xff00) ch) c)) ;;
  on_con (fun c => c <| origin := start |> <| scr_end := start + 25 * (cols * 2) |> <| top := 0 |> <| bottom := 25 |>) ;;
  on_con (gotoxy lines_x lines_y) ;;
  v ← inb 0x21; outb (Z.land v 0xfd) 0x21 ;;
  a ← inb 0x61; outb (Z.lor a 0x80) 0x61 ;; outb a 0x61.

(** ** kernel/chr_drv/serial.cc *)
Definition rs_init_port (port : Z) : K unit :=
  outb 0x80 (port + 3) ;; outb 0x30 port ;; outb 0x00 (port + 1) ;; outb 0x03 (port + 3) ;;
  outb 0x0b (port + 4) ;; outb 0x0d (port + 1) ;; _ ← inb port; mret tt.
Definition rs_init : K unit :=
  q ← getq 1 READ_Q; rs_init_port (q_data q) ;;
  q ← getq 2 READ_Q; rs_init_port (q_data q) ;;
  v ← inb 0x21; outb (Z.land v 0xE7) 0x21.
Definition rs_write (t : nat) : K unit :=
  q ← getq t WRITE_Q;
  unless (EMPTY q) (v ← inb (q_data q + 1); outb (Z.lor v 0x02) (q_data q + 1)).
End Console.
