(* ===== verification/Tty.v ===== *)
(** * kernel/chr_drv/tty_io.cc: the line discipline, reading and writing a terminal *)

From S2P Require Import Prelude Ctype State Memory Sched TtyQueue Console.

(** ** include/termios.h *)
Definition VINTR : nat := 0.
Definition VQUIT : nat := 1.
Definition VERASE : nat := 2.
Definition VKILL : nat := 3.
Definition VEOF : nat := 4.
Definition VTIME : nat := 5.
Definition VMIN : nat := 6.
Definition VSTART : nat := 8.
Definition VSTOP : nat := 9.
Definition INLCR : Z := 0x40.
Definition IGNCR : Z := 0x80.
Definition ICRNL : Z := 0x100.
Definition IUCLC : Z := 0x200.
Definition OPOST : Z := 0x1.
Definition OLCUC : Z := 0x2.
Definition ONLCR : Z := 0x4.
Definition OCRNL : Z := 0x8.
Definition ONLRET : Z := 0x20.
Definition ISIG : Z := 0x1.
Definition ICANON : Z := 0x2.
Definition ECHO : Z := 0x8.
Definition ECHOCTL : Z := 0x200.

(** the flags and control characters of a terminal *)
Definition lflag (x : tty_struct) (f : Z) : bool := nz (Z.land (c_lflag (tty_termios x)) f).
Definition iflag (x : tty_struct) (f : Z) : bool := nz (Z.land (c_iflag (tty_termios x)) f).
Definition oflag (x : tty_struct) (f : Z) : bool := nz (Z.land (c_oflag (tty_termios x)) f).
Definition cc (x : tty_struct) (k : nat) : Z := get8 (c_cc (tty_termios x)) k.

Definition INTMASK : Z := bit (SIGINT - 1).
Definition QUITMASK : Z := bit (SIGQUIT - 1).
Definition ALRMMASK : Z := bit (SIGALRM - 1).

Section Tty.
Context {E : Env}.

(** ** The line discipline *)
Section Cooked.
Variable write : nat -> K unit.      (* [tty->write] *)

(** erase one character of the echo *)
Definition echo_erase (t : nat) (c : Z) : K unit :=
  x ← gettty t;
  when (lflag x ECHO)
    (when (c <? 32) (putch t WRITE_Q 127) ;;
     putch t WRITE_Q 127 ;; write t).

(** [KILL_CHAR]: the characters of the line that is being typed are removed *)
Definition kill_line (t : nat) : K unit :=
  loop (S 1024) (fun _ : unit =>
    x ← gettty t;
    let q := tty_secondary x in
    let c := s8 (LAST q) in
    if EMPTY q || (c =? 10) || (c =? cc x VEOF) then mret (inr tt) else
    echo_erase t c ;; setq t SECONDARY unput ;; mret (inl tt)) tt.

Definition erase_char (t : nat) : K unit :=
  x ← gettty t;
  let q := tty_secondary x in
  let c := s8 (LAST q) in
  if EMPTY q || (c =? 10) || (c =? cc x VEOF) then mret tt else
  echo_erase t c ;; setq t SECONDARY unput.

(** the input translations: [None] when the character is dropped *)
Definition translate_input (x : tty_struct) (c : Z) : K (option Z) :=
  let o := if c =? 13 then (if iflag x ICRNL then Some 10 else if iflag x IGNCR then None else Some c)
           else if (c =? 10) && iflag x INLCR then Some 13 else Some c in
  match o with
  | None => mret None
  | Some c => if iflag x IUCLC then c ← deref (tolower c); mret (Some (s8 c)) else mret (Some c)
  end.

(** the echo of a character that goes to the secondary queue *)
Definition echo (t : nat) (c : Z) : K unit :=
  x ← gettty t;
  when (lflag x ECHO)
    ((if c =? 10 then putch t WRITE_Q 10 ;; putch t WRITE_Q 13
      else if c <? 32 then when (lflag x ECHOCTL) (putch t WRITE_Q 0x5E ;; putch t WRITE_Q (c + 64))
      else putch t WRITE_Q c) ;;
     write t).

Definition cook_char (t : nat) (c : Z) : K unit :=
  x ← gettty t;
  o ← translate_input x c;
  match o with
  | None => mret tt
  | Some c =>
      let canon := lflag x ICANON in
      if canon && (c =? cc x VKILL) then kill_line t
      else if canon && (c =? cc x VERASE) then erase_char t
      else if canon && (c =? cc x VSTOP) then settty t (fun x => x <| tty_stopped := 1 |>)
      else if canon && (c =? cc x VSTART) then settty t (fun x => x <| tty_stopped := 0 |>)
      else if lflag x ISIG && (c =? cc x VINTR) then tty_intr t INTMASK
      else if lflag x ISIG && (c =? cc x VQUIT) then tty_intr t QUITMASK
      else
        when ((c =? 10) || (c =? cc x VEOF)) (setq t SECONDARY (fun q => q <| q_data ::= fun d => u32 (d + 1) |>)) ;;
        echo t c ;;
        putch t SECONDARY c
  end.

(** at most one round per character of the read queue, and those a [write] adds *)
Definition copy_to_cooked_with (t : nat) : K unit :=
  while (S (1024 + env_fuel)) (x ← gettty t; mret (negb (EMPTY (tty_read_q x)) && negb (FULL (tty_secondary x))))
    (c ← getch t READ_Q; cook_char t (s8 c)) ;;
  wake_up (WqTty t SECONDARY).
End Cooked.

(** [tty->write]: the console is terminal 0.  An answer of the console is
    echoed by the console, which may answer again *)
Fixpoint tty_write_fn (n : nat) (t : nat) : K unit :=
  match n with
  | O => spin
  | S n => match t with
           | O => con_write_with (copy_to_cooked_with (tty_write_fn n)) 0
           | _ => rs_write t
           end
  end.
Definition write_fn (t : nat) : K unit := tty_write_fn env_fuel t.
Definition con_write (t : nat) : K unit := con_write_with (copy_to_cooked_with write_fn) t.
Definition copy_to_cooked (t : nat) : K unit := copy_to_cooked_with write_fn t.

Definition tty_init (cols x y mode ega_bx : Z) : K unit := rs_init ;; con_init cols x y mode ega_bx.
Definition do_tty_interrupt (t : nat) : K unit := copy_to_cooked t.

(** ** [tty_read] *)

(** the end of a [read] with a time limit is an alarm *)
Definition set_read_alarm (time oldalarm : Z) (otherwise : K unit) : K bool :=
  s ← gets sched;
  let limit := s32 (time + jiffies s) in
  if (oldalarm =? 0) || (limit <? oldalarm)
  then setme (fun t => t <| t_alarm := limit |>) ;; mret true
  else otherwise ;; mret false.

(** the characters that are there, up to the end of the line: the count left,
    the place, and whether an end of file was met *)
Definition take_chars (t : nat) (nr b : Z) : K (Z * Z * bool) :=
  loop (S (Z.to_nat nr)) (fun '(nr, b) =>
    c ← getch t SECONDARY;
    x ← gettty t;
    let c := s8 c in
    when ((c =? cc x VEOF) || (c =? 10)) (setq t SECONDARY (fun q => q <| q_data ::= fun d => u32 (d - 1) |>)) ;;
    if (c =? cc x VEOF) && lflag x ICANON then mret (inr (nr, b, true)) else
    put_fs_byte c b ;;
    x ← gettty t;
    if (nr - 1 =? 0) || EMPTY (tty_secondary x) then mret (inr (nr - 1, b + 1, false)) else mret (inl (nr - 1, b + 1)))
    (nr, b).

(** one round: [inr] of the result.  [flag]: the alarm is ours *)
Definition read_step (t : nat) (buf time minimum oldalarm : Z) : Z * Z * bool -> K (Z * Z * bool + (Z + Z)) :=
  fun '(nr, b, flag) =>
  if nr <=? 0 then mret (inr (inl b)) else
  m ← me;
  if flag && nz (Z.land (t_signal m) ALRMMASK) then
    setme (fun t => t <| t_signal ::= fun g => Z.ldiff g ALRMMASK |>) ;; mret (inr (inl b))
  else if nz (t_signal m) then mret (inr (inl b)) else
  x ← gettty t;
  let q := tty_secondary x in
  if EMPTY q || (lflag x ICANON && (q_data q =? 0) && (20 <? LEFT q)) then
    sleep_if_empty t SECONDARY ;; mret (inl (nr, b, flag))
  else
  '(nr, b, eof) ← take_chars t nr b;
  if eof : bool then mret (inr (inr (b - buf))) else
  x ← gettty t;
  flag ← (if nz time && negb (lflag x ICANON)
          then set_read_alarm time oldalarm (setme (fun t => t <| t_alarm := oldalarm |>)) else mret flag);
  if lflag x ICANON then mret (if nz (b - buf) then inr (inl b) else inl (nr, b, flag))
  else mret (if minimum <=? b - buf then inr (inl b) else inl (nr, b, flag)).

Definition tty_read (channel buf nr : Z) : K Z :=
  if (2 <? channel) || (nr <? 0) then mret (-1) else
  let t := Z.to_nat channel in
  x ← gettty t; m ← me;
  let oldalarm := t_alarm m in
  let time := 10 * cc x VTIME in
  let minimum := cc x VMIN in
  '(minimum, flag) ← (if nz time && (minimum =? 0)
    then flag ← set_read_alarm time oldalarm (mret tt); mret (1, flag) else mret (minimum, false));
  let minimum := if nr <? minimum then nr else minimum in
  r ← loop env_fuel (read_step t buf time minimum oldalarm) (nr, buf, flag);
  match r with
  | inr n => mret n                   (* end of file: the alarm is not restored *)
  | inl b =>
      setme (fun t => t <| t_alarm := oldalarm |>) ;;
      m ← me;
      mret (if nz (t_signal m) && (b - buf =? 0) then - EINTR else b - buf)
  end.

(** ** [tty_write] *)

(** the output translations *)
Definition translate_output (x : tty_struct) (c : Z) : Z :=
  if (c =? 13) && oflag x OCRNL then 10 else if (c =? 10) && oflag x ONLRET then 13 else c.

Section Output.
Variable fetch : Z -> K Z.      (* a byte of the buffer: [get_fs_byte], in the segment that [fs] holds *)

(** the inner loop: characters go to the queue until it is full, at most 1023 of them *)
Definition fill_step (t : nat) : Z * Z -> K (Z * Z + Z * Z) := fun '(nr, b) =>
  x ← gettty t;
  if (nr <=? 0) || FULL (tty_write_q x) then mret (inr (nr, b)) else
  c ← fetch b;
  let c := s8 c in
  s ← gets con;
  let c := if oflag x OPOST then translate_output x c else c in
  if oflag x OPOST && (c =? 10) && (cr_flag s =? 0) && oflag x ONLCR then
    on_con (fun s => s <| cr_flag := 1 |>) ;;
    putch t WRITE_Q 13 ;; mret (inl (nr, b))
  else
    c ← (if oflag x OPOST && oflag x OLCUC then deref (toupper c) else mret c);
    on_con (fun s => s <| cr_flag := 0 |>) ;;
    putch t WRITE_Q c ;; mret (inl (nr - 1, b + 1)).
Definition fill_queue (t : nat) (nr b : Z) : K (Z * Z) := loop (S 1024) (fill_step t) (nr, b).

Definition tty_write_from (channel buf nr : Z) : K Z :=
  if (2 <? channel) || (nr <? 0) then mret (-1) else
  let t := Z.to_nat channel in
  b ← loop env_fuel (fun '(nr, b) =>
    if nr <=? 0 then mret (inr b) else
    sleep_if_full t WRITE_Q ;;
    m ← me;
    if nz (t_signal m) then mret (inr b) else
    '(nr, b) ← fill_queue t nr b;
    write_fn t ;;
    when (0 <? nr) schedule ;;
    mret (inl (nr, b))) (nr, buf);
  mret (b - buf).
End Output.

(** for a task, [fs] holds its data segment *)
Definition tty_write : Z -> Z -> Z -> K Z := tty_write_from get_fs_byte.
End Tty.
