(* ===== verification/ConsoleFacts.v ===== *)
(** * The console draws on the screen and nowhere else *)

From S2P Require Import Prelude State Memory Sched TtyQueue Console Tty.

(** the size of the screen in bytes *)
Definition screen_size (c : con_st) : Z := video_num_lines c * video_size_row c.

(** the display state between two characters: the screen lies within the video
    memory, the cursor on the screen (or just beyond the end of its line), the
    scroll region is not empty, and [pos] is the address of the cursor *)
Record wf_con (c : con_st) : Prop := {
  wf_cols : 8 <= video_num_columns c;
  wf_row : video_size_row c = 2 * video_num_columns c;
  wf_lines : 1 <= video_num_lines c;
  wf_mem : 0 <= video_mem_start c /\ video_mem_end c < 2 ^ 32;
  wf_origin : video_mem_start c <= origin c /\ origin c + screen_size c <= video_mem_end c;
  wf_end : scr_end c = origin c + screen_size c;
  wf_x : 0 <= cur_x c <= video_num_columns c;
  wf_y : 0 <= cur_y c < video_num_lines c;
  wf_pos : pos c = origin c + cur_y c * video_size_row c + 2 * cur_x c;
  wf_region : 0 <= top c < bottom c /\ bottom c <= video_num_lines c;
  wf_par : Forall (fun v => 0 <= v) (par c)
}.

(** a cell of the video memory *)
Definition inside (c : con_st) (a : Z) : Prop := video_mem_start c <= a /\ a + 2 <= video_mem_end c.

(** the parameters of the display that no operation changes *)
Definition geometry (c : con_st) : list Z :=
  [video_num_columns c; video_size_row c; video_num_lines c; video_mem_start c; video_mem_end c].

(** ** Drawing: only the contents of the video memory change *)

Definition draws (c c' : con_st) : Prop :=
  exists m, c' = c <| vram := m |> /\ forall a, ~ inside c a -> m !! a = vram c !! a.

Lemma draws_refl c : draws c c.
Proof. exists (vram c). split; [by destruct c|done]. Qed.
Lemma draws_trans c1 c2 c3 : draws c1 c2 -> draws c2 c3 -> draws c1 c3.
Proof.
  intros (m1 & -> & H1) (m2 & -> & H2). exists m2. split; [by destruct c1|].
  intros a Ha. rewrite H2 by exact Ha. by apply H1.
Qed.
Lemma draws_inside c c' a : draws c c' -> inside c' a <-> inside c a.
Proof. by intros (m & -> & _). Qed.
Lemma draws_cell c a v : inside c a -> draws c (put_cell a v c).
Proof.
  intros Ha. exists (<[a := u16 v]> (vram c)). split; [by destruct c|].
  intros b Hb. apply lookup_insert_ne. by intros <-.
Qed.
Lemma draws_cells {A} (f : A -> Z) (v : con_st -> A -> Z) (l : list A) c :
  (forall k, k ∈ l -> inside c (f k)) -> draws c (foldl (fun c k => put_cell (f k) (v c k) c) c l).
Proof.
  revert c. induction l as [|k l IH]; intros c Hl; [apply draws_refl|].
  assert (draws c (put_cell (f k) (v c k) c)) as Hd by (apply draws_cell, Hl, list_elem_of_here).
  eapply draws_trans; [exact Hd|]. apply IH. intros j Hj. apply (draws_inside _ _ _ Hd), Hl. by apply list_elem_of_further.
Qed.

Lemma draws_stosw a n v c : (n <> 0%nat -> video_mem_start c <= a /\ a + 2 * Z.of_nat n <= video_mem_end c) -> draws c (stosw a n v c).
Proof. intros Hn. apply (draws_cells _ (fun _ _ => v)). intros k Hk%elem_of_seq. unfold inside. lia. Qed.
Lemma draws_stosw_down a n v c :
  (n <> 0%nat -> video_mem_start c <= a - 2 * (Z.of_nat n - 1) /\ a + 2 <= video_mem_end c) -> draws c (stosw_down a n v c).
Proof. intros Hn. apply (draws_cells _ (fun _ _ => v)). intros k Hk%elem_of_seq. unfold inside. lia. Qed.
Lemma draws_movsl from to n c :
  (n <> 0%nat -> video_mem_start c <= to /\ to + 4 * Z.of_nat n <= video_mem_end c) -> draws c (movsl from to n c).
Proof.
  intros Hn. apply (draws_cells _ (fun c k => cell c (from + 2 * Z.of_nat k))).
  intros k Hk%elem_of_seq. unfold inside. lia.
Qed.
Lemma draws_movsl_down from to n c :
  (n <> 0%nat -> video_mem_start c <= to + 4 - 4 * Z.of_nat n /\ to + 4 <= video_mem_end c) ->
  draws c (movsl_down from to n c).
Proof.
  intros Hn. apply (draws_cells _ (fun c k => cell c (from + 2 - 2 * Z.of_nat k))).
  intros k Hk%elem_of_seq. unfold inside. lia.
Qed.

(** ** The operations on the display *)

(** [c'] may follow [c]: it is well formed if [c] is, has the same geometry, and
    nothing outside the video memory has changed *)
Definition stays (c c' : con_st) : Prop :=
  wf_con c -> wf_con c' /\ geometry c' = geometry c /\ forall a, ~ inside c a -> vram c' !! a = vram c !! a.

Lemma geometry_inside c c' a : geometry c' = geometry c -> inside c' a <-> inside c a.
Proof. intros [= H1 H2 H3 H4 H5]. unfold inside. by rewrite H4, H5. Qed.
#[export] Instance stays_preorder : PreOrder stays.
Proof.
  split; [intros c Hc; done|]. intros c1 c2 c3 H12 H23 H1.
  destruct (H12 H1) as (H2 & Hg2 & Hv2). destruct (H23 H2) as (H3 & Hg3 & Hv3).
  split; [done|]. split; [congruence|]. intros a Ha. rewrite Hv3; [by apply Hv2|]. by rewrite (geometry_inside _ _ _ Hg2).
Qed.
Lemma stays_draws c c' : (wf_con c -> draws c c') -> stays c c'.
Proof. intros Hd Hc. destruct (Hd Hc) as (m & -> & Hm). split; [|done]. destruct Hc. by split. Qed.
(** moves of the cursor and other changes that leave the memory alone *)
Lemma stays_moves c c' : (wf_con c -> wf_con c') -> geometry c' = geometry c -> vram c' = vram c -> stays c c'.
Proof. intros Hw Hg Hv Hc. split; [auto|]. split; [done|]. by rewrite Hv. Qed.

(** a multiple of the row within the screen *)
Lemma row_bound c k n : wf_con c -> 0 <= k <= n -> n <= video_num_lines c ->
  0 <= k * video_size_row c <= n * video_size_row c /\ n * video_size_row c <= screen_size c.
Proof. intros [] Hk Hn. unfold screen_size. nia. Qed.

Ltac con_facts H :=
  let Hc := fresh "Hc" in pose proof H as Hc; destruct Hc as [Hcols Hrow Hlines Hmem Horigin Hend Hx Hy Hpos Hregion];
  pose proof (row_bound _ (cur_y _) (cur_y _ + 1) H ltac:(lia) ltac:(lia)).

Lemma u32_le x : 0 <= x -> u32 x <= x.
Proof. intros. apply Z.mod_le; lia. Qed.

Lemma half_le x : 0 <= x -> 0 <= 2 * Z.shiftr x 1 <= x.
Proof. intros. rewrite Z.shiftr_div_pow2 by lia. change (2 ^ 1) with 2. pose proof (Z.div_mod x 2). pose proof (Z.mod_pos_bound x 2). lia. Qed.

Lemma pairs_bound k m : 0 <= k -> 0 <= m ->
  4 * Z.of_nat (Z.to_nat (Z.shiftr (u32 (u32 k * m)) 1)) <= k * (2 * m).
Proof.
  intros Hk Hm. rewrite Z2Nat.id by (apply Z.shiftr_nonneg, u32_range).
  pose proof (half_le (u32 (u32 k * m)) (proj1 (u32_range _))).
  pose proof (u32_range k). pose proof (u32_le k Hk). pose proof (u32_le (u32 k * m) ltac:(nia)). nia.
Qed.
Lemma region_pairs_bound c : wf_con c ->
  4 * Z.of_nat (region_pairs c) <= (bottom c - top c - 1) * video_size_row c.
Proof. intros []. rewrite wf_row0. apply pairs_bound; lia. Qed.

Lemma stays_gotoxy x y c : stays c (gotoxy x y c).
Proof.
  unfold gotoxy. destruct (_ || _) eqn:Hb; [reflexivity|].
  apply orb_false_iff in Hb as [Hx%Z.ltb_ge Hy%Z.leb_gt].
  apply stays_moves; [|done|done]. intros Hc.
  pose proof (u32_range x). pose proof (u32_range y).
  pose proof (row_bound c (u32 y) (u32 y + 1) Hc ltac:(lia) ltac:(lia)).
  destruct Hc. split; cbn; try lia; try done. rewrite u32_id; nia.
Qed.

Lemma stays_scroll_up_region c : stays c (scroll_up_region c).
Proof.
  apply stays_draws. intros Hc. unfold scroll_up_region.
  pose proof (region_pairs_bound c Hc). set (n := region_pairs c) in *.
  pose proof (row_bound c (top c) (bottom c) Hc ltac:(destruct Hc; lia) ltac:(destruct Hc; lia)).
  destruct Hc. 
  assert (draws c (movsl (origin c + video_size_row c * top c + video_size_row c) (origin c + video_size_row c * top c) n c)) as Hd.
  { apply draws_movsl. intros _. split; nia. }
  eapply draws_trans; [exact Hd|]. destruct Hd as (m & -> & _). apply draws_stosw. intros _. unfold columns. cbn. split; nia.
Qed.
Lemma stays_scrdown c : stays c (scrdown c).
Proof.
  apply stays_draws. intros Hc. unfold scrdown.
  pose proof (region_pairs_bound c Hc). set (n := region_pairs c) in *.
  pose proof (row_bound c (top c) (bottom c) Hc ltac:(destruct Hc; lia) ltac:(destruct Hc; lia)).
  destruct Hc.
  set (d := origin c + video_size_row c * bottom c - 4) in *.
  set (f := origin c + video_size_row c * (bottom c - 1) - 4) in *.
  assert (draws c (movsl_down f d n c)) as Hd.
  { apply draws_movsl_down. intros _. subst d. split; nia. }
  eapply draws_trans; [exact Hd|]. destruct Hd as (m & -> & _). apply draws_stosw_down. intros _. unfold columns. cbn. subst d. split; nia.
Qed.

(** scrolling the whole screen: the cursor stays on its line *)
Lemma stays_scroll_up_origin c : stays c (scroll_up_origin c).
Proof.
  intros Hc. unfold scroll_up_origin. cbv zeta.
  set (c1 := c <| origin ::= _ |> <| pos ::= _ |> <| scr_end ::= _ |>).
  pose proof (row_bound c 1 (video_num_lines c) Hc ltac:(destruct Hc; lia) ltac:(lia)).
  pose proof (pairs_bound (video_num_lines c - 1) (video_num_columns c) ltac:(destruct Hc; lia) ltac:(destruct Hc; lia)) as Hn.
  change (Z.to_nat _) with (Z.to_nat (Z.shiftr (u32 (u32 (video_num_lines c - 1) * video_num_columns c)) 1)).
  set (n := Z.to_nat _) in *. unfold columns.
  replace ((video_num_lines c - 1) * (2 * video_num_columns c)) with (screen_size c - video_size_row c) in Hn
    by (unfold screen_size; destruct Hc; nia).
  destruct Hc. case_match.
  - assert (draws c1 (movsl (origin c1) (video_mem_start c1) n c1)) as Hd1.
    { apply draws_movsl. subst c1. cbn. lia. }
    assert (draws c1 (stosw (video_mem_start c1 + 4 * Z.of_nat n) (Z.to_nat (video_num_columns c1)) (video_erase_char c1)
              (movsl (origin c1) (video_mem_start c1) n c1))) as (m & Hm & Hv).
    { eapply draws_trans; [exact Hd1|]. destruct Hd1 as (m & -> & _). apply draws_stosw. intros _. subst c1. cbn. lia. }
    rewrite Hm. subst c1. split; [|split; [done|exact Hv]].
    split; cbn; try done; unfold screen_size in *; cbn in *; lia.
  - assert (draws c1 (stosw (scr_end c1 - video_size_row c1) (Z.to_nat (video_num_columns c1)) (video_erase_char c1) c1))
      as (m & Hm & Hv).
    { apply draws_stosw. intros _. subst c1. cbn in *. lia. }
    rewrite Hm. subst c1. split; [|split; [done|exact Hv]].
    split; cbn; try done; unfold screen_size in *; cbn in *; lia.
Qed.

(** [scrup] on the display *)
Definition scrup_con (c : con_st) : con_st := if scrolls_origin c then scroll_up_origin c else scroll_up_region c.
Definition lf_con (c : con_st) : con_st :=
  if cur_y c + 1 <? bottom c then c <| cur_y ::= Z.add 1 |> <| pos ::= Z.add (video_size_row c) |> else scrup_con c.

Lemma stays_scrup c : stays c (scrup_con c).
Proof. unfold scrup_con. case_match; auto using stays_scroll_up_origin, stays_scroll_up_region. Qed.
Lemma stays_lf c : stays c (lf_con c).
Proof.
  unfold lf_con. destruct (Z.ltb_spec (cur_y c + 1) (bottom c)); [|apply stays_scrup].
  apply stays_moves; [|done|done]. intros []. split; cbn; try done; lia.
Qed.
Lemma stays_ri c : stays c (ri c).
Proof.
  unfold ri. destruct (Z.ltb_spec (top c) (cur_y c)); [|apply stays_scrdown].
  apply stays_moves; [|done|done]. intros []. split; cbn; try done; lia.
Qed.
Lemma stays_cr c : stays c (cr c).
Proof. apply stays_moves; [|done|done]. intros []. split; cbn; try done; lia. Qed.
(** the cells of the cursor line *)
Lemma line_inside c : wf_con c ->
  video_mem_start c <= pos c - 2 * cur_x c /\ pos c - 2 * cur_x c + video_size_row c <= video_mem_end c /\
  video_mem_start c <= origin c /\ origin c <= pos c - 2 * cur_x c /\
  pos c - 2 * cur_x c + video_size_row c <= scr_end c /\ scr_end c <= video_mem_end c.
Proof. intros Hc. pose proof (row_bound c (cur_y c) (cur_y c + 1) Hc) as Hb. destruct Hc. lia. Qed.
Lemma stays_del c : stays c (del c).
Proof.
  unfold del. destruct (Z.eqb_spec (cur_x c) 0); [reflexivity|].
  transitivity (put_cell (pos c - 2) (video_erase_char c) c).
  - apply stays_draws. intros Hc. apply draws_cell. pose proof (line_inside _ Hc). destruct Hc. unfold inside. lia.
  - apply stays_moves; [|done|done]. intros []. split; cbn in *; try done; lia.
Qed.

Lemma shiftr1_le x : 0 <= x -> 2 * Z.of_nat (Z.to_nat (Z.shiftr (u32 x) 1)) <= x.
Proof.
  intros Hx. pose proof (half_le (u32 x) (proj1 (u32_range _))). pose proof (u32_le x Hx).
  rewrite Z2Nat.id by (apply Z.shiftr_nonneg, u32_range). lia.
Qed.
Lemma stays_csi_J p c : stays c (csi_J p c).
Proof.
  unfold csi_J. repeat case_match; try reflexivity; apply stays_draws; intros Hc;
    pose proof (line_inside _ Hc) as Hl; destruct Hc; apply draws_stosw; intros _.
  - pose proof (shiftr1_le (scr_end c - pos c) ltac:(lia)). lia.
  - pose proof (shiftr1_le (pos c - origin c) ltac:(lia)). lia.
  - unfold screen_size in *. rewrite Z2Nat.id by nia. nia.
Qed.
Lemma stays_csi_K p c : stays c (csi_K p c).
Proof.
  unfold csi_K. repeat case_match; try reflexivity; apply stays_draws; intros Hc;
    pose proof (line_inside _ Hc) as Hl; destruct Hc; apply draws_stosw; intros _; unfold columns; lia.
Qed.
Lemma stays_csi_m c : stays c (csi_m c).
Proof.
  unfold csi_m. generalize (take (S (npar c)) (par c)). intros l. revert c.
  induction l as [|p l IH]; intros c; [reflexivity|]. cbn [foldl]. etransitivity; [|apply IH].
  repeat case_match; try reflexivity; (apply stays_moves; [|done|done]; intros []; by split).
Qed.

Lemma stays_insert_char c : stays c (insert_char c).
Proof.
  apply stays_draws. intros Hc. unfold insert_char. pose proof (line_inside _ Hc) as Hl. destruct Hc.
  set (l := seq 0 _).
  assert (forall k, k ∈ l -> inside c (pos c + 2 * Z.of_nat k)) as Hin.
  { intros k Hk%elem_of_seq. unfold inside. lia. }
  generalize (video_erase_char c). clearbody l. 
  assert (forall l d old, draws c d -> (forall k, k ∈ l -> inside c (pos c + 2 * Z.of_nat k)) ->
    draws c (fst (foldl (fun '(c, old) k => let p := pos c + 2 * Z.of_nat k in (put_cell p old c, cell c p)) (d, old) l))) as H.
  { clear. induction l as [|k l IH]; intros d old Hd Hin; [done|]. cbn [foldl]. apply IH; [|intros j Hj; apply Hin; by apply list_elem_of_further].
    eapply draws_trans; [exact Hd|]. apply draws_cell, (draws_inside _ _ _ Hd).
    replace (pos d) with (pos c) by (by destruct Hd as (m & -> & _)). apply Hin, list_elem_of_here. }
  intros old. apply H; [apply draws_refl|exact Hin].
Qed.

Lemma stays_delete_char c : stays c (delete_char c).
Proof.
  unfold delete_char. destruct (Z.leb_spec (video_num_columns c) (cur_x c)); [reflexivity|].
  apply stays_draws. intros Hc. pose proof (line_inside _ Hc) as Hl. destruct Hc.
  set (n := Z.to_nat _). set (d := foldl _ _ _).
  assert (draws c d) as Hd.
  { subst d. apply (fun H => draws_trans _ _ _ H (draws_refl _)).
    assert (forall l d, draws c d -> (forall k, k ∈ l -> inside c (pos c + 2 * Z.of_nat k)) ->
      draws c (foldl (fun c k => let p := pos c + 2 * Z.of_nat k in put_cell p (cell c (p + 2)) c) d l)) as H'.
    { clear. induction l as [|k l IH]; intros d Hd Hin; [done|]. cbn [foldl].
      apply IH; [|intros j Hj; apply Hin; by apply list_elem_of_further].
      eapply draws_trans; [exact Hd|]. apply draws_cell, (draws_inside _ _ _ Hd).
      replace (pos d) with (pos c) by (by destruct Hd as (m & -> & _)). apply Hin, list_elem_of_here. }
    apply H'; [apply draws_refl|]. intros k Hk%elem_of_seq. unfold inside. lia. }
  eapply draws_trans; [exact Hd|]. apply draws_cell, (draws_inside _ _ _ Hd). unfold inside. subst n. lia.
Qed.

(** a change of the scroll region that is undone *)
Lemma stays_below f c : (forall d, stays d (f d)) -> stays c (below_cursor f c).
Proof.
  intros Hf Hc. unfold below_cursor. set (d := c <| top := cur_y c |> <| bottom := video_num_lines c |>).
  assert (wf_con d) as Hd by (destruct Hc; split; cbn; try done; lia).
  destruct (Hf d Hd) as (Hfd & Hg & Hv). split; [|split; [exact Hg|exact Hv]].
  injection Hg as H1 H2 H3 H4 H5. cbn in *. destruct Hc, Hfd. split; cbn; try done; lia.
Qed.
Lemma stays_iter n f c : (forall d, stays d (f d)) -> stays c (Nat.iter n f c).
Proof. intros Hf. induction n as [|n IH]; [reflexivity|]. cbn. etransitivity; [exact IH|apply Hf]. Qed.
Lemma stays_save_cur c : stays c (save_cur c).
Proof. apply stays_moves; [|done|done]. intros []. by split. Qed.

(** the line operations of the monad, on the display *)
Definition delete_line_con (c : con_st) : con_st := below_cursor scrup_con c.
Definition wrap_con (c : con_st) : con_st :=
  if video_num_columns c <=? cur_x c
  then lf_con (c <| cur_x ::= fun x => x - video_num_columns c |> <| pos ::= fun p => p - video_size_row c |>) else c.
Definition print_con (ch : Z) (c : con_st) : con_st :=
  let c := wrap_con c in
  put_cell (pos c) (ch + 2 ^ 8 * attr c) c <| pos ::= Z.add 2 |> <| cur_x ::= Z.add 1 |>.
Definition tab_con (c : con_st) : con_st :=
  let n := 8 - Z.land (cur_x c) 7 in
  let c := c <| cur_x ::= Z.add n |> <| pos ::= Z.add (2 * n) |> in
  if video_num_columns c <? cur_x c then wrap_con c else c.
Definition back_con (c : con_st) : con_st :=
  if cur_x c =? 0 then c else c <| cur_x ::= fun x => x - 1 |> <| pos ::= fun p => p - 2 |>.

Lemma fold_cells_x {A} (f g : con_st -> A -> Z) l c :
  cur_x (foldl (fun c k => put_cell (f c k) (g c k) c) c l) = cur_x c /\
  video_num_columns (foldl (fun c k => put_cell (f c k) (g c k) c) c l) = video_num_columns c.
Proof. revert c. induction l as [|k l IH]; intros c; [done|]. cbn [foldl]. by destruct (IH (put_cell (f c k) (g c k) c)) as [-> ->]. Qed.
Lemma stosw_x a n v c : cur_x (stosw a n v c) = cur_x c.
Proof. apply (fold_cells_x (fun _ k => a + 2 * Z.of_nat k) (fun _ _ => v)). Qed.
Lemma movsl_x from to n c : cur_x (movsl from to n c) = cur_x c.
Proof. apply (fold_cells_x (fun _ k => to + 2 * Z.of_nat k) (fun c k => cell c (from + 2 * Z.of_nat k))). Qed.
#[local] Arguments stosw : simpl never.
#[local] Arguments movsl : simpl never.
Lemma lf_con_x c : cur_x (lf_con c) = cur_x c.
Proof.
  unfold lf_con, scrup_con, scroll_up_origin, scroll_up_region. cbv zeta.
  repeat case_match; cbn; by rewrite ?stosw_x, ?movsl_x.
Qed.

(** the cursor moves [n] places and on to the next line *)
Lemma stays_next_line c n : (wf_con c -> 0 <= cur_x c + n - video_num_columns c <= video_num_columns c) ->
  stays c (lf_con (c <| cur_x ::= fun x => x + n - video_num_columns c |>
                     <| pos ::= fun p => p + 2 * n - video_size_row c |>)).
Proof.
  intros Hn. etransitivity; [|apply stays_lf]. apply stays_moves; [|done|done].
  intros Hc. specialize (Hn Hc). destruct Hc. split; cbn; try done; lia.
Qed.
Lemma stays_wrap c : stays c (wrap_con c).
Proof.
  unfold wrap_con. destruct (Z.leb_spec (video_num_columns c) (cur_x c)); [|reflexivity].
  replace (lf_con _) with (lf_con (c <| cur_x ::= fun x => x + 0 - video_num_columns c |>
                     <| pos ::= fun p => p + 2 * 0 - video_size_row c |>)).
  - apply stays_next_line. intros []. lia.
  - apply (f_equal lf_con). clear. destruct c; unfold upd; cbn. f_equal; lia.
Qed.
Lemma wrap_con_x c : wf_con c -> cur_x (wrap_con c) < video_num_columns (wrap_con c).
Proof.
  intros Hc. destruct (stays_wrap c Hc) as (_ & [= -> _ _ _ _] & _). unfold wrap_con.
  destruct (Z.leb_spec (video_num_columns c) (cur_x c)); [|lia]. rewrite lf_con_x. cbn. destruct Hc. lia.
Qed.
Lemma stays_print ch c : stays c (print_con ch c).
Proof.
  intros Hc. pose proof (stays_wrap c) as Hw. pose proof (wrap_con_x c Hc) as Hx. destruct (Hw Hc) as (Hc1 & _).
  refine (transitivity (R := stays) Hw _ Hc). unfold print_con. cbv zeta. set (d := wrap_con c) in *. clearbody d.
  transitivity (put_cell (pos d) (ch + 2 ^ 8 * attr d) d).
  - apply stays_draws. intros _. apply draws_cell. pose proof (line_inside _ Hc1). destruct Hc1. unfold inside. lia.
  - apply stays_moves; [|done|done]. intros []. split; cbn in *; try done; lia.
Qed.
Lemma land7_range x : 0 <= Z.land x 7 < 8.
Proof. change 7 with (Z.ones 3). rewrite Z.land_ones by lia. apply Z.mod_pos_bound. lia. Qed.
Lemma stays_tab c : stays c (tab_con c).
Proof.
  unfold tab_con. cbv zeta. pose proof (land7_range (cur_x c)). set (n := 8 - _) in *.
  set (d := c <| cur_x ::= _ |> <| pos ::= _ |>).
  change (video_num_columns d) with (video_num_columns c). destruct (Z.ltb_spec (video_num_columns c) (cur_x d)) as [Hx|Hx].
  - unfold wrap_con. change (video_num_columns d) with (video_num_columns c).
    destruct (Z.leb_spec (video_num_columns c) (cur_x d)); [|lia].
    replace (lf_con _) with (lf_con (c <| cur_x ::= fun x => x + n - video_num_columns c |>
                     <| pos ::= fun p => p + 2 * n - video_size_row c |>)).
    + apply stays_next_line. intros []. cbn in Hx. subst n. lia.
    + apply (f_equal lf_con). subst d. clear. destruct c; unfold upd; cbn. f_equal; lia.
  - apply stays_moves; [|done|done]. intros []. subst d. cbn in Hx. split; cbn; try done; subst n; lia.
Qed.
Lemma stays_back c : stays c (back_con c).
Proof.
  unfold back_con. destruct (Z.eqb_spec (cur_x c) 0); [reflexivity|].
  apply stays_moves; [|done|done]. intros []. split; cbn; try done; lia.
Qed.

(** ** The operations of the monad *)

(** the display may only change as [stays] allows; the rest of the kernel state
    is not looked at *)
Definition on_display : relation kst := fun s s' => stays (con s) (con s').
#[export] Instance on_display_preorder : PreOrder on_display.
Proof. split; unfold on_display; repeat intro; [by apply stays_preorder|]. by eapply stays_preorder. Qed.

(** [m] returns, and does [f] to the display *)
Definition runs_as (m : K unit) (f : con_st -> con_st) : Prop :=
  forall s, exists s', m s = Ret tt s' /\ con s' = f (con s).

Lemma runs_on_con f : runs_as (on_con f) f.
Proof. intros s. by eexists. Qed.
Lemma runs_skip (m : K unit) : (forall s, exists s', m s = Ret tt s' /\ con s' = con s) -> runs_as m id.
Proof. exact id. Qed.
Lemma runs_seq m1 m2 f1 f2 : runs_as m1 f1 -> runs_as m2 f2 -> runs_as (m1 ;; m2) (fun c => f2 (f1 c)).
Proof.
  intros H1 H2 s. destruct (H1 s) as (s1 & E1 & C1). destruct (H2 s1) as (s2 & E2 & C2).
  exists s2. split; [by rewrite (bind_Ret _ _ _ _ _ E1)|]. by rewrite C2, C1.
Qed.
Lemma runs_getcon (k : con_st -> K unit) f :
  (forall s, exists s', k (con s) s = Ret tt s' /\ con s' = f (con s)) -> runs_as (c ← getcon; k c) f.
Proof. intros H s. apply (H s). Qed.
Lemma runs_outb v p : runs_as (outb v p) id.
Proof. intros s. by eexists. Qed.
Lemma runs_guar m f : runs_as m f -> (forall c, stays c (f c)) -> guar on_display m.
Proof. intros Hm Hf s. destruct (Hm s) as (s' & E & C). rewrite E. unfold on_display. cbn. by rewrite C. Qed.

Section Display.
Context {E : Env}.

Lemma runs_set_video_reg reg f : runs_as (set_video_reg reg f) id.
Proof.
  apply runs_getcon. intros s.
  exact (runs_seq _ _ _ _ (runs_outb _ _) (runs_seq _ _ _ _ (runs_outb _ _) (runs_seq _ _ _ _ (runs_outb _ _) (runs_outb _ _))) s).
Qed.
Lemma runs_scrup : runs_as scrup scrup_con.
Proof.
  unfold scrup. apply runs_getcon. intros s. unfold scrup_con. case_match; [|by eexists].
  exact (runs_seq _ _ _ _ (runs_on_con scroll_up_origin) (runs_set_video_reg 12 origin) s).
Qed.
Lemma runs_lf : runs_as lf lf_con.
Proof.
  unfold lf. apply runs_getcon. intros s. unfold lf_con. case_match; [|apply runs_scrup].
  destruct (runs_on_con (fun c => c <| cur_y ::= Z.add 1 |> <| pos ::= Z.add (video_size_row c) |>) s) as (s' & Hs & Hc).
  exists s'. split; [exact Hs|exact Hc].
Qed.
Lemma runs_delete_line : runs_as delete_line delete_line_con.
Proof.
  unfold delete_line. apply runs_getcon. intros s.
  destruct (runs_seq _ _ _ _ (runs_on_con (fun c => c <| top := cur_y c |> <| bottom := video_num_lines c |>))
    (runs_seq _ _ _ _ runs_scrup (runs_on_con (fun d => d <| top := top (con s) |> <| bottom := bottom (con s) |>))) s)
    as (s' & Hs & Hc).
  exists s'. split; [exact Hs|exact Hc].
Qed.
Lemma runs_wrap_column : runs_as wrap_column (fun c =>
  lf_con (c <| cur_x ::= fun x => x - video_num_columns c |> <| pos ::= fun p => p - video_size_row c |>)).
Proof. apply (runs_seq _ _ _ _ (runs_on_con _) runs_lf). Qed.

(** ** Everything the terminal layer does keeps the display well formed *)

Lemma guar_con_kept f : (forall s, con (f s) = con s) -> guar on_display (modify f).
Proof. intros Hf. apply guar_modify. intros s. unfold on_display. by rewrite Hf. Qed.
Lemma guar_on_con f : (forall c, stays c (f c)) -> guar on_display (on_con f).
Proof. apply runs_guar, runs_on_con. Qed.

(** one step of a proof that a statement respects the display *)
Ltac display := guar_walk ltac:(apply guar_con_kept; done).

Lemma display_gettty t : guar on_display (gettty t).
Proof. unfold gettty. display. Qed.
Lemma display_settty t f : guar on_display (settty t f).
Proof. unfold settty. pose proof display_gettty. display. Qed.
#[local] Hint Resolve display_gettty display_settty : guar.
Lemma display_getq t q : guar on_display (getq t q).
Proof. unfold getq. display. Qed.
Lemma display_putch t q c : guar on_display (putch t q c).
Proof. unfold putch, setq. display. Qed.
Lemma display_setq t q f : guar on_display (setq t q f).
Proof. unfold setq. display. Qed.
#[local] Hint Resolve display_getq display_putch display_setq : guar.
Lemma display_getch t q : guar on_display (getch t q).
Proof. unfold getch. display. Qed.
Lemma display_gettask p : guar on_display (gettask p).
Proof. unfold gettask. display. Qed.
#[local] Hint Resolve display_getch display_gettask : guar.
Lemma display_settask p f : guar on_display (settask p f).
Proof. unfold settask, on_sched. display. Qed.
#[local] Hint Resolve display_settask : guar.
Lemma display_wake_up q : guar on_display (wake_up q).
Proof. unfold wake_up. display. destruct q; done. Qed.
Lemma display_tty_intr t m : guar on_display (tty_intr t m).
Proof. unfold tty_intr. display. Qed.
Lemma display_outb v p : guar on_display (outb v p).
Proof. unfold outb. display. Qed.
Lemma display_inb p : guar on_display (inb p).
Proof. unfold inb. display. Qed.
#[local] Hint Resolve display_wake_up display_tty_intr display_outb display_inb : guar.
Lemma display_sysbeep : guar on_display sysbeep.
Proof. unfold sysbeep, on_sched. display. Qed.
Lemma display_rs_write t : guar on_display (rs_write t).
Proof. unfold rs_write. display. Qed.
Lemma display_lf : guar on_display lf.
Proof. apply (runs_guar _ _ runs_lf), stays_lf. Qed.
Lemma display_delete_line : guar on_display delete_line.
Proof. apply (runs_guar _ _ runs_delete_line). intros c. apply stays_below, stays_scrup. Qed.
#[local] Hint Resolve display_sysbeep display_rs_write display_lf display_delete_line : guar.
Lemma display_csi_M nr : guar on_display (csi_M nr).
Proof. unfold csi_M, getcon. display. Qed.

Lemma Forall_alter {A} (P : A -> Prop) f k (l : list A) :
  Forall P l -> (forall x, P x -> P (f x)) -> Forall P (alter f k l).
Proof.
  intros Hl Hf. revert k. induction Hl as [|x l Hx Hl IH]; intros [|k]; cbn; constructor; auto.
Qed.
Lemma stays_set_par k f c : stays c (c <| par ::= alter (fun v => u32 (f v)) k |>).
Proof.
  apply stays_moves; [|done|done]. intros []. split; cbn; try done.
  apply Forall_alter; [done|]. intros v _. apply u32_range.
Qed.
Lemma display_set_par k f : guar on_display (set_par k f).
Proof. apply guar_on_con, stays_set_par. Qed.
Lemma display_get_par k : guar on_display (get_par k).
Proof. unfold get_par, getcon. display. Qed.
#[local] Hint Resolve display_csi_M display_set_par display_get_par : guar.

(** when what follows depends on the state, state by state *)
Definition respects {A} (m : K A) (s : kst) : Prop := on_display s (state_of (m s)).
Lemma respects_guar {A} (m : K A) : guar on_display m <-> forall s, respects m s.
Proof. done. Qed.
Lemma respects_bind {A B} (m : K A) (k : A -> K B) s :
  respects m s -> (forall a s', m s = Ret a s' -> respects (k a) s') -> respects (m ≫= k) s.
Proof.
  unfold respects, mbind, M_bind. intros Hm Hk. destruct (m s) as [a s'|e s'|s'|s']; cbn in *; auto.
  etransitivity; [exact Hm|]. by apply Hk.
Qed.
Lemma get_par_inv k s v s' : get_par k s = Ret v s' -> s' = s /\ par (con s) !! k = Some v.
Proof. unfold get_par, getcon. intros H. by minv H. Qed.

Lemma gettty_inv t s x s' : gettty t s = Ret x s' -> s' = s.
Proof.
  unfold gettty, mbind, M_bind, gets, deref. destruct (tty_table (id s) !! t); [|done]. by intros [= _ ->].
Qed.

(** the scroll region set by [ESC [ r] *)
Lemma display_region :
  guar on_display (dec_par 0 ;; c ← getcon;
    set_par 1 (fun v => if v =? 0 then video_num_lines c else v) ;;
    p ← get_par 0; q ← get_par 1;
    when ((p <? q) && (q <=? video_num_lines c)) (on_con (fun c => c <| top := p |> <| bottom := q |>))).
Proof.
  apply guar_bind; [exact _|apply display_set_par|intros _].
  apply respects_guar. intros s. apply respects_bind; [done|]. intros c s0 [= <- <-].
  apply respects_bind; [apply display_set_par|]. intros [] s1 Hs1.
  assert (video_num_lines (con s1) = video_num_lines (con s)) as Hlines.
  { by injection Hs1 as <-. }
  apply respects_bind; [apply display_get_par|]. intros p s2 [-> Hp]%get_par_inv.
  apply respects_bind; [apply display_get_par|]. intros q s3 [-> Hq]%get_par_inv.
  destruct (Z.ltb_spec p q); [|done]. destruct (Z.leb_spec q (video_num_lines (con s))); [|done].
  apply stays_moves; [|done|done]. intros []. cbn in *.
  assert (0 <= p) by (eapply Forall_lookup_1 in wf_par0; [|exact Hp]; done).
  split; cbn; try done; lia.
Qed.

Lemma display_csi_final ch : guar on_display (csi_final ch).
Proof.
  unfold csi_final, one_par, dec_par. cbv zeta.
  repeat match goal with
  | |- guar _ (if _ then _ else _) => case_match
  end;
  try apply display_region;
  repeat first
    [ solve [eauto 2 with guar nocore]
    | apply guar_bind; [exact _| |intros ?]
    | apply guar_on_con; intros ?;
      first [ apply stays_gotoxy | apply stays_csi_J | apply stays_csi_K | apply stays_csi_m | apply stays_save_cur
            | apply stays_iter; intros ?;
              first [apply stays_below, stays_scrdown | apply stays_delete_char | apply stays_insert_char] ]
    | apply guar_ret; exact _ ].
Qed.
#[local] Hint Resolve display_csi_final : guar.

(** changes that touch neither the cursor nor the screen *)
Lemma stays_state n c : stays c (c <| con_state := n |>).
Proof. apply stays_moves; [|done|done]. intros []. by split. Qed.
Lemma display_con_csi ch : guar on_display (con_csi ch).
Proof.
  unfold con_csi, getcon. apply guar_bind; [exact _|apply guar_gets; exact _|intros c]. repeat case_match.
  - apply guar_on_con. intros d. apply stays_moves; [|done|done]. intros []. by split.
  - apply display_set_par.
  - apply guar_bind; [exact _|apply guar_on_con; intros; apply stays_state|intros _]. apply display_csi_final.
Qed.

Lemma display_sysbeep_when (b : bool) : guar on_display (when b sysbeep).
Proof. display. Qed.

Lemma display_con_plain t ch : guar on_display (con_plain t ch).
Proof.
  apply respects_guar. intros s. unfold con_plain. apply respects_bind; [done|]. intros c s0 [= <- <-].
  apply respects_bind; [apply display_gettty|]. intros x s0 ->%gettty_inv.
  repeat match goal with |- respects (if ?b then _ else _) _ => destruct b end.
  - pose proof (stays_print ch (con s)) as Hp. unfold print_con, wrap_con in Hp. cbv zeta in Hp.
    set (put := fun c => put_cell (pos c) (ch + 2 ^ 8 * attr c) c).
    set (go := fun c : con_st => c <| pos ::= Z.add 2 |> <| cur_x ::= Z.add 1 |>).
    assert (runs_as (on_con put ;; on_con go) (fun c => go (put c))) as Hrest by (apply runs_seq; apply runs_on_con).
    destruct (_ <=? _); cbn [when]; [|exact Hp].
    destruct (runs_seq _ _ _ _ runs_wrap_column Hrest s) as (s3 & Hs3 & Hc3).
    unfold respects. rewrite Hs3. unfold on_display. cbn [state_of]. rewrite Hc3. exact Hp.
  - apply (guar_on_con _ (stays_state 1)).
  - apply display_lf.
  - apply guar_on_con, stays_cr.
  - apply guar_on_con, stays_del.
  - apply guar_on_con, stays_back.
  - pose proof (stays_tab (con s)) as Hp. unfold tab_con, wrap_con in Hp. cbv zeta in Hp.
    set (d := (con s) <| cur_x ::= Z.add (8 - Z.land (cur_x (con s)) 7) |>
                    <| pos ::= Z.add (2 * (8 - Z.land (cur_x (con s)) 7)) |>) in *.
    set (s1 := s <| con := d |>).
    change (on_display s (state_of (when (video_num_columns d <? cur_x d) wrap_column s1))).
    destruct (Z.ltb_spec (video_num_columns d) (cur_x d)); cbn [when]; [|exact Hp].
    destruct (Z.leb_spec (video_num_columns d) (cur_x d)); [|lia].
    destruct (runs_wrap_column s1) as (s2 & Hs2 & Hc2). rewrite Hs2. unfold on_display. cbn [state_of]. rewrite Hc2. exact Hp.
  - apply display_sysbeep_when.
Qed.

(** the knot of the console and the line discipline *)
Lemma display_con_char f t ch : (forall t, guar on_display (f t)) -> guar on_display (con_char f t ch).
Proof.
  intros Hf. unfold con_char. apply guar_bind; [exact _|apply guar_gets; exact _|intros c].
  pose proof (fun n => guar_on_con _ (stays_state n)) as Hst.
  repeat match goal with |- guar _ (if ?b then _ else _) => destruct b end.
  - apply display_con_plain.
  - apply guar_bind; [exact _|apply Hst|intros _].
    repeat match goal with |- guar _ (if ?b then _ else _) => destruct b end.
    + apply Hst.
    + apply guar_on_con. intros d. apply stays_gotoxy.
    + apply guar_on_con, stays_ri.
    + apply display_lf.
    + display.
    + apply guar_on_con, stays_save_cur.
    + apply guar_when; [exact _|]. apply guar_on_con. intros d. apply stays_gotoxy.
  - apply guar_bind; [exact _| |intros _; case_match; [apply guar_ret; exact _|apply display_con_csi]].
    apply guar_on_con. intros d. apply stays_moves; [|done|done]. intros []. split; cbn; try done.
    repeat constructor; lia.
  - apply display_con_csi.
Qed.
Lemma display_con_write f t : (forall t, guar on_display (f t)) -> guar on_display (con_write_with f t).
Proof.
  intros Hf. unfold con_write_with. pose proof (fun ch => display_con_char f t ch Hf) as Hch.
  assert (guar on_display set_cursor) as Hcur by (unfold set_cursor, set_video_reg, getcon; display).
  display.
Qed.

Section Knot.
Variable write : nat -> K unit.
Hypothesis Hwrite : forall t, guar on_display (write t).
#[local] Hint Resolve Hwrite : guar.

Lemma display_cook_char t c : guar on_display (cook_char write t c).
Proof. unfold cook_char, translate_input, kill_line, erase_char, echo_erase, echo. display. Qed.
Lemma display_copy_to_cooked t : guar on_display (copy_to_cooked_with write t).
Proof. unfold copy_to_cooked_with. pose proof display_cook_char. display. Qed.
End Knot.

Lemma display_tty_write_fn n t : guar on_display (tty_write_fn n t).
Proof.
  revert t. induction n as [|n IH]; intros t; cbn [tty_write_fn]; [apply guar_spin; exact _|].
  destruct t; [|apply display_rs_write]. apply display_con_write. by apply display_copy_to_cooked.
Qed.
End Display.

(** C23: The console is memory safe: whatever characters are written to it,
    with any escape sequences, alone or through the echo of a terminal's input,
    the cursor stays on the screen, the screen stays inside the video memory,
    [pos] stays the address of the cursor, and no cell outside the video memory
    is written. *)
Theorem con_write_safe {E : Env} (s : kst) (t : nat) (op : K unit)
  (Hop : op = write_fn t \/ op = con_write t \/ op = copy_to_cooked t) (Hwf : wf_con (con s)) :
  let c' := con (state_of (op s)) in
  wf_con c' /\ geometry c' = geometry (con s) /\
  forall a, ~ inside (con s) a -> vram c' !! a = vram (con s) !! a.
Proof.
  assert (guar on_display op) as Hg.
  { destruct Hop as [-> | [-> | ->]]; unfold write_fn, con_write, copy_to_cooked.
    - apply display_tty_write_fn.
    - apply display_con_write, display_copy_to_cooked, display_tty_write_fn.
    - apply display_copy_to_cooked, display_tty_write_fn. }
  exact (Hg s Hwf).
Qed.

(** a colour display of 80 by 25 *)
Definition vga : con_st :=
  boot_con <| video_type := VIDEO_TYPE_EGAC |> <| video_num_columns := 80 |> <| video_size_row := 160 |>
    <| video_num_lines := 25 |> <| video_mem_start := 0xb8000 |> <| video_mem_end := 0xbc000 |>
    <| origin := 0xb8000 |> <| scr_end := 0xb8000 + 4000 |> <| pos := 0xb8000 |> <| bottom := 25 |>.

Lemma con_write_safe_witness : wf_con vga /\
  wf_con (con (state_of (@write_fn (quiet_env 3) 0 (boot_kst <| con := vga |> <| tty_table := boot_tty |>)))).
Proof.
  assert (wf_con vga) as Hwf by (split; cbn; unfold screen_size; cbn; try lia; repeat constructor; lia).
  split; [exact Hwf|].
  exact (proj1 (@con_write_safe (quiet_env 3) (boot_kst <| con := vga |> <| tty_table := boot_tty |>) 0
    (@write_fn (quiet_env 3) 0) (or_introl eq_refl) Hwf)).
Defined.
