(* ===== verification/TtyIoctl.v ===== *)
(** * kernel/chr_drv/tty_ioctl.cc, fs/ioctl.cc *)

From S2P Require Import Prelude State Memory Sched Segment Exit Fork TtyQueue Console Tty Open Inode.

(** ** include/termios.h *)
Definition TCGETS : Z := 0x5401.
Definition TCSETS : Z := 0x5402.
Definition TCSETSW : Z := 0x5403.
Definition TCSETSF : Z := 0x5404.
Definition TCGETA : Z := 0x5405.
Definition TCSETA : Z := 0x5406.
Definition TCSETAW : Z := 0x5407.
Definition TCSETAF : Z := 0x5408.
Definition TCSBRK : Z := 0x5409.
Definition TCFLSH : Z := 0x540B.
Definition TIOCGPGRP : Z := 0x540F.
Definition TIOCSPGRP : Z := 0x5410.
Definition TIOCOUTQ : Z := 0x5411.
Definition TIOCINQ : Z := 0x541B.
Definition CBAUD : Z := 0xF.
Definition NCCS : nat := 17.
Definition NCC : nat := 8.

Definition quotient : list Z :=
  [0; 2304; 1536; 1047; 857; 768; 576; 384; 192; 96; 64; 48; 24; 12; 6; 3].

(** [struct termios] in memory: four words, the line discipline, 17 control
    characters and 2 bytes of padding; the padding is not kept *)
Definition termios_bytes (x : termios) : list Z :=
  le32 (c_iflag x) ++ le32 (c_oflag x) ++ le32 (c_cflag x) ++ le32 (c_lflag x) ++ [u8 (c_line x)] ++
  (u8 <$> c_cc x).
Definition bytes_termios (l : list Z) : termios :=
  mk_termios (get32 l 0) (get32 l 4) (get32 l 8) (get32 l 12) (get8 l 16) (take NCCS (drop 17 l)).
Definition TERMIOS_SIZE : Z := 36.

(** [struct termio]: four short words, the line discipline, 8 control characters *)
Definition termio_bytes (x : termios) : list Z :=
  le16 (c_iflag x) ++ le16 (c_oflag x) ++ le16 (c_cflag x) ++ le16 (c_lflag x) ++ [u8 (c_line x)] ++
  (u8 <$> take NCC (c_cc x)).
(** only the low halves of the flags and the first 8 control characters change *)
Definition set_low (old v : Z) : Z := Z.lor (Z.land old 0xffff0000) v.
Definition apply_termio (l : list Z) (x : termios) : termios :=
  mk_termios (set_low (c_iflag x) (get16 l 0)) (set_low (c_oflag x) (get16 l 2)) (set_low (c_cflag x) (get16 l 4))
    (set_low (c_lflag x) (get16 l 6)) (get8 l 8) (take NCC (drop 9 l) ++ drop NCC (c_cc x)).
Definition TERMIO_SIZE : Z := 18.

Section TtyIoctl.
Context {E : Env}.

Definition put_bytes (l : list Z) (a : Z) : K unit :=
  for_each (imap pair l) (fun '(k, c) => put_fs_byte c (a + Z.of_nat k)).
Fixpoint get_bytes (n : nat) (a : Z) : K (list Z) :=
  match n with
  | O => mret []
  | S n => c ← get_fs_byte a; l ← get_bytes n (a + 1); mret (c :: l)
  end.

Definition change_speed (t : nat) : K unit :=
  x ← gettty t;
  let port := u16 (q_data (tty_read_q x)) in
  if port =? 0 then mret tt else
  quot ← deref (quotient !! Z.to_nat (Z.land (c_cflag (tty_termios x)) CBAUD));
  outb 0x80 (port + 3) ;; outb (Z.land quot 0xff) port ;; outb (Z.shiftr quot 8) (port + 1) ;; outb 0x03 (port + 3).

Definition flush (t q : nat) : K unit := setq t q (fun x => x <| q_head := q_tail x |>).
Definition wait_until_sent (t : nat) : K unit := mret tt.
Definition send_break (t : nat) : K unit := mret tt.

Definition get_termios (t : nat) (a : Z) : K Z :=
  verify_area a TERMIOS_SIZE ;; x ← gettty t; put_bytes (termios_bytes (tty_termios x) ++ [0; 0; 0]) a ;; mret 0.
Definition set_termios (t : nat) (a : Z) : K Z :=
  l ← get_bytes (Z.to_nat TERMIOS_SIZE) a;
  settty t (fun x => x <| tty_termios := bytes_termios l |>) ;;
  change_speed t ;; mret 0.
Definition get_termio (t : nat) (a : Z) : K Z :=
  verify_area a TERMIO_SIZE ;; x ← gettty t; put_bytes (termio_bytes (tty_termios x) ++ [0]) a ;; mret 0.
Definition set_termio (t : nat) (a : Z) : K Z :=
  l ← get_bytes (Z.to_nat TERMIO_SIZE) a;
  settty t (fun x => x <| tty_termios ::= apply_termio l |>) ;;
  change_speed t ;; mret 0.

(** a value of the terminal for the user *)
Definition report (v arg : Z) : K Z := verify_area arg 4 ;; put_fs_long v arg ;; mret 0.

Definition tty_ioctl (dev cmd arg : Z) : K Z :=
  m ← me;
  dev ← (if MAJOR dev =? 5 then if t_tty m <? 0 then panic "tty_ioctl: dev<0" else mret (t_tty m) else mret (MINOR dev));
  let t := Z.to_nat dev in
  if cmd =? TCGETS then get_termios t arg
  else if cmd =? TCSETSF then flush t READ_Q ;; wait_until_sent t ;; set_termios t arg
  else if cmd =? TCSETSW then wait_until_sent t ;; set_termios t arg
  else if cmd =? TCSETS then set_termios t arg
  else if cmd =? TCGETA then get_termio t arg
  else if cmd =? TCSETAF then flush t READ_Q ;; wait_until_sent t ;; set_termio t arg
  else if cmd =? TCSETAW then wait_until_sent t ;; set_termio t arg
  else if cmd =? TCSETA then set_termio t arg
  else if cmd =? TCSBRK then when (arg =? 0) (wait_until_sent t ;; send_break t) ;; mret 0
  else if cmd =? TCFLSH then
    if arg =? 0 then flush t READ_Q ;; mret 0
    else if arg =? 1 then flush t WRITE_Q ;; mret 0
    else if arg =? 2 then flush t READ_Q ;; flush t WRITE_Q ;; mret 0
    else mret (- EINVAL)
  else if cmd =? TIOCGPGRP then x ← gettty t; report (tty_pgrp x) arg
  else if cmd =? TIOCSPGRP then v ← get_fs_long arg; settty t (fun x => x <| tty_pgrp := s32 v |>) ;; mret 0
  else if cmd =? TIOCOUTQ then verify_area arg 4 ;; x ← gettty t; put_fs_long (CHARS (tty_write_q x)) arg ;; mret 0
  else if cmd =? TIOCINQ then verify_area arg 4 ;; x ← gettty t; put_fs_long (CHARS (tty_secondary x)) arg ;; mret 0
  else mret (- EINVAL).

(** ** fs/ioctl.cc: only the terminals, major 4 and 5, have an entry in [ioctl_table] of 8 *)
Definition sys_ioctl (fd cmd arg : Z) : K Z :=
  o ← fd_file fd;
  match o with
  | None => mret (- EBADF)
  | Some f =>
      x ← getfile f; i ← deref (f_inode x); xi ← getino i;
      if negb (S_ISCHR (i_mode xi)) && negb (S_ISBLK (i_mode xi)) then mret (- EINVAL) else
      dev ← get_zone i 0;
      if 8 <=? MAJOR dev then mret (- ENODEV) else
      if negb ((MAJOR dev =? 4) || (MAJOR dev =? 5)) then mret (- ENOTTY) else
      tty_ioctl dev (s32 cmd) (s32 arg)
  end.
End TtyIoctl.
