(* ===== verification/ReadWrite.v ===== *)
(** * fs/read_write.cc, file_dev.cc, block_dev.cc, char_dev.cc, pipe.cc, stat.cc *)

From S2P Require Import Prelude State Segment Memory Sched Request LlRw Buffer Bitmap Inode Namei TtyQueue Super Open Exit Fork Console Tty TtyIoctl.

Section ReadWrite.
Context {E : Env}.

(** [while (chars-->0) put_fs_byte( *(p++), buf++)] *)
Definition copy_to_user (data : list Z) (off chars : nat) (buf : Z) : K unit :=
  for_each (seq 0 chars) (fun k => put_fs_byte (get8 data (off + k)) (buf + Z.of_nat k)).
Definition clear_user (chars : nat) (buf : Z) : K unit :=
  for_each (seq 0 chars) (fun k => put_fs_byte 0 (buf + Z.of_nat k)).
(** [while (c-->0) *(p++) = get_fs_byte(buf++)], into a buffer *)
Definition copy_from_user (b off chars : nat) (buf : Z) : K unit :=
  for_each (seq 0 chars) (fun k =>
    c ← get_fs_byte (buf + Z.of_nat k);
    setbh b (fun y => y <| b_data ::= <[(off + k)%nat := c]> |>)).

(** ** fs/file_dev.cc *)
Definition read_file_step (i f : nat) : Z * Z -> K (Z * Z + Z) := fun '(rest, buf) =>
  if rest =? 0 then mret (inr rest) else
  x ← getfile f;
  nr ← bmap i (Z.quot (f_pos x) BLOCK_SIZE);
  xi ← getino i;
  o ← (if nz nr then b ← bread (i_dev xi) nr; mret (match b with Some b => inl (Some b) | None => inr tt end)
       else mret (inl None));
  match o with
  | inr _ => mret (inr rest)
  | inl bh =>
      x ← getfile f;
      let nr := Z.rem (f_pos x) BLOCK_SIZE in
      let chars := Z.min (BLOCK_SIZE - nr) rest in
      setfile f (fun x => x <| f_pos ::= fun p => s32 (p + chars) |>) ;;
      match bh with
      | Some b =>
          y ← getbh b;
          copy_to_user (b_data y) (Z.to_nat nr) (Z.to_nat chars) buf ;;
          brelse (Some b)
      | None => clear_user (Z.to_nat chars) buf
      end ;;
      mret (inl (rest - chars, buf + chars))
  end.
(** each round but the first and the last reads a whole block *)
Definition file_read (i f : nat) (buf count : Z) : K Z :=
  if count <=? 0 then mret 0 else
  rest ← loop (3 + Z.to_nat (count / BLOCK_SIZE)) (read_file_step i f) (count, buf);
  t ← CURRENT_TIME;
  setino i (fun x => x <| i_atime := u32 t |>) ;;
  mret (if nz (count - rest) then count - rest else - ERROR).

Definition write_file_step (i : nat) (buf count : Z) : Z * Z -> K (Z * Z + Z * Z) := fun '(n, pos) =>
  if count <=? n then mret (inr (n, pos)) else
  block ← create_block i (Z.quot pos BLOCK_SIZE);
  if block =? 0 then mret (inr (n, pos)) else
  xi ← getino i;
  o ← bread (i_dev xi) block;
  match o with
  | None => mret (inr (n, pos))
  | Some b =>
      let off := Z.rem pos BLOCK_SIZE in
      setbh b (fun y => y <| b_dirt := 1 |>) ;;
      let c := Z.min (BLOCK_SIZE - off) (count - n) in
      let pos := s32 (pos + c) in
      setino i (fun x => if s32 (i_size x) <? pos then x <| i_size := u32 pos |> <| i_dirt := 1 |> else x) ;;
      copy_from_user b (Z.to_nat off) (Z.to_nat c) (buf + n) ;;
      brelse (Some b) ;;
      mret (inl (n + c, pos))
  end.
Definition file_write (i f : nat) (buf count : Z) : K Z :=
  x ← getfile f; xi ← getino i;
  let append := nz (Z.land (f_flags x) O_APPEND) in
  let pos := if append then s32 (i_size xi) else f_pos x in
  '(n, pos) ← loop (3 + Z.to_nat (count / BLOCK_SIZE)) (write_file_step i buf count) (0, pos);
  t ← CURRENT_TIME;
  setino i (fun x => x <| i_mtime := u32 t |>) ;;
  unless append
    (setfile f (fun x => x <| f_pos := pos |>) ;;
     t ← CURRENT_TIME;
     setino i (fun x => x <| i_ctime := u32 t |>)) ;;
  mret (if nz n then n else -1).

(** ** fs/block_dev.cc *)

(** the position in [f_pos] of the file *)
Definition add_pos (f : nat) (n : Z) : K unit := setfile f (fun x => x <| f_pos ::= fun p => s32 (p + n) |>).

(** what is rest, the block, the offset in it, the user address, the count done *)
Definition block_step (wr : bool) (f : nat) (dev : Z) :
    Z * Z * Z * Z * Z -> K (Z * Z * Z * Z * Z + Z) := fun '(count, block, offset, buf, done) =>
  if count <=? 0 then mret (inr done) else
  let chars := Z.min (BLOCK_SIZE - offset) count in
  o ← (if wr && (chars =? BLOCK_SIZE) then b ← getblk dev block; mret (Some b)
       else breada dev block [block + 1; block + 2]);
  match o with
  | None => mret (inr (if nz done then done else - EIO))
  | Some b =>
      add_pos f chars ;;
      (if wr then
         copy_from_user b (Z.to_nat offset) (Z.to_nat chars) buf ;;
         setbh b (fun y => y <| b_dirt := 1 |>)
       else y ← getbh b; copy_to_user (b_data y) (Z.to_nat offset) (Z.to_nat chars) buf) ;;
      brelse (Some b) ;;
      mret (inl (count - chars, block + 1, 0, buf + chars, done + chars))
  end.
Definition block_rw (wr : bool) (dev : Z) (f : nat) (buf count : Z) (pos : Z) : K Z :=
  loop (3 + Z.to_nat (count / BLOCK_SIZE)) (block_step wr f dev)
    (count, Z.shiftr pos BLOCK_SIZE_BITS, Z.land pos (BLOCK_SIZE - 1), buf, 0).
(** the read side shifts the position as an unsigned number *)
Definition block_write (dev : Z) (f : nat) (buf count : Z) : K Z :=
  x ← getfile f; block_rw true dev f buf count (f_pos x).
Definition block_read (dev : Z) (f : nat) (buf count : Z) : K Z :=
  x ← getfile f; block_rw false dev f buf count (u32 (f_pos x)).

(** ** fs/char_dev.cc *)
Definition rw_ttyx (rw minor buf count : Z) : K Z :=
  if rw =? READ then tty_read minor buf count else tty_write minor buf count.
Definition rw_tty (rw buf count : Z) : K Z :=
  t ← me; if t_tty t <? 0 then mret (- EPERM) else rw_ttyx rw (t_tty t) buf count.

Definition rw_port (rw buf count : Z) (f : nat) : K Z :=
  x ← getfile f;
  '(i, _) ← loop (S (Z.to_nat count)) (fun '(i, n) =>
    if (count <=? n) || (65536 <=? i) then mret (inr (i, n)) else
    (if rw =? READ then v ← inb i; put_fs_byte v (buf + n) else c ← get_fs_byte (buf + n); outb c i) ;;
    mret (inl (i + 1, n + 1))) (f_pos x, 0);
  let n := i - f_pos x in
  add_pos f n ;; mret n.

Definition rw_memory (rw minor buf count : Z) (f : nat) : K Z :=
  if minor =? 0 then mret (- EIO)           (* rw_ram *)
  else if minor =? 1 then mret (- EIO)      (* rw_mem *)
  else if minor =? 2 then mret (- EIO)      (* rw_kmem *)
  else if minor =? 3 then mret (if rw =? READ then 0 else count)      (* rw_null *)
  else if minor =? 4 then rw_port rw buf count f
  else mret (- EIO).

(** [crw_table] has 8 entries, of which 1, 4 and 5 are not NULL *)
Definition rw_char (rw dev buf count : Z) (f : nat) : K Z :=
  let major := MAJOR dev in
  if 8 <=? major then mret (- ENODEV)
  else if major =? 1 then rw_memory rw (MINOR dev) buf count f
  else if major =? 4 then rw_ttyx rw (MINOR dev) buf count
  else if major =? 5 then rw_tty rw buf count
  else mret (- ENODEV).

(** ** fs/pipe.cc *)
Definition PAGE_SIZE : Z := 4096.
Definition PIPE_HEAD (x : m_inode) : Z := default 0 (i_zone x !! 0%nat).
Definition PIPE_TAIL (x : m_inode) : Z := default 0 (i_zone x !! 1%nat).
Definition PIPE_SIZE (x : m_inode) : Z := Z.land (PIPE_HEAD x - PIPE_TAIL x) (PAGE_SIZE - 1).

(** bytes of the page of a pipe *)
Definition load_byte (a : Z) : M mm_st Z := w ← load (a - a mod 4); mret (byte_of w (a mod 4)).
Definition store_byte (a v : Z) : M mm_st unit :=
  w ← load (a - a mod 4); store (a - a mod 4) (set_byte (a mod 4) v w).
Definition pipe_to_user (page tail : Z) (chars : nat) (buf : Z) : K unit :=
  for_each (seq 0 chars) (fun k =>
    c ← zoom_mm (load_byte (page + tail + Z.of_nat k)); put_fs_byte c (buf + Z.of_nat k)).
Definition user_to_pipe (page head : Z) (chars : nat) (buf : Z) : K unit :=
  for_each (seq 0 chars) (fun k =>
    c ← get_fs_byte (buf + Z.of_nat k); zoom_mm (store_byte (page + head + Z.of_nat k) c)).

(** wait until [room] is not 0; [None] when the other end is closed *)
Definition pipe_wait (i : nat) (room : m_inode -> Z) : K (option Z) :=
  loop env_fuel (fun _ : unit =>
    x ← getino i;
    if nz (room x) then mret (inr (Some (room x))) else
    wake_up (WqInode i) ;;
    x ← getino i;
    if negb (i_count x =? 2) then mret (inr None) else
    sleep_on (WqInode i) ;; mret (inl tt)) tt.

Definition read_pipe_step (i : nat) : Z * Z * Z -> K (Z * Z * Z + Z * bool) := fun '(count, buf, read) =>
  if count <=? 0 then mret (inr (read, true)) else
  o ← pipe_wait i PIPE_SIZE;
  match o with
  | None => mret (inr (read, false))
  | Some size =>
      x ← getino i;
      let tail := PIPE_TAIL x in
      let chars := Z.min (Z.min (PAGE_SIZE - tail) count) size in
      set_zone i 1 (Z.land (tail + chars) (PAGE_SIZE - 1)) ;;
      pipe_to_user (i_size x) tail (Z.to_nat chars) buf ;;
      mret (inl (count - chars, buf + chars, read + chars))
  end.
Definition read_pipe (i : nat) (buf count : Z) : K Z :=
  '(read, normal) ← loop env_fuel (read_pipe_step i) (count, buf, 0);
  when normal (wake_up (WqInode i)) ;;
  mret read.

Definition write_pipe_step (i : nat) : Z * Z * Z -> K (Z * Z * Z + Z * bool) := fun '(count, buf, written) =>
  if count <=? 0 then mret (inr (written, true)) else
  o ← pipe_wait i (fun x => PAGE_SIZE - 1 - PIPE_SIZE x);
  match o with
  | None =>
      setme (fun t => t <| t_signal ::= fun g => Z.lor g (bit (SIGPIPE - 1)) |>) ;;
      mret (inr (if nz written then written else -1, false))
  | Some size =>
      x ← getino i;
      let head := PIPE_HEAD x in
      let chars := Z.min (Z.min (PAGE_SIZE - head) count) size in
      set_zone i 0 (Z.land (head + chars) (PAGE_SIZE - 1)) ;;
      user_to_pipe (i_size x) head (Z.to_nat chars) buf ;;
      mret (inl (count - chars, buf + chars, written + chars))
  end.
Definition write_pipe (i : nat) (buf count : Z) : K Z :=
  '(written, normal) ← loop env_fuel (write_pipe_step i) (count, buf, 0);
  when normal (wake_up (WqInode i)) ;;
  mret written.

(** two unused files and two free descriptors, as many as there are *)
Fixpoint free_files (l : list file) (n j : nat) : list nat :=
  match l, j with
  | f :: l, S j' => if f_count f =? 0 then n :: free_files l (S n) j' else free_files l (S n) j
  | _, _ => []
  end.
Fixpoint free_fds (l : list (option nat)) (n j : nat) : list nat :=
  match l, j with
  | o :: l, S j' => match o with None => n :: free_fds l (S n) j' | Some _ => free_fds l (S n) j end
  | _, _ => []
  end.
Definition set_f_count (n : Z) (f : nat) : K unit := setfile f (fun x => x <| f_count := n |>).

Definition sys_pipe (fildes : Z) : K Z :=
  s ← gets fsys;
  let fs := free_files (file_table s) 0 2 in
  for_each fs (set_f_count 1) ;;
  match fs with
  | [f0; f1] =>
      t ← me;
      let fds := free_fds (t_filp t) 0 2 in
      for_each (zip fds [f0; f1]) (fun '(fd, f) => set_filp fd (Some f)) ;;
      match fds with
      | [fd0; fd1] =>
          o ← get_pipe_inode;
          match o with
          | None =>
              set_filp fd1 None ;; set_filp fd0 None ;;
              set_f_count 0 f1 ;; set_f_count 0 f0 ;; mret (-1)
          | Some i =>
              setfile f1 (fun x => x <| f_inode := Some i |> <| f_pos := 0 |>) ;;
              setfile f0 (fun x => x <| f_inode := Some i |> <| f_pos := 0 |>) ;;
              setfile f0 (fun x => x <| f_mode := 1 |>) ;;
              setfile f1 (fun x => x <| f_mode := 2 |>) ;;
              put_fs_long (Z.of_nat fd0) fildes ;;
              put_fs_long (Z.of_nat fd1) (fildes + 4) ;;
              mret 0
          end
      | _ =>
          for_each fds (fun fd => set_filp fd None) ;;
          set_f_count 0 f1 ;; set_f_count 0 f0 ;; mret (-1)
      end
  | _ => for_each fs (set_f_count 0) ;; mret (-1)
  end.

(** ** fs/read_write.cc *)
Definition sys_lseek (fd offset origin : Z) : K Z :=
  o ← fd_file fd;
  match o with
  | None => mret (- EBADF)
  | Some f =>
      x ← getfile f;
      match f_inode x with
      | None => mret (- EBADF)
      | Some i =>
          xi ← getino i;
          if negb (IS_SEEKABLE (MAJOR (i_dev xi))) then mret (- EBADF) else
          if nz (i_pipe xi) then mret (- ESPIPE) else
          let new := if origin =? 0 then Some offset
                     else if origin =? 1 then Some (s32 (f_pos x + offset))
                     else if origin =? 2 then Some (s32 (i_size xi + offset))
                     else None in
          match new with
          | None => mret (- EINVAL)
          | Some p =>
              if p <? 0 then mret (- EINVAL) else
              setfile f (fun x => x <| f_pos := p |>) ;; mret p
          end
      end
  end.

Definition sys_read (fd buf count : Z) : K Z :=
  if (Z.of_nat NR_OPEN <=? fd) || (count <? 0) then mret (- EINVAL) else
  o ← fd_file fd;
  match o with
  | None => mret (- EINVAL)
  | Some f =>
      if count =? 0 then mret 0 else
      verify_area buf count ;;
      x ← getfile f; i ← deref (f_inode x); xi ← getino i;
      if nz (i_pipe xi) then (if nz (Z.land (f_mode x) 1) then read_pipe i buf count else mret (- EIO))
      else if S_ISCHR (i_mode xi) then z ← get_zone i 0; rw_char READ z buf count f
      else if S_ISBLK (i_mode xi) then z ← get_zone i 0; block_read z f buf count
      else if S_ISDIR (i_mode xi) || S_ISREG (i_mode xi) then
        let count := if s32 (i_size xi) <? s32 (count + f_pos x) then s32 (i_size xi - f_pos x) else count in
        if count <=? 0 then mret 0 else file_read i f buf count
      else printk "(Read)inode->i_mode=%06o" [i_mode xi] ;; mret (- EINVAL)
  end.

Definition sys_write (fd buf count : Z) : K Z :=
  if (Z.of_nat NR_OPEN <=? fd) || (count <? 0) then mret (- EINVAL) else
  o ← fd_file fd;
  match o with
  | None => mret (- EINVAL)
  | Some f =>
      if count =? 0 then mret 0 else
      x ← getfile f; i ← deref (f_inode x); xi ← getino i;
      if nz (i_pipe xi) then (if nz (Z.land (f_mode x) 2) then write_pipe i buf count else mret (- EIO))
      else if S_ISCHR (i_mode xi) then z ← get_zone i 0; rw_char WRITE z buf count f
      else if S_ISBLK (i_mode xi) then z ← get_zone i 0; block_write z f buf count
      else if S_ISREG (i_mode xi) then file_write i f buf count
      else printk "(Write)inode->i_mode=%06o" [i_mode xi] ;; mret (- EINVAL)
  end.

(** ** fs/stat.cc: [struct stat] in memory, with its padding *)
Definition stat_bytes (x : m_inode) : list Z :=
  le16 (i_dev x) ++ le16 (i_num x) ++ le16 (i_mode x) ++ [u8 (i_nlinks x); 0] ++
  le16 (i_uid x) ++ [u8 (i_gid x); 0] ++ le16 (default 0 (i_zone x !! 0%nat)) ++ [0; 0] ++
  le32 (i_size x) ++ le32 (i_atime x) ++ le32 (i_mtime x) ++ le32 (i_ctime x).
Definition STAT_SIZE : Z := 32.
Definition cp_stat (i : nat) (statbuf : Z) : K unit :=
  verify_area statbuf STAT_SIZE ;;
  x ← getino i;
  put_bytes (stat_bytes x) statbuf.
Definition sys_stat (filename statbuf : Z) : K Z :=
  o ← namei filename;
  match o with
  | None => mret (- ENOENT)
  | Some i => cp_stat i statbuf ;; iput (Some i) ;; mret 0
  end.
Definition sys_fstat (fd statbuf : Z) : K Z :=
  o ← fd_file fd;
  match o with
  | None => mret (- EBADF)
  | Some f =>
      x ← getfile f;
      match f_inode x with
      | None => mret (- EBADF)
      | Some i => cp_stat i statbuf ;; mret 0
      end
  end.
End ReadWrite.
