(* ===== verification/PipeFacts.v ===== *)
(** * fs/pipe.cc: a pipe is a stream of bytes

    The page of a pipe is a ring; [PIPE_TAIL] and [PIPE_HEAD] are kept in the
    first two zones of its inode.  Writing appends to the bytes in the ring and
    reading takes from their front, across the end of the page. *)

From S2P Require Import Prelude Bits State Segment Memory MemoryFacts Sched.
From S2P Require Import Request LlRw Buffer BufferFacts Bitmap CacheFacts Inode ReadWrite.

(** ** Bytes of physical memory *)
Definition mem_byte (m : mm_st) (a : Z) : Z := byte_of (word m (a - a mod 4)) (a mod 4).

Lemma byte_of_set_byte j k v w : 0 <= j <= 3 -> 0 <= k <= 3 -> byte_of (set_byte k v w) j = if decide (j = k) then u8 v else byte_of w j.
Proof.
  intros Hj Hk. apply Z.bits_inj'. intros n Hn. rewrite byte_of_bits, set_byte_bits by lia. unfold u8.
  case_decide as Hjk; [subst|].
  - rewrite testbit_mod by lia. bits_cases. f_equal. lia.
  - rewrite byte_of_bits by lia. bits_cases.
Qed.
Lemma mem_byte_store m a v b : let w := a - a mod 4 in
  mem_byte (m <| phys ::= insert w (set_byte (a mod 4) v (word m w)) |>) b = if decide (b = a) then u8 v else mem_byte m b.
Proof.
  cbv zeta. unfold mem_byte. pose proof (Z.mod_pos_bound a 4 ltac:(lia)). pose proof (Z.mod_pos_bound b 4 ltac:(lia)).
  destruct (decide (b - b mod 4 = a - a mod 4)) as [Hw|Hw].
  - rewrite Hw, word_store_eq, byte_of_set_byte by lia. repeat case_decide; try done; lia.
  - rewrite word_store_ne by congruence. rewrite decide_False by (intros ->; done). done.
Qed.

(** [n] bytes from the address [a] on; the same in the user's segment *)
Definition mem_bytes (m : mm_st) (a : Z) (n : nat) : list Z := (fun k : nat => mem_byte m (a + Z.of_nat k)) <$> seq 0 n.
Definition user_words (s : kst) (a : Z) (n : nat) : list Z := (fun k : nat => default 0 (umem s !! u32 (a + Z.of_nat k))) <$> seq 0 n.
Definition user_bytes (s : kst) (a : Z) (n : nat) : list Z := u8 <$> user_words s a n.

(** memory after the bytes of [l] have been stored from [a] on *)
Fixpoint store_bytes (a : Z) (l : list Z) (m : mm_st) : mm_st :=
  match l with
  | [] => m
  | c :: l => store_bytes (a + 1) l (m <| phys ::= insert (a - a mod 4) (set_byte (a mod 4) c (word m (a - a mod 4))) |>)
  end.
Fixpoint put_bytes_at (a : Z) (l : list Z) (m : gmap Z Z) : gmap Z Z :=
  match l with [] => m | c :: l => put_bytes_at (a + 1) l (<[u32 a := u8 c]> m) end.

Lemma store_bytes_at a l m b : mem_byte (store_bytes a l m) b =
  match (if decide (a <= b) then l !! Z.to_nat (b - a) else None) with Some c => u8 c | None => mem_byte m b end.
Proof.
  revert a m. induction l as [|c l IH]; intros a m; cbn [store_bytes]; [by case_decide|]. rewrite IH, mem_byte_store.
  destruct (decide (b = a)) as [->|Hne].
  - rewrite decide_False by lia. rewrite decide_True by lia. by rewrite Z.sub_diag.
  - destruct (decide (a + 1 <= b)).
    + rewrite decide_True by lia. replace (Z.to_nat (b - a)) with (S (Z.to_nat (b - (a + 1)))) by lia. done.
    + by rewrite decide_False by lia.
Qed.
Lemma put_bytes_out a l m b : (forall k, (k < length l)%nat -> b <> u32 (a + Z.of_nat k)) -> put_bytes_at a l m !! b = m !! b.
Proof.
  revert a m. induction l as [|c l IH]; intros a m H; cbn [put_bytes_at]; [done|]. rewrite IH.
  - apply lookup_insert_ne. intros Heq. apply (H 0%nat); [cbn; lia|]. by rewrite Z.add_0_r.
  - intros k Hk. replace (a + 1 + Z.of_nat k) with (a + Z.of_nat (S k)) by lia. apply H. cbn. lia.
Qed.
Lemma put_bytes_in a l m k c : 0 <= a -> a + Z.of_nat (length l) <= 2 ^ 32 -> l !! k = Some c ->
  put_bytes_at a l m !! (a + Z.of_nat k) = Some (u8 c).
Proof.
  revert a m k. induction l as [|d l IH]; intros a m k Ha Hl Hk; [done|]. cbn [put_bytes_at]. cbn [length] in Hl.
  destruct k as [|k].
  - injection Hk as ->. rewrite put_bytes_out; [by rewrite Z.add_0_r, u32_id, lookup_insert_eq by lia|].
    intros k Hk. rewrite u32_id by lia. lia.
  - replace (a + Z.of_nat (S k)) with (a + 1 + Z.of_nat k) by lia. apply IH; [lia|lia|done].
Qed.

(** ** The copying loops *)
Section Copy.
Context {E : Env}.

Lemma pipe_to_user_run page tail n buf s :
  pipe_to_user page tail n buf s = Ret tt (s <| umem ::= put_bytes_at buf (mem_bytes (mm s) (page + tail) n) |>).
Proof.
  unfold pipe_to_user, mem_bytes. assert (forall j b s', mm s' = mm s -> b = buf + Z.of_nat j ->
    for_each (seq j n) (fun k => c ← zoom_mm (load_byte (page + tail + Z.of_nat k)); put_fs_byte c (buf + Z.of_nat k)) s' =
    Ret tt (s' <| umem ::= put_bytes_at b ((fun k : nat => mem_byte (mm s) (page + tail + Z.of_nat k)) <$> seq j n) |>)) as H.
  { induction n as [|n IH]; intros j b s' Hmm ->; cbn [seq for_each fmap list_fmap]; [by destruct s'|].
    set (c := mem_byte (mm s) (page + tail + Z.of_nat j)). set (s1 := s' <| umem ::= insert (u32 (buf + Z.of_nat j)) (u8 c) |>).
    rewrite (bind_Ret _ _ s' tt s1).
    - rewrite (IH (S j) (buf + Z.of_nat (S j)) s1) by (done || lia). f_equal.
      replace (buf + Z.of_nat (S j)) with (buf + Z.of_nat j + 1) by lia. done.
    - unfold s1, c. rewrite <- Hmm. by destruct s'. }
  rewrite (H 0%nat buf s) by (done || lia). done.
Qed.

Lemma user_to_pipe_run page head n buf s :
  user_to_pipe page head n buf s = Ret tt (s <| mm ::= store_bytes (page + head) (user_words s buf n) |>).
Proof.
  unfold user_to_pipe, user_words. assert (forall j a s', umem s' = umem s -> a = page + head + Z.of_nat j ->
    for_each (seq j n) (fun k => c ← get_fs_byte (buf + Z.of_nat k); zoom_mm (store_byte (page + head + Z.of_nat k) c)) s' =
    Ret tt (s' <| mm ::= store_bytes a ((fun k : nat => default 0 (umem s !! u32 (buf + Z.of_nat k))) <$> seq j n) |>)) as H.
  { induction n as [|n IH]; intros j a s' Hu ->; cbn [seq for_each fmap list_fmap]; [by destruct s'|].
    set (c := default 0 (umem s !! u32 (buf + Z.of_nat j))). set (a := page + head + Z.of_nat j).
    set (s1 := s' <| mm ::= fun m => m <| phys ::= insert (a - a mod 4) (set_byte (a mod 4) c (word m (a - a mod 4))) |> |>).
    rewrite (bind_Ret _ _ s' tt s1).
    - rewrite (IH (S j) (page + head + Z.of_nat (S j)) s1) by (done || lia). f_equal.
      replace (page + head + Z.of_nat (S j)) with (a + 1) by (unfold a; lia). done.
    - unfold s1, c. rewrite <- Hu. by destruct s'. }
  rewrite (H 0%nat (page + head) s) by (done || lia). done.
Qed.
End Copy.

(** ** The ring *)
Definition ring (m : mm_st) (x : m_inode) : list Z :=
  (fun k : nat => mem_byte m (i_size x + (PIPE_TAIL x + Z.of_nat k) mod PAGE_SIZE)) <$> seq 0 (Z.to_nat (PIPE_SIZE x)).
(** the inode [i] is the pipe [x] with the bytes [l] in it; a task that waits for it exists *)
Definition pipe_at (s : kst) (i : nat) (x : m_inode) (l : list Z) : Prop :=
  inode_table (fsys s) !! i = Some x /\ length (i_zone x) = 9%nat /\
  0 <= PIPE_HEAD x < PAGE_SIZE /\ 0 <= PIPE_TAIL x < PAGE_SIZE /\ l = ring (mm s) x /\
  (forall p, i_wait x = Some p -> is_Some (tmem (sched s) !! p)).
Definition pipe (s : kst) (i : nat) (l : list Z) : Prop := exists x, pipe_at s i x l.

Lemma PIPE_SIZE_mod x : PIPE_SIZE x = (PIPE_HEAD x - PIPE_TAIL x) mod PAGE_SIZE.
Proof. unfold PIPE_SIZE, PAGE_SIZE. change (4096 - 1) with (Z.ones 12). by rewrite Z.land_ones by lia. Qed.
Lemma ring_length m x : Z.of_nat (length (ring m x)) = PIPE_SIZE x.
Proof.
  unfold ring. rewrite length_fmap, length_seq, Z2Nat.id; [done|]. rewrite PIPE_SIZE_mod. by apply Z.mod_pos_bound.
Qed.
Ltac ring_arith := unfold PAGE_SIZE in *; rewrite ?PIPE_SIZE_mod in *; unfold PAGE_SIZE in *; Z.div_mod_to_equations; lia.

(** the inode after [n] bytes were read, or written *)
Definition moved (k : nat) (v : Z) (x : m_inode) : m_inode := x <| i_zone ::= <[k := u16 (Z.land v (PAGE_SIZE - 1))]> |>.
Lemma moved_zone v : u16 (Z.land v (PAGE_SIZE - 1)) = v mod PAGE_SIZE.
Proof.
  unfold PAGE_SIZE. change (4096 - 1) with (Z.ones 12). rewrite Z.land_ones by lia. unfold u16. change (2 ^ 12) with 4096.
  apply Z.mod_small. pose proof (Z.mod_pos_bound v 4096 ltac:(lia)). lia.
Qed.
Lemma moved_tail v x : length (i_zone x) = 9%nat -> PIPE_TAIL (moved 1 v x) = v mod PAGE_SIZE /\ PIPE_HEAD (moved 1 v x) = PIPE_HEAD x.
Proof.
  intros Hl. unfold PIPE_TAIL, PIPE_HEAD, moved. cbn. rewrite list_lookup_insert_eq, list_lookup_insert_ne by lia.
  split; [apply moved_zone|done].
Qed.
Lemma moved_head v x : length (i_zone x) = 9%nat -> PIPE_HEAD (moved 0 v x) = v mod PAGE_SIZE /\ PIPE_TAIL (moved 0 v x) = PIPE_TAIL x.
Proof.
  intros Hl. unfold PIPE_TAIL, PIPE_HEAD, moved. cbn. rewrite list_lookup_insert_eq, list_lookup_insert_ne by lia.
  split; [apply moved_zone|done].
Qed.

Lemma ring_read m x n : length (i_zone x) = 9%nat -> 0 <= PIPE_HEAD x < PAGE_SIZE -> 0 <= PIPE_TAIL x < PAGE_SIZE ->
  0 <= n <= PIPE_SIZE x -> PIPE_TAIL x + n <= PAGE_SIZE ->
  ring m (moved 1 (PIPE_TAIL x + n) x) = drop (Z.to_nat n) (ring m x) /\
  mem_bytes m (i_size x + PIPE_TAIL x) (Z.to_nat n) = take (Z.to_nat n) (ring m x).
Proof.
  intros Hl Hh Ht Hn Hw. destruct (moved_tail (PIPE_TAIL x + n) x Hl) as [HT HH].
  assert (PIPE_SIZE (moved 1 (PIPE_TAIL x + n) x) = PIPE_SIZE x - n) as HS.
  { rewrite (PIPE_SIZE_mod (moved _ _ _)), HT, HH. rewrite PIPE_SIZE_mod in *. ring_arith. }
  split.
  - unfold ring. rewrite HS, HT. rewrite <- fmap_drop, drop_seq. change (i_size (moved _ _ x)) with (i_size x).
    replace (Z.to_nat (PIPE_SIZE x) - Z.to_nat n)%nat with (Z.to_nat (PIPE_SIZE x - n)) by lia.
    replace (0 + Z.to_nat n)%nat with (Z.to_nat n + 0)%nat by lia. rewrite <- (fmap_add_seq (Z.to_nat n) 0), <- list_fmap_compose. apply list_fmap_ext. intros k j _. cbn. do 2 f_equal.
    replace (PIPE_TAIL x + Z.of_nat (Z.to_nat n + j)) with (PIPE_TAIL x + n + Z.of_nat j) by lia.
    by rewrite Zplus_mod_idemp_l.
  - unfold ring, mem_bytes. rewrite <- fmap_take, take_seq. rewrite Nat.min_l by lia.
    apply list_fmap_ext. intros k j Hj. apply lookup_seq in Hj as [-> Hj]. f_equal.
    rewrite Z.mod_small by lia. lia.
Qed.

Lemma ring_write m x bs : length (i_zone x) = 9%nat -> 0 <= PIPE_HEAD x < PAGE_SIZE -> 0 <= PIPE_TAIL x < PAGE_SIZE ->
  let n := Z.of_nat (length bs) in PIPE_SIZE x + n < PAGE_SIZE -> PIPE_HEAD x + n <= PAGE_SIZE ->
  ring (store_bytes (i_size x + PIPE_HEAD x) bs m) (moved 0 (PIPE_HEAD x + n) x) = ring m x ++ (u8 <$> bs).
Proof.
  intros Hl Hh Ht n Hn Hw. destruct (moved_head (PIPE_HEAD x + n) x Hl) as [HH HT].
  assert (0 <= PIPE_SIZE x) by (rewrite PIPE_SIZE_mod; by apply Z.mod_pos_bound).
  assert (PIPE_SIZE (moved 0 (PIPE_HEAD x + n) x) = PIPE_SIZE x + n) as HS.
  { rewrite (PIPE_SIZE_mod (moved _ _ _)), HT, HH. rewrite PIPE_SIZE_mod in *. ring_arith. }
  apply list_eq. intros k. unfold ring at 1. rewrite list_lookup_fmap, HS, HT. change (i_size (moved _ _ x)) with (i_size x).
  destruct (decide (Z.of_nat k < PIPE_SIZE x + n)) as [Hk|Hk].
  2:{ rewrite lookup_seq_ge by lia. symmetry. apply lookup_ge_None. rewrite length_app, length_fmap. pose proof (ring_length m x). lia. }
  rewrite lookup_seq_lt by lia. cbn [fmap option_fmap option_map]. rewrite store_bytes_at. rewrite Nat.add_0_l.
  set (a := (PIPE_TAIL x + Z.of_nat k) mod PAGE_SIZE). assert (0 <= a < PAGE_SIZE) as Ha by (by apply Z.mod_pos_bound).
  destruct (decide (Z.of_nat k < PIPE_SIZE x)) as [Hold|Hnew].
  - rewrite lookup_app_l by (pose proof (ring_length m x); lia). unfold ring. rewrite list_lookup_fmap, lookup_seq_lt by lia. cbn. fold a.
    destruct (decide _); [|done]. rewrite lookup_ge_None_2; [done|]. unfold a in *. rewrite PIPE_SIZE_mod in *. ring_arith.
  - assert (a = PIPE_HEAD x + (Z.of_nat k - PIPE_SIZE x)) as Hak by (unfold a in *; rewrite PIPE_SIZE_mod in *; ring_arith).
    rewrite decide_True by lia. rewrite lookup_app_r by (pose proof (ring_length m x); lia). rewrite list_lookup_fmap.
    replace (k - length (ring m x))%nat with (Z.to_nat (i_size x + a - (i_size x + PIPE_HEAD x))) by (pose proof (ring_length m x); lia).
    destruct (bs !! _) as [c|] eqn:Hc; [done|]. apply lookup_ge_None in Hc. lia.
Qed.

(** ** One round *)
Lemma put_bytes_app a l1 l2 m : put_bytes_at a (l1 ++ l2) m = put_bytes_at (a + Z.of_nat (length l1)) l2 (put_bytes_at a l1 m).
Proof.
  revert a m. induction l1 as [|c l1 IH]; intros a m; cbn [app put_bytes_at length]; [by rewrite Z.add_0_r|].
  rewrite IH. f_equal. lia.
Qed.
Lemma user_words_length s a n : length (user_words s a n) = n.
Proof. unfold user_words. by rewrite length_fmap, length_seq. Qed.
Lemma user_words_app s a n1 n2 : user_words s a (n1 + n2) = user_words s a n1 ++ user_words s (a + Z.of_nat n1) n2.
Proof.
  unfold user_words. rewrite seq_app, fmap_app. f_equal. rewrite <- (Nat.add_0_r (0 + n1)), <- (fmap_add_seq (0 + n1)), <- list_fmap_compose.
  apply list_fmap_ext. intros k j _. cbn. do 3 f_equal. lia.
Qed.

Section Rounds.
Context {E : Env}.

(** what a round of reading or writing changes: the zone [k] of the inode, user memory, physical memory *)
Definition round (s : kst) (i k : nat) (v : Z) (u : gmap Z Z -> gmap Z Z) (f : mm_st -> mm_st) : kst :=
  (with_fs s ((fsys s) <| inode_table ::= alter (moved k v) i |>)) <| umem ::= u |> <| mm ::= f |>.
Lemma round_pipe s i x l k v u f l' : pipe_at s i x l -> l' = ring (f (mm s)) (moved k v x) ->
  0 <= PIPE_HEAD (moved k v x) < PAGE_SIZE -> 0 <= PIPE_TAIL (moved k v x) < PAGE_SIZE ->
  pipe_at (round s i k v u f) i (moved k v x) l'.
Proof.
  intros (Hx & Hl & _ & _ & _ & Hw) -> [] []. split_and!; try done.
  - change (alter (moved k v) i (inode_table (fsys s)) !! i = Some (moved k v x)). by rewrite list_lookup_alter_eq, Hx.
  - change (length (<[k := u16 (Z.land v (PAGE_SIZE - 1))]> (i_zone x)) = 9%nat). by rewrite length_insert.
Qed.

Lemma getino_run i s x : inode_table (fsys s) !! i = Some x -> getino i s = Ret x s.
Proof. intros H. unfold getino. mrun. by rewrite H. Qed.
Lemma set_zone_run i k v s x : inode_table (fsys s) !! i = Some x ->
  set_zone i k (Z.land v (PAGE_SIZE - 1)) s = Ret tt (round s i k v id id).
Proof. intros H. unfold set_zone. rewrite (setino_run i _ s x H). by destruct s. Qed.
Lemma pipe_wait_run i room s x : (1 <= env_fuel)%nat -> inode_table (fsys s) !! i = Some x -> room x <> 0 ->
  pipe_wait i room s = Ret (Some (room x)) s.
Proof.
  intros Hf Hx Hr. unfold pipe_wait. destruct env_fuel as [|n]; [lia|]. cbn [loop].
  rewrite (bind_Ret _ _ s (inr (Some (room x))) s); [done|]. rewrite (bind_Ret _ _ _ _ _ (getino_run i s x Hx)).
  unfold nz. by destruct (Z.eqb_spec (room x) 0).
Qed.

Lemma read_round i s x l count buf r : (1 <= env_fuel)%nat -> pipe_at s i x l -> 0 < count -> l <> [] ->
  let n := Z.min (Z.min (PAGE_SIZE - PIPE_TAIL x) count) (Z.of_nat (length l)) in
  exists s', read_pipe_step i (count, buf, r) s = Ret (inl (count - n, buf + n, r + n)) s' /\
    pipe_at s' i (moved 1 (PIPE_TAIL x + n) x) (drop (Z.to_nat n) l) /\
    umem s' = put_bytes_at buf (take (Z.to_nat n) l) (umem s).
Proof.
  intros Hf Hp Hc Hne n. pose proof Hp as (Hx & Hl & Hh & Ht & Hr & Hw). pose proof (ring_length (mm s) x) as HL. rewrite <- Hr in HL.
  assert (0 < Z.of_nat (length l)) by (destruct l; [done|cbn; lia]).
  destruct (ring_read (mm s) x n) as [H1 H2]; [done..|unfold n; lia|unfold n; lia|]. rewrite <- Hr in H1, H2.
  exists (round s i 1 (PIPE_TAIL x + n) (put_bytes_at buf (take (Z.to_nat n) l)) id). split; [|split].
  - unfold read_pipe_step. destruct (Z.leb_spec count 0); [lia|].
    rewrite (bind_Ret _ _ _ _ _ (pipe_wait_run i PIPE_SIZE s x Hf Hx ltac:(lia))).
    rewrite (bind_Ret _ _ _ _ _ (getino_run i s x Hx)). cbv zeta. rewrite <- HL. fold n.
    rewrite (bind_Ret _ _ _ _ _ (set_zone_run i 1 (PIPE_TAIL x + n) s x Hx)).
    rewrite (bind_Ret _ _ _ _ _ (pipe_to_user_run _ _ _ _ _)). unfold mret, M_ret. f_equal.
    change (mm (round s i 1 (PIPE_TAIL x + n) id id)) with (mm s). rewrite H2. by destruct s.
  - destruct (moved_tail (PIPE_TAIL x + n) x Hl) as [HT HH]. apply (round_pipe s i x l); [done|symmetry; exact H1|by rewrite HH|].
    rewrite HT. by apply Z.mod_pos_bound.
  - done.
Qed.

Lemma write_round i s x l count buf w : (1 <= env_fuel)%nat -> pipe_at s i x l -> 0 < count -> Z.of_nat (length l) < PAGE_SIZE - 1 ->
  let n := Z.min (Z.min (PAGE_SIZE - PIPE_HEAD x) count) (PAGE_SIZE - 1 - Z.of_nat (length l)) in
  exists s', write_pipe_step i (count, buf, w) s = Ret (inl (count - n, buf + n, w + n)) s' /\
    pipe_at s' i (moved 0 (PIPE_HEAD x + n) x) (l ++ user_bytes s buf (Z.to_nat n)) /\ umem s' = umem s.
Proof.
  intros Hf Hp Hc Hroom n. pose proof Hp as (Hx & Hl & Hh & Ht & Hr & Hw). pose proof (ring_length (mm s) x) as HL. rewrite <- Hr in HL.
  set (bs := user_words s buf (Z.to_nat n)). assert (Z.of_nat (length bs) = n) as Hbs.
  { unfold bs, user_words. rewrite length_fmap, length_seq. unfold n. lia. }
  pose proof (ring_write (mm s) x bs Hl Hh Ht) as H1. rewrite Hbs in H1. specialize (H1 ltac:(unfold n; lia) ltac:(unfold n; lia)).
  rewrite <- Hr in H1. exists (round s i 0 (PIPE_HEAD x + n) id (store_bytes (i_size x + PIPE_HEAD x) bs)). split; [|split].
  - unfold write_pipe_step. destruct (Z.leb_spec count 0); [lia|].
    rewrite (bind_Ret _ _ _ _ _ (pipe_wait_run i (fun x => PAGE_SIZE - 1 - PIPE_SIZE x) s x Hf Hx ltac:(cbv beta; lia))).
    rewrite (bind_Ret _ _ _ _ _ (getino_run i s x Hx)). cbv zeta. rewrite <- HL. fold n.
    rewrite (bind_Ret _ _ _ _ _ (set_zone_run i 0 (PIPE_HEAD x + n) s x Hx)).
    rewrite (bind_Ret _ _ _ _ _ (user_to_pipe_run _ _ _ _ _)). reflexivity.
  - destruct (moved_head (PIPE_HEAD x + n) x Hl) as [HH HT]. apply (round_pipe s i x l); [done|symmetry; exact H1| |by rewrite HT].
    rewrite HH. by apply Z.mod_pos_bound.
  - done.
Qed.
End Rounds.

(** ** The loops: two rounds at most, the second from the start of the page *)
Section Loops.
Context {E : Env}.

Lemma loop_next {S X R} n (body : X -> M S (X + R)) x y s s' :
  body x s = Ret (inl y) s' -> loop (Datatypes.S n) body x s = loop n body y s'.
Proof. intros H. cbn [loop]. by rewrite (bind_Ret _ _ _ _ _ H). Qed.
Lemma loop_end {S X R} n (body : X -> M S (X + R)) x r s s' :
  body x s = Ret (inr r) s' -> loop (Datatypes.S n) body x s = Ret r s'.
Proof. intros H. cbn [loop]. by rewrite (bind_Ret _ _ _ _ _ H). Qed.
Lemma read_end i n buf r s : loop (S n) (read_pipe_step i) (0, buf, r) s = Ret (r, true) s.
Proof. by apply loop_end. Qed.
Lemma write_end i n buf w s : loop (S n) (write_pipe_step i) (0, buf, w) s = Ret (w, true) s.
Proof. by apply loop_end. Qed.

(** without crossing the end of the page *)
Lemma read_straight i n s x l count buf r : (1 <= env_fuel)%nat -> pipe_at s i x l -> 0 < count <= Z.of_nat (length l) ->
  PIPE_TAIL x + count <= PAGE_SIZE ->
  exists s', loop (S (S n)) (read_pipe_step i) (count, buf, r) s = Ret (r + count, true) s' /\
    pipe s' i (drop (Z.to_nat count) l) /\ umem s' = put_bytes_at buf (take (Z.to_nat count) l) (umem s).
Proof.
  intros Hf Hp Hc Ht. destruct (read_round i s x l count buf r Hf Hp) as (s' & H1 & H2 & H3); [lia|by intros ->; cbn in Hc; lia|].
  assert (Z.min (Z.min (PAGE_SIZE - PIPE_TAIL x) count) (Z.of_nat (length l)) = count) as Hn by lia. rewrite Hn in *.
  exists s'. rewrite (loop_next _ _ _ _ _ _ H1), Z.sub_diag, read_end. split; [done|]. split; [by eexists|done].
Qed.
Lemma read_loop i n s x l count buf r : (1 <= env_fuel)%nat -> pipe_at s i x l -> 0 < count <= Z.of_nat (length l) ->
  exists s', loop (S (S (S n))) (read_pipe_step i) (count, buf, r) s = Ret (r + count, true) s' /\
    pipe s' i (drop (Z.to_nat count) l) /\ umem s' = put_bytes_at buf (take (Z.to_nat count) l) (umem s).
Proof.
  intros Hf Hp Hc. destruct (Z.le_gt_cases (PIPE_TAIL x + count) PAGE_SIZE) as [Hs|Hs]; [by eapply read_straight|].
  destruct (read_round i s x l count buf r Hf Hp) as (s1 & H1 & H2 & H3); [lia|by intros ->; cbn in Hc; lia|].
  pose proof Hp as (_ & Hl & _ & Ht & _). set (c := PAGE_SIZE - PIPE_TAIL x) in *.
  assert (Z.min (Z.min c count) (Z.of_nat (length l)) = c) as Hn by lia. rewrite Hn in *.
  destruct (read_straight i n s1 _ _ (count - c) (buf + c) (r + c) Hf H2) as (s2 & H4 & H5 & H6).
  - rewrite length_drop. lia.
  - rewrite (proj1 (moved_tail _ x Hl)). replace (PIPE_TAIL x + c) with PAGE_SIZE by lia. rewrite Z.mod_same by done. unfold PAGE_SIZE in *.
    pose proof (ring_length (mm s) x) as HL. destruct Hp as (_ & _ & _ & _ & -> & _). rewrite PIPE_SIZE_mod in HL.
    pose proof (Z.mod_pos_bound (PIPE_HEAD x - PIPE_TAIL x) PAGE_SIZE ltac:(done)). unfold PAGE_SIZE in *. lia.
  - exists s2. rewrite (loop_next _ _ _ _ _ _ H1), H4. split; [f_equal; f_equal; lia|]. rewrite drop_drop in H5.
    replace (Z.to_nat c + Z.to_nat (count - c))%nat with (Z.to_nat count) in H5 by lia. split; [done|].
    rewrite H6, H3. replace (Z.to_nat count) with (Z.to_nat c + Z.to_nat (count - c))%nat by lia.
    rewrite <- take_take_drop, put_bytes_app, length_take. f_equal. lia.
Qed.

Lemma write_straight i n s x l count buf w : (1 <= env_fuel)%nat -> pipe_at s i x l -> 0 < count ->
  Z.of_nat (length l) + count < PAGE_SIZE -> PIPE_HEAD x + count <= PAGE_SIZE ->
  exists s', loop (S (S n)) (write_pipe_step i) (count, buf, w) s = Ret (w + count, true) s' /\
    pipe s' i (l ++ user_bytes s buf (Z.to_nat count)) /\ umem s' = umem s.
Proof.
  intros Hf Hp Hc Hroom Hh. destruct (write_round i s x l count buf w Hf Hp) as (s' & H1 & H2 & H3); [lia|lia|].
  assert (Z.min (Z.min (PAGE_SIZE - PIPE_HEAD x) count) (PAGE_SIZE - 1 - Z.of_nat (length l)) = count) as Hn by lia. rewrite Hn in *.
  exists s'. rewrite (loop_next _ _ _ _ _ _ H1), Z.sub_diag, write_end. split; [done|]. split; [by eexists|done].
Qed.
Lemma write_loop i n s x l count buf w : (1 <= env_fuel)%nat -> pipe_at s i x l -> 0 < count ->
  Z.of_nat (length l) + count < PAGE_SIZE ->
  exists s', loop (S (S (S n))) (write_pipe_step i) (count, buf, w) s = Ret (w + count, true) s' /\
    pipe s' i (l ++ user_bytes s buf (Z.to_nat count)) /\ umem s' = umem s.
Proof.
  intros Hf Hp Hc Hroom. destruct (Z.le_gt_cases (PIPE_HEAD x + count) PAGE_SIZE) as [Hs|Hs]; [by eapply write_straight|].
  destruct (write_round i s x l count buf w Hf Hp) as (s1 & H1 & H2 & H3); [lia|lia|].
  pose proof Hp as (_ & Hl & Hh & _). set (c := PAGE_SIZE - PIPE_HEAD x) in *.
  assert (Z.min (Z.min c count) (PAGE_SIZE - 1 - Z.of_nat (length l)) = c) as Hn by lia. rewrite Hn in *.
  assert (length (user_bytes s buf (Z.to_nat c)) = Z.to_nat c) as Hlen by (unfold user_bytes, user_words; by rewrite !length_fmap, length_seq).
  destruct (write_straight i n s1 _ _ (count - c) (buf + c) (w + c) Hf H2) as (s2 & H4 & H5 & H6); [lia|rewrite length_app; lia| |].
  - rewrite (proj1 (moved_head _ x Hl)). replace (PIPE_HEAD x + c) with PAGE_SIZE by lia. rewrite Z.mod_same by done. lia.
  - exists s2. rewrite (loop_next _ _ _ _ _ _ H1), H4. split; [f_equal; f_equal; lia|]. split; [|by rewrite H6].
    replace (Z.to_nat count) with (Z.to_nat c + Z.to_nat (count - c))%nat by lia. unfold user_bytes in *.
    rewrite user_words_app, fmap_app, (app_assoc l). replace (buf + Z.of_nat (Z.to_nat c)) with (buf + c) by lia.
    unfold user_words in *. by rewrite H3 in H5.
Qed.

(** the task at the other end is woken *)
Lemma wake_pipe i s l : pipe s i l -> exists s', wake_up (WqInode i) s = Ret tt s' /\ pipe s' i l /\ umem s' = umem s.
Proof.
  intros (x & Hx & Hl & Hh & Ht & Hr & Hw). unfold wake_up. rewrite (bind_Ret _ _ s s s) by done.
  assert (read_wq s (WqInode i) = i_wait x) as -> by (cbn [read_wq]; by rewrite Hx).
  destruct (i_wait x) as [p|] eqn:Hp; [|exists s; split; [done|]; split; [|done]; exists x; split_and!; try done; [tauto..|]; by rewrite Hp].
  destruct (Hw p eq_refl) as [k Hk]. unfold settask, gettask, on_sched. mrun. rewrite Hk. cbn.
  eexists. split; [reflexivity|]. split; [|done]. exists (x <| i_wait := None |>). split_and!; try done; try tauto.
  cbn. by rewrite list_lookup_alter_eq, Hx.
Qed.
End Loops.

(** ** The pipe as a stream *)
Lemma mem_byte_u8 m a : u8 (mem_byte m a) = mem_byte m a.
Proof. unfold mem_byte, byte_of. change 0xff with (Z.ones 8). rewrite Z.land_ones by lia. apply Zmod_mod. Qed.
Lemma ring_u8 m x k c : ring m x !! k = Some c -> u8 c = c.
Proof. unfold ring. rewrite list_lookup_fmap. destruct (seq _ _ !! k); [|done]. intros [= <-]. apply mem_byte_u8. Qed.

Lemma user_bytes_put s s' buf l : 0 <= buf -> buf + Z.of_nat (length l) <= 2 ^ 32 -> (forall k c, l !! k = Some c -> u8 c = c) ->
  umem s' = put_bytes_at buf l (umem s) -> user_bytes s' buf (length l) = l.
Proof.
  intros Hb Hl Hu Hs. apply list_eq. intros k. unfold user_bytes, user_words. rewrite !list_lookup_fmap.
  destruct (l !! k) as [c|] eqn:Hk.
  - pose proof (lookup_lt_Some _ _ _ Hk). rewrite lookup_seq_lt by done. cbn. rewrite Hs, u32_id by lia.
    rewrite (put_bytes_in buf l (umem s) k c) by done. cbn. by rewrite !(Hu k c Hk).
  - rewrite lookup_seq_ge by (by apply lookup_ge_None). done.
Qed.

(** C7: A pipe is a stream of bytes: a write for which there is room appends
    the bytes of the user's buffer to what is in the pipe, and a read of bytes
    that are there takes them from the front, in order, into the user's buffer
    and nothing else, also across the end of the page; both return the count
    and leave the pipe usable.  So what is read is what was written. *)
Theorem pipe_refines_stream {E : Env} (i : nat) (s : kst) (l : list Z) (buf count : Z)
  (Hf : (3 <= env_fuel)%nat) (Hp : pipe s i l) (Hc : 0 < count) :
  (Z.of_nat (length l) + count < PAGE_SIZE ->
   exists s', write_pipe i buf count s = Ret count s' /\ pipe s' i (l ++ user_bytes s buf (Z.to_nat count)) /\ umem s' = umem s) /\
  (count <= Z.of_nat (length l) -> 0 <= buf -> buf + count <= 2 ^ 32 ->
   exists s', read_pipe i buf count s = Ret count s' /\ pipe s' i (drop (Z.to_nat count) l) /\
     user_bytes s' buf (Z.to_nat count) = take (Z.to_nat count) l /\
     forall a, a < buf \/ buf + count <= a -> umem s' !! a = umem s !! a).
Proof.
  destruct Hp as [x Hp]. destruct env_fuel as [|[|[|n]]] eqn:Hn; try lia. split.
  - intros Hroom. destruct (write_loop i n s x l count buf 0) as (s1 & H1 & H2 & H3); [lia|done..|].
    destruct (wake_pipe i s1 _ H2) as (s2 & H4 & H5 & H6). exists s2. split; [|split; [done|by rewrite H6]].
    unfold write_pipe. rewrite Hn. rewrite (bind_Ret _ _ _ _ _ H1). cbn [when]. by rewrite (bind_Ret _ _ _ _ _ H4).
  - intros Hin Hb Hb'. destruct (read_loop i n s x l count buf 0) as (s1 & H1 & H2 & H3); [lia|done..|].
    destruct (wake_pipe i s1 _ H2) as (s2 & H4 & H5 & H6). exists s2.
    assert (length (take (Z.to_nat count) l) = Z.to_nat count) as Hl by (rewrite length_take; lia).
    split; [|split; [done|]]; [|split].
    + unfold read_pipe. rewrite Hn. rewrite (bind_Ret _ _ _ _ _ H1). cbn [when]. by rewrite (bind_Ret _ _ _ _ _ H4).
    + rewrite <- Hl at 1. apply (user_bytes_put s); [done|lia| |by rewrite H6]. intros k c Hk. apply lookup_take_Some in Hk as [Hk _].
      destruct Hp as (_ & _ & _ & _ & -> & _). by apply ring_u8 in Hk.
    + intros a Ha. rewrite H6, H3. apply put_bytes_out. intros k Hk. rewrite Hl in Hk. rewrite u32_id by lia. lia.
Qed.

(** two bytes through the pipe of inode 0 *)
Definition with_text : kst := boot_kst <| umem := list_to_map [(100, 104); (101, 105)] |>.
Lemma empty_pipe : pipe with_text 0 [].
Proof. eexists. split; [reflexivity|]. split_and!; done. Qed.
Lemma pipe_refines_stream_witness : exists s1 s2, @write_pipe (quiet_env 3) 0 100 2 with_text = Ret 2 s1 /\
  @read_pipe (quiet_env 3) 0 200 2 s1 = Ret 2 s2 /\ user_bytes s2 200 2 = [104; 105].
Proof.
  destruct (proj1 (@pipe_refines_stream (quiet_env 3) 0 with_text [] 100 2 ltac:(cbn; lia) empty_pipe ltac:(done)) ltac:(done))
    as (s1 & H1 & Hp & _).
  destruct (proj2 (@pipe_refines_stream (quiet_env 3) 0 s1 _ 200 2 ltac:(cbn; lia) Hp ltac:(done)) ltac:(vm_compute; congruence)
    ltac:(done) ltac:(vm_compute; congruence)) as (s2 & H2 & _ & Hu & _).
  exists s1, s2. split; [exact H1|]. split; [exact H2|]. exact Hu.
Defined.
