(* ===== verification/WarmFacts.v ===== *)
(** * fs/buffer.cc, inode.cc: blocks that are in the cache

    When the block asked for is in the cache, up to date and not locked, [bread] takes
    its buffer without sleeping and [brelse] gives it back, and [bmap] finds the
    zone of a block of a file by reading the indirect blocks.  The contents of
    directories and files are stated on these blocks. *)

From S2P Require Import Prelude Bits State Memory Sched Request LlRw Buffer BufferFacts Bitmap CacheFacts Inode.

(** ** Blocks of a device *)
Definition usable (dev blk : Z) (x : buffer_head) : Prop :=
  b_dev x = dev /\ b_blocknr x = blk /\ 0 < dev < 2 ^ 16 /\ 0 <= blk < 2 ^ 31 /\ b_uptodate x <> 0 /\ b_lock x = 0 /\ 0 <= b_count x < 255.
#[export] Instance usable_dec dev blk x : Decision (usable dev blk x).
Proof. unfold usable. apply _. Defined.
(** the buffer that holds the block, and its data *)
Definition held (F : fs_st) (dev blk : Z) : option (nat * buffer_head) := list_find (usable dev blk) (bufs F).
Definition block_data (F : fs_st) (dev blk : Z) : option (list Z) := b_data ∘ snd <$> held F dev blk.

(** [bmap] on the cache *)
Definition entry (F : fs_st) (dev blk : Z) (k : nat) : option Z :=
  if decide (blk = 0) then Some 0 else (fun d => get16 d (2 * k)) <$> block_data F dev blk.
Definition zone_of (F : fs_st) (x : m_inode) (k : Z) : option Z :=
  if decide (k < 0) then None
  else if decide (k < 7) then i_zone x !! Z.to_nat k
  else if decide (k < 7 + 512) then z ← i_zone x !! 7%nat; entry F (i_dev x) z (Z.to_nat (k - 7))
  else if decide (k < 7 + 512 + 512 * 512) then
    z ← i_zone x !! 8%nat; z ← entry F (i_dev x) z (Z.to_nat ((k - 519) / 512));
    entry F (i_dev x) z (Z.to_nat ((k - 519) mod 512))
  else None.
(** the block [k] of a file; a hole reads as zeros *)
Definition file_block (F : fs_st) (x : m_inode) (k : Z) : option (list Z) :=
  z ← zone_of F x k; if decide (z = 0) then Some (replicate 1024 0) else block_data F (i_dev x) z.
Definition file_byte (F : fs_st) (x : m_inode) (p : Z) : option Z :=
  d ← file_block F x (p / 1024); d !! Z.to_nat (p mod 1024).

Lemma getino_at i s x : inode_table (fsys s) !! i = Some x -> getino i s = Ret x s.
Proof. intros H. unfold getino. mrun. by rewrite H. Qed.

Lemma held_Some F dev blk b x : held F dev blk = Some (b, x) -> bufs F !! b = Some x /\ usable dev blk x.
Proof. intros H. apply list_find_Some in H as (H1 & H2 & _). done. Qed.

Section Warm.
Context {E : Env}.
Hypothesis Hfuel : env_fuel <> 0%nat.

(** a block in the cache is read without sleeping *)
Lemma bread_held s dev blk b x : cache_inv s -> held (fsys s) dev blk = Some (b, x) -> bread dev blk s = Ret (Some b) (taken b s).
Proof.
  intros (_ & (l & ch & Hc) & _) Hh. destruct (held_Some _ _ _ _ _ Hh) as (Hx & Hd & Hb & Hdev & Hblk & Hu & Hl & Hcount).
  pose proof (taken_lookup b s) as Ht. rewrite Hx in Ht. cbn in Ht.
  pose proof (get_hash_table_cached Hfuel s l ch dev blk b x Hc Hdev Hblk Hx Hd Hb Hl) as Hget.
  assert (getblk dev blk s = Ret b (taken b s)) as Hblkrun.
  { unfold getblk, getblk_with. destruct (fuel_S Hfuel) as [n Hn]. rewrite Hn. cbn [loop]. rewrite (bind_Ret _ _ s (inr b) (taken b s)); [done|].
    by rewrite (bind_Ret _ _ _ _ _ Hget). }
  unfold bread, bread_with. unfold getblk in Hblkrun. rewrite (bind_Ret _ _ _ _ _ Hblkrun).
  rewrite (bind_Ret _ _ _ _ _ (getbh_at b (taken b s) _ Ht)). cbn. unfold nz. by destruct (Z.eqb_spec (b_uptodate x) 0).
Qed.

(** [bmap] reads the zone off the cache; where no block has to be created, so does [create_block] *)
Lemma bmap_slot_run s i x k z c : inode_table (fsys s) !! i = Some x -> i_zone x !! k = Some z -> (c = true -> z <> 0) ->
  bmap_slot i k c s = Ret z s.
Proof.
  intros Hi Hz Hc. assert (get_zone i k s = Ret z s) as Hg.
  { unfold get_zone. rewrite (bind_Ret _ _ _ _ _ (getino_at i s x Hi)). by apply deref_run. }
  unfold bmap_slot. rewrite (bind_Ret _ _ _ _ _ Hg). rewrite (bind_Ret _ _ s tt s); [exact Hg|].
  destruct c; [|done]. rewrite (proj2 (Z.eqb_neq z 0)) by auto. done.
Qed.
Lemma bmap_indirect_run s i x ind k z c : cache_inv s -> buffer_wait (fsys s) = None -> inode_table (fsys s) !! i = Some x ->
  entry (fsys s) (i_dev x) ind k = Some z -> ind <> 0 -> (c = true -> z <> 0) -> bmap_indirect i ind k c s = Ret z s.
Proof.
  intros Hs Hw Hi He Hind Hc. unfold entry in He. rewrite decide_False in He by done. unfold block_data in He.
  destruct (held (fsys s) (i_dev x) ind) as [[b y]|] eqn:Hh; [|done]. apply (inj Some) in He. change (get16 (b_data y) (2 * k) = z) in He.
  destruct (held_Some _ _ _ _ _ Hh) as (Hy & _ & _ & _ & _ & _ & Hl & Hn).
  unfold bmap_indirect. rewrite (bind_Ret _ _ _ _ _ (getino_at i s x Hi)).
  rewrite (bind_Ret _ _ _ _ _ (bread_held s _ _ b y Hs Hh)).
  pose proof (taken_lookup b s) as Ht. rewrite Hy in Ht. rewrite (bind_Ret _ _ _ _ _ (getbh_at b (taken b s) _ Ht)). cbv zeta.
  change (get16 (b_data (counted 1 y)) (2 * k)) with (get16 (b_data y) (2 * k)). rewrite He.
  rewrite (bind_Ret _ _ (taken b s) z (taken b s)).
  - by rewrite (bind_Ret _ _ _ _ _ (brelse_taken Hfuel s b y Hw Hy Hl Hn)).
  - destruct c; [|done]. by rewrite (proj2 (Z.eqb_neq z 0)) by auto.
Qed.
Lemma bmap_run s i x k z c : cache_inv s -> buffer_wait (fsys s) = None -> inode_table (fsys s) !! i = Some x ->
  zone_of (fsys s) x k = Some z -> (c = true -> z <> 0) -> _bmap i k c s = Ret z s.
Proof.
  intros Hs Hw Hi Hz Hc. unfold zone_of in Hz. unfold _bmap.
  destruct (decide (k < 0)); [done|]. destruct (Z.ltb_spec k 0); [lia|].
  destruct (decide (k < 7)).
  { destruct (Z.leb_spec (7 + 512 + 512 * 512) k); [lia|]. destruct (Z.ltb_spec k 7); [|lia]. by eapply bmap_slot_run. }
  assert (forall e j w, entry (fsys s) (i_dev x) e j = Some w -> w <> 0 -> e <> 0) as Hup.
  { intros e j w He Hw0 ->. unfold entry in He. rewrite decide_True in He by done. congruence. }
  destruct (decide (k < 7 + 512)).
  { destruct (Z.leb_spec (7 + 512 + 512 * 512) k); [lia|]. destruct (Z.ltb_spec k 7); [lia|]. cbv zeta.
    destruct (Z.ltb_spec (k - 7) 512); [|lia]. apply bind_Some in Hz as (z7 & H7 & Hz).
    rewrite (bind_Ret _ _ s z7 s) by (eapply bmap_slot_run; [done..|intros ->; eauto]).
    destruct (Z.eqb_spec z7 0) as [->|]; [|by apply bmap_indirect_run with (x := x)].
    unfold entry in Hz. rewrite decide_True in Hz by done. by injection Hz as <-. }
  destruct (decide (k < 7 + 512 + 512 * 512)); [|done].
  destruct (Z.leb_spec (7 + 512 + 512 * 512) k); [lia|]. destruct (Z.ltb_spec k 7); [lia|]. cbv zeta.
  destruct (Z.ltb_spec (k - 7) 512); [lia|].
  apply bind_Some in Hz as (z8 & H8 & Hz). apply bind_Some in Hz as (z1 & Hz1 & Hz).
  replace (k - 7 - 512) with (k - 519) by lia. rewrite Z.shiftr_div_pow2 by lia. change 511 with (Z.ones 9).
  rewrite Z.land_ones by lia. change (2 ^ 9) with 512.
  rewrite (bind_Ret _ _ s z8 s) by (eapply bmap_slot_run; [done..|intros ->; eauto]).
  destruct (Z.eqb_spec z8 0) as [->|].
  { unfold entry in Hz1. rewrite decide_True in Hz1 by done. injection Hz1 as <-. unfold entry in Hz.
    rewrite decide_True in Hz by done. by injection Hz as <-. }
  rewrite (bind_Ret _ _ s z1 s) by (apply bmap_indirect_run with (x := x); [done..|intros ->; eauto]).
  destruct (Z.eqb_spec z1 0) as [->|]; [|by apply bmap_indirect_run with (x := x)].
  unfold entry in Hz. rewrite decide_True in Hz by done. by injection Hz as <-.
Qed.
End Warm.

(** ** A state to look at: blocks 5 and 6 of a device in the cache, one inode, one open file *)
Definition two_bufs : kst := state_of ((@getblk (quiet_env 3) 0x301 5 ;; @getblk (quiet_env 3) 0x301 6) five_buffers).
Definition loaded (data : Z -> list Z) (v : buffer_head) : buffer_head :=
  if b_dev v =? 0 then v else v <| b_uptodate := 1 |> <| b_count := 0 |> <| b_data := data (b_blocknr v) |>.
Definition load (data : Z -> list Z) (x : m_inode) (y : file) (u : gmap Z Z) (s : kst) : kst :=
  (with_fs s ((fsys s) <| bufs ::= fmap (loaded data) |> <| inode_table ::= <[3%nat := x]> |> <| file_table ::= <[2%nat := y]> |>)) <| umem := u |>.

Lemma quiet_getblk n block : - 2 ^ 31 <= block < 2 ^ 31 -> guar keeps (@getblk (quiet_env n) 0x301 block).
Proof. intros H. apply (@keeps_getblk_with (quiet_env n)); try done. by apply keeps_sync_inodes_n. Qed.
Lemma two_bufs_inv : cache_inv two_bufs.
Proof.
  assert (guar keeps ((@getblk (quiet_env 3) 0x301 5 ;; @getblk (quiet_env 3) 0x301 6) : K nat)) as H.
  { apply guar_bind; [exact _|by apply quiet_getblk|]. intros _. by apply quiet_getblk. }
  exact (H five_buffers five_buffers_inv).
Qed.
Lemma load_inv data x y u s : 0 <= i_dev x < 2 ^ 16 -> cache_inv s -> cache_inv (load data x y u s).
Proof.
  intros Hx (H1 & (l & ch & H2) & H3). split; [|split].
  - change (2 <= length (loaded data <$> bufs (fsys s)))%nat. by rewrite length_fmap.
  - exists l, ch. apply (cache_rep_view (fsys s)); try done.
    + change (hview <$> (loaded data <$> bufs (fsys s)) = hview <$> bufs (fsys s)).
      rewrite <- list_fmap_compose. apply list_fmap_ext. intros j v _. unfold loaded, compose. by case_match.
    + change (fview <$> (loaded data <$> bufs (fsys s)) = fview <$> bufs (fsys s)).
      rewrite <- list_fmap_compose. apply list_fmap_ext. intros j v _. unfold loaded, compose. by case_match.
  - intros j z Hz. change (<[3%nat := x]> (inode_table (fsys s)) !! j = Some z) in Hz.
    apply list_lookup_insert_Some in Hz as [(_ & <- & _)|[_ Hz]]; [done|by apply (H3 j)].
Qed.
