(* ===== verification/FileFacts.v ===== *)
(** * fs/file_dev.cc: a file is an array of bytes

    [file_read] takes the bytes at the position of the file, [file_write] replaces
    them, block by block through [bmap].  Stated for the blocks that are in the
    cache ([WarmFacts.v]): a hole reads as zeros, and what is written falls on blocks
    the file has. *)

From S2P Require Import Prelude Bits State Memory Sched Request LlRw Buffer BufferFacts.
From S2P Require Import Bitmap CacheFacts Inode WarmFacts Namei ReadWrite PipeFacts.

(** the bytes [bs] are in the file from [p] on *)
Definition reads (F : fs_st) (x : m_inode) (p : Z) (bs : list Z) : Prop :=
  forall k c, bs !! k = Some c -> file_byte F x (p + Z.of_nat k) = Some c.
(** the file [f] is open on the inode [i] *)
Record open_file (s : kst) (i f : nat) (x : m_inode) (y : file) : Prop := {
  of_cache : cache_inv s;
  of_nowait : buffer_wait (fsys s) = None;
  of_inode : inode_table (fsys s) !! i = Some x;
  of_file : file_table (fsys s) !! f = Some y
}.
Definition now (s : kst) : Z := u32 (s32 (startup_time (sched s) + Z.quot (jiffies (sched s)) HZ)).

Lemma reads_dec F x p bs : (fun k => file_byte F x (p + Z.of_nat k)) <$> seq 0 (length bs) = Some <$> bs -> reads F x p bs.
Proof.
  intros H k c Hk. pose proof (f_equal (fun l => l !! k) H) as Hl. cbn in Hl.
  rewrite !list_lookup_fmap, Hk, lookup_seq_lt in Hl by (by eapply lookup_lt_Some). cbn in Hl. congruence.
Qed.
Lemma reads_app F x p l1 l2 : reads F x p (l1 ++ l2) -> reads F x p l1 /\ reads F x (p + Z.of_nat (length l1)) l2.
Proof.
  intros H. split; intros k c Hk.
  - apply H. by apply lookup_app_l_Some.
  - replace (p + Z.of_nat (length l1) + Z.of_nat k) with (p + Z.of_nat (length l1 + k)) by lia. apply H.
    rewrite lookup_app_r by lia. by rewrite Nat.add_comm, Nat.add_sub.
Qed.

(** positions inside a block *)
Lemma same_block_pos p k : 0 <= p -> 0 <= k -> p mod 1024 + k < 1024 -> (p + k) / 1024 = p / 1024 /\ (p + k) mod 1024 = p mod 1024 + k.
Proof. intros Hp Hk Hb. pose proof (Z.div_mod p 1024 ltac:(lia)). pose proof (Z.mod_pos_bound p 1024 ltac:(lia)).
  split; [symmetry; apply (Z.div_unique _ _ _ (p mod 1024 + k))|symmetry; apply (Z.mod_unique _ _ (p / 1024))]; lia. Qed.
Lemma reads_block F x p bs : reads F x p bs -> 0 <= p -> (0 < length bs)%nat -> p mod 1024 + Z.of_nat (length bs) <= 1024 ->
  exists d, file_block F x (p / 1024) = Some d /\ bs = (fun k => get8 d (Z.to_nat (p mod 1024) + k)) <$> seq 0 (length bs).
Proof.
  intros H Hp Hl Hb. assert (forall k c, bs !! k = Some c -> exists d, file_block F x (p / 1024) = Some d /\ d !! (Z.to_nat (p mod 1024) + k)%nat = Some c) as Hk.
  { intros k c Hk. pose proof (lookup_lt_Some _ _ _ Hk). pose proof (H k c Hk) as Hf. unfold file_byte in Hf.
    destruct (same_block_pos p (Z.of_nat k)) as [E1 E2]; [lia..|]. rewrite E1, E2 in Hf.
    apply bind_Some in Hf as (d & Hd & Hc). exists d. split; [done|]. pose proof (Z.mod_pos_bound p 1024 ltac:(lia)).
    by rewrite Z2Nat.inj_add, Nat2Z.id in Hc by lia. }
  destruct (lookup_lt_is_Some_2 bs 0 Hl) as [c0 Hc0]. destruct (Hk 0%nat c0 Hc0) as (d & Hd & _). exists d. split; [done|].
  apply list_eq. intros k. rewrite list_lookup_fmap. destruct (bs !! k) as [c|] eqn:Hc.
  - rewrite lookup_seq_lt by (by eapply lookup_lt_Some). destruct (Hk k c Hc) as (d' & Hd' & Hdc). rewrite Hd in Hd'. injection Hd' as <-.
    cbn. unfold get8. by rewrite Hdc.
  - by rewrite lookup_seq_ge by (by apply lookup_ge_None).
Qed.
Lemma file_byte_bufs F F' x p : bufs F' = bufs F -> file_byte F' x p = file_byte F x p.
Proof. unfold file_byte, file_block, zone_of, entry, block_data, held. by intros ->. Qed.

(** rounds needed: the blocks touched, and the last test *)
Definition rounds (p n : Z) : Z := if decide (n = 0) then 1 else 1 + (p mod 1024 + n + 1023) / 1024.
Lemma rounds_next p n : 0 <= p -> 0 < n -> let c := Z.min (1024 - p mod 1024) n in rounds (p + c) (n - c) = rounds p n - 1.
Proof.
  intros Hp Hn c. unfold rounds. rewrite (decide_False (P := n = 0)) by lia.
  pose proof (Z.mod_pos_bound p 1024 ltac:(lia)). pose proof (Z.div_mod p 1024 ltac:(lia)).
  case_decide as Hc.
  - assert ((p mod 1024 + n + 1023) / 1024 = 1) as ->; [|lia]. symmetry. apply (Z.div_unique _ _ _ (p mod 1024 + n - 1)); lia.
  - assert (c = 1024 - p mod 1024) as -> by lia.
    assert ((p + (1024 - p mod 1024)) mod 1024 = 0) as ->.
    { symmetry. apply (Z.mod_unique _ _ (p / 1024 + 1)); lia. }
    replace (p mod 1024 + n + 1023) with (0 + (n - (1024 - p mod 1024)) + 1023 + 1 * 1024) by lia.
    rewrite Z.div_add by lia. lia.
Qed.
Lemma rounds_fuel p n : 0 <= n -> rounds p n <= Z.of_nat (3 + Z.to_nat (n / 1024)).
Proof.
  intros Hn. pose proof (Z.mod_pos_bound p 1024 ltac:(lia)). pose proof (Z.div_pos n 1024 Hn ltac:(lia)).
  unfold rounds. case_decide; [lia|].
  assert ((p mod 1024 + n + 1023) / 1024 <= n / 1024 + 2); [|lia].
  pose proof (Z.div_mod n 1024 ltac:(lia)). pose proof (Z.mod_pos_bound n 1024 ltac:(lia)).
  apply Z.lt_succ_r. apply Z.div_lt_upper_bound; lia.
Qed.

Section Read.
Context {E : Env} (Hfuel : env_fuel <> 0%nat).

Lemma getfile_at f s y : file_table (fsys s) !! f = Some y -> getfile f s = Ret y s.
Proof. intros H. unfold getfile. mrun. by rewrite H. Qed.

Lemma setfile_at f g s y : file_table (fsys s) !! f = Some y ->
  setfile f g s = Ret tt (with_fs s ((fsys s) <| file_table ::= alter g f |>)).
Proof.
  intros H. unfold setfile. rewrite (bind_Ret _ _ _ _ _ (getfile_at f s y H)). unfold on_fs, modify, with_fs, upd. cbn.
  by rewrite (alter_insert g f _ y H).
Qed.

Lemma put_loop (g : nat -> Z) buf n s :
  for_each (seq 0 n) (fun k => put_fs_byte (g k) (buf + Z.of_nat k)) s = Ret tt (s <| umem ::= put_bytes_at buf (g <$> seq 0 n) |>).
Proof.
  assert (forall j s, for_each (seq j n) (fun k => put_fs_byte (g k) (buf + Z.of_nat k)) s =
    Ret tt (s <| umem ::= put_bytes_at (buf + Z.of_nat j) (g <$> seq j n) |>)) as H.
  { induction n as [|n IH]; intros j s'; cbn [seq for_each fmap list_fmap]; [by destruct s'|].
    rewrite (bind_Ret _ _ s' tt (s' <| umem ::= insert (u32 (buf + Z.of_nat j)) (u8 (g j)) |>)) by done.
    rewrite IH. f_equal. replace (buf + Z.of_nat (S j)) with (buf + Z.of_nat j + 1) by lia. done. }
  rewrite H. by rewrite Z.add_0_r.
Qed.

(** what has been read: the position and user memory *)
Definition has_read (f : nat) (buf : Z) (bs : list Z) (s : kst) : kst :=
  (with_fs s ((fsys s) <| file_table ::= alter (fun y => y <| f_pos ::= fun p => s32 (p + Z.of_nat (length bs)) |>) f |>))
    <| umem ::= put_bytes_at buf bs |>.
Lemma has_read_app f buf l1 l2 s y : file_table (fsys s) !! f = Some y ->
  has_read f (buf + Z.of_nat (length l1)) l2 (has_read f buf l1 s) = has_read f buf (l1 ++ l2) s.
Proof.
  intros Hf. destruct s as [? ? fs ? ? ? ? ? ? ?], fs as [? ? ? ? ? ? ? ? tbl]. unfold has_read, with_fs, upd. cbn in *.
  rewrite put_bytes_app, length_app. f_equal. f_equal. apply list_eq. intros j. rewrite !alter_lookup. case_decide as Hj; [|done].
  subst j. rewrite Hf. cbn. f_equal. unfold upd. f_equal. rewrite s32_add_l. f_equal. lia.
Qed.
Lemma has_read_open f buf bs s i x y : open_file s i f x y ->
  open_file (has_read f buf bs s) i f x (y <| f_pos ::= fun p => s32 (p + Z.of_nat (length bs)) |>).
Proof.
  intros [H1 H2 H3 H4]. split; [by apply (keeps_key s)|exact H2|exact H3|].
  change (alter (fun y => y <| f_pos ::= fun p => s32 (p + Z.of_nat (length bs)) |>) f (file_table (fsys s)) !! f =
    Some (y <| f_pos ::= fun p => s32 (p + Z.of_nat (length bs)) |>)). by rewrite alter_lookup, decide_True, H4.
Qed.

(** one round reads what is left of a block, or what is left to read *)
Lemma read_step_run s i f x y rest buf bs : open_file s i f x y -> 0 <= f_pos y ->
  Z.of_nat (length bs) = Z.min (1024 - f_pos y mod 1024) rest -> 0 < rest -> reads (fsys s) x (f_pos y) bs ->
  read_file_step i f (rest, buf) s = Ret (inl (rest - Z.of_nat (length bs), buf + Z.of_nat (length bs))) (has_read f buf bs s).
Proof.
  intros H Hp Hl Hr Hreads. pose proof H as [Hinv Hw Hi Hf]. pose proof (Z.mod_pos_bound (f_pos y) 1024 ltac:(lia)) as Hoff.
  destruct (reads_block _ _ _ _ Hreads Hp ltac:(lia) ltac:(lia)) as (d & Hd & Hbs).
  unfold file_block in Hd. apply bind_Some in Hd as (z & Hz & Hd).
  unfold read_file_step. rewrite (proj2 (Z.eqb_neq rest 0)) by lia. rewrite (bind_Ret _ _ _ _ _ (getfile_at f s y Hf)).
  unfold BLOCK_SIZE. rewrite Z.quot_div_nonneg by lia.
  rewrite (bind_Ret _ _ s z s) by (by apply bmap_run with (x := x)). rewrite (bind_Ret _ _ _ _ _ (getino_at i s x Hi)).
  set (off := f_pos y mod 1024) in *. assert (Z.rem (f_pos y) 1024 = off) as Hrem by (by rewrite Z.rem_mod_nonneg by lia).
  set (pos := setfile f (fun x => x <| f_pos ::= fun p => s32 (p + Z.of_nat (length bs)) |>)).
  assert (forall u : K unit, forall s0, file_table (fsys s0) = file_table (fsys s) ->
    (pos ;; u ;; mret (inl (rest - Z.of_nat (length bs), buf + Z.of_nat (length bs))) : K (Z * Z + Z)) s0 = 
    (u ;; mret (inl (rest - Z.of_nat (length bs), buf + Z.of_nat (length bs))))
      (with_fs s0 ((fsys s0) <| file_table ::= alter (fun y => y <| f_pos ::= fun p => s32 (p + Z.of_nat (length bs)) |>) f |>))) as Hpos.
  { intros u s0 H0. rewrite <- H0 in Hf. rewrite (bind_Ret _ _ s0 tt (with_fs s0 ((fsys s0) <| file_table ::= alter (fun y => y <| f_pos ::= fun p => s32 (p + Z.of_nat (length bs)) |>) f |>))); [done|].
    unfold pos. by rewrite (setfile_at f _ s0 y Hf). }
  destruct (decide (z = 0)) as [->|Hz0].
  - rewrite (bind_Ret _ _ s (inl None) s) by done. rewrite (bind_Ret _ _ _ _ _ (getfile_at f s y Hf)).
    cbv zeta. rewrite Hrem, <- Hl. rewrite Hpos by done. apply (inj Some) in Hd. subst d.
    unfold clear_user. rewrite (bind_Ret _ _ _ _ _ (put_loop (fun _ => 0) buf _ _)). rewrite Nat2Z.id.
    assert ((fun _ : nat => 0) <$> seq 0 (length bs) = bs) as ->; [|done].
    rewrite Hbs at 2. apply list_fmap_ext. intros k j Hj. apply lookup_seq in Hj as [-> Hj]. unfold get8.
    rewrite lookup_replicate_2 by lia. done.
  - unfold block_data in Hd. destruct (held (fsys s) (i_dev x) z) as [[b v]|] eqn:Hh; [|done]. apply (inj Some) in Hd.
    change (b_data v = d) in Hd. subst d. destruct (held_Some _ _ _ _ _ Hh) as (Hv & _ & _ & _ & _ & _ & Hlk & Hn).
    rewrite (bind_Ret _ _ s (inl (Some b)) (taken b s)).
    2:{ unfold nz. rewrite (proj2 (Z.eqb_neq z 0)) by done. cbn [negb]. by rewrite (bind_Ret _ _ _ _ _ (bread_held Hfuel s _ _ b v Hinv Hh)). }
    rewrite (bind_Ret _ _ _ _ _ (getfile_at f (taken b s) y Hf)).
    cbv zeta. rewrite Hrem, <- Hl. rewrite Hpos by done.
    set (s1 := with_fs s ((fsys s) <| file_table ::= alter (fun y => y <| f_pos ::= fun p => s32 (p + Z.of_nat (length bs)) |>) f |>)).
    match goal with |- context [with_fs (taken b s) ?F] => change (with_fs (taken b s) F) with (taken b s1) end.
    set (s2 := s1 <| umem ::= put_bytes_at buf bs |>). rewrite (bind_Ret _ _ (taken b s1) tt s2); [done|].
    assert (bufs (fsys (taken b s1)) !! b = Some (counted 1 v)) as Ht.
    { rewrite taken_lookup. change (bufs (fsys s1)) with (bufs (fsys s)). by rewrite Hv. }
    rewrite (bind_Ret _ _ _ _ _ (getbh_at b (taken b s1) _ Ht)). unfold copy_to_user. change (b_data (counted 1 v)) with (b_data v).
    rewrite (bind_Ret _ _ _ _ _ (put_loop (fun k => get8 (b_data v) (Z.to_nat off + k)) buf _ _)). rewrite Nat2Z.id, <- Hbs.
    change ((taken b s1) <| umem ::= put_bytes_at buf bs |>) with (taken b s2).
    by rewrite (brelse_taken Hfuel s2 b v Hw Hv Hlk Hn).
Qed.

Lemma has_read_nil f buf s y : file_table (fsys s) !! f = Some y -> 0 <= f_pos y < 2 ^ 31 -> has_read f buf [] s = s.
Proof.
  intros Hf Hp. assert (alter (fun y => y <| f_pos ::= fun p => s32 (p + Z.of_nat (length (@nil Z))) |>) f (file_table (fsys s)) = file_table (fsys s)) as Heq.
  { apply list_eq. intros j. rewrite alter_lookup. case_decide as Hj; [|done]. subst j. rewrite Hf. cbn.
    destruct y. unfold upd; cbn in *. rewrite Z.add_0_r. by rewrite s32_id by lia. }
  unfold has_read, with_fs. unfold upd in Heq |- *. cbv beta in Heq |- *. rewrite Heq. by destruct s as [? ? [] ? ? ? ? ? ? ?].
Qed.

Lemma file_read_loop i f x n : forall s y buf bs, open_file s i f x y -> 0 <= f_pos y -> f_pos y + Z.of_nat (length bs) < 2 ^ 31 ->
  reads (fsys s) x (f_pos y) bs -> rounds (f_pos y) (Z.of_nat (length bs)) <= Z.of_nat n ->
  loop n (read_file_step i f) (Z.of_nat (length bs), buf) s = Ret 0 (has_read f buf bs s).
Proof.
  induction n as [|n IH]; intros s y buf bs H Hp Hmax Hr Hn.
  { exfalso. unfold rounds in Hn. case_decide; [lia|]. pose proof (Z.mod_pos_bound (f_pos y) 1024 ltac:(lia)).
    pose proof (Z.div_pos (f_pos y mod 1024 + Z.of_nat (length bs) + 1023) 1024 ltac:(lia) ltac:(lia)). lia. }
  pose proof (of_file _ _ _ _ _ H) as Hf. cbn [loop].
  destruct (decide (bs = [])) as [->|Hbs].
  { rewrite (bind_Ret _ _ s (inr 0) s) by done. by rewrite (has_read_nil f buf s y Hf) by lia. }
  assert (0 < length bs)%nat as Hpos by (destruct bs; [done|cbn; lia]).
  pose proof (Z.mod_pos_bound (f_pos y) 1024 ltac:(lia)) as Hoff.
  pose proof (rounds_next (f_pos y) (Z.of_nat (length bs)) Hp ltac:(lia)) as Hnext. cbv zeta in Hnext.
  set (c := Z.min (1024 - f_pos y mod 1024) (Z.of_nat (length bs))) in *.
  rewrite <- (take_drop (Z.to_nat c) bs) in Hr. apply reads_app in Hr as [Hr1 Hr2].
  assert (Z.of_nat (length (take (Z.to_nat c) bs)) = c) as Hc by (rewrite length_take; lia).
  assert (Z.of_nat (length (drop (Z.to_nat c) bs)) = Z.of_nat (length bs) - c) as Hd by (rewrite length_drop; lia).
  pose proof (read_step_run s i f x y (Z.of_nat (length bs)) buf (take (Z.to_nat c) bs) H Hp ltac:(by rewrite Hc) ltac:(lia) Hr1) as Hstep.
  rewrite (bind_Ret _ _ _ _ _ Hstep). rewrite Hc in *. rewrite <- Hd.
  assert (s32 (f_pos y + c) = f_pos y + c) as Hs by (rewrite s32_id; lia).
  pose proof (has_read_open f buf (take (Z.to_nat c) bs) s i x y H) as H1.
  rewrite (IH _ _ _ _ H1).
  - pose proof (has_read_app f buf (take (Z.to_nat c) bs) (drop (Z.to_nat c) bs) s y Hf) as Happ. rewrite Hc, take_drop in Happ. by rewrite Happ.
  - cbn. rewrite Hc, Hs. lia.
  - cbn. rewrite Hc, Hs, Hd. lia.
  - cbn. rewrite Hc, Hs. intros k v Hk. erewrite file_byte_bufs; [by apply Hr2|done].
  - cbn. rewrite Hc, Hs, Hd. lia.
Qed.

Lemma file_read_run s i f x y buf bs : open_file s i f x y -> 0 <= f_pos y -> f_pos y + Z.of_nat (length bs) < 2 ^ 31 -> bs <> [] ->
  reads (fsys s) x (f_pos y) bs ->
  file_read i f buf (Z.of_nat (length bs)) s = Ret (Z.of_nat (length bs))
    (with_fs (has_read f buf bs s) ((fsys (has_read f buf bs s)) <| inode_table ::= alter (fun x => x <| i_atime := now s |>) i |>)).
Proof.
  intros H Hp Hmax Hbs Hr. assert (0 < Z.of_nat (length bs)) as Hpos by (destruct bs; [done|cbn; lia]).
  unfold file_read. destruct (Z.leb_spec (Z.of_nat (length bs)) 0); [lia|].
  pose proof (rounds_fuel (f_pos y) (Z.of_nat (length bs)) ltac:(lia)) as Hn.
  rewrite (bind_Ret _ _ _ _ _ (file_read_loop i f x _ s y buf bs H Hp Hmax Hr Hn)).
  set (s1 := has_read f buf bs s). rewrite (bind_Ret _ _ s1 (s32 (startup_time (sched s) + Z.quot (jiffies (sched s)) HZ)) s1) by done.
  pose proof (of_inode _ _ _ _ _ (has_read_open f buf bs s i x y H)) as Hi.
  rewrite (bind_Ret _ _ _ _ _ (setino_run i _ s1 x Hi)). rewrite Z.sub_0_r. unfold nz. by rewrite (proj2 (Z.eqb_neq _ 0)) by lia.
Qed.

Lemma has_read_stamped s i f x y buf bs : open_file s i f x y -> 0 <= f_pos y -> f_pos y + Z.of_nat (length bs) < 2 ^ 31 ->
  open_file (with_fs (has_read f buf bs s) ((fsys (has_read f buf bs s)) <| inode_table ::= alter (fun x => x <| i_atime := now s |>) i |>)) i f
    (x <| i_atime := now s |>) (y <| f_pos := f_pos y + Z.of_nat (length bs) |>).
Proof.
  intros H Hp Hmax. destruct (has_read_open f buf bs s i x y H) as [H1 H2 H3 H4]. split; [|exact H2| |].
  - revert H1. apply (keeps_key (has_read f buf bs s)). unfold key_view.
    change (inode_table (fsys (with_fs (has_read f buf bs s) ((fsys (has_read f buf bs s)) <| inode_table ::= alter (fun x => x <| i_atime := now s |>) i |>))))
      with (alter (fun x => x <| i_atime := now s |>) i (inode_table (fsys (has_read f buf bs s)))). by rewrite (fmap_alter_same i_dev).
  - change (alter (fun x => x <| i_atime := now s |>) i (inode_table (fsys (has_read f buf bs s))) !! i = Some (x <| i_atime := now s |>)).
    by rewrite alter_lookup, decide_True, H3.
  - etransitivity; [exact H4|]. unfold upd. by rewrite s32_id by lia.
Qed.
End Read.

(** * Writing, where the file has its blocks *)

(** ** A block with other data *)
Fixpoint patch (off : nat) (bs d : list Z) : list Z :=
  match bs with [] => d | c :: bs => patch (S off) bs (<[off := c]> d) end.
Lemma patch_length off bs d : length (patch off bs d) = length d.
Proof. revert off d. induction bs as [|c bs IH]; intros off d; cbn [patch]; [done|]. by rewrite IH, length_insert. Qed.
Lemma patch_lookup off bs d k : (k < length d)%nat ->
  patch off bs d !! k = if decide (off <= k < off + length bs)%nat then bs !! (k - off)%nat else d !! k.
Proof.
  revert off d. induction bs as [|c bs IH]; intros off d Hk; cbn [patch length]; [by rewrite decide_False by lia|].
  rewrite IH by (by rewrite length_insert). destruct (decide (k = off)) as [->|Hne].
  - rewrite decide_False by lia. rewrite decide_True by lia. rewrite list_lookup_insert_eq by done. by rewrite Nat.sub_diag.
  - rewrite list_lookup_insert_ne by done. destruct (decide (S off <= k < S off + length bs)%nat).
    + rewrite decide_True by lia. replace (k - off)%nat with (S (k - S off)) by lia. done.
    + by rewrite decide_False by lia.
Qed.

Definition stored (off : nat) (bs : list Z) (v : buffer_head) : buffer_head := v <| b_dirt := 1 |> <| b_data ::= patch off bs |>.
Definition grown (p : Z) (x : m_inode) : m_inode := if s32 (i_size x) <? p then x <| i_size := u32 p |> <| i_dirt := 1 |> else x.

Lemma alter_cons {A} (f : A -> A) b v (l : list A) : alter f (S b) (v :: l) = v :: alter f b l.
Proof. done. Qed.
Lemma find_alter (P : buffer_head -> Prop) `{forall v, Decision (P v)} f b l : (forall v, P (f v) <-> P v) ->
  list_find P (alter f b l) = (fun '(c, v) => (c, if decide (c = b) then f v else v)) <$> list_find P l.
Proof.
  intros Hf. revert b. induction l as [|v l IH]; intros b; [by destruct b|]. destruct b as [|b].
  - change (alter f 0%nat (v :: l)) with (f v :: l). cbn [list_find]. specialize (Hf v).
    destruct (decide (P (f v))), (decide (P v)); try done; try (exfalso; tauto).
    by destruct (list_find P l) as [[c w]|].
  - rewrite alter_cons. cbn [list_find]. case_decide; [done|]. rewrite IH. destruct (list_find P l) as [[c w]|]; [|done].
    cbn. repeat case_decide; try done; lia.
Qed.

(** the bytes of block [z] are replaced from [off] on: no other block changes *)
Lemma block_data_stored F F' dev z b v off bs : held F dev z = Some (b, v) -> bufs F' = alter (stored off bs) b (bufs F) ->
  forall d blk, block_data F' d blk = if decide (d = dev /\ blk = z) then Some (patch off bs (b_data v)) else block_data F d blk.
Proof.
  intros Hh HF d blk. assert (held F' d blk = (fun '(c, v) => (c, if decide (c = b) then stored off bs v else v)) <$> held F d blk) as Hheld.
  { unfold held. rewrite HF. by apply find_alter. }
  unfold block_data. rewrite Hheld. case_decide as Hd.
  - destruct Hd as [-> ->]. rewrite Hh. cbn. by rewrite decide_True.
  - destruct (held F d blk) as [[c w]|] eqn:Hc; [|done]. cbn. case_decide as Hcb; [|done]. subst c. exfalso. apply Hd.
    apply held_Some in Hh as (H1 & H2 & H3 & _). apply held_Some in Hc as (H4 & H5 & H6 & _). rewrite H1 in H4. injection H4 as <-. split; congruence.
Qed.

(** ** The blocks of a file *)
Definition is_meta (F : fs_st) (x : m_inode) (m : Z) : Prop :=
  i_zone x !! 7%nat = Some m \/ i_zone x !! 8%nat = Some m \/
  exists z j, i_zone x !! 8%nat = Some z /\ entry F (i_dev x) z j = Some m.
(** no block is used twice *)
Definition apart (F : fs_st) (x : m_inode) : Prop :=
  forall k z, zone_of F x k = Some z -> z <> 0 -> ~ is_meta F x z /\ forall k', zone_of F x k' = Some z -> k' = k.
(** the file has a whole block [k] *)
Definition mapped (F : fs_st) (x : m_inode) (k : Z) : Prop :=
  exists z d, zone_of F x k = Some z /\ z <> 0 /\ block_data F (i_dev x) z = Some d /\ length d = 1024%nat.

(** [F'] is [F] with the bytes [bs] in the file from [p] on *)
Record rewritten (F : fs_st) (x : m_inode) (p : Z) (bs : list Z) (F' : fs_st) : Prop := {
  rw_bytes : forall q, 0 <= q -> file_byte F' x q = if decide (p <= q < p + Z.of_nat (length bs)) then bs !! Z.to_nat (q - p) else file_byte F x q;
  rw_zones : forall k, zone_of F' x k = zone_of F x k;
  rw_meta : forall m, is_meta F' x m <-> is_meta F x m;
  rw_mapped : forall k, mapped F x k -> mapped F' x k;
  rw_others : forall d blk, (forall k, p / 1024 <= k <= (p + Z.of_nat (length bs) - 1) / 1024 -> d = i_dev x -> zone_of F x k <> Some blk) ->
    block_data F' d blk = block_data F d blk
}.

Lemma entry_meta F F' dev z m j : (forall blk, blk <> z -> block_data F' dev blk = block_data F dev blk) -> m <> z -> entry F' dev m j = entry F dev m j.
Proof. intros H Hm. unfold entry. case_decide; [done|]. by rewrite H. Qed.

Lemma zone_of_stored F F' x z : (forall blk, blk <> z -> block_data F' (i_dev x) blk = block_data F (i_dev x) blk) ->
  ~ is_meta F x z -> forall k, zone_of F' x k = zone_of F x k.
Proof.
  intros H Hz k. unfold zone_of. repeat case_decide; try done.
  - destruct (i_zone x !! 7%nat) as [m|] eqn:Hm; [|done]. cbn. apply (entry_meta _ _ _ z); [done|]. intros ->. apply Hz. by left.
  - destruct (i_zone x !! 8%nat) as [m|] eqn:Hm; [|done]. cbn. rewrite (entry_meta F F' (i_dev x) z m) by (done || intros ->; apply Hz; by right; left).
    destruct (entry F (i_dev x) m _) as [m'|] eqn:Hm'; [|done]. cbn. apply (entry_meta _ _ _ z); [done|].
    intros ->. apply Hz. right. right. eauto.
Qed.
Lemma meta_stored F F' x z : (forall blk, blk <> z -> block_data F' (i_dev x) blk = block_data F (i_dev x) blk) ->
  ~ is_meta F x z -> forall m, is_meta F' x m <-> is_meta F x m.
Proof.
  intros H Hz m. unfold is_meta. do 2 f_equiv. split; intros (w & j & Hw & He); exists w, j; (split; [done|]).
  - rewrite <- He. symmetry. apply (entry_meta _ _ _ z); [done|]. intros ->. apply Hz. by right; left.
  - rewrite <- He. apply (entry_meta _ _ _ z); [done|]. intros ->. apply Hz. by right; left.
Qed.

Lemma file_byte_block F x q d : file_block F x (q / 1024) = Some d -> file_byte F x q = d !! Z.to_nat (q mod 1024).
Proof. intros H. unfold file_byte. by rewrite H. Qed.
Lemma mapped_block F x k z d : zone_of F x k = Some z -> z <> 0 -> block_data F (i_dev x) z = Some d -> file_block F x k = Some d.
Proof. intros Hz Hz0 Hd. unfold file_block. rewrite Hz. cbn. by rewrite decide_False. Qed.

(** one block *)
Lemma rewritten_block F F' x p z b v bs : 0 <= p -> apart F x -> zone_of F x (p / 1024) = Some z -> z <> 0 ->
  held F (i_dev x) z = Some (b, v) -> length (b_data v) = 1024%nat -> (0 < length bs)%nat -> p mod 1024 + Z.of_nat (length bs) <= 1024 ->
  bufs F' = alter (stored (Z.to_nat (p mod 1024)) bs) b (bufs F) -> rewritten F x p bs F'.
Proof.
  intros Hp Hap Hz Hz0 Hh Hlen Hbs Hfit HF. pose proof (block_data_stored F F' (i_dev x) z b v _ bs Hh HF) as Hdata.
  destruct (Hap _ _ Hz Hz0) as [Hmeta Huniq].
  assert (forall blk, blk <> z -> block_data F' (i_dev x) blk = block_data F (i_dev x) blk) as Hsame.
  { intros blk Hne. rewrite Hdata, decide_False; [done|]. by intros [_ ?]. }
  pose proof (zone_of_stored F F' x z Hsame Hmeta) as Hzones.
  assert (block_data F (i_dev x) z = Some (b_data v)) as Hold by (unfold block_data; by rewrite Hh).
  assert (block_data F' (i_dev x) z = Some (patch (Z.to_nat (p mod 1024)) bs (b_data v))) as Hnew by (by rewrite Hdata, decide_True).
  pose proof (Z.mod_pos_bound p 1024 ltac:(lia)) as Hoff.
  split; [|exact Hzones|by apply (meta_stored F F' x z)| |].
  - intros q Hq. destruct (decide (q / 1024 = p / 1024)) as [Hk|Hk].
    + rewrite (file_byte_block F' x q (patch (Z.to_nat (p mod 1024)) bs (b_data v))).
      2:{ rewrite Hk. eapply mapped_block; [by rewrite Hzones|done|done]. }
      rewrite (file_byte_block F x q (b_data v)) by (rewrite Hk; by eapply mapped_block).
      pose proof (Z.div_mod q 1024 ltac:(lia)). pose proof (Z.div_mod p 1024 ltac:(lia)). pose proof (Z.mod_pos_bound q 1024 ltac:(lia)).
      rewrite patch_lookup by lia. repeat case_decide; try lia; [|done]. f_equal. lia.
    + rewrite decide_False.
      2:{ intros Hr. apply Hk. pose proof (same_block_pos p (q - p) Hp ltac:(lia) ltac:(lia)) as [H1 _].
          by replace (p + (q - p)) with q in H1 by lia. }
      unfold file_byte, file_block. rewrite Hzones. destruct (zone_of F x (q / 1024)) as [w|] eqn:Hw; [|done]. cbn.
      case_decide; [done|]. rewrite Hsame; [done|]. intros ->. by apply Hk, Huniq.
  - intros k (w & d & Hw & Hw0 & Hd & Hl). destruct (decide (w = z)) as [->|Hne].
    + exists z, (patch (Z.to_nat (p mod 1024)) bs (b_data v)). rewrite Hzones. split_and!; [done..|]. by rewrite patch_length.
    + exists w, d. rewrite Hzones, Hsame by done. done.
  - intros d blk Hno. rewrite Hdata, decide_False; [done|]. intros [-> ->]. refine (Hno (p / 1024) _ eq_refl Hz).
    split; [lia|]. apply Z.div_le_mono; lia.
Qed.

Lemma rewritten_apart F x p bs F' : rewritten F x p bs F' -> apart F x -> apart F' x.
Proof.
  intros [_ Hz Hm _ _] H k z Hk Hz0. rewrite Hz in Hk. destruct (H k z Hk Hz0) as [H1 H2]. split; [by rewrite Hm|].
  intros k' Hk'. rewrite Hz in Hk'. by apply H2.
Qed.

Lemma rewritten_app F x p l1 l2 F1 F2 : 0 <= p -> (0 < length l1)%nat -> (0 < length l2)%nat -> rewritten F x p l1 F1 ->
  rewritten F1 x (p + Z.of_nat (length l1)) l2 F2 -> rewritten F x p (l1 ++ l2) F2.
Proof.
  intros Hp Hl1 Hl2 H1 H2. split.
  - intros q Hq. rewrite (rw_bytes _ _ _ _ _ H2), (rw_bytes _ _ _ _ _ H1) by lia. rewrite length_app.
    repeat case_decide; try lia; try done.
    + rewrite lookup_app_r by lia. f_equal. lia.
    + by rewrite lookup_app_l by lia.
  - intros k. by rewrite (rw_zones _ _ _ _ _ H2), (rw_zones _ _ _ _ _ H1).
  - intros m. by rewrite (rw_meta _ _ _ _ _ H2), (rw_meta _ _ _ _ _ H1).
  - intros k Hk. by apply (rw_mapped _ _ _ _ _ H2), (rw_mapped _ _ _ _ _ H1).
  - intros d blk Hno. rewrite length_app in Hno. rewrite (rw_others _ _ _ _ _ H2), (rw_others _ _ _ _ _ H1); [done| |].
    + intros k Hk. apply Hno. split; [lia|]. transitivity ((p + Z.of_nat (length l1) - 1) / 1024); [lia|apply Z.div_le_mono; lia].
    + intros k Hk. rewrite (rw_zones _ _ _ _ _ H1). apply Hno. split; [|replace (p + Z.of_nat (length l1 + length l2) - 1) with (p + Z.of_nat (length l1) + Z.of_nat (length l2) - 1) by lia; lia].
      transitivity ((p + Z.of_nat (length l1)) / 1024); [apply Z.div_le_mono; lia|lia].
Qed.

Lemma rewritten_bufs F x p bs F1 F2 : bufs F2 = bufs F1 -> rewritten F x p bs F1 -> rewritten F x p bs F2.
Proof. destruct F1, F2. cbn. intros ->. intros [A B C D G]. by split. Qed.
Lemma reads_rewritten F x p bs F' : 0 <= p -> rewritten F x p bs F' -> reads F' x p bs.
Proof.
  intros Hp H k c Hk. pose proof (lookup_lt_Some _ _ _ Hk). rewrite (rw_bytes _ _ _ _ _ H) by lia. rewrite decide_True by lia.
  by replace (Z.to_nat (p + Z.of_nat k - p)) with k by lia.
Qed.

(** ** One round *)
Section Write.
Context {E : Env} (Hfuel : env_fuel <> 0%nat).

Definition on_bufs (g : list buffer_head -> list buffer_head) (s : kst) : kst := with_fs s ((fsys s) <| bufs ::= g |>).
Lemma on_bufs_ext g h s : g (bufs (fsys s)) = h (bufs (fsys s)) -> on_bufs g s = on_bufs h s.
Proof. intros H. unfold on_bufs, with_fs, upd. by rewrite H. Qed.

Lemma copy_from_user_run b off n buf s v : bufs (fsys s) !! b = Some v ->
  copy_from_user b off n buf s = Ret tt (on_bufs (alter (fun v => v <| b_data ::= patch off (user_words s buf n) |>) b) s).
Proof.
  unfold copy_from_user, user_words.
  assert (forall j s' v, bufs (fsys s') !! b = Some v -> umem s' = umem s ->
    for_each (seq j n) (fun k => c ← get_fs_byte (buf + Z.of_nat k); setbh b (fun y => y <| b_data ::= <[(off + k)%nat := c]> |>)) s' =
    Ret tt (on_bufs (alter (fun v => v <| b_data ::= patch (off + j) ((fun k : nat => default 0 (umem s !! u32 (buf + Z.of_nat k))) <$> seq j n) |>) b) s')) as H.
  { induction n as [|n IH]; intros j s' w Hw Hu; cbn [seq for_each fmap list_fmap patch].
    - unfold mret, M_ret. f_equal. etransitivity; [symmetry; exact (with_fs_id s')|]. unfold on_bufs. f_equal. unfold upd.
      assert (alter (fun v => v <| b_data ::= fun d => d |>) b (bufs (fsys s')) = bufs (fsys s')) as Heq.
      { apply list_eq. intros i. rewrite alter_lookup. case_decide; [subst; rewrite Hw; by destruct w|done]. }
      unfold upd in Heq. rewrite Heq. by destruct (fsys s').
    - set (c := default 0 (umem s !! u32 (buf + Z.of_nat j))).
      rewrite (bind_Ret _ _ s' tt (on_bufs (alter (fun y => y <| b_data ::= <[(off + j)%nat := c]> |>) b) s')).
      2:{ rewrite (bind_Ret _ _ s' c s') by (unfold get_fs_byte, gets, c; by rewrite Hu). apply (setbh_at b _ s' w Hw). }
      rewrite (IH (S j) _ (w <| b_data ::= <[(off + j)%nat := c]> |>)).
      2:{ change (alter (fun y => y <| b_data ::= <[(off + j)%nat := c]> |>) b (bufs (fsys s')) !! b = Some (w <| b_data ::= <[(off + j)%nat := c]> |>)).
          by rewrite alter_lookup, decide_True, Hw. }
      2:{ exact Hu. }
      f_equal. rewrite Nat.add_succ_r. set (l := (fun k : nat => _) <$> seq (S j) n).
      change (on_bufs (fun L => alter (fun v => v <| b_data ::= patch (S (off + j)) l |>) b (alter (fun y => y <| b_data ::= <[(off + j)%nat := c]> |>) b L)) s' =
        on_bufs (alter (fun v => v <| b_data ::= fun d => patch (S (off + j)) l (<[(off + j)%nat := c]> d) |>) b) s').
      apply on_bufs_ext. apply list_eq. intros i. rewrite !alter_lookup. case_decide; [|done]. by destruct (_ !! i). }
  intros Hv. rewrite (H 0%nat s v Hv eq_refl). by rewrite Nat.add_0_r.
Qed.

Lemma write_step_run s i x n p buf count z b v : cache_inv s -> buffer_wait (fsys s) = None -> inode_table (fsys s) !! i = Some x ->
  zone_of (fsys s) x (p / 1024) = Some z -> z <> 0 -> held (fsys s) (i_dev x) z = Some (b, v) ->
  0 <= p -> n < count -> let c := Z.min (1024 - p mod 1024) (count - n) in p + c < 2 ^ 31 ->
  let bs := user_words s (buf + n) (Z.to_nat c) in
  write_file_step i buf count (n, p) s = Ret (inl (n + c, p + c))
    (with_fs s ((fsys s) <| bufs ::= alter (stored (Z.to_nat (p mod 1024)) bs) b |> <| inode_table ::= alter (grown (p + c)) i |>)).
Proof.
  intros Hinv Hw Hi Hz Hz0 Hh Hp Hn c Hmax bs. destruct (held_Some _ _ _ _ _ Hh) as (Hv & _ & _ & _ & _ & _ & Hlk & Hcount).
  unfold write_file_step. destruct (Z.leb_spec count n); [lia|]. unfold BLOCK_SIZE. rewrite Z.quot_div_nonneg, Z.rem_mod_nonneg by lia.
  rewrite (bind_Ret _ _ s z s) by (by apply bmap_run with (x := x)). rewrite (proj2 (Z.eqb_neq z 0)) by done.
  rewrite (bind_Ret _ _ _ _ _ (getino_at i s x Hi)). rewrite (bind_Ret _ _ _ _ _ (bread_held Hfuel s _ _ b v Hinv Hh)). cbv zeta. fold c.
  assert (s32 (p + c) = p + c) as -> by (pose proof (Z.mod_pos_bound p 1024 ltac:(lia)); rewrite s32_id; lia).
  set (t := taken b s). assert (bufs (fsys t) !! b = Some (counted 1 v)) as Ht by (unfold t; rewrite taken_lookup; by rewrite Hv).
  rewrite (bind_Ret _ _ _ _ _ (setbh_at b (fun y => y <| b_dirt := 1 |>) t _ Ht)). set (t1 := alter_bh _ b t).
  change (fun x0 : m_inode => if s32 (i_size x0) <? p + c then x0 <| i_size := u32 (p + c) |> <| i_dirt := 1 |> else x0) with (grown (p + c)).
  rewrite (bind_Ret _ _ _ _ _ (setino_run i (grown (p + c)) t1 x Hi)). set (t2 := with_fs t1 _).
  assert (bufs (fsys t2) !! b = Some ((counted 1 v) <| b_dirt := 1 |>)) as Ht2.
  { change (alter (fun y => y <| b_dirt := 1 |>) b (bufs (fsys t)) !! b = Some ((counted 1 v) <| b_dirt := 1 |>)).
    by rewrite alter_lookup, decide_True, Ht. }
  rewrite (bind_Ret _ _ _ _ _ (copy_from_user_run b _ _ (buf + n) t2 _ Ht2)). change (user_words t2 (buf + n) (Z.to_nat c)) with bs.
  set (s' := with_fs s ((fsys s) <| bufs ::= alter (stored (Z.to_nat (p mod 1024)) bs) b |> <| inode_table ::= alter (grown (p + c)) i |>)).
  assert (on_bufs (alter (fun v => v <| b_data ::= patch (Z.to_nat (p mod 1024)) bs |>) b) t2 = taken b s') as ->.
  { change (on_bufs (fun L => alter (fun v => v <| b_data ::= patch (Z.to_nat (p mod 1024)) bs |>) b
      (alter (fun y => y <| b_dirt := 1 |>) b (alter (counted 1) b L))) (with_fs s ((fsys s) <| inode_table ::= alter (grown (p + c)) i |>)) =
      on_bufs (fun L => alter (counted 1) b (alter (stored (Z.to_nat (p mod 1024)) bs) b L)) (with_fs s ((fsys s) <| inode_table ::= alter (grown (p + c)) i |>))).
    apply on_bufs_ext. apply list_eq. intros j. rewrite !alter_lookup. case_decide; [|done]. by destruct (_ !! j). }
  assert (bufs (fsys s') !! b = Some (stored (Z.to_nat (p mod 1024)) bs v)) as Hs'.
  { change (alter (stored (Z.to_nat (p mod 1024)) bs) b (bufs (fsys s)) !! b = Some (stored (Z.to_nat (p mod 1024)) bs v)).
    by rewrite alter_lookup, decide_True, Hv. }
  by rewrite (bind_Ret _ _ _ _ _ (brelse_taken Hfuel s' b _ Hw Hs' Hlk Hcount)).
Qed.

(** ** The loop *)
Definition shape (x1 x : m_inode) : Prop := i_zone x1 = i_zone x /\ i_dev x1 = i_dev x.
Lemma shape_zone F x1 x k : shape x1 x -> zone_of F x1 k = zone_of F x k.
Proof. intros [Hz Hd]. unfold zone_of. by rewrite Hz, Hd. Qed.
Lemma shape_grown p x : shape (grown p x) x.
Proof. unfold grown. by case_match. Qed.
Lemma shape_byte F x1 x q : shape x1 x -> file_byte F x1 q = file_byte F x q.
Proof. intros H. unfold file_byte, file_block. rewrite (shape_zone _ _ _ _ H). destruct H as [_ H]. by rewrite H. Qed.
Lemma grown_twice p q x : 0 <= p < q -> q < 2 ^ 31 -> grown q (grown p x) = grown q x.
Proof.
  intros Hp Hq. unfold grown. destruct (Z.ltb_spec (s32 (i_size x)) p) as [H|H]; [|done].
  change (s32 (i_size (x <| i_size := u32 p |> <| i_dirt := 1 |>))) with (s32 (u32 p)). rewrite u32_id, s32_id by lia.
  destruct (Z.ltb_spec p q); [|lia]. destruct (Z.ltb_spec (s32 (i_size x)) q); [|lia]. by destruct x.
Qed.

Lemma cache_stored s b bs off g i : cache_inv s -> (forall x, i_dev (g x) = i_dev x) ->
  cache_inv (with_fs s ((fsys s) <| bufs ::= alter (stored off bs) b |> <| inode_table ::= alter g i |>)).
Proof.
  intros H Hg. revert H. apply (keeps_key s). unfold key_view.
  change (bufs (fsys (with_fs s ((fsys s) <| bufs ::= alter (stored off bs) b |> <| inode_table ::= alter g i |>)))) with (alter (stored off bs) b (bufs (fsys s))).
  change (inode_table (fsys (with_fs s ((fsys s) <| bufs ::= alter (stored off bs) b |> <| inode_table ::= alter g i |>)))) with (alter g i (inode_table (fsys s))).
  rewrite !fmap_alter_same by done. by destruct (fsys s).
Qed.
Lemma mapped_held F x k : mapped F x k -> exists z b v, zone_of F x k = Some z /\ z <> 0 /\ held F (i_dev x) z = Some (b, v) /\ length (b_data v) = 1024%nat.
Proof.
  intros (z & d & Hz & Hz0 & Hd & Hl). unfold block_data in Hd. destruct (held F (i_dev x) z) as [[b v]|] eqn:Hh; [|done].
  apply (inj Some) in Hd. exists z, b, v. split_and!; [done..|]. by subst d.
Qed.

(** what a run of the loop from [p] on leaves *)
Record loop_left (s : kst) (i : nat) (x : m_inode) (p : Z) (bs : list Z) (F : fs_st) : Prop := {
  ll_rewritten : rewritten (fsys s) x p bs F;
  ll_cache : cache_ok F;
  ll_nowait : buffer_wait F = None;
  ll_inodes : inode_table F = alter (grown (p + Z.of_nat (length bs))) i (inode_table (fsys s));
  ll_files : file_table F = file_table (fsys s)
}.

Lemma file_write_loop i x buf count N : forall s x1 n p, cache_inv s -> buffer_wait (fsys s) = None -> inode_table (fsys s) !! i = Some x1 ->
  shape x1 x -> apart (fsys s) x -> 0 <= p -> n < count -> p + (count - n) < 2 ^ 31 ->
  (forall k, p / 1024 <= k <= (p + (count - n) - 1) / 1024 -> mapped (fsys s) x k) -> rounds p (count - n) <= Z.of_nat N ->
  exists F', loop N (write_file_step i buf count) (n, p) s = Ret (count, p + (count - n)) (with_fs s F') /\
    loop_left s i x p (user_words s (buf + n) (Z.to_nat (count - n))) F'.
Proof.
  induction N as [|N IH]; intros s x1 n p Hinv Hw Hi Hsh Hap Hp Hn Hmax Hmap HN.
  { exfalso. unfold rounds in HN. rewrite decide_False in HN by lia. pose proof (Z.mod_pos_bound p 1024 ltac:(lia)).
    pose proof (Z.div_pos (p mod 1024 + (count - n) + 1023) 1024 ltac:(lia) ltac:(lia)). lia. }
  destruct (mapped_held (fsys s) x (p / 1024)) as (z & b & v & Hz & Hz0 & Hh & Hl).
  { apply Hmap. split; [lia|apply Z.div_le_mono; lia]. }
  pose proof (Z.mod_pos_bound p 1024 ltac:(lia)) as Hoff. pose proof (rounds_next p (count - n) Hp ltac:(lia)) as Hnext. cbv zeta in Hnext.
  set (c := Z.min (1024 - p mod 1024) (count - n)) in *.
  pose proof (write_step_run s i x1 n p buf count z b v Hinv Hw Hi) as Hstep.
  rewrite (shape_zone _ _ _ _ Hsh), (proj2 Hsh) in Hstep. specialize (Hstep Hz Hz0 Hh Hp Hn). cbv zeta in Hstep. fold c in Hstep.
  specialize (Hstep ltac:(lia)). set (bs := user_words s (buf + n) (Z.to_nat c)) in *.
  set (F1 := (fsys s) <| bufs ::= alter (stored (Z.to_nat (p mod 1024)) bs) b |> <| inode_table ::= alter (grown (p + c)) i |>) in *.
  assert (Z.of_nat (length bs) = c) as Hbs by (unfold bs; rewrite user_words_length; lia).
  assert (rewritten (fsys s) x p bs F1) as H1.
  { apply (rewritten_block _ _ x p z b v); [done..|lia|lia|done]. }
  assert (cache_inv (with_fs s F1)) as Hinv1.
  { apply cache_stored; [done|]. intros y. apply shape_grown. }
  cbn [loop]. rewrite (bind_Ret _ _ _ _ _ Hstep). destruct (decide (n + c = count)) as [Hend|Hmore].
  - exists F1. replace (count - n) with c by lia. replace (n + c) with count by lia. split.
    + assert (1 <= N)%nat as HN1.
      { assert (rounds (p + c) (count - n - c) = 1) by (unfold rounds; by rewrite decide_True by lia). lia. }
      destruct N as [|N]; [lia|]. cbn [loop]. rewrite (bind_Ret _ _ _ (inr (count, p + c)) (with_fs s F1)); [done|].
      unfold write_file_step. by rewrite Z.leb_refl.
    + split; [exact H1|exact Hinv1|exact Hw| |done]. fold bs. by rewrite Hbs.
  - destruct (IH (with_fs s F1) (grown (p + c) x1) (n + c) (p + c)) as (F2 & Hrun & HF); [done|exact Hw| | | |lia|lia|lia| | |].
    + change (alter (grown (p + c)) i (inode_table (fsys s)) !! i = Some (grown (p + c) x1)). by rewrite alter_lookup, decide_True, Hi.
    + destruct (shape_grown (p + c) x1) as [G1 G2], Hsh as [G3 G4]. split; congruence.
    + by apply (rewritten_apart _ _ _ _ _ H1).
    + intros k Hk. apply (rw_mapped _ _ _ _ _ H1), Hmap. replace (p + c + (count - (n + c))) with (p + (count - n)) in Hk by lia.
      split; [|lia]. transitivity ((p + c) / 1024); [apply Z.div_le_mono; lia|lia].
    + replace (count - (n + c)) with (count - n - c) by lia. lia.
    + exists F2. replace (p + (count - n)) with (p + c + (count - (n + c))) by lia. split; [exact Hrun|].
      destruct HF as [G1 G2 G3 G4 G5]. change (user_words (with_fs s F1)) with (user_words s) in *.
      assert (user_words s (buf + n) (Z.to_nat (count - n)) = bs ++ user_words s (buf + (n + c)) (Z.to_nat (count - (n + c)))) as ->.
      { replace (Z.to_nat (count - n)) with (Z.to_nat c + Z.to_nat (count - (n + c)))%nat by lia. rewrite user_words_app. f_equal. f_equal. lia. }
      rewrite user_words_length in G4. split; [|done..| |done].
      * apply (rewritten_app _ _ _ _ _ F1); [done|lia|rewrite user_words_length; lia|done|]. by rewrite Hbs.
      * rewrite length_app, user_words_length. rewrite G4. apply list_eq. intros j.
        change (inode_table (fsys (with_fs s F1))) with (alter (grown (p + c)) i (inode_table (fsys s))). rewrite !alter_lookup.
        case_decide; [|done]. subst j. rewrite Hi. cbn. rewrite grown_twice by lia. f_equal. f_equal. lia.
Qed.

(** ** The whole call *)
Definition appends (y : file) : bool := nz (Z.land (f_flags y) O_APPEND).
(** where a write begins; the inode and the file after it *)
Definition write_pos (x : m_inode) (y : file) : Z := if appends y then s32 (i_size x) else f_pos y.
Definition stamped (a : bool) (t : Z) (x : m_inode) : m_inode :=
  if a then x <| i_mtime := t |> else x <| i_mtime := t |> <| i_ctime := t |>.
Definition wrote_inode (y : file) (p t : Z) (x : m_inode) : m_inode := stamped (appends y) t (grown p x).
Definition wrote_file (p : Z) (y : file) : file := if appends y then y else y <| f_pos := p |>.
Lemma shape_wrote y p t x : shape (wrote_inode y p t x) x.
Proof. pose proof (shape_grown p x) as []. unfold wrote_inode, stamped. by case_match. Qed.
Lemma stamped_dev a t x : i_dev (stamped a t x) = i_dev x.
Proof. by destruct a. Qed.

Lemma alter_at {A} (g h : A -> A) i (l : list A) x : l !! i = Some x -> g x = h x -> alter g i l = alter h i l.
Proof. intros Hx Hg. apply list_eq. intros j. rewrite !alter_lookup. case_decide; [subst; rewrite Hx; cbn; by rewrite Hg|done]. Qed.
Lemma alter_same {A} (i : nat) (l : list A) : alter (fun x => x) i l = l.
Proof. apply list_eq. intros j. rewrite alter_lookup. case_decide; [by destruct (l !! j)|done]. Qed.

(** what follows the loop *)
Definition finished (i f : nat) (y : file) (p : Z) (s : kst) : kst :=
  with_fs s ((fsys s) <| inode_table ::= alter (stamped (appends y) (now s)) i |> <| file_table ::= alter (wrote_file p) f |>).
Lemma write_tail_run s i f x y p n : inode_table (fsys s) !! i = Some x -> file_table (fsys s) !! f = Some y ->
  (t ← CURRENT_TIME;
   setino i (fun x => x <| i_mtime := u32 t |>) ;;
   unless (appends y)
     (setfile f (fun x => x <| f_pos := p |>) ;;
      t ← CURRENT_TIME;
      setino i (fun x => x <| i_ctime := u32 t |>)) ;;
   mret n : K Z) s = Ret n (finished i f y p s).
Proof.
  intros Hi Hf. set (t := s32 (startup_time (sched s) + Z.quot (jiffies (sched s)) HZ)).
  rewrite (bind_Ret _ _ s t s) by done. rewrite (bind_Ret _ _ _ _ _ (setino_run i _ s _ Hi)). set (s1 := with_fs s _).
  assert (finished i f y p s = with_fs s ((fsys s) <| inode_table := alter (stamped (appends y) (now s)) i (inode_table (fsys s)) |>
    <| file_table := alter (wrote_file p) f (file_table (fsys s)) |>)) as -> by done.
  destruct (appends y) eqn:Happ; cbn [negb when].
  - rewrite (alter_at (wrote_file p) (fun y => y) f _ y Hf) by (unfold wrote_file; by rewrite Happ). rewrite alter_same.
    rewrite (bind_Ret _ _ s1 tt s1) by done. unfold mret, M_ret. f_equal.
  - rewrite (alter_at (wrote_file p) (fun y => y <| f_pos := p |>) f _ y Hf) by (unfold wrote_file; by rewrite Happ).
    set (s2 := with_fs s1 ((fsys s1) <| file_table ::= alter (fun y => y <| f_pos := p |>) f |>)).
    set (s3 := with_fs s2 ((fsys s2) <| inode_table ::= alter (fun x => x <| i_ctime := u32 t |>) i |>)).
    rewrite (bind_Ret _ _ s1 tt s3).
    + unfold mret, M_ret. f_equal. rewrite (alter_at _ (fun x => (x <| i_mtime := u32 t |>) <| i_ctime := u32 t |>) i _ x Hi) by done.
      unfold s3, s2, s1, with_fs, upd. cbn. do 2 f_equal. apply list_eq. intros j. rewrite !alter_lookup. case_decide; [|done]. by destruct (_ !! j).
    + rewrite (bind_Ret _ _ _ _ _ (setfile_at f _ s1 y Hf)). fold s2. rewrite (bind_Ret _ _ s2 t s2) by done.
      apply (setino_run i _ s2 (x <| i_mtime := u32 t |>)).
      change (alter (fun x => x <| i_mtime := u32 t |>) i (inode_table (fsys s)) !! i = Some (x <| i_mtime := u32 t |>)).
      by rewrite alter_lookup, decide_True, Hi.
Qed.

Lemma file_write_run s i f x y buf count : open_file s i f x y -> apart (fsys s) x -> 0 < count ->
  let p := write_pos x y in 0 <= p -> p + count < 2 ^ 31 -> (forall k, p / 1024 <= k <= (p + count - 1) / 1024 -> mapped (fsys s) x k) ->
  exists s', file_write i f buf count s = Ret count s' /\ umem s' = umem s /\
    open_file s' i f (wrote_inode y (p + count) (now s) x) (wrote_file (p + count) y) /\
    rewritten (fsys s) x p (user_words s buf (Z.to_nat count)) (fsys s') /\
    (forall j, j <> i -> inode_table (fsys s') !! j = inode_table (fsys s) !! j) /\
    (forall j, j <> f -> file_table (fsys s') !! j = file_table (fsys s) !! j).
Proof.
  intros [Hinv Hw Hi Hf] Hap Hcount p Hp Hmax Hmap. unfold file_write.
  rewrite (bind_Ret _ _ _ _ _ (getfile_at f s y Hf)). rewrite (bind_Ret _ _ _ _ _ (getino_at i s x Hi)). fold (appends y).
  cbv zeta. fold (write_pos x y). fold p.
  destruct (file_write_loop i x buf count (3 + Z.to_nat (count / BLOCK_SIZE)) s x 0 p) as (F1 & Hrun & [H1 H2 H3 H4 H5]);
    [done|done|done|done|done|done|lia|lia|by rewrite Z.sub_0_r|rewrite Z.sub_0_r; apply rounds_fuel; lia|].
  rewrite Z.sub_0_r, Z.add_0_r in *. rewrite user_words_length, Z2Nat.id in H4 by lia.
  rewrite (bind_Ret _ _ _ _ _ Hrun). set (s1 := with_fs s F1).
  assert ((if nz count then count else - 1) = count) as -> by (unfold nz; by rewrite (proj2 (Z.eqb_neq count 0)) by lia).
  assert (inode_table (fsys s1) !! i = Some (grown (p + count) x)) as Hi1.
  { change (inode_table F1 !! i = Some (grown (p + count) x)). by rewrite H4, alter_lookup, decide_True, Hi. }
  assert (file_table (fsys s1) !! f = Some y) as Hf1 by (change (file_table F1 !! f = Some y); by rewrite H5).
  exists (finished i f y (p + count) s1). split; [exact (write_tail_run s1 i f _ y (p + count) count Hi1 Hf1)|]. split; [done|].
  change (file_table (fsys (finished i f y (p + count) s1))) with (alter (wrote_file (p + count)) f (file_table F1)).
  change (inode_table (fsys (finished i f y (p + count) s1))) with (alter (stamped (appends y) (now s)) i (inode_table F1)).
  split; [split|split; [by apply (rewritten_bufs _ _ _ _ F1)|split]].
  - apply (cache_ok_view F1); [|done]. unfold key_view.
    change (inode_table (fsys (finished i f y (p + count) s1))) with (alter (stamped (appends y) (now s)) i (inode_table F1)).
    by rewrite (fmap_alter_same i_dev) by apply stamped_dev.
  - exact H3.
  - change (inode_table (fsys (finished i f y (p + count) s1))) with (alter (stamped (appends y) (now s)) i (inode_table F1)).
    change (inode_table F1 !! i = Some (grown (p + count) x)) in Hi1. by rewrite alter_lookup, decide_True, Hi1.
  - change (file_table (fsys (finished i f y (p + count) s1))) with (alter (wrote_file (p + count)) f (file_table F1)).
    change (file_table F1 !! f = Some y) in Hf1. by rewrite alter_lookup, decide_True, Hf1.
  - intros j Hj. by rewrite alter_lookup, decide_False, H4, alter_lookup, decide_False.
  - intros j Hj. by rewrite alter_lookup, decide_False, H5.
Qed.
End Write.

(** C3: a file is an array of bytes.  Of a file that is open on an inode:
    (1) [file_read] of bytes that the file has from its position on, in blocks that are
    in the cache or missing (a hole reads as zeros), returns their number, puts exactly
    these bytes into user memory, moves the position behind them, stamps the inode, and gives every
    buffer back as it was;
    (2) [file_write] at the position, or at the end in append mode, over blocks the file has,
    returns the count; afterwards the file consists of the bytes of user memory there and of its old bytes
    everywhere else, it can be read back, no block of any device but those written has changed, nor has another
    inode or open file; the size has grown to the end of what was written and the position is behind it. *)
Theorem file_is_bytes {E : Env} (s : kst) (i f : nat) (x : m_inode) (y : file) (buf : Z)
  (Hfuel : env_fuel <> 0%nat) (H : open_file s i f x y) :
  (forall bs, bs <> [] -> 0 <= f_pos y -> f_pos y + Z.of_nat (length bs) < 2 ^ 31 -> reads (fsys s) x (f_pos y) bs ->
   exists s', file_read i f buf (Z.of_nat (length bs)) s = Ret (Z.of_nat (length bs)) s' /\
     umem s' = put_bytes_at buf bs (umem s) /\ bufs (fsys s') = bufs (fsys s) /\
     open_file s' i f (x <| i_atime := now s |>) (y <| f_pos := f_pos y + Z.of_nat (length bs) |>)) /\
  (forall count, 0 < count -> let p := write_pos x y in 0 <= p -> p + count < 2 ^ 31 -> apart (fsys s) x ->
     (forall k, p / 1024 <= k <= (p + count - 1) / 1024 -> mapped (fsys s) x k) ->
   exists s', file_write i f buf count s = Ret count s' /\ umem s' = umem s /\
     open_file s' i f (wrote_inode y (p + count) (now s) x) (wrote_file (p + count) y) /\
     rewritten (fsys s) x p (user_words s buf (Z.to_nat count)) (fsys s') /\
     reads (fsys s') (wrote_inode y (p + count) (now s) x) p (user_words s buf (Z.to_nat count)) /\
     (forall j, j <> i -> inode_table (fsys s') !! j = inode_table (fsys s) !! j) /\
     (forall j, j <> f -> file_table (fsys s') !! j = file_table (fsys s) !! j)).
Proof.
  split.
  - intros bs Hbs Hp Hmax Hr. eexists. split; [by apply (file_read_run Hfuel s i f x y)|]. split; [done|]. split; [done|].
    by apply has_read_stamped.
  - intros count Hcount p Hp Hmax Hap Hmap.
    destruct (file_write_run Hfuel s i f x y buf count H Hap Hcount Hp Hmax Hmap) as (s' & H1 & H2 & H3 & H4 & H5 & H6).
    exists s'. split_and!; try done. intros k c Hk. rewrite (shape_byte _ _ x) by apply shape_wrote. by apply (reads_rewritten _ _ _ _ _ Hp H4).
Qed.

(** a file with two blocks; its position is four bytes before the second *)
Definition small_inode : m_inode :=
  zero_inode <| i_mode := 0x81A4 |> <| i_size := 2048 |> <| i_dev := 0x301 |> <| i_num := 7 |> <| i_nlinks := 1 |> <| i_count := 1 |>
    <| i_zone := [5; 6; 0; 0; 0; 0; 0; 0; 0] |>.
Definition small_file : file := zero_file <| f_count := 1 |> <| f_inode := Some 3%nat |> <| f_pos := 1020 |>.
Definition file_kst : kst :=
  load (fun blk => (fun k => (Z.of_nat k + blk) mod 256) <$> seq 0 1024) small_inode small_file
    (put_bytes_at 100 [1; 2; 3; 4; 5; 6; 7; 8] ∅) two_bufs.
Lemma file_kst_open : open_file file_kst 3 2 small_inode small_file.
Proof. split; [by apply load_inv, two_bufs_inv|vm_compute; reflexivity..]. Qed.

(** the indirect blocks are not used *)
Lemma direct_apart F x : i_zone x !! 7%nat = Some 0 -> i_zone x !! 8%nat = Some 0 -> NoDup (filter (fun z => z <> 0) (i_zone x)) -> apart F x.
Proof.
  intros H7 H8 Hnd. assert (forall k z, zone_of F x k = Some z -> z <> 0 -> 0 <= k < 7 /\ i_zone x !! Z.to_nat k = Some z) as Hdir.
  { intros k z Hz Hz0. unfold zone_of, entry in Hz. rewrite H7, H8 in Hz. cbn in Hz.
    repeat case_decide; try done; try lia; cbn in Hz; try congruence; [by split; [lia|]|].
    by rewrite decide_True in Hz by done; injection Hz as <-. }
  intros k z Hk Hz0. destruct (Hdir k z Hk Hz0) as [Hr Hl]. split.
  - intros [Hm|[Hm|(w & j & Hw & Hm)]]; [congruence..|]. rewrite H8 in Hw. injection Hw as <-. unfold entry in Hm.
    rewrite decide_True in Hm by done. congruence.
  - intros k' Hk'. destruct (Hdir k' z Hk' Hz0) as [Hr' Hl']. 
    enough (Z.to_nat k' = Z.to_nat k) by lia. revert Hl Hl' Hnd Hz0. clear. generalize (Z.to_nat k) (Z.to_nat k'). intros a b.
    revert a b. induction (i_zone x) as [|w l IH]; intros a b Ha Hb Hnd Hz; [done|].
    rewrite filter_cons in Hnd. case_decide as Hw.
    + apply NoDup_cons in Hnd as [Hn Hnd]. destruct a as [|a], b as [|b]; try done.
      * injection Ha as ->. exfalso. apply Hn, list_elem_of_filter. split; [done|]. exact (list_elem_of_lookup_2 l b z Hb).
      * injection Hb as ->. exfalso. apply Hn, list_elem_of_filter. split; [done|]. exact (list_elem_of_lookup_2 l a z Ha).
      * f_equal. by apply IH.
    + destruct a as [|a], b as [|b]; try done; [injection Ha as ->; done|injection Hb as ->; done|]. f_equal. by apply IH.
Qed.

(** eight bytes are read, and eight are written, across the end of the first block *)
Lemma file_is_bytes_witness :
  (exists s', @file_read (quiet_env 3) 3 2 200 8 file_kst = Ret 8 s' /\
     umem s' = put_bytes_at 200 [1; 2; 3; 4; 6; 7; 8; 9] (umem file_kst)) /\
  (exists s', @file_write (quiet_env 3) 3 2 100 8 file_kst = Ret 8 s' /\
     rewritten (fsys file_kst) small_inode 1020 [1; 2; 3; 4; 5; 6; 7; 8] (fsys s')).
Proof.
  destruct (@file_is_bytes (quiet_env 3) file_kst 3 2 small_inode small_file 200 ltac:(done) file_kst_open) as [Hr _].
  destruct (@file_is_bytes (quiet_env 3) file_kst 3 2 small_inode small_file 100 ltac:(done) file_kst_open) as [_ Hw]. split.
  - destruct (Hr [1; 2; 3; 4; 6; 7; 8; 9]) as (s' & H1 & H2 & _).
    + discriminate.
    + vm_compute. discriminate.
    + vm_compute. reflexivity.
    + apply reads_dec. vm_compute. reflexivity.
    + exists s'. split; [exact H1|exact H2].
  - destruct (Hw 8) as (s' & H1 & _ & _ & H2 & _).
    + reflexivity.
    + vm_compute. discriminate.
    + vm_compute. reflexivity.
    + apply direct_apart; [reflexivity|reflexivity|]. apply (bool_decide_unpack _). vm_compute. exact I.
    + intros k Hk. change (0 <= k <= 1) in Hk.
      assert (k = 0 \/ k = 1) as [-> | ->] by lia; eexists _, _; (split; [reflexivity|]); (split; [done|]); split; vm_compute; reflexivity.
    + exists s'. split; [exact H1|]. assert (user_words file_kst 100 (Z.to_nat 8) = [1; 2; 3; 4; 5; 6; 7; 8]) as Hbs by (vm_compute; reflexivity).
      rewrite Hbs in H2. exact H2.
Defined.
