(* ===== verification/DirFacts.v ===== *)
(** * fs/namei.cc: a directory is a list of entries

    [find_entry] scans the blocks of a directory for a name.  On the contents of
    the directory it is the search for the first entry that has the name; stated
    for directories whose blocks are in the cache ([WarmFacts.v]). *)

From S2P Require Import Prelude Bits State Memory Sched Request LlRw Buffer BufferFacts.
From S2P Require Import Bitmap CacheFacts Inode WarmFacts Namei PipeFacts.

(** ** Entries *)

(** the name that [n] bytes at [a] spell: the first 14 of them count *)
Definition name_at (s : kst) (a n : Z) : list Z := user_words s a (Z.to_nat (Z.min n NAME_LEN)).
(** the entry at [de] is in use, has the bytes [nm] and ends after them *)
Definition entry_is (nm d : list Z) (de : nat) : Prop :=
  get16 d de <> 0 /\ ((length nm < 14)%nat -> get8 d (de + 2 + length nm) = 0) /\
  (fun k : nat => get8 d (de + 2 + k)) <$> seq 0 (length nm) = nm.
#[export] Instance entry_is_dec nm d de : Decision (entry_is nm d de).
Proof. unfold entry_is. apply _. Defined.

Definition entry_off (i : Z) : nat := (16 * Z.to_nat (i mod 64))%nat.
(** entry [i] of the directory [x] *)
Definition dir_entry_is (F : fs_st) (x : m_inode) (nm : list Z) (i : Z) : Prop :=
  match file_block F x (i / 64) with Some d => entry_is nm d (entry_off i) | None => False end.
#[export] Instance dir_entry_is_dec F x nm i : Decision (dir_entry_is F x nm i).
Proof. unfold dir_entry_is. destruct (file_block F x (i / 64)); apply _. Defined.
(** the first entry with the name *)
Definition dir_lookup (F : fs_st) (x : m_inode) (nm : list Z) : option Z :=
  snd <$> list_find (dir_entry_is F x nm) (seqZ 0 (entries_of x)).

Lemma no_name_in_hole nm de : ~ entry_is nm (replicate 1024 0) de.
Proof.
  intros [H _]. apply H. unfold get16, get8.
  assert (forall k, default 0 (replicate 1024 0 !! k) = 0) as Hk.
  { intros k. destruct (decide (k < 1024)%nat); [by rewrite lookup_replicate_2|by rewrite lookup_ge_None_2 by (rewrite length_replicate; lia)]. }
  by rewrite !Hk.
Qed.

(** [o] is the first of the numbers from [i] to [e] with [P] *)
Definition first_in (P : Z -> Prop) (i e : Z) (o : option Z) : Prop :=
  match o with Some j => i <= j < e /\ P j /\ (forall k, i <= k < j -> ~ P k) | None => forall k, i <= k < e -> ~ P k end.
Lemma first_in_skip (P : Z -> Prop) i i' e o : i <= i' -> (forall k, i <= k < i' -> k < e -> ~ P k) -> first_in P i' e o -> first_in P i e o.
Proof.
  intros Hi Hno. destruct o as [j|]; cbn.
  - intros (Hj & HP & Hmin). split; [lia|]. split; [done|]. intros k Hk. destruct (decide (k < i')); [apply Hno; lia|apply Hmin; lia].
  - intros H k Hk. destruct (decide (k < i')); [apply Hno; lia|apply H; lia].
Qed.
Lemma first_in_unique P i e o1 o2 : first_in P i e o1 -> first_in P i e o2 -> o1 = o2.
Proof.
  destruct o1 as [j|], o2 as [k|]; cbn; try done.
  - intros (H1 & H2 & H3) (H4 & H5 & H6). f_equal. destruct (Z.lt_trichotomy j k) as [H|[H|H]]; [exfalso; apply (H6 j); [lia|done]|done|exfalso; apply (H3 k); [lia|done]].
  - intros (H1 & H2 & _) H. exfalso. by apply (H j).
  - intros H (H1 & H2 & _). exfalso. by apply (H k).
Qed.
Lemma dir_lookup_first F x nm : first_in (dir_entry_is F x nm) 0 (entries_of x) (dir_lookup F x nm).
Proof.
  unfold dir_lookup. destruct (list_find _ _) as [[n j]|] eqn:Hf; cbn.
  - apply list_find_Some in Hf as (Hj & HP & Hmin). apply lookup_seqZ in Hj as [-> Hn]. split; [lia|]. split; [done|].
    intros k Hk. apply (Hmin (Z.to_nat k)); [|lia]. apply lookup_seqZ. lia.
  - apply list_find_None in Hf. rewrite Forall_forall in Hf. intros k Hk. apply Hf, elem_of_seqZ. lia.
Qed.

Lemma entry_off_next i : 0 <= i -> if decide ((i + 1) mod 64 = 0) then (entry_off i + 16 = 1024)%nat else (entry_off i + 16 = entry_off (i + 1))%nat /\ (i + 1) / 64 = i / 64.
Proof.
  intros Hi. unfold entry_off. pose proof (Z.div_mod i 64 ltac:(lia)). pose proof (Z.mod_pos_bound i 64 ltac:(lia)).
  destruct (decide (i mod 64 = 63)) as [H63|H63].
  - assert ((i + 1) mod 64 = 0) as H1 by (symmetry; apply (Z.mod_unique _ _ (i / 64 + 1)); lia). rewrite decide_True by done. lia.
  - assert ((i + 1) mod 64 = i mod 64 + 1) as H1 by (symmetry; apply (Z.mod_unique _ _ (i / 64)); lia).
    assert ((i + 1) / 64 = i / 64) as H2 by (symmetry; apply (Z.div_unique _ _ _ (i mod 64 + 1)); lia).
    rewrite decide_False by lia. split; [lia|done].
Qed.
Lemma hole_block i k : i mod 64 = 0 -> i <= k < i + 64 -> k / 64 = i / 64.
Proof. intros Hm Hk. pose proof (Z.div_mod i 64 ltac:(lia)). symmetry. apply (Z.div_unique _ _ _ (k - i)); lia. Qed.

(** the buffer with the block of entry [i] *)
Definition entry_buf (F : fs_st) (x : m_inode) (i : Z) : option nat := z ← zone_of F x (i / 64); fst <$> held F (i_dev x) z.

Section Find.
Context {E : Env} (Hfuel : env_fuel <> 0%nat).

Lemma same_bytes_run s a d o n :
  same_bytes a d o n s = Ret (bool_decide ((fun k : nat => get8 d (o + k)) <$> seq 0 n = user_words s a n)) s.
Proof.
  revert a o. induction n as [|n IH]; intros a o; cbn [same_bytes]; [by rewrite bool_decide_true|].
  rewrite (bind_Ret _ _ s (default 0 (umem s !! u32 a)) s) by done.
  assert (user_words s a (S n) = default 0 (umem s !! u32 a) :: user_words s (a + 1) n) as ->.
  { change (S n) with (1 + n)%nat. rewrite user_words_app. unfold user_words at 1. cbn. by rewrite Z.add_0_r. }
  assert ((fun k : nat => get8 d (o + k)) <$> seq 0 (S n) = get8 d o :: ((fun k : nat => get8 d (S o + k)) <$> seq 0 n)) as ->.
  { cbn [seq fmap list_fmap]. rewrite Nat.add_0_r. f_equal. rewrite <- fmap_S_seq, <- list_fmap_compose.
    apply list_fmap_ext. intros j k _. cbn. f_equal. lia. }
  destruct (Z.eqb_spec (default 0 (umem s !! u32 a)) (get8 d o)) as [->|Hne].
  - rewrite IH. f_equal. apply bool_decide_ext. split; [by intros ->|]. by intros [= ?].
  - rewrite bool_decide_false; [done|]. intros [= ?]. congruence.
Qed.

Lemma match_run s a n d de : 0 < n <= 14 -> match_ n a d de s = Ret (bool_decide (entry_is (name_at s a n) d de)) s.
Proof.
  intros Hn. unfold match_, name_at, NAME_LEN. rewrite Z.min_l by lia. destruct (Z.ltb_spec 14 n); [lia|].
  rewrite orb_false_r. pose proof (user_words_length s a (Z.to_nat n)) as Hl. set (nm := user_words s a (Z.to_nat n)) in *.
  destruct (Z.eqb_spec (get16 d de) 0) as [H0|H0]; [by rewrite bool_decide_false by (by intros [? _])|].
  assert (same_bytes a d (de + 2) (Z.to_nat n) s = Ret (bool_decide ((fun k : nat => get8 d (de + 2 + k)) <$> seq 0 (length nm) = nm)) s) as Hrun
    by (rewrite Hl; apply same_bytes_run).
  destruct ((n <? 14) && nz (get8 d (de + 2 + Z.to_nat n))) eqn:Hend.
  - apply andb_true_iff in Hend as [H14%Z.ltb_lt Hnz]. rewrite bool_decide_false; [done|].
    intros (_ & Hz & _). rewrite Hl in Hz. unfold nz in Hnz. by rewrite Hz in Hnz by lia.
  - rewrite Hrun. f_equal. apply bool_decide_ext. split; [|by intros (_ & _ & ?)]. intros Heq. split; [done|]. split; [|done].
    intros Hlt. rewrite Hl in *. rewrite (proj2 (Z.ltb_lt n 14)) in Hend by lia. cbn [andb] in Hend. unfold nz in Hend.
    by apply negb_false_iff, Z.eqb_eq in Hend.
Qed.

(** ** The scan *)
Context (s : kst) (dir : nat) (x : m_inode) (n a : Z).
Hypothesis (Hinv : cache_inv s) (Hwait : buffer_wait (fsys s) = None) (Hdir : inode_table (fsys s) !! dir = Some x).
Hypothesis Hn : 0 < n <= 14.
Abbreviation F := (fsys s).
Abbreviation e := (entries_of x).
Abbreviation found := (dir_entry_is F x (name_at s a n)).
Hypothesis Hblocks : forall k, 0 <= k -> 64 * k < e -> is_Some (file_block F x k).

(** the buffer of the block of entry [i] is taken *)
Definition in_block (i : Z) (b : nat) : Prop :=
  exists z v, zone_of F x (i / 64) = Some z /\ z <> 0 /\ held F (i_dev x) z = Some (b, v).
Definition at_entry (i : Z) (bh : option nat) (de : nat) (s0 : kst) : Prop :=
  match bh with
  | Some b => s0 = taken b s /\ ((de = entry_off i /\ in_block i b) \/ (de = 1024%nat /\ i mod 64 = 0 /\ in_block (i - 1) b))
  | None => s0 = s /\ i mod 64 = 0
  end.
Definition found_at (o : option Z) (r : out kst (option (nat * nat))) : Prop :=
  match o with Some j => exists b, entry_buf F x j = Some b /\ r = Ret (Some (b, entry_off j)) (taken b s) | None => r = Ret None s end.

Lemma in_block_brelse i b : in_block i b -> brelse (Some b) (taken b s) = Ret tt s.
Proof. intros (z & v & _ & _ & Hh). apply held_Some in Hh as (Hv & _ & _ & _ & _ & _ & Hl & Hc). by apply (brelse_taken Hfuel s b v). Qed.

Lemma entry_scan_run i b : 0 <= i -> in_block i b ->
  (y ← getbh b; f ← match_ n a (b_data y) (entry_off i);
   mret (if f : bool then inr (Some (b, entry_off i)) else inl (i + 1, Some b, (entry_off i + DIR_ENTRY_SIZE)%nat)) : K (Z * option nat * nat + option (nat * nat)))
    (taken b s) =
  Ret (if decide (found i) then inr (Some (b, entry_off i)) else inl (i + 1, Some b, (entry_off i + 16)%nat)) (taken b s).
Proof.
  intros Hi (z & v & Hz & Hz0 & Hh). pose proof (held_Some _ _ _ _ _ Hh) as (Hv & _).
  assert (bufs (fsys (taken b s)) !! b = Some (counted 1 v)) as Ht by (by rewrite taken_lookup, Hv).
  rewrite (bind_Ret _ _ _ _ _ (getbh_at b _ _ Ht)). change (b_data (counted 1 v)) with (b_data v).
  rewrite (bind_Ret _ _ _ _ _ (match_run (taken b s) a n (b_data v) (entry_off i) Hn)).
  change (name_at (taken b s) a n) with (name_at s a n). unfold mret, M_ret. f_equal.
  assert (found i <-> entry_is (name_at s a n) (b_data v) (entry_off i)) as Hiff.
  { unfold dir_entry_is, file_block. rewrite Hz. cbn. rewrite decide_False by done. unfold block_data. rewrite Hh. done. }
  case_bool_decide; case_decide; tauto || done.
Qed.
Lemma scan_next i b : 0 <= i -> in_block i b -> at_entry (i + 1) (Some b) (entry_off i + 16) (taken b s).
Proof.
  intros Hi Hb. split; [done|]. pose proof (entry_off_next i Hi) as Hnext. case_decide as Hm.
  - right. split; [done|]. split; [done|]. by replace (i + 1 - 1) with i by lia.
  - left. destruct Hnext as [-> Hk]. split; [done|]. unfold in_block in *. by rewrite Hk.
Qed.

Abbreviation step := (find_step dir n a e).
Definition after (i : Z) (b : nat) : Z * option nat * nat + option (nat * nat) :=
  if decide (found i) then inr (Some (b, entry_off i)) else inl (i + 1, Some b, (entry_off i + 16)%nat).

Lemma step_end i bh de s0 : e <= i -> at_entry i bh de s0 -> step (i, bh, de) s0 = Ret (inr None) s.
Proof.
  intros Hi H. unfold find_step. rewrite (proj2 (Z.leb_le e i)) by done. destruct bh as [b|]; cbn in H.
  - destruct H as [-> H]. rewrite (bind_Ret _ _ _ tt s); [done|]. destruct H as [[_ H]|(_ & _ & H)]; by eapply in_block_brelse.
  - by destruct H as [-> _].
Qed.
Lemma step_inside i b : 0 <= i < e -> in_block i b -> step (i, Some b, entry_off i) (taken b s) = Ret (after i b) (taken b s).
Proof.
  intros Hi Hb. unfold find_step. rewrite (proj2 (Z.leb_gt e i)) by lia.
  assert ((entry_off i <? 1024)%nat = true) as -> by (apply Nat.ltb_lt; unfold entry_off; pose proof (Z.mod_pos_bound i 64 ltac:(lia)); lia).
  apply entry_scan_run; [lia|done].
Qed.
(** a new block begins *)
Lemma step_fresh i de : 0 <= i < e -> i mod 64 = 0 ->
  (zone_of F x (i / 64) = Some 0 /\ step (i, None, de) s = Ret (inl (i + 64, None, de)) s) \/
  (exists b, in_block i b /\ step (i, None, de) s = Ret (after i b) (taken b s)).
Proof.
  intros Hi Hm. destruct (Hblocks (i / 64)) as [d Hd].
  { apply Z.div_pos; lia. }
  { pose proof (Z.div_mod i 64 ltac:(lia)). lia. }
  unfold file_block in Hd. apply bind_Some in Hd as (z & Hz & Hd).
  assert (bmap dir (i / 64) s = Ret z s) as Hb by (by apply bmap_run with (x := x)).
  unfold find_step. rewrite (proj2 (Z.leb_gt e i)) by lia. cbv zeta. change DIR_ENTRIES_PER_BLOCK with 64. rewrite (bind_Ret _ _ _ _ _ Hb).
  rewrite (bind_Ret _ _ _ _ _ (getino_at dir s x Hdir)). destruct (decide (z = 0)) as [->|Hz0]; [by left|right].
  unfold block_data in Hd. destruct (held F (i_dev x) z) as [[b v]|] eqn:Hh; [|done]. exists b.
  assert (in_block i b) as Hin by (by exists z, v). split; [done|]. rewrite (proj2 (Z.eqb_neq z 0)) by done.
  rewrite (bind_Ret _ _ _ _ _ (bread_held Hfuel s _ _ b v Hinv Hh)).
  assert (entry_off i = 0%nat) as Ho by (unfold entry_off; rewrite Hm; done). pose proof (entry_scan_run i b ltac:(lia) Hin) as Hscan.
  unfold after. rewrite Ho in *. exact Hscan.
Qed.
Lemma step_boundary i b : 0 <= i < e -> in_block (i - 1) b -> step (i, Some b, 1024%nat) (taken b s) = step (i, None, 1024%nat) s.
Proof.
  intros Hi Hb. unfold find_step. rewrite (proj2 (Z.leb_gt e i)) by lia. cbv zeta.
  rewrite Nat.ltb_irrefl. by rewrite (bind_Ret _ _ _ _ _ (in_block_brelse _ _ Hb)).
Qed.

Lemma entry_loop N : forall i bh de s0, 0 <= i -> at_entry i bh de s0 -> Z.max 0 (e - i) < Z.of_nat N ->
  exists o, first_in found i e o /\ found_at o (loop N step (i, bh, de) s0).
Proof.
  induction N as [|N IH]; intros i bh de s0 Hi Hat HN.
  { lia. }
  destruct (decide (e <= i)) as [Hend|Hlt].
  { exists None. split; [intros k Hk; lia|]. cbn [loop found_at]. by rewrite (bind_Ret _ _ _ _ _ (step_end i bh de s0 Hend Hat)). }
  assert (forall b, in_block i b -> step (i, bh, de) s0 = Ret (after i b) (taken b s) ->
    exists o, first_in found i e o /\ found_at o (loop (S N) step (i, bh, de) s0)) as Hafter.
  { intros b Hin Hrun. cbn [loop]. rewrite (bind_Ret _ _ _ _ _ Hrun). unfold after. destruct (decide (found i)) as [Hf|Hf].
    - exists (Some i). split; [split; [lia|split; [done|intros k Hk; lia]]|]. exists b. split; [|done].
      destruct Hin as (z & v & Hz & _ & Hh). unfold entry_buf. rewrite Hz. cbn. by rewrite Hh.
    - destruct (IH (i + 1) (Some b) (entry_off i + 16)%nat (taken b s)) as (o & Ho & Hrest); [lia|apply scan_next; [lia|done]|lia|].
      exists o. split; [|exact Hrest]. apply (first_in_skip _ i (i + 1)); [lia| |done]. intros k Hk _. by replace k with i by lia. }
  assert (i mod 64 = 0 -> step (i, bh, de) s0 = step (i, None, de) s -> exists o, first_in found i e o /\ found_at o (loop (S N) step (i, bh, de) s0)) as Hfresh.
  { intros Hm Heq. destruct (step_fresh i de ltac:(lia) Hm) as [[Hz Hrun]|(b & Hin & Hrun)]; [|apply (Hafter b Hin); by rewrite Heq].
    destruct (IH (i + 64) None de s) as (o & Ho & Hrest); [lia|split; [done|]|lia|].
    { rewrite <- (Z.mul_1_l 64) at 1. by rewrite Z.mod_add by lia. }
    exists o. split.
    - apply (first_in_skip _ i (i + 64)); [lia| |done]. intros k Hk _. unfold dir_entry_is, file_block. rewrite (hole_block i k Hm Hk), Hz. cbn.
      by apply no_name_in_hole.
    - cbn [loop]. by rewrite Heq, (bind_Ret _ _ _ _ _ Hrun) || (rewrite (bind_Ret _ _ s0 (inl (i + 64, None, de)) s); [done|by rewrite Heq]). }
  destruct bh as [b|]; cbn in Hat.
  - destruct Hat as [-> [[-> Hin]|(-> & Hm & Hin)]]; [apply (Hafter b Hin), step_inside; [lia|done]|].
    apply Hfresh; [done|]. apply step_boundary; [lia|done].
  - destruct Hat as [-> Hm]. by apply Hfresh.
Qed.
End Find.

(** ** The call *)
Section Call.
Context {E : Env}.
Lemma cross_dotdot_run s dir x t name n : inode_table (fsys s) !! dir = Some x -> tmem (sched s) !! current (sched s) = Some t ->
  (name_at s name n = [DOT; DOT] -> n = 2 -> t_root t = Some dir \/ i_num x <> ROOT_INO) -> 0 < n <= 14 ->
  cross_dotdot dir name n s = Ret (dir, if decide (name_at s name n = [DOT; DOT] /\ t_root t = Some dir) then 1 else n) s.
Proof.
  intros Hx Ht Hroot Hn. unfold cross_dotdot.
  set (c0 := default 0 (umem s !! u32 name)). set (c1 := default 0 (umem s !! u32 (name + 1))).
  rewrite (bind_Ret _ _ s c0 s) by done. rewrite (bind_Ret _ _ s c1 s) by done.
  assert (length (name_at s name n) = Z.to_nat n) as Hl by (unfold name_at, NAME_LEN; rewrite user_words_length; lia).
  assert ((n =? 2) && (c0 =? DOT) && (c1 =? DOT) = bool_decide (name_at s name n = [DOT; DOT])) as Hdots.
  { destruct (Z.eqb_spec n 2) as [->|Hne].
    - assert (name_at s name 2 = [c0; c1]) as ->.
      { change (name_at s name 2) with (user_words s name (1 + 1)). rewrite user_words_app. unfold user_words. cbn. by rewrite !Z.add_0_r. }
      cbn [andb]. destruct (Z.eqb_spec c0 DOT) as [->|H0]; destruct (Z.eqb_spec c1 DOT) as [->|H1]; cbn [andb]; case_bool_decide; congruence.
    - rewrite bool_decide_false; [done|]. intros H. rewrite H in Hl. cbn in Hl. lia. }
  rewrite Hdots. case_bool_decide as Hd; cbn [negb]; [|by rewrite decide_False by tauto].
  assert (n = 2) as -> by (rewrite Hd in Hl; cbn in Hl; lia).
  rewrite (bind_Ret _ _ s t s) by (unfold me, gettask; mrun; by rewrite Ht). rewrite (bind_Ret _ _ _ _ _ (getino_at dir s x Hx)).
  destruct (decide (t_root t = Some dir)) as [Hr|Hr]; [by rewrite decide_True by done|]. rewrite decide_False by tauto.
  destruct (Hroot Hd eq_refl) as [?|Hnum]; [done|]. by rewrite (proj2 (Z.eqb_neq _ _) Hnum).
Qed.

(** the name that is searched for: [..] of the root of the task is [.] *)
Definition search_name (s : kst) (t : task_struct) (dir : nat) (name n : Z) : list Z :=
  if decide (name_at s name n = [DOT; DOT] /\ t_root t = Some dir) then [DOT] else name_at s name n.

(** the number of characters that are compared *)
Definition search_len (s : kst) (t : task_struct) (dir : nat) (name n : Z) : Z :=
  if decide (name_at s name n = [DOT; DOT] /\ t_root t = Some dir) then 1 else Z.min n 14.
Lemma search_len_range s t dir name n : 0 < n -> 0 < search_len s t dir name n <= 14.
Proof. intros. unfold search_len. case_decide; lia. Qed.
Lemma name_at_14 s name n : name_at s name (Z.min n 14) = name_at s name n.
Proof. unfold name_at, NAME_LEN. do 2 f_equal. lia. Qed.
Lemma name_at_length s name n : length (name_at s name n) = Z.to_nat (Z.min n 14).
Proof. unfold name_at, NAME_LEN. by rewrite user_words_length. Qed.
Lemma search_name_len s t dir name n : search_name s t dir name n = name_at s name (search_len s t dir name n).
Proof.
  unfold search_name, search_len. case_decide as Hd; [|by rewrite name_at_14]. destruct Hd as [Hd _].
  pose proof (name_at_length s name n) as Hl. rewrite Hd in Hl. cbn in Hl. rewrite <- name_at_14 in Hd.
  replace (Z.min n 14) with 2 in Hd by lia. change (user_words s name (1 + 1) = [DOT; DOT]) in Hd. rewrite user_words_app in Hd.
  change (name_at s name 1) with (user_words s name 1). unfold user_words in *. cbn in *. by injection Hd as -> _.
Qed.

Lemma first_block_held F x z : i_zone x !! 0%nat = Some z -> z <> 0 -> is_Some (file_block F x 0) ->
  exists b v, held F (i_dev x) z = Some (b, v).
Proof.
  intros Hz Hz0 [d Hd]. unfold file_block in Hd. change (zone_of F x 0) with (i_zone x !! 0%nat) in Hd.
  rewrite Hz in Hd. cbn in Hd. rewrite decide_False in Hd by done. unfold block_data in Hd.
  destruct (held F (i_dev x) z) as [[b v]|]; [by exists b, v|done].
Qed.
(** an entry with a name is in a block, not in a hole *)
Lemma entry_buf_data F x nm j b : dir_entry_is F x nm j -> entry_buf F x j = Some b ->
  exists v, bufs F !! b = Some v /\ file_block F x (j / 64) = Some (b_data v).
Proof.
  intros Hj Hb. unfold entry_buf in Hb. apply bind_Some in Hb as (z & Hz & Hb).
  destruct (held F (i_dev x) z) as [[c v]|] eqn:Hh; [|done]. injection Hb as ->. exists v. split; [by apply held_Some in Hh as [? _]|].
  unfold dir_entry_is, file_block in *. rewrite Hz in *. cbn in *. case_decide as H0; [by apply no_name_in_hole in Hj|].
  unfold block_data. by rewrite Hh.
Qed.

Lemma find_entry_scan s dir x t name n z b0 v0 : env_fuel <> 0%nat -> cache_inv s -> inode_table (fsys s) !! dir = Some x ->
  tmem (sched s) !! current (sched s) = Some t -> 0 < n -> (name_at s name n = [DOT; DOT] -> t_root t = Some dir \/ i_num x <> ROOT_INO) ->
  i_zone x !! 0%nat = Some z -> z <> 0 -> held (fsys s) (i_dev x) z = Some (b0, v0) ->
  find_entry dir name n s =
    (r ← loop (S (Z.to_nat (entries_of x))) (find_step dir (search_len s t dir name n) name (entries_of x)) (0, Some b0, 0%nat); mret (dir, r))
      (taken b0 s).
Proof.
  intros Hfuel Hinv Hdir Htask Hn Hroot Hfirst Hz Hh. unfold find_entry.
  assert ((if NAME_LEN <? n then NAME_LEN else n) = Z.min n 14) as -> by (unfold NAME_LEN; destruct (Z.ltb_spec 14 n); lia).
  rewrite (bind_Ret _ _ _ _ _ (getino_at dir s x Hdir)). rewrite (proj2 (Z.eqb_neq (Z.min n 14) 0)) by lia.
  rewrite (bind_Ret _ _ _ _ _ (cross_dotdot_run s dir x t name (Z.min n 14) Hdir Htask ltac:(rewrite name_at_14; auto) ltac:(lia))).
  rewrite name_at_14. fold (search_len s t dir name n).
  rewrite (bind_Ret _ _ s z s) by (unfold get_zone; rewrite (bind_Ret _ _ _ _ _ (getino_at dir s x Hdir)); by apply deref_run).
  rewrite (proj2 (Z.eqb_neq z 0)) by done. rewrite (bind_Ret _ _ _ _ _ (getino_at dir s x Hdir)).
  by rewrite (bind_Ret _ _ _ _ _ (bread_held Hfuel s _ _ b0 v0 Hinv Hh)).
Qed.
End Call.

(** C12: a directory is a list of entries.  [find_entry] of a name (its first 14
    characters) in a directory whose blocks are in the cache finds the first entry in use that spells it,
    unused entries and holes passed over: it returns the buffer and the place of this
    entry, with this buffer taken and nothing else changed, and the number read there is
    that of the entry; if there is none it says so and gives back every buffer.  [..] in the
    root of the task means [.]; crossing a mounted root is left aside. *)
Theorem find_entry_correct {E : Env} (s : kst) (dir : nat) (x : m_inode) (t : task_struct) (name n z : Z)
  (Hfuel : env_fuel <> 0%nat) (Hinv : cache_inv s) (Hwait : buffer_wait (fsys s) = None) (Hdir : inode_table (fsys s) !! dir = Some x)
  (Htask : tmem (sched s) !! current (sched s) = Some t) (Hn : 0 < n)
  (Hroot : name_at s name n = [DOT; DOT] -> t_root t = Some dir \/ i_num x <> ROOT_INO)
  (Hfirst : i_zone x !! 0%nat = Some z) (Hz : z <> 0)
  (Hblocks : forall k, 0 <= k -> 64 * k < Z.max 1 (entries_of x) -> is_Some (file_block (fsys s) x k)) :
  match dir_lookup (fsys s) x (search_name s t dir name n) with
  | Some j => exists b d, entry_buf (fsys s) x j = Some b /\ file_block (fsys s) x (j / 64) = Some d /\
      find_entry dir name n s = Ret (dir, Some (b, entry_off j)) (taken b s) /\
      get_de_inode b (entry_off j) (taken b s) = Ret (get16 d (entry_off j)) (taken b s)
  | None => find_entry dir name n s = Ret (dir, None) s
  end.
Proof.
  destruct (first_block_held (fsys s) x z Hfirst Hz (Hblocks 0 ltac:(lia) ltac:(lia))) as (b0 & v0 & Hh).
  rewrite (find_entry_scan s dir x t name n z b0 v0) by done. rewrite search_name_len. pose proof (search_len_range s t dir name n Hn) as Hw.
  set (w := search_len s t dir name n) in *.
  destruct (entry_loop Hfuel s dir x w name Hinv Hwait Hdir Hw ltac:(intros; apply Hblocks; lia) (S (Z.to_nat (entries_of x))) 0 (Some b0) 0%nat
    (taken b0 s)) as (o & Hin & Hfound); [done| |lia|].
  { split; [done|]. left. split; [done|]. by exists z, v0. }
  rewrite (first_in_unique _ _ _ _ _ (dir_lookup_first (fsys s) x (name_at s name w)) Hin).
  destruct o as [j|]; [|by rewrite (bind_Ret _ _ _ _ _ Hfound)]. destruct Hfound as (b & Hb & Hloop).
  destruct (entry_buf_data _ _ _ _ _ (proj1 (proj2 Hin)) Hb) as (v & Hv & Hd). exists b, (b_data v).
  split; [done|]. split; [done|]. split; [by rewrite (bind_Ret _ _ _ _ _ Hloop)|].
  unfold get_de_inode. assert (bufs (fsys (taken b s)) !! b = Some (counted 1 v)) as Ht by (by rewrite taken_lookup, Hv).
  by rewrite (bind_Ret _ _ _ _ _ (getbh_at b _ _ Ht)).
Qed.

(** a directory with a removed entry before "etc"; its second block is a hole *)
Definition dirent (nr : Z) (nm : list Z) : list Z := le16 nr ++ take 14 (nm ++ replicate 14 0).
Definition etc : list Z := [101; 116; 99].
Definition etc_data : list Z :=
  dirent 1 [46] ++ dirent 1 [46; 46] ++ dirent 0 etc ++ dirent 9 etc ++ dirent 8 [101; 116] ++ replicate 944 0.
Definition small_dir : m_inode :=
  zero_inode <| i_mode := 0x41ED |> <| i_size := 2048 |> <| i_dev := 0x301 |> <| i_num := 1 |> <| i_nlinks := 2 |> <| i_count := 1 |>
    <| i_zone := [5; 0; 0; 0; 0; 0; 0; 0; 0] |>.
Definition dir_kst : kst := load (fun _ => etc_data) small_dir zero_file (put_bytes_at 100 etc ∅) two_bufs.
Lemma find_entry_correct_witness : dir_lookup (fsys dir_kst) small_dir etc = Some 3 /\
  exists b, @find_entry (quiet_env 3) 3 100 3 dir_kst = Ret (3%nat, Some (b, 48%nat)) (taken b dir_kst) /\
    get_de_inode b 48 (taken b dir_kst) = Ret 9 (taken b dir_kst).
Proof.
  assert (dir_lookup (fsys dir_kst) small_dir etc = Some 3) as Hl by (vm_compute; reflexivity). split; [exact Hl|].
  assert (search_name dir_kst INIT_TASK 3 100 3 = etc) as Hs by (vm_compute; reflexivity).
  assert (exists d, file_block (fsys dir_kst) small_dir 0 = Some d /\ get16 d 48 = 9) as (d & Hd & Hd9)
    by (eexists; split; [vm_compute; reflexivity|vm_compute; reflexivity]).
  pose proof (@find_entry_correct (quiet_env 3) dir_kst 3 small_dir INIT_TASK 100 3 5) as H. rewrite Hs, Hl in H.
  destruct H as (b & d' & _ & Hd' & Hrun & Hde).
  - discriminate.
  - by apply load_inv, two_bufs_inv.
  - vm_compute. reflexivity.
  - vm_compute. reflexivity.
  - vm_compute. reflexivity.
  - reflexivity.
  - intros Hx. exfalso. revert Hx. vm_compute. discriminate.
  - reflexivity.
  - discriminate.
  - intros k Hk Hk2. change (entries_of small_dir) with 128 in Hk2. assert (k = 0 \/ k = 1) as [-> | ->] by lia; vm_compute; by eexists.
  - change (3 / 64) with 0 in Hd'. rewrite Hd in Hd'. injection Hd' as <-. exists b. split; [exact Hrun|].
    change (entry_off 3) with 48%nat in Hde. rewrite Hd9 in Hde. exact Hde.
Defined.
