(* ===== verification/Exec.v ===== *)
(** * fs/exec.cc: [execve]

    The strings of the new program are collected in up to 32 pages ([page], by
    address, 0 when absent) from the top down; [p] is the place reached.  The
    current data segment [umem] is replaced when the pages are mapped. *)

From S2P Require Import Prelude State Segment Memory Sched Request LlRw Buffer Bitmap Inode Namei TtyQueue Super Open Exit Fork Console Tty TtyIoctl ReadWrite.

Definition MAX_ARG_PAGES : nat := 32.

(** ** include/a.out.h: [struct exec] *)
Record exec : Type := mk_exec {
  a_magic : Z; a_text : Z; a_data : Z; a_bss : Z; a_syms : Z; a_entry : Z; a_trsize : Z; a_drsize : Z
}.
Definition ZMAGIC : Z := 0x10B.       (* octal 0413 *)
Definition SEGMENT_SIZE : Z := 1024.
Definition EXEC_SIZE : Z := 32.
Definition N_TXTOFF (x : exec) : Z :=
  if a_magic x =? ZMAGIC then SEGMENT_SIZE - EXEC_SIZE + EXEC_SIZE else EXEC_SIZE.
Definition exec_header (l : list Z) : exec :=
  mk_exec (get32 l 0) (get32 l 4) (get32 l 8) (get32 l 12) (get32 l 16) (get32 l 20) (get32 l 24) (get32 l 28).

(** ** The first line of a script *)
Fixpoint until (stop : Z -> bool) (l : list Z) : list Z :=
  match l with [] => [] | c :: l => if stop c then [] else c :: until stop l end.
Fixpoint skip (drop_ : Z -> bool) (l : list Z) : list Z :=
  match l with [] => [] | c :: l' => if drop_ c then skip drop_ l' else l end.
Definition is_blank (c : Z) : bool := (c =? 0x20) || (c =? 0x09).
(** the part after the last slash *)
Fixpoint after_slash (name rest : list Z) : list Z :=
  match rest with [] => name | c :: rest => after_slash (if c =? SLASH then rest else name) rest end.

(** [strncpy(buf, bh->b_data+2, 1022)] and the scan: interpreter, its last
    component, argument; [None] when there is no interpreter name *)
Definition parse_bang (data : list Z) : option (list Z * list Z * option (list Z)) :=
  let buf := until (Z.eqb 0) (sublist data 2 1022) in
  let line := until (Z.eqb 0x0A) buf in
  if (length line =? length buf)%nat then None else
  let cp := skip is_blank line in
  if (length cp =? 0)%nat then None else
  let interp := until is_blank cp in
  let rest := drop (length interp) cp in
  Some (interp, after_slash interp interp, match rest with [] => None | _ :: arg => Some arg end).

(** where [copy_strings] finds the strings: a vector in user memory, user
    strings named by the kernel ([from_kmem == 1]), kernel strings ([from_kmem == 2]) *)
Inductive arg_source : Type :=
| UserArgv (argv : Z) | UserStrings (l : list Z) | KernelStrings (l : list (list Z)).

Section Exec.
Context {E : Env}.

(** [set_fs(get_ds())]: the string is at address 0 of what [fs] selects *)
Definition with_kernel_string {A} (s : list Z) (m : Z -> K A) : K A :=
  old ← gets umem;
  modify (fun k => k <| umem := list_to_map (imap (fun i c => (Z.of_nat i, c)) (s ++ [0])) |>) ;;
  r ← m 0;
  modify (fun k => k <| umem := old |>) ;;
  mret r.

(** a string with its terminating 0 *)
Definition user_string (a : Z) : K (list Z) :=
  loop env_fuel (fun l =>
    c ← get_fs_byte (a + Z.of_nat (length l));
    mret (if c =? 0 then inr (l ++ [c]) else inl (l ++ [c]))) [].
Definition fetch_arg (src : arg_source) (k : nat) : K (list Z) :=
  match src with
  | UserArgv argv =>
      tmp ← get_fs_long (argv + 4 * Z.of_nat k);
      if tmp =? 0 then panic "argc is wrong" else user_string tmp
  | UserStrings l =>
      tmp ← deref (l !! k);
      if tmp =? 0 then panic "argc is wrong" else user_string tmp
  | KernelStrings l => s ← deref (l !! k); mret (s ++ [0])
  end.

Definition count (argv : Z) : K Z :=
  if argv =? 0 then mret 0 else
  loop env_fuel (fun i => v ← get_fs_long (argv + 4 * i); mret (if v =? 0 then inr i else inl (i + 1))) 0.

(** the pages, the place, and the page and offset written last *)
Record arg_area : Type := mk_area { ar_page : list Z; ar_p : Z; ar_pag : Z; ar_offset : Z }.

(** one byte, below the last one: [None] when there is no page for it *)
Definition put_arg_byte (a : arg_area) (c : Z) : K (option arg_area) :=
  let p := u32 (ar_p a - 1) in
  let offset := ar_offset a - 1 in
  '(a, ok) ← (if offset <? 0 then
      let k := Z.to_nat (p / PAGE_SIZE) in
      pag ← deref (ar_page a !! k);
      pag ← (if pag =? 0 then zoom_mm get_free_page else mret pag);
      mret (mk_area (<[k := pag]> (ar_page a)) p pag (p mod PAGE_SIZE), negb (pag =? 0))
    else mret (mk_area (ar_page a) p (ar_pag a) offset, true));
  if negb ok then mret None else
  zoom_mm (store_byte (ar_pag a + ar_offset a) c) ;; mret (Some a).

(** the strings from the last to the first, each from its end: the pages and
    the new place, 0 when memory runs out *)
Definition copy_strings (argc : nat) (src : arg_source) (page : list Z) (p : Z) : K (list Z * Z) :=
  if p =? 0 then mret (page, 0) else
  '(a, ok) ← for_fold (rev (seq 0 argc)) (mk_area page p 0 0, true) (fun '(a, ok) k =>
    if negb ok then mret (a, ok) else
    s ← fetch_arg src k;
    for_fold (rev s) (a, true) (fun '(a, ok) c =>
      if negb ok then mret (a, ok) else
      o ← put_arg_byte a c;
      mret (match o with Some a => (a, true) | None => (a, false) end)));
  mret (ar_page a, if ok : bool then ar_p a else 0).

(** the argument pages as the new data segment sees them *)
Definition map_args (page : list Z) (base : Z) (m : gmap Z Z) : gmap Z Z :=
  list_to_map (imap pair page ≫= (fun '(i, pg) =>
    if pg =? 0 then [] else
    (fun k => let a := pg + Z.of_nat k in
              (base + PAGE_SIZE * Z.of_nat i + Z.of_nat k, byte_of (default 0 (m !! (a - a mod 4))) (a mod 4)))
      <$> seq 0 4096)).

Definition change_ldt (text_size : Z) (page : list Z) : K Z :=
  let code_limit := Z.land (u32 (text_size + PAGE_SIZE - 1)) 0xFFFFF000 in
  let data_limit := 0x4000000 in
  d ← my_ldt 1;
  let base := get_base d in
  setme (fun t => t <| t_ldt ::= fun l =>
    alter (fun d => set_limit data_limit (set_base base d)) 2%nat
      (alter (fun d => set_limit code_limit (set_base base d)) 1%nat l) |>) ;;
  for_each (rev (imap pair page)) (fun '(i, pg) =>
    when (nz pg)
      (_ ← put_page pg (u32 (base + data_limit - PAGE_SIZE * (Z.of_nat MAX_ARG_PAGES - Z.of_nat i))); mret tt)) ;;
  modify (fun s => s <| umem := map_args page (data_limit - PAGE_SIZE * Z.of_nat MAX_ARG_PAGES) (phys (mm s)) |>) ;;
  mret data_limit.

(** pointers to [n] strings from [p] on, at [v], and a 0 *)
Definition put_vector (n : nat) (v p : Z) : K Z :=
  '(v, p) ← for_fold (seq 0 n) (v, p) (fun '(v, p) _ =>
    put_fs_long p v ;;
    s ← user_string p;
    mret (v + 4, p + Z.of_nat (length s)));
  put_fs_long 0 v ;; mret p.
Definition create_tables (p : Z) (argc envc : Z) : K Z :=
  let sp := Z.land 0xfffffffc p in
  let envp := u32 (sp - 4 * (envc + 1)) in
  let argv := u32 (envp - 4 * (argc + 1)) in
  put_fs_long envp (argv - 4) ;;
  put_fs_long argv (argv - 8) ;;
  put_fs_long argc (argv - 12) ;;
  p ← put_vector (Z.to_nat argc) argv p;
  _ ← put_vector (Z.to_nat envc) envp p;
  mret (u32 (argv - 12)).

(** the file may be executed by the current task *)
Definition may_exec (x : m_inode) (t : task_struct) : bool :=
  let i := if t_euid t =? i_uid x then Z.shiftr (i_mode x) 6
           else if t_egid t =? i_gid x then Z.shiftr (i_mode x) 3 else i_mode x in
  nz (Z.land i 1) || (nz (Z.land (i_mode x) 0x49) && (t_euid t =? 0)).     (* octal 0111 *)

Definition exec_error1 (page : list Z) (retval : Z) : K (Z + unit) :=
  for_each page (fun pg => zoom_mm (free_page pg)) ;; mret (inl retval).
Definition exec_error2 (inode : nat) (page : list Z) (retval : Z) : K (Z + unit) :=
  iput (Some inode) ;; exec_error1 page retval.

(** what [restart_interp] works on *)
Record exec_args : Type := mk_exec_args {
  ex_inode : nat; ex_bang : bool; ex_page : list Z; ex_p : Z; ex_argc : Z
}.

(** the interpreter of a script, with the arguments spliced in front *)
Definition run_script (a : exec_args) (data : list Z) (filename argv envp envc : Z) : K (exec_args + Z * list Z) :=
  match parse_bang data with
  | None => mret (inr (- ENOEXEC, ex_page a))
  | Some (interp, i_name, i_arg) =>
      '(page, p) ← copy_strings (Z.to_nat envc) (UserArgv envp) (ex_page a) (ex_p a);
      let argc := ex_argc a - 1 in
      '(page, p) ← copy_strings (Z.to_nat argc) (UserArgv (argv + 4)) page p;
      '(page, p) ← copy_strings 1 (UserStrings [filename]) page p;
      let argc := argc + 1 in
      '(page, p, argc) ← match i_arg with
        | Some arg => '(page, p) ← copy_strings 1 (KernelStrings [arg]) page p; mret (page, p, argc + 1)
        | None => mret (page, p, argc)
        end;
      '(page, p) ← copy_strings 1 (KernelStrings [i_name]) page p;
      let argc := argc + 1 in
      if p =? 0 then mret (inr (- ENOMEM, page)) else
      o ← with_kernel_string interp namei;
      match o with
      | None => mret (inr (- ENOENT, page))
      | Some i => mret (inl (mk_exec_args i true page p argc))
      end
  end.

(** the point of no return: the old program is replaced.  New [eip] and [esp] *)
Definition commit_exec (a : exec_args) (ex : exec) (e_uid e_gid envc : Z) : K (Z * Z) :=
  t ← me;
  iput (t_executable t) ;;
  setme (fun t => t <| t_executable := Some (ex_inode a) |>
                    <| t_sigaction ::= fmap (fun s => s <| sa_handler := 0 |>) |>) ;;
  for_each (seq 0 NR_OPEN) (fun i =>
    t ← me;
    when (Z.testbit (t_close_on_exec t) (Z.of_nat i)) (_ ← sys_close (Z.of_nat i); mret tt)) ;;
  setme (fun t => t <| t_close_on_exec := 0 |>) ;;
  free_segment 1 ;; free_segment 2 ;;
  s ← gets sched;
  when (bool_decide (last_task_used_math s = Some (current s)))
    (on_sched (fun s => s <| last_task_used_math := None |>)) ;;
  setme (fun t => t <| t_used_math := 0 |>) ;;
  l ← change_ldt (a_text ex) (ex_page a);
  let p := u32 (ex_p a + l - Z.of_nat MAX_ARG_PAGES * PAGE_SIZE) in
  p ← create_tables p (ex_argc a) envc;
  setme (fun t => t <| t_end_code := a_text ex |> <| t_end_data := u32 (a_data ex + a_text ex) |>
    <| t_brk := u32 (a_bss ex + u32 (a_data ex + a_text ex)) |> <| t_start_stack := Z.land p 0xfffff000 |>
    <| t_euid := u16 e_uid |> <| t_egid := u16 e_gid |>) ;;
  let i := s32 (a_text ex + a_data ex) in
  for_each (seq 0 (Z.to_nat (Z.land (- i) 0xfff))) (fun k => put_fs_byte 0 (i + Z.of_nat k)) ;;
  mret (a_entry ex, p).

(** the checks of the header of a binary *)
Definition bad_header (ex : exec) (x : m_inode) : bool :=
  negb (a_magic ex =? ZMAGIC) || nz (a_trsize ex) || nz (a_drsize ex) ||
  (0x3000000 <? u32 (a_text ex + a_data ex + a_bss ex)) ||
  (i_size x <? u32 (a_text ex + a_data ex + a_syms ex + N_TXTOFF ex)).

(** one pass from [restart_interp:] on: start again with the interpreter, the
    error and what to release, or the result *)
Definition exec_step (filename argv envp envc : Z) (a : exec_args) : K (exec_args + (Z + Z * Z)) :=
  let error2 e := r ← exec_error2 (ex_inode a) (ex_page a) (- e); mret (inr (inl (- e))) in
  x ← getino (ex_inode a); t ← me;
  if negb (S_ISREG (i_mode x)) then error2 EACCES else
  let e_uid := if nz (Z.land (i_mode x) S_ISUID) then i_uid x else t_euid t in
  let e_gid := if nz (Z.land (i_mode x) S_ISGID) then i_gid x else t_egid t in
  if negb (may_exec x t) then error2 ENOEXEC else
  z ← get_zone (ex_inode a) 0;
  o ← bread (i_dev x) z;
  match o with
  | None => error2 EACCES
  | Some b =>
      y ← getbh b;
      let ex := exec_header (b_data y) in
      if (get8 (b_data y) 0 =? 0x23) && (get8 (b_data y) 1 =? 0x21) && negb (ex_bang a) then
        brelse (Some b) ;; iput (Some (ex_inode a)) ;;
        r ← run_script a (b_data y) filename argv envp envc;
        match r with
        | inl a => mret (inl a)
        | inr (e, page) => _ ← exec_error1 page e; mret (inr (inl e))
        end
      else
      brelse (Some b) ;;
      x ← getino (ex_inode a);
      if bad_header ex x then error2 ENOEXEC else
      if negb (N_TXTOFF ex =? BLOCK_SIZE) then
        printk "%s: N_TXTOFF != BLOCK_SIZE. See a.out.h." [] ;; error2 ENOEXEC
      else
      '(page, p) ← (if ex_bang a then mret (ex_page a, ex_p a) else
        '(page, p) ← copy_strings (Z.to_nat envc) (UserArgv envp) (ex_page a) (ex_p a);
        copy_strings (Z.to_nat (ex_argc a)) (UserArgv argv) page p);
      let a := mk_exec_args (ex_inode a) (ex_bang a) page p (ex_argc a) in
      if negb (ex_bang a) && (p =? 0) then
        _ ← exec_error2 (ex_inode a) page (- ENOMEM); mret (inr (inl (- ENOMEM)))
      else
      r ← commit_exec a ex e_uid e_gid envc; mret (inr (inr r))
  end.

(** [cs] is [eip[1]] of the caller; the result is an error or the new [eip] and [esp] *)
Definition do_execve (cs filename argv envp : Z) : K (Z + Z * Z) :=
  if negb (Z.land 0xffff cs =? 0x000f) then panic "execve called from supervisor mode" else
  o ← namei filename;
  match o with
  | None => mret (inl (- ENOENT))
  | Some i =>
      argc ← count argv;
      envc ← count envp;
      loop 3 (exec_step filename argv envp envc)
        (mk_exec_args i false (replicate MAX_ARG_PAGES 0) (PAGE_SIZE * Z.of_nat MAX_ARG_PAGES - 4) argc)
  end.
End Exec.
