(* ===== verification/ExecFacts.v ===== *)
(** * fs/exec.cc: a new program finds its arguments

    [copy_strings] collects the strings of the arguments in pages of their own,
    from the top down and byte by byte; [map_args] is what the new program sees of these pages, and
    [create_tables] puts the vectors of pointers below the strings. *)

From S2P Require Import Prelude Bits State Segment Memory MemoryFacts.
From S2P Require Import Sched ReadWrite PipeFacts Exec.

(** ** Pages and bytes *)
Definition used_page (m : mm_st) (pg : Z) : Prop :=
  exists i c, pg = LOW_MEM + 4096 * Z.of_nat i /\ mem_map m !! i = Some c /\ c <> 0.
Lemma used_page_apart m p q a b : used_page m p -> used_page m q -> p <> q -> 0 <= a < 4096 -> 0 <= b < 4096 -> p + a <> q + b.
Proof. intros (i & _ & -> & _) (j & _ & -> & _) Hne Ha Hb Heq. apply Hne. assert (i = j) as -> by lia. done. Qed.
Lemma used_page_pos m p : used_page m p -> 0 < p /\ p mod 4 = 0.
Proof.
  intros (i & _ & -> & _). unfold LOW_MEM. split; [lia|].
  replace (0x100000 + 4096 * Z.of_nat i) with ((262144 + 1024 * Z.of_nat i) * 4) by lia. by apply Z_mod_mult.
Qed.

(** a fresh page: zeros, and the bytes of the other pages are as they were *)
Lemma fresh_bytes m m' i q o : used_page m q -> 0 <= o < 4096 -> mem_map m !! i = Some 0 ->
  (forall a, word m' a = if decide (in_page (LOW_MEM + 4096 * Z.of_nat i) a) then 0 else word m a) -> mem_byte m' (q + o) = mem_byte m (q + o).
Proof.
  intros (j & c & -> & Hj & Hc) Ho Hi Hw. unfold mem_byte. rewrite Hw, decide_False; [done|].
  intros (k & Hk%page_words_range & Heq). pose proof (Z.mod_pos_bound (LOW_MEM + 4096 * Z.of_nat j + o) 4 ltac:(lia)).
  assert (i = j) as -> by lia. congruence.
Qed.

(** the bytes [B] are in the area from its place on *)
Record arg_inv (m : mm_st) (a : arg_area) (B : list Z) : Prop := {
  ai_len : length (ar_page a) = MAX_ARG_PAGES;
  ai_map : length (mem_map m) = PAGING_PAGES;
  ai_pages : forall k pg, ar_page a !! k = Some pg -> pg <> 0 -> used_page m pg;
  ai_inj : forall j k pg, ar_page a !! j = Some pg -> ar_page a !! k = Some pg -> pg <> 0 -> j = k;
  ai_p : 0 <= ar_p a /\ ar_p a + Z.of_nat (length B) <= 131072;
  ai_bytes : forall k c, B !! k = Some c -> exists pg, ar_page a !! Z.to_nat ((ar_p a + Z.of_nat k) / 4096) = Some pg /\
    pg <> 0 /\ mem_byte m (pg + (ar_p a + Z.of_nat k) mod 4096) = c;
  ai_last : ar_offset a = 0 \/ (ar_page a !! Z.to_nat (ar_p a / 4096) = Some (ar_pag a) /\ ar_pag a <> 0 /\ ar_offset a = ar_p a mod 4096)
}.
(** memory has run out *)
Definition no_free_page (m : mm_st) : Prop := Forall (fun c => c <> 0) (mem_map m).

Lemma store_byte_run a v m :
  store_byte a v m = Ret tt (m <| phys ::= insert (a - a mod 4) (set_byte (a mod 4) v (word m (a - a mod 4))) |>).
Proof. done. Qed.

(** a byte below the others, in a page that is there *)
Lemma arg_inv_put m page p pag c B : 1 <= p -> length page = MAX_ARG_PAGES -> length (mem_map m) = PAGING_PAGES ->
  (forall k pg, page !! k = Some pg -> pg <> 0 -> used_page m pg) ->
  (forall j k pg, page !! j = Some pg -> page !! k = Some pg -> pg <> 0 -> j = k) -> p + Z.of_nat (length B) <= 131072 ->
  (forall k c, B !! k = Some c -> exists pg, page !! Z.to_nat ((p + Z.of_nat k) / 4096) = Some pg /\ pg <> 0 /\ mem_byte m (pg + (p + Z.of_nat k) mod 4096) = c) ->
  page !! Z.to_nat ((p - 1) / 4096) = Some pag -> pag <> 0 ->
  let a := pag + (p - 1) mod 4096 in
  arg_inv (m <| phys ::= insert (a - a mod 4) (set_byte (a mod 4) c (word m (a - a mod 4))) |>)
    (mk_area page (p - 1) pag ((p - 1) mod 4096)) (u8 c :: B).
Proof.
  intros Hp Hlen Hmap Hpages Hinj Hmax HB Hpag Hpag0 a. pose proof (Z.mod_pos_bound (p - 1) 4096 ltac:(lia)) as Ho.
  split; cbn [ar_page ar_p ar_pag ar_offset length]; [done|done|done|done|lia| |by right].
  intros k v Hk. destruct k as [|k].
  - injection Hk as <-. exists pag. rewrite Z.add_0_r. split; [done|]. split; [done|]. fold a. rewrite (mem_byte_store m a c a). by rewrite decide_True.
  - cbn in Hk. destruct (HB k v Hk) as (pg & Hpg & Hpg0 & Hb). replace (p - 1 + Z.of_nat (S k)) with (p + Z.of_nat k) by lia.
    exists pg. split; [done|]. split; [done|]. pose proof (Z.mod_pos_bound (p + Z.of_nat k) 4096 ltac:(lia)) as Ho2.
    rewrite (mem_byte_store m a c). rewrite decide_False; [done|]. unfold a. intros Heq.
    destruct (decide (pg = pag)) as [->|Hne].
    + pose proof (Hinj _ _ _ Hpg Hpag Hpag0) as Hi.
      pose proof (Z.div_mod (p + Z.of_nat k) 4096 ltac:(lia)). pose proof (Z.div_mod (p - 1) 4096 ltac:(lia)).
      pose proof (Z.div_pos (p + Z.of_nat k) 4096 ltac:(lia) ltac:(lia)). pose proof (Z.div_pos (p - 1) 4096 ltac:(lia) ltac:(lia)). lia.
    + exact (used_page_apart m pg pag _ _ (Hpages _ _ Hpg Hpg0) (Hpages _ _ Hpag Hpag0) Hne Ho2 Ho Heq).
Qed.

(** ... or in a page just taken *)
Lemma arg_inv_fresh m m' a B c i : arg_inv m a B -> 1 <= ar_p a -> ar_page a !! Z.to_nat ((ar_p a - 1) / 4096) = Some 0 ->
  mem_map m !! i = Some 0 -> mem_map m' = <[i := 1]> (mem_map m) ->
  (forall x, word m' x = if decide (in_page (LOW_MEM + 4096 * Z.of_nat i) x) then 0 else word m x) ->
  let t := LOW_MEM + 4096 * Z.of_nat i in let x := t + (ar_p a - 1) mod 4096 in
  arg_inv (m' <| phys ::= insert (x - x mod 4) (set_byte (x mod 4) c (word m' (x - x mod 4))) |>)
    (mk_area (<[Z.to_nat ((ar_p a - 1) / 4096) := t]> (ar_page a)) (ar_p a - 1) t ((ar_p a - 1) mod 4096)) (u8 c :: B).
Proof.
  intros [Hlen Hmap Hpages Hinj [Hp Hmax] HB _] Hp1 Hpg Hi Hm Hw t. assert (t <> 0) as Ht by (unfold t, LOW_MEM; lia).
  assert (used_page m' t) as Htused.
  { exists i, 1. split; [done|]. split; [|done]. rewrite Hm. apply list_lookup_insert_eq. by eapply lookup_lt_Some. }
  assert (forall q, used_page m q -> used_page m' q) as Hkeep.
  { intros q (j & v & -> & Hj & Hv). destruct (decide (j = i)) as [->|]; [congruence|]. exists j, v. split; [done|]. split; [|done].
    rewrite Hm. by rewrite list_lookup_insert_ne. }
  assert (forall j q, ar_page a !! j = Some q -> q <> 0 -> q <> t) as Hnew.
  { intros j q Hq Hq0 ->. destruct (Hpages _ _ Hq Hq0) as (i' & v & Heq & Hi' & Hv). assert (i' = i) as -> by (unfold t in Heq; lia). congruence. }
  apply arg_inv_put; [lia|by rewrite length_insert|by rewrite Hm, length_insert| | |lia| |by apply list_lookup_insert_eq; eapply lookup_lt_Some|done].
  - intros j q Hq Hq0. apply list_lookup_insert_Some in Hq as [(_ & <- & _)|[_ Hq]]; [done|by apply Hkeep, (Hpages j)].
  - intros j j' q Hq Hq' Hq0. apply list_lookup_insert_Some in Hq as [(<- & <- & _)|[Hj Hq]];
      apply list_lookup_insert_Some in Hq' as [(<- & Heq & _)|[Hj' Hq']]; try done.
    + by apply Hnew in Hq'.
    + by subst q; apply Hnew in Hq.
    + by apply (Hinj _ _ q).
  - intros j v Hj. destruct (HB j v Hj) as (q & Hq & Hq0 & Hb). exists q.
    pose proof (Z.mod_pos_bound (ar_p a + Z.of_nat j) 4096 ltac:(lia)).
    split; [|split; [done|]].
    + rewrite list_lookup_insert_ne; [done|]. intros Heq. rewrite <- Heq in Hq. by rewrite Hpg in Hq; injection Hq as <-.
    + rewrite (fresh_bytes m m' i q); [done|by apply (Hpages _ _ Hq)|lia|done|done].
Qed.

Definition with_mm (s : kst) (m : mm_st) : kst := s <| mm := m |>.

Section Put.
Context {E : Env}.

Lemma zoom_store s a v : zoom_mm (store_byte a v) s =
  Ret tt (with_mm s ((mm s) <| phys ::= insert (a - a mod 4) (set_byte (a mod 4) v (word (mm s) (a - a mod 4))) |>)).
Proof. done. Qed.
Lemma zoom_mm_run {A} (m : M mm_st A) s v m' : m (mm s) = Ret v m' -> zoom_mm m s = Ret v (with_mm s m').
Proof. intros H. unfold zoom_mm, zoom. by rewrite H. Qed.

Lemma put_arg_byte_run s a c B : arg_inv (mm s) a B -> 1 <= ar_p a ->
  (exists a' m', put_arg_byte a c s = Ret (Some a') (with_mm s m') /\ arg_inv m' a' (u8 c :: B) /\ ar_p a' = ar_p a - 1) \/
  (exists m', put_arg_byte a c s = Ret None (with_mm s m') /\ no_free_page m').
Proof.
  intros [Hlen Hmap Hpages Hinj [Hp Hmax] HB Hlast] Hp1. unfold put_arg_byte. cbv zeta.
  rewrite u32_id by lia. pose proof (Z.mod_pos_bound (ar_p a - 1) 4096 ltac:(lia)) as Ho. pose proof (Z.mod_pos_bound (ar_p a) 4096 ltac:(lia)) as Ho'.
  pose proof (Z.div_mod (ar_p a - 1) 4096 ltac:(lia)) as Hdm. pose proof (Z.div_mod (ar_p a) 4096 ltac:(lia)) as Hdm'.
  destruct (Z.ltb_spec (ar_offset a - 1) 0) as [Hoff|Hoff].
  - change PAGE_SIZE with 4096. set (k := Z.to_nat ((ar_p a - 1) / 4096)).
    assert (k < length (ar_page a))%nat as Hk by (unfold k; rewrite Hlen; unfold MAX_ARG_PAGES; lia).
    destruct (lookup_lt_is_Some_2 _ _ Hk) as [pg Hpg].
    destruct (Z.eqb_spec pg 0) as [->|Hpg0].
    + destruct (get_free_page_spec (mm s) Hmap) as [[Hall Hrun]|(i & m' & Hi & _ & Hrun & Hm & _ & _ & Hw)].
      * right. exists ((mm s) <| df := true |>). split; [|exact Hall].
        rewrite (bind_Ret _ _ s (mk_area (<[k := 0]> (ar_page a)) (ar_p a - 1) 0 ((ar_p a - 1) mod 4096), false) (with_mm s ((mm s) <| df := true |>))); [done|].
        rewrite (bind_Ret _ _ _ _ _ (deref_run _ _ s Hpg)). by rewrite (bind_Ret _ _ _ _ _ (zoom_mm_run _ s _ _ Hrun)).
      * left. pose proof (arg_inv_fresh (mm s) m' a B c i ltac:(by split) Hp1 Hpg Hi Hm Hw) as Hinv. cbv zeta in Hinv. fold k in Hinv.
        set (t := LOW_MEM + 4096 * Z.of_nat i) in *. do 2 eexists. split; [|split; [exact Hinv|done]].
        rewrite (bind_Ret _ _ s (mk_area (<[k := t]> (ar_page a)) (ar_p a - 1) t ((ar_p a - 1) mod 4096), true) (with_mm s m')).
        { cbn [negb]. rewrite (bind_Ret _ _ _ _ _ (zoom_store _ _ c)). reflexivity. }
        rewrite (bind_Ret _ _ _ _ _ (deref_run _ _ s Hpg)). rewrite (bind_Ret _ _ _ _ _ (zoom_mm_run _ s _ _ Hrun)).
        by rewrite (proj2 (Z.eqb_neq t 0)) by (unfold t, LOW_MEM; lia).
    + left. do 2 eexists. split; [|split].
      * rewrite (bind_Ret _ _ s (mk_area (<[k := pg]> (ar_page a)) (ar_p a - 1) pg ((ar_p a - 1) mod 4096), true) s).
        { cbn [negb]. rewrite (bind_Ret _ _ _ _ _ (zoom_store _ _ c)). reflexivity. }
        rewrite (bind_Ret _ _ _ _ _ (deref_run _ _ s Hpg)). rewrite (proj2 (Z.eqb_neq pg 0)) by done.
        rewrite (bind_Ret _ _ s pg s) by done. by rewrite (proj2 (Z.eqb_neq pg 0)).
      * rewrite list_insert_id by done. cbn [ar_pag ar_offset]. by apply arg_inv_put.
      * done.
  - left. destruct Hlast as [H0|(Hpg & Hpg0 & Hoffset)]; [lia|].
    assert ((ar_p a - 1) / 4096 = ar_p a / 4096) as Hdiv by (symmetry; apply (Z.div_unique _ _ _ (ar_p a mod 4096 - 1)); lia).
    assert (ar_offset a - 1 = (ar_p a - 1) mod 4096) as -> by lia.
    do 2 eexists. split; [|split].
    + rewrite (bind_Ret _ _ s (mk_area (ar_page a) (ar_p a - 1) (ar_pag a) ((ar_p a - 1) mod 4096), true) s) by done. cbn [negb].
      rewrite (bind_Ret _ _ _ _ _ (zoom_store _ _ c)). reflexivity.
    + cbn [ar_pag ar_offset]. apply arg_inv_put; try done. by rewrite Hdiv.
    + done.
Qed.
End Put.

(** ** Strings of the old program *)
Definition fs_byte (u : gmap Z Z) (a : Z) : Z := default 0 (u !! u32 a).
Definition fs_long (u : gmap Z Z) (a : Z) : Z :=
  fs_byte u a + 2 ^ 8 * fs_byte u (a + 1) + 2 ^ 16 * fs_byte u (a + 2) + 2 ^ 24 * fs_byte u (a + 3).
Definition a_string (l : list Z) : Prop := Forall (fun c => 0 < c < 256) l.
(** with the 0 that ends it *)
Definition ended (l : list Z) : list Z := l ++ [0].
(** the string [l] is in memory at [a]; the vector [v] points to the strings [ss] *)
Definition string_at (u : gmap Z Z) (a : Z) (l : list Z) : Prop := forall k c, ended l !! k = Some c -> fs_byte u (a + Z.of_nat k) = c.
Definition vector_at (u : gmap Z Z) (v : Z) (ss : list (list Z)) : Prop :=
  forall k l, ss !! k = Some l -> fs_long u (v + 4 * Z.of_nat k) <> 0 /\ string_at u (fs_long u (v + 4 * Z.of_nat k)) l.

Lemma ended_bytes l : a_string l -> u8 <$> ended l = ended l.
Proof.
  intros H. unfold ended. rewrite fmap_app. f_equal. rewrite <- (list_fmap_id l) at 2. apply list_fmap_ext. intros i c Hc.
  unfold a_string in H. rewrite Forall_lookup in H. specialize (H i c Hc). cbn beta in H. change (u8 c = c). unfold u8. by rewrite Z.mod_small by lia.
Qed.

Section Strings.
Context {E : Env}.

Lemma get_fs_long_run a s : get_fs_long a s = Ret (fs_long (umem s) a) s.
Proof. done. Qed.
Lemma user_string_run a l s : a_string l -> string_at (umem s) a l -> (length l < env_fuel)%nat -> user_string a s = Ret (ended l) s.
Proof.
  intros Hl Hs Hf. unfold user_string.
  assert (forall l2 l1 n, l = l1 ++ l2 -> (length l2 < n)%nat ->
    loop n (fun l => c ← get_fs_byte (a + Z.of_nat (length l)); mret (if c =? 0 then inr (l ++ [c]) else inl (l ++ [c]))) l1 s = Ret (ended l) s) as H.
  { induction l2 as [|c l2 IH]; intros l1 [|n] Heq Hn; cbn in Hn; try lia; cbn [loop].
    - assert (fs_byte (umem s) (a + Z.of_nat (length l1)) = 0) as H0.
      { apply Hs. unfold ended. rewrite app_nil_r in Heq. subst l1. by rewrite lookup_app_r, Nat.sub_diag by lia. }
      rewrite (bind_Ret _ _ s (inr (ended l)) s); [done|].
      rewrite (bind_Ret _ _ s 0 s) by (unfold get_fs_byte, gets; f_equal; exact H0). by rewrite Heq, app_nil_r.
    - assert (fs_byte (umem s) (a + Z.of_nat (length l1)) = c) as H0.
      { apply Hs. unfold ended. rewrite Heq, <- app_assoc. by rewrite lookup_app_r, Nat.sub_diag by lia. }
      assert (c <> 0) as Hc0. { rewrite Heq in Hl. apply Forall_app in Hl as [_ Hl]. apply Forall_cons in Hl as [? _]. lia. }
      rewrite (bind_Ret _ _ s (inl (l1 ++ [c])) s).
      + apply IH; [by rewrite <- app_assoc|lia].
      + rewrite (bind_Ret _ _ s c s) by (unfold get_fs_byte, gets; f_equal; exact H0). by rewrite (proj2 (Z.eqb_neq c 0)). }
  by apply (H l [] env_fuel).
Qed.

(** ** The strings are copied *)
Abbreviation put_one := (fun '(a, ok) c =>
  if negb ok then mret (a, ok) else
  o ← put_arg_byte a c; mret (match o with Some a => (a, true) | None => (a, false) end)) (only parsing).

Lemma put_string_run l : forall s a B, arg_inv (mm s) a B -> Z.of_nat (length l) <= ar_p a ->
  (exists a' m', for_fold l (a, true) put_one s = Ret (a', true) (with_mm s m') /\ arg_inv m' a' ((u8 <$> rev l) ++ B) /\
     ar_p a' = ar_p a - Z.of_nat (length l)) \/
  (exists a' m', for_fold l (a, true) put_one s = Ret (a', false) (with_mm s m') /\ no_free_page m').
Proof.
  induction l as [|c l IH]; intros s a B Ha Hl; cbn [for_fold length] in *.
  - left. exists a, (mm s). split; [by destruct s|]. split; [exact Ha|lia].
  - cbn [negb]. destruct (put_arg_byte_run s a c B Ha ltac:(lia)) as [(a1 & m1 & Hrun & Ha1 & Hp1)|(m1 & Hrun & Hno)].
    + destruct (IH (with_mm s m1) a1 (u8 c :: B) Ha1 ltac:(lia)) as [(a2 & m2 & Hrun2 & Ha2 & Hp2)|(a2 & m2 & Hrun2 & Hno)].
      * left. exists a2, m2. split; [|split; [|lia]].
        -- rewrite (bind_Ret _ _ s (a1, true) (with_mm s m1)) by (by rewrite (bind_Ret _ _ _ _ _ Hrun)). exact Hrun2.
        -- cbn [rev]. rewrite fmap_app. cbn. by rewrite <- app_assoc.
      * right. exists a2, m2. split; [|done]. rewrite (bind_Ret _ _ s (a1, true) (with_mm s m1)) by (by rewrite (bind_Ret _ _ _ _ _ Hrun)). exact Hrun2.
    + right. exists a, m1. split; [|done]. rewrite (bind_Ret _ _ s (a, false) (with_mm s m1)) by (by rewrite (bind_Ret _ _ _ _ _ Hrun)).
      clear. induction l; cbn [for_fold]; [done|]. cbn [negb]. by rewrite (bind_Ret _ _ (with_mm s m1) (a, false) (with_mm s m1)).
Qed.

Lemma copy_loop_run src (str : nat -> list Z) ks : forall s a B,
  (forall k m, k ∈ ks -> fetch_arg src k (with_mm s m) = Ret (str k) (with_mm s m)) -> arg_inv (mm s) a B ->
  Z.of_nat (length (concat (str <$> ks))) <= ar_p a ->
  let run := for_fold ks (a, true) (fun '(a, ok) k =>
    if negb ok then mret (a, ok) else s ← fetch_arg src k; for_fold (rev s) (a, true) put_one) s in
  (exists a' m', run = Ret (a', true) (with_mm s m') /\ arg_inv m' a' ((u8 <$> concat (str <$> rev ks)) ++ B) /\
     ar_p a' = ar_p a - Z.of_nat (length (concat (str <$> ks)))) \/
  (exists a' m', run = Ret (a', false) (with_mm s m') /\ no_free_page m').
Proof.
  induction ks as [|k ks IH]; intros s a B Hfetch Ha Hl run; cbn [fmap list_fmap concat] in Hl; rewrite ?length_app in Hl; unfold run; cbn [for_fold].
  - left. exists a, (mm s). split; [by destruct s|]. split; [exact Ha|cbn; lia].
  - cbn [negb]. assert (fetch_arg src k s = Ret (str k) s) as Hk.
    { pose proof (Hfetch k (mm s) ltac:(set_solver)) as H. replace (with_mm s (mm s)) with s in H by (by destruct s). exact H. }
    destruct (put_string_run (rev (str k)) s a B Ha) as [(a1 & m1 & Hrun & Ha1 & Hp1)|(a1 & m1 & Hrun & Hno)]; [rewrite length_rev; lia| |].
    + rewrite rev_involutive in Ha1. rewrite length_rev in Hp1.
      destruct (IH (with_mm s m1) a1 _ (fun k m Hin => Hfetch k m ltac:(set_solver)) Ha1 ltac:(lia)) as [(a2 & m2 & Hrun2 & Ha2 & Hp2)|(a2 & m2 & Hrun2 & Hno)].
      * left. exists a2, m2. split; [|split].
        -- rewrite (bind_Ret _ _ s (a1, true) (with_mm s m1)) by (by rewrite (bind_Ret _ _ _ _ _ Hk)). exact Hrun2.
        -- cbn [rev]. rewrite fmap_app, concat_app, fmap_app. cbn. by rewrite app_nil_r, <- app_assoc.
        -- cbn [fmap list_fmap concat]. rewrite length_app. lia.
      * right. exists a2, m2. split; [|done]. rewrite (bind_Ret _ _ s (a1, true) (with_mm s m1)) by (by rewrite (bind_Ret _ _ _ _ _ Hk)). exact Hrun2.
    + right. exists a1, m1. split; [|done]. rewrite (bind_Ret _ _ s (a1, false) (with_mm s m1)) by (by rewrite (bind_Ret _ _ _ _ _ Hk)).
      clear. induction ks; cbn [for_fold]; [done|]. cbn [negb]. by rewrite (bind_Ret _ _ (with_mm s m1) (a1, false) (with_mm s m1)).
Qed.

Lemma fetch_vector s v ss k l m : vector_at (umem s) v ss -> ss !! k = Some l -> a_string l -> (length l < env_fuel)%nat ->
  fetch_arg (UserArgv v) k (with_mm s m) = Ret (ended l) (with_mm s m).
Proof.
  intros Hv Hk Hl Hf. destruct (Hv k l Hk) as [Hnz Hs]. unfold fetch_arg.
  rewrite (bind_Ret _ _ _ _ _ (get_fs_long_run _ (with_mm s m))). change (umem (with_mm s m)) with (umem s).
  rewrite (proj2 (Z.eqb_neq _ 0)) by done. by apply user_string_run.
Qed.

(** the strings of [ss], one after the other *)
Definition text (ss : list (list Z)) : list Z := concat (ended <$> ss).
Lemma text_app l1 l2 : text (l1 ++ l2) = text l1 ++ text l2.
Proof. unfold text. by rewrite fmap_app, concat_app. Qed.
Lemma text_bytes ss : Forall a_string ss -> u8 <$> text ss = text ss.
Proof.
  unfold text. induction 1 as [|l ss Hl _ IH]; [done|]. cbn. rewrite fmap_app. f_equal; [by apply ended_bytes|exact IH].
Qed.

Lemma copy_strings_run s v ss page p B : vector_at (umem s) v ss -> Forall a_string ss -> Forall (fun l => (length l < env_fuel)%nat) ss ->
  arg_inv (mm s) (mk_area page p 0 0) B -> Z.of_nat (length (text ss)) < p ->
  (exists page' m', copy_strings (length ss) (UserArgv v) page p s = Ret (page', p - Z.of_nat (length (text ss))) (with_mm s m') /\
     arg_inv m' (mk_area page' (p - Z.of_nat (length (text ss))) 0 0) (text ss ++ B)) \/
  (exists page' m', copy_strings (length ss) (UserArgv v) page p s = Ret (page', 0) (with_mm s m') /\ no_free_page m').
Proof.
  intros Hv Hss Hf Ha Hp. unfold copy_strings. rewrite (proj2 (Z.eqb_neq p 0)) by lia.
  set (str := fun k => default [] (ended <$> ss !! k)).
  assert (str <$> seq 0 (length ss) = ended <$> ss) as Hstr.
  { apply list_eq. intros k. rewrite !list_lookup_fmap. destruct (ss !! k) as [l|] eqn:Hk.
    - rewrite lookup_seq_lt by (by eapply lookup_lt_Some). cbn. unfold str. by rewrite Hk.
    - by rewrite lookup_seq_ge by (by apply lookup_ge_None). }
  assert (concat (str <$> rev (rev (seq 0 (length ss)))) = text ss) as Htext by (by rewrite rev_involutive, Hstr).
  assert (length (concat (str <$> rev (seq 0 (length ss)))) = length (text ss)) as Hlen.
  { rewrite <- Htext, rev_involutive. generalize (seq 0 (length ss)). intros ks. induction ks as [|k ks IH]; [done|].
    cbn [rev]. rewrite fmap_app, concat_app. cbn. rewrite app_nil_r, !length_app, IH. lia. }
  destruct (copy_loop_run (UserArgv v) str (rev (seq 0 (length ss))) s (mk_area page p 0 0) B) as [(a & m & Hrun & Ha' & Hp')|(a & m & Hrun & Hno)];
    [|done|cbn [ar_p]; lia| |].
  - intros k m Hk. rewrite list_elem_of_In, <- in_rev, in_seq in Hk. destruct (lookup_lt_is_Some_2 ss k ltac:(lia)) as [l Hl].
    unfold str. rewrite Hl. cbn. rewrite Forall_lookup in Hss, Hf. by apply (fetch_vector s v ss); [..|apply (Hss k)|apply (Hf k)].
  - left. exists (ar_page a), m. rewrite Htext, text_bytes in Ha' by done. rewrite Hlen in Hp'. cbn [ar_p] in Hp'. split.
    + rewrite (bind_Ret _ _ _ _ _ Hrun). unfold mret, M_ret. by rewrite Hp'.
    + destruct Ha'. rewrite <- Hp'. split; try done. by left.
  - right. exists (ar_page a), m. split; [|done]. by rewrite (bind_Ret _ _ _ _ _ Hrun).
Qed.
End Strings.

(** ** What the new program sees of the pages *)
Lemma map_args_lookup page base h i pg o : page !! i = Some pg -> pg <> 0 -> 0 <= o < 4096 ->
  map_args page base h !! (base + 4096 * Z.of_nat i + o) = Some (byte_of (default 0 (h !! (pg + o - (pg + o) mod 4))) ((pg + o) mod 4)).
Proof.
  intros Hi Hpg Ho. unfold map_args. apply elem_of_list_to_map_1'.
  - intros y Hy. apply list_elem_of_bind in Hy as ([j q] & Hy & Hj). case_match; [by apply not_elem_of_nil in Hy|].
    apply list_elem_of_fmap in Hy as (k & [= Hkey ->] & Hk). apply elem_of_seq in Hk.
    apply list_elem_of_lookup in Hj as (n & Hn). rewrite list_lookup_imap in Hn. destruct (page !! n) as [q'|] eqn:Hq; [|done].
    cbn in Hn. injection Hn as <- <-. unfold PAGE_SIZE in Hkey. assert (n = i) as -> by lia. rewrite Hi in Hq. injection Hq as <-.
    assert (o = Z.of_nat k) as -> by lia. done.
  - apply list_elem_of_bind. exists (i, pg). split.
    + rewrite (proj2 (Z.eqb_neq pg 0)) by done. apply list_elem_of_fmap. exists (Z.to_nat o). rewrite Z2Nat.id by lia. split; [done|]. apply elem_of_seq. lia.
    + apply list_elem_of_lookup. exists i. rewrite list_lookup_imap, Hi. done.
Qed.
Lemma map_args_bytes m page p base B k c : arg_inv m (mk_area page p 0 0) B -> B !! k = Some c ->
  map_args page base (phys m) !! (base + p + Z.of_nat k) = Some c.
Proof.
  intros [Hlen _ _ _ [Hp Hmax] HB _] Hk. cbn [ar_p ar_page] in *. destruct (HB k c Hk) as (pg & Hpg & Hpg0 & <-).
  pose proof (Z.mod_pos_bound (p + Z.of_nat k) 4096 ltac:(lia)) as Ho. pose proof (Z.div_mod (p + Z.of_nat k) 4096 ltac:(lia)).
  pose proof (Z.div_pos (p + Z.of_nat k) 4096 ltac:(lia) ltac:(lia)).
  pose proof (map_args_lookup page base (phys m) _ pg ((p + Z.of_nat k) mod 4096) Hpg Hpg0 Ho) as H1.
  rewrite Z2Nat.id in H1 by lia. replace (base + 4096 * ((p + Z.of_nat k) / 4096) + (p + Z.of_nat k) mod 4096) with (base + p + Z.of_nat k) in H1 by lia.
  exact H1.
Qed.

(** ** The tables of pointers *)
Definition put_long (a v : Z) (u : gmap Z Z) : gmap Z Z :=
  <[u32 (a + 3) := u8 (Z.shiftr v 24)]> (<[u32 (a + 2) := u8 (Z.shiftr v 16)]> (<[u32 (a + 1) := u8 (Z.shiftr v 8)]> (<[u32 a := u8 v]> u))).
Lemma put_fs_long_run v a s : put_fs_long v a s = Ret tt (s <| umem ::= put_long a v |>).
Proof. by destruct s. Qed.
Lemma fs_byte_insert_ne a c u b : 0 <= a < 2 ^ 32 -> 0 <= b < 2 ^ 32 -> a <> b -> fs_byte (<[u32 a := c]> u) b = fs_byte u b.
Proof. intros Ha Hb Hne. unfold fs_byte. rewrite lookup_insert_ne; [done|]. rewrite !u32_id by lia. done. Qed.
Lemma fs_byte_insert_eq a c u : fs_byte (<[u32 a := c]> u) a = c.
Proof. unfold fs_byte. by rewrite lookup_insert_eq. Qed.
Lemma fs_byte_put_ne a v u b : 0 <= a -> a + 4 <= 2 ^ 32 -> 0 <= b < 2 ^ 32 -> b < a \/ a + 4 <= b -> fs_byte (put_long a v u) b = fs_byte u b.
Proof. intros. unfold put_long. by rewrite !fs_byte_insert_ne by lia. Qed.
Lemma fs_long_same u u' a : (forall b, a <= b < a + 4 -> fs_byte u' b = fs_byte u b) -> fs_long u' a = fs_long u a.
Proof. intros H. unfold fs_long. by rewrite !H by lia. Qed.
Lemma fs_long_put a v u : 0 <= a -> a + 4 <= 2 ^ 32 -> 0 <= v < 2 ^ 32 -> fs_long (put_long a v u) a = v.
Proof.
  intros Ha Hm Hv. unfold fs_long, put_long. rewrite fs_byte_insert_eq. rewrite !(fs_byte_insert_ne (a + 3)) by lia. rewrite fs_byte_insert_eq.
  rewrite !(fs_byte_insert_ne (a + 2)) by lia. rewrite fs_byte_insert_eq. rewrite !(fs_byte_insert_ne (a + 1)) by lia. rewrite fs_byte_insert_eq.
  unfold u8. rewrite !Z.shiftr_div_pow2 by lia. change (2 ^ 8) with 256 in *. change (2 ^ 16) with 65536. change (2 ^ 24) with 16777216. change (2 ^ 32) with 4294967296 in Hv.
  pose proof (Z.div_mod v 256 ltac:(lia)). pose proof (Z.div_mod (v / 256) 256 ltac:(lia)). pose proof (Z.div_mod (v / 65536) 256 ltac:(lia)).
  pose proof (Z.div_div v 256 256 ltac:(lia) ltac:(lia)). pose proof (Z.div_div v 65536 256 ltac:(lia) ltac:(lia)).
  pose proof (Z.div_pos v 16777216 ltac:(lia) ltac:(lia)). pose proof (Z.div_lt_upper_bound v 16777216 256 ltac:(lia) ltac:(lia)).
  rewrite (Z.mod_small (v / 16777216)) by lia. cbn [Z.mul] in *. change (256 * 256) with 65536 in *. change (65536 * 256) with 16777216 in *. lia.
Qed.

Definition text_at (u : gmap Z Z) (p : Z) (ss : list (list Z)) : Prop := forall k c, text ss !! k = Some c -> fs_byte u (p + Z.of_nat k) = c.
(** where string [k] begins *)
Definition addr (p : Z) (ss : list (list Z)) (k : nat) : Z := p + Z.of_nat (length (text (take k ss))).
Lemma text_cons l ss : text (l :: ss) = ended l ++ text ss.
Proof. done. Qed.
Lemma text_at_cons u p l ss : text_at u p (l :: ss) -> string_at u p l /\ text_at u (p + Z.of_nat (length (ended l))) ss.
Proof.
  intros H. split; intros k c Hk.
  - apply H. rewrite text_cons. by apply lookup_app_l_Some.
  - replace (p + Z.of_nat (length (ended l)) + Z.of_nat k) with (p + Z.of_nat (length (ended l) + k)) by lia. apply H.
    rewrite text_cons, lookup_app_r by lia. by rewrite Nat.add_comm, Nat.add_sub.
Qed.
Lemma text_at_string u p ss k l : text_at u p ss -> ss !! k = Some l -> string_at u (addr p ss k) l.
Proof.
  intros H Hk j c Hj. unfold addr. replace (p + Z.of_nat (length (text (take k ss))) + Z.of_nat j) with (p + Z.of_nat (length (text (take k ss)) + j)) by lia.
  apply H. assert (text ss = text (take k ss) ++ text (l :: drop (S k) ss)) as -> by (by rewrite <- text_app, take_drop_middle).
  rewrite text_cons, lookup_app_r by lia.
  rewrite Nat.add_comm, Nat.add_sub. by apply lookup_app_l_Some.
Qed.
Lemma text_at_same u u' p ss : text_at u p ss -> (forall b, p <= b < p + Z.of_nat (length (text ss)) -> fs_byte u' b = fs_byte u b) -> text_at u' p ss.
Proof. intros H Hs k c Hk. rewrite Hs; [by apply H|]. apply lookup_lt_Some in Hk. lia. Qed.
Lemma string_at_same u u' p l : string_at u p l -> (forall b, p <= b < p + Z.of_nat (length (ended l)) -> fs_byte u' b = fs_byte u b) -> string_at u' p l.
Proof. intros H Hs k c Hk. rewrite Hs; [by apply H|]. apply lookup_lt_Some in Hk. lia. Qed.

Section Tables.
Context {E : Env}.
Abbreviation with_umem u s := (s <| umem := u |>) (only parsing).

(** the part of [put_vector] before its final 0 *)
Lemma put_pointers_run ss : forall (ks : list nat) v p s, length ks = length ss -> Forall a_string ss -> Forall (fun l => (length l < env_fuel)%nat) ss ->
  0 <= v -> v + 4 * Z.of_nat (length ss) <= p -> p + Z.of_nat (length (text ss)) < 2 ^ 31 -> text_at (umem s) p ss ->
  exists u', for_fold ks (v, p) (fun '(v, p) _ => put_fs_long p v ;; s ← user_string p; mret (v + 4, p + Z.of_nat (length s))) s =
      Ret (v + 4 * Z.of_nat (length ss), p + Z.of_nat (length (text ss))) (with_umem u' s) /\
    (forall k, (k < length ss)%nat -> fs_long u' (v + 4 * Z.of_nat k) = addr p ss k) /\
    (forall b, 0 <= b < 2 ^ 32 -> b < v \/ v + 4 * Z.of_nat (length ss) <= b -> fs_byte u' b = fs_byte (umem s) b).
Proof.
  induction ss as [|l ss IH]; intros [|k0 ks] v p s Hks Hss Hf Hv Hvp Hp Ht; try done; cbn [for_fold].
  - exists (umem s). split; [|split; [intros k Hk; cbn in Hk; lia|done]]. cbn. rewrite !Z.add_0_r. by destruct s.
  - apply Forall_cons in Hss as [Hl Hss]. apply Forall_cons in Hf as [Hfl Hf]. cbn [length] in *. apply text_at_cons in Ht as [Hstr Ht].
    rewrite text_cons, length_app in *. assert (length (ended l) = S (length l)) as Hel by (unfold ended; rewrite length_app; cbn; lia).
    set (u1 := put_long v p (umem s)). set (s1 := s <| umem := u1 |>).
    assert (forall b, p <= b < 2 ^ 32 -> fs_byte u1 b = fs_byte (umem s) b) as Hu1 by (intros b Hb; apply fs_byte_put_ne; lia).
    destruct (IH ks (v + 4) (p + Z.of_nat (length (ended l))) s1) as (u' & Hrun & Hptr & Hsame); [by injection Hks|done|done|lia|lia|lia| |].
    { apply (text_at_same (umem s)); [done|]. intros b Hb. apply Hu1. lia. }
    exists u'. split; [|split].
    + rewrite (bind_Ret _ _ s (v + 4, p + Z.of_nat (length (ended l))) s1).
      * replace (v + 4 * Z.of_nat (S (length ss))) with (v + 4 + 4 * Z.of_nat (length ss)) by lia. rewrite Hrun. f_equal. f_equal. lia.
      * rewrite (bind_Ret _ _ _ _ _ (put_fs_long_run p v s)). assert (s <| umem ::= put_long v p |> = s1) as -> by (by destruct s).
        rewrite (bind_Ret _ _ _ _ _ (user_string_run p l s1 Hl ltac:(apply (string_at_same (umem s)); [done|intros b Hb; apply Hu1; lia]) Hfl)). done.
    + intros [|k] Hk.
      * rewrite Z.add_0_r. unfold addr. cbn. rewrite Z.add_0_r. rewrite (fs_long_same u1); [apply fs_long_put; lia|].
        intros b Hb. apply Hsame; lia.
      * replace (v + 4 * Z.of_nat (S k)) with (v + 4 + 4 * Z.of_nat k) by lia. rewrite Hptr by lia. unfold addr. cbn [take].
        rewrite text_cons, length_app. lia.
    + intros b Hb Hout. rewrite Hsame by lia. apply fs_byte_put_ne; lia.
Qed.

Lemma put_vector_run ss v p s : Forall a_string ss -> Forall (fun l => (length l < env_fuel)%nat) ss ->
  0 <= v -> v + 4 * Z.of_nat (length ss) + 4 <= p -> p + Z.of_nat (length (text ss)) < 2 ^ 31 -> text_at (umem s) p ss ->
  exists u', put_vector (length ss) v p s = Ret (p + Z.of_nat (length (text ss))) (with_umem u' s) /\
    (forall k, (k < length ss)%nat -> fs_long u' (v + 4 * Z.of_nat k) = addr p ss k) /\ fs_long u' (v + 4 * Z.of_nat (length ss)) = 0 /\
    (forall b, 0 <= b < 2 ^ 32 -> b < v \/ v + 4 * Z.of_nat (length ss) + 4 <= b -> fs_byte u' b = fs_byte (umem s) b).
Proof.
  intros Hss Hf Hv Hvp Hp Ht. unfold put_vector.
  destruct (put_pointers_run ss (seq 0 (length ss)) v p s) as (u1 & Hrun & Hptr & Hsame); [by rewrite length_seq|done|done|done|lia|done|done|].
  set (e := v + 4 * Z.of_nat (length ss)) in *. exists (put_long e 0 u1). split; [|split; [|split]].
  - rewrite (bind_Ret _ _ _ _ _ Hrun). by rewrite (bind_Ret _ _ _ _ _ (put_fs_long_run 0 e _)).
  - intros k Hk. rewrite (fs_long_same u1); [by apply Hptr|]. intros b Hb. apply fs_byte_put_ne; lia.
  - apply fs_long_put; lia.
  - intros b Hb Hout. rewrite fs_byte_put_ne by lia. apply Hsame; lia.
Qed.

Lemma sp_aligned p : 0 <= p < 2 ^ 32 -> Z.land 0xfffffffc p = p - p mod 4.
Proof.
  intros Hp. change 0xfffffffc with (Z.land (Z.ones 32) (Z.lnot 3)). rewrite Z.land_comm, land_mask32 by done.
  change 3 with (Z.ones 2). by rewrite Z.land_ones.
Qed.

(** room for the tables below the strings *)
Definition tables_size (args envs : list (list Z)) : Z := 4 * Z.of_nat (length args) + 4 * Z.of_nat (length envs) + 20.
(** what [main] finds: the number of arguments at [sp], and the two vectors, each ended by 0 *)
Record finds (u : gmap Z Z) (sp : Z) (args envs : list (list Z)) : Prop := {
  fd_argc : fs_long u sp = Z.of_nat (length args);
  fd_argv : vector_at u (fs_long u (sp + 4)) args;
  fd_argv_end : fs_long u (fs_long u (sp + 4) + 4 * Z.of_nat (length args)) = 0;
  fd_envp : vector_at u (fs_long u (sp + 8)) envs;
  fd_envp_end : fs_long u (fs_long u (sp + 8) + 4 * Z.of_nat (length envs)) = 0
}.

Lemma vector_pointers u v p ss : 0 < p -> text_at u p ss -> (forall k, (k < length ss)%nat -> fs_long u (v + 4 * Z.of_nat k) = addr p ss k) -> vector_at u v ss.
Proof.
  intros Hp Ht Hptr k l Hk. rewrite Hptr by (by eapply lookup_lt_Some). split; [unfold addr; lia|]. by apply text_at_string.
Qed.

Lemma create_tables_run s p args envs : Forall a_string (args ++ envs) -> Forall (fun l => (length l < env_fuel)%nat) (args ++ envs) ->
  tables_size args envs + 4 <= p -> p + Z.of_nat (length (text (args ++ envs))) < 2 ^ 31 -> text_at (umem s) p (args ++ envs) ->
  exists sp u', create_tables p (Z.of_nat (length args)) (Z.of_nat (length envs)) s = Ret sp (with_umem u' s) /\
    finds u' sp args envs /\ p - tables_size args envs - 4 <= sp.
Proof.
  intros Hss Hf Hroom Hmax Ht. apply Forall_app in Hss as [Hs1 Hs2]. apply Forall_app in Hf as [Hf1 Hf2].
  rewrite text_app, length_app in Hmax. unfold tables_size in *.
  assert (text_at (umem s) p args) as Ht1.
  { intros k c Hk. apply Ht. rewrite text_app. by apply lookup_app_l_Some. }
  set (p2 := p + Z.of_nat (length (text args))). assert (text_at (umem s) p2 envs) as Ht2.
  { intros k c Hk. unfold p2. replace (p + Z.of_nat (length (text args)) + Z.of_nat k) with (p + Z.of_nat (length (text args) + k)) by lia.
    apply Ht. rewrite text_app, lookup_app_r by lia. by rewrite Nat.add_comm, Nat.add_sub. }
  unfold create_tables. rewrite sp_aligned by lia. pose proof (Z.mod_pos_bound p 4 ltac:(lia)) as Hal. cbv zeta.
  set (sp := p - p mod 4). set (n := Z.of_nat (length args)) in *. set (e := Z.of_nat (length envs)) in *.
  rewrite (u32_id (sp - 4 * (e + 1))) by lia. set (envp := sp - 4 * (e + 1)). rewrite (u32_id (envp - 4 * (n + 1))) by lia.
  set (argv := envp - 4 * (n + 1)). rewrite u32_id by lia.
  set (u3 := put_long (argv - 12) n (put_long (argv - 8) argv (put_long (argv - 4) envp (umem s)))). set (s3 := s <| umem := u3 |>).
  assert (forall b, argv <= b < 2 ^ 32 -> fs_byte u3 b = fs_byte (umem s) b) as Hu3.
  { intros b Hb. unfold u3. by rewrite !fs_byte_put_ne by lia. }
  destruct (put_vector_run args argv p s3) as (u4 & Hrun4 & Hptr4 & Hend4 & Hsame4); [done|done|lia|lia|lia| |].
  { apply (text_at_same (umem s)); [done|]. intros b Hb. apply Hu3. lia. }
  destruct (put_vector_run envs envp p2 (with_umem u4 s3)) as (u5 & Hrun5 & Hptr5 & Hend5 & Hsame5); [done|done|lia|lia|lia| |].
  { apply (text_at_same (umem s)); [done|]. intros b Hb. change (umem (with_umem u4 s3)) with u4. rewrite Hsame4 by lia. apply Hu3. lia. }
  change (umem (with_umem u4 s3)) with u4 in *. change (umem s3) with u3 in *.
  assert (forall b, argv + 4 * n + 4 <= b < envp \/ envp + 4 * e + 4 <= b < 2 ^ 32 -> fs_byte u5 b = fs_byte (umem s) b) as Hu5.
  { intros b Hb. rewrite Hsame5, Hsame4 by lia. apply Hu3. lia. }
  exists (argv - 12), u5. split; [|split; [|lia]].
  - rewrite (bind_Ret _ _ _ _ _ (put_fs_long_run envp (argv - 4) s)). rewrite (bind_Ret _ _ _ _ _ (put_fs_long_run argv (argv - 8) _)).
    rewrite (bind_Ret _ _ _ _ _ (put_fs_long_run n (argv - 12) _)).
    assert ((((s <| umem ::= put_long (argv - 4) envp |>) <| umem ::= put_long (argv - 8) argv |>) <| umem ::= put_long (argv - 12) n |>) = s3) as -> by (by destruct s).
    unfold n, e. rewrite !Nat2Z.id. rewrite (bind_Ret _ _ _ _ _ Hrun4). fold p2. rewrite (bind_Ret _ _ _ _ _ Hrun5). by destruct s.
  - assert (forall a, argv - 12 <= a -> a + 4 <= argv -> fs_long u5 a = fs_long u3 a) as Hlow.
    { intros a H1 H2. apply fs_long_same. intros b Hb. rewrite Hsame5, Hsame4 by lia. done. }
    assert (fs_long u5 (argv - 12 + 4) = argv) as Hargv.
    { rewrite Hlow by lia. unfold u3. replace (argv - 12 + 4) with (argv - 8) by lia.
      rewrite (fs_long_same (put_long (argv - 8) argv (put_long (argv - 4) envp (umem s)))); [apply fs_long_put; lia|]. intros b Hb. apply fs_byte_put_ne; lia. }
    assert (fs_long u5 (argv - 12 + 8) = envp) as Henvp.
    { rewrite Hlow by lia. unfold u3. replace (argv - 12 + 8) with (argv - 4) by lia.
      rewrite (fs_long_same (put_long (argv - 4) envp (umem s))); [apply fs_long_put; lia|]. intros b Hb. by rewrite !fs_byte_put_ne by lia. }
    split; rewrite ?Hargv, ?Henvp.
    + rewrite Hlow by lia. apply fs_long_put; lia.
    + apply (vector_pointers _ _ p); [lia| |].
      * apply (text_at_same (umem s)); [done|]. intros b Hb. apply Hu5. lia.
      * intros k Hk. rewrite (fs_long_same u4); [by apply Hptr4|]. intros b Hb. apply Hsame5; lia.
    + rewrite (fs_long_same u4); [exact Hend4|]. intros b Hb. apply Hsame5; lia.
    + apply (vector_pointers _ _ p2); [lia| |exact Hptr5]. apply (text_at_same (umem s)); [done|]. intros b Hb. apply Hu5. lia.
    + exact Hend5.
Qed.
End Tables.

(** ** From the old program to the new *)
Section Exec.
Context {E : Env}.

Lemma count_run s v ss : v <> 0 -> vector_at (umem s) v ss -> fs_long (umem s) (v + 4 * Z.of_nat (length ss)) = 0 -> (length ss < env_fuel)%nat ->
  count v s = Ret (Z.of_nat (length ss)) s.
Proof.
  intros Hv Hvec Hend Hf. unfold count. rewrite (proj2 (Z.eqb_neq v 0)) by done.
  assert (forall n i, (length ss - i < n)%nat -> (i <= length ss)%nat ->
    loop n (fun i => w ← get_fs_long (v + 4 * i); mret (if w =? 0 then inr i else inl (i + 1))) (Z.of_nat i) s = Ret (Z.of_nat (length ss)) s) as H.
  { induction n as [|n IH]; intros i Hn Hi; [lia|]. cbn [loop].
    destruct (decide (i = length ss)) as [->|Hne].
    - rewrite (bind_Ret _ _ s (inr (Z.of_nat (length ss))) s); [done|]. rewrite (bind_Ret _ _ _ _ _ (get_fs_long_run _ s)). by rewrite Hend.
    - destruct (lookup_lt_is_Some_2 ss i ltac:(lia)) as [l Hl]. destruct (Hvec i l Hl) as [Hnz _].
      rewrite (bind_Ret _ _ s (inl (Z.of_nat (S i))) s); [apply IH; lia|]. rewrite (bind_Ret _ _ _ _ _ (get_fs_long_run _ s)).
      rewrite (proj2 (Z.eqb_neq _ 0)) by done. unfold mret, M_ret. do 2 f_equal. lia. }
  exact (H env_fuel 0%nat ltac:(lia) ltac:(lia)).
Qed.

Lemma no_args m p : length (mem_map m) = PAGING_PAGES -> 0 <= p <= 131072 -> arg_inv m (mk_area (replicate MAX_ARG_PAGES 0) p 0 0) [].
Proof.
  intros Hm Hp. split; cbn [ar_page ar_p ar_offset length]; [by rewrite length_replicate|done| | |lia|done|by left].
  - intros k pg Hk Hpg. by apply lookup_replicate in Hk as [-> _].
  - intros j k pg Hj _ Hpg. by apply lookup_replicate in Hj as [-> _].
Qed.
Lemma text_count ss : (length ss <= length (text ss))%nat.
Proof. induction ss as [|l ss IH]; [done|]. rewrite text_cons, length_app. unfold ended. rewrite length_app. cbn in *. lia. Qed.

(** the strings of [do_execve], the environment above the arguments *)
Definition collect (argc envc : nat) (argv envp : Z) : K (list Z * Z) :=
  '(page, p) ← copy_strings envc (UserArgv envp) (replicate MAX_ARG_PAGES 0) (PAGE_SIZE * Z.of_nat MAX_ARG_PAGES - 4);
  copy_strings argc (UserArgv argv) page p.
Lemma collect_run s argv envp args envs : length (mem_map (mm s)) = PAGING_PAGES ->
  vector_at (umem s) argv args -> vector_at (umem s) envp envs -> Forall a_string (args ++ envs) ->
  Forall (fun l => (length l < env_fuel)%nat) (args ++ envs) -> Z.of_nat (length (text (args ++ envs))) < 131068 ->
  exists page p m', collect (length args) (length envs) argv envp s = Ret (page, p) (with_mm s m') /\
    ((p = 0 /\ no_free_page m') \/ (p = 131068 - Z.of_nat (length (text (args ++ envs))) /\ arg_inv m' (mk_area page p 0 0) (text (args ++ envs)))).
Proof.
  intros Hm Ha He Hs Hf Hlen. apply Forall_app in Hs as [Hs1 Hs2]. apply Forall_app in Hf as [Hf1 Hf2]. rewrite text_app, length_app in *.
  unfold collect. change (PAGE_SIZE * Z.of_nat MAX_ARG_PAGES - 4) with 131068.
  destruct (copy_strings_run s envp envs _ 131068 [] He Hs2 Hf2 (no_args (mm s) 131068 Hm ltac:(lia)) ltac:(lia)) as [(page1 & m1 & Hrun1 & Ha1)|(page1 & m1 & Hrun1 & Hno)].
  - set (p1 := 131068 - Z.of_nat (length (text envs))) in *.
    destruct (copy_strings_run (with_mm s m1) argv args page1 p1 _ Ha Hs1 Hf1 Ha1 ltac:(unfold p1; lia)) as [(page2 & m2 & Hrun2 & Ha2)|(page2 & m2 & Hrun2 & Hno)].
    + exists page2, (p1 - Z.of_nat (length (text args))), m2. split; [by rewrite (bind_Ret _ _ _ _ _ Hrun1)|]. right. split; [unfold p1; lia|].
      by rewrite app_nil_r in Ha2.
    + exists page2, 0, m2. split; [by rewrite (bind_Ret _ _ _ _ _ Hrun1)|]. by left.
  - exists page1, 0, m1. split; [by rewrite (bind_Ret _ _ _ _ _ Hrun1)|]. by left.
Qed.
End Exec.

(** C8: a new program finds its arguments.  Let the caller of [execve] have vectors
    [argv] and [envp], ended by 0, of pointers to the strings [args] and [envs], which fit into
    the 32 pages.  [count] finds their numbers.  [copy_strings] copies the strings into
    pages of their own, or stops with 0 when no page of memory is free.  In any state in
    which the new program's segment shows these pages at its end, [create_tables] returns a
    stack pointer where the program finds the number of arguments and two vectors, ended by
    0, that point to the same strings in the same order. *)
Theorem exec_arguments_found {E : Env} (s : kst) (argv envp : Z) (args envs : list (list Z))
  (Hmap : length (mem_map (mm s)) = PAGING_PAGES) (Hav : argv <> 0) (Hev : envp <> 0)
  (Hargs : vector_at (umem s) argv args) (Hargs0 : fs_long (umem s) (argv + 4 * Z.of_nat (length args)) = 0)
  (Henvs : vector_at (umem s) envp envs) (Henvs0 : fs_long (umem s) (envp + 4 * Z.of_nat (length envs)) = 0)
  (Hstr : Forall a_string (args ++ envs)) (Hfuel : Forall (fun l => (length l < env_fuel)%nat) (args ++ envs))
  (Hcount : (length args < env_fuel)%nat /\ (length envs < env_fuel)%nat) (Hroom : Z.of_nat (length (text (args ++ envs))) < 131068) :
  count argv s = Ret (Z.of_nat (length args)) s /\ count envp s = Ret (Z.of_nat (length envs)) s /\
  exists page p m', collect (length args) (length envs) argv envp s = Ret (page, p) (with_mm s m') /\
    ((p = 0 /\ no_free_page m') \/
     (0 < p /\ forall s2, let base := 0x4000000 - PAGE_SIZE * Z.of_nat MAX_ARG_PAGES in umem s2 = map_args page base (phys m') ->
        exists sp u', create_tables (base + p) (Z.of_nat (length args)) (Z.of_nat (length envs)) s2 = Ret sp (s2 <| umem := u' |>) /\
          finds u' sp args envs)).
Proof.
  destruct Hcount as [Hc1 Hc2]. split; [by apply count_run|]. split; [by apply count_run|].
  destruct (collect_run s argv envp args envs) as (page & p & m' & Hrun & [Hno|[Hp Ha]]); [done..| |]; exists page, p, m'; (split; [exact Hrun|]); [by left|].
  right. split; [lia|]. intros s2 base Hu. pose proof (text_count (args ++ envs)) as Hn. rewrite length_app in Hn.
  assert (base = 66977792) as Hbase by reflexivity.
  destruct (create_tables_run s2 (base + p) args envs Hstr Hfuel) as (sp & u' & H1 & H2 & _); [unfold tables_size; lia|lia| |by exists sp, u'].
  intros k c Hk. unfold fs_byte. pose proof (lookup_lt_Some _ _ _ Hk). rewrite u32_id by lia. rewrite Hu.
  by rewrite (map_args_bytes m' page p base _ k c Ha Hk).
Qed.

Lemma umem_set (s : kst) u : umem (s <| umem := u |>) = u.
Proof. done. Qed.

(** [execve] of "sh" "-c" with one string in the environment *)
Definition sh_args : list (list Z) := [[115; 104]; [45; 99]].
Definition sh_envs : list (list Z) := [[72; 61; 47]].
Definition sh_umem : gmap Z Z :=
  put_long 1000 2000 (put_long 1004 2003 (put_long 1008 0 (put_long 1012 2006 (put_long 1016 0 (put_bytes_at 2000 (text (sh_args ++ sh_envs)) ∅))))).
Definition sh_kst : kst := (with_mm boot_kst two_free) <| umem := sh_umem |>.
Lemma sh_vector v ss : forallb (fun k => bool_decide (fs_long sh_umem (v + 4 * Z.of_nat k) <> 0)) (seq 0 (length ss)) = true ->
  forallb (fun k => bool_decide ((fun j => fs_byte sh_umem (fs_long sh_umem (v + 4 * Z.of_nat k) + Z.of_nat j)) <$> seq 0 (length (ended (default [] (ss !! k)))) =
    ended (default [] (ss !! k)))) (seq 0 (length ss)) = true -> vector_at sh_umem v ss.
Proof.
  intros H1 H2 k l Hk. rewrite forallb_forall in H1, H2. pose proof (lookup_lt_Some _ _ _ Hk) as Hlt.
  specialize (H1 k ltac:(apply in_seq; lia)). specialize (H2 k ltac:(apply in_seq; lia)). apply bool_decide_eq_true in H1, H2. rewrite Hk in H2. change (default [] (Some l)) with l in H2.
  split; [done|]. intros j c Hj. rewrite <- H2, list_lookup_fmap in Hj. apply fmap_Some in Hj as (j' & Hj & ->). by apply lookup_seq in Hj as [-> _].
Qed.
Lemma exec_arguments_found_witness : exists page p m', @collect (quiet_env 5) 2 1 1000 1012 sh_kst = Ret (page, p) (with_mm sh_kst m') /\ 0 < p /\
  exists sp u', @create_tables (quiet_env 5) (0x4000000 - 131072 + p) 2 1 (sh_kst <| umem := map_args page (0x4000000 - 131072) (phys m') |>) =
    Ret sp (sh_kst <| umem := u' |>) /\ finds u' sp sh_args sh_envs.
Proof.
  destruct (@exec_arguments_found (quiet_env 5) sh_kst 1000 1012 sh_args sh_envs) as (_ & _ & page & p & m' & Hrun & Hres).
  - reflexivity.
  - discriminate.
  - discriminate.
  - apply sh_vector; vm_compute; reflexivity.
  - vm_compute. reflexivity.
  - apply sh_vector; vm_compute; reflexivity.
  - vm_compute. reflexivity.
  - repeat constructor; lia.
  - repeat constructor.
  - split; repeat constructor.
  - vm_compute. reflexivity.
  - exists page, p, m'. split; [exact Hrun|]. destruct Hres as [[-> _]|[Hp Hres]].
    + exfalso. assert (snd <$> value_of (@collect (quiet_env 5) 2 1 1000 1012 sh_kst) = Some 131058) as Hv by (vm_compute; reflexivity).
      change (@collect (quiet_env 5) (length sh_args) (length sh_envs) 1000 1012 sh_kst) with (@collect (quiet_env 5) 2 1 1000 1012 sh_kst) in Hrun.
      rewrite Hrun in Hv. discriminate Hv.
    + split; [exact Hp|]. cbv zeta in Hres. assert (0x4000000 - PAGE_SIZE * Z.of_nat MAX_ARG_PAGES = 0x4000000 - 131072) as Hb by reflexivity. rewrite Hb in Hres.
      destruct (Hres (sh_kst <| umem := map_args page (0x4000000 - 131072) (phys m') |>) (umem_set _ _)) as (sp & u' & H1 & H2).
      exists sp, u'. split; [exact H1|exact H2].
Defined.
