(* ===== verification/SysCall.v ===== *)
(** * kernel/system_call.cc and include/unistd.h: the way into the kernel and back

    The system call table, the entry [system_call], the timer interrupt, the
    common exit [ret_from_sys_call] that reschedules and delivers signals, the
    page-fault entry of mm/page.cc, and the user-side stubs [_syscall0]..3. *)

From S2P Require Import Prelude State Segment Memory Sched Request LlRw Buffer Bitmap Inode Namei Dirs TtyQueue Super Open Exit Fork Sys TtyIoctl ReadWrite Exec.

#[export] Instance eta_regs : Eta regs := fun r =>
  mk_regs (g_ebp r) (g_edi r) (g_esi r) (g_gs r) (g_ebx r) (g_ecx r) (g_edx r) (g_fs r) (g_es r) (g_ds r)
    (g_eip r) (g_cs r) (g_eflags r) (g_esp r) (g_ss r).

(** ** Numbers of the system calls: unistd.h *)
Definition __NR_setup : Z := 0.
Definition __NR_exit : Z := 1.
Definition __NR_fork : Z := 2.
Definition __NR_read : Z := 3.
Definition __NR_write : Z := 4.
Definition __NR_open : Z := 5.
Definition __NR_close : Z := 6.
Definition __NR_waitpid : Z := 7.
Definition __NR_creat : Z := 8.
Definition __NR_link : Z := 9.
Definition __NR_unlink : Z := 10.
Definition __NR_execve : Z := 11.
Definition __NR_chdir : Z := 12.
Definition __NR_time : Z := 13.
Definition __NR_mknod : Z := 14.
Definition __NR_chmod : Z := 15.
Definition __NR_chown : Z := 16.
Definition __NR_break : Z := 17.
Definition __NR_stat : Z := 18.
Definition __NR_lseek : Z := 19.
Definition __NR_getpid : Z := 20.
Definition __NR_mount : Z := 21.
Definition __NR_umount : Z := 22.
Definition __NR_setuid : Z := 23.
Definition __NR_getuid : Z := 24.
Definition __NR_stime : Z := 25.
Definition __NR_ptrace : Z := 26.
Definition __NR_alarm : Z := 27.
Definition __NR_fstat : Z := 28.
Definition __NR_pause : Z := 29.
Definition __NR_utime : Z := 30.
Definition __NR_stty : Z := 31.
Definition __NR_gtty : Z := 32.
Definition __NR_access : Z := 33.
Definition __NR_nice : Z := 34.
Definition __NR_ftime : Z := 35.
Definition __NR_sync : Z := 36.
Definition __NR_kill : Z := 37.
Definition __NR_rename : Z := 38.
Definition __NR_mkdir : Z := 39.
Definition __NR_rmdir : Z := 40.
Definition __NR_dup : Z := 41.
Definition __NR_pipe : Z := 42.
Definition __NR_times : Z := 43.
Definition __NR_prof : Z := 44.
Definition __NR_brk : Z := 45.
Definition __NR_setgid : Z := 46.
Definition __NR_getgid : Z := 47.
Definition __NR_signal : Z := 48.
Definition __NR_geteuid : Z := 49.
Definition __NR_getegid : Z := 50.
Definition __NR_acct : Z := 51.
Definition __NR_phys : Z := 52.
Definition __NR_lock : Z := 53.
Definition __NR_ioctl : Z := 54.
Definition __NR_fcntl : Z := 55.
Definition __NR_mpx : Z := 56.
Definition __NR_setpgid : Z := 57.
Definition __NR_ulimit : Z := 58.
Definition __NR_uname : Z := 59.
Definition __NR_umask : Z := 60.
Definition __NR_chroot : Z := 61.
Definition __NR_ustat : Z := 62.
Definition __NR_dup2 : Z := 63.
Definition __NR_getppid : Z := 64.
Definition __NR_getpgrp : Z := 65.
Definition __NR_setsid : Z := 66.
Definition __NR_sigaction : Z := 67.
Definition __NR_sgetmask : Z := 68.
Definition __NR_ssetmask : Z := 69.
Definition __NR_setreuid : Z := 70.
Definition __NR_setregid : Z := 71.

(** ** The handlers

    Each gets the three argument registers as 32-bit words and reads as many
    as its C prototype (linux/sys.h) declares, an [int] or [long] as a signed
    number.  [sys_fork] and [sys_execve] also use the saved registers. *)
Definition fn_ptr {E : Env} : Type := regs -> K (Z * regs).

Section SysCall.
Context {E : Env}.

Definition call0 (m : K Z) : fn_ptr := fun g => r ← m; mret (r, g).
Definition call1 (m : Z -> K Z) : fn_ptr := fun g => r ← m (u32 (g_ebx g)); mret (r, g).
Definition call2 (m : Z -> Z -> K Z) : fn_ptr := fun g => r ← m (u32 (g_ebx g)) (u32 (g_ecx g)); mret (r, g).
Definition call3 (m : Z -> Z -> Z -> K Z) : fn_ptr :=
  fun g => r ← m (u32 (g_ebx g)) (u32 (g_ecx g)) (u32 (g_edx g)); mret (r, g).
(** a call that is not implemented *)
Definition nosys (v : Z) : fn_ptr := call0 (mret v).

(** [sys_setup(void * BIOS)] reads the drive table through a kernel pointer *)
Definition phys_byte (a : Z) : K Z :=
  s ← gets mm; mret (byte_of (word s (Z.land a 0xfffffffc)) (Z.land a 3)).
Fixpoint phys_bytes (n : nat) (a : Z) : K (list Z) :=
  match n with O => mret [] | S n => b ← phys_byte a; l ← phys_bytes n (u32 (a + 1)); mret (b :: l) end.
Definition sys_setup_at (bios : Z) : K Z := l ← phys_bytes 32 bios; sys_setup l.

Definition sys_fork : fn_ptr := fun g =>
  nr ← zoom_sched find_empty_process;
  if nr <? 0 then mret (nr, g) else                               (* testl %eax,%eax ; js 1f *)
  r ← copy_process (Z.to_nat nr) g; mret (r, g).
(** [do_execve] stores the new [eip] and [esp] in the frame of the system call *)
Definition sys_execve : fn_ptr := fun g =>
  r ← do_execve (g_cs g) (u32 (g_ebx g)) (u32 (g_ecx g)) (u32 (g_edx g));
  match r with
  | inl e => mret (e, g)
  | inr (eip, esp) => mret (0, g <| g_eip := eip |> <| g_esp := esp |>)
  end.

Definition sys_call_table : list fn_ptr := [
  call1 sys_setup_at;
  call1 (fun c => sys_exit (s32 c));
  sys_fork;
  call3 (fun fd b c => sys_read fd b (s32 c));
  call3 (fun fd b c => sys_write fd b (s32 c));
  call3 (fun n f m => sys_open n (s32 f) (s32 m));
  call1 sys_close;
  call3 (fun p a o => sys_waitpid (s32 p) a (s32 o));
  call2 (fun n m => sys_creat n (s32 m));
  call2 sys_link;
  call1 sys_unlink;
  sys_execve;
  call1 sys_chdir;
  call1 sys_time;
  call3 (fun n m d => sys_mknod n (s32 m) (s32 d));
  call2 (fun n m => sys_chmod n (s32 m));
  call3 (fun n u g => sys_chown n (s32 u) (s32 g));
  nosys sys_break;
  call2 sys_stat;
  call3 (fun fd o w => sys_lseek fd (s32 o) (s32 w));
  call0 sys_getpid;
  call3 (fun d n rw => sys_mount d n (s32 rw));
  call1 sys_umount;
  call1 (fun u => sys_setuid (s32 u));
  call0 sys_getuid;
  call1 sys_stime;
  nosys sys_ptrace;
  call1 (fun n => sys_alarm (s32 n));
  call2 sys_fstat;
  call0 sys_pause;
  call2 sys_utime;
  nosys sys_stty;
  nosys sys_gtty;
  call2 (fun n m => sys_access n (s32 m));
  call1 (fun n => sys_nice (s32 n));
  nosys sys_ftime;
  call0 sys_sync;
  call2 (fun p s => sys_kill (s32 p) (s32 s));
  nosys sys_rename;
  call2 (fun n m => sys_mkdir n (s32 m));
  call1 sys_rmdir;
  call1 sys_dup;
  call1 sys_pipe;
  call1 sys_times;
  nosys sys_prof;
  call1 sys_brk;
  call1 (fun g => sys_setgid (s32 g));
  call0 sys_getgid;
  call3 (fun n h r => sys_signal (s32 n) h r);
  call0 sys_geteuid;
  call0 sys_getegid;
  nosys sys_acct;
  nosys sys_phys;
  nosys sys_lock;
  call3 sys_ioctl;
  call3 sys_fcntl;
  nosys sys_mpx;
  call2 (fun p g => sys_setpgid (s32 p) (s32 g));
  nosys sys_ulimit;
  call1 sys_uname;
  call1 (fun m => sys_umask (s32 m));
  call1 sys_chroot;
  nosys sys_ustat;
  call2 sys_dup2;
  call0 sys_getppid;
  call0 sys_getpgrp;
  call0 sys_setsid;
  call3 (fun n a o => sys_sigaction (s32 n) a o);
  call0 sys_sgetmask;
  call1 (fun m => sys_ssetmask (s32 m));
  call2 (fun r e => sys_setreuid (s32 r) (s32 e));
  call2 (fun r e => sys_setregid (s32 r) (s32 e))
].
Definition nr_system_calls : Z := 72.

(** ** The way back

    [cmpl $0,state(%eax)]: the assembler constant [state] is 99, so this is the
    long at offset 99 of the task structure: the high byte of the handler and
    the low three bytes of the mask of [sigaction[5]] (16 + 5 * 16 + 3 = 99). *)
Definition state_word (t : task_struct) : Z :=
  match t_sigaction t !! 5%nat with
  | Some a => Z.lor (byte_of (u32 (sa_handler a)) 3) (Z.shiftl (Z.land (u32 (sa_mask a)) 0xffffff) 8)
  | None => 0
  end.
Definition reschedule : K unit := schedule.

(** [bsfl]: the lowest bit that is set *)
Definition bsfl (w : Z) : option nat := fst <$> list_find (fun n : nat => Z.testbit w (Z.of_nat n) = true) (seq 0 32).
(** the signals that may be delivered: pending and not blocked *)
Definition pending_signals (t : task_struct) : Z := Z.land (not32 (u32 (t_blocked t))) (u32 (t_signal t)).

Definition ret_from_sys_call (eax : Z) (g : regs) : K (Z * regs) :=
  s ← gets sched;
  if bool_decide (task s !! 0%nat = Some (Some (current s))) then mret (eax, g) else
  if negb (u16 (g_cs g) =? 0x0f) then mret (eax, g) else
  if negb (u16 (g_ss g) =? 0x17) then mret (eax, g) else
  t ← me;
  match bsfl (pending_signals t) with
  | None => mret (eax, g)
  | Some n =>
      setme (fun t => t <| t_signal ::= fun b => Z.land b (not32 (bit (Z.of_nat n))) |>) ;;     (* btrl *)
      '(eip, esp) ← do_signal (Z.of_nat n + 1) eax (g_ebx g) (g_ecx g) (g_edx g) (g_fs g) (g_es g) (g_ds g)
                      (g_eip g) (g_cs g) (g_eflags g) (g_esp g) (g_ss g);
      mret (eax, g <| g_eip := eip |> <| g_esp := esp |>)
  end.

(** [int 0x80]: the register [eax] selects the call *)
Definition system_call (eax : Z) (g : regs) : K (Z * regs) :=
  if nr_system_calls - 1 <? u32 eax then mret (-1, g) else       (* bad_sys_call *)
  f ← deref (sys_call_table !! Z.to_nat (u32 eax));
  '(r, g) ← f g;
  t ← me;
  when (nz (state_word t) || (t_counter t =? 0)) reschedule ;;
  ret_from_sys_call r g.

(** the clock interrupt *)
Definition timer_interrupt (eax : Z) (g : regs) : K (Z * regs) :=
  on_sched (fun s => s <| jiffies ::= fun j => s32 (j + 1) |>) ;;
  outb 0x20 0x20 ;;
  do_timer (Z.land (g_cs g) 3) ;;
  ret_from_sys_call eax g.

Definition parallel_interrupt : K unit := outb 0x20 0x20.

(** mm/page.cc: bit 0 of the error code tells a protection fault *)
Definition page_fault (error_code address : Z) : K unit :=
  if Z.testbit error_code 0 then do_wp_page error_code address else do_no_page error_code address.

(** ** The user side: [int $0x80], then a negative result becomes [errno] *)
Record user_result : Type := mk_result { u_value : Z; u_errno : option Z; u_regs : regs }.
Definition int80 (nr : Z) (g : regs) : K user_result :=
  '(r, g) ← system_call nr g;
  mret (if 0 <=? r then mk_result r None g else mk_result (-1) (Some (- r)) g).
Definition _syscall0 (nr : Z) (g : regs) : K user_result := int80 nr g.
Definition _syscall1 (nr a : Z) (g : regs) : K user_result := int80 nr (g <| g_ebx := a |>).
Definition _syscall2 (nr a b : Z) (g : regs) : K user_result := int80 nr (g <| g_ebx := a |> <| g_ecx := b |>).
Definition _syscall3 (nr a b c : Z) (g : regs) : K user_result :=
  int80 nr (g <| g_ebx := a |> <| g_ecx := b |> <| g_edx := c |>).
End SysCall.
