(* ===== verification/SysCallFacts.v ===== *)
(** * System calls reach their handlers; signals are delivered in order, on a frame that keeps the registers *)

From S2P Require Import Prelude Bits State Segment Memory Sched WaitFacts Request LlRw Buffer Bitmap Inode Namei Dirs TtyQueue Super Open Exit Fork Sys SysFacts TtyIoctl ReadWrite Exec SysCall.

(** ** The lowest bit set *)
Lemma bsfl_Some w n : bsfl w = Some n ->
  (n < 32)%nat /\ Z.testbit w (Z.of_nat n) = true /\ forall m, (m < n)%nat -> Z.testbit w (Z.of_nat m) = false.
Proof.
  unfold bsfl. intros ([i x] & Hx & [= <-])%fmap_Some_1. cbn [fst] in *.
  apply list_find_Some in Hx as (Hi & Hb & Hlow). pose proof (lookup_lt_Some _ _ _ Hi) as Hl. rewrite length_seq in Hl.
  rewrite lookup_seq_lt in Hi by done. injection Hi as <-. split_and!; [done..|].
  intros m Hm. apply not_true_iff_false, (Hlow m); [|done]. by rewrite lookup_seq_lt by lia.
Qed.
Lemma bsfl_None w : bsfl w = None -> forall m, (m < 32)%nat -> Z.testbit w (Z.of_nat m) = false.
Proof.
  unfold bsfl. intros H%fmap_None m Hm. apply list_find_None in H.
  rewrite Forall_forall in H. apply not_true_iff_false, H, elem_of_seq. lia.
Qed.

(** the signal with bit [n] is waiting and may be delivered *)
Definition may_deliver (t : task_struct) (n : nat) : bool :=
  Z.testbit (t_signal t) (Z.of_nat n) && negb (Z.testbit (t_blocked t) (Z.of_nat n)).
Lemma pending_bit t n : (n < 32)%nat -> Z.testbit (pending_signals t) (Z.of_nat n) = may_deliver t n.
Proof.
  intros Hn. unfold pending_signals, may_deliver, u32. autorewrite with bits.
  destruct (Z.ltb_spec (Z.of_nat n) 32); [|lia]. destruct (Z.leb_spec 0 (Z.of_nat n)); [|lia].
  cbn. rewrite xorb_true_r. apply andb_comm.
Qed.

Lemma not_bit n m : (n < 32)%nat -> (m < 32)%nat ->
  Z.testbit (not32 (bit (Z.of_nat n))) (Z.of_nat m) = negb (Nat.eqb m n).
Proof.
  intros. unfold bit, u32. autorewrite with bits.
  destruct (Z.leb_spec 0 (Z.of_nat m)), (Z.ltb_spec (Z.of_nat m) 32); try lia. cbn. rewrite xorb_true_r. f_equal.
  destruct (Nat.eqb_spec m n) as [->|Hne]; [by rewrite Z.sub_diag|].
  change 1 with (2 ^ 0). rewrite Z.pow2_bits_false; [done|lia].
Qed.

(** ** Words in user memory *)
Definition put_long (v a : Z) (h : gmap Z Z) : gmap Z Z :=
  <[u32 (a + 3) := u8 (Z.shiftr v 24)]> (<[u32 (a + 2) := u8 (Z.shiftr v 16)]>
  (<[u32 (a + 1) := u8 (Z.shiftr v 8)]> (<[u32 a := u8 v]> h))).
Fixpoint put_longs (a : Z) (vs : list Z) (h : gmap Z Z) : gmap Z Z :=
  match vs with [] => h | v :: vs => put_longs (a + 4) vs (put_long v a h) end.
Definition byte_at (h : gmap Z Z) (a : Z) : Z := default 0 (h !! u32 a).
Definition long_at (h : gmap Z Z) (a : Z) : Z :=
  byte_at h a + 2 ^ 8 * byte_at h (a + 1) + 2 ^ 16 * byte_at h (a + 2) + 2 ^ 24 * byte_at h (a + 3).

Lemma long_bytes v : u8 v + 2 ^ 8 * u8 (Z.shiftr v 8) + 2 ^ 16 * u8 (Z.shiftr v 16) + 2 ^ 24 * u8 (Z.shiftr v 24) = u32 v.
Proof. unfold u8, u32. rewrite !Z.shiftr_div_pow2 by lia. Z.div_mod_to_equations. lia. Qed.

Lemma byte_put_other v a h x : 0 <= a -> a + 4 <= 2 ^ 32 -> 0 <= x < 2 ^ 32 -> x < a \/ a + 4 <= x ->
  byte_at (put_long v a h) x = byte_at h x.
Proof. intros. unfold byte_at, put_long. rewrite !u32_id by lia. by rewrite !lookup_insert_ne by lia. Qed.
Lemma long_put_same v a h : 0 <= a -> a + 4 <= 2 ^ 32 -> long_at (put_long v a h) a = u32 v.
Proof.
  intros. unfold long_at, byte_at, put_long. rewrite !u32_id by lia.
  rewrite !lookup_insert_eq. do 3 rewrite !lookup_insert_ne, ?lookup_insert_eq by lia. apply long_bytes.
Qed.
Lemma byte_puts_other vs : forall a h x, 0 <= a -> a + 4 * Z.of_nat (length vs) <= 2 ^ 32 -> 0 <= x < 2 ^ 32 ->
  x < a \/ a + 4 * Z.of_nat (length vs) <= x -> byte_at (put_longs a vs h) x = byte_at h x.
Proof.
  induction vs as [|v vs IH]; intros a h x; cbn [put_longs length]; [done|]. intros.
  rewrite IH by lia. apply byte_put_other; lia.
Qed.
Lemma long_puts vs : forall a h k v, 0 <= a -> a + 4 * Z.of_nat (length vs) <= 2 ^ 32 -> vs !! k = Some v ->
  long_at (put_longs a vs h) (a + 4 * Z.of_nat k) = u32 v.
Proof.
  induction vs as [|w vs IH]; intros a h k v; cbn [put_longs length]; [done|]. intros Ha Hl Hk.
  destruct k as [|k].
  - injection Hk as ->. replace (a + 4 * Z.of_nat 0) with a by lia.
    rewrite <- (long_put_same v a h) by lia. unfold long_at. by rewrite !byte_puts_other by lia.
  - replace (a + 4 * Z.of_nat (S k)) with (a + 4 + 4 * Z.of_nat k) by lia. apply IH; [lia|lia|done].
Qed.

Lemma put_longs_run vs base : forall j s,
  for_each (imap (fun k v => ((j + k)%nat, v)) vs) (fun '(k, v) => put_fs_long v (base + 4 * Z.of_nat k)) s =
  Ret tt (s <| umem ::= put_longs (base + 4 * Z.of_nat j) vs |>).
Proof.
  induction vs as [|v vs IH]; intros j s; cbn [imap for_each]; [by destruct s|].
  rewrite Nat.add_0_r. etransitivity; [by apply bind_Ret|].
  replace (imap ((fun k v => ((j + k)%nat, v)) ∘ S) vs) with (imap (fun k v => ((S j + k)%nat, v)) vs)
    by (apply imap_ext; intros; cbn; do 2 f_equal; lia).
  etransitivity; [apply IH|]. f_equal. destruct s; unfold upd; cbn. do 2 f_equal. lia.
Qed.

(** ** Coming back to user mode *)
Section Return.
Context {E : Env}.

Lemma setme_insert f s t : tmem (sched s) !! current (sched s) = Some t ->
  setme f s = Ret tt (s <| sched ::= fun c => c <| tmem ::= <[current (sched s) := f t]> |> |>).
Proof. intros H. unfold setme. mrun. by apply settask_run. Qed.

(** the task that runs is a user task, interrupted in user mode *)
Definition returns_to_user (g : regs) (s : kst) : Prop :=
  task (sched s) !! 0%nat <> Some (Some (current (sched s))) /\ u16 (g_cs g) = 0x0f /\ u16 (g_ss g) = 0x17.

Definition with_current (t : task_struct) (s : kst) : kst :=
  s <| sched ::= fun c => c <| tmem ::= <[current (sched s) := t]> |> |>.
(** signal bit [n] of a task is taken *)
Definition take_signal (n : nat) (t : task_struct) : task_struct :=
  t <| t_signal ::= fun b => Z.land b (not32 (bit (Z.of_nat n))) |>.

Lemma ret_user eax g s t : returns_to_user g s -> tmem (sched s) !! current (sched s) = Some t ->
  ret_from_sys_call eax g s =
  match bsfl (pending_signals t) with
  | None => Ret (eax, g) s
  | Some n => ('(eip, esp) ← do_signal (Z.of_nat n + 1) eax (g_ebx g) (g_ecx g) (g_edx g) (g_fs g) (g_es g) (g_ds g)
                      (g_eip g) (g_cs g) (g_eflags g) (g_esp g) (g_ss g);
               mret (eax, g <| g_eip := eip |> <| g_esp := esp |>)) (with_current (take_signal n t) s)
  end.
Proof.
  intros (H0 & Hcs & Hss) Ht. unfold ret_from_sys_call.
  rewrite (bind_Ret _ _ _ (sched s) s) by done. rewrite bool_decide_false by done. rewrite Hcs, Hss. cbn [negb Z.eqb Pos.eqb].
  rewrite (bind_Ret _ _ _ _ _ (me_run _ _ Ht)). destruct (bsfl _); [|done].
  by rewrite (bind_Ret _ _ _ _ _ (setme_insert _ _ _ Ht)).
Qed.

(** a handler is only called in user mode, for a task that is not task 0 *)
Lemma ret_kernel eax g s : ~ returns_to_user g s ->
  ret_from_sys_call eax g s = Ret (eax, g) s.
Proof.
  intros H. unfold ret_from_sys_call. rewrite (bind_Ret _ _ _ (sched s) s) by done.
  case_bool_decide as H0; [done|].
  destruct (Z.eqb_spec (u16 (g_cs g)) 0x0f) as [Hc|]; [|done].
  destruct (Z.eqb_spec (u16 (g_ss g)) 0x17) as [Hs|]; [|done]. by destruct H.
Qed.

(** ** The frame of a signal handler *)

(** a write to [addr] meets no write-protected page *)
Definition not_protected (s : kst) (addr : Z) : Prop :=
  let p := word (mm s) (dir_of addr) in
  PRESENT p = true -> Z.land 3 (word (mm s) (u32 (frame p + Z.land (Z.shiftr addr 10) 0xffc))) <> 1.
(** so for every page of the area that [verify_area] looks at; [d] is the data segment *)
Definition area_writable (s : kst) (d : desc_struct) (addr size : Z) : Prop :=
  forall k, (k < Z.to_nat ((s32 (size + Z.land addr 0xfff) + 4095) / 4096))%nat ->
    not_protected s (u32 (u32 (Z.land addr 0xfffff000 + get_base d) + 4096 * Z.of_nat k)).

Lemma write_verify_quiet a s : not_protected s a -> write_verify a s = Ret tt s.
Proof.
  intros H. unfold write_verify, not_protected in *. 
  rewrite (bind_Ret _ _ _ (word (mm s) (dir_of a)) s) by (unfold load; mrun; by destruct s).
  destruct (PRESENT _); cbn [negb]; [|done].
  rewrite (bind_Ret _ _ _ (word (mm s) (u32 (frame (word (mm s) (dir_of a)) + Z.land (Z.shiftr a 10) 0xffc))) s)
    by (unfold load; mrun; by destruct s).
  destruct (Z.eqb_spec (Z.land 3 (word (mm s) (u32 (frame (word (mm s) (dir_of a)) + Z.land (Z.shiftr a 10) 0xffc)))) 1) as [E1|];
    [by destruct (H eq_refl)|done].
Qed.
Lemma for_each_quiet {A} (l : list A) (f : A -> K unit) s :
  (forall x, x ∈ l -> f x s = Ret tt s) -> for_each l f s = Ret tt s.
Proof.
  induction l as [|x l IH]; cbn; intros H; [done|].
  rewrite (bind_Ret _ _ _ _ _ (H x (list_elem_of_here _ _))). apply IH. intros y Hy. apply H. by right.
Qed.
Lemma verify_area_quiet a n s t d : tmem (sched s) !! current (sched s) = Some t -> t_ldt t !! 2%nat = Some d ->
  area_writable s d a n -> verify_area a n s = Ret tt s.
Proof.
  intros Ht Hd H. unfold verify_area.
  rewrite (bind_Ret _ _ _ d s) by (unfold my_ldt; rewrite (bind_Ret _ _ _ _ _ (me_run _ _ Ht)); by rewrite Hd).
  apply for_each_quiet. intros k Hk%elem_of_seq. apply write_verify_quiet, H. lia.
Qed.

(** the longs that [do_signal] pushes for the handler, from the new stack pointer up *)
Definition frame_longs (sa : sigaction) (signr blocked eax ecx edx eflags eip : Z) : list Z :=
  [sa_restorer sa; signr] ++ (if nz (Z.land (sa_flags sa) SA_NOMASK) then [] else [blocked]) ++ [eax; ecx; edx; eflags; eip].
(** the one-shot handler is dropped before the frame is built *)
Definition drop_handler (signr : Z) (sa : sigaction) (t : task_struct) : task_struct :=
  if nz (Z.land (sa_flags sa) SA_ONESHOT)
  then t <| t_sigaction ::= alter (fun a => a <| sa_handler := 0 |>) (Z.to_nat (signr - 1)) |> else t.
(** and what it does to the task: the handler of a one-shot signal goes, the mask is added *)
Definition after_handler (signr : Z) (sa : sigaction) (t : task_struct) : task_struct :=
  (drop_handler signr sa t) <| t_blocked ::= fun b => Z.lor b (sa_mask sa) |>.

Lemma frame_longs_length sa signr b eax ecx edx eflags eip :
  Z.of_nat (length (frame_longs sa signr b eax ecx edx eflags eip)) = if nz (Z.land (sa_flags sa) SA_NOMASK) then 7 else 8.
Proof. unfold frame_longs. by destruct (nz _). Qed.

Definition frame_size (sa : sigaction) : Z := 4 * (if nz (Z.land (sa_flags sa) SA_NOMASK) then 7 else 8).

Lemma get_sigaction_run signr s t sa : tmem (sched s) !! current (sched s) = Some t ->
  t_sigaction t !! Z.to_nat (signr - 1) = Some sa -> get_sigaction signr s = Ret sa s.
Proof. intros Ht Hsa. unfold get_sigaction. rewrite (bind_Ret _ _ _ _ _ (me_run _ _ Ht)). by rewrite Hsa. Qed.

Lemma with_current_id s t : tmem (sched s) !! current (sched s) = Some t -> with_current t s = s.
Proof. intros H. unfold with_current. destruct s as [? c]; unfold upd in *; cbn in *. f_equal. destruct c; cbn in *. f_equal. by apply insert_id. Qed.
Lemma with_current_lookup s t : tmem (sched (with_current t s)) !! current (sched (with_current t s)) = Some t.
Proof. unfold with_current, upd; cbn. apply lookup_insert_eq. Qed.
Lemma with_current_twice s t t' : with_current t (with_current t' s) = with_current t s.
Proof. unfold with_current. destruct s as [? c]; destruct c; unfold upd; cbn. by rewrite insert_insert_eq. Qed.

Lemma drop_handler_run signr sa s t : tmem (sched s) !! current (sched s) = Some t ->
  when (nz (Z.land (sa_flags sa) SA_ONESHOT)) (set_sigaction signr (fun a => a <| sa_handler := 0 |>)) s =
  Ret tt (with_current (drop_handler signr sa t) s).
Proof.
  intros Ht. unfold drop_handler. destruct (nz _); cbn [when].
  - unfold set_sigaction. by rewrite (setme_insert _ _ _ Ht).
  - by rewrite with_current_id.
Qed.

Lemma do_signal_run signr eax ebx ecx edx fs es ds eip cs eflags esp ss s t sa d :
  tmem (sched s) !! current (sched s) = Some t -> t_ldt t !! 2%nat = Some d ->
  t_sigaction t !! Z.to_nat (signr - 1) = Some sa -> sa_handler sa <> 0 -> sa_handler sa <> 1 ->
  area_writable s d (u32 (esp - frame_size sa)) (frame_size sa) ->
  do_signal signr eax ebx ecx edx fs es ds eip cs eflags esp ss s =
  Ret (sa_handler sa, u32 (esp - frame_size sa))
    (with_current (after_handler signr sa t)
       (s <| umem ::= put_longs (u32 (esp - frame_size sa)) (frame_longs sa signr (t_blocked t) eax ecx edx eflags eip) |>)).
Proof.
  intros Ht Hd Hsa H0 H1 Hw. unfold do_signal.
  rewrite (bind_Ret _ _ _ _ _ (get_sigaction_run _ _ _ _ Ht Hsa)).
  destruct (Z.eqb_spec (sa_handler sa) 1); [done|]. destruct (Z.eqb_spec (sa_handler sa) 0); [done|].
  rewrite (bind_Ret _ _ _ tt s) by done. rewrite (bind_Ret _ _ _ _ _ (drop_handler_run _ _ _ _ Ht)).
  cbv zeta. replace (4 * (if nz (Z.land (sa_flags sa) SA_NOMASK) then 7 else 8)) with (frame_size sa) by done.
  rewrite (Z.mul_comm (if nz (Z.land (sa_flags sa) SA_NOMASK) then 7 else 8) 4). fold (frame_size sa).
  set (t1 := drop_handler signr sa t). set (s1 := with_current t1 s).
  assert (Ht1 : tmem (sched s1) !! current (sched s1) = Some t1) by apply with_current_lookup.
  rewrite (bind_Ret _ _ _ tt s1).
  2:{ apply (verify_area_quiet _ _ _ t1 d Ht1); [|exact Hw]. unfold t1, drop_handler. by destruct (nz _). }
  rewrite (bind_Ret _ _ _ _ _ (me_run _ _ Ht1)).
  assert (t_blocked t1 = t_blocked t) as -> by (unfold t1, drop_handler; by destruct (nz _)).
  fold (frame_longs sa signr (t_blocked t) eax ecx edx eflags eip).
  etransitivity; [apply bind_Ret; exact (put_longs_run _ _ 0%nat s1)|].
  rewrite Z.mul_0_r, Z.add_0_r. set (s2 := (_ : kst)).
  assert (Ht2 : tmem (sched s2) !! current (sched s2) = Some t1) by exact Ht1.
  rewrite (bind_Ret _ _ _ _ _ (setme_insert _ _ _ Ht2)). unfold mret, M_ret. f_equal.
  change (s2 <| sched ::= _ |>) with (with_current (t1 <| t_blocked ::= fun b => Z.lor b (sa_mask sa) |>) s2).
  change s2 with (with_current t1 (s <| umem ::= put_longs (u32 (esp - frame_size sa)) (frame_longs sa signr (t_blocked t) eax ecx edx eflags eip) |>)).
  by rewrite with_current_twice.
Qed.

Lemma may_deliver_after n sa t m : (n < 32)%nat -> (m < 32)%nat ->
  may_deliver (after_handler (Z.of_nat n + 1) sa (take_signal n t)) m =
  may_deliver t m && negb (Nat.eqb m n) && negb (Z.testbit (sa_mask sa) (Z.of_nat m)).
Proof.
  intros Hn Hm. unfold may_deliver, after_handler, drop_handler, take_signal.
  destruct (nz _); unfold upd; cbn; rewrite testbit_land, testbit_lor, not_bit by done;
    destruct (Z.testbit (t_signal t) _), (Z.testbit (t_blocked t) _), (Z.testbit (sa_mask sa) _), (Nat.eqb m n); done.
Qed.
Lemma lowest_pending t n : (n < 32)%nat -> may_deliver t n = true ->
  (forall m, (m < n)%nat -> may_deliver t m = false) -> bsfl (pending_signals t) = Some n.
Proof.
  intros Hn Hb Hlow. destruct (bsfl (pending_signals t)) as [k|] eqn:Eb.
  - apply bsfl_Some in Eb as (Hk & Hkb & Hkl). rewrite pending_bit in Hkb by done.
    destruct (Nat.lt_trichotomy k n) as [Hlt|[->|Hlt]]; [by rewrite Hlow in Hkb|done|].
    specialize (Hkl n Hlt). by rewrite pending_bit, Hb in Hkl.
  - pose proof (bsfl_None _ Eb n Hn) as Hf. by rewrite pending_bit, Hb in Hf.
Qed.
Lemma none_pending t : (forall n, (n < 32)%nat -> may_deliver t n = false) -> bsfl (pending_signals t) = None.
Proof.
  intros H. destruct (bsfl (pending_signals t)) as [k|] eqn:Eb; [|done].
  apply bsfl_Some in Eb as (Hk & Hkb & _). by rewrite pending_bit, H in Hkb.
Qed.
Lemma signal_after n t m : (n < 32)%nat -> (m < 32)%nat ->
  Z.testbit (t_signal (take_signal n t)) (Z.of_nat m) = Z.testbit (t_signal t) (Z.of_nat m) && negb (Nat.eqb m n).
Proof. intros Hn Hm. unfold take_signal, upd; cbn. by rewrite Z.land_spec, not_bit. Qed.
Lemma after_handler_task n sa t : let t' := after_handler (Z.of_nat n + 1) sa (take_signal n t) in
  t_signal t' = t_signal (take_signal n t) /\ t_blocked t' = Z.lor (t_blocked t) (sa_mask sa) /\
  t_sigaction t' = (if nz (Z.land (sa_flags sa) SA_ONESHOT) then alter (fun a => a <| sa_handler := 0 |>) n (t_sigaction t) else t_sigaction t) /\
  t' = t <| t_signal := t_signal t' |> <| t_blocked := t_blocked t' |> <| t_sigaction := t_sigaction t' |>.
Proof.
  unfold after_handler, drop_handler, take_signal. replace (Z.to_nat (Z.of_nat n + 1 - 1)) with n by lia.
  destruct (nz _), t; split_and!; reflexivity.
Qed.
(** a signal that is ignored, or whose default is to do nothing *)
Lemma do_signal_ignored signr eax ebx ecx edx fs es ds eip cs eflags esp ss s t sa :
  tmem (sched s) !! current (sched s) = Some t -> t_sigaction t !! Z.to_nat (signr - 1) = Some sa ->
  sa_handler sa = 1 \/ (sa_handler sa = 0 /\ signr = SIGCHLD) ->
  do_signal signr eax ebx ecx edx fs es ds eip cs eflags esp ss s = Ret (eip, esp) s.
Proof.
  intros Ht Hsa H. unfold do_signal. rewrite (bind_Ret _ _ _ _ _ (get_sigaction_run _ _ _ _ Ht Hsa)).
  by destruct H as [->|[-> ->]].
Qed.
End Return.

Section Delivery.
Context {E : Env}.

(** C9: signals are delivered on the way back to user mode, and only there.
    Nothing happens for task 0, for a return to the kernel or when no unblocked
    signal is pending.  Otherwise the lowest-numbered one is taken.  If it is
    ignored, by the program or ([SIGCHLD]) by default, only its bit is cleared.
    If the
    program has a handler, the task goes on at the handler with a stack frame
    that holds the restorer, the signal number, the old mask (unless
    [SA_NOMASK]), [eax], [ecx], [edx], the flags and the old [eip], and nothing else
    of its memory changes; the bit of the signal is cleared and every other
    pending signal, blocked or not, stays pending; exactly the signals of the
    handler's mask are blocked in addition; a one-shot handler is dropped; and
    nothing else changes, in the task or elsewhere. *)
Theorem signal_delivery_correct (eax : Z) (g : regs) (s : kst) (t : task_struct) (d : desc_struct)
  (Ht : tmem (sched s) !! current (sched s) = Some t) (Hd : t_ldt t !! 2%nat = Some d) :
  (~ returns_to_user g s -> ret_from_sys_call eax g s = Ret (eax, g) s) /\
  ((forall n, (n < 32)%nat -> may_deliver t n = false) -> ret_from_sys_call eax g s = Ret (eax, g) s) /\
  (forall n sa, returns_to_user g s -> (n < 32)%nat -> may_deliver t n = true ->
   (forall m, (m < n)%nat -> may_deliver t m = false) -> t_sigaction t !! n = Some sa ->
   exists sig, (forall m, (m < 32)%nat -> Z.testbit sig (Z.of_nat m) = Z.testbit (t_signal t) (Z.of_nat m) && negb (Nat.eqb m n)) /\
   (sa_handler sa = 1 \/ (sa_handler sa = 0 /\ Z.of_nat n + 1 = SIGCHLD) ->
    ret_from_sys_call eax g s = Ret (eax, g) (with_current (t <| t_signal := sig |>) s)) /\
   (sa_handler sa <> 0 -> sa_handler sa <> 1 ->
    frame_size sa <= g_esp g < 2 ^ 32 -> area_writable s d (g_esp g - frame_size sa) (frame_size sa) ->
    exists s' t', let esp := g_esp g - frame_size sa in
     ret_from_sys_call eax g s = Ret (eax, g <| g_eip := sa_handler sa |> <| g_esp := esp |>) s' /\
     (forall k v, frame_longs sa (Z.of_nat n + 1) (t_blocked t) eax (g_ecx g) (g_edx g) (g_eflags g) (g_eip g) !! k = Some v ->
        long_at (umem s') (esp + 4 * Z.of_nat k) = u32 v) /\
     (forall x, 0 <= x < 2 ^ 32 -> x < esp \/ g_esp g <= x -> byte_at (umem s') x = byte_at (umem s) x) /\
     tmem (sched s') = <[current (sched s) := t']> (tmem (sched s)) /\
     s' = with_current t' (s <| umem := umem s' |>) /\
     t' = t <| t_signal := sig |> <| t_blocked := Z.lor (t_blocked t) (sa_mask sa) |>
            <| t_sigaction := if nz (Z.land (sa_flags sa) SA_ONESHOT) then <[n := sa <| sa_handler := 0 |>]> (t_sigaction t) else t_sigaction t |> /\
     (forall m, (m < 32)%nat -> may_deliver t' m = may_deliver t m && negb (Nat.eqb m n) && negb (Z.testbit (sa_mask sa) (Z.of_nat m))))).
Proof.
  split_and!; [by apply ret_kernel| |].
  - intros Hnone. destruct (decide (returns_to_user g s)) as [Hu|Hu]; [|by apply ret_kernel].
    by rewrite (ret_user _ _ _ _ Hu Ht), none_pending.
  - intros n sa Hu Hn Hb Hlow Hsa. rewrite (ret_user _ _ _ _ Hu Ht), (lowest_pending t n Hn Hb Hlow).
    set (s1 := with_current (take_signal n t) s). exists (t_signal (take_signal n t)).
    assert (t_sigaction (take_signal n t) !! Z.to_nat (Z.of_nat n + 1 - 1) = Some sa) as Hsa1
      by (by replace (Z.to_nat (Z.of_nat n + 1 - 1)) with n by lia).
    split; [intros m Hm; by apply signal_after|]. split.
    { intros Hign. rewrite (bind_Ret _ _ _ _ _ (do_signal_ignored _ _ _ _ _ _ _ _ _ _ _ _ _ s1 _ _ (with_current_lookup _ _) Hsa1 Hign)).
      by destruct g. }
    intros H0 H1 Hesp Hw. set (esp := g_esp g - frame_size sa).
    assert (u32 esp = esp) as He by (apply u32_id; unfold esp, frame_size in *; destruct (nz _); lia).
    destruct (after_handler_task n sa t) as (T1 & T2 & T3 & T4).
    eexists _, (after_handler (Z.of_nat n + 1) sa (take_signal n t)). cbv zeta. split_and!.
    + rewrite (bind_Ret _ _ _ _ _ (do_signal_run _ _ _ _ _ _ _ _ _ _ _ (g_esp g) _ s1 (take_signal n t) sa d
        (with_current_lookup _ _) Hd Hsa1 H0 H1 ltac:(fold esp; by rewrite He))). fold esp. by rewrite He.
    + intros k v Hk. apply long_puts; [unfold esp; lia| |exact Hk].
      rewrite frame_longs_length. unfold esp, frame_size in *. destruct (nz _); lia.
    + intros x Hx Hout. apply byte_puts_other; rewrite ?frame_longs_length; [unfold esp; lia| |done|];
        unfold esp, frame_size in *; destruct (nz _); lia.
    + unfold s1, with_current, upd; cbn. by rewrite insert_insert_eq.
    + unfold s1. unfold with_current, upd; cbn. by rewrite insert_insert_eq.
    + assert ((if nz (Z.land (sa_flags sa) SA_ONESHOT) then alter (fun a => a <| sa_handler := 0 |>) n (t_sigaction t) else t_sigaction t) =
        (if nz (Z.land (sa_flags sa) SA_ONESHOT) then <[n := sa <| sa_handler := 0 |>]> (t_sigaction t) else t_sigaction t)) as Heq.
      { destruct (nz _); [|done]. rewrite list_insert_alter. apply list_alter_ext; [|done]. intros a Ha. congruence. }
      by rewrite T4, T1, T2, T3, Heq.
    + intros m Hm. by apply may_deliver_after.
Qed.

(** the numbers of the calls that return [-ENOSYS] *)
Definition unimplemented : list Z :=
  [__NR_break; __NR_ptrace; __NR_stty; __NR_gtty; __NR_ftime; __NR_rename; __NR_prof; __NR_acct; __NR_phys;
   __NR_lock; __NR_mpx; __NR_ulimit; __NR_ustat].
(** nothing keeps the task in the kernel: it has time left and no signal *)
Definition undisturbed (t : task_struct) : Prop :=
  state_word t = 0 /\ t_counter t <> 0 /\ forall n, (n < 32)%nat -> may_deliver t n = false.

Lemma system_call_run nr g s s' r (f : fn_ptr) t : u32 nr < nr_system_calls ->
  sys_call_table !! Z.to_nat (u32 nr) = Some f -> f g s = Ret (r, g) s' ->
  tmem (sched s') !! current (sched s') = Some t -> undisturbed t ->
  system_call nr g s = Ret (r, g) s'.
Proof.
  intros Hnr Hf Hrun Ht (Hsw & Hc & Hnone). unfold system_call.
  destruct (Z.ltb_spec (nr_system_calls - 1) (u32 nr)); [lia|].
  rewrite (bind_Ret _ _ _ f s) by exact (deref_run _ _ _ Hf). rewrite (bind_Ret _ _ _ _ _ Hrun), (bind_Ret _ _ _ _ _ (me_run _ _ Ht)).
  rewrite Hsw. destruct (Z.eqb_spec (t_counter t) 0); [done|]. cbn [nz Z.eqb negb orb when].
  rewrite (bind_Ret _ _ _ tt s') by done.
  destruct (decide (returns_to_user g s')) as [Hu|Hu]; [|by apply ret_kernel].
  by rewrite (ret_user _ _ _ _ Hu Ht), none_pending.
Qed.
Lemma sys_call_table_length : length sys_call_table = Z.to_nat nr_system_calls.
Proof. reflexivity. Qed.
Lemma unimplemented_nosys nr : nr ∈ unimplemented ->
  sys_call_table !! Z.to_nat (u32 nr) = Some (nosys (- ENOSYS)) /\ u32 nr < nr_system_calls.
Proof.
  intros Hnr. assert (Forall (fun nr => sys_call_table !! Z.to_nat (u32 nr) = Some (nosys (- ENOSYS)) /\ u32 nr < nr_system_calls) unimplemented) as HF.
  { unfold unimplemented. repeat constructor. }
  by apply (proj1 (Forall_forall _ _) HF).
Qed.

(** C31: what a program sees of the calls that fail or only report.  Each
    number below 72 has a handler; any other number, also a negative one,
    gives -1 with [errno] 1 and leaves the kernel as it was; the thirteen
    unimplemented calls give -1 with [errno] [ENOSYS] and change nothing; and
    [getpid], [getuid] and their relatives report the fields of the calling task. *)
Theorem user_call_results (g : regs) (s : kst) (t : task_struct)
  (Ht : tmem (sched s) !! current (sched s) = Some t) (Hq : undisturbed t) :
  (forall nr, u32 nr < 72 -> is_Some (sys_call_table !! Z.to_nat (u32 nr))) /\
  (forall nr, 72 <= u32 nr -> int80 nr g s = Ret (mk_result (-1) (Some 1) g) s) /\
  (forall nr, nr ∈ unimplemented -> int80 nr g s = Ret (mk_result (-1) (Some ENOSYS) g) s) /\
  (forall nr v, (nr, v) ∈ [(__NR_getpid, t_pid t); (__NR_getppid, t_father t); (__NR_getpgrp, t_pgrp t);
                           (__NR_getuid, t_uid t); (__NR_geteuid, t_euid t); (__NR_getgid, t_gid t); (__NR_getegid, t_egid t)] ->
     0 <= v -> int80 nr g s = Ret (mk_result v None g) s).
Proof.
  unfold int80. split_and!.
  - intros nr Hnr. apply lookup_lt_is_Some_2. rewrite sys_call_table_length.
    pose proof (u32_range nr). unfold nr_system_calls. lia.
  - intros nr Hnr. rewrite (bind_Ret _ _ _ (-1, g) s); [done|]. unfold system_call, nr_system_calls.
    destruct (Z.ltb_spec (72 - 1) (u32 nr)); [done|lia].
  - intros nr [Hf Hl]%unimplemented_nosys.
    by rewrite (bind_Ret _ _ _ _ _ (system_call_run nr g s s (- ENOSYS) _ t Hl Hf eq_refl Ht Hq)).
  - intros nr v Hin Hv.
    assert (exists m, sys_call_table !! Z.to_nat (u32 nr) = Some (call0 m) /\ u32 nr < nr_system_calls /\ m s = Ret v s)
      as (m & Hf & Hl & Hm).
    { rewrite !elem_of_cons, elem_of_nil in Hin.
      destruct Hin as [H|[H|[H|[H|[H|[H|[H|[]]]]]]]]; injection H as -> ->;
        (eexists; split; [reflexivity|split; [reflexivity|]]; exact (bind_Ret _ _ _ _ _ (me_run _ _ Ht))). }
    assert (call0 m g s = Ret (v, g) s) as Hc by (unfold call0; by rewrite (bind_Ret _ _ _ _ _ Hm)).
    rewrite (bind_Ret _ _ _ _ _ (system_call_run nr g s s v _ t Hl Hf Hc Ht Hq)).
    destruct (Z.leb_spec 0 v); [done|lia].
Qed.
End Delivery.

(** task 1 with signals 3 and 15 pending, a handler for signal 3 that blocks signal 15 *)
Definition signalled_task : task_struct :=
  INIT_TASK <| t_pid := 1 |> <| t_signal := bit 2 |> <| t_signal ::= Z.lor (bit 14) |>
    <| t_sigaction ::= <[2%nat := mk_sigaction 0x1000 (bit 14) 0 0x2000]> |>.
Definition signalled : kst :=
  boot_kst <| sched := two_tasks <| current := 0x2000 |> <| tmem ::= <[0x2000 := signalled_task]> |> |>.
Definition user_regs : regs := mk_regs 0 0 0 0x17 1 2 3 0x17 0x17 0x17 0x400 0x0f 0x246 0x3ff0000 0x17.

Lemma no_paging_writable s d a n : phys (mm s) = ∅ -> area_writable s d a n.
Proof. intros H k _ Hp. exfalso. revert Hp. unfold word. by rewrite H, lookup_empty. Qed.

Lemma signal_delivery_correct_witness :
  exists s' t', @ret_from_sys_call (quiet_env 3) 7 user_regs signalled =
      Ret (7, user_regs <| g_eip := 0x1000 |> <| g_esp := 0x3ff0000 - 32 |>) s' /\
    long_at (umem s') (0x3ff0000 - 32 + 4 * 1) = 3 /\ long_at (umem s') (0x3ff0000 - 32 + 4 * 7) = 0x400 /\
    tmem (sched s') !! 0x2000 = Some t' /\ Z.testbit (t_signal t') 14 = true /\ t_blocked t' = bit 14.
Proof.
  destruct (proj2 (proj2 (@signal_delivery_correct (quiet_env 3) 7 user_regs signalled signalled_task
    (default (mk_desc 0 0) (t_ldt signalled_task !! 2%nat)) ltac:(vm_compute; reflexivity) ltac:(vm_compute; reflexivity)))
    2%nat (mk_sigaction 0x1000 (bit 14) 0 0x2000)) as (sig & Hsig & _ & Hrun).
  - split; [vm_compute; discriminate|split; vm_compute; reflexivity].
  - lia.
  - vm_compute; reflexivity.
  - intros [|[|m]] Hm; [vm_compute; reflexivity|vm_compute; reflexivity|lia].
  - vm_compute; reflexivity.
  - destruct Hrun as (s' & t' & Hrun & Hlongs & _ & Htm & _ & Ht' & _).
    + discriminate.
    + discriminate.
    + split; [vm_compute; discriminate|vm_compute; reflexivity].
    + apply no_paging_writable. vm_compute; reflexivity.
    + exists s', t'. split; [exact Hrun|]. split; [exact (Hlongs 1%nat 3 eq_refl)|]. split; [exact (Hlongs 7%nat 0x400 eq_refl)|].
      split; [rewrite Htm; apply lookup_insert_eq|]. rewrite Ht'. split; [exact (Hsig 14%nat ltac:(lia))|reflexivity].
Defined.

Lemma user_call_results_witness :
  @_syscall0 (quiet_env 3) __NR_getpid user_regs boot_kst = Ret (mk_result 0 None user_regs) boot_kst /\
  @_syscall3 (quiet_env 3) 72 1 2 3 user_regs boot_kst = Ret (mk_result (-1) (Some 1) user_regs) boot_kst /\
  @_syscall3 (quiet_env 3) __NR_rename 1 2 3 user_regs boot_kst = Ret (mk_result (-1) (Some 38) user_regs) boot_kst.
Proof.
  assert (tmem (sched boot_kst) !! current (sched boot_kst) = Some INIT_TASK) as Ht by (vm_compute; reflexivity).
  assert (undisturbed INIT_TASK) as Hq.
  { split; [vm_compute; reflexivity|]. split; [vm_compute; discriminate|].
    intros n Hn. unfold may_deliver. change (t_signal INIT_TASK) with 0. by rewrite Z.testbit_0_l. }
  split_and!.
  - apply (proj2 (proj2 (proj2 (@user_call_results (quiet_env 3) user_regs boot_kst INIT_TASK Ht Hq))) __NR_getpid 0);
      [vm_compute; repeat constructor|lia].
  - apply (proj1 (proj2 (@user_call_results (quiet_env 3) user_regs boot_kst INIT_TASK Ht Hq)) 72). vm_compute. discriminate.
  - apply (proj1 (proj2 (proj2 (@user_call_results (quiet_env 3) user_regs boot_kst INIT_TASK Ht Hq))) __NR_rename).
    vm_compute. repeat constructor.
Defined.
