(* ===== verification/TtyIntr.v ===== *)
(** * kernel/chr_drv/keyb.cc, keyboard.S, rs_io.s: the interrupts of the terminals

    The keyboard interrupt looks a routine up in [key_table] by the scan code;
    the routines keep track of the keys that are held down and put characters
    into the read queue of the console.  The serial interrupts move characters
    between the ports and the queues of the other two terminals.  The key tables
    are those of [KBD_US]. *)

From S2P Require Import Prelude State Memory Sched Namei TtyQueue Tty SysCall.

(** ** The variables of keyboard.S: the keys held down, the lamps, the prefix seen *)
Record kbd_st : Type := mk_kbd { mode : Z; leds : Z; e0 : Z }.
#[export] Instance eta_kbd_st : Eta kbd_st := fun r => mk_kbd (mode r) (leds r) (e0 r).
Definition kbd_start : kbd_st := mk_kbd 0 2 0.

(** [testb m,x] *)
Definition testb (m x : Z) : bool := nz (Z.land m x).

(** ** The tables *)
Definition text (s : string) : list Z := chr <$> String.list_ascii_of_string s.
Definition key_map : list Z :=
  [0; 27] ++ text "1234567890-=" ++ [127; 9] ++ text "qwertyuiop[]" ++ [13; 0] ++ text "asdfghjkl;'" ++
  text "`" ++ [0] ++ text "\zxcvbnm,./" ++ [0] ++ text "*" ++ [0; 32] ++ replicate 16 0 ++
  text "-" ++ [0; 0; 0] ++ text "+" ++ replicate 7 0 ++ text "<" ++ replicate 10 0.
Definition shift_map : list Z :=
  [0; 27] ++ text "!@#$%^&*()_+" ++ [127; 9] ++ text "QWERTYUIOP{}" ++ [13; 0] ++ text "ASDFGHJKL:" ++ [34] ++
  text "~" ++ [0] ++ text "|ZXCVBNM<>?" ++ [0] ++ text "*" ++ [0; 32] ++ replicate 16 0 ++
  text "-" ++ [0; 0; 0] ++ text "+" ++ replicate 7 0 ++ text ">" ++ replicate 10 0.
Definition alt_map : list Z :=
  [0; 0] ++ [0] ++ text "@" ++ [0] ++ text "$" ++ [0; 0] ++ text "{[]}\" ++ [0] ++ [0; 0] ++ replicate 11 0 ++
  text "~" ++ [13; 0] ++ replicate 11 0 ++ [0; 0] ++ replicate 11 0 ++ replicate 4 0 ++ replicate 16 0 ++
  replicate 5 0 ++ replicate 7 0 ++ text "|" ++ replicate 10 0.
Definition num_table : list Z := text "789 456 1230,".
Definition cur_table : list Z := text "HA5 DGC YB623".
Definition func_table : list Z :=
  [0x415b5b1b; 0x425b5b1b; 0x435b5b1b; 0x445b5b1b; 0x455b5b1b; 0x465b5b1b; 0x475b5b1b; 0x485b5b1b;
   0x495b5b1b; 0x4a5b5b1b; 0x4b5b5b1b; 0x4c5b5b1b].

(** [put_queue]: the bytes of [v], the lowest first, until the rest of the low
    word is 0; [ecx] is where the next one goes.  No new head when the queue is full *)
Fixpoint put_bytes (n : nat) (v ecx : Z) (q : tty_queue) : tty_queue * option Z :=
  match n with
  | O => (q, Some ecx)
  | S n =>
      let q := q <| q_buf ::= <[Z.to_nat ecx := u8 v]> |> in
      let ecx := mask (ecx + 1) in                                  (* incl; andl $size-1 *)
      if ecx =? q_tail q then (q, None) else
      let v := Z.shiftr v 8 in                                     (* shrdl $8,%ebx,%eax ; shrl $8,%ebx *)
      if u32 v =? 0 then (q, Some ecx) else put_bytes n v ecx q
  end.

(** a task that waits for the queue is made runnable; it stays in the list *)
Definition rouse {E : Env} (q : tty_queue) : K unit :=
  match q_proc_list q with Some p => settask p (fun k => k <| t_state := TASK_RUNNING |>) | None => mret tt end.

Section Keyboard.
Context {E : Env}.

(** [%ebx:%eax], at most 8 bytes *)
Definition put_queue (eax ebx : Z) : K unit :=
  x ← getq 0 READ_Q;
  let '(q, h) := put_bytes 8 (eax + 2 ^ 32 * ebx) (q_head x) x in
  match h with
  | Some h => setq 0 READ_Q (fun _ => q <| q_head := h |>) ;; rouse q
  | None => setq 0 READ_Q (fun _ => q)
  end.

(** a routine of [key_table]: [eax] is the scan code, [ecx] comes from the
    interrupted program *)
Definition routine : Type := Z -> Z -> kbd_st -> K kbd_st.
Definition none : routine := fun eax ecx k => mret k.

(** the right-hand keys have the next bit *)
Definition right_bit (al : Z) (k : kbd_st) : Z := if e0 k =? 0 then al else u8 (al + al).
Definition press (al : Z) (k : kbd_st) : kbd_st := k <| mode ::= Z.lor (right_bit al k) |>.
Definition unpress (al : Z) (k : kbd_st) : kbd_st := k <| mode ::= Z.land (Z.lxor (right_bit al k) 0xff) |>.
Definition ctrl : routine := fun eax ecx k => mret (press 0x04 k).
Definition alt : routine := fun eax ecx k => mret (press 0x10 k).
Definition unctrl : routine := fun eax ecx k => mret (unpress 0x04 k).
Definition unalt : routine := fun eax ecx k => mret (unpress 0x10 k).
Definition lshift : routine := fun eax ecx k => mret (k <| mode ::= Z.lor 0x01 |>).
Definition unlshift : routine := fun eax ecx k => mret (k <| mode ::= Z.land 0xfe |>).
Definition rshift : routine := fun eax ecx k => mret (k <| mode ::= Z.lor 0x02 |>).
Definition unrshift : routine := fun eax ecx k => mret (k <| mode ::= Z.land 0xfd |>).

(** until the controller's buffer is empty, without a limit *)
Definition kb_wait : K unit := while env_fuel (al ← inb 0x64; mret (testb 0x02 al)) (mret tt).
Definition set_leds (k : kbd_st) : K kbd_st :=
  kb_wait ;; outb 0xed 0x60 ;; kb_wait ;; outb (leds k) 0x60 ;; mret k.
Definition caps : routine := fun eax ecx k =>
  if testb 0x80 (mode k) then mret k else
  set_leds (k <| leds ::= Z.lxor 4 |> <| mode ::= fun m => Z.lor 0x80 (Z.lxor 0x40 m) |>).
Definition uncaps : routine := fun eax ecx k => mret (k <| mode ::= Z.land 0x7f |>).
Definition scroll : routine := fun eax ecx k => set_leds (k <| leds ::= Z.lxor 1 |>).
Definition num : routine := fun eax ecx k => set_leds (k <| leds ::= Z.lxor 2 |>).

(** [0x1234] at [0x472]: no memory check; then the reset line, and [jmp die] *)
Definition reboot : K unit :=
  kb_wait ;;
  zoom_mm (v ← load 0x470; store 0x470 (Z.lor (Z.land v 0xffff) (Z.shiftl 0x1234 16))) ;;
  outb 0xfc 0x64 ;; spin.

(** the keys of the number pad; [eax] is at most 12 *)
Definition cur (eax : Z) (k : kbd_st) : K kbd_st :=
  al ← deref (cur_table !! Z.to_nat eax);
  let ax := if al <=? 0x39 then Z.lor al (Z.shiftl 0x7e 8) else al in        (* '9' and '~' *)
  put_queue (Z.lor 0x5b1b (Z.shiftl ax 16)) 0 ;; mret k.
Definition cursor : routine := fun eax ecx k =>
  if eax <? 0x47 then mret k else
  let eax := eax - 0x47 in
  if 12 <? eax then mret k else
  if (eax =? 12) && testb 0x0c (mode k) && testb 0x30 (mode k) then reboot ;; mret k else
  if (e0 k =? 1) || negb (testb 0x02 (leds k)) || testb 0x03 (mode k) then cur eax k else
  al ← deref (num_table !! Z.to_nat eax); put_queue al 0 ;; mret k.

(** the character of a key: the table by the shift keys, then caps, control, alt *)
Definition self_map (m : Z) : list Z :=
  if testb 0x20 m then alt_map else if testb 0x03 m then shift_map else key_map.
Definition self_char (m al : Z) : Z :=
  let al := if testb 0x4c m && (0x61 <=? al) && (al <=? 0x7d) then al - 32 else al in
  let al := if testb 0x0c m && (64 <=? al) && (al <? 64 + 32) then al - 64 else al in
  if testb 0x10 m then Z.lor al 0x80 else al.
Definition do_self : routine := fun eax ecx k =>
  al ← deref (self_map (mode k) !! Z.to_nat eax);
  if al =? 0 then mret k else put_queue (self_char (mode k) al) 0 ;; mret k.
Definition minus : routine := fun eax ecx k =>
  if e0 k =? 1 then put_queue 0x2f 0 ;; mret k else do_self eax ecx k.

(** ** [show_stat] of kernel/sched.cc *)
Definition TASK_STRUCT_SIZE : Z := 956.
Definition show_task (nr : Z) (p : tptr) : K unit :=
  let j := 4096 - TASK_STRUCT_SIZE in
  k ← gettask p;
  printk "%d: pid=%d, state=%d, " [nr; t_pid k; t_state k] ;;
  i ← loop (S (Z.to_nat j)) (fun i =>
    if j <=? i then mret (inr i) else
    c ← phys_byte (p + TASK_STRUCT_SIZE + i); mret (if c =? 0 then inl (i + 1) else inr i)) 0;
  printk "%d (of %d) chars free in kernel stack\n\r" [i; j].
Definition show_stat : K unit :=
  for_each (seq 0 NR_TASKS) (fun i =>
    s ← gets sched; o ← deref (task s !! i);
    match o with Some p => show_task (Z.of_nat i) p | None => mret tt end).

(** the function keys; the test of [ecx] is meant for the room in the queue *)
Definition func : routine := fun eax ecx k =>
  show_stat ;;
  let al := u8 (eax - 0x3B) in
  if eax <? 0x3B then mret k else
  let i := if al <=? 9 then al else al - 18 in
  if negb (al <=? 9) && negb ((10 <=? u8 i) && (u8 i <=? 11)) then mret k else
  if s32 ecx <? 4 then mret k else
  v ← deref (func_table !! Z.to_nat i); put_queue v 0 ;; mret k.

Definition key_table : list routine := [
  none; do_self; do_self; do_self;
  do_self; do_self; do_self; do_self;
  do_self; do_self; do_self; do_self;
  do_self; do_self; do_self; do_self;
  do_self; do_self; do_self; do_self;
  do_self; do_self; do_self; do_self;
  do_self; do_self; do_self; do_self;
  do_self; ctrl; do_self; do_self;
  do_self; do_self; do_self; do_self;
  do_self; do_self; do_self; do_self;
  do_self; do_self; lshift; do_self;
  do_self; do_self; do_self; do_self;
  do_self; do_self; do_self; do_self;
  do_self; minus; rshift; do_self;
  alt; do_self; caps; func;
  func; func; func; func;
  func; func; func; func;
  func; num; scroll; cursor;
  cursor; cursor; do_self; cursor;
  cursor; cursor; do_self; cursor;
  cursor; cursor; cursor; cursor;
  none; none; do_self; func;
  func; none; none; none
] ++ replicate 65 none ++ [unctrl] ++ replicate 12 none ++ [unlshift] ++ replicate 11 none ++
  [unrshift; none; unalt; none; uncaps] ++ replicate 69 none.

(** what the scan code does to the keyboard: a prefix is remembered for one code *)
Definition scan_code (al ecx : Z) (k : kbd_st) : K kbd_st :=
  if al =? 0xe0 then mret (k <| e0 := 1 |>)
  else if al =? 0xe1 then mret (k <| e0 := 2 |>)
  else
    f ← deref (key_table !! Z.to_nat al);
    k ← f al ecx k; mret (k <| e0 := 0 |>).
Definition keyboard_interrupt (ecx : Z) (k : kbd_st) : K kbd_st :=
  al ← inb 0x60;
  k ← scan_code al ecx k;
  v ← inb 0x61;
  outb (Z.lor v 0x80) 0x61 ;; outb (Z.land (Z.lor v 0x80) 0x7f) 0x61 ;;
  outb 0x20 0x20 ;;
  do_tty_interrupt 0 ;;
  mret k.
End Keyboard.

(** ** rs_io.s: terminal [t] is 1 or 2 *)
Section Serial.
Context {E : Env}.
Definition startup : Z := 256.

Definition modem_status (port : Z) : K unit := _ ← inb (port + 6); mret tt.
Definition line_status (port : Z) : K unit := _ ← inb (port + 5); mret tt.

(** a character too many is lost *)
Definition receive (c : Z) (q : tty_queue) : tty_queue :=
  let h := mask (q_head q + 1) in
  let q := q <| q_buf ::= <[Z.to_nat (q_head q) := u8 c]> |> in
  if h =? q_tail q then q else q <| q_head := h |>.
Definition read_char (t : nat) (port : Z) : K unit :=
  al ← inb port; setq t READ_Q (receive al) ;; do_tty_interrupt t.

(** nothing to send: no more interrupts for it *)
Definition write_buffer_empty (t : nat) (port : Z) : K unit :=
  q ← getq t WRITE_Q; rouse q ;;
  v ← inb (port + 1); outb (Z.land v 0xd) (port + 1).
Definition write_char (t : nat) (port : Z) : K unit :=
  q ← getq t WRITE_Q;
  if CHARS q =? 0 then write_buffer_empty t port else
  when (CHARS q <=? startup) (rouse q) ;;
  al ← deref (q_buf q !! Z.to_nat (q_tail q));
  outb al port ;;
  setq t WRITE_Q pop ;;
  q ← getq t WRITE_Q;
  when (EMPTY q) (write_buffer_empty t port).

(** until no cause of an interrupt is left *)
Definition rs_int (t : nat) : K unit :=
  x ← getq t READ_Q;
  let port := q_data x in
  loop env_fuel (fun _ : unit =>
    al ← inb (port + 2);
    if testb 1 al || (6 <? al) then mret (inr tt) else
    (if al =? 0 then modem_status port else if al =? 2 then write_char t port
     else if al =? 4 then read_char t port else line_status port) ;;
    mret (inl tt)) tt ;;
  outb 0x20 0x20.
Definition rs1_interrupt : K unit := rs_int 1.
Definition rs2_interrupt : K unit := rs_int 2.
End Serial.
