(* ===== verification/TtyIntrFacts.v ===== *)
(** * The interrupts of the terminals: queues, held keys, characters *)

From S2P Require Import Prelude Bits State Memory Sched Namei TtyQueue TtyQueueFacts Tty SysCall TtyIntr.

(** a run on a concrete state that returns *)
Definition returns {S A} (o : out S A) : bool := match o with Ret _ _ => true | _ => false end.
Lemma returns_Ret {S A} (o : out S A) : returns o = true -> exists a s, o = Ret a s.
Proof. destruct o; [eauto|done..]. Qed.

(** ** [put_queue] puts all the characters or none *)

(** the characters [put_queue] makes of [v]: the bytes up to the last one that is not 0 *)
Fixpoint key_bytes (n : nat) (v : Z) : list Z :=
  match n with
  | O => []
  | S n => u8 v :: (if u32 (Z.shiftr v 8) =? 0 then [] else key_bytes n (Z.shiftr v 8))
  end.

(** the queue with the head that [put_queue] has reached *)
Definition at_head (h : Z) (q : tty_queue) : tty_queue := q <| q_head := h |>.
Definition puts (l : list Z) (q : tty_queue) : tty_queue := foldl (fun q c => PUTCH c q) q l.

Lemma at_head_PUTCH c h q :
  at_head (mask (h + 1)) (q <| q_buf ::= <[Z.to_nat h := u8 c]> |>) = PUTCH c (at_head h q).
Proof. done. Qed.
Lemma PUTCH_u8 c q : PUTCH (u8 c) q = PUTCH c q.
Proof. unfold PUTCH, u8. by rewrite Zmod_mod. Qed.
Lemma key_bytes_u8 n v : u8 <$> key_bytes n v = key_bytes n v.
Proof.
  revert v. induction n as [|n IH]; intros v; cbn; [done|]. f_equal; [apply Zmod_mod|]. destruct (_ =? 0); [done|apply IH].
Qed.
Lemma PUTCH_wraps c q : wf_queue q -> (q_head (PUTCH c q) =? q_tail q) = (CHARS q =? CAPACITY).
Proof.
  intros W. pose proof (CHARS_range q). destruct W. apply eq_true_iff_eq. rewrite !Z.eqb_eq.
  unfold CAPACITY, TTY_BUF_SIZE. cbn. unfold CHARS in *. queue_mod.
Qed.
Lemma contents_puts l q : wf_queue q -> CHARS q + Z.of_nat (length l) <= CAPACITY ->
  wf_queue (puts l q) /\ q_contents (puts l q) = q_contents q ++ (u8 <$> l).
Proof.
  revert q. induction l as [|c l IH]; intros q W HC; cbn; [by rewrite app_nil_r|]. cbn [length] in HC.
  assert (CHARS (PUTCH c q) = CHARS q + 1) as HP.
  { rewrite CHARS_PUTCH by done. pose proof (CHARS_range q). apply Z.mod_small. unfold CAPACITY, TTY_BUF_SIZE in HC. lia. }
  destruct (IH (PUTCH c q)) as [W' Hc]; [by apply wf_PUTCH|lia|]. split; [exact W'|].
  etransitivity; [exact Hc|]. rewrite contents_PUTCH by (done || lia). by rewrite <- app_assoc.
Qed.

Lemma put_bytes_room n v h q : wf_queue (at_head h q) -> CHARS (at_head h q) + Z.of_nat (length (key_bytes n v)) <= CAPACITY ->
  exists q' h', put_bytes n v h q = (q', Some h') /\ at_head h' q' = puts (key_bytes n v) (at_head h q).
Proof.
  revert v h q. induction n as [|n IH]; intros v h q W HC; cbn [put_bytes key_bytes puts foldl]; [by exists q, h|]. rewrite PUTCH_u8.
  cbn [key_bytes length] in HC. pose proof (PUTCH_wraps v _ W) as Hw. change (q_head (PUTCH v (at_head h q))) with (mask (h + 1)) in Hw.
  change (q_tail (q <| q_buf ::= _ |>)) with (q_tail (at_head h q)).
  rewrite Hw. destruct (Z.eqb_spec (CHARS (at_head h q)) CAPACITY); [lia|].
  destruct (u32 (Z.shiftr v 8) =? 0); [by eexists _, _|].
  assert (wf_queue (PUTCH v (at_head h q))) as W' by (by apply wf_PUTCH).
  destruct (IH (Z.shiftr v 8) (mask (h + 1)) (q <| q_buf ::= <[Z.to_nat h := u8 v]> |>)) as (q' & h' & H1 & H2); [exact W'| |].
  - rewrite at_head_PUTCH, CHARS_PUTCH by done. pose proof (CHARS_range (at_head h q)).
    rewrite Z.mod_small by (unfold CAPACITY, TTY_BUF_SIZE in HC; lia). lia.
  - rewrite at_head_PUTCH in H2. eauto.
Qed.

Lemma put_bytes_full n v h q : wf_queue (at_head h q) -> CAPACITY < CHARS (at_head h q) + Z.of_nat (length (key_bytes n v)) ->
  exists q', put_bytes n v h q = (q', None).
Proof.
  revert v h q. induction n as [|n IH]; intros v h q W HC; cbn [put_bytes key_bytes] in *.
  { pose proof (CHARS_range (at_head h q)). unfold CAPACITY, TTY_BUF_SIZE in HC. cbn in HC. lia. }
  pose proof (PUTCH_wraps v _ W) as Hw. change (q_head (PUTCH v (at_head h q))) with (mask (h + 1)) in Hw.
  change (q_tail (q <| q_buf ::= _ |>)) with (q_tail (at_head h q)). rewrite Hw.
  destruct (Z.eqb_spec (CHARS (at_head h q)) CAPACITY) as [|Hne]; [eauto|].
  pose proof (CHARS_range (at_head h q)).
  assert (CHARS (at_head h q) < CAPACITY) by (unfold CAPACITY, TTY_BUF_SIZE in *; lia).
  destruct (u32 (Z.shiftr v 8) =? 0); [cbn in HC; lia|]. cbn [length] in HC.
  apply (IH (Z.shiftr v 8) (mask (h + 1)) (q <| q_buf ::= <[Z.to_nat h := u8 v]> |>)); [by apply (wf_PUTCH v (at_head h q))|].
  rewrite at_head_PUTCH, CHARS_PUTCH by done. rewrite Z.mod_small by (unfold CAPACITY, TTY_BUF_SIZE in *; lia). lia.
Qed.

(** what is written behind the head is not seen before the head is moved *)
Lemma put_bytes_kept n v h q : wf_queue (at_head h q) ->
  let q' := (put_bytes n v h q).1 in
  q_head q' = q_head q /\ q_tail q' = q_tail q /\ q_data q' = q_data q /\ q_proc_list q' = q_proc_list q /\
  length (q_buf q') = length (q_buf q) /\
  forall k, 0 <= k < CHARS (at_head h q) -> get8 (q_buf q') (Z.to_nat (slot_of q k)) = get8 (q_buf q) (Z.to_nat (slot_of q k)).
Proof.
  revert v h q. induction n as [|n IH]; intros v h q W; cbn [put_bytes]; [done|].
  set (q1 := q <| q_buf ::= <[Z.to_nat h := u8 v]> |>).
  pose proof (CHARS_range (at_head h q)) as HR. pose proof (slot_of_head _ W) as Hh. cbn [q_head at_head] in Hh.
  assert (forall k, 0 <= k < CHARS (at_head h q) -> get8 (q_buf q1) (Z.to_nat (slot_of q k)) = get8 (q_buf q) (Z.to_nat (slot_of q k))) as H1.
  { intros k Hk. apply get8_insert_ne. intros Heq. pose proof (slot_of_range q k). pose proof (wq_head _ W) as Hhr. cbn in Hhr.
    change (slot_of (at_head h q)) with (slot_of q) in Hh. change (q_head (at_head h q)) with h in Hh.
    assert (slot_of q k = slot_of q (CHARS (at_head h q))) as E%slot_of_inj by lia; lia. }
  assert (length (q_buf q1) = length (q_buf q)) as Hl by apply length_insert.
  destruct (mask (h + 1) =? q_tail q1) eqn:Hm; [done|]. destruct (u32 (Z.shiftr v 8) =? 0); [done|].
  assert (CHARS (PUTCH v (at_head h q)) = CHARS (at_head h q) + 1) as HC.
  { pose proof (PUTCH_wraps v _ W) as Hw. change (q_head (PUTCH v (at_head h q))) with (mask (h + 1)) in Hw.
    change (q_tail q1) with (q_tail (at_head h q)) in Hm. rewrite Hw in Hm. apply Z.eqb_neq in Hm.
    rewrite CHARS_PUTCH by done. apply Z.mod_small. unfold CAPACITY, TTY_BUF_SIZE in Hm. lia. }
  destruct (IH (Z.shiftr v 8) (mask (h + 1)) q1) as (E1 & E2 & E3 & E4 & E5 & E6); [by apply (wf_PUTCH v (at_head h q))|].
  split_and!; [exact E1|exact E2|exact E3|exact E4|by rewrite E5|]. intros k Hk. rewrite <- H1 by done.
  apply E6. unfold q1. rewrite at_head_PUTCH, HC. lia.
Qed.

(** ** The queues of the terminals in the state *)
Definition kept (q q' : tty_queue) : Prop :=
  q_data q' = q_data q /\ q_tail q' = q_tail q /\ q_proc_list q' = q_proc_list q.
Definition with_q (t k : nat) (q : tty_queue) (s : kst) : kst := s <| tty_table ::= alter (set_tty_q k (fun _ => q)) t |>.
(** the state in which the task that waits for [q] is runnable *)
Definition roused (q : tty_queue) (s : kst) : kst :=
  match q_proc_list q with
  | Some p => s <| sched ::= fun c => c <| tmem ::= alter (fun k => k <| t_state := TASK_RUNNING |>) p |> |>
  | None => s
  end.
(** the task that waits exists *)
Definition sleeper_ok (q : tty_queue) (s : kst) : Prop :=
  forall p, q_proc_list q = Some p -> is_Some (tmem (sched s) !! p).

Lemma tty_table_ext (g h : list tty_struct -> list tty_struct) s : g (tty_table s) = h (tty_table s) ->
  s <| tty_table ::= g |> = s <| tty_table ::= h |>.
Proof. destruct s. cbv [upd]. cbn. by intros ->. Qed.
Lemma tmem_ext (g h : gmap tptr task_struct -> gmap tptr task_struct) s : g (tmem (sched s)) = h (tmem (sched s)) ->
  s <| sched ::= fun c => c <| tmem ::= g |> |> = s <| sched ::= fun c => c <| tmem ::= h |> |>.
Proof. destruct s as [? [] ? ? ? ? ? ? ? ?]. cbv [upd]. cbn. by intros ->. Qed.

Section Run.
Context {E : Env}.

Lemma getq_run t k s x : tty_table s !! t = Some x -> getq t k s = Ret (tty_q k x) s.
Proof. intros H. unfold getq, gettty. mrun. by rewrite H. Qed.
Lemma setq_run t k f s x : tty_table s !! t = Some x -> setq t k f s = Ret tt (with_q t k (f (tty_q k x)) s).
Proof.
  intros H. unfold setq, settty, gettty. mrun. rewrite H. cbn. f_equal. unfold with_q.
  assert (<[t := set_tty_q k f x]> (tty_table s) = alter (set_tty_q k (fun _ => f (tty_q k x))) t (tty_table s)) as Heq.
  { apply list_eq. intros i. destruct (decide (i = t)) as [->|Hne].
    - rewrite list_lookup_alter_eq, H, list_lookup_insert_eq by (by eapply lookup_lt_Some). cbn. by destruct k as [|[|k]].
    - by rewrite list_lookup_insert_ne, list_lookup_alter_ne by congruence. }
  by apply tty_table_ext.
Qed.
Lemma rouse_run q s : sleeper_ok q s -> rouse q s = Ret tt (roused q s).
Proof.
  intros H. unfold rouse, roused, sleeper_ok in *. destruct (q_proc_list q) as [p|]; [|done].
  destruct (H p eq_refl) as [k Hk]. unfold settask, gettask, on_sched. mrun. rewrite Hk. cbn. f_equal.
  assert (<[p := k <| t_state := TASK_RUNNING |>]> (tmem (sched s)) =
    alter (fun k => k <| t_state := TASK_RUNNING |>) p (tmem (sched s))) as Heq; [|by apply tmem_ext].
  apply map_eq. intros i. destruct (decide (i = p)) as [->|Hne].
  - by rewrite lookup_insert_eq, lookup_alter_eq, Hk.
  - by rewrite lookup_insert_ne, lookup_alter_ne by congruence.
Qed.

(** [l] is added to the characters of the console: all of it, or nothing when there is no room *)
Inductive console_gets (l : list Z) (s : kst) : kst -> Prop :=
| gets_all x q : tty_table s !! 0%nat = Some x ->
    q_contents q = q_contents (tty_read_q x) ++ l -> Z.of_nat (length (q_contents q)) <= CAPACITY ->
    wf_queue q -> kept (tty_read_q x) q -> console_gets l s (roused q (with_q 0 READ_Q q s))
| gets_nothing x q : tty_table s !! 0%nat = Some x ->
    q_contents q = q_contents (tty_read_q x) -> CAPACITY < Z.of_nat (length (q_contents q ++ l)) ->
    wf_queue q -> kept (tty_read_q x) q -> console_gets l s (with_q 0 READ_Q q s).

Lemma put_queue_run eax s x : 0 <= eax -> tty_table s !! 0%nat = Some x -> wf_queue (tty_read_q x) ->
  sleeper_ok (tty_read_q x) s ->
  exists s', put_queue eax 0 s = Ret tt s' /\ console_gets (key_bytes 8 eax) s s'.
Proof.
  intros He Hx W Hsl. set (q := tty_read_q x) in *. unfold put_queue. rewrite (bind_Ret _ _ _ _ _ (getq_run 0 READ_Q s x Hx)).
  change (tty_q READ_Q x) with q. rewrite Z.mul_0_r, Z.add_0_r.
  assert (at_head (q_head q) q = q) as Hq by (by destruct q). assert (wf_queue (at_head (q_head q) q)) as W' by (by rewrite Hq).
  destruct (put_bytes_kept 8 eax (q_head q) q W') as (K1 & K2 & K3 & K4 & K5 & K6). rewrite Hq in K6.
  destruct (Z.le_gt_cases (CHARS q + Z.of_nat (length (key_bytes 8 eax))) CAPACITY) as [Hroom|Hfull].
  - destruct (put_bytes_room 8 eax (q_head q) q) as (q' & h' & Hput & Hh); [by rewrite Hq..|]. rewrite Hq in Hh.
    rewrite Hput in *. cbn [fst] in *. rewrite (bind_Ret _ _ _ _ _ (setq_run 0 READ_Q _ s x Hx)).
    destruct (contents_puts (key_bytes 8 eax) q W Hroom) as [Wq' Hc]. rewrite key_bytes_u8, <- Hh in Hc. rewrite <- Hh in Wq'.
    assert (rouse q' = rouse (at_head h' q')) as -> by done. eexists. split.
    + apply rouse_run. intros p Hp. change (q_proc_list (at_head h' q')) with (q_proc_list q') in Hp. apply Hsl. by rewrite <- K4.
    + apply (gets_all _ _ x (at_head h' q')); try done. rewrite Hc, length_app, q_contents_length. fold q.
      pose proof (CHARS_range q). lia.
  - destruct (put_bytes_full 8 eax (q_head q) q) as (q' & Hput); [by rewrite Hq..|]. rewrite Hput in *. cbn [fst] in *.
    rewrite (setq_run 0 READ_Q _ s x Hx). eexists. split; [done|].
    assert (CHARS q' = CHARS q) as HC by (unfold CHARS; by rewrite K1, K2).
    assert (q_contents q' = q_contents q) as Hc.
    { apply list_eq. intros k. rewrite !q_contents_lookup, HC. case_decide; [|done]. f_equal.
      rewrite <- K6 by lia. unfold slot_of. by rewrite K2. }
    apply (gets_nothing _ _ x q'); try done.
    + rewrite Hc, length_app, q_contents_length. pose proof (CHARS_range q). lia.
    + destruct W as [Hb Hhd Ht]. split; [by rewrite K5|by rewrite K1|by rewrite K2].
Qed.
End Run.

(** ** The serial line *)
Lemma receive_spec c q : wf_queue q ->
  wf_queue (receive c q) /\ kept q (receive c q) /\
  q_contents (receive c q) = if decide (CHARS q < CAPACITY) then q_contents q ++ [u8 c] else q_contents q.
Proof.
  intros W. pose proof (CHARS_range q) as HR. pose proof (PUTCH_wraps c q W) as Hw.
  change (q_head (PUTCH c q)) with (mask (q_head q + 1)) in Hw. unfold receive.
  change (q_tail (q <| q_buf ::= _ |>)) with (q_tail q). rewrite Hw.
  destruct (Z.eqb_spec (CHARS q) CAPACITY) as [Hf|Hne].
  - rewrite decide_False by lia. assert (at_head (q_head q) q = q) as Hq by (by destruct q).
    assert (wf_queue (at_head (q_head q) q)) as W' by (by rewrite Hq).
    destruct (put_bytes_kept 1 c (q_head q) q W') as (K1 & K2 & K3 & K4 & K5 & K6). rewrite Hq in K6.
    assert ((put_bytes 1 c (q_head q) q).1 = q <| q_buf ::= <[Z.to_nat (q_head q) := u8 c]> |>) as Heq.
    { cbn [put_bytes]. by repeat case_match. }
    rewrite Heq in *. destruct W as [Hb Hhd Ht]. split; [split; [by rewrite K5|done|done]|]. split; [done|].
    apply list_eq. intros k. rewrite !q_contents_lookup. unfold CHARS. rewrite K1, K2. fold (CHARS q).
    case_decide; [|done]. f_equal. rewrite <- K6 by lia. done.
  - unfold CAPACITY, TTY_BUF_SIZE in Hne. rewrite decide_True by (unfold CAPACITY, TTY_BUF_SIZE; lia).
    split; [by apply (wf_PUTCH c q)|]. split; [done|]. apply (contents_PUTCH c q); [done|]. unfold CAPACITY, TTY_BUF_SIZE. lia.
Qed.

Section Send.
Context {E : Env}.

Lemma roused_tty q s : tty_table (roused q s) = tty_table s.
Proof. unfold roused. by destruct (q_proc_list q). Qed.
Lemma roused_log q s : log (roused q s) = log s.
Proof. unfold roused. by destruct (q_proc_list q). Qed.
Lemma roused_sleeper q q' s : sleeper_ok q s -> sleeper_ok q (roused q' s).
Proof.
  intros H p Hp. specialize (H p Hp). unfold roused. destruct (q_proc_list q') as [p'|]; [|done].
  change (is_Some (alter (fun k => k <| t_state := TASK_RUNNING |>) p' (tmem (sched s)) !! p)).
  destruct (decide (p = p')) as [->|Hne]; [rewrite lookup_alter_eq|by rewrite lookup_alter_ne by congruence].
  destruct H as [k ->]. by eexists.
Qed.
Lemma with_q_lookup t k q s x : tty_table s !! t = Some x -> tty_table (with_q t k q s) !! t = Some (set_tty_q k (fun _ => q) x).
Proof. intros H. change (alter (set_tty_q k (fun _ => q)) t (tty_table s) !! t = Some (set_tty_q k (fun _ => q) x)). by rewrite list_lookup_alter_eq, H. Qed.
Lemma outb_run v port s : outb v port s = Ret tt (s <| log ::= cons (EvOutb (u8 v) port) |>).
Proof. done. Qed.

Lemma write_buffer_empty_run t port s x : tty_table s !! t = Some x -> sleeper_ok (tty_write_q x) s ->
  exists s' v, write_buffer_empty t port s = Ret tt s' /\ tty_table s' = tty_table s /\
    log s' = EvOutb v (port + 1) :: EvIn (port + 1) :: log s.
Proof.
  intros Hx Hsl. unfold write_buffer_empty. rewrite (bind_Ret _ _ _ _ _ (getq_run t WRITE_Q s x Hx)).
  rewrite (bind_Ret _ _ _ _ _ (rouse_run _ s Hsl)). eexists _, _. split; [done|]. cbn. by rewrite roused_tty, roused_log.
Qed.

(** what [write_char] does when it has sent [c]: the last character switches the interrupt off *)
Lemma write_char_run t port s x c l : tty_table s !! t = Some x -> wf_queue (tty_write_q x) ->
  q_contents (tty_write_q x) = c :: l -> sleeper_ok (tty_write_q x) s ->
  exists s' x' off, write_char t port s = Ret tt s' /\ tty_table s' !! t = Some x' /\
    tty_write_q x' = pop (tty_write_q x) /\ q_contents (pop (tty_write_q x)) = l /\
    log s' = off ++ EvOutb (u8 c) port :: log s /\
    (l <> [] -> off = []) /\ (l = [] -> exists v, off = [EvOutb v (port + 1); EvIn (port + 1)]).
Proof.
  intros Hx W Hc Hsl. set (q := tty_write_q x) in *. assert (0 < CHARS q) as HC by (apply contents_pos; by rewrite Hc).
  rewrite contents_cons in Hc by done. injection Hc as Hch Hl.
  unfold write_char. rewrite (bind_Ret _ _ _ _ _ (getq_run t WRITE_Q s x Hx)). change (tty_q WRITE_Q x) with q.
  destruct (Z.eqb_spec (CHARS q) 0); [lia|].
  assert (exists s1, when (CHARS q <=? startup) (rouse q) s = Ret tt s1 /\ tty_table s1 = tty_table s /\ log s1 = log s /\ sleeper_ok q s1)
    as (s1 & Hs1 & Ht1 & Hl1 & Hsl1).
  { destruct (CHARS q <=? startup); cbn [when]; [|by exists s]. exists (roused q s). rewrite roused_tty, roused_log.
    split; [by apply rouse_run|]. split_and!; [done..|by apply roused_sleeper]. }
  rewrite (bind_Ret _ _ _ _ _ Hs1). destruct W as [Hb Hhd Htl]. destruct (lookup_lt_is_Some_2 (q_buf q) (Z.to_nat (q_tail q))) as [v Hv]; [lia|].
  rewrite (bind_Ret _ _ _ _ _ (deref_run _ v s1 Hv)).
  assert (v = c) as -> by (rewrite <- Hch; unfold GETCH, get8; by rewrite Hv).
  rewrite (bind_Ret _ _ _ _ _ (outb_run c port s1)). set (s2 := s1 <| log ::= _ |>).
  assert (tty_table s2 !! t = Some x) as Hx2 by (change (tty_table s1 !! t = Some x); by rewrite Ht1).
  rewrite (bind_Ret _ _ _ _ _ (setq_run t WRITE_Q pop s2 x Hx2)). change (tty_q WRITE_Q x) with q.
  pose proof (with_q_lookup t WRITE_Q (pop q) s2 x Hx2) as Hx3. set (s3 := with_q t WRITE_Q (pop q) s2) in *.
  rewrite (bind_Ret _ _ _ _ _ (getq_run t WRITE_Q s3 _ Hx3)). set (x3 := set_tty_q WRITE_Q (fun _ => pop q) x) in *.
  change (tty_q WRITE_Q x3) with (pop q). rewrite EMPTY_contents by (by apply wf_pop). rewrite Hl.
  assert (log s3 = EvOutb (u8 c) port :: log s) as Hl3 by (rewrite <- Hl1; done).
  case_bool_decide as Hnil; cbn [when].
  - destruct (write_buffer_empty_run t port s3 x3 Hx3) as (s' & v' & Hrun & Ht' & Hl'); [exact Hsl1|].
    exists s', x3, [EvOutb v' (port + 1); EvIn (port + 1)]. split_and!; try done; [by rewrite Ht'|by rewrite Hl', Hl3|eauto].
  - exists s3, x3, []. split_and!; done.
Qed.
End Send.

(** C21: The interrupts of the terminals keep the queues in order: [put_queue]
    gives the console all the characters of a key, in order, and makes the task
    that waits runnable, or none of them when there is not room for all; a
    character received on a serial line is the newest of its queue, or lost when
    the queue is full; a character sent is the oldest, and the interrupt is
    switched off exactly when it was the last. *)
Theorem terminal_interrupts_correct {E : Env} (s : kst) (t : nat) (x : tty_struct) (port eax c : Z)
  (Hx : tty_table s !! t = Some x) (Wr : wf_queue (tty_read_q x)) (Ww : wf_queue (tty_write_q x))
  (Hr : sleeper_ok (tty_read_q x) s) (Hw : sleeper_ok (tty_write_q x) s) (He : 0 <= eax) :
  (t = 0%nat -> exists s', put_queue eax 0 s = Ret tt s' /\ console_gets (key_bytes 8 eax) s s') /\
  (let q := receive c (tty_read_q x) in
   wf_queue q /\ kept (tty_read_q x) q /\
   q_contents q = if decide (CHARS (tty_read_q x) < CAPACITY) then q_contents (tty_read_q x) ++ [u8 c] else q_contents (tty_read_q x)) /\
  (forall d l, q_contents (tty_write_q x) = d :: l ->
   exists s' x' off, write_char t port s = Ret tt s' /\ tty_table s' !! t = Some x' /\
     tty_write_q x' = pop (tty_write_q x) /\ q_contents (tty_write_q x') = l /\
     log s' = off ++ EvOutb (u8 d) port :: log s /\
     (l <> [] -> off = []) /\ (l = [] -> exists v, off = [EvOutb v (port + 1); EvIn (port + 1)])).
Proof.
  split; [|split].
  - intros ->. by apply (put_queue_run eax s x).
  - by apply receive_spec.
  - intros d l Hc. destruct (write_char_run t port s x d l Hx Ww Hc Hw) as (s' & x' & off & H1 & H2 & H3 & H4 & H5).
    exists s', x', off. rewrite H3. done.
Qed.

(** F1 on the console of a machine that has just started *)
Lemma terminal_interrupts_correct_witness : exists x s', tty_table boot_kst !! 0%nat = Some x /\
  @put_queue (quiet_env 2) 0x415b5b1b 0 boot_kst = Ret tt s' /\ console_gets [27; 91; 91; 65] boot_kst s'.
Proof.
  destruct (tty_table boot_kst !! 0%nat) as [x|] eqn:Hx; [|by vm_compute in Hx]. injection Hx as Hx'.
  assert (tty_table boot_kst !! 0%nat = Some x) as Hx by (by rewrite <- Hx').
  destruct (proj1 (@terminal_interrupts_correct (quiet_env 2) boot_kst 0 x 0 0x415b5b1b 0 Hx ltac:(by rewrite <- Hx') ltac:(by rewrite <- Hx')
    ltac:(by rewrite <- Hx') ltac:(by rewrite <- Hx') ltac:(done)) eq_refl) as (s' & Hrun & Hg).
  exists x, s'. split; [done|]. split; [exact Hrun|exact Hg].
Defined.
