(* ===== verification/KeybFacts.v ===== *)
(** * The keyboard: which keys are held down, which characters are typed *)

From S2P Require Import Prelude Bits State Memory Sched Namei TtyQueue TtyQueueFacts Tty SysCall TtyIntr TtyIntrFacts.

(** ** What the codes say: a history of the keys

    A code [0xe0] or [0xe1] marks the next one; a code from [0x80] on tells that
    the key of the code less [0x80] is let go. *)
Definition is_prefix (c : Z) : bool := (c =? 0xe0) || (c =? 0xe1).
Fixpoint key_events (marked : bool) (codes : list Z) : list (bool * Z) :=
  match codes with
  | [] => []
  | c :: codes => if is_prefix c then key_events true codes else (marked, c) :: key_events false codes
  end.
Definition pending (codes : list Z) : Z :=
  match last codes with Some c => if c =? 0xe0 then 1 else if c =? 0xe1 then 2 else 0 | None => 0 end.

(** the last event of the key with the make code [c] was a press *)
Definition held (mine : bool -> bool) (c : Z) (evs : list (bool * Z)) : bool :=
  foldl (fun h e => if mine e.1 && (e.2 =? c) then true else if mine e.1 && (e.2 =? c + 0x80) then false else h) false evs.
Definition left_key (marked : bool) : bool := negb marked.
Definition right_key (marked : bool) : bool := marked.
Definition either_key (marked : bool) : bool := true.
(** a lock changes with every press, caps lock not while the key is held *)
Definition presses (c : Z) (evs : list (bool * Z)) : bool := foldl (fun b e => if e.2 =? c then negb b else b) false evs.
Definition caps_on (evs : list (bool * Z)) : bool :=
  (foldl (fun (h : bool * bool) e => if e.2 =? 0x3A then (true, if h.1 then h.2 else negb h.2)
                                     else if e.2 =? 0xBA then (false, h.2) else h) (false, false) evs).2.

Definition bits8 (b0 b1 b2 b3 b4 b5 b6 b7 : bool) : Z :=
  b2z b0 + 2 * b2z b1 + 4 * b2z b2 + 8 * b2z b3 + 16 * b2z b4 + 32 * b2z b5 + 64 * b2z b6 + 128 * b2z b7.
(** shift, control and alt on the left and right, caps lock and its key *)
Definition held_mode (evs : list (bool * Z)) : Z :=
  bits8 (held either_key 0x2A evs) (held either_key 0x36 evs) (held left_key 0x1D evs) (held right_key 0x1D evs)
    (held left_key 0x38 evs) (held right_key 0x38 evs) (caps_on evs) (held either_key 0x3A evs).
(** scroll lock, num lock, caps lock; num lock is on at the start *)
Definition lamps (evs : list (bool * Z)) : Z :=
  bits8 (presses 0x46 evs) (negb (presses 0x45 evs)) (caps_on evs) false false false false false.

Definition follows (codes : list Z) (k : kbd_st) : Prop :=
  mode k = held_mode (key_events false codes) /\ leds k = lamps (key_events false codes) /\ e0 k = pending codes.

Lemma key_events_snoc m codes c : key_events m (codes ++ [c]) =
  key_events m codes ++ if is_prefix c then [] else [(match last codes with Some p => is_prefix p | None => m end, c)].
Proof.
  revert m. induction codes as [|d codes IH]; intros m; cbn [app key_events last]; [by destruct (is_prefix c)|].
  rewrite !IH. destruct codes as [|d' codes]; [cbn [last]; by destruct (is_prefix d)|].
  change (last (d :: d' :: codes)) with (last (d' :: codes)).
  destruct (last (d' :: codes)) eqn:Hl; [by destruct (is_prefix d)|by apply last_None in Hl].
Qed.

(** ** What the routines do to the keyboard's variables *)
Definition effect (al : Z) (k : kbd_st) : kbd_st :=
  if al =? 0x1D then press 0x04 k
  else if al =? 0x9D then unpress 0x04 k
  else if al =? 0x38 then press 0x10 k
  else if al =? 0xB8 then unpress 0x10 k
  else if al =? 0x2A then k <| mode ::= Z.lor 0x01 |>
  else if al =? 0xAA then k <| mode ::= Z.land 0xfe |>
  else if al =? 0x36 then k <| mode ::= Z.lor 0x02 |>
  else if al =? 0xB6 then k <| mode ::= Z.land 0xfd |>
  else if al =? 0x3A then
    if testb 0x80 (mode k) then k else k <| leds ::= Z.lxor 4 |> <| mode ::= fun m => Z.lor 0x80 (Z.lxor 0x40 m) |>
  else if al =? 0xBA then k <| mode ::= Z.land 0x7f |>
  else if al =? 0x46 then k <| leds ::= Z.lxor 1 |>
  else if al =? 0x45 then k <| leds ::= Z.lxor 2 |>
  else k.

Section Effects.
Context {E : Env}.

Definition has_effect (f : routine) (g : kbd_st -> kbd_st) : Prop :=
  forall eax ecx k s k' s', f eax ecx k s = Ret k' s' -> k' = g k.

Ltac inv_bind H :=
  repeat match type of H with
  | (_ ≫= _) _ = Ret _ _ => let a := fresh "a" in let s1 := fresh "s" in apply bind_Ret_inv in H as (a & s1 & _ & H)
  | (if ?b then _ else _) _ = Ret _ _ => destruct b
  | (let '_ := ?x in _) _ = Ret _ _ => destruct x
  | mret _ _ = Ret _ _ => injection H as <- _
  | fault _ = _ => discriminate H
  end.
Ltac effect := intros eax ecx k s k' s' H; inv_bind H; try done.

Lemma none_effect : has_effect none id.
Proof. unfold none. effect. Qed.
Lemma set_leds_keeps k s k' s' : set_leds k s = Ret k' s' -> k' = k.
Proof. unfold set_leds. intros H. inv_bind H. done. Qed.
Lemma cur_keeps eax k s k' s' : cur eax k s = Ret k' s' -> k' = k.
Proof. unfold cur. intros H. inv_bind H. done. Qed.
Lemma cursor_effect : has_effect cursor id.
Proof. unfold cursor. effect. by apply cur_keeps in H. Qed.
Lemma do_self_effect : has_effect do_self id.
Proof. unfold do_self. effect. Qed.
Lemma minus_effect : has_effect minus id.
Proof. unfold minus. effect. by apply do_self_effect in H. Qed.
Lemma func_effect : has_effect func id.
Proof. unfold func. effect. Qed.
Lemma caps_effect : has_effect caps (fun k =>
  if testb 0x80 (mode k) then k else k <| leds ::= Z.lxor 4 |> <| mode ::= fun m => Z.lor 0x80 (Z.lxor 0x40 m) |>).
Proof. unfold caps. intros eax ecx k s k' s' H. destruct (testb 0x80 (mode k)); [inv_bind H; done|]. by apply set_leds_keeps in H. Qed.
Lemma scroll_effect : has_effect scroll (fun k => k <| leds ::= Z.lxor 1 |>).
Proof. unfold scroll. intros eax ecx k s k' s' H. by apply set_leds_keeps in H. Qed.
Lemma num_effect : has_effect num (fun k => k <| leds ::= Z.lxor 2 |>).
Proof. unfold num. intros eax ecx k s k' s' H. by apply set_leds_keeps in H. Qed.

Ltac table_entry :=
  cbn [fst snd];
  lazymatch goal with
  | |- has_effect none _ => exact none_effect
  | |- has_effect do_self _ => exact do_self_effect
  | |- has_effect cursor _ => exact cursor_effect
  | |- has_effect func _ => exact func_effect
  | |- has_effect minus _ => exact minus_effect
  | |- has_effect caps _ => exact caps_effect
  | |- has_effect scroll _ => exact scroll_effect
  | |- has_effect num _ => exact num_effect
  | _ => intros eax ecx k s k' s' [= <- _]; reflexivity
  end.
Lemma key_table_effects : Forall2 (fun al f => has_effect f (effect al)) (seqZ 0 256) key_table.
Proof.
  let l := eval vm_compute in (seqZ 0 256) in change (seqZ 0 256) with l. unfold key_table. cbn [replicate app].
  repeat (apply Forall2_cons_2; [table_entry|]). apply Forall2_nil_2.
Qed.
Lemma key_effect al f : key_table !! Z.to_nat al = Some f -> 0 <= al -> has_effect f (effect al).
Proof.
  intros Hf Hal. pose proof (lookup_lt_Some _ _ _ Hf) as Hlt. rewrite <- (Forall2_length _ _ _ key_table_effects), length_seqZ in Hlt.
  apply (Forall2_lookup_lr _ _ _ (Z.to_nat al) al f key_table_effects); [|done].
  apply lookup_seqZ. lia.
Qed.
End Effects.

(** ** The variables follow the keys *)
Lemma caps_down evs : (foldl (fun (h : bool * bool) e => if e.2 =? 0x3A then (true, if h.1 then h.2 else negb h.2)
  else if e.2 =? 0xBA then (false, h.2) else h) (false, false) evs).1 = held either_key 0x3A evs.
Proof.
  induction evs as [|e evs IH] using rev_ind; [done|]. unfold held in *. rewrite !foldl_app. cbn [foldl].
  unfold either_key at 1 2. change (0x3A + 0x80) with 0xBA. cbn [andb]. destruct (e.2 =? 0x3A); [done|]. by destruct (e.2 =? 0xBA).
Qed.

Lemma bits8_top b0 b1 b2 b3 b4 b5 b6 b7 : testb 0x80 (bits8 b0 b1 b2 b3 b4 b5 b6 b7) = b7.
Proof. by destruct b0, b1, b2, b3, b4, b5, b6, b7. Qed.
Lemma effect_follows evs marked al k : mode k = held_mode evs -> leds k = lamps evs -> (e0 k =? 0) = negb marked ->
  mode (effect al k) = held_mode (evs ++ [(marked, al)]) /\ leds (effect al k) = lamps (evs ++ [(marked, al)]).
Proof.
  intros Hm Hl He. unfold held_mode, lamps, caps_on in *. pose proof (caps_down evs) as Hd.
  unfold held, presses in *. rewrite !foldl_app. cbn [foldl fst snd].
  change (0x2A + 0x80) with 0xAA in *. change (0x36 + 0x80) with 0xB6 in *. change (0x1D + 0x80) with 0x9D in *.
  change (0x38 + 0x80) with 0xB8 in *. change (0x3A + 0x80) with 0xBA in *. rewrite Hd.
  repeat match goal with
  | |- context [foldl ?f ?b evs] => let x := fresh "b" in set (x := foldl f b evs) in *; clearbody x
  end.
  unfold left_key, right_key, either_key, effect, press, unpress, right_bit. rewrite He. clear He Hd.
  destruct b6 as [d lock], k as [m l e]. cbn [mode leds fst snd] in *. subst m l. cbn [andb].
  repeat match goal with |- context [al =? ?c] => destruct (Z.eqb_spec al c); [subst al; cbn [andb Z.eqb Pos.eqb]|] end.
  all: rewrite ?andb_false_r, ?bits8_top; cbn [mode leds upd eta_kbd_st fst snd negb].
  all: split; [destruct b, b0, b1, b2, b3, b4, lock, b5|destruct b5, b7, b8, lock]; try reflexivity; destruct marked; reflexivity.
Qed.

(** the codes of the interrupts so far, whatever the kernel does between them *)
Inductive typed_keys {E : Env} : list Z -> kbd_st -> Prop :=
| typed_start : typed_keys [] kbd_start
| typed_key codes k ecx s k' s' : typed_keys codes k -> keyboard_interrupt ecx k s = Ret k' s' ->
    typed_keys (codes ++ [u8 (env_in s 0x60)]) k'.

Lemma scan_follows {E : Env} codes al ecx k s k' s' : 0 <= al -> follows codes k -> scan_code al ecx k s = Ret k' s' ->
  follows (codes ++ [al]) k'.
Proof.
  intros Hal (Hm & Hl & He) H. unfold follows, pending. rewrite key_events_snoc, last_snoc. unfold scan_code in H.
  unfold is_prefix at 1 3. destruct (al =? 0xe0); [injection H as <- _; by rewrite app_nil_r|].
  destruct (al =? 0xe1); [injection H as <- _; by rewrite app_nil_r|]. cbn [orb].
  apply bind_Ret_inv in H as (f & s1 & Hf & H). apply deref_Ret_inv in Hf as [Hf ->].
  apply bind_Ret_inv in H as (k1 & s1 & Hk & H). injection H as <- _. apply (key_effect al f Hf Hal) in Hk as ->.
  destruct (effect_follows (key_events false codes) (match last codes with Some p => is_prefix p | None => false end) al k Hm Hl) as [H1 H2].
  { rewrite He. unfold pending, is_prefix. destruct (last codes) as [c|]; [|done]. by destruct (c =? 0xe0), (c =? 0xe1). }
  done.
Qed.
Lemma typed_follows {E : Env} codes k : typed_keys codes k -> follows codes k.
Proof.
  induction 1 as [|codes k ecx s k' s' _ IH Hk]; [done|]. unfold keyboard_interrupt in Hk.
  apply bind_Ret_inv in Hk as (al & s1 & Hin & Hk). injection Hin as <- _. apply bind_Ret_inv in Hk as (k1 & s2 & Hs & Hk).
  apply scan_follows with (1 := proj1 (u8_range _)) (2 := IH) in Hs.
  repeat (apply bind_Ret_inv in Hk as (? & ? & _ & Hk)). by injection Hk as <- _.
Qed.

(** ** Every character of ASCII can be typed *)
Definition console_ready (s : kst) : Prop :=
  exists x, tty_table s !! 0%nat = Some x /\ wf_queue (tty_read_q x) /\ sleeper_ok (tty_read_q x) s.

(** with nothing, shift, control or both held down *)
Definition with_keys : list (list Z) := [[]; [0x2A]; [0x1D]; [0x2A; 0x1D]].
Definition self_keys : list Z := seqZ 1 28 ++ seqZ 0x1E 12 ++ seqZ 0x2B 11 ++ [0x39].
Definition types (c : Z) (hs : list Z) (al : Z) : bool :=
  let m := held_mode (key_events false hs) in
  match self_map m !! Z.to_nat al with Some r => nz r && (self_char m r =? c) | None => false end.
Definition typable (c : Z) : bool := existsb (fun hs => existsb (types c hs) self_keys) with_keys.
Lemma all_typable : forallb typable (seqZ 0 128) = true.
Proof. vm_compute. reflexivity. Qed.

Section Typing.
Context {E : Env}.

Lemma self_key al ecx k s : al ∈ self_keys -> e0 k = 0 -> scan_code al ecx k s = (do_self al ecx k ≫= fun k => mret (k <| e0 := 0 |>)) s.
Proof.
  intros Hal He. assert (Forall (fun al => forall ecx k s, e0 k = 0 ->
    scan_code al ecx k s = (do_self al ecx k ≫= fun k => mret (k <| e0 := 0 |>)) s) self_keys) as H.
  { let l := eval vm_compute in self_keys in change self_keys with l.
    repeat (apply Forall_cons_2; [intros ecx' k' s' He'; 
      first [reflexivity|transitivity ((minus 0x35 ecx' k' ≫= fun k => mret (k <| e0 := 0 |>)) s'); [reflexivity|unfold minus; by rewrite He']]|]).
    apply Forall_nil_2. }
  rewrite Forall_forall in H. by apply H.
Qed.

Lemma typed_char c hs al ecx k s : types c hs al = true -> al ∈ self_keys -> follows hs k -> e0 k = 0 -> 0 <= c < 128 ->
  console_ready s -> exists s', scan_code al ecx k s = Ret k s' /\ console_gets [c] s s'.
Proof.
  intros Ht Hal (Hm & _ & _) He Hc (x & Hx & W & Hsl). unfold types in Ht. rewrite <- Hm in Ht.
  destruct (self_map (mode k) !! Z.to_nat al) as [r|] eqn:Hr; [|done]. apply andb_true_iff in Ht as [Hnz Hch]. apply Z.eqb_eq in Hch.
  rewrite self_key by done. destruct (put_queue_run c s x) as (s' & Hrun & Hg); [lia|done..|].
  assert (key_bytes 8 c = [c]) as Hb.
  { cbn [key_bytes]. rewrite Z.shiftr_div_pow2, Z.div_small by lia. cbn. by rewrite u8_id by lia. }
  rewrite Hb in Hg. exists s'. split; [|exact Hg]. unfold do_self. rewrite (bind_Ret _ _ _ k s'); [by destruct k; cbn in He |- *; rewrite He|].
  rewrite (bind_Ret _ _ _ _ _ (deref_run _ r s Hr)). unfold nz in Hnz. destruct (r =? 0); [done|]. rewrite Hch.
  by rewrite (bind_Ret _ _ _ _ _ Hrun).
Qed.
End Typing.

(** C22: The keyboard knows what is held down: after any interrupts, whatever
    happens between them, [mode], [leds] and [e0] are what the history of the
    codes says: each shift, control and alt key, left and right, is down if its
    last event was a press, the locks have changed with every press.  And every
    character of ASCII can be typed: with shift and control held down or not
    there is a key that puts exactly this character into the console's queue. *)
Theorem keyboard_correct {E : Env} (codes : list Z) (k : kbd_st) (s : kst) (c : Z)
  (Hk : typed_keys codes k) (Hs : console_ready s) (Hc : 0 <= c < 128) :
  follows codes k /\
  exists hs al, hs ∈ with_keys /\ al ∈ self_keys /\
    forall k' ecx, typed_keys hs k' -> exists s', scan_code al ecx k' s = Ret k' s' /\ console_gets [c] s s'.
Proof.
  split; [by apply typed_follows|]. pose proof all_typable as H. rewrite forallb_forall in H.
  specialize (H c). rewrite <- list_elem_of_In, elem_of_seqZ in H. specialize (H ltac:(lia)). unfold typable in H.
  apply existsb_exists in H as (hs & Hhs & H). apply existsb_exists in H as (al & Hal & H).
  apply list_elem_of_In in Hhs, Hal. exists hs, al. split; [done|]. split; [done|]. intros k' ecx Hk'.
  apply typed_follows in Hk'. apply (typed_char c hs al); try done. destruct Hk' as (_ & _ & ->).
  repeat (apply elem_of_cons in Hhs as [->|Hhs]; [done|]). by apply elem_of_nil in Hhs.
Qed.

(** a machine on whose keyboard the left shift key is pressed *)
Definition shift_env : Env :=
  {| env_fuel := 2; env_resume := id; env_in := fun _ port => if port =? 0x60 then 0x2A else 0; env_call := fun _ => id |}.
Lemma boot_console : console_ready boot_kst.
Proof. eexists. split; [reflexivity|]. split; [by split|done]. Qed.
Lemma keyboard_correct_witness : exists k s', @keyboard_interrupt shift_env 0 kbd_start boot_kst = Ret k s' /\ mode k = 1 /\
  exists hs al, hs ∈ with_keys /\ al ∈ self_keys /\
    forall k' ecx, @typed_keys shift_env hs k' ->
      exists s', @scan_code shift_env al ecx k' boot_kst = Ret k' s' /\ console_gets [65] boot_kst s'.
Proof.
  destruct (returns_Ret (@keyboard_interrupt shift_env 0 kbd_start boot_kst)) as (k & s' & H); [vm_compute; reflexivity|].
  pose proof (@typed_key shift_env [] kbd_start 0 boot_kst k s' typed_start H) as Hk.
  destruct (@keyboard_correct shift_env _ k boot_kst 65 Hk boot_console ltac:(done)) as [(Hm & _ & _) Ht].
  exists k, s'. split; [exact H|]. split; [exact Hm|exact Ht].
Defined.

(** The function keys test [ecx], a register of the interrupted program, where
    the room in the queue is meant: with 3 in it the key is lost although the
    queue is empty, with 4 it is typed. *)
Definition typed_by (al ecx : Z) : option (list Z) :=
  match @scan_code (quiet_env 2) al ecx kbd_start boot_kst with
  | Ret _ s => (fun x => q_contents (tty_read_q x)) <$> (tty_table s !! 0%nat)
  | _ => None
  end.
Example function_key_room : typed_by 0x3B 3 = Some [] /\ typed_by 0x3B 4 = Some [27; 91; 91; 65].
Proof. split; vm_compute; reflexivity. Qed.
