(* ===== verification/LineFacts.v ===== *)
(** * kernel/chr_drv/tty_io.cc: the line discipline is a line editor

    [copy_to_cooked] moves the characters of the read queue into the secondary
    queue.  On lists: it appends them to the lines typed so far, except those
    that edit the last line or send a signal. *)

From S2P Require Import Prelude Ctype State Memory Sched TtyQueue TtyQueueFacts Console Tty TtyIntr TtyIntrFacts.

(** ** The editor, on the lines typed and the number of their ends *)
Definition on (flags f : Z) : bool := nz (Z.land flags f).
Definition key (T : termios) (k : nat) : Z := get8 (c_cc T) k.

(** carriage return and newline, upper and lower case *)
Definition translated (T : termios) (c : Z) : option Z :=
  let o := if c =? 13 then (if on (c_iflag T) ICRNL then Some 10 else if on (c_iflag T) IGNCR then None else Some c)
           else if (c =? 10) && on (c_iflag T) INLCR then Some 13 else Some c in
  if on (c_iflag T) IUCLC then c ← o; c ← tolower c; Some (s8 c) else o.
Definition line_end (T : termios) (c : Z) : bool := (s8 c =? 10) || (s8 c =? key T VEOF).
(** the last line without its last character, and without all of them *)
Definition erased (T : termios) (l : list Z) : list Z :=
  match last l with Some c => if line_end T c then l else removelast l | None => l end.
Fixpoint drop_while (f : Z -> bool) (l : list Z) : list Z :=
  match l with [] => [] | c :: l' => if f c then drop_while f l' else l end.
Definition killed (T : termios) (l : list Z) : list Z := rev (drop_while (fun c => negb (line_end T c)) (rev l)).

Definition edit (T : termios) (st : list Z * Z) (c : Z) : list Z * Z :=
  let '(l, d) := st in
  match translated T c with
  | None => (l, d)
  | Some c =>
      let canon := on (c_lflag T) ICANON in
      let isig := on (c_lflag T) ISIG in
      if canon && (c =? key T VKILL) then (killed T l, d)
      else if canon && (c =? key T VERASE) then (erased T l, d)
      else if canon && ((c =? key T VSTOP) || (c =? key T VSTART)) then (l, d)
      else if isig && ((c =? key T VINTR) || (c =? key T VQUIT)) then (l, d)
      else (l ++ [u8 c], if (c =? 10) || (c =? key T VEOF) then u32 (d + 1) else d)
  end.

Lemma killed_snoc T l c : killed T (l ++ [c]) = if line_end T c then l ++ [c] else killed T l.
Proof. unfold killed. rewrite rev_app_distr. cbn. destruct (line_end T c); cbn; [by rewrite rev_involutive|done]. Qed.
Lemma killed_length T l : (length (killed T l) <= length l)%nat.
Proof.
  induction l as [|c l IH] using rev_ind; [done|]. rewrite killed_snoc, length_app. destruct (line_end T c); [by rewrite length_app|cbn; lia].
Qed.
Lemma erased_length T l : (length (erased T l) <= length l)%nat.
Proof.
  destruct l as [|c l _] using rev_ind; [done|]. unfold erased. rewrite last_snoc. destruct (line_end T c); [done|].
  rewrite removelast_last, length_app. lia.
Qed.
Lemma edit_length T l d c : (length (edit T (l, d) c).1 <= S (length l))%nat.
Proof.
  unfold edit. pose proof (killed_length T l). pose proof (erased_length T l). destruct (translated T c); [|cbn; lia].
  repeat case_match; cbn; rewrite ?length_app; cbn; lia.
Qed.

(** ** The terminal in the state *)
Record line (T : termios) (rq : tty_queue) (p : option tptr) (l : list Z) (d : Z) (x : tty_struct) : Prop := {
  ln_termios : tty_termios x = T;
  ln_read : tty_read_q x = rq;
  ln_wf : wf_queue (tty_secondary x);
  ln_text : q_contents (tty_secondary x) = l;
  ln_data : q_data (tty_secondary x) = d;
  ln_wait : q_proc_list (tty_secondary x) = p
}.
(** the tasks of the table exist, and the one that waits *)
Definition tasks_ok (p : option tptr) (s : kst) : Prop :=
  (forall i q, slot (sched s) i = Some q -> is_Some (tmem (sched s) !! q)) /\
  (forall q, p = Some q -> is_Some (tmem (sched s) !! q)).
Definition typing (t : nat) (T : termios) (rq : tty_queue) (p : option tptr) (l : list Z) (d : Z) (s : kst) : Prop :=
  tasks_ok p s /\ exists x, tty_table s !! t = Some x /\ line T rq p l d x.

Definition gives (m : K unit) (s : kst) (Q : kst -> Prop) : Prop := exists s', m s = Ret tt s' /\ Q s'.
Lemma gives_bind m k s (P Q : kst -> Prop) : gives m s P -> (forall s', P s' -> gives (k tt) s' Q) -> gives (m ≫= k) s Q.
Proof. intros (s1 & H1 & HP) Hk. destruct (Hk s1 HP) as (s2 & H2 & HQ). exists s2. by rewrite (bind_Ret _ _ _ _ _ H1). Qed.
Lemma gives_ret s (Q : kst -> Prop) : Q s -> gives (mret tt) s Q.
Proof. intros H. by exists s. Qed.
Lemma gives_when b m s (Q : kst -> Prop) : Q s -> gives m s Q -> gives (when b m) s Q.
Proof. intros H Hm. destruct b; [exact Hm|by apply gives_ret]. Qed.

Section Line.
Context {E : Env} (t : nat).

Lemma gettty_run s x : tty_table s !! t = Some x -> gettty t s = Ret x s.
Proof. intros H. unfold gettty. mrun. by rewrite H. Qed.
Lemma settty_typing f s T rq p l d T' rq' p' l' d' : typing t T rq p l d s ->
  (forall x, line T rq p l d x -> line T' rq' p' l' d' (f x)) -> p' = p -> gives (settty t f) s (typing t T' rq' p' l' d').
Proof.
  intros (Hok & x & Hx & HL) Hf ->. exists (s <| tty_table ::= <[t := f x]> |>). split.
  - unfold settty. by rewrite (bind_Ret _ _ _ _ _ (gettty_run s x Hx)).
  - split; [exact Hok|]. exists (f x). split; [|by apply Hf].
    change (<[t := f x]> (tty_table s) !! t = Some (f x)). apply list_lookup_insert_eq. by eapply lookup_lt_Some.
Qed.
Lemma gives_gettty k s T rq p l d Q : typing t T rq p l d s ->
  (forall x, line T rq p l d x -> gives (k x) s Q) -> gives (gettty t ≫= k) s Q.
Proof.
  intros (Hok & x & Hx & HL) Hk. destruct (Hk x HL) as (s' & H & HQ). exists s'. by rewrite (bind_Ret _ _ _ _ _ (gettty_run s x Hx)).
Qed.

Section Ops.
Context (T : termios) (rq : tty_queue) (p : option tptr).
Abbreviation state := (typing t T rq p).

Lemma out_typing f s l d : state l d s -> gives (setq t WRITE_Q f) s (state l d).
Proof. intros H. eapply settty_typing; [exact H| |done]. intros x []. by split. Qed.
Lemma unput_typing s l d : state l d s -> l <> [] -> gives (setq t SECONDARY unput) s (state (removelast l) d).
Proof.
  intros H Hl. eapply settty_typing; [exact H| |done]. intros x [? ? W HT ? ?]. split; try done; cbn; [by apply wf_unput|].
  rewrite <- HT in *. rewrite (contents_snoc (tty_secondary x)) by (done || by apply contents_pos). by rewrite removelast_last.
Qed.
Lemma put_typing s l d c : state l d s -> Z.of_nat (length l) < CAPACITY -> gives (putch t SECONDARY c) s (state (l ++ [u8 c]) d).
Proof.
  intros H Hl. eapply settty_typing; [exact H| |done]. intros x [? ? W HT ? ?]. split; try done; cbn; [by apply wf_PUTCH|].
  rewrite contents_PUTCH; [by rewrite HT|done|]. rewrite <- HT, q_contents_length in Hl. pose proof (CHARS_range (tty_secondary x)). lia.
Qed.
Lemma data_typing s l d f : state l d s -> gives (setq t SECONDARY (fun q => q <| q_data ::= f |>)) s (state l (f d)).
Proof.
  intros H. eapply settty_typing; [exact H| |done]. intros x [? ? W HT HD ?]. split; try done; cbn; [by destruct W|by rewrite HD].
Qed.
Lemma stopped_typing s l d v : state l d s -> gives (settty t (fun x => x <| tty_stopped := v |>)) s (state l d).
Proof. intros H. eapply settty_typing; [exact H| |done]. intros x []. by split. Qed.

Lemma intr_typing s l d m : state l d s -> gives (tty_intr t m) s (state l d).
Proof.
  intros H. unfold tty_intr. eapply gives_gettty; [exact H|]. intros x _. destruct (tty_pgrp x <=? 0); [by apply gives_ret|].
  generalize (seq 0 NR_TASKS). intros ts. revert s H. induction ts as [|i ts IH]; intros s H; cbn [for_each]; [by apply gives_ret|].
  eapply gives_bind; [|intros s' H'; apply IH; exact H'].
  unfold gives. rewrite (bind_Ret _ _ s (sched s) s) by done. destruct (slot (sched s) i) as [q|] eqn:Hq; [|by exists s].
  pose proof H as ([Hok Hp] & x' & Hx & HL). destruct (Hok i q Hq) as [k Hk].
  rewrite (bind_Ret _ _ s k s) by (unfold gettask; mrun; by rewrite Hk). destruct (t_pgrp k =? tty_pgrp x); cbn [when]; [|by exists s].
  eexists. split; [unfold settask, gettask, on_sched; mrun; rewrite Hk; reflexivity|].
  assert (forall r y, is_Some (tmem (sched s) !! r) -> is_Some (<[q := y]> (tmem (sched s)) !! r)) as Hdom.
  { intros r y Hr. apply lookup_insert_is_Some'. by right. }
  split; [split|by exists x'].
  - intros j r Hj. apply Hdom. by apply (Hok j).
  - intros r Hr. apply Hdom. by apply Hp.
Qed.
End Ops.
End Line.

(** ** One character *)

(** the terminal's [write] leaves the lines alone *)
Definition keeps_line {E : Env} (t : nat) (write : nat -> K unit) : Prop :=
  forall T rq p l d s, typing t T rq p l d s -> gives (write t) s (typing t T rq p l d).

Lemma tolower_ascii c : 0 <= c < 128 -> is_Some (tolower c).
Proof.
  intros Hc. assert (forallb (fun c => bool_decide (is_Some (tolower c))) (seqZ 0 128) = true) as H by (vm_compute; reflexivity).
  rewrite forallb_forall in H. specialize (H c). rewrite <- list_elem_of_In, elem_of_seqZ, bool_decide_eq_true in H. apply H. lia.
Qed.

Section Cook.
Context {E : Env} (t : nat) (write : nat -> K unit) (Hw : keeps_line t write).
Context (T : termios) (rq : tty_queue) (p : option tptr).
Abbreviation state := (typing t T rq p).

Lemma lflag_line l d x f : line T rq p l d x -> lflag x f = on (c_lflag T) f.
Proof. intros []. unfold lflag, on. congruence. Qed.
Lemma cc_line l d x k : line T rq p l d x -> cc x k = key T k.
Proof. intros []. unfold cc, key. congruence. Qed.

Lemma putch_typing s l d c : state l d s -> gives (putch t WRITE_Q c) s (state l d).
Proof. apply out_typing. Qed.
Lemma echo_erase_typing s l d c : state l d s -> gives (echo_erase write t c) s (state l d).
Proof.
  intros H. unfold echo_erase. eapply gives_gettty; [exact H|]. intros x _. apply gives_when; [done|].
  eapply gives_bind; [apply gives_when; [exact H|by apply putch_typing]|]. intros s1 H1.
  eapply gives_bind; [by apply putch_typing|]. intros s2 H2. by apply Hw.
Qed.
Lemma echo_typing s l d c : state l d s -> gives (echo write t c) s (state l d).
Proof.
  intros H. unfold echo. eapply gives_gettty; [exact H|]. intros x _. apply gives_when; [done|].
  eapply gives_bind; [|intros s2 H2; apply Hw; exact H2].
  destruct (c =? 10); [eapply gives_bind; [by apply putch_typing|intros; by apply putch_typing]|].
  destruct (c <? 32); [|by apply putch_typing]. apply gives_when; [done|].
  eapply gives_bind; [by apply putch_typing|intros; by apply putch_typing].
Qed.

(** the test that both erasing functions begin with *)
Lemma at_line_end l d x : line T rq p l d x ->
  EMPTY (tty_secondary x) || (s8 (LAST (tty_secondary x)) =? 10) || (s8 (LAST (tty_secondary x)) =? cc x VEOF) =
  match last l with Some c => line_end T c | None => true end.
Proof.
  intros HL. rewrite (cc_line _ _ _ _ HL). destruct HL as [? ? W HT ? ?]. rewrite EMPTY_contents by done. rewrite HT.
  destruct l as [|c l _] using rev_ind; [done|]. rewrite last_snoc, bool_decide_false by (by destruct l). cbn [orb].
  assert (LAST (tty_secondary x) = c) as ->; [|done]. rewrite (contents_snoc _ W) in HT.
  - by apply app_inj_tail in HT as [_ ->].
  - apply contents_pos. rewrite HT. by destruct l.
Qed.

Lemma erase_typing s l d : state l d s -> gives (erase_char write t) s (state (erased T l) d).
Proof.
  intros H. unfold erase_char. eapply gives_gettty; [exact H|]. intros x HL. cbv zeta. rewrite (at_line_end _ _ _ HL). unfold erased.
  destruct (last l) as [c|] eqn:Hc; [|by apply gives_ret]. destruct (line_end T c); [by apply gives_ret|].
  eapply gives_bind; [by apply echo_erase_typing|]. intros s1 H1. apply unput_typing; [done|]. by intros ->.
Qed.
Lemma kill_typing s l d : state l d s -> gives (kill_line write t) s (state (killed T l) d).
Proof.
  intros H. assert (length l <= 1024)%nat as Hl.
  { pose proof H as (_ & x & _ & [_ _ _ HT _ _]). rewrite <- HT, q_contents_length. pose proof (CHARS_range (tty_secondary x)). lia. }
  apply Nat.lt_succ_r in Hl. unfold kill_line. revert Hl. generalize (S 1024). intros n Hl. revert n s Hl H.
  induction l as [|c l IH] using rev_ind; intros [|n] s Hl H; [lia| |lia|]; cbn [loop].
  all: pose proof H as (_ & x & Hx & HL); pose proof (at_line_end _ _ _ HL) as Hend.
  - exists s. split; [|exact H]. rewrite (bind_Ret _ _ s (inr tt) s); [done|].
    rewrite (bind_Ret _ _ _ _ _ (gettty_run t s x Hx)). cbv zeta. by rewrite Hend.
  - rewrite last_snoc in Hend. rewrite killed_snoc. destruct (line_end T c) eqn:Hc.
    + exists s. split; [|exact H]. rewrite (bind_Ret _ _ s (inr tt) s); [done|].
      rewrite (bind_Ret _ _ _ _ _ (gettty_run t s x Hx)). cbv zeta. by rewrite Hend.
    + destruct (echo_erase_typing s _ d (s8 (LAST (tty_secondary x))) H) as (s1 & E1 & H1).
      destruct (unput_typing t T rq p s1 _ d H1) as (s2 & E2 & H2); [by destruct l|]. rewrite removelast_last in H2.
      destruct (IH n s2) as (s3 & E3 & H3); [rewrite length_app in Hl; cbn in Hl; lia|done|]. exists s3. split; [|exact H3].
      rewrite (bind_Ret _ _ s (inl tt) s2); [exact E3|].
      rewrite (bind_Ret _ _ _ _ _ (gettty_run t s x Hx)). cbv zeta. rewrite Hend. rewrite (bind_Ret _ _ _ _ _ E1).
      by rewrite (bind_Ret _ _ _ _ _ E2).
Qed.

Lemma translate_line l d x c s : line T rq p l d x -> (on (c_iflag T) IUCLC = true -> 0 <= c < 128) ->
  translate_input x c s = Ret (translated T c) s.
Proof.
  intros HL Hc. assert (forall f, iflag x f = on (c_iflag T) f) as Hf by (intros f; destruct HL; unfold iflag, on; congruence).
  unfold translate_input, translated. rewrite !Hf. cbv zeta.
  assert (forall c, (on (c_iflag T) IUCLC = true -> 0 <= c < 128) ->
    (if on (c_iflag T) IUCLC then c ← deref (tolower c); mret (Some (s8 c)) else mret (Some c)) s =
    Ret (if on (c_iflag T) IUCLC then c ← Some c; c ← tolower c; Some (s8 c) else Some c) s) as Hlow.
  { intros k Hk. destruct (on (c_iflag T) IUCLC); [|done]. destruct (tolower_ascii k) as [v Hv]; [by apply Hk|].
    rewrite (bind_Ret _ _ _ _ _ (deref_run _ _ s Hv)). cbn. by rewrite Hv. }
  destruct (c =? 13).
  - destruct (on (c_iflag T) ICRNL); [apply Hlow; intros; lia|].
    destruct (on (c_iflag T) IGNCR); [by destruct (on (c_iflag T) IUCLC)|by apply Hlow].
  - destruct ((c =? 10) && on (c_iflag T) INLCR); apply Hlow; [intros; lia|exact Hc].
Qed.

Lemma cook_typing s l d c : state l d s -> Z.of_nat (length l) < CAPACITY -> (on (c_iflag T) IUCLC = true -> 0 <= c < 128) ->
  gives (cook_char write t c) s (state (edit T (l, d) c).1 (edit T (l, d) c).2).
Proof.
  intros H Hl Hc. unfold cook_char. eapply gives_gettty; [exact H|]. intros x HL.
  unfold gives. rewrite (bind_Ret _ _ _ _ _ (translate_line _ _ _ _ s HL Hc)). unfold edit. cbv zeta.
  destruct (translated T c) as [k|]; [|by exists s].
  rewrite !(lflag_line _ _ _ _ HL), !(cc_line _ _ _ _ HL).
  destruct (on (c_lflag T) ICANON && (k =? key T VKILL)); [by apply kill_typing|].
  destruct (on (c_lflag T) ICANON && (k =? key T VERASE)); [by apply erase_typing|].
  rewrite !andb_orb_distrib_r.
  destruct (on (c_lflag T) ICANON && (k =? key T VSTOP)); [by apply stopped_typing|].
  destruct (on (c_lflag T) ICANON && (k =? key T VSTART)); [by apply stopped_typing|].
  destruct (on (c_lflag T) ISIG && (k =? key T VINTR)); [by apply intr_typing|].
  destruct (on (c_lflag T) ISIG && (k =? key T VQUIT)); [by apply intr_typing|]. cbn [orb fst snd].
  set (d' := if _ || _ then _ else d).
  assert (gives (when ((k =? 10) || (k =? key T VEOF)) (setq t SECONDARY (fun q => q <| q_data ::= fun d => u32 (d + 1) |>)))
    s (state l d')) as Hd.
  { subst d'. destruct (_ || _); cbn [when]; [by apply (data_typing t T rq p s l d (fun d => u32 (d + 1)))|by apply gives_ret]. }
  apply (gives_bind _ _ _ _ _ Hd). intros s1 H1.
  apply (gives_bind _ _ _ _ _ (echo_typing s1 l d' k H1)). intros s2 H2. by apply put_typing.
Qed.
End Cook.

(** ** The characters of the read queue *)

(** what is left of the read queue when the secondary queue fills up *)
Fixpoint cooked (T : termios) (st : list Z * Z) (cs : list Z) : (list Z * Z) * list Z :=
  match cs with
  | [] => (st, [])
  | c :: cs' => if Z.of_nat (length st.1) =? CAPACITY then (st, cs) else cooked T (edit T st (s8 c)) cs'
  end.

Section Cooked.
Context {E : Env} (t : nat) (write : nat -> K unit) (Hw : keeps_line t write) (T : termios) (p : option tptr).

Lemma getch_typing s rq l d c cs : typing t T rq p l d s -> wf_queue rq -> q_contents rq = c :: cs ->
  exists s', getch t READ_Q s = Ret c s' /\ typing t T (pop rq) p l d s'.
Proof.
  intros H W Hc. destruct (settty_typing t (set_tty_q READ_Q pop) s T rq p l d T (pop rq) p l d H) as (s' & E' & H').
  { intros x []. split; try done. cbn. congruence. }
  { done. }
  destruct H as (_ & x & Hx & [_ HR _ _ _ _]). exists s'. split; [|exact H']. unfold getch. rewrite (bind_Ret _ _ _ _ _ (getq_run t READ_Q s x Hx)).
  unfold setq. rewrite (bind_Ret _ _ _ _ _ E').
  unfold mret, M_ret. f_equal. rewrite contents_cons in Hc; [|done|apply contents_pos; by rewrite Hc]. injection Hc as Hc _.
  cbn. congruence.
Qed.

(** the state after it: the queue to be read, the lines, no task waiting *)
Definition cooked_to (p' : option tptr) (r : (list Z * Z) * list Z) (s : kst) : Prop :=
  exists rq', wf_queue rq' /\ q_contents rq' = r.2 /\ typing t T rq' p' r.1.1 r.1.2 s.

Lemma full_line rq l d x : line T rq p l d x -> FULL (tty_secondary x) = (Z.of_nat (length l) =? CAPACITY).
Proof. intros [_ _ _ HT _ _]. rewrite FULL_contents, HT. by destruct (Z.eqb_spec (Z.of_nat (length l)) CAPACITY) as [->|]; [rewrite bool_decide_true|rewrite bool_decide_false]. Qed.

Lemma cook_loop cs : forall n rq l d s, typing t T rq p l d s -> wf_queue rq -> q_contents rq = cs -> (length cs < n)%nat ->
  (on (c_iflag T) IUCLC = true -> Forall (fun c => 0 <= c < 128) cs) ->
  gives (while n (x ← gettty t; mret (negb (EMPTY (tty_read_q x)) && negb (FULL (tty_secondary x))))
    (c ← getch t READ_Q; cook_char write t (s8 c))) s (cooked_to p (cooked T (l, d) cs)).
Proof.
  unfold while. induction cs as [|c cs IH]; intros [|n] rq l d s H W Hc Hn Hlow; try (cbn in Hn; lia); cbn [loop].
  all: pose proof H as (_ & x & Hx & HL); pose proof (full_line _ _ _ _ HL) as Hf; pose proof (ln_read _ _ _ _ _ _ HL) as Hr.
  all: pose proof (EMPTY_contents _ W) as He; rewrite Hc in He; rewrite <- Hr in He.
  - exists s. split; [|by exists rq]. rewrite (bind_Ret _ _ s (inr tt) s); [done|].
    rewrite (bind_Ret _ _ s false s); [done|]. rewrite (bind_Ret _ _ _ _ _ (gettty_run t s x Hx)). by rewrite He.
  - rewrite bool_decide_false in He by done. cbn [cooked fst]. destruct (Z.eqb_spec (Z.of_nat (length l)) CAPACITY) as [HC|HC].
    + exists s. split; [|by exists rq]. rewrite (bind_Ret _ _ s (inr tt) s); [done|].
      rewrite (bind_Ret _ _ s false s); [done|]. rewrite (bind_Ret _ _ _ _ _ (gettty_run t s x Hx)). by rewrite He, Hf.
    + destruct (getch_typing s rq l d c cs H W Hc) as (s1 & E1 & H1).
      assert (Z.of_nat (length l) < CAPACITY) as Hl.
      { destruct HL as [_ _ _ HT _ _]. rewrite <- HT, q_contents_length in *. pose proof (CHARS_range (tty_secondary x)).
        unfold CAPACITY, TTY_BUF_SIZE in *. lia. }
      assert (on (c_iflag T) IUCLC = true -> 0 <= s8 c < 128) as Hc8.
      { intros Hi. specialize (Hlow Hi). apply Forall_cons in Hlow as [? _]. unfold s8. rewrite Z.mod_small by lia. lia. }
      destruct (cook_typing t write Hw T (pop rq) p s1 l d (s8 c) H1 Hl Hc8) as (s2 & E2 & H2).
      destruct (edit T (l, d) (s8 c)) as [l' d'] eqn:Hed. cbn [fst snd] in H2.
      rewrite contents_cons in Hc; [|done|apply contents_pos; by rewrite Hc]. injection Hc as _ Hc.
      destruct (IH n (pop rq) l' d' s2 H2 (wf_pop _ W) Hc ltac:(cbn in Hn; lia)) as (s3 & E3 & H3).
      { intros Hi. specialize (Hlow Hi). by apply Forall_cons in Hlow as [_ ?]. }
      exists s3. split; [|exact H3]. rewrite (bind_Ret _ _ s (inl tt) s2); [exact E3|].
      rewrite (bind_Ret _ _ s true s); cycle 1.
      { rewrite (bind_Ret _ _ _ _ _ (gettty_run t s x Hx)). by rewrite He, Hf. }
      rewrite (bind_Ret _ _ s tt s2); [done|]. rewrite (bind_Ret _ _ _ _ _ E1). exact E2.
Qed.

Lemma wake_reader rq l d s : typing t T rq p l d s -> gives (wake_up (WqTty t SECONDARY)) s (typing t T rq None l d).
Proof.
  intros ([Hok Hp] & x & Hx & HL). unfold gives, wake_up. rewrite (bind_Ret _ _ s s s) by done. cbn [read_wq]. rewrite Hx. cbn.
  pose proof (ln_wait _ _ _ _ _ _ HL) as ->.
  assert (forall r, r = None -> line T rq r l d (set_tty_q SECONDARY (fun q => q <| q_proc_list := r |>) x)) as HL'.
  { intros r ->. destruct HL as [? ? [] ? ? ?]. split; try done. }
  destruct p as [q|].
  - destruct (Hp q eq_refl) as [k Hk]. eexists. split.
    { unfold settask, gettask, on_sched. mrun. rewrite Hk. reflexivity. }
    split; [split; [|done]|].
    + intros i r Hi. cbn. apply lookup_insert_is_Some'. right. by apply (Hok i).
    + exists (set_tty_q SECONDARY (fun q => q <| q_proc_list := None |>) x). split; [|by apply HL'].
      cbn. by rewrite list_lookup_alter_eq, Hx.
  - exists s. split; [done|]. split; [split; [exact Hok|done]|by exists x].
Qed.

Lemma cooked_with_edits rq l d s : typing t T rq p l d s -> wf_queue rq ->
  (on (c_iflag T) IUCLC = true -> Forall (fun c => 0 <= c < 128) (q_contents rq)) ->
  gives (copy_to_cooked_with write t) s (cooked_to None (cooked T (l, d) (q_contents rq))).
Proof.
  intros H W Hlow. unfold copy_to_cooked_with.
  assert (length (q_contents rq) < S (1024 + env_fuel))%nat as Hn.
  { rewrite q_contents_length. pose proof (CHARS_range rq). lia. }
  destruct (cook_loop _ _ rq l d s H W eq_refl Hn Hlow) as (s1 & E1 & rq' & W' & Hc' & H1).
  destruct (wake_reader _ _ _ _ H1) as (s2 & E2 & H2). exists s2. split; [by rewrite (bind_Ret _ _ _ _ _ E1)|by exists rq'].
Qed.
End Cooked.

(** [write] of the serial lines *)
Lemma serial_keeps_line {E : Env} t : env_fuel <> 0%nat -> t <> 0%nat -> keeps_line t write_fn.
Proof.
  intros Hfuel Ht T rq p l d s H. unfold write_fn. destruct env_fuel as [|n]; [done|]. destruct t as [|t]; [done|]. cbn [tty_write_fn].
  pose proof H as (_ & x & Hx & _). unfold rs_write, gives.
  rewrite (bind_Ret _ _ _ _ _ (getq_run (S t) WRITE_Q s x Hx)). destruct (EMPTY _); [by exists s|].
  eexists. split; [unfold inb, outb; mrun; reflexivity|exact H].
Qed.

(** C13: the line discipline is a line editor.  On a serial terminal whose settings are
    [T], with the lines [l] typed so far, [copy_to_cooked] returns, and the
    characters that came in have been typed into the editor [edit] one after the
    other: the erase character takes back the last character of the line that
    is being typed and the kill character all of them, neither going back over the
    end of a line; the stop, start, interrupt and quit characters leave no
    trace; every other one is appended, after the translation of newlines and of
    upper case, and the ends of lines are counted.  It stops when the lines fill
    the queue, and what it did not get to stays, in order, to be read.  No reader waits
    any more.  Where upper case is mapped ([IUCLC]), the characters are taken to be
    ASCII: [tolower] looks them up in a table. *)
Theorem line_discipline_correct {E : Env} (t : nat) (T : termios) (p : option tptr) (rq : tty_queue) (l : list Z) (d : Z) (s : kst)
  (Hfuel : env_fuel <> 0%nat) (Ht : t <> 0%nat) (H : typing t T rq p l d s) (W : wf_queue rq)
  (Hlow : on (c_iflag T) IUCLC = true -> Forall (fun c => 0 <= c < 128) (q_contents rq)) :
  gives (copy_to_cooked t) s (cooked_to t T None (cooked T (l, d) (q_contents rq))).
Proof. eapply cooked_with_edits; [by apply serial_keeps_line|done..]. Qed.

(** a serial terminal with the settings of the console: "ab", erase, "c", end of
    the line, "xy", kill, "z" *)
Definition keys : list Z := [97; 98; 127; 99; 13; 120; 121; 21; 122].
Definition line_termios : termios := default (mk_termios 0 0 0 0 0 []) (tty_termios <$> tty_table boot_kst !! 0%nat).
Definition keys_queue : tty_queue := puts keys (zero_queue 0).
Definition line_kst : kst :=
  boot_kst <| tty_table ::= alter (fun x => x <| tty_termios := line_termios |> <| tty_read_q := keys_queue |>) 1%nat |>.
Lemma line_discipline_correct_witness :
  cooked line_termios ([], 0) (q_contents keys_queue) = ([97; 99; 10; 122], 1, []) /\
  gives (@copy_to_cooked (quiet_env 2) 1) line_kst (cooked_to 1 line_termios None (cooked line_termios ([], 0) (q_contents keys_queue))).
Proof.
  split; [vm_compute; reflexivity|]. apply (@line_discipline_correct (quiet_env 2) 1 line_termios None keys_queue [] 0 line_kst).
  - done.
  - done.
  - split; [split; [|done]|].
    + intros [|i] q Hi; [injection Hi as <-; vm_compute; by eexists|]; exfalso; unfold slot in Hi; apply bind_Some in Hi as (v & Hv & Hi).
      apply (proj1 (lookup_replicate 63 None v i)) in Hv as [-> _]. done.
    + eexists. split; [vm_compute; reflexivity|]. by split.
  - by apply contents_puts.
  - done.
Defined.
