(* ===== verification/Traps.v ===== *)
(** * kernel/traps.cc, kernel/asm.cc, kernel/math: processor exceptions and the interrupt table

    The entry stubs of asm.cc save the registers and call the [do_] functions;
    here each function gets the saved registers and the error code. *)

From S2P Require Import Prelude State Segment Memory Sched Request LlRw Buffer Bitmap Inode Namei TtyQueue Super Open Exit Fork SysCall.

Definition SIGFPE : Z := 8.

Section Traps.
Context {E : Env}.

(** ** Reading memory through a selector: the local segments are the user's, the others the kernel's *)
Definition seg_byte (seg a : Z) : K Z := if nz (Z.land seg 4) then get_fs_byte a else phys_byte (u32 a).
Definition get_seg_byte (seg addr : Z) : K Z := seg_byte seg addr.
Definition get_seg_long (seg addr : Z) : K Z :=
  b0 ← seg_byte seg addr; b1 ← seg_byte seg (addr + 1); b2 ← seg_byte seg (addr + 2); b3 ← seg_byte seg (addr + 3);
  mret (b0 + 2 ^ 8 * b1 + 2 ^ 16 * b2 + 2 ^ 24 * b3).

(** [_fs()]: the entry stubs load the kernel data segment *)
Definition _fs : Z := 0x10.
(** [str(i)]: the slot of the task the task register selects *)
Definition str_slot (s : sched_st) : Z :=
  match list_find (fun o => o = Some (current s)) (task s) with Some (i, _) => Z.of_nat i | None => 0 end.

Definition die_task (str : string) (g : regs) (nr : Z) : K unit :=
  printk (str ++ ": %04x\n\r") [Z.land nr 0xffff] ;;
  printk "EIP:\t%04x:%p\nEFLAGS:\t%p\nESP:\t%04x:%p\n" [g_cs g; g_eip g; g_eflags g; g_ss g; g_esp g] ;;
  printk "fs: %04x\n" [_fs] ;;
  d1 ← my_ldt 1; d2 ← my_ldt 2;
  printk "base: %p, limit: %p\n" [get_base d1; get_limit d2] ;;
  when (g_ss g =? 0x17)
    (printk "Stack: " [] ;;
     for_each (seq 0 4) (fun i => v ← get_seg_long 0x17 (g_esp g + 4 * Z.of_nat i); printk "%p " [v]) ;;
     printk "\n" []) ;;
  t ← me; s ← gets sched;
  printk "Pid: %d, process nr: %d\n\r" [t_pid t; str_slot s] ;;
  for_each (seq 0 10) (fun i => v ← get_seg_byte (g_cs g) (g_eip g + Z.of_nat i); printk "%02x " [v]) ;;
  printk "\n\r" [] ;;
  _ ← do_exit 11; mret tt.

Definition do_double_fault (g : regs) (error_code : Z) : K unit := die_task "double fault" g error_code.
Definition do_general_protection (g : regs) (error_code : Z) : K unit := die_task "general protection" g error_code.
Definition do_divide_error (g : regs) (error_code : Z) : K unit := die_task "divide error" g error_code.
(** [esp] is where the processor saved [eip] on the kernel stack *)
Definition do_int3 (g : regs) (esp eax : Z) : K unit :=
  printk "eax\t\tebx\t\tecx\t\tedx\n\r%8x\t%8x\t%8x\t%8x\n\r" [eax; g_ebx g; g_ecx g; g_edx g] ;;
  printk "esi\t\tedi\t\tebp\t\tesp\n\r%8x\t%8x\t%8x\t%8x\n\r" [g_esi g; g_edi g; g_ebp g; esp] ;;
  s ← gets sched;
  printk "\n\rds\tes\tfs\ttr\n\r%4x\t%4x\t%4x\t%4x\n\r" [g_ds g; g_es g; g_fs g; 8 * (FIRST_TSS_ENTRY + 2 * str_slot s)] ;;
  printk "EIP: %8x   CS: %4x  EFLAGS: %8x\n\r" [g_eip g; g_cs g; g_eflags g].
Definition do_nmi (g : regs) (error_code : Z) : K unit := die_task "nmi" g error_code.
Definition do_debug (g : regs) (error_code : Z) : K unit := die_task "debug" g error_code.
Definition do_overflow (g : regs) (error_code : Z) : K unit := die_task "overflow" g error_code.
Definition do_bounds (g : regs) (error_code : Z) : K unit := die_task "bounds" g error_code.
Definition do_invalid_op (g : regs) (error_code : Z) : K unit := die_task "invalid operand" g error_code.
Definition do_device_not_available (g : regs) (error_code : Z) : K unit := die_task "device not available" g error_code.
Definition do_coprocessor_segment_overrun (g : regs) (error_code : Z) : K unit :=
  die_task "coprocessor segment overrun" g error_code.
Definition do_invalid_TSS (g : regs) (error_code : Z) : K unit := die_task "invalid TSS" g error_code.
Definition do_segment_not_present (g : regs) (error_code : Z) : K unit := die_task "segment not present" g error_code.
Definition do_stack_segment (g : regs) (error_code : Z) : K unit := die_task "stack segment" g error_code.
Definition do_coprocessor_error (g : regs) (error_code : Z) : K unit :=
  s ← gets sched;
  if bool_decide (last_task_used_math s = Some (current s)) then die_task "coprocessor error" g error_code else mret tt.
Definition do_reserved (g : regs) (error_code : Z) : K unit := die_task "reserved (15,17-47) error" g error_code.

(** ** The coprocessor *)

(** the emulator steps over the two bytes of the instruction in the saved [eip] *)
Definition math_emulate (g : regs) : K regs :=
  if negb (u16 (g_cs g) =? 0x000f) then
    printk "math_emulate: %04x:%08x\n\r" [u16 (g_cs g); g_eip g] ;; panic "Math emulation needed in kernel"
  else
  first ← get_fs_byte (g_eip g); second ← get_fs_byte (g_eip g + 1);
  printk "%04x:%08x %02x %02x\n\r" [u16 (g_cs g); g_eip g; first; second] ;;
  setme (fun t => t <| t_signal ::= fun b => Z.lor b (bit (SIGFPE - 1)) |>) ;;
  mret (g <| g_eip := u32 (g_eip g + 2) |>).
Definition math_error : K unit :=
  s ← gets sched;
  match last_task_used_math s with
  | Some p => settask p (fun t => t <| t_signal ::= fun b => Z.lor b (bit (SIGFPE - 1)) |>)
  | None => mret tt
  end.

(** [em]: the emulation bit of [cr0] *)
Definition device_not_available (em : bool) (eax : Z) (g : regs) : K (Z * regs) :=
  (if em then g ← math_emulate g; ret_from_sys_call eax g
   else math_state_restore ;; ret_from_sys_call eax g).
Definition coprocessor_error (eax : Z) (g : regs) : K (Z * regs) := math_error ;; ret_from_sys_call eax g.
(** interrupt 13 of the slave controller *)
Definition irq13 (eax : Z) (g : regs) : K (Z * regs) :=
  outb 0 0xF0 ;; outb 0x20 0x20 ;; outb 0x20 0xA0 ;; coprocessor_error eax g.
End Traps.

(** ** The interrupt descriptor table *)

(** [_set_gate]: code selector 8 and the low half of the address; the high half, type and privilege *)
Definition _set_gate (type dpl addr : Z) : desc_struct :=
  mk_desc (Z.lor 0x00080000 (u16 addr))
          (Z.lor (Z.land (u32 addr) 0xffff0000) (u16 (0x8000 + Z.shiftl dpl 13 + Z.shiftl type 8))).
Definition set_intr_gate (n : nat) (addr : Z) : list desc_struct -> list desc_struct := <[n := _set_gate 14 0 addr]>.
Definition set_trap_gate (n : nat) (addr : Z) : list desc_struct -> list desc_struct := <[n := _set_gate 15 0 addr]>.
Definition set_system_gate (n : nat) (addr : Z) : list desc_struct -> list desc_struct := <[n := _set_gate 15 3 addr]>.

(** the entry points; their addresses are the linker's *)
Inductive exception :=
| divide_error | debug | nmi | int3 | overflow | bounds | invalid_op | double_fault
| coprocessor_segment_overrun | invalid_TSS | segment_not_present | stack_segment | general_protection
| page_fault_entry | reserved.
Inductive entry :=
| Exc (e : exception)
| device_not_available_entry | coprocessor_error_entry | irq13_entry | parallel_interrupt_entry
| timer_interrupt_entry | system_call_entry | keyboard_interrupt | rs1_interrupt | rs2_interrupt
| hd_interrupt_entry | floppy_interrupt_entry.
Coercion Exc : exception >-> entry.
#[export] Instance entry_eq_dec : EqDecision entry.
Proof. intros x y. hnf. repeat decide equality. Defined.

(** ** asm.cc: what each entry calls; [no_error_code] pushes the error code 0 *)
Section Entries.
Context {E : Env}.
Definition no_error_code (f : regs -> Z -> K unit) (g : regs) : K unit := f g 0.
Definition error_code (f : regs -> Z -> K unit) (g : regs) (code : Z) : K unit := f g code.
Definition exception_entry (e : exception) (g : regs) (esp code eax address : Z) : K unit :=
  match e with
  | divide_error => no_error_code do_divide_error g
  | debug | int3 => do_int3 g esp eax
  | nmi => no_error_code do_nmi g
  | overflow => no_error_code do_overflow g
  | bounds => no_error_code do_bounds g
  | invalid_op => no_error_code do_invalid_op g
  | coprocessor_segment_overrun => no_error_code do_coprocessor_segment_overrun g
  | reserved => no_error_code do_reserved g
  | double_fault => error_code do_double_fault g code
  | invalid_TSS => error_code do_invalid_TSS g code
  | segment_not_present => error_code do_segment_not_present g code
  | stack_segment => error_code do_stack_segment g code
  | general_protection => error_code do_general_protection g code
  | page_fault_entry => page_fault code address
  end.
End Entries.

Section Idt.
Context (addr : entry -> Z).

Definition trap_init_idt (idt : list desc_struct) : list desc_struct :=
  let idt := set_trap_gate 0 (addr divide_error) idt in
  let idt := set_trap_gate 1 (addr debug) idt in
  let idt := set_trap_gate 2 (addr nmi) idt in
  let idt := set_system_gate 3 (addr int3) idt in
  let idt := set_system_gate 4 (addr overflow) idt in
  let idt := set_system_gate 5 (addr bounds) idt in
  let idt := set_trap_gate 6 (addr invalid_op) idt in
  let idt := set_trap_gate 7 (addr device_not_available_entry) idt in
  let idt := set_trap_gate 8 (addr double_fault) idt in
  let idt := set_trap_gate 9 (addr coprocessor_segment_overrun) idt in
  let idt := set_trap_gate 10 (addr invalid_TSS) idt in
  let idt := set_trap_gate 11 (addr segment_not_present) idt in
  let idt := set_trap_gate 12 (addr stack_segment) idt in
  let idt := set_trap_gate 13 (addr general_protection) idt in
  let idt := set_trap_gate 14 (addr page_fault_entry) idt in
  let idt := set_trap_gate 15 (addr reserved) idt in
  let idt := set_trap_gate 16 (addr coprocessor_error_entry) idt in
  let idt := fold_left (fun idt i => set_trap_gate i (addr reserved) idt) (seq 17 31) idt in
  let idt := set_trap_gate 45 (addr irq13_entry) idt in
  set_trap_gate 39 (addr parallel_interrupt_entry) idt.
(** and the two ports of the interrupt controllers *)
Definition trap_init {E : Env} : K unit :=
  v ← inb 0x21; outb (Z.land v 0xfb) 0x21 ;;
  v ← inb 0xA1; outb (Z.land v 0xdf) 0xA1.

(** the gates that [tty_init], [sched_init], [hd_init] and [floppy_init] add, in the order of [kmain] *)
Definition init_gates (idt : list desc_struct) : list desc_struct :=
  let idt := trap_init_idt idt in
  let idt := set_intr_gate 0x24 (addr rs1_interrupt) idt in
  let idt := set_intr_gate 0x23 (addr rs2_interrupt) idt in
  let idt := set_trap_gate 0x21 (addr keyboard_interrupt) idt in
  let idt := set_intr_gate 0x20 (addr timer_interrupt_entry) idt in
  let idt := set_system_gate 0x80 (addr system_call_entry) idt in
  let idt := set_intr_gate 0x2E (addr hd_interrupt_entry) idt in
  set_trap_gate 0x26 (addr floppy_interrupt_entry) idt.
End Idt.
