(* ===== verification/TrapsFacts.v ===== *)
(** * The interrupt table: which programs may enter where *)

From S2P Require Import Prelude Bits State Segment Traps.

(** ** A gate, decoded as the processor does *)
Definition gate_offset (d : desc_struct) : Z := Z.lor (Z.land (d_b d) 0xffff0000) (u16 (d_a d)).
Definition gate_selector (d : desc_struct) : Z := Z.shiftr (d_a d) 16.
Definition gate_dpl (d : desc_struct) : Z := Z.land (Z.shiftr (d_b d) 13) 3.
Definition gate_present (d : desc_struct) : bool := Z.testbit (d_b d) 15.

Lemma gate_offset_set type dpl addr : gate_offset (_set_gate type dpl addr) = u32 addr.
Proof.
  unfold gate_offset, _set_gate, u16, u32. cbn.
  change 0xffff0000 with (Z.shiftl (Z.ones 16) 16). change 0x80000 with (Z.shiftl (Z.ones 1) 19). bits.
Qed.
Lemma gate_selector_set type dpl addr : gate_selector (_set_gate type dpl addr) = 8.
Proof.
  unfold gate_selector, _set_gate, u16. cbn. change 8 with (Z.shiftl (Z.ones 1) 3).
  change 0x80000 with (Z.shiftl (Z.ones 1) 19). bits.
Qed.
Lemma gate_attributes type dpl addr n : 0 <= n < 16 ->
  Z.testbit (d_b (_set_gate type dpl addr)) n = Z.testbit (0x8000 + Z.shiftl dpl 13 + Z.shiftl type 8) n.
Proof.
  intros Hn. unfold _set_gate, u16, u32. cbn. change 0xffff0000 with (Z.shiftl (Z.ones 16) 16).
  autorewrite with bits. bits_cases.
Qed.
Lemma gate_dpl_set type dpl addr : (type = 14 \/ type = 15) -> (dpl = 0 \/ dpl = 3) ->
  gate_dpl (_set_gate type dpl addr) = dpl /\ gate_present (_set_gate type dpl addr) = true.
Proof.
  intros Ht Hd. split.
  - unfold gate_dpl. change 3 with (Z.shiftl (Z.ones 2) 0) at 1. apply Z.bits_inj'. intros n Hn. autorewrite with bits.
    destruct (Z.leb_spec 0 n), (Z.ltb_spec n (0 + 2)); try lia; cbn [andb];
      [|destruct Hd as [-> | ->]; rewrite ?Z.testbit_0_l, ?andb_false_r; [done|];
        change 3 with (Z.ones 2); rewrite Z.ones_spec_high by lia; done].
    rewrite gate_attributes by lia. assert (n = 0 \/ n = 1) as [-> | ->] by lia;
      destruct Ht as [-> | ->], Hd as [-> | ->]; reflexivity.
  - unfold gate_present. rewrite gate_attributes by lia. destruct Ht as [-> | ->], Hd as [-> | ->]; reflexivity.
Qed.

(** ** The gates as data: the last one for a vector counts *)
Definition gate : Type := nat * Z * Z * entry.
Definition install (addr : entry -> Z) (l : list desc_struct) (g : gate) : list desc_struct :=
  let '(n, ty, dpl, e) := g in <[n := _set_gate ty dpl (addr e)]> l.
Definition gates : list gate :=
  [(0%nat, 15, 0, Exc divide_error); (1%nat, 15, 0, Exc debug); (2%nat, 15, 0, Exc nmi); (3%nat, 15, 3, Exc int3);
   (4%nat, 15, 3, Exc overflow); (5%nat, 15, 3, Exc bounds); (6%nat, 15, 0, Exc invalid_op);
   (7%nat, 15, 0, device_not_available_entry); (8%nat, 15, 0, Exc double_fault);
   (9%nat, 15, 0, Exc coprocessor_segment_overrun); (10%nat, 15, 0, Exc invalid_TSS);
   (11%nat, 15, 0, Exc segment_not_present); (12%nat, 15, 0, Exc stack_segment);
   (13%nat, 15, 0, Exc general_protection); (14%nat, 15, 0, Exc page_fault_entry); (15%nat, 15, 0, Exc reserved);
   (16%nat, 15, 0, coprocessor_error_entry)] ++
  ((fun i => (i, 15, 0, Exc reserved)) <$> seq 17 31) ++
  [(45%nat, 15, 0, irq13_entry); (39%nat, 15, 0, parallel_interrupt_entry);
   (36%nat, 14, 0, rs1_interrupt); (35%nat, 14, 0, rs2_interrupt); (33%nat, 15, 0, keyboard_interrupt);
   (32%nat, 14, 0, timer_interrupt_entry); (128%nat, 15, 3, system_call_entry);
   (46%nat, 14, 0, hd_interrupt_entry); (38%nat, 15, 0, floppy_interrupt_entry)].

Lemma init_gates_install addr idt : init_gates addr idt = fold_left (install addr) gates idt.
Proof. reflexivity. Qed.

Definition last_gate (l : list gate) (n : nat) : option gate :=
  fold_left (fun o (g : gate) => if (g.1.1.1 =? n)%nat then Some g else o) l None.
Lemma fold_install addr l : forall idt n, (forall g, g ∈ l -> (g.1.1.1 < length idt)%nat) ->
  fold_left (install addr) l idt !! n =
  match last_gate l n with Some (_, ty, dpl, e) => Some (_set_gate ty dpl (addr e)) | None => idt !! n end.
Proof.
  induction l as [|[[[m ty] dpl] e] l IH] using rev_ind; intros idt n Hl; [done|].
  unfold last_gate. rewrite !fold_left_app. cbn. 
  assert (length (fold_left (install addr) l idt) = length idt) as Hlen.
  { clear. revert idt. induction l as [|[[[m ty] dpl] e] l IH]; intros idt; cbn; [done|]. by rewrite IH, length_insert. }
  destruct (Nat.eqb_spec m n) as [->|Hne].
  - rewrite list_lookup_insert_eq; [done|]. rewrite Hlen. apply (Hl (n, ty, dpl, e)), elem_of_mid.
  - rewrite list_lookup_insert_ne by done. apply IH. intros g Hg. apply Hl, elem_of_app. by left.
Qed.

(** ** What each vector is for *)
Definition vector_entry (n : nat) : option entry :=
  match n with
  | 0 => Some (Exc divide_error) | 1 => Some (Exc debug) | 2 => Some (Exc nmi) | 3 => Some (Exc int3)
  | 4 => Some (Exc overflow) | 5 => Some (Exc bounds) | 6 => Some (Exc invalid_op) | 7 => Some device_not_available_entry
  | 8 => Some (Exc double_fault) | 9 => Some (Exc coprocessor_segment_overrun) | 10 => Some (Exc invalid_TSS)
  | 11 => Some (Exc segment_not_present) | 12 => Some (Exc stack_segment) | 13 => Some (Exc general_protection)
  | 14 => Some (Exc page_fault_entry) | 16 => Some coprocessor_error_entry
  | 32 => Some timer_interrupt_entry | 33 => Some keyboard_interrupt | 35 => Some rs2_interrupt | 36 => Some rs1_interrupt
  | 38 => Some floppy_interrupt_entry | 39 => Some parallel_interrupt_entry | 45 => Some irq13_entry
  | 46 => Some hd_interrupt_entry | 128 => Some system_call_entry
  | _ => if (15 <=? n)%nat && (n <? 48)%nat then Some (Exc reserved) else None
  end%nat.
(** the vectors an [int] instruction of a user program may use *)
Definition user_vectors : list nat := [3; 4; 5; 128]%nat.

Definition gate_agrees (n : nat) : bool :=
  match last_gate gates n with
  | None => bool_decide (vector_entry n = None) && bool_decide (n ∉ user_vectors)
  | Some (_, ty, dpl, e) =>
      bool_decide (vector_entry n = Some e) && bool_decide (ty = 14 \/ ty = 15) &&
      bool_decide (dpl = if decide (n ∈ user_vectors) then 3 else 0)
  end.
Lemma gates_agree n : (n < 256)%nat -> gate_agrees n = true.
Proof.
  intros Hn. assert (forallb gate_agrees (seq 0 256) = true) as H by (vm_compute; reflexivity).
  rewrite forallb_forall in H. apply H. apply in_seq. lia.
Qed.
Lemma gates_in_table g : g ∈ gates -> (g.1.1.1 < 256)%nat.
Proof.
  intros Hg. assert (forallb (fun g : gate => g.1.1.1 <? 256)%nat gates = true) as H by (vm_compute; reflexivity).
  rewrite forallb_forall in H. apply Nat.ltb_lt, H. by apply list_elem_of_In.
Qed.

(** C36: the interrupt table that the start-up code leaves is safe and
    complete.  A user program can enter the kernel through vectors 3, 4, 5 and
    128 only (every other gate has privilege level 0); each exception, each
    device interrupt and the system call has a present gate with the kernel's
    code selector at the address of its own entry point, also where a later
    gate replaces an earlier one; the other vectors keep the gate they had. *)
Theorem interrupt_table_correct (addr : entry -> Z) (idt : list desc_struct)
  (Hlen : length idt = 256%nat) (Hidt : forall n d, idt !! n = Some d -> gate_dpl d = 0) (n : nat) (Hn : (n < 256)%nat) :
  exists d, init_gates addr idt !! n = Some d /\
    gate_dpl d = (if decide (n ∈ user_vectors) then 3 else 0) /\
    match vector_entry n with
    | Some e => gate_offset d = u32 (addr e) /\ gate_selector d = 8 /\ gate_present d = true
    | None => idt !! n = Some d
    end.
Proof.
  rewrite init_gates_install, fold_install by (intros g Hg; rewrite Hlen; by apply gates_in_table).
  pose proof (gates_agree n Hn) as Ha. unfold gate_agrees in Ha.
  destruct (last_gate gates n) as [[[[m ty] dpl] e]|].
  - rewrite !andb_true_iff, !bool_decide_eq_true in Ha. destruct Ha as [[-> Hty] Hdpl]. eexists. split; [done|].
    destruct (gate_dpl_set ty dpl (addr e) Hty) as [-> ->]; [rewrite Hdpl; destruct (decide (n ∈ user_vectors)); auto|].
    rewrite gate_offset_set, gate_selector_set. auto.
  - rewrite andb_true_iff, !bool_decide_eq_true in Ha. destruct Ha as [-> Hu].
    destruct (lookup_lt_is_Some_2 idt n ltac:(lia)) as [d Hd]. exists d. rewrite decide_False by done. eauto.
Qed.

Lemma interrupt_table_correct_witness :
  exists d, init_gates (fun _ => 0x12345) (replicate 256 (mk_desc 0x80000 0x8e00)) !! 14%nat = Some d /\
    gate_dpl d = 0 /\ gate_offset d = 0x12345.
Proof.
  destruct (interrupt_table_correct (fun _ => 0x12345) (replicate 256 (mk_desc 0x80000 0x8e00))) with (n := 14%nat)
    as (d & Hd & Hdpl & Hoff & _).
  - reflexivity.
  - intros n d Hd. apply lookup_replicate in Hd as [-> _]. reflexivity.
  - lia.
  - exists d. split; [exact Hd|]. split; [exact Hdpl|exact Hoff].
Defined.
