(* ===== verification/Boot.v ===== *)
(** * init/main.cc: the start of the kernel

    [kmain] divides the memory, starts the components in order and becomes
    task 0.  The processor set-up ([sti], the jump to user mode) and the init
    process, a user program, are not part of it. *)

From S2P Require Import Prelude Mktime State Memory Sched Request Hd Floppy LlRw Buffer Console Tty Fork Traps.

(** where memory ends and where the pages for programs begin; [ext_mem_k] is
    the 16-bit size of the extended memory in KB that the set-up code stored *)
Definition kmain_layout (ext_mem_k : Z) : Z * Z :=
  let memory_end := s32 (Z.shiftl 1 20 + Z.shiftl ext_mem_k 10) in
  let memory_end := Z.land memory_end 0xfffff000 in
  let memory_end := if 16 * 1024 * 1024 <? memory_end then 16 * 1024 * 1024 else memory_end in
  let buffer_memory_end :=
    if 12 * 1024 * 1024 <? memory_end then 4 * 1024 * 1024
    else if 6 * 1024 * 1024 <? memory_end then 2 * 1024 * 1024
    else 1 * 1024 * 1024 in
  (memory_end, buffer_memory_end).

(** [CON_COLS]: the high byte of the word at 0x9000e *)
Definition CON_COLS (w : Z) : Z := Z.shiftr (Z.land w 0xff00) 8.

Section Boot.
Context {E : Env}.

(** [time_init] of Mktime.v, run on the kernel's [startup_time] *)
Definition boot_clock (cmos : nat -> Z -> Z) : K unit :=
  zoom (fun s => mk_clock 0 (State.startup_time (sched s)))
       (fun c s => s <| sched ::= fun x => x <| State.startup_time := Mktime.startup_time c |> |>)
       (time_init cmos env_fuel).

(** what the set-up code and the hardware tell [kmain] *)
Record boot_info : Type := mk_boot {
  ext_mem_k : Z; orig_root_dev : Z; con_word : Z; lines_x : Z; lines_y : Z; video_mode : Z; ega_bx : Z;
  cmos : nat -> Z -> Z
}.

Definition kmain (b : boot_info) : K unit :=
  on_fs (fun s => s <| ROOT_DEV := orig_root_dev b |>) ;;
  let '(memory_end, buffer_memory_end) := kmain_layout (ext_mem_k b) in
  let main_memory_start := buffer_memory_end in
  zoom_mm (mem_init main_memory_start memory_end) ;;
  trap_init ;;
  blk_dev_init ;;
  tty_init (CON_COLS (con_word b)) (lines_x b) (lines_y b) (video_mode b) (ega_bx b) ;;
  boot_clock (cmos b) ;;
  sched_init ;;
  buffer_init buffer_memory_end ;;
  hd_init ;;
  floppy_init.
End Boot.
