(* ===== verification/BootFacts.v ===== *)
(** * Memory after start-up: buffers, holes and program pages do not overlap *)

From S2P Require Import Prelude Bits State Memory MemoryFacts Buffer Boot.

(** ** The division of memory *)
Lemma land_page x : 0 <= x < 2 ^ 32 -> Z.land x 0xfffff000 = x - x mod 4096.
Proof. intros Hx. rewrite Z.land_comm. fold (frame x). rewrite frame_spec by done. pose proof (Z.div_mod x 4096). lia. Qed.

Lemma layout_spec ext : 0 <= ext < 2 ^ 16 ->
  let '(e, b) := kmain_layout ext in
  0x100000 <= b <= e /\ e <= 0x1000000 /\ e mod 4096 = 0 /\ (b = 0x100000 \/ b = 0x200000 \/ b = 0x400000) /\
  (e = 0x1000000 \/ 0x100000 + 1024 * ext - 4096 < e <= 0x100000 + 1024 * ext).
Proof.
  intros Hext. unfold kmain_layout. rewrite (Z.shiftl_mul_pow2 ext) by lia. change (Z.shiftl 1 20) with 0x100000.
  rewrite s32_id by lia. rewrite land_page by lia.
  set (m := 0x100000 + ext * 2 ^ 10). pose proof (Z.mod_pos_bound m 4096 ltac:(lia)).
  assert ((m - m mod 4096) mod 4096 = 0) as Hm by (rewrite Zminus_mod_idemp_r, Z.sub_diag; done).
  assert (0x100000 <= m - m mod 4096).
  { pose proof (Z.div_mod m 4096 ltac:(lia)).
    assert (256 <= m / 4096) by (apply Z.div_le_lower_bound; unfold m; lia). lia. }
  destruct (Z.ltb_spec (16 * 1024 * 1024) (m - m mod 4096)).
  - change (12 * 1024 * 1024 <? 16 * 1024 * 1024) with true. cbn iota. split_and!; auto; (reflexivity || lia).
  - destruct (Z.ltb_spec (12 * 1024 * 1024) (m - m mod 4096)), (Z.ltb_spec (6 * 1024 * 1024) (m - m mod 4096));
      cbn iota; try lia; split_and!; auto; try lia; unfold m; lia.
Qed.

(** ** [mem_init]: free pages are those between the two limits *)
Lemma set_counts_run n : forall v base j m, (base + j + n <= length (mem_map m))%nat ->
  exists m', for_each (seq j n) (fun k => set_count (Z.of_nat base + Z.of_nat k) v) m = Ret tt m' /\
    HIGH_MEMORY m' = HIGH_MEMORY m /\ length (mem_map m') = length (mem_map m) /\
    forall i, mem_map m' !! i = if decide (base + j <= i < base + j + n)%nat then Some (u8 v) else mem_map m !! i.
Proof.
  induction n as [|n IH]; intros v base j m Hl.
  { exists m. split_and!; [done..|]. intros i. by rewrite decide_False by lia. }
  destruct (lookup_lt_is_Some_2 (mem_map m) (base + j)) as [c Hc]; [lia|].
  pose proof (set_count_run _ c v m Hc) as Hrun. rewrite Nat2Z.inj_add in Hrun.
  destruct (IH v base (S j) (m <| mem_map ::= <[(base + j)%nat := u8 v]> |>)) as (m' & Hm' & Hh & Hlen & Hmap).
  { unfold upd; cbn. rewrite length_insert. lia. }
  exists m'. cbn [for_each seq]. rewrite (bind_Ret _ _ _ _ _ Hrun). unfold upd in *; cbn in *. rewrite length_insert in Hlen.
  split_and!; [done..|]. intros i. rewrite Hmap.
  destruct (decide (i = base + j)%nat) as [->|Hne].
  - rewrite decide_False, decide_True, list_lookup_insert_eq by lia. done.
  - rewrite list_lookup_insert_ne by done. do 2 case_decide; lia || done.
Qed.

(** page [i] of the paged memory is one for programs *)
Definition program_page (s e : Z) (i : nat) : Prop := s <= LOW_MEM + 4096 * Z.of_nat i < e.
#[export] Instance program_page_dec s e i : Decision (program_page s e i).
Proof. unfold program_page. apply _. Defined.

Lemma mem_init_run s e m : length (mem_map m) = PAGING_PAGES ->
  LOW_MEM <= s <= e -> e <= 0x1000000 -> s mod 4096 = 0 -> e mod 4096 = 0 ->
  exists m', mem_init s e m = Ret tt m' /\ HIGH_MEMORY m' = e /\ length (mem_map m') = PAGING_PAGES /\
    forall i, (i < PAGING_PAGES)%nat -> mem_map m' !! i = Some (if decide (program_page s e i) then 0 else USED).
Proof.
  intros Hlen Hs He Hsm Hem. unfold mem_init. unfold LOW_MEM in *.
  rewrite (bind_Ret _ _ _ tt (m <| HIGH_MEMORY := e |>)) by done.
  assert (PAGING_PAGES = 3840%nat) as Hp by reflexivity.
  destruct (set_counts_run PAGING_PAGES USED 0 0 (m <| HIGH_MEMORY := e |>)) as (m1 & Hm1 & Hh1 & Hl1 & Hmap1).
  { unfold upd; cbn. lia. }
  rewrite (bind_Ret _ _ _ tt m1) by exact Hm1. cbv zeta. rewrite !s32_id by lia. rewrite !Z.shiftr_div_pow2 by lia.
  set (b := Z.to_nat ((s - 0x100000) / 2 ^ 12)). set (n := Z.to_nat ((e - s) / 2 ^ 12)).
  assert (Z.of_nat b = (s - 0x100000) / 2 ^ 12) as Hb by (apply Z2Nat.id, Z.div_pos; lia). rewrite <- Hb.
  assert (Z.of_nat n = (e - s) / 2 ^ 12) as Hn by (apply Z2Nat.id, Z.div_pos; lia).
  assert (s = 0x100000 + 4096 * Z.of_nat b) as Hsb by (rewrite Hb; Z.div_mod_to_equations; lia).
  assert (e = s + 4096 * Z.of_nat n) as Hen by (rewrite Hn; Z.div_mod_to_equations; lia).
  unfold upd in *; cbn in *.
  destruct (set_counts_run n 0 b 0 m1) as (m2 & Hm2 & Hh2 & Hl2 & Hmap2); [lia|].
  exists m2. split; [exact Hm2|]. split; [congruence|]. split; [congruence|]. intros i Hi.
  rewrite Hmap2, Hmap1. unfold program_page, LOW_MEM. repeat case_decide; try lia; reflexivity.
Qed.

(** ** The buffers *)
Lemma buffer_heads_range fuel : forall b h x, b mod 1024 = 0 -> (b <= 0xA0000 \/ 0x100000 < b) -> x ∈ buffer_heads fuel b h ->
  bh_addr (S h) <= b_addr x /\ b_addr x + 1024 <= b /\ (b_addr x + 1024 <= 0xA0000 \/ 0x100000 <= b_addr x).
Proof.
  induction fuel as [|fuel IH]; intros b h x Hmod Hb; cbn [buffer_heads]; [intros H; by apply not_elem_of_nil in H|].
  unfold BLOCK_SIZE. destruct (Z.ltb_spec (b - 1024) (bh_addr (h + 1))) as [Hlt|Hge]; [intros H; by apply not_elem_of_nil in H|].
  replace (h + 1)%nat with (S h) in Hge by lia.
  intros [->|Hx]%elem_of_cons.
  - cbn. split_and!; [lia..|]. assert (b - 1024 <> 0x100000 - 512) by (Z.div_mod_to_equations; lia).
    destruct Hb as [Hb|Hb]; [left; lia|right; Z.div_mod_to_equations; lia].
  - assert (bh_addr (S h) <= bh_addr (S (S h))) by (unfold bh_addr, BH_SIZE; lia).
    destruct (Z.eqb_spec (b - 1024) 0x100000) as [E|E].
    + apply IH in Hx as (H1 & H2 & H3); [|done|lia]. split_and!; [lia..|auto].
    + apply IH in Hx as (H1 & H2 & H3).
      * split_and!; [lia..|auto].
      * rewrite Zminus_mod, Hmod. done.
      * destruct Hb; [left; lia|right]. Z.div_mod_to_equations; lia.
Qed.

Lemma setbh_bufs_run i f s x : bufs (fsys s) !! i = Some x ->
  setbh i f s = Ret tt (s <| fsys ::= fun c => c <| bufs ::= <[i := f x]> |> |>).
Proof. intros H. unfold setbh, getbh, on_fs. mrun. by rewrite H. Qed.

(** the heads that [buffer_init] sets up *)
Definition initial_buffers (e : Z) : list buffer_head :=
  let b := if e =? Z.shiftl 1 20 then 640 * 1024 else e in buffer_heads (Z.to_nat (b / BLOCK_SIZE)) b 0.

(** the addresses of the data blocks are set once and for all *)
Lemma buffer_init_run e s : (0 < length (initial_buffers e))%nat ->
  exists s', buffer_init e s = Ret tt s' /\ b_addr <$> bufs (fsys s') = b_addr <$> initial_buffers e.
Proof.
  intros Hl. unfold buffer_init. fold (initial_buffers e). set (l := initial_buffers e) in *.
  match goal with |- context [on_fs ?f] => set (s1 := s <| fsys ::= f |>) end. rewrite (bind_Ret _ _ _ tt s1) by done.
  destruct (lookup_lt_is_Some_2 l 0) as [x0 H0]; [lia|].
  rewrite (bind_Ret _ _ _ _ _ (setbh_bufs_run 0 _ s1 x0 H0)). match goal with |- context [s1 <| fsys ::= ?f |>] => set (s2 := s1 <| fsys ::= f |>) end.
  destruct (lookup_lt_is_Some_2 (bufs (fsys s2)) (length l - 1)) as [x1 H1].
  { unfold s2, upd; cbn. rewrite length_insert. lia. }
  rewrite (setbh_bufs_run _ _ s2 x1 H1). eexists. split; [done|].
  change (b_addr <$> <[(length l - 1)%nat := x1 <| b_next_free := Some 0%nat |>]> (bufs (fsys s2)) = b_addr <$> l).
  rewrite list_fmap_insert. rewrite list_insert_id by (rewrite list_lookup_fmap, H1; done).
  unfold s2, upd; cbn. rewrite list_fmap_insert. apply list_insert_id. by rewrite list_lookup_fmap, H0.
Qed.

Lemma some_buffers b : b = 0x100000 \/ b = 0x200000 \/ b = 0x400000 -> (0 < length (initial_buffers b))%nat.
Proof. intros [->|[->| ->]]; apply Nat.ltb_lt; vm_compute; reflexivity. Qed.

Lemma free_page_in_range b e m p m' : length (mem_map m) = PAGING_PAGES -> b mod 4096 = 0 -> e mod 4096 = 0 ->
  (forall i, mem_map m !! i = Some 0 -> program_page b e i) ->
  get_free_page m = Ret p m' -> p = 0 \/ b <= p /\ p + 4096 <= e.
Proof.
  intros Hlen Hb He Hfree Hrun.
  destruct (get_free_page_spec m Hlen) as [[_ H]|(i & m1 & Hi & _ & H & _)]; rewrite Hrun in H; injection H as -> ->; [auto|].
  right. specialize (Hfree i Hi). unfold program_page, LOW_MEM in *. Z.div_mod_to_equations. lia.
Qed.

(** C35: the memory map of the running kernel is consistent, whatever amount of
    memory the machine reports.  The limits are page-aligned and in order, at
    most 16 MB; [mem_init] with them leaves exactly the pages between them
    free; [buffer_init] finishes with at least one buffer, and every buffer's
    data lie above the kernel and its buffer heads, below the program pages and
    outside the video memory and the ROMs; so whatever is allocated later, a
    page that [get_free_page] hands out is never part of a buffer. *)
Theorem boot_memory_disjoint (ext : Z) (Hext : 0 <= ext < 2 ^ 16) :
  let '(e, b) := kmain_layout ext in
  (LOW_MEM <= b <= e /\ e <= 0x1000000 /\ b mod 4096 = 0 /\ e mod 4096 = 0) /\
  (forall m, length (mem_map m) = PAGING_PAGES ->
     exists m', mem_init b e m = Ret tt m' /\ HIGH_MEMORY m' = e /\
       forall i, (i < PAGING_PAGES)%nat -> mem_map m' !! i = Some (if decide (program_page b e i) then 0 else USED)) /\
  (forall s, exists s', buffer_init b s = Ret tt s' /\ bufs (fsys s') <> [] /\
     forall a, a ∈ b_addr <$> bufs (fsys s') ->
       bh_addr 1 <= a /\ a + 1024 <= b /\ (a + 1024 <= 0xA0000 \/ 0x100000 <= a)) /\
  (forall m p m', length (mem_map m) = PAGING_PAGES -> (forall i, mem_map m !! i = Some 0 -> program_page b e i) ->
     get_free_page m = Ret p m' -> p = 0 \/ b <= p /\ p + 4096 <= e).
Proof.
  pose proof (layout_spec ext Hext) as HL. destruct (kmain_layout ext) as [e b].
  destruct HL as (Hbe & He & Hem & Hb & _).
  assert (b mod 4096 = 0) as Hbm by (destruct Hb as [->|[->| ->]]; reflexivity).
  split; [by unfold LOW_MEM|]. split; [|split].
  - intros m Hm. destruct (mem_init_run b e m Hm) as (m' & H & Hh & _ & Hmap); eauto.
  - intros s. destruct (buffer_init_run b s (some_buffers b Hb)) as (s' & Hrun & Haddr). exists s'. split; [done|].
    split.
    + intros Hnil. rewrite Hnil in Haddr. pose proof (some_buffers b Hb) as Hpos.
      rewrite <- (length_fmap b_addr), <- Haddr in Hpos. cbn in Hpos. lia.
    + rewrite Haddr. intros a (x & -> & Hx)%list_elem_of_fmap.
      unfold initial_buffers in Hx. apply buffer_heads_range in Hx as (H1 & H2 & H3);
        [|destruct Hb as [->|[->| ->]]; reflexivity|destruct Hb as [->|[->| ->]]; [left; vm_compute; discriminate|right; reflexivity..]].
      split; [done|]. split; [|done]. assert ((if b =? Z.shiftl 1 20 then 640 * 1024 else b) <= b) by (destruct Hb as [->|[->| ->]]; vm_compute; discriminate). lia.
  - intros m p m' Hm Hfree. by apply free_page_in_range.
Qed.

(** a machine with 8 MB: buffers up to 2 MB *)
Lemma boot_memory_disjoint_witness :
  kmain_layout 7168 = (0x800000, 0x200000) /\
  exists m', mem_init 0x200000 0x800000 boot_mm = Ret tt m' /\ mem_map m' !! 255%nat = Some USED /\ mem_map m' !! 256%nat = Some 0.
Proof.
  split; [vm_compute; reflexivity|].
  destruct (proj1 (proj2 (boot_memory_disjoint 7168 ltac:(split; vm_compute; congruence))) boot_mm eq_refl) as (m' & Hrun & _ & Hmap).
  exists m'. split; [exact Hrun|]. unfold PAGING_PAGES in Hmap.
  split; [rewrite Hmap|rewrite Hmap]; (reflexivity || (apply Nat.ltb_lt; reflexivity)).
Defined.
