(* ===== verification/StringH.v ===== *)
(** * include/string.h: the string functions, by the string instructions of the processor

    Memory is a function from 32-bit addresses to bytes.  Each function is its
    instruction sequence: the loops carry the registers, [fuel] bounds the
    number of rounds ([None]: it ran out).  [cld] is in force except where
    [memmove] says [std]; the flags are carried where an instruction can leave
    them from before. *)

From S2P Require Import Prelude.

Definition memory : Type := Z -> Z.
Definition ld (m : memory) (a : Z) : Z := m (u32 a).
Definition st (a v : Z) (m : memory) : memory := fun x => if x =? u32 a then u8 v else m x.

(** ** The repeated instructions *)

(** [repne ; scasb]: look for [al] from [edi] on; [zf]: it was found *)
Fixpoint repne_scasb (fuel : nat) (m : memory) (al edi ecx : Z) (zf : bool) : option (Z * Z * bool) :=
  if ecx =? 0 then Some (edi, ecx, zf) else
  match fuel with
  | O => None
  | S fuel => let zf := al =? ld m edi in
      if zf then Some (u32 (edi + 1), u32 (ecx - 1), true)
      else repne_scasb fuel m al (u32 (edi + 1)) (u32 (ecx - 1)) false
  end.
(** the flags of a comparison of two bytes: equal, and less as signed bytes *)
Record flags : Type := mk_flags { ZF : bool; LT : bool }.
Definition cmpb (a b : Z) : flags := mk_flags (u8 a =? u8 b) (s8 a <? s8 b).
(** [repe ; cmpsb]: compare the bytes at [esi] with those at [edi] *)
Fixpoint repe_cmpsb (fuel : nat) (m : memory) (esi edi ecx : Z) (f : flags) : option (Z * Z * Z * flags) :=
  if ecx =? 0 then Some (esi, edi, ecx, f) else
  match fuel with
  | O => None
  | S fuel => let f := cmpb (ld m esi) (ld m edi) in
      if ZF f then repe_cmpsb fuel m (u32 (esi + 1)) (u32 (edi + 1)) (u32 (ecx - 1)) f
      else Some (u32 (esi + 1), u32 (edi + 1), u32 (ecx - 1), f)
  end.
(** [rep ; movsb], up or (with [step = -1]) down *)
Fixpoint rep_movsb (fuel : nat) (m : memory) (step esi edi ecx : Z) : option memory :=
  if ecx =? 0 then Some m else
  match fuel with
  | O => None
  | S fuel => rep_movsb fuel (st edi (ld m esi) m) step (u32 (esi + step)) (u32 (edi + step)) (u32 (ecx - 1))
  end.
(** [rep ; stosb] *)
Fixpoint rep_stosb (fuel : nat) (m : memory) (al edi ecx : Z) : option memory :=
  if ecx =? 0 then Some m else
  match fuel with
  | O => None
  | S fuel => rep_stosb fuel (st edi al m) al (u32 (edi + 1)) (u32 (ecx - 1))
  end.

Definition ALL_ONES : Z := 0xffffffff.
Definition notl (x : Z) : Z := not32 (u32 x).

(** ** Copying *)

(** [1: lodsb ; stosb ; testb %al,%al ; jne 1b] *)
Fixpoint copy_z (fuel : nat) (m : memory) (esi edi : Z) : option memory :=
  match fuel with
  | O => None
  | S fuel => let al := ld m esi in let m := st edi al m in
      if al =? 0 then Some m else copy_z fuel m (u32 (esi + 1)) (u32 (edi + 1))
  end.
Definition strcpy (fuel : nat) (dest src : Z) (m : memory) : option memory := copy_z fuel m src dest.

(** [1: decl ecx ; js 2f ; lodsb ; stosb ; testb ; jne 1b]: where [edi] and [ecx] end, and whether the count ran out *)
Fixpoint copy_n (fuel : nat) (m : memory) (esi edi ecx : Z) : option (memory * Z * Z * bool) :=
  let ecx := s32 (ecx - 1) in
  if ecx <? 0 then Some (m, edi, ecx, true) else
  match fuel with
  | O => None
  | S fuel => let al := ld m esi in let m := st edi al m in
      if al =? 0 then Some (m, u32 (edi + 1), ecx, false) else copy_n fuel m (u32 (esi + 1)) (u32 (edi + 1)) ecx
  end.
(** the rest is filled with zeros *)
Definition strncpy (fuel : nat) (dest src count : Z) (m : memory) : option memory :=
  '(m, edi, ecx, js) ← copy_n fuel m src dest (s32 count);
  if js : bool then Some m else rep_stosb fuel m 0 edi ecx.

(** [repne ; scasb ; decl edi]: the end of the string at [a] *)
Definition find_end (fuel : nat) (m : memory) (a : Z) : option Z :=
  '(edi, _, _) ← repne_scasb fuel m 0 a ALL_ONES false; Some (u32 (edi - 1)).
Definition strcat (fuel : nat) (dest src : Z) (m : memory) : option memory :=
  edi ← find_end fuel m dest; copy_z fuel m src edi.
(** after a NUL has been copied the final [stosb] writes a second one *)
Definition strncat (fuel : nat) (dest src count : Z) (m : memory) : option memory :=
  edi ← find_end fuel m dest;
  '(m, edi, _, _) ← copy_n fuel m src edi (s32 count);
  Some (st edi 0 m).

(** ** Comparing *)
Definition order (f : flags) : Z := if LT f then 1 else -1.

(** [1: lodsb ; scasb ; jne 2f ; testb ; jne 1b]: [al] is from [ct], the byte compared from [cs] *)
Fixpoint strcmp (fuel : nat) (cs ct : Z) (m : memory) : option Z :=
  match fuel with
  | O => None
  | S fuel => let al := ld m ct in let f := cmpb al (ld m cs) in
      if negb (ZF f) then Some (order f)
      else if al =? 0 then Some 0 else strcmp fuel (u32 (cs + 1)) (u32 (ct + 1)) m
  end.
Fixpoint strncmp (fuel : nat) (cs ct count : Z) (m : memory) : option Z :=
  let count := s32 (count - 1) in
  if count <? 0 then Some 0 else
  match fuel with
  | O => None
  | S fuel => let al := ld m ct in let f := cmpb al (ld m cs) in
      if negb (ZF f) then Some (order f)
      else if al =? 0 then Some 0 else strncmp fuel (u32 (cs + 1)) (u32 (ct + 1)) count m
  end.
(** with a count of 0 no comparison is made and the flags are those of before *)
Definition memcmp (fuel : nat) (cs ct count : Z) (before : flags) (m : memory) : option Z :=
  '(_, _, _, f) ← repe_cmpsb fuel m ct cs (u32 count) before;
  Some (if ZF f then 0 else order f).

(** ** Searching *)
Definition strlen (fuel : nat) (s : Z) (m : memory) : option Z :=
  '(_, ecx, _) ← repne_scasb fuel m 0 s ALL_ONES false; Some (s32 (notl ecx - 1)).

(** pointers, 0 for none *)
Fixpoint strchr (fuel : nat) (s c : Z) (m : memory) : option Z :=
  match fuel with
  | O => None
  | S fuel => let al := ld m s in let s' := u32 (s + 1) in
      if al =? u8 c then Some (u32 (s' - 1))
      else if al =? 0 then Some (u32 (1 - 1)) else strchr fuel s' c m
  end.
Fixpoint strrchr_from (fuel : nat) (edx s c : Z) (m : memory) : option Z :=
  match fuel with
  | O => None
  | S fuel => let al := ld m s in let s' := u32 (s + 1) in
      let edx := if al =? u8 c then u32 (s' - 1) else edx in
      if al =? 0 then Some edx else strrchr_from fuel edx s' c m
  end.
Definition strrchr (fuel : nat) (s c : Z) (m : memory) : option Z := strrchr_from fuel 0 s c m.

(** the length of a set of characters, and membership: [repne ; scasb] over the set *)
Definition set_length (fuel : nat) (ct : Z) (m : memory) : option Z :=
  '(_, ecx, _) ← repne_scasb fuel m 0 ct ALL_ONES false; Some (u32 (notl ecx - 1)).
Definition in_set (fuel : nat) (al ct edx : Z) (m : memory) : option bool :=
  '(_, _, zf) ← repne_scasb fuel m al ct edx false; Some zf.
(** [1: lodsb ; ...]: go on while the membership of the character is [b]; where [esi] ends, and whether at the NUL *)
Fixpoint span (fuel : nat) (b : bool) (esi ct edx : Z) (m : memory) : option (Z * bool) :=
  match fuel with
  | O => None
  | S fuel' => let al := ld m esi in let esi := u32 (esi + 1) in
      if al =? 0 then Some (esi, true) else
      i ← in_set fuel al ct edx m;
      if eqb i b then span fuel' b esi ct edx m else Some (esi, false)
  end.
Definition strspn (fuel : nat) (cs ct : Z) (m : memory) : option Z :=
  edx ← set_length fuel ct m; '(esi, _) ← span fuel true cs ct edx m; Some (s32 (u32 (esi - 1) - cs)).
Definition strcspn (fuel : nat) (cs ct : Z) (m : memory) : option Z :=
  edx ← set_length fuel ct m; '(esi, _) ← span fuel false cs ct edx m; Some (s32 (u32 (esi - 1) - cs)).
Definition strpbrk (fuel : nat) (cs ct : Z) (m : memory) : option Z :=
  edx ← set_length fuel ct m; '(esi, at_end) ← span fuel false cs ct edx m;
  Some (if at_end : bool then 0 else u32 (esi - 1)).

(** [edx] is the length of the string looked for; the flags before the first comparison say whether it is 0 *)
Fixpoint strstr_from (fuel : nat) (esi ct edx : Z) (f : flags) (m : memory) : option Z :=
  match fuel with
  | O => None
  | S fuel' => let eax := esi in
      '(esi, _, _, f) ← repe_cmpsb fuel m esi ct edx f;
      if ZF f then Some eax else
      (* xchgl %eax,%esi ; incl %esi ; cmpb $0,-1(%eax) *)
      if ld m (esi - 1) =? 0 then Some 0
      else strstr_from fuel' (u32 (eax + 1)) ct edx (cmpb 0 (ld m (esi - 1))) m
  end.
Definition strstr (fuel : nat) (cs ct : Z) (m : memory) : option Z :=
  edx ← set_length fuel ct m; strstr_from fuel cs ct edx (mk_flags (edx =? 0) false) m.

Definition memchr (fuel : nat) (cs c count : Z) (m : memory) : option Z :=
  if count =? 0 then Some 0 else
  '(edi, _, zf) ← repne_scasb fuel m (u8 c) cs (u32 count) false;
  Some (u32 ((if zf : bool then edi else 1) - 1)).

(** ** [strtok]: [saved] is [___strtok]; the token (0 for none), the new [___strtok], the memory *)
Definition strtok (fuel : nat) (s ct saved : Z) (m : memory) : option (Z * Z * memory) :=
  if (s =? 0) && (saved =? 0) then Some (0, 0, m) else
  let esi := if s =? 0 then saved else s in
  edx ← set_length fuel ct m;
  if edx =? 0 then Some (0, 0, m) else                               (* 7: no token: ___strtok = 0 *)
  '(esi, at_end) ← span fuel true esi ct edx m;
  if at_end : bool then Some (0, 0, m) else
  let esi := u32 (esi - 1) in
  if ld m esi =? 0 then Some (0, 0, m) else
  let ebx := esi in
  '(esi, at_end) ← span fuel false esi ct edx m;
  let '(esi, m) :=
    if at_end : bool then (0, m) else
    let esi := u32 (esi - 1) in
    if ld m esi =? 0 then (0, m) else (u32 (esi + 1), st esi 0 m) in
  if ld m ebx =? 0 then Some (0, 0, m) else Some (ebx, esi, m).

(** ** Blocks of memory *)
Definition memcpy (fuel : nat) (dest src n : Z) (m : memory) : option memory := rep_movsb fuel m 1 src dest (u32 n).
Definition memmove (fuel : nat) (dest src n : Z) (m : memory) : option memory :=
  if u32 dest <? u32 src then rep_movsb fuel m 1 src dest (u32 n)
  else rep_movsb fuel m (-1) (u32 (src + n - 1)) (u32 (dest + n - 1)) (u32 n).
Definition memset (fuel : nat) (s c count : Z) (m : memory) : option memory := rep_stosb fuel m c s (u32 count).
