(* ===== verification/StringFacts.v ===== *)
(** * The string functions agree with functions on lists of characters *)

From S2P Require Import Prelude Bits StringH.

(** ** A string in memory *)
Record cstr (m : memory) (a : Z) (l : list Z) : Prop := {
  cs_char : forall k c, l !! k = Some c -> ld m (a + Z.of_nat k) = c /\ 0 < c < 256;
  cs_end : ld m (a + Z.of_nat (length l)) = 0;
  cs_range : 0 <= a /\ a + Z.of_nat (length l) + 1 < 2 ^ 32
}.

Lemma cstr_tail m a c l : cstr m a (c :: l) -> cstr m (u32 (a + 1)) l.
Proof.
  intros [Hc He [H0 Hr]]. cbn [length] in *. rewrite u32_id by lia. split.
  - intros k x Hk. destruct (Hc (S k) x Hk) as [H1 H2]. split; [|done]. etransitivity; [|exact H1]. f_equal; lia.
  - etransitivity; [|exact He]. f_equal. lia.
  - lia.
Qed.
Lemma cstr_head m a c l : cstr m a (c :: l) -> ld m a = c /\ 0 < c < 256.
Proof. intros [Hc _ _]. destruct (Hc 0%nat c eq_refl) as [H ?]. by rewrite Z.add_0_r in H. Qed.
Lemma cstr_nil m a : cstr m a [] -> ld m a = 0.
Proof. intros [_ He _]. cbn in He. by rewrite Z.add_0_r in He. Qed.
Lemma cstr_addr m a l : cstr m a l -> 0 <= a < 2 ^ 32 - 1 /\ u32 (a + 1) = a + 1 /\ u32 (a + 1) - 1 = a.
Proof. intros [_ _ [H0 Hr]]. rewrite u32_id by lia. lia. Qed.

(** ** [repne ; scasb] *)
Lemma scas_found al m fuel : forall k edi ecx zf, 0 <= edi -> edi + Z.of_nat k + 1 < 2 ^ 32 -> Z.of_nat k < ecx < 2 ^ 32 -> (k < fuel)%nat ->
  (forall j, (j < k)%nat -> ld m (edi + Z.of_nat j) <> al) -> ld m (edi + Z.of_nat k) = al ->
  repne_scasb fuel m al edi ecx zf = Some (edi + Z.of_nat k + 1, ecx - Z.of_nat k - 1, true).
Proof.
  induction fuel as [|fuel IH]; intros k edi ecx zf H0 Hr Hk Hf Hne Heq; [lia|]. cbn [repne_scasb].
  destruct (Z.eqb_spec ecx 0); [lia|]. destruct k as [|k].
  - rewrite Z.add_0_r in *. rewrite Heq, Z.eqb_refl, !u32_id by lia. do 3 f_equal; lia.
  - destruct (Z.eqb_spec al (ld m edi)) as [E|].
    { exfalso. apply (Hne 0%nat); [lia|]. by rewrite Z.add_0_r. }
    rewrite !u32_id by lia. rewrite (IH k); [|lia..| |].
    + do 3 f_equal; lia.
    + intros j Hj. replace (edi + 1 + Z.of_nat j) with (edi + Z.of_nat (S j)) by lia. apply Hne. lia.
    + rewrite <- Heq. f_equal. lia.
Qed.
Lemma scas_missing al m fuel : forall n edi zf, 0 <= edi -> edi + Z.of_nat n < 2 ^ 32 -> (n <= fuel)%nat ->
  (forall j, (j < n)%nat -> ld m (edi + Z.of_nat j) <> al) ->
  repne_scasb fuel m al edi (Z.of_nat n) zf = Some (edi + Z.of_nat n, 0, match n with O => zf | S _ => false end).
Proof.
  induction fuel as [|fuel IH]; intros n edi zf H0 Hr Hf Hne; cbn [repne_scasb].
  - replace n with 0%nat by lia. cbn. by rewrite Z.add_0_r.
  - destruct n as [|n]; [cbn; by rewrite Z.add_0_r|].
    destruct (Z.eqb_spec (Z.of_nat (S n)) 0); [lia|]. destruct (Z.eqb_spec al (ld m edi)) as [E|].
    { exfalso. apply (Hne 0%nat); [lia|]. by rewrite Z.add_0_r. }
    rewrite !u32_id by lia. replace (Z.of_nat (S n) - 1) with (Z.of_nat n) by lia. rewrite IH; [|lia..|].
    + do 3 f_equal; [lia|by destruct n].
    + intros j Hj. replace (edi + 1 + Z.of_nat j) with (edi + Z.of_nat (S j)) by lia. apply Hne. lia.
Qed.

Lemma not32_sub x : word32 x -> not32 x = 2 ^ 32 - 1 - x.
Proof.
  intros Hx. change (2 ^ 32 - 1) with (Z.ones 32). 
  assert (Z.ldiff x (Z.ones 32) = 0) as H.
  { apply Z.ldiff_ones_r_low; [unfold word32 in *; lia|]. destruct (decide (x = 0)) as [->|]; [done|].
    apply Z.log2_lt_pow2; unfold word32 in *; lia. }
  rewrite Z.sub_nocarry_ldiff by done. unfold not32. change (2 ^ 32 - 1) with (Z.ones 32).
  apply Z.bits_inj'. intros n Hn. rewrite Z.lxor_spec, Z.ldiff_spec.
  apply (f_equal (fun z => Z.testbit z n)) in H. rewrite Z.ldiff_spec, Z.bits_0 in H.
  by destruct (Z.testbit x n), (Z.testbit (Z.ones 32) n).
Qed.
Lemma notl_count n : 0 <= n < 2 ^ 32 - 1 -> notl (ALL_ONES - n - 1) = n + 1.
Proof. intros Hn. unfold notl, ALL_ONES. rewrite u32_id, not32_sub by (unfold word32; lia). lia. Qed.

(** the NUL of a string is found after its characters *)
Lemma scas_nul m a l fuel : cstr m a l -> (length l < fuel)%nat ->
  repne_scasb fuel m 0 a ALL_ONES false =
  Some (a + Z.of_nat (length l) + 1, ALL_ONES - Z.of_nat (length l) - 1, true).
Proof.
  intros [Hc He [H0 Hr]] Hf. apply scas_found; [done|lia|unfold ALL_ONES; lia|done| |done].
  intros j Hj. destruct (lookup_lt_is_Some_2 l j Hj) as [c Hlj]. destruct (Hc j c Hlj) as [-> ?]. lia.
Qed.
Lemma set_length_run m a l fuel : cstr m a l -> (length l < fuel)%nat -> set_length fuel a m = Some (Z.of_nat (length l)).
Proof.
  intros H Hf. unfold set_length. rewrite (scas_nul m a l) by done. cbn [mbind option_bind].
  destruct H as [_ _ [H0 Hr]]. rewrite notl_count, u32_id by lia. f_equal. lia.
Qed.

(** membership in the set of characters of a string *)
Lemma in_set_run m ct set al fuel : cstr m ct set -> (length set <= fuel)%nat ->
  in_set fuel al ct (Z.of_nat (length set)) m = Some (bool_decide (al ∈ set)).
Proof.
  intros [Hc He [H0 Hr]] Hf. unfold in_set.
  destruct (list_find (fun c => c = al) set) as [[k c]|] eqn:E.
  - apply list_find_Some in E as (Hk & -> & Hlow). pose proof (lookup_lt_Some _ _ _ Hk).
    rewrite (scas_found al m fuel k); [|lia..| |by apply Hc].
    + cbn. rewrite bool_decide_true; [done|]. by eapply list_elem_of_lookup_2.
    + intros j Hj. destruct (lookup_lt_is_Some_2 set j ltac:(lia)) as [x Hx].
      destruct (Hc j x Hx) as [-> _]. by apply (Hlow j x).
  - apply list_find_None in E. rewrite Forall_forall in E.
    rewrite scas_missing; [|lia..|].
    + cbn. rewrite bool_decide_false; [by destruct set|]. intros Hin. by apply (E al).
    + intros j Hj. destruct (lookup_lt_is_Some_2 set j Hj) as [x Hx].
      destruct (Hc j x Hx) as [-> _]. apply E. by eapply list_elem_of_lookup_2.
Qed.

(** ** Scanning while the characters are (or are not) in a set *)

(** how many characters at the front of [l] have membership [b] in [set] *)
Fixpoint prefix_in (b : bool) (set l : list Z) : nat :=
  match l with
  | c :: l => if eqb (bool_decide (c ∈ set)) b then S (prefix_in b set l) else O
  | [] => O
  end.
Lemma prefix_in_le b set l : (prefix_in b set l <= length l)%nat.
Proof. induction l as [|c l IH]; cbn; [lia|]. destruct (eqb _ b); lia. Qed.

Lemma span_run m ct set b : cstr m ct set -> forall l fuel esi, cstr m esi l ->
  (length l < fuel)%nat -> (length set <= fuel - length l - 1)%nat ->
  span fuel b esi ct (Z.of_nat (length set)) m =
  Some (esi + Z.of_nat (prefix_in b set l) + 1, (prefix_in b set l =? length l)%nat).
Proof.
  intros Hset. induction l as [|c l IH]; intros fuel esi Hl Hf Hs; destruct fuel as [|fuel]; cbn [length] in *; try lia; cbn [span].
  - rewrite (cstr_nil _ _ Hl). cbn. destruct (cstr_addr _ _ _ Hl) as (? & -> & _). do 2 f_equal. lia.
  - destruct (cstr_head _ _ _ _ Hl) as [-> Hc]. destruct (Z.eqb_spec c 0); [lia|].
    destruct (cstr_addr _ _ _ Hl) as (Ha & Hu & _).
    assert (in_set (S fuel) c ct (Z.of_nat (length set)) m = Some (bool_decide (c ∈ set))) as -> by (apply in_set_run; [done|lia]).
    cbn [mbind option_bind prefix_in]. destruct (eqb (bool_decide (c ∈ set)) b).
    + rewrite (IH fuel); [|by apply cstr_tail in Hl|lia|lia]. rewrite Hu. do 2 f_equal. lia.
    + rewrite Hu. do 2 f_equal. lia.
Qed.

(** the pointer to the first character that satisfies [P], or [none] *)
Definition first_at (a : Z) (none : Z) (P : Z -> bool) (l : list Z) : Z :=
  match list_find (fun c => P c = true) l with Some (k, _) => a + Z.of_nat k | None => none end.
Lemma first_at_cons a none P c l :
  first_at a none P (c :: l) = if P c then a else first_at (a + 1) none P l.
Proof.
  unfold first_at. cbn. destruct (P c) eqn:E.
  - rewrite decide_True by done. lia.
  - rewrite decide_False by done. destruct (list_find _ l) as [[k x]|]; cbn; [lia|done].
Qed.
Lemma strchr_run m c l : 0 < c < 256 -> forall fuel a, cstr m a l -> (length l < fuel)%nat ->
  strchr fuel a c m = Some (first_at a 0 (fun x => x =? c) l).
Proof.
  intros Hc. induction l as [|x l IH]; intros fuel a Hl Hf; destruct fuel as [|fuel]; cbn [length] in *; try lia; cbn [strchr];
    rewrite (u8_id c) by lia.
  - rewrite (cstr_nil _ _ Hl). destruct (Z.eqb_spec 0 c); [lia|]. done.
  - destruct (cstr_head _ _ _ _ Hl) as [-> Hx]. destruct (cstr_addr _ _ _ Hl) as (Ha & Hu & Hd).
    rewrite first_at_cons, Hd. destruct (x =? c); [by rewrite u32_id by lia|].
    destruct (Z.eqb_spec x 0); [lia|]. rewrite Hu. apply IH; [|lia]. rewrite <- Hu. by apply cstr_tail in Hl.
Qed.

(** The searches.  On strings in memory, with more rounds than
    characters, [strlen] is the length; [strchr] points at the first occurrence
    of the character, or is null; [strspn] and [strcspn] count the characters
    at the front that are in the set, or not in it, also when the set is empty;
    [strpbrk] points at the first one that is in it, or is null. *)
Theorem string_search_correct (m : memory) (a ct : Z) (l set : list Z) (fuel : nat) (Hl : cstr m a l) (Hset : cstr m ct set)
  (Hfuel : (length l + length set < fuel)%nat) (H31 : Z.of_nat (length l) < 2 ^ 31) :
  strlen fuel a m = Some (Z.of_nat (length l)) /\
  (forall c, 0 < c < 256 -> strchr fuel a c m = Some (first_at a 0 (fun x => x =? c) l)) /\
  strspn fuel a ct m = Some (Z.of_nat (prefix_in true set l)) /\
  strcspn fuel a ct m = Some (Z.of_nat (prefix_in false set l)) /\
  strpbrk fuel a ct m = Some (first_at a 0 (fun x => bool_decide (x ∈ set)) l).
Proof.
  pose proof (cs_range _ _ _ Hl) as [H0 Hr]. pose proof (set_length_run m ct set fuel Hset ltac:(lia)) as HL.
  assert (forall b, span fuel b a ct (Z.of_nat (length set)) m =
            Some (a + Z.of_nat (prefix_in b set l) + 1, (prefix_in b set l =? length l)%nat)) as Hspan.
  { intros b. apply span_run; [done|done|lia|lia]. }
  assert (forall b, s32 (u32 (a + Z.of_nat (prefix_in b set l) + 1 - 1) - a) = Z.of_nat (prefix_in b set l)) as Hs.
  { intros b. pose proof (prefix_in_le b set l). rewrite u32_id, s32_id by lia. lia. }
  split_and!.
  - unfold strlen. rewrite (scas_nul m a l) by (done || lia). cbn [mbind option_bind].
    rewrite notl_count, s32_id by lia. f_equal. lia.
  - intros c Hc. apply strchr_run; [done|done|lia].
  - unfold strspn. rewrite HL. cbn [mbind option_bind]. rewrite Hspan. cbn [mbind option_bind]. by rewrite Hs.
  - unfold strcspn. rewrite HL. cbn [mbind option_bind]. rewrite Hspan. cbn [mbind option_bind]. by rewrite Hs.
  - unfold strpbrk. rewrite HL. cbn [mbind option_bind]. rewrite Hspan. cbn [mbind option_bind]. f_equal.
    pose proof (prefix_in_le false set l). clear Hspan Hs HL Hfuel H31. rewrite u32_id by lia.
    revert a Hl H0 Hr. induction l as [|c l IH]; intros a Hl H0 Hr; [done|]. rewrite first_at_cons. cbn [prefix_in length] in *.
    destruct (bool_decide (c ∈ set)); cbn [eqb Nat.eqb].
    + lia.
    + pose proof (prefix_in_le false set l). rewrite <- IH; [|lia| |lia|lia].
      * cbn. destruct (_ =? _)%nat; [done|lia].
      * destruct (cstr_addr _ _ _ Hl) as (_ & <- & _). by apply cstr_tail in Hl.
Qed.

(** "linux" and the set "nux" *)
Definition sample_memory : memory := fun x => default 0 ([108; 105; 110; 117; 120; 0; 110; 117; 120; 0] !! Z.to_nat (x - 0x1000)).
Lemma string_search_correct_witness :
  strlen 9 0x1000 sample_memory = Some 5 /\ strcspn 9 0x1000 0x1006 sample_memory = Some 2 /\
  strpbrk 9 0x1000 0x1006 sample_memory = Some 0x1002.
Proof.
  destruct (string_search_correct sample_memory 0x1000 0x1006 [108; 105; 110; 117; 120] [110; 117; 120] 9)
    as (Hlen & _ & _ & Hc & Hp).
  - split; [|reflexivity|split; [lia|vm_compute; reflexivity]].
    intros k c Hk. do 5 (destruct k as [|k]; [injection Hk as <-; split; [reflexivity|lia]|]). discriminate Hk.
  - split; [|reflexivity|split; [lia|vm_compute; reflexivity]].
    intros k c Hk. do 3 (destruct k as [|k]; [injection Hk as <-; split; [reflexivity|lia]|]). discriminate Hk.
  - cbn. lia.
  - vm_compute. reflexivity.
  - split; [exact Hlen|]. split; [exact Hc|exact Hp].
Defined.

(** ** Moving blocks *)
Definition bytes (m : memory) : Prop := forall x, 0 <= m x < 256.
(** [m'] is [m] with the [n] bytes at [src] copied to [dest], all at once *)
Definition moved (m m' : memory) (dest src n : Z) : Prop :=
  forall x, 0 <= x < 2 ^ 32 -> m' x = if decide (dest <= x < dest + n) then m (src + (x - dest)) else m x.

Lemma st_bytes a v m : bytes m -> bytes (st a v m).
Proof. intros Hm x. unfold st. destruct (x =? u32 a); [apply u8_range|apply Hm]. Qed.

Lemma movsb_up n : forall m dest src fuel, bytes m -> 0 <= dest -> dest + Z.of_nat n < 2 ^ 32 -> 0 <= src -> src + Z.of_nat n < 2 ^ 32 ->
  (n <= fuel)%nat -> dest <= src \/ src + Z.of_nat n <= dest ->
  exists m', rep_movsb fuel m 1 src dest (Z.of_nat n) = Some m' /\ bytes m' /\ moved m m' dest src (Z.of_nat n).
Proof.
  induction n as [|n IH]; intros m dest src fuel Hm Hd0 Hd Hs0 Hs Hf Ho.
  { exists m. destruct fuel; (split; [done|]); (split; [done|]); intros x Hx; by rewrite decide_False by lia. }
  destruct fuel as [|fuel]; [lia|]. cbn [rep_movsb]. destruct (Z.eqb_spec (Z.of_nat (S n)) 0); [lia|].
  rewrite !u32_id by lia. replace (Z.of_nat (S n) - 1) with (Z.of_nat n) by lia.
  destruct (IH (st dest (ld m src) m) (dest + 1) (src + 1) fuel) as (m' & Hrun & Hb & Hmv); [by apply st_bytes|lia..|].
  exists m'. split; [done|]. split; [done|]. intros x Hx. rewrite Hmv by done. unfold st, ld. rewrite !u32_id by lia.
  rewrite u8_id by apply Hm.
  repeat case_decide; try lia; repeat match goal with |- context [?a =? ?b] => destruct (Z.eqb_spec a b); try lia end;
    f_equal; lia.
Qed.
Lemma movsb_down n : forall m dest src fuel, bytes m -> 0 <= dest -> dest + Z.of_nat n < 2 ^ 32 -> 0 <= src -> src + Z.of_nat n < 2 ^ 32 ->
  (n <= fuel)%nat -> src <= dest ->
  exists m', rep_movsb fuel m (-1) (u32 (src + Z.of_nat n - 1)) (u32 (dest + Z.of_nat n - 1)) (Z.of_nat n) = Some m' /\
    bytes m' /\ moved m m' dest src (Z.of_nat n).
Proof.
  induction n as [|n IH]; intros m dest src fuel Hm Hd0 Hd Hs0 Hs Hf Ho.
  { exists m. destruct fuel; (split; [done|]); (split; [done|]); intros x Hx; by rewrite decide_False by lia. }
  destruct fuel as [|fuel]; [lia|]. cbn [rep_movsb]. destruct (Z.eqb_spec (Z.of_nat (S n)) 0); [lia|].
  replace (src + Z.of_nat (S n) - 1) with (src + Z.of_nat n) by lia.
  replace (dest + Z.of_nat (S n) - 1) with (dest + Z.of_nat n) by lia.
  rewrite (u32_id (src + Z.of_nat n)), (u32_id (dest + Z.of_nat n)), (u32_id (Z.of_nat (S n) - 1)) by lia.
  replace (Z.of_nat (S n) - 1) with (Z.of_nat n) by lia.
  replace (src + Z.of_nat n + -1) with (src + Z.of_nat n - 1) by lia. replace (dest + Z.of_nat n + -1) with (dest + Z.of_nat n - 1) by lia.
  destruct (IH (st (dest + Z.of_nat n) (ld m (src + Z.of_nat n)) m) dest src fuel) as (m' & Hrun & Hb & Hmv); [by apply st_bytes|lia..|].
  exists m'. split; [done|]. split; [done|]. intros x Hx. rewrite Hmv by done. unfold st, ld. rewrite !u32_id by lia.
  rewrite u8_id by apply Hm.
  repeat case_decide; try lia; repeat match goal with |- context [?a =? ?b] => destruct (Z.eqb_spec a b); try lia end;
    f_equal; lia.
Qed.

(** [memmove] is right for any two blocks, also when they overlap in
    either direction: the bytes of the source, as they were before, are in the
    destination, and no other byte of memory changes.  [memcpy] does the same
    when the destination does not start inside the source. *)
Theorem memmove_correct (m : memory) (dest src n : Z) (fuel : nat) (Hm : bytes m) (Hn : 0 <= n < Z.of_nat fuel)
  (Hd : 0 <= dest /\ dest + n < 2 ^ 32) (Hs : 0 <= src /\ src + n < 2 ^ 32) :
  (exists m', memmove fuel dest src n m = Some m' /\ moved m m' dest src n) /\
  (dest <= src \/ src + n <= dest -> exists m', memcpy fuel dest src n m = Some m' /\ moved m m' dest src n).
Proof.
  assert (exists k, n = Z.of_nat k) as [k ->] by (exists (Z.to_nat n); lia).
  assert (dest <= src \/ src + Z.of_nat k <= dest -> exists m', memcpy fuel dest src (Z.of_nat k) m = Some m' /\ moved m m' dest src (Z.of_nat k)) as Hcpy.
  { intros Ho. unfold memcpy. rewrite u32_id by lia. destruct (movsb_up k m dest src fuel) as (m' & H & _ & Hmv); [done|lia..|eauto]. }
  split; [|done]. unfold memmove. rewrite (u32_id dest), (u32_id src) by lia.
  destruct (Z.ltb_spec dest src) as [Hlt|Hge]; [apply Hcpy; lia|].
  rewrite (u32_id (Z.of_nat k)) by lia. destruct (movsb_down k m dest src fuel) as (m' & H & _ & Hmv); [done|lia..|eauto].
Qed.

Lemma sample_bytes : bytes sample_memory.
Proof.
  intros x. unfold sample_memory. set (l := [108; 105; 110; 117; 120; 0; 110; 117; 120; 0]).
  assert (Forall (fun c => 0 <= c < 256) l) as H by (repeat constructor; lia).
  destruct (l !! Z.to_nat (x - 0x1000)) as [c|] eqn:E; cbn; [|lia]. exact (proj1 (Forall_lookup _ _) H _ _ E).
Qed.
Lemma memmove_correct_witness :
  exists m', memmove 9 0x1001 0x1000 5 sample_memory = Some m' /\ m' 0x1001 = 108 /\ m' 0x1005 = 120 /\ m' 0x1000 = 108.
Proof.
  destruct (proj1 (memmove_correct sample_memory 0x1001 0x1000 5 9
    sample_bytes ltac:(lia) ltac:(lia) ltac:(lia))) as (m' & Hrun & Hmv).
  exists m'. split; [exact Hrun|]. rewrite !Hmv by lia. repeat split; reflexivity.
Defined.

(** ** Comparing strings: by the first characters that differ, as signed bytes; the end counts as 0 *)
Definition compare_char (c1 c2 : Z) : Z := if s8 c2 <? s8 c1 then 1 else -1.
Fixpoint compare_strings (l1 l2 : list Z) : Z :=
  match l1, l2 with
  | [], [] => 0
  | c1 :: l1, c2 :: l2 => if c1 =? c2 then compare_strings l1 l2 else compare_char c1 c2
  | [], c2 :: _ => compare_char 0 c2
  | c1 :: _, [] => compare_char c1 0
  end.

Lemma s8_inj a b : 0 <= a < 256 -> 0 <= b < 256 -> s8 a = s8 b -> a = b.
Proof. unfold s8. intros. Z.div_mod_to_equations; lia. Qed.
Lemma compare_char_sym a b : 0 <= a < 256 -> 0 <= b < 256 -> a <> b -> compare_char b a = - compare_char a b.
Proof.
  intros Ha Hb Hne. unfold compare_char. pose proof (s8_inj a b Ha Hb).
  destruct (Z.ltb_spec (s8 b) (s8 a)), (Z.ltb_spec (s8 a) (s8 b)); lia.
Qed.
Definition chars_of (l : list Z) : Prop := Forall (fun c => 0 < c < 256) l.
Lemma cstr_chars m a l : cstr m a l -> chars_of l.
Proof. intros [Hc _ _]. apply Forall_lookup. intros k c Hk. by apply (Hc k c). Qed.

Lemma compare_strings_0 l1 : forall l2, chars_of l1 -> chars_of l2 -> compare_strings l1 l2 = 0 <-> l1 = l2.
Proof.
  assert (forall a b, compare_char a b <> 0) as Hnz by (intros; unfold compare_char; destruct (_ <? _); lia).
  induction l1 as [|c1 l1 IH]; intros [|c2 l2] H1 H2; cbn.
  - done.
  - split; [|done]. intros H. by apply Hnz in H.
  - split; [|done]. intros H. by apply Hnz in H.
  - apply Forall_cons in H1 as [_ H1]. apply Forall_cons in H2 as [_ H2]. destruct (Z.eqb_spec c1 c2) as [->|Hne].
    + rewrite IH by done. naive_solver.
    + split; [|naive_solver]. intros H. by apply Hnz in H.
Qed.
Lemma compare_strings_sym l1 : forall l2, chars_of l1 -> chars_of l2 -> compare_strings l2 l1 = - compare_strings l1 l2.
Proof.
  induction l1 as [|c1 l1 IH]; intros [|c2 l2] H1 H2; cbn; [done|..].
  - apply Forall_cons in H2 as [Hc _]. apply compare_char_sym; lia.
  - apply Forall_cons in H1 as [Hc _]. apply compare_char_sym; lia.
  - apply Forall_cons in H1 as [Hc1 H1]. apply Forall_cons in H2 as [Hc2 H2]. rewrite (Z.eqb_sym c2 c1).
    destruct (Z.eqb_spec c1 c2); [by apply IH|]. apply compare_char_sym; lia.
Qed.

(** one round of the comparing loops: the next characters, 0 at the end *)
Lemma compare_round l1 l2 : chars_of l1 -> chars_of l2 ->
  let c1 := default 0 (head l1) in let c2 := default 0 (head l2) in
  compare_strings l1 l2 = (if negb (ZF (cmpb c2 c1)) then order (cmpb c2 c1)
                           else if c2 =? 0 then 0 else compare_strings (tail l1) (tail l2)).
Proof.
  intros H1 H2. unfold cmpb, order, compare_char. cbn [ZF LT].
  destruct l1 as [|c1 l1], l2 as [|c2 l2]; cbn [head from_option id tail compare_strings]; [done|..].
  - apply Forall_cons in H2 as [Hc _]. rewrite (u8_id c2), (u8_id 0) by lia. destruct (Z.eqb_spec c2 0); [lia|done].
  - apply Forall_cons in H1 as [Hc _]. rewrite (u8_id c1), (u8_id 0) by lia. destruct (Z.eqb_spec 0 c1); [lia|done].
  - apply Forall_cons in H1 as [Hc1 _]. apply Forall_cons in H2 as [Hc2 _]. rewrite (u8_id c1), (u8_id c2), (Z.eqb_sym c2 c1) by lia.
    destruct (Z.eqb_spec c1 c2) as [->|]; cbn [negb]; [|done]. destruct (Z.eqb_spec c2 0); [lia|done].
Qed.
Lemma cstr_next m a l : cstr m a l -> ld m a = default 0 (head l) /\ (l <> [] -> cstr m (u32 (a + 1)) (tail l)).
Proof.
  intros H. destruct l as [|c l]; cbn.
  - split; [by apply cstr_nil|done].
  - split; [by apply cstr_head in H as [-> _]|]. intros _. by apply cstr_tail in H.
Qed.
Lemma equal_round l1 l2 : chars_of l1 -> chars_of l2 ->
  ZF (cmpb (default 0 (head l2)) (default 0 (head l1))) = true -> default 0 (head l2) <> 0 -> l1 <> [] /\ l2 <> [].
Proof.
  intros H1 H2 Hz Hne. destruct l2 as [|c2 l2]; [done|]. split; [|done]. intros ->.
  apply Forall_cons in H2 as [Hc _]. cbn in Hz. rewrite (u8_id c2), (u8_id 0) in Hz by lia. apply Z.eqb_eq in Hz. lia.
Qed.

Lemma strcmp_run m fuel : forall l1 l2 cs ct, cstr m cs l1 -> cstr m ct l2 -> (length l1 < fuel)%nat ->
  strcmp fuel cs ct m = Some (compare_strings l1 l2).
Proof.
  induction fuel as [|fuel IH]; intros l1 l2 cs ct H1 H2 Hf; [lia|]. cbn [strcmp].
  pose proof (cstr_chars _ _ _ H1) as C1. pose proof (cstr_chars _ _ _ H2) as C2.
  rewrite (compare_round l1 l2 C1 C2). destruct (cstr_next _ _ _ H1) as [-> N1], (cstr_next _ _ _ H2) as [-> N2].
  destruct (ZF (cmpb _ _)) eqn:Ez; cbn [negb]; [|done]. destruct (Z.eqb_spec (default 0 (head l2)) 0); [done|].
  destruct (equal_round l1 l2 C1 C2 Ez) as [E1 E2]; [done|]. apply IH; [by apply N1|by apply N2|].
  destruct l1; cbn in *; [done|lia].
Qed.
Lemma strncmp_run m fuel : forall n l1 l2 cs ct, cstr m cs l1 -> cstr m ct l2 -> (n <= fuel)%nat -> Z.of_nat n < 2 ^ 31 ->
  strncmp fuel cs ct (Z.of_nat n) m = Some (compare_strings (take n l1) (take n l2)).
Proof.
  induction fuel as [|fuel IH]; intros n l1 l2 cs ct H1 H2 Hf Hn; cbn [strncmp].
  - replace n with 0%nat by lia. done.
  - destruct n as [|n]; [done|]. rewrite s32_id by lia. destruct (Z.ltb_spec (Z.of_nat (S n) - 1) 0); [lia|].
    pose proof (cstr_chars _ _ _ H1) as C1. pose proof (cstr_chars _ _ _ H2) as C2.
    rewrite (compare_round (take (S n) l1) (take (S n) l2)) by (by apply Forall_take).
    assert (forall l : list Z, head (take (S n) l) = head l /\ tail (take (S n) l) = take n (tail l)) as Ht
      by (intros [|x l]; cbn; [by rewrite take_nil|done]).
    destruct (Ht l1) as [-> ->], (Ht l2) as [-> ->].
    destruct (cstr_next _ _ _ H1) as [-> N1], (cstr_next _ _ _ H2) as [-> N2].
    destruct (ZF (cmpb _ _)) eqn:Ez; cbn [negb]; [|done]. destruct (Z.eqb_spec (default 0 (head l2)) 0); [done|].
    destruct (equal_round l1 l2 C1 C2 Ez) as [E1 E2]; [done|].
    replace (Z.of_nat (S n) - 1) with (Z.of_nat n) by lia. apply IH; [by apply N1|by apply N2|lia|lia].
Qed.

(** [strcmp] orders strings: by the first characters that differ, as
    signed bytes, a proper prefix by the character after it; it is 0 exactly
    for equal strings and changes sign when the strings are exchanged.
    [strncmp] does the same for the first [n] characters. *)
Theorem strcmp_correct (m : memory) (cs ct : Z) (l1 l2 : list Z) (fuel : nat) (H1 : cstr m cs l1) (H2 : cstr m ct l2)
  (Hf : (length l1 < fuel)%nat /\ (length l2 < fuel)%nat) :
  (exists r, strcmp fuel cs ct m = Some r /\ r = compare_strings l1 l2 /\ (r = 0 <-> l1 = l2) /\ strcmp fuel ct cs m = Some (- r)) /\
  (forall n, (n <= fuel)%nat -> Z.of_nat n < 2 ^ 31 ->
     strncmp fuel cs ct (Z.of_nat n) m = Some (compare_strings (take n l1) (take n l2))).
Proof.
  pose proof (cstr_chars _ _ _ H1) as C1. pose proof (cstr_chars _ _ _ H2) as C2. split.
  - exists (compare_strings l1 l2). split; [apply strcmp_run; [done|done|lia]|]. split; [done|]. split; [by apply compare_strings_0|].
    rewrite (strcmp_run _ _ l2 l1) by (done || lia). by rewrite compare_strings_sym.
  - intros n Hn Hn31. by apply strncmp_run.
Qed.

Lemma strcmp_correct_witness : strcmp 9 0x1002 0x1006 sample_memory = Some 0 /\ strncmp 9 0x1002 0x1006 2 sample_memory = Some 0.
Proof.
  assert (forall a, a = 0x1002 \/ a = 0x1006 -> cstr sample_memory a [110; 117; 120]) as Hs.
  { intros a Ha. split; [|destruct Ha as [->| ->]; reflexivity|destruct Ha as [->| ->]; (split; [lia|vm_compute; reflexivity])].
    intros k c Hk. do 3 (destruct k as [|k]; [injection Hk as <-; split; [destruct Ha as [->| ->]; reflexivity|lia]|]). discriminate Hk. }
  destruct (strcmp_correct sample_memory 0x1002 0x1006 [110; 117; 120] [110; 117; 120] 9) as [(r & Hr & E & _) Hn].
  - apply Hs. by left.
  - apply Hs. by right.
  - cbn. lia.
  - split; [rewrite Hr, E; reflexivity|]. apply (Hn 2%nat); [lia|vm_compute; reflexivity].
Defined.
