(* ===== verification/Vsprintf.v ===== *)
(** * kernel/vsprintf.cc: formatted output

    The format is the list of its characters up to the terminating NUL, the
    arguments are the 32-bit words that [va_arg] takes from the stack, [mem] is
    the memory that string arguments point into.  The bytes written to [buf]
    and the stores of [%n] are the result: the buffer is assumed not to overlap
    the format or the strings.  [None]: an argument is read that was not passed. *)

From S2P Require Import Prelude.

Definition chars (s : string) : list Z := (fun c => Z.of_nat (Ascii.nat_of_ascii c)) <$> String.list_ascii_of_string s.
(** a character constant *)
Definition ch (s : string) : Z := default 0 (head (chars s)).
Arguments chars _%_string.
Arguments ch _%_string.

Definition is_digit (c : Z) : bool := (ch "0" <=? c) && (c <=? ch "9").

(** a number in the format, ten times the value so far plus the next digit *)
Fixpoint skip_atoi_from (i : Z) (s : list Z) : Z * list Z :=
  match s with
  | c :: l => if is_digit c then skip_atoi_from (s32 (i * 10 + c - ch "0")) l else (i, s)
  | [] => (i, [])
  end.
Definition skip_atoi (s : list Z) : Z * list Z := skip_atoi_from 0 s.

Definition ZEROPAD : Z := 1.
Definition SIGN : Z := 2.
Definition PLUS : Z := 4.
Definition SPACE : Z := 8.
Definition LEFT : Z := 16.
Definition SPECIAL : Z := 32.
Definition SMALL : Z := 64.
Definition has (type flag : Z) : bool := nz (Z.land type flag).

(** [divl]: quotient and remainder of the unsigned word [n] *)
Definition do_div (n base : Z) : Z * Z := (u32 n / base, u32 n mod base).

Definition upper_digits : list Z := chars "0123456789ABCDEFGHIJKLMNOPQRSTUVWXYZ".
Definition lower_digits : list Z := chars "0123456789abcdefghijklmnopqrstuvwxyz".
Definition digit (digits : list Z) (k : Z) : Z := default 0 (digits !! Z.to_nat k).

(** [while (num!=0) tmp[i++]=digits[do_div(num,base)]]: at most 32 digits *)
Fixpoint digit_loop (fuel : nat) (digits : list Z) (base num : Z) : list Z :=
  match fuel with
  | O => []
  | S fuel => if num =? 0 then [] else
      let '(q, r) := do_div num base in digit digits r :: digit_loop fuel digits base q
  end.
Definition convert (digits : list Z) (base num : Z) : list Z :=
  if num =? 0 then [ch "0"] else digit_loop 32 digits base num.

(** [while (n-- > 0) *str++ = c] writes [pad n c] and leaves [after n] *)
Definition pad (n c : Z) : list Z := replicate (Z.to_nat n) c.
Definition after (n : Z) : Z := if 0 <? n then -1 else s32 (n - 1).

(** [None]: the base is out of range, a null pointer is returned *)
Definition number (num base size precision type : Z) : option (list Z) :=
  let digits := if has type SMALL then lower_digits else upper_digits in
  let type := if has type LEFT then Z.land type (not32 ZEROPAD) else type in
  if (base <? 2) || (36 <? base) then None else
  let c := if has type ZEROPAD then ch "0" else ch " " in
  let '(sign, num) :=
    if has type SIGN && (num <? 0) then (ch "-", s32 (- num))
    else (if has type PLUS then ch "+" else if has type SPACE then ch " " else 0, num) in
  let size := if nz sign then s32 (size - 1) else size in
  let size := if has type SPECIAL then (if base =? 16 then s32 (size - 2) else if base =? 8 then s32 (size - 1) else size)
              else size in
  let tmp := convert digits base num in
  let i := Z.of_nat (length tmp) in
  let precision := if precision <? i then i else precision in
  let size := s32 (size - precision) in
  let out1 := if has type (ZEROPAD + LEFT) then [] else pad size (ch " ") in
  let size := if has type (ZEROPAD + LEFT) then size else after size in
  let out2 := if nz sign then [sign] else [] in
  let out3 := if has type SPECIAL
              then (if base =? 8 then [ch "0"] else if base =? 16 then [ch "0"; digit digits 33] else []) else [] in
  let out4 := if has type LEFT then [] else pad size c in
  let size := if has type LEFT then size else after size in
  Some (out1 ++ out2 ++ out3 ++ out4 ++ pad (precision - i) (ch "0") ++ rev tmp ++ pad size (ch " ")).

(** ** The format *)

(** the flags after a [%] *)
Definition flag_of (c : Z) : option Z :=
  if c =? ch "-" then Some LEFT else if c =? ch "+" then Some PLUS else if c =? ch " " then Some SPACE
  else if c =? ch "#" then Some SPECIAL else if c =? ch "0" then Some ZEROPAD else None.
Fixpoint get_flags (flags : Z) (fmt : list Z) : Z * list Z :=
  match fmt with
  | c :: l => match flag_of c with Some f => get_flags (Z.lor flags f) l | None => (flags, fmt) end
  | [] => (flags, [])
  end.

(** [va_arg(args, int)] *)
Definition va_arg (args : list Z) : option (Z * list Z) :=
  match args with a :: l => Some (a, l) | [] => None end.

(** the first character, NUL at the end *)
Definition cur (fmt : list Z) : Z := default 0 (head fmt).

(** a [*] is not skipped: it is met again as the conversion *)
Definition get_width (flags : Z) (fmt args : list Z) : option (Z * Z * list Z * list Z) :=
  if is_digit (cur fmt) then let '(w, fmt) := skip_atoi fmt in Some (w, flags, fmt, args)
  else if cur fmt =? ch "*" then
    '(a, args) ← va_arg args;
    let a := s32 a in
    Some (if a <? 0 then (s32 (- a), Z.lor flags LEFT, fmt, args) else (a, flags, fmt, args))
  else Some (-1, flags, fmt, args).
Definition get_precision (fmt args : list Z) : option (Z * list Z * list Z) :=
  if negb (cur fmt =? ch ".") then Some (-1, fmt, args) else
  let fmt := tail fmt in
  '(p, fmt, args) ←
    (if is_digit (cur fmt) then let '(p, fmt) := skip_atoi fmt in Some (p, fmt, args)
     else if cur fmt =? ch "*" then '(a, args) ← va_arg args; Some (s32 a, fmt, args)
     else Some (-1, fmt, args));
  Some (if p <? 0 then 0 else p, fmt, args).
Definition skip_qualifier (fmt : list Z) : list Z :=
  if (cur fmt =? ch "h") || (cur fmt =? ch "l") || (cur fmt =? ch "L") then tail fmt else fmt.

(** ** The conversions *)
Record written : Type := mk_written { w_out : list Z; w_fmt : list Z; w_args : list Z; w_stores : list (Z * Z) }.

Section Vsprintf.
Context (mem : Z -> Z).

(** [strlen] and the bytes of a string argument; [None]: no NUL within the 4 GB *)
Fixpoint c_string (fuel : nat) (a : Z) : list Z :=
  match fuel with
  | O => []
  | S fuel => if mem (u32 a) =? 0 then [] else mem (u32 a) :: c_string fuel (a + 1)
  end.

Definition put_string (fuel : nat) (s field_width precision flags : Z) : list Z :=
  let str := c_string fuel s in
  let len := Z.of_nat (length str) in
  let len := if precision <? 0 then len else if precision <? len then precision else len in
  let padding := pad (field_width - len) (ch " ") in
  if has flags LEFT then take (Z.to_nat len) str ++ padding else padding ++ take (Z.to_nat len) str.

Definition put_char (c field_width flags : Z) : list Z :=
  let padding := pad (s32 (field_width - 1)) (ch " ") in
  if has flags LEFT then u8 c :: padding else padding ++ [u8 c].

(** one number: an argument as a 32-bit word, an [int] in [number] *)
Definition put_number (base width precision flags : Z) (args : list Z) : option (list Z * list Z) :=
  '(a, args) ← va_arg args;
  out ← number (s32 a) base width precision flags;
  Some (out, args).

(** the conversion character at the head of [fmt]; [pos] is [str - buf] *)
Definition conversion (fuel : nat) (pos : Z) (flags width precision : Z) (fmt args : list Z) : option written :=
  let c := cur fmt in
  let num base flags width :=
    '(out, args) ← put_number base width precision flags args; Some (mk_written out (tail fmt) args []) in
  if c =? ch "c" then
    '(a, args) ← va_arg args; Some (mk_written (put_char a width flags) (tail fmt) args [])
  else if c =? ch "s" then
    '(a, args) ← va_arg args; Some (mk_written (put_string fuel a width precision flags) (tail fmt) args [])
  else if c =? ch "o" then num 8 flags width
  else if c =? ch "p" then
    (if width =? -1 then num 16 (Z.lor flags ZEROPAD) 8 else num 16 flags width)
  else if c =? ch "x" then num 16 (Z.lor flags SMALL) width
  else if c =? ch "X" then num 16 flags width
  else if (c =? ch "d") || (c =? ch "i") then num 10 (Z.lor flags SIGN) width
  else if c =? ch "u" then num 10 flags width
  else if c =? ch "n" then '(a, args) ← va_arg args; Some (mk_written [] (tail fmt) args [(u32 a, pos)])
  else
    Some (mk_written ((if c =? ch "%" then [] else [ch "%"]) ++ (if nz c then [c] else [])) (tail fmt) args []).

(** after a [%] *)
Definition directive (fuel : nat) (pos : Z) (fmt args : list Z) : option written :=
  let '(flags, fmt) := get_flags 0 fmt in
  '(width, flags, fmt, args) ← get_width flags fmt args;
  '(precision, fmt, args) ← get_precision fmt args;
  conversion fuel pos flags width precision (skip_qualifier fmt) args.

(** the main loop: [rounds] is at least the length of the format *)
Fixpoint format (rounds fuel : nat) (pos : Z) (fmt args : list Z) : option (list Z * list (Z * Z)) :=
  match rounds, fmt with
  | S rounds, c :: l =>
      w ← (if c =? ch "%" then directive fuel pos l args else Some (mk_written [c] l args []));
      '(out, st) ← format rounds fuel (pos + Z.of_nat (length (w_out w))) (w_fmt w) (w_args w);
      Some (w_out w ++ out, w_stores w ++ st)
  | _, _ => Some ([], [])
  end.

(** the bytes of [buf] with the terminating NUL, the value returned, the stores of [%n] *)
Definition vsprintf (fuel : nat) (fmt args : list Z) : option (list Z * Z * list (Z * Z)) :=
  '(out, st) ← format (length fmt) fuel 0 fmt args;
  Some (out ++ [0], Z.of_nat (length out), st).
End Vsprintf.

Example vsprintf_1 : vsprintf (fun _ => 0) 10 (chars "a=%d,%5x|%-4u|%%%c") [2 ^ 32 - 7; 255; 9; 65] =
  Some (chars "a=-7,   ff|9   |%A" ++ [0], 18, []).
Proof. vm_compute. reflexivity. Qed.
Example vsprintf_2 : vsprintf (fun a => default 0 (chars "hello" !! Z.to_nat (a - 16))) 10 (chars "%04x:%p %.3s%#o%+d%") [65535; 16; 16; 8; 5] =
  Some (chars "ffff:00000010 hel010+5%" ++ [0], 23, []).
Proof. vm_compute. reflexivity. Qed.
Example vsprintf_star : vsprintf (fun _ => 0) 10 (chars "%*d") [5; 7] = Some (chars "%*d" ++ [0], 3, []).
Proof. vm_compute. reflexivity. Qed.
