(* ===== verification/VsprintfFacts.v ===== *)
(** * Formatted output is what the format says *)

From S2P Require Import Prelude Bits Vsprintf.

(** the characters used, as numbers *)
Ltac fold_chars :=
  change (ch "-") with 45; change (ch "+") with 43; change (ch " ") with 32; change (ch "0") with 48;
  change (chars "-") with [45]; change (chars "+") with [43]; change (chars " ") with [32];
  change (chars "0") with [48]; change (chars "0x") with [48; 120]; change (chars "0X") with [48; 88].

(** ** Flags are bits *)
Lemma has_bit type k : 0 <= k -> has type (2 ^ k) = Z.testbit type k.
Proof.
  intros Hk. unfold has.
  assert (Z.land type (2 ^ k) = if Z.testbit type k then 2 ^ k else 0) as ->.
  { apply Z.bits_inj'. intros n Hn. rewrite Z.land_spec, Z.pow2_bits_eqb by done.
    destruct (Z.eqb_spec k n) as [->|Hne]; [destruct (Z.testbit type n); by rewrite ?Z.pow2_bits_true, ?Z.testbit_0_l|].
    rewrite andb_false_r. destruct (Z.testbit type k); [by rewrite Z.pow2_bits_false|by rewrite Z.testbit_0_l]. }
  destruct (Z.testbit type k); [|done]. apply nz_true. pose proof (Z.pow_pos_nonneg 2 k). lia.
Qed.
Lemma has_pad_or_left type : has type (ZEROPAD + LEFT) = has type ZEROPAD || has type LEFT.
Proof.
  unfold has. change (ZEROPAD + LEFT) with (Z.lor ZEROPAD LEFT). rewrite Z.land_lor_distr_r. apply eq_true_iff_eq.
  rewrite orb_true_iff, !nz_true. rewrite Z.lor_eq_0_iff. 
  destruct (Z.eqb_spec (Z.land type ZEROPAD) 0), (Z.eqb_spec (Z.land type LEFT) 0); tauto.
Qed.
Lemma has_no_zeropad type k : 0 <= k < 32 ->
  has (Z.land type (not32 ZEROPAD)) (2 ^ k) = has type (2 ^ k) && negb (k =? 0).
Proof.
  intros Hk. rewrite !has_bit by lia. rewrite testbit_land, testbit_not32. change ZEROPAD with (2 ^ 0).
  rewrite Z.pow2_bits_eqb by lia. f_equal.
  destruct (Z.eqb_spec 0 k), (Z.leb_spec 0 k), (Z.ltb_spec k 32), (Z.eqb_spec k 0); done || lia.
Qed.

(** ** Reading a number back *)
Definition digit_of (c : Z) : Z :=
  if c <=? ch "9" then c - ch "0" else if c <=? ch "Z" then c - ch "A" + 10 else c - ch "a" + 10.
Definition read (base : Z) (l : list Z) : Z := fold_left (fun v c => v * base + digit_of c) l 0.

Lemma read_snoc base l c : read base (l ++ [c]) = read base l * base + digit_of c.
Proof. unfold read. by rewrite fold_left_app. Qed.
Lemma read_zeros base n l : read base (pad n (ch "0") ++ l) = read base l.
Proof.
  unfold read, pad. rewrite fold_left_app. f_equal. induction (Z.to_nat n) as [|k IH]; cbn; [done|].
  change (digit_of 48) with 0. by rewrite Z.add_0_r.
Qed.

Definition is_digits (d : list Z) : Prop := d = upper_digits \/ d = lower_digits.
Lemma digit_of_digit d k : is_digits d -> 0 <= k < 36 -> digit_of (digit d k) = k /\ (digit d k = ch "0" -> k = 0).
Proof.
  intros Hd Hk.
  assert (forallb (fun k => (digit_of (digit d (Z.of_nat k)) =? Z.of_nat k) &&
            ((Z.of_nat k =? 0) || negb (digit d (Z.of_nat k) =? ch "0"))) (seq 0 36) = true) as H
    by (destruct Hd as [->| ->]; vm_compute; reflexivity).
  rewrite forallb_forall in H. specialize (H (Z.to_nat k)). rewrite Z2Nat.id in H by lia.
  rewrite andb_true_iff, orb_true_iff, negb_true_iff, !Z.eqb_eq, Z.eqb_neq in H.
  destruct H as [H1 H2]; [apply in_seq; lia|]. split; [done|]. intros E. by destruct H2.
Qed.

(** ** The digits of a word *)
Lemma digit_loop_word fuel d base n : - 2 ^ 31 <= n < 2 ^ 32 ->
  digit_loop fuel d base n = digit_loop fuel d base (u32 n).
Proof.
  intros Hn. destruct fuel as [|fuel]; [done|]. cbn [digit_loop]. unfold do_div.
  rewrite (u32_id (u32 n)) by apply u32_range.
  destruct (Z.eqb_spec n 0) as [->|Hne]; [done|].
  destruct (Z.eqb_spec (u32 n) 0) as [E|]; [|done]. unfold u32 in E. Z.div_mod_to_equations; lia.
Qed.
Lemma digit_loop_spec d base fuel : is_digits d -> 2 <= base <= 36 -> forall n, 0 <= n < 2 ^ Z.of_nat fuel -> n < 2 ^ 32 ->
  read base (rev (digit_loop fuel d base n)) = n /\ (length (digit_loop fuel d base n) <= fuel)%nat /\
  (n <> 0 -> exists c, last (digit_loop fuel d base n) = Some c /\ c <> ch "0").
Proof.
  intros Hd Hb. induction fuel as [|fuel IH]; intros n Hn H32; cbn [digit_loop].
  { change (2 ^ Z.of_nat 0) with 1 in Hn. split_and!; [cbn; lia|cbn; lia|lia]. }
  destruct (Z.eqb_spec n 0) as [->|Hne]; [split_and!; [done|cbn; lia|done]|].
  unfold do_div. rewrite u32_id by lia. rewrite Nat2Z.inj_succ, Z.pow_succ_r in Hn by lia.
  pose proof (Z.mod_pos_bound n base ltac:(lia)) as Hm. pose proof (Z.div_mod n base ltac:(lia)) as Hdm.
  assert (0 <= n / base < 2 ^ Z.of_nat fuel) as Hq.
  { split; [apply Z.div_pos; lia|]. apply Z.div_lt_upper_bound; [lia|]. nia. }
  destruct (IH (n / base) Hq) as (Hr & Hl & Hlast); [pose proof (Z.div_le_upper_bound n base n); nia|].
  destruct (digit_of_digit d (n mod base) Hd ltac:(lia)) as [Hdig Hz].
  cbn [rev length]. rewrite read_snoc, Hr, Hdig. split_and!; [lia|lia|]. intros _.
  destruct (Z.eqb_spec (n / base) 0) as [E|E].
  - exists (digit d (n mod base)). rewrite E. destruct fuel; cbn; (split; [done|]); intros Hc; specialize (Hz Hc); lia.
  - destruct (Hlast E) as (c & Hc & Hne0). exists c. split; [|done].
    destruct (digit_loop fuel d base (n / base)); [done|exact Hc].
Qed.

Lemma convert_spec d base n : is_digits d -> 2 <= base <= 36 -> - 2 ^ 31 <= n < 2 ^ 32 ->
  let ds := rev (convert d base n) in
  read base ds = u32 n /\ 1 <= Z.of_nat (length ds) <= 32 /\
  (u32 n = 0 -> ds = [ch "0"]) /\ (u32 n <> 0 -> head ds <> Some (ch "0")).
Proof.
  intros Hd Hb Hn ds. unfold ds, convert. destruct (Z.eqb_spec n 0) as [->|Hne]; [by split_and!|].
  assert (u32 n <> 0) as Hu by (unfold u32; Z.div_mod_to_equations; lia).
  rewrite digit_loop_word by done. pose proof (u32_range n) as Hr.
  destruct (digit_loop_spec d base 32 Hd Hb (u32 n)) as (H1 & H2 & H3); [done|lia|].
  destruct (H3 Hu) as (c & Hc & Hc0). rewrite length_rev. set (l := digit_loop _ _ _ _) in *. clearbody l.
  destruct l as [|x l _] using rev_ind; [done|]. rewrite last_snoc in Hc. injection Hc as ->.
  rewrite length_app in *. cbn [length] in *. split_and!; [done|lia|lia|done|].
  intros _. rewrite rev_app_distr. cbn. by intros [= ->].
Qed.

(** ** The layout of a number: sign, prefix, digits, and the padding that the flags ask for *)
Definition sign_part (num type : Z) : list Z :=
  if has type SIGN && (num <? 0) then chars "-" else if has type PLUS then chars "+"
  else if has type SPACE then chars " " else [].
Definition prefix_part (base type : Z) : list Z :=
  if has type SPECIAL then
    if base =? 8 then chars "0" else if base =? 16 then (if has type SMALL then chars "0x" else chars "0X") else []
  else [].
Definition layout (num base size precision type : Z) (ds : list Z) : list Z :=
  let front := sign_part num type ++ prefix_part base type in
  let body := pad (precision - Z.of_nat (length ds)) (ch "0") ++ ds in
  let fill := size - Z.of_nat (length (front ++ body)) in
  if has type LEFT then front ++ body ++ pad fill (ch " ")
  else if has type ZEROPAD then front ++ pad fill (ch "0") ++ body
  else pad fill (ch " ") ++ front ++ body.

Lemma pad_length n c : Z.of_nat (length (pad n c)) = Z.max 0 n.
Proof. unfold pad. rewrite length_replicate. lia. Qed.
Lemma pad_neg n c : n <= 0 -> pad n c = [].
Proof. intros. unfold pad. by replace (Z.to_nat n) with 0%nat by lia. Qed.
Lemma after_neg n : - 2 ^ 31 < n < 2 ^ 31 -> after n = Z.min (n - 1) (-1).
Proof. intros Hn. unfold after. destruct (Z.ltb_spec 0 n); [lia|]. rewrite s32_id by lia. lia. Qed.
Lemma after_twice n : - 2 ^ 30 - 100 <= n < 2 ^ 31 -> after n < 0 /\ after (after n) < 0.
Proof. intros Hn. rewrite (after_neg n) by lia. rewrite after_neg by lia. lia. Qed.

Lemma layout_length num base size precision type ds :
  Z.of_nat (length (layout num base size precision type ds)) =
  Z.max size (Z.of_nat (length (sign_part num type ++ prefix_part base type)) + Z.max precision (Z.of_nat (length ds))).
Proof.
  unfold layout. destruct (has type LEFT), (has type ZEROPAD); rewrite !length_app, !Nat2Z.inj_add, !pad_length, ?length_app, ?Nat2Z.inj_add, ?pad_length; lia.
Qed.

(** the sizes left over, by what precedes the digits *)
Lemma front_size num base size type : -1 <= size < 2 ^ 30 ->
  let sign := if has type SIGN && (num <? 0) then ch "-" else if has type PLUS then ch "+" else if has type SPACE then ch " " else 0 in
  let size1 := if nz sign then s32 (size - 1) else size in
  let size2 := if has type SPECIAL then (if base =? 16 then s32 (size1 - 2) else if base =? 8 then s32 (size1 - 1) else size1) else size1 in
  size2 = size - Z.of_nat (length (sign_part num type ++ prefix_part base type)) /\
  (if nz sign then [sign] else []) = sign_part num type.
Proof.
  intros Hs. unfold sign_part, prefix_part. rewrite length_app. fold_chars.
  destruct (has type SIGN && (num <? 0)), (has type PLUS), (has type SPACE), (has type SPECIAL), (has type SMALL);
    destruct (Z.eqb_spec base 16), (Z.eqb_spec base 8); try lia; cbn; (split; [|reflexivity]);
    rewrite ?s32_sub_l, ?s32_id by lia; lia.
Qed.

(** left justification turns the zero padding off and changes no other flag *)
Lemma left_flags type : let type' := if has type LEFT then Z.land type (not32 ZEROPAD) else type in
  has type' SIGN = has type SIGN /\ has type' PLUS = has type PLUS /\ has type' SPACE = has type SPACE /\
  has type' LEFT = has type LEFT /\ has type' SPECIAL = has type SPECIAL /\
  has type' ZEROPAD = has type ZEROPAD && negb (has type LEFT).
Proof.
  intros type'. assert (forall k, 0 <= k < 32 -> has type' (2 ^ k) = has type (2 ^ k) && negb (has type LEFT && (k =? 0))) as Hk.
  { intros k Hk. unfold type'. destruct (has type LEFT); [by apply has_no_zeropad|by rewrite andb_true_r]. }
  split_and!; (etransitivity; [first [exact (Hk 1 ltac:(lia))|exact (Hk 2 ltac:(lia))|exact (Hk 3 ltac:(lia))
    |exact (Hk 4 ltac:(lia))|exact (Hk 5 ltac:(lia))|exact (Hk 0 ltac:(lia))]|]); cbn; rewrite ?andb_false_r, ?andb_true_r; reflexivity.
Qed.
Lemma front_length num base type : (length (sign_part num type ++ prefix_part base type) <= 3)%nat.
Proof.
  unfold sign_part, prefix_part. rewrite length_app. fold_chars.
  destruct (has type SIGN && (num <? 0)), (has type PLUS), (has type SPACE), (has type SPECIAL), (base =? 8), (base =? 16), (has type SMALL); cbn; lia.
Qed.

(** [number] writes the layout of the digits it converts *)
Lemma number_layout num base size precision type :
  2 <= base <= 36 -> - 2 ^ 31 <= num < 2 ^ 31 -> -1 <= size < 2 ^ 30 -> -1 <= precision < 2 ^ 30 ->
  let digits := if has type SMALL then lower_digits else upper_digits in
  let n := if has type SIGN && (num <? 0) then s32 (- num) else num in
  number num base size precision type = Some (layout num base size precision type (rev (convert digits base n))).
Proof.
  intros Hb Hnum Hs Hp. cbv zeta. unfold number.
  set (digits := if has type SMALL then lower_digits else upper_digits).
  assert (is_digits digits) as Hd by (unfold digits, is_digits; destruct (has type SMALL); auto).
  destruct (left_flags type) as (HS & HP & HSp & HL & HX & HZ).
  rewrite (proj2 (Z.ltb_ge base 2)), (proj2 (Z.ltb_ge 36 base)) by lia. cbn [orb].
  rewrite has_pad_or_left, HZ, HS, HP, HSp, HL, HX.
  set (n := if has type SIGN && (num <? 0) then s32 (- num) else num).
  set (sign := if has type SIGN && (num <? 0) then ch "-" else if has type PLUS then ch "+" else if has type SPACE then ch " " else 0).
  replace (if has type SIGN && (num <? 0) then (ch "-", s32 (- num)) else (if has type PLUS then ch "+" else if has type SPACE then ch " " else 0, num))
    with (sign, n) by (unfold sign, n; by destruct (has type SIGN && (num <? 0))).
  destruct (front_size num base size type Hs) as [Hsize Hsign]. fold sign in Hsize, Hsign. rewrite Hsize, Hsign.
  assert (- 2 ^ 31 <= n < 2 ^ 32) as Hn32 by (unfold n; destruct (has type SIGN && (num <? 0)); [pose proof (s32_range (- num))|]; lia).
  destruct (convert_spec digits base n Hd Hb Hn32) as (_ & Hlen & _). rewrite length_rev in Hlen.
  set (tmp := convert digits base n) in *. set (front := sign_part num type ++ prefix_part base type) in *.
  pose proof (front_length num base type) as Hfl. fold front in Hfl.
  set (prec := if precision <? Z.of_nat (length tmp) then Z.of_nat (length tmp) else precision).
  assert (prec = Z.max precision (Z.of_nat (length tmp))) as Hprec
    by (unfold prec; destruct (Z.ltb_spec precision (Z.of_nat (length tmp))); lia).
  rewrite s32_id by lia. set (size3 := size - Z.of_nat (length front) - prec).
  assert (pad (prec - Z.of_nat (length tmp)) (ch "0") = pad (precision - Z.of_nat (length (rev tmp))) (ch "0")) as Hz.
  { rewrite length_rev. unfold pad. f_equal. lia. }
  unfold layout. fold front. cbv zeta.
  replace (size - Z.of_nat (length (front ++ pad (precision - Z.of_nat (length (rev tmp))) (ch "0") ++ rev tmp))) with size3
    by (unfold size3; rewrite !length_app, !Nat2Z.inj_add, pad_length, length_rev; lia).
  assert ((if has type SPECIAL then if base =? 8 then [ch "0"] else if base =? 16 then [ch "0"; digit digits 33] else [] else [])
          = prefix_part base type) as ->
    by (unfold prefix_part, digits; destruct (has type SMALL); reflexivity).
  rewrite Hz. f_equal. unfold front. destruct (after_twice size3 ltac:(lia)) as [Ha1 Ha2].
  destruct (has type LEFT); cbn [negb andb orb].
  - rewrite andb_false_r. cbn [orb app]. by rewrite <- !app_assoc.
  - destruct (has type ZEROPAD); cbn [negb andb orb app].
    + rewrite (pad_neg (after size3)), app_nil_r, <- !app_assoc by lia. done.
    + rewrite (pad_neg (after size3)), (pad_neg (after (after size3))), app_nil_r, <- !app_assoc by lia. done.
Qed.

(** C38: a number is printed as its digits.  For every base from 2 to 36, the
    digits [number] writes, read back in that base, are the value (the
    magnitude of a signed number, the unsigned word otherwise); they have no
    leading zero, fit the 36 bytes of [tmp], and stand where the flags, the
    width and the precision say: sign, prefix, zeros up to the precision, and
    padding of the whole to the width, which only a longer number exceeds. *)
Theorem number_correct (num base size precision type : Z) (Hbase : 2 <= base <= 36) (Hnum : - 2 ^ 31 <= num < 2 ^ 31)
  (Hsize : -1 <= size < 2 ^ 30) (Hprec : -1 <= precision < 2 ^ 30) :
  let value := if has type SIGN then Z.abs num else u32 num in
  exists ds, number num base size precision type = Some (layout num base size precision type ds) /\
    read base ds = value /\ 1 <= Z.of_nat (length ds) <= 32 /\
    (value = 0 -> ds = chars "0") /\ (value <> 0 -> head ds <> Some (ch "0")) /\
    Z.of_nat (length (layout num base size precision type ds)) =
      Z.max size (Z.of_nat (length (sign_part num type ++ prefix_part base type)) + Z.max precision (Z.of_nat (length ds))).
Proof.
  intros value. set (digits := if has type SMALL then lower_digits else upper_digits).
  set (n := if has type SIGN && (num <? 0) then s32 (- num) else num).
  exists (rev (convert digits base n)). split; [by apply number_layout|].
  assert (- 2 ^ 31 <= n < 2 ^ 32 /\ u32 n = value) as [Hn <-].
  { unfold n, value. pose proof (s32_range (- num)).
    destruct (has type SIGN), (Z.ltb_spec num 0); cbn [andb]; (split; [lia|]); unfold u32, s32 in *;
      first [done|Z.div_mod_to_equations; lia]. }
  destruct (convert_spec digits base n) as (H1 & H2 & H3 & H4); [|done..|].
  { unfold digits, is_digits. destruct (has type SMALL); auto. }
  split_and!; [done|lia|lia|done|done|apply layout_length].
Qed.

Lemma number_correct_witness :
  exists ds, number (-255) 16 9 4 (SIGN + SPECIAL + SMALL) = Some (layout (-255) 16 9 4 (SIGN + SPECIAL + SMALL) ds) /\
    layout (-255) 16 9 4 (SIGN + SPECIAL + SMALL) (chars "ff") = chars "  -0x00ff" /\ read 16 ds = 255.
Proof.
  destruct (number_correct (-255) 16 9 4 (SIGN + SPECIAL + SMALL)) as (ds & Hrun & Hread & _); [lia..|].
  exists ds. split; [exact Hrun|]. split; [vm_compute; reflexivity|]. exact Hread.
Defined.

(** ** Decimal numbers in the format: what [skip_atoi] reads back *)
Definition decimal (n : Z) : list Z := rev (convert upper_digits 10 n).

Lemma digit_loop_decimal fuel n : Forall (fun c => is_digit c = true) (digit_loop fuel upper_digits 10 n).
Proof.
  revert n. induction fuel as [|fuel IH]; intros n; cbn [digit_loop]; [constructor|].
  destruct (n =? 0); [constructor|]. unfold do_div. constructor; [|apply IH].
  assert (forallb (fun k => is_digit (digit upper_digits (Z.of_nat k))) (seq 0 10) = true) as H by (vm_compute; reflexivity).
  rewrite forallb_forall in H. pose proof (Z.mod_pos_bound (u32 n) 10 ltac:(lia)).
  specialize (H (Z.to_nat (u32 n mod 10))). rewrite Z2Nat.id in H by lia. apply H, in_seq. lia.
Qed.
Lemma decimal_digits n : Forall (fun c => is_digit c = true) (decimal n).
Proof.
  unfold decimal, convert. apply Forall_rev. destruct (n =? 0); [|apply digit_loop_decimal].
  constructor; [reflexivity|constructor].
Qed.

Definition read_from (v base : Z) (l : list Z) : Z := fold_left (fun v c => v * base + digit_of c) l v.
Lemma read_from_mono v l : 0 <= v -> Forall (fun c => is_digit c = true) l -> v <= read_from v 10 l.
Proof.
  revert v. induction l as [|c l IH]; intros v Hv Hd; cbn; [lia|]. apply Forall_cons in Hd as [Hc Hl].
  unfold is_digit in Hc. apply andb_true_iff in Hc as [H1%Z.leb_le H2%Z.leb_le].
  assert (digit_of c = c - ch "0") as E by (unfold digit_of; by rewrite (proj2 (Z.leb_le _ _) H2)).
  change (v <= read_from (v * 10 + digit_of c) 10 l). etransitivity; [|apply IH; [lia|done]]. lia.
Qed.
Lemma skip_atoi_digits l rest : forall v, 0 <= v -> Forall (fun c => is_digit c = true) l -> is_digit (cur rest) = false ->
  read_from v 10 l < 2 ^ 31 -> skip_atoi_from v (l ++ rest) = (read_from v 10 l, rest).
Proof.
  induction l as [|c l IH]; intros v Hv Hd Hr Hlt.
  - cbn. destruct rest as [|c rest]; cbn in *; [done|]. by rewrite Hr.
  - apply Forall_cons in Hd as [Hc Hl]. cbn [app skip_atoi_from]. rewrite Hc.
    unfold is_digit in Hc. apply andb_true_iff in Hc as [H1%Z.leb_le H2%Z.leb_le].
    assert (digit_of c = c - ch "0") as E by (unfold digit_of; by rewrite (proj2 (Z.leb_le _ _) H2)).
    change (read_from v 10 (c :: l)) with (read_from (v * 10 + digit_of c) 10 l) in *.
    pose proof (read_from_mono (v * 10 + digit_of c) l ltac:(lia) Hl).
    replace (s32 (v * 10 + c - ch "0")) with (v * 10 + digit_of c) by (rewrite s32_id; lia).
    apply IH; [lia|done..].
Qed.
Lemma skip_atoi_decimal n rest : 0 <= n < 2 ^ 31 -> is_digit (cur rest) = false ->
  skip_atoi (decimal n ++ rest) = (n, rest).
Proof.
  intros Hn Hr. destruct (convert_spec upper_digits 10 n) as (Hread & _); [by left|lia|lia|].
  rewrite u32_id in Hread by lia. unfold skip_atoi. fold (decimal n) in Hread.
  change (read 10 (decimal n)) with (read_from 0 10 (decimal n)) in Hread.
  rewrite skip_atoi_digits; [by rewrite Hread|lia|apply decimal_digits|done|lia].
Qed.
Lemma decimal_head n : 0 < n < 2 ^ 31 -> exists c l, decimal n = c :: l /\ is_digit c = true /\ flag_of c = None.
Proof.
  intros Hn. destruct (convert_spec upper_digits 10 n) as (_ & Hlen & _ & Hhead); [by left|lia|lia|].
  rewrite u32_id in Hhead by lia. fold (decimal n) in *. pose proof (decimal_digits n) as Hd.
  destruct (decimal n) as [|c l]; [cbn in Hlen; lia|]. exists c, l. split; [done|].
  apply Forall_cons in Hd as [Hc _]. split; [done|]. specialize (Hhead ltac:(lia)). cbn in Hhead.
  unfold is_digit in Hc. apply andb_true_iff in Hc as [H1%Z.leb_le H2%Z.leb_le].
  change (ch "0") with 48 in *. change (ch "9") with 57 in *. unfold flag_of.
  change (ch "-") with 45. change (ch "+") with 43. change (ch " ") with 32. change (ch "#") with 35. change (ch "0") with 48.
  destruct (Z.eqb_spec c 45), (Z.eqb_spec c 43), (Z.eqb_spec c 32), (Z.eqb_spec c 35), (Z.eqb_spec c 48); try lia; [|done].
  subst. by destruct Hhead.
Qed.

(** ** Formats as data *)
Inductive conv := Conv_c | Conv_s | Conv_o | Conv_p | Conv_x | Conv_X | Conv_d | Conv_i | Conv_u | Conv_percent.
#[export] Instance conv_eq_dec : EqDecision conv.
Proof. solve_decision. Defined.
Definition conv_char (c : conv) : Z :=
  match c with
  | Conv_c => ch "c" | Conv_s => ch "s" | Conv_o => ch "o" | Conv_p => ch "p" | Conv_x => ch "x" | Conv_X => ch "X"
  | Conv_d => ch "d" | Conv_i => ch "i" | Conv_u => ch "u" | Conv_percent => ch "%"
  end.
(** a directive: flag characters, width, precision, conversion; or text *)
Inductive piece :=
| Text (l : list Z)
| Dir (flags : list Z) (width prec : option Z) (c : conv).

Definition wf_piece (p : piece) : Prop :=
  match p with
  | Text l => ch "%" ∉ l
  | Dir flags width prec _ =>
      Forall (fun c => is_Some (flag_of c)) flags /\
      (forall w, width = Some w -> 0 < w < 2 ^ 30) /\ (forall p, prec = Some p -> 0 <= p < 2 ^ 30)
  end.
Definition render_piece (p : piece) : list Z :=
  match p with
  | Text l => l
  | Dir flags width prec c =>
      [ch "%"] ++ flags ++ from_option decimal [] width ++ from_option (fun p => ch "." :: decimal p) [] prec ++ [conv_char c]
  end.
Definition render (ps : list piece) : list Z := concat (render_piece <$> ps).

(** what each is to print: the value [flags_of] of the flags, the digits of a number laid out as it says *)
Definition flags_of (l : list Z) : Z := fold_left (fun v c => Z.lor v (default 0 (flag_of c))) l 0.
Definition print_number (a base width prec type : Z) : list Z :=
  let n := if has type SIGN && (a <? 0) then s32 (- a) else a in
  layout a base width prec type (rev (convert (if has type SMALL then lower_digits else upper_digits) base n)).

Section Format.
Context (mem : Z -> Z) (fuel : nat).

Definition print_arg (c : conv) (a flags width prec : Z) : list Z :=
  match c with
  | Conv_c => put_char a width flags
  | Conv_s => put_string mem fuel a width prec flags
  | Conv_o => print_number (s32 a) 8 width prec flags
  | Conv_p => if width =? -1 then print_number (s32 a) 16 8 prec (Z.lor flags ZEROPAD)
              else print_number (s32 a) 16 width prec flags
  | Conv_x => print_number (s32 a) 16 width prec (Z.lor flags SMALL)
  | Conv_X => print_number (s32 a) 16 width prec flags
  | Conv_d | Conv_i => print_number (s32 a) 10 width prec (Z.lor flags SIGN)
  | Conv_u => print_number (s32 a) 10 width prec flags
  | Conv_percent => chars "%"
  end.
(** the pieces in turn, each directive but [%%] with the next argument *)
Fixpoint print (ps : list piece) (args : list Z) : option (list Z) :=
  match ps, args with
  | [], _ => Some []
  | Text l :: ps, _ => out ← print ps args; Some (l ++ out)
  | Dir _ _ _ Conv_percent :: ps, _ => out ← print ps args; Some (chars "%" ++ out)
  | Dir flags width prec c :: ps, a :: args =>
      out ← print ps args; Some (print_arg c a (flags_of flags) (default (-1) width) (default (-1) prec) ++ out)
  | Dir _ _ _ _ :: _, [] => None
  end.

Lemma get_flags_spec l rest : forall v, Forall (fun c => is_Some (flag_of c)) l -> flag_of (cur rest) = None ->
  get_flags v (l ++ rest) = (fold_left (fun v c => Z.lor v (default 0 (flag_of c))) l v, rest).
Proof.
  induction l as [|c l IH]; intros v Hl Hr; cbn.
  - destruct rest as [|c rest]; cbn in *; [done|by rewrite Hr].
  - apply Forall_cons in Hl as [[f Hf] Hl]. rewrite Hf. cbn. by apply IH.
Qed.

Definition plain_char (c : Z) : Prop := is_digit c = false /\ flag_of c = None /\ (c =? ch "*") = false.
Lemma conv_plain c : plain_char (conv_char c) /\ (conv_char c =? ch ".") = false /\
  (conv_char c =? ch "h") || (conv_char c =? ch "l") || (conv_char c =? ch "L") = false.
Proof. destruct c; repeat split; reflexivity. Qed.

(** what stands between the width and the rest *)
Definition prec_part (prec : option Z) (c : conv) : list Z :=
  from_option (fun p => ch "." :: decimal p) [] prec ++ [conv_char c].
Lemma prec_plain prec c rest : plain_char (cur (prec_part prec c ++ rest)).
Proof. destruct prec; [repeat split; reflexivity|apply conv_plain]. Qed.

Lemma get_width_spec width flags l args : (forall w, width = Some w -> 0 < w < 2 ^ 30) -> plain_char (cur l) ->
  get_width flags (from_option decimal [] width ++ l) args = Some (default (-1) width, flags, l, args).
Proof.
  intros Hw (Hd & Hf & Hs). unfold get_width. destruct width as [w|]; cbn [from_option app default].
  - destruct (decimal_head w) as (c & t & E & Hc & _); [specialize (Hw w eq_refl); lia|].
    assert (is_digit (cur (decimal w ++ l)) = true) as -> by by rewrite E.
    rewrite skip_atoi_decimal; [done|specialize (Hw w eq_refl); lia|done].
  - by rewrite Hd, Hs.
Qed.
Lemma get_precision_spec prec c rest args : (forall p, prec = Some p -> 0 <= p < 2 ^ 30) ->
  get_precision (prec_part prec c ++ rest) args = Some (default (-1) prec, conv_char c :: rest, args).
Proof.
  intros Hp. destruct (conv_plain c) as ((Hd & _) & Hdot & _). unfold get_precision, prec_part.
  destruct prec as [p|]; cbn [from_option app].
  - specialize (Hp p eq_refl). change (cur (ch "." :: _)) with (ch "."). rewrite Z.eqb_refl. cbn [negb tail].
    assert (is_digit (cur (decimal p ++ conv_char c :: rest)) = true) as Hc.
    { pose proof (decimal_digits p) as HD. destruct (decimal p) as [|x t] eqn:E.
      - exfalso. pose proof (convert_spec upper_digits 10 p (or_introl eq_refl) ltac:(lia) ltac:(lia)) as (_ & Hl & _).
        fold (decimal p) in Hl. rewrite E in Hl. cbn in Hl. lia.
      - by apply Forall_cons in HD as [H _]. }
    rewrite <- app_assoc. cbn [app]. rewrite Hc, skip_atoi_decimal by (done || lia). cbn.
    destruct (Z.ltb_spec p 0); [lia|done].
  - change (cur (conv_char c :: rest)) with (conv_char c). by rewrite Hdot.
Qed.

Lemma number_print a base width prec type : 2 <= base <= 36 -> -1 <= width < 2 ^ 30 -> -1 <= prec < 2 ^ 30 ->
  number (s32 a) base width prec type = Some (print_number (s32 a) base width prec type).
Proof. intros. pose proof (s32_range a). by apply number_layout. Qed.

#[local] Arguments number : simpl never.
#[local] Arguments print_number : simpl never.
Lemma conversion_spec pos flags width prec c rest a args :
  -1 <= width < 2 ^ 30 -> -1 <= prec < 2 ^ 30 -> c <> Conv_percent ->
  conversion mem fuel pos flags width prec (conv_char c :: rest) (a :: args) =
  Some (mk_written (print_arg c a flags width prec) rest args []).
Proof.
  intros Hw Hp Hc. unfold conversion, put_number, print_arg.
  destruct (width =? -1), c; try done; cbn; rewrite ?number_print by lia; reflexivity.
Qed.
Lemma conversion_percent pos flags width prec rest args :
  conversion mem fuel pos flags width prec (conv_char Conv_percent :: rest) args =
  Some (mk_written (chars "%") rest args []).
Proof. reflexivity. Qed.
Lemma directive_spec pos flags width prec c rest args : wf_piece (Dir flags width prec c) ->
  directive mem fuel pos (flags ++ from_option decimal [] width ++ prec_part prec c ++ rest) args =
  conversion mem fuel pos (flags_of flags) (default (-1) width) (default (-1) prec) (conv_char c :: rest) args.
Proof.
  intros (Hf & Hw & Hp). unfold directive. rewrite get_flags_spec; [|done|].
  - cbn. change (fold_left _ flags 0) with (flags_of flags). rewrite get_width_spec; [|done|apply prec_plain]. cbn.
    rewrite get_precision_spec by done. cbn [mbind option_bind].
    assert (skip_qualifier (conv_char c :: rest) = conv_char c :: rest) as -> by (by destruct c). done.
  - destruct width as [w|]; cbn [from_option app].
    + destruct (decimal_head w) as (x & t & -> & _ & Hx); [specialize (Hw w eq_refl); lia|done].
    + apply prec_plain.
Qed.

Lemma format_text l rest : forall rounds pos args, ch "%" ∉ l ->
  format mem (length l + rounds) fuel pos (l ++ rest) args =
  '(out, st) ← format mem rounds fuel (pos + Z.of_nat (length l)) rest args; Some (l ++ out, st).
Proof.
  induction l as [|c l IH]; intros rounds pos args Hl.
  - cbn [length app Nat.add Z.of_nat]. rewrite Z.add_0_r. by destruct (format _ _ _ _ _ _) as [[out st]|].
  - apply not_elem_of_cons in Hl as [Hc Hl]. cbn [length Nat.add app format].
    destruct (Z.eqb_spec c (ch "%")) as [->|_]; [done|]. cbn [mbind option_bind w_fmt w_args w_out w_stores length].
    rewrite IH by done. replace (pos + Z.of_nat 1 + Z.of_nat (length l)) with (pos + Z.of_nat (S (length l))) by lia.
    by destruct (format _ _ _ _ _ _) as [[out st]|].
Qed.
Lemma format_end rounds pos args : format mem rounds fuel pos [] args = Some ([], []).
Proof. by destruct rounds. Qed.

Lemma render_dir flags width prec c : 
  render_piece (Dir flags width prec c) = ch "%" :: flags ++ from_option decimal [] width ++ prec_part prec c.
Proof. reflexivity. Qed.

Lemma format_pieces ps : forall rounds pos args out, Forall wf_piece ps -> (length (render ps) <= rounds)%nat ->
  print ps args = Some out -> format mem rounds fuel pos (render ps) args = Some (out, []).
Proof.
  induction ps as [|p ps IH]; intros rounds pos args out Hwf Hr Hp.
  { injection Hp as <-. apply format_end. }
  apply Forall_cons in Hwf as [Hp0 Hwf]. unfold render in Hr. cbn [fmap list_fmap concat] in Hr.
  fold (render ps) in Hr. rewrite length_app in Hr.
  change (render (p :: ps)) with (render_piece p ++ render ps).
  destruct p as [l|flags width prec c].
  - cbn in Hp, Hr. apply bind_Some in Hp as (out' & Hp & [= <-]).
    replace rounds with (length l + (rounds - length l))%nat by lia. cbn [render_piece]. rewrite format_text by done.
    by rewrite (IH _ _ _ out') by (done || lia).
  - rewrite render_dir in *. cbn [length] in Hr. destruct rounds as [|rounds]; [lia|]. cbn [app format]. rewrite Z.eqb_refl.
    rewrite <- !app_assoc, directive_spec by done. destruct Hp0 as (_ & Hw & Hq).
    assert (-1 <= default (-1) width < 2 ^ 30) by (destruct width as [w|]; cbn; [specialize (Hw w eq_refl)|]; lia).
    assert (-1 <= default (-1) prec < 2 ^ 30) by (destruct prec as [w|]; cbn; [specialize (Hq w eq_refl)|]; lia).
    destruct (decide (c = Conv_percent)) as [->|Hc].
    + assert ((out' ← print ps args; Some (chars "%" ++ out')) = Some out) as (out' & Hp' & [= <-])%bind_Some by (by destruct args).
      rewrite conversion_percent. cbn [mbind option_bind w_out w_fmt w_args w_stores].
      by rewrite (IH _ _ _ out') by (done || lia).
    + destruct args as [|a args]; [by destruct c|].
      assert ((out' ← print ps args; Some (print_arg c a (flags_of flags) (default (-1) width) (default (-1) prec) ++ out')) = Some out)
        as (out' & Hp' & [= <-])%bind_Some by (by destruct c).
      rewrite conversion_spec by done. cbn [mbind option_bind w_out w_fmt w_args w_stores]. by rewrite (IH _ _ _ out') by (done || lia).
Qed.

(** C37: [vsprintf] interprets its format character by character as the
    directives it spells: for any sequence of texts and directives with any
    flags, widths and precisions, the buffer receives the texts and, for each
    directive, its argument converted and laid out as the directive says, in
    order, then a NUL; the result is the number of characters before it. *)
Theorem vsprintf_correct (ps : list piece) (args out : list Z) (Hwf : Forall wf_piece ps)
  (Hprint : print ps args = Some out) :
  vsprintf mem fuel (render ps) args = Some (out ++ [0], Z.of_nat (length out), []).
Proof. unfold vsprintf. by rewrite (format_pieces ps _ _ _ out). Qed.
End Format.

Lemma vsprintf_correct_witness :
  vsprintf (fun _ => 0) 5 (chars "pid %-5d|%04x%%") [42; 0xbeef] = Some (chars "pid 42   |beef%" ++ [0], 15, []).
Proof.
  apply (vsprintf_correct (fun _ => 0) 5 [Text (chars "pid "); Dir (chars "-") (Some 5) None Conv_d; Text (chars "|");
    Dir (chars "0") (Some 4) None Conv_x; Dir [] None None Conv_percent] [42; 0xbeef] (chars "pid 42   |beef%")).
  - assert (forall l, forallb (fun c => negb (c =? ch "%")) l = true -> ch "%" ∉ l) as Htext.
    { intros l H Hin. rewrite forallb_forall in H. apply list_elem_of_In in Hin. by specialize (H _ Hin). }
    repeat constructor; cbn [wf_piece]; try (apply Htext; vm_compute; reflexivity);
      try (match goal with H : _ = Some _ |- _ => inversion H; subst; lia end); eauto.
  - vm_compute. reflexivity.
Defined.
