(* ===== verification/Printk.v ===== *)
(** * kernel/printk.cc, kernel/panic.cc: messages of the kernel

    Elsewhere in the model [printk] is an event of the log and [panic] an outcome
    that ends the run; here is what they do, from the format to the terminal. *)

From S2P Require Import Prelude State Segment Memory Sched Request LlRw Buffer Bitmap TtyQueue Console Tty ReadWrite Vsprintf.

(** strings are read where they are, in memory *)
Definition kernel_byte (m : mm_st) (a : Z) : Z := byte_of (word m (a - a mod 4)) (a mod 4).
(** [char buf[1024]] *)
Definition printk_buf_size : nat := 1024.
(** the static buffer holds [text]; an address is a place in it *)
Definition buf_byte `{Env} (text : list Z) (a : Z) : K Z := deref (text !! Z.to_nat a).

Section Printk.
Context {E : Env}.

(** a store of [%n]: the 32-bit word at any address *)
Definition store_int (st : Z * Z) : K unit :=
  for_each [0; 1; 2; 3] (fun k => zoom_mm (store_byte (st.1 + k) (byte_of st.2 k))).

(** [fs] holds the kernel's data segment while [tty_write] reads the buffer;
    what [tty_write] returns is dropped *)
Definition printk_run (fmt args : list Z) : K Z :=
  s ← gets id;
  match vsprintf (kernel_byte (mm s)) env_fuel fmt args with
  | Some (text, i, stores) =>
      if (printk_buf_size <? length text)%nat then fault else
      for_each stores store_int ;;
      _ ← tty_write_from (buf_byte text) 0 0 i;
      mret i
  | None => fault
  end.

(** [s]: the address of the message.  Only outside task 0 are the buffers written back *)
Definition panic_run (s : Z) : K unit :=
  _ ← printk_run (chars "Kernel panic: %s" ++ [10; 13]) [s];
  c ← gets sched;
  (if bool_decide (slot c 0 = Some (current c))
   then _ ← printk_run (chars "In swapper task - not syncing" ++ [10; 13]) []; mret tt
   else _ ← sys_sync; mret tt) ;;
  spin.
End Printk.
