(* ===== verification/ScreenFacts.v ===== *)
(** * kernel/chr_drv/console.cc, tty_io.cc, kernel/printk.cc: what is written is on the screen

    The screen is a cursor and a grid of cells.  The console, which moves the origin
    of the display through the video memory, copies lines and keeps the address of
    the cursor, implements it. *)

From S2P Require Import Prelude Bits State Memory Sched TtyQueue TtyQueueFacts Console Tty ConsoleFacts TtyIntr TtyIntrFacts.
From S2P Require Import LineFacts Vsprintf VsprintfFacts Printk.

(** ** The screen *)
Record screen := mk_screen { sx : Z; sy : Z; grid : Z -> Z -> Z }.     (* column, line; cells by line and column *)
(** what stays while text is written: the size, the lines that scroll, a blank cell,
    the colours, the erase character of the terminal *)
Record look := mk_look { l_cols : Z; l_lines : Z; l_top : Z; l_bottom : Z; l_blank : Z; l_attr : Z; l_erase : Z }.

Section Screen.
Context (L : look).

(** the lines of the region move up by one *)
Definition scrolled (g : Z -> Z -> Z) : Z -> Z -> Z := fun row col =>
  if (l_top L <=? row) && (row <? l_bottom L) then (if row + 1 <? l_bottom L then g (row + 1) col else u16 (l_blank L)) else g row col.
Definition newline (r : screen) : screen :=
  if sy r + 1 <? l_bottom L then mk_screen (sx r) (sy r + 1) (grid r) else mk_screen (sx r) (sy r) (scrolled (grid r)).
(** beyond the last column: on to the next line *)
Definition wrapped (r : screen) : screen :=
  if l_cols L <=? sx r then newline (mk_screen (sx r - l_cols L) (sy r) (grid r)) else r.
Definition drawn (v : Z) (x y : Z) (g : Z -> Z -> Z) : Z -> Z -> Z := fun row col => if (row =? y) && (col =? x) then u16 v else g row col.
Definition printed (ch : Z) (r : screen) : screen :=
  let r := wrapped r in mk_screen (sx r + 1) (sy r) (drawn (ch + 2 ^ 8 * l_attr L) (sx r) (sy r) (grid r)).
Definition deleted (r : screen) : screen :=
  if sx r =? 0 then r else mk_screen (sx r - 1) (sy r) (drawn (l_blank L) (sx r - 1) (sy r) (grid r)).
Definition tabbed (r : screen) : screen :=
  let r := mk_screen (sx r + (8 - sx r mod 8)) (sy r) (grid r) in if l_cols L <? sx r then wrapped r else r.

(** a character, outside of escape sequences *)
Definition typed_char (r : screen) (ch : Z) : screen :=
  if (31 <? ch) && (ch <? 127) then printed ch r
  else if (ch =? 10) || (ch =? 11) || (ch =? 12) then newline r
  else if ch =? 13 then mk_screen 0 (sy r) (grid r)
  else if ch =? l_erase L then deleted r
  else if ch =? 8 then (if sx r =? 0 then r else mk_screen (sx r - 1) (sy r) (grid r))
  else if ch =? 9 then tabbed r else r.
(** a text, of bytes *)
Definition typed_text (r : screen) (l : list Z) : screen := foldl typed_char r (s8 <$> l).
End Screen.

(** ** The display implements the screen *)

(** the address of a cell *)
Definition cell_at (c : con_st) (row col : Z) : Z := origin c + row * video_size_row c + 2 * col.

Record displays (L : look) (c : con_st) (r : screen) : Prop := {
  di_wf : wf_con c;
  di_even : Z.even (l_cols L) = true;
  di_cols : video_num_columns c = l_cols L;
  di_lines : video_num_lines c = l_lines L;
  di_top : top c = l_top L;
  di_bottom : bottom c = l_bottom L;
  di_blank : video_erase_char c = l_blank L;
  di_attr : attr c = l_attr L;
  di_state : con_state c = 0;
  di_flag : cr_flag c = 0;
  di_words : forall a, 0 <= cell c a < 2 ^ 16;
  di_x : cur_x c = sx r;
  di_y : cur_y c = sy r;
  di_cells : forall row col, 0 <= row < l_lines L -> 0 <= col < l_cols L -> cell c (cell_at c row col) = grid r row col
}.

Definition fixed (c : con_st) : list Z := geometry c ++ [top c; bottom c; video_erase_char c; attr c; con_state c; cr_flag c].
Definition words (c : con_st) : Prop := forall a, 0 <= cell c a < 2 ^ 16.
Lemma displays_after L c r c' r' : displays L c r -> wf_con c' -> fixed c' = fixed c -> words c' -> cur_x c' = sx r' -> cur_y c' = sy r' ->
  (forall row col, 0 <= row < l_lines L -> 0 <= col < l_cols L -> cell c' (cell_at c' row col) = grid r' row col) -> displays L c' r'.
Proof. intros [] W Hf. injection Hf as ? ? ? ? ? ? ? ? ? ? ?. intros. split; try done; congruence. Qed.

(** *** Cells *)
Lemma cell_put a v c b : cell (put_cell a v c) b = if decide (a = b) then u16 v else cell c b.
Proof.
  unfold cell, put_cell. cbn. destruct (decide (a = b)) as [->|Hne]; [by rewrite lookup_insert_eq|by rewrite lookup_insert_ne].
Qed.
Lemma stosw_S a n v c : stosw a (S n) v c = put_cell (a + 2 * Z.of_nat n) v (stosw a n v c).
Proof. unfold stosw. by rewrite seq_S, foldl_app. Qed.
Lemma stosw_in a n v c k : (k < n)%nat -> cell (stosw a n v c) (a + 2 * Z.of_nat k) = u16 v.
Proof.
  induction n as [|n IH]; intros Hk; [lia|]. rewrite stosw_S, cell_put. case_decide; [done|]. apply IH. lia.
Qed.
Lemma stosw_out a n v c b : b < a \/ a + 2 * Z.of_nat n <= b -> cell (stosw a n v c) b = cell c b.
Proof.
  induction n as [|n IH]; intros Hb; [done|]. rewrite stosw_S, cell_put. case_decide; [lia|]. apply IH. lia.
Qed.

(** a copy downwards: the cells are as they were when they are copied *)
Definition copied (from to : Z) (m : nat) (c : con_st) : con_st :=
  foldl (fun c k => put_cell (to + 2 * Z.of_nat k) (cell c (from + 2 * Z.of_nat k)) c) c (seq 0 m).
Lemma copied_S from to m c : copied from to (S m) c =
  put_cell (to + 2 * Z.of_nat m) (cell (copied from to m c) (from + 2 * Z.of_nat m)) (copied from to m c).
Proof. unfold copied. by rewrite seq_S, foldl_app. Qed.
Lemma copied_out from to m c b : b < to \/ to + 2 * Z.of_nat m <= b -> cell (copied from to m c) b = cell c b.
Proof.
  induction m as [|m IH]; intros Hb; [done|]. rewrite copied_S, cell_put. case_decide; [lia|]. apply IH. lia.
Qed.
Lemma copied_in from to m c k : to <= from -> (k < m)%nat ->
  cell (copied from to m c) (to + 2 * Z.of_nat k) = u16 (cell c (from + 2 * Z.of_nat k)).
Proof.
  intros Hle. induction m as [|m IH]; intros Hk; [lia|]. rewrite copied_S, cell_put. case_decide as Heq.
  - assert (m = k) as -> by lia. by rewrite copied_out by lia.
  - apply IH. lia.
Qed.

(** only the cells change *)
Lemma stosw_only a n v c : exists m, stosw a n v c = c <| vram := m |>.
Proof. induction n as [|n (m & IH)]; [exists (vram c); by destruct c|]. rewrite stosw_S, IH. by eexists. Qed.
Lemma copied_only from to n c : exists m, copied from to n c = c <| vram := m |>.
Proof. induction n as [|n (m & IH)]; [exists (vram c); by destruct c|]. rewrite copied_S, IH. by eexists. Qed.
Lemma put_words a v c : words c -> words (put_cell a v c).
Proof. intros H b. rewrite cell_put. case_decide; [apply Z.mod_pos_bound; lia|apply H]. Qed.
Lemma stosw_words a n v c : words c -> words (stosw a n v c).
Proof. intros H. induction n; [done|]. rewrite stosw_S. by apply put_words. Qed.
Lemma copied_words from to m c : words c -> words (copied from to m c).
Proof. intros H. induction m; [done|]. rewrite copied_S. by apply put_words. Qed.

(** *** Scrolling *)

(** the copy of [lines] lines down by one, and a blank line behind them *)
Definition moved_up (from to : Z) (lines : Z) (c : con_st) : con_st :=
  stosw (to + 2 * (lines * video_num_columns c)) (columns c) (video_erase_char c) (copied from to (Z.to_nat (lines * video_num_columns c)) c).
Lemma pairs_even n cols c from to : Z.even cols = true -> 0 <= n -> 0 <= cols -> n * cols < 2 ^ 32 -> n < 2 ^ 32 -> cols = video_num_columns c ->
  stosw (to + 4 * Z.of_nat (Z.to_nat (Z.shiftr (u32 (u32 n * cols)) 1))) (columns c) (video_erase_char c)
    (movsl from to (Z.to_nat (Z.shiftr (u32 (u32 n * cols)) 1)) c) = moved_up from to n c.
Proof.
  intros [q Hq]%Z.even_spec Hn Hc Hlt Hn32 ->. rewrite (u32_id n) by lia. rewrite u32_id by nia. rewrite Z.shiftr_div_pow2 by lia.
  unfold moved_up, movsl. rewrite Hq. replace (n * (2 * q)) with (n * q * 2) by lia. change (2 ^ 1) with 2. rewrite Z.div_mul by done.
  rewrite Z2Nat.id by nia. replace (2 * Z.to_nat (n * q))%nat with (Z.to_nat (n * q * 2)) by lia.
  f_equal. lia.
Qed.
Section MovedUp.
Context (from to lines : Z) (c : con_st).
Abbreviation cols := (video_num_columns c).
Hypothesis Hn : 0 <= lines.
Hypothesis Hc : 0 < cols.
Lemma moved_up_row row col : to <= from -> 0 <= row < lines -> 0 <= col < cols -> words c ->
  cell (moved_up from to lines c) (to + 2 * (row * cols + col)) = cell c (from + 2 * (row * cols + col)).
Proof.
  intros Hle Hr Hcol Hw. unfold moved_up. assert (0 <= row * cols + col < lines * cols) as Hk by nia.
  rewrite stosw_out by lia. rewrite <- (Z2Nat.id (row * cols + col)) by lia. rewrite copied_in by (lia || (apply Z2Nat.inj_lt; lia)).
  unfold u16. by rewrite Z.mod_small by apply Hw.
Qed.
Lemma moved_up_last col : 0 <= col < cols -> cell (moved_up from to lines c) (to + 2 * (lines * cols + col)) = u16 (video_erase_char c).
Proof.
  intros Hcol. unfold moved_up. replace (to + 2 * (lines * cols + col)) with (to + 2 * (lines * cols) + 2 * Z.of_nat (Z.to_nat col)) by lia.
  apply stosw_in. unfold columns. lia.
Qed.
Lemma moved_up_out b : b < to \/ to + 2 * ((lines + 1) * cols) <= b -> cell (moved_up from to lines c) b = cell c b.
Proof. intros Hb. unfold moved_up. rewrite stosw_out by (unfold columns; nia). apply copied_out. nia. Qed.
Lemma moved_up_only : exists m, moved_up from to lines c = c <| vram := m |>.
Proof.
  unfold moved_up. destruct (copied_only from to (Z.to_nat (lines * cols)) c) as (m & ->).
  destruct (stosw_only (to + 2 * (lines * cols)) (columns c) (video_erase_char c) (c <| vram := m |>)) as (m' & ->). by exists m'.
Qed.
Lemma moved_up_words : words c -> words (moved_up from to lines c).
Proof. intros H. by apply stosw_words, copied_words. Qed.
End MovedUp.

(** the size of the screen, in 32 bits *)
Lemma small_screen c : wf_con c -> video_num_lines c * video_num_columns c < 2 ^ 31 /\ 0 < video_num_columns c.
Proof. intros []. unfold screen_size in *. nia. Qed.

Lemma displays_moves_lines L c r : displays L c r -> scrolls_origin c = false ->
  displays L (scroll_up_region c) (mk_screen (sx r) (sy r) (scrolled L (grid r))).
Proof.
  intros H _. pose proof (stays_scroll_up_region c (di_wf _ _ _ H)) as (Hwf & _). pose proof H as [W Hev Hcols Hlines Htop Hbot Hblank _ _ _ Hw Hx Hy Hcells].
  pose proof (small_screen c W) as [Hsmall Hpos]. pose proof W as [_ Hrow Hl1 _ _ _ _ _ _ [Htb Hbl] _].
  unfold scroll_up_region in *. cbv zeta in *. unfold region_pairs in *.
  rewrite (pairs_even (bottom c - top c - 1) (video_num_columns c)) in * by (first [done | lia | (rewrite Hcols; done) | nia]).
  set (to := origin c + video_size_row c * top c) in *. set (from := to + video_size_row c) in *. set (n := bottom c - top c - 1) in *.
  destruct (moved_up_only from to n c) as (m & Hm).
  apply (displays_after L c r); [done|done|by rewrite Hm|by apply moved_up_words|by rewrite Hm|by rewrite Hm|].
  intros row col Hr Hc. rewrite <- Hcols in Hc. rewrite <- Hlines in Hr.
  assert (cell_at (moved_up from to n c) row col = to + 2 * ((row - top c) * video_num_columns c + col)) as ->.
  { rewrite Hm. unfold cell_at, to. cbn. rewrite Hrow. ring. }
  assert (forall row, to + 2 * ((row - top c) * video_num_columns c + col) = cell_at c row col) as Hat.
  { intros k. unfold cell_at, to. rewrite Hrow. ring. }
  cbn [grid]. unfold scrolled. rewrite <- Htop, <- Hbot.
  destruct (Z.leb_spec (top c) row); cbn [andb]; [destruct (Z.ltb_spec row (bottom c))|].
  - destruct (Z.ltb_spec (row + 1) (bottom c)).
    + rewrite moved_up_row by (try done; unfold n, from; lia). rewrite <- Hcells by lia. f_equal. unfold cell_at, from, to. rewrite Hrow. ring.
    + replace (row - top c) with n by (unfold n; lia). rewrite moved_up_last by done. by rewrite Hblank.
  - rewrite moved_up_out by (unfold n; nia). rewrite Hat. apply Hcells; lia.
  - rewrite moved_up_out by (unfold n; nia). rewrite Hat. apply Hcells; lia.
Qed.
Lemma displays_moves_origin L c r : displays L c r -> scrolls_origin c = true ->
  displays L (scroll_up_origin c) (mk_screen (sx r) (sy r) (scrolled L (grid r))).
Proof.
  intros H Ho. pose proof (stays_scroll_up_origin c (di_wf _ _ _ H)) as (Hwf & _). pose proof H as [W Hev Hcols Hlines Htop Hbot Hblank _ _ _ Hw Hx Hy Hcells].
  pose proof (small_screen c W) as [Hsmall Hpos]. pose proof W as [_ Hrow Hl1 _ [Horg _] Hend _ _ _ [Htb Hbl] _]. unfold screen_size in Hend.
  unfold scrolls_origin in Ho. apply andb_true_iff in Ho as [[_ Ht0%Z.eqb_eq]%andb_true_iff Hb0%Z.eqb_eq].
  unfold scroll_up_origin in *. cbv zeta in *. set (c1 := c <| origin ::= _ |> <| pos ::= _ |> <| scr_end ::= _ |>) in *.
  assert (words c1) as Hw1 by exact Hw. assert (video_num_columns c1 = video_num_columns c) as Hc1 by done. assert (video_num_lines c1 = video_num_lines c) as Hn1 by done.
  assert (origin c1 = origin c + 2 * video_num_columns c) as Ho1 by (cbn; lia).
  assert (forall row col, cell c1 (origin c1 + 2 * (row * video_num_columns c + col)) = cell c (cell_at c (row + 1) col)) as Hold.
  { intros row col. change (cell c1) with (cell c). f_equal. unfold cell_at. rewrite Ho1, Hrow. ring. }
  assert (forall row col, 0 <= row < l_lines L -> scrolled L (grid r) row col = if row + 1 <? l_lines L then grid r (row + 1) col else u16 (l_blank L)) as Hsc.
  { intros row col Hr. unfold scrolled. destruct (Z.leb_spec (l_top L) row); [|lia]. destruct (Z.ltb_spec row (l_bottom L)); [|lia]. cbn [andb].
    by replace (l_bottom L) with (l_lines L) by lia. }
  destruct (video_mem_end c1 <? scr_end c1).
  - change (origin c1 - video_mem_start c1) with (origin c1 - video_mem_start c1).
    rewrite (pairs_even (video_num_lines c1 - 1) (video_num_columns c1)) in * by (rewrite ?Hc1, ?Hn1; first [done | lia | (rewrite Hcols; done) | nia]).
    set (to := video_mem_start c1) in *. set (n := video_num_lines c1 - 1) in *.
    destruct (moved_up_only (origin c1) to n c1) as (m & Hm).
    apply (displays_after L c r); [done|done|by rewrite Hm|by apply (moved_up_words (origin c1) to n c1)|by rewrite Hm|by rewrite Hm|].
    intros row col Hr Hc. rewrite <- Hcols in Hc. cbn [grid]. rewrite Hsc by done. rewrite <- Hlines in Hr |- *.
    match goal with |- cell ?d (cell_at ?e row col) = _ => change (cell d) with (cell (moved_up (origin c1) to n c1));
      assert (cell_at e row col = to + 2 * (row * video_num_columns c1 + col)) as -> by (rewrite Hm; unfold cell_at; cbn; rewrite Hrow; ring) end.
    destruct (Z.ltb_spec (row + 1) (video_num_lines c)).
    + rewrite moved_up_row by (try done; unfold n, to; rewrite ?Hc1, ?Hn1, ?Ho1; cbn; lia). rewrite Hc1, Hold. apply Hcells; lia.
    + replace row with n by (unfold n; lia). rewrite moved_up_last by (rewrite ?Hc1; lia). change (video_erase_char c1) with (video_erase_char c). by rewrite Hblank.
  - set (a := scr_end c1 - video_size_row c1) in *. destruct (stosw_only a (columns c1) (video_erase_char c1) c1) as (m & Hm).
    apply (displays_after L c r); [done|done|by rewrite Hm|by apply stosw_words|by rewrite Hm|by rewrite Hm|].
    intros row col Hr Hc. rewrite <- Hcols in Hc. cbn [grid]. rewrite Hsc by done. rewrite <- Hlines in Hr |- *.
    assert (cell_at (stosw a (columns c1) (video_erase_char c1) c1) row col = origin c1 + 2 * (row * video_num_columns c + col)) as ->.
    { rewrite Hm. unfold cell_at. cbn. rewrite Hrow. ring. }
    assert (a = origin c1 + 2 * ((video_num_lines c - 1) * video_num_columns c)) as Ha by (unfold a; rewrite Ho1; cbn; rewrite Hend, Hrow; ring).
    destruct (Z.ltb_spec (row + 1) (video_num_lines c)).
    + rewrite stosw_out by nia. rewrite Hold. apply Hcells; lia.
    + replace row with (video_num_lines c - 1) by lia. replace (origin c1 + _) with (a + 2 * Z.of_nat (Z.to_nat col)) by lia.
      rewrite stosw_in by (unfold columns; lia). change (video_erase_char c1) with (video_erase_char c). by rewrite Hblank.
Qed.
Lemma displays_scrup L c r : displays L c r -> displays L (scrup_con c) (mk_screen (sx r) (sy r) (scrolled L (grid r))).
Proof.
  intros H. unfold scrup_con. destruct (scrolls_origin c) eqn:Ho; [by apply displays_moves_origin|by apply displays_moves_lines].
Qed.

(** *** The cursor *)

(** only the place of the cursor changes *)
Lemma displays_cursor L c r c' x y : displays L c r -> wf_con c' -> fixed c' = fixed c -> vram c' = vram c -> origin c' = origin c ->
  cur_x c' = x -> cur_y c' = y -> displays L c' (mk_screen x y (grid r)).
Proof.
  intros H W Hf Hv Ho Hx Hy. pose proof H as [? ? ? ? ? ? ? ? ? ? Hw ? ? Hcells].
  assert (forall a, cell c' a = cell c a) as Hcell by (intros a; unfold cell; by rewrite Hv).
  eapply displays_after; [exact H|done|done| |done|done|].
  - intros a. rewrite Hcell. apply Hw.
  - intros row col Hr Hc. rewrite Hcell. injection Hf as ? Hrow ? ? ? ? ? ? ? ? ?. unfold cell_at. rewrite Ho, Hrow. by apply Hcells.
Qed.
(** a cell of the cursor line is drawn *)
Lemma cell_at_inj c row col row' col' : wf_con c -> 0 <= col < video_num_columns c -> 0 <= col' < video_num_columns c ->
  cell_at c row col = cell_at c row' col' -> row = row' /\ col = col'.
Proof. intros [? Hrow]. unfold cell_at. rewrite Hrow. intros. destruct (Z.lt_trichotomy row row') as [|[->|]]; [nia|split; lia|nia]. Qed.
Lemma displays_draw L c r c' x a v : displays L c r -> 0 <= x < l_cols L -> a = cell_at c (sy r) x -> wf_con c' -> fixed c' = fixed c ->
  vram c' = vram (put_cell a v c) -> origin c' = origin c -> cur_y c' = sy r ->
  displays L c' (mk_screen (cur_x c') (sy r) (drawn v x (sy r) (grid r))).
Proof.
  intros H Hx -> W Hf Hv Ho Hy. pose proof H as [Wc ? Hcols Hlines ? ? ? ? ? ? Hw ? Hyc Hcells].
  assert (forall b, cell c' b = cell (put_cell (cell_at c (sy r) x) v c) b) as Hcell by (intros b; unfold cell; by rewrite Hv).
  eapply displays_after; [exact H|done|done| |done|done|].
  - intros b. rewrite Hcell. by apply put_words.
  - intros row col Hr Hc. rewrite Hcell, cell_put. injection Hf as ? Hrow ? ? ? ? ? ? ? ? ?.
    assert (cell_at c' row col = cell_at c row col) as -> by (unfold cell_at; by rewrite Ho, Hrow). cbn [grid]. unfold drawn.
    case_decide as Heq.
    + apply cell_at_inj in Heq as [-> ->]; [by rewrite !Z.eqb_refl|done|lia|lia].
    + destruct (Z.eqb_spec row (sy r)) as [->|]; [destruct (Z.eqb_spec col x) as [->|]; [done|]|]; by apply Hcells.
Qed.

Lemma displays_newline L c r : displays L c r -> displays L (lf_con c) (newline L r).
Proof.
  intros H. pose proof (stays_lf c (di_wf _ _ _ H)) as (W & _). unfold lf_con, newline in *. rewrite (di_y _ _ _ H), (di_bottom _ _ _ H) in *.
  destruct (Z.ltb_spec (sy r + 1) (l_bottom L)); [|by apply displays_scrup].
  apply (displays_cursor L c r); [done|done|done|done|done|apply H|cbn; rewrite (di_y _ _ _ H); lia].
Qed.
(** the cursor on its line, [n] places on; beyond the end on the next line *)
Lemma displays_next_line L c r n : displays L c r -> 0 <= sx r + n - l_cols L <= l_cols L ->
  displays L (lf_con (c <| cur_x ::= fun x => x + n - video_num_columns c |> <| pos ::= fun p => p + 2 * n - video_size_row c |>))
    (newline L (mk_screen (sx r + n - l_cols L) (sy r) (grid r))).
Proof.
  intros H Hn. apply displays_newline. pose proof H as [W _ Hcols _ _ _ _ _ _ _ _ Hx Hy _].
  apply (displays_cursor L c r); [done| |done|done|done|cbn; by rewrite Hx, Hcols|done].
  destruct W. split; cbn; try done; lia.
Qed.
Lemma displays_wrapped L c r : displays L c r -> displays L (wrap_con c) (wrapped L r).
Proof.
  intros H. unfold wrap_con, wrapped. pose proof H as [W _ Hcols _ _ _ _ _ _ _ _ Hx Hy _]. rewrite Hcols, Hx.
  destruct (Z.leb_spec (l_cols L) (sx r)); [|done].
  pose proof (displays_next_line L c r 0 H ltac:(destruct W; lia)) as Hn. rewrite Z.add_0_r in Hn.
  replace (lf_con _) with (lf_con (c <| cur_x ::= fun x => x + 0 - video_num_columns c |>
                     <| pos ::= fun p => p + 2 * 0 - video_size_row c |>)); [exact Hn|].
  apply (f_equal lf_con). rewrite <- Hcols. clear. destruct c; unfold upd; cbn. f_equal; lia.
Qed.

Lemma displays_printed L c r ch : displays L c r -> displays L (print_con ch c) (printed L ch r).
Proof.
  intros H. pose proof (stays_print ch c (di_wf _ _ _ H)) as (W & _). pose proof (wrap_con_x c (di_wf _ _ _ H)) as Hlt.
  pose proof (displays_wrapped L c r H) as Hw. unfold print_con, printed in *. cbv zeta in *. set (d := wrap_con c) in *. set (q := wrapped L r) in *.
  pose proof Hw as [Wd _ Hcols _ _ _ _ Hattr _ _ _ Hx Hy _].
  assert (sx q + 1 = cur_x ((put_cell (pos d) (ch + 2 ^ 8 * attr d) d) <| pos ::= Z.add 2 |> <| cur_x ::= Z.add 1 |>)) as -> by (cbn; lia).
  rewrite <- Hattr. apply (displays_draw L d q _ (sx q) (pos d)); try done.
  - destruct Wd. lia.
  - unfold cell_at. destruct Wd. lia.
Qed.
Lemma displays_deleted L c r : displays L c r -> displays L (del c) (deleted L r).
Proof.
  intros H. pose proof (stays_del c (di_wf _ _ _ H)) as (W & _). pose proof H as [Wc _ Hcols _ _ _ Hb _ _ _ _ Hx Hy _].
  unfold del, deleted in *. rewrite Hx in *. destruct (Z.eqb_spec (sx r) 0) as [|Hne]; [done|]. rewrite Hb in *.
  set (d := put_cell _ _ _) in *. assert (sx r - 1 = cur_x d) as -> by (cbn; lia).
  apply (displays_draw L c r d (cur_x d) (pos c - 2)); try done.
  - destruct Wc. cbn. lia.
  - unfold cell_at. destruct Wc. cbn. lia.
Qed.
Lemma displays_tabbed L c r : displays L c r -> displays L (tab_con c) (tabbed L r).
Proof.
  intros H. pose proof (stays_tab c (di_wf _ _ _ H)) as (W & _). pose proof H as [Wc _ Hcols _ _ _ _ _ _ _ _ Hx Hy _].
  unfold tab_con, tabbed in *. cbv zeta in *. assert (Z.land (cur_x c) 7 = sx r mod 8) as Hland by (rewrite Hx; by apply (Z.land_ones _ 3)).
  rewrite Hland in *. pose proof (Z.mod_pos_bound (sx r) 8 ltac:(lia)). set (n := 8 - sx r mod 8) in *.
  set (d := c <| cur_x ::= Z.add n |> <| pos ::= Z.add (2 * n) |>) in *.
  assert (cur_x d = sx r + n) as Hd by (cbn; lia). change (video_num_columns d) with (video_num_columns c) in *. cbn [sx] in *. rewrite Hd, Hcols in *.
  destruct (Z.ltb_spec (l_cols L) (sx r + n)).
  - unfold wrap_con, wrapped in *. change (video_num_columns d) with (video_num_columns c) in *. rewrite Hd, Hcols in *. cbn [sx sy grid].
    destruct (Z.leb_spec (l_cols L) (sx r + n)); [|lia].
    pose proof (displays_next_line L c r n H) as Hl.
    replace (lf_con _) with (lf_con (c <| cur_x ::= fun x => x + n - video_num_columns c |>
                     <| pos ::= fun p => p + 2 * n - video_size_row c |>)); [apply Hl; destruct Wc; lia|].
    apply (f_equal lf_con). rewrite <- Hcols. subst d. clearbody n. clear. destruct c; unfold upd; cbn. f_equal; lia.
  - by apply (displays_cursor L c r).
Qed.
Lemma displays_back L c r : displays L c r -> displays L (back_con c) (if sx r =? 0 then r else mk_screen (sx r - 1) (sy r) (grid r)).
Proof.
  intros H. pose proof (stays_back c (di_wf _ _ _ H)) as (W & _). pose proof H as [_ _ _ _ _ _ _ _ _ _ _ Hx Hy _]. unfold back_con in *. rewrite Hx in *.
  destruct (sx r =? 0); [done|]. apply (displays_cursor L c r); [done|done|done|done|done|cbn; by rewrite Hx|done].
Qed.
Lemma displays_cr L c r : displays L c r -> displays L (cr c) (mk_screen 0 (sy r) (grid r)).
Proof. intros H. pose proof (stays_cr c (di_wf _ _ _ H)) as (W & _). apply (displays_cursor L c r); try done. apply H. Qed.

(** ** Characters of the queue *)

(** the terminals and the memory of the task *)
Definition aside (s : kst) : list tty_struct * gmap Z Z := (tty_table s, umem s).
(** [m] returns, does [f] to the display and nothing to the terminals *)
Definition draws_as (m : K unit) (f : con_st -> con_st) (s : kst) : Prop := exists s', m s = Ret tt s' /\ con s' = f (con s) /\ aside s' = aside s.
Lemma draws_as_runs m f s : runs_as m f -> guar (same aside) m -> draws_as m f s.
Proof. intros Hm Hg. destruct (Hm s) as (s' & E & Hc). specialize (Hg s). rewrite E in Hg. by exists s'. Qed.

(** the terminal 0 has the settings [T] and [l] waits to be written *)
Definition waiting (T : termios) (l : list Z) (s : kst) : Prop :=
  exists x, tty_table s !! 0%nat = Some x /\ tty_termios x = T /\ wf_queue (tty_write_q x) /\ q_contents (tty_write_q x) = l.
(** ... and the display shows [r] *)
Record shows (L : look) (T : termios) (l : list Z) (r : screen) (s : kst) : Prop := {
  sh_display : displays L (con s) r;
  sh_erase : get8 (c_cc T) 2 = l_erase L;
  sh_queue : waiting T l s
}.

Section Write.
Context {E : Env}.

Ltac leaves := guar_walk ltac:(apply guar_modify; done).
Lemma aside_outb v p : guar (same aside) (outb v p).
Proof. unfold outb. leaves. Qed.
Lemma aside_inb p : guar (same aside) (inb p).
Proof. unfold inb. leaves. Qed.
#[local] Hint Resolve aside_outb aside_inb : guar.
Lemma aside_video_reg reg f : guar (same aside) (set_video_reg reg f).
Proof. unfold set_video_reg, getcon. leaves. Qed.
#[local] Hint Resolve aside_video_reg : guar.
Lemma aside_lf : guar (same aside) lf.
Proof. unfold lf, scrup, set_origin, getcon, on_con. leaves. Qed.
#[local] Hint Resolve aside_lf : guar.
Lemma draws_lf s : draws_as lf lf_con s.
Proof. apply draws_as_runs; [apply runs_lf|apply aside_lf]. Qed.
Lemma draws_on_con f s : draws_as (on_con f) f s.
Proof. by eexists. Qed.
Lemma draws_seq m1 m2 f1 f2 s : draws_as m1 f1 s -> (forall s, draws_as m2 f2 s) -> draws_as (m1 ;; m2) (fun c => f2 (f1 c)) s.
Proof.
  intros (s1 & E1 & C1 & A1) H2. destruct (H2 s1) as (s2 & E2 & C2 & A2).
  exists s2. split; [by rewrite (bind_Ret _ _ _ _ _ E1)|]. split; congruence.
Qed.
Lemma draws_wrap s : draws_as (when (video_num_columns (con s) <=? cur_x (con s)) wrap_column) wrap_con s.
Proof.
  unfold draws_as, wrap_con. destruct (_ <=? _); [|by exists s].
  exact (draws_seq _ _ _ _ s (draws_on_con _ s) draws_lf).
Qed.
Lemma draws_sysbeep s : draws_as sysbeep id s.
Proof. apply draws_as_runs; [|unfold sysbeep, on_sched; leaves]. intros s'. by eexists. Qed.
Lemma draws_cursor s : draws_as set_cursor id s.
Proof. apply draws_as_runs; [apply runs_set_video_reg|apply aside_video_reg]. Qed.

Lemma shows_draws L T l r s m f r' : shows L T l r s -> draws_as m f s -> displays L (f (con s)) r' ->
  exists s', m s = Ret tt s' /\ shows L T l r' s' /\ umem s' = umem s.
Proof.
  intros [Hd He Hq] (s' & E1 & Hc & [= Ht Hu]) Hr. exists s'. split; [done|]. split; [|done].
  split; [by rewrite Hc|done|unfold waiting; by rewrite Ht].
Qed.
Lemma draws_tab s : draws_as
  (on_con (fun c => let n := 8 - Z.land (cur_x c) 7 in c <| cur_x ::= Z.add n |> <| pos ::= Z.add (2 * n) |>) ;;
   c ← getcon; when (video_num_columns c <? cur_x c) wrap_column) tab_con s.
Proof.
  unfold draws_as. set (f := fun c : con_st => let n := 8 - Z.land (cur_x c) 7 in c <| cur_x ::= Z.add n |> <| pos ::= Z.add (2 * n) |>).
  destruct (draws_on_con f s) as (s1 & E1 & C1 & A1). rewrite (bind_Ret _ _ _ _ _ E1).
  assert (getcon s1 = Ret (con s1) s1) as E2 by done. rewrite (bind_Ret _ _ _ _ _ E2). unfold tab_con. cbv zeta.
  change ((con s) <| cur_x ::= Z.add (8 - Z.land (cur_x (con s)) 7) |> <| pos ::= Z.add (2 * (8 - Z.land (cur_x (con s)) 7)) |>) with (f (con s)). rewrite <- C1.
  destruct (Z.ltb_spec (video_num_columns (con s1)) (cur_x (con s1))); [|by exists s1].
  destruct (draws_wrap s1) as (s2 & E3 & C3 & A3). destruct (Z.leb_spec (video_num_columns (con s1)) (cur_x (con s1))); [|lia].
  exists s2. split; [exact E3|]. split; [exact C3|congruence].
Qed.

(** a character outside an escape sequence *)
Lemma con_plain_draws L T l r s ch : shows L T l r s -> ch <> 27 ->
  exists s', con_plain 0 ch s = Ret tt s' /\ shows L T l (typed_char L r ch) s' /\ umem s' = umem s.
Proof.
  intros H Hch. pose proof H as [Hd He (x & Hx & HT & _)]. unfold con_plain.
  assert (getcon s = Ret (con s) s) as E0 by done. rewrite (bind_Ret _ _ _ _ _ E0).
  assert (gettty 0 s = Ret x s) as E1 by (unfold gettty; mrun; by rewrite Hx). rewrite (bind_Ret _ _ _ _ _ E1). rewrite HT, He. unfold typed_char.
  rewrite (proj2 (Z.eqb_neq ch 27)) by done.
  destruct ((31 <? ch) && (ch <? 127)); [|destruct (_ || _); [|destruct (ch =? 13); [|destruct (ch =? l_erase L);
    [|destruct (ch =? 8); [|destruct (ch =? 9); [|destruct (ch =? 7)]]]]]].
  - eapply (shows_draws _ _ _ _ s _ (print_con ch)); [exact H| |by apply displays_printed].
    apply (draws_seq _ _ _ (fun c => put_cell (pos c) (ch + 2 ^ 8 * attr c) c <| pos ::= Z.add 2 |> <| cur_x ::= Z.add 1 |>) s (draws_wrap s)). intros s1. exact (draws_seq _ _ _ _ s1 (draws_on_con _ s1) (draws_on_con _)).
  - eapply shows_draws; [exact H|apply draws_lf|by apply displays_newline].
  - eapply shows_draws; [exact H|apply draws_on_con|by apply displays_cr].
  - eapply shows_draws; [exact H|apply draws_on_con|by apply displays_deleted].
  - eapply shows_draws; [exact H|apply draws_on_con|by apply displays_back].
  - eapply shows_draws; [exact H|apply draws_tab|by apply displays_tabbed].
  - eapply shows_draws; [exact H|apply draws_sysbeep|done].
  - by exists s.
Qed.

(** the characters of the queue, one after the other *)
Lemma getch_shows L T c l r s : shows L T (c :: l) r s ->
  exists s', getch 0 WRITE_Q s = Ret c s' /\ shows L T l r s' /\ umem s' = umem s.
Proof.
  intros [Hd He (x & Hx & HT & W & Hl)]. unfold getch. rewrite (bind_Ret _ _ _ _ _ (getq_run 0 WRITE_Q s x Hx)).
  rewrite (bind_Ret _ _ _ _ _ (setq_run 0 WRITE_Q pop s x Hx)). cbn [tty_q WRITE_Q].
  rewrite contents_cons in Hl by (done || by apply contents_pos; rewrite Hl). injection Hl as Hc Hl.
  eexists. split; [by rewrite Hc|]. split; [|done]. split; [exact Hd|done|].
  eexists. split; [exact (with_q_lookup 0 WRITE_Q _ s x Hx)|]. split; [done|]. split; [by apply wf_pop|done].
Qed.
Lemma con_write_shows L T l r s f : shows L T l r s -> Forall (fun c => s8 c <> 27) l ->
  exists s', con_write_with f 0 s = Ret tt s' /\ shows L T [] (typed_text L r l) s' /\ umem s' = umem s.
Proof.
  intros H Hl. unfold con_write_with. pose proof H as [_ _ (x & Hx & _ & W & Hc)].
  rewrite (bind_Ret _ _ _ _ _ (getq_run 0 WRITE_Q s x Hx)). change (tty_q WRITE_Q x) with (tty_write_q x).
  rewrite <- q_contents_length, Hc. clear x Hx W Hc.
  assert (forall a, exists s1, for_each (seq a (length l)) (fun _ => c ← getch 0 WRITE_Q; con_char f 0 c) s = Ret tt s1 /\
    shows L T [] (typed_text L r l) s1 /\ umem s1 = umem s) as Hrun.
  { intros a. revert a r s H. induction Hl as [|c l Hc Hl IH]; intros a r s H; cbn [length seq for_each]; [by exists s|].
    destruct (getch_shows _ _ _ _ _ _ H) as (s1 & E1 & H1 & U1).
    destruct (con_plain_draws _ _ _ _ _ (s8 c) H1 Hc) as (s2 & E2 & H2 & U2).
    destruct (IH (S a) _ s2 H2) as (s3 & E3 & H3 & U3). exists s3. split; [|split; [exact H3|congruence]].
    rewrite (bind_Ret _ _ s tt s2); [exact E3|]. rewrite (bind_Ret _ _ _ _ _ E1). unfold con_char.
    assert (getcon s1 = Ret (con s1) s1) as E0 by done. rewrite (bind_Ret _ _ _ _ _ E0).
    by rewrite (di_state _ _ _ (sh_display _ _ _ _ _ H1)). }
  destruct (Hrun 0%nat) as (s1 & E1 & H1 & U1). rewrite (bind_Ret _ _ _ _ _ E1). destruct (shows_draws _ _ _ _ s1 _ _ _ H1 (draws_cursor s1) (sh_display _ _ _ _ _ H1)) as (s2 & E2 & H2 & U2).
  exists s2. split; [exact E2|]. split; [exact H2|congruence].
Qed.

(** *** Output processing *)

(** what a byte becomes on its way to the queue; upper case is not mapped *)
Definition processed (T : termios) (c : Z) : list Z :=
  let c := s8 c in
  if on (c_oflag T) OPOST then
    let c := if (c =? 13) && on (c_oflag T) OCRNL then 10 else if (c =? 10) && on (c_oflag T) ONLRET then 13 else c in
    if (c =? 10) && on (c_oflag T) ONLCR then [13; 10] else [u8 c]
  else [u8 c].
Definition output (T : termios) (bs : list Z) : list Z := concat (processed T <$> bs).

Lemma putch_waiting T l s c : waiting T l s -> Z.of_nat (length l) < CAPACITY ->
  exists s', putch 0 WRITE_Q c s = Ret tt s' /\ waiting T (l ++ [u8 c]) s' /\ con s' = con s /\ umem s' = umem s.
Proof.
  intros (x & Hx & HT & W & Hl) Hroom. unfold putch. rewrite (setq_run 0 WRITE_Q (PUTCH c) s x Hx). eexists. split; [done|]. split; [|done].
  eexists. split; [exact (with_q_lookup 0 WRITE_Q _ s x Hx)|]. split; [done|]. cbn. split; [by apply wf_PUTCH|].
  rewrite contents_PUTCH; [by rewrite Hl|done|]. rewrite <- Hl, q_contents_length in Hroom. pose proof (CHARS_range (tty_write_q x)). lia.
Qed.
Lemma flag_same s : cr_flag (con s) = 0 -> (con s) <| cr_flag := 0 |> = con s.
Proof. destruct (con s). cbn. by intros ->. Qed.

Section Fill.
Context (fetch : Z -> K Z) (T : termios) (m : gmap Z Z) (c0 : con_st).
Hypothesis Hcase : on (c_oflag T) OLCUC = false.
Hypothesis Hflag : cr_flag c0 = 0.
(** the buffer holds [bs] at [b], however far the output has got *)
Definition reads (b : Z) (bs : list Z) : Prop :=
  forall s k c, umem s = m -> bs !! k = Some c -> fetch (b + Z.of_nat k) s = Ret c s.
Definition filling (l : list Z) (c : con_st) (s : kst) : Prop := waiting T l s /\ con s = c /\ umem s = m.

Lemma put_filling l c s v d : filling l c s -> Z.of_nat (length l) < CAPACITY ->
  exists s', (on_con (fun s => s <| cr_flag := d |>) ;; putch 0 WRITE_Q v) s = Ret tt s' /\ filling (l ++ [u8 v]) (c <| cr_flag := d |>) s'.
Proof.
  intros (H & Hc & Hu) Hl. assert (waiting T l (s <| con ::= fun c => c <| cr_flag := d |> |>)) as H0 by exact H.
  destruct (putch_waiting T l _ v H0 Hl) as (s' & E1 & H1 & Hc1 & Hu1). exists s'. split; [exact E1|].
  split; [done|]. split; [rewrite Hc1; cbn; by rewrite Hc|by rewrite Hu1].
Qed.
Lemma fill_room l c s x : filling l c s -> tty_table s !! 0%nat = Some x -> Z.of_nat (length l) < CAPACITY -> FULL (tty_write_q x) = false.
Proof. intros ((y & Hy & _ & _ & Hl) & _) Hx Hlen. assert (y = x) as -> by congruence. rewrite FULL_contents, Hl. apply bool_decide_eq_false. lia. Qed.

(** the step that writes a byte, without a carriage return before it *)
Lemma fill_last c0' l s nr b c v : filling l c0' s -> 0 < nr -> fetch b s = Ret c s -> Z.of_nat (length l) < CAPACITY ->
  c0' <| cr_flag := 0 |> = c0 ->
  let c' := s8 c in
  let c' := if on (c_oflag T) OPOST then (if (c' =? 13) && on (c_oflag T) OCRNL then 10 else if (c' =? 10) && on (c_oflag T) ONLRET then 13 else c') else c' in
  on (c_oflag T) OPOST && (c' =? 10) && (cr_flag c0' =? 0) && on (c_oflag T) ONLCR = false -> v = u8 c' ->
  exists s', fill_step fetch 0 (nr, b) s = Ret (inl (nr - 1, b + 1)) s' /\ filling (l ++ [v]) c0 s'.
Proof.
  intros H Hnr Hf Hl Hc0 c' c'' Hno ->. pose proof H as ((x & Hx & HT & _) & Hc & Hu). unfold fill_step.
  assert (gettty 0 s = Ret x s) as E0 by (unfold gettty; mrun; by rewrite Hx). rewrite (bind_Ret _ _ _ _ _ E0).
  rewrite (fill_room l c0' s x H Hx Hl), orb_false_r. destruct (Z.leb_spec nr 0); [lia|]. rewrite (bind_Ret _ _ _ _ _ Hf). cbv zeta.
  assert (gets con s = Ret (con s) s) as E1 by done. rewrite (bind_Ret _ _ _ _ _ E1). rewrite Hc.
  assert (forall f, oflag x f = on (c_oflag T) f) as Ho by (intros f; unfold oflag; by rewrite HT). unfold translate_output. rewrite !Ho.
  fold c'. fold c''. rewrite Hno, Hcase, andb_false_r. destruct (put_filling l c0' s c'' 0 H Hl) as (s' & E2 & H2). rewrite Hc0 in H2.
  exists s'. split; [|exact H2]. rewrite (bind_Ret _ _ s c'' s) by done.
  unfold mbind, M_bind in E2 |- *. cbn in E2 |- *. by rewrite E2.
Qed.
Lemma fill_one l s nr b c n : filling l c0 s -> 0 < nr -> (forall s, umem s = m -> fetch b s = Ret c s) ->
  Z.of_nat (length l) + Z.of_nat (length (processed T c)) <= CAPACITY ->
  exists s', loop (length (processed T c) + n) (fill_step fetch 0) (nr, b) s = loop n (fill_step fetch 0) (nr - 1, b + 1) s' /\
    filling (l ++ processed T c) c0 s'.
Proof.
  intros H Hnr Hf Hl. assert (c0 <| cr_flag := 0 |> = c0) as H0 by (revert Hflag; clear; destruct c0; cbn; by intros ->).
  unfold processed in *. set (c' := if (s8 c =? 13) && on (c_oflag T) OCRNL then 10 else if (s8 c =? 10) && on (c_oflag T) ONLRET then 13 else s8 c) in *.
  cbv zeta in *. destruct (on (c_oflag T) OPOST) eqn:HO.
  - fold c' in Hl |- *. destruct ((c' =? 10) && on (c_oflag T) ONLCR) eqn:HN; cbn [length] in Hl |- *.
    + pose proof H as ((x & Hx & HT & _) & Hc & Hu). apply andb_true_iff in HN as [Hc10%Z.eqb_eq HN].
      destruct (put_filling l c0 s 13 1 H ltac:(lia)) as (s1 & E1 & H1).
      destruct (fill_last (c0 <| cr_flag := 1 |>) (l ++ [13]) s1 nr b c 10 H1 Hnr (Hf s1 (proj2 (proj2 H1)))) as (s2 & E2 & H2).
      { rewrite length_app. cbn. lia. }
      { revert H0. clear. by destruct c0. }
      { rewrite HO. fold c'. by rewrite andb_false_r. }
      { rewrite HO. fold c'. by rewrite Hc10. }
      exists s2. split; [|by rewrite <- app_assoc in H2]. cbn [Nat.add]. erewrite loop_again; [by erewrite loop_again; [|exact E2]|].
      unfold fill_step. assert (gettty 0 s = Ret x s) as E0 by (unfold gettty; mrun; by rewrite Hx). rewrite (bind_Ret _ _ _ _ _ E0).
      rewrite (fill_room l c0 s x H Hx ltac:(lia)), orb_false_r. destruct (Z.leb_spec nr 0); [lia|]. rewrite (bind_Ret _ _ _ _ _ (Hf s Hu)). cbv zeta.
      assert (gets con s = Ret (con s) s) as E3 by done. rewrite (bind_Ret _ _ _ _ _ E3). rewrite Hc.
      assert (forall f, oflag x f = on (c_oflag T) f) as Ho by (intros f; unfold oflag; by rewrite HT). unfold translate_output. rewrite !Ho, HO, HN.
      fold c'. rewrite Hc10, Hflag. cbn [Z.eqb andb Pos.eqb]. unfold mbind, M_bind in E1 |- *. cbn in E1 |- *. by rewrite E1.
    + destruct (fill_last c0 l s nr b c (u8 c') H Hnr (Hf s (proj2 (proj2 H))) ltac:(lia) H0) as (s2 & E2 & H2).
      { rewrite HO. fold c'. rewrite Hflag. cbn [andb]. by rewrite andb_true_r. }
      { rewrite HO. by fold c'. }
      exists s2. split; [|done]. cbn [Nat.add]. by erewrite loop_again; [|exact E2].
  - cbn [length] in Hl |- *.
    destruct (fill_last c0 l s nr b c (u8 (s8 c)) H Hnr (Hf s (proj2 (proj2 H))) ltac:(lia) H0) as (s2 & E2 & H2); [by rewrite HO..|].
    exists s2. split; [|done]. cbn [Nat.add]. by erewrite loop_again; [|exact E2].
Qed.

Lemma fill_all bs : forall l s b n, filling l c0 s -> reads b bs -> Z.of_nat (length l) + Z.of_nat (length (output T bs)) <= CAPACITY ->
  (length (output T bs) < n)%nat ->
  exists s', loop n (fill_step fetch 0) (Z.of_nat (length bs), b) s = Ret (0, b + Z.of_nat (length bs)) s' /\ filling (l ++ output T bs) c0 s'.
Proof.
  induction bs as [|c bs IH]; intros l s b n H Hr Hl Hn.
  - destruct n as [|n]; [lia|]. exists s. split; [|by rewrite app_nil_r]. apply loop_done. unfold fill_step. pose proof H as ((x & Hx & _) & _).
    assert (gettty 0 s = Ret x s) as E0 by (unfold gettty; mrun; by rewrite Hx). rewrite (bind_Ret _ _ _ _ _ E0). cbn. by rewrite Z.add_0_r.
  - unfold output in *. cbn [fmap list_fmap concat] in *. rewrite length_app in Hl, Hn.
    destruct (fill_one l s (Z.of_nat (length (c :: bs))) b c (n - length (processed T c)) H) as (s1 & E1 & H1); [cbn; lia| |lia|].
    { intros s' Hs'. rewrite <- (Z.add_0_r b). by apply (Hr s' 0%nat). }
    replace (length (processed T c) + (n - length (processed T c)))%nat with n in E1 by lia.
    destruct (IH (l ++ processed T c) s1 (b + 1) (n - length (processed T c))%nat H1) as (s2 & E2 & H2).
    { intros s' k v Hs' Hk. replace (b + 1 + Z.of_nat k) with (b + Z.of_nat (S k)) by lia. by apply (Hr s'). }
    { rewrite length_app. lia. }
    { lia. }
    exists s2. rewrite E1. replace (Z.of_nat (length (c :: bs)) - 1) with (Z.of_nat (length bs)) by (cbn; lia). rewrite E2.
    split; [do 2 f_equal; cbn; lia|by rewrite app_assoc].
Qed.
End Fill.

(** *** [tty_write] *)

(** the signals of the task that writes *)
Definition current_signal (s : kst) : option Z := t_signal <$> tmem (sched s) !! current (sched s).
(** text that goes to the queue at once: no escape sequence, at most 1023 characters *)
Definition plain_text (T : termios) (bs : list Z) : Prop :=
  Forall (fun c => s8 c <> 27) bs /\ Z.of_nat (length (output T bs)) <= CAPACITY.

Lemma s8_u8_s8 c : s8 (u8 (s8 c)) = s8 c.
Proof. unfold s8, u8. Z.div_mod_to_equations; lia. Qed.
Lemma processed_plain T c : s8 c <> 27 -> Forall (fun c => s8 c <> 27) (processed T c).
Proof.
  intros Hc. assert (s8 (u8 (s8 c)) <> 27) as H by by rewrite s8_u8_s8. unfold processed. cbv zeta.
  repeat case_match; repeat constructor; done.
Qed.
Lemma output_plain T bs : Forall (fun c => s8 c <> 27) bs -> Forall (fun c => s8 c <> 27) (output T bs).
Proof. intros H. apply Forall_concat, Forall_fmap. eapply Forall_impl; [exact H|]. intros c. apply processed_plain. Qed.

Lemma tty_write_shows L T r s fetch buf bs : (2 <= env_fuel)%nat -> shows L T [] r s -> current_signal s = Some 0 -> on (c_oflag T) OLCUC = false ->
  reads fetch (umem s) buf bs -> plain_text T bs ->
  exists s', tty_write_from fetch 0 buf (Z.of_nat (length bs)) s = Ret (Z.of_nat (length bs)) s' /\ shows L T [] (typed_text L r (output T bs)) s'.
Proof.
  intros Hfuel H (k & Hk & Hsig)%fmap_Some Hcase Hr [Hesc Hlen]. unfold tty_write_from. destruct (Z.ltb_spec 2 0) as [?|_], (Z.ltb_spec (Z.of_nat (length bs)) 0) as [?|_]; [lia..|]. cbn [orb].
  destruct env_fuel as [|[|n]] eqn:Hn; [lia|lia|]. destruct bs as [|c bs].
  { exists s. split; [|done]. erewrite bind_Ret; [|apply loop_done; reflexivity]. by rewrite Z.sub_diag. }
  pose proof H as [Hd He Hq]. pose proof Hq as (x & Hx & HT & W & Hl).
  destruct (fill_all fetch T (umem s) (con s) Hcase (di_flag _ _ _ Hd) (c :: bs) [] s buf 1025) as (s1 & E1 & (Hq1 & Hc1 & Hu1)); [by split|done|done|unfold CAPACITY, TTY_BUF_SIZE in Hlen; lia|].
  assert (shows L T (output T (c :: bs)) r s1) as H1 by (split; [by rewrite Hc1|done|done]).
  destruct (con_write_shows L T _ r s1 (copy_to_cooked_with (tty_write_fn (S n))) H1 (output_plain T _ Hesc)) as (s2 & E2 & H2 & _).
  exists s2. split; [|exact H2]. rewrite (bind_Ret _ _ s (buf + Z.of_nat (length (c :: bs))) s2); [unfold mret, M_ret; f_equal; lia|].
  rewrite (loop_again _ _ _ (0, buf + Z.of_nat (length (c :: bs))) s s2); [by apply loop_done|].
  destruct (Z.leb_spec (Z.of_nat (length (c :: bs))) 0); [cbn in *; lia|].
  assert (sleep_if_full 0 WRITE_Q s = Ret tt s) as E3.
  { unfold sleep_if_full. rewrite (bind_Ret _ _ _ _ _ (getq_run 0 WRITE_Q s x Hx)). change (tty_q WRITE_Q x) with (tty_write_q x).
    by rewrite FULL_contents, Hl. }
  change (Z.to_nat 0) with 0%nat. rewrite (bind_Ret _ _ _ _ _ E3).
  assert (me s = Ret k s) as E4 by (unfold me, gettask; mrun; by rewrite Hk). rewrite (bind_Ret _ _ _ _ _ E4). rewrite <- Hsig. cbn [nz Z.eqb negb].
  unfold fill_queue. rewrite (bind_Ret _ _ _ _ _ E1). unfold write_fn. rewrite Hn. cbn [tty_write_fn]. by rewrite (bind_Ret _ _ _ _ _ E2).
Qed.
(** a signal ends it before anything is written *)
Lemma tty_write_silent L T r s fetch buf nr g : (1 <= env_fuel)%nat -> shows L T [] r s -> current_signal s = Some g -> g <> 0 -> 0 <= nr ->
  tty_write_from fetch 0 buf nr s = Ret 0 s.
Proof.
  intros Hfuel H (k & Hk & Hsig)%fmap_Some Hg Hnr. unfold tty_write_from.
  destruct (Z.ltb_spec 2 0) as [?|_], (Z.ltb_spec nr 0) as [?|_]; [lia..|]. cbn [orb]. destruct env_fuel as [|n]; [lia|].
  rewrite (bind_Ret _ _ s buf s); [unfold mret, M_ret; f_equal; lia|]. apply loop_done. destruct (nr <=? 0); [done|].
  pose proof H as [_ _ (x & Hx & _ & _ & Hl)].
  assert (sleep_if_full 0 WRITE_Q s = Ret tt s) as E3.
  { unfold sleep_if_full. rewrite (bind_Ret _ _ _ _ _ (getq_run 0 WRITE_Q s x Hx)). change (tty_q WRITE_Q x) with (tty_write_q x).
    by rewrite FULL_contents, Hl. }
  change (Z.to_nat 0) with 0%nat. rewrite (bind_Ret _ _ _ _ _ E3).
  assert (me s = Ret k s) as E4 by (unfold me, gettask; mrun; by rewrite Hk). rewrite (bind_Ret _ _ _ _ _ E4). rewrite <- Hsig.
  by rewrite (proj2 (nz_true g)).
Qed.
(** the text of [printk] is what [tty_write] gets *)
Lemma printk_text ps args out s : Forall wf_piece ps -> print (kernel_byte (mm s)) env_fuel ps args = Some out ->
  (length out < printk_buf_size)%nat ->
  printk_run (render ps) args s = (_ ← tty_write_from (buf_byte (out ++ [0])) 0 0 (Z.of_nat (length out)); mret (Z.of_nat (length out))) s.
Proof.
  intros Hwf Hp Hlen. unfold printk_run. assert (gets id s = Ret s s) as E0 by done. rewrite (bind_Ret _ _ _ _ _ E0).
  unfold vsprintf. rewrite (format_pieces (kernel_byte (mm s)) env_fuel ps _ _ _ out Hwf (le_n _) Hp). cbn [mbind option_bind].
  rewrite (proj2 (Nat.ltb_ge _ _)) by (rewrite length_app; cbn; unfold printk_buf_size in *; lia). cbn [for_each].
  by rewrite (bind_Ret _ _ s tt s) by done.
Qed.
End Write.

(** C14: What is written to the terminal of the console is on the screen.  Let the
    display show the cursor and the cells [r], and nothing wait to be written.
    [tty_write] with the bytes [bs] of the task's memory returns their number and
    types them on the screen, after output processing, one after the other: every
    printing character stands where the cursor was, in the colours set, lines wrap and
    the region scrolls whether the console moves the origin of the display or the
    lines themselves, and all other cells are as they were.  [printk] does so with
    the text that its format spells and returns its length.  The text holds no escape
    and fits the queue at once, and no upper case is mapped.  A signal of the
    current task silences [printk]: it returns the same and writes nothing. *)
Theorem terminal_output_shown {E : Env} (L : look) (T : termios) (r : screen) (s : kst) (g : Z)
  (Hfuel : (2 <= env_fuel)%nat) (H : shows L T [] r s) (Hsig : current_signal s = Some g) (Hcase : on (c_oflag T) OLCUC = false) :
  (g = 0 -> forall buf bs, (forall k c, bs !! k = Some c -> umem s !! u32 (buf + Z.of_nat k) = Some c) -> plain_text T bs ->
     exists s', tty_write 0 buf (Z.of_nat (length bs)) s = Ret (Z.of_nat (length bs)) s' /\
       shows L T [] (typed_text L r (output T bs)) s') /\
  (forall ps args out, Forall wf_piece ps -> print (kernel_byte (mm s)) env_fuel ps args = Some out ->
     (length out < printk_buf_size)%nat -> plain_text T out ->
     exists s', printk_run (render ps) args s = Ret (Z.of_nat (length out)) s' /\
       if decide (g = 0) then shows L T [] (typed_text L r (output T out)) s' else s' = s).
Proof.
  split.
  - intros -> buf bs Hmem Hplain. apply (tty_write_shows L T r s); [done|done|done|done| |done].
    intros s' k c Hs Hk. unfold get_fs_byte. mrun. by rewrite Hs, (Hmem k c Hk).
  - intros ps args out Hwf Hp Hlen Hplain. rewrite (printk_text _ _ _ _ Hwf Hp Hlen). destruct (decide (g = 0)) as [->|Hg].
    + destruct (tty_write_shows L T r s (buf_byte (out ++ [0])) 0 out Hfuel H Hsig Hcase) as (s' & E1 & H1); [|done|].
      { intros s' k c _ Hk. unfold buf_byte. rewrite Z.add_0_l, Nat2Z.id. by rewrite lookup_app_l, Hk by (by eapply lookup_lt_Some). }
      exists s'. by rewrite (bind_Ret _ _ _ _ _ E1).
    + exists s. split; [|done]. rewrite (bind_Ret _ _ _ _ _ (tty_write_silent L T r s _ 0 _ g ltac:(lia) H Hsig Hg (Nat2Z.is_nonneg _))). done.
Qed.

(** a colour display of 80 by 25 with the cursor in its corner, and "hd%d: ok", newline *)
Definition vga_look : look := mk_look 80 25 0 25 0 7 127.
Definition console_termios : termios := mk_termios 0x100 0x5 0 0xA0B 0 INIT_C_CC.
Definition console_kst : kst := boot_kst <| con := vga |> <| tty_table := boot_tty |>.
Definition empty_screen : screen := mk_screen 0 0 (fun _ _ => 0).
Definition hd_pieces : list piece := [Text (chars "hd"); Dir [] None None Conv_d; Text (chars ": ok" ++ [10])].
Lemma vga_blank a : cell vga a = 0.
Proof. unfold cell. change (vram vga) with (∅ : gmap Z Z). by rewrite lookup_empty. Qed.
Lemma vga_displays : displays vga_look vga empty_screen.
Proof.
  assert (wf_con vga) as W by (split; cbn; unfold screen_size; cbn; try lia; repeat constructor; lia).
  split; [exact W|reflexivity..| | | |]; [intros a; rewrite vga_blank; lia|reflexivity..|].
  intros row col _ _. by rewrite vga_blank.
Qed.
Lemma console_kst_shows : shows vga_look console_termios [] empty_screen console_kst.
Proof.
  split; [exact vga_displays|reflexivity|]. eexists. split; [reflexivity|]. split; [reflexivity|]. split; [by split|vm_compute; reflexivity].
Qed.
Lemma hd_pieces_wf : Forall wf_piece hd_pieces.
Proof.
  assert (forall l, forallb (fun c => negb (c =? ch "%")) l = true -> ch "%" ∉ l) as Htext.
  { intros l Hl Hin. rewrite forallb_forall in Hl. apply list_elem_of_In in Hin. by specialize (Hl _ Hin). }
  repeat constructor; cbn [wf_piece]; try (apply Htext; vm_compute; reflexivity); done.
Qed.
Lemma hd_text_plain : plain_text console_termios (chars "hd1: ok" ++ [10]).
Proof. split; [repeat constructor; vm_compute; done|vm_compute; done]. Qed.
Lemma terminal_output_shown_witness :
  (exists s', @printk_run (quiet_env 2) (chars "hd%d: ok" ++ [10]) [1] console_kst = Ret 8 s' /\
     shows vga_look console_termios [] (typed_text vga_look empty_screen (chars "hd1: ok" ++ [13; 10])) s') /\
  (let r := typed_text vga_look empty_screen (chars "hd1: ok" ++ [13; 10]) in
   (sx r, sy r, (fun col => grid r 0 col) <$> [0; 1; 2; 3; 4; 5; 6; 7]) =
   (0, 1, [0x768; 0x764; 0x731; 0x73A; 0x720; 0x76F; 0x76B; 0])).
Proof.
  split; [|vm_compute; reflexivity].
  assert (current_signal console_kst = Some 0) as Hsig by (vm_compute; reflexivity).
  assert (on (c_oflag console_termios) OLCUC = false) as Hcase by (vm_compute; reflexivity).
  destruct (proj2 (@terminal_output_shown (quiet_env 2) vga_look console_termios empty_screen console_kst 0 (le_n 2) console_kst_shows Hsig Hcase)
    hd_pieces [1] (chars "hd1: ok" ++ [10])) as (s' & E1 & H1).
  - exact hd_pieces_wf.
  - vm_compute. reflexivity.
  - apply Nat.ltb_lt. vm_compute. reflexivity.
  - exact hd_text_plain.
  - assert (render hd_pieces = chars "hd%d: ok" ++ [10]) as Er by (vm_compute; reflexivity). rewrite Er in E1.
    assert (Z.of_nat (length (chars "hd1: ok" ++ [10])) = 8) as El by (vm_compute; reflexivity). rewrite El in E1.
    assert (output console_termios (chars "hd1: ok" ++ [10]) = chars "hd1: ok" ++ [13; 10]) as Eo by (vm_compute; reflexivity).
    rewrite decide_True, Eo in H1 by done. exists s'. exact (conj E1 H1).
Defined.
