(* ===== verification/Zero.v ===== *)
(** * linux-0.00-050613/linux-0.00-rh9: the small kernel (kernel.cc, kernel.h, io.cc, string.cc)

    A kernel of its own beside the big one: paging, the descriptor tables, the
    first task and a screen.  [Class::method] of the source is [Class_method]
    here.  Memory is bytes at 32-bit addresses, as in [StringH.v]; a structure
    is its bytes, at the offsets of the packed structures of kernel.h. *)

From S2P Require Import Prelude StringH.

(** ** kernel.h: constants, layouts, the objects of the classes *)

Definition LOW_MEM : Z := 0x100000.
Definition MAX_MEM : Z := 0x1000000.
Definition PAGING_PAGES : Z := (MAX_MEM - LOW_MEM) / 0x1000.
Definition BUF_PAGES : Z := 896.
Definition RAMSCREEN : Z := 0xB8000.
Definition SIZESCREEN : Z := 0xFA0.
Definition SCREENLIM : Z := 0xB8FA0.

Definition sizeof_DT : Z := 8.
Definition sizeof_TSS : Z := 104.
Record DTR : Type := mk_DTR { limit : Z; base : Z }.

(** offsets in [struct Task]: [ldt[3]], then the fields of [tss] *)
Definition off_ldt : Z := 0.
Definition off_tss : Z := 24.
Definition tss_fields : list string :=
  ["back_link"; "esp0"; "ss0"; "esp1"; "ss1"; "esp2"; "ss2"; "cr3"; "eip"; "eflags";
   "eax"; "ecx"; "edx"; "ebx"; "esp"; "ebp"; "esi"; "edi";
   "es"; "cs"; "ss"; "ds"; "fs"; "gs"; "ldt"; "trace_bitmap"].
Definition off_field (f : string) : Z :=
  match list_find (fun g => g = f) tss_fields with Some (i, _) => off_tss + 4 * Z.of_nat i | None => 0 end.
Arguments off_field _%_string.

(** the registers that the assembly statements set; [data_seg] stands for ds, es, fs and gs *)
Record cpu_st : Type := mk_cpu {
  cr0 : Z; cr3 : Z; tr : Z; ldtr : Z; cs : Z; ss : Z; data_seg : Z; eflags : Z;
  reg_gdtr : DTR; reg_idtr : DTR }.
#[export] Instance eta_cpu : Eta cpu_st := fun r =>
  mk_cpu (cr0 r) (cr3 r) (tr r) (ldtr r) (cs r) (ss r) (data_seg r) (eflags r) (reg_gdtr r) (reg_idtr r).

(** [io], [memory], [idt], [gdt], [sched], the memory of the machine, the processor and the bytes sent to ports *)
Record zero_st : Type := mk_zero {
  ram : memory; mm_map : list Z;
  gdt_count : Z; gdt_gdtr : DTR; gdt_base : Z; idt_idtr : DTR;
  task : list Z; current : Z; amount : Z;
  scr_loc : Z; screen : Z;
  cpu : cpu_st; ports : list (Z * Z) }.
#[export] Instance eta_zero : Eta zero_st := fun r =>
  mk_zero (ram r) (mm_map r) (gdt_count r) (gdt_gdtr r) (gdt_base r) (idt_idtr r)
    (task r) (current r) (amount r) (scr_loc r) (screen r) (cpu r) (ports r).

(** where the linker put the functions that the tables and [fork] use *)
Record links : Type := mk_links { ignore_int : Z; timer_entry : Z; system_entry : Z }.

(** ** Words of memory *)
Definition st16 (a v : Z) (m : memory) : memory := st (a + 1) (Z.shiftr v 8) (st a v m).
Definition st32 (a v : Z) (m : memory) : memory := st16 (a + 2) (Z.shiftr v 16) (st16 a v m).
Definition ld16 (m : memory) (a : Z) : Z := ld m a + 2 ^ 8 * ld m (a + 1).
Definition ld32 (m : memory) (a : Z) : Z := ld16 m a + 2 ^ 16 * ld16 m (a + 2).

Abbreviation ZK := (M zero_st).
Definition store16 (a v : Z) : ZK unit := modify (fun s => s <| ram ::= st16 a v |>).
Definition store32 (a v : Z) : ZK unit := modify (fun s => s <| ram ::= st32 a v |>).
Definition on_cpu (f : cpu_st -> cpu_st) : ZK unit := modify (fun s => s <| cpu ::= f |>).

(** ** [Io] *)
Definition Io_putc (c color : Z) : ZK unit :=
  modify (fun s => s <| screen := RAMSCREEN |>) ;;
  modify (fun s => s <| ram ::= st (screen s + 2 * scr_loc s) c |>) ;;
  modify (fun s => s <| ram ::= st (screen s + 2 * scr_loc s + 1) color |>) ;;
  modify (fun s => s <| scr_loc ::= fun l => u16 (l + 1) |>) ;;
  modify (fun s => if scr_loc s >? 2000 then s <| scr_loc := 0 |> else s).

(** ** [Memory] *)
(** [if (mm_map[i]==0) { mm_map[i] = 1; return LOW_MEM + i * 4096; }] *)
Definition take_if_free (i : Z) : ZK (option Z) :=
  s ← gets id;
  v ← deref (mm_map s !! Z.to_nat i);
  if v =? 0 then
    modify (fun s => s <| mm_map ::= <[Z.to_nat i := 1]> |>) ;; mret (Some (LOW_MEM + i * 4096))
  else mret None.
Definition Memory_get_free_page : ZK Z :=
  r ← for_find (seqZ BUF_PAGES (PAGING_PAGES - BUF_PAGES)) take_if_free;
  mret (default 0 r).

Definition Memory_setup_paging (pg_dir pg_num : Z) : ZK unit :=
  for_each (seqZ 0 (1024 * (1 + pg_num))) (fun i => store32 (pg_dir + 4 * i) 0) ;;
  for_each (seqZ 0 pg_num) (fun i => store32 (pg_dir + 4 * i) ((i + 1) * 0x1000 + 0x7)) ;;
  for_each (seqZ 0 (pg_num * 1024)) (fun i => store32 (pg_dir + 4 * (1024 + i)) (0x0 + i * 0x1000 + 0x7)) ;;
  on_cpu (fun c => c <| cr3 := pg_dir |> <| cr0 ::= Z.lor 0x80000000 |>).

Definition Memory_init : ZK unit :=
  for_each (seqZ 0 BUF_PAGES) (fun i => modify (fun s => s <| mm_map ::= <[Z.to_nat i := 1]> |>)) ;;
  for_each (seqZ BUF_PAGES (PAGING_PAGES - BUF_PAGES)) (fun i => modify (fun s => s <| mm_map ::= <[Z.to_nat i := 0]> |>)) ;;
  Memory_setup_paging 0 4.

(** ** [GDT] *)
Definition store_DT (a w0 w1 w2 w3 : Z) : ZK unit :=
  store16 a w0 ;; store16 (a + 2) w1 ;; store16 (a + 4) w2 ;; store16 (a + 6) w3.
(** the arguments are [u16], the index is an [u8] *)
Definition GDT_addDescription (w0 w1 w2 w3 : Z) : ZK unit :=
  s ← gets id;
  modify (fun s => s <| gdt_count ::= fun n => u8 (n + 1) |>) ;;
  store_DT (gdt_base s + sizeof_DT * gdt_count s) w0 w1 w2 w3.
Definition GDT_init : ZK unit :=
  p ← Memory_get_free_page;
  modify (fun s => s <| gdt_base := p |>) ;;
  GDT_addDescription 0x0000 0x0000 0x0000 0x0000 ;;
  GDT_addDescription 0x0fff 0x0000 0x9a00 0x00c0 ;;
  GDT_addDescription 0x0fff 0x0000 0x9200 0x00c0 ;;
  modify (fun s => s <| gdt_gdtr := mk_DTR (256 * sizeof_DT) (gdt_base s) |>) ;;
  modify (fun s => s <| cpu ::= fun c => c <| reg_gdtr := gdt_gdtr s |> |>) ;;
  on_cpu (fun c => c <| data_seg := 0x10 |> <| cs := 0x08 |>).

(** ** [IDT] *)
Definition IDT_init (l : links) : ZK unit :=
  p ← Memory_get_free_page;
  modify (fun s => s <| idt_idtr := mk_DTR (256 * sizeof_DT) p |>) ;;
  for_each (seqZ 0 256) (fun i =>
    store16 (p + sizeof_DT * i) (Z.land (u32 (ignore_int l)) 0x0000FFFF) ;;
    store16 (p + sizeof_DT * i + 2) 0x0008 ;;
    store16 (p + sizeof_DT * i + 4) 0x8E00 ;;
    store16 (p + sizeof_DT * i + 6) 0x0) ;;
  store16 (p + sizeof_DT * 0x8) (u32 (timer_entry l)) ;;
  store16 (p + sizeof_DT * 0x80) (u32 (system_entry l)) ;;
  store16 (p + sizeof_DT * 0x80 + 4) 0xEF00 ;;
  modify (fun s => s <| cpu ::= fun c => c <| reg_idtr := idt_idtr s |> |>).
(** the interrupt routines; [iret] gives the processor back *)
Definition IDT_ignore_int : ZK unit := mret tt.
Definition IDT_timer_interrupt : ZK unit :=
  modify (fun s => s <| ports ::= cons (0x20, 0x20) |>) ;; Io_putc 99 0x4.
Definition IDT_system_interrupt : ZK unit := mret tt.

(** ** [Scheduler] *)
Definition set_tss (p : Z) (f : string) (v : Z) : ZK unit := store32 (p + off_field f) v.
Arguments set_tss p f%_string v.

(** the stores to [tss] that [init] makes, in order; [ebp] is not set *)
Definition task0_fields (p : Z) : list (string * Z) :=
  [("back_link", 0); ("esp0", p + 4096); ("ss0", 0x10); ("esp1", 0); ("ss1", 0); ("esp2", 0); ("ss2", 0);
   ("cr3", 0x0); ("eip", 0); ("eflags", 0); ("eax", 0); ("ecx", 0); ("edx", 0); ("ebx", 0); ("esp", 0);
   ("esi", 0); ("edi", 0); ("es", 0); ("cs", 0); ("ss", 0); ("ds", 0); ("fs", 0); ("gs", 0);
   ("ldt", 32); ("trace_bitmap", 0x8000000)]%string.

(** [pushfl; andl $0xffffbfff; popfl; ltr; lldt; sti] and the [iret] to user mode at the label 1 *)
Definition move_to_user_mode : ZK unit :=
  on_cpu (fun c => c <| eflags ::= Z.land 0xffffbfff |>) ;;
  on_cpu (fun c => c <| tr := 24 |> <| ldtr := 32 |>) ;;
  on_cpu (fun c => c <| eflags ::= Z.lor 0x200 |>) ;;
  on_cpu (fun c => c <| ss := 0x17 |> <| cs := 0x0f |>) ;;
  on_cpu (fun c => c <| data_seg := 0x17 |>).

Definition Scheduler_init : ZK unit :=
  p ← Memory_get_free_page;
  modify (fun s => s <| task ::= <[0%nat := p]> |>) ;;
  store_DT (p + off_ldt) 0x0000 0x0000 0x0000 0x0000 ;;
  store_DT (p + off_ldt + sizeof_DT) 0x0fff 0x0000 0xfa00 0x00c0 ;;
  store_DT (p + off_ldt + 2 * sizeof_DT) 0x0fff 0x0000 0xf200 0x00c0 ;;
  for_each (task0_fields p) (fun '(f, v) => set_tss p f v) ;;
  modify (fun s => s <| amount ::= fun n => u8 (n + 1) |>) ;;
  let tss := u32 (p + off_tss) in let ldt := u32 (p + off_ldt) in
  GDT_addDescription sizeof_TSS (Z.land tss 0xffff) (0xe900 + Z.land (Z.shiftr tss 16) 0xff) (Z.shiftr tss 24) ;;
  GDT_addDescription (3 * sizeof_DT) (Z.land ldt 0xffff) (0xe200 + Z.land (Z.shiftr ldt 16) 0xff) (Z.shiftr ldt 24) ;;
  move_to_user_mode.

(** the arguments of [copy_process], in order *)
Record pushed : Type := mk_pushed {
  p_gs : Z; p_fs : Z; p_ds : Z; p_es : Z; p_edi : Z; p_esi : Z; p_ebx : Z; p_edx : Z;
  p_ecx : Z; p_eax : Z; p_ebp : Z; p_eip : Z; p_cs : Z; p_eflags : Z; p_esp : Z; p_ss : Z }.
Definition child_fields (p : Z) (r : pushed) : list (string * Z) :=
  [("back_link", 0); ("esp0", p + 4096); ("ss0", 0x10);
   ("eip", p_eip r); ("eflags", p_eflags r); ("eax", 0); ("ecx", p_ecx r); ("edx", p_edx r); ("ebx", p_ebx r);
   ("esp", p_esp r); ("ebp", p_ebp r); ("esi", p_esi r); ("edi", p_edi r);
   ("es", Z.land (p_es r) 0xffff); ("cs", Z.land (p_cs r) 0xffff); ("ss", Z.land (p_ss r) 0xffff);
   ("ds", Z.land (p_ds r) 0xffff); ("fs", Z.land (p_fs r) 0xffff); ("gs", Z.land (p_gs r) 0xffff)]%string.
Definition Scheduler_copy_process (r : pushed) : ZK Z :=
  p ← Memory_get_free_page;
  for_each (child_fields p r) (fun '(f, v) => set_tss p f v) ;;
  mret p.

(** [asm_call]: the assembly statement of [fork].  It calls through the word at the
    address of [copy_process], which is code: where that leads is not in the source *)
Definition Scheduler_fork (asm_call : ZK unit) : ZK Z :=
  s ← gets id;
  match list_find (fun p => p = 0) (take 256 (task s)) with
  | None => mret (u8 (-1))
  | Some _ => asm_call ;; mret 1
  end.

(** ** [kmain]: the loop goes round for ever, here [rounds] times *)
Definition kmain_init (l : links) : ZK unit :=
  Memory_init ;; IDT_init l ;; GDT_init ;; Scheduler_init.
Definition kmain (l : links) (rounds : nat) : ZK unit :=
  kmain_init l ;; for_each (seq 0 rounds) (fun _ => Io_putc 65 0x7).

(** the objects before [kmain], with any memory and registers *)
Definition zero_start (m : memory) (c : cpu_st) : zero_st :=
  mk_zero m (replicate (Z.to_nat PAGING_PAGES) 0) 0 (mk_DTR 0 0) 0 (mk_DTR 0 0)
    (replicate 256 0) 0 0 0 RAMSCREEN c [].

(** ** [String]

    [fuel] bounds the rounds ([None]: it ran out).  [while (n--)] counts a 32-bit
    integer down to 0, so a negative [n] is a count of more than 2 GB. *)
Fixpoint String_memcpy (fuel : nat) (dst src n : Z) (m : memory) : option memory :=
  if u32 n =? 0 then Some m else
  match fuel with
  | O => None
  | S fuel => String_memcpy fuel (dst + 1) (src + 1) (n - 1) (st dst (ld m src) m)
  end.
Fixpoint String_memset (fuel : nat) (dst src n : Z) (m : memory) : option memory :=
  if u32 n =? 0 then Some m else
  match fuel with
  | O => None
  | S fuel => String_memset fuel (dst + 1) src (n - 1) (st dst src m)
  end.
Fixpoint strlen_from (fuel : nat) (i s : Z) (m : memory) : option Z :=
  match fuel with
  | O => None
  | S fuel => if ld m s =? 0 then Some i else strlen_from fuel (s32 (i + 1)) (s + 1) m
  end.
Definition String_strlen (fuel : nat) (s : Z) (m : memory) : option Z := strlen_from fuel 0 s m.

(** [for (count = 0; count < maxLength; count++)]: [n] rounds are left; the result is [count] *)
Fixpoint strncpy_from (n : nat) (count dest src : Z) (m : memory) : Z * memory :=
  match n with
  | O => (count, m)
  | S n => let c := ld m (src + count) in let m := st (dest + count) c m in
      if c =? 0 then (count, m) else strncpy_from n (count + 1) dest src m
  end.
(** the pointer returned (0: [NULL]) and the memory *)
Definition String_strncpy (dest src maxLength : Z) (m : memory) : Z * memory :=
  if (dest =? 0) || (src =? 0) then (0, m) else
  let maxLength := if maxLength >? 255 then 255 else maxLength in
  let '(count, m) := strncpy_from (Z.to_nat maxLength) 0 dest src m in
  (if count >=? 255 then 0 else dest, m).

Fixpoint strcmp_at (fuel : nat) (i dst src : Z) (m : memory) : option Z :=
  match fuel with
  | O => None
  | S fuel => if ld m (dst + i) =? ld m (src + i) then
        if ld m (src + i) =? 0 then Some 0 else strcmp_at fuel (s32 (i + 1)) dst src m
      else Some 1
  end.
Definition String_strcmp (fuel : nat) (dst src : Z) (m : memory) : option Z := strcmp_at fuel 0 dst src m.

(** [while ((dst[i] = src[i++]));]: whether [src[i++]] is evaluated before [dst[i]] is
    left open by the language before C++17, which evaluates it first *)
Fixpoint strcpy_from (right_first : bool) (fuel : nat) (i dst src : Z) (m : memory) : option (Z * memory) :=
  match fuel with
  | O => None
  | S fuel => let c := ld m (src + i) in
      let m := st (dst + (if right_first then i + 1 else i)) c m in
      if c =? 0 then Some (s32 (i + 1), m) else strcpy_from right_first fuel (s32 (i + 1)) dst src m
  end.
Definition String_strcpy (right_first : bool) (fuel : nat) (dst src : Z) (m : memory) : option (Z * memory) :=
  strcpy_from right_first fuel 0 dst src m.

Definition String_strcat (fuel : nat) (dest src : Z) (m : memory) : option memory :=
  n ← String_strlen fuel dest m; k ← String_strlen fuel src m;
  String_memcpy fuel (u32 (dest + n)) src k m.

(** characters are signed *)
Fixpoint strncmp_from (fuel : nat) (result s1 s2 c : Z) (m : memory) : option Z :=
  if u32 c =? 0 then Some result else
  match fuel with
  | O => None
  | S fuel => let result := s8 (ld m s1) - s8 (ld m s2) in
      if nz result || (ld m s1 =? 0) then Some result else strncmp_from fuel result (s1 + 1) (s2 + 1) (c - 1) m
  end.
Definition String_strncmp (fuel : nat) (s1 s2 c : Z) (m : memory) : option Z := strncmp_from fuel 0 s1 s2 c m.

(** [do ... while (n /= base)]: the digits, the lowest first; [i] and the memory after the loop.
    [None] also for the base 0, an exception of the processor *)
Definition digit_char (tmp : Z) : Z := if tmp <? 10 then tmp + 48 else tmp + 97 - 10.
Fixpoint itoa_digits (fuel : nat) (buf i n base : Z) (m : memory) : option (Z * memory) :=
  if base =? 0 then None else
  match fuel with
  | O => None
  | S fuel => let m := st (buf + i) (digit_char (n mod base)) m in
      if n / base =? 0 then Some (i + 1, m) else itoa_digits fuel buf (i + 1) (n / base) base m
  end.
(** [for (j = 0; j < i; j++, i--)]: exchange the ends *)
Fixpoint itoa_reverse (fuel : nat) (buf j i : Z) (m : memory) : option memory :=
  if j >=? i then Some m else
  match fuel with
  | O => None
  | S fuel => let tmp := ld m (buf + j) in
      let m := st (buf + j) (ld m (buf + i)) m in
      let m := st (buf + i) tmp m in
      itoa_reverse fuel buf (j + 1) (i - 1) m
  end.
Definition String_itoa (fuel : nat) (buf n base : Z) (m : memory) : option memory :=
  '(i, m) ← itoa_digits fuel buf 0 (u32 n) (u32 base) m;
  itoa_reverse fuel buf 0 (i - 1) (st (buf + i) 0 m).
