(* ===== verification/ZeroFacts.v ===== *)
(** * The small kernel of linux-0.00: paging, the screen, numbers *)

From S2P Require Import Prelude StringH Zero.

(** ** Words in memory *)

(** byte [k] of the word [v] *)
Definition byte (v k : Z) : Z := u8 (Z.shiftr v (8 * k)).

Lemma st32_at a v m x : 0 <= a -> a + 4 <= 2 ^ 32 -> 0 <= x < 2 ^ 32 ->
  st32 a v m x = if (a <=? x) && (x <? a + 4) then byte v (x - a) else m x.
Proof.
  intros Ha Hb Hx. unfold st32, st16, st, byte. rewrite !u32_id by lia.
  destruct (Z.leb_spec a x), (Z.ltb_spec x (a + 4)); cbn [andb].
  2-4: repeat (match goal with |- context [?p =? ?q] => destruct (Z.eqb_spec p q); [lia|] end); done.
  assert (exists k, x = a + k /\ (k = 0 \/ k = 1 \/ k = 2 \/ k = 3)) as (k & -> & Hk) by (exists (x - a); lia).
  replace (a + k - a) with k by lia.
  destruct Hk as [-> | [-> | [-> | ->]]];
    repeat (match goal with |- context [?p =? ?q] => destruct (Z.eqb_spec p q); [try lia|try lia] end);
    rewrite ?Z.shiftr_shiftr, ?Z.shiftr_0_r by lia; done.
Qed.

Lemma bytes_word v : byte v 0 + 2 ^ 8 * byte v 1 + 2 ^ 16 * (byte v 2 + 2 ^ 8 * byte v 3) = u32 v.
Proof.
  unfold byte, u8, u32. rewrite !Z.shiftr_div_pow2 by lia.
  change (2 ^ (8 * 0)) with 1. change (2 ^ (8 * 1)) with (2 ^ 8). change (2 ^ (8 * 2)) with (2 ^ 16).
  change (2 ^ (8 * 3)) with (2 ^ 24). rewrite Z.div_1_r.
  Z.to_euclidean_division_equations. lia.
Qed.

Lemma ld32_bytes m a : 0 <= a -> a + 4 <= 2 ^ 32 ->
  ld32 m a = m a + 2 ^ 8 * m (a + 1) + 2 ^ 16 * (m (a + 2) + 2 ^ 8 * m (a + 3)).
Proof.
  intros. unfold ld32, ld16, ld. rewrite !u32_id by lia. by replace (a + 2 + 1) with (a + 3) by lia.
Qed.

(** ** Filling a table of words *)

Lemma for_each_ext {S A} (f g : A -> M S unit) l s :
  (forall x s, f x s = g x s) -> for_each l f s = for_each l g s.
Proof.
  intros H. revert s. induction l as [|x l IH]; intros s; [done|]. cbn.
  unfold mbind, M_bind. rewrite H. by destruct (g x s).
Qed.

(** [m'] is [m] with the [n] words from [p] on set to [f 0], [f 1], ... *)
Definition filled (p n : Z) (f : Z -> Z) (m m' : memory) : Prop :=
  forall x, 0 <= x < 2 ^ 32 ->
    m' x = if (p <=? x) && (x <? p + 4 * n) then byte (f ((x - p) / 4)) ((x - p) mod 4) else m x.

Lemma fill_from p f n : forall k s, 0 <= p -> 0 <= k -> p + 4 * (k + Z.of_nat n) <= 2 ^ 32 ->
  exists m', for_each (seqZ k (Z.of_nat n)) (fun i => store32 (p + 4 * i) (f i)) s = Ret tt (s <| ram := m' |>) /\
    forall x, 0 <= x < 2 ^ 32 -> m' x = if (p + 4 * k <=? x) && (x <? p + 4 * (k + Z.of_nat n))
      then byte (f ((x - p) / 4)) ((x - p) mod 4) else ram s x.
Proof.
  induction n as [|n IH]; intros k s Hp Hk Hb.
  - exists (ram s). split; [by destruct s|]. intros x Hx.
    destruct (Z.leb_spec (p + 4 * k) x), (Z.ltb_spec x (p + 4 * (k + Z.of_nat 0))); cbn [andb]; done || lia.
  - destruct (IH (Z.succ k) (s <| ram ::= st32 (p + 4 * k) (f k) |>)) as (m' & Hrun & Hm'); [lia..|].
    exists m'. split.
    + rewrite seqZ_cons by lia. replace (Z.pred (Z.of_nat (S n))) with (Z.of_nat n) by lia.
      cbn [for_each]. etransitivity; [|exact Hrun]. done.
    + intros x Hx. rewrite Hm' by done. unfold upd; cbn. rewrite st32_at by lia.
      destruct (Z.leb_spec (p + 4 * Z.succ k) x), (Z.ltb_spec x (p + 4 * (Z.succ k + Z.of_nat n))),
        (Z.leb_spec (p + 4 * k) x), (Z.ltb_spec x (p + 4 * k + 4)),
        (Z.ltb_spec x (p + 4 * (k + Z.of_nat (S n)))); cbn [andb]; try done; try lia.
      assert ((x - p) / 4 = k) as ->. { Z.to_euclidean_division_equations; lia. }
      f_equal. Z.to_euclidean_division_equations; lia.
Qed.

Lemma fill_run p f n s : 0 <= p -> 0 <= n -> p + 4 * n <= 2 ^ 32 ->
  exists m', for_each (seqZ 0 n) (fun i => store32 (p + 4 * i) (f i)) s = Ret tt (s <| ram := m' |>) /\
    filled p n f (ram s) m'.
Proof.
  intros Hp Hn Hb. destruct (fill_from p f (Z.to_nat n) 0 s) as (m' & Hrun & Hm'); [lia..|].
  rewrite Z2Nat.id in Hrun, Hm' by done. exists m'. split; [done|].
  intros x Hx. rewrite Hm' by done. by rewrite Z.mul_0_r, Z.add_0_r, Z.add_0_l.
Qed.

Lemma filled_word p n f m m' i : filled p n f m m' -> 0 <= p -> p + 4 * n <= 2 ^ 32 -> 0 <= i < n ->
  ld32 m' (p + 4 * i) = u32 (f i).
Proof.
  intros H Hp Hb Hi. rewrite ld32_bytes by lia. rewrite <- bytes_word.
  assert (forall k, 0 <= k < 4 -> m' (p + 4 * i + k) = byte (f i) k) as Hk.
  { intros k Hk. rewrite H by lia.
    rewrite (proj2 (Z.leb_le _ _)), (proj2 (Z.ltb_lt _ _)) by lia. cbn [andb].
    replace ((p + 4 * i + k - p) / 4) with i by (Z.to_euclidean_division_equations; lia).
    f_equal. Z.to_euclidean_division_equations; lia. }
  pose proof (Hk 0 ltac:(lia)) as H0. rewrite Z.add_0_r in H0.
  rewrite H0, (Hk 1), (Hk 2), (Hk 3) by lia. done.
Qed.

Lemma filled_word_0 n f m m' i : filled 0 n f m m' -> 4 * n <= 2 ^ 32 -> 0 <= i < n ->
  ld32 m' (4 * i) = u32 (f i).
Proof. intros H Hb Hi. apply (filled_word 0 n f m m' i H); lia. Qed.

Lemma filled_outside p n f m m' a : filled p n f m m' -> 0 <= a < 2 ^ 32 ->
  a < p \/ p + 4 * n <= a -> m' a = m a.
Proof.
  intros H Ha Hd. rewrite H by done.
  destruct (Z.leb_spec p a), (Z.ltb_spec a (p + 4 * n)); cbn [andb]; done || lia.
Qed.
Lemma filled_other p n f m m' a : filled p n f m m' -> 0 <= a -> a + 4 <= 2 ^ 32 ->
  a + 4 <= p \/ p + 4 * n <= a -> ld32 m' a = ld32 m a.
Proof.
  intros H Ha Hb Hd. rewrite !ld32_bytes by lia. by rewrite !(filled_outside _ _ _ _ _ _ H) by lia.
Qed.

(** ** What the processor does with the tables: the physical address of [va], if it is mapped for the user *)
Definition entry_frame (e : Z) : option Z :=
  if Z.land e 7 =? 7 then Some (e / 4096 * 4096) else None.
Definition translate (s : zero_st) (va : Z) : option Z :=
  table ← entry_frame (ld32 (ram s) (cr3 (cpu s) + 4 * (va / 2 ^ 22)));
  page ← entry_frame (ld32 (ram s) (table + 4 * (va / 2 ^ 12 mod 1024)));
  Some (page + va mod 2 ^ 12).

Lemma setup_paging_run s : exists m,
  Memory_setup_paging 0 4 s =
    Ret tt (s <| ram := m |> <| cpu ::= fun c => c <| cr3 := 0 |> <| cr0 ::= Z.lor 0x80000000 |> |>) /\
  (forall i, 0 <= i < 1024 -> ld32 m (4 * i) = if i <? 4 then (i + 1) * 4096 + 7 else 0) /\
  (forall i, 0 <= i < 4096 -> ld32 m (4096 + 4 * i) = i * 4096 + 7) /\
  (forall a, 0x5000 <= a < 2 ^ 32 -> m a = ram s a).
Proof.
  destruct (fill_run 0 (fun _ => 0) 5120 s) as (m1 & R1 & F1); [lia..|].
  destruct (fill_run 0 (fun i => (i + 1) * 4096 + 7) 4 (s <| ram := m1 |>)) as (m2 & R2 & F2); [lia..|].
  destruct (fill_run 4096 (fun i => i * 4096 + 7) 4096 (s <| ram := m2 |>)) as (m3 & R3 & F3); [lia..|].
  cbn in F2, F3. exists m3. split; [|split; [|split]].
  - unfold Memory_setup_paging.
    change (1024 * (1 + 4)) with 5120. mstep R1. mstep R2.
    etransitivity; [apply (bind_Ret _ _ _ tt (s <| ram := m3 |>))|done].
    etransitivity; [|exact R3]. change (4 * 1024) with 4096. apply for_each_ext. intros i t.
    by replace (0 + 4 * (1024 + i)) with (4096 + 4 * i) by lia.
  - intros i Hi. rewrite (filled_other _ _ _ _ _ _ F3) by lia.
    destruct (Z.ltb_spec i 4) as [Hlt|Hge].
    + rewrite (filled_word_0 4 _ _ _ i F2) by lia. apply u32_id. lia.
    + rewrite (filled_other _ _ _ _ _ _ F2) by lia.
      by rewrite (filled_word_0 5120 _ _ _ i F1) by lia.
  - intros i Hi. rewrite (filled_word _ _ _ _ _ i F3) by lia. apply u32_id. lia.
  - intros a Ha. by rewrite (filled_outside _ _ _ _ _ _ F3), (filled_outside _ _ _ _ _ _ F2),
      (filled_outside _ _ _ _ _ _ F1) by lia.
Qed.

Lemma table_entry i : 0 <= i -> entry_frame (i * 4096 + 7) = Some (i * 4096).
Proof.
  intros Hi. unfold entry_frame. change 7 with (Z.ones 3) at 2. rewrite Z.land_ones by lia.
  change (2 ^ 3) with 8. rewrite (proj2 (Z.eqb_eq _ _)) by (Z.to_euclidean_division_equations; lia).
  f_equal. Z.to_euclidean_division_equations; lia.
Qed.

(** with the tables of [setup_paging] an address below 16 MB is translated to itself *)
Lemma translate_identity s va : cr3 (cpu s) = 0 -> 0 <= va < 2 ^ 32 ->
  (forall i, 0 <= i < 1024 -> ld32 (ram s) (4 * i) = if i <? 4 then (i + 1) * 4096 + 7 else 0) ->
  (forall i, 0 <= i < 4096 -> ld32 (ram s) (4096 + 4 * i) = i * 4096 + 7) ->
  translate s va = if va <? MAX_MEM then Some va else None.
Proof.
  intros Hcr Hva Hdir Htab. unfold translate. rewrite Hcr, Z.add_0_l.
  rewrite Hdir by (Z.to_euclidean_division_equations; lia). unfold MAX_MEM.
  destruct (Z.ltb_spec (va / 2 ^ 22) 4) as [Hlt|Hge].
  - rewrite (proj2 (Z.ltb_lt va _)) by (Z.to_euclidean_division_equations; lia).
    rewrite table_entry by (Z.to_euclidean_division_equations; lia). cbn [mbind option_bind].
    replace ((va / 2 ^ 22 + 1) * 4096 + 4 * (va / 2 ^ 12 mod 1024)) with (4096 + 4 * (va / 2 ^ 12))
      by (Z.to_euclidean_division_equations; lia).
    rewrite Htab by (Z.to_euclidean_division_equations; lia).
    rewrite table_entry by (Z.to_euclidean_division_equations; lia). cbn [mbind option_bind].
    f_equal. Z.to_euclidean_division_equations; lia.
  - rewrite (proj2 (Z.ltb_ge va _)) by (Z.to_euclidean_division_equations; lia). done.
Qed.

(** ** The map of pages *)

Lemma set_map_run v n : forall k s, 0 <= k -> (Z.to_nat k + n <= length (mm_map s))%nat ->
  for_each (seqZ k (Z.of_nat n)) (fun i => modify (fun s => s <| mm_map ::= <[Z.to_nat i := v]> |>)) s =
  Ret tt (s <| mm_map ::= fun l => take (Z.to_nat k) l ++ replicate n v ++ drop (Z.to_nat k + n) l |>).
Proof.
  induction n as [|n IH]; intros k s Hk Hl.
  - destruct s. unfold upd; cbn. by rewrite Nat.add_0_r, take_drop.
  - rewrite seqZ_cons by lia. replace (Z.pred (Z.of_nat (S n))) with (Z.of_nat n) by lia.
    cbn [for_each]. etransitivity; [apply IH; [lia|]|].
    { unfold upd; cbn. rewrite length_insert. lia. }
    destruct s as [? l]. unfold upd; cbn in *. do 2 f_equal.
    replace (Z.to_nat (Z.succ k)) with (S (Z.to_nat k)) by lia.
    rewrite (take_S_r _ _ v) by (apply list_lookup_insert_eq; lia).
    rewrite take_insert_ge, drop_insert_lt by lia. rewrite <- app_assoc. cbn.
    by rewrite Nat.add_succ_r.
Qed.

(** the next free page of memory in which pages are handed out from the lowest on *)
Definition handed_out (k : nat) : list Z :=
  replicate (896 + k) 1 ++ replicate (2944 - k) 0.

Lemma handed_out_next k : (k < 2944)%nat -> <[Z.to_nat (896 + Z.of_nat k) := 1]> (handed_out k) = handed_out (S k).
Proof.
  intros Hk. unfold handed_out. rewrite insert_app_r_alt, length_replicate by (rewrite length_replicate; lia).
  replace (Z.to_nat (896 + Z.of_nat k) - (896 + k))%nat with 0%nat by lia.
  replace (2944 - k)%nat with (S (2944 - S k)) by lia.
  replace (896 + S k)%nat with ((896 + k) + 1)%nat by lia.
  rewrite (replicate_add (896 + k) 1). change (replicate 1 1) with [1]. rewrite <- app_assoc. by rewrite (replicate_S (2944 - S k)).
Qed.

Lemma scan_used n l : forall k s, 0 <= k ->
  (forall i, k <= i < k + Z.of_nat n -> mm_map s !! Z.to_nat i = Some 1) ->
  for_find (seqZ k (Z.of_nat n) ++ l) take_if_free s = for_find l take_if_free s.
Proof.
  induction n as [|n IH]; intros k s Hk Hused; [done|].
  rewrite seqZ_cons by lia. replace (Z.pred (Z.of_nat (S n))) with (Z.of_nat n) by lia.
  cbn [app for_find]. rewrite <- (IH (Z.succ k) s) by (lia || (intros; apply Hused; lia)).
  etransitivity; [eapply (bind_Ret _ _ _ None s)|done].
  unfold take_if_free. mrun. by rewrite (Hused k) by lia.
Qed.

Lemma get_free_page_run k s : mm_map s = handed_out k ->
  Memory_get_free_page s =
    if (k <? 2944)%nat then Ret (0x480000 + 4096 * Z.of_nat k) (s <| mm_map := handed_out (S k) |>)
    else Ret 0 s.
Proof.
  intros Hm. unfold Memory_get_free_page. change (seqZ BUF_PAGES (PAGING_PAGES - BUF_PAGES)) with (seqZ 896 (Z.of_nat 2944)).
  assert (forall i, 896 <= i < 896 + Z.of_nat (min k 2944) -> mm_map s !! Z.to_nat i = Some 1) as Hused.
  { intros i Hi. rewrite Hm. unfold handed_out. rewrite lookup_app_l by (rewrite length_replicate; lia).
    apply lookup_replicate_2. lia. }
  destruct (Nat.ltb_spec k 2944) as [Hlt|Hge].
  - assert (for_find (seqZ 896 (Z.of_nat 2944)) take_if_free s =
      Ret (Some (0x480000 + 4096 * Z.of_nat k)) (s <| mm_map := handed_out (S k) |>)) as Hfind;
      [|by mstep Hfind].
    replace (Z.of_nat 2944) with (Z.of_nat k + (2944 - Z.of_nat k)) by lia.
    rewrite seqZ_app by lia. rewrite scan_used by (lia || (intros; apply Hused; lia)).
    rewrite seqZ_cons by lia. cbn [for_find].
    assert (Z.to_nat (896 + Z.of_nat k) - (896 + k) = 0)%nat as H0 by lia.
    etransitivity; [apply (bind_Ret _ _ _ (Some (0x480000 + 4096 * Z.of_nat k))
      (s <| mm_map := handed_out (S k) |>))|done].
    assert (mm_map s !! Z.to_nat (896 + Z.of_nat k) = Some 0) as Hl.
    { rewrite Hm. unfold handed_out.
      rewrite lookup_app_r, length_replicate, H0 by (rewrite length_replicate; lia).
      apply lookup_replicate_2. lia. }
    unfold take_if_free. mrun. rewrite Hl. mrun. f_equal; [f_equal; unfold LOW_MEM; lia|].
    unfold upd. by rewrite Hm, handed_out_next.
  - assert (for_find (seqZ 896 (Z.of_nat 2944)) take_if_free s = Ret None s) as Hfind; [|by mstep Hfind].
    rewrite <- (app_nil_r (seqZ 896 (Z.of_nat 2944))).
    by rewrite scan_used by (lia || (intros; apply Hused; lia)).
Qed.

(** ask for [n] pages *)
Fixpoint take_pages (n : nat) : ZK (list Z) :=
  match n with
  | O => mret []
  | S n => p ← Memory_get_free_page; l ← take_pages n; mret (p :: l)
  end.
Lemma take_pages_run n : forall k s, mm_map s = handed_out k -> (k + n <= 2944)%nat ->
  take_pages n s = Ret ((fun i => 0x480000 + 4096 * Z.of_nat i) <$> seq k n) (s <| mm_map := handed_out (k + n) |>).
Proof.
  induction n as [|n IH]; intros k s Hm Hn.
  - destruct s; cbn in *. unfold upd; cbn. by rewrite Nat.add_0_r, <- Hm.
  - cbn [take_pages]. pose proof (get_free_page_run k s Hm) as Hrun.
    rewrite (proj2 (Nat.ltb_lt _ _)) in Hrun by lia. mstep Hrun.
    mstep (IH (S k) (s <| mm_map := handed_out (S k) |>) eq_refl ltac:(lia)).
    cbn. by rewrite Nat.add_succ_r.
Qed.

(** ** Start-up of the memory *)

Lemma map_init_run s : length (mm_map s) = 3840%nat ->
  (for_each (seqZ 0 BUF_PAGES) (fun i => modify (fun s => s <| mm_map ::= <[Z.to_nat i := 1]> |>)) ;;
    for_each (seqZ BUF_PAGES (PAGING_PAGES - BUF_PAGES)) (fun i => modify (fun s => s <| mm_map ::= <[Z.to_nat i := 0]> |>))) s =
  Ret tt (s <| mm_map := handed_out 0 |>).
Proof.
  intros Hl.
  mstep (set_map_run 1 896 0 s ltac:(lia) ltac:(lia)).
  etransitivity; [apply (set_map_run 0 2944 896); [lia|]|].
  - unfold upd; cbn -[replicate take drop Nat.add].
    rewrite !length_app, length_take, length_replicate, length_drop. lia.
  - unfold upd; cbn -[replicate take drop Nat.add]. do 2 f_equal. unfold handed_out.
    change (Z.to_nat 0) with 0%nat. change (Z.to_nat 896) with 896%nat.
    rewrite take_0, app_nil_l, take_app_length', drop_ge, app_nil_r by (rewrite ?length_app, ?length_replicate, ?length_drop; lia).
    by rewrite Nat.add_0_r, Nat.sub_0_r.
Qed.

(** [Memory::init] of the small kernel turns paging on so that every
    address below 16 MB, for user programs too, is translated to itself and no
    other address is mapped, and writes nothing outside the five pages of the
    tables.  After it [get_free_page] hands out the 2944 pages above the
    buffers once each, from the lowest on and all inside the mapped memory, and
    then reports that there is none. *)
Theorem memory_init_correct s n : length (mm_map s) = 3840%nat -> (n <= 2944)%nat ->
  exists s', Memory_init s = Ret tt s' /\
    Z.testbit (cr0 (cpu s')) 31 = true /\
    (forall va, 0 <= va < 2 ^ 32 -> translate s' va = if va <? MAX_MEM then Some va else None) /\
    (forall a, 0x5000 <= a < 2 ^ 32 -> ram s' a = ram s a) /\
    exists s2, take_pages n s' = Ret ((fun i => 0x480000 + 4096 * Z.of_nat i) <$> seq 0 n) s2 /\
      Memory_get_free_page s2 =
        if (n <? 2944)%nat then Ret (0x480000 + 4096 * Z.of_nat n) (s2 <| mm_map := handed_out (S n) |>)
        else Ret 0 s2.
Proof.
  intros Hl Hn. pose proof (map_init_run s Hl) as Hrun.
  destruct (setup_paging_run (s <| mm_map := handed_out 0 |>)) as (m & Hpag & Hdir & Htab & Hrest).
  eexists. split; [|split; [|split; [|split]]].
  - unfold Memory_init. etransitivity; [|exact Hpag].
    etransitivity; [|exact (bind_Ret _ (fun _ => Memory_setup_paging 0 4) _ _ _ Hrun)].
    unfold mbind, M_bind. by destruct (for_each _ _ _).
  - unfold upd; cbn -[Z.lor Z.testbit]. by rewrite Z.lor_spec.
  - intros va Hva. by apply translate_identity.
  - exact Hrest.
  - eexists. split; [by apply (take_pages_run n 0)|].
    by apply get_free_page_run.
Qed.

Definition memory0 : memory := fun _ => 0xcc.
Definition cpu0 : cpu_st := mk_cpu 0 0 0 0 0 0 0 0 (mk_DTR 0 0) (mk_DTR 0 0).
Lemma memory_init_correct_witness :
  exists s', Memory_init (zero_start memory0 cpu0) = Ret tt s' /\ translate s' 0xb8000 = Some 0xb8000 /\
    exists s2, take_pages 3 s' = Ret [0x480000; 0x481000; 0x482000] s2.
Proof.
  destruct (memory_init_correct (zero_start memory0 cpu0) 3) as (s' & Hrun & _ & Htr & _ & s2 & Hp & _);
    [apply length_replicate|lia|].
  exists s'. split; [exact Hrun|]. split; [exact (Htr 0xb8000 ltac:(lia))|]. exists s2. exact Hp.
Defined.

(** ** The screen *)

Definition puts (l : list (Z * Z)) : ZK unit := for_each l (fun '(c, color) => Io_putc c color).
(** the two bytes of cell [j] *)
Definition cell (s : zero_st) (j : Z) : Z * Z := (ram s (RAMSCREEN + 2 * j), ram s (RAMSCREEN + 2 * j + 1)).

Lemma putc_run s c color : 0 <= scr_loc s <= 2000 ->
  exists s', Io_putc c color s = Ret tt s' /\ scr_loc s' = (scr_loc s + 1) mod 2001 /\
    ram s' = st (RAMSCREEN + 2 * scr_loc s + 1) color (st (RAMSCREEN + 2 * scr_loc s) c (ram s)).
Proof.
  intros Hl. eexists. split; [unfold Io_putc; mrun; reflexivity|].
  unfold upd; cbn. rewrite u16_id by lia.
  destruct (Z.gtb_spec (scr_loc s + 1) 2000); cbn; (split; [|reflexivity]).
  - by replace (scr_loc s) with 2000 by lia.
  - by rewrite Z.mod_small by lia.
Qed.

Lemma st_other a v m x : 0 <= a < 2 ^ 32 -> x <> a -> st a v m x = m x.
Proof. intros Ha Hx. unfold st. rewrite u32_id by done. by rewrite (proj2 (Z.eqb_neq _ _)). Qed.
Lemma st_here a v m : 0 <= a < 2 ^ 32 -> st a v m a = u8 v.
Proof. intros Ha. unfold st. by rewrite u32_id, Z.eqb_refl. Qed.

Lemma mod_step x n : (x mod n + 1) mod n = (x + 1) mod n.
Proof. apply Zplus_mod_idemp_l. Qed.

Lemma puts_run l : forall s, 0 <= scr_loc s <= 2000 -> exists s', puts l s = Ret tt s' /\
  scr_loc s' = (scr_loc s + Z.of_nat (length l)) mod 2001 /\
  (forall a, a < RAMSCREEN \/ RAMSCREEN + 4002 <= a -> ram s' a = ram s a) /\
  (forall j, 0 <= j <= 2000 -> (forall i, (i < length l)%nat -> (scr_loc s + Z.of_nat i) mod 2001 <> j) -> cell s' j = cell s j) /\
  (forall i c color, l !! i = Some (c, color) -> (length l <= i + 2001)%nat ->
    cell s' ((scr_loc s + Z.of_nat i) mod 2001) = (u8 c, u8 color)).
Proof.
  induction l as [|[c color] l IH]; intros s Hs.
  - exists s. split; [done|]. rewrite Z.add_0_r, Z.mod_small by lia. done.
  - destruct (putc_run s c color Hs) as (s1 & Hrun & Hloc & Hram).
    assert (0 <= scr_loc s1 <= 2000) as Hs1. { rewrite Hloc. pose proof (Z.mod_pos_bound (scr_loc s + 1) 2001). lia. }
    destruct (IH s1 Hs1) as (s' & Hrun' & Hloc' & Hout & Hframe & Hwr). clear IH.
    assert (forall i, (scr_loc s1 + Z.of_nat i) mod 2001 = (scr_loc s + Z.of_nat (S i)) mod 2001) as Hi.
    { intros i. rewrite Hloc, Zplus_mod_idemp_l. f_equal. lia. }
    assert (forall j, 0 <= j -> j <> scr_loc s -> cell s1 j = cell s j) as Hc.
    { intros j Hj Hne. unfold cell. rewrite Hram. unfold RAMSCREEN. by rewrite !st_other by lia. }
    exists s'. split; [by mstep Hrun|]. split; [by rewrite Hloc', Hi|]. split; [|split].
    + intros a Ha. rewrite Hout, Hram by done. unfold RAMSCREEN in *. by rewrite !st_other by lia.
    + intros j Hj Hno. rewrite Hframe; [apply Hc; [lia|]|done|].
      * specialize (Hno 0%nat ltac:(cbn; lia)). rewrite Z.add_0_r, Z.mod_small in Hno by lia. done.
      * intros i Hlt. rewrite Hi. apply Hno. cbn. lia.
    + intros [|i] c' color' Hl Hlen; cbn in Hl, Hlen.
      * injection Hl as <- <-. rewrite Z.add_0_r, Z.mod_small by lia.
        rewrite Hframe; [|lia|].
        -- unfold cell. rewrite Hram. unfold RAMSCREEN.
           rewrite st_here by lia. rewrite st_other, st_here by lia. done.
        -- intros i Hlt. rewrite Hi. Z.to_euclidean_division_equations; lia.
      * rewrite <- Hi. apply (Hwr i); [done|lia].
Qed.

(** Whatever is written on the screen of the small kernel, no byte outside the
    2001 cells from [RAMSCREEN] on is changed, the position goes round modulo
    2001, and each of the last 2001 characters is in its cell with its colour.
    2001 cells are one too many: a character written at position 2000 lands at
    [SCREENLIM], the first byte past the screen. *)
Theorem screen_bounds l s : 0 <= scr_loc s <= 2000 ->
  (exists s', puts l s = Ret tt s' /\
    scr_loc s' = (scr_loc s + Z.of_nat (length l)) mod 2001 /\
    (forall a, a < RAMSCREEN \/ RAMSCREEN + 4002 <= a -> ram s' a = ram s a) /\
    (forall i c color, l !! i = Some (c, color) -> (length l <= i + 2001)%nat ->
      cell s' ((scr_loc s + Z.of_nat i) mod 2001) = (u8 c, u8 color))) /\
  (forall c color, exists s', Io_putc c color (s <| scr_loc := 2000 |>) = Ret tt s' /\
    SCREENLIM = RAMSCREEN + SIZESCREEN /\ ram s' SCREENLIM = u8 c /\ ram s' (SCREENLIM + 1) = u8 color).
Proof.
  intros Hs. split.
  - destruct (puts_run l s Hs) as (s' & ? & ? & ? & _ & ?). eauto 10.
  - intros c color.
    destruct (putc_run (s <| scr_loc := 2000 |>) c color) as (s' & Hrun & _ & Hram); [unfold upd; cbn; lia|].
    exists s'. split; [done|]. split; [done|]. rewrite Hram. unfold upd; cbn.
    unfold SCREENLIM, RAMSCREEN. split.
    + rewrite st_other by lia. by apply st_here.
    + by apply st_here.
Qed.

Lemma screen_bounds_witness : exists s', puts [(72, 7); (105, 4)] (zero_start memory0 cpu0) = Ret tt s' /\
  scr_loc s' = 2 /\ cell s' 0 = (72, 7) /\ cell s' 1 = (105, 4) /\ ram s' 0 = 0xcc.
Proof.
  destruct (screen_bounds [(72, 7); (105, 4)] (zero_start memory0 cpu0)) as [(s' & Hrun & Hloc & Hout & Hc) _]; [cbn; lia|].
  exists s'. repeat split; [exact Hrun|exact Hloc| | |].
  - exact (Hc 0%nat 72 7 eq_refl ltac:(cbn; lia)).
  - exact (Hc 1%nat 105 4 eq_refl ltac:(cbn; lia)).
  - apply (Hout 0). left. reflexivity.
Defined.

(** ** Numbers *)

(** the number that digits, the lowest first, stand for *)
Definition value (base : Z) (ds : list Z) : Z := foldr (fun d v => d + base * v) 0 ds.
(** the digit of a character, and the number that a string spells, as a reader of numbers takes it *)
Definition char_digit (base c : Z) : option Z :=
  let d := if (48 <=? c) && (c <=? 57) then c - 48 else if (97 <=? c) && (c <=? 122) then c - 97 + 10 else -1 in
  if (0 <=? d) && (d <? base) then Some d else None.
Fixpoint read_from (base v : Z) (l : list Z) : option Z :=
  match l with
  | [] => Some v
  | c :: l => d ← char_digit base c; read_from base (v * base + d) l
  end.
Definition read_number (base : Z) (l : list Z) : option Z := read_from base 0 l.

(** [l] is in memory at [a] *)
Definition in_memory (m : memory) (a : Z) (l : list Z) : Prop :=
  forall k c, l !! k = Some c -> m (a + Z.of_nat k) = c.

Lemma char_digit_char base d : 0 <= d < base -> base <= 36 ->
  char_digit base (digit_char d) = Some d /\ 48 <= digit_char d <= 122.
Proof.
  intros Hd Hb. assert ((0 <=? d) && (d <? base) = true) as Hr.
  { by rewrite (proj2 (Z.leb_le _ _)), (proj2 (Z.ltb_lt _ _)) by lia. }
  unfold char_digit, digit_char. destruct (Z.ltb_spec d 10); (split; [|lia]).
  - rewrite (proj2 (Z.leb_le 48 _)), (proj2 (Z.leb_le _ 57)) by lia. cbn [andb]. replace (d + 48 - 48) with d by lia. by rewrite Hr.
  - rewrite (proj2 (Z.leb_gt (d + 97 - 10) 57)), andb_false_r by lia.
    rewrite (proj2 (Z.leb_le 97 _)), (proj2 (Z.leb_le _ 122)) by lia. cbn [andb]. replace (d + 97 - 10 - 97 + 10) with d by lia. by rewrite Hr.
Qed.

Lemma read_digits base ds : base <= 36 -> Forall (fun d => 0 <= d < base) ds -> forall v,
  read_from base v (digit_char <$> ds) = Some (foldl (fun v d => v * base + d) v ds).
Proof.
  intros Hb. induction 1 as [|d ds Hd _ IH]; intros v; [done|]. cbn.
  rewrite (proj1 (char_digit_char base d Hd Hb)). cbn. apply IH.
Qed.
Lemma value_reverse base ds : foldl (fun v d => v * base + d) 0 (reverse ds) = value base ds.
Proof.
  induction ds as [|d ds IH]; [done|]. rewrite reverse_cons, foldl_snoc, IH. unfold value. cbn. lia.
Qed.

Lemma itoa_digits_run base buf : 2 <= base <= 36 -> 0 <= buf -> forall fuel i n m,
  0 <= i -> 0 <= n < base ^ Z.of_nat fuel -> (0 < fuel)%nat -> buf + i + Z.of_nat fuel < 2 ^ 32 ->
  exists ds m', itoa_digits fuel buf i n base m = Some (i + Z.of_nat (length ds), m') /\
    value base ds = n /\ Forall (fun d => 0 <= d < base) ds /\
    (0 < length ds <= fuel)%nat /\ (last ds = Some 0 -> ds = [0]) /\
    in_memory m' (buf + i) (digit_char <$> ds) /\
    (forall a, a < buf + i \/ buf + i + Z.of_nat (length ds) <= a -> m' a = m a).
Proof.
  intros Hb Hbuf. induction fuel as [|fuel IH]; intros i n m Hi Hn Hf Hbound; [lia|].
  cbn [itoa_digits]. rewrite (proj2 (Z.eqb_neq base 0)) by lia.
  set (c := digit_char (n mod base)). set (m1 := st (buf + i) c m).
  pose proof (Z.mod_pos_bound n base ltac:(lia)) as Hmod.
  pose proof (proj2 (char_digit_char base (n mod base) Hmod ltac:(lia))) as Hc. fold c in Hc.
  assert (m1 (buf + i) = c) as Hm1. { unfold m1. rewrite st_here by lia. apply u8_id. lia. }
  assert (forall a, a <> buf + i -> m1 a = m a) as Hm1'. { intros a Ha. apply st_other; lia. }
  pose proof (Z.div_mod n base ltac:(lia)) as Hdm.
  destruct (Z.eqb_spec (n / base) 0) as [Hz|Hnz].
  - exists [n mod base], m1. split; [done|]. split; [cbn; lia|]. split; [by apply Forall_singleton|].
    split; [cbn; lia|]. split; [cbn; congruence|]. split.
    + intros [|k] c' Hk; [|done]. injection Hk as <-. by rewrite Z.add_0_r.
    + intros a Ha. apply Hm1'. cbn in Ha. lia.
  - assert (0 <= n / base) by (apply Z.div_pos; lia).
    assert (n / base < base ^ Z.of_nat fuel).
    { apply Z.div_lt_upper_bound; [lia|]. rewrite Nat2Z.inj_succ, Z.pow_succ_r in Hn by lia. lia. }
    destruct fuel as [|fuel]; [rewrite Z.pow_0_r in *; lia|].
    destruct (IH (i + 1) (n / base) m1) as (ds & m' & Hrun & Hval & Hds & Hlen & Hlast & Hin & Hout); [lia..|].
    exists (n mod base :: ds), m'. split; [rewrite Hrun; do 2 f_equal; cbn [length]; lia|].
    split; [unfold value in *; cbn; lia|]. split; [by constructor|]. split; [cbn; lia|]. split; [|split].
    + destruct ds as [|d ds]; [cbn in Hlen; lia|]. cbn [last]. intros Hl. rewrite (Hlast Hl) in Hval. cbn in Hval. lia.
    + intros [|k] c' Hk; cbn in Hk.
      * injection Hk as <-. by rewrite Z.add_0_r, Hout by lia.
      * rewrite <- (Hin k c' Hk). f_equal. lia.
    + intros a Ha. cbn [length] in Ha. rewrite Hout by lia. apply Hm1'. lia.
Qed.

Lemma itoa_reverse_run buf fuel : 0 <= buf -> forall j i m, 0 <= j -> buf + i < 2 ^ 32 -> i - j < 2 * Z.of_nat fuel ->
  (forall a, buf + j <= a <= buf + i -> 0 <= m a < 256) ->
  exists m', itoa_reverse fuel buf j i m = Some m' /\
    forall a, m' a = if (buf + j <=? a) && (a <=? buf + i) then m (buf + j + (buf + i) - a) else m a.
Proof.
  intros Hbuf. induction fuel as [|fuel IH]; intros j i m Hj Hb Hf Hm; cbn [itoa_reverse];
    (destruct (Z.geb_spec j i); [exists m; split; [done|]; intros a;
      destruct (Z.leb_spec (buf + j) a), (Z.leb_spec a (buf + i)); cbn [andb]; try done; f_equal; lia|]); [lia|].
  set (m1 := st (buf + i) _ _).
  assert (forall a, m1 a = if a =? buf + i then m (buf + j) else if a =? buf + j then m (buf + i) else m a) as Hm1.
  { intros a. unfold m1, ld. rewrite !u32_id by lia. unfold st. rewrite !u32_id by lia.
    by rewrite !u8_id by (apply Hm; lia). }
  destruct (IH (j + 1) (i - 1) m1) as (m' & Hrun & Hm'); [lia..| |].
  { intros a Ha. rewrite Hm1. repeat case_match; apply Hm; lia. }
  exists m'. split; [exact Hrun|]. intros a. rewrite Hm', !Hm1.
  destruct (Z.leb_spec (buf + (j + 1)) a), (Z.leb_spec a (buf + (i - 1))), (Z.leb_spec (buf + j) a), (Z.leb_spec a (buf + i));
    cbn [andb]; try lia;
    repeat (match goal with |- context [?p =? ?q] => destruct (Z.eqb_spec p q); try lia end); try done; f_equal; lia.
Qed.

(** [String::itoa] writes the number in the base asked for, 2 to 36: the
    characters are digits of the base that read back as the number, there are
    at most 32 of them and no leading zero, the string ends with a NUL, and no
    other byte of memory is changed. *)
Theorem itoa_roundtrip buf n base m : 2 <= base <= 36 -> 0 <= n < 2 ^ 32 -> 0 <= buf -> buf + 33 <= 2 ^ 32 ->
  exists l m', String_itoa 32 buf n base m = Some m' /\
    in_memory m' buf (l ++ [0]) /\ read_number base l = Some n /\
    (0 < length l <= 32)%nat /\ (head l = Some 48 -> l = [48]) /\
    (forall a, a < buf \/ buf + Z.of_nat (length l) < a -> m' a = m a).
Proof.
  intros Hb Hn Hbuf Hbound.
  assert (2 ^ 32 <= base ^ Z.of_nat 32) by (apply (Z.pow_le_mono_l 2 base 32); lia).
  destruct (itoa_digits_run base buf Hb Hbuf 32 0 n m) as (ds & m1 & Hrun & Hval & Hds & Hlen & Hlast & Hin & Hout); [lia..|].
  rewrite Z.add_0_r in Hin, Hout.
  set (k := Z.of_nat (length ds)) in *. set (m2 := st (buf + (0 + k)) 0 m1).
  assert (forall a, m2 a = if a =? buf + k then 0 else m1 a) as Hm2.
  { intros a. unfold m2, st. rewrite u32_id by lia. by rewrite Z.add_0_l. }
  assert (forall i d, ds !! i = Some d -> m2 (buf + Z.of_nat i) = digit_char d) as Hm2in.
  { intros i d Hi. rewrite Hm2. pose proof (lookup_lt_Some _ _ _ Hi).
    rewrite (proj2 (Z.eqb_neq _ _)) by lia. apply Hin. by rewrite list_lookup_fmap, Hi. }
  destruct (itoa_reverse_run buf 32 Hbuf 0 (0 + k - 1) m2) as (m' & Hrev & Hm'); [lia..| |].
  { intros a Ha. destruct (lookup_lt_is_Some_2 ds (Z.to_nat (a - buf))) as [d Hd]; [lia|].
    pose proof (Hm2in _ _ Hd) as He. replace (buf + Z.of_nat (Z.to_nat (a - buf))) with a in He by lia.
    rewrite He. pose proof (proj2 (char_digit_char base d (proj1 (Forall_lookup _ _) Hds _ _ Hd) ltac:(lia))). lia. }
  exists (reverse (digit_char <$> ds)), m'. split; [|split; [|split; [|split; [|split]]]].
  - unfold String_itoa. rewrite !u32_id by lia. rewrite Hrun. exact Hrev.
  - intros i c Hi. rewrite Hm'. apply lookup_app_Some in Hi as [Hi|[Hge Hi]].
    + apply reverse_lookup_Some in Hi as [Hi Hlt]. rewrite length_fmap in Hi, Hlt.
      rewrite (proj2 (Z.leb_le _ _)), (proj2 (Z.leb_le _ (buf + (0 + k - 1)))) by lia. cbn [andb].
      rewrite list_lookup_fmap in Hi. destruct (ds !! _) as [d|] eqn:Hd; [|done]. injection Hi as <-.
      rewrite <- (Hm2in _ _ Hd). f_equal. lia.
    + rewrite length_reverse, length_fmap in Hge, Hi.
      destruct (i - length ds)%nat as [|j] eqn:Hj; [|done]. injection Hi as <-.
      rewrite (proj2 (Z.leb_gt _ (buf + (0 + k - 1)))), andb_false_r by lia. rewrite Hm2.
      by rewrite (proj2 (Z.eqb_eq _ _)) by lia.
  - unfold read_number. rewrite <- fmap_reverse, read_digits by (lia || by apply Forall_reverse).
    by rewrite value_reverse, Hval.
  - rewrite length_reverse, length_fmap. exact Hlen.
  - rewrite head_reverse, fmap_last. destruct (last ds) as [d|] eqn:Hl; [|done]. cbn. intros [= Hd].
    assert (d = 0) as ->; [|by rewrite (Hlast eq_refl)].
    unfold digit_char in Hd. destruct (Z.ltb_spec d 10); [lia|].
    apply last_Some in Hl as [l' ->]. apply Forall_app in Hds as [_ Hds]. apply Forall_singleton in Hds. lia.
  - intros a Ha. rewrite length_reverse, length_fmap in Ha. fold k in Ha. rewrite Hm'.
    destruct (Z.leb_spec (buf + 0) a), (Z.leb_spec a (buf + (0 + k - 1))); cbn [andb]; try lia;
      rewrite Hm2, (proj2 (Z.eqb_neq _ _)) by lia; apply Hout; lia.
Qed.

Lemma itoa_roundtrip_witness : exists l m', String_itoa 32 1000 48879 16 (fun _ => 1) = Some m' /\
  in_memory m' 1000 (l ++ [0]) /\ read_number 16 l = Some 48879.
Proof.
  destruct (itoa_roundtrip 1000 48879 16 (fun _ => 1)) as (l & m' & Hrun & Hin & Hread & _); [lia..|].
  exists l, m'. repeat split; assumption.
Defined.
