(* ===== verification/Build.v ===== *)
(** * tools/build.cc: the program that joins boot sector, setup and system to a disk image

    It runs on the host: the files are what [open] and [read] give, the image
    is what [write] to descriptor 1 takes.  [die] is the outcome [Panic].  The
    other messages on stderr are left out.  Then: what it writes, and when it refuses. *)

From S2P Require Import Prelude.

(** the host: the files by name, the device number [stat] reports, and what
    the [k]-th [read] and the [k]-th [write] of the run return when they fail *)
Class Host : Type := mk_host {
  file_of : string -> option (list Z);
  rdev_of : string -> option Z;
  read_error : nat -> bool;
  write_ret : nat -> Z -> Z }.

(** the open file (what is left to read, [None]: it could not be opened), [buf], the output *)
Record build_st : Type := mk_build { fd : option (list Z); buf : list Z; image : list Z; reads : nat; writes : nat }.
#[export] Instance eta_build : Eta build_st := fun r => mk_build (fd r) (buf r) (image r) (reads r) (writes r).

Definition MAJOR (a : Z) : Z := Z.shiftr (u32 a) 8.
Definition MINOR (a : Z) : Z := Z.land a 0xff.
Definition MINIX_HEADER : Z := 32.
Definition SYS_SIZE : Z := 0x3000.
Definition DEFAULT_MAJOR_ROOT : Z := 3.
Definition DEFAULT_MINOR_ROOT : Z := 1.
Definition SETUP_SECTS : Z := 4.
Definition sizeof_buf : Z := 1024.

Section Build.
Context `{Host}.
Abbreviation BK := (M build_st).

Definition die {A} (str : string) : BK A := panic str.
Definition usage {A} : BK A := die "Usage: build bootsect setup system [rootdev] [> image]".

(** [id = open(name, O_RDONLY, 0)]: [id] is unsigned, [id < 0] is never true *)
Definition open_file (name : string) : BK unit := modify (fun s => s <| fd := file_of name |>).
(** [read(id, buf, n)] as an unsigned number *)
Definition read (n : Z) : BK Z :=
  s ← gets id;
  modify (fun s => s <| reads ::= S |>) ;;
  if read_error (reads s) then mret (u32 (-1)) else
  match fd s with
  | None => mret (u32 (-1))
  | Some l =>
      let d := take (Z.to_nat n) l in
      modify (fun s => s <| fd := Some (drop (Z.to_nat n) l) |> <| buf ::= fun b => d ++ drop (length d) b |>) ;;
      mret (Z.of_nat (length d))
  end.
(** [write(1, buf, c)] as an unsigned number; after a failed [read] it is asked for more
    than [buf] holds, and what lies behind [buf] is not represented *)
Definition write (c : Z) : BK Z :=
  s ← gets id;
  let r := write_ret (writes s) c in
  modify (fun s => s <| writes ::= S |> <| image ::= fun o => o ++ take (Z.to_nat r) (buf s) |>) ;;
  mret (u32 r).
(** [((int * ) buf)[k]] *)
Definition int_at (k : nat) : BK Z := s ← gets id; mret (s32 (get32 (buf s) (4 * k))).

(** the header of an object file of as86: what [main] requires of 'boot' and of 'setup' *)
Definition check_header (what : string) : BK unit :=
  n ← read MINIX_HEADER;
  if negb (n =? MINIX_HEADER) then die ("Unable to read header of " ++ what) else
  v0 ← int_at 0; v1 ← int_at 1; v3 ← int_at 3; v4 ← int_at 4; v5 ← int_at 5; v7 ← int_at 7;
  if negb (v0 =? 0x04100301) then die ("Non-Minix header of " ++ what) else
  if negb (v1 =? MINIX_HEADER) then die ("Non-Minix header of " ++ what) else
  if negb (v3 =? 0) then die ("Illegal data segment in " ++ what) else
  if negb (v4 =? 0) then die ("Illegal bss in " ++ what) else
  if negb (v5 =? 0) then die ("Non-Minix header of " ++ what) else
  if negb (v7 =? 0) then die ("Illegal symbol table in " ++ what) else
  mret tt.

(** the device numbers, as characters *)
Definition root_device (argv : list string) : BK (Z * Z) :=
  match argv !! 4%nat with
  | Some dev =>
      if bool_decide (dev <> "FLOPPY"%string) then
        match rdev_of dev with
        | None => die "Couldn't stat root device."
        | Some r => mret (s8 (MAJOR r), s8 (MINOR r))
        end
      else mret (0, 0)
  | None => mret (DEFAULT_MAJOR_ROOT, DEFAULT_MINOR_ROOT)
  end.

Definition write_boot (name : string) (major_root minor_root : Z) : BK unit :=
  open_file name ;;
  check_header "'boot'" ;;
  i ← read sizeof_buf;
  if negb (i =? 512) then die "Boot block must be exactly 512 bytes" else
  s ← gets id;
  if negb (get16 (buf s) 510 =? 0xAA55) then die "Boot block hasn't got boot flag (0xAA55)" else
  modify (fun s => s <| buf ::= <[508%nat := u8 minor_root]> |>) ;;
  modify (fun s => s <| buf ::= <[509%nat := u8 major_root]> |>) ;;
  i ← write 512;
  if negb (i =? 512) then die "Write call failed" else
  modify (fun s => s <| fd := None |>).

(** [for (i = 0; (c=read(id,buf,sizeof buf))>0; i+=c) if (write(1,buf,c)!=c) die(...)]: [i] at the end *)
Definition copy_block (i : Z) : BK (Z + Z) :=
  c ← read sizeof_buf;
  if negb (c >? 0) then mret (inr i) else
  w ← write c;
  if negb (w =? c) then die "Write call failed" else mret (inl (u32 (i + c))).
Definition copy_file (fuel : nat) : BK Z := loop fuel copy_block 0.

(** [while (i < SETUP_SECTS*512) ...] *)
Definition pad_setup (fuel : nat) (i : Z) : BK Z :=
  loop fuel (fun i =>
    if negb (i <? SETUP_SECTS * 512) then mret (inr i) else
    let c := SETUP_SECTS * 512 - i in
    let c := if c >? sizeof_buf then sizeof_buf else c in
    w ← write c;
    if negb (w =? c) then die "Write call failed" else mret (inl (i + c))) i.

Definition write_setup (fuel : nat) (name : string) : BK unit :=
  open_file name ;;
  check_header "'setup'" ;;
  i ← copy_file fuel;
  modify (fun s => s <| fd := None |>) ;;
  if i >? SETUP_SECTS * 512 then die "Setup exceeds 4 sectors - rewrite build/boot/setup" else
  modify (fun s => s <| buf := replicate (Z.to_nat sizeof_buf) 0 |>) ;;
  pad_setup fuel i ;; mret tt.

Definition write_system (fuel : nat) (name : string) : BK unit :=
  open_file name ;;
  i ← copy_file fuel;
  modify (fun s => s <| fd := None |>) ;;
  if i >? SYS_SIZE * 16 then die "System is too big" else mret tt.

(** [argv] with the name of the program first; [argc] is its length *)
Definition main (fuel : nat) (argv : list string) : BK Z :=
  let argc := Z.of_nat (length argv) in
  if negb (argc =? 4) && negb (argc =? 5) then usage else
  '(major_root, minor_root) ← root_device argv;
  if negb (major_root =? 2) && negb (major_root =? 3) && negb (major_root =? 0)
  then die "Bad root device --- major #" else
  modify (fun s => s <| buf := replicate (Z.to_nat sizeof_buf) 0 |>) ;;
  boot ← deref (argv !! 1%nat); setup ← deref (argv !! 2%nat); system ← deref (argv !! 3%nat);
  write_boot boot major_root minor_root ;;
  write_setup fuel setup ;;
  write_system fuel system ;;
  mret 0.
End Build.

(** before [main], with any contents of [buf] *)
Definition build_start (b : list Z) : build_st := mk_build None b [] 0 0.

(** ** The image that three files make, if they are what they should be *)

Definition minix_header (h : list Z) : bool :=
  bool_decide (length h = 32%nat) && (s32 (get32 h 0) =? 0x04100301) && (s32 (get32 h 4) =? 32) &&
  (s32 (get32 h 12) =? 0) && (s32 (get32 h 16) =? 0) && (s32 (get32 h 20) =? 0) && (s32 (get32 h 28) =? 0).
(** the contents of an object file behind its header *)
Definition object_body (f : option (list Z)) : option (list Z) :=
  l ← f; if minix_header (take 32 l) then Some (drop 32 l) else None.

Definition boot_part (f : option (list Z)) (major minor : Z) : option (list Z) :=
  l ← object_body f;
  if bool_decide (length l = 512%nat) && (get16 l 510 =? 0xAA55)
  then Some (<[509%nat := u8 major]> (<[508%nat := u8 minor]> l)) else None.
Definition setup_part (f : option (list Z)) : option (list Z) :=
  l ← object_body f;
  if bool_decide (length l <= 2048)%nat then Some (l ++ replicate (2048 - length l) 0) else None.
Definition system_part (f : option (list Z)) : option (list Z) :=
  l ← f; if Z.of_nat (length l) <=? 196608 then Some l else None.
Definition image_of (boot setup system : option (list Z)) (major minor : Z) : option (list Z) :=
  a ← boot_part boot major minor; b ← setup_part setup; c ← system_part system; Some (a ++ b ++ c).

(** ** Lists *)

Lemma get8_app l r i : (i < length l)%nat -> get8 (l ++ r) i = get8 l i.
Proof. intros Hi. unfold get8. by rewrite lookup_app_l. Qed.
Lemma get16_app l r i : (i + 1 < length l)%nat -> get16 (l ++ r) i = get16 l i.
Proof. intros Hi. unfold get16. by rewrite !get8_app by lia. Qed.
Lemma get32_app l r i : (i + 3 < length l)%nat -> get32 (l ++ r) i = get32 l i.
Proof. intros Hi. unfold get32. by rewrite !get16_app by lia. Qed.

(** ** A host on which every read and write succeeds *)

Section Facts.
Context `{Host} (Hread : forall k, read_error k = false) (Hwrite : forall k c, write_ret k c = c).

Lemma read_run n s l : fd s = Some l -> (length (take (Z.to_nat n) l) <= length (buf s))%nat ->
  exists s', read n s = Ret (Z.of_nat (length (take (Z.to_nat n) l))) s' /\
    fd s' = Some (drop (Z.to_nat n) l) /\ image s' = image s /\ length (buf s') = length (buf s) /\
    exists r, buf s' = take (Z.to_nat n) l ++ r.
Proof using Hread.
  intros Hf Hb. unfold read. mrun. rewrite Hread, Hf. mrun.
  eexists. split; [reflexivity|]. unfold upd; cbn. split; [done|]. split; [done|].
  split; [|eauto]. rewrite length_app, length_drop. lia.
Qed.

Lemma write_run c s : 0 <= c <= Z.of_nat (length (buf s)) -> c < 2 ^ 32 ->
  exists s', write c s = Ret c s' /\ fd s' = fd s /\ buf s' = buf s /\
    image s' = image s ++ take (Z.to_nat c) (buf s).
Proof using Hwrite.
  intros Hc Hb. unfold write. mrun. rewrite Hwrite, u32_id by lia.
  eexists. split; [reflexivity|]. done.
Qed.

(** ** Copying a file to the image *)
Lemma copy_from l : forall fuel i s, fd s = Some l -> length (buf s) = 1024%nat ->
  0 <= i -> i + Z.of_nat (length l) < 2 ^ 32 -> (length l < 1024 * fuel - 1023)%nat -> (0 < fuel)%nat ->
  exists s', loop fuel copy_block i s =
      Ret (i + Z.of_nat (length l)) s' /\
    image s' = image s ++ l /\ length (buf s') = 1024%nat.
Proof using Hread Hwrite.
  remember (length l) as n eqn:Hn. revert l Hn.
  induction n as [n IH] using lt_wf_ind. intros l Hn fuel i s Hf Hb Hi Hl Hfuel Hpos.
  destruct fuel as [|fuel]; [lia|].
  destruct (read_run sizeof_buf s l Hf) as (s1 & Hrun & Hf1 & Him1 & Hlen1 & r & Hb1);
    [rewrite length_take; unfold sizeof_buf; lia|].
  change (Z.to_nat sizeof_buf) with 1024%nat in *. rewrite length_take in Hrun.
  destruct (decide (n = 0%nat)) as [Hz|Hnz].
  - exists s1. assert (l = []) as -> by (apply nil_length_inv; lia). cbn in Hn.
    split; [|split; [by rewrite app_nil_r|congruence]].
    subst n. rewrite Z.add_0_r. apply loop_done. by mstep Hrun.
  - destruct (write_run (Z.of_nat (min 1024 (length l))) s1) as (s2 & Hrun2 & Hf2 & Hb2 & Him2); [lia..|].
    destruct (IH (n - min 1024 n)%nat ltac:(lia) (drop 1024 l) ltac:(rewrite length_drop; lia)
      fuel (i + Z.of_nat (min 1024 n)) s2) as (s' & Hrun' & Him' & Hb'); [congruence|congruence|lia..|].
    exists s'. split; [|split; [|done]].
    + etransitivity; [eapply loop_again|].
      * mstep Hrun. rewrite (proj2 (Z.gtb_lt _ _)) by lia. cbn [negb]. mstep Hrun2.
        rewrite Z.eqb_refl. cbn [negb]. rewrite u32_id by lia. reflexivity.
      * rewrite <- Hn. etransitivity; [exact Hrun'|]. f_equal. lia.
    + rewrite Him', Him2, Him1, Hb1, Nat2Z.id, <- app_assoc. f_equal.
      rewrite take_app_le by (rewrite length_take; lia). rewrite take_take, Nat.min_l by lia.
      rewrite <- (take_drop 1024 l) at 4. f_equal.
      destruct (decide (1024 <= length l)%nat).
      * by rewrite Nat.min_l by lia.
      * rewrite Nat.min_r, !take_ge by lia. done.
Qed.

(** ** The parts of [main]

    [runs m s img]: [m] succeeds and appends [img] to the image, or it fails when there is no [img] *)
Definition runs (m : M build_st unit) (s : build_st) (img : option (list Z)) : Prop :=
  match img with
  | Some p => exists s', m s = Ret tt s' /\ image s' = image s ++ p /\ length (buf s') = 1024%nat
  | None => value_of (m s) = None
  end.

Lemma bind_value_None {A B} (m : M build_st A) (k : A -> M build_st B) s :
  value_of (m s) = None -> value_of ((m ≫= k) s) = None.
Proof. unfold mbind, M_bind. by destruct (m s). Qed.

Lemma read_fails n s : fd s = None -> exists s', read n s = Ret (2 ^ 32 - 1) s' /\ fd s' = None /\
  image s' = image s /\ buf s' = buf s.
Proof using Hread. intros Hf. unfold read. mrun. rewrite Hread, Hf. mrun. eexists. split; [reflexivity|]. done. Qed.

Lemma check_header_run what s : length (buf s) = 1024%nat ->
  match object_body (fd s) with
  | Some body => exists s', check_header what s = Ret tt s' /\ fd s' = Some body /\ image s' = image s /\ length (buf s') = 1024%nat
  | None => value_of (check_header what s) = None
  end.
Proof using Hread.
  intros Hb. unfold check_header. destruct (fd s) as [l|] eqn:Hf.
  - destruct (read_run MINIX_HEADER s l Hf) as (s1 & Hrun & Hf1 & Him1 & Hlen1 & r & Hb1).
    { rewrite length_take. unfold MINIX_HEADER. lia. }
    change (Z.to_nat MINIX_HEADER) with 32%nat in *. cbn [object_body mbind option_bind].
    rewrite (bind_Ret _ _ _ _ _ Hrun). unfold minix_header, MINIX_HEADER. set (h := take 32 l) in *.
    destruct (decide (length h = 32%nat)) as [Hh|Hh].
    2:{ rewrite bool_decide_false by done. rewrite (proj2 (Z.eqb_neq (Z.of_nat (length h)) _)) by lia. done. }
    rewrite bool_decide_true, Hh by done. change (Z.of_nat 32 =? 32) with true. cbn [andb negb].
    unfold int_at. mrun. rewrite Hb1, !get32_app by lia.
    repeat (match goal with |- context [?p =? ?q] => destruct (p =? q); cbn [andb negb]; [|done] end).
    mrun. exists s1. repeat split; congruence.
  - destruct (read_fails MINIX_HEADER s Hf) as (s1 & Hrun & _). cbn [object_body mbind option_bind].
    rewrite (bind_Ret _ _ _ _ _ Hrun). done.
Qed.

(** the files are of a length that [fuel] rounds of copying are enough for *)
Context (fuel : nat) (Hfuel : (3 <= fuel)%nat).
Context (Hsize : forall name l, file_of name = Some l -> (length l < 1024 * fuel - 1023)%nat /\ Z.of_nat (length l) < 2 ^ 32).

Lemma copy_file_run s l : fd s = Some l -> length (buf s) = 1024%nat ->
  (length l < 1024 * fuel - 1023)%nat -> Z.of_nat (length l) < 2 ^ 32 ->
  exists s', copy_file fuel s = Ret (Z.of_nat (length l)) s' /\ image s' = image s ++ l /\ length (buf s') = 1024%nat.
Proof using Hread Hwrite Hfuel. intros Hf Hb Hl Hz. by apply (copy_from l fuel 0); [..|lia]. Qed.

(** a file that could not be opened is read for ever: the error number of [read]
    and that of [write] are the same unsigned number *)
Lemma copy_file_lost s : fd s = None -> value_of (copy_file fuel s) = None.
Proof using Hread Hwrite.
  unfold copy_file. generalize 0 at 1. clear Hfuel Hsize. revert s.
  induction fuel as [|n IH]; intros s i Hf; [done|].
  destruct (read_fails sizeof_buf s Hf) as (s1 & Hrun & Hf1 & _).
  cbn [loop]. rewrite (bind_Ret _ _ _ (inl (u32 (i + (2 ^ 32 - 1))))
    (s1 <| writes ::= S |> <| image ::= fun o => o ++ take (Z.to_nat (2 ^ 32 - 1)) (buf s1) |>)).
  - apply IH. exact Hf1.
  - mstep Hrun. change (2 ^ 32 - 1 >? 0) with true. cbn [negb].
    etransitivity; [apply (bind_Ret _ _ _ (2 ^ 32 - 1) (s1 <| writes ::= S |> <| image ::= fun o => o ++ take (Z.to_nat (2 ^ 32 - 1)) (buf s1) |>))|].
    + unfold write. unfold mbind, M_bind, gets, modify, mret, M_ret, id. by rewrite Hwrite.
    + by rewrite Z.eqb_refl.
Qed.

(** the first statement of a part *)
Lemma opened name s : exists s0, (forall B (k : unit -> M build_st B), (open_file name ≫= k) s = k tt s0) /\
  fd s0 = file_of name /\ image s0 = image s /\ buf s0 = buf s.
Proof. eexists. split; [intros; reflexivity|]. done. Qed.

Lemma write_boot_run name major minor s : length (buf s) = 1024%nat ->
  runs (write_boot name major minor) s (boot_part (file_of name) major minor).
Proof using Hread Hwrite. clear fuel Hfuel Hsize.
  intros Hb. unfold write_boot, boot_part, runs.
  destruct (opened name s) as (s0 & Hopen & Hf0 & Him0 & Hb0).
  pose proof (check_header_run "'boot'" s0 ltac:(congruence)) as Hc. rewrite Hf0 in Hc.
  rewrite Hopen.
  destruct (object_body (file_of name)) as [body|]; cbn [mbind option_bind];
    [|by apply bind_value_None].
  destruct Hc as (s1 & Hrun & Hf1 & Him1 & Hb1). rewrite (bind_Ret _ _ _ _ _ Hrun).
  destruct (read_run sizeof_buf s1 body Hf1) as (s2 & Hrun2 & Hf2 & Him2 & Hb2 & r & Hbuf);
    [rewrite length_take; unfold sizeof_buf; lia|].
  change (Z.to_nat sizeof_buf) with 1024%nat in *. rewrite length_take in Hrun2.
  rewrite (bind_Ret _ _ _ _ _ Hrun2).
  destruct (decide (length body = 512%nat)) as [Hlen|Hlen].
  2:{ rewrite bool_decide_false by done. rewrite (proj2 (Z.eqb_neq (Z.of_nat (1024 `min` length body)) _)) by lia. done. }
  rewrite bool_decide_true, Hlen by done. change (Z.of_nat (1024 `min` 512) =? 512) with true. cbn [negb andb].
  rewrite take_ge in Hbuf by lia.
  change ((gets id ≫= ?k) s2) with (k s2 s2). cbv beta.
  rewrite Hbuf, get16_app by lia.
  destruct (get16 body 510 =? 43605); cbn [negb]; [|done].
  set (s3 := s2 <| buf ::= <[508%nat:=u8 minor]> |> <| buf ::= <[509%nat:=u8 major]> |>).
  assert (buf s3 = <[509%nat := u8 major]> (<[508%nat := u8 minor]> body) ++ r) as Hb3.
  { unfold s3, upd; cbn. by rewrite Hbuf, !insert_app_l by (rewrite ?length_insert; lia). }
  assert (length (buf s3) = 1024%nat) as Hl3. { unfold s3, upd; cbn. rewrite !length_insert. congruence. }
  destruct (write_run 512 s3) as (s4 & Hrun4 & Hf4 & Hb4 & Him4); [lia..|].
  exists (s4 <| fd := None |>). split; [|split].
  - change ((modify _ ≫= fun _ => modify _ ≫= ?k) s2) with (k tt s3). cbv beta.
    rewrite (bind_Ret _ _ _ _ _ Hrun4). done.
  - unfold upd; cbn [image]. rewrite Him4, Hb3. change (Z.to_nat 512) with 512%nat.
    rewrite take_app_length' by (rewrite !length_insert; done). f_equal. unfold s3, upd; cbn. congruence.
  - unfold upd; cbn [buf]. congruence.
Qed.

Lemma object_body_le f l : object_body f = Some l -> exists l0, f = Some l0 /\ (length l <= length l0)%nat.
Proof.
  clear. destruct f as [l0|]; [|done]. cbn. case_match; [|done]. intros [= <-]. exists l0.
  rewrite length_drop. split; [done|lia].
Qed.

Lemma pad_run i s : buf s = replicate 1024 0 -> 0 <= i <= 2048 ->
  exists s', pad_setup fuel i s = Ret 2048 s' /\ image s' = image s ++ replicate (Z.to_nat (2048 - i)) 0 /\ buf s' = replicate 1024 0.
Proof using Hwrite Hfuel.
  clear Hsize. assert (forall n i s, buf s = replicate 1024 0 -> 0 <= i <= 2048 -> 2048 - i <= 1024 * (Z.of_nat n - 1) ->
    exists s', pad_setup n i s = Ret 2048 s' /\ image s' = image s ++ replicate (Z.to_nat (2048 - i)) 0 /\ buf s' = replicate 1024 0) as Hpad.
  - clear i s Hfuel fuel. intros n. induction n as [|n IH]; intros i s Hb Hi Hn; [lia|].
    destruct (decide (i = 2048)) as [->|Hne].
    { exists s. split; [by apply loop_done|]. by rewrite app_nil_r. }
    set (c := if 2048 - i >? 1024 then 1024 else 2048 - i).
    assert (0 < c <= 1024 /\ c <= 2048 - i /\ (c = 1024 \/ c = 2048 - i)) as (Hc & Hc' & Hc'').
    { unfold c. destruct (Z.gtb_spec (2048 - i) 1024); lia. }
    destruct (write_run c s) as (s1 & Hrun & _ & Hb1 & Him1); [rewrite Hb, length_replicate; lia|lia|].
    destruct (IH (i + c) s1) as (s' & Hrun' & Him' & Hb'); [congruence|lia..|].
    exists s'. split; [|split; [|done]].
    + etransitivity; [eapply loop_again|exact Hrun']. cbv beta zeta.
      change (SETUP_SECTS * 512) with 2048. change sizeof_buf with 1024. fold c.
      rewrite (proj2 (Z.ltb_lt _ _)) by lia. cbn [negb]. mstep Hrun. by rewrite Z.eqb_refl.
    + rewrite Him', Him1, Hb, <- app_assoc, take_replicate, Nat.min_l by lia.
      rewrite <- replicate_add. do 2 f_equal. lia.
  - intros Hb Hi. apply Hpad; [done..|lia].
Qed.

Lemma write_setup_run name s : length (buf s) = 1024%nat ->
  runs (write_setup fuel name) s (setup_part (file_of name)).
Proof using Hread Hwrite Hfuel Hsize.
  intros Hb. unfold write_setup, setup_part, runs.
  destruct (opened name s) as (s0 & Hopen & Hf0 & Him0 & Hb0).
  pose proof (check_header_run "'setup'" s0 ltac:(congruence)) as Hc. rewrite Hf0 in Hc. rewrite Hopen.
  destruct (object_body (file_of name)) as [body|] eqn:Hbody; cbn [mbind option_bind];
    [|by apply bind_value_None].
  destruct Hc as (s1 & Hrun & Hf1 & Him1 & Hb1). rewrite (bind_Ret _ _ _ _ _ Hrun).
  apply object_body_le in Hbody as (l0 & Hl0 & Hle). pose proof (Hsize _ _ Hl0).
  destruct (copy_file_run s1 body Hf1 Hb1) as (s2 & Hrun2 & Him2 & Hb2); [lia..|].
  rewrite (bind_Ret _ _ _ _ _ Hrun2). change ((modify ?f ≫= ?k) s2) with (k tt (f s2)). cbv beta.
  change (SETUP_SECTS * 512) with 2048.
  destruct (Z.gtb_spec (Z.of_nat (length body)) 2048) as [Hgt|Hng].
  { by rewrite bool_decide_false by lia. }
  rewrite bool_decide_true by lia.
  set (s3 := s2 <| fd := None |> <| buf := replicate (Z.to_nat sizeof_buf) 0 |>).
  destruct (pad_run (Z.of_nat (length body)) s3) as (s' & Hrun' & Him' & Hb'); [done|lia|].
  exists s'. split; [|split].
  - change ((modify _ ≫= ?k) (s2 <| fd := None |>)) with (k tt s3). cbv beta. by mstep Hrun'.
  - rewrite Him'. change (image s3) with (image s2). rewrite Him2, <- app_assoc. 
    replace (Z.to_nat (2048 - Z.of_nat (length body))) with (2048 - length body)%nat by lia. congruence.
  - by rewrite Hb', length_replicate.
Qed.

Lemma write_system_run name s : length (buf s) = 1024%nat ->
  runs (write_system fuel name) s (system_part (file_of name)).
Proof using Hread Hwrite Hfuel Hsize.
  intros Hb. unfold write_system, system_part, runs.
  destruct (opened name s) as (s0 & Hopen & Hf0 & Him0 & Hb0). rewrite Hopen.
  destruct (file_of name) as [l|] eqn:Hl; cbn [mbind option_bind].
  2:{ by apply bind_value_None, copy_file_lost. }
  destruct (Hsize _ _ Hl). destruct (copy_file_run s0 l Hf0) as (s2 & Hrun2 & Him2 & Hb2); [congruence|lia..|].
  rewrite (bind_Ret _ _ _ _ _ Hrun2). change ((modify ?f ≫= ?k) s2) with (k tt (f s2)). cbv beta.
  change (SYS_SIZE * 16) with 196608.
  destruct (Z.gtb_spec (Z.of_nat (length l)) 196608), (Z.leb_spec (Z.of_nat (length l)) 196608); try lia; [done|].
  eexists. split; [reflexivity|]. split; [|done]. change (image (upd fd _ s2)) with (image s2). congruence.
Qed.

Lemma runs_then (m1 m2 : M build_st unit) s p1 p2 : runs m1 s p1 ->
  (forall s', length (buf s') = 1024%nat -> runs m2 s' p2) ->
  runs (m1 ;; m2) s (a ← p1; b ← p2; Some (a ++ b)).
Proof.
  clear. intros H1 H2. destruct p1 as [a|]; cbn [mbind option_bind]; [|by apply bind_value_None].
  destruct H1 as (s1 & Hrun1 & Him1 & Hb1). specialize (H2 s1 Hb1). unfold runs.
  destruct p2 as [b|]; cbn [mbind option_bind runs] in *.
  - destruct H2 as (s2 & Hrun2 & Him2 & Hb2). exists s2. split; [by mstep Hrun1|]. split; [|done].
    by rewrite Him2, Him1, <- app_assoc.
  - by rewrite (bind_Ret _ _ _ _ _ Hrun1).
Qed.

(** C40: with files that can be read and an output that can be written, the build
    tool succeeds exactly when the boot sector is 512 bytes that end in the boot
    flag, the setup is at most four sectors, both with the header of an object
    file of their kind, the system is at most 192 KB and the root device is a
    floppy, a hard disk or none.  The image is then the boot sector with the
    root device in bytes 508 and 509, the setup padded with zeros to four
    sectors, and the system; in all other cases there is no result. *)
Theorem build_image_correct prog boot setup system dev major minor b :
  (length dev <= 1)%nat ->
  (forall s, root_device (prog :: boot :: setup :: system :: dev) s = Ret (major, minor) s) ->
  match (if bool_decide (major ∈ [0; 2; 3]) then image_of (file_of boot) (file_of setup) (file_of system) major minor else None) with
  | Some img => exists s', main fuel (prog :: boot :: setup :: system :: dev) (build_start b) = Ret 0 s' /\ image s' = img
  | None => value_of (main fuel (prog :: boot :: setup :: system :: dev) (build_start b)) = None
  end.
Proof using Hread Hwrite Hfuel Hsize.
  intros Hdev Hroot. unfold main. set (argv := prog :: boot :: setup :: system :: dev) in *.
  assert (negb (Z.of_nat (length argv) =? 4) && negb (Z.of_nat (length argv) =? 5) = false) as ->.
  { unfold argv. destruct dev as [|? [|]]; [done..|cbn in Hdev; lia]. }
  rewrite (bind_Ret _ _ _ _ _ (Hroot _)). cbv beta iota.
  assert (negb (major =? 2) && negb (major =? 3) && negb (major =? 0) = negb (bool_decide (major ∈ [0; 2; 3]))) as ->.
  { case_bool_decide as Hm.
    - rewrite !elem_of_cons in Hm. destruct Hm as [->|[->|[->|Hm]]]; [done..|by apply not_elem_of_nil in Hm].
    - rewrite !(proj2 (Z.eqb_neq _ _)); [done|intros ->; apply Hm; set_solver..]. }
  destruct (bool_decide (major ∈ [0; 2; 3])); cbn [negb]; [|done].
  set (s0 := (build_start b) <| buf := replicate (Z.to_nat sizeof_buf) 0 |>).
  change ((modify _ ≫= ?k) (build_start b)) with (k tt s0). cbv beta.
  change ((deref _ ≫= ?k) s0) with (k boot s0). cbv beta.
  change ((deref _ ≫= ?k) s0) with (k setup s0). cbv beta.
  change ((deref _ ≫= ?k) s0) with (k system s0). cbv beta.
  assert (length (buf s0) = 1024%nat) as Hb0 by apply length_replicate.
  pose proof (runs_then _ _ s0 _ _ (write_boot_run boot major minor s0 Hb0)
    (fun s1 H1 => runs_then _ _ s1 _ _ (write_setup_run setup s1 H1) (fun s2 H2 => write_system_run system s2 H2))) as Hall.
  assert (forall k : unit -> M build_st Z, ((write_boot boot major minor ≫= fun _ => write_setup fuel setup ≫= fun _ => write_system fuel system ≫= k) s0)
    = ((write_boot boot major minor ≫= fun _ => write_setup fuel setup ≫= fun _ => write_system fuel system) ≫= k) s0) as Hassoc.
  { intros k. unfold mbind, M_bind. destruct (write_boot _ _ _ s0); [|done..]. by destruct (write_setup _ _ _). }
  rewrite Hassoc. unfold image_of.
  destruct (boot_part _ _ _) as [p1|], (setup_part _) as [p2|], (system_part _) as [p3|];
    cbn [mbind option_bind] in *; try by apply bind_value_None.
  destruct Hall as (s' & Hrun & Him & _). exists s'. split; [by mstep Hrun|exact Him].
Qed.
End Facts.

(** ** A boot sector, a setup of three bytes and a system of two *)
Definition header : list Z := [1; 3; 16; 4; 32; 0; 0; 0] ++ replicate 24 0.
Definition sector : list Z := replicate 510 7 ++ [0x55; 0xAA].
Definition small_host : Host := mk_host
  (fun name => if bool_decide (name = "b"%string) then Some (header ++ sector)
               else if bool_decide (name = "s"%string) then Some (header ++ [1; 2; 3])
               else if bool_decide (name = "y"%string) then Some [8; 9] else None)
  (fun _ => None) (fun _ => false) (fun _ c => c).

Lemma build_image_correct_witness : exists s',
  @main small_host 4 ["build"; "b"; "s"; "y"]%string (build_start []) = Ret 0 s' /\
  image s' = replicate 508 7 ++ [1; 3; 0x55; 0xAA] ++ [1; 2; 3] ++ replicate 2045 0 ++ [8; 9].
Proof.
  refine (@build_image_correct small_host (fun _ => eq_refl) (fun _ _ => eq_refl) 4 ltac:(lia) _
    "build"%string "b"%string "s"%string "y"%string [] 3 1 [] ltac:(cbn; lia) (fun _ => eq_refl)).
  intros name l. cbn. repeat case_bool_decide; intros [= <-]; vm_compute; split; lia || reflexivity.
Defined.
