(* ===== verification/Init.v ===== *)
(** * init/main.cc and lib/: the first user program

    After [kmain] has moved to user mode it forks; the parent becomes task 0,
    which pauses for ever, and the child runs [init], which starts the shells
    and waits for them.  Both talk to the kernel through the call stubs of lib/
    only, so they are interaction trees over the system calls: an event for
    each [int $0x80], answered with the register [eax], one for each store to
    [errno] and each store of a format's [%n], and one for what C leaves
    undefined.  [execve] answers only when it fails, [exit] never. *)

From S2P Require Import Prelude Vsprintf Boot.
From ITree Require Import ITree.

#[export] Instance itree_ret E : MRet (itree E) := fun A a => ITreeDefinition.Ret a.
#[export] Instance itree_bind E : MBind (itree E) := fun A B k t => ITree.bind t k.

(** ** The calls: number and arguments, a pointer by what it points to *)
Inductive call : Type :=
| Setup | Fork | Pause | Sync | Setsid
| Open (filename : string) (flag mode : Z)
| Close (fd : Z)
| Dup (fd : Z)
| Write (fd : Z) (buf : list Z)
| Waitpid (pid options : Z)
| Execve (file : string) (argv envp : list string)
| Exit (exit_code : Z).
(** what comes back: [eax], and for [waitpid] what was stored at [wait_stat] *)
Definition answer (c : call) : Type :=
  match c with Waitpid _ _ => Z * option Z | Exit _ => Empty_set | _ => Z end.

Inductive userE : Type -> Type :=
| Int80 (c : call) : userE (answer c)
| Set_errno (e : Z) : userE unit
| Store (address value : Z) : userE unit
| Undefined : userE Empty_set.
Definition prog : Type -> Type := itree userE.
Definition sys (c : call) : prog (answer c) := ITree.trigger (Int80 c).

(** ** lib/: the stubs *)

(** [if (__res >= 0) return __res; errno = -__res; return -1] *)
Definition result (res : Z) : prog Z :=
  if 0 <=? s32 res then mret (s32 res)
  else ITree.trigger (Set_errno (s32 (- s32 res))) ≫= fun _ => mret (-1).

Definition fork : prog Z := res ← sys Fork; result res.
Definition pause : prog Z := res ← sys Pause; result res.
Definition setup : prog Z := res ← sys Setup; result res.
Definition sync : prog Z := res ← sys Sync; result res.
Definition setsid : prog Z := res ← sys Setsid; result res.
Definition open (filename : string) (flag mode : Z) : prog Z := res ← sys (Open filename flag mode); result res.
Definition close (fd : Z) : prog Z := res ← sys (Close fd); result res.
Definition dup (fd : Z) : prog Z := res ← sys (Dup fd); result res.
Definition write (fd : Z) (buf : list Z) : prog Z := res ← sys (Write fd buf); result res.
Definition execve (file : string) (argv envp : list string) : prog Z := res ← sys (Execve file argv envp); result res.
Definition _exit (exit_code : Z) : prog Empty_set := sys (Exit exit_code).
(** the result and the new contents of [*wait_stat], if it was written *)
Definition waitpid (pid options : Z) : prog (Z * option Z) :=
  a ← sys (Waitpid pid options);
  let '(res, stat) := (a : Z * option Z) in
  r ← result res; mret (r, stat).
Definition wait : prog (Z * option Z) := waitpid (-1) 0.

(** ** printf and sprintf *)
Definition undefined {A} : prog A := ITree.trigger Undefined ≫= fun e : Empty_set => match e with end.
Definition printbuf_size : nat := 1024.

Section Printf.
(** the memory of the program, for [%s] *)
Context (mem : Z -> Z).

Definition sprintf (fmt : list Z) (args : list Z) : option (list Z * Z * list (Z * Z)) := vsprintf mem 1024 fmt args.
(** a missing argument or more than [printbuf] holds is undefined *)
Definition printf (fmt : string) (args : list Z) : prog Z :=
  match sprintf (chars fmt) args with
  | Some (bytes, i, stores) =>
      if decide (length bytes <= printbuf_size)%nat then
        foldr (fun st k => ITree.trigger (Store (fst st) (snd st)) ≫= fun _ => k)
          (write 1 (take (Z.to_nat i) bytes) ≫= fun _ => mret i) stores
      else undefined
  | None => undefined
  end.
End Printf.
Arguments printf mem fmt%_string args.

(** a string with a line feed and a carriage return *)
Definition nl : string := String (Ascii.ascii_of_nat 10) "".
Definition cr : string := String (Ascii.ascii_of_nat 13) "".

(** [CON_ROWS]: the low byte of the word at 0x9000e *)
Definition CON_ROWS (w : Z) : Z := Z.land w 0xff.
(** the variable [term] that [kmain] sets *)
Definition term (con_word : Z) : option (list Z * Z * list (Z * Z)) :=
  sprintf (fun _ => 0) (chars "TERM=con%dx%d") [CON_COLS con_word; CON_ROWS con_word].

(** ** init *)
Definition O_RDONLY : Z := 0.
Definition O_RDWR : Z := 2.
Definition argv_rc : list string := ["/bin/sh"%string].
Definition envp_rc : list string := ["HOME=/"%string].
Definition argv : list string := ["-/bin/sh"%string].
Definition envp : list string := ["HOME=/usr/root"%string].

Section Init.
(** the memory, the number of buffers, the bytes of main memory, and what
    the variable [i] holds before the first [wait] stores into it *)
Context (mem : Z -> Z) (nr_buffers free_mem i0 : Z).

(** [while (pid != wait(&i));]: the value of [i] when [pid] has died *)
Definition wait_for (pid i : Z) : prog Z :=
  ITree.iter (fun i =>
    '(r, stat) ← wait;
    let i := default i stat in
    mret (if r =? pid then inr i else inl i)) i.

(** the child that runs the start-up script *)
Definition run_rc : prog Empty_set :=
  close 0 ≫= fun _ =>
  fd ← open "/etc/rc" O_RDONLY 0;
  if nz fd then _exit 1 else
  execve "/bin/sh" argv_rc envp_rc ≫= fun _ =>
  _exit 2.

(** the child that becomes a login shell *)
Definition run_shell : prog Empty_set :=
  close 0 ≫= fun _ => close 1 ≫= fun _ => close 2 ≫= fun _ =>
  setsid ≫= fun _ =>
  open "/dev/tty0" O_RDWR 0 ≫= fun _ =>
  dup 0 ≫= fun _ => dup 0 ≫= fun _ =>
  r ← execve "/bin/sh" argv envp;
  _exit r.

(** one round of the last loop, with the value of [i] *)
Definition serve (i : Z) : prog Z :=
  pid ← fork;
  if pid <? 0 then printf mem ("Fork failed in init" ++ cr ++ nl) [] ≫= fun _ => mret i
  else if negb (nz pid) then run_shell ≫= fun e : Empty_set => match e with end
  else
    i ← wait_for pid i;
    printf mem (nl ++ cr ++ "child %d died with code %04x" ++ nl ++ cr) [u32 pid; u32 i] ≫= fun _ =>
    sync ≫= fun _ =>
    mret i.

Definition serve_forever (i : Z) : prog Empty_set :=
  ITree.iter (fun i => i ← serve i; mret (inl i)) i.

Definition init : prog Empty_set :=
  printf mem ("entering init" ++ nl) [] ≫= fun _ =>
  setup ≫= fun _ =>
  open "/dev/tty0" O_RDWR 0 ≫= fun _ =>
  dup 0 ≫= fun _ => dup 0 ≫= fun _ =>
  printf mem ("%d buffers = %d bytes buffer space" ++ nl ++ cr) [u32 nr_buffers; u32 (nr_buffers * 1024)] ≫= fun _ =>
  printf mem ("Free mem: %d bytes" ++ nl ++ cr) [u32 free_mem] ≫= fun _ =>
  pid ← fork;
  if negb (nz pid) then run_rc else
  i ← (if 0 <? pid then wait_for pid i0 else mret i0);
  serve_forever i.

(** the end of [kmain], in user mode *)
Definition task0 : prog Empty_set :=
  pid ← fork;
  if pid =? 0 then init
  else ITree.iter (fun _ => pause ≫= fun _ => mret (inl tt)) tt.
End Init.

(** ** Runs: what happens when the kernel answers

    [kernel] gives the answer to a call after the events so far, [None] when
    the call does not return to this program.  [fuel] bounds the steps. *)
Inductive event : Type :=
| Called (c : call) (a : answer c)
| Last (c : call)
| Errno (e : Z)
| Stored (address value : Z)
| Undef.

Section Run.
Context (kernel : list event -> forall c, option (answer c)).

Fixpoint run {R} (fuel : nat) (past : list event) (t : prog R) : list event :=
  match fuel with
  | O => []
  | S fuel =>
      let next (v : event) (t : prog R) := v :: run fuel (past ++ [v]) t in
      match observe t with
      | RetF _ => []
      | TauF t => run fuel past t
      | VisF e k =>
          match e in userE X return (X -> prog R) -> list event with
          | Int80 c => fun k => match kernel past c with Some a => next (Called c a) (k a) | None => [Last c] end
          | Set_errno v => fun k => next (Errno v) (k tt)
          | Store a v => fun k => next (Stored a v) (k tt)
          | Undefined => fun _ => [Undef]
          end k
      end
  end.
End Run.

(** a kernel that gives the process number 7 to each child and answers the
    calls of [wait] with it and the status 256, or with another one *)
Definition patient_kernel (past : list event) (c : call) : option (answer c) :=
  match c return option (answer c) with
  | Fork => Some 7
  | Waitpid _ _ => Some (if Nat.even (length past) then (7, Some 256) else (3, None))
  | Exit _ => None
  | _ => Some 0
  end.
(** the calls with what the first word of the answer was, and the texts written *)
Definition brief (e : event) : string * Z * list Z :=
  match e with
  | Called c a =>
      match c return answer c -> string * Z * list Z with
      | Fork => fun a => ("fork"%string, a, [])
      | Waitpid _ _ => fun a => ("wait"%string, fst a, [])
      | Sync => fun a => ("sync"%string, a, [])
      | Write _ b => fun a => ("write"%string, a, b)
      | _ => fun _ => ("call"%string, 0, [])
      end a
  | _ => ("other"%string, 0, [])
  end.
Example init_run :
  brief <$> run patient_kernel 15 [] (init (fun _ => 0) 10 5 0) =
  [("write"%string, 0, chars ("entering init" ++ nl))] ++ replicate 4 ("call"%string, 0, []) ++
  [("write"%string, 0, chars ("10 buffers = 10240 bytes buffer space" ++ nl ++ cr));
   ("write"%string, 0, chars ("Free mem: 5 bytes" ++ nl ++ cr));
   ("fork"%string, 7, []); ("wait"%string, 7, []); ("fork"%string, 7, []); ("wait"%string, 7, []);
   ("write"%string, 0, chars (nl ++ cr ++ "child 7 died with code 0100" ++ nl ++ cr)); ("sync"%string, 0, []);
   ("fork"%string, 7, [])].
Proof. vm_compute. reflexivity. Qed.
Example term_1 : term 0x5019 = Some (chars "TERM=con80x25" ++ [0], 13, []).
Proof. vm_compute. reflexivity. Qed.
