(* ===== verification/InitFacts.v ===== *)
(** * init/main.cc: what the first user program promises

    An abstract supervisor says which calls the program may make and how the
    answers change what it does next; [init] follows it whatever the kernel
    answers, and never stops between two calls. *)

From ITree Require Import ITree ITreeFacts.
From Paco Require Import paco.
From S2P Require Import Prelude Vsprintf VsprintfFacts Init.

Lemma s32_u32 a : s32 (u32 a) = s32 a.
Proof. unfold s32, u32. by rewrite Zplus_mod_idemp_l. Qed.

(** ** The supervisor *)

(** [Watching rc pid i]: only [wait], until [pid] has died; [rc]: it runs the
    start-up script.  [Reporting]: its death is to be written.  [Child failed]:
    the other side of a fork, [failed] once [execve] has come back.  [i] is the
    status stored last. *)
Inductive phase : Type :=
| Booting (i : Z)
| Serving (i : Z)
| Watching (rc : bool) (pid i : Z)
| Reporting (pid i : Z)
| Flushing (i : Z)
| Child (failed : bool).

Definition death_notice (pid i : Z) : list Z :=
  chars (nl ++ cr ++ "child ") ++ print_number (s32 pid) 10 (-1) (-1) SIGN ++
  chars " died with code " ++ print_number (s32 i) 16 4 (-1) (ZEROPAD + SMALL) ++ chars (nl ++ cr).

Definition permits (p : phase) (c : call) : Prop :=
  match p with
  | Booting _ => match c with Setup | Fork | Open _ _ _ | Dup _ => True | Write fd _ => fd = 1 | _ => False end
  | Serving _ => match c with Fork => True | Write fd _ => fd = 1 | _ => False end
  | Watching _ _ _ => c = Waitpid (-1) 0
  | Reporting pid i => c = Write 1 (death_notice pid i)
  | Flushing _ => c = Sync
  | Child failed =>
      match c with
      | Close _ | Open _ _ _ | Dup _ | Setsid => True
      | Execve file _ _ => file = "/bin/sh"%string
      | Exit n => failed = true \/ n = 1
      | _ => False
      end
  end.

(** what [fork] answers decides who goes on: the child, or the parent with a
    child to watch, or, when it failed, the parent as before *)
Definition forked (rc : bool) (pid i : Z) : phase :=
  if pid =? 0 then Child false else if 0 <? pid then Watching rc pid i else Serving i.
Definition next (p : phase) (c : call) : answer c -> phase :=
  match p, c return answer c -> phase with
  | Booting i, Fork => fun a => forked true (s32 a) i
  | Serving i, Fork => fun a => forked false (s32 a) i
  | Watching rc pid i, Waitpid _ _ => fun a =>
      let i := default i (snd a) in
      if s32 (fst a) =? pid then (if rc then Serving i else Reporting pid i) else Watching rc pid i
  | Reporting _ i, _ => fun _ => Flushing i
  | Flushing i, _ => fun _ => Serving i
  | Child _, Execve _ _ _ => fun _ => Child true
  | p, _ => fun _ => p
  end.

(** a call that does not return is the last event *)
Fixpoint obeys (p : phase) (l : list event) : Prop :=
  match l with
  | [] => True
  | Called c a :: l => permits p c /\ obeys (next p c a) l
  | Last c :: l => permits p c /\ l = []
  | Errno _ :: l => obeys p l
  | Stored _ _ :: _ | Undef :: _ => False
  end.
Definition stopped (l : list event) : Prop := exists l' c, l = l' ++ [Last c].

(** ** Runs *)
Lemma prog_ret_l {A B} (a : A) (k : A -> prog B) : eq_itree eq (mret a ≫= k) (k a).
Proof. exact (bind_ret_l a k). Qed.
Lemma prog_ret_r {A} (t : prog A) : eq_itree eq (t ≫= mret) t.
Proof. exact (bind_ret_r t). Qed.
Lemma prog_assoc {A B C} (t : prog A) (f : A -> prog B) (g : B -> prog C) :
  eq_itree eq ((t ≫= f) ≫= g) (t ≫= fun a => f a ≫= g).
Proof. exact (bind_bind t f g). Qed.

Lemma prog_iter {A B} (body : A -> prog (A + B)) a :
  eq_itree eq (ITree.iter body a)
    (body a ≫= fun lr => match lr with inl a => Tau (ITree.iter body a) | inr b => mret b end).
Proof. exact (unfold_iter body a). Qed.

Lemma prog_tau {A B} (t : prog A) (k : A -> prog B) : eq_itree eq (Tau t ≫= k) (Tau (t ≫= k)).
Proof. exact (bind_tau _ t k). Qed.

Section Runs.
Context (kernel : list event -> forall c, option (answer c)).

(** runs do not tell equal trees apart *)
Lemma run_proper {R} fuel : forall past (t u : prog R), eq_itree eq t u ->
  run kernel fuel past t = run kernel fuel past u.
Proof.
  induction fuel as [|fuel IH]; intros past t u H; [reflexivity|].
  cbn. punfold H. red in H. destruct H as [r1 r2 Hr|t' u' REL|X e k1 k2 REL| |]; try discriminate; pclearbot.
  - reflexivity.
  - by apply IH.
  - destruct e as [c|v|a v|]; [destruct (kernel past c); [|reflexivity]| | |reflexivity]; f_equal; apply IH, REL.
Qed.

(** [good b p n t]: within [n] steps [t] obeys [p], and unless it has stopped at
    a call at least half of the steps, but for [b], were events *)
Definition good {R} (b : nat) (p : phase) (n : nat) (t : prog R) : Prop :=
  forall m past, (m <= n)%nat -> let l := run kernel m past t in
  obeys p l /\ (stopped l \/ (m <= 2 * length l + b)%nat).

Lemma good_mono {R} b b' p n n' (t : prog R) : (b' <= b)%nat -> (n <= n')%nat -> good b' p n' t -> good b p n t.
Proof.
  intros Hb Hn H m past Hm. destruct (H m past ltac:(lia)) as [Ho [Hs|Hl]]; [by auto|]. split; [done|]. right. lia.
Qed.
Lemma good_zero {R} b p (t : prog R) : good b p 0 t.
Proof. intros m past Hm. replace m with 0%nat by lia. cbn. split; [done|]. right. lia. Qed.
#[global] Instance good_proper {R} b p n : Proper (eq_itree eq ==> iff) (good (R := R) b p n).
Proof.
  intros t u H. split; intros Hg m past Hm; specialize (Hg m past Hm).
  - by rewrite <- (run_proper m past t u H).
  - by rewrite (run_proper m past t u H).
Qed.

Lemma stopped_cons e l : stopped l -> stopped (e :: l).
Proof. intros (l' & c & ->). by exists (e :: l'), c. Qed.

Lemma run_subst {R X} m past (k : X -> prog R) x :
  run kernel m past (ITree.subst k (ITreeDefinition.Ret x)) = run kernel m past (k x).
Proof. apply run_proper, (bind_ret_l x k). Qed.

(** an event earns a step without one, a silent step uses it up *)
Lemma good_call {R} b p n c (k : answer c -> prog R) : permits p c ->
  (forall a, good (S b) (next p c a) (n - 1) (k a)) -> good b p n (sys c ≫= k).
Proof.
  intros Hp Hk [|m] past Hm; [apply (good_zero b p); lia|]. cbn -[Nat.mul].
  destruct (kernel past c) as [a|]; [rewrite run_subst|by split; [split|left; exists [], c]].
  destruct (Hk a m (past ++ [Called c a]) ltac:(lia)) as [Ho Hs]. split; [done|].
  destruct Hs as [Hs|Hs]; [left; by apply stopped_cons|right; cbn [length]; lia].
Qed.
Lemma good_errno {R} b p n e (k : unit -> prog R) :
  good (S b) p (n - 1) (k tt) -> good b p n (ITree.trigger (Set_errno e) ≫= k).
Proof.
  intros Hk [|m] past Hm; [apply (good_zero b p); lia|]. cbn -[Nat.mul]. rewrite run_subst.
  destruct (Hk m (past ++ [Errno e]) ltac:(lia)) as [Ho Hs]. split; [done|].
  destruct Hs as [Hs|Hs]; [left; by apply stopped_cons|right; cbn [length]; lia].
Qed.
Lemma good_tau {R} b p n (t : prog R) : good b p (n - 1) t -> good (S b) p n (Tau t).
Proof.
  intros Hk [|m] past Hm; [apply (good_zero (S b) p); lia|]. cbn -[Nat.mul].
  destruct (Hk m past ltac:(lia)) as [Ho Hs]. split; [done|]. destruct Hs as [Hs|Hs]; [by left|right; lia].
Qed.

(** ** The stubs *)

(** the value a stub returns *)
Definition returned (res : Z) : Z := if 0 <=? s32 res then s32 res else -1.
Lemma good_result {R} b p n res (k : Z -> prog R) :
  good b p n (k (returned res)) -> good b p n (result res ≫= k).
Proof.
  intros Hk. unfold result, returned in *. destruct (0 <=? s32 res).
  - rewrite prog_ret_l. exact Hk.
  - rewrite prog_assoc. apply good_errno. rewrite prog_ret_l.
    eapply good_mono; [| |exact Hk]; lia.
Qed.

(** the next call, made through its stub *)
Ltac stub f :=
  unfold f; rewrite ?prog_assoc;
  lazymatch goal with |- good _ _ _ (sys ?c ≫= _) => apply (good_call _ _ _ c) end;
  [try done|intros ?; cbn [next]; apply good_result; cbv beta].

Lemma good_exit {R} b p n m (k : Empty_set -> prog R) : permits p (Exit m) -> good b p n (_exit m ≫= k).
Proof. intros Hp. by apply (good_call b p n (Exit m)). Qed.

(** ** printf *)
Lemma printf_prints mem ps fmt args out : chars fmt = render ps -> Forall wf_piece ps ->
  print mem 1024 ps args = Some out -> (length out < printbuf_size)%nat ->
  printf mem fmt args = write 1 out ≫= fun _ => mret (Z.of_nat (length out)).
Proof.
  intros Hfmt Hwf Hp Hlen. unfold printf, sprintf, vsprintf. rewrite Hfmt, (format_pieces _ _ ps _ _ _ out) by done.
  cbn [mbind option_bind]. rewrite decide_True by (rewrite length_app; cbn [length]; lia). cbn [foldr].
  by rewrite Nat2Z.id, take_app_length.
Qed.
Lemma print_number_length num base width prec type : 2 <= base <= 36 -> - 2 ^ 31 <= num < 2 ^ 31 ->
  width <= 40 -> prec <= 32 -> (length (print_number num base width prec type) <= 40)%nat.
Proof.
  intros Hb Hn Hw Hp. unfold print_number. set (n := if _ && _ then _ else _).
  assert (- 2 ^ 31 <= n < 2 ^ 32) as Hr.
  { unfold n. destruct (_ && _); [|lia]. pose proof (s32_range (- num)). lia. }
  destruct (convert_spec (if has type SMALL then lower_digits else upper_digits) base n) as (_ & Hl & _);
    [by destruct (has type SMALL); [right|left]|done|done|].
  apply Nat2Z.inj_le. rewrite layout_length. pose proof (front_length num base type). lia.
Qed.

(** ** init *)
Section Init.
Context (mem : Z -> Z) (nr_buffers free_mem i0 : Z).

Definition notice_pieces : list piece :=
  [Text (chars (nl ++ cr ++ "child ")); Dir [] None None Conv_d; Text (chars " died with code ");
   Dir (chars "0") (Some 4) None Conv_x; Text (chars (nl ++ cr))].

Lemma good_wait_for {R} b (rc : bool) pid (k : Z -> prog R) n : 0 < pid ->
  (forall i, good b (if rc then Serving i else Reporting pid i) n (k i)) ->
  forall i, good b (Watching rc pid i) n (wait_for pid i ≫= k).
Proof.
  intros Hpid. induction n as [|n IH]; intros Hk i; [apply good_zero|].
  unfold wait_for. rewrite prog_iter. unfold wait, waitpid. rewrite !prog_assoc.
  apply (good_call b _ _ (Waitpid (-1) 0)); [done|]. intros [res stat]. rewrite !prog_assoc. apply good_result.
  cbv beta. rewrite !prog_ret_l. cbn [next fst snd Nat.sub]. rewrite Nat.sub_0_r.
  assert ((returned res =? pid) = (s32 res =? pid)) as ->.
  { unfold returned. destruct (Z.leb_spec 0 (s32 res)); [done|]. by rewrite !(proj2 (Z.eqb_neq _ _)) by lia. }
  destruct (s32 res =? pid).
  - rewrite prog_ret_l. eapply good_mono; [| |apply Hk]; lia.
  - rewrite prog_tau. apply good_tau. eapply good_mono; [| |apply IH]; [lia|lia|].
    intros j. eapply good_mono; [| |apply Hk]; lia.
Qed.


Lemma good_run_rc b n : good b (Child false) n run_rc.
Proof.
  rewrite <- (prog_ret_r run_rc). unfold run_rc. stub close. stub open. destruct (nz _); [apply good_exit; by right|].
  stub execve. apply good_exit. by left.
Qed.
Lemma good_run_shell {R} b n (k : Empty_set -> prog R) : good b (Child false) n (run_shell ≫= k).
Proof.
  unfold run_shell. do 3 stub close. stub setsid. stub open. do 2 stub dup. stub execve. apply good_exit. by left.
Qed.

Lemma good_printf {R} ps fmt args out b p n (k : Z -> prog R) : chars fmt = render ps -> Forall wf_piece ps ->
  print mem 1024 ps args = Some out -> (length out < printbuf_size)%nat -> permits p (Write 1 out) ->
  good (S b) (next p (Write 1 out) 0) (n - 1) (k (Z.of_nat (length out))) ->
  good b p n (printf mem fmt args ≫= k).
Proof.
  intros Hfmt Hwf Hp Hlen Hperm Hk. rewrite (printf_prints mem ps fmt args out) by done.
  stub write. rewrite prog_ret_l. by destruct p.
Qed.

(** a decimal number in [init]'s messages *)
Definition put_d (a : Z) : list Z := print_number (s32 a) 10 (-1) (-1) SIGN.
Lemma put_d_length a : (length (put_d a) <= 40)%nat.
Proof. apply print_number_length; [lia|apply s32_range|lia|lia]. Qed.

Lemma notice_printed pid i : print mem 1024 notice_pieces [u32 pid; u32 i] = Some (death_notice pid i).
Proof.
  unfold notice_pieces, death_notice. cbn -[chars app print_number s32 u32]. rewrite !s32_u32, app_nil_r. reflexivity.
Qed.
Lemma death_notice_length pid i : (length (death_notice pid i) < printbuf_size)%nat.
Proof.
  unfold death_notice. rewrite !length_app.
  assert (length (print_number (s32 pid) 10 (-1) (-1) SIGN) <= 40)%nat by apply put_d_length.
  assert (length (print_number (s32 i) 16 4 (-1) (ZEROPAD + SMALL)) <= 40)%nat
    by (apply print_number_length; [lia|apply s32_range|lia|lia]).
  change (length (chars (nl ++ cr ++ "child "))) with 8%nat. change (length (chars " died with code ")) with 16%nat.
  change (length (chars (nl ++ cr))) with 2%nat. unfold printbuf_size. lia.
Qed.

(** texts without a [%], and the directives of [init]'s formats *)
Ltac wf_text := cbn [wf_piece]; apply (bool_decide_unpack _); vm_compute; exact I.
Lemma notice_wf : Forall wf_piece notice_pieces.
Proof.
  unfold notice_pieces.
  repeat (apply Forall_cons; split; [first [wf_text|split_and!]|]); [..|apply Forall_nil; exact I];
    try (intros w [= <-]; lia); try (intros w [=]); repeat constructor; eexists; reflexivity.
Qed.

Lemma good_serve {R} b i n (k : Z -> prog R) : (forall i', good (S b) (Serving i') n (k i')) ->
  good b (Serving i) (S n) (serve mem i ≫= k).
Proof.
  intros Hk. unfold serve. stub fork. unfold forked, returned. rewrite Nat.sub_succ, Nat.sub_0_r.
  destruct (Z.eqb_spec (s32 a) 0) as [->|Hne]; [cbn; rewrite prog_assoc; apply good_run_shell|].
  destruct (Z.ltb_spec 0 (s32 a)) as [Hpos|Hneg].
  - rewrite (proj2 (Z.leb_le 0 (s32 a))), (proj2 (Z.ltb_ge (s32 a) 0)) by lia.
    unfold nz. rewrite (proj2 (Z.eqb_neq _ _) Hne). cbn [negb]. rewrite prog_assoc.
    apply good_wait_for; [done|]. intros j. rewrite prog_assoc.
    eapply (good_printf notice_pieces); [vm_compute; reflexivity|apply notice_wf|apply notice_printed|apply death_notice_length|done|].
    cbn [next]. stub sync. rewrite prog_ret_l. eapply good_mono; [| |apply Hk]; lia.
  - rewrite (proj2 (Z.leb_gt 0 (s32 a))) by lia. cbn [Z.ltb Z.compare]. rewrite prog_assoc.
    eapply (good_printf [Text (chars ("Fork failed in init" ++ cr ++ nl))]); [vm_compute; reflexivity| |reflexivity| |done|].
    { apply Forall_singleton. wf_text. }
    + apply Nat.ltb_lt. reflexivity.
    + cbn [next]. rewrite prog_ret_l. eapply good_mono; [| |apply Hk]; lia.
Qed.
Lemma good_serve_forever n i : good 0 (Serving i) n (serve_forever mem i).
Proof.
  revert i. induction n as [|n IH]; intros i; [apply good_zero|].
  unfold serve_forever. rewrite prog_iter. rewrite prog_assoc. apply good_serve. intros j. rewrite !prog_ret_l.
  apply good_tau. eapply good_mono; [| |apply IH]; lia.
Qed.

Definition buffers_pieces : list piece :=
  [Dir [] None None Conv_d; Text (chars " buffers = "); Dir [] None None Conv_d;
   Text (chars (" bytes buffer space" ++ nl ++ cr))].
Definition memory_pieces : list piece :=
  [Text (chars "Free mem: "); Dir [] None None Conv_d; Text (chars (" bytes" ++ nl ++ cr))].
Ltac wf_dirs :=
  repeat (apply Forall_cons; split; [first [wf_text|split_and!; [constructor|intros w [=]|intros w [=]]]|]); apply Forall_nil; exact I.

Lemma good_init n : good 0 (Booting i0) n (init mem nr_buffers free_mem i0).
Proof.
  unfold init.
  eapply (good_printf [Text (chars ("entering init" ++ nl))]); [vm_compute; reflexivity| |reflexivity| |done|].
  { wf_dirs. } { apply Nat.ltb_lt. reflexivity. }
  cbn [next]. stub setup. stub open. do 2 stub dup.
  eapply (good_printf buffers_pieces); [vm_compute; reflexivity|wf_dirs|reflexivity| |done|].
  { change (length (put_d (u32 nr_buffers) ++ chars " buffers = " ++ put_d (u32 (nr_buffers * 1024)) ++
      chars (" bytes buffer space" ++ nl ++ cr) ++ []) < printbuf_size)%nat.
    rewrite !length_app. pose proof (put_d_length (u32 nr_buffers)). pose proof (put_d_length (u32 (nr_buffers * 1024))).
    change (length (chars " buffers = ")) with 11%nat. change (length (chars (" bytes buffer space" ++ nl ++ cr))) with 21%nat.
    cbn [length]. unfold printbuf_size. lia. }
  eapply (good_printf memory_pieces); [vm_compute; reflexivity|wf_dirs|reflexivity| |done|].
  { change (length (chars "Free mem: " ++ put_d (u32 free_mem) ++ chars (" bytes" ++ nl ++ cr) ++ []) < printbuf_size)%nat.
    rewrite !length_app. pose proof (put_d_length (u32 free_mem)).
    change (length (chars "Free mem: ")) with 10%nat. change (length (chars (" bytes" ++ nl ++ cr))) with 8%nat.
    cbn [length]. unfold printbuf_size. lia. }
  stub fork. unfold forked, returned. match goal with |- context [s32 ?w =? 0] => generalize (s32 w) end. intros v.
  destruct (Z.eqb_spec v 0) as [->|Hne]; [apply good_run_rc|].
  destruct (Z.ltb_spec 0 v) as [Hpos|Hneg].
  - rewrite (proj2 (Z.leb_le 0 v)) by lia. unfold nz. rewrite (proj2 (Z.eqb_neq _ _) Hne). cbn [negb].
    rewrite (proj2 (Z.ltb_lt 0 _) Hpos). apply good_wait_for; [done|]. intros j.
    eapply good_mono; [| |apply good_serve_forever]; [lia|reflexivity].
  - rewrite (proj2 (Z.leb_gt 0 v)) by lia. cbn [nz negb Z.eqb Z.ltb Z.compare]. rewrite prog_ret_l.
    eapply good_mono; [| |apply good_serve_forever]; [lia|reflexivity].
Qed.
End Init.
End Runs.

(** ** What it means for the parent *)

(** the children forked and not yet seen to die *)
Definition children_after (cs : list Z) (c : call) : answer c -> list Z :=
  match c with
  | Fork => fun a => if 0 <? s32 a then s32 a :: cs else cs
  | Waitpid _ _ => fun a => filter (fun pid => pid <> s32 (fst a)) cs
  | _ => fun _ => cs
  end.
Fixpoint children (cs : list Z) (l : list event) : list Z :=
  match l with
  | [] => cs
  | Called c a :: l => children (children_after cs c a) l
  | _ :: l => children cs l
  end.
(** a run in which no [fork] returned as the child *)
Definition is_parent (e : event) : bool :=
  match e with
  | Called c a => match c return answer c -> bool with Fork => fun a => negb (s32 a =? 0) | _ => fun _ => true end a
  | _ => true
  end.
Definition stays (e : event) : Prop :=
  match e with
  | Called (Execve _ _ _ | Exit _) _ | Last (Execve _ _ _ | Exit _) | Undef => False
  | _ => True
  end.
Definition watched (p : phase) : list Z := match p with Watching _ pid _ => [pid] | _ => [] end.

Lemma permits_parent p c a : permits p c -> is_parent (Called c a) = true -> (forall f, p <> Child f) ->
  (forall f, next p c a <> Child f) /\ children_after (watched p) c a = watched (next p c a) /\ stays (Called c a).
Proof.
  intros Hperm He Hp. destruct p as [i|i|rc pid i|pid i|i|f]; [| | | | |by destruct (Hp f)].
  1-2: destruct c; try done; cbn in *; unfold forked; apply negb_true_iff in He; rewrite He; destruct (0 <? s32 a); done.
  - cbn in Hperm. subst c. destruct a as [r st]. cbn -[filter]. rewrite filter_cons, filter_nil.
    destruct (Z.eqb_spec (s32 r) pid) as [->|Hne]; [rewrite decide_False by auto; by destruct rc|by rewrite decide_True by auto].
  - cbn in Hperm. by subst c.
  - cbn in Hperm. by subst c.
Qed.
Lemma obeys_parent l : forall p, obeys p l -> forallb is_parent l = true -> (forall f, p <> Child f) ->
  (length (children (watched p) l) <= 1)%nat /\ Forall stays l.
Proof.
  induction l as [|e l IH]; intros p Ho Hpar Hp; [destruct p; split; cbn; (lia || constructor)|].
  cbn [forallb] in Hpar. apply andb_true_iff in Hpar as [He Hpar].
  destruct e as [c a|c|e|ad v|]; cbn in Ho; try done.
  - destruct Ho as [Hperm Ho]. destruct (permits_parent p c a Hperm He Hp) as (Hn & Hc & Hs).
    destruct (IH _ Ho Hpar Hn) as [Hl Hall]. cbn [children]. rewrite Hc. split; [done|]. by constructor.
  - destruct Ho as [Hperm ->]. split; [by destruct p; cbn; lia|]. constructor; [|done].
    destruct p as [i|i|rc pid i|pid i|i|f]; [..|by destruct (Hp f)]; cbn in *; try (by subst c); by destruct c.
  - destruct (IH _ Ho Hpar Hp) as [Hl Hall]. split; [done|]. by constructor.
Qed.

(** C32: Whatever the kernel answers and as long as it may run, the calls of
    [init] follow the supervisor: after the set-up it forks, in the parent it
    then makes no call but [wait] until the child it started has died, writes
    the death notice with the process number and the status that [wait] stored
    last, syncs and forks again; where a fork fails it says so and tries again;
    the child opens its terminal or script, executes /bin/sh and exits, with
    nothing else, if that fails.  So the parent never exits or executes another
    program and has at most one child not yet seen to die.  [init] never
    returns and never loops in silence: unless it is left in a call that does
    not return, at least half of its steps are events. *)
Theorem init_supervises kernel fuel mem nr_buffers free_mem i0 :
  let l := run kernel fuel [] (init mem nr_buffers free_mem i0) in
  obeys (Booting i0) l /\ (stopped l \/ (fuel <= 2 * length l)%nat) /\
  (forallb is_parent l = true -> (length (children [] l) <= 1)%nat /\ Forall stays l).
Proof.
  intros l. destruct (good_init kernel mem nr_buffers free_mem i0 fuel fuel [] (le_n _)) as [Ho Hs].
  fold l in Ho, Hs. split_and!; [done| |].
  - by rewrite Nat.add_0_r in Hs.
  - intros Hp. by apply (obeys_parent l (Booting i0)).
Qed.

Lemma init_supervises_witness :
  let l := run patient_kernel 15 [] (init (fun _ => 0) 10 5 0) in
  length l = 14%nat /\ forallb is_parent l = true /\ (length (children [] l) <= 1)%nat /\ Forall stays l.
Proof.
  intros l. assert (forallb is_parent l = true) as Hp by (vm_compute; reflexivity).
  split; [vm_compute; reflexivity|]. split; [exact Hp|].
  exact (proj2 (proj2 (init_supervises patient_kernel 15 (fun _ => 0) 10 5 0)) Hp).
Defined.
