(* ===== verification/Types.v ===== *)
(** * The types of the kernel's data: tables of fixed size, pointers into them

    C gives every table its size and every pointer the table it points into; in
    the model they are lists and indices.  [wt nb s] says that the state [s]
    respects them, with [nb] buffers, and [typed I P m] that [m] keeps the
    invariant [I], also when it panics or faults, and returns a value of type
    [P].  The rules and the tactic [ty] check an operation statement by statement. *)

From S2P Require Import Prelude State Sched.

(** ** Typed operations *)
Definition typed {S A} (I : S -> Prop) (P : A -> Prop) (m : M S A) : Prop :=
  forall s, I s -> wp m (fun a s' => P a /\ I s') I s.
(** a value about which nothing is said *)
Definition any {A} (a : A) : Prop := True.

Create HintDb ty.

Section Rules.
Context {S : Type} (I : S -> Prop).
Implicit Types (s : S).

Lemma typed_mono {A} (P Q : A -> Prop) (m : M S A) : (forall a, P a -> Q a) -> typed I P m -> typed I Q m.
Proof. intros HPQ Hm s Hs. eapply wp_mono; [by apply Hm| |done]. intros a s' [Ha Hs']. auto. Qed.
Lemma typed_any {A} (P : A -> Prop) (m : M S A) : typed I P m -> typed I any m.
Proof. by apply typed_mono. Qed.
Lemma typed_ret {A} (P : A -> Prop) a : P a -> typed I P (mret a).
Proof. by intros Ha s Hs. Qed.
Lemma typed_bind {A B} (P : A -> Prop) (Q : B -> Prop) (m : M S A) (k : A -> M S B) :
  typed I P m -> (forall a, P a -> typed I Q (k a)) -> typed I Q (m ≫= k).
Proof.
  intros Hm Hk s Hs. apply wp_bind. eapply wp_mono; [by apply Hm| |done]. intros a s' [Ha Hs']. by apply Hk.
Qed.
Lemma typed_assoc {A B C} (Q : C -> Prop) (m : M S A) (f : A -> M S B) (g : B -> M S C) :
  typed I Q (m ≫= fun a => f a ≫= g) -> typed I Q ((m ≫= f) ≫= g).
Proof. intros H s Hs. specialize (H s Hs). unfold wp, mbind, M_bind in *. by destruct (m s). Qed.
Lemma typed_gets {A} (f : S -> A) : typed I (fun a => exists s, I s /\ a = f s) (gets f).
Proof. intros s Hs. cbn. split; [by exists s|done]. Qed.
Lemma typed_modify f : (forall s, I s -> I (f s)) -> typed I any (modify f).
Proof. intros Hf s Hs. cbn. split; [done|auto]. Qed.
Lemma typed_panic {A} (P : A -> Prop) e : typed I P (panic e).
Proof. by intros s Hs. Qed.
Lemma typed_fault {A} (P : A -> Prop) : typed I P fault.
Proof. by intros s Hs. Qed.
Lemma typed_spin {A} (P : A -> Prop) : typed I P spin.
Proof. by intros s Hs. Qed.
Lemma typed_when b m : (b = true -> typed I any m) -> typed I any (when b m).
Proof. destruct b; cbn; [auto|]. intros _. by apply typed_ret. Qed.
Lemma typed_deref {A} (o : option A) : typed I (fun a => o = Some a) (deref o).
Proof. destruct o; by intros s Hs. Qed.
Lemma typed_for_each {A} (l : list A) f : (forall x, x ∈ l -> typed I any (f x)) -> typed I any (for_each l f).
Proof.
  induction l as [|x l IH]; intros Hf; cbn; [by apply typed_ret|].
  eapply typed_bind; [apply Hf; left|]. intros _ _. apply IH. intros y Hy. apply Hf. by right.
Qed.
Lemma typed_for_find {A X} (P : option X -> Prop) (l : list A) (f : A -> M S (option X)) :
  P None -> (forall x, x ∈ l -> typed I P (f x)) -> typed I P (for_find l f).
Proof.
  intros Hn. induction l as [|x l IH]; intros Hf; cbn; [by apply typed_ret|].
  eapply typed_bind; [apply Hf; left|]. intros [y|] Hy; [by apply typed_ret|].
  apply IH. intros z Hz. apply Hf. by right.
Qed.
Lemma typed_for_fold {A X} (P : X -> Prop) (l : list A) (x : X) f :
  P x -> (forall x a, P x -> a ∈ l -> typed I P (f x a)) -> typed I P (for_fold l x f).
Proof.
  revert x. induction l as [|a l IH]; intros x Hx Hf; cbn; [by apply typed_ret|].
  eapply typed_bind; [apply (Hf x a Hx); left|]. intros y Hy. apply IH; [done|]. intros z b Hz Hb. apply Hf; [done|by right].
Qed.
Definition either {X Y} (P : X -> Prop) (Q : Y -> Prop) (r : X + Y) : Prop :=
  match r with inl x => P x | inr y => Q y end.
Lemma typed_loop {X Y} (P : X -> Prop) (Q : Y -> Prop) n (body : X -> M S (X + Y)) x :
  P x -> (forall x, P x -> typed I (either P Q) (body x)) -> typed I Q (loop n body x).
Proof.
  revert x. induction n as [|n IH]; intros x Hx Hf; cbn; [by apply typed_spin|].
  eapply typed_bind; [by apply Hf|]. intros [y|y] Hy; [by apply IH|by apply typed_ret].
Qed.
Lemma typed_while n c m : typed I any c -> typed I any m -> typed I any (while n c m).
Proof.
  intros Hc Hm. apply (typed_loop any any); [done|]. intros [] _. eapply typed_bind; [exact Hc|].
  intros [] _; [|by apply typed_ret]. eapply typed_bind; [exact Hm|]. intros _ _. by apply typed_ret.
Qed.
End Rules.

Lemma typed_zoom {T S A} (I : T -> Prop) (J : S -> Prop) (P : A -> Prop) (get : T -> S) (put : S -> T -> T) (m : M S A) :
  (forall t, I t -> J (get t)) -> (forall s t, I t -> J s -> I (put s t)) -> typed J P m -> typed I P (zoom get put m).
Proof.
  intros Hget Hput Hm t Ht. specialize (Hm (get t) (Hget t Ht)). unfold wp, zoom in *.
  destruct (m (get t)) as [a s|e s|s|s]; [destruct Hm|..]; eauto.
Qed.

(** ** The types *)

(** a pointer into a table of [n] entries, or NULL *)
Definition ptr (n : nat) (o : option nat) : Prop := match o with Some i => (i < n)%nat | None => True end.
Definition index (n i : nat) : Prop := (i < n)%nat.

Definition wf_task (t : task_struct) : Prop :=
  length (t_sigaction t) = 32%nat /\ length (t_ldt t) = 3%nat /\ length (t_filp t) = NR_OPEN /\
  Forall (ptr NR_FILE) (t_filp t) /\ ptr NR_INODE (t_pwd t) /\ ptr NR_INODE (t_root t) /\ ptr NR_INODE (t_executable t).
Definition wf_timer (t : timer) : Prop := ptr TIME_REQUESTS (tm_next t).
Definition wf_bh (nb : nat) (x : buffer_head) : Prop :=
  length (b_data x) = 1024%nat /\ ptr nb (b_prev x) /\ ptr nb (b_next x) /\ ptr nb (b_prev_free x) /\ ptr nb (b_next_free x).
Definition wf_inode (x : m_inode) : Prop := length (i_zone x) = 9%nat.
Definition wf_file (x : file) : Prop := ptr NR_INODE (f_inode x).
Definition wf_super (nb : nat) (x : super_block) : Prop :=
  length (s_imap x) = I_MAP_SLOTS /\ Forall (ptr nb) (s_imap x) /\
  length (s_zmap x) = Z_MAP_SLOTS /\ Forall (ptr nb) (s_zmap x) /\
  ptr NR_INODE (s_isup x) /\ ptr NR_INODE (s_imount x).
Definition wf_request (nb : nat) (x : request) : Prop := ptr nb (r_bh x) /\ ptr NR_REQUEST (r_next x).
Definition wf_dev (x : blk_dev_struct) : Prop := ptr NR_REQUEST (current_request x).
Definition wf_queue (x : tty_queue) : Prop := length (q_buf x) = 1024%nat.
Definition wf_tty (x : tty_struct) : Prop :=
  length (c_cc (tty_termios x)) = 17%nat /\ wf_queue (tty_read_q x) /\ wf_queue (tty_write_q x) /\ wf_queue (tty_secondary x).

Lemma typed_deref_ptr {S} (I : S -> Prop) n o : ptr n o -> typed I (index n) (deref o).
Proof. intros Ho. eapply typed_mono; [|apply typed_deref]. intros a ->. exact Ho. Qed.

(** the pointers of a typed structure *)
Lemma wf_task_pwd t : wf_task t -> ptr NR_INODE (t_pwd t).
Proof. by intros (?&?&?&?&?&?&?). Qed.
Lemma wf_task_root t : wf_task t -> ptr NR_INODE (t_root t).
Proof. by intros (?&?&?&?&?&?&?). Qed.
Lemma wf_task_executable t : wf_task t -> ptr NR_INODE (t_executable t).
Proof. by intros (?&?&?&?&?&?&?). Qed.
Lemma wf_task_filp t : wf_task t -> Forall (ptr NR_FILE) (t_filp t).
Proof. by intros (?&?&?&?&?&?&?). Qed.
Lemma wf_bh_prev nb x : wf_bh nb x -> ptr nb (b_prev x).
Proof. by intros (?&?&?&?&?). Qed.
Lemma wf_bh_next nb x : wf_bh nb x -> ptr nb (b_next x).
Proof. by intros (?&?&?&?&?). Qed.
Lemma wf_bh_prev_free nb x : wf_bh nb x -> ptr nb (b_prev_free x).
Proof. by intros (?&?&?&?&?). Qed.
Lemma wf_bh_next_free nb x : wf_bh nb x -> ptr nb (b_next_free x).
Proof. by intros (?&?&?&?&?). Qed.
Lemma wf_file_inode x : wf_file x -> ptr NR_INODE (f_inode x).
Proof. done. Qed.
Lemma wf_super_isup nb x : wf_super nb x -> ptr NR_INODE (s_isup x).
Proof. by intros (?&?&?&?&?&?). Qed.
Lemma wf_super_imount nb x : wf_super nb x -> ptr NR_INODE (s_imount x).
Proof. by intros (?&?&?&?&?&?). Qed.
Lemma wf_super_imap nb x : wf_super nb x -> Forall (ptr nb) (s_imap x).
Proof. by intros (?&?&?&?&?&?). Qed.
Lemma wf_super_zmap nb x : wf_super nb x -> Forall (ptr nb) (s_zmap x).
Proof. by intros (?&?&?&?&?&?). Qed.
Lemma wf_request_bh nb x : wf_request nb x -> ptr nb (r_bh x).
Proof. by intros (?&?). Qed.
Lemma wf_request_next nb x : wf_request nb x -> ptr NR_REQUEST (r_next x).
Proof. by intros (?&?). Qed.
Lemma wf_dev_current x : wf_dev x -> ptr NR_REQUEST (current_request x).
Proof. done. Qed.
Lemma wf_timer_next x : wf_timer x -> ptr TIME_REQUESTS (tm_next x).
Proof. done. Qed.
#[export] Hint Resolve wf_task_pwd wf_task_root wf_task_executable wf_task_filp wf_bh_prev wf_bh_next wf_bh_prev_free
  wf_bh_next_free wf_file_inode wf_super_isup wf_super_imount wf_super_imap wf_super_zmap wf_request_bh wf_request_next
  wf_dev_current wf_timer_next : ty.

Definition wf_mm (s : mm_st) : Prop := length (mem_map s) = 3840%nat.
Record wf_sched (s : sched_st) : Prop := {
  wf_tasks : length (task s) = NR_TASKS;
  wf_tmem : map_Forall (fun _ => wf_task) (tmem s);
  wf_timers : length (timer_list s) = TIME_REQUESTS;
  wf_timer_list : Forall wf_timer (timer_list s);
  wf_next_timer : ptr TIME_REQUESTS (next_timer s);
  wf_wait_motor : length (wait_motor s) = 4%nat;
  wf_mon_timer : length (mon_timer s) = 4%nat;
  wf_moff_timer : length (moff_timer s) = 4%nat;
  wf_gdt : length (gdt s) = 256%nat
}.
Record wf_fs (nb : nat) (s : fs_st) : Prop := {
  wf_nbufs : length (bufs s) = nb;
  wf_bufs : Forall (wf_bh nb) (bufs s);
  wf_hash_len : length (hash_table s) = NR_HASH;
  wf_hash : Forall (ptr nb) (hash_table s);
  wf_free_list : ptr nb (free_list s);
  wf_ninodes : length (inode_table s) = NR_INODE;
  wf_inodes : Forall wf_inode (inode_table s);
  wf_last_inode : (last_inode s < NR_INODE)%nat;
  wf_nsupers : length (super_blocks s) = NR_SUPER;
  wf_supers : Forall (wf_super nb) (super_blocks s);
  wf_nfiles : length (file_table s) = NR_FILE;
  wf_files : Forall wf_file (file_table s)
}.
Record wf_blk (nb : nat) (s : blk_st) : Prop := {
  wf_nrequests : length (requests s) = NR_REQUEST;
  wf_requests : Forall (wf_request nb) (requests s);
  wf_ndevs : length (blk_dev s) = NR_BLK_DEV;
  wf_devs : Forall wf_dev (blk_dev s)
}.
Definition wf_hd (s : hd_st) : Prop := length (hd_info s) = 2%nat /\ length (hd s) = 10%nat.
Definition wf_fd (s : fd_st) : Prop := length (reply_buffer s) = 7%nat.
Definition wf_con (s : con_st) : Prop := length (par s) = 16%nat.

(** the whole kernel, with [nb] buffers *)
Record wt (nb : nat) (s : kst) : Prop := {
  wt_mm : wf_mm (mm s);
  wt_sched : wf_sched (sched s);
  wt_fs : wf_fs nb (fsys s);
  wt_blk : wf_blk nb (blk s);
  wt_hd : wf_hd (hdd s);
  wt_fd : wf_fd (fdd s);
  wt_con : wf_con (con s);
  wt_nttys : length (tty_table s) = 3%nat;
  wt_ttys : Forall wf_tty (tty_table s)
}.

(** the other tasks, the interrupts and the timers' functions keep to the types *)
Class TypedEnv (E : Env) (nb : nat) : Prop := {
  typed_resume s : wt nb s -> wt nb (env_resume s);
  typed_call fn s : wt nb s -> wt nb (env_call fn s)
}.

(** the start *)
Lemma boot_typed : wt 0 boot_kst.
Proof.
  split; try reflexivity; try (split; reflexivity).
  - split; try reflexivity; [|repeat constructor..].
    intros i t Ht. change (tmem (sched boot_kst)) with ({[init_task := INIT_TASK]} : gmap Z task_struct) in Ht.
    apply lookup_singleton_Some in Ht as [_ <-]. split_and!; try reflexivity; repeat constructor.
  - split; try reflexivity; repeat constructor.
  - split; try reflexivity; repeat constructor.
  - repeat constructor.
Qed.
