(* ===== verification/TypesKernel.v ===== *)
(** * Types: access to the tables, the scheduler, memory *)

From S2P Require Import Prelude State Sched Memory Types.

(** ** Lists *)
Lemma Forall_look {A} (P : A -> Prop) l i x : Forall P l -> l !! i = Some x -> P x.
Proof. intros H. by apply Forall_lookup_1. Qed.
Lemma Forall_set {A} (P : A -> Prop) (l : list A) i x : Forall P l -> P x -> Forall P (<[i:=x]> l).
Proof. intros. by apply Forall_insert. Qed.
Lemma Forall_alter_at {A} (P : A -> Prop) (l : list A) i f : Forall P l -> (forall x, P x -> P (f x)) -> Forall P (alter f i l).
Proof. intros Hl Hf. apply Forall_alter; auto. Qed.
Lemma look_lt {A} (l : list A) i x n : l !! i = Some x -> length l = n -> (i < n)%nat.
Proof. intros H <-. by eapply lookup_lt_Some. Qed.
Lemma map_Forall_set {A} (P : A -> Prop) (m : gmap Z A) i x :
  map_Forall (fun _ => P) m -> P x -> map_Forall (fun _ => P) (<[i:=x]> m).
Proof. intros Hm Hx. by apply map_Forall_insert_2. Qed.
#[export] Hint Resolve Forall_set Forall_alter_at map_Forall_set : ty.
#[export] Hint Extern 2 (length (<[_:=_]> _) = _) => rewrite length_insert : ty.
#[export] Hint Extern 2 (length (alter _ _ _) = _) => rewrite length_alter : ty.
#[export] Hint Extern 2 (length (list_inserts _ _ _) = _) => rewrite length_inserts : ty.
#[export] Hint Extern 2 (length (set16 _ _ _) = _) => unfold set16; rewrite length_inserts : ty.

#[export] Hint Extern 1 (ptr _ (Some _)) => cbn [ptr]; solve [assumption | lia] : ty.
#[export] Hint Extern 1 (ptr _ None) => exact I : ty.
#[export] Hint Extern 1 (index _ _) => unfold index; solve [assumption | lia] : ty.

(** a structure is typed when it was before and the fields that count are *)
Ltac ty_record H := destruct H; split; cbn; try assumption.

(** ** The parts of the state *)
Section Parts.
Context (nb : nat).

Lemma typed_on_mm f : (forall x, wf_mm x -> wf_mm (f x)) -> typed (wt nb) any (on_mm f).
Proof. intros Hf. apply typed_modify. intros s Hs. ty_record Hs. by apply Hf. Qed.
Lemma typed_on_sched f : (forall x, wf_sched x -> wf_sched (f x)) -> typed (wt nb) any (on_sched f).
Proof. intros Hf. apply typed_modify. intros s Hs. ty_record Hs. by apply Hf. Qed.
Lemma typed_on_fs f : (forall x, wf_fs nb x -> wf_fs nb (f x)) -> typed (wt nb) any (on_fs f).
Proof. intros Hf. apply typed_modify. intros s Hs. ty_record Hs. by apply Hf. Qed.
Lemma typed_on_blk f : (forall x, wf_blk nb x -> wf_blk nb (f x)) -> typed (wt nb) any (on_blk f).
Proof. intros Hf. apply typed_modify. intros s Hs. ty_record Hs. by apply Hf. Qed.
Lemma typed_on_hd f : (forall x, wf_hd x -> wf_hd (f x)) -> typed (wt nb) any (on_hd f).
Proof. intros Hf. apply typed_modify. intros s Hs. ty_record Hs. by apply Hf. Qed.
Lemma typed_on_fd f : (forall x, wf_fd x -> wf_fd (f x)) -> typed (wt nb) any (on_fd f).
Proof. intros Hf. apply typed_modify. intros s Hs. ty_record Hs. by apply Hf. Qed.
Lemma typed_on_con f : (forall x, wf_con x -> wf_con (f x)) -> typed (wt nb) any (on_con f).
Proof. intros Hf. apply typed_modify. intros s Hs. ty_record Hs. by apply Hf. Qed.
Lemma typed_zoom_mm {A} (P : A -> Prop) m : typed wf_mm P m -> typed (wt nb) P (zoom_mm m).
Proof. apply typed_zoom; [intros s Hs; by destruct Hs|]. intros x s Hs Hx. by ty_record Hs. Qed.
Lemma typed_zoom_sched {A} (P : A -> Prop) m : typed wf_sched P m -> typed (wt nb) P (zoom_sched m).
Proof. apply typed_zoom; [intros s Hs; by destruct Hs|]. intros x s Hs Hx. by ty_record Hs. Qed.

(** events and user memory have no type *)
Lemma typed_log f : typed (wt nb) any (modify (fun s => s <| log ::= f |>)).
Proof. apply typed_modify. intros s Hs. by ty_record Hs. Qed.
Lemma typed_umem f : typed (wt nb) any (modify (fun s => s <| umem ::= f |>)).
Proof. apply typed_modify. intros s Hs. by ty_record Hs. Qed.
End Parts.
#[export] Hint Resolve typed_log typed_umem : ty.

(** the state read at a time, by parts *)
Lemma wt_bh nb s b x : wt nb s -> bufs (fsys s) !! b = Some x -> wf_bh nb x /\ (b < nb)%nat.
Proof.
  intros Hs Hx. pose proof (wt_fs _ _ Hs) as Hf. split; [exact (Forall_look _ _ _ _ (wf_bufs _ _ Hf) Hx)|exact (look_lt _ _ _ _ Hx (wf_nbufs _ _ Hf))].
Qed.
Lemma wt_ino nb s b x : wt nb s -> inode_table (fsys s) !! b = Some x -> wf_inode x /\ (b < NR_INODE)%nat.
Proof.
  intros Hs Hx. pose proof (wt_fs _ _ Hs) as Hf. split; [exact (Forall_look _ _ _ _ (wf_inodes _ _ Hf) Hx)|exact (look_lt _ _ _ _ Hx (wf_ninodes _ _ Hf))].
Qed.
Lemma wt_file nb s b x : wt nb s -> file_table (fsys s) !! b = Some x -> wf_file x /\ (b < NR_FILE)%nat.
Proof.
  intros Hs Hx. pose proof (wt_fs _ _ Hs) as Hf. split; [exact (Forall_look _ _ _ _ (wf_files _ _ Hf) Hx)|exact (look_lt _ _ _ _ Hx (wf_nfiles _ _ Hf))].
Qed.
Lemma wt_super nb s b x : wt nb s -> super_blocks (fsys s) !! b = Some x -> wf_super nb x /\ (b < NR_SUPER)%nat.
Proof.
  intros Hs Hx. pose proof (wt_fs _ _ Hs) as Hf. split; [exact (Forall_look _ _ _ _ (wf_supers _ _ Hf) Hx)|exact (look_lt _ _ _ _ Hx (wf_nsupers _ _ Hf))].
Qed.
Lemma wt_req nb s b x : wt nb s -> requests (blk s) !! b = Some x -> wf_request nb x /\ (b < NR_REQUEST)%nat.
Proof.
  intros Hs Hx. pose proof (wt_blk _ _ Hs) as Hf. split; [exact (Forall_look _ _ _ _ (wf_requests _ _ Hf) Hx)|exact (look_lt _ _ _ _ Hx (wf_nrequests _ _ Hf))].
Qed.
Lemma wt_dev nb s b x : wt nb s -> blk_dev (blk s) !! b = Some x -> wf_dev x.
Proof. intros Hs Hx. exact (Forall_look _ _ _ _ (wf_devs _ _ (wt_blk _ _ Hs)) Hx). Qed.
Lemma wt_tty nb s b x : wt nb s -> tty_table s !! b = Some x -> wf_tty x /\ (b < 3)%nat.
Proof.
  intros Hs Hx. split; [exact (Forall_look _ _ _ _ (wt_ttys _ _ Hs) Hx)|exact (look_lt _ _ _ _ Hx (wt_nttys _ _ Hs))].
Qed.
Lemma wt_task nb s p t : wt nb s -> tmem (sched s) !! p = Some t -> wf_task t.
Proof. intros Hs Hx. exact (wf_tmem _ (wt_sched _ _ Hs) _ _ Hx). Qed.
Lemma wt_hash nb s k o : wt nb s -> hash_table (fsys s) !! k = Some o -> ptr nb o.
Proof. intros Hs Hx. exact (Forall_look _ _ _ _ (wf_hash _ _ (wt_fs _ _ Hs)) Hx). Qed.
Lemma wt_free nb s b : wt nb s -> free_list (fsys s) = Some b -> (b < nb)%nat.
Proof. intros Hs Hx. pose proof (wf_free_list _ _ (wt_fs _ _ Hs)) as H. by rewrite Hx in H. Qed.
Lemma wt_filp t k o : wf_task t -> t_filp t !! k = Some o -> ptr NR_FILE o.
Proof. intros Ht Hx. exact (Forall_look _ _ _ _ (wf_task_filp _ Ht) Hx). Qed.

(** use what is known of table entries found by [deref] *)
Ltac ty_look := repeat match goal with
  | Hs : wt _ ?s, H : bufs (fsys ?s) !! _ = Some _ |- _ => apply (wt_bh _ _ _ _ Hs) in H as [? ?]
  | Hs : wt _ ?s, H : inode_table (fsys ?s) !! _ = Some _ |- _ => apply (wt_ino _ _ _ _ Hs) in H as [? ?]
  | Hs : wt _ ?s, H : file_table (fsys ?s) !! _ = Some _ |- _ => apply (wt_file _ _ _ _ Hs) in H as [? ?]
  | Hs : wt _ ?s, H : super_blocks (fsys ?s) !! _ = Some _ |- _ => apply (wt_super _ _ _ _ Hs) in H as [? ?]
  | Hs : wt _ ?s, H : requests (blk ?s) !! _ = Some _ |- _ => apply (wt_req _ _ _ _ Hs) in H as [? ?]
  | Hs : wt _ ?s, H : blk_dev (blk ?s) !! _ = Some _ |- _ => apply (wt_dev _ _ _ _ Hs) in H
  | Ht : wf_task ?t, H : t_filp ?t !! _ = Some _ |- _ => apply (wt_filp _ _ _ Ht) in H
  | Hs : wt _ ?s, H : hash_table (fsys ?s) !! _ = Some _ |- _ => apply (wt_hash _ _ _ _ Hs) in H
  | Hs : wt _ ?s, H : free_list (fsys ?s) = Some _ |- _ => apply (wt_free _ _ _ Hs) in H
  | Hs : wt _ ?s, H : tty_table ?s !! _ = Some _ |- _ => apply (wt_tty _ _ _ _ Hs) in H as [? ?]
  | Hs : wt _ ?s, H : tmem (sched ?s) !! _ = Some _ |- _ => apply (wt_task _ _ _ _ Hs) in H
  end.

(** ** Access to the tables *)
Section Access.
Context (nb : nat).

Lemma typed_getbh b : typed (wt nb) (fun x => wf_bh nb x /\ (b < nb)%nat) (getbh b).
Proof. intros s Hs. cbn. apply wp_deref; [|done]. intros x Hx. split; [by eapply wt_bh|done]. Qed.
Lemma typed_getino b : typed (wt nb) (fun x => wf_inode x /\ (b < NR_INODE)%nat) (getino b).
Proof. intros s Hs. cbn. apply wp_deref; [|done]. intros x Hx. split; [by eapply wt_ino|done]. Qed.
Lemma typed_getfile b : typed (wt nb) (fun x => wf_file x /\ (b < NR_FILE)%nat) (getfile b).
Proof. intros s Hs. cbn. apply wp_deref; [|done]. intros x Hx. split; [by eapply wt_file|done]. Qed.
Lemma typed_getsb b : typed (wt nb) (fun x => wf_super nb x /\ (b < NR_SUPER)%nat) (getsb b).
Proof. intros s Hs. cbn. apply wp_deref; [|done]. intros x Hx. split; [by eapply wt_super|done]. Qed.
Lemma typed_getreq b : typed (wt nb) (fun x => wf_request nb x /\ (b < NR_REQUEST)%nat) (getreq b).
Proof. intros s Hs. cbn. apply wp_deref; [|done]. intros x Hx. split; [by eapply wt_req|done]. Qed.
Lemma typed_gettask p : typed (wt nb) wf_task (gettask p).
Proof. intros s Hs. cbn. apply wp_deref; [|done]. intros x Hx. split; [by eapply wt_task|done]. Qed.
Lemma typed_me : typed (wt nb) wf_task me.
Proof. eapply typed_bind; [apply typed_gets|]. intros s _. apply typed_gettask. Qed.

Lemma typed_setbh b f : (forall x, (b < nb)%nat -> wf_bh nb x -> wf_bh nb (f x)) -> typed (wt nb) (fun _ => (b < nb)%nat) (setbh b f).
Proof.
  intros Hf. eapply typed_bind; [apply typed_getbh|]. intros x [Hx Hb].
  apply (typed_mono _ any); [done|]. apply typed_on_fs. intros s Hs.
  ty_record Hs; [by rewrite length_insert|]. apply Forall_set; auto.
Qed.
Lemma typed_setino b f : (forall x, wf_inode x -> wf_inode (f x)) -> typed (wt nb) (fun _ => (b < NR_INODE)%nat) (setino b f).
Proof.
  intros Hf. eapply typed_bind; [apply typed_getino|]. intros x [Hx Hb].
  apply (typed_mono _ any); [done|]. apply typed_on_fs. intros s Hs.
  ty_record Hs; [by rewrite length_insert|]. apply Forall_set; auto.
Qed.
Lemma typed_setfile b f : (forall x, wf_file x -> wf_file (f x)) -> typed (wt nb) (fun _ => (b < NR_FILE)%nat) (setfile b f).
Proof.
  intros Hf. eapply typed_bind; [apply typed_getfile|]. intros x [Hx Hb].
  apply (typed_mono _ any); [done|]. apply typed_on_fs. intros s Hs.
  ty_record Hs; [by rewrite length_insert|]. apply Forall_set; auto.
Qed.
Lemma typed_setsb b f : (forall x, wf_super nb x -> wf_super nb (f x)) -> typed (wt nb) (fun _ => (b < NR_SUPER)%nat) (setsb b f).
Proof.
  intros Hf. eapply typed_bind; [apply typed_getsb|]. intros x [Hx Hb].
  apply (typed_mono _ any); [done|]. apply typed_on_fs. intros s Hs.
  ty_record Hs; [by rewrite length_insert|]. apply Forall_set; auto.
Qed.
Lemma typed_setreq b f : (forall x, wf_request nb x -> wf_request nb (f x)) -> typed (wt nb) (fun _ => (b < NR_REQUEST)%nat) (setreq b f).
Proof.
  intros Hf. eapply typed_bind; [apply typed_getreq|]. intros x [Hx Hb].
  apply (typed_mono _ any); [done|]. apply typed_on_blk. intros s Hs.
  ty_record Hs; [by rewrite length_insert|]. apply Forall_set; auto.
Qed.
Lemma typed_settask p f : (forall x, wf_task x -> wf_task (f x)) -> typed (wt nb) any (settask p f).
Proof.
  intros Hf. eapply typed_bind; [apply typed_gettask|]. intros x Hx. apply typed_on_sched. intros s Hs.
  ty_record Hs. apply map_Forall_set; auto.
Qed.
Lemma typed_setme f : (forall x, wf_task x -> wf_task (f x)) -> typed (wt nb) any (setme f).
Proof. intros Hf. eapply typed_bind; [apply typed_gets|]. intros s _. by apply typed_settask. Qed.
End Access.
#[export] Hint Resolve typed_getbh typed_getino typed_getfile typed_getsb typed_getreq typed_gettask typed_me : ty.

(** ** The tactic *)

Ltac ty_hyps := repeat match goal with
  | H : any _ |- _ => clear H
  | H : _ /\ _ |- _ => destruct H
  | H : exists _, _ |- _ => destruct H
  | H : either _ _ (inl _) |- _ => cbn [either] in H
  | H : either _ _ (inr _) |- _ => cbn [either] in H
  | H : ptr _ (Some _) |- _ => cbn [ptr] in H
  | H : ptr _ None |- _ => clear H
  | H : ?x = _ |- _ => is_var x; subst x
  | H : Some _ = Some _ |- _ => injection H as H
  | H : Some _ = None |- _ => discriminate H
  | H : None = Some _ |- _ => discriminate H
  end.

(** a pointer keeps its type when it is compared with NULL *)
Ltac ty_destruct x :=
  lazymatch type of x with
  | option nat => try (let H := fresh in eassert (ptr _ x) as H by (solve [eauto 3 with ty nocore])); destruct x
  | _ => destruct x
  end; ty_hyps.

(** a condition on data: a field that was not changed has its type from before *)
Ltac ty_data :=
  intros; cbv beta iota in *; cbn [fst snd] in *; ty_hyps; ty_look;
  try assumption; try exact I;
  lazymatch goal with
  | |- any _ => exact I
  | |- _ /\ _ => split; ty_data
  | |- ptr _ (Some _) => cbn [ptr]; ty_data
  | |- ptr _ None => exact I
  | |- either _ _ (if ?b then _ else _) => destruct b; ty_data
  | |- ptr _ (if ?b then _ else _) => destruct b; ty_data
  | |- either _ _ (match ?x with _ => _ end) => ty_destruct x; ty_data
  | |- ptr _ (match ?x with _ => _ end) => ty_destruct x; ty_data
  | |- either _ _ ?r => first [is_var r; destruct r; ty_data | progress cbn [either]; ty_data]
  | |- (_ < _)%nat => solve [lia | eauto 3 with ty]
  | |- index _ _ => solve [unfold index in *; lia | eauto 3 with ty]
  | |- _ => solve [eauto 3 with ty]
  end.

Ltac ty_next := let a := fresh "a" in let Ha := fresh "Ha" in intros a Ha; cbv beta in Ha; ty_hyps; ty_look.

(** the rule for the outermost constructor of a statement; [tac] goes on *)
Ltac ty_step :=
  lazymatch goal with
  | |- forall _, _ -> typed _ _ _ => ty_next
  | |- typed _ _ (mret _) => apply typed_ret; ty_data
  | |- typed _ _ (panic _) => apply typed_panic
  | |- typed _ _ fault => apply typed_fault
  | |- typed _ _ spin => apply typed_spin
  | |- typed _ any (gets _) => eapply typed_any, typed_gets
  | |- typed _ any (deref _) => eapply typed_any, typed_deref
  | |- typed _ any (modify _) => first [solve [eauto 3 with ty nocore] | apply typed_modify; ty_data]
  | |- typed _ any (when _ _) => apply typed_when; intros _
  | |- typed _ any (for_each _ _) => apply typed_for_each; intros ? _
  | |- typed _ any (for_find _ _) => apply (typed_for_find _ any); [exact I|intros ? _]
  | |- typed _ any (for_fold _ _ _) => apply (typed_for_fold _ any); [exact I|intros ? ? _ _]
  | |- typed _ any (while _ _ _) => apply typed_while
  | |- typed _ any (loop _ _ _) => apply (typed_loop _ any any); [exact I|intros ? _]
  | |- typed _ _ (if ?b then _ else _) => destruct b
  | |- typed _ _ (match ?x with _ => _ end) => ty_destruct x
  | |- typed _ _ (let '_ := ?x in _) => ty_destruct x
  | |- typed _ _ ((match ?x with _ => _ end) _) => ty_destruct x
  | |- typed _ _ ((_ ≫= _) ≫= _) => apply typed_assoc
  | |- typed _ _ (mret ?v ≫= _) => apply (typed_bind _ (fun x => x = v)); [by apply typed_ret|ty_next]
  | |- typed _ _ (gets _ ≫= _) => eapply typed_bind; [apply typed_gets|ty_next]
  | |- typed _ _ (deref ?o ≫= _) =>
      first [ lazymatch type of o with
              | option nat => eapply typed_bind; [eapply typed_deref_ptr; solve [eauto 3 with ty nocore]|ty_next]
              end
            | eapply typed_bind; [apply typed_deref|ty_next] ]
  | |- typed _ _ (@mbind _ _ _ _ _ (if ?b then _ else _)) =>
      lazymatch goal with
      | |- typed _ _ (@mbind _ _ ?A _ _ _) =>
          lazymatch A with
          | unit => apply (typed_bind _ any); [|ty_next] | bool => apply (typed_bind _ any); [|ty_next]
          | Z => apply (typed_bind _ any); [|ty_next] | _ => destruct b
          end
      end
  | |- typed _ _ (@mbind _ _ ?A _ _ (match ?x with _ => _ end)) =>
      lazymatch A with
      | unit => apply (typed_bind _ any); [|ty_next] | bool => apply (typed_bind _ any); [|ty_next]
      | Z => apply (typed_bind _ any); [|ty_next] | _ => ty_destruct x
      end
  | |- typed _ _ (_ ≫= _) =>
      first [ eapply typed_bind; [solve [eauto 3 with ty nocore]|ty_next]
            | apply (typed_bind _ any); [|ty_next] ]
  | |- typed _ _ (deref _) => eapply typed_mono; [|apply typed_deref]; ty_data
  | |- typed _ _ (gets _) => eapply typed_mono; [|apply typed_gets]; ty_data
  | |- typed _ _ (loop _ _ _) => apply (typed_loop _ any); [exact I|intros ? _]
  | |- typed _ _ (zoom_mm _) => apply typed_zoom_mm
  | |- typed _ _ (zoom_sched _) => apply typed_zoom_sched
  | |- typed _ _ _ => first [ solve [eauto 3 with ty nocore] | solve [eapply typed_any; eauto 3 with ty nocore] | solve [eapply typed_mono; [|eauto 3 with ty nocore]; ty_data]]
  end.
Ltac ty := repeat (cbv beta zeta; ty_step).

(** the fields that have a type *)
Ltac ty_project :=
  unfold wf_bh, wf_inode, wf_file, wf_super, wf_request, wf_dev, wf_timer, wf_task, wf_queue, wf_tty, wf_hd, wf_fd, wf_mm, wf_con;
  cbn [upd b_data b_prev b_next b_prev_free b_next_free i_zone f_inode s_imap s_zmap s_isup s_imount r_bh r_next
    current_request tm_next t_sigaction t_ldt t_filp t_pwd t_root t_executable q_buf tty_termios tty_read_q
    tty_write_q tty_secondary c_cc task tmem timer_list next_timer wait_motor mon_timer moff_timer gdt
    bufs hash_table free_list inode_table last_inode super_blocks file_table requests blk_dev hd_info hd reply_buffer
    mem_map par].
(** a changed structure: only the fields that have a type of their own count *)
Ltac ty_fields :=
  intros; ty_hyps;
  match goal with
  | H : wf_bh _ _ |- wf_bh _ _ => first [exact H | destruct H as (? & ? & ? & ? & ?)]
  | H : wf_inode _ |- wf_inode _ => first [exact H | unfold wf_inode in *]
  | H : wf_file _ |- wf_file _ => first [exact H | unfold wf_file in *]
  | H : wf_super _ _ |- wf_super _ _ => first [exact H | destruct H as (? & ? & ? & ? & ? & ?)]
  | H : wf_request _ _ |- wf_request _ _ => first [exact H | destruct H]
  | H : wf_dev _ |- wf_dev _ => first [exact H | unfold wf_dev in *]
  | H : wf_timer _ |- wf_timer _ => first [exact H | unfold wf_timer in *]
  | H : wf_task _ |- wf_task _ => first [exact H | destruct H as (? & ? & ? & ? & ? & ? & ?)]
  | H : wf_queue _ |- wf_queue _ => first [exact H | unfold wf_queue in *]
  | H : wf_tty _ |- wf_tty _ => first [exact H | destruct H as (? & ? & ? & ?)]
  | H : wf_sched _ |- wf_sched _ => first [exact H | destruct H]
  | H : wf_fs _ _ |- wf_fs _ _ => first [exact H | destruct H]
  | H : wf_blk _ _ |- wf_blk _ _ => first [exact H | destruct H]
  | H : wf_hd _ |- wf_hd _ => first [exact H | destruct H]
  | H : wf_fd _ |- wf_fd _ => first [exact H | unfold wf_fd in *]
  | H : wf_mm _ |- wf_mm _ => first [exact H | unfold wf_mm in *]
  | H : wf_con _ |- wf_con _ => first [exact H | unfold wf_con in *]
  end;
  repeat (first [progress ty_project | split]; try assumption); eauto 3 with ty.
#[export] Hint Extern 3 (wf_bh _ _) => ty_fields : ty.
#[export] Hint Extern 3 (wf_inode _) => ty_fields : ty.
#[export] Hint Extern 3 (wf_file _) => ty_fields : ty.
#[export] Hint Extern 3 (wf_super _ _) => ty_fields : ty.
#[export] Hint Extern 3 (wf_request _ _) => ty_fields : ty.
#[export] Hint Extern 3 (wf_dev _) => ty_fields : ty.
#[export] Hint Extern 3 (wf_timer _) => ty_fields : ty.
#[export] Hint Extern 3 (wf_task _) => ty_fields : ty.
#[export] Hint Extern 3 (wf_queue _) => ty_fields : ty.
#[export] Hint Extern 3 (wf_tty _) => ty_fields : ty.
#[export] Hint Extern 3 (wf_sched _) => ty_fields : ty.
#[export] Hint Extern 3 (wf_fs _ _) => ty_fields : ty.
#[export] Hint Extern 3 (wf_blk _ _) => ty_fields : ty.
#[export] Hint Extern 3 (wf_hd _) => ty_fields : ty.
#[export] Hint Extern 3 (wf_fd _) => ty_fields : ty.
#[export] Hint Extern 3 (wf_mm _) => ty_fields : ty.
#[export] Hint Extern 3 (wf_con _) => ty_fields : ty.
#[export] Hint Resolve typed_setbh typed_setino typed_setfile typed_setsb typed_setreq typed_settask typed_setme : ty.
#[export] Hint Resolve typed_on_mm typed_on_sched typed_on_fs typed_on_blk typed_on_hd typed_on_fd typed_on_con : ty.
#[export] Hint Resolve typed_zoom_mm typed_zoom_sched : ty.

(** ** Events, ports, user memory *)
Section Kernel.
Context {E : Env} {nb : nat} {TE : TypedEnv E nb}.
Abbreviation kernel := (wt nb).

Lemma ty_printk fmt args : typed kernel any (printk fmt args).
Proof. unfold printk. ty. Qed.
Lemma ty_inb port : typed kernel any (inb port).
Proof. unfold inb. ty. Qed.
Lemma ty_inw port : typed kernel any (inw port).
Proof. unfold inw. ty. Qed.
Lemma ty_outb v port : typed kernel any (outb v port).
Proof. unfold outb. ty. Qed.
Lemma ty_outw v port : typed kernel any (outw v port).
Proof. unfold outw. ty. Qed.
Lemma ty_suser : typed kernel any suser.
Proof. unfold suser. ty. Qed.
Lemma ty_CURRENT_TIME : typed kernel any CURRENT_TIME.
Proof. unfold CURRENT_TIME. ty. Qed.
Lemma ty_get_fs_byte a : typed kernel any (get_fs_byte a).
Proof. unfold get_fs_byte. ty. Qed.
Lemma ty_put_fs_byte v a : typed kernel any (put_fs_byte v a).
Proof. unfold put_fs_byte. ty. Qed.
Hint Resolve ty_get_fs_byte ty_put_fs_byte ty_printk ty_inb ty_inw ty_outb ty_outw : ty.
Lemma ty_get_fs_long a : typed kernel any (get_fs_long a).
Proof. unfold get_fs_long. ty. Qed.
Lemma ty_put_fs_long v a : typed kernel any (put_fs_long v a).
Proof. unfold put_fs_long. ty. Qed.
End Kernel.
#[export] Hint Resolve ty_printk ty_inb ty_inw ty_outb ty_outw ty_suser ty_CURRENT_TIME ty_get_fs_byte ty_put_fs_byte
  ty_get_fs_long ty_put_fs_long : ty.
