(* ===== verification/TypesSched.v ===== *)
(** * Types: the scheduler and memory *)

From S2P Require Import Prelude State Sched Memory Types TypesKernel.

(** ** Scheduler state *)
Lemma typed_get_task p : typed wf_sched wf_task (get_task p).
Proof.
  intros s Hs. cbn. apply wp_deref; [|done]. intros t Ht. split; [|done]. exact (wf_tmem _ Hs _ _ Ht).
Qed.
Lemma typed_set_task p f : (forall x, wf_task x -> wf_task (f x)) -> typed wf_sched any (set_task p f).
Proof.
  intros Hf. eapply typed_bind; [apply typed_get_task|]. intros x Hx. apply typed_modify. intros s Hs.
  ty_record Hs. apply map_Forall_set; auto.
Qed.
Lemma typed_gettimer i : typed wf_sched (fun t => wf_timer t /\ (i < TIME_REQUESTS)%nat) (gettimer i).
Proof.
  intros s Hs. cbn. apply wp_deref; [|done]. intros t Ht. split; [|done].
  split; [exact (Forall_look _ _ _ _ (wf_timer_list _ Hs) Ht)|exact (look_lt _ _ _ _ Ht (wf_timers _ Hs))].
Qed.
Lemma typed_settimer i f : (forall x, wf_timer x -> wf_timer (f x)) -> typed wf_sched any (settimer i f).
Proof.
  intros Hf. eapply typed_bind; [apply typed_gettimer|]. intros x [Hx Hi]. apply typed_modify. intros s Hs.
  ty_record Hs; [by rewrite length_insert|]. apply Forall_set; auto.
Qed.
#[export] Hint Resolve typed_get_task typed_set_task typed_gettimer typed_settimer : ty.

Lemma ty_check_signals p : typed wf_sched any (check_signals p).
Proof. unfold check_signals. ty. Qed.
Lemma ty_recharge p : typed wf_sched any (recharge p).
Proof. unfold recharge. ty. Qed.
Lemma ty_each_task f : (forall p, typed wf_sched any (f p)) -> typed wf_sched any (each_task f).
Proof. intros Hf. unfold each_task. ty. Qed.
Lemma ty_scan_step cn i : typed wf_sched any (scan_step cn i).
Proof. unfold scan_step. ty. Qed.
#[export] Hint Resolve ty_check_signals ty_recharge ty_each_task ty_scan_step : ty.
Lemma ty_scan : typed wf_sched any scan.
Proof. unfold scan. ty. Qed.
#[export] Hint Resolve ty_scan : ty.
Lemma ty_schedule_pick n : typed wf_sched any (schedule_pick n).
Proof. unfold schedule_pick. ty. Qed.
#[export] Hint Resolve ty_schedule_pick : ty.

Lemma ty_sift_timer p : typed wf_sched (either (index TIME_REQUESTS) any) (sift_timer p).
Proof. unfold sift_timer. ty. Qed.
Lemma free_timer_lt s p : wf_sched s -> free_timer s = Some p -> (p < TIME_REQUESTS)%nat.
Proof.
  intros Hs Hp. unfold free_timer in Hp. apply fmap_Some in Hp as ([i t] & Hi & ->).
  apply list_find_Some in Hi as (Hi & _). exact (look_lt _ _ _ _ Hi (wf_timers _ Hs)).
Qed.
Lemma ty_insert_timer jif fn : typed wf_sched any (insert_timer jif fn).
Proof.
  unfold insert_timer. eapply typed_bind; [apply typed_gets|]. intros o (s & Hs & ->).
  destruct (free_timer s) as [p|] eqn:Hp; [|ty]. pose proof (free_timer_lt s p Hs Hp) as Hlt.
  eapply typed_bind; [apply typed_gets|]. intros nt (s' & Hs' & ->). pose proof (wf_next_timer _ Hs').
  ty_step. ty_step; [ty_step|]. apply (typed_loop _ (index TIME_REQUESTS) any); [exact Hlt|intros; apply ty_sift_timer].
Qed.

(** ** The scheduler *)
Section Sched.
Context {E : Env} {nb : nat} {TE : TypedEnv E nb}.
Abbreviation kernel := (wt nb).

Lemma ty_resume : typed kernel any (modify env_resume).
Proof. apply typed_modify. intros s Hs. by apply typed_resume. Qed.
Lemma ty_call fn : typed kernel any (call fn).
Proof. unfold call. ty. apply typed_modify. intros s Hs. by apply typed_call. Qed.
Hint Resolve ty_resume ty_call ty_insert_timer : ty.
Lemma ty_switch_to n : typed kernel any (switch_to n).
Proof. unfold switch_to. ty. Qed.
Hint Resolve ty_switch_to : ty.
Lemma ty_schedule : typed kernel any schedule.
Proof. unfold schedule. ty. Qed.
Hint Resolve ty_schedule : ty.
Lemma ty_sys_pause : typed kernel any sys_pause.
Proof. unfold sys_pause. ty. Qed.

Lemma write_wq_typed q p s : kernel s -> kernel (write_wq q p s).
Proof.
  intros Hs. destruct q as [b|i|n| | |n|r| |t q]; ty_record Hs; try solve [ty_fields].
  - by rewrite length_alter.
  - apply Forall_alter_at; [done|]. intros x Hx. destruct q as [|[|q]]; ty_fields.
Qed.
Lemma ty_write_wq q p : typed kernel any (modify (write_wq q p)).
Proof. apply typed_modify. intros s Hs. by apply write_wq_typed. Qed.
Hint Resolve ty_write_wq : ty.
Lemma ty_sleep_on_leave tmp : typed kernel any (sleep_on_leave tmp).
Proof. unfold sleep_on_leave. ty. Qed.
Lemma ty_sleep_on_enter q : typed kernel any (sleep_on_enter q).
Proof. unfold sleep_on_enter. ty. Qed.
Hint Resolve ty_sleep_on_enter ty_sleep_on_leave : ty.
Lemma ty_sleep_on q : typed kernel any (sleep_on q).
Proof. unfold sleep_on. ty. Qed.
Lemma ty_interruptible_sleep_on q : typed kernel any (interruptible_sleep_on q).
Proof. unfold interruptible_sleep_on. ty. Qed.
Lemma ty_wake_up q : typed kernel any (wake_up q).
Proof. unfold wake_up. ty. Qed.
Hint Resolve ty_sleep_on ty_interruptible_sleep_on ty_wake_up : ty.
Lemma ty_math_state_restore : typed kernel any math_state_restore.
Proof. unfold math_state_restore. ty. Qed.
Lemma ty_ticks_to_floppy_on nr : typed kernel any (ticks_to_floppy_on nr).
Proof. unfold ticks_to_floppy_on. ty. Qed.
Hint Resolve ty_ticks_to_floppy_on : ty.
Lemma ty_floppy_on nr : typed kernel any (floppy_on nr).
Proof. unfold floppy_on. ty. Qed.
Lemma ty_floppy_off nr : typed kernel any (floppy_off nr).
Proof. unfold floppy_off. ty. Qed.
Lemma ty_do_floppy_timer : typed kernel any do_floppy_timer.
Proof. unfold do_floppy_timer. ty. Qed.
Lemma ty_add_timer jif fn : typed kernel any (add_timer jif fn).
Proof. unfold add_timer. ty. Qed.
Lemma ty_sysbeepstop : typed kernel any sysbeepstop.
Proof. unfold sysbeepstop. ty. Qed.
Lemma ty_run_timer : typed kernel any run_timer.
Proof. unfold run_timer. ty. Qed.
Hint Resolve ty_run_timer ty_sysbeepstop ty_do_floppy_timer : ty.
Lemma ty_run_timers : typed kernel any run_timers.
Proof. unfold run_timers. ty. Qed.
Hint Resolve ty_run_timers : ty.
Lemma ty_tick_timers : typed kernel any tick_timers.
Proof. unfold tick_timers. ty. Qed.
Hint Resolve ty_tick_timers : ty.
Lemma ty_do_timer cpl : typed kernel any (do_timer cpl).
Proof. unfold do_timer. ty. Qed.
Lemma ty_sys_alarm seconds : typed kernel any (sys_alarm seconds).
Proof. unfold sys_alarm. ty. Qed.
Lemma ty_sys_getpid : typed kernel any sys_getpid.
Proof. unfold sys_getpid. ty. Qed.
Lemma ty_sys_getppid : typed kernel any sys_getppid.
Proof. unfold sys_getppid. ty. Qed.
Lemma ty_sys_getuid : typed kernel any sys_getuid.
Proof. unfold sys_getuid. ty. Qed.
Lemma ty_sys_geteuid : typed kernel any sys_geteuid.
Proof. unfold sys_geteuid. ty. Qed.
Lemma ty_sys_getgid : typed kernel any sys_getgid.
Proof. unfold sys_getgid. ty. Qed.
Lemma ty_sys_getegid : typed kernel any sys_getegid.
Proof. unfold sys_getegid. ty. Qed.
Lemma ty_sys_nice increment : typed kernel any (sys_nice increment).
Proof. unfold sys_nice. ty. Qed.
End Sched.
#[export] Hint Resolve ty_insert_timer ty_resume ty_call ty_switch_to ty_schedule ty_sys_pause ty_write_wq ty_sleep_on_leave ty_sleep_on_enter ty_sleep_on ty_interruptible_sleep_on ty_wake_up ty_math_state_restore ty_ticks_to_floppy_on ty_floppy_on ty_floppy_off ty_do_floppy_timer ty_add_timer ty_sysbeepstop ty_run_timer ty_run_timers ty_tick_timers ty_do_timer ty_sys_alarm ty_sys_getpid ty_sys_getppid ty_sys_getuid ty_sys_geteuid ty_sys_getgid ty_sys_getegid ty_sys_nice : ty.

(** ** Memory *)
Lemma ty_load a : typed wf_mm any (load a).
Proof. unfold load. ty. Qed.
#[export] Hint Resolve ty_load : ty.
Lemma ty_store a v : typed wf_mm any (store a v).
Proof. unfold store. ty. Qed.
#[export] Hint Resolve ty_store : ty.
Lemma ty_get_count i : typed wf_mm any (get_count i).
Proof. unfold get_count. ty. Qed.
#[export] Hint Resolve ty_get_count : ty.
Lemma ty_set_count i v : typed wf_mm any (set_count i v).
Proof. unfold set_count. ty. Qed.
#[export] Hint Resolve ty_set_count : ty.
Lemma ty_copy_page from to : typed wf_mm any (copy_page from to).
Proof. unfold copy_page. ty. Qed.
#[export] Hint Resolve ty_copy_page : ty.
Lemma ty_get_free_page : typed wf_mm any get_free_page.
Proof. unfold get_free_page. ty. Qed.
#[export] Hint Resolve ty_get_free_page : ty.
Lemma ty_free_page addr : typed wf_mm any (free_page addr).
Proof. unfold free_page. ty. Qed.
#[export] Hint Resolve ty_free_page : ty.
Lemma ty_free_entry pg_table nr : typed wf_mm any (free_entry pg_table nr).
Proof. unfold free_entry. ty. Qed.
#[export] Hint Resolve ty_free_entry : ty.
Lemma ty_free_dir dir : typed wf_mm any (free_dir dir).
Proof. unfold free_dir. ty. Qed.
#[export] Hint Resolve ty_free_dir : ty.
Lemma ty_free_page_tables from size : typed wf_mm any (free_page_tables from size).
Proof. unfold free_page_tables. ty. Qed.
#[export] Hint Resolve ty_free_page_tables : ty.
Lemma ty_copy_entry from_page_table to_page_table nr : typed wf_mm any (copy_entry from_page_table to_page_table nr).
Proof. unfold copy_entry. ty. Qed.
#[export] Hint Resolve ty_copy_entry : ty.
Lemma ty_copy_dir from from_dir to_dir : typed wf_mm any (copy_dir from from_dir to_dir).
Proof. unfold copy_dir. ty. Qed.
#[export] Hint Resolve ty_copy_dir : ty.
Lemma ty_copy_page_tables from to size : typed wf_mm any (copy_page_tables from to size).
Proof. unfold copy_page_tables. ty. Qed.
#[export] Hint Resolve ty_copy_page_tables : ty.
Lemma ty_un_wp table_entry : typed wf_mm any (un_wp table_entry).
Proof. unfold un_wp. ty. Qed.
#[export] Hint Resolve ty_un_wp : ty.
Lemma ty_mem_init start_mem end_mem : typed wf_mm any (mem_init start_mem end_mem).
Proof. unfold mem_init. ty. Qed.
#[export] Hint Resolve ty_mem_init : ty.
Section Memory.
Context {E : Env} {nb : nat} {TE : TypedEnv E nb}.
Abbreviation kernel := (wt nb).
Lemma ty_put_page page address : typed kernel any (put_page page address).
Proof. unfold put_page. ty. Qed.
Hint Resolve ty_put_page : ty.
Lemma ty_calc_mem : typed kernel any calc_mem.
Proof. unfold calc_mem. ty. Qed.
Hint Resolve ty_calc_mem : ty.
End Memory.
#[export] Hint Resolve ty_put_page ty_calc_mem : ty.
