(* ===== verification/TypesBlock.v ===== *)
(** * Types: block requests and the disk drivers *)

From S2P Require Import Prelude State Sched Memory Request Hd Floppy LlRw Types TypesKernel TypesSched.

#[export] Hint Extern 2 (length (memcpy _ _ _ _ _) = _) => unfold memcpy; rewrite length_inserts : ty.

Section Block.
Context {E : Env} {nb : nat} {TE : TypedEnv E nb}.
Abbreviation kernel := (wt nb).

(** ** Requests *)
Lemma ty_CURRENT d : typed kernel (ptr NR_REQUEST) (CURRENT d).
Proof. unfold CURRENT. ty. Qed.
Hint Resolve ty_CURRENT : ty.
Lemma ty_set_CURRENT d r : ptr NR_REQUEST r -> typed kernel any (set_CURRENT d r).
Proof. intros Hr. unfold set_CURRENT. ty. Qed.
Hint Resolve ty_set_CURRENT : ty.
Lemma ty_CURRENT_req d : typed kernel (wf_request nb) (CURRENT_req d).
Proof. unfold CURRENT_req. ty. Qed.
Hint Resolve ty_CURRENT_req : ty.
Lemma ty_set_CURRENT_req d f : (forall x, wf_request nb x -> wf_request nb (f x)) -> typed kernel any (set_CURRENT_req d f).
Proof. intros Hf. unfold set_CURRENT_req. ty. Qed.
Hint Resolve ty_set_CURRENT_req : ty.
Lemma ty_DEVICE_OFF d device : typed kernel any (DEVICE_OFF d device).
Proof. unfold DEVICE_OFF. ty. Qed.
Hint Resolve ty_DEVICE_OFF : ty.
Lemma ty_unlock_buffer msg b : typed kernel any (unlock_buffer msg b).
Proof. unfold unlock_buffer. ty. Qed.
Hint Resolve ty_unlock_buffer : ty.
Lemma ty_end_request d uptodate : typed kernel any (end_request d uptodate).
Proof. unfold end_request. ty. Qed.
Hint Resolve ty_end_request : ty.
Lemma ty_INIT_REQUEST d : typed kernel (fun o => forall r, o = Some r -> wf_request nb r) (INIT_REQUEST d).
Proof. unfold INIT_REQUEST. ty. Qed.
Hint Resolve ty_INIT_REQUEST : ty.
Lemma ty_rd_step : typed kernel any rd_step.
Proof. unfold rd_step. ty. Qed.
Hint Resolve ty_rd_step : ty.
Lemma ty_do_rd_request : typed kernel any do_rd_request.
Proof. unfold do_rd_request. ty. Qed.
Hint Resolve ty_do_rd_request : ty.
Lemma ty_rd_init mem_start length : typed kernel any (rd_init mem_start length).
Proof. unfold rd_init. ty. Qed.
Hint Resolve ty_rd_init : ty.

(** ** The hard disk *)
Lemma ty_port_read port nr : typed kernel (fun l => length l = (2 * nr)%nat) (port_read port nr).
Proof.
  induction nr as [|nr IH]; cbn [port_read]; [by apply typed_ret|]. ty. cbn. apply typed_ret. cbn. lia.
Qed.
Hint Resolve ty_port_read : ty.
Lemma ty_port_write port l : typed kernel any (port_write port l).
Proof. revert l. fix IH 1. intros [|a [|b l]]; cbn [port_write]; ty. Qed.
Hint Resolve ty_port_write : ty.
Lemma ty_poll_ready retries : typed kernel any (poll_ready retries).
Proof. induction retries; cbn [poll_ready]; ty. Qed.
Hint Resolve ty_poll_ready : ty.
Lemma ty_controller_ready : typed kernel any controller_ready.
Proof. unfold controller_ready. ty. Qed.
Hint Resolve ty_controller_ready : ty.
Lemma ty_win_result : typed kernel any win_result.
Proof. unfold win_result. ty. Qed.
Hint Resolve ty_win_result : ty.
Lemma ty_get_hd_info drive : typed kernel any (get_hd_info drive).
Proof. unfold get_hd_info. ty. Qed.
Hint Resolve ty_get_hd_info : ty.
Lemma ty_hd_out drive nsect sect head cyl cmd intr_addr : typed kernel any (hd_out drive nsect sect head cyl cmd intr_addr).
Proof. unfold hd_out. ty. Qed.
Hint Resolve ty_hd_out : ty.
Lemma ty_poll_busy n : typed kernel any (poll_busy n).
Proof. induction n; cbn [poll_busy]; ty. Qed.
Hint Resolve ty_poll_busy : ty.
Lemma ty_drive_busy : typed kernel any drive_busy.
Proof. unfold drive_busy. ty. Qed.
Hint Resolve ty_drive_busy : ty.
Lemma ty_reset_controller : typed kernel any reset_controller.
Proof. unfold reset_controller. ty. Qed.
Hint Resolve ty_reset_controller : ty.
Lemma ty_reset_hd nr : typed kernel any (reset_hd nr).
Proof. unfold reset_hd. ty. Qed.
Hint Resolve ty_reset_hd : ty.
Lemma ty_bad_rw_intr : typed kernel any bad_rw_intr.
Proof. unfold bad_rw_intr. ty. Qed.
Hint Resolve ty_bad_rw_intr : ty.
Lemma ty_poll_drq n : typed kernel any (poll_drq n).
Proof. induction n; cbn [poll_drq]; ty. Qed.
Hint Resolve ty_poll_drq : ty.
Lemma ty_current_sector : typed kernel any current_sector.
Proof. unfold current_sector. ty. Qed.
Hint Resolve ty_current_sector : ty.
Lemma ty_hd_step : typed kernel any hd_step.
Proof. unfold hd_step. ty. Qed.
Hint Resolve ty_hd_step : ty.
Lemma ty_do_hd_request : typed kernel any do_hd_request.
Proof. unfold do_hd_request. ty. Qed.
Hint Resolve ty_do_hd_request : ty.
Lemma ty_read_intr : typed kernel any read_intr.
Proof. unfold read_intr. ty. Qed.
Hint Resolve ty_read_intr : ty.
Lemma ty_write_intr : typed kernel any write_intr.
Proof. unfold write_intr. ty. Qed.
Hint Resolve ty_write_intr : ty.
Lemma ty_recal_intr : typed kernel any recal_intr.
Proof. unfold recal_intr. ty. Qed.
Hint Resolve ty_recal_intr : ty.
Lemma ty_unexpected_hd_interrupt : typed kernel any unexpected_hd_interrupt.
Proof. unfold unexpected_hd_interrupt. ty. Qed.
Hint Resolve ty_unexpected_hd_interrupt : ty.
Lemma ty_hd_interrupt : typed kernel any hd_interrupt.
Proof. unfold hd_interrupt. ty. Qed.
Hint Resolve ty_hd_interrupt : ty.
Lemma ty_hd_init : typed kernel any hd_init.
Proof. unfold hd_init. ty. Qed.
Hint Resolve ty_hd_init : ty.

(** ** The floppy disk *)
Lemma ty_getfd : typed kernel any getfd.
Proof. unfold getfd. ty. Qed.
Hint Resolve ty_getfd : ty.
Lemma ty_floppy_deselect nr : typed kernel any (floppy_deselect nr).
Proof. unfold floppy_deselect. ty. Qed.
Hint Resolve ty_floppy_deselect : ty.
Lemma ty_floppy_change nr : typed kernel any (floppy_change nr).
Proof. unfold floppy_change. ty. Qed.
Hint Resolve ty_floppy_change : ty.
Lemma ty_setup_DMA : typed kernel any setup_DMA.
Proof. unfold setup_DMA. ty. Qed.
Hint Resolve ty_setup_DMA : ty.
Lemma ty_poll_out n : typed kernel any (poll_out n).
Proof. induction n; cbn [poll_out]; ty. Qed.
Hint Resolve ty_poll_out : ty.
Lemma ty_output_byte byte : typed kernel any (output_byte byte).
Proof. unfold output_byte. ty. Qed.
Hint Resolve ty_output_byte : ty.
Lemma ty_poll_result n i : typed kernel any (poll_result n i).
Proof. revert i. induction n; intros i; cbn [poll_result]; ty. Qed.
Hint Resolve ty_poll_result : ty.
Lemma ty_result : typed kernel any result.
Proof. unfold result. ty. Qed.
Hint Resolve ty_result : ty.
Lemma ty_ST n : typed kernel any (ST n).
Proof. unfold ST. ty. Qed.
Hint Resolve ty_ST : ty.
Lemma ty_bad_flp_intr : typed kernel any bad_flp_intr.
Proof. unfold bad_flp_intr. ty. Qed.
Hint Resolve ty_bad_flp_intr : ty.
Lemma ty_reset_floppy : typed kernel any reset_floppy.
Proof. unfold reset_floppy. ty. Qed.
Hint Resolve ty_reset_floppy : ty.
Lemma ty_recalibrate_floppy m : typed kernel any m -> typed kernel any (recalibrate_floppy m).
Proof. intros Hm. unfold recalibrate_floppy. ty. Qed.
Hint Resolve ty_recalibrate_floppy : ty.
Lemma ty_fd_step : typed kernel any fd_step.
Proof. unfold fd_step. ty. Qed.
Hint Resolve ty_fd_step : ty.
Lemma ty_do_fd_request_n n : typed kernel any (do_fd_request_n n).
Proof. induction n; cbn [do_fd_request_n]; ty. Qed.
Hint Resolve ty_do_fd_request_n : ty.
Lemma ty_do_fd_request : typed kernel any do_fd_request.
Proof. unfold do_fd_request. ty. Qed.
Hint Resolve ty_do_fd_request : ty.
Lemma ty_rw_interrupt : typed kernel any rw_interrupt.
Proof. unfold rw_interrupt. ty. Qed.
Hint Resolve ty_rw_interrupt : ty.
Lemma ty_setup_rw_floppy : typed kernel any setup_rw_floppy.
Proof. unfold setup_rw_floppy. ty. Qed.
Hint Resolve ty_setup_rw_floppy : ty.
Lemma ty_seek_interrupt : typed kernel any seek_interrupt.
Proof. unfold seek_interrupt. ty. Qed.
Hint Resolve ty_seek_interrupt : ty.
Lemma ty_transfer : typed kernel any transfer.
Proof. unfold transfer. ty. Qed.
Hint Resolve ty_transfer : ty.
Lemma ty_sense_failed : typed kernel any sense_failed.
Proof. unfold sense_failed. ty. Qed.
Hint Resolve ty_sense_failed : ty.
Lemma ty_recal_interrupt : typed kernel any recal_interrupt.
Proof. unfold recal_interrupt. ty. Qed.
Hint Resolve ty_recal_interrupt : ty.
Lemma ty_unexpected_floppy_interrupt : typed kernel any unexpected_floppy_interrupt.
Proof. unfold unexpected_floppy_interrupt. ty. Qed.
Hint Resolve ty_unexpected_floppy_interrupt : ty.
Lemma ty_reset_interrupt : typed kernel any reset_interrupt.
Proof. unfold reset_interrupt. ty. Qed.
Hint Resolve ty_reset_interrupt : ty.
Lemma ty_floppy_on_interrupt : typed kernel any floppy_on_interrupt.
Proof. unfold floppy_on_interrupt. ty. Qed.
Hint Resolve ty_floppy_on_interrupt : ty.
Lemma ty_floppy_interrupt : typed kernel any floppy_interrupt.
Proof. unfold floppy_interrupt. ty. Qed.
Hint Resolve ty_floppy_interrupt : ty.
Lemma ty_floppy_init : typed kernel any floppy_init.
Proof. unfold floppy_init. ty. Qed.
Hint Resolve ty_floppy_init : ty.

(** ** The request queue *)
Lemma ty_call_request_fn d : typed kernel any (call_request_fn d).
Proof. unfold call_request_fn. ty. Qed.
Hint Resolve ty_call_request_fn : ty.
Lemma ty_lock_buffer b : typed kernel any (lock_buffer b).
Proof. unfold lock_buffer. ty. Qed.
Hint Resolve ty_lock_buffer : ty.
Lemma ty_elevator_step req tmp : typed kernel any (elevator_step req tmp).
Proof. unfold elevator_step. ty. Qed.
Hint Resolve ty_elevator_step : ty.
Lemma ty_add_request dev req : typed kernel any (add_request dev req).
Proof. unfold add_request. ty. Qed.
Hint Resolve ty_add_request : ty.
Lemma ty_get_request rw rw_ahead : typed kernel any (get_request rw rw_ahead).
Proof. unfold get_request. ty. Qed.
Hint Resolve ty_get_request : ty.
Lemma ty_make_request major rw b : typed kernel any (make_request major rw b).
Proof. unfold make_request. ty. Qed.
Hint Resolve ty_make_request : ty.
Lemma ty_ll_rw_block rw b : typed kernel any (ll_rw_block rw b).
Proof. unfold ll_rw_block. ty. Qed.
Hint Resolve ty_ll_rw_block : ty.
Lemma ty_blk_dev_init : typed kernel any blk_dev_init.
Proof. unfold blk_dev_init. ty. Qed.
Hint Resolve ty_blk_dev_init : ty.
End Block.
#[export] Hint Resolve ty_CURRENT ty_set_CURRENT ty_CURRENT_req ty_set_CURRENT_req ty_DEVICE_OFF ty_unlock_buffer ty_end_request ty_INIT_REQUEST ty_rd_step ty_do_rd_request ty_rd_init ty_port_read ty_port_write ty_poll_ready ty_controller_ready ty_win_result ty_get_hd_info ty_hd_out ty_poll_busy ty_drive_busy ty_reset_controller ty_reset_hd ty_bad_rw_intr ty_poll_drq ty_current_sector ty_hd_step ty_do_hd_request ty_read_intr ty_write_intr ty_recal_intr ty_unexpected_hd_interrupt ty_hd_interrupt ty_hd_init ty_getfd ty_floppy_deselect ty_floppy_change ty_setup_DMA ty_poll_out ty_output_byte ty_poll_result ty_result ty_ST ty_bad_flp_intr ty_reset_floppy ty_recalibrate_floppy ty_fd_step ty_do_fd_request_n ty_do_fd_request ty_rw_interrupt ty_setup_rw_floppy ty_seek_interrupt ty_transfer ty_sense_failed ty_recal_interrupt ty_unexpected_floppy_interrupt ty_reset_interrupt ty_floppy_on_interrupt ty_floppy_interrupt ty_floppy_init ty_call_request_fn ty_lock_buffer ty_elevator_step ty_add_request ty_get_request ty_make_request ty_ll_rw_block ty_blk_dev_init : ty.
