(* ===== verification/TypesFs.v ===== *)
(** * Types: the buffer cache, bitmaps and inodes *)

From S2P Require Import Prelude State Sched Memory Request LlRw Buffer Bitmap Inode Types TypesKernel TypesSched TypesBlock.

#[export] Hint Extern 2 (length (bts _ _) = _) => unfold bts; rewrite length_insert : ty.
#[export] Hint Extern 2 (length (btr _ _) = _) => unfold btr; rewrite length_insert : ty.

Section Cache.
Context {E : Env} {nb : nat} {TE : TypedEnv E nb}.
Abbreviation kernel := (wt nb).

(** ** fs/buffer.cc *)
Lemma ty_wait_on_buffer b : typed kernel any (wait_on_buffer b).
Proof. unfold wait_on_buffer. ty. Qed.
Hint Resolve ty_wait_on_buffer : ty.
Lemma ty_wait_on_inode i : typed kernel any (wait_on_inode i).
Proof. unfold wait_on_inode. ty. Qed.
Hint Resolve ty_wait_on_inode : ty.
Lemma ty_lock_inode i : typed kernel any (lock_inode i).
Proof. unfold lock_inode. ty. Qed.
Hint Resolve ty_lock_inode : ty.
Lemma ty_unlock_inode i : typed kernel any (unlock_inode i).
Proof. unfold unlock_inode. ty. Qed.
Hint Resolve ty_unlock_inode : ty.
Lemma ty_wait_on_super n : typed kernel any (wait_on_super n).
Proof. unfold wait_on_super. ty. Qed.
Hint Resolve ty_wait_on_super : ty.
Lemma ty_lock_super n : typed kernel any (lock_super n).
Proof. unfold lock_super. ty. Qed.
Hint Resolve ty_lock_super : ty.
Lemma ty_free_super n : typed kernel any (free_super n).
Proof. unfold free_super. ty. Qed.
Hint Resolve ty_free_super : ty.
Lemma ty_get_super dev : typed kernel (ptr NR_SUPER) (get_super dev).
Proof.
  unfold get_super. ty_step; [ty|]. apply (typed_loop _ any); [done|]. intros n _. ty.
Qed.
Hint Resolve ty_get_super : ty.
Lemma ty_hash_head dev block : typed kernel (ptr nb) (hash_head dev block).
Proof. unfold hash_head. ty. Qed.
Hint Resolve ty_hash_head : ty.
Lemma ty_set_hash_head dev block o : ptr nb o -> typed kernel any (set_hash_head dev block o).
Proof. intros Ho. unfold set_hash_head. ty. Qed.
Hint Resolve ty_set_hash_head : ty.
Lemma ty_remove_from_hash b : typed kernel any (remove_from_hash b).
Proof. unfold remove_from_hash. ty. Qed.
Hint Resolve ty_remove_from_hash : ty.
Lemma ty_remove_from_free b : typed kernel any (remove_from_free b).
Proof. unfold remove_from_free. ty. Qed.
Hint Resolve ty_remove_from_free : ty.
Lemma ty_remove_from_queues b : typed kernel any (remove_from_queues b).
Proof. unfold remove_from_queues. ty. Qed.
Hint Resolve ty_remove_from_queues : ty.
Lemma ty_insert_free_tail b : typed kernel any (insert_free_tail b).
Proof. unfold insert_free_tail. ty. Qed.
Hint Resolve ty_insert_free_tail : ty.
Lemma ty_insert_hash_head b : typed kernel any (insert_hash_head b).
Proof. unfold insert_hash_head. ty. Qed.
Hint Resolve ty_insert_hash_head : ty.
Lemma ty_insert_into_queues b : typed kernel any (insert_into_queues b).
Proof. unfold insert_into_queues. ty. Qed.
Hint Resolve ty_insert_into_queues : ty.
Lemma ty_find_buffer dev block : typed kernel (ptr nb) (find_buffer dev block).
Proof.
  unfold find_buffer. ty_step. ty_step. apply (typed_loop _ (ptr nb)); [done|]. intros o Ho. ty.
Qed.
Hint Resolve ty_find_buffer : ty.
Lemma ty_each_buffer f : (forall b, typed kernel any (f b)) -> typed kernel any (each_buffer f).
Proof. intros Hf. unfold each_buffer, NR_BUFFERS. ty. Qed.
Hint Extern 1 (typed _ _ (each_buffer _)) => apply ty_each_buffer; intros; solve [ty] : ty.
Lemma ty_get_hash_table dev block : typed kernel (ptr nb) (get_hash_table dev block).
Proof. unfold get_hash_table. ty. Qed.
Hint Resolve ty_get_hash_table : ty.
Lemma ty_scan_free : typed kernel (ptr nb) scan_free.
Proof.
  unfold scan_free. ty_step. ty_step. apply (typed_loop _ (fun x => (x.1 < nb)%nat /\ ptr nb x.2)); [done|]. intros [b o] [Hb Ho]. ty.
Qed.
Hint Resolve ty_scan_free : ty.
Lemma ty_brelse o : typed kernel any (brelse o).
Proof. unfold brelse. ty. Qed.
Hint Resolve ty_brelse : ty.

Section Sync.
Context (sync : K unit) (Hsync : typed kernel any sync).
Hint Resolve Hsync : ty.
Lemma ty_sync_buffers dev : typed kernel any (sync_buffers dev).
Proof. unfold sync_buffers. ty. Qed.
Hint Resolve ty_sync_buffers : ty.
Lemma ty_sync_dev_with dev : typed kernel any (sync_dev_with sync dev).
Proof. unfold sync_dev_with. ty. Qed.
Hint Resolve ty_sync_dev_with : ty.
Lemma ty_clean_buffer b : typed kernel any (clean_buffer sync b).
Proof. unfold clean_buffer. ty. Qed.
Hint Resolve ty_clean_buffer : ty.
Lemma ty_rename_buffer b dev block : typed kernel any (rename_buffer b dev block).
Proof. unfold rename_buffer. ty. Qed.
Hint Resolve ty_rename_buffer : ty.
Lemma ty_getblk_with dev block : typed kernel (index nb) (getblk_with sync dev block).
Proof. unfold getblk_with. apply (typed_loop _ any); [done|]. intros x _. ty. Qed.
Hint Resolve ty_getblk_with : ty.
Lemma ty_bread_with dev block : typed kernel (ptr nb) (bread_with sync dev block).
Proof. unfold bread_with. ty. Qed.
Hint Resolve ty_bread_with : ty.
Lemma ty_write_inode_with i : typed kernel any (write_inode_with sync i).
Proof. unfold write_inode_with. ty. Qed.
End Sync.
Hint Resolve ty_sync_buffers ty_sync_dev_with ty_clean_buffer ty_rename_buffer ty_getblk_with ty_bread_with ty_write_inode_with : ty.
Lemma ty_invalidate_buffers dev : typed kernel any (invalidate_buffers dev).
Proof. unfold invalidate_buffers. ty. Qed.
Hint Resolve ty_invalidate_buffers : ty.

(** ** fs/bitmap.cc *)
Lemma ty_sync_inodes_n n : typed kernel any (sync_inodes_n n).
Proof. induction n; cbn [sync_inodes_n]; ty. Qed.
Hint Resolve ty_sync_inodes_n : ty.
Lemma ty_sync_inodes : typed kernel any sync_inodes.
Proof. unfold sync_inodes. ty. Qed.
Hint Resolve ty_sync_inodes : ty.
Lemma ty_write_inode i : typed kernel any (write_inode i).
Proof. unfold write_inode. ty. Qed.
Hint Resolve ty_write_inode : ty.
Lemma ty_getblk dev block : typed kernel (index nb) (getblk dev block).
Proof. unfold getblk. ty. Qed.
Hint Resolve ty_getblk : ty.
Lemma ty_bread dev block : typed kernel (ptr nb) (bread dev block).
Proof. unfold bread. ty. Qed.
Hint Resolve ty_bread : ty.
Lemma ty_sync_dev dev : typed kernel any (sync_dev dev).
Proof. unfold sync_dev. ty. Qed.
Hint Resolve ty_sync_dev : ty.
Lemma ty_sys_sync : typed kernel any sys_sync.
Proof. unfold sys_sync. ty. Qed.
Hint Resolve ty_sys_sync : ty.
Lemma ty_COPYBLK data address : typed wf_mm any (COPYBLK data address).
Proof. unfold COPYBLK. ty. Qed.
Hint Resolve ty_COPYBLK : ty.
Lemma ty_bread_page address dev nr : typed kernel any (bread_page address dev nr).
Proof. unfold bread_page. ty. Qed.
Hint Resolve ty_bread_page : ty.
Lemma ty_breada dev first more : typed kernel (ptr nb) (breada dev first more).
Proof. unfold breada. ty. Qed.
Hint Resolve ty_breada : ty.
Lemma ty_set_bit nr b : typed kernel any (set_bit nr b).
Proof. unfold set_bit. ty. Qed.
Hint Resolve ty_set_bit : ty.
Lemma ty_clear_bit nr b : typed kernel any (clear_bit nr b).
Proof. unfold clear_bit. ty. Qed.
Hint Resolve ty_clear_bit : ty.
Lemma ty_free_block dev block : typed kernel any (free_block dev block).
Proof. unfold free_block. ty. Qed.
Hint Resolve ty_free_block : ty.
Lemma ty_scan_map i m : typed kernel any (scan_map i m).
Proof. revert i. induction m as [|[b|] m IH]; intros i; cbn [scan_map]; ty. Qed.
Hint Resolve ty_scan_map : ty.
Lemma ty_new_block dev : typed kernel any (new_block dev).
Proof. unfold new_block. ty. Qed.
Hint Resolve ty_new_block : ty.
Lemma ty_free_inode o : typed kernel any (free_inode o).
Proof. unfold free_inode. ty. Qed.
Hint Resolve ty_free_inode : ty.

(** ** fs/inode.cc, fs/truncate.cc *)
Lemma ty_invalidate_inodes dev : typed kernel any (invalidate_inodes dev).
Proof. unfold invalidate_inodes. ty. Qed.
Hint Resolve ty_invalidate_inodes : ty.
Lemma ty_get_zone i k : typed kernel any (get_zone i k).
Proof. unfold get_zone. ty. Qed.
Hint Resolve ty_get_zone : ty.
Lemma ty_set_zone i k v : typed kernel any (set_zone i k v).
Proof. unfold set_zone. ty. Qed.
Hint Resolve ty_set_zone : ty.
Lemma ty_bmap_slot i k create : typed kernel any (bmap_slot i k create).
Proof. unfold bmap_slot. ty. Qed.
Hint Resolve ty_bmap_slot : ty.
Lemma ty_bmap_indirect i ind k create : typed kernel any (bmap_indirect i ind k create).
Proof. unfold bmap_indirect. ty. Qed.
Hint Resolve ty_bmap_indirect : ty.
Lemma ty__bmap i block create : typed kernel any (_bmap i block create).
Proof. unfold _bmap. ty. Qed.
Hint Resolve ty__bmap : ty.
Lemma ty_bmap i block : typed kernel any (bmap i block).
Proof. unfold bmap. ty. Qed.
Hint Resolve ty_bmap : ty.
Lemma ty_create_block i block : typed kernel any (create_block i block).
Proof. unfold create_block. ty. Qed.
Hint Resolve ty_create_block : ty.
Lemma ty_free_entries b f : (forall z, typed kernel any (f z)) -> typed kernel any (free_entries b f).
Proof. intros Hf. unfold free_entries. ty. Qed.
Hint Resolve ty_free_entries : ty.
Lemma ty_free_ind dev block : typed kernel any (free_ind dev block).
Proof. unfold free_ind. ty. Qed.
Hint Resolve ty_free_ind : ty.
Lemma ty_free_dind dev block : typed kernel any (free_dind dev block).
Proof. unfold free_dind. ty. Qed.
Hint Resolve ty_free_dind : ty.
Lemma ty_truncate i : typed kernel any (truncate i).
Proof. unfold truncate. ty. Qed.
Hint Resolve ty_truncate : ty.
Lemma ty_dec_count i : typed kernel any (dec_count i).
Proof. unfold dec_count. ty. Qed.
Hint Resolve ty_dec_count : ty.
Lemma ty_iput o : typed kernel any (iput o).
Proof. unfold iput. ty. Qed.
Hint Resolve ty_iput : ty.
Lemma ty_scan_inodes n o : ptr NR_INODE o -> typed kernel (ptr NR_INODE) (scan_inodes n o).
Proof.
  revert o. induction n as [|n IH]; intros o Ho; cbn [scan_inodes]; [ty|].
  eapply typed_bind; [apply typed_on_fs|ty_next; ty].
  intros x Hx. ty_record Hx. destruct (decide _); unfold NR_INODE in *; lia.
Qed.
Hint Resolve ty_scan_inodes : ty.
Lemma ty_get_empty_inode : typed kernel (index NR_INODE) get_empty_inode.
Proof.
  unfold get_empty_inode. eapply (typed_bind _ (index NR_INODE)); [apply (typed_loop _ any); [done|]; intros x _; ty|]. ty.
Qed.
Hint Resolve ty_get_empty_inode : ty.
Lemma ty_get_pipe_inode : typed kernel (ptr NR_INODE) get_pipe_inode.
Proof. unfold get_pipe_inode. ty. Qed.
Hint Resolve ty_get_pipe_inode : ty.
Lemma ty_read_inode i : typed kernel any (read_inode i).
Proof. unfold read_inode. ty. Qed.
Hint Resolve ty_read_inode : ty.
Lemma ty_find_mount i : typed kernel any (find_mount i).
Proof. unfold find_mount. ty. Qed.
Hint Resolve ty_find_mount : ty.
Lemma ty_iget dev nr : typed kernel (index NR_INODE) (iget dev nr).
Proof.
  unfold iget. ty_step; [ty|]. ty_step. eapply (typed_bind _ (either (index NR_INODE) any)); [|ty].
  apply (typed_loop _ any); [done|]. intros [[d n] i] _. ty.
Qed.
Hint Resolve ty_iget : ty.
Lemma ty_new_inode dev : typed kernel (ptr NR_INODE) (new_inode dev).
Proof. unfold new_inode. ty. Qed.
Hint Resolve ty_new_inode : ty.
Lemma ty_put_super dev : typed kernel any (put_super dev).
Proof. unfold put_super. ty. Qed.
Hint Resolve ty_put_super : ty.
End Cache.
#[export] Hint Resolve ty_wait_on_buffer ty_wait_on_inode ty_lock_inode ty_unlock_inode ty_wait_on_super ty_lock_super ty_free_super ty_get_super ty_hash_head ty_set_hash_head ty_remove_from_hash ty_remove_from_free ty_remove_from_queues ty_insert_free_tail ty_insert_hash_head ty_insert_into_queues ty_find_buffer ty_each_buffer ty_get_hash_table ty_scan_free ty_brelse ty_sync_buffers ty_sync_dev_with ty_clean_buffer ty_rename_buffer ty_getblk_with ty_bread_with ty_write_inode_with ty_invalidate_buffers ty_sync_inodes_n ty_sync_inodes ty_write_inode ty_getblk ty_bread ty_sync_dev ty_sys_sync ty_COPYBLK ty_bread_page ty_breada ty_set_bit ty_clear_bit ty_free_block ty_scan_map ty_new_block ty_free_inode ty_invalidate_inodes ty_get_zone ty_set_zone ty_bmap_slot ty_bmap_indirect ty__bmap ty_bmap ty_create_block ty_free_entries ty_free_ind ty_free_dind ty_truncate ty_dec_count ty_iput ty_scan_inodes ty_get_empty_inode ty_get_pipe_inode ty_read_inode ty_find_mount ty_iget ty_new_inode ty_put_super : ty.
