(* ===== verification/TypesTty.v ===== *)
(** * Types: terminals and the console *)

From S2P Require Import Prelude Ctype State Memory Sched TtyQueue Console Tty Types TypesKernel TypesSched.

(** ** The display: what does not touch the parameters of an escape sequence *)
Definition par_kept (f : con_st -> con_st) : Prop := forall c, par (f c) = par c.
Lemma foldl_par {A} (f : con_st -> A -> con_st) (l : list A) : (forall x, par_kept (fun c => f c x)) -> par_kept (fun c => foldl f c l).
Proof. intros Hf. induction l as [|x l IH]; intros c; cbn; [done|]. rewrite IH. apply Hf. Qed.
Lemma iter_par n f : par_kept f -> par_kept (Nat.iter n f).
Proof. intros Hf c. induction n as [|n IH]; cbn; [done|]. by rewrite Hf. Qed.
Lemma put_cell_par a v : par_kept (put_cell a v).
Proof. done. Qed.
Lemma stosw_par a n v : par_kept (stosw a n v).
Proof. apply foldl_par. done. Qed.
Lemma stosw_down_par a n v : par_kept (stosw_down a n v).
Proof. apply foldl_par. done. Qed.
Lemma movsl_par a b n : par_kept (movsl a b n).
Proof. apply foldl_par. done. Qed.
Lemma movsl_down_par a b n : par_kept (movsl_down a b n).
Proof. apply foldl_par. done. Qed.
Lemma gotoxy_par x y : par_kept (gotoxy x y).
Proof. intros c. unfold gotoxy. by destruct (_ || _). Qed.
Lemma scroll_up_region_par : par_kept scroll_up_region.
Proof. intros c. unfold scroll_up_region. by rewrite stosw_par, movsl_par. Qed.
Lemma scroll_up_origin_par : par_kept scroll_up_origin.
Proof.
  intros c. unfold scroll_up_origin. cbv zeta. set (d := c <| origin ::= _ |> <| pos ::= _ |> <| scr_end ::= _ |>).
  change (par c) with (par d). destruct (video_mem_end d <? scr_end d); [|apply stosw_par].
  transitivity (par (stosw (video_mem_start d + 4 * Z.of_nat (Z.to_nat (Z.shiftr (u32 (u32 (video_num_lines d - 1) * video_num_columns d)) 1)))
    (columns d) (video_erase_char d) (movsl (origin d) (video_mem_start d)
      (Z.to_nat (Z.shiftr (u32 (u32 (video_num_lines d - 1) * video_num_columns d)) 1)) d))); [done|].
  by rewrite stosw_par, movsl_par.
Qed.
Lemma scrdown_par : par_kept scrdown.
Proof. intros c. unfold scrdown. by rewrite stosw_down_par, movsl_down_par. Qed.
Lemma ri_par : par_kept ri.
Proof. intros c. unfold ri. destruct (_ <? _); [done|apply scrdown_par]. Qed.
Lemma del_par : par_kept del.
Proof. intros c. unfold del. by destruct (_ =? _). Qed.
Lemma csi_J_par p : par_kept (csi_J p).
Proof. intros c. unfold csi_J. repeat (destruct (_ =? _); [apply stosw_par|]). done. Qed.
Lemma csi_K_par p : par_kept (csi_K p).
Proof.
  intros c. unfold csi_K. destruct (p =? 0); [destruct (_ <=? _); [done|apply stosw_par]|].
  repeat (destruct (_ =? _); [apply stosw_par|]). done.
Qed.
Lemma csi_m_par : par_kept csi_m.
Proof. intros c. apply (foldl_par _ (take (S (npar c)) (par c))). intros p d. by repeat destruct (_ =? _). Qed.
Lemma insert_char_par : par_kept insert_char.
Proof.
  intros c. unfold insert_char. generalize (seq 0 (Z.to_nat (video_num_columns c - cur_x c))) (video_erase_char c).
  intros l. revert c. induction l as [|k l IH]; intros c old; cbn; [done|]. by rewrite IH.
Qed.
Lemma delete_char_par : par_kept delete_char.
Proof.
  intros c. unfold delete_char. destruct (_ <=? _); [done|]. cbv zeta. rewrite put_cell_par.
  apply (foldl_par (fun c k => put_cell (pos c + 2 * Z.of_nat k) (cell c (pos c + 2 * Z.of_nat k + 2)) c)).
  intros k d. apply put_cell_par.
Qed.
Lemma below_cursor_par f : par_kept f -> par_kept (below_cursor f).
Proof. intros Hf c. exact (Hf (c <| top := cur_y c |> <| bottom := video_num_lines c |>)). Qed.
Lemma csi_at_par p : par_kept (csi_at p).
Proof. intros c. apply (iter_par _ _ insert_char_par). Qed.
Lemma csi_L_par p : par_kept (csi_L p).
Proof. intros c. apply (iter_par _ _ (below_cursor_par _ scrdown_par)). Qed.
Lemma csi_P_par p : par_kept (csi_P p).
Proof. intros c. apply (iter_par _ _ delete_char_par). Qed.
Lemma restore_cur_par : par_kept restore_cur.
Proof. intros c. apply gotoxy_par. Qed.

Lemma wf_con_par f x : par_kept f -> wf_con x -> wf_con (f x).
Proof. intros Hf Hx. unfold wf_con. by rewrite Hf. Qed.
#[local] Hint Resolve put_cell_par stosw_par stosw_down_par movsl_par movsl_down_par gotoxy_par scroll_up_region_par scroll_up_origin_par
  scrdown_par ri_par del_par csi_J_par csi_K_par csi_m_par csi_at_par csi_L_par csi_P_par restore_cur_par wf_con_par : ty.
#[local] Hint Extern 1 (wf_con (if ?b then _ else _)) => destruct b : ty.

Section Tty.
Context {E : Env} {nb : nat} {TE : TypedEnv E nb}.
Abbreviation kernel := (wt nb).

(** ** Queues *)
Lemma ty_gettty t : typed kernel (fun x => wf_tty x /\ (t < 3)%nat) (gettty t).
Proof. unfold gettty. ty. Qed.
Lemma ty_settty t f : (forall x, wf_tty x -> wf_tty (f x)) -> typed kernel any (settty t f).
Proof.
  intros Hf. unfold settty. eapply typed_bind; [apply ty_gettty|]. intros x [Hx Ht]. apply typed_modify. intros s Hs.
  ty_record Hs; [by rewrite length_insert|]. apply Forall_set; auto.
Qed.
Hint Resolve ty_gettty ty_settty : ty.
Lemma ty_getq t q : typed kernel wf_queue (getq t q).
Proof. unfold getq. ty. destruct q as [|[|q]]; apply typed_ret; by destruct H as (?&?&?&?). Qed.
Lemma ty_setq t q f : (forall x, wf_queue x -> wf_queue (f x)) -> typed kernel any (setq t q f).
Proof.
  intros Hf. unfold setq. apply ty_settty. intros x (?&?&?&?). destruct q as [|[|q]]; split_and!; cbn; auto.
Qed.
Hint Resolve ty_getq ty_setq : ty.
Lemma PUTCH_queue c x : wf_queue x -> wf_queue (PUTCH c x).
Proof. unfold wf_queue, PUTCH. cbn. by rewrite length_insert. Qed.
Lemma pop_queue x : wf_queue x -> wf_queue (pop x).
Proof. done. Qed.
Lemma unput_queue x : wf_queue x -> wf_queue (unput x).
Proof. done. Qed.
Hint Resolve PUTCH_queue pop_queue unput_queue : ty.
Lemma ty_putch t q c : typed kernel any (putch t q c).
Proof. unfold putch. ty. Qed.
Hint Resolve ty_putch : ty.
Lemma ty_getch t q : typed kernel any (getch t q).
Proof. unfold getch. ty. Qed.
Hint Resolve ty_getch : ty.
Lemma ty_no_signal : typed kernel any no_signal.
Proof. unfold no_signal. ty. Qed.
Hint Resolve ty_no_signal : ty.
Lemma ty_sleep_if_empty t q : typed kernel any (sleep_if_empty t q).
Proof. unfold sleep_if_empty. ty. Qed.
Hint Resolve ty_sleep_if_empty : ty.
Lemma ty_sleep_if_full t q : typed kernel any (sleep_if_full t q).
Proof. unfold sleep_if_full. ty. Qed.
Hint Resolve ty_sleep_if_full : ty.
Lemma ty_wait_for_keypress : typed kernel any wait_for_keypress.
Proof. unfold wait_for_keypress. ty. Qed.
Hint Resolve ty_wait_for_keypress : ty.
Lemma ty_tty_intr t m : typed kernel any (tty_intr t m).
Proof. unfold tty_intr. ty. Qed.
Hint Resolve ty_tty_intr : ty.

(** ** The console *)
Lemma ty_getcon : typed kernel any getcon.
Proof. unfold getcon. ty. Qed.
Hint Resolve ty_getcon : ty.
Lemma ty_set_video_reg reg a : typed kernel any (set_video_reg reg a).
Proof. unfold set_video_reg. ty. Qed.
Hint Resolve ty_set_video_reg : ty.
Lemma ty_set_origin : typed kernel any set_origin.
Proof. unfold set_origin. ty. Qed.
Hint Resolve ty_set_origin : ty.
Lemma ty_set_cursor : typed kernel any set_cursor.
Proof. unfold set_cursor. ty. Qed.
Hint Resolve ty_set_cursor : ty.
Lemma ty_scrup : typed kernel any scrup.
Proof. unfold scrup. ty. Qed.
Hint Resolve ty_scrup : ty.
Lemma ty_lf : typed kernel any lf.
Proof. unfold lf. ty. Qed.
Hint Resolve ty_lf : ty.
Lemma ty_delete_line : typed kernel any delete_line.
Proof. unfold delete_line. ty. Qed.
Hint Resolve ty_delete_line : ty.
Lemma ty_csi_M nr : typed kernel any (csi_M nr).
Proof. unfold csi_M. ty. Qed.
Hint Resolve ty_csi_M : ty.
Lemma ty_sysbeep : typed kernel any sysbeep.
Proof. unfold sysbeep. ty. Qed.
Hint Resolve ty_sysbeep : ty.
Lemma ty_get_par k : typed kernel any (get_par k).
Proof. unfold get_par. ty. Qed.
Hint Resolve ty_get_par : ty.
Lemma ty_set_par k f : typed kernel any (set_par k f).
Proof. unfold set_par. ty. Qed.
Hint Resolve ty_set_par : ty.
Lemma ty_dec_par k : typed kernel any (dec_par k).
Proof. unfold dec_par. ty. Qed.
Hint Resolve ty_dec_par : ty.
Lemma ty_one_par : typed kernel any one_par.
Proof. unfold one_par. ty. Qed.
Hint Resolve ty_one_par : ty.
Lemma ty_csi_final c : typed kernel any (csi_final c).
Proof. unfold csi_final. ty. Qed.
Hint Resolve ty_csi_final : ty.
Lemma ty_wrap_column : typed kernel any wrap_column.
Proof. unfold wrap_column. ty. Qed.
Hint Resolve ty_wrap_column : ty.
Lemma ty_con_plain t ch : typed kernel any (con_plain t ch).
Proof. unfold con_plain. ty. Qed.
Hint Resolve ty_con_plain : ty.
Lemma ty_con_csi ch : typed kernel any (con_csi ch).
Proof. unfold con_csi. ty. Qed.
Hint Resolve ty_con_csi : ty.
Section Write.
Context (cook : nat -> K unit) (Hcook : forall t, typed kernel any (cook t)).
Hint Resolve Hcook : ty.
Lemma ty_con_char t ch : typed kernel any (con_char cook t ch).
Proof. unfold con_char. ty. Qed.
Hint Resolve ty_con_char : ty.
Lemma ty_con_write_with t : typed kernel any (con_write_with cook t).
Proof. unfold con_write_with. ty. Qed.
End Write.
Hint Resolve ty_con_char ty_con_write_with : ty.
Lemma ty_con_init cols lines_x lines_y mode ega_bx : typed kernel any (con_init cols lines_x lines_y mode ega_bx).
Proof. unfold con_init. ty. Qed.
Hint Resolve ty_con_init : ty.
Lemma ty_rs_init_port port : typed kernel any (rs_init_port port).
Proof. unfold rs_init_port. ty. Qed.
Hint Resolve ty_rs_init_port : ty.
Lemma ty_rs_init : typed kernel any rs_init.
Proof. unfold rs_init. ty. Qed.
Hint Resolve ty_rs_init : ty.
Lemma ty_rs_write t : typed kernel any (rs_write t).
Proof. unfold rs_write. ty. Qed.
Hint Resolve ty_rs_write : ty.

(** ** The line discipline *)
Section Cooked.
Context (write : nat -> K unit) (Hwrite : forall t, typed kernel any (write t)).
Hint Resolve Hwrite : ty.
Lemma ty_echo_erase t c : typed kernel any (echo_erase write t c).
Proof. unfold echo_erase. ty. Qed.
Hint Resolve ty_echo_erase : ty.
Lemma ty_kill_line t : typed kernel any (kill_line write t).
Proof. unfold kill_line. ty. Qed.
Hint Resolve ty_kill_line : ty.
Lemma ty_erase_char t : typed kernel any (erase_char write t).
Proof. unfold erase_char. ty. Qed.
Hint Resolve ty_erase_char : ty.
Lemma ty_translate_input x c : typed kernel any (translate_input x c).
Proof. unfold translate_input. ty. Qed.
Hint Resolve ty_translate_input : ty.
Lemma ty_echo t c : typed kernel any (echo write t c).
Proof. unfold echo. ty. Qed.
Hint Resolve ty_echo : ty.
Lemma ty_cook_char t c : typed kernel any (cook_char write t c).
Proof. unfold cook_char. ty. Qed.
Hint Resolve ty_cook_char : ty.
Lemma ty_copy_to_cooked_with t : typed kernel any (copy_to_cooked_with write t).
Proof. unfold copy_to_cooked_with. ty. Qed.
Hint Resolve ty_copy_to_cooked_with : ty.
End Cooked.
Hint Resolve ty_copy_to_cooked_with : ty.
Lemma ty_tty_write_fn n t : typed kernel any (tty_write_fn n t).
Proof. revert t. induction n as [|n IH]; intros [|t]; cbn [tty_write_fn]; ty. Qed.
Hint Resolve ty_tty_write_fn : ty.
Lemma ty_write_fn t : typed kernel any (write_fn t).
Proof. unfold write_fn. ty. Qed.
Hint Resolve ty_write_fn : ty.
Lemma ty_con_write t : typed kernel any (con_write t).
Proof. unfold con_write. ty. Qed.
Hint Resolve ty_con_write : ty.
Lemma ty_copy_to_cooked t : typed kernel any (copy_to_cooked t).
Proof. unfold copy_to_cooked. ty. Qed.
Hint Resolve ty_copy_to_cooked : ty.
Lemma ty_tty_init cols x y mode ega_bx : typed kernel any (tty_init cols x y mode ega_bx).
Proof. unfold tty_init. ty. Qed.
Hint Resolve ty_tty_init : ty.
Lemma ty_do_tty_interrupt t : typed kernel any (do_tty_interrupt t).
Proof. unfold do_tty_interrupt. ty. Qed.
Hint Resolve ty_do_tty_interrupt : ty.
Lemma ty_set_read_alarm time oldalarm m : typed kernel any m -> typed kernel any (set_read_alarm time oldalarm m).
Proof. intros Hm. unfold set_read_alarm. ty. Qed.
Hint Extern 1 (typed _ _ (set_read_alarm _ _ _)) => apply ty_set_read_alarm; solve [ty] : ty.
Lemma ty_take_chars t nr b : typed kernel any (take_chars t nr b).
Proof. unfold take_chars. ty. Qed.
Hint Resolve ty_take_chars : ty.
Lemma ty_read_step t buf time minimum oldalarm x : typed kernel (either any any) (read_step t buf time minimum oldalarm x).
Proof. destruct x as [[nr b] flag]. unfold read_step. ty. Qed.
Hint Resolve ty_read_step : ty.
Lemma ty_tty_read channel buf nr : typed kernel any (tty_read channel buf nr).
Proof. unfold tty_read. ty. Qed.
Hint Resolve ty_tty_read : ty.
Lemma ty_fill_queue t nr b : typed kernel any (fill_queue get_fs_byte t nr b).
Proof. unfold fill_queue, fill_step. ty. Qed.
Hint Resolve ty_fill_queue : ty.
Lemma ty_tty_write channel buf nr : typed kernel any (tty_write channel buf nr).
Proof. unfold tty_write, tty_write_from. ty. Qed.
Hint Resolve ty_tty_write : ty.
End Tty.
#[export] Hint Resolve ty_gettty ty_settty ty_getq ty_setq ty_putch ty_getch ty_no_signal ty_sleep_if_empty ty_sleep_if_full ty_wait_for_keypress ty_tty_intr ty_getcon ty_set_video_reg ty_set_origin ty_set_cursor ty_scrup ty_lf ty_delete_line ty_csi_M ty_sysbeep ty_get_par ty_set_par ty_dec_par ty_one_par ty_csi_final ty_wrap_column ty_con_plain ty_con_csi ty_con_char ty_con_write_with ty_con_init ty_rs_init_port ty_rs_init ty_rs_write ty_echo_erase ty_kill_line ty_erase_char ty_translate_input ty_echo ty_cook_char ty_copy_to_cooked_with ty_tty_write_fn ty_write_fn ty_con_write ty_copy_to_cooked ty_tty_init ty_do_tty_interrupt ty_take_chars ty_read_step ty_tty_read ty_fill_queue ty_tty_write : ty.
