(* ===== verification/TypesNames.v ===== *)
(** * Types: names and directories, mounting, open files *)

From S2P Require Import Prelude State Memory Sched Request LlRw Buffer.
From S2P Require Import Bitmap Inode Namei TtyQueue Dirs Super Open.
From S2P Require Import Types TypesKernel TypesSched TypesBlock TypesFs TypesTty.

Section Names.
Context {E : Env} {nb : nat} {TE : TypedEnv E nb}.
Abbreviation kernel := (wt nb).

(** ** fs/namei.cc *)
Lemma ty_permission i mask : typed kernel any (permission i mask).
Proof. unfold permission. ty. Qed.
Hint Resolve ty_permission : ty.
Lemma ty_same_bytes name data o len : typed kernel any (same_bytes name data o len).
Proof. revert name o. induction len; intros; cbn [same_bytes]; ty. Qed.
Hint Resolve ty_same_bytes : ty.
Lemma ty_match_ len name data de : typed kernel any (match_ len name data de).
Proof. unfold match_. ty. Qed.
Hint Resolve ty_match_ : ty.
Lemma ty_dec_nlinks i : typed kernel any (dec_nlinks i).
Proof. unfold dec_nlinks. ty. Qed.
Hint Resolve ty_dec_nlinks : ty.
Lemma ty_inc_count i : typed kernel any (inc_count i).
Proof. unfold inc_count. ty. Qed.
Hint Resolve ty_inc_count : ty.
Lemma ty_set_de_inode b de v : typed kernel any (set_de_inode b de v).
Proof. unfold set_de_inode. ty. Qed.
Hint Resolve ty_set_de_inode : ty.
Lemma ty_mark_dirty b : typed kernel any (mark_dirty b).
Proof. unfold mark_dirty. ty. Qed.
Hint Resolve ty_mark_dirty : ty.
Lemma ty_get_de_inode b de : typed kernel any (get_de_inode b de).
Proof. unfold get_de_inode. ty. Qed.
Hint Resolve ty_get_de_inode : ty.
Lemma ty_find_step dir namelen name entries x : typed kernel (either any any) (find_step dir namelen name entries x).
Proof. destruct x as [[i bh] de]. unfold find_step. ty. Qed.
Hint Resolve ty_find_step : ty.
Lemma ty_cross_dotdot dir name namelen : index NR_INODE dir ->
  typed kernel (fun r => index NR_INODE r.1) (cross_dotdot dir name namelen).
Proof. intros Hd. unfold cross_dotdot. ty. Qed.
Hint Resolve ty_cross_dotdot : ty.
Lemma ty_find_entry dir name namelen : typed kernel (fun r => index NR_INODE r.1) (find_entry dir name namelen).
Proof. unfold find_entry. ty. Qed.
Hint Resolve ty_find_entry : ty.
Lemma ty_put_name b de name namelen : typed kernel any (put_name b de name namelen).
Proof. unfold put_name. ty. Qed.
Hint Resolve ty_put_name : ty.
Lemma ty_add_step dir namelen name x : typed kernel (either any any) (add_step dir namelen name x).
Proof. destruct x as [[i bh] de]. unfold add_step. ty. Qed.
Hint Resolve ty_add_step : ty.
Lemma ty_add_entry dir name namelen : typed kernel any (add_entry dir name namelen).
Proof. unfold add_entry. ty. Qed.
Hint Resolve ty_add_entry : ty.
Lemma ty_scan_component path : typed kernel any (scan_component path).
Proof. unfold scan_component. ty. Qed.
Hint Resolve ty_scan_component : ty.
Lemma ty_get_dir pathname : typed kernel (ptr NR_INODE) (get_dir pathname).
Proof. unfold get_dir. ty. Qed.
Hint Resolve ty_get_dir : ty.
Lemma ty_basename pathname : typed kernel any (basename pathname).
Proof. unfold basename. ty. Qed.
Hint Resolve ty_basename : ty.
Lemma ty_dir_namei pathname : typed kernel (fun o => match o with Some (d, _, _) => index NR_INODE d | None => True end) (dir_namei pathname).
Proof. unfold dir_namei. ty. Qed.
Hint Resolve ty_dir_namei : ty.
Lemma ty_namei pathname : typed kernel (ptr NR_INODE) (namei pathname).
Proof. unfold namei. ty. Qed.
Hint Resolve ty_namei : ty.
Lemma ty_open_create dir name namelen mode : typed kernel (either any (index NR_INODE)) (open_create dir name namelen mode).
Proof. unfold open_create. ty. Qed.
Hint Resolve ty_open_create : ty.
Lemma ty_open_namei pathname flag mode : typed kernel (either any (index NR_INODE)) (open_namei pathname flag mode).
Proof. unfold open_namei. ty. Qed.
Hint Resolve ty_open_namei : ty.

(** ** Directory calls *)
Lemma ty_iputs l : typed kernel any (iputs l).
Proof. unfold iputs. ty. Qed.
Hint Resolve ty_iputs : ty.
Lemma ty_fail l b err : typed kernel any (fail l b err).
Proof. unfold fail. ty. Qed.
Hint Resolve ty_fail : ty.
Lemma ty_sys_mknod filename mode dev : typed kernel any (sys_mknod filename mode dev).
Proof. unfold sys_mknod. ty. Qed.
Hint Resolve ty_sys_mknod : ty.
Lemma ty_strcpy_name b de name : typed kernel any (strcpy_name b de name).
Proof. unfold strcpy_name. ty. Qed.
Hint Resolve ty_strcpy_name : ty.
Lemma ty_fill_dir_block b i dir : typed kernel any (fill_dir_block b i dir).
Proof. unfold fill_dir_block. ty. Qed.
Hint Resolve ty_fill_dir_block : ty.
Lemma ty_sys_mkdir pathname mode : typed kernel any (sys_mkdir pathname mode).
Proof. unfold sys_mkdir. ty. Qed.
Hint Resolve ty_sys_mkdir : ty.
Lemma ty_empty_step inode len x : typed kernel (either any any) (empty_step inode len x).
Proof. destruct x as [[nr b] de]. unfold empty_step. ty. Qed.
Hint Resolve ty_empty_step : ty.
Lemma ty_empty_dir inode : typed kernel any (empty_dir inode).
Proof. unfold empty_dir. ty. Qed.
Hint Resolve ty_empty_dir : ty.
Lemma ty_sys_rmdir name : typed kernel any (sys_rmdir name).
Proof. unfold sys_rmdir. ty. Qed.
Hint Resolve ty_sys_rmdir : ty.
Lemma ty_sys_unlink name : typed kernel any (sys_unlink name).
Proof. unfold sys_unlink. ty. Qed.
Hint Resolve ty_sys_unlink : ty.
Lemma ty_sys_link oldname newname : typed kernel any (sys_link oldname newname).
Proof. unfold sys_link. ty. Qed.
Hint Resolve ty_sys_link : ty.

(** ** fs/super.cc *)
Lemma decode_super_wf l x : wf_super nb x -> wf_super nb (decode_super l x).
Proof. done. Qed.
Hint Resolve decode_super_wf : ty.
Hint Extern 2 (length (replicate _ _) = _) => apply length_replicate : ty.
Hint Extern 2 (Forall _ (replicate _ _)) => apply Forall_replicate; exact I : ty.
Lemma ty_check_disk_change dev : typed kernel any (check_disk_change dev).
Proof. unfold check_disk_change. ty. Qed.
Hint Resolve ty_check_disk_change : ty.
Lemma ty_free_slot : typed kernel any free_slot.
Proof. unfold free_slot. ty. Qed.
Hint Resolve ty_free_slot : ty.
Lemma ty_read_map dev set i n block : (forall i o, ptr nb o -> typed kernel any (set i o)) ->
  typed kernel any (read_map dev set i n block).
Proof. intros Hset. revert i block. induction n as [|n IH]; intros i block; cbn [read_map]; ty. Qed.
Lemma ty_set_imap n i o : ptr nb o -> typed kernel any (set_imap n i o).
Proof. intros Ho. unfold set_imap. ty. Qed.
Lemma ty_set_zmap n i o : ptr nb o -> typed kernel any (set_zmap n i o).
Proof. intros Ho. unfold set_zmap. ty. Qed.
Hint Resolve ty_read_map ty_set_imap ty_set_zmap : ty.
Lemma ty_super_failed n : typed kernel (ptr NR_SUPER) (super_failed n).
Proof. unfold super_failed. ty. Qed.
Hint Resolve ty_super_failed : ty.
Lemma ty_read_super dev : typed kernel (ptr NR_SUPER) (read_super dev).
Proof. unfold read_super. ty. Qed.
Hint Resolve ty_read_super : ty.
Lemma ty_dev_busy dev : typed kernel any (dev_busy dev).
Proof. unfold dev_busy. ty. Qed.
Hint Resolve ty_dev_busy : ty.
Lemma ty_sys_umount dev_name : typed kernel any (sys_umount dev_name).
Proof. unfold sys_umount. ty. Qed.
Hint Resolve ty_sys_umount : ty.
Lemma ty_sys_mount dev_name dir_name rw_flag : typed kernel any (sys_mount dev_name dir_name rw_flag).
Proof. unfold sys_mount. ty. Qed.
Hint Resolve ty_sys_mount : ty.
Lemma ty_count_clear m n : typed kernel any (count_clear m n).
Proof. unfold count_clear. ty. Qed.
Hint Resolve ty_count_clear : ty.
Lemma ty_mount_root : typed kernel any mount_root.
Proof. unfold mount_root. ty. Qed.
Hint Resolve ty_mount_root : ty.
Lemma ty_rd_load_step x : typed kernel (either any any) (rd_load_step x).
Proof. destruct x as [[[nblocks block] i] cp]. unfold rd_load_step. ty. Qed.
Hint Resolve ty_rd_load_step : ty.
Lemma ty_rd_load : typed kernel any rd_load.
Proof. unfold rd_load. ty. Qed.
Hint Resolve ty_rd_load : ty.
Lemma ty_read_partitions drive : typed kernel any (read_partitions drive).
Proof. unfold read_partitions. ty. Qed.
Hint Resolve ty_read_partitions : ty.
Lemma ty_sys_setup bios : typed kernel any (sys_setup bios).
Proof. unfold sys_setup. ty. Qed.
Hint Resolve ty_sys_setup : ty.

(** ** fs/open.cc, fs/fcntl.cc *)
Lemma free_file_lt l n f : free_file l n = Some f -> (f < n + length l)%nat.
Proof.
  revert n. induction l as [|x l IH]; intros n; cbn; [done|]. destruct (f_count x =? 0); [intros [= ->]; lia|].
  intros H. specialize (IH _ H). lia.
Qed.
Lemma free_file_ptr s : kernel s -> ptr NR_FILE (free_file (file_table (fsys s)) 0).
Proof.
  intros Hs. destruct (free_file _ _) as [f|] eqn:Hf; [|done]. apply free_file_lt in Hf.
  by rewrite (wf_nfiles _ _ (wt_fs _ _ Hs)) in Hf.
Qed.
Hint Resolve free_file_ptr : ty.
Lemma ty_sys_utime filename times : typed kernel any (sys_utime filename times).
Proof. unfold sys_utime. ty. Qed.
Hint Resolve ty_sys_utime : ty.
Lemma ty_sys_access filename mode : typed kernel any (sys_access filename mode).
Proof. unfold sys_access. ty. Qed.
Hint Resolve ty_sys_access : ty.
Lemma ty_change_dir filename old set : (forall t, wf_task t -> ptr NR_INODE (old t)) ->
  (forall o t, ptr NR_INODE o -> wf_task t -> wf_task (set o t)) -> typed kernel any (change_dir filename old set).
Proof. intros Hold Hset. unfold change_dir. ty. Qed.
Hint Extern 1 (typed _ _ (change_dir _ _ _)) => apply ty_change_dir; ty_data : ty.
Lemma ty_sys_chdir filename : typed kernel any (sys_chdir filename).
Proof. unfold sys_chdir. ty. Qed.
Hint Resolve ty_sys_chdir : ty.
Lemma ty_sys_chroot filename : typed kernel any (sys_chroot filename).
Proof. unfold sys_chroot. ty. Qed.
Hint Resolve ty_sys_chroot : ty.
Lemma ty_sys_chmod filename mode : typed kernel any (sys_chmod filename mode).
Proof. unfold sys_chmod. ty. Qed.
Hint Resolve ty_sys_chmod : ty.
Lemma ty_sys_chown filename uid gid : typed kernel any (sys_chown filename uid gid).
Proof. unfold sys_chown. ty. Qed.
Hint Resolve ty_sys_chown : ty.
Lemma ty_set_filp fd o : ptr NR_FILE o -> typed kernel any (set_filp fd o).
Proof. intros Ho. unfold set_filp. ty. Qed.
Hint Resolve ty_set_filp : ty.
Lemma ty_clear_cloexec fd : typed kernel any (clear_cloexec fd).
Proof. unfold clear_cloexec. ty. Qed.
Hint Resolve ty_clear_cloexec : ty.
Lemma ty_open_tty inode : typed kernel any (open_tty inode).
Proof. unfold open_tty. ty. Qed.
Hint Resolve ty_open_tty : ty.
Lemma ty_sys_open filename flag mode : typed kernel any (sys_open filename flag mode).
Proof. unfold sys_open. ty. Qed.
Hint Resolve ty_sys_open : ty.
Lemma ty_sys_creat pathname mode : typed kernel any (sys_creat pathname mode).
Proof. unfold sys_creat. ty. Qed.
Hint Resolve ty_sys_creat : ty.
Lemma ty_sys_close fd : typed kernel any (sys_close fd).
Proof. unfold sys_close. ty. Qed.
Hint Resolve ty_sys_close : ty.
Lemma ty_fd_file fd : typed kernel (ptr NR_FILE) (fd_file fd).
Proof. unfold fd_file. ty. Qed.
Hint Resolve ty_fd_file : ty.
Lemma ty_dupfd fd arg : typed kernel any (dupfd fd arg).
Proof. unfold dupfd. ty. Qed.
Hint Resolve ty_dupfd : ty.
Lemma ty_sys_dup2 oldfd newfd : typed kernel any (sys_dup2 oldfd newfd).
Proof. unfold sys_dup2. ty. Qed.
Hint Resolve ty_sys_dup2 : ty.
Lemma ty_sys_dup fildes : typed kernel any (sys_dup fildes).
Proof. unfold sys_dup. ty. Qed.
Hint Resolve ty_sys_dup : ty.
Lemma ty_sys_fcntl fd cmd arg : typed kernel any (sys_fcntl fd cmd arg).
Proof. unfold sys_fcntl. ty. Qed.
Hint Resolve ty_sys_fcntl : ty.
End Names.
#[export] Hint Resolve ty_permission ty_same_bytes ty_match_ ty_dec_nlinks ty_inc_count ty_set_de_inode ty_mark_dirty ty_get_de_inode ty_find_step ty_cross_dotdot ty_find_entry ty_put_name ty_add_step ty_add_entry ty_scan_component ty_get_dir ty_basename ty_dir_namei ty_namei ty_open_create ty_open_namei ty_iputs ty_fail ty_sys_mknod ty_strcpy_name ty_fill_dir_block ty_sys_mkdir ty_empty_step ty_empty_dir ty_sys_rmdir ty_sys_unlink ty_sys_link ty_check_disk_change ty_free_slot ty_read_map ty_set_imap ty_set_zmap ty_super_failed ty_read_super ty_dev_busy ty_sys_umount ty_sys_mount ty_count_clear ty_mount_root ty_rd_load_step ty_rd_load ty_read_partitions ty_sys_setup ty_sys_utime ty_sys_access ty_sys_chdir ty_sys_chroot ty_sys_chmod ty_sys_chown ty_set_filp ty_clear_cloexec ty_open_tty ty_sys_open ty_sys_creat ty_sys_close ty_fd_file ty_dupfd ty_sys_dup2 ty_sys_dup ty_sys_fcntl : ty.
