(* ===== verification/TypesTask.v ===== *)
(** * Types: the life of a task, signals, page faults *)

From S2P Require Import Prelude State Segment Memory Sched Request LlRw Buffer.
From S2P Require Import Bitmap Inode Namei TtyQueue Super Open Exit Fork.
From S2P Require Import Sys Types TypesKernel TypesSched TypesBlock TypesFs TypesTty TypesNames.

#[export] Hint Extern 2 (length (fmap _ _) = _) => rewrite length_fmap : ty.

Section Tasks.
Context {E : Env} {nb : nat} {TE : TypedEnv E nb}.
Abbreviation kernel := (wt nb).

(** ** kernel/exit.cc, the faults of mm/memory.cc *)
Lemma ty_task_slot i : typed kernel any (task_slot i).
Proof. unfold task_slot. ty. Qed.
Hint Resolve ty_task_slot : ty.
Lemma ty_release p : typed kernel any (release p).
Proof. unfold release. ty. Qed.
Hint Resolve ty_release : ty.
Lemma ty_send_sig sig p priv : typed kernel any (send_sig sig p priv).
Proof. unfold send_sig. ty. Qed.
Hint Resolve ty_send_sig : ty.
Lemma ty_kill_session : typed kernel any kill_session.
Proof. unfold kill_session. ty. Qed.
Hint Resolve ty_kill_session : ty.
Lemma ty_kill_tasks sig priv send null : typed kernel any (kill_tasks sig priv send null).
Proof. unfold kill_tasks. ty. Qed.
Hint Resolve ty_kill_tasks : ty.
Lemma ty_sys_kill pid sig : typed kernel any (sys_kill pid sig).
Proof. unfold sys_kill. ty. Qed.
Hint Resolve ty_sys_kill : ty.
Lemma ty_tell_father pid : typed kernel any (tell_father pid).
Proof. unfold tell_father. ty. Qed.
Hint Resolve ty_tell_father : ty.
Lemma ty_my_ldt k : typed kernel any (my_ldt k).
Proof. unfold my_ldt. ty. Qed.
Hint Resolve ty_my_ldt : ty.
Lemma ty_free_segment k : typed kernel any (free_segment k).
Proof. unfold free_segment. ty. Qed.
Hint Resolve ty_free_segment : ty.
Lemma ty_adopt_children : typed kernel any adopt_children.
Proof. unfold adopt_children. ty. Qed.
Hint Resolve ty_adopt_children : ty.
Lemma ty_close_files : typed kernel any close_files.
Proof. unfold close_files. ty. Qed.
Hint Resolve ty_close_files : ty.
Lemma ty_do_exit code : typed kernel any (do_exit code).
Proof. unfold do_exit. ty. Qed.
Hint Resolve ty_do_exit : ty.
Lemma ty_sys_exit error_code : typed kernel any (sys_exit error_code).
Proof. unfold sys_exit. ty. Qed.
Lemma ty_oom : typed kernel any oom.
Proof. unfold oom. ty. Qed.
Hint Resolve ty_oom : ty.
Lemma ty_die {A} (P : A -> Prop) : typed kernel P (@die _ A).
Proof. unfold die. ty. Qed.
Hint Resolve ty_die : ty.
Lemma ty_un_wp_page table_entry : typed kernel any (un_wp_page table_entry).
Proof. unfold un_wp_page. ty. Qed.
Hint Resolve ty_un_wp_page : ty.
Lemma ty_do_wp_page error_code address : typed kernel any (do_wp_page error_code address).
Proof. unfold do_wp_page. ty. Qed.
Hint Resolve ty_do_wp_page : ty.
Lemma ty_write_verify address : typed kernel any (write_verify address).
Proof. unfold write_verify. ty. Qed.
Hint Resolve ty_write_verify : ty.
Lemma ty_get_empty_page address : typed kernel any (get_empty_page address).
Proof. unfold get_empty_page. ty. Qed.
Hint Resolve ty_get_empty_page : ty.
Lemma ty_try_to_share address p : typed kernel any (try_to_share address p).
Proof. unfold try_to_share. ty. Qed.
Hint Resolve ty_try_to_share : ty.
Lemma ty_share_page address : typed kernel any (share_page address).
Proof. unfold share_page. ty. Qed.
Hint Resolve ty_share_page : ty.
Lemma ty_clear_byte a : typed wf_mm any (clear_byte a).
Proof. unfold clear_byte. ty. Qed.
Hint Resolve ty_clear_byte : ty.
Lemma ty_do_no_page error_code address : typed kernel any (do_no_page error_code address).
Proof. unfold do_no_page. ty. Qed.
Hint Resolve ty_do_no_page : ty.

(** ** kernel/fork.cc, kernel/signal.cc *)
Lemma ty_verify_area addr size : typed kernel any (verify_area addr size).
Proof. unfold verify_area. ty. Qed.
Hint Resolve ty_verify_area : ty.
Lemma ty_copy_mem nr p : typed kernel any (copy_mem nr p).
Proof. unfold copy_mem. ty. Qed.
Hint Resolve ty_copy_mem : ty.
Lemma ty_share_inode o : typed kernel any (share_inode o).
Proof. unfold share_inode. ty. Qed.
Hint Resolve ty_share_inode : ty.
Lemma child_task_wf nr p pid now r x : wf_task x -> wf_task (child_task nr p pid now r x).
Proof. done. Qed.
Hint Resolve child_task_wf : ty.
Lemma ty_new_tmem p f : (forall s, wf_sched s -> wf_task (f s)) -> typed kernel any (on_sched (fun s => s <| tmem ::= <[p := f s]> |>)).
Proof. intros Hf. apply typed_on_sched. intros s Hs. specialize (Hf s Hs). ty_record Hs. by apply map_Forall_set. Qed.
Lemma ty_copy_process nr r : typed kernel any (copy_process nr r).
Proof.
  unfold copy_process. ty. apply (ty_new_tmem _ (fun s => child_task _ _ _ _ _ _)). intros. by apply child_task_wf.
Qed.
Hint Resolve ty_copy_process : ty.
Lemma ty_next_pid : typed wf_sched any next_pid.
Proof. unfold next_pid. ty. Qed.
Hint Resolve ty_next_pid : ty.
Lemma ty_find_empty_process : typed wf_sched any find_empty_process.
Proof. unfold find_empty_process. ty. Qed.
Hint Resolve ty_find_empty_process : ty.
Lemma ty_wait_step pid stat_addr options acc i : typed kernel any (wait_step pid stat_addr options acc i).
Proof. destruct acc as [flag r]. unfold wait_step. ty. Qed.
Hint Resolve ty_wait_step : ty.
Lemma ty_sys_waitpid pid stat_addr options : typed kernel any (sys_waitpid pid stat_addr options).
Proof. unfold sys_waitpid. ty. Qed.
Hint Resolve ty_sys_waitpid : ty.
Lemma ty_sys_sgetmask : typed kernel any sys_sgetmask.
Proof. unfold sys_sgetmask. ty. Qed.
Hint Resolve ty_sys_sgetmask : ty.
Lemma ty_sys_ssetmask newmask : typed kernel any (sys_ssetmask newmask).
Proof. unfold sys_ssetmask. ty. Qed.
Hint Resolve ty_sys_ssetmask : ty.
Lemma ty_save_old from to : typed kernel any (save_old from to).
Proof. unfold save_old. ty. Qed.
Hint Resolve ty_save_old : ty.
Lemma ty_get_new from : typed kernel any (get_new from).
Proof. unfold get_new. ty. Qed.
Hint Resolve ty_get_new : ty.
Lemma ty_get_sigaction signum : typed kernel any (get_sigaction signum).
Proof. unfold get_sigaction. ty. Qed.
Hint Resolve ty_get_sigaction : ty.
Lemma ty_set_sigaction signum f : typed kernel any (set_sigaction signum f).
Proof. unfold set_sigaction. ty. Qed.
Hint Resolve ty_set_sigaction : ty.
Lemma ty_sys_signal signum handler restorer : typed kernel any (sys_signal signum handler restorer).
Proof. unfold sys_signal. ty. Qed.
Hint Resolve ty_sys_signal : ty.
Lemma ty_sys_sigaction signum action oldaction : typed kernel any (sys_sigaction signum action oldaction).
Proof. unfold sys_sigaction. ty. Qed.
Hint Resolve ty_sys_sigaction : ty.
Lemma ty_do_signal signr eax ebx ecx edx fs es ds eip cs eflags esp ss : typed kernel any (do_signal signr eax ebx ecx edx fs es ds eip cs eflags esp ss).
Proof. unfold do_signal. ty. Qed.
Hint Resolve ty_do_signal : ty.

(** ** kernel/sys.cc *)
Lemma ty_set_rgid rgid : typed kernel any (set_rgid rgid).
Proof. unfold set_rgid. ty. Qed.
Hint Resolve ty_set_rgid : ty.
Lemma ty_set_egid egid : typed kernel any (set_egid egid).
Proof. unfold set_egid. ty. Qed.
Hint Resolve ty_set_egid : ty.
Lemma ty_sys_setregid rgid egid : typed kernel any (sys_setregid rgid egid).
Proof. unfold sys_setregid. ty. Qed.
Hint Resolve ty_sys_setregid : ty.
Lemma ty_sys_setgid gid : typed kernel any (sys_setgid gid).
Proof. unfold sys_setgid. ty. Qed.
Hint Resolve ty_sys_setgid : ty.
Lemma ty_sys_time tloc : typed kernel any (sys_time tloc).
Proof. unfold sys_time. ty. Qed.
Hint Resolve ty_sys_time : ty.
Lemma ty_set_ruid old_ruid ruid : typed kernel any (set_ruid old_ruid ruid).
Proof. unfold set_ruid. ty. Qed.
Hint Resolve ty_set_ruid : ty.
Lemma ty_set_euid old_ruid euid : typed kernel any (set_euid old_ruid euid).
Proof. unfold set_euid. ty. Qed.
Hint Resolve ty_set_euid : ty.
Lemma ty_sys_setreuid ruid euid : typed kernel any (sys_setreuid ruid euid).
Proof. unfold sys_setreuid. ty. Qed.
Hint Resolve ty_sys_setreuid : ty.
Lemma ty_sys_setuid uid : typed kernel any (sys_setuid uid).
Proof. unfold sys_setuid. ty. Qed.
Hint Resolve ty_sys_setuid : ty.
Lemma ty_sys_stime tptr : typed kernel any (sys_stime tptr).
Proof. unfold sys_stime. ty. Qed.
Hint Resolve ty_sys_stime : ty.
Lemma ty_sys_times tbuf : typed kernel any (sys_times tbuf).
Proof. unfold sys_times. ty. Qed.
Hint Resolve ty_sys_times : ty.
Lemma ty_sys_brk end_data_seg : typed kernel any (sys_brk end_data_seg).
Proof. unfold sys_brk. ty. Qed.
Hint Resolve ty_sys_brk : ty.
Lemma ty_sys_setpgid pid pgid : typed kernel any (sys_setpgid pid pgid).
Proof. unfold sys_setpgid. ty. Qed.
Hint Resolve ty_sys_setpgid : ty.
Lemma ty_sys_getpgrp : typed kernel any sys_getpgrp.
Proof. unfold sys_getpgrp. ty. Qed.
Hint Resolve ty_sys_getpgrp : ty.
Lemma ty_sys_setsid : typed kernel any sys_setsid.
Proof. unfold sys_setsid. ty. Qed.
Hint Resolve ty_sys_setsid : ty.
Lemma ty_sys_uname name : typed kernel any (sys_uname name).
Proof. unfold sys_uname. ty. Qed.
Hint Resolve ty_sys_uname : ty.
Lemma ty_sys_umask mask : typed kernel any (sys_umask mask).
Proof. unfold sys_umask. ty. Qed.
Hint Resolve ty_sys_umask : ty.
End Tasks.
#[export] Hint Resolve ty_task_slot ty_release ty_send_sig ty_kill_session ty_kill_tasks ty_sys_kill ty_tell_father ty_my_ldt ty_free_segment ty_adopt_children ty_close_files ty_do_exit ty_oom ty_die ty_un_wp_page ty_do_wp_page ty_write_verify ty_get_empty_page ty_try_to_share ty_share_page ty_clear_byte ty_do_no_page ty_verify_area ty_copy_mem ty_share_inode ty_copy_process ty_next_pid ty_find_empty_process ty_wait_step ty_sys_waitpid ty_sys_sgetmask ty_sys_ssetmask ty_save_old ty_get_new ty_get_sigaction ty_set_sigaction ty_sys_signal ty_sys_sigaction ty_do_signal ty_set_rgid ty_set_egid ty_sys_setregid ty_sys_setgid ty_sys_time ty_set_ruid ty_set_euid ty_sys_setreuid ty_sys_setuid ty_sys_stime ty_sys_times ty_sys_brk ty_sys_setpgid ty_sys_getpgrp ty_sys_setsid ty_sys_uname ty_sys_umask : ty.
