(* ===== verification/TypesIo.v ===== *)
(** * Types: reading and writing, the control of terminals *)

From S2P Require Import Prelude State Segment Memory Sched Request LlRw.
From S2P Require Import Buffer Bitmap Inode Namei TtyQueue Super Open.
From S2P Require Import Exit Fork Console Tty TtyIoctl ReadWrite Types.
From S2P Require Import TypesKernel TypesSched TypesBlock TypesFs TypesTty TypesNames TypesTask.

Section Io.
Context {E : Env} {nb : nat} {TE : TypedEnv E nb}.
Abbreviation kernel := (wt nb).

(** ** kernel/chr_drv/tty_ioctl.cc *)
Lemma ty_put_bytes l a : typed kernel any (put_bytes l a).
Proof. unfold put_bytes. ty. Qed.
Hint Resolve ty_put_bytes : ty.
Lemma ty_get_bytes n a : typed kernel (fun l => length l = n) (get_bytes n a).
Proof. revert a. induction n as [|n IH]; intros a; cbn [get_bytes]; ty. apply typed_ret. cbn [length]. congruence. Qed.
Hint Resolve ty_get_bytes : ty.
Lemma ty_change_speed t : typed kernel any (change_speed t).
Proof. unfold change_speed. ty. Qed.
Hint Resolve ty_change_speed : ty.
Lemma ty_flush t q : typed kernel any (flush t q).
Proof. unfold flush. ty. Qed.
Hint Resolve ty_flush : ty.
Lemma ty_wait_until_sent t : typed kernel any (wait_until_sent t).
Proof. unfold wait_until_sent. ty. Qed.
Hint Resolve ty_wait_until_sent : ty.
Lemma ty_send_break t : typed kernel any (send_break t).
Proof. unfold send_break. ty. Qed.
Hint Resolve ty_send_break : ty.
Lemma ty_get_termios t a : typed kernel any (get_termios t a).
Proof. unfold get_termios. ty. Qed.
Hint Resolve ty_get_termios : ty.
Lemma bytes_termios_cc l : length l = Z.to_nat TERMIOS_SIZE -> length (c_cc (bytes_termios l)) = 17%nat.
Proof. intros Hl. cbn [bytes_termios c_cc]. rewrite length_take, length_drop, Hl. done. Qed.
Lemma apply_termio_cc l x : length l = Z.to_nat TERMIO_SIZE -> length (c_cc x) = 17%nat -> length (c_cc (apply_termio l x)) = 17%nat.
Proof. intros Hl Hx. cbn [apply_termio c_cc]. rewrite length_app, length_take, !length_drop, Hl, Hx. done. Qed.
Hint Resolve bytes_termios_cc apply_termio_cc : ty.
Lemma ty_set_termios t a : typed kernel any (set_termios t a).
Proof. unfold set_termios. ty. Qed.
Hint Resolve ty_set_termios : ty.
Lemma ty_get_termio t a : typed kernel any (get_termio t a).
Proof. unfold get_termio. ty. Qed.
Hint Resolve ty_get_termio : ty.
Lemma ty_set_termio t a : typed kernel any (set_termio t a).
Proof. unfold set_termio. ty. Qed.
Hint Resolve ty_set_termio : ty.
Lemma ty_report v arg : typed kernel any (report v arg).
Proof. unfold report. ty. Qed.
Hint Resolve ty_report : ty.
Lemma ty_tty_ioctl dev cmd arg : typed kernel any (tty_ioctl dev cmd arg).
Proof. unfold tty_ioctl. ty. Qed.
Hint Resolve ty_tty_ioctl : ty.
Lemma ty_sys_ioctl fd cmd arg : typed kernel any (sys_ioctl fd cmd arg).
Proof. unfold sys_ioctl. ty. Qed.
Hint Resolve ty_sys_ioctl : ty.

(** ** fs/read_write.cc and the files it calls *)
Lemma ty_copy_to_user data off chars buf : typed kernel any (copy_to_user data off chars buf).
Proof. unfold copy_to_user. ty. Qed.
Hint Resolve ty_copy_to_user : ty.
Lemma ty_clear_user chars buf : typed kernel any (clear_user chars buf).
Proof. unfold clear_user. ty. Qed.
Hint Resolve ty_clear_user : ty.
Lemma ty_copy_from_user b off chars buf : typed kernel any (copy_from_user b off chars buf).
Proof. unfold copy_from_user. ty. Qed.
Hint Resolve ty_copy_from_user : ty.
Lemma ty_read_file_step i f x : typed kernel (either any any) (read_file_step i f x).
Proof. destruct x as [rest buf]. unfold read_file_step. ty. Qed.
Hint Resolve ty_read_file_step : ty.
Lemma ty_file_read i f buf count : typed kernel any (file_read i f buf count).
Proof. unfold file_read. ty. Qed.
Hint Resolve ty_file_read : ty.
Hint Extern 1 (wf_inode (if ?b then _ else _)) => destruct b : ty.
Lemma ty_write_file_step i buf count x : typed kernel (either any any) (write_file_step i buf count x).
Proof. destruct x as [n pos]. unfold write_file_step. ty. Qed.
Hint Resolve ty_write_file_step : ty.
Lemma ty_file_write i f buf count : typed kernel any (file_write i f buf count).
Proof. unfold file_write. ty. Qed.
Hint Resolve ty_file_write : ty.
Lemma ty_add_pos f n : typed kernel any (add_pos f n).
Proof. unfold add_pos. ty. Qed.
Hint Resolve ty_add_pos : ty.
Lemma ty_block_step wr f dev x : typed kernel (either any any) (block_step wr f dev x).
Proof. destruct x as [[[[count block] offset] buf] done]. unfold block_step. ty. Qed.
Hint Resolve ty_block_step : ty.
Lemma ty_block_rw wr dev f buf count pos : typed kernel any (block_rw wr dev f buf count pos).
Proof. unfold block_rw. ty. Qed.
Hint Resolve ty_block_rw : ty.
Lemma ty_block_write dev f buf count : typed kernel any (block_write dev f buf count).
Proof. unfold block_write. ty. Qed.
Hint Resolve ty_block_write : ty.
Lemma ty_block_read dev f buf count : typed kernel any (block_read dev f buf count).
Proof. unfold block_read. ty. Qed.
Hint Resolve ty_block_read : ty.
Lemma ty_rw_ttyx rw minor buf count : typed kernel any (rw_ttyx rw minor buf count).
Proof. unfold rw_ttyx. ty. Qed.
Hint Resolve ty_rw_ttyx : ty.
Lemma ty_rw_tty rw buf count : typed kernel any (rw_tty rw buf count).
Proof. unfold rw_tty. ty. Qed.
Hint Resolve ty_rw_tty : ty.
Lemma ty_rw_port rw buf count f : typed kernel any (rw_port rw buf count f).
Proof. unfold rw_port. ty. Qed.
Hint Resolve ty_rw_port : ty.
Lemma ty_rw_memory rw minor buf count f : typed kernel any (rw_memory rw minor buf count f).
Proof. unfold rw_memory. ty. Qed.
Hint Resolve ty_rw_memory : ty.
Lemma ty_rw_char rw dev buf count f : typed kernel any (rw_char rw dev buf count f).
Proof. unfold rw_char. ty. Qed.
Hint Resolve ty_rw_char : ty.
Lemma ty_load_byte a : typed wf_mm any (load_byte a).
Proof. unfold load_byte. ty. Qed.
Lemma ty_store_byte a v : typed wf_mm any (store_byte a v).
Proof. unfold store_byte. ty. Qed.
Hint Resolve ty_load_byte ty_store_byte : ty.
Lemma ty_pipe_to_user page tail chars buf : typed kernel any (pipe_to_user page tail chars buf).
Proof. unfold pipe_to_user. ty. Qed.
Hint Resolve ty_pipe_to_user : ty.
Lemma ty_user_to_pipe page head chars buf : typed kernel any (user_to_pipe page head chars buf).
Proof. unfold user_to_pipe. ty. Qed.
Hint Resolve ty_user_to_pipe : ty.
Lemma ty_pipe_wait i room : typed kernel any (pipe_wait i room).
Proof. unfold pipe_wait. ty. Qed.
Hint Resolve ty_pipe_wait : ty.
Lemma ty_read_pipe_step i x : typed kernel (either any any) (read_pipe_step i x).
Proof. destruct x as [[count buf] read]. unfold read_pipe_step. ty. Qed.
Hint Resolve ty_read_pipe_step : ty.
Lemma ty_read_pipe i buf count : typed kernel any (read_pipe i buf count).
Proof. unfold read_pipe. ty. Qed.
Hint Resolve ty_read_pipe : ty.
Lemma ty_write_pipe_step i x : typed kernel (either any any) (write_pipe_step i x).
Proof. destruct x as [[count buf] written]. unfold write_pipe_step. ty. Qed.
Hint Resolve ty_write_pipe_step : ty.
Lemma ty_write_pipe i buf count : typed kernel any (write_pipe i buf count).
Proof. unfold write_pipe. ty. Qed.
Hint Resolve ty_write_pipe : ty.

(** the descriptors of [sys_pipe] *)
Lemma free_files_lt l n j : Forall (fun f => f < n + length l)%nat (free_files l n j).
Proof.
  revert n j. induction l as [|x l IH]; intros n [|j]; cbn [free_files length]; try by constructor.
  assert (H : forall j, Forall (fun f => f < n + S (length l))%nat (free_files l (S n) j)).
  { intros j'. eapply Forall_impl; [apply IH|]. cbn. lia. }
  destruct (f_count x =? 0); [constructor; [lia|apply H]|apply H].
Qed.
Lemma free_files_index s j : kernel s -> Forall (index NR_FILE) (free_files (file_table (fsys s)) 0 j).
Proof.
  intros Hs. eapply Forall_impl; [apply free_files_lt|]. cbn. intros f Hf. by rewrite (wf_nfiles _ _ (wt_fs _ _ Hs)) in Hf.
Qed.
Lemma ty_set_f_count n f : typed kernel any (set_f_count n f).
Proof. unfold set_f_count. ty. Qed.
Hint Resolve ty_set_f_count : ty.
Lemma ty_sys_pipe fildes : typed kernel any (sys_pipe fildes).
Proof.
  unfold sys_pipe. eapply typed_bind; [apply typed_gets|]. intros s (k & Hk & ->). pose proof (free_files_index k 2 Hk) as Hfs.
  cbv zeta. destruct (free_files _ _ _) as [|f0 [|f1 [|f2 fs]]]; [ty|ty| |ty].
  apply Forall_cons in Hfs as [Hf0 Hf1]. apply Forall_cons in Hf1 as [Hf1 _]. unfold index in *. ty_step; [ty|]. ty_step.
  destruct (free_fds _ _ _) as [|fd0 [|fd1 [|fd2 fds]]]; cbn [zip zip_with for_each]; ty.
Qed.
Hint Resolve ty_sys_pipe : ty.
Lemma ty_sys_lseek fd offset origin : typed kernel any (sys_lseek fd offset origin).
Proof. unfold sys_lseek. ty. Qed.
Hint Resolve ty_sys_lseek : ty.
Lemma ty_sys_read fd buf count : typed kernel any (sys_read fd buf count).
Proof. unfold sys_read. ty. Qed.
Hint Resolve ty_sys_read : ty.
Lemma ty_sys_write fd buf count : typed kernel any (sys_write fd buf count).
Proof. unfold sys_write. ty. Qed.
Hint Resolve ty_sys_write : ty.
Lemma ty_cp_stat i statbuf : typed kernel any (cp_stat i statbuf).
Proof. unfold cp_stat. ty. Qed.
Hint Resolve ty_cp_stat : ty.
Lemma ty_sys_stat filename statbuf : typed kernel any (sys_stat filename statbuf).
Proof. unfold sys_stat. ty. Qed.
Hint Resolve ty_sys_stat : ty.
Lemma ty_sys_fstat fd statbuf : typed kernel any (sys_fstat fd statbuf).
Proof. unfold sys_fstat. ty. Qed.
Hint Resolve ty_sys_fstat : ty.
End Io.
#[export] Hint Resolve ty_put_bytes ty_get_bytes ty_change_speed ty_flush ty_wait_until_sent ty_send_break ty_get_termios ty_set_termios ty_get_termio ty_set_termio ty_report ty_tty_ioctl ty_sys_ioctl ty_copy_to_user ty_clear_user ty_copy_from_user ty_read_file_step ty_file_read ty_write_file_step ty_file_write ty_add_pos ty_block_step ty_block_rw ty_block_write ty_block_read ty_rw_ttyx ty_rw_tty ty_rw_port ty_rw_memory ty_rw_char ty_load_byte ty_store_byte ty_pipe_to_user ty_user_to_pipe ty_pipe_wait ty_read_pipe_step ty_read_pipe ty_write_pipe_step ty_write_pipe ty_set_f_count ty_sys_pipe ty_sys_lseek ty_sys_read ty_sys_write ty_cp_stat ty_sys_stat ty_sys_fstat : ty.
