(* ===== verification/TypesCall.v ===== *)
(** * Types: execve, the system calls, the exceptions and interrupts

    Every handler, the interrupts of the terminals included, keeps the sizes of
    the tables and the pointers inside them. *)

From S2P Require Import Prelude State Segment Memory Sched Request Hd Floppy.
From S2P Require Import LlRw Buffer Bitmap Inode Namei Dirs TtyQueue Super.
From S2P Require Import Open Exit Fork Sys Console Tty TtyIoctl ReadWrite.
From S2P Require Import Exec SysCall Traps Types TypesKernel TypesSched TypesBlock TypesFs.
From S2P Require Import TypesTty TypesNames TypesTask TypesIo.

Section Calls.
Context {E : Env} {nb : nat} {TE : TypedEnv E nb}.
Abbreviation kernel := (wt nb).

(** ** fs/exec.cc *)
Lemma ty_with_kernel_string {A} (P : A -> Prop) s (m : Z -> K A) :
  (forall a, typed kernel P (m a)) -> typed kernel P (with_kernel_string s m).
Proof. intros Hm. unfold with_kernel_string. ty. Qed.
Lemma ty_set_umem f : typed kernel any (modify (fun s => s <| umem := f s |>)).
Proof. apply typed_modify. intros s Hs. by ty_record Hs. Qed.
Hint Extern 1 (typed _ any (modify (fun s => s <| umem := _ |>))) => apply ty_set_umem : ty.
Lemma ty_user_string a : typed kernel any (user_string a).
Proof. unfold user_string. ty. Qed.
Hint Resolve ty_user_string : ty.
Lemma ty_fetch_arg src k : typed kernel any (fetch_arg src k).
Proof. unfold fetch_arg. ty. Qed.
Hint Resolve ty_fetch_arg : ty.
Lemma ty_count argv : typed kernel any (count argv).
Proof. unfold count. ty. Qed.
Hint Resolve ty_count : ty.
Lemma ty_put_arg_byte a c : typed kernel any (put_arg_byte a c).
Proof. unfold put_arg_byte. ty. Qed.
Hint Resolve ty_put_arg_byte : ty.
Lemma ty_copy_strings argc src page p : typed kernel any (copy_strings argc src page p).
Proof. unfold copy_strings. ty. Qed.
Hint Resolve ty_copy_strings : ty.
Lemma ty_change_ldt text_size page : typed kernel any (change_ldt text_size page).
Proof. unfold change_ldt. ty. Qed.
Hint Resolve ty_change_ldt : ty.
Lemma ty_put_vector n v p : typed kernel any (put_vector n v p).
Proof. unfold put_vector. ty. Qed.
Hint Resolve ty_put_vector : ty.
Lemma ty_create_tables p argc envc : typed kernel any (create_tables p argc envc).
Proof. unfold create_tables. ty. Qed.
Hint Resolve ty_create_tables : ty.
Lemma ty_exec_error1 page retval : typed kernel any (exec_error1 page retval).
Proof. unfold exec_error1. ty. Qed.
Hint Resolve ty_exec_error1 : ty.
Lemma ty_exec_error2 inode page retval : typed kernel any (exec_error2 inode page retval).
Proof. unfold exec_error2. ty. Qed.
Hint Resolve ty_exec_error2 : ty.
(** the file to execute is an entry of the inode table *)
Definition wf_args (a : exec_args) : Prop := index NR_INODE (ex_inode a).
Hint Extern 1 (wf_args _) => unfold wf_args in *; cbn [ex_inode]; ty_data : ty.
Lemma ty_interpreter s : typed kernel (ptr NR_INODE) (with_kernel_string s namei).
Proof. apply ty_with_kernel_string. intros. ty. Qed.
Hint Resolve ty_interpreter : ty.
Lemma ty_run_script a data filename argv envp envc : wf_args a ->
  typed kernel (either wf_args any) (run_script a data filename argv envp envc).
Proof. intros Ha. unfold run_script. ty. Qed.
Lemma ty_commit_exec a ex e_uid e_gid envc : wf_args a -> typed kernel any (commit_exec a ex e_uid e_gid envc).
Proof. intros Ha. unfold commit_exec. ty. Qed.
Hint Resolve ty_run_script ty_commit_exec : ty.
Lemma ty_exec_step filename argv envp envc a : wf_args a ->
  typed kernel (either wf_args any) (exec_step filename argv envp envc a).
Proof. intros Ha. unfold exec_step. ty. Qed.
Hint Resolve ty_exec_step : ty.
Lemma ty_do_execve cs filename argv envp : typed kernel any (do_execve cs filename argv envp).
Proof. unfold do_execve. ty_step; [ty|]. ty_step. ty_step; [|ty]. do 2 ty_step. apply (typed_loop _ wf_args any); ty; by unfold wf_args. Qed.
Hint Resolve ty_do_execve : ty.

(** ** kernel/system_call.cc *)
Lemma ty_call0 m g : typed kernel any m -> typed kernel any (call0 m g).
Proof. intros H. unfold call0. ty. Qed.
Lemma ty_call1 m g : (forall a, typed kernel any (m a)) -> typed kernel any (call1 m g).
Proof. intros H. unfold call1. ty. Qed.
Lemma ty_call2 m g : (forall a b, typed kernel any (m a b)) -> typed kernel any (call2 m g).
Proof. intros H. unfold call2. ty. Qed.
Lemma ty_call3 m g : (forall a b c, typed kernel any (m a b c)) -> typed kernel any (call3 m g).
Proof. intros H. unfold call3. ty. Qed.
Lemma ty_nosys v g : typed kernel any (nosys v g).
Proof. apply ty_call0. ty. Qed.
Lemma ty_phys_byte a : typed kernel any (phys_byte a).
Proof. unfold phys_byte. ty. Qed.
Hint Resolve ty_phys_byte : ty.
Lemma ty_phys_bytes n a : typed kernel any (phys_bytes n a).
Proof. revert a. induction n as [|n IH]; intros a; cbn [phys_bytes]; ty. Qed.
Hint Resolve ty_phys_bytes : ty.
Lemma ty_sys_setup_at bios : typed kernel any (sys_setup_at bios).
Proof. unfold sys_setup_at. ty. Qed.
Hint Resolve ty_sys_setup_at : ty.
Lemma ty_sys_fork g : typed kernel any (sys_fork g).
Proof. unfold sys_fork. ty. Qed.
Lemma ty_sys_execve g : typed kernel any (sys_execve g).
Proof. unfold sys_execve. ty. Qed.
Hint Resolve ty_sys_fork ty_sys_execve : ty.
Lemma sys_call_table_typed : Forall (fun f => forall g, typed kernel any (f g)) sys_call_table.
Proof.
  unfold sys_call_table.
  repeat (apply Forall_cons_2; [intros g; first [apply ty_call0|apply ty_call1|apply ty_call2|apply ty_call3|apply ty_nosys|ty]; intros;
    first [apply ty_sys_exit | ty]|]).
  apply Forall_nil_2.
Qed.
Lemma ty_reschedule : typed kernel any reschedule.
Proof. apply ty_schedule. Qed.
Hint Resolve ty_reschedule : ty.
Lemma ty_ret_from_sys_call eax g : typed kernel any (ret_from_sys_call eax g).
Proof. unfold ret_from_sys_call. ty. Qed.
Hint Resolve ty_ret_from_sys_call : ty.
Lemma ty_system_call eax g : typed kernel any (system_call eax g).
Proof.
  unfold system_call. ty_step; [ty|]. eapply typed_bind; [apply typed_deref|]. intros f Hf.
  eapply typed_bind; [exact (Forall_look _ _ _ _ sys_call_table_typed Hf g)|]. ty.
Qed.
Lemma ty_timer_interrupt eax g : typed kernel any (timer_interrupt eax g).
Proof. unfold timer_interrupt. ty. Qed.
Lemma ty_parallel_interrupt : typed kernel any parallel_interrupt.
Proof. unfold parallel_interrupt. ty. Qed.
Lemma ty_page_fault error_code address : typed kernel any (page_fault error_code address).
Proof. unfold page_fault. ty. Qed.
Hint Resolve ty_page_fault : ty.

(** ** kernel/traps.cc *)
Lemma ty_seg_byte seg a : typed kernel any (seg_byte seg a).
Proof. unfold seg_byte. ty. Qed.
Hint Resolve ty_seg_byte : ty.
Lemma ty_get_seg_byte seg addr : typed kernel any (get_seg_byte seg addr).
Proof. unfold get_seg_byte. ty. Qed.
Hint Resolve ty_get_seg_byte : ty.
Lemma ty_get_seg_long seg addr : typed kernel any (get_seg_long seg addr).
Proof. unfold get_seg_long. ty. Qed.
Hint Resolve ty_get_seg_long : ty.
Lemma ty_die_task str g nr : typed kernel any (die_task str g nr).
Proof. unfold die_task. ty. Qed.
Hint Resolve ty_die_task : ty.
Lemma ty_do_coprocessor_error g error_code : typed kernel any (do_coprocessor_error g error_code).
Proof. unfold do_coprocessor_error. ty. Qed.
Hint Resolve ty_do_coprocessor_error : ty.
Lemma ty_do_int3 g esp eax : typed kernel any (do_int3 g esp eax).
Proof. unfold do_int3. ty. Qed.
Hint Resolve ty_do_int3 : ty.
Lemma ty_math_emulate g : typed kernel any (math_emulate g).
Proof. unfold math_emulate. ty. Qed.
Hint Resolve ty_math_emulate : ty.
Lemma ty_math_error : typed kernel any math_error.
Proof. unfold math_error. ty. Qed.
Hint Resolve ty_math_error : ty.
Lemma ty_device_not_available em eax g : typed kernel any (device_not_available em eax g).
Proof. unfold device_not_available. ty. Qed.
Hint Resolve ty_device_not_available : ty.
Lemma ty_coprocessor_error eax g : typed kernel any (coprocessor_error eax g).
Proof. unfold coprocessor_error. ty. Qed.
Hint Resolve ty_coprocessor_error : ty.
Lemma ty_irq13 eax g : typed kernel any (irq13 eax g).
Proof. unfold irq13. ty. Qed.
Hint Resolve ty_irq13 : ty.
Lemma ty_exception_entry e g esp code eax address : typed kernel any (exception_entry e g esp code eax address).
Proof.
  destruct e; cbn [exception_entry]; unfold no_error_code, error_code;
  lazymatch goal with
  | |- typed _ _ (do_int3 _ _ _) => apply ty_do_int3
  | |- typed _ _ (page_fault _ _) => apply ty_page_fault
  | _ => apply ty_die_task
  end.
Qed.
End Calls.

(** ** The interrupts of the terminals: keyboard.S and rs_io.s *)
From S2P Require Import TtyQueue Tty TtyIntr TypesTty.

Section Intr.
Context {E : Env} {nb : nat} {TE : TypedEnv E nb}.
Abbreviation kernel := (wt nb).

(** ** kernel/chr_drv/keyboard.S *)
Lemma ty_rouse q : typed kernel any (rouse q).
Proof. unfold rouse. ty. Qed.
Hint Resolve ty_rouse : ty.
Lemma put_bytes_length n v h q : length (q_buf (put_bytes n v h q).1) = length (q_buf q).
Proof.
  revert v h q. induction n as [|n IH]; intros v h q; cbn [put_bytes]; [done|].
  assert (length (q_buf (q <| q_buf ::= <[Z.to_nat h := u8 v]> |>)) = length (q_buf q)) as H by apply length_insert.
  destruct (_ =? _); [exact H|]. destruct (_ =? _); [exact H|]. by rewrite IH.
Qed.
Lemma ty_put_queue eax ebx : typed kernel any (put_queue eax ebx).
Proof.
  unfold put_queue. eapply typed_bind; [apply ty_getq|]. intros x Hx.
  pose proof (put_bytes_length 8 (eax + 2 ^ 32 * ebx) (q_head x) x) as Hl. destruct (put_bytes _ _ _ _) as [q h]. cbn [fst] in Hl.
  assert (wf_queue q) as Hq by (unfold wf_queue in *; congruence). destruct h as [h|]; ty.
Qed.
Hint Resolve ty_put_queue : ty.
Lemma ty_none eax ecx k : typed kernel any (none eax ecx k).
Proof. unfold none. ty. Qed.
Hint Resolve ty_none : ty.
Lemma ty_ctrl eax ecx k : typed kernel any (ctrl eax ecx k).
Proof. unfold ctrl. ty. Qed.
Hint Resolve ty_ctrl : ty.
Lemma ty_alt eax ecx k : typed kernel any (alt eax ecx k).
Proof. unfold alt. ty. Qed.
Hint Resolve ty_alt : ty.
Lemma ty_unctrl eax ecx k : typed kernel any (unctrl eax ecx k).
Proof. unfold unctrl. ty. Qed.
Hint Resolve ty_unctrl : ty.
Lemma ty_unalt eax ecx k : typed kernel any (unalt eax ecx k).
Proof. unfold unalt. ty. Qed.
Hint Resolve ty_unalt : ty.
Lemma ty_lshift eax ecx k : typed kernel any (lshift eax ecx k).
Proof. unfold lshift. ty. Qed.
Hint Resolve ty_lshift : ty.
Lemma ty_unlshift eax ecx k : typed kernel any (unlshift eax ecx k).
Proof. unfold unlshift. ty. Qed.
Hint Resolve ty_unlshift : ty.
Lemma ty_rshift eax ecx k : typed kernel any (rshift eax ecx k).
Proof. unfold rshift. ty. Qed.
Hint Resolve ty_rshift : ty.
Lemma ty_unrshift eax ecx k : typed kernel any (unrshift eax ecx k).
Proof. unfold unrshift. ty. Qed.
Hint Resolve ty_unrshift : ty.
Lemma ty_uncaps eax ecx k : typed kernel any (uncaps eax ecx k).
Proof. unfold uncaps. ty. Qed.
Hint Resolve ty_uncaps : ty.
Lemma ty_kb_wait : typed kernel any kb_wait.
Proof. unfold kb_wait. ty. Qed.
Hint Resolve ty_kb_wait : ty.
Lemma ty_set_leds k : typed kernel any (set_leds k).
Proof. unfold set_leds. ty. Qed.
Hint Resolve ty_set_leds : ty.
Lemma ty_caps eax ecx k : typed kernel any (caps eax ecx k).
Proof. unfold caps. ty. Qed.
Hint Resolve ty_caps : ty.
Lemma ty_scroll eax ecx k : typed kernel any (scroll eax ecx k).
Proof. unfold scroll. ty. Qed.
Hint Resolve ty_scroll : ty.
Lemma ty_num eax ecx k : typed kernel any (num eax ecx k).
Proof. unfold num. ty. Qed.
Hint Resolve ty_num : ty.
Lemma ty_reboot : typed kernel any reboot.
Proof. unfold reboot. ty. Qed.
Hint Resolve ty_reboot : ty.
Lemma ty_cur eax k : typed kernel any (cur eax k).
Proof. unfold cur. ty. Qed.
Hint Resolve ty_cur : ty.
Lemma ty_cursor eax ecx k : typed kernel any (cursor eax ecx k).
Proof. unfold cursor. ty. Qed.
Hint Resolve ty_cursor : ty.
Lemma ty_do_self eax ecx k : typed kernel any (do_self eax ecx k).
Proof. unfold do_self. ty. Qed.
Hint Resolve ty_do_self : ty.
Lemma ty_minus eax ecx k : typed kernel any (minus eax ecx k).
Proof. unfold minus. ty. Qed.
Hint Resolve ty_minus : ty.
Lemma ty_show_task nr p : typed kernel any (show_task nr p).
Proof. unfold show_task. ty. Qed.
Hint Resolve ty_show_task : ty.
Lemma ty_show_stat : typed kernel any show_stat.
Proof. unfold show_stat. ty. Qed.
Hint Resolve ty_show_stat : ty.
Lemma ty_func eax ecx k : typed kernel any (func eax ecx k).
Proof. unfold func. ty. Qed.
Hint Resolve ty_func : ty.
Lemma key_table_typed : Forall (fun f : routine => forall eax ecx k, typed kernel any (f eax ecx k)) key_table.
Proof.
  unfold key_table. cbn [replicate app]. repeat (apply Forall_cons_2; [intros; solve [eauto 2 with ty nocore]|]). apply Forall_nil_2.
Qed.
Lemma ty_scan_code al ecx k : typed kernel any (scan_code al ecx k).
Proof.
  unfold scan_code. ty_step; [ty|]. ty_step; [ty|]. eapply typed_bind; [apply typed_deref|]. intros f Hf.
  eapply typed_bind; [exact (Forall_look _ _ _ _ key_table_typed Hf al ecx k)|]. ty.
Qed.
Hint Resolve ty_scan_code : ty.
Lemma ty_keyboard_interrupt ecx k : typed kernel any (keyboard_interrupt ecx k).
Proof. unfold keyboard_interrupt. ty. Qed.
Hint Resolve ty_keyboard_interrupt : ty.

(** ** rs_io.s *)
Lemma receive_queue c q : wf_queue q -> wf_queue (receive c q).
Proof.
  unfold receive, wf_queue. intros H. assert (length (<[Z.to_nat (q_head q) := u8 c]> (q_buf q)) = 1024%nat) by (by rewrite length_insert).
  by destruct (_ =? _).
Qed.
Hint Resolve receive_queue : ty.
Lemma ty_modem_status port : typed kernel any (modem_status port).
Proof. unfold modem_status. ty. Qed.
Hint Resolve ty_modem_status : ty.
Lemma ty_line_status port : typed kernel any (line_status port).
Proof. unfold line_status. ty. Qed.
Hint Resolve ty_line_status : ty.
Lemma ty_read_char t port : typed kernel any (read_char t port).
Proof. unfold read_char. ty. Qed.
Hint Resolve ty_read_char : ty.
Lemma ty_write_buffer_empty t port : typed kernel any (write_buffer_empty t port).
Proof. unfold write_buffer_empty. ty. Qed.
Hint Resolve ty_write_buffer_empty : ty.
Lemma ty_write_char t port : typed kernel any (write_char t port).
Proof. unfold write_char. ty. Qed.
Hint Resolve ty_write_char : ty.
Lemma ty_rs_int t : typed kernel any (rs_int t).
Proof. unfold rs_int. ty. Qed.
Hint Resolve ty_rs_int : ty.
Lemma ty_rs1_interrupt : typed kernel any rs1_interrupt.
Proof. apply ty_rs_int. Qed.
Lemma ty_rs2_interrupt : typed kernel any rs2_interrupt.
Proof. apply ty_rs_int. Qed.
End Intr.
