(* ===== verification/TypesBoot.v ===== *)
(** * Types: from the start of the kernel through every entry into it

    [buffer_init] changes the number of buffers, so [kmain] is typed in two
    parts.  Then every state the kernel reaches is well-typed. *)

From S2P Require Import Prelude Mktime State Segment Memory Sched Request Hd.
From S2P Require Import Floppy LlRw Buffer CacheFacts Console Tty Exit Fork.
From S2P Require Import SysCall Traps TtyIntr TtyIntrFacts Boot Types TypesKernel TypesSched.
From S2P Require Import TypesBlock TypesTty TypesTask TypesCall.

(** ** The start *)
Section Start.
Context {E : Env} {nb : nat} {TE : TypedEnv E nb}.
Abbreviation kernel := (wt nb).

Lemma ty_sched_init : typed kernel any sched_init.
Proof. unfold sched_init. ty. Qed.
Lemma ty_trap_init : typed kernel any trap_init.
Proof. unfold trap_init. ty. Qed.
Lemma ty_boot_clock c : typed kernel any (boot_clock c).
Proof.
  apply (typed_zoom _ (fun _ => True)); [done| |intros s _; unfold wp; by destruct (time_init c env_fuel s)].
  intros c' s Hs _. ty_record Hs. by ty_record wt_sched.
Qed.
Hint Resolve ty_sched_init ty_trap_init ty_boot_clock : ty.

(** [kmain] before and after the buffers are made *)
Definition kmain_before (b : boot_info) : K unit :=
  on_fs (fun s => s <| ROOT_DEV := orig_root_dev b |>) ;;
  zoom_mm (mem_init (kmain_layout (ext_mem_k b)).2 (kmain_layout (ext_mem_k b)).1) ;;
  trap_init ;; blk_dev_init ;;
  tty_init (CON_COLS (con_word b)) (lines_x b) (lines_y b) (video_mode b) (ega_bx b) ;;
  boot_clock (cmos b) ;; sched_init.
Lemma ty_kmain_before b : typed kernel any (kmain_before b).
Proof. unfold kmain_before. ty. Qed.
Lemma ty_kmain_after : typed kernel any (hd_init ;; floppy_init).
Proof. ty. Qed.
End Start.

Lemma kmain_parts {E : Env} b s :
  kmain b s = (kmain_before b ;; buffer_init (kmain_layout (ext_mem_k b)).2 ;; hd_init ;; floppy_init) s.
Proof.
  unfold kmain, kmain_before. destruct (kmain_layout (ext_mem_k b)) as [e m]. unfold mbind, M_bind. cbn [fst snd].
  repeat (case_match; try done).
Qed.

(** without buffers a pointer to one is NULL, and stays good when there are some *)
Lemma ptr_0 n o : ptr 0 o -> ptr n o.
Proof. destruct o; cbn; [lia|done]. Qed.
Lemma wf_super_0 n x : wf_super 0 x -> wf_super n x.
Proof. intros (?&?&?&?&?&?). split_and!; try done; eapply Forall_impl; eauto using ptr_0. Qed.
Lemma wf_request_0 n x : wf_request 0 x -> wf_request n x.
Proof. intros (?&?). split; eauto using ptr_0. Qed.

Lemma layout_buffers ext : start_buffer + 4096 <= (kmain_layout ext).2.
Proof. unfold kmain_layout. cbn [snd]. repeat case_match; vm_compute; congruence. Qed.

Lemma buffer_init_typed {E : Env} buffer_end s : start_buffer + 4096 <= buffer_end -> wt 0 s ->
  exists s' n, buffer_init buffer_end s = Ret tt s' /\ wt n s'.
Proof.
  intros Hend Hs. destruct (buffer_init_cache buffer_end s Hend) as (bs & Hrun & Hlen & Hbs).
  eexists _, (length bs). split; [exact Hrun|]. destruct Hs as [? ? Hf Hb ? ? ? ? ?]. destruct Hf, Hb. split; cbn; try assumption.
  - split; cbn; try assumption; try done.
    + apply Forall_lookup. intros i x Hx. pose proof (lookup_lt_Some _ _ _ Hx). destruct (Hbs i x Hx) as (Hv & _ & Hp & Hn & Hd).
      injection Hv as _ _ Hp' Hn'. split_and!; [done|by rewrite Hp'|by rewrite Hn'|rewrite Hp|rewrite Hn]; cbn [ptr]; repeat case_decide; lia.
    + by apply (Forall_replicate (ptr (length bs)) NR_HASH None).
    + cbn. lia.
    + eapply Forall_impl; [eassumption|]. apply wf_super_0.
  - split; try assumption. eapply Forall_impl; [eassumption|]. apply wf_request_0.
Qed.

(** ** What the kernel reaches *)

(** one entry: a system call, an exception, an interrupt *)
Inductive enters {E : Env} : kst -> kst -> Prop :=
| enters_call eax g r s s' : system_call eax g s = Ret r s' -> enters s s'
| enters_exception e g esp code eax address s s' : exception_entry e g esp code eax address s = Ret tt s' -> enters s s'
| enters_math em eax g r s s' : device_not_available em eax g s = Ret r s' -> enters s s'
| enters_coprocessor eax g r s s' : coprocessor_error eax g s = Ret r s' -> enters s s'
| enters_irq13 eax g r s s' : irq13 eax g s = Ret r s' -> enters s s'
| enters_timer eax g r s s' : timer_interrupt eax g s = Ret r s' -> enters s s'
| enters_hd s s' : hd_interrupt s = Ret tt s' -> enters s s'
| enters_floppy s s' : floppy_interrupt s = Ret tt s' -> enters s s'
| enters_parallel s s' : parallel_interrupt s = Ret tt s' -> enters s s'
| enters_keyboard ecx k k' s s' : TtyIntr.keyboard_interrupt ecx k s = Ret k' s' -> enters s s'
| enters_rs1 s s' : TtyIntr.rs1_interrupt s = Ret tt s' -> enters s s'
| enters_rs2 s s' : TtyIntr.rs2_interrupt s = Ret tt s' -> enters s s'.

Lemma typed_Ret {S A} (I : S -> Prop) P (m : M S A) s a s' : typed I P m -> I s -> m s = Ret a s' -> I s'.
Proof. intros Hm Hs Heq. specialize (Hm s Hs). unfold wp in Hm. rewrite Heq in Hm. by destruct Hm. Qed.

Lemma enters_typed {E : Env} nb (HE : TypedEnv E nb) s s' : wt nb s -> enters s s' -> wt nb s'.
Proof.
  intros Hs Hst. destruct Hst; (eapply typed_Ret; [|exact Hs|eassumption]).
  - apply ty_system_call.
  - apply ty_exception_entry.
  - apply ty_device_not_available.
  - apply ty_coprocessor_error.
  - apply ty_irq13.
  - apply ty_timer_interrupt.
  - apply ty_hd_interrupt.
  - apply ty_floppy_interrupt.
  - apply ty_parallel_interrupt.
  - apply ty_keyboard_interrupt.
  - apply ty_rs1_interrupt.
  - apply ty_rs2_interrupt.
Qed.

(** C1: The kernel is well-typed: from the start, [kmain], through any sequence
    of system calls, exceptions and interrupts, every table keeps its size,
    every pointer in the tables is NULL or points into the table of its type,
    and every task, buffer, inode, terminal and queue has the arrays of its
    declaration, provided the tasks that run while one sleeps keep to this. *)
Theorem kernel_well_typed {E : Env} (HE : forall nb, TypedEnv E nb) (b : boot_info) (s0 s : kst)
  (Hboot : kmain b boot_kst = Ret tt s0) (Hrun : relations.rtc enters s0 s) : exists nb, wt nb s.
Proof.
  rewrite kmain_parts in Hboot. apply bind_Ret_inv in Hboot as ([] & s1 & H1 & H2).
  apply (typed_Ret (wt 0) any) in H1; [|apply ty_kmain_before|apply boot_typed].
  destruct (buffer_init_typed (kmain_layout (ext_mem_k b)).2 s1 (layout_buffers _) H1) as (s2 & nb & Hinit & Hs2).
  rewrite (bind_Ret _ _ _ _ _ Hinit) in H2. exists nb.
  apply (typed_Ret (wt nb) any) in H2; [|apply ty_kmain_after|exact Hs2].
  clear - HE H2 Hrun. induction Hrun as [s|s s' s'' Hst _ IH]; [done|]. eauto using enters_typed.
Qed.

(** a machine with 2 MB and no second hard disk, and a user's registers *)
Definition small_machine : boot_info := mk_boot 1024 0x301 0x5000 0 25 0 0 (fun _ _ => 0x11).
Definition caller_regs : regs := mk_regs 0 0 0 0 0 0 0 0 0 0 0 0x0f 0 0 0x17.
Lemma quiet_typed n nb : TypedEnv (quiet_env n) nb.
Proof. by split. Qed.

(** the start, [pipe], a tick of the clock *)
Lemma kernel_well_typed_witness : exists s0 r1 s1 r2 s2, @kmain (quiet_env 2) small_machine boot_kst = Ret tt s0 /\
  @system_call (quiet_env 2) __NR_pipe caller_regs s0 = Ret r1 s1 /\ @timer_interrupt (quiet_env 2) 0 caller_regs s1 = Ret r2 s2 /\
  exists nb, wt nb s2.
Proof.
  destruct (returns_Ret ((@kmain (quiet_env 2) small_machine ;; _ ← @system_call (quiet_env 2) __NR_pipe caller_regs;
    @timer_interrupt (quiet_env 2) 0 caller_regs) boot_kst)) as (r2 & s2 & H); [vm_compute; reflexivity|].
  apply bind_Ret_inv in H as ([] & s0 & H0 & H). apply bind_Ret_inv in H as (r1 & s1 & H1 & H2).
  exists s0, r1, s1, r2, s2. split; [exact H0|]. split; [exact H1|]. split; [exact H2|].
  apply (@kernel_well_typed (quiet_env 2) (quiet_typed 2) small_machine s0 s2 H0).
  eapply rtc_l; [eapply enters_call; exact H1|]. eapply rtc_once, enters_timer. exact H2.
Defined.
